(* ===== verification/_CoqProject ===== *)
-Q . S2P
Prelude.v
Platform.v
Io.v
Files.v
At.v
Msg.v
Recov.v
Clients.v
Timer.v
ClientMsg.v
CliLib.v
CliLibSpec.v
Link.v
Mcd.v
Firmware.v
Mcdr.v
Bus.v
Secure.v
Mmgr.v
ModemEvents.v
ClientEvents.v
EventsManager.v
Frame.v
Safety.v
ClientSafety.v
Daemon.v
Startup.v
StateMachine.v
Recovery.v
Requests.v
FuelGauge.v
FuelGaugeSpec.v
ObjectHeap.v
ObjectHeapSpec.v
Memory.v
Rings.v
WsbmMM.v
WsbmMMInv.v
WsbmMMSpec.v
OmxList.v
OmxListSpec.v
FenceMgr.v
FenceMgrSpec.v
ValidateList.v
ValidateListInv.v
ValidateListSpec.v
BufferMgr.v
Pools.v
BufferMgrInv.v
BufferMgrSpec.v
BufferMgrLists.v
BufferMgrRefs.v
BufferMgrFlaws.v
KernelLock.v
KernelLockSpec.v
HostHeader.v
HostHeaderSpec.v
H264Syntax.v
H264Headers.v
MpegHeaders.v
HostHeaderFlaws.v
