(* ===== verification/Prelude.v ===== *)
(** * The modem manager daemon (mmgr) and other components of the platform

    The modem manager is the daemon of the platform that owns the modem: it
    powers it, flashes it, watches it, recovers it when it fails and tells its
    clients (telephony, crash reporting, ...) what happens.  This development
    models the daemon of src/mmgr, from its start to its event loop, and its C
    client library, and proves what makes them correct.  A second part models the tool
    that saves and restores the state of the battery's fuel gauge,
    src/em_common/fg_config, and a third the heap from which the video driver
    hands out the identifiers of its objects, src/psb_video/src/object_heap.c, its
    buffer manager, src/libwsbm, and the lists and queues of the OMX core,
    src/wrs_omxil_core/utils.

    ** The program

    [main] (core/modem_manager.c) initialises the modules from the telephony
    configuration, sets the first state and enters the event loop
    (core/events_manager.c) over [epoll].  Each turn starts the pending shutdown or
    recovery, waits, classifies the descriptor that is ready and calls a handler:
    a client's request (core/client_events.c), an event of the modem control
    driver, of the USB bus or of the modem's terminal (core/modem_events.c), an
    expired timer, the end of the flashing or core dump thread, a message of the
    security channel.  The handlers drive the components: the client list
    (core/client.c), the timers (core/timer_events.c), the recovery escalation
    (core/reset_escalation.c), the modem control driver (core/mdm_mcd.c) and links
    (core/link/), the AT dialogues with the modem (libutils/at.c, core/mux.c,
    core/modem_info.c), the flashing module (core/mdm_flash.c, core/mdm_mup.c,
    libutils/mdm_fw.c), the core dump reader (core/core_dump.c), the bus module
    (core/bus_events.c) and the security channel (core/security.c).  Messages to
    clients are framed by libcnx/msg_format.c and core/data_to_msg.c; the client
    library (libclients/c) connects, registers, sends requests and decodes events
    in a thread of the client.

    The buffer manager gives the video driver buffer objects
    (libwsbm/src/wsbm_manager.c): names for storages that are parts of the memory of a
    pool (wsbm_pool.h, wsbm_mallocpool.c and others, some on the memory manager of
    wsbm_mm.c).  Storages are put on lists to validate before the device uses them, and
    then wait for a fence (wsbm_fencemgr.c), which stands for the work of the device.

    The video encoder writes the headers of a stream itself
    (psb_video/src/pnw_hostheader.c, called by its H.264, MPEG-4 and H.263 encoders): raw
    bits, between tokens for the fields the firmware of the encoder fills in.

    ** How code is modelled

    - An operation is a computation of the monad [M] of this file: a function
      from the component's state and the history of calls made so far to an
      outcome: [Done], a failed [ASSERT] ([Abort]), [exit] ([Exit]) or undefined
      behaviour ([Undef]: a read or write outside a buffer, a null function
      pointer, an uninitialised value where it matters).  Names, order of calls,
      guards and early returns are those of the source; a function's status is
      its result, an out-parameter an extra component of it.
    - The state of a component is a record with the fields of its C structure;
      [mmgr_data] (Mmgr.v) holds them all, and [zoom] lets an operation of a
      component act on its part.  A pointer into the client list is an index.
    - Everything outside the program (system calls, the kernel driver, the
      libraries the daemon loads) is the class [Platform] of Platform.v: one
      constructor of [extcall] per call, and a [reply] that is an arbitrary
      function of the whole history.  Theorems quantify over all platforms;
      where one needs more (memory is available, clocks do not jump, a property
      is kept), that is a named hypothesis and its witness gives a platform:
      [Civil] (Safety.v) is what the loop needs, [Provisioned] (Startup.v) what
      starting needs.
    - A call that may block for ever is undefined when it does, so that a theorem
      that excludes [Undef] excludes it: [recv] on a socket whose peer sends
      nothing ([R_never]; the sockets have no timeout).  A call of [send] or
      [write] is taken to return.  A device path of PATH_MAX bytes or more, which
      [strncpy] leaves without a NUL in Bus.v, is taken to end with its array.
    - Integers are Z with the wrap-around of their C type written out ([int32],
      [uint32]); [long], [size_t] and [time_t] have 32 bits, as on the platform.
      Flags are bit sets with [Z.land] and [Z.lor].  Bytes are Z.
    - A loop of the source is a structural recursion, except those that only end
      when something outside says so: emptying a terminal, waiting for an AT
      answer or for the modem's channels, fetching core dump logs, reading the
      security channel, retrying an interrupted [epoll_wait], and in the client
      library sending, reconnecting and joining the reader.  They take [loop_fuel]
      iterations and are undefined beyond, so that a theorem that excludes [Undef]
      states their end, under the hypothesis that the outside ends them within
      that bound ([Civil] again: the number of non-empty reads, of interruptions
      and of waits that do not make time pass are below it).
    - A walk through a list of libwsbm or of the OMX core takes as many rounds as there
      are nodes in memory, and is undefined beyond; the theorems exclude that.
    - The writer of headers calls itself when bits cross a byte or an element: fuel 3 is
      enough for the eight bits of a call, and the loops of its variable-length codes turn
      as often as 32 bits allow (34, 6 and 33 rounds).  Beyond these it is undefined, which
      the theorems exclude.
    - A thread of the daemon is run where it is created: between its creation and
      its join the daemon reads none of what it writes.  The reader of the client
      library is run, turn by turn, where the caller blocks: the platform says how
      many turns ([X_schedule]).

    ** The files

    - Prelude: machine integers, bit sets, the monad, its [wp] and automation.
    - Platform: shared enumerations (inc/mmgr.h, core/states.h, ...), [extcall],
      [Platform], and [within]: which calls and state changes code is limited to.
    - Io: libcnx/client_cnx.c, libutils/tty.c, property.c, key.c, file.c.  Files:
      the search of files of file.c, libutils/folder.c.
    - At: libutils/at.c, core/mux.c, core/modem_info.c, core/mdm_dlc.c.
    - Msg: libcnx/msg_format.c, core/data_to_msg.c; ClientMsg:
      libclients/c/msg_to_data.c, data_to_msg.c; CliLib: libclients/c/utils.c,
      interface.c, and CliLibSpec its theorems.
    - Recov: core/reset_escalation.c.  Clients: core/client.c.  Timer:
      core/timer_events.c.  Link: core/link/*.c.  Mcd: core/mdm_mcd.c.
      Firmware: libutils/mdm_fw.c, core/mdm_mup.c, core/mdm_flash.c.  Mcdr:
      core/core_dump.c.  Bus: core/bus_events.c.  Secure: core/security.c.
    - Mmgr: the state of the daemon.  ModemEvents: core/modem_events.c.
      ClientEvents: core/client_events.c.  EventsManager: core/events_manager.c.
      Startup: core/modem_manager.c.
    - Frame: the parts of the state a program leaves alone.  Safety, ClientSafety,
      Daemon: the invariant and the absence of undefined behaviour.  StateMachine,
      Recovery, Requests: theorems about the whole daemon.

    - FuelGauge: em_common/fg_config/fg_conf_helper.c, with a boundary of its own
      ([Gauge]: files and devices), and FuelGaugeSpec its theorems, on a system
      that keeps its files ([Disk]).  They only use Prelude.
    - ObjectHeap: psb_video/src/object_heap.c, over an [Allocator] that may fail, and
      ObjectHeapSpec its contract and theorems.  They only use Prelude.
    - Memory: an allocator of nodes that may fail ([Malloc]), for WsbmMM and OmxList.
    - Rings: the lists of libwsbm/src/wsbm_util.h, whose links are inside the objects,
      for the components that have some ([Linked]).
    - WsbmMM: libwsbm/src/wsbm_mm.c, over an explicit memory of nodes and links;
      WsbmMMInv its lists and operations, WsbmMMSpec its contract.
    - FenceMgr: libwsbm/src/wsbm_fencemgr.c, with its callbacks as an interface
      ([FenceDriver]) and those for the kernel's TTM as an instance; FenceMgrSpec.
    - ValidateList: struct _ValidateList of libwsbm/src/wsbm_manager.c; ValidateListInv
      its rings, its hash table and their accounts, ValidateListSpec its contract.
    - BufferMgr: the buffer objects and the lists of buffers of wsbm_manager.c, with the
      pools as an interface ([PoolOps], wsbm_pool.h).  Pools: what a pool promises
      ([PoolLaws]), and wsbm_mallocpool.c, an instance.  BufferMgrInv: the count of the
      references; BufferMgrSpec and BufferMgrLists: the operations on a buffer and on a
      list; BufferMgrRefs: sessions of operations and the theorems; BufferMgrFlaws: what
      goes wrong outside their rules, on concrete runs.
    - KernelLock: the initialisation of wsbm_manager.c and its lock, with threads
      interleaved at every access; KernelLockSpec.
    - OmxList: wrs_omxil_core/utils/src/list.c and queue.c, and OmxListSpec what they
      do.
    - HostHeader: psb_video/src/pnw_hostheader.c, over the bytes of the memory of the
      headers ([HW]: the memory, the address of the header, and [elt_p], the addresses of
      its elements, at most 16).  HostHeaderSpec: a header as a list of elements (a type
      and bits), what it is in memory ([Rep]), and each operation as a list of writes of
      bits and tokens ([writes]).  H264Syntax: the tables of the standard as readers, and
      the headers of H.264 as bits they read back.  H264Headers: the same from the memory
      of the headers, 252 bytes each.  MpegHeaders: MPEG-4 and the messages of H.264.
      HostHeaderFlaws: what goes wrong.

    ** What is proved

    - Recovery: the table and counters of the escalation implement a list of the
      operations still allowed (Recov.recov_refines_escalation), so that recoveries that
      fail, each within the reset delay of the one before, are a configured number of
      cold resets, then of reboots, then out of service, which is final.  [reset_modem] on each level: what the clients
      are sent, what the driver is asked and in which order, and the next state
      (Recovery.v).
    - The whole daemon: a client that sends what it announces cannot make it fail
      an assertion or do anything undefined, whatever the bytes (ClientSafety.v,
      where the two exceptions are proved: a name request without data, and a body
      announced and never sent); any number of turns of the loop have no undefined
      behaviour and end, on a platform within the limits of [Civil] and with the
      core dump enabled, and the events of the modem return when the firmware and
      the links are those they need (Daemon.v); the code built with MMGR_DEBUG
      starts and establishes the invariant, the code built without never starts
      (Startup.v); the transitions of the state
      machine are those of two explicit tables (StateMachine.v); refused requests
      change nothing (Requests.v).
    - Clients: the list stays well formed, a notification reaches exactly the
      open subscribed clients once and well framed, the handshakes count
      exactly the acknowledgements they wait for, and an operation only fails an
      assertion for lack of memory or because it is passed a NULL (Clients.v).
    - Timers: [timer_event] handles exactly the elapsed timers, the timeout of the
      loop is the least remaining time, and waiting for it is enough, as long as
      the clock is within 24.8 days of the armed deadlines (Timer.v).
    - Messages and the client library: what the daemon builds, the library decodes
      back (ClientMsg.v); the subscriptions sent are those asked for, connecting
      ends, for a client that is named and a daemon that sends the bodies it
      announces, and an event of the daemon reaches its callback (CliLibSpec.v).
    - Driver, bus, firmware, security channel, AT dialogues, terminals, files and
      properties: Mcd.v, Bus.v, Firmware.v, Secure.v (the queue of commands, what
      is written of it, and the bounds of its buffers), At.v (the wake-up configuration is the one in
      the modem's answer, however it is cut into reads), Io.v, Files.v.
    - The fuel gauge: which configuration is restored, as a function of the files
      of the system, without reading outside a buffer when the identifiers of the
      battery are terminated; and what is saved at shutdown is what the device is
      given at the next boot, no other file being changed (FuelGaugeSpec.v, which
      also shows what goes wrong with a truncated primary file or another battery's
      secondary file).  One message is modelled, that of fg_conf_helper.c:542, which
      prints these identifiers.
    - The object heap: an operation whose arguments are legal is that of a map from
      identifiers to allocated or suspended objects, and its teardown ends, visits
      each object once and gives back each of its allocations, identified, once
      (ObjectHeapSpec.v).
    - The memory manager: its blocks are aligned, apart and in the range, a request is
      only refused when there is no room beside the space lost, which only an aligned
      request can lose and by how much is stated, and with uniform requests nothing is
      lost (WsbmMMSpec.v, which also shows how space is lost otherwise).
    - Fences: what is deduced from later fences is true of the device, and the fences in
      memory are those referenced (FenceMgrSpec.v).  Lists to validate: a list is a
      sequence of buffers without duplicates, and gives its memory back
      (ValidateListSpec.v).  Buffer objects: on any pool that keeps its contract no
      operation does anything undefined, a storage exists exactly while it is referenced,
      nothing is left at the end, and what is written is read (BufferMgrRefs.v); the pool
      on the memory of the process keeps the contract (Pools.v).
    - The lock of the kernel buffers excludes, and everyone gets through, for any number
      of threads and any scheduler (KernelLockSpec.v).
    - Lists and queues: a queue is a sequence of data whatever memory there is, and
      gives all its memory back; deleting from a list is a filter (OmxListSpec.v).

    - The headers of the encoder: the stream made of the bits in memory and of what the
      firmware puts in the place of the tokens ([fill], arbitrary up to the quantisers)
      is read back by the standard's tables as the parameters asked for, a result written
      from the parameters and the standard and not with the code's functions; the three
      headers of a picture of H.264 are written side by side and decode together
      (H264Headers.v), as does the picture header of MPEG-4, with the time of the picture
      as a decoder computes it, and the messages announce the bytes they have
      (MpegHeaders.v).  HostHeaderFlaws.v shows where this fails: above 256 units of time
      per second, with a time cut to eight bits, in P slices with arithmetic coding, at
      level 1.1.

    ** What is not modelled

    The telephony configuration (a library, an argument of start-up), logging and
    the intents of core/java_intent.c (output only, calls of the platform), the
    thread of libutils/delay_do.c, release of memory and the [dispose] functions
    that only close and free, hence the clean-up at exit and the signal handler
    that runs it; the Java side.  Of concurrency, creation, notification and join
    of the worker threads and the turns of the client library's reader, not the
    interleaving inside an operation, nor mutexes.  That the daemon fails no
    assertion holds for its clients, timers, threads and the security channel
    within the limits of [Civil], and for the modem's events under the readiness of Daemon.v:
    the loop alone does not establish it for every order of the driver's events.

    Of libwsbm, the pools on the kernel's buffers, on slabs of them and on video memory
    (wsbm_ttmpool.c, wsbm_slabpool.c, wsbm_userpool.c): their synchronisation is with the
    kernel's driver and their eviction with other threads; the buffer objects are proved
    against the contract of a pool.  Apart from the lock of the kernel buffers, libwsbm is
    modelled with one thread, and its fences know the device by their callbacks.  Of the
    video driver, everything but its object heap and its writer of headers, of which the
    parts compiled with PSB_MFLD_DUMMY_CODE only are left out, and what the firmware does
    with the headers is an argument of the theorems; of the OMX core, the components, which
    are C++.  The other trees of the repository are
    third-party code, hardware access, or daemons listed in the manifest. *)
From Stdlib Require Export ZArith Lia.
From stdpp Require Export base tactics list numbers strings option decidable.

#[export] Set Default Goal Selector "!".

Declare Scope mmgr_scope.
Delimit Scope mmgr_scope with mmgr.
Open Scope mmgr_scope.
Open Scope Z_scope.

(** * Machine integers

    The daemon is an ILP32 program: [int], [long], [size_t], [time_t] and the
    enumerations are 32 bits wide. *)

(** Value of a 32-bit unsigned object holding [z]. *)
Definition uint32 (z : Z) : Z := z mod 2 ^ 32.

(** Value of a 32-bit two's complement object holding the bits of [z]. *)
Definition int32 (z : Z) : Z := (z + 2 ^ 31) mod 2 ^ 32 - 2 ^ 31.

(** [x & m] used as a C condition. *)
Definition has (x m : Z) : bool := negb (Z.land x m =? 0).

(** [x & ~m]. *)
Definition clear (x m : Z) : Z := Z.land x (Z.lnot m).

Notation "x '.|' m" := (Z.lor x m) (at level 50, left associativity) : mmgr_scope.
Notation "x '.&' m" := (has x m) (at level 40, left associativity) : mmgr_scope.
Notation "x '.~' m" := (clear x m) (at level 40, left associativity) : mmgr_scope.

(** [0x1 << n]. *)
Definition bit (n : Z) : Z := Z.shiftl 1 n.

(** * Effects

    A computation over a component state [S] may also call the platform.  The
    calls made so far are the history [H]; what the platform answers may depend
    on all of it.  Besides returning, a computation may fail an [ASSERT], leave
    through [exit], or perform an access the C language leaves undefined. *)
Inductive outcome (H S A : Type) : Type :=
| Done (a : A) (s : S) (h : H)
| Abort (h : H)
| Exit (h : H)
| Undef (h : H).
Arguments Done {H S A} _ _ _.
Arguments Abort {H S A} _.
Arguments Exit {H S A} _.
Arguments Undef {H S A} _.

Definition M (H S A : Type) : Type := S -> H -> outcome H S A.

#[export] Instance M_ret {H S} : MRet (M H S) := fun A a s h => Done a s h.

#[export] Instance M_bind {H S} : MBind (M H S) := fun A B k m s h =>
  match m s h with
  | Done a s' h' => k a s' h'
  | Abort h' => Abort h'
  | Exit h' => Exit h'
  | Undef h' => Undef h'
  end.

Definition get {H S} : M H S S := fun s h => Done s s h.
Definition gets {H S A} (f : S -> A) : M H S A := fun s h => Done (f s) s h.
Definition modify {H S} (f : S -> S) : M H S unit := fun s h => Done tt (f s) h.
Definition abort {H S A} : M H S A := fun _ h => Abort h.
Definition exit_ {H S A} : M H S A := fun _ h => Exit h.
Definition undefined {H S A} : M H S A := fun _ h => Undef h.

(** [ASSERT(b)]. *)
Definition ASSERT {H S} (b : bool) : M H S unit := if b then mret tt else abort.

(** Runs a computation over a part of a larger state. *)
Definition zoom {H S T A} (pr : T -> S) (up : S -> T -> T) (m : M H S A) : M H T A :=
  fun t h =>
    match m (pr t) h with
    | Done a s' h' => Done a (up s' t) h'
    | Abort h' => Abort h'
    | Exit h' => Exit h'
    | Undef h' => Undef h'
    end.

Definition when {H S} (b : bool) (m : M H S unit) : M H S unit :=
  if b then m else mret tt.

(** [for (i ...) body] over the elements of a list. *)
Fixpoint for_each {H S A} (l : list A) (body : A -> M H S unit) : M H S unit :=
  match l with
  | [] => mret tt
  | x :: l' => body x ;; for_each l' body
  end.

(** * Weakest preconditions

    [wp X m Q s h]: run from [s] and [h], [m] neither fails an assertion nor
    does anything undefined, and when it returns [Q] holds of the result, the
    final state and the final history.  [X] says whether [exit] is allowed. *)
Definition wp {H S A} (X : Prop) (m : M H S A) (Q : A -> S -> H -> Prop) (s : S) (h : H)
  : Prop :=
  match m s h with
  | Done a s' h' => Q a s' h'
  | Exit _ => X
  | Abort _ | Undef _ => False
  end.

Section wp_rules.
  Context {H S : Type} (X : Prop).
  Implicit Types (s : S) (h : H).

Lemma wp_ret {A} (a : A) Q s h : wp X (mret a) Q s h <-> Q a s h.
Proof. done. Qed.

Lemma wp_bind {A B} (m : M H S A) (k : A -> M H S B) Q s h :
  wp X (m ≫= k) Q s h <-> wp X m (fun a s' h' => wp X (k a) Q s' h') s h.
Proof. unfold wp, mbind, M_bind. by destruct (m s h). Qed.

Lemma wp_get Q s h : wp X get Q s h <-> Q s s h.
Proof. done. Qed.

Lemma wp_gets {A} (f : S -> A) Q s h : wp X (gets f) Q s h <-> Q (f s) s h.
Proof. done. Qed.

Lemma wp_modify (f : S -> S) Q s h : wp X (modify f) Q s h <-> Q tt (f s) h.
Proof. done. Qed.

Lemma wp_abort {A} (Q : A -> S -> H -> Prop) s h : wp X abort Q s h <-> False.
Proof. done. Qed.

Lemma wp_exit {A} (Q : A -> S -> H -> Prop) s h : wp X exit_ Q s h <-> X.
Proof. done. Qed.

Lemma wp_undefined {A} (Q : A -> S -> H -> Prop) s h : wp X undefined Q s h <-> False.
Proof. done. Qed.

Lemma wp_assert b Q s h : wp X (ASSERT b) Q s h <-> b = true /\ Q tt s h.
Proof. by destruct b; split; [split| intros [? ?] | | intros [? ?]]. Qed.

Lemma wp_when b (m : M H S unit) Q s h :
  wp X (when b m) Q s h <-> if b then wp X m Q s h else Q tt s h.
Proof. by destruct b. Qed.

Lemma wp_if {A} (b : bool) (m1 m2 : M H S A) Q s h :
  wp X (if b then m1 else m2) Q s h <->
  if b then wp X m1 Q s h else wp X m2 Q s h.
Proof. by destruct b. Qed.

Lemma wp_mono {A} (m : M H S A) (Q Q' : A -> S -> H -> Prop) s h :
  wp X m Q s h -> (forall a s' h', Q a s' h' -> Q' a s' h') -> wp X m Q' s h.
Proof. unfold wp. destruct (m s h); auto. Qed.

Lemma wp_conj {A} (m : M H S A) (Q Q' : A -> S -> H -> Prop) s h :
  wp X m Q s h -> wp X m Q' s h -> wp X m (fun a s' h' => Q a s' h' /\ Q' a s' h') s h.
Proof. unfold wp. destruct (m s h); auto. Qed.

  (** A loop keeps an invariant that each iteration keeps. *)
Lemma wp_for_each {A} (l : list A) (body : A -> M H S unit) (I : S -> H -> Prop) s h :
  I s h ->
  (forall x s' h', x ∈ l -> I s' h' -> wp X (body x) (fun _ => I) s' h') ->
  wp X (for_each l body) (fun _ => I) s h.
Proof.
  revert s h. induction l as [|x l IH]; intros s h HI Hb; [done|].
  cbn. apply wp_bind. eapply wp_mono; [apply Hb; [left|done]|].
  intros [] s' h' HI'. apply IH; [done|]. intros. apply Hb; [by right|done].
Qed.
End wp_rules.

Lemma wp_zoom {H S T A} (X : Prop) (pr : T -> S) (up : S -> T -> T) (m : M H S A) Q t h :
  wp X (zoom pr up m) Q t h <-> wp X m (fun a s' h' => Q a (up s' t) h') (pr t) h.
Proof. unfold wp, zoom. by destruct (m (pr t) h). Qed.

(** A total-correctness statement turns into an equation on the run. *)
Lemma wp_done {H S A} (m : M H S A) Q s h :
  wp False m Q s h -> exists a s' h', m s h = Done a s' h' /\ Q a s' h'.
Proof. unfold wp. destruct (m s h); naive_solver. Qed.

Create HintDb mmgr discriminated.
Create Rewrite HintDb wp.
#[export] Hint Rewrite @wp_bind @wp_ret @wp_get @wp_gets @wp_modify @wp_abort @wp_exit
  @wp_undefined @wp_when @wp_zoom : wp.

(** Symbolic execution: peel the structural rules off a [wp] goal. *)
Ltac wp_simp := autorewrite with wp; cbn beta iota.

(** [wp_use lem]: the first command of the goal has the specification [lem]. *)
Ltac wp_use lem :=
  first [ apply wp_bind | idtac ]; eapply wp_mono; [ eapply lem; eauto with mmgr | cbv beta ].

(** The same on equations [m s h = ...]. *)
Section run_rules.
  Context {H S : Type}.
  Implicit Types (s : S) (h : H).

Lemma run_bind_ret {A B} (a : A) (k : A -> M H S B) s h : (mret a ≫= k) s h = k a s h.
Proof. done. Qed.
Lemma run_ret {A} (a : A) s h : (mret a : M H S A) s h = Done a s h.
Proof. done. Qed.
Lemma run_get {B} (k : S -> M H S B) s h : (get ≫= k) s h = k s s h.
Proof. done. Qed.
Lemma run_gets {A B} (f : S -> A) (k : A -> M H S B) s h : (gets f ≫= k) s h = k (f s) s h.
Proof. done. Qed.
Lemma run_modify {B} f (k : unit -> M H S B) s h : (modify f ≫= k) s h = k tt (f s) h.
Proof. done. Qed.
Lemma run_when {B} b m (k : unit -> M H S B) s h :
  (when b m ≫= k) s h = if b then (m ≫= k) s h else k tt s h.
Proof. by destruct b. Qed.
Lemma run_if {A B} (b : bool) (m n : M H S A) (k : A -> M H S B) s h :
  ((if b then m else n) ≫= k) s h = if b then (m ≫= k) s h else (n ≫= k) s h.
Proof. by destruct b. Qed.
Lemma run_assoc {A B C} (m : M H S A) (k : A -> M H S B) (k' : B -> M H S C) s h :
  ((m ≫= k) ≫= k') s h = (m ≫= (fun a => k a ≫= k')) s h.
Proof. unfold mbind, M_bind. by destruct (m s h). Qed.
Lemma run_assert {B} b (k : unit -> M H S B) s h : b = true ->
  (ASSERT b ≫= k) s h = k tt s h.
Proof. by intros ->. Qed.
Lemma run_bind {A B} (m : M H S A) (k : A -> M H S B) s h a s' h' :
  m s h = Done a s' h' -> (m ≫= k) s h = k a s' h'.
Proof. unfold mbind, M_bind. by intros ->. Qed.
Lemma run_wp {A} (m : M H S A) a s' h' X (Q : A -> S -> H -> Prop) s h :
  m s h = Done a s' h' -> Q a s' h' -> wp X m Q s h.
Proof. unfold wp. by intros ->. Qed.
End run_rules.

Create Rewrite HintDb run.
#[export] Hint Rewrite @run_bind_ret @run_ret @run_get @run_gets @run_modify @run_when
  @run_if @run_assoc : run.

(** Decides comparisons of constructors. *)
Ltac simpl_decide :=
  repeat match goal with
    | |- context [bool_decide (?x = ?y)] =>
        first [ rewrite (bool_decide_eq_true_2 (x = y)) by done
              | rewrite (bool_decide_eq_false_2 (x = y)) by done ]
    end; cbn [negb andb orb].

(** Symbolic execution of an equation. *)
Ltac run_simp := autorewrite with run; cbn beta iota.

(** * Bits *)

Lemma testbit_1 i : Z.testbit 1 i = (i =? 0).
Proof.
  destruct (Z.eqb_spec i 0) as [->|Hi]; [done|].
  destruct (decide (i < 0)); [by rewrite Z.testbit_neg_r|].
  apply Z.bits_above_log2; [lia|]. cbn. lia.
Qed.

Lemma bit_testbit n i : 0 <= n -> Z.testbit (bit n) i = (i =? n).
Proof.
  intros Hn. unfold bit. destruct (decide (i < 0)).
  - rewrite Z.testbit_neg_r by lia. symmetry. apply Z.eqb_neq. lia.
  - rewrite Z.shiftl_spec by lia. rewrite testbit_1.
    destruct (Z.eqb_spec i n); [subst; by rewrite Z.sub_diag|]. apply Z.eqb_neq. lia.
Qed.

Lemma has_bit x n : 0 <= n -> x .& bit n = Z.testbit x n.
Proof.
  intros Hn. unfold has.
  destruct (Z.eqb_spec (Z.land x (bit n)) 0) as [E|E]; cbn.
  - assert (Z.testbit (Z.land x (bit n)) n = false) as HF by (rewrite E; apply Z.bits_0).
    rewrite Z.land_spec, bit_testbit, Z.eqb_refl, andb_true_r in HF by done. done.
  - destruct (Z.testbit x n) eqn:Ht; [done|]. exfalso. apply E.
    apply Z.bits_inj'. intros i Hi. rewrite Z.land_spec, bit_testbit, Z.bits_0 by done.
    destruct (Z.eqb_spec i n); [subst; by rewrite Ht|]. by rewrite andb_false_r.
Qed.

Lemma testbit_set x n i : 0 <= n ->
  Z.testbit (x .| bit n) i = (i =? n) || Z.testbit x i.
Proof. intros. rewrite Z.lor_spec, bit_testbit by done. by rewrite orb_comm. Qed.

Lemma testbit_clear x n i : 0 <= n -> 0 <= i ->
  Z.testbit (x .~ bit n) i = negb (i =? n) && Z.testbit x i.
Proof.
  intros. unfold clear. rewrite Z.land_spec, Z.lnot_spec, bit_testbit by done.
  by rewrite andb_comm.
Qed.

Lemma clear_nonneg x m : 0 <= x -> 0 <= x .~ m.
Proof. intros. unfold clear. apply Z.land_nonneg. by left. Qed.

Lemma set_nonneg x n : 0 <= x -> 0 <= n -> 0 <= x .| bit n.
Proof. intros. apply Z.lor_nonneg. split; [done|]. apply Z.shiftl_nonneg. lia. Qed.

Lemma int32_id z : - 2 ^ 31 <= z < 2 ^ 31 -> int32 z = z.
Proof. intros. unfold int32. rewrite Z.mod_small; lia. Qed.

Lemma uint32_id z : 0 <= z < 2 ^ 32 -> uint32 z = z.
Proof. intros. unfold uint32. apply Z.mod_small. lia. Qed.

Lemma uint32_range z : 0 <= uint32 z < 2 ^ 32.
Proof. unfold uint32. apply Z.mod_pos_bound. lia. Qed.

Lemma int32_range z : - 2 ^ 31 <= int32 z < 2 ^ 31.
Proof. unfold int32. pose proof (Z.mod_pos_bound (z + 2 ^ 31) (2 ^ 32)). lia. Qed.

#[export] Hint Resolve uint32_range int32_range clear_nonneg set_nonneg : mmgr.

(** * Lists *)

(** First index whose element satisfies [f], and that element. *)
Definition find_index {A} (f : A -> bool) : list A -> option nat :=
  fix go l := match l with
              | [] => None
              | x :: l' => if f x then Some 0%nat else S <$> go l'
              end.

Lemma find_index_Some {A} (f : A -> bool) l i :
  find_index f l = Some i ->
  exists x, l !! i = Some x /\ f x = true /\ forall j y, (j < i)%nat -> l !! j = Some y -> f y = false.
Proof.
  revert i. induction l as [|x l IH]; intros i; cbn; [done|].
  destruct (f x) eqn:E.
  - intros [= <-]. exists x. repeat split; [done|]. lia.
  - destruct (find_index f l) as [j|] eqn:F; cbn; [|done]. intros [= <-].
    destruct (IH j eq_refl) as (y & Hy & Hf & Hlt). exists y. repeat split; [done..|].
    intros [|k] z Hk; cbn; [naive_solver|]. apply Hlt. lia.
Qed.

Lemma find_index_None {A} (f : A -> bool) l :
  find_index f l = None <-> Forall (fun x => f x = false) l.
Proof.
  induction l as [|x l IH]; cbn; [split; [constructor|done]|].
  rewrite Forall_cons_iff. destruct (f x) eqn:E; [split; [done|naive_solver]|].
  destruct (find_index f l); cbn; naive_solver.
Qed.

(** Number of elements satisfying [f]. *)
Definition count {A} (f : A -> bool) (l : list A) : nat :=
  length (List.filter f l).

Lemma count_insert {A} (f : A -> bool) (l : list A) i x y :
  l !! i = Some x ->
  (count f (<[i:=y]> l) + Nat.b2n (f x) = count f l + Nat.b2n (f y))%nat.
Proof.
  unfold count. revert i. induction l as [|z l IH]; intros [|i]; cbn; [done..| |].
  - intros [= <-]. destruct (f z), (f y); cbn; lia.
  - intros Hi. specialize (IH _ Hi).
    destruct (f z); cbn; [f_equal|]; exact IH.
Qed.

Lemma count_le {A} (f : A -> bool) (l : list A) : (count f l <= length l)%nat.
Proof. unfold count. induction l as [|x l IH]; cbn; [done|]. destruct (f x); cbn; lia. Qed.

Lemma count_all {A} (f : A -> bool) (l : list A) :
  Forall (fun x => f x = true) l <-> count f l = length l.
Proof.
  unfold count. induction l as [|x l IH]; cbn; [split; [done|constructor]|].
  rewrite Forall_cons_iff. pose proof (count_le f l) as Hle. unfold count in Hle.
  destruct (f x); cbn; [rewrite IH; naive_solver lia|]. split; [naive_solver|]. lia.
Qed.

Lemma alter_insert {A} (f : A -> A) (l : list A) i x :
  l !! i = Some x -> alter f i l = <[i := f x]> l.
Proof.
  revert i. induction l as [|y l IH]; intros [|i]; [done..|by intros [= ->]|].
  intros Hi. by apply (f_equal (cons y)), IH.
Qed.

(** Bytes of a string literal. *)
Definition bytes (s : string) : list Z :=
  List.map (fun a => Z.of_N (Ascii.N_of_ascii a)) (String.list_ascii_of_string s).

(** The C string stored at the start of a buffer: up to the first NUL. *)
Fixpoint cstr (l : list Z) : list Z :=
  match l with
  | [] => []
  | c :: l' => if c =? 0 then [] else c :: cstr l'
  end.

(** [strstr]: the offset of the first occurrence of [needle] in the string [l],
    which holds no NUL. *)
Fixpoint is_prefix (p l : list Z) : bool :=
  match p, l with
  | [], _ => true
  | x :: p', y :: l' => (x =? y) && is_prefix p' l'
  | _ :: _, [] => false
  end.

Fixpoint strstr (needle l : list Z) : option nat :=
  if is_prefix needle l then Some 0%nat
  else match l with
       | [] => None
       | _ :: l' => Datatypes.S <$> strstr needle l'
       end.

(** [strstr(l, needle) != NULL]. *)
Definition contains (needle l : list Z) : bool := bool_decide (is_Some (strstr needle l)).

(** [snprintf] and [strncpy] into a buffer of [size] bytes: what is stored of [l]. *)
Definition in_buffer (size : Z) (l : list Z) : list Z := take (Z.to_nat (size - 1)) l.

Lemma is_prefix_spec p l : is_prefix p l = true <-> p = take (length p) l.
Proof.
  revert l. induction p as [|x p IH]; intros [|y l]; cbn; [done..|].
  rewrite andb_true_iff, Z.eqb_eq, IH. split; [by intros [-> <-]|]. by intros [= -> <-].
Qed.

Lemma strstr_Some needle l k : strstr needle l = Some k ->
  l = take k l ++ needle ++ drop (k + length needle) l.
Proof.
  revert k. induction l as [|c l IH]; intros k; cbn [strstr].
  - destruct needle; cbn; [|done]. by intros [= <-].
  - destruct (is_prefix needle (c :: l)) eqn:E.
    + intros [= <-]. apply is_prefix_spec in E. cbn [Nat.add take app]. rewrite E at 1.
      by rewrite take_drop.
    + destruct (strstr needle l) as [j|] eqn:F; cbn; [|done]. intros [= <-]. cbn. f_equal.
      by apply IH.
Qed.

Lemma strstr_lt needle l k : strstr needle l = Some k -> (k + length needle <= length l)%nat.
Proof.
  revert k. induction l as [|c l IH]; intros k; cbn [strstr].
  - destruct needle; cbn; [|done]. intros [= <-]. cbn. lia.
  - destruct (is_prefix needle (c :: l)) eqn:E.
    + intros [= <-]. apply is_prefix_spec in E. rewrite E, length_take. lia.
    + destruct (strstr needle l) as [j|]; cbn; [|done]. intros [= <-].
      specialize (IH j eq_refl). lia.
Qed.

Lemma is_prefix_app p l e : (length p <= length l)%nat -> is_prefix p (l ++ e) = is_prefix p l.
Proof.
  revert l. induction p as [|x p IH]; intros [|y l] Hl; cbn in *; [done| |lia|];
    [by destruct e|]. rewrite IH by lia. done.
Qed.

Lemma strstr_app needle l e k : strstr needle l = Some k -> strstr needle (l ++ e) = Some k.
Proof.
  revert k. induction l as [|c l IH]; intros k Hk.
  - pose proof (strstr_lt _ _ _ Hk) as Hl. destruct needle; [|cbn in Hl; lia].
    cbn in Hk. injection Hk as <-. by destruct e.
  - pose proof (strstr_lt _ _ _ Hk) as Hl. cbn [app strstr] in *.
    change (c :: l ++ e) with ((c :: l) ++ e). rewrite is_prefix_app by lia.
    destruct (is_prefix needle (c :: l)); [done|].
    destruct (strstr needle l) as [j|] eqn:F; cbn in Hk; [|done].
    by rewrite (IH j eq_refl).
Qed.

Lemma cstr_id l : Forall (fun c => c <> 0) l -> cstr l = l.
Proof.
  induction 1 as [|c l Hc Hl IH]; [done|]. cbn. destruct (Z.eqb_spec c 0); [done|]. by rewrite IH.
Qed.

Lemma cstr_text l : Forall (fun c => c <> 0) (cstr l).
Proof.
  induction l as [|c l IH]; cbn; [constructor|]. destruct (Z.eqb_spec c 0); by constructor.
Qed.

Lemma cstr_length l : (length (cstr l) <= length l)%nat.
Proof. induction l as [|c l IH]; cbn; [done|]. destruct (c =? 0); cbn; lia. Qed.
