(* ===== verification/Platform.v ===== *)
(** The types the headers of mmgr declare (inc/mmgr.h, core/states.h,
    core/client.h, core/events_manager.h, ...) and the boundary between the
    daemon and everything outside it: one constructor of [extcall] per system
    or library call, and the class [Platform] of what may answer them. *)
From S2P Require Import Prelude.

(** * Enumerations *)

(** libutils/errors.h *)
Inductive e_mmgr_errors :=
| E_ERR_SUCCESS | E_ERR_FAILED
| E_ERR_TTY_BAD_FD | E_ERR_TTY_POLLHUP | E_ERR_TTY_TIMEOUT
| E_ERR_DISCONNECTED.
#[export] Instance e_mmgr_errors_eq : EqDecision e_mmgr_errors.
Proof. solve_decision. Defined.

(** [ret == E_ERR_SUCCESS]. *)
Definition succeeded (e : e_mmgr_errors) : bool := bool_decide (e = E_ERR_SUCCESS).

Definition CLOSED_FD : Z := -1.

(** core/states.h *)
Inductive e_mmgr_state :=
| E_MMGR_MDM_OFF | E_MMGR_MDM_RESET | E_MMGR_MDM_START | E_MMGR_MDM_CONF_ONGOING
| E_MMGR_MDM_UP | E_MMGR_MDM_OOS | E_MMGR_WAIT_COLD_ACK | E_MMGR_WAIT_SHT_ACK
| E_MMGR_MDM_CORE_DUMP | E_MMGR_MDM_PREPARE_OFF | E_MMGR_MDM_LINK_USB_DISC
| E_MMGR_NUM.
#[export] Instance e_mmgr_state_eq : EqDecision e_mmgr_state.
Proof. solve_decision. Defined.

(** inc/mmgr.h *)
Inductive e_mmgr_requests :=
| E_MMGR_SET_NAME | E_MMGR_SET_EVENTS
| E_MMGR_RESOURCE_ACQUIRE | E_MMGR_RESOURCE_RELEASE
| E_MMGR_REQUEST_MODEM_RECOVERY | E_MMGR_REQUEST_MODEM_RESTART
| E_MMGR_REQUEST_FORCE_MODEM_SHUTDOWN
| E_MMGR_ACK_MODEM_COLD_RESET | E_MMGR_ACK_MODEM_SHUTDOWN
| E_MMGR_REQUEST_MODEM_FUSE_INFO | E_MMGR_REQUEST_MODEM_GET_HW_ID
| E_MMGR_REQUEST_MODEM_BACKUP_PRODUCTION
| E_MMGR_REQUEST_FAKE_DOWN | E_MMGR_REQUEST_FAKE_UP | E_MMGR_REQUEST_FAKE_AP_RESET
| E_MMGR_REQUEST_FAKE_SELF_RESET | E_MMGR_REQUEST_FAKE_MODEM_SHUTDOWN
| E_MMGR_REQUEST_FAKE_MODEM_OUT_OF_SERVICE | E_MMGR_REQUEST_FAKE_CORE_DUMP
| E_MMGR_REQUEST_FAKE_CORE_DUMP_COMPLETE | E_MMGR_REQUEST_FAKE_PLATFORM_REBOOT
| E_MMGR_REQUEST_FAKE_TFT_EVENT.
#[export] Instance e_mmgr_requests_eq : EqDecision e_mmgr_requests.
Proof. solve_decision. Defined.

(** The requests in the order of the enumeration: its length is
    [E_MMGR_NUM_REQUESTS], and a request's wire identifier is its index. *)
Definition MMGR_REQUESTS : list e_mmgr_requests :=
  [ E_MMGR_SET_NAME; E_MMGR_SET_EVENTS;
    E_MMGR_RESOURCE_ACQUIRE; E_MMGR_RESOURCE_RELEASE;
    E_MMGR_REQUEST_MODEM_RECOVERY; E_MMGR_REQUEST_MODEM_RESTART;
    E_MMGR_REQUEST_FORCE_MODEM_SHUTDOWN;
    E_MMGR_ACK_MODEM_COLD_RESET; E_MMGR_ACK_MODEM_SHUTDOWN;
    E_MMGR_REQUEST_MODEM_FUSE_INFO; E_MMGR_REQUEST_MODEM_GET_HW_ID;
    E_MMGR_REQUEST_MODEM_BACKUP_PRODUCTION;
    E_MMGR_REQUEST_FAKE_DOWN; E_MMGR_REQUEST_FAKE_UP; E_MMGR_REQUEST_FAKE_AP_RESET;
    E_MMGR_REQUEST_FAKE_SELF_RESET; E_MMGR_REQUEST_FAKE_MODEM_SHUTDOWN;
    E_MMGR_REQUEST_FAKE_MODEM_OUT_OF_SERVICE; E_MMGR_REQUEST_FAKE_CORE_DUMP;
    E_MMGR_REQUEST_FAKE_CORE_DUMP_COMPLETE; E_MMGR_REQUEST_FAKE_PLATFORM_REBOOT;
    E_MMGR_REQUEST_FAKE_TFT_EVENT ].

Definition E_MMGR_NUM_REQUESTS : Z := 22.

(** The request a received identifier stands for, if it is below
    [E_MMGR_NUM_REQUESTS]. *)
Definition request_of_id (id : Z) : option e_mmgr_requests :=
  if (0 <=? id) && (id <? E_MMGR_NUM_REQUESTS)
  then MMGR_REQUESTS !! Z.to_nat id else None.

Inductive e_mmgr_events :=
| E_MMGR_EVENT_MODEM_DOWN | E_MMGR_EVENT_MODEM_UP | E_MMGR_EVENT_MODEM_NFLUSH
| E_MMGR_EVENT_MODEM_OUT_OF_SERVICE
| E_MMGR_NOTIFY_MODEM_COLD_RESET | E_MMGR_NOTIFY_MODEM_SHUTDOWN
| E_MMGR_NOTIFY_PLATFORM_REBOOT | E_MMGR_NOTIFY_CORE_DUMP
| E_MMGR_ACK | E_MMGR_NACK
| E_MMGR_NOTIFY_CORE_DUMP_COMPLETE | E_MMGR_NOTIFY_AP_RESET | E_MMGR_NOTIFY_SELF_RESET
| E_MMGR_NOTIFY_TFT_EVENT
| E_MMGR_RESPONSE_MODEM_HW_ID | E_MMGR_RESPONSE_MODEM_FW_RESULT
| E_MMGR_RESPONSE_MODEM_NVM_RESULT | E_MMGR_RESPONSE_FUSE_INFO
| E_MMGR_RESPONSE_MODEM_BACKUP_PRODUCTION
| E_MMGR_NUM_EVENTS.
#[export] Instance e_mmgr_events_eq : EqDecision e_mmgr_events.
Proof. solve_decision. Defined.

(** The integer value of an event. *)
Definition event_id (e : e_mmgr_events) : Z :=
  match e with
  | E_MMGR_EVENT_MODEM_DOWN => 0 | E_MMGR_EVENT_MODEM_UP => 1
  | E_MMGR_EVENT_MODEM_NFLUSH => 2 | E_MMGR_EVENT_MODEM_OUT_OF_SERVICE => 3
  | E_MMGR_NOTIFY_MODEM_COLD_RESET => 4 | E_MMGR_NOTIFY_MODEM_SHUTDOWN => 5
  | E_MMGR_NOTIFY_PLATFORM_REBOOT => 6 | E_MMGR_NOTIFY_CORE_DUMP => 7
  | E_MMGR_ACK => 8 | E_MMGR_NACK => 9
  | E_MMGR_NOTIFY_CORE_DUMP_COMPLETE => 10 | E_MMGR_NOTIFY_AP_RESET => 11
  | E_MMGR_NOTIFY_SELF_RESET => 12 | E_MMGR_NOTIFY_TFT_EVENT => 13
  | E_MMGR_RESPONSE_MODEM_HW_ID => 14 | E_MMGR_RESPONSE_MODEM_FW_RESULT => 15
  | E_MMGR_RESPONSE_MODEM_NVM_RESULT => 16 | E_MMGR_RESPONSE_FUSE_INFO => 17
  | E_MMGR_RESPONSE_MODEM_BACKUP_PRODUCTION => 18
  | E_MMGR_NUM_EVENTS => 19
  end.

Inductive e_core_dump_state :=
| E_CD_SUCCEED | E_CD_TIMEOUT | E_CD_LINK_ERROR | E_CD_PROTOCOL_ERROR
| E_CD_SELF_RESET | E_CD_OTHER.
#[export] Instance e_core_dump_state_eq : EqDecision e_core_dump_state.
Proof. solve_decision. Defined.

Definition cd_state_id (s : e_core_dump_state) : Z :=
  match s with
  | E_CD_SUCCEED => 0 | E_CD_TIMEOUT => 1 | E_CD_LINK_ERROR => 2
  | E_CD_PROTOCOL_ERROR => 3 | E_CD_SELF_RESET => 4 | E_CD_OTHER => 5
  end.

Inductive e_event_type := E_EVENT_ERROR | E_EVENT_STATS | E_EVENT_INFO.

Definition event_type_id (t : e_event_type) : Z :=
  match t with E_EVENT_ERROR => 0 | E_EVENT_STATS => 1 | E_EVENT_INFO => 2 end.

Inductive e_modem_fw_error :=
| E_MODEM_FW_SUCCEED | E_MODEM_FW_OUTDATED | E_MODEM_FW_READY_TIMEOUT
| E_MODEM_FW_SECURITY_CORRUPTED | E_MODEM_FW_SW_CORRUPTED | E_MODEM_FW_BAD_FAMILY
| E_MODEM_FW_ERROR_UNSPECIFIED | E_MODEM_FW_NUM.
#[export] Instance e_modem_fw_error_eq : EqDecision e_modem_fw_error.
Proof. solve_decision. Defined.

Definition fw_error_id (e : e_modem_fw_error) : Z :=
  match e with
  | E_MODEM_FW_SUCCEED => 0 | E_MODEM_FW_OUTDATED => 1 | E_MODEM_FW_READY_TIMEOUT => 2
  | E_MODEM_FW_SECURITY_CORRUPTED => 3 | E_MODEM_FW_SW_CORRUPTED => 4
  | E_MODEM_FW_BAD_FAMILY => 5 | E_MODEM_FW_ERROR_UNSPECIFIED => 6 | E_MODEM_FW_NUM => 7
  end.

Inductive e_modem_nvm_error :=
| E_MODEM_NVM_SUCCEED | E_MODEM_NVM_NO_NVM_PATCH | E_MODEM_NVM_ERROR_UNSPECIFIED
| E_MODEM_NVM_FAIL | E_MODEM_NVM_NUM.
#[export] Instance e_modem_nvm_error_eq : EqDecision e_modem_nvm_error.
Proof. solve_decision. Defined.

Definition nvm_error_id (e : e_modem_nvm_error) : Z :=
  match e with
  | E_MODEM_NVM_SUCCEED => 0 | E_MODEM_NVM_NO_NVM_PATCH => 1
  | E_MODEM_NVM_ERROR_UNSPECIFIED => 2 | E_MODEM_NVM_FAIL => 3 | E_MODEM_NVM_NUM => 4
  end.

(** inc/modem_update.h *)
Inductive e_mup_err :=
| E_MUP_SUCCEED | E_MUP_BAD_PARAMETER | E_MUP_FAILED | E_MUP_FW_OUTDATED
| E_MUP_FW_CORRUPTED | E_MUP_FW_RESTRICTED.
#[export] Instance e_mup_err_eq : EqDecision e_mup_err.
Proof. solve_decision. Defined.

Definition mup_err_id (e : e_mup_err) : Z :=
  match e with
  | E_MUP_SUCCEED => 0 | E_MUP_BAD_PARAMETER => 1 | E_MUP_FAILED => 2
  | E_MUP_FW_OUTDATED => 3 | E_MUP_FW_CORRUPTED => 4 | E_MUP_FW_RESTRICTED => 5
  end.

(** The link types of the telephony configuration the code tells apart; any
    other value reaches the [default] branches. *)
Inductive e_link := E_LINK_USB | E_LINK_HSI | E_LINK_UART | E_LINK_SPI | E_LINK_OTHER.
#[export] Instance e_link_eq : EqDecision e_link.
Proof. solve_decision. Defined.

(** core/modem_info.h *)
Inductive e_mdm_wakeup_cfg :=
| E_MDM_WAKEUP_UNKNOWN | E_MDM_WAKEUP_INBAND | E_MDM_WAKEUP_OUTBAND.

(** core/java_intent.h *)
Inductive e_intent_msg :=
| E_MSG_INTENT_CORE_DUMP_WARNING | E_MSG_INTENT_CORE_DUMP_COMPLETE
| E_MSG_INTENT_MODEM_OUT_OF_SERVICE | E_MSG_INTENT_PLATFORM_REBOOT | E_MSG_INTENT_REBOOT
| E_MSG_INTENT_MODEM_COLD_RESET | E_MSG_INTENT_MODEM_UNSOLICITED_RESET
| E_MSG_INTENT_MODEM_NOT_RESPONSIVE | E_MSG_INTENT_MODEM_FW_BAD_FAMILY
| E_MSG_INTENT_MODEM_FW_OUTDATED | E_MSG_INTENT_MODEM_FW_SECURITY_CORRUPTED
| E_MSG_INTENT_MODEM_FW_RESTRICTED | E_MSG_INTENT_MODEM_FW_UPDATE_FAILURE.

Inductive e_intent_action := E_ACTION_INTENT_REBOOT.

(** The states libmcdr reports. *)
Inductive mcdr_status :=
| MCDR_ARCHIVE_IN_PROGRESS | MCDR_SUCCEED | MCDR_CLEANING_UP | MCDR_FS_ERROR
| MCDR_INIT_ERROR | MCDR_IO_ERROR | MCDR_START_PROT_ERR | MCDR_PROT_ERROR | MCDR_OTHER.
#[export] Instance mcdr_status_eq : EqDecision mcdr_status.
Proof. solve_decision. Defined.

(** core/bus_events.c *)
Inductive e_bus_ev := EV_NONE | EV_ADDED | EV_DELETED.

Inductive errno := ENOENT | EEXIST | EAGAIN | EACCES | EBADF | EINVAL | EBUSY | EOTHER.
#[export] Instance errno_eq : EqDecision errno.
Proof. solve_decision. Defined.

Record timeval := { tv_sec : Z; tv_usec : Z }.
Record timespec := { ts_sec : Z; ts_nsec : Z }.

Inductive clockid := CLOCK_BOOTTIME | CLOCK_MONOTONIC | CLOCK_REALTIME.

(** [struct tm]: the fields printed in a time stamp. *)
Record tm := { tm_year : Z; tm_mon : Z; tm_mday : Z; tm_hour : Z; tm_min : Z; tm_sec : Z }.

(** The events [epoll_wait] reports on the one descriptor of a terminal. *)
Record tty_events := { ep_hup : bool; ep_in : bool }.

(** [struct gsm_config] of the multiplexer driver. *)
Record gsm_config := {
  adaption : Z; encapsulation : Z; initiator : Z; gsm_t1 : Z; gsm_t2 : Z; gsm_t3 : Z; gsm_n2 : Z;
  mru : Z; mtu : Z; gsm_k : Z; gsm_i : Z; clocal : Z; burst : Z }.

Inductive modem_type := MODEM_UNSUP | MODEM_2230 | MODEM_6360 | MODEM_7160 | MODEM_7260.

(** Requests of the modem control driver. *)
Inductive mdm_ctrl :=
| MDM_CTRL_POWER_OFF | MDM_CTRL_POWER_ON | MDM_CTRL_COLD_RESET
| MDM_CTRL_GET_STATE | MDM_CTRL_GET_HANGUP_REASONS | MDM_CTRL_CLEAR_HANGUP_REASONS
| MDM_CTRL_SET_POLLED_STATES (filter : Z) | MDM_CTRL_SET_CFG (board : Z) (type : modem_type).

(** Threads the daemon creates. *)
Inductive thread :=
| T_flash                        (* mdm_flash_push *)
| T_mcdr                         (* mcdr_read *)
| T_delay_mdm_up (sec : Z)       (* delay_do running mdm_mcd_up *)
| T_delay_link_reset (sec : Z).  (* delay_do running ctrl_on_mdm_reset_op *)

(** What the callback of a client of the library is given with an event. *)
Inductive cli_data :=
| D_null
| D_fuse_info (fuse : list Z)
| D_hw_id (hw : list Z)
| D_ap_reset (nm : list Z) (causes : list (list Z))
| D_core_dump (state : Z) (path : list Z) (reason : option (list Z))
| D_fw_result (r : Z)
| D_nvm_result (r sub_error_code : Z)
| D_tft_event (type : Z) (nm : list Z) (log : Z) (values : list (list Z)).

(** * The boundary

    The calls after [X_secure_callback] are those of the client library: the
    callback [func] of the client, given the context and the event; the system
    calls of its connection; [X_schedule], the number of turns the reader thread
    takes at a point where it may run, and [X_cond_timedwait], this number
    while the caller waits for the reader and whether the wait timed out.  The
    next ones are those of the start-up of the daemon. *)

Inductive extcall :=
| X_gettimeofday | X_clock_gettime (c : clockid)
| X_calloc (size : Z)
| X_send (fd : Z) (data : list Z) | X_recv (fd len : Z)
| X_accept (fd : Z) | X_shutdown (fd : Z) | X_close (fd : Z)
| X_epoll_ctl_add (epfd fd : Z) | X_epoll_wait (epfd maxev timeout : Z)
| X_open (path : list Z) | X_fcntl_nonblock (fd : Z) | X_tcsetattr (fd : Z) | X_tcflush (fd : Z)
| X_read (fd len : Z) | X_write (fd : Z) (data : list Z) | X_sleep (sec : Z)
| X_ioctl (fd : Z) (req : mdm_ctrl)
| X_property_get (key : list Z) (dflt : list Z) | X_property_set (key value : list Z)
| X_broadcast_msg (m : e_intent_msg) | X_broadcast_action (a : e_intent_action)
| X_sync
| X_stat_isreg (path : list Z) | X_unlink (path : list Z)
| X_usleep (usec : Z) | X_epoll_wait_tty (epfd timeout : Z)
| X_tiocsetd (fd ldisc : Z) | X_tiocgetd (fd : Z)
| X_gsm_getconf (fd : Z) | X_gsm_setconf (fd : Z) (cfg : gsm_config)
| X_time | X_localtime (t : Z) | X_openat (dir_fd : Z) (path : list Z) | X_fsync (fd : Z)
| X_spi_ioctl (fd : Z) (high : bool)
| X_wake_lock (acquire : bool)
| X_pthread_create (t : thread) | X_pthread_join (t : thread)
| X_pipe | X_dlopen (lib : list Z) | X_dlerror
| X_opendir (path : list Z) | X_stat_isdir (path : list Z) | X_rmdir (path : list Z)
| X_regcomp (regexp : list Z) | X_regexec (regexp name : list Z)
| X_mkdir (path : list Z) | X_getpwnam (name : list Z) | X_getgrnam (name : list Z)
| X_chown (path : list Z) (uid gid : Z) | X_chmod (path : list Z)
| X_fstat (fd : Z) | X_sendfile (out_fd in_fd size : Z)
| X_mup_initialize | X_mup_check_fw_version (fw version : list Z)
| X_mup_open_device (eb fls fw : list Z) | X_mup_config_secur_channel (rnd : option (list Z))
| X_mup_update_fw (eb fls fw : list Z) | X_mup_update_nvm (port tlv : list Z)
| X_mup_dispose | X_mup_gen_fls (input output dir : list Z)
| X_mcdr_read | X_mcdr_get_state | X_mcdr_cleanup | X_mcdr_get_reason
| X_usb_host_init | X_usb_host_load | X_usb_host_get_fd
| X_usb_host_read_event | X_usb_device_open (path : list Z)
| X_control_socket (name : list Z) | X_listen (fd : Z) | X_epoll_create
| X_secure_callback (type : Z) (data : option (list Z))
| X_cli_callback (func ctx id : Z) (data : option cli_data) | X_gettid
| X_socket_local_client (name : list Z) | X_select (fd_max fd_pipe fd_socket : Z)
| X_reader_create | X_schedule | X_cond_timedwait (abs_sec : Z)
| X_umask (mask : Z) | X_sigaction (sig : Z) | X_atexit
| X_uninitialised | X_uninitialised_nvm.

(** What [recv] on a blocking socket gives: the bytes there are, none if the other end is
    closed; an error; or nothing, ever: the other end neither sends nor closes. *)
Inductive received := R_data (d : list Z) | R_error | R_never.

(** What each call gives back. *)
Definition ans (c : extcall) : Type :=
  match c with
  | X_gettimeofday => timeval
  | X_clock_gettime _ => timespec
  | X_calloc _ => bool
  | X_recv _ _ => received
  | X_epoll_wait _ _ _ => errno + list Z
  | X_open _ => Z * errno
  | X_read _ _ => errno + list Z
  | X_epoll_wait_tty _ _ => Z * tty_events
  | X_tiocgetd _ => Z * Z
  | X_gsm_getconf _ => Z * gsm_config
  | X_localtime _ => option tm
  | X_secure_callback _ _ => Z * option (list Z)
  | X_cli_callback _ _ _ _ | X_gettid | X_socket_local_client _ | X_reader_create => Z
  | X_umask _ | X_sigaction _ | X_atexit => Z
  | X_select _ _ _ => option (bool * bool)
  | X_schedule => nat
  | X_cond_timedwait _ => nat * bool
  | X_ioctl _ _ => Z * Z
  | X_property_get _ _ => list Z
  | X_stat_isreg _ | X_stat_isdir _ | X_regcomp _ | X_regexec _ _ => bool
  | X_pipe => option (Z * Z)
  | X_dlopen _ | X_dlerror => bool
  | X_opendir _ => errno + list (list Z * bool)
  | X_unlink _ | X_mkdir _ => Z * errno
  | X_getpwnam _ | X_getgrnam _ => option Z
  | X_fstat _ => option Z
  | X_mup_initialize => e_mup_err * bool
  | X_mup_check_fw_version _ _ | X_mup_open_device _ _ _
  | X_mup_config_secur_channel _ | X_mup_update_fw _ _ _ | X_mup_update_nvm _ _
  | X_mup_dispose | X_mup_gen_fls _ _ _ => e_mup_err
  | X_mcdr_read => list Z
  | X_mcdr_get_state => mcdr_status
  | X_mcdr_get_reason => list Z
  | X_usb_host_init => bool
  | X_usb_host_load | X_usb_host_read_event => list (list Z * e_bus_ev)
  | X_usb_device_open _ => option (Z * Z)
  | X_uninitialised => timeval
  | X_uninitialised_nvm => e_modem_nvm_error * Z
  | X_rmdir _ | X_chown _ _ _ | X_chmod _ | X_sendfile _ _ _ | X_usb_host_get_fd
  | X_control_socket _ | X_listen _ | X_epoll_create
  | X_tiocsetd _ _ | X_gsm_setconf _ _ | X_time | X_openat _ _ | X_fsync _
  | X_send _ _ | X_accept _ | X_shutdown _ | X_close _ | X_epoll_ctl_add _ _
  | X_fcntl_nonblock _ | X_write _ _ | X_property_set _ _ | X_spi_ioctl _ _ => Z
  | X_tcsetattr _ | X_tcflush _ | X_sleep _ | X_usleep _ | X_broadcast_msg _ | X_broadcast_action _
  | X_sync | X_wake_lock _ | X_pthread_create _ | X_pthread_join _ | X_mcdr_cleanup => unit
  end.

(** The calls made so far, latest first. *)
Abbreviation history := (list extcall).

(** A platform: its answers, each a function of the whole history, and the
    values of the driver's bit flags, which only the kernel's header gives, the
    conversions of libresolv between bytes and base 64 (given the size of the
    destination; [None] when they fail), and the
    sizes of four buffers that the headers of other libraries declare.
    [loop_fuel] bounds the iterations of the loops that only end when the
    platform says so: those that read a terminal or wait for it, and the retries
    of [epoll_wait]. *)
Class Platform := {
  reply : history -> forall c, ans c;
  md5_hex : list Z -> list Z;
  b64_pton : list Z -> Z -> option (list Z);
  b64_ntop : list Z -> Z -> option (list Z);
  MDM_CTRL_STATE_OFF : Z;
  MDM_CTRL_STATE_COLD_BOOT : Z;
  MDM_CTRL_STATE_WARM_BOOT : Z;
  MDM_CTRL_STATE_COREDUMP : Z;
  MDM_CTRL_STATE_IPC_READY : Z;
  MDM_CTRL_STATE_FW_DOWNLOAD_READY : Z;
  MDM_CTRL_STATE_UNKNOWN : Z;
  MDM_CTRL_HU_RESET : Z;
  BOARD_AOB : Z;
  MDM_VERSION_SIZE : nat;
  MY_PATH_MAX : nat;
  TLV_FILENAME_SIZE : nat;
  FOLDER_SIZE : nat;
  loop_fuel : nat
}.

(** Computations of the daemon over a component state [S]. *)
Abbreviation IO S := (M history S).

Definition call `{Platform} {S} (c : extcall) : IO S (ans c) :=
  fun s h => Done (reply h c) s (c :: h).

Lemma wp_call `{Platform} {S} (X : Prop) c Q (s : S) h :
  wp X (call c) Q s h <-> Q (reply h c) s (c :: h).
Proof. done. Qed.
#[export] Hint Rewrite @wp_call : wp.

Lemma run_call `{Platform} {S B} c (k : ans c -> IO S B) (s : S) h :
  (call c ≫= k) s h = k (reply h c) s (c :: h).
Proof. done. Qed.
#[export] Hint Rewrite @run_call : run.

(** As [run_simp] and [wp_simp], through calls whose answer type has been
    computed. *)
Ltac run_calls :=
  run_simp;
  repeat (match goal with
          | |- context [@mbind ?m ?i ?A ?B ?k (call ?c) ?s ?h] =>
              change (@mbind m i A B k (call c) s h) with (k (reply h c) s (c :: h))
          end; run_simp).

(** Performs the call a [wp] goal starts with. *)
Ltac wp_call :=
  apply wp_bind;
  lazymatch goal with
  | |- wp ?X (call ?c) ?Q ?s ?h =>
      change (wp X (call c) Q s h) with (Q (reply h c) s (c :: h)); cbv beta
  end.

Ltac wp_calls :=
  wp_simp;
  repeat (match goal with
          | |- context [wp ?X (call ?c) ?Q ?s ?h] =>
              change (wp X (call c) Q s h) with (Q (reply h c) s (c :: h))
          end; wp_simp).

(** * Effects

    [within R P m]: however [m] ends, it only makes calls that [P] allows, and
    when it returns the states before and after are related by [R].  Unlike
    [wp], it says nothing of whether [m] returns; it is proved by following the
    structure of the code. *)
Definition extends (P : extcall -> bool) (h h' : history) : Prop :=
  exists k, h' = k ++ h /\ Forall (fun c => P c = true) k.

Definition within {S A} (R : S -> S -> Prop) (P : extcall -> bool) (m : IO S A) : Prop :=
  forall s h,
    match m s h with
    | Done _ s' h' => R s s' /\ extends P h h'
    | Abort h' | Exit h' | Undef h' => extends P h h'
    end.

(** States that agree on [f]. *)
Definition same {S T} (f : S -> T) (s s' : S) : Prop := f s' = f s.

#[export] Instance same_preorder {S T} (f : S -> T) : PreOrder (same f).
Proof. split; unfold same; [done|]. intros x y z. congruence. Qed.

(** Any states. *)
Definition anyS {S} (_ _ : S) : Prop := True.

#[export] Instance anyS_preorder {S} : PreOrder (@anyS S).
Proof. done. Qed.

Lemma extends_refl P h : extends P h h.
Proof. by exists []. Qed.

Lemma extends_trans P h1 h2 h3 : extends P h1 h2 -> extends P h2 h3 -> extends P h1 h3.
Proof.
  intros (k & -> & Hk) (k' & -> & Hk'). exists (k' ++ k). rewrite app_assoc.
  split; [done|]. by apply Forall_app.
Qed.

Lemma extends_one (P : extcall -> bool) c h : P c = true -> extends P h (c :: h).
Proof. intros. exists [c]. split; [done|]. by repeat constructor. Qed.

Section within.
  Context {S : Type} (R : S -> S -> Prop) `{HR : !PreOrder R} (P : extcall -> bool).

Lemma within_ret {A} (a : A) : within R P (mret a).
Proof. intros s h. split; [reflexivity|apply extends_refl]. Qed.

Lemma within_bind {A B} (m : IO S A) (k : A -> IO S B) :
  within R P m -> (forall a, within R P (k a)) -> within R P (m ≫= k).
Proof.
  intros Hm Hk s h. specialize (Hm s h). unfold mbind, M_bind.
  destruct (m s h) as [a s' h'| | |]; try done. destruct Hm as [HR1 He].
  specialize (Hk a s' h'). destruct (k a s' h') as [b s'' h''| | |].
  - destruct Hk as [HR2 He2]. split; [by etrans|by eapply extends_trans].
  - by eapply extends_trans.
  - by eapply extends_trans.
  - by eapply extends_trans.
Qed.

Lemma within_get : within R P get.
Proof. intros s h. split; [reflexivity|apply extends_refl]. Qed.

Lemma within_gets {A} (f : S -> A) : within R P (gets f).
Proof. intros s h. split; [reflexivity|apply extends_refl]. Qed.

Lemma within_modify (f : S -> S) : (forall s, R s (f s)) -> within R P (modify f).
Proof. intros Hf s h. split; [apply Hf|apply extends_refl]. Qed.

Lemma within_call `{Platform} c : P c = true -> within R P (call c).
Proof. intros Hc s h. split; [reflexivity|by apply extends_one]. Qed.

Lemma within_abort {A} : within R P (abort : IO S A).
Proof. intros s h. apply extends_refl. Qed.

Lemma within_exit {A} : within R P (exit_ : IO S A).
Proof. intros s h. apply extends_refl. Qed.

Lemma within_undefined {A} : within R P (undefined : IO S A).
Proof. intros s h. apply extends_refl. Qed.

Lemma within_assert b : within R P (ASSERT b).
Proof. destruct b; [apply within_ret|apply within_abort]. Qed.

Lemma within_when b m : within R P m -> within R P (when b m).
Proof. intros. by destruct b; [|apply within_ret]. Qed.

Lemma within_for_each {A} (l : list A) body :
  (forall x, within R P (body x)) -> within R P (for_each l body).
Proof.
  intros Hb. induction l as [|x l IH]; [apply within_ret|]. by apply within_bind.
Qed.

Lemma within_zoom {T A} (RT : T -> T -> Prop) (pr : T -> S) (up : S -> T -> T) (m : IO S A) :
  (forall t s', R (pr t) s' -> RT t (up s' t)) -> within R P m -> within RT P (zoom pr up m).
Proof.
  intros Hup Hm t h. specialize (Hm (pr t) h). unfold zoom.
  destruct (m (pr t) h); try done. destruct Hm. split; [by apply Hup|done].
Qed.
End within.

Lemma within_weaken {S A} (R : S -> S -> Prop) (P Q : extcall -> bool) (m : IO S A) :
  (forall c, P c = true -> Q c = true) -> within R P m -> within R Q m.
Proof.
  intros HP Hm s h. specialize (Hm s h).
  assert (He : forall h', extends P h h' -> extends Q h h').
  { intros h' (k & -> & Hk). exists k. split; [done|]. revert Hk. apply Forall_impl. auto. }
  destruct (m s h); naive_solver.
Qed.

(** A program that returns also does so within its bounds. *)
Lemma wp_within {S A} X (m : IO S A) R P Q s h :
  within R P m -> wp X m Q s h ->
  wp X m (fun a s' h' => Q a s' h' /\ R s s' /\ extends P h h') s h.
Proof. intros Hw. specialize (Hw s h). unfold wp. by destruct (m s h). Qed.

Create HintDb within discriminated.
#[export] Hint Resolve within_ret within_get within_gets within_abort within_exit
  within_undefined within_assert : within.

(** Follows the structure of the code: [within_auto n] unfolds definitions. *)
Ltac within_unfold m :=
  lazymatch m with
  | ?f _ => within_unfold f
  | ?c => unfold c
  end.

Ltac within_step :=
  lazymatch goal with
  | |- forall _, _ => intros ?
  | |- within _ _ (_ ≫= _) => apply within_bind
  | |- within _ _ (when _ _) => apply within_when
  | |- within _ _ (for_each _ _) => apply within_for_each
  | |- within _ _ (match ?x with _ => _ end) => destruct x
  | |- within ?R ?P (@call ?H ?S ?c) => exact (@within_call S R _ P H c eq_refl)
  | |- within _ _ (modify _) => apply within_modify; intros ?; try reflexivity; try done
  | |- PreOrder _ => typeclasses eauto
  | |- within _ _ (let '_ := ?x in _) => destruct x
  end.

Ltac within_auto :=
  repeat first
    [ solve [auto with within typeclass_instances]
    | within_step
    | lazymatch goal with |- within _ _ ?m => progress within_unfold m end ].

(** Memory never runs out. *)
Definition alloc_ok `{Platform} : Prop := forall h n, reply h (X_calloc n) = true.

(** The messages sent on sockets, oldest first. *)
Definition sent (h : history) : list (Z * list Z) :=
  omap (fun c => match c with X_send fd d => Some (fd, d) | _ => None end) (rev h).

Lemma sent_cons c h :
  sent (c :: h) = sent h ++ match c with X_send fd d => [(fd, d)] | _ => [] end.
Proof. unfold sent. cbn. rewrite omap_app. by destruct c. Qed.

Lemma sent_cons_other c h :
  match c with X_send _ _ => False | _ => True end -> sent (c :: h) = sent h.
Proof. intros Hc. rewrite sent_cons. destruct c; try done; apply app_nil_r. Qed.

Definition not_send (c : extcall) : bool := match c with X_send _ _ => false | _ => true end.

Lemma sent_extends h h' : extends not_send h h' -> sent h' = sent h.
Proof.
  intros (k & -> & Hk). induction Hk as [|c k Hc _ IH]; [done|].
  change ((c :: k) ++ h) with (c :: (k ++ h)). rewrite sent_cons_other; [done|]. by destruct c.
Qed.

(** The requests made to the modem control driver, oldest first. *)
Definition driver_calls (h : history) : list mdm_ctrl :=
  omap (fun c => match c with X_ioctl _ r => Some r | _ => None end) (rev h).

Definition not_ioctl (c : extcall) : bool := match c with X_ioctl _ _ => false | _ => true end.

Lemma driver_cons c h :
  driver_calls (c :: h) = driver_calls h ++ match c with X_ioctl _ r => [r] | _ => [] end.
Proof. unfold driver_calls. cbn. rewrite omap_app. by destruct c. Qed.

Lemma driver_cons_other c h : not_ioctl c = true -> driver_calls (c :: h) = driver_calls h.
Proof. intros Hc. rewrite driver_cons. destruct c; try done; apply app_nil_r. Qed.

Lemma driver_extends h h' : extends not_ioctl h h' -> driver_calls h' = driver_calls h.
Proof.
  intros (k & -> & Hk). induction Hk as [|c k Hc Hk IH]; [done|].
  change ((c :: k) ++ h) with (c :: (k ++ h)). by rewrite driver_cons_other.
Qed.

(** * A concrete platform

    Every call succeeds with the least interesting answer; the two clocks are
    given.  It shows that the hypotheses on platforms can be met. *)
Definition default_ans (c : extcall) : ans c :=
  match c return ans c with
  | X_gettimeofday => {| tv_sec := 0; tv_usec := 0 |}
  | X_clock_gettime _ => {| ts_sec := 0; ts_nsec := 0 |}
  | X_calloc _ => true
  | X_recv _ _ => R_error
  | X_epoll_wait _ _ _ => inr []
  | X_open _ => (3, EOTHER)
  | X_read _ _ => inr []
  | X_epoll_wait_tty _ _ => (0, {| ep_hup := false; ep_in := false |})
  | X_tiocgetd _ => (0, 21)
  | X_gsm_getconf _ => (0, {| adaption := 1; encapsulation := 1; initiator := 0; gsm_t1 := 10;
      gsm_t2 := 34; gsm_t3 := 10; gsm_n2 := 3; mru := 64; mtu := 64; gsm_k := 2; gsm_i := 0;
      clocal := 0; burst := 1 |})
  | X_localtime _ => None
  | X_secure_callback _ _ => (0, Some [])
  | X_cli_callback _ _ _ _ | X_reader_create => 0
  | X_umask _ | X_sigaction _ | X_atexit => 0
  | X_gettid => 77
  | X_socket_local_client _ => 5
  | X_select _ _ _ => Some (false, false)
  | X_schedule => 0%nat
  | X_cond_timedwait _ => (0%nat, true)
  | X_ioctl _ _ => (0, 0)
  | X_property_get _ d => d
  | X_stat_isreg _ | X_regcomp _ => true
  | X_stat_isdir _ | X_regexec _ _ => false
  | X_pipe => Some (10, 11)
  | X_dlopen _ => true
  | X_dlerror => false
  | X_opendir _ => inr []
  | X_unlink _ | X_mkdir _ => (0, EOTHER)
  | X_getpwnam _ | X_getgrnam _ => Some 1000
  | X_fstat _ => Some 0
  | X_mup_initialize => (E_MUP_SUCCEED, true)
  | X_mup_check_fw_version _ _ | X_mup_open_device _ _ _
  | X_mup_config_secur_channel _ | X_mup_update_fw _ _ _ | X_mup_update_nvm _ _
  | X_mup_dispose | X_mup_gen_fls _ _ _ => E_MUP_SUCCEED
  | X_mcdr_read => []
  | X_mcdr_get_state => MCDR_SUCCEED
  | X_mcdr_get_reason => []
  | X_usb_host_init => true
  | X_usb_host_load | X_usb_host_read_event => []
  | X_usb_device_open _ => None
  | X_uninitialised => {| tv_sec := 0; tv_usec := 0 |}
  | X_uninitialised_nvm => (E_MODEM_NVM_SUCCEED, 0)
  | X_rmdir _ | X_chown _ _ _ | X_chmod _ | X_sendfile _ _ _ | X_usb_host_get_fd
  | X_control_socket _ | X_listen _ | X_epoll_create
  | X_tiocsetd _ _ | X_gsm_setconf _ _ | X_time | X_openat _ _ | X_fsync _ => 0
  | X_send _ _ | X_accept _ | X_shutdown _ | X_close _ | X_epoll_ctl_add _ _
  | X_fcntl_nonblock _ | X_write _ _ | X_property_set _ _ | X_spi_ioctl _ _ => 0
  | X_tcsetattr _ | X_tcflush _ | X_sleep _ | X_usleep _ | X_broadcast_msg _ | X_broadcast_action _
  | X_sync | X_wake_lock _ | X_pthread_create _ | X_pthread_join _ | X_mcdr_cleanup => tt
  end.

(** The seconds and microseconds slept so far, and clocks that count them. *)
Fixpoint slept_sec (h : history) : Z :=
  match h with
  | [] => 0
  | X_sleep n :: h' => slept_sec h' + Z.max 0 n
  | _ :: h' => slept_sec h'
  end.

Fixpoint slept (h : history) : Z :=
  match h with
  | [] => 0
  | X_usleep u :: h' => slept h' + Z.max 0 u
  | _ :: h' => slept h'
  end.

Definition slept_clock (h : history) : timespec :=
  {| ts_sec := 1000 + slept h / 10 ^ 6; ts_nsec := slept h mod 10 ^ 6 * 1000 |}.

Definition demo_platform (now : timeval) (boot : history -> timespec) : Platform := {|
  reply := fun h c =>
    match c with
    | X_gettimeofday => now
    | X_clock_gettime CLOCK_BOOTTIME => boot h
    | X_clock_gettime CLOCK_MONOTONIC => slept_clock h
    | X_clock_gettime CLOCK_REALTIME => {| ts_sec := Z.min (2 ^ 31 - 1) (1000 + slept_sec h); ts_nsec := 0 |}
    | c => default_ans c
    end;
  md5_hex := fun l => l;
  b64_pton := fun l n => if Z.of_nat (length l) <=? n then Some l else None;
  b64_ntop := fun l n => if Z.of_nat (length l) <? n then Some l else None;
  MDM_CTRL_STATE_OFF := 1; MDM_CTRL_STATE_COLD_BOOT := 2; MDM_CTRL_STATE_WARM_BOOT := 4;
  MDM_CTRL_STATE_COREDUMP := 8; MDM_CTRL_STATE_IPC_READY := 16;
  MDM_CTRL_STATE_FW_DOWNLOAD_READY := 32; MDM_CTRL_STATE_UNKNOWN := 64;
  MDM_CTRL_HU_RESET := 1; BOARD_AOB := 1; MDM_VERSION_SIZE := 92;
  MY_PATH_MAX := 256; TLV_FILENAME_SIZE := 256; FOLDER_SIZE := 256;
  loop_fuel := 32 |}.

(** A platform on which nothing moves. *)
Definition still : Platform :=
  demo_platform {| tv_sec := 1000; tv_usec := 0 |} (fun _ => {| ts_sec := 1000; ts_nsec := 0 |}).

Lemma still_alloc_ok : @alloc_ok still.
Proof. done. Qed.

(** The same platform with other answers. *)
Definition with_reply (P : Platform) (r : history -> forall c, ans c) : Platform := {|
  reply := r; md5_hex := @md5_hex P; b64_pton := @b64_pton P; b64_ntop := @b64_ntop P;
  MDM_CTRL_STATE_OFF := @MDM_CTRL_STATE_OFF P;
  MDM_CTRL_STATE_COLD_BOOT := @MDM_CTRL_STATE_COLD_BOOT P;
  MDM_CTRL_STATE_WARM_BOOT := @MDM_CTRL_STATE_WARM_BOOT P;
  MDM_CTRL_STATE_COREDUMP := @MDM_CTRL_STATE_COREDUMP P;
  MDM_CTRL_STATE_IPC_READY := @MDM_CTRL_STATE_IPC_READY P;
  MDM_CTRL_STATE_FW_DOWNLOAD_READY := @MDM_CTRL_STATE_FW_DOWNLOAD_READY P;
  MDM_CTRL_STATE_UNKNOWN := @MDM_CTRL_STATE_UNKNOWN P;
  MDM_CTRL_HU_RESET := @MDM_CTRL_HU_RESET P; BOARD_AOB := @BOARD_AOB P;
  MDM_VERSION_SIZE := @MDM_VERSION_SIZE P; MY_PATH_MAX := @MY_PATH_MAX P;
  TLV_FILENAME_SIZE := @TLV_FILENAME_SIZE P; FOLDER_SIZE := @FOLDER_SIZE P;
  loop_fuel := @loop_fuel P |}.
