(* ===== verification/Io.v ===== *)
(** The thin layers over the system calls: sockets (libcnx/client_cnx.c),
    terminals (libutils/tty.c) and integer properties (libutils/property.c).
    A C out-parameter is an extra component of the result. *)
From S2P Require Import Prelude Platform.

Section io.
Context `{Platform} {S : Type}.

(** * libcnx/client_cnx.c *)

Definition cnx_open (cnx_name : list Z) : IO S (e_mmgr_errors * Z) :=
  fd ← call (X_control_socket cnx_name);
  r ← call (X_listen fd);
  mret (if r <? 0 then E_ERR_FAILED else E_ERR_SUCCESS, fd).

Definition cnx_accept (fd : Z) : IO S Z := call (X_accept fd).

(** Result: the status and the data read, at most [len] bytes.  The sockets are blocking
    and [recv] has no timeout: when nothing ever comes the function does not return, which
    counts as undefined, so that a theorem that excludes [Undef] excludes it. *)
Definition cnx_read (fd len : Z) : IO S (e_mmgr_errors * list Z) :=
  r ← call (X_recv fd len);
  match r with
  | R_error => mret (E_ERR_FAILED, [])
  | R_data d => mret (E_ERR_SUCCESS, d)
  | R_never => undefined
  end.

(** [data] is [None] for a NULL buffer.  [*len] is not updated with the size
    sent; reading past the end of the buffer is undefined. *)
Definition cnx_write (fd : Z) (data : option (list Z)) (len : Z) : IO S e_mmgr_errors :=
  match data with
  | None => abort
  | Some d =>
      if (len <? 0) || (Z.of_nat (length d) <? len) then undefined
      else
        err ← call (X_send fd (take (Z.to_nat len) d));
        mret (if err <? 0 then E_ERR_FAILED else E_ERR_SUCCESS)
  end.

Definition cnx_close (fd : Z) : IO S (e_mmgr_errors * Z) :=
  _ ← call (X_shutdown fd);
  err ← call (X_close fd);
  mret (if err <? 0 then E_ERR_FAILED else E_ERR_SUCCESS, CLOSED_FD).

(** * libutils/tty.c *)

Definition tty_init_listener : IO S (e_mmgr_errors * Z) :=
  fd ← call X_epoll_create;
  mret (if fd =? CLOSED_FD then E_ERR_FAILED else E_ERR_SUCCESS, fd).

Definition tty_listen_fd (epollfd fd : Z) : IO S e_mmgr_errors :=
  r ← call (X_epoll_ctl_add epollfd fd);
  mret (if r =? -1 then E_ERR_FAILED else E_ERR_SUCCESS).

Definition tty_set_termio (fd : Z) : IO S e_mmgr_errors :=
  r ← call (X_fcntl_nonblock fd);
  if r <? 0 then mret E_ERR_FAILED
  else _ ← call (X_tcflush fd); _ ← call (X_tcsetattr fd); mret E_ERR_SUCCESS.

Definition MAX_OPEN_RETRY : nat := 5.

(** The retry loop of [tty_open]; [fd] is the value of [*fd]. *)
Fixpoint tty_open_loop (retries : nat) (name : list Z) (fd : Z) : IO S Z :=
  match retries with
  | O => mret fd
  | Datatypes.S n =>
      r ← call (X_open name);
      if 0 <? r.1 then mret r.1
      else if bool_decide (r.2 = ENOENT) || bool_decide (r.2 = EAGAIN)
              || bool_decide (r.2 = EACCES)
      then _ ← call (X_sleep 1); tty_open_loop n name r.1
      else mret r.1
  end.

Definition tty_open (name : list Z) (fd : Z) : IO S (e_mmgr_errors * Z) :=
  if negb (fd =? CLOSED_FD) then mret (E_ERR_TTY_BAD_FD, fd)
  else
    fd' ← tty_open_loop MAX_OPEN_RETRY name fd;
    if fd' <? 0 then mret (E_ERR_TTY_BAD_FD, fd')
    else
      r ← tty_set_termio fd';
      if succeeded r then mret (E_ERR_SUCCESS, fd')
      else _ ← call (X_close fd'); mret (E_ERR_TTY_BAD_FD, CLOSED_FD).

Definition tty_close (fd : Z) : IO S (e_mmgr_errors * Z) :=
  if CLOSED_FD <? fd
  then _ ← call (X_close fd); mret (E_ERR_SUCCESS, CLOSED_FD)
  else mret (E_ERR_FAILED, fd).

(** The one event on [fd], waited for at most [timeout] milliseconds. *)
Definition tty_wait_for_event (fd timeout : Z) : IO S e_mmgr_errors :=
  '(ret, epollfd) ← tty_init_listener;
  ret ← (if negb (succeeded ret) then mret ret
         else
           ret ← tty_listen_fd epollfd fd;
           if negb (succeeded ret) then mret ret
           else
             '(err, ev) ← call (X_epoll_wait_tty epollfd timeout);
             mret (if 0 <? err then
                     if ep_hup ev then E_ERR_TTY_POLLHUP
                     else if ep_in ev then ret else E_ERR_FAILED
                   else if err =? 0 then E_ERR_TTY_TIMEOUT else E_ERR_FAILED));
  when (negb (epollfd =? CLOSED_FD)) (_ ← call (X_close epollfd); mret tt) ;;
  mret ret.

Definition DELAY_BETWEEN_SUCCESSIVE_READ : Z := 20000.

(** [data] is what has been read so far; a [read] stores at most what it is
    asked for. *)
Fixpoint tty_read_loop (tries : nat) (fd data_size : Z) (data : list Z)
  : IO S (e_mmgr_errors * list Z) :=
  match tries with
  | O => mret (E_ERR_SUCCESS, data)
  | Datatypes.S n =>
      let room := data_size - Z.of_nat (length data) in
      r ← call (X_read fd room);
      match r with
      | inl e => mret (if bool_decide (e = EBADF) then E_ERR_TTY_BAD_FD else E_ERR_FAILED, data)
      | inr d =>
          match take (Z.to_nat room) d with
          | [] => if (0 <? length data)%nat then mret (E_ERR_SUCCESS, data)
                  else call (X_usleep DELAY_BETWEEN_SUCCESSIVE_READ) ;;
                       tty_read_loop n fd data_size data
          | d => tty_read_loop n fd data_size (data ++ d)
          end
      end
  end.

(** The status and the bytes stored; the rest of the [data_size] bytes of the
    buffer is zero.  [*data_size] becomes their number, except on an error. *)
Definition tty_read (fd data_size max_retries : Z) : IO S (e_mmgr_errors * list Z) :=
  if data_size <? 0 then undefined
  else tty_read_loop (Z.to_nat max_retries) fd data_size [].

(** The [do ... while (cur < data_size)] loop: [rest] is what [cur] leaves. *)
Fixpoint tty_write_loop (fuel : nat) (fd : Z) (rest : list Z) : IO S e_mmgr_errors :=
  match fuel with
  | O => undefined
  | Datatypes.S n =>
      err ← call (X_write fd rest);
      if err =? 0 then mret E_ERR_FAILED
      else if err <? 0 then mret E_ERR_TTY_BAD_FD
      else if err <? Z.of_nat (length rest)
      then tty_write_loop n fd (drop (Z.to_nat err) rest)
      else mret E_ERR_SUCCESS
  end.

Definition tty_write (fd : Z) (data : list Z) : IO S e_mmgr_errors :=
  tty_write_loop (Datatypes.S (length data)) fd data.

(** * libutils/property.c *)

(** Decimal digits of a non-negative integer, [snprintf]'s [%d]. *)
Fixpoint digits (fuel : nat) (n : Z) (acc : list Z) : list Z :=
  match fuel with
  | O => acc
  | Datatypes.S f =>
      if n <? 10 then (48 + n) :: acc else digits f (n / 10) ((48 + n mod 10) :: acc)
  end.

(** An [int] has at most 10 digits. *)
Definition print_int (z : Z) : list Z :=
  if z <? 0 then 45 :: digits 11 (- z) [] else digits 11 z [].

Definition is_digit (c : Z) : bool := (48 <=? c) && (c <=? 57).

Fixpoint scan_digits (acc : Z) (l : list Z) : Z :=
  match l with
  | c :: l' => if is_digit c then scan_digits (10 * acc + (c - 48)) l' else acc
  | [] => acc
  end.

Definition is_space (c : Z) : bool := (c =? 32) || ((9 <=? c) && (c <=? 13)).

Fixpoint skip_spaces (l : list Z) : list Z :=
  match l with
  | c :: l' => if is_space c then skip_spaces l' else l
  | [] => []
  end.

(** [sscanf(l, "%d", &v)]: [None] when nothing is converted. *)
Definition scan_int (l : list Z) : option Z :=
  let unsigned l := match l with
                    | c :: _ => if is_digit c then Some (scan_digits 0 l) else None
                    | [] => None
                    end in
  match skip_spaces l with
  | c :: l' => if c =? 45 then Z.opp <$> unsigned l'
               else if c =? 43 then unsigned l' else unsigned (c :: l')
  | [] => None
  end.

(** One [%d] of a longer format: the number and what follows it. *)
Fixpoint drop_digits (l : list Z) : list Z :=
  match l with
  | c :: l' => if is_digit c then drop_digits l' else l
  | [] => []
  end.

Definition scan_num (l : list Z) : option (Z * list Z) :=
  z ← scan_int l;
  let l := skip_spaces l in
  let l := match l with c :: l' => if (c =? 45) || (c =? 43) then l' else l | [] => [] end in
  Some (z, drop_digits l).

(** A literal of the format. *)
Definition scan_char (c : Z) (l : list Z) : option (list Z) :=
  match l with x :: l' => if x =? c then Some l' else None | [] => None end.

Definition property_set_int (key : list Z) (value : Z) : IO S e_mmgr_errors :=
  r ← call (X_property_set key (print_int value));
  mret (if r =? 0 then E_ERR_SUCCESS else E_ERR_FAILED).

Definition property_get_int (key : list Z) : IO S (e_mmgr_errors * Z) :=
  v ← call (X_property_get key (bytes "0"));
  match scan_int v with
  | Some z => mret (E_ERR_SUCCESS, z)
  | None => mret (E_ERR_FAILED, 0)
  end.

(** libcnx/client_cnx.c: the name of the socket of an instance, in a buffer of
    [MMGR_SOCKET_LEN] bytes that holds [cnx_name]. *)
Definition cnx_get_name (cnx_name : list Z) (inst_id : Z) : e_mmgr_errors * list Z :=
  if inst_id <? 1 then (E_ERR_FAILED, cnx_name)
  else (E_ERR_SUCCESS,
        take 7 (if inst_id =? 1 then bytes "mmgr" else bytes "mmgr" ++ print_int inst_id)).

Definition PROPERTY_VALUE_MAX : nat := 92.

Definition property_get_string (key : list Z) : IO S (list Z) :=
  v ← call (X_property_get key []);
  mret (take (PROPERTY_VALUE_MAX - 1) (cstr v)).

(** * libutils/file.c *)

Definition file_write (path value : list Z) : IO S e_mmgr_errors :=
  r ← call (X_open path);
  if r.1 <? 0 then mret E_ERR_FAILED
  else
    n ← (if 0 <? Z.of_nat (length value) then call (X_write r.1 value) else mret 0);
    c ← call (X_close r.1);
    mret (if (c =? 0) && (uint32 n =? Z.of_nat (length value))
          then E_ERR_SUCCESS else E_ERR_FAILED).

(** [size] is the size of the buffer.  When [read] fails, its [-1] passes the
    unsigned comparison and a NUL is stored before the buffer. *)
Definition file_read (path : list Z) (size : Z) : IO S (e_mmgr_errors * list Z) :=
  r ← call (X_open path);
  if r.1 <? 0 then mret (E_ERR_FAILED, [])
  else
    d ← (if 0 <? size then call (X_read r.1 size) else mret (inr []));
    c ← call (X_close r.1);
    match d with
    | inr d =>
        if (c =? 0) && (0 <? Z.of_nat (length d))
        then mret (E_ERR_SUCCESS, take (Z.to_nat (size - 1)) d)
        else mret (E_ERR_FAILED, [])
    | inl _ => if c =? 0 then undefined else mret (E_ERR_FAILED, [])
    end.

Definition file_exist (path : list Z) : IO S bool := call (X_stat_isreg path).

(** [file_copy]; the process mask, restored at the end, is left out. *)
Definition file_copy (src dst : list Z) : IO S e_mmgr_errors :=
  i ← call (X_open src);
  if i.1 <? 0 then mret E_ERR_FAILED
  else
    o ← call (X_open dst);
    if o.1 <? 0 then _ ← call (X_close i.1); mret E_ERR_FAILED
    else
      st ← call (X_fstat i.1);
      ret ← match st with
            | None => mret E_ERR_FAILED
            | Some size =>
                n ← call (X_sendfile o.1 i.1 size);
                mret (if n =? -1 then E_ERR_FAILED else E_ERR_SUCCESS)
            end;
      _ ← call (X_close i.1);
      c ← call (X_close o.1);
      mret (if c <? 0 then E_ERR_FAILED else ret).

End io.

(** * Lemmas *)

Section digits.

Lemma digits_scan fuel n acc k :
  0 <= n < 10 ^ Z.of_nat fuel ->
  (fuel <> 0)%nat ->
  scan_digits k (digits fuel n acc) =
  scan_digits (k * 10 ^ Z.of_nat (length (digits fuel n acc) - length acc) + n) acc
  /\ (length acc < length (digits fuel n acc))%nat
  /\ exists c l, digits fuel n acc = c :: l /\ is_digit c = true.
Proof.
  revert n acc. induction fuel as [|f IH]; intros n acc Hn Hf; [done|]. cbn [digits].
  destruct (Z.ltb_spec n 10).
  - cbn [scan_digits length]. replace (is_digit (48 + n)) with true
      by (unfold is_digit; symmetry; apply andb_true_iff; split; apply Z.leb_le; lia).
    replace (Datatypes.S (length acc) - length acc)%nat with 1%nat by lia.
    split; [f_equal; lia|]. split; [lia|]. exists (48 + n), acc. split; [done|].
    unfold is_digit. apply andb_true_iff; split; apply Z.leb_le; lia.
  - pose proof (Z.mod_pos_bound n 10). pose proof (Z.div_mod n 10).
    assert (Hp : 10 ^ Z.of_nat (Datatypes.S f) = 10 * 10 ^ Z.of_nat f)
      by (rewrite Nat2Z.inj_succ, Z.pow_succ_r; lia).
    destruct (decide (f = 0%nat)) as [->|]; [cbn in Hn; lia|].
    assert (Hq : 0 <= n / 10 < 10 ^ Z.of_nat f)
      by (split; [apply Z.div_pos; lia|apply Z.div_lt_upper_bound; lia]).
    destruct (IH (n / 10) ((48 + n mod 10) :: acc) Hq) as (E & Hl & Hd); [done|].
    split; [|split; [cbn in Hl; lia|done]]. rewrite E. cbn [scan_digits].
    replace (is_digit (48 + n mod 10)) with true
      by (unfold is_digit; symmetry; apply andb_true_iff; split; apply Z.leb_le; lia).
    cbn [length] in *. f_equal.
    set (L := length (digits f (n / 10) (48 + n mod 10 :: acc))) in *.
    replace (L - length acc)%nat with (Datatypes.S (L - Datatypes.S (length acc))) by lia.
    rewrite Nat2Z.inj_succ, Z.pow_succ_r by lia. lia.
Qed.

Lemma scan_print z : - 2 ^ 31 <= z < 2 ^ 31 -> scan_int (print_int z) = Some z.
Proof.
  intros Hz. unfold print_int, scan_int.
  assert (forall n, 0 <= n <= 2 ^ 31 ->
    exists c l, digits 11 n [] = c :: l /\ is_digit c = true /\ scan_digits 0 (c :: l) = n)
    as Hd.
  { intros n Hn. destruct (digits_scan 11 n [] 0) as (E & _ & c & l & Ec & Hc); [|done|].
    - assert (2 ^ 31 < 10 ^ Z.of_nat 11) by (cbn; lia). lia.
    - exists c, l. rewrite <- Ec, E. cbn [scan_digits]. split_and!; [done..|lia]. }
  destruct (Z.ltb_spec z 0).
  - destruct (Hd (- z)) as (c & l & -> & Hc & E); [lia|].
    change (skip_spaces (45 :: c :: l)) with (45 :: c :: l). cbn [Z.eqb Pos.eqb].
    rewrite Hc, E. cbn. f_equal. lia.
  - destruct (Hd z) as (c & l & -> & Hc & E); [lia|].
    cbn [skip_spaces]. unfold is_digit in Hc. apply andb_true_iff in Hc as [H1 H2].
    apply Z.leb_le in H1, H2.
    assert (is_space c = false) as ->.
    { unfold is_space. apply orb_false_iff. split; [apply Z.eqb_neq; lia|].
      apply andb_false_iff. right. apply Z.leb_gt. lia. }
    replace (c =? 45) with false by (symmetry; apply Z.eqb_neq; lia).
    replace (c =? 43) with false by (symmetry; apply Z.eqb_neq; lia).
    replace (is_digit c) with true
      by (unfold is_digit; symmetry; apply andb_true_iff; split; apply Z.leb_le; lia).
    by rewrite E.
Qed.
End digits.

(** * The terminals within a turn of the daemon's loop *)

(** How many times a terminal had something to say since the daemon last
    waited in its own loop. *)
Fixpoint answers `{Platform} (h : history) : nat :=
  match h with
  | [] => 0
  | c :: h' =>
      match c with
      | X_epoll_wait _ _ _ => 0
      | X_read fd len =>
          match reply h' (X_read fd len) with inr (_ :: _) => Datatypes.S (answers h') | _ => answers h' end
      | X_epoll_wait_tty e t =>
          if 0 <? (reply h' (X_epoll_wait_tty e t)).1 then Datatypes.S (answers h') else answers h'
      | _ => answers h'
      end
  end.

(** The calls of a dialogue with a terminal: neither a turn of the loop, nor a
    request to the driver, nor a message to a client. *)
Definition tty_call (c : extcall) : bool :=
  match c with
  | X_epoll_wait _ _ _ | X_ioctl _ _ | X_send _ _ | X_recv _ _ | X_pthread_create _ => false
  | _ => true
  end.

(** From the history [h], the dialogue [m] ends, leaves the state alone, only
    makes such calls, and [Q] holds of its result and final history. *)
Definition dia `{Platform} {S A} (h : history) (m : IO S A) (Q : A -> history -> Prop) : Prop :=
  forall s, wp False m (fun a s' h' => s' = s /\ extends tty_call h h' /\ Q a h') s h.

(** What a terminal says within a turn of the loop is finite. *)
Definition terminals_pause `{Platform} : Prop := forall h, (answers h < loop_fuel)%nat.

Section dialogues.
Context `{Platform} {S : Type}.
Implicit Types h : history.

Lemma answers_cons c h : tty_call c = true -> (answers h <= answers (c :: h))%nat.
Proof.
  intros Hc. destruct c; try done; cbn [answers].
  - destruct (reply h _) as [|[|]]; lia.
  - destruct (_ <? _); lia.
Qed.

Lemma answers_mono h h' : extends tty_call h h' -> (answers h <= answers h')%nat.
Proof.
  intros (k & -> & Hk). induction Hk as [|c k Hc Hk IH]; [done|].
  change ((c :: k) ++ h) with (c :: (k ++ h)). pose proof (answers_cons c (k ++ h) Hc). lia.
Qed.

Lemma dia_ret {A} h (a : A) (Q : A -> history -> Prop) : Q a h -> dia h (mret a : IO S A) Q.
Proof. intros HQ s. split_and!; [done|apply extends_refl|done]. Qed.

Lemma dia_bind {A B} h (m : IO S A) (k : A -> IO S B) Q R :
  dia h m Q -> (forall a h', extends tty_call h h' -> Q a h' -> dia h' (k a) R) ->
  dia h (m ≫= k) R.
Proof.
  intros Hm Hk s. apply wp_bind. eapply wp_mono; [apply Hm|]. cbv beta.
  intros a s' h' (-> & He & HQ). eapply wp_mono; [by apply Hk|]. cbv beta.
  intros b s'' h'' (-> & He' & HR). split_and!; [done| |done]. by eapply extends_trans.
Qed.

Lemma dia_mono {A} h (m : IO S A) (Q R : A -> history -> Prop) :
  dia h m Q -> (forall a h', extends tty_call h h' -> Q a h' -> R a h') -> dia h m R.
Proof.
  intros Hm HQ s. eapply wp_mono; [apply Hm|]. cbv beta. intros a s' h' (-> & ? & ?). auto.
Qed.

Lemma dia_conj {A} h (m : IO S A) (Q R : A -> history -> Prop) :
  dia h m Q -> dia h m R -> dia h m (fun a h' => Q a h' /\ R a h').
Proof.
  intros HQ HR s. eapply wp_mono; [apply wp_conj; [apply HQ|apply HR]|]. cbv beta. naive_solver.
Qed.

(** Limits on the calls carry over. *)
Lemma dia_within {A} h (m : IO S A) P (Q : A -> history -> Prop) :
  within anyS P m -> dia h m Q -> dia h m (fun a h' => Q a h' /\ extends P h h').
Proof.
  intros Hw HQ s. eapply wp_mono; [by eapply wp_within, HQ|]. cbv beta. naive_solver.
Qed.

Lemma dia_call h c (Q : ans c -> history -> Prop) :
  tty_call c = true -> Q (reply h c) (c :: h) -> dia h (call c : IO S _) Q.
Proof. intros Hc HQ s. split_and!; [done|by apply extends_one|done]. Qed.

Lemma dia_when h b (m : IO S unit) (Q : unit -> history -> Prop) :
  (b = true -> dia h m Q) -> (b = false -> Q tt h) -> dia h (when b m) Q.
Proof. destruct b; intros H1 H2; [by apply H1|apply dia_ret; by apply H2]. Qed.
End dialogues.

Definition anyQ {A} (_ : A) (_ : history) : Prop := True.

Create HintDb dia discriminated.

(** Follows the structure of a dialogue; what is known of its parts is in the
    hint database. *)
Ltac dia_step :=
  lazymatch goal with
  | |- dia _ (mret _) _ => apply dia_ret
  | |- dia _ (_ ≫= _) _ =>
      first [ eapply dia_bind; [solve [eauto 3 with dia]|intros ? ? ? ?]
            | eapply (dia_bind _ _ _ anyQ); [|intros ? ? ? ?] ]
  | |- dia _ (call _) anyQ => apply dia_call; [reflexivity|exact Logic.I]
  | |- dia _ (when _ _) _ => apply dia_when; intros ?
  | |- dia _ (if ?b then _ else _) _ => destruct b eqn:?
  | |- dia _ (let '(_, _) := ?x in _) _ => destruct x
  | |- dia _ (match ?x with _ => _ end) _ => destruct x eqn:?
  | |- anyQ _ _ => exact Logic.I
  end.

Ltac dia_auto := repeat first [ solve [eauto 3 with dia] | dia_step ].

Section terminals.
Context `{Platform} {S : Type}.

Lemma dia_close h fd : dia (S := S) h (tty_close fd) anyQ.
Proof. unfold tty_close. dia_auto. Qed.

Lemma dia_wait h fd timeout :
  dia (S := S) h (tty_wait_for_event fd timeout)
    (fun r h' => r = E_ERR_SUCCESS -> (answers h < answers h')%nat).
Proof.
  unfold tty_wait_for_event. eapply (dia_bind _ _ _ anyQ).
  { unfold tty_init_listener. dia_auto. }
  intros [ret epfd] h1 He1 _. cbv beta iota.
  eapply (dia_bind _ _ _ (fun r h' => r = E_ERR_SUCCESS -> (answers h < answers h')%nat)).
  - destruct (succeeded ret) eqn:Er; cbn [negb].
    2:{ apply dia_ret. intros ->. done. }
    eapply (dia_bind _ _ _ anyQ); [unfold tty_listen_fd; dia_auto|].
    intros r2 h2 He2 _. destruct (succeeded r2) eqn:Er2; cbn [negb].
    2:{ apply dia_ret. intros ->. done. }
    eapply (dia_bind _ _ _ (fun x h' => 0 < x.1 -> (answers h < answers h')%nat)).
    + apply dia_call; [done|]. intros Hx%Z.ltb_lt. cbn [answers]. rewrite Hx.
      apply answers_mono in He1, He2. lia.
    + intros [err ev] h3 _ Hx. apply dia_ret. cbn [fst] in Hx.
      destruct (Z.ltb_spec 0 err); [by intros _; apply Hx|]. by destruct (err =? 0).
  - intros r h2 _ Hr. eapply (dia_bind _ _ _ anyQ); [dia_auto|]. intros _ h3 He3 _.
    apply dia_ret. intros Hs. apply answers_mono in He3. specialize (Hr Hs). lia.
Qed.

Lemma dia_read_loop tries h fd size data :
  dia (S := S) h (tty_read_loop tries fd size data)
    (fun r h' => (length r.2 <= Nat.max (length data) (Z.to_nat size))%nat /\
       (r.2 <> data -> (answers h < answers h')%nat)).
Proof.
  revert h data. induction tries as [|n IH]; intros h data; cbn [tty_read_loop].
  { apply dia_ret. cbn. split; [lia|done]. }
  set (room := size - Z.of_nat (length data)).
  eapply (dia_bind _ _ _ (fun r h' => forall c l, r = inr (c :: l) -> (answers h < answers h')%nat)).
  { apply dia_call; [done|]. intros c l E. cbn [answers]. rewrite E. lia. }
  intros [e|d] h1 He1 Hd.
  { apply dia_ret. cbn. split; [lia|done]. }
  destruct (take (Z.to_nat room) d) as [|c l] eqn:Et.
  - destruct (0 <? length data)%nat; [apply dia_ret; cbn; split; [lia|done]|].
    eapply (dia_bind _ _ _ anyQ); [dia_auto|]. intros _ h2 He2 _.
    eapply dia_mono; [apply IH|]. cbv beta. intros [r d'] h3 He3 [Hl Ha]. split; [done|].
    intros Hne. apply Ha in Hne. apply answers_mono in He1, He2. lia.
  - assert (Hh1 : (answers h < answers h1)%nat).
    { destruct d as [|x d]; [by rewrite take_nil in Et|]. by eapply Hd. }
    eapply dia_mono; [apply IH|]. cbv beta. intros [r d'] h3 He3 [Hl Ha].
    apply answers_mono in He3. split; [|cbn in *; lia].
    assert (length (take (Z.to_nat room) d) <= Z.to_nat room)%nat by (rewrite length_take; lia).
    rewrite Et in H0. rewrite length_app in Hl. cbn [snd] in *. lia.
Qed.

(** What [tty_read] stores fits the buffer, and comes from an answer. *)
Lemma dia_read h fd size retries : 0 <= size ->
  dia (S := S) h (tty_read fd size retries)
    (fun r h' => (length r.2 <= Z.to_nat size)%nat /\
       (r.2 <> [] -> (answers h < answers h')%nat)).
Proof.
  intros Hs. unfold tty_read. destruct (Z.ltb_spec size 0); [lia|].
  eapply dia_mono; [apply dia_read_loop|]. cbv beta. intros r h' _ [Hl ?].
  split; [|done]. cbn [length] in Hl. lia.
Qed.

Lemma dia_write h fd data : dia (S := S) h (tty_write fd data) anyQ.
Proof.
  unfold tty_write.
  assert (forall fuel rest h, (length rest < fuel)%nat ->
    dia (S := S) h (tty_write_loop fuel fd rest) anyQ) as Hl; [|by apply Hl; lia].
  clear. induction fuel as [|n IH]; intros rest h Hn; [lia|]. cbn [tty_write_loop].
  eapply (dia_bind _ _ _ anyQ); [dia_auto|]. intros err h1 _ _.
  destruct (Z.eqb_spec err 0); [by apply dia_ret|].
  destruct (Z.ltb_spec err 0); [by apply dia_ret|].
  destruct (Z.ltb_spec err (Z.of_nat (length rest))); [|by apply dia_ret].
  apply IH. rewrite length_drop. lia.
Qed.

Lemma dia_open h path fd : dia (S := S) h (tty_open path fd) anyQ.
Proof.
  assert (Hl : forall k f h, dia (S := S) h (tty_open_loop k path f) anyQ).
  { clear. induction k as [|k IH]; intros f h; cbn [tty_open_loop]; [by apply dia_ret|].
    eapply (dia_bind _ _ _ anyQ); [dia_auto|]. intros a h1 _ _. destruct (_ <? _); [by apply dia_ret|].
    destruct (_ || _); [|by apply dia_ret].
    eapply (dia_bind _ _ _ anyQ); [dia_auto|]. intros. apply IH. }
  unfold tty_open. destruct (negb _); [by apply dia_ret|].
  eapply (dia_bind _ _ _ anyQ); [apply Hl|]. intros fd' h1 _ _. destruct (_ <? _); [by apply dia_ret|].
  unfold tty_set_termio. dia_auto.
Qed.

Lemma dia_termio h fd : dia (S := S) h (tty_set_termio fd) anyQ.
Proof. unfold tty_set_termio. dia_auto. Qed.

End terminals.

#[export] Hint Resolve dia_close dia_wait dia_write dia_open dia_termio : dia.

(** The same limits hold of a dialogue that does not end. *)
Section tty_calls.
Context `{Platform} {S : Type} (R : S -> S -> Prop) `{HR : !PreOrder R}.

Lemma w_wait fd timeout : within R tty_call (tty_wait_for_event fd timeout).
Proof. within_auto. Qed.

Lemma w_read fd size n : within R tty_call (tty_read fd size n).
Proof.
  unfold tty_read. destruct (size <? 0); [apply within_undefined|].
  generalize (Z.to_nat n), (@nil Z). intros k. induction k as [|k IH]; intros data;
    cbn [tty_read_loop]; within_auto.
Qed.

Lemma w_write fd data : within R tty_call (tty_write fd data).
Proof.
  unfold tty_write. generalize (Datatypes.S (length data)). intros n. revert data.
  induction n as [|n IH]; intros data; cbn [tty_write_loop]; within_auto.
Qed.

Lemma w_open path fd : within R tty_call (tty_open path fd).
Proof.
  assert (Hl : forall k f, within R tty_call (tty_open_loop k path f)).
  { induction k as [|k IH]; intros f; cbn [tty_open_loop]; within_auto. }
  unfold tty_open. within_auto.
Qed.

Lemma w_close fd : within R tty_call (tty_close fd).
Proof. within_auto. Qed.
End tty_calls.

#[export] Hint Resolve w_wait w_read w_write w_open w_close : within.

(** The write loop ends within its fuel whatever the kernel answers. *)
Lemma tty_write_total `{Platform} {S} fd data (s : S) h :
  wp False (tty_write fd data) (fun r s' _ => s' = s) s h.
Proof.
  unfold tty_write.
  assert (forall fuel rest h, (length rest < fuel)%nat ->
    wp False (tty_write_loop fuel fd rest) (fun r s' _ => s' = s) s h) as Hl; [|by apply Hl; lia].
  clear. induction fuel as [|n IH]; intros rest h Hn; [lia|]. cbn [tty_write_loop].
  wp_simp. cbn. set (err := reply h (X_write fd rest)).
  destruct (Z.eqb_spec err 0), (Z.ltb_spec err 0), (Z.ltb_spec err (Z.of_nat (length rest)));
    try done.
  apply IH. rewrite length_drop. lia.
Qed.

(** * libutils/key.c *)

(** The property keys of an instance of the daemon. *)
Record key_ctx := {
  k_blob : list Z; k_cfg : list Z; k_amtl : list Z; k_reboot : list Z; k_mdm_version : list Z }.

Definition PROPERTY_KEY_MAX : nat := 32.

(** [snprintf] into a key: truncated to the buffer. *)
Definition key_of (l : list Z) : list Z := take (PROPERTY_KEY_MAX - 1) l.

Definition MDM_VERSION_KEY : list Z := bytes "gsm.version.baseband".

Definition key_init `{Platform} (inst_id : Z) : IO (option key_ctx) unit :=
  ok ← call (X_calloc 160);
  ASSERT ok ;;
  let n := print_int inst_id in
  modify (fun _ => Some {|
    k_blob := key_of (bytes "persist.sys.mmgr" ++ n ++ bytes ".blob_hash");
    k_cfg := key_of (bytes "persist.sys.mmgr" ++ n ++ bytes ".config_hash");
    k_amtl := key_of (bytes "service.amtl" ++ n ++ bytes ".cfg");
    k_reboot := key_of (bytes "persist.sys.mmgr" ++ n ++ bytes ".reboot");
    k_mdm_version := key_of (if inst_id =? 1 then MDM_VERSION_KEY else MDM_VERSION_KEY ++ n) |}).

(** * What reaches the terminal and the property store *)

(** The bytes the kernel accepted on a descriptor, in order. *)
Fixpoint accepted `{Platform} (fd : Z) (h : history) : list Z :=
  match h with
  | [] => []
  | c :: h' =>
      accepted fd h' ++
      match c with
      | X_write fd' d => if fd' =? fd then take (Z.to_nat (reply h' (X_write fd' d))) d else []
      | _ => []
      end
  end.

(** [write] never reports more bytes than it was given. *)
Definition writes_at_most `{Platform} : Prop :=
  forall h fd d, reply h (X_write fd d) <= Z.of_nat (length d).

Lemma accepted_write `{Platform} fd d h :
  accepted fd (X_write fd d :: h) = accepted fd h ++ take (Z.to_nat (reply h (X_write fd d))) d.
Proof. cbn [accepted]. by rewrite Z.eqb_refl. Qed.

Lemma tty_write_loop_accepted `{Platform} {S} fuel fd rest (s : S) h :
  writes_at_most -> (length rest < fuel)%nat ->
  wp False (tty_write_loop fuel fd rest)
    (fun r s' h' => s' = s /\ exists n, accepted fd h' = accepted fd h ++ take n rest /\
       (r = E_ERR_SUCCESS -> take n rest = rest)) s h.
Proof.
  intros Hw. revert rest h. induction fuel as [|f IH]; intros rest h Hf; [lia|].
  cbn [tty_write_loop]. apply wp_bind.
  change (wp False (call (X_write fd rest)) ?Q s h) with
    (Q (reply h (X_write fd rest)) s (X_write fd rest :: h)). cbv beta.
  pose proof (Hw h fd rest) as Hle. set (err := reply h (X_write fd rest)) in *.
  assert (Ha : accepted fd (X_write fd rest :: h) = accepted fd h ++ take (Z.to_nat err) rest)
    by apply accepted_write.
  destruct (Z.eqb_spec err 0); [|destruct (Z.ltb_spec err 0);
    [|destruct (Z.ltb_spec err (Z.of_nat (length rest)))]].
  - split; [done|]. exists (Z.to_nat err). by split.
  - split; [done|]. exists (Z.to_nat err). by split.
  - eapply wp_mono; [apply IH; rewrite length_drop; lia|]. cbv beta.
    intros r s' h' (-> & k & E & Hr). split; [done|]. exists (Z.to_nat err + k)%nat.
    assert (Ht : take (Z.to_nat err + k) rest =
                 take (Z.to_nat err) rest ++ take k (drop (Z.to_nat err) rest)).
    { rewrite <- (take_drop (Z.to_nat err) rest) at 1.
      rewrite take_app_add' by (rewrite length_take; lia). done. }
    rewrite Ht. split; [by rewrite E, Ha, app_assoc|]. intros Hs. rewrite (Hr Hs). apply take_drop.
  - split; [done|]. exists (Z.to_nat err). split; [done|]. intros _. apply take_ge. lia.
Qed.

(** Writing to a terminal: whatever sizes the kernel accepts at each call,
    [tty_write] ends, what was accepted is always a prefix of the data, in order
    and without repetition, and it is all of the data when it reports success. *)
Theorem tty_write_in_order `{Platform} {S} fd data (s : S) h :
  writes_at_most ->
  wp False (tty_write fd data)
    (fun r s' h' => s' = s /\ exists n, accepted fd h' = accepted fd h ++ take n data /\
       (r = E_ERR_SUCCESS -> take n data = data)) s h.
Proof. intros Hw. apply tty_write_loop_accepted; [done|]. lia. Qed.

(** A kernel that takes two bytes at a time. *)
Definition slow_tty : Platform := with_reply still (fun h c =>
  match c with
  | X_write _ d => Z.min 2 (Z.of_nat (length d))
  | c => @reply still h c
  end).

Lemma tty_write_in_order_witness :
  exists r h', @tty_write slow_tty unit 5 [1; 2; 3] tt [] = Done r tt h' /\
    @accepted slow_tty 5 h' = [1; 2; 3].
Proof.
  assert (Hw : @writes_at_most slow_tty) by (intros h fd d; cbn; lia).
  destruct (wp_done _ _ _ _ (@tty_write_in_order slow_tty unit 5 [1; 2; 3] tt [] Hw))
    as (r & s' & h' & E & -> & n & Ha & Hr).
  exists r, h'. split; [exact E|]. rewrite Ha. cbn [accepted app]. apply Hr.
  revert E. vm_compute. by intros [= <- _].
Defined.

(** The property service: a property holds the last value that was stored. *)
Definition keeps_properties `{Platform} : Prop :=
  forall k v d h h', Forall (fun c => forall w, c <> X_property_set k w) h' ->
    reply h (X_property_set k v) = 0 ->
    reply (h' ++ X_property_set k v :: h) (X_property_get k d) = v.

(** An integer stored in a property is read back: for every [int], with
    any calls in between that do not store the same property,
    [property_get_int] gives the value [property_set_int] was given, once the
    service has accepted it. *)
Theorem property_int_roundtrip `{Platform} {S} key value (s : S) h h' :
  keeps_properties -> - 2 ^ 31 <= value < 2 ^ 31 ->
  Forall (fun c => forall w, c <> X_property_set key w) h' ->
  wp False (property_set_int key value)
    (fun r s1 h1 => s1 = s /\ (r = E_ERR_SUCCESS ->
       wp False (property_get_int key)
         (fun x s2 _ => s2 = s /\ x = (E_ERR_SUCCESS, value)) s (h' ++ h1))) s h.
Proof.
  intros Hk Hv Hn. unfold property_set_int, property_get_int. apply wp_bind.
  change (wp False (call (X_property_set key (print_int value))) ?Q s h) with
    (Q (reply h (X_property_set key (print_int value))) s (X_property_set key (print_int value) :: h)).
  cbv beta. split; [done|]. destruct (Z.eqb_spec (reply h (X_property_set key (print_int value))) 0);
    [|done].
  intros _. wp_call. rewrite Hk by done. by rewrite scan_print.
Qed.

(** A property service that keeps what it is given. *)
Fixpoint stored (k d : list Z) (h : history) : list Z :=
  match h with
  | [] => d
  | X_property_set k' v :: h' => if bool_decide (k' = k) then v else stored k d h'
  | _ :: h' => stored k d h'
  end.

Definition with_properties : Platform := with_reply still (fun h c =>
  match c with
  | X_property_get k d => stored k d h
  | c => @reply still h c
  end).

Lemma with_properties_keeps : @keeps_properties with_properties.
Proof.
  intros k v d h h' Hn _. cbn. induction h' as [|c h' IH]; cbn.
  - by rewrite bool_decide_eq_true_2.
  - apply Forall_cons_iff in Hn as [Hc Hn]. rewrite IH by done.
    destruct c; try done. case_bool_decide; [|done]. subst. by destruct (Hc value).
Qed.

Lemma property_int_roundtrip_witness :
  (- 2 ^ 31 <= -42 < 2 ^ 31) /\
  wp False (@property_set_int with_properties unit (bytes "a") (-42))
    (fun r s1 h1 => s1 = tt /\ (r = E_ERR_SUCCESS ->
       wp False (@property_get_int with_properties unit (bytes "a"))
         (fun x s2 _ => s2 = tt /\ x = (E_ERR_SUCCESS, -42)) tt ([X_sync] ++ h1))) tt [].
Proof.
  split; [lia|].
  apply (@property_int_roundtrip with_properties unit (bytes "a") (-42) tt [] [X_sync]).
  - apply with_properties_keeps.
  - lia.
  - by repeat constructor.
Defined.
