(* ===== verification/Files.v ===== *)
(** Folders: the search of files (libutils/file.c) and the creation and removal
    of folders (libutils/folder.c).

    One call gives the whole content of a folder: the names, with whether each
    is a folder ([d_type == DT_DIR]).  A path of a subfolder is cut to
    [PATH_MAX - 1] bytes, so that the recursion needs no more than [PATH_MAX]
    levels as long as no folder has a path of that length ([short_paths]). *)
From Stdlib Require Import Sorted Permutation.
From stdpp Require Import sorting.
From S2P Require Import Prelude Platform Io.

Definition PATH_MAX : Z := 4096.

(** Enough levels for any path. *)
Definition FOLDER_DEPTH : nat := Z.to_nat PATH_MAX.

Definition path_join (folder file : list Z) : list Z := folder ++ bytes "/" ++ file.

(** The names every folder has. *)
Definition dot (name : list Z) : bool :=
  bool_decide (name = bytes ".") || bool_decide (name = bytes "..").

(** [strcmp(a, b) <= 0]. *)
Fixpoint strcmp_le (a b : list Z) : bool :=
  match a, b with
  | [], _ => true
  | _ :: _, [] => false
  | x :: a', y :: b' => (x <? y) || ((x =? y) && strcmp_le a' b')
  end.

(** The order [file_cmp_str] gives to [qsort]. *)
Definition str_le (a b : list Z) : Prop := strcmp_le a b = true.
#[export] Instance str_le_dec a b : Decision (str_le a b).
Proof. unfold str_le. apply _. Defined.

Definition SIZE_CHUNK : Z := 20.

Section folders.
Context `{Platform} {S : Type}.

(** A matching file is appended; the array grows by [SIZE_CHUNK]. *)
Definition file_append (folder name : list Z) (files : list (list Z)) : IO S (list (list Z)) :=
  let found := Z.of_nat (length files) in
  when (found mod SIZE_CHUNK =? 0)
    (ok ← call (X_calloc (4 * (found + SIZE_CHUNK))); ASSERT ok) ;;
  ok ← call (X_calloc (Z.of_nat (length folder + length name + 2)));
  ASSERT ok ;;
  mret (files ++ [path_join folder name]).

(** The loop over the entries of [folder]; [sub] searches a subfolder. *)
Fixpoint find_entries (sub : list Z -> list (list Z) -> IO S (list (list Z)))
    (folder reg : list Z) (entries : list (list Z * bool)) (files : list (list Z))
  : IO S (list (list Z)) :=
  match entries with
  | [] => mret files
  | (name, is_dir) :: es =>
      if dot name then find_entries sub folder reg es files
      else if is_dir then
        files ← sub (in_buffer PATH_MAX (path_join folder name)) files;
        find_entries sub folder reg es files
      else
        match_ ← call (X_regexec reg name);
        if (match_ : bool) then
          files ← file_append folder name files; find_entries sub folder reg es files
        else find_entries sub folder reg es files
  end.

Fixpoint file_find_op (depth : nat) (reg folder : list Z) (files : list (list Z))
  : IO S (list (list Z)) :=
  match depth with
  | O => undefined
  | Datatypes.S n =>
      dir ← call (X_opendir folder);
      match dir with
      | inl _ => mret files
      | inr entries => find_entries (file_find_op n reg) folder reg entries files
      end
  end.

(** [qsort] with [file_cmp_str]. *)
Definition file_sort (files : list (list Z)) : list (list Z) := merge_sort str_le files.

Definition file_find (folder regexp : list Z) : IO S (list (list Z)) :=
  ok ← call (X_regcomp regexp);
  files ← (if (ok : bool) then file_find_op FOLDER_DEPTH regexp folder [] else mret []);
  mret (file_sort files).

(** [regexp] is a buffer of 10 bytes. *)
Definition file_find_ext (folder extension : list Z) : IO S (list (list Z)) :=
  file_find folder (in_buffer 10 (bytes ".*\." ++ extension ++ bytes "$")).

(** * libutils/folder.c, without the process mask, which is put back *)

Definition TELEPHONY_USER : list Z := bytes "radio".
Definition SYSTEM_USER : list Z := bytes "system".

Definition folder_create (path : list Z) : IO S Z :=
  '(r, e) ← call (X_mkdir path);
  if negb (r =? 0) then mret (if bool_decide (e = EEXIST) then 0 else -1)
  else
    pwd ← call (X_getpwnam SYSTEM_USER);
    gp ← call (X_getgrnam TELEPHONY_USER);
    match pwd, gp with
    | Some uid, Some gid =>
        r ← call (X_chown path uid gid);
        if negb (r =? 0) then mret (-1)
        else r ← call (X_chmod path); mret (if r =? 0 then 0 else -1)
    | _, _ => mret (-1)
    end.

Definition folder_exist (path : list Z) : IO S bool := call (X_stat_isdir path).

(** The loop of [folder_remove]; [sub] removes a subfolder.  It stops as soon
    as a subfolder has been removed. *)
Fixpoint remove_entries (sub : list Z -> IO S Z) (path : list Z)
    (entries : list (list Z * bool)) (ret : Z) : IO S Z :=
  match entries with
  | [] => mret ret
  | (name, _) :: es =>
      let file := in_buffer PATH_MAX (path_join path name) in
      if dot name then remove_entries sub path es ret
      else
        is_dir ← folder_exist file;
        ret ← (if (is_dir : bool) then sub file else mret ret);
        if is_dir && (ret =? 0) then mret ret
        else
          '(r, e) ← call (X_unlink file);
          if negb (r =? 0) && negb (bool_decide (e = ENOENT)) then mret (-1)
          else remove_entries sub path es ret
  end.

Fixpoint folder_remove_op (depth : nat) (path : list Z) : IO S Z :=
  match depth with
  | O => undefined
  | Datatypes.S n =>
      dir ← call (X_opendir path);
      match dir with
      | inl e => mret (if bool_decide (e = ENOENT) then 0 else -1)
      | inr entries =>
          ret ← remove_entries (folder_remove_op n) path entries 0;
          if ret =? 0 then call (X_rmdir path) else mret ret
      end
  end.

Definition folder_remove (path : list Z) : IO S Z := folder_remove_op FOLDER_DEPTH path.

End folders.

(** * The search ends and finds the files *)

(** No folder is nested so deep that its path fills [PATH_MAX]: such a path is
    not that of a folder, and lists no subfolder. *)
Definition short_paths `{Platform} : Prop :=
  forall h path, PATH_MAX - 1 <= Z.of_nat (length path) ->
    reply h (X_stat_isdir path) = false /\
    forall entries, reply h (X_opendir path) = inr entries -> Forall (fun e => e.2 = false) entries.

(** What the search of a firmware needs of the platform. *)
Record files_ok `{Platform} : Prop := { fo_alloc : alloc_ok; fo_paths : short_paths }.

Lemma subfolder_longer path name :
  Z.min (Z.of_nat (length path) + 1) (PATH_MAX - 1)
    <= Z.of_nat (length (in_buffer PATH_MAX (path_join path name))).
Proof.
  unfold in_buffer, path_join, PATH_MAX. rewrite length_take, !length_app. cbn [length bytes].
  change (length (bytes "/")) with 1%nat. lia.
Qed.

Section search.
Context `{Platform} {S : Type}.

Lemma dia_append h folder name files : alloc_ok ->
  dia (S := S) h (file_append folder name files)
    (fun r h' => r = files ++ [path_join folder name]).
Proof.
  intros Ha. unfold file_append.
  eapply (dia_bind _ _ _ anyQ).
  { apply dia_when; [intros _|done].
    eapply (dia_bind _ _ _ (fun ok _ => ok = true)); [by apply dia_call; [|apply Ha]|].
    intros ok h' _ ->. by apply dia_ret. }
  intros _ h1 _ _.
  eapply (dia_bind _ _ _ (fun ok _ => ok = true)); [by apply dia_call; [|apply Ha]|].
  intros ok h2 _ ->. cbn [ASSERT]. eapply (dia_bind _ _ _ anyQ); [by apply dia_ret|].
  intros. by apply dia_ret.
Qed.

Lemma dia_opendir h folder : short_paths ->
  dia (S := S) h (call (X_opendir folder)) (fun d _ => forall entries, d = inr entries ->
    PATH_MAX - 1 <= Z.of_nat (length folder) -> Forall (fun e => e.2 = false) entries).
Proof. intros Hp. apply dia_call; [done|]. intros entries E Hl. by eapply (Hp h folder Hl). Qed.

Lemma no_deep_subfolder (folder name : list Z) es :
  (PATH_MAX - 1 <= Z.of_nat (length folder) -> Forall (fun e => e.2 = false) ((name, true) :: es)) ->
  Z.of_nat (length folder) < PATH_MAX - 1.
Proof.
  intros He. destruct (decide (PATH_MAX - 1 <= Z.of_nat (length folder))) as [Hl|]; [|lia].
  specialize (He Hl). apply Forall_cons_iff in He as [Hd _]. done.
Qed.

(** A subfolder is searched with one level less. *)
Lemma dia_find_op n h reg folder files : files_ok ->
  PATH_MAX <= Z.of_nat (length folder) + Z.of_nat n -> (1 <= n)%nat ->
  dia (S := S) h (file_find_op n reg folder files) anyQ.
Proof.
  intros [Ha Hp]. revert h folder files.
  induction n as [|n IH]; intros h folder files Hl Hn; [lia|]. cbn [file_find_op].
  eapply dia_bind; [apply dia_opendir, Hp|]. cbv beta. intros [e|entries] h1 _ He; [by apply dia_ret|].
  specialize (He entries eq_refl).
  revert h1 files. induction entries as [|[name d] es IHe]; intros h1 files; cbn [find_entries];
    [by apply dia_ret|].
  assert (He' : PATH_MAX - 1 <= Z.of_nat (length folder) -> Forall (fun e => e.2 = false) es)
    by (intros Hx; specialize (He Hx); by apply Forall_cons_iff in He as [_ ?]).
  specialize (IHe He'). destruct (dot name); [apply IHe|]. destruct d.
  - eapply (dia_bind _ _ _ anyQ); [|intros; apply IHe].
    pose proof (no_deep_subfolder _ _ _ He). pose proof (subfolder_longer folder name).
    apply IH; lia.
  - eapply (dia_bind _ _ _ anyQ); [dia_auto|]. intros m h2 _ _. destruct m; [|apply IHe].
    eapply dia_bind; [by apply dia_append|]. intros; apply IHe.
Qed.

Lemma depth_enough (path : list Z) : PATH_MAX <= Z.of_nat (length path) + Z.of_nat FOLDER_DEPTH.
Proof. unfold FOLDER_DEPTH, PATH_MAX. lia. Qed.

Lemma depth_some : (1 <= FOLDER_DEPTH)%nat.
Proof. unfold FOLDER_DEPTH, PATH_MAX. lia. Qed.

Lemma dia_find h folder reg : files_ok -> dia (S := S) h (file_find folder reg) anyQ.
Proof.
  intros Hf. unfold file_find. eapply (dia_bind _ _ _ anyQ); [dia_auto|]. intros ok h1 _ _.
  eapply (dia_bind _ _ _ anyQ); [|intros; by apply dia_ret].
  destruct ok; [|by apply dia_ret]. apply dia_find_op; [done|apply depth_enough|apply depth_some].
Qed.

Lemma dia_remove_op n h path : files_ok ->
  PATH_MAX <= Z.of_nat (length path) + Z.of_nat n -> (1 <= n)%nat ->
  dia (S := S) h (folder_remove_op n path) anyQ.
Proof.
  intros [Ha Hp]. revert h path.
  induction n as [|n IH]; intros h path Hl Hn; [lia|]. cbn [folder_remove_op].
  eapply (dia_bind _ _ _ anyQ); [dia_auto|]. intros [e|entries] h1 _ _; [by apply dia_ret|].
  eapply (dia_bind _ _ _ anyQ); [|intros; dia_auto].
  generalize 0. revert h1.
  induction entries as [|[name d] es IHe]; intros h1 ret; cbn [remove_entries]; [by apply dia_ret|].
  destruct (dot name); [apply IHe|]. unfold folder_exist.
  set (file := in_buffer PATH_MAX (path_join path name)).
  eapply (dia_bind _ _ _ (fun b _ => b = true -> Z.of_nat (length file) < PATH_MAX - 1)).
  { apply dia_call; [done|]. intros Hb.
    destruct (decide (PATH_MAX - 1 <= Z.of_nat (length file))) as [Hd|]; [|lia].
    destruct (Hp h1 file Hd). congruence. }
  intros is_dir h2 _ Hb. eapply (dia_bind _ _ _ anyQ).
  { destruct is_dir; [|by apply dia_ret]. specialize (Hb eq_refl).
    pose proof (subfolder_longer path name). fold file in H0. apply IH; lia. }
  intros r h3 _ _. destruct (_ && _); [by apply dia_ret|].
  eapply (dia_bind _ _ _ anyQ); [dia_auto|]. intros [u e] h4 _ _. destruct (_ && _); [by apply dia_ret|].
  apply IHe.
Qed.

Lemma dia_remove h path : files_ok -> dia (S := S) h (folder_remove path) anyQ.
Proof. intros. apply dia_remove_op; [done|apply depth_enough|apply depth_some]. Qed.

End search.

#[export] Hint Resolve dia_find dia_remove : dia.

(** A platform that lists no folder. *)
Lemma no_folders_ok P : @alloc_ok P -> (forall h p, @reply P h (X_opendir p) = inr []) ->
  (forall h p, @reply P h (X_stat_isdir p) = false) -> @files_ok P.
Proof.
  intros Ha Ho Hs. split; [done|]. intros h p _. split; [apply Hs|].
  intros entries. rewrite Ho. by intros [= <-].
Qed.

(** The calls of the operations on folders. *)
Definition folder_call (c : extcall) : bool :=
  match c with
  | X_opendir _ | X_regcomp _ | X_regexec _ _ | X_calloc _ | X_stat_isdir _ | X_unlink _
  | X_rmdir _ => true
  | _ => false
  end.

Section folder_calls.
Context `{Platform} {S : Type} (R : S -> S -> Prop) `{HR : !PreOrder R} (P : extcall -> bool).
Context (HP : forall c, folder_call c = true -> P c = true).

Ltac folder_step :=
  first [ lazymatch goal with
          | |- within ?R ?P (@call ?H ?S ?c) => exact (@within_call S R _ P H c (HP c eq_refl))
          end
        | apply (within_bind R P); [|intros ?]
        | apply (within_when R P) | by apply (within_ret R P) | by apply (within_assert R P) ].

Lemma within_find_op n reg folder files : within R P (file_find_op n reg folder files).
Proof.
  revert folder files. induction n as [|n IH]; intros folder files; cbn [file_find_op];
    [apply within_undefined|].
  folder_step; [folder_step|]. destruct a as [e|entries]; [folder_step|]. revert files.
  induction entries as [|[name d] es IHe]; intros files; cbn [find_entries]; [folder_step|].
  destruct (dot name); [apply IHe|]. destruct d.
  - folder_step; [apply IH|apply IHe].
  - folder_step; [folder_step|]. destruct a; [|apply IHe].
    folder_step; [|apply IHe]. unfold file_append. repeat folder_step.
Qed.

Lemma within_find folder reg : within R P (file_find folder reg).
Proof.
  unfold file_find. folder_step; [folder_step|]. folder_step; [|folder_step].
  destruct a; [apply within_find_op|folder_step].
Qed.

Lemma within_remove path : within R P (folder_remove path).
Proof.
  unfold folder_remove. generalize FOLDER_DEPTH. intros n. revert path.
  induction n as [|n IH]; intros path; cbn [folder_remove_op]; [apply within_undefined|].
  folder_step; [folder_step|]. destruct a as [e|entries]; [folder_step|].
  folder_step; [|destruct (_ =? 0); folder_step].
  generalize 0. induction entries as [|[name d] es IHe]; intros ret; cbn [remove_entries];
    [folder_step|].
  destruct (dot name); [apply IHe|]. unfold folder_exist at 1. folder_step; [folder_step|].
  folder_step; [destruct a; [apply IH|folder_step]|].
  destruct (_ && _); [folder_step|]. folder_step; [folder_step|].
  destruct a1 as [u e]. destruct (_ && _); [folder_step|apply IHe].
Qed.
End folder_calls.

#[export] Hint Extern 1 (within _ _ (file_find _ _)) =>
  (apply within_find; [typeclasses eauto|by intros []]) : within.
#[export] Hint Extern 1 (within _ _ (folder_remove _)) =>
  (apply within_remove; [typeclasses eauto|by intros []]) : within.

(** * What is found *)

Section found.
Context (fs : list Z -> errno + list (list Z * bool)) (matches : list Z -> bool).

(** [path] is a file below [folder] whose name matches. *)
Inductive found_in : list Z -> list Z -> Prop :=
| found_here folder entries name :
    fs folder = inr entries -> (name, false) ∈ entries -> dot name = false ->
    matches name = true -> found_in folder (path_join folder name)
| found_below folder entries name path :
    fs folder = inr entries -> (name, true) ∈ entries -> dot name = false ->
    found_in (in_buffer PATH_MAX (path_join folder name)) path -> found_in folder path.

(** The same, for some of the entries of [folder]. *)
Definition found_among (folder : list Z) (entries : list (list Z * bool)) (path : list Z) : Prop :=
  exists name d, (name, d) ∈ entries /\ dot name = false /\
    if (d : bool) then found_in (in_buffer PATH_MAX (path_join folder name)) path
    else matches name = true /\ path = path_join folder name.

Lemma found_in_among folder entries path : fs folder = inr entries ->
  found_in folder path <-> found_among folder entries path.
Proof.
  intros Hf. split.
  - intros Hp. destruct Hp as [folder es name E Hi Hd Hm|folder es name path E Hi Hd Hp];
      rewrite E in Hf; injection Hf as ->; [by exists name, false|by exists name, true].
  - intros (name & [|] & Hi & Hd & Hp); [by eapply found_below|].
    destruct Hp as [Hm ->]. by eapply found_here.
Qed.

Lemma found_among_cons folder name d es path : found_among folder ((name, d) :: es) path <->
  (dot name = false /\ if d then found_in (in_buffer PATH_MAX (path_join folder name)) path
                       else matches name = true /\ path = path_join folder name)
  \/ found_among folder es path.
Proof.
  unfold found_among. split.
  - intros (n & d' & Hi & Hr). apply elem_of_cons in Hi as [[= -> ->]|Hi]; [by left|].
    right. eauto.
  - intros [Hr|(n & d' & Hi & Hr)]; [exists name, d|exists n, d']; (split; [|done]);
      [by left|by right].
Qed.

(** The file system and the pattern do not change during the search. *)
Record still_files `{Platform} (reg : list Z) : Prop := {
  sf_dir : forall h folder, reply h (X_opendir folder) = fs folder;
  sf_comp : forall h, reply h (X_regcomp reg) = true;
  sf_exec : forall h name, reply h (X_regexec reg name) = matches name }.

Context `{Platform} {S : Type} (reg : list Z) (Hok : files_ok) (Hst : still_files reg).

(** The files of [r] are those of [files] and those with [P]. *)
Abbreviation adds r files P := (forall p, p ∈ r <-> p ∈ files \/ P p).

Lemma find_op_spec n h folder files :
  PATH_MAX <= Z.of_nat (length folder) + Z.of_nat n -> (1 <= n)%nat ->
  dia (S := S) h (file_find_op n reg folder files) (fun r _ => adds r files (found_in folder)).
Proof.
  destruct Hok as [Ha Hp]. revert h folder files.
  induction n as [|n IH]; intros h folder files Hl Hn; [lia|]. cbn [file_find_op].
  eapply (dia_bind _ _ _ (fun d _ => d = fs folder)); [by apply dia_call; [|by apply (sf_dir _ Hst)]|].
  intros d h1 _ ->. destruct (fs folder) as [e|entries] eqn:Ef.
  { apply dia_ret. intros p. split; [by left|]. intros [|Hf]; [done|].
    destruct Hf; congruence. }
  eapply dia_mono with (Q := fun r _ => adds r files (found_among folder entries)).
  2:{ intros r h' _ Hr p. rewrite Hr. by rewrite (found_in_among folder entries). }
  assert (He : PATH_MAX - 1 <= Z.of_nat (length folder) -> Forall (fun e => e.2 = false) entries).
  { intros Hd. apply (Hp h folder Hd). by rewrite (sf_dir _ Hst). }
  clear Ef. revert h1 files.
  induction entries as [|[name d] es IHe]; intros h1 files; cbn [find_entries].
  { apply dia_ret. intros p. split; [by left|]. intros [|(? & ? & Hi & _)]; [done|].
    by apply elem_of_nil in Hi. }
  assert (He' : PATH_MAX - 1 <= Z.of_nat (length folder) -> Forall (fun e => e.2 = false) es)
    by (intros Hx; specialize (He Hx); by apply Forall_cons_iff in He as [_ ?]).
  specialize (IHe He'). destruct (dot name) eqn:Ed.
  - eapply dia_mono; [apply IHe|]. cbv beta. intros r h' _ Hr p.
    rewrite Hr, found_among_cons. naive_solver congruence.
  - destruct d.
    + pose proof (no_deep_subfolder _ _ _ He). pose proof (subfolder_longer folder name).
      eapply dia_bind; [apply IH; lia|]. cbv beta. intros f h2 _ Hf.
      eapply dia_mono; [apply IHe|]. cbv beta. intros r h' _ Hr p.
      rewrite Hr, found_among_cons, Hf. tauto.
    + eapply (dia_bind _ _ _ (fun m _ => m = matches name));
        [by apply dia_call; [|by apply (sf_exec _ Hst)]|].
      intros m h2 _ ->. destruct (matches name) eqn:Em.
      * eapply dia_bind; [by apply dia_append|]. cbv beta. intros f h3 _ ->.
        eapply dia_mono; [apply IHe|]. cbv beta. intros r h' _ Hr p.
        rewrite Hr, found_among_cons, elem_of_app, list_elem_of_singleton. tauto.
      * eapply dia_mono; [apply IHe|]. cbv beta. intros r h' _ Hr p.
        rewrite Hr, found_among_cons. naive_solver congruence.
Qed.

End found.

#[export] Instance str_le_total : Total str_le.
Proof.
  intros a. unfold str_le. induction a as [|x a IH]; intros [|y b]; cbn; [by left|by left|by right|].
  destruct (IH b), (Z.ltb_spec x y), (Z.ltb_spec y x), (Z.eqb_spec x y), (Z.eqb_spec y x);
    cbn; auto; lia.
Qed.

(** The search of files, in a file system that does not change meanwhile:
    it ends, and gives in the order of [strcmp] exactly the files below the
    folder, at any depth, whose name matches the pattern. *)
Theorem file_find_spec `{Platform} {S} fs matches folder regexp (s : S) h :
  files_ok -> still_files fs matches regexp ->
  wp False (file_find folder regexp) (fun files s' _ => s' = s /\
    Sorted str_le files /\ forall p, p ∈ files <-> found_in fs matches folder p) s h.
Proof.
  intros Hok Hst. cut (dia (S := S) h (file_find folder regexp) (fun files _ =>
    Sorted str_le files /\ forall p, p ∈ files <-> found_in fs matches folder p)).
  { intros Hd. eapply wp_mono; [apply Hd|]. cbv beta. naive_solver. }
  unfold file_find.
  eapply (dia_bind _ _ _ (fun ok _ => ok = true)); [by apply dia_call; [|apply (sf_comp _ _ _ Hst)]|].
  intros ok h1 _ ->.
  eapply dia_bind; [apply (find_op_spec fs matches); [done..|apply depth_enough|apply depth_some]|].
  cbv beta. intros files h2 _ Hf. apply dia_ret. split; [apply (Sorted_merge_sort str_le)|].
  intros p. unfold file_sort. rewrite (merge_sort_Permutation str_le files), Hf.
  split; [|by right]. intros [Hn|]; [|done]. by apply elem_of_nil in Hn.
Qed.

(** A small file system: two firmwares, one of them in a subfolder. *)
Definition demo_fs (path : list Z) : errno + list (list Z * bool) :=
  if bool_decide (path = bytes "/fw")
  then inr [(bytes ".", true); (bytes "..", true); (bytes "m.fls", false); (bytes "a", true);
            (bytes "note", false)]
  else if bool_decide (path = bytes "/fw/a") then inr [(bytes "n.fls", false)]
  else inl ENOENT.

Definition is_fls (name : list Z) : bool := contains (bytes ".fls") name.

Definition with_files : Platform := with_reply still (fun h c =>
  match c with
  | X_opendir p => demo_fs p
  | X_regexec _ n => is_fls n
  | c => @reply still h c
  end).

Lemma with_files_ok : @files_ok with_files.
Proof.
  split; [done|]. intros h path Hp. split; [done|]. intros entries.
  cbn [reply with_files with_reply]. unfold demo_fs. unfold PATH_MAX in Hp.
  repeat case_bool_decide; subst; [cbn in Hp; lia..|done].
Qed.

Lemma file_find_spec_witness :
  exists h', @file_find with_files unit (bytes "/fw") (bytes "x") tt [] =
    Done [bytes "/fw/a/n.fls"; bytes "/fw/m.fls"] tt h' /\
  forall p, p ∈ [bytes "/fw/a/n.fls"; bytes "/fw/m.fls"] <-> found_in demo_fs is_fls (bytes "/fw") p.
Proof.
  assert (Hst : @still_files demo_fs is_fls with_files (bytes "x")) by done.
  destruct (wp_done _ _ _ _ (@file_find_spec with_files unit _ _ (bytes "/fw") (bytes "x") tt []
    with_files_ok Hst)) as (files & s' & h' & E & -> & _ & Hf).
  vm_compute in E. injection E as <- <-. eexists. split; [reflexivity|]. exact Hf.
Defined.

(** [folder_remove] gives up once it has removed a subfolder: whatever comes
    after it in the listing is never unlinked, and the folder itself, not empty,
    is then asked to be removed. *)
Theorem folder_remove_stops_at_subfolder :
  exists h', @folder_remove
    (with_reply still (fun h c =>
      match c with
      | X_opendir p => if bool_decide (p = bytes "/d") then inr [(bytes "sub", true); (bytes "f", false)]
                       else inr []
      | X_stat_isdir p => bool_decide (p = bytes "/d/sub")
      | c => @reply still h c
      end)) unit (bytes "/d") tt [] = Done 0 tt h' /\
  h' = [X_rmdir (bytes "/d"); X_rmdir (bytes "/d/sub"); X_opendir (bytes "/d/sub");
        X_stat_isdir (bytes "/d/sub"); X_opendir (bytes "/d")].
Proof. eexists. split; vm_compute; reflexivity. Qed.
