(* ===== verification/At.v ===== *)
(** The dialogue with the modem's terminal: AT commands (libutils/at.c), the
    multiplexer (core/mux.c), what is asked of the modem before it is activated
    (core/modem_info.c) and the channels (core/mdm_dlc.c).

    [snprintf] into a buffer is [in_buffer].  Lines that are only logged (the
    answer to AT+XLOG) are read and dropped. *)
From S2P Require Import Prelude Platform Io Files.

(** * libutils/at.c *)

Definition AT_SIZE : Z := 20.
Definition AT_READ_MAX_RETRIES : Z := 4.
Definition AT_ANSWER_NO_TIMEOUT : Z := 0.
Definition AT_ANSWER_SHORT_TIMEOUT : Z := 2500.

Section at_commands.
Context `{Platform} {S : Type}.

(** The loop waiting for an answer; a "PBREADY" is not one. *)
Fixpoint send_at_wait (fuel : nat) (fd timeout : Z) : IO S e_mmgr_errors :=
  match fuel with
  | O => undefined
  | Datatypes.S n =>
      ret ← tty_wait_for_event fd timeout;
      if negb (succeeded ret) then mret ret
      else
        '(ret, data) ← tty_read fd AT_SIZE AT_READ_MAX_RETRIES;
        if negb (succeeded ret) then mret ret
        else if contains (bytes "OK") (cstr data)
             then _ ← call (X_tcflush fd); mret E_ERR_SUCCESS
        else if contains (bytes "PBREADY") (cstr data) then send_at_wait n fd timeout
        else _ ← call (X_tcflush fd); mret E_ERR_FAILED
  end.

Definition send_at (fd : Z) (command : list Z) (timeout : Z) : IO S e_mmgr_errors :=
  _ ← call (X_tcflush fd);
  ret ← tty_write fd command;
  if negb (succeeded ret) then mret ret
  else if timeout =? AT_ANSWER_NO_TIMEOUT then mret ret
  else send_at_wait loop_fuel fd timeout.

(** [tries] is the value of [retry] plus one. *)
Fixpoint send_at_loop (tries : nat) (fd_tty : Z) (at_cmd : list Z) (timeout : Z)
    (ret : e_mmgr_errors) : IO S e_mmgr_errors :=
  match tries with
  | O => mret ret
  | Datatypes.S n =>
      ret ← send_at fd_tty at_cmd timeout;
      if bool_decide (ret = E_ERR_TTY_BAD_FD) || bool_decide (ret = E_ERR_TTY_POLLHUP)
         || bool_decide (ret = E_ERR_SUCCESS)
      then mret ret
      else send_at_loop n fd_tty at_cmd timeout ret
  end.

Definition send_at_retry (fd_tty : Z) (at_cmd : list Z) (retry timeout : Z) : IO S e_mmgr_errors :=
  send_at_loop (Z.to_nat (retry + 1)) fd_tty at_cmd timeout E_ERR_FAILED.

End at_commands.

(** * core/mdm_dlc.c *)

(** The part of the configuration of the multiplexer the daemon reads. *)
Record mux_t := { frame_size : Z; retry : Z }.

Record mdm_dlc := {
  sanity_check : list Z; shtdwn : list Z; custom : list Z; cd_logs : list Z; mux : mux_t }.

Definition mdm_dlc_get_shutdown (d : mdm_dlc) : list Z := shtdwn d.
Definition mdm_dlc_get_streamline (d : mdm_dlc) : list Z := custom d.
Definition mdm_dlc_get_sanity (d : mdm_dlc) : list Z := sanity_check d.
Definition mdm_dlc_get_cd_logs (d : mdm_dlc) : list Z := cd_logs d.
Definition mdm_dlc_get_mux_cfg (d : mdm_dlc) : mux_t := mux d.

(** The channels of the telephony configuration. *)
Record channels_mmgr := {
  ch_sanity_check : list Z; ch_shutdown : list Z; ch_mdm_custo : list Z; ch_cd_logs : list Z }.

(** [None] is the NULL handle of a configuration with an empty channel. *)
Definition mdm_dlc_init `{Platform} (com_mux : mux_t) (ch : channels_mmgr)
  : IO (option mdm_dlc) unit :=
  ok ← call (X_calloc (4 * PATH_MAX + 8));
  ASSERT ok ;;
  let d := {| sanity_check := in_buffer PATH_MAX (ch_sanity_check ch);
              shtdwn := in_buffer PATH_MAX (ch_shutdown ch);
              custom := in_buffer PATH_MAX (ch_mdm_custo ch);
              cd_logs := in_buffer PATH_MAX (ch_cd_logs ch); mux := com_mux |} in
  let empty (l : list Z) := bool_decide (cstr l = []) in
  modify (fun _ => if empty (sanity_check d) || empty (shtdwn d) || empty (cd_logs d)
                      || empty (custom d) then None else Some d).

(** * core/mux.c *)

Definition CR : list Z := [13].
Definition AT_PING_CMD : list Z := bytes "ATE0" ++ CR.
Definition N_GSM0710 : Z := 21.
Definition AT_MUX_CMD_SIZE : Z := 128.

Section mux.
Context `{Platform} {S : Type}.

Definition modem_handshake (fd_tty retry : Z) : IO S e_mmgr_errors :=
  send_at_retry fd_tty AT_PING_CMD retry AT_ANSWER_SHORT_TIMEOUT.

(** What the driver's configuration becomes. *)
Definition mux_cfg (cfg : gsm_config) (max_frame_size : Z) : gsm_config :=
  {| adaption := adaption cfg; encapsulation := 0; initiator := 1; gsm_t1 := gsm_t1 cfg;
     gsm_t2 := gsm_t2 cfg; gsm_t3 := gsm_t3 cfg; gsm_n2 := gsm_n2 cfg;
     mru := max_frame_size; mtu := max_frame_size; gsm_k := gsm_k cfg; gsm_i := gsm_i cfg;
     clocal := clocal cfg; burst := 0 |}.

Definition configure_cmux_driver (fd_tty max_frame_size : Z) : IO S e_mmgr_errors :=
  err ← call (X_tiocsetd fd_tty N_GSM0710);
  if err <? 0 then mret E_ERR_FAILED
  else
    '(err, ldisc) ← call (X_tiocgetd fd_tty);
    if err <? 0 then mret E_ERR_FAILED
    else if negb (ldisc =? N_GSM0710) then mret E_ERR_FAILED
    else
      '(err, cfg) ← call (X_gsm_getconf fd_tty);
      if err <? 0 then mret E_ERR_FAILED
      else
        err ← call (X_gsm_setconf fd_tty (mux_cfg cfg max_frame_size));
        mret (if err <? 0 then E_ERR_FAILED else E_ERR_SUCCESS).

(** "AT+CMUX=%d,%d,,%d,%d,%d,%d,," with AT_MUX_MODE and AT_MUX_SUBSET 0, T1 10,
    N2 3 and T2 30. *)
Definition at_cmux_config (m : mux_t) : list Z :=
  in_buffer AT_MUX_CMD_SIZE
    (bytes "AT+CMUX=" ++ print_int 0 ++ bytes "," ++ print_int 0 ++ bytes ",,"
     ++ print_int (frame_size m) ++ bytes "," ++ print_int 10 ++ bytes "," ++ print_int 3
     ++ bytes "," ++ print_int 30 ++ bytes ",," ++ CR).

Definition send_at_cmux (fd_tty : Z) (m : mux_t) : IO S e_mmgr_errors :=
  send_at_retry fd_tty (at_cmux_config m) (retry m) AT_ANSWER_SHORT_TIMEOUT.

End mux.

(** * core/modem_info.c *)

Definition AT_XLOG_GET : list Z := bytes "AT+XLOG=0" ++ CR.
Definition AT_XLOG_RESET : list Z := bytes "AT+XLOG=2" ++ CR.
Definition AT_XLOG_TIMEOUT : Z := 2500.
Definition AT_ANSWER_SIZE : Z := 254.
Definition AT_STREAMLINE_GET : list Z :=
  bytes "at@usbmwtestfw:usb_profile_get_nvm_configuration(USBPOW_ID_HSIC)" ++ CR.
Definition AT_STREAMLINE_TIMEOUT : Z := 1000.
Definition AT_STREAMLINE_REPLY_SIZE : Z := 2048.
(** The separator of lines, [AT_STREAMLINE_LINE_SEPARATOR] and
    [AT_DEFAULT_LINE_SEPARATOR]. *)
Definition LINE_SEPARATOR : list Z := [13; 10].
Definition AT_DEFAULT_TIMEOUT : Z := 2500.
Definition AT_DEFAULT_RESPONSE_SIZE : Z := 2048.
Definition STAT_DELAY : Z := 250.
Definition MAX_TIME_DELAY : Z := 4.

(** What a complete line of the answer says: the end of the answer, or the
    configuration so far. *)
Definition wakeup_line (cr : list Z) (cfg : e_mdm_wakeup_cfg) : bool * e_mdm_wakeup_cfg :=
  if bool_decide (cr = bytes "OK") || bool_decide (cr = bytes "ERROR") then (true, cfg)
  else if contains (bytes "current_configuration") cr then
    (false, if contains (bytes "NO_REMOTE_WAKEUP") cr then E_MDM_WAKEUP_OUTBAND
            else E_MDM_WAKEUP_INBAND)
  else (false, cfg).

(** The complete lines of the string at [cr], and what is left of it. *)
Fixpoint wakeup_lines (fuel : nat) (cr : list Z) (cfg : e_mdm_wakeup_cfg)
  : bool * e_mdm_wakeup_cfg * list Z :=
  match fuel with
  | O => (false, cfg, cr)
  | S n =>
      match strstr LINE_SEPARATOR cr with
      | Some k =>
          let '(fin, cfg) := wakeup_line (take k cr) cfg in
          if fin then (true, cfg, [])
          else wakeup_lines n (drop (k + length LINE_SEPARATOR) cr) cfg
      | None => (false, cfg, cr)
      end
  end.

(** [lineLen] bytes of a line, given to the callback with the descriptor of the
    file; its result and the length it gives back. *)
Abbreviation PFN_PARSE_RESP S := (Z -> list Z -> Z -> IO S (Z * Z)).

Section modem_info.
Context `{Platform} {S : Type}.

(** The loop that reads and logs the answer. *)
Fixpoint xlog_loop (fuel : nat) (fd_tty : Z) : IO S e_mmgr_errors :=
  match fuel with
  | O => undefined
  | Datatypes.S n =>
      '(ret, data) ← tty_read fd_tty AT_ANSWER_SIZE AT_READ_MAX_RETRIES;
      if negb (succeeded ret) then mret ret
      else if (0 <? length data)%nat then xlog_loop n fd_tty else mret ret
  end.

Definition run_at_xlog (fd_tty max_retry : Z) : IO S e_mmgr_errors :=
  _ ← call (X_tcflush fd_tty);
  ret ← tty_write fd_tty AT_XLOG_GET;
  if negb (succeeded ret) then mret ret
  else
    ret ← tty_wait_for_event fd_tty AT_XLOG_TIMEOUT;
    if negb (succeeded ret) then mret ret
    else
      ret ← xlog_loop loop_fuel fd_tty;
      if negb (succeeded ret) then mret ret
      else
        _ ← call (X_tcflush fd_tty);
        send_at_retry fd_tty AT_XLOG_RESET max_retry AT_ANSWER_SHORT_TIMEOUT.

(** The inner loop, with [pending] the [in_buffer] bytes of [data].  Result:
    whether to leave, the configuration and the pending bytes. *)
Fixpoint wakeup_read (fuel : nat) (fd_tty : Z) (pending : list Z) (cfg : e_mdm_wakeup_cfg)
  : IO S (bool * e_mdm_wakeup_cfg * list Z) :=
  match fuel with
  | O => undefined
  | Datatypes.S n =>
      let read_size := AT_STREAMLINE_REPLY_SIZE - Z.of_nat (length pending) in
      if read_size <=? 0 then mret (true, cfg, pending)
      else
        '(err, d) ← tty_read fd_tty read_size 1;
        if negb (succeeded err) then mret (true, cfg, pending)
        else if (length d <=? 0)%nat then mret (false, cfg, pending)
        else
          let cr := cstr (pending ++ d) in
          let '(fin, cfg, rest) := wakeup_lines (Datatypes.S (length cr)) cr cfg in
          if fin then mret (true, cfg, rest) else wakeup_read n fd_tty rest cfg
  end.

(** What is left of [AT_STREAMLINE_TIMEOUT], an [int]. *)
Definition wakeup_timeout (start current : timespec) : Z :=
  int32 (AT_STREAMLINE_TIMEOUT - ((ts_sec current - ts_sec start) * 1000
                                  + Z.quot (ts_nsec current - ts_nsec start) 1000000)).

Fixpoint wakeup_loop (fuel : nat) (fd_tty : Z) (start : timespec) (pending : list Z)
    (cfg : e_mdm_wakeup_cfg) : IO S e_mdm_wakeup_cfg :=
  match fuel with
  | O => undefined
  | Datatypes.S n =>
      current ← call (X_clock_gettime CLOCK_BOOTTIME);
      let timeout := wakeup_timeout start current in
      if timeout <? 0 then mret cfg
      else
        err ← tty_wait_for_event fd_tty timeout;
        if negb (succeeded err) then mret cfg
        else
          '(out, cfg, pending) ← wakeup_read loop_fuel fd_tty pending cfg;
          if (out : bool) then mret cfg else wakeup_loop n fd_tty start pending cfg
  end.

Definition get_wakeup_cfg (fd_tty : Z) : IO S e_mdm_wakeup_cfg :=
  _ ← call (X_tcflush fd_tty);
  err ← tty_write fd_tty AT_STREAMLINE_GET;
  cfg ← (if negb (succeeded err) then mret E_MDM_WAKEUP_UNKNOWN
         else
           start ← call (X_clock_gettime CLOCK_BOOTTIME);
           wakeup_loop loop_fuel fd_tty start [] E_MDM_WAKEUP_UNKNOWN);
  _ ← call (X_tcflush fd_tty);
  mret cfg.

(** [%02d] and [%4d]. *)
Definition pad (c : Z) (width : nat) (n : Z) : list Z :=
  let l := print_int n in replicate (width - length l) c ++ l.

(** [None] when [timestamp] is left alone. *)
Definition generate_timestamp (size : Z) : IO S (option (list Z)) :=
  curTime ← call X_time;
  if curTime =? -1 then mret None
  else
    t ← call (X_localtime curTime);
    mret ((fun t => in_buffer size
       (pad 32 4 (tm_year t + 1900) ++ pad 48 2 (tm_mon t + 1) ++ pad 48 2 (tm_mday t)
        ++ pad 48 2 (tm_hour t) ++ pad 48 2 (tm_min t) ++ pad 48 2 (tm_sec t))) <$> t).

(** The lines of the string at [cr].  Result: whether to leave, the value of
    [ret] and what is left of the string. *)
Fixpoint cd_lines (fuel : nat) (parseFct : PFN_PARSE_RESP S) (fd_fs : Z) (cr : list Z) (ret : Z)
  : IO S (bool * Z * list Z) :=
  match fuel with
  | O => undefined
  | Datatypes.S n =>
      match strstr LINE_SEPARATOR cr with
      | None => mret (false, ret, cr)
      | Some k =>
          let line := take k cr in
          if (k =? 0)%nat then cd_lines n parseFct fd_fs (drop (length LINE_SEPARATOR) cr) ret
          else
            '(res, _) ← parseFct fd_fs line (Z.of_nat (length line));
            if 0 <? res then mret (true, 0, cr)
            else if res =? 0
                 then cd_lines n parseFct fd_fs (drop (k + length LINE_SEPARATOR) cr) (-1)
                 else mret (true, ret, cr)
      end
  end.

Fixpoint read_cd_loop (fuel : nat) (fd_tty fd_fs : Z) (parseFct : PFN_PARSE_RESP S)
    (pending : list Z) (ret : Z) : IO S Z :=
  match fuel with
  | O => undefined
  | Datatypes.S n =>
      err ← tty_wait_for_event fd_tty AT_DEFAULT_TIMEOUT;
      if negb (succeeded err) then mret ret
      else
        let read_size := AT_DEFAULT_RESPONSE_SIZE - Z.of_nat (length pending) in
        if read_size <=? 0 then mret ret
        else
          '(err, d) ← tty_read fd_tty read_size 1;
          if negb (succeeded err) then mret ret
          else if (length d <=? 0)%nat then mret (-1)
          else
            let cr := cstr (pending ++ d) in
            '(out, ret, rest) ← cd_lines (Datatypes.S (length cr)) parseFct fd_fs cr ret;
            if (out : bool) then mret ret
            else if (0 <? length rest)%nat then read_cd_loop n fd_tty fd_fs parseFct rest ret
            else mret ret
  end.

Definition read_cd_logs (fd_tty fd_fs : Z) (parseFct : PFN_PARSE_RESP S) : IO S Z :=
  if fd_tty <=? 0 then mret (-2)
  else read_cd_loop loop_fuel fd_tty fd_fs parseFct [] (-2).

End modem_info.

(** The steps of [switch_to_mux], in order. *)
Inductive e_switch_to_mux_states :=
| E_MUX_HANDSHAKE | E_MUX_XLOG | E_MUX_GET_STREAMLINE | E_MUX_AT_CMD | E_MUX_DRIVER.
#[export] Instance e_switch_to_mux_states_eq : EqDecision e_switch_to_mux_states.
Proof. solve_decision. Defined.

(** [state++]. *)
Definition next_mux_state (st : e_switch_to_mux_states) : e_switch_to_mux_states :=
  match st with
  | E_MUX_HANDSHAKE => E_MUX_XLOG | E_MUX_XLOG => E_MUX_GET_STREAMLINE
  | E_MUX_GET_STREAMLINE => E_MUX_AT_CMD | E_MUX_AT_CMD | E_MUX_DRIVER => E_MUX_DRIVER
  end.

Section switch_to_mux.
Context `{Platform} {S : Type}.

(** One step: its status and the wake-up configuration. *)
Definition mux_step (st : e_switch_to_mux_states) (fd_tty : Z) (mdm_bb_type : e_link)
    (m : mux_t) (cfg : e_mdm_wakeup_cfg) : IO S (e_mmgr_errors * e_mdm_wakeup_cfg) :=
  match st with
  | E_MUX_HANDSHAKE => ret ← modem_handshake fd_tty (retry m); mret (ret, cfg)
  | E_MUX_XLOG => ret ← run_at_xlog fd_tty (retry m); mret (ret, cfg)
  | E_MUX_GET_STREAMLINE =>
      if bool_decide (mdm_bb_type = E_LINK_USB)
      then cfg ← get_wakeup_cfg fd_tty; mret (E_ERR_SUCCESS, cfg)
      else mret (E_ERR_SUCCESS, E_MDM_WAKEUP_UNKNOWN)
  | E_MUX_AT_CMD => ret ← send_at_cmux fd_tty m; mret (ret, cfg)
  | E_MUX_DRIVER => mret (E_ERR_FAILED, cfg)
  end.

(** The loop over the steps; the terminal is opened again at most once.
    Result: whether the last step is reached, the status, and the final values
    of [*fd_tty] and [*wakeup_cfg].  At most five iterations are made. *)
Fixpoint mux_states (fuel : nat) (st : e_switch_to_mux_states) (retry_bad_fd_done : bool)
    (fd_tty : Z) (mdm_bb_path : list Z) (mdm_bb_type : e_link) (m : mux_t)
    (cfg : e_mdm_wakeup_cfg) : IO S (bool * e_mmgr_errors * Z * e_mdm_wakeup_cfg) :=
  match st with
  | E_MUX_DRIVER => mret (true, E_ERR_SUCCESS, fd_tty, cfg)
  | _ =>
      match fuel with
      | O => undefined
      | Datatypes.S n =>
          '(ret, cfg) ← mux_step st fd_tty mdm_bb_type m cfg;
          if succeeded ret
          then mux_states n (next_mux_state st) retry_bad_fd_done fd_tty mdm_bb_path mdm_bb_type m cfg
          else if bool_decide (ret = E_ERR_TTY_BAD_FD) && negb retry_bad_fd_done then
            '(_, fd_tty) ← tty_close fd_tty;
            '(ret, fd_tty) ← tty_open mdm_bb_path fd_tty;
            if succeeded ret
            then mux_states n st true fd_tty mdm_bb_path mdm_bb_type m cfg
            else mret (false, ret, fd_tty, cfg)
          else mret (false, E_ERR_FAILED, fd_tty, cfg)
      end
  end.

(** The loop that waits for the channel of the sanity check. *)
Fixpoint mux_wait_dlc (fuel : nat) (sanity_check_dlc : list Z) (start : timespec)
  : IO S e_mmgr_errors :=
  match fuel with
  | O => undefined
  | Datatypes.S n =>
      call (X_usleep (STAT_DELAY * 1000)) ;;
      r ← call (X_open sanity_check_dlc);
      if 0 <=? r.1 then _ ← call (X_close r.1); mret E_ERR_SUCCESS
      else
        current ← call (X_clock_gettime CLOCK_MONOTONIC);
        let limit := ts_sec start + MAX_TIME_DELAY in
        if (ts_sec current <? limit)
           || ((ts_sec current =? limit) && (ts_nsec current <? ts_nsec start))
        then mux_wait_dlc n sanity_check_dlc start
        else mret E_ERR_FAILED
  end.

(** Result: the status and the final values of [*fd_tty] and [*wakeup_cfg]. *)
Definition switch_to_mux (fd_tty : Z) (mdm_bb_path : list Z) (mdm_bb_type : e_link) (m : mux_t)
    (sanity_check_dlc : list Z) (wakeup_cfg : e_mdm_wakeup_cfg)
  : IO S (e_mmgr_errors * Z * e_mdm_wakeup_cfg) :=
  '(go_on, ret, fd_tty, cfg) ←
     mux_states 5 E_MUX_HANDSHAKE false fd_tty mdm_bb_path mdm_bb_type m wakeup_cfg;
  if negb go_on then mret (ret, fd_tty, cfg)
  else
    ret ← configure_cmux_driver fd_tty (frame_size m);
    if negb (succeeded ret) then mret (ret, fd_tty, cfg)
    else
      start ← call (X_clock_gettime CLOCK_MONOTONIC);
      ret ← mux_wait_dlc loop_fuel sanity_check_dlc start;
      if negb (succeeded ret) then mret (ret, fd_tty, cfg)
      else ret ← tty_set_termio fd_tty; mret (ret, fd_tty, cfg).

End switch_to_mux.

(** * The dialogue ends *)

(** Nanoseconds of a clock. *)
Definition nanoseconds (t : timespec) : Z := ts_sec t * 10 ^ 9 + ts_nsec t.

(** The monotonic clock advances by what the program sleeps, never goes back
    and gives normal values; the bound on loops allows four seconds of
    [STAT_DELAY]. *)
Record sleeps_pass `{Platform} : Prop := {
  sp_normal : forall h, 0 <= ts_nsec (reply h (X_clock_gettime CLOCK_MONOTONIC)) < 10 ^ 9;
  sp_monotone : forall h c, nanoseconds (reply h (X_clock_gettime CLOCK_MONOTONIC))
    <= nanoseconds (reply (c :: h) (X_clock_gettime CLOCK_MONOTONIC));
  sp_usleep : forall h u, 0 <= u -> nanoseconds (reply h (X_clock_gettime CLOCK_MONOTONIC)) + u * 1000
    <= nanoseconds (reply (X_usleep u :: h) (X_clock_gettime CLOCK_MONOTONIC));
  sp_fuel : (16 <= loop_fuel)%nat }.

Section endings.
Context `{Platform} {S : Type} (Hp : terminals_pause).

Lemma dia_at_wait n h fd timeout : (loop_fuel <= n + answers h)%nat ->
  dia (S := S) h (send_at_wait n fd timeout) anyQ.
Proof.
  revert h. induction n as [|n IH]; intros h Hn; [specialize (Hp h); lia|]. cbn [send_at_wait].
  eapply dia_bind; [apply dia_wait|]. cbv beta. intros ret h1 He1 Ha.
  destruct (succeeded ret) eqn:Es; cbn [negb]; [|by apply dia_ret].
  unfold succeeded in Es. apply bool_decide_eq_true in Es. specialize (Ha Es).
  eapply dia_bind; [apply dia_read; done|]. cbv beta. intros [r d] h2 He2 _.
  apply answers_mono in He2. dia_auto. apply IH. lia.
Qed.

Lemma dia_send_at h fd cmd timeout : dia (S := S) h (send_at fd cmd timeout) anyQ.
Proof. unfold send_at. dia_auto. apply dia_at_wait. lia. Qed.

#[local] Hint Resolve dia_send_at : dia.

Lemma dia_send_at_retry h fd cmd retry timeout :
  dia (S := S) h (send_at_retry fd cmd retry timeout) anyQ.
Proof.
  unfold send_at_retry. generalize E_ERR_FAILED, (Z.to_nat (retry + 1)). intros ret n.
  revert h ret. induction n as [|n IH]; intros h ret; cbn [send_at_loop]; dia_auto.
Qed.

#[local] Hint Resolve dia_send_at_retry : dia.

Lemma dia_cmux h fd m : dia (S := S) h (send_at_cmux fd m) anyQ.
Proof. apply dia_send_at_retry. Qed.

Lemma dia_handshake h fd n : dia (S := S) h (modem_handshake fd n) anyQ.
Proof. apply dia_send_at_retry. Qed.

Lemma dia_driver h fd n : dia (S := S) h (configure_cmux_driver fd n) anyQ.
Proof. unfold configure_cmux_driver. dia_auto. Qed.

Lemma dia_xlog_loop n h fd : (loop_fuel <= n + answers h)%nat ->
  dia (S := S) h (xlog_loop n fd) anyQ.
Proof.
  revert h. induction n as [|n IH]; intros h Hn; [specialize (Hp h); lia|]. cbn [xlog_loop].
  eapply dia_bind; [apply dia_read; done|]. cbv beta. intros [r d] h1 He1 [_ Ha]. cbn [snd] in Ha.
  destruct (negb (succeeded r)); [by apply dia_ret|].
  destruct (Nat.ltb_spec 0 (length d)); [|by apply dia_ret].
  apply IH. destruct d; [cbn in *; lia|]. specialize (Ha ltac:(done)). lia.
Qed.

Lemma dia_xlog h fd n : dia (S := S) h (run_at_xlog fd n) anyQ.
Proof. unfold run_at_xlog. dia_auto. apply dia_xlog_loop. lia. Qed.

Lemma dia_wakeup_read n h fd pending cfg : (loop_fuel <= n + answers h)%nat ->
  dia (S := S) h (wakeup_read n fd pending cfg) anyQ.
Proof.
  revert h pending cfg. induction n as [|n IH]; intros h pending cfg Hn; [specialize (Hp h); lia|].
  cbn [wakeup_read]. destruct (Z.leb_spec (AT_STREAMLINE_REPLY_SIZE - Z.of_nat (length pending)) 0);
    [by apply dia_ret|].
  eapply dia_bind; [apply dia_read; lia|]. cbv beta. intros [r d] h1 He1 [_ Ha]. cbn [snd] in Ha.
  destruct (negb (succeeded r)); [by apply dia_ret|].
  destruct (Nat.leb_spec (length d) 0); [by apply dia_ret|].
  destruct (wakeup_lines _ _ _) as [[fin cfg'] rest]. destruct fin; [by apply dia_ret|].
  apply IH. destruct d; [cbn in *; lia|]. specialize (Ha ltac:(done)). lia.
Qed.

Lemma dia_wakeup_loop n h fd start pending cfg : (loop_fuel <= n + answers h)%nat ->
  dia (S := S) h (wakeup_loop n fd start pending cfg) anyQ.
Proof.
  revert h pending cfg. induction n as [|n IH]; intros h pending cfg Hn; [specialize (Hp h); lia|].
  cbn [wakeup_loop]. eapply (dia_bind _ _ _ anyQ); [dia_auto|]. intros current h1 He1 _.
  destruct (_ <? 0); [by apply dia_ret|]. eapply dia_bind; [apply dia_wait|]. cbv beta.
  intros r h2 He2 Ha. destruct (succeeded r) eqn:Es; cbn [negb]; [|by apply dia_ret].
  apply bool_decide_eq_true in Es. specialize (Ha Es).
  eapply dia_bind; [apply dia_wakeup_read; lia|]. intros [[out cfg'] pending'] h3 He3 _.
  destruct out; [by apply dia_ret|]. apply IH. apply answers_mono in He1, He3. lia.
Qed.

Lemma dia_wakeup h fd : dia (S := S) h (get_wakeup_cfg fd) anyQ.
Proof.
  unfold get_wakeup_cfg. dia_auto. apply dia_wakeup_loop. lia.
Qed.

#[local] Hint Resolve dia_cmux dia_handshake dia_driver dia_xlog dia_wakeup : dia.

Lemma dia_mux_step h st fd t m cfg : dia (S := S) h (mux_step st fd t m cfg) anyQ.
Proof. unfold mux_step. dia_auto. Qed.

#[local] Hint Resolve dia_mux_step : dia.

(** Steps left, and one more if the terminal may still be opened again. *)
Definition mux_left (st : e_switch_to_mux_states) (done : bool) : nat :=
  (match st with E_MUX_HANDSHAKE => 4 | E_MUX_XLOG => 3 | E_MUX_GET_STREAMLINE => 2
   | E_MUX_AT_CMD => 1 | E_MUX_DRIVER => 0 end + (if done then 0 else 1))%nat.

Lemma dia_mux_states n h st done fd path t m cfg : (mux_left st done <= n)%nat ->
  dia (S := S) h (mux_states n st done fd path t m cfg) anyQ.
Proof.
  revert h st done fd cfg. induction n as [|n IH]; intros h st done fd cfg Hn.
  { destruct st; cbn in Hn; try lia. by apply dia_ret. }
  cbn [mux_states]. destruct (decide (st = E_MUX_DRIVER)) as [->|]; [by apply dia_ret|].
  assert (dia (S := S) h
    ('(ret, cfg) ← mux_step st fd t m cfg;
     if succeeded ret then mux_states n (next_mux_state st) done fd path t m cfg
     else if bool_decide (ret = E_ERR_TTY_BAD_FD) && negb done then
       '(_, fd) ← tty_close fd;
       '(ret, fd) ← tty_open path fd;
       if succeeded ret then mux_states n st true fd path t m cfg
       else mret (false, ret, fd, cfg)
     else mret (false, E_ERR_FAILED, fd, cfg)) anyQ) as Hd; [|by destruct st].
  dia_auto.
  - apply IH. destruct st; cbn in *; try done; lia.
  - apply IH. destruct st, done; cbn in *; try done; try lia; by rewrite andb_false_r in *.
Qed.

(** Each iteration of the wait for the channel sleeps [STAT_DELAY]. *)
Lemma dia_wait_dlc n h dlc start : sleeps_pass ->
  0 <= ts_nsec start < 10 ^ 9 ->
  nanoseconds start + (16 - Z.of_nat n) * 250000000
    <= nanoseconds (reply h (X_clock_gettime CLOCK_MONOTONIC)) ->
  (1 <= n)%nat -> dia (S := S) h (mux_wait_dlc n dlc start) anyQ.
Proof.
  intros Hs Hst. revert h. induction n as [|n IH]; intros h Hh Hn; [lia|]. cbn [mux_wait_dlc].
  eapply (dia_bind _ _ _ (fun _ h' => nanoseconds (reply h (X_clock_gettime CLOCK_MONOTONIC))
    + 250000000 <= nanoseconds (reply h' (X_clock_gettime CLOCK_MONOTONIC)))).
  { apply dia_call; [done|]. by apply (sp_usleep Hs h (STAT_DELAY * 1000)). }
  intros _ h1 _ Hh1.
  eapply (dia_bind _ _ _ (fun _ h' => nanoseconds (reply h (X_clock_gettime CLOCK_MONOTONIC))
    + 250000000 <= nanoseconds (reply h' (X_clock_gettime CLOCK_MONOTONIC)))).
  { apply dia_call; [done|]. etrans; [exact Hh1|]. apply (sp_monotone Hs). }
  intros r h2 _ Hh2. destruct (0 <=? r.1); [dia_auto|].
  eapply (dia_bind _ _ _ (fun t h' => t = reply h2 (X_clock_gettime CLOCK_MONOTONIC) /\
    nanoseconds t <= nanoseconds (reply h' (X_clock_gettime CLOCK_MONOTONIC)))).
  { apply dia_call; [done|]. split; [done|]. apply (sp_monotone Hs). }
  intros t h3 _ [-> Hh3]. set (t := reply h2 _) in *.
  assert (0 <= ts_nsec t < 10 ^ 9) by apply (sp_normal Hs).
  destruct (_ || _) eqn:E; [|by apply dia_ret]. apply IH; [lia|].
  destruct n; [|lia]. unfold nanoseconds, MAX_TIME_DELAY in *.
  apply orb_true_iff in E as [E%Z.ltb_lt|[E1%Z.eqb_eq E2%Z.ltb_lt]%andb_true_iff]; lia.
Qed.

Lemma dia_switch_to_mux h fd path t m dlc cfg : sleeps_pass ->
  dia (S := S) h (switch_to_mux fd path t m dlc cfg) anyQ.
Proof.
  intros Hs. unfold switch_to_mux.
  eapply (dia_bind _ _ _ anyQ); [apply dia_mux_states; cbn; lia|].
  intros [[[go ret] fd'] cfg'] h1 _ _. destruct (negb go); [by apply dia_ret|].
  eapply (dia_bind _ _ _ anyQ); [apply dia_driver|]. intros r h2 _ _.
  destruct (negb _); [by apply dia_ret|].
  eapply (dia_bind _ _ _ (fun t h' => 0 <= ts_nsec t < 10 ^ 9 /\
    nanoseconds t <= nanoseconds (reply h' (X_clock_gettime CLOCK_MONOTONIC)))).
  { apply dia_call; [done|]. split; [apply (sp_normal Hs)|apply (sp_monotone Hs)]. }
  intros start h3 _ [Hst Hh3]. pose proof (sp_fuel Hs).
  eapply (dia_bind _ _ _ anyQ); [apply dia_wait_dlc; [done|done|lia|lia]|]. intros. dia_auto.
Qed.

End endings.

#[export] Hint Resolve dia_send_at_retry dia_switch_to_mux : dia.

(** The limits of a dialogue, whether it ends or not. *)
Section at_calls.
Context `{Platform} {S : Type} (R : S -> S -> Prop) `{HR : !PreOrder R}.

Lemma w_send_at_wait n fd timeout : within R tty_call (send_at_wait n fd timeout).
Proof. induction n as [|n IH]; cbn [send_at_wait]; within_auto. Qed.
#[local] Hint Resolve w_send_at_wait : within.

Lemma w_send_at_retry fd cmd retry timeout : within R tty_call (send_at_retry fd cmd retry timeout).
Proof.
  unfold send_at_retry. generalize E_ERR_FAILED, (Z.to_nat (retry + 1)). intros ret n. revert ret.
  induction n as [|n IH]; intros ret; cbn [send_at_loop]; within_auto.
Qed.
#[local] Hint Resolve w_send_at_retry : within.

Lemma w_xlog_loop n fd : within R tty_call (xlog_loop n fd).
Proof. induction n as [|n IH]; cbn [xlog_loop]; within_auto. Qed.
#[local] Hint Resolve w_xlog_loop : within.

Lemma w_wakeup_read n fd pending cfg : within R tty_call (wakeup_read n fd pending cfg).
Proof. revert pending cfg. induction n as [|n IH]; intros; cbn [wakeup_read]; within_auto. Qed.
#[local] Hint Resolve w_wakeup_read : within.

Lemma w_wakeup_loop n fd start pending cfg : within R tty_call (wakeup_loop n fd start pending cfg).
Proof. revert pending cfg. induction n as [|n IH]; intros; cbn [wakeup_loop]; within_auto. Qed.
#[local] Hint Resolve w_wakeup_loop : within.

Lemma w_mux_states n st done fd path t m cfg :
  within R tty_call (mux_states n st done fd path t m cfg).
Proof.
  revert st done fd cfg. induction n as [|n IH]; intros st done fd cfg; cbn [mux_states];
    destruct st; within_auto.
Qed.
#[local] Hint Resolve w_mux_states : within.

Lemma w_mux_wait_dlc n dlc start : within R tty_call (mux_wait_dlc n dlc start).
Proof. induction n as [|n IH]; cbn [mux_wait_dlc]; within_auto. Qed.
#[local] Hint Resolve w_mux_wait_dlc : within.

Lemma w_switch_to_mux fd path t m dlc cfg : within R tty_call (switch_to_mux fd path t m dlc cfg).
Proof. unfold switch_to_mux. within_auto. Qed.

Lemma w_cd_lines n (f : PFN_PARSE_RESP S) fs cr ret :
  (forall l k, within R tty_call (f fs l k)) -> within R tty_call (cd_lines n f fs cr ret).
Proof. intros Hf. revert cr ret. induction n as [|n IH]; intros; cbn [cd_lines]; within_auto. Qed.

Lemma w_read_cd_logs fd fs (f : PFN_PARSE_RESP S) :
  (forall l k, within R tty_call (f fs l k)) -> within R tty_call (read_cd_logs fd fs f).
Proof.
  intros Hf. unfold read_cd_logs. destruct (_ <=? _); [by apply within_ret|].
  generalize loop_fuel, (@nil Z), (-2). intros n. induction n as [|n IH]; intros pending ret;
    cbn [read_cd_loop]; pose proof (w_cd_lines) as Hl; within_auto.
Qed.
End at_calls.

#[export] Hint Resolve w_send_at_retry w_switch_to_mux w_read_cd_logs : within.

(** * The answer on the wake-up configuration, however it is cut

    The reference: the complete lines of the whole answer, read in order until
    "OK" or "ERROR". *)
Fixpoint lines_of (cur l : list Z) : list (list Z) :=
  match l with
  | [] => []
  | c :: l' =>
      match l' with
      | c' :: l'' =>
          if (c =? 13) && (c' =? 10) then cur :: lines_of [] l'' else lines_of (cur ++ [c]) l'
      | [] => []
      end
  end.

Fixpoint read_lines (ls : list (list Z)) (cfg : e_mdm_wakeup_cfg) : bool * e_mdm_wakeup_cfg :=
  match ls with
  | [] => (false, cfg)
  | l :: ls' => let '(fin, cfg) := wakeup_line l cfg in
                if fin then (true, cfg) else read_lines ls' cfg
  end.

Definition wakeup_of (answer : list Z) : e_mdm_wakeup_cfg :=
  (read_lines (lines_of [] answer) E_MDM_WAKEUP_UNKNOWN).2.

Lemma lines_of_None cur l : strstr LINE_SEPARATOR l = None -> lines_of cur l = [].
Proof.
  revert cur. induction l as [|c l IH]; intros cur; [done|].
  change (strstr LINE_SEPARATOR (c :: l)) with
    (if is_prefix LINE_SEPARATOR (c :: l) then Some 0%nat else S <$> strstr LINE_SEPARATOR l).
  destruct (is_prefix _ _) eqn:E; [done|].
  destruct (strstr LINE_SEPARATOR l) eqn:F; [done|]. intros _. cbn [lines_of].
  destruct l as [|c' l]; [done|]. cbn [is_prefix LINE_SEPARATOR] in E.
  rewrite andb_true_r, (Z.eqb_sym 13), (Z.eqb_sym 10) in E. rewrite E. by apply IH.
Qed.

Lemma lines_of_Some cur l k : strstr LINE_SEPARATOR l = Some k ->
  lines_of cur l = (cur ++ take k l) :: lines_of [] (drop (k + 2) l).
Proof.
  revert cur k. induction l as [|c l IH]; intros cur k; [done|].
  change (strstr LINE_SEPARATOR (c :: l)) with
    (if is_prefix LINE_SEPARATOR (c :: l) then Some 0%nat else S <$> strstr LINE_SEPARATOR l).
  destruct (is_prefix _ _) eqn:E.
  - intros [= <-]. destruct l as [|c' l]; cbn [is_prefix LINE_SEPARATOR] in E; [by rewrite andb_false_r in E|].
    rewrite andb_true_r, (Z.eqb_sym 13), (Z.eqb_sym 10) in E. cbn [lines_of]. rewrite E.
    cbn. by rewrite app_nil_r.
  - destruct (strstr LINE_SEPARATOR l) as [j|] eqn:F; [|done]. intros [= <-]. cbn [lines_of].
    destruct l as [|c' l]; [done|]. cbn [is_prefix LINE_SEPARATOR] in E.
    rewrite andb_true_r, (Z.eqb_sym 13), (Z.eqb_sym 10) in E. rewrite E.
    rewrite (IH _ j eq_refl). cbn [take]. by rewrite <- app_assoc.
Qed.

Lemma read_lines_app a b cfg : read_lines (a ++ b) cfg =
  let '(fin, c) := read_lines a cfg in if fin then (true, c) else read_lines b c.
Proof.
  revert cfg. induction a as [|l a IH]; intros cfg; [done|]. cbn [read_lines app].
  destruct (wakeup_line l cfg) as [[|] c]; [done|]. apply IH.
Qed.

(** The parser of the code against the reference: what is read, and that what
    it keeps is enough to go on. *)
Lemma wakeup_lines_spec n cr cfg : (length cr < n)%nat ->
  let '(fin, cfg', rest) := wakeup_lines n cr cfg in
  read_lines (lines_of [] cr) cfg = (fin, cfg') /\
  (fin = false -> lines_of [] rest = [] /\ (exists k, rest = drop k cr) /\
     forall e, lines_of [] (cr ++ e) = lines_of [] cr ++ lines_of [] (rest ++ e)).
Proof.
  revert cr cfg. induction n as [|n IH]; intros cr cfg Hn; [lia|]. cbn [wakeup_lines].
  destruct (strstr LINE_SEPARATOR cr) as [k|] eqn:E.
  - rewrite (lines_of_Some [] cr k E). cbn [app read_lines].
    destruct (wakeup_line (take k cr) cfg) as [[|] c]; [done|].
    pose proof (strstr_lt _ _ _ E) as Hk. cbn [length LINE_SEPARATOR] in *.
    specialize (IH (drop (k + 2) cr) c). rewrite length_drop in IH.
    destruct (wakeup_lines n (drop (k + 2) cr) c) as [[fin cfg'] rest].
    destruct IH as [IH1 IH2]; [lia|]. split; [done|]. intros Hf.
    destruct (IH2 Hf) as (Hr & [j Hj] & IH3). split_and!; [done| |].
    { exists (k + 2 + j)%nat. by rewrite Hj, drop_drop. }
    intros e. rewrite (lines_of_Some [] (cr ++ e) k) by (by apply strstr_app).
    rewrite take_app_le, drop_app_le by lia. cbn [app]. f_equal. by apply IH3.
  - rewrite (lines_of_None [] cr E). split; [done|]. intros _. split_and!; [done| |done].
    by exists 0%nat.
Qed.

(** The bytes read on a descriptor, in order. *)
Fixpoint received `{Platform} (fd : Z) (h : history) : list Z :=
  match h with
  | [] => []
  | c :: h' =>
      received fd h' ++
      match c with
      | X_read fd' len =>
          if fd' =? fd
          then match reply h' (X_read fd' len) with inr d => take (Z.to_nat len) d | inl _ => [] end
          else []
      | _ => []
      end
  end.

Definition not_read (c : extcall) : bool := match c with X_read _ _ => false | _ => true end.

Lemma received_extends `{Platform} fd h h' : extends not_read h h' -> received fd h' = received fd h.
Proof.
  intros (k & -> & Hk). induction Hk as [|c k Hc Hk IH]; [done|].
  change ((c :: k) ++ h) with (c :: (k ++ h)). cbn [received].
  destruct c; try done; by rewrite app_nil_r.
Qed.

Section wakeup.
Context `{Platform} {S : Type} (Hp : terminals_pause).

(** One try of [tty_read]: all it takes from the terminal is given, and
    nothing on an error. *)
Lemma read_one h fd size : 0 <= size ->
  dia (S := S) h (tty_read fd size 1)
    (fun r h' => received fd h' = received fd h ++ r.2 /\ (succeeded r.1 = false -> r.2 = [])).
Proof.
  intros Hs. unfold tty_read. destruct (Z.ltb_spec size 0); [lia|].
  change (Z.to_nat 1) with 1%nat. cbn [tty_read_loop length]. rewrite Z.sub_0_r.
  eapply (dia_bind _ _ _ (fun r h' => received fd h' = received fd h ++
    match r with inr d => take (Z.to_nat size) d | inl _ => [] end)).
  { apply dia_call; [done|]. cbn [received]. by rewrite Z.eqb_refl. }
  intros [e|d] h1 _ Hd; [by apply dia_ret|].
  destruct (take (Z.to_nat size) d) as [|c l]; [|by apply dia_ret].
  cbn. eapply (dia_bind _ _ _ (fun _ h' => received fd h' = received fd h1)).
  { apply dia_call; [done|]. cbn [received]. by rewrite app_nil_r. }
  intros _ h2 _ E. apply dia_ret. by rewrite E.
Qed.

Lemma within_wait fd timeout : within (S := S) anyS not_read (tty_wait_for_event fd timeout).
Proof. within_auto. Qed.

Lemma within_write fd data : within (S := S) anyS not_read (tty_write fd data).
Proof.
  unfold tty_write. generalize (Datatypes.S (length data)). intros n. revert data.
  induction n as [|n IH]; intros data; cbn [tty_write_loop]; within_auto.
Qed.

(** The bytes in the answer [d] hold no NUL. *)
Abbreviation text d := (Forall (fun c => c <> 0) d).

(** What the inner loop leaves for the next one. *)
Definition wakeup_inv (pending : list Z) : Prop := text pending /\ lines_of [] pending = [].

Lemma wakeup_read_spec n h fd pending cfg : (loop_fuel <= n + answers h)%nat -> wakeup_inv pending ->
  dia (S := S) h (wakeup_read n fd pending cfg) (fun '(out, cfg', rest) h' =>
    exists d, received fd h' = received fd h ++ d /\ (out = false -> wakeup_inv rest) /\ (text d ->
      (read_lines (lines_of [] (pending ++ d)) cfg).2 = cfg' /\
      (out = false -> forall e, read_lines (lines_of [] (pending ++ d ++ e)) cfg =
                                read_lines (lines_of [] (rest ++ e)) cfg'))).
Proof.
  assert (Hstop : forall h h' pending cfg out, received fd h' = received fd h -> wakeup_inv pending ->
    exists d, received fd h' = received fd h ++ d /\ (out = false -> wakeup_inv pending) /\ (text d ->
      (read_lines (lines_of [] (pending ++ d)) cfg).2 = cfg /\
      (out = false -> forall e, read_lines (lines_of [] (pending ++ d ++ e)) cfg =
                                read_lines (lines_of [] (pending ++ e)) cfg))).
  { intros h0 h' pend c out E [Ht Hl]. exists []. rewrite !app_nil_r, Hl. by split_and!. }
  revert h pending cfg. induction n as [|n IH]; intros h pending cfg Hn Hi; [specialize (Hp h); lia|].
  cbn [wakeup_read]. destruct (Z.leb_spec (AT_STREAMLINE_REPLY_SIZE - Z.of_nat (length pending)) 0).
  { apply dia_ret. by apply Hstop. }
  eapply dia_bind; [apply dia_conj; [apply dia_read; lia|apply read_one; lia]|].
  cbv beta. intros [r d] h1 He1 [[_ Ha] [Hr Hz]]. cbn [fst snd] in *.
  destruct (succeeded r); cbn [negb].
  2:{ rewrite Hz, app_nil_r in Hr by done. apply dia_ret. by apply Hstop. }
  destruct d as [|b d].
  { rewrite app_nil_r in Hr. apply dia_ret. by apply Hstop. }
  specialize (Ha ltac:(done)). cbn [length Nat.leb].
  pose proof (wakeup_lines_spec (Datatypes.S (length (cstr (pending ++ b :: d))))
    (cstr (pending ++ b :: d)) cfg ltac:(lia)) as Hw.
  destruct (wakeup_lines _ _ _) as [[fin c1] rest]. destruct Hw as [Hw1 Hw2].
  assert (Hcs : text (b :: d) -> cstr (pending ++ b :: d) = pending ++ b :: d)
    by (intros; apply cstr_id, Forall_app; by destruct Hi).
  destruct fin.
  - apply dia_ret. exists (b :: d). split_and!; [done..|]. intros Ht. rewrite (Hcs Ht) in Hw1.
    by rewrite Hw1.
  - destruct (Hw2 eq_refl) as (Hl & [k Hk] & Hw3).
    eapply dia_mono; [apply IH; [lia|]|].
    { split; [|done]. rewrite Hk. apply Forall_drop, cstr_text. }
    cbv beta. intros [[out c2] rest2] h2 _ (d2 & Hr2 & Hi2 & Ht2). exists ((b :: d) ++ d2).
    split_and!; [by rewrite Hr2, Hr, app_assoc|done|]. intros [Hd1 Hd2]%Forall_app.
    rewrite (Hcs Hd1) in Hw1, Hw3. destruct (Ht2 Hd2) as [Hc2 Hgo]. split.
    + rewrite app_assoc, Hw3, read_lines_app, Hw1. done.
    + intros Ho e. specialize (Hgo Ho e).
      rewrite <- app_assoc, app_assoc, Hw3, read_lines_app, Hw1. done.
Qed.

Lemma wakeup_loop_spec n h fd start pending cfg : (loop_fuel <= n + answers h)%nat ->
  wakeup_inv pending ->
  dia (S := S) h (wakeup_loop n fd start pending cfg) (fun cfg' h' =>
    exists d, received fd h' = received fd h ++ d /\
      (text d -> (read_lines (lines_of [] (pending ++ d)) cfg).2 = cfg')).
Proof.
  revert h pending cfg. induction n as [|n IH]; intros h pending cfg Hn Hi; [specialize (Hp h); lia|].
  assert (Hstop : forall h', received fd h' = received fd h ->
    exists d, received fd h' = received fd h ++ d /\
      (text d -> (read_lines (lines_of [] (pending ++ d)) cfg).2 = cfg)).
  { intros h' E. exists []. destruct Hi as [_ Hl]. by rewrite !app_nil_r, Hl. }
  cbn [wakeup_loop].
  eapply (dia_bind _ _ _ (fun _ h' => received fd h' = received fd h)).
  { apply dia_call; [done|]. cbn [received]. by rewrite app_nil_r. }
  intros current h1 He1 Hr1. destruct (_ <? 0); [apply dia_ret; by apply Hstop|].
  eapply dia_bind; [apply dia_within; [apply within_wait|apply dia_wait]|]. cbv beta.
  intros r h2 He2 [Ha Hr2%(received_extends fd)].
  destruct (succeeded r) eqn:Es; cbn [negb]; [|apply dia_ret, Hstop; congruence].
  apply bool_decide_eq_true in Es. specialize (Ha Es).
  eapply dia_bind; [apply wakeup_read_spec; [lia|done]|]. cbv beta.
  intros [[out c2] rest] h3 He3 (d & Hd & Hi3 & Ht). rewrite Hr2, Hr1 in Hd.
  destruct out; [apply dia_ret; exists d; split; [done|]; intros Htd; by apply Ht|].
  apply answers_mono in He1, He3.
  eapply dia_mono; [apply IH; [lia|by apply Hi3]|]. cbv beta. intros c3 h4 _ (d2 & Hd2 & Ht2).
  exists (d ++ d2). split; [by rewrite Hd2, Hd, app_assoc|]. intros [Hd1 Hd3]%Forall_app.
  destruct (Ht Hd1) as [_ Hgo]. rewrite (Hgo eq_refl). by apply Ht2.
Qed.

End wakeup.

(** However the kernel cuts the modem's answer into pieces, the loop over
    the terminal ends and finds the wake-up configuration that the complete lines
    of the whole answer give, up to the line "OK" or "ERROR": a line cut in two
    is neither lost nor read twice.  The answer is text: it holds no NUL. *)
Theorem wakeup_cfg_reads_answer `{Platform} {S} (s : S) h fd :
  terminals_pause ->
  wp False (get_wakeup_cfg fd) (fun cfg s' h' => s' = s /\
    exists answer, received fd h' = received fd h ++ answer /\
      (Forall (fun c => c <> 0) answer -> cfg = wakeup_of answer)) s h.
Proof.
  intros Hp. cut (dia (S := S) h (get_wakeup_cfg fd) (fun cfg h' =>
    exists answer, received fd h' = received fd h ++ answer /\
      (Forall (fun c => c <> 0) answer -> cfg = wakeup_of answer))).
  { intros Hd. eapply wp_mono; [apply Hd|]. cbv beta. naive_solver. }
  unfold get_wakeup_cfg. eapply (dia_bind _ _ _ (fun _ h' => received fd h' = received fd h)).
  { apply dia_call; [done|]. cbn [received]. by rewrite app_nil_r. }
  intros _ h1 _ Hr1.
  eapply dia_bind; [apply dia_within; [apply within_write|apply dia_write]|]. cbv beta.
  intros err h2 _ [_ Hr2%(received_extends fd)]. rewrite Hr1 in Hr2.
  eapply (dia_bind _ _ _ (fun cfg h' => exists answer, received fd h' = received fd h ++ answer /\
      (Forall (fun c => c <> 0) answer -> cfg = wakeup_of answer))).
  - destruct (negb _); [apply dia_ret; exists []; by rewrite app_nil_r|].
    eapply (dia_bind _ _ _ (fun _ h' => received fd h' = received fd h)).
    { apply dia_call; [done|]. cbn [received]. by rewrite app_nil_r. }
    intros start h3 _ Hr3.
    eapply dia_mono; [apply wakeup_loop_spec; [done|lia|done]|]. cbv beta.
    intros cfg h4 _ (d & Hd & Ht). exists d. rewrite Hd, Hr3. split; [done|]. intros Htd.
    by rewrite <- (Ht Htd).
  - intros cfg h3 _ (d & Hd & Ht).
    eapply (dia_bind _ _ _ (fun _ h' => received fd h' = received fd h3)).
    { apply dia_call; [done|]. cbn [received]. by rewrite app_nil_r. }
    intros _ h4 _ Hr4. apply dia_ret. exists d. by rewrite Hr4.
Qed.


(** * A modem that speaks

    The [n]-th time a terminal is asked since the loop last waited, it says
    [said n]; it is silent after fifteen times. *)
Fixpoint turns (h : history) : nat :=
  match h with
  | [] => 0
  | X_epoll_wait _ _ _ :: _ => 0
  | X_read _ _ :: h' | X_epoll_wait_tty _ _ :: h' => Datatypes.S (turns h')
  | _ :: h' => turns h'
  end.

Definition talking (said : nat -> list Z) : Platform := with_reply still (fun h c =>
  match c with
  | X_read _ _ => inr (if (turns h <? 15)%nat then said (turns h) else [])
  | X_epoll_wait_tty _ _ =>
      (if (turns h <? 15)%nat then 1 else 0, {| ep_hup := false; ep_in := true |})
  | X_write _ d => Z.of_nat (length d)
  | X_secure_callback _ _ => (0, Some [65; 66])
  | c => @reply still h c
  end).

Lemma talking_pauses said : @terminals_pause (talking said).
Proof.
  assert (forall h, @answers (talking said) h <= turns h /\ @answers (talking said) h <= 15)%nat
    as Ha; [|intros h; cbn; destruct (Ha h); lia].
  induction h as [|c h [IH1 IH2]]; [cbn; lia|]. destruct c; cbn [answers turns]; try lia;
    cbn [reply talking with_reply fst].
  - destruct (Nat.ltb_spec (turns h) 15); [destruct (said (turns h))|]; lia.
  - destruct (Nat.ltb_spec (turns h) 15); cbn [Z.ltb Z.compare]; lia.
Qed.

Lemma slept_clock_passes P : (16 <= @loop_fuel P)%nat ->
  (forall h, @reply P h (X_clock_gettime CLOCK_MONOTONIC) = slept_clock h) -> @sleeps_pass P.
Proof.
  intros Hf Hr. assert (Hn : forall h, nanoseconds (slept_clock h) = 10 ^ 12 + slept h * 1000).
  { intros h. unfold nanoseconds, slept_clock; cbn [ts_sec ts_nsec].
    pose proof (Z.div_mod (slept h) (10 ^ 6)). lia. }
  split; intros; rewrite ?Hr, ?Hn; [| | |done].
  - unfold slept_clock; cbn [ts_nsec]. pose proof (Z.mod_pos_bound (slept h) (10 ^ 6)). lia.
  - destruct c; cbn [slept]; lia.
  - cbn [slept]. lia.
Qed.

(** An answer cut in the middle of a word and of the last line. *)
Definition cut_answer (n : nat) : list Z :=
  match n with
  | 1%nat => bytes "current_configuration: NO_REMO"
  | 2%nat => bytes "TE_WAKEUP" ++ [13; 10] ++ bytes "O"
  | 3%nat => bytes "K" ++ [13; 10]
  | _ => []
  end.

Lemma wakeup_cfg_reads_answer_witness :
  exists h', @get_wakeup_cfg (talking cut_answer) unit 5 tt [] = Done E_MDM_WAKEUP_OUTBAND tt h' /\
    @received (talking cut_answer) 5 h' = cut_answer 1 ++ cut_answer 2 ++ cut_answer 3 /\
    wakeup_of (@received (talking cut_answer) 5 h') = E_MDM_WAKEUP_OUTBAND.
Proof.
  destruct (wp_done _ _ _ _ (@wakeup_cfg_reads_answer (talking cut_answer) unit tt [] 5
    (talking_pauses cut_answer))) as (cfg & s' & h' & E & -> & answer & Hr & Hc).
  revert Hr Hc. vm_compute in E. injection E as <- <-. intros Hr Hc. eexists. split; [reflexivity|].
  split; [vm_compute; reflexivity|]. cbn [app] in Hr. vm_compute in Hr.
  vm_compute. reflexivity.
Defined.
