(* ===== verification/Msg.v ===== *)
(** The wire format: integers and headers (libcnx/msg_format.c) and the
    messages the daemon sends (core/data_to_msg.c).

    A message under construction is a heap buffer with a write cursor, so that
    a write past its end is visible: it is [undefined]. *)
From S2P Require Import Prelude Platform Io.

Record msg_hdr := { id : Z; ts : Z; len : Z }.

(** [data] is [None] for a NULL pointer. *)
Record msg := { hdr : msg_hdr; data : option (list Z) }.

Definition SIZE_HEADER : Z := 12.

(** Big-endian bytes of a 32-bit value ([htonl] then the memory order). *)
Definition be32 (v : Z) : list Z :=
  [ v / 2 ^ 24 mod 256; v / 2 ^ 16 mod 256; v / 2 ^ 8 mod 256; v mod 256 ].

Definition of_be32 (a b c d : Z) : Z := a * 2 ^ 24 + b * 2 ^ 16 + c * 2 ^ 8 + d.

(** * Reading: the cursor is the rest of the buffer *)

Section read.
Context {H : Type}.

Definition deserialize_uint32 : M H (list Z) Z := fun buf h =>
  match buf with
  | a :: b :: c :: d :: rest => Done (of_be32 a b c d) rest h
  | _ => Undef h
  end.

Definition deserialize_int : M H (list Z) Z :=
  tmp ← deserialize_uint32; mret (int32 tmp).

Definition deserialize_size_t : M H (list Z) Z := deserialize_uint32.

(** [memcpy(dst, p, n); p += n]. *)
Definition read_bytes (n : Z) : M H (list Z) (list Z) := fun buf h =>
  if (0 <=? n) && (n <=? Z.of_nat (length buf))
  then Done (take (Z.to_nat n) buf) (drop (Z.to_nat n) buf) h else Undef h.

End read.

(** * Writing: the buffer and the cursor's offset in it *)

Record wbuf := { buf : list Z; off : nat }.

Section write.
Context {H : Type}.

(** [memcpy(p, bs, n); p += n], within the allocated buffer. *)
Definition put (bs : list Z) : M H wbuf unit := fun w h =>
  let e := (off w + length bs)%nat in
  if (e <=? length (buf w))%nat
  then Done tt {| buf := take (off w) (buf w) ++ bs ++ drop e (buf w); off := e |} h
  else Undef h.

Definition serialize_uint32 (value : Z) : M H wbuf unit := put (be32 value).

Definition serialize_int (value : Z) : M H wbuf unit := serialize_uint32 (uint32 value).

Definition serialize_size_t (value : Z) : M H wbuf unit := serialize_uint32 value.

End write.

(** * libcnx/msg_format.c *)

(** What the event structures of inc/mmgr.h carry; a string and its length
    field are one list. *)
Record mmgr_cli_tft_event := {
  tft_type : e_event_type; tft_name : list Z; tft_log : Z; tft_data : list (list Z) }.

Record mmgr_cli_core_dump := {
  cd_state : e_core_dump_state; cd_path : list Z; cd_reason : list Z }.

Record mmgr_cli_internal_ap_reset := { ap_name : list Z; ap_extra : list Z }.

Record mmgr_cli_nvm_update_result := {
  nvm_id : e_modem_nvm_error; nvm_sub_error_code : Z }.

(** The object the [void *data] of an event points to. *)
Inductive payload :=
| P_null
| P_hw_id (hw : list Z)
| P_fuse_info (fuse : list Z)
| P_ap_reset (ap : mmgr_cli_internal_ap_reset)
| P_fw_result (r : e_modem_fw_error)
| P_nvm_result (r : mmgr_cli_nvm_update_result)
| P_core_dump (cd : mmgr_cli_core_dump)
| P_tft_event (ev : mmgr_cli_tft_event).

Section msg.
Context `{Platform} {S : Type}.

Definition msg_set_header (id len : Z) : IO wbuf unit :=
  serialize_uint32 id ;;
  now ← call X_gettimeofday;
  serialize_uint32 (uint32 (tv_sec now)) ;;
  serialize_uint32 len.

(** Runs a writer on a fresh zeroed buffer and returns its contents. *)
Definition with_buffer (n : Z) (w : IO wbuf unit) : IO S (list Z) := fun s h =>
  match w {| buf := replicate (Z.to_nat n) 0; off := 0 |} h with
  | Done _ w' h' => Done (buf w') s h'
  | Abort h' => Abort h'
  | Exit h' => Exit h'
  | Undef h' => Undef h'
  end.

Definition null_msg : msg := {| hdr := {| id := 0; ts := 0; len := 0 |}; data := None |}.

(** [msg_prepare], then [body] written after the header.  The timestamp of
    [msg->hdr] is not set by the source: it keeps its initial 0. *)
Definition msg_prepare (mid size : Z) (body : IO wbuf unit) : IO S (e_mmgr_errors * msg) :=
  let len := uint32 (SIZE_HEADER + size) in
  ok ← call (X_calloc len);
  if (ok : bool)
  then
    d ← with_buffer len (msg_set_header mid size ;; body);
    mret (E_ERR_SUCCESS, {| hdr := {| id := mid; ts := 0; len := size |}; data := Some d |})
  else mret (E_ERR_FAILED, null_msg).

Definition msg_set_empty (ev : e_mmgr_events) (_ : payload) : IO S (e_mmgr_errors * msg) :=
  msg_prepare (event_id ev) 0 (mret tt).

(** [msg_get_header] after the [cnx_read] of [SIZE_HEADER] bytes, which gave
    [d].  The last test of the source cannot fail: [len] is [SIZE_HEADER]. *)
Definition parse_header (d : list Z) : IO S (e_mmgr_errors * option msg_hdr) := fun s h =>
  let n := Z.of_nat (length d) in
  if n =? 0 then Done (E_ERR_DISCONNECTED, None) s h
  else if n <? SIZE_HEADER then Done (E_ERR_FAILED, None) s h
  else
    match (i ← deserialize_uint32; t ← deserialize_uint32; l ← deserialize_uint32;
           mret {| id := i; ts := t; len := l |}) d h with
    | Done x _ h' =>
        Done (E_ERR_SUCCESS, Some x) s h'
    | Abort h' => Abort h'
    | Exit h' => Exit h'
    | Undef h' => Undef h'
    end.

(** [msg_get_header]. *)
Definition msg_get_header (fd : Z) : IO S (e_mmgr_errors * option msg_hdr) :=
  '(ret, d) ← cnx_read fd SIZE_HEADER;
  if succeeded ret then parse_header d else mret (ret, None).

(** * core/data_to_msg.c

    A handler given an event of another type than its own would read the wrong
    structure: [undefined]. *)

Definition FUSE_LEN : Z := 9.
Definition MMGR_CLI_MAX_TFT_EVENT_DATA : Z := 6.
Definition MMGR_CLI_MAX_RECOVERY_CAUSE_LEN : Z := 512.
Definition MMGR_CLI_MAX_TFT_EVENT_DATA_LEN : Z := 512.

Definition strlen (l : list Z) : Z := Z.of_nat (length l).

Definition set_msg_modem_hw_id (p : payload) : IO S (e_mmgr_errors * msg) :=
  match p with
  | P_hw_id hw => msg_prepare (event_id E_MMGR_RESPONSE_MODEM_HW_ID) (strlen hw) (put hw)
  | _ => undefined
  end.

Definition set_msg_fuse_info (p : payload) : IO S (e_mmgr_errors * msg) :=
  match p with
  | P_fuse_info fuse =>
      msg_prepare (event_id E_MMGR_RESPONSE_FUSE_INFO) FUSE_LEN
        (put (take (Z.to_nat FUSE_LEN) fuse))
  | _ => undefined
  end.

Definition set_msg_ap_reset (p : payload) : IO S (e_mmgr_errors * msg) :=
  match p with
  | P_ap_reset ap =>
      let size := uint32 (4 + strlen (ap_name ap) + strlen (ap_extra ap)) in
      msg_prepare (event_id E_MMGR_NOTIFY_AP_RESET) size
        (serialize_size_t (strlen (ap_name ap)) ;;
         put (ap_name ap) ;;
         when (negb (strlen (ap_extra ap) =? 0)) (put (ap_extra ap)))
  | _ => undefined
  end.

Definition set_msg_modem_fw_result (p : payload) : IO S (e_mmgr_errors * msg) :=
  match p with
  | P_fw_result r =>
      msg_prepare (event_id E_MMGR_RESPONSE_MODEM_FW_RESULT) 4
        (serialize_uint32 (fw_error_id r))
  | _ => undefined
  end.

Definition set_msg_modem_nvm_result (p : payload) : IO S (e_mmgr_errors * msg) :=
  match p with
  | P_nvm_result r =>
      msg_prepare (event_id E_MMGR_RESPONSE_MODEM_NVM_RESULT) 8
        (serialize_uint32 (nvm_error_id (nvm_id r)) ;;
         serialize_int (nvm_sub_error_code r))
  | _ => undefined
  end.

Definition set_msg_core_dump (p : payload) : IO S (e_mmgr_errors * msg) :=
  match p with
  | P_core_dump cd =>
      let size := uint32 (3 * 4 + (strlen (cd_path cd) + strlen (cd_reason cd))) in
      msg_prepare (event_id E_MMGR_NOTIFY_CORE_DUMP_COMPLETE) size
        (serialize_uint32 (cd_state_id (cd_state cd)) ;;
         serialize_size_t (strlen (cd_path cd)) ;;
         serialize_size_t (strlen (cd_reason cd)) ;;
         put (cd_path cd) ;;
         when (0 <? strlen (cd_reason cd)) (put (cd_reason cd)))
  | _ => undefined
  end.

(** The size loop of [set_msg_tft_event]. *)
Fixpoint tft_data_size (l : list (list Z)) : Z :=
  match l with
  | [] => 0
  | v :: l' => 4 + strlen v + tft_data_size l'
  end.

Definition set_msg_tft_event (p : payload) : IO S (e_mmgr_errors * msg) :=
  match p with
  | P_tft_event ev =>
      let size := uint32 (4 * 4 + strlen (tft_name ev) + tft_data_size (tft_data ev)) in
      let num_data := Z.of_nat (length (tft_data ev)) in
      msg_prepare (event_id E_MMGR_NOTIFY_TFT_EVENT) size
        (serialize_int (event_type_id (tft_type ev)) ;;
         serialize_size_t (strlen (tft_name ev)) ;;
         put (tft_name ev) ;;
         serialize_int (tft_log ev) ;;
         serialize_size_t num_data ;;
         ASSERT (num_data <=? MMGR_CLI_MAX_TFT_EVENT_DATA) ;;
         for_each (tft_data ev) (fun v =>
           ASSERT (strlen v <? MMGR_CLI_MAX_RECOVERY_CAUSE_LEN) ;;
           serialize_size_t (strlen v) ;;
           put v))
  | _ => undefined
  end.

End msg.

(** * What a writer leaves in the buffer *)

Definition fits (w : wbuf) (bs : list Z) : Prop :=
  (off w + length bs <= length (buf w))%nat.

Definition written (w : wbuf) (bs : list Z) : wbuf :=
  let e := (off w + length bs)%nat in
  {| buf := take (off w) (buf w) ++ bs ++ drop e (buf w); off := e |}.

(** [m] writes exactly [bs] at the cursor, within the buffer, and calls nothing. *)
Definition writes {H} (m : M H wbuf unit) (bs : list Z) : Prop :=
  forall w h, fits w bs -> m w h = Done tt (written w bs) h.

Section writes.
  Context {H : Type}.
  Implicit Types (m : M H wbuf unit).

Lemma written_written w a b :
  fits w (a ++ b) -> written (written w a) b = written w (a ++ b).
Proof.
  unfold fits, written. cbn [buf off]. rewrite length_app. intros Hf.
  assert (Hl : length (take (off w) (buf w)) = off w) by (rewrite length_take; lia).
  f_equal; [|lia].
  rewrite take_app_ge by lia. rewrite take_app_ge by lia.
  rewrite drop_app_ge by lia. rewrite drop_app_ge by lia. rewrite Hl.
  replace (off w + length a - off w - length a)%nat with 0%nat by lia.
  rewrite take_0, app_nil_r, drop_drop.
  rewrite <- !app_assoc. do 4 f_equal. lia.
Qed.

Lemma fits_app w a b : fits w (a ++ b) <-> fits w a /\ fits (written w a) b.
Proof.
  unfold fits, written. cbn. rewrite !length_app, length_take, length_drop. lia.
Qed.

Lemma writes_nil : writes (mret tt : M H wbuf unit) [].
Proof.
  intros [b o] h Hf. unfold fits in Hf. cbn in *. unfold written. cbn.
  rewrite Nat.add_0_r, take_drop. done.
Qed.

Lemma writes_put bs : writes (put bs : M H wbuf unit) bs.
Proof.
  intros w h Hf. unfold put, fits in *.
  destruct (Nat.leb_spec (off w + length bs) (length (buf w))); [done|lia].
Qed.

Lemma writes_seq m1 m2 a b : writes m1 a -> writes m2 b -> writes (m1 ;; m2) (a ++ b).
Proof.
  intros H1 H2 w h Hf. unfold mbind, M_bind. unfold fits in Hf. rewrite length_app in Hf.
  rewrite H1 by (unfold fits; lia). rewrite H2.
  - by rewrite written_written by (unfold fits; rewrite length_app; lia).
  - unfold fits, written; cbn. rewrite !length_app, length_take, length_drop. lia.
Qed.

Lemma writes_when (b : bool) m bs :
  writes m bs -> (b = false -> bs = []) -> writes (when b m) bs.
Proof. destruct b; [done|]. intros _ ->; [apply writes_nil|done]. Qed.

Lemma writes_assert (b : bool) m bs : b = true -> writes m bs -> writes (ASSERT b ;; m) bs.
Proof. by intros ->. Qed.

Lemma writes_for_each {A} (l : list A) body (f : A -> list Z) :
  (forall x, x ∈ l -> writes (body x : M H wbuf unit) (f x)) ->
  writes (for_each l body) (concat (map f l)).
Proof.
  induction l as [|x l IH]; intros Hb; [apply writes_nil|]. cbn.
  apply writes_seq; [apply Hb; left|]. apply IH. intros y Hy. apply Hb. by right.
Qed.
End writes.

#[export] Hint Resolve writes_nil writes_put writes_seq : mmgr.

Lemma be32_length v : length (be32 v) = 4%nat.
Proof. done. Qed.

(** Encoding then decoding a 32-bit value. *)
Lemma of_be32_be32 v : 0 <= v < 2 ^ 32 ->
  of_be32 (v / 2 ^ 24 mod 256) (v / 2 ^ 16 mod 256) (v / 2 ^ 8 mod 256) (v mod 256) = v.
Proof.
  intros Hv. unfold of_be32.
  assert (E : forall k, 0 <= k -> v / 2 ^ (k + 8) = v / 2 ^ k / 256).
  { intros k Hk. rewrite Z.div_div by lia. rewrite Z.pow_add_r by lia. done. }
  pose proof (E 16) as E24. pose proof (E 8) as E16. pose proof (E 0) as E8.
  change (16 + 8) with 24 in E24. change (8 + 8) with 16 in E16. change (0 + 8) with 8 in E8.
  change (2 ^ 0) with 1 in E8. rewrite Z.div_1_r in E8.
  assert (v / 2 ^ 24 mod 256 = v / 2 ^ 24) as ->.
  { apply Z.mod_small. split; [apply Z.div_pos; lia|].
    apply Z.div_lt_upper_bound; lia. }
  pose proof (Z.div_mod v 256). pose proof (Z.div_mod (v / 2 ^ 8) 256).
  pose proof (Z.div_mod (v / 2 ^ 16) 256). lia.
Qed.

Lemma deserialize_be32 {H} v rest (h : H) : 0 <= v < 2 ^ 32 ->
  deserialize_uint32 (be32 v ++ rest) h = Done v rest h.
Proof. intros. cbn. by rewrite of_be32_be32. Qed.

Lemma deserialize_int_be32 {H} v rest (h : H) : - 2 ^ 31 <= v < 2 ^ 31 ->
  deserialize_int (be32 (uint32 v) ++ rest) h = Done v rest h.
Proof.
  intros Hv. unfold deserialize_int, mbind, M_bind.
  rewrite deserialize_be32 by apply uint32_range. cbn. f_equal.
  unfold int32, uint32. rewrite Zplus_mod_idemp_l, Z.mod_small by lia. lia.
Qed.

Lemma read_bytes_app {H} l rest (h : H) :
  read_bytes (Z.of_nat (length l)) (l ++ rest) h = Done l rest h.
Proof.
  unfold read_bytes. rewrite length_app, Nat2Z.id, take_app_length, drop_app_length.
  replace (_ && _) with true; [done|]. symmetry. apply andb_true_iff.
  split; apply Z.leb_le; lia.
Qed.

(** * The frames the daemon sends *)

(** A frame on the wire: identifier, timestamp, length of the body, body. *)
Definition frame (mid t : Z) (bs : list Z) : list Z :=
  be32 mid ++ be32 t ++ be32 (strlen bs) ++ bs.

(** A string preceded by its length. *)
Definition lstring (l : list Z) : list Z := be32 (strlen l) ++ l.

(** The body each event carries. *)
Definition wire (p : payload) : list Z :=
  match p with
  | P_null => []
  | P_hw_id hw => hw
  | P_fuse_info fuse => fuse
  | P_ap_reset ap => lstring (ap_name ap) ++ ap_extra ap
  | P_fw_result r => be32 (fw_error_id r)
  | P_nvm_result r => be32 (nvm_error_id (nvm_id r)) ++ be32 (uint32 (nvm_sub_error_code r))
  | P_core_dump cd =>
      be32 (cd_state_id (cd_state cd)) ++ be32 (strlen (cd_path cd)) ++
      be32 (strlen (cd_reason cd)) ++ cd_path cd ++ cd_reason cd
  | P_tft_event ev =>
      be32 (uint32 (event_type_id (tft_type ev))) ++ lstring (tft_name ev) ++
      be32 (uint32 (tft_log ev)) ++ be32 (Z.of_nat (length (tft_data ev))) ++
      concat (map lstring (tft_data ev))
  end.

(** The sizes the source relies on: the 32-bit size of the frame does not wrap,
    the fuse identifier has its fixed size and a TFT event obeys the limits of
    inc/mmgr.h. *)
Definition payload_ok (p : payload) : Prop :=
  SIZE_HEADER + strlen (wire p) < 2 ^ 32 /\
  match p with
  | P_fuse_info fuse => strlen fuse = FUSE_LEN
  | P_tft_event ev =>
      Z.of_nat (length (tft_data ev)) <= MMGR_CLI_MAX_TFT_EVENT_DATA /\
      Forall (fun v => strlen v < MMGR_CLI_MAX_RECOVERY_CAUSE_LEN) (tft_data ev)
  | _ => True
  end.

Section frames.
Context `{Platform} {S : Type}.
Implicit Types (s : S) (h : history).

(** What a successful or failed preparation of a message amounts to. *)
Definition prepared (mid : Z) (bs : list Z) s h : outcome history S (e_mmgr_errors * msg) :=
  let c := X_calloc (SIZE_HEADER + strlen bs) in
  if (reply h c : bool)
  then
    let t := uint32 (tv_sec (reply (c :: h) X_gettimeofday)) in
    Done (E_ERR_SUCCESS, {| hdr := {| id := mid; ts := 0; len := strlen bs |};
                            data := Some (frame mid t bs) |})
      s (X_gettimeofday :: c :: h)
  else Done (E_ERR_FAILED, null_msg) s (c :: h).

Lemma strlen_app (a b : list Z) : strlen (a ++ b) = strlen a + strlen b.
Proof. unfold strlen. rewrite length_app. lia. Qed.

Lemma strlen_be32 v : strlen (be32 v) = 4.
Proof. done. Qed.

Lemma strlen_nonneg l : 0 <= strlen l.
Proof. unfold strlen. lia. Qed.

Lemma with_buffer_writes (m : IO wbuf unit) bs n s h h' :
  m {| buf := replicate (Z.to_nat n) 0; off := 0 |} h =
    Done tt (written {| buf := replicate (Z.to_nat n) 0; off := 0 |} bs) h' ->
  n = strlen bs ->
  with_buffer n m s h = Done bs s h'.
Proof.
  intros Hm ->. unfold with_buffer. rewrite Hm. unfold strlen. cbn. f_equal.
  rewrite Nat2Z.id, drop_ge by (rewrite length_replicate; lia). apply app_nil_r.
Qed.

Lemma msg_prepare_writes mid size body bs s h :
  writes body bs -> size = strlen bs -> SIZE_HEADER + strlen bs < 2 ^ 32 ->
  msg_prepare mid size body s h = prepared mid bs s h.
Proof.
  intros Hw -> Hlt. unfold msg_prepare, prepared.
  pose proof (strlen_nonneg bs). unfold SIZE_HEADER in *.
  rewrite uint32_id by lia. unfold call, mbind, M_bind. cbn beta iota.
  set (c := X_calloc (12 + strlen bs)).
  destruct (reply h c); [|done].
  set (t := uint32 (tv_sec (reply (c :: h) X_gettimeofday))).
  erewrite (with_buffer_writes _ (frame mid t bs)); [reflexivity| |].
  2:{ unfold frame. rewrite !strlen_app, !strlen_be32. lia. }
  set (w := {| buf := _; off := _ |}).
  assert (Hf : fits w (frame mid t bs)).
  { unfold fits, w. cbn [buf off]. rewrite length_replicate. unfold frame.
    rewrite !length_app, !be32_length. unfold strlen. lia. }
  unfold frame in *. rewrite <- !written_written by (rewrite <- ?app_assoc; done).
  apply fits_app in Hf as [F1 Hf]. apply fits_app in Hf as [F2 Hf].
  apply fits_app in Hf as [F3 F4].
  unfold msg_set_header, mbind, M_bind, call, serialize_uint32.
  cbn beta iota. rewrite writes_put by done. cbn beta iota. fold t.
  rewrite !writes_put by done. cbn beta iota.
  rewrite Hw by done. f_equal. symmetry.
  rewrite <- !written_written; rewrite ?fits_app; auto.
Qed.

Lemma msg_set_empty_ok ev p s h :
  msg_set_empty ev p s h = prepared (event_id ev) [] s h.
Proof. apply msg_prepare_writes; [apply writes_nil|done|done]. Qed.

(** Splits a [writes] goal along the source's sequence of writes. *)
Ltac writes_tac :=
  unfold serialize_int, serialize_size_t, serialize_uint32, lstring; rewrite <- ?app_assoc;
  repeat (apply writes_seq; [apply writes_put|]); try apply writes_put.

Lemma set_msg_modem_hw_id_ok hw s h : payload_ok (P_hw_id hw) ->
  set_msg_modem_hw_id (P_hw_id hw) s h =
  prepared (event_id E_MMGR_RESPONSE_MODEM_HW_ID) (wire (P_hw_id hw)) s h.
Proof. intros [Hl _]. apply msg_prepare_writes; [writes_tac|done|done]. Qed.

Lemma set_msg_fuse_info_ok fuse s h : payload_ok (P_fuse_info fuse) ->
  set_msg_fuse_info (P_fuse_info fuse) s h =
  prepared (event_id E_MMGR_RESPONSE_FUSE_INFO) (wire (P_fuse_info fuse)) s h.
Proof.
  intros [Hl Hf]. cbn [wire] in *.
  apply msg_prepare_writes; [|by rewrite Hf|done].
  rewrite take_ge; [writes_tac|]. unfold strlen, FUSE_LEN in *. lia.
Qed.

Lemma set_msg_ap_reset_ok ap s h : payload_ok (P_ap_reset ap) ->
  set_msg_ap_reset (P_ap_reset ap) s h =
  prepared (event_id E_MMGR_NOTIFY_AP_RESET) (wire (P_ap_reset ap)) s h.
Proof.
  intros [Hl _]. pose proof (strlen_nonneg (ap_name ap)). pose proof (strlen_nonneg (ap_extra ap)).
  cbn [wire] in *. unfold lstring, SIZE_HEADER in *. rewrite !strlen_app, strlen_be32 in Hl.
  apply msg_prepare_writes.
  - writes_tac. apply writes_when; [writes_tac|].
    by destruct (ap_extra ap).
  - rewrite uint32_id by lia. rewrite !strlen_app, strlen_be32. lia.
  - rewrite !strlen_app, strlen_be32. unfold SIZE_HEADER. lia.
Qed.

Lemma set_msg_modem_fw_result_ok r s h :
  set_msg_modem_fw_result (P_fw_result r) s h =
  prepared (event_id E_MMGR_RESPONSE_MODEM_FW_RESULT) (wire (P_fw_result r)) s h.
Proof. apply msg_prepare_writes; [writes_tac|done|done]. Qed.

Lemma set_msg_modem_nvm_result_ok r s h :
  set_msg_modem_nvm_result (P_nvm_result r) s h =
  prepared (event_id E_MMGR_RESPONSE_MODEM_NVM_RESULT) (wire (P_nvm_result r)) s h.
Proof. apply msg_prepare_writes; [writes_tac|done|done]. Qed.

Lemma set_msg_core_dump_ok cd s h : payload_ok (P_core_dump cd) ->
  set_msg_core_dump (P_core_dump cd) s h =
  prepared (event_id E_MMGR_NOTIFY_CORE_DUMP_COMPLETE) (wire (P_core_dump cd)) s h.
Proof.
  intros [Hl _]. pose proof (strlen_nonneg (cd_path cd)). pose proof (strlen_nonneg (cd_reason cd)).
  cbn [wire] in *. unfold SIZE_HEADER in *. rewrite !strlen_app, !strlen_be32 in Hl.
  apply msg_prepare_writes.
  - writes_tac. apply writes_when; [writes_tac|].
    by destruct (cd_reason cd).
  - rewrite uint32_id by lia. rewrite !strlen_app, !strlen_be32. lia.
  - rewrite !strlen_app, !strlen_be32. unfold SIZE_HEADER. lia.
Qed.

Lemma tft_data_size_strlen l : tft_data_size l = strlen (concat (map lstring l)).
Proof.
  induction l as [|v l IH]; [done|]. cbn [tft_data_size map concat].
  rewrite strlen_app, IH. unfold lstring. rewrite strlen_app, strlen_be32. done.
Qed.

Lemma set_msg_tft_event_ok ev s h : payload_ok (P_tft_event ev) ->
  set_msg_tft_event (P_tft_event ev) s h =
  prepared (event_id E_MMGR_NOTIFY_TFT_EVENT) (wire (P_tft_event ev)) s h.
Proof.
  intros (Hl & Hn & Hd). pose proof (strlen_nonneg (tft_name ev)).
  pose proof (strlen_nonneg (concat (map lstring (tft_data ev)))).
  cbn [wire] in *. unfold SIZE_HEADER in *. rewrite !strlen_app, !strlen_be32 in Hl.
  unfold lstring in Hl at 1. rewrite strlen_app, strlen_be32 in Hl.
  apply msg_prepare_writes.
  - writes_tac. apply writes_assert; [by apply Z.leb_le|].
    apply (writes_for_each _ _ (fun l => be32 (strlen l) ++ l)). intros v Hv.
    apply writes_assert; [|writes_tac]. apply Z.ltb_lt. rewrite Forall_forall in Hd. by apply Hd, list_elem_of_In.
  - rewrite tft_data_size_strlen, uint32_id by lia. rewrite !strlen_app, !strlen_be32.
    unfold lstring at 2. rewrite strlen_app, strlen_be32. lia.
  - rewrite !strlen_app, !strlen_be32. unfold lstring at 1. rewrite strlen_app, strlen_be32.
    unfold SIZE_HEADER. lia.
Qed.

(** Reading the header of a frame gives back its identifier and length. *)
Lemma parse_header_frame mid t bs s h :
  0 <= mid < 2 ^ 32 -> 0 <= t < 2 ^ 32 -> strlen bs < 2 ^ 32 ->
  parse_header (take (Z.to_nat SIZE_HEADER) (frame mid t bs)) s h =
  Done (E_ERR_SUCCESS, Some {| id := mid; ts := t; len := strlen bs |}) s h.
Proof.
  intros Hm Ht Hb. pose proof (strlen_nonneg bs).
  change (take _ _) with (be32 mid ++ be32 t ++ be32 (strlen bs) ++ []).
  unfold parse_header. change (Z.of_nat _) with 12. unfold mbind, M_bind. cbn beta iota.
  change (12 =? 0) with false. change (12 <? SIZE_HEADER) with false. cbn beta iota.
  rewrite deserialize_be32 by done. rewrite deserialize_be32 by done.
  by rewrite deserialize_be32 by lia.
Qed.

End frames.
