(* ===== verification/Recov.v ===== *)
(** The escalation recovery of core/reset_escalation.c: which operation the
    next recovery of the modem performs, and how many of each are left. *)
From S2P Require Import Prelude Platform Io.

(** * State *)

Inductive e_escalation_level :=
| E_EL_UNKNOWN | E_EL_MODEM_COLD_RESET | E_EL_PLATFORM_REBOOT
| E_EL_MODEM_OUT_OF_SERVICE | E_EL_NUMBER_OF.
#[export] Instance e_escalation_level_eq : EqDecision e_escalation_level.
Proof. solve_decision. Defined.

(** Integer value of a level: its index in [process]. *)
Definition level_index (l : e_escalation_level) : nat :=
  match l with
  | E_EL_UNKNOWN => 0 | E_EL_MODEM_COLD_RESET => 1 | E_EL_PLATFORM_REBOOT => 2
  | E_EL_MODEM_OUT_OF_SERVICE => 3 | E_EL_NUMBER_OF => 4
  end.

Inductive e_reset_operation_state :=
| E_OPERATION_NONE | E_OPERATION_WAIT | E_OPERATION_CONTINUE.
#[export] Instance e_reset_operation_state_eq : EqDecision e_reset_operation_state.
Proof. solve_decision. Defined.

Inductive e_force_operation := E_FORCE_NONE | E_FORCE_NO_COUNT | E_FORCE_OOS.
#[export] Instance e_force_operation_eq : EqDecision e_force_operation.
Proof. solve_decision. Defined.

Record reset_operation := { retry_allowed : Z; next_level : e_escalation_level }.

Record reset_management := {
  level_id : e_escalation_level;
  level_counter : Z;
  rm_state : e_reset_operation_state;
  process : list reset_operation;
  last_reset_time : timeval;
  op : e_force_operation;
  reset_delay : Z;
  key_reboot : list Z }.

(** The recovery section of the telephony configuration. *)
Record mmgr_recovery := {
  rc_enable : bool; rc_cold_reset : Z; rc_reboot : Z; rc_reset_delay : Z;
  rc_cold_timeout : Z; rc_shtdwn_timeout : Z }.

Definition set_level (l : e_escalation_level) (s : reset_management) : reset_management :=
  {| level_id := l; level_counter := level_counter s; rm_state := rm_state s;
     process := process s; last_reset_time := last_reset_time s; op := op s;
     reset_delay := reset_delay s; key_reboot := key_reboot s |}.

Definition set_counter (n : Z) (s : reset_management) : reset_management :=
  {| level_id := level_id s; level_counter := n; rm_state := rm_state s;
     process := process s; last_reset_time := last_reset_time s; op := op s;
     reset_delay := reset_delay s; key_reboot := key_reboot s |}.

Definition set_state (st : e_reset_operation_state) (s : reset_management) : reset_management :=
  {| level_id := level_id s; level_counter := level_counter s; rm_state := st;
     process := process s; last_reset_time := last_reset_time s; op := op s;
     reset_delay := reset_delay s; key_reboot := key_reboot s |}.

Definition set_last (t : timeval) (s : reset_management) : reset_management :=
  {| level_id := level_id s; level_counter := level_counter s; rm_state := rm_state s;
     process := process s; last_reset_time := t; op := op s;
     reset_delay := reset_delay s; key_reboot := key_reboot s |}.

Definition set_op (o : e_force_operation) (s : reset_management) : reset_management :=
  {| level_id := level_id s; level_counter := level_counter s; rm_state := rm_state s;
     process := process s; last_reset_time := last_reset_time s; op := o;
     reset_delay := reset_delay s; key_reboot := key_reboot s |}.

(** * Operations *)

Section recov.
Context `{Platform}.

(** [platform_reboot]: the modem control handle is not used. *)
Definition platform_reboot {S} : IO S e_mmgr_errors :=
  call X_sync ;; call (X_broadcast_action E_ACTION_INTENT_REBOOT) ;; mret E_ERR_SUCCESS.

(** [reset->process[l]]; past the array the access is undefined. *)
Definition process_at (l : e_escalation_level) : IO reset_management reset_operation :=
  s ← get;
  match process s !! level_index l with
  | Some p => mret p
  | None => undefined
  end.

(** The [do ... while] of [recov_next]. *)
Fixpoint recov_next_loop (fuel : nat) : IO reset_management unit :=
  match fuel with
  | O => undefined
  | S n =>
      l ← gets level_id;
      p ← process_at l;
      modify (set_level (next_level p)) ;;
      q ← process_at (next_level p);
      if (retry_allowed q <=? 0) &&
         negb (bool_decide (next_level p = E_EL_MODEM_OUT_OF_SERVICE))
      then recov_next_loop n
      else mret tt
  end.

Definition recov_next : IO reset_management e_mmgr_errors :=
  recov_next_loop 4 ;; modify (set_counter 0) ;; mret E_ERR_SUCCESS.

Definition recov_reinit : IO reset_management e_mmgr_errors :=
  modify (set_counter 0) ;;
  modify (set_level E_EL_MODEM_COLD_RESET) ;;
  p ← process_at E_EL_MODEM_COLD_RESET;
  when (retry_allowed p <=? 0) (_ ← recov_next; mret tt) ;;
  mret E_ERR_SUCCESS.

(** On the [E_FORCE_OOS] branch the source never sets [current_time], yet
    stores it: the value kept is whatever the stack held. *)
Definition recov_start : IO reset_management e_mmgr_errors :=
  s ← get;
  current_time ←
    (if bool_decide (op s = E_FORCE_OOS) then
       modify (set_level E_EL_MODEM_OUT_OF_SERVICE) ;;
       modify (set_op E_FORCE_NONE) ;;
       call X_uninitialised
     else
       now ← call X_gettimeofday;
       when (negb (bool_decide (level_id s = E_EL_MODEM_OUT_OF_SERVICE)))
         (when (reset_delay s <? int32 (tv_sec now - tv_sec (last_reset_time s)))
            (_ ← recov_reinit; _ ← property_set_int (key_reboot s) 0; mret tt)) ;;
       mret now);
  modify (set_last current_time) ;;
  mret E_ERR_SUCCESS.

Definition recov_get_level : IO reset_management e_escalation_level := gets level_id.

Definition recov_get_reboot : IO reset_management Z :=
  k ← gets key_reboot; '(_, n) ← property_get_int k; mret n.

Definition recov_set_reboot (reboot : Z) : IO reset_management unit :=
  k ← gets key_reboot; _ ← property_set_int k reboot; mret tt.

Definition recov_done : IO reset_management e_mmgr_errors :=
  modify (set_state E_OPERATION_NONE) ;;
  s ← get;
  if (level_index E_EL_NUMBER_OF <=? level_index (level_id s))%nat then mret E_ERR_SUCCESS
  else
    (if bool_decide (op s = E_FORCE_NO_COUNT)
     then modify (set_op E_FORCE_NONE)
     else modify (set_counter (int32 (level_counter s + 1)))) ;;
    p ← process_at (level_id s);
    n ← gets level_counter;
    when ((0 <=? retry_allowed p) && (retry_allowed p <=? n)) (_ ← recov_next; mret tt) ;;
    mret E_ERR_SUCCESS.

Definition recov_init (recov : mmgr_recovery) (key : list Z)
  : IO (option reset_management) unit :=
  ok ← call (X_calloc 64);
  ASSERT ok ;;
  let none := {| retry_allowed := 0; next_level := E_EL_MODEM_OUT_OF_SERVICE |} in
  let process := replicate 4 none in
  '(lvl, t, process) ←
    (if rc_enable recov then
       now ← call X_gettimeofday;
       let reboot := 0 <? rc_reboot recov in
       let cold :=
         {| retry_allowed := if 0 <? rc_cold_reset recov then rc_cold_reset recov else 0;
            next_level := if reboot then E_EL_PLATFORM_REBOOT
                          else E_EL_MODEM_OUT_OF_SERVICE |} in
       let process := <[level_index E_EL_MODEM_COLD_RESET := cold]> process in
       let process :=
         if reboot
         then <[level_index E_EL_PLATFORM_REBOOT :=
                  {| retry_allowed := rc_reboot recov;
                     next_level := E_EL_MODEM_OUT_OF_SERVICE |}]> process
         else process in
       mret (E_EL_MODEM_COLD_RESET, now, process)
     else mret (E_EL_UNKNOWN, {| tv_sec := 0; tv_usec := 0 |}, process));
  let process := <[level_index E_EL_MODEM_OUT_OF_SERVICE :=
                     {| retry_allowed := -1; next_level := E_EL_MODEM_OUT_OF_SERVICE |}]> process in
  modify (fun _ => Some
    {| level_id := lvl; level_counter := 0; rm_state := E_OPERATION_NONE;
       process := process; last_reset_time := t; op := E_FORCE_NONE;
       reset_delay := rc_reset_delay recov; key_reboot := key |}).

Definition recov_get_last_reset : IO reset_management timeval := gets last_reset_time.

Definition recov_set_state (st : e_reset_operation_state) : IO reset_management e_mmgr_errors :=
  modify (set_state st) ;; mret E_ERR_SUCCESS.

Definition recov_get_state : IO reset_management e_reset_operation_state := gets rm_state.

Definition recov_get_retry_allowed : IO reset_management Z :=
  l ← gets level_id; p ← process_at l; mret (retry_allowed p).

Definition recov_force (o : e_force_operation) : IO reset_management e_mmgr_errors :=
  modify (set_op o) ;; mret E_ERR_SUCCESS.

Definition recov_get_operation : IO reset_management e_force_operation := gets op.

End recov.

(** * The escalation table *)

(** What [recov_init] leaves in [process] for [c] cold resets and [r] platform
    reboots (a disabled recovery is the case of none of either). *)
Definition table (c r : Z) : list reset_operation :=
  [ {| retry_allowed := 0; next_level := E_EL_MODEM_OUT_OF_SERVICE |};
    {| retry_allowed := c;
       next_level := if 0 <? r then E_EL_PLATFORM_REBOOT else E_EL_MODEM_OUT_OF_SERVICE |};
    {| retry_allowed := r; next_level := E_EL_MODEM_OUT_OF_SERVICE |};
    {| retry_allowed := -1; next_level := E_EL_MODEM_OUT_OF_SERVICE |} ].

Definition budget (n : Z) : Z := if 0 <? n then n else 0.

Definition cold_budget (recov : mmgr_recovery) : Z :=
  if rc_enable recov then budget (rc_cold_reset recov) else 0.
Definition reboot_budget (recov : mmgr_recovery) : Z :=
  if rc_enable recov then budget (rc_reboot recov) else 0.

(** The state of the module is well formed for [c] and [r]. *)
Definition recov_wf (c r : Z) (s : reset_management) : Prop :=
  process s = table c r /\ level_id s <> E_EL_NUMBER_OF.

(** * The abstract escalation

    A single number: how many recoveries have been charged since the modem was
    last stable.  The first [c] are cold resets, the next [r] platform reboots,
    and from then on the modem is out of service. *)
Definition spec_level (c r k : Z) : e_escalation_level :=
  if k <? c then E_EL_MODEM_COLD_RESET
  else if k <? c + r then E_EL_PLATFORM_REBOOT
  else E_EL_MODEM_OUT_OF_SERVICE.

Record escalation := {
  charged : Z;                (* recoveries charged so far *)
  pending : e_force_operation;
  since : timeval }.          (* when the last recovery started *)

Inductive recov_op :=
| R_start | R_done | R_next | R_reinit | R_force (o : e_force_operation).

(** One abstract operation; [now] is the clock and [junk] what an uninitialised
    [struct timeval] holds. *)
Definition spec_op (c r delay : Z) (now junk : timeval) (o : recov_op) (a : escalation)
  : escalation :=
  match o with
  | R_start =>
      match pending a with
      | E_FORCE_OOS => {| charged := c + r; pending := E_FORCE_NONE; since := junk |}
      | p =>
          {| charged := if (charged a <? c + r) &&
                           (delay <? int32 (tv_sec now - tv_sec (since a)))
                        then 0 else charged a;
             pending := p; since := now |}
      end
  | R_done =>
      match pending a with
      | E_FORCE_NO_COUNT =>
          {| charged := charged a; pending := E_FORCE_NONE; since := since a |}
      | p => {| charged := charged a + 1; pending := p; since := since a |}
      end
  | R_next =>
      {| charged := if charged a <? c then c else c + r;
         pending := pending a; since := since a |}
  | R_reinit => {| charged := 0; pending := pending a; since := since a |}
  | R_force p => {| charged := charged a; pending := p; since := since a |}
  end.

(** The concrete state stands for the abstract one. *)
Definition tracks (c r : Z) (a : escalation) (s : reset_management) : Prop :=
  process s = table c r /\
  level_id s = spec_level c r (charged a) /\
  (level_id s = E_EL_MODEM_COLD_RESET -> level_counter s = charged a) /\
  (level_id s = E_EL_PLATFORM_REBOOT -> level_counter s = charged a - c) /\
  op s = pending a /\ last_reset_time s = since a /\ 0 <= charged a.

Lemma spec_level_cases c r k :
  (k < c /\ spec_level c r k = E_EL_MODEM_COLD_RESET) \/
  (c <= k < c + r /\ spec_level c r k = E_EL_PLATFORM_REBOOT) \/
  (c <= k /\ c + r <= k /\ spec_level c r k = E_EL_MODEM_OUT_OF_SERVICE).
Proof.
  unfold spec_level. destruct (Z.ltb_spec k c); [tauto|].
  destruct (Z.ltb_spec k (c + r)); [tauto|]. right. right. tauto.
Qed.

Section recov_lemmas.
Context `{Platform}.
Implicit Types (s : reset_management) (h : history).

Definition run_op (o : recov_op) : IO reset_management unit :=
  match o with
  | R_start => _ ← recov_start; mret tt
  | R_done => _ ← recov_done; mret tt
  | R_next => _ ← recov_next; mret tt
  | R_reinit => _ ← recov_reinit; mret tt
  | R_force o => _ ← recov_force o; mret tt
  end.

(** The level after [l]. *)
Definition level_after (r : Z) (l : e_escalation_level) : e_escalation_level :=
  match l with
  | E_EL_MODEM_COLD_RESET => if 0 <? r then E_EL_PLATFORM_REBOOT else E_EL_MODEM_OUT_OF_SERVICE
  | _ => E_EL_MODEM_OUT_OF_SERVICE
  end.

(** The loop of [recov_next] ends, on a level with tries left or out of service. *)
Lemma process_at_table c r s h l : process s = table c r -> l <> E_EL_NUMBER_OF ->
  process_at l s h = match table c r !! level_index l with
                     | Some p => Done p s h
                     | None => Undef h
                     end.
Proof. intros Hp Hl. unfold process_at. run_simp. rewrite Hp. by destruct l. Qed.

Lemma recov_next_eq c r s h : recov_wf c r s ->
  recov_next s h =
  Done E_ERR_SUCCESS (set_counter 0 (set_level (level_after r (level_id s)) s)) h.
Proof.
  intros [Hp Hl]. destruct s as [l n st p t o d k]. cbn in Hp, Hl. subst p.
  unfold recov_next. cbn [recov_next_loop]. unfold process_at.
  destruct l; [by run_simp|..|by run_simp|done]; [|by run_simp].
  run_simp. cbn [process level_id table level_index lookup].
  cbn. run_simp. cbn. destruct (Z.ltb_spec 0 r); cbn; [|done].
  run_simp. cbn. replace (r <=? 0) with false by (symmetry; apply Z.leb_gt; lia). done.
Qed.

Lemma recov_reinit_eq c r s h : recov_wf c r s -> 0 <= c ->
  recov_reinit s h =
  Done E_ERR_SUCCESS (set_counter 0 (set_level
    (if 0 <? c then E_EL_MODEM_COLD_RESET else level_after r E_EL_MODEM_COLD_RESET) s)) h.
Proof.
  intros [Hp Hl] Hc. unfold recov_reinit. run_simp.
  erewrite run_bind by (by rewrite process_at_table with (c := c) (r := r)).
  cbn [retry_allowed]. run_simp. destruct (Z.ltb_spec 0 c).
  - by replace (c <=? 0) with false by (symmetry; apply Z.leb_gt; lia).
  - replace (c <=? 0) with true by (symmetry; apply Z.leb_le; lia).
    erewrite run_bind by (by apply (recov_next_eq c r)). done.
Qed.

Lemma recov_done_eq c r s h : recov_wf c r s -> 0 <= c -> 0 <= r ->
  recov_done s h =
  let s1 := set_state E_OPERATION_NONE s in
  let s2 := if bool_decide (op s = E_FORCE_NO_COUNT) then set_op E_FORCE_NONE s1
            else set_counter (int32 (level_counter s + 1)) s1 in
  let limit := match level_id s with
               | E_EL_UNKNOWN => Some 0 | E_EL_MODEM_COLD_RESET => Some c
               | E_EL_PLATFORM_REBOOT => Some r | _ => None
               end in
  Done E_ERR_SUCCESS
    (match limit with
     | Some m => if m <=? level_counter s2
                 then set_counter 0 (set_level (level_after r (level_id s)) s2) else s2
     | None => s2
     end) h.
Proof.
  intros [Hp Hl] Hc Hr. unfold recov_done. run_simp. cbv zeta.
  change (op (set_state _ s)) with (op s). change (level_id (set_state _ s)) with (level_id s).
  change (level_counter (set_state _ s)) with (level_counter s).
  replace (_ <=? _)%nat with false by (by destruct (level_id s)).
  set (s2 := if bool_decide (op s = E_FORCE_NO_COUNT)
             then set_op E_FORCE_NONE (set_state E_OPERATION_NONE s)
             else set_counter (int32 (level_counter s + 1)) (set_state E_OPERATION_NONE s)).
  assert (recov_wf c r s2 /\ level_id s2 = level_id s) as [[Hp2 Hl2] Hs2]
    by (subst s2; destruct (bool_decide _); done).
  transitivity ((p ← process_at (level_id s);
    n ← gets level_counter;
    when ((0 <=? retry_allowed p) && (retry_allowed p <=? n)) (_ ← recov_next; mret tt) ;;
    mret E_ERR_SUCCESS : IO reset_management e_mmgr_errors) s2 h);
    [subst s2; by destruct (bool_decide _)|].
  apply Z.leb_le in Hc, Hr.
  unfold mbind at 1, M_bind at 1. rewrite (process_at_table c r) by done.
  destruct (level_id s) eqn:El; [..|done]; cbn [table level_index lookup list_lookup];
    run_simp; cbn [retry_allowed]; rewrite ?Hc, ?Hr; cbn [andb];
    [change (0 <=? 0) with true; cbn [andb]| | |done];
    case_match; try done; erewrite run_bind by (by apply (recov_next_eq c r));
    rewrite Hs2; done.
Qed.

Lemma tracks_wf c r a s : tracks c r a s -> recov_wf c r s.
Proof.
  intros (Hp & Hl & _). split; [done|]. rewrite Hl.
  destruct (spec_level_cases c r (charged a)) as [[_ ->]|[[_ ->]|(_ & _ & ->)]]; done.
Qed.

(** Starting a recovery, on its three branches. *)
Lemma recov_start_eq c r s h : recov_wf c r s -> 0 <= c ->
  let now := reply h X_gettimeofday in
  recov_start s h =
  if bool_decide (op s = E_FORCE_OOS) then
    Done E_ERR_SUCCESS
      (set_last (reply h X_uninitialised)
         (set_op E_FORCE_NONE (set_level E_EL_MODEM_OUT_OF_SERVICE s)))
      (X_uninitialised :: h)
  else if negb (bool_decide (level_id s = E_EL_MODEM_OUT_OF_SERVICE)) &&
          (reset_delay s <? int32 (tv_sec now - tv_sec (last_reset_time s))) then
    Done E_ERR_SUCCESS
      (set_last now (set_counter 0 (set_level
         (if 0 <? c then E_EL_MODEM_COLD_RESET else level_after r E_EL_MODEM_COLD_RESET) s)))
      (X_property_set (key_reboot s) (print_int 0) :: X_gettimeofday :: h)
  else Done E_ERR_SUCCESS (set_last now s) (X_gettimeofday :: h).
Proof.
  intros Hw Hc now. unfold recov_start, property_set_int. run_simp.
  destruct (bool_decide (op s = _)); [by run_calls|]. run_calls.
  destruct (bool_decide (level_id s = _)); cbn [negb andb]; [done|]. run_calls.
  fold now. destruct (_ <? _); [|done].
  erewrite run_bind by (by apply (recov_reinit_eq c r)). by run_calls.
Qed.

(** [tracks] by cases on the level. *)
Definition at_level (c r k : Z) (s : reset_management) : Prop :=
  (k < c /\ level_id s = E_EL_MODEM_COLD_RESET /\ level_counter s = k) \/
  (c <= k < c + r /\ level_id s = E_EL_PLATFORM_REBOOT /\ level_counter s = k - c) \/
  (c <= k /\ c + r <= k /\ level_id s = E_EL_MODEM_OUT_OF_SERVICE).

Lemma tracks_at c r a s :
  tracks c r a s <->
  process s = table c r /\ at_level c r (charged a) s /\
  op s = pending a /\ last_reset_time s = since a /\ 0 <= charged a.
Proof.
  unfold tracks, at_level.
  destruct (spec_level_cases c r (charged a)) as [[K ->]|[[K ->]|(K & K' & ->)]];
    (split; [intros (? & Hl & ? & ? & ?); rewrite Hl in *; naive_solver lia|]);
    intros (? & [(? & Hl & ?)|[(? & Hl & ?)|(? & ? & Hl)]] & ?); try lia;
    rewrite Hl; naive_solver.
Qed.

Lemma at_level_zero c r s : 0 <= c -> 0 <= r ->
  at_level c r 0 (set_counter 0 (set_level
    (if 0 <? c then E_EL_MODEM_COLD_RESET else level_after r E_EL_MODEM_COLD_RESET) s)).
Proof.
  intros. unfold at_level. cbn. destruct (Z.ltb_spec 0 c); [left; done|].
  destruct (Z.ltb_spec 0 r); right; [left|right]; split_and!; (done || lia).
Qed.

Lemma at_level_oos c r k s : 0 <= r -> at_level c r k s ->
  bool_decide (level_id s = E_EL_MODEM_OUT_OF_SERVICE) = negb (k <? c + r).
Proof.
  by intros Hr [(? & -> & _)|[(? & -> & _)|(? & ? & ->)]];
    destruct (Z.ltb_spec k (c + r)); try lia.
Qed.

(** The wrap-around of the counter is never reached while it counts. *)
Lemma at_level_counter c r k s : at_level c r k s -> 0 <= k ->
  level_id s <> E_EL_MODEM_OUT_OF_SERVICE -> c < 2 ^ 31 -> r < 2 ^ 31 ->
  int32 (level_counter s + 1) = level_counter s + 1.
Proof.
  intros [(? & _ & ?)|[(? & _ & ?)|(? & ? & ->)]]; intros; [..|done]; apply int32_id; lia.
Qed.

Section simulation.
Context (c r delay : Z) (Hc : 0 <= c < 2 ^ 31) (Hr : 0 <= r < 2 ^ 31).

Lemma tracks_start a s h :
  reset_delay s = delay -> tracks c r a s ->
  wp False recov_start
    (fun _ s' _ => reset_delay s' = delay /\
       tracks c r (spec_op c r delay (reply h X_gettimeofday) (reply h X_uninitialised)
                     R_start a) s') s h.
Proof.
  intros Hd Ht. pose proof (tracks_wf _ _ _ _ Ht) as Hw. unfold wp.
  rewrite (recov_start_eq c r) by (done || lia).
  apply tracks_at in Ht as (Hp & Hl & Ho & Hs & H0).
  rewrite (at_level_oos c r _ _ ltac:(lia) Hl), negb_involutive. unfold spec_op.
  rewrite <- Hd, <- Hs, Ho.
  destruct (pending a); simpl_decide; cbn;
    [destruct (_ && _)..|]; (split; [done|]); apply tracks_at; cbn; split_and!; try (done || lia);
    try by apply at_level_zero; lia.
  right; right. cbn. split_and!; (done || lia).
Qed.

Lemma tracks_next a s h :
  reset_delay s = delay -> tracks c r a s ->
  wp False recov_next
    (fun _ s' _ => reset_delay s' = delay /\
       tracks c r (spec_op c r delay (reply h X_gettimeofday) (reply h X_uninitialised)
                     R_next a) s') s h.
Proof.
  intros Hd Ht. pose proof (tracks_wf _ _ _ _ Ht) as Hw. unfold wp.
  rewrite (recov_next_eq c r) by done.
  apply tracks_at in Ht as (Hp & Hl & Ho & Hs & H0). split; [done|]. apply tracks_at.
  split_and!; [done| |done..|unfold spec_op; cbn; destruct (_ <? _); lia].
  unfold spec_op, at_level in *. cbn.
  destruct Hl as [(? & -> & _)|[(? & -> & _)|(? & ? & ->)]]; cbn;
    destruct (Z.ltb_spec (charged a) c); try lia; [|right; right; split_and!; (done || lia)..].
  destruct (Z.ltb_spec 0 r); right; [left|right]; split_and!; (done || lia).
Qed.

Lemma tracks_done a s h :
  reset_delay s = delay -> tracks c r a s ->
  wp False recov_done
    (fun _ s' _ => reset_delay s' = delay /\ rm_state s' = E_OPERATION_NONE /\
       tracks c r (spec_op c r delay (reply h X_gettimeofday) (reply h X_uninitialised)
                     R_done a) s') s h.
Proof.
  intros Hd Ht. pose proof (tracks_wf _ _ _ _ Ht) as Hw. unfold wp.
  rewrite (recov_done_eq c r) by (done || lia).
  apply tracks_at in Ht as (Hp & Hl & Ho & Hs & H0).
  pose proof (at_level_counter _ _ _ _ Hl H0) as Hov.
  unfold spec_op. rewrite Ho. unfold at_level in Hl.
  destruct Hl as [(K & El & En)|[(K & El & En)|(K & K' & El)]]; rewrite El in *; cbv zeta;
    [rewrite Hov, En by (done || lia)|rewrite Hov, En by (done || lia)|].
  all: destruct (pending a); simpl_decide; cbn; rewrite ?En.
  all: try match goal with |- context [?x <=? ?y] => destruct (Z.leb_spec x y); try lia end.
  all: (split; [done|]; split; [done|]); apply tracks_at; cbn; split_and!; try (done || lia).
  all: unfold at_level; cbn; rewrite ?El, ?En.
  all: try (destruct (Z.ltb_spec 0 r)).
  all: first [left; split_and!; (done || lia)
             |right; left; split_and!; (done || lia)
             |right; right; split_and!; (done || lia)].
Qed.

Lemma tracks_reinit a s h :
  reset_delay s = delay -> tracks c r a s ->
  wp False recov_reinit
    (fun _ s' _ => reset_delay s' = delay /\
       tracks c r (spec_op c r delay (reply h X_gettimeofday) (reply h X_uninitialised)
                     R_reinit a) s') s h.
Proof.
  intros Hd Ht. pose proof (tracks_wf _ _ _ _ Ht) as Hw. unfold wp.
  rewrite (recov_reinit_eq c r) by (done || lia).
  apply tracks_at in Ht as (Hp & Hl & Ho & Hs & H0). split; [done|]. apply tracks_at.
  split_and!; [done|by apply at_level_zero; lia|done..].
Qed.

(** One operation of the code is one operation of the abstract escalation. *)
Lemma tracks_op o a s h :
  reset_delay s = delay -> tracks c r a s ->
  wp False (run_op o)
    (fun _ s' _ => reset_delay s' = delay /\
       tracks c r (spec_op c r delay (reply h X_gettimeofday) (reply h X_uninitialised) o a) s')
    s h.
Proof.
  intros Hd Ht. destruct o as [| | | |o]; cbn [run_op]; apply wp_bind.
  - by apply tracks_start.
  - eapply wp_mono; [by apply tracks_done|]. intros ??? (? & ? & ?). done.
  - by apply tracks_next.
  - by apply tracks_reinit.
  - unfold recov_force. wp_simp. split; [done|].
    apply tracks_at in Ht as (Hp & Hl & Ho & Hs & H0). by apply tracks_at.
Qed.

(** Runs of the abstract escalation, the clock being free. *)
Inductive spec_run : escalation -> list recov_op -> escalation -> Prop :=
| spec_nil a : spec_run a [] a
| spec_cons a o l now junk a' :
    spec_run (spec_op c r delay now junk o a) l a' -> spec_run a (o :: l) a'.

Lemma tracks_run l a s h :
  reset_delay s = delay -> tracks c r a s ->
  wp False (for_each l run_op)
    (fun _ s' _ => exists a', spec_run a l a' /\ reset_delay s' = delay /\ tracks c r a' s') s h.
Proof.
  revert a s h. induction l as [|o l IH]; intros a s h Hd Ht; cbn [for_each].
  - exists a. repeat split; [constructor|done|apply Ht..].
  - wp_use tracks_op. intros _ s1 h1 [Hd1 Ht1]. eapply wp_mono; [by apply IH|].
    intros _ s2 h2 (a' & Hr' & H2). exists a'. split; [|done]. by econstructor.
Qed.

Lemma spec_run_oos l a a' : spec_run a l a' ->
  R_reinit ∉ l -> c + r <= charged a -> c + r <= charged a'.
Proof.
  induction 1 as [|a o l now junk a' _ IH]; [done|]. intros Hn Ha. apply IH.
  - intros Hi. apply Hn. by right.
  - destruct o as [| | | |p]; cbn; [|destruct (pending a); cbn; lia| |exfalso; apply Hn; left|done].
    + destruct (Z.ltb_spec (charged a) (c + r)); destruct (pending a); cbn; lia.
    + destruct (_ <? _) eqn:E; [apply Z.ltb_lt in E|]; lia.
Qed.

End simulation.

(** Ending a recovery calls nothing. *)
Lemma done_quiet c r s h : recov_wf c r s -> 0 <= c -> 0 <= r ->
  exists s', run_op R_done s h = Done tt s' h.
Proof.
  intros. cbn [run_op]. erewrite run_bind by (by apply (recov_done_eq c r)). by eexists.
Qed.

(** Two recoveries in a row, the second at most [delay] seconds after the first. *)
Definition close_recoveries (delay : Z) : Prop := forall h,
  - 2 ^ 31 <= tv_sec (reply (X_gettimeofday :: h) X_gettimeofday) -
              tv_sec (reply h X_gettimeofday) <= delay.

(** Recoveries that follow one another closely are charged one by one. *)
Lemma recov_rounds c r delay (Hc : 0 <= c < 2 ^ 31) (Hr : 0 <= r < 2 ^ 31) n :
  delay < 2 ^ 31 -> close_recoveries delay ->
  forall a st h, reset_delay st = delay -> tracks c r a st -> pending a = E_FORCE_NONE ->
  since a = reply h X_gettimeofday ->
  wp False (for_each (concat (replicate n [R_start; R_done])) run_op)
    (fun _ s' _ => level_id s' = spec_level c r (charged a + Z.of_nat n))
    st (X_gettimeofday :: h).
Proof.
  intros Hmax Hgap. induction n as [|n IH]; intros a st h Hd Ht Hpe Hin.
  { cbn. rewrite Z.add_0_r. apply Ht. }
  cbn [replicate concat app for_each].
  specialize (Hgap h) as Hg. rewrite <- Hin in Hg.
  assert (E : recov_start st (X_gettimeofday :: h) =
    Done E_ERR_SUCCESS (set_last (reply (X_gettimeofday :: h) X_gettimeofday) st)
      (X_gettimeofday :: X_gettimeofday :: h)).
  { rewrite (recov_start_eq c r) by (eauto using tracks_wf || lia).
    apply tracks_at in Ht as (_ & _ & Ho & Hs & _). rewrite Ho, Hpe, Hs, Hd, int32_id by lia.
    simpl_decide. replace (delay <? _) with false by (symmetry; apply Z.ltb_ge; lia).
    by rewrite andb_false_r. }
  pose proof (tracks_op c r delay Hc Hr R_start a st (X_gettimeofday :: h) Hd Ht) as H1.
  apply wp_bind. unfold wp in *. cbn [run_op] in *. erewrite run_bind in H1 |- * by exact E.
  destruct H1 as [Hd1 Ht1]. cbn [mret M_ret]. set (h1 := X_gettimeofday :: h) in *.
  destruct (done_quiet c r _ (X_gettimeofday :: h1) (tracks_wf _ _ _ _ Ht1)) as [st2 E2];
    [lia..|].
  pose proof (tracks_op c r delay Hc Hr R_done _ _ (X_gettimeofday :: h1) Hd1 Ht1) as H2.
  apply wp_bind. unfold wp in *. cbn [run_op] in E2, H2. rewrite E2 in H2 |- *. destruct H2 as [Hd2 Ht2].
  revert Ht2. cbn [spec_op]. rewrite Hpe. cbn [pending]. rewrite int32_id by (subst h1; lia).
  replace (delay <? _) with false by (symmetry; apply Z.ltb_ge; subst h1; lia).
  rewrite andb_false_r. cbn [charged since]. intros Ht2.
  pose proof (IH _ st2 h1 Hd2 Ht2 eq_refl eq_refl) as H3. unfold wp in H3. cbn [charged] in H3.
  by replace (charged a + Z.of_nat (S n)) with (charged a + 1 + Z.of_nat n) by lia.
Qed.

(** What [recov_init] builds. *)
Lemma recov_init_eq recov key h : reply h (X_calloc 64) = true ->
  rc_enable recov = true -> 0 < rc_cold_reset recov ->
  let t := reply (X_calloc 64 :: h) X_gettimeofday in
  exists st,
    recov_init recov key None h = Done tt (Some st) (X_gettimeofday :: X_calloc 64 :: h) /\
    reset_delay st = rc_reset_delay recov /\
    tracks (cold_budget recov) (reboot_budget recov)
      {| charged := 0; pending := E_FORCE_NONE; since := t |} st.
Proof.
  intros Hc He Hcold t. unfold recov_init. run_calls. rewrite Hc, He. run_calls.
  eexists. split; [reflexivity|]. split; [done|]. apply tracks_at. cbn [charged].
  unfold cold_budget, reboot_budget, budget. rewrite He.
  destruct (Z.ltb_spec 0 (rc_cold_reset recov)); [|lia].
  split_and!; try done; [|left; cbn; split_and!; (done || lia)].
  cbn. unfold table. destruct (0 <? rc_reboot recov) eqn:E; cbn; by rewrite ?E.
Qed.


End recov_lemmas.

(** * Theorems *)

Section recov_theorems.
Context `{Platform}.

(** C1. The recovery module implements the escalation: whatever sequence of its
    operations runs, each terminates without failing an assertion, and the
    level, the per-level counter and the pending forced operation are those of
    the abstract escalation run over the same operations. *)
Theorem recov_refines_escalation c r delay l a s h :
  0 <= c < 2 ^ 31 -> 0 <= r < 2 ^ 31 -> reset_delay s = delay -> tracks c r a s ->
  wp False (for_each l run_op)
    (fun _ s' _ => exists a', spec_run c r delay a l a' /\ tracks c r a' s') s h.
Proof.
  intros Hc Hr Hd Ht. eapply wp_mono; [by apply (tracks_run c r delay)|].
  intros _ s' h' (a' & ? & _ & ?). by exists a'.
Qed.

(** C2. The escalation schedule: when recovery is enabled with at least one cold
    reset and there is memory for the module, the first [n] recoveries that
    follow [recov_init] are, for every [n], [cold_reset] cold resets, then
    [reboot] platform reboots, then out of service, provided that each recovery
    starts at most [reset_delay] seconds after the one before it started (the
    first: after the initialisation).  Only the time between two recoveries in
    a row is bounded, not the time they take together, and the clock may step
    back, by less than the 68 years a 32-bit difference of seconds holds; none
    of these recoveries is forced. *)
Theorem recov_schedule recov key h n :
  reply h (X_calloc 64) = true ->
  rc_enable recov = true -> 0 < rc_cold_reset recov < 2 ^ 31 -> rc_reboot recov < 2 ^ 31 ->
  rc_reset_delay recov < 2 ^ 31 -> close_recoveries (rc_reset_delay recov) ->
  exists st h1,
    recov_init recov key None h = Done tt (Some st) h1 /\
    wp False (for_each (concat (replicate n [R_start; R_done])) run_op)
      (fun _ s' _ => level_id s' =
         spec_level (rc_cold_reset recov) (reboot_budget recov) (Z.of_nat n)) st h1.
Proof.
  intros Hal He Hc Hr Hmax Hgap.
  destruct (recov_init_eq recov key h Hal He ltac:(lia)) as (st & Hi & Hd & Ht).
  exists st. eexists. split; [exact Hi|]. clear Hi.
  set (c := cold_budget recov) in *. set (r := reboot_budget recov) in *.
  assert (c = rc_cold_reset recov) as Ec.
  { unfold c, cold_budget, budget. rewrite He.
    destruct (Z.ltb_spec 0 (rc_cold_reset recov)); lia. }
  assert (0 <= r < 2 ^ 31) as Hr'.
  { unfold r, reboot_budget, budget. rewrite He.
    destruct (Z.ltb_spec 0 (rc_reboot recov)); lia. }
  rewrite <- Ec.
  eapply wp_mono; [by eapply (recov_rounds c r _ ltac:(lia) Hr' n Hmax Hgap)|].
  intros ? s1 h2. cbn. intros ->. done.
Qed.

(** Out of service is final: from there no sequence of recoveries, forced
    operations or level changes leaves that level; only an explicit
    [recov_reinit] (a client acquiring the resource) does. *)
Theorem recov_oos_final c r s h l :
  0 <= c < 2 ^ 31 -> 0 <= r < 2 ^ 31 -> recov_wf c r s ->
  level_id s = E_EL_MODEM_OUT_OF_SERVICE -> R_reinit ∉ l ->
  wp False (for_each l run_op)
    (fun _ s' _ => level_id s' = E_EL_MODEM_OUT_OF_SERVICE) s h.
Proof.
  intros Hc Hr [Hp _] Hl Hn.
  assert (Ht : tracks c r {| charged := c + r; pending := op s; since := last_reset_time s |} s).
  { apply tracks_at. split_and!; try done; cbn; [|lia]. right; right. cbn.
    split_and!; (done || lia). }
  eapply wp_mono; [by apply (tracks_run c r (reset_delay s))|].
  intros _ s' h' (a' & Hs & _ & Ht'). apply (spec_run_oos c r (reset_delay s)) in Hs; [|done..].
  apply tracks_at in Ht' as (_ & [(? & _)|[(? & _)|(_ & _ & ?)]] & _); [lia..|done].
Qed.

End recov_theorems.

(** Three recoveries of a configuration with one cold reset and one reboot. *)
Definition demo_recovery : mmgr_recovery := {|
  rc_enable := true; rc_cold_reset := 1; rc_reboot := 1; rc_reset_delay := 60;
  rc_cold_timeout := 10; rc_shtdwn_timeout := 10 |}.

Definition demo_reset (l : e_escalation_level) : reset_management := {|
  level_id := l; level_counter := 0; rm_state := E_OPERATION_NONE; process := table 1 1;
  last_reset_time := {| tv_sec := 1000; tv_usec := 0 |}; op := E_FORCE_NONE;
  reset_delay := 60; key_reboot := [] |}.

Lemma recov_refines_escalation_witness :
  @wp history _ unit False
    (for_each [R_start; R_done; R_force E_FORCE_OOS; R_start] (@run_op still))
    (fun _ s' _ => exists a', spec_run 1 1 60
       {| charged := 0; pending := E_FORCE_NONE; since := {| tv_sec := 1000; tv_usec := 0 |} |}
       [R_start; R_done; R_force E_FORCE_OOS; R_start] a' /\ tracks 1 1 a' s')
    (demo_reset E_EL_MODEM_COLD_RESET) [].
Proof.
  apply (@recov_refines_escalation still); try done.
Defined.

(** A clock that runs 50 seconds between two readings. *)
Definition running_clock : Platform := with_reply still (fun h c =>
  match c as c0 return ans c0 with
  | X_gettimeofday => {| tv_sec := 1000 + 50 * Z.of_nat (length h); tv_usec := 0 |}
  | c0 => @reply still h c0
  end).

(** Three recoveries, 50 seconds apart, with a [reset_delay] of 60: together they
    take longer than it. *)
Lemma recov_schedule_witness :
  exists st h1,
    @recov_init running_clock demo_recovery [] None [] = Done tt (Some st) h1 /\
    wp False (for_each (concat (replicate 3 [R_start; R_done])) (@run_op running_clock))
      (fun _ s' _ => level_id s' =
         spec_level (rc_cold_reset demo_recovery) (reboot_budget demo_recovery) (Z.of_nat 3))
      st h1.
Proof.
  apply (@recov_schedule running_clock demo_recovery [] [] 3); try done.
  intros h. cbn [reply running_clock with_reply tv_sec length rc_reset_delay demo_recovery].
  lia.
Defined.

Lemma recov_oos_final_witness :
  wp False (for_each [R_start; R_done; R_next] (@run_op still))
    (fun _ s' _ => level_id s' = E_EL_MODEM_OUT_OF_SERVICE)
    (demo_reset E_EL_MODEM_OUT_OF_SERVICE) [].
Proof.
  apply (@recov_oos_final still 1 1); try done.
  rewrite !not_elem_of_cons. split_and!; try done. apply not_elem_of_nil.
Defined.
