(* ===== verification/Clients.v ===== *)
(** The clients of the daemon: core/client.c.

    A [client_hdle_t] is a pointer into the list: here an index, [None] for
    NULL.  The static variable of [clients_inform_all] is part of the state. *)
From S2P Require Import Prelude Platform Io Msg.

(** * State *)

Definition E_CNX_NAME : Z := bit 0.
Definition E_CNX_FILTER : Z := bit 1.
Definition E_CNX_COLD_RESET : Z := bit 2.
Definition E_CNX_MODEM_SHUTDOWN : Z := bit 3.
Definition E_CNX_RESOURCE_RELEASED : Z := bit 4.

Inductive e_print := E_PRINT | E_MUTE.

Definition CLIENT_NAME_LEN : Z := 64.
Definition NEW_CLIENT_NAME : list Z := bytes "unknown".

(** [name] is the C string the array holds. *)
Record client := {
  name : list Z; cfd : Z; time : timespec; subscription : Z; cnx : Z }.

(** [list_size] is the length of [list]. *)
Record client_list := {
  connected : Z; clist : list client; down_state : bool }.

Definition open (c : client) : bool := negb (cfd c =? CLOSED_FD).
Definition subscribed (c : client) (ev : e_mmgr_events) : bool :=
  subscription c .& bit (event_id ev).
Definition list_size (s : client_list) : Z := Z.of_nat (length (clist s)).

Definition set_cfd (f : Z) (c : client) : client :=
  {| name := name c; cfd := f; time := time c; subscription := subscription c; cnx := cnx c |}.
Definition set_cnx (x : Z) (c : client) : client :=
  {| name := name c; cfd := cfd c; time := time c; subscription := subscription c; cnx := x |}.
Definition set_name (n : list Z) (c : client) : client :=
  {| name := n; cfd := cfd c; time := time c; subscription := subscription c; cnx := cnx c |}.
Definition set_subscription (x : Z) (c : client) : client :=
  {| name := name c; cfd := cfd c; time := time c; subscription := x; cnx := cnx c |}.

Definition set_clist (l : list client) (s : client_list) : client_list :=
  {| connected := connected s; clist := l; down_state := down_state s |}.
Definition set_connected (n : Z) (s : client_list) : client_list :=
  {| connected := n; clist := clist s; down_state := down_state s |}.
Definition set_down (b : bool) (s : client_list) : client_list :=
  {| connected := connected s; clist := clist s; down_state := b |}.

(** * Operations *)

Section clients.
Context `{Platform}.

(** Dereferences a handle after [ASSERT(client != NULL)]. *)
Definition deref (i : option nat) : IO client_list client :=
  match i with
  | None => abort
  | Some i =>
      s ← get;
      match clist s !! i with Some c => mret c | None => undefined end
  end.

Definition update (i : option nat) (f : client -> client) : IO client_list unit :=
  c ← deref i;
  match i with
  | Some i => modify (fun s => set_clist (<[i := f c]> (clist s)) s)
  | None => mret tt
  end.

Definition client_is_registered (i : option nat) : IO client_list bool :=
  match i with
  | None => mret false
  | Some _ => c ← deref i; mret ((cnx c .& E_CNX_NAME) && (cnx c .& E_CNX_FILTER))
  end.

(** The loop over the clients; with [E_PRINT] it goes on to the end. *)
Fixpoint check_ack_loop (l : list client) (filter : Z) (ev : e_mmgr_events) (print : e_print)
    (answer : bool) : bool :=
  match l with
  | [] => answer
  | c :: l' =>
      if open c && (subscribed c ev && negb (Z.land (cnx c) filter =? filter))
      then match print with
           | E_PRINT => check_ack_loop l' filter ev print false
           | E_MUTE => false
           end
      else check_ack_loop l' filter ev print answer
  end.

Definition check_all_clients_ack (filter : Z) (ev : e_mmgr_events) (print : e_print)
  : IO client_list bool :=
  s ← get;
  mret (if event_id E_MMGR_NUM_EVENTS <? event_id ev then false
        else check_ack_loop (clist s) filter ev print true).

Definition reset_ack (filter : Z) : IO client_list e_mmgr_errors :=
  modify (fun s => set_clist
    (map (fun c => if open c then set_cnx (cnx c .~ filter) c else c) (clist s)) s) ;;
  mret E_ERR_SUCCESS.

Definition init_client {S} (fd : Z) : IO S client :=
  t ← call (X_clock_gettime CLOCK_MONOTONIC);
  mret {| name := NEW_CLIENT_NAME; cfd := fd; time := t;
          subscription := bit (event_id E_MMGR_ACK) .| bit (event_id E_MMGR_NACK);
          cnx := E_CNX_RESOURCE_RELEASED |}.

Definition remove_from_list (fd : Z) : IO client_list e_mmgr_errors :=
  s ← get;
  if fd =? CLOSED_FD then mret E_ERR_FAILED
  else
    match find_index (fun c => fd =? cfd c) (clist s) with
    | Some i =>
        modify (fun s => set_connected (connected s - 1) s) ;;
        modify (fun s => set_clist (alter (set_cfd CLOSED_FD) i (clist s)) s) ;;
        mret E_ERR_SUCCESS
    | None => mret E_ERR_FAILED
    end.

(** Allocates and initialises each slot of the list. *)
Fixpoint init_slots (n : nat) : IO (option client_list) (list client) :=
  match n with
  | O => mret []
  | S n' => c ← init_client CLOSED_FD; l ← init_slots n'; mret (c :: l)
  end.

(** The table of message builders; index [E_MMGR_NUM_EVENTS] is past its end. *)
Definition set_data {S} (ev : e_mmgr_events) : option (payload -> IO S (e_mmgr_errors * msg)) :=
  match ev with
  | E_MMGR_RESPONSE_MODEM_HW_ID => Some set_msg_modem_hw_id
  | E_MMGR_RESPONSE_FUSE_INFO => Some set_msg_fuse_info
  | E_MMGR_NOTIFY_AP_RESET => Some set_msg_ap_reset
  | E_MMGR_NOTIFY_CORE_DUMP_COMPLETE => Some set_msg_core_dump
  | E_MMGR_NOTIFY_TFT_EVENT => Some set_msg_tft_event
  | E_MMGR_RESPONSE_MODEM_FW_RESULT => Some set_msg_modem_fw_result
  | E_MMGR_RESPONSE_MODEM_NVM_RESULT => Some set_msg_modem_nvm_result
  | E_MMGR_NUM_EVENTS => None
  | ev => Some (msg_set_empty ev)
  end.

(** [None] for the NULL handle of a failed allocation. *)
Definition clients_init (size : Z) : IO (option client_list) unit :=
  ok ← call (X_calloc 88);
  if (ok : bool) then
    ok ← call (X_calloc (size * 96));
    if (ok : bool) then
      l ← init_slots (Z.to_nat size);
      modify (fun _ => Some {| connected := 0; clist := l; down_state := false |})
    else modify (fun _ => None)
  else modify (fun _ => None).

(** [client_close], over the open slots from index [i] on. *)
Fixpoint client_close_loop (n i : nat) : IO client_list unit :=
  match n with
  | O => mret tt
  | S n' =>
      c ← deref (Some i);
      when (open c)
        (_ ← cnx_close (cfd c); update (Some i) (set_cfd CLOSED_FD)) ;;
      client_close_loop n' (S i)
  end.

Definition client_close : IO client_list e_mmgr_errors :=
  s ← get; client_close_loop (length (clist s)) 0 ;; mret E_ERR_SUCCESS.

(** [clients_dispose] on a valid handle (memory is not modelled). *)
Definition clients_dispose : IO client_list e_mmgr_errors :=
  _ ← client_close; mret E_ERR_SUCCESS.

Definition client_add (fd : Z) : IO client_list e_mmgr_errors :=
  s ← get;
  match find_index (fun c => cfd c =? CLOSED_FD) (clist s) with
  | Some i =>
      c ← init_client fd;
      modify (fun s => set_clist (<[i := c]> (clist s)) s) ;;
      modify (fun s => set_connected (connected s + 1) s) ;;
      mret E_ERR_SUCCESS
  | None => mret E_ERR_FAILED
  end.

Definition client_remove (fd : Z) : IO client_list e_mmgr_errors :=
  ret ← remove_from_list fd;
  _ ← cnx_close fd;
  mret ret.

(** [nm] is the buffer holding the name.  [strncpy] stops at a NUL, and may not
    read past the end of the buffer. *)
Definition client_set_name (i : option nat) (nm : option (list Z)) (len : Z)
  : IO client_list e_mmgr_errors :=
  _ ← deref i;
  match nm with
  | None => abort
  | Some b =>
      let len := if CLIENT_NAME_LEN <? len then CLIENT_NAME_LEN else len in
      if (len <=? Z.of_nat (length b)) || bool_decide (0 ∈ b) then
        update i (set_name (cstr (take (Z.to_nat len) b))) ;;
        update i (fun c => set_cnx (cnx c .| E_CNX_NAME) c) ;;
        mret E_ERR_SUCCESS
      else undefined
  end.

Definition client_set_filter (i : option nat) (sub : Z) : IO client_list e_mmgr_errors :=
  update i (set_subscription sub) ;;
  update i (fun c => set_cnx (cnx c .| E_CNX_FILTER) c) ;;
  mret E_ERR_SUCCESS.

Definition client_find (fd : Z) : IO client_list (option nat) :=
  s ← get;
  mret (if fd =? CLOSED_FD then None
        else find_index (fun c => fd =? cfd c) (clist s)).

(** [client_inform] on the client [c].  The builder's status is not looked at;
    [cnx_write] leaves [write_size] as it is, so the short-write branch of the
    source is dead. *)
Definition inform (c : client) (ev : e_mmgr_events) (d : payload) : IO client_list e_mmgr_errors :=
  match set_data ev with
  | None => undefined
  | Some build =>
      '(_, m) ← build d;
      let size := uint32 (SIZE_HEADER + len (hdr m)) in
      if subscribed c ev then cnx_write (cfd c) (data m) size
      else mret E_ERR_SUCCESS
  end.

Definition client_inform (i : option nat) (ev : e_mmgr_events) (d : payload)
  : IO client_list e_mmgr_errors :=
  c ← deref i; inform c ev d.

(** The loop of [clients_inform_all]; the status kept is the last one. *)
Fixpoint inform_loop (l : list client) (ev : e_mmgr_events) (d : payload) (ret : e_mmgr_errors)
  : IO client_list e_mmgr_errors :=
  match l with
  | [] => mret ret
  | c :: l' =>
      if open c then ret' ← inform c ev d; inform_loop l' ev d ret'
      else inform_loop l' ev d ret
  end.

Definition clients_inform_all (ev : e_mmgr_events) (d : payload) : IO client_list e_mmgr_errors :=
  s ← get;
  if bool_decide (ev = E_MMGR_EVENT_MODEM_DOWN) && down_state s then mret E_ERR_SUCCESS
  else
    when (bool_decide (ev = E_MMGR_EVENT_MODEM_DOWN)) (modify (set_down true)) ;;
    when (bool_decide (ev = E_MMGR_EVENT_MODEM_UP)) (modify (set_down false)) ;;
    inform_loop (clist s) ev d E_ERR_SUCCESS.

Definition clients_has_ack_cold (print : e_print) : IO client_list bool :=
  check_all_clients_ack E_CNX_COLD_RESET E_MMGR_NOTIFY_MODEM_COLD_RESET print.

Definition clients_has_ack_shtdwn (print : e_print) : IO client_list bool :=
  check_all_clients_ack E_CNX_MODEM_SHUTDOWN E_MMGR_NOTIFY_MODEM_SHUTDOWN print.

Fixpoint has_resource_loop (l : list client) (print : e_print) (answer : bool) : bool :=
  match l with
  | [] => answer
  | c :: l' =>
      if open c && negb (Z.land (cnx c) E_CNX_RESOURCE_RELEASED =? E_CNX_RESOURCE_RELEASED)
      then match print with
           | E_PRINT => has_resource_loop l' print true
           | E_MUTE => true
           end
      else has_resource_loop l' print answer
  end.

Definition clients_has_resource (print : e_print) : IO client_list bool :=
  s ← get; mret (has_resource_loop (clist s) print false).

Definition clients_reset_ack_cold : IO client_list e_mmgr_errors := reset_ack E_CNX_COLD_RESET.

Definition clients_reset_ack_shtdwn : IO client_list e_mmgr_errors :=
  reset_ack E_CNX_MODEM_SHUTDOWN.

Definition client_get_name (i : option nat) : IO client_list (list Z) :=
  c ← deref i; mret (name c).

Definition client_get_fd (i : option nat) : IO client_list Z := c ← deref i; mret (cfd c).

Definition client_set_request (i : option nat) (req : Z) : IO client_list e_mmgr_errors :=
  update i (fun c => set_cnx (cnx c .| req) c) ;; mret E_ERR_SUCCESS.

Definition client_unset_request (i : option nat) (req : Z) : IO client_list e_mmgr_errors :=
  update i (fun c => set_cnx (cnx c .~ req) c) ;; mret E_ERR_SUCCESS.

Definition clients_get_connected : IO client_list Z := gets connected.

Definition clients_get_allowed : IO client_list Z := gets list_size.

End clients.

(** * Well-formed lists *)

(** The count of connected clients is the number of open slots. *)
Definition clients_wf (s : client_list) : Prop :=
  connected s = Z.of_nat (count open (clist s)).

(** * The frame an event travels in *)

(** The body of the frame of an event: most events carry none. *)
Definition event_body (ev : e_mmgr_events) (p : payload) : list Z :=
  match ev with
  | E_MMGR_RESPONSE_MODEM_HW_ID | E_MMGR_RESPONSE_FUSE_INFO | E_MMGR_NOTIFY_AP_RESET
  | E_MMGR_NOTIFY_CORE_DUMP_COMPLETE | E_MMGR_NOTIFY_TFT_EVENT
  | E_MMGR_RESPONSE_MODEM_FW_RESULT | E_MMGR_RESPONSE_MODEM_NVM_RESULT => wire p
  | _ => []
  end.

(** The data given with an event is of the type its builder expects. *)
Definition carries (ev : e_mmgr_events) (p : payload) : Prop :=
  match ev, p with
  | E_MMGR_RESPONSE_MODEM_HW_ID, P_hw_id _
  | E_MMGR_RESPONSE_FUSE_INFO, P_fuse_info _
  | E_MMGR_NOTIFY_AP_RESET, P_ap_reset _
  | E_MMGR_NOTIFY_CORE_DUMP_COMPLETE, P_core_dump _
  | E_MMGR_NOTIFY_TFT_EVENT, P_tft_event _
  | E_MMGR_RESPONSE_MODEM_FW_RESULT, P_fw_result _
  | E_MMGR_RESPONSE_MODEM_NVM_RESULT, P_nvm_result _ => payload_ok p
  | (E_MMGR_RESPONSE_MODEM_HW_ID | E_MMGR_RESPONSE_FUSE_INFO | E_MMGR_NOTIFY_AP_RESET
    | E_MMGR_NOTIFY_CORE_DUMP_COMPLETE | E_MMGR_NOTIFY_TFT_EVENT
    | E_MMGR_RESPONSE_MODEM_FW_RESULT | E_MMGR_RESPONSE_MODEM_NVM_RESULT), _ => False
  | E_MMGR_NUM_EVENTS, _ => False
  | _, _ => True
  end.

(** [ws]: what the clients [cs] are sent for the event, each one frame. *)
Definition delivered (cs : list client) (ev : e_mmgr_events) (p : payload)
    (ws : list (Z * list Z)) : Prop :=
  Forall2 (fun c w => exists t, w = (cfd c, frame (event_id ev) t (event_body ev p))) cs ws.

Section clients_lemmas.
Context `{Platform}.
Implicit Types (s : client_list) (h : history).

(** Every builder makes the frame of its event. *)
Lemma set_data_ok {S} ev p (s : S) h : carries ev p ->
  exists build, set_data ev = Some build /\
    build p s h = prepared (event_id ev) (event_body ev p) s h.
Proof.
  intros Hc. destruct ev; cbn [carries] in Hc; try done;
    eexists; (split; [reflexivity|]);
    lazymatch goal with
    | |- msg_set_empty _ _ _ _ = _ => apply msg_set_empty_ok
    | _ => destruct p; try done
    end;
    auto using set_msg_modem_hw_id_ok, set_msg_fuse_info_ok, set_msg_ap_reset_ok,
      set_msg_core_dump_ok, set_msg_tft_event_ok, set_msg_modem_fw_result_ok,
      set_msg_modem_nvm_result_ok.
Qed.

Lemma carries_size ev p : carries ev p -> 0 <= SIZE_HEADER + strlen (event_body ev p) < 2 ^ 32.
Proof.
  intros Hc. pose proof (strlen_nonneg (event_body ev p)). split; [unfold SIZE_HEADER; lia|].
  destruct ev; cbn [event_body carries] in *; try done; destruct p; try done; apply Hc.
Qed.

(** Informing one client: its frame is sent if it subscribed, nothing else. *)
Lemma inform_wp c ev p s h : alloc_ok -> carries ev p ->
  wp False (inform c ev p)
    (fun _ s' h' => s' = s /\ exists ws, sent h' = sent h ++ ws /\
       delivered (if subscribed c ev then [c] else []) ev p ws) s h.
Proof.
  intros Ha Hc. unfold inform. destruct (set_data_ok ev p s h Hc) as (build & -> & Hb).
  apply wp_bind. eapply run_wp.
  { rewrite Hb. unfold prepared. rewrite Ha. reflexivity. }
  cbn [hdr len data].
  rewrite (uint32_id (SIZE_HEADER + _)) by by apply carries_size.
  set (f := frame _ _ _).
  assert (Hf : SIZE_HEADER + strlen (event_body ev p) = Z.of_nat (length f)).
  { unfold f, frame. rewrite !length_app, !be32_length. unfold SIZE_HEADER, strlen. lia. }
  rewrite Hf. destruct (subscribed c ev).
  - unfold cnx_write. rewrite Z.ltb_irrefl.
    replace (_ <? 0) with false by (symmetry; apply Z.ltb_ge; lia). cbn [orb].
    rewrite Nat2Z.id, take_ge by lia. wp_calls. split; [done|].
    exists [(cfd c, f)]. rewrite sent_cons, !sent_cons_other by done. split; [done|].
    repeat constructor. eexists. reflexivity.
  - wp_calls. split; [done|]. exists []. rewrite !sent_cons_other, app_nil_r by done.
    split; [done|]. constructor.
Qed.

Lemma inform_loop_wp l ev p r s h : alloc_ok -> carries ev p ->
  wp False (inform_loop l ev p r)
    (fun _ s' h' => s' = s /\ exists ws, sent h' = sent h ++ ws /\
       delivered (List.filter (fun c => open c && subscribed c ev) l) ev p ws) s h.
Proof.
  intros Ha Hc. revert r h. induction l as [|c l IH]; intros r h; cbn [inform_loop].
  - cbn. split; [done|]. exists []. rewrite app_nil_r. split; [done|]. constructor.
  - cbn [List.filter]. destruct (open c); cbn [andb]; [|apply IH].
    wp_use inform_wp. intros r1 s1 h1 (-> & ws & Hs & Hd).
    eapply wp_mono; [apply IH|]. cbv beta. intros r2 s2 h2 (-> & ws2 & Hs2 & Hd2).
    split; [done|]. exists (ws ++ ws2). rewrite Hs2, Hs, app_assoc. split; [done|].
    unfold delivered in *. destruct (subscribed c ev); [|by inv Hd].
    match goal with |- Forall2 _ (c :: ?k) _ => change (c :: k) with ([c] ++ k) end. by apply Forall2_app.
Qed.

(** The flag that silences repeated MODEM_DOWN events. *)
Definition down_after (ev : e_mmgr_events) (b : bool) : bool :=
  match ev with
  | E_MMGR_EVENT_MODEM_DOWN => true
  | E_MMGR_EVENT_MODEM_UP => false
  | _ => b
  end.

(** Who is told of an event. *)
Definition told (ev : e_mmgr_events) (s : client_list) : list client :=
  if bool_decide (ev = E_MMGR_EVENT_MODEM_DOWN) && down_state s then []
  else List.filter (fun c => open c && subscribed c ev) (clist s).

Lemma inform_all_wp ev p s h : alloc_ok -> carries ev p ->
  wp False (clients_inform_all ev p)
    (fun _ s' h' => s' = set_down (down_after ev (down_state s)) s /\
       exists ws, sent h' = sent h ++ ws /\ delivered (told ev s) ev p ws) s h.
Proof.
  intros Ha Hc. unfold clients_inform_all, told. wp_simp.
  destruct (bool_decide_reflect (ev = E_MMGR_EVENT_MODEM_DOWN)) as [->|Hn]; cbn [andb].
  - destruct (down_state s) eqn:E; wp_simp.
    + split; [|exists []; rewrite app_nil_r; split; [done|constructor]].
      destruct s; cbn in *; by subst.
    + simpl_decide. by apply inform_loop_wp.
  - wp_simp. destruct (bool_decide_reflect (ev = E_MMGR_EVENT_MODEM_UP)) as [->|Hn'].
    + by apply inform_loop_wp.
    + eapply wp_mono; [by apply inform_loop_wp|]. intros ? s' h' [-> Hw]. split; [|done].
      destruct s; by destruct ev.
Qed.

(** The two loops that stop early do not change the answer. *)
Lemma check_ack_loop_forallb l filter ev print a :
  check_ack_loop l filter ev print a =
  a && forallb (fun c => negb (open c && subscribed c ev)
                         || (Z.land (cnx c) filter =? filter)) l.
Proof.
  revert a. induction l as [|c l IH]; intros a; cbn; [by rewrite andb_true_r|].
  rewrite andb_assoc. destruct (open c), (subscribed c ev), (Z.land (cnx c) filter =? filter);
    cbn; rewrite ?IH; destruct print, a; try done; by rewrite andb_false_l.
Qed.

Lemma has_resource_loop_existsb l print a :
  has_resource_loop l print a =
  a || existsb (fun c => open c &&
         negb (Z.land (cnx c) E_CNX_RESOURCE_RELEASED =? E_CNX_RESOURCE_RELEASED)) l.
Proof.
  revert a. induction l as [|c l IH]; intros a; cbn [has_resource_loop existsb];
    [by rewrite orb_false_r|].
  rewrite orb_assoc. destruct (open c); cbn [andb]; [|by rewrite orb_false_r, IH].
  destruct (_ =? _); cbn [andb negb]; [by rewrite orb_false_r, IH|].
  rewrite orb_true_r. destruct print; [by rewrite IH|done].
Qed.

Lemma deref_eq i c s h : clist s !! i = Some c -> deref (Some i) s h = Done c s h.
Proof. intros Hi. unfold deref. run_simp. by rewrite Hi. Qed.

Lemma update_eq i c f s h : clist s !! i = Some c ->
  update (Some i) f s h = Done tt (set_clist (<[i := f c]> (clist s)) s) h.
Proof. intros Hi. unfold update. erewrite run_bind by by apply deref_eq. done. Qed.

Lemma client_set_request_eq i c req s h : clist s !! i = Some c ->
  client_set_request (Some i) req s h =
  Done E_ERR_SUCCESS (set_clist (<[i := set_cnx (cnx c .| req) c]> (clist s)) s) h.
Proof. intros Hi. unfold client_set_request. by erewrite run_bind by by apply update_eq. Qed.

(** An update that keeps the descriptor keeps the list well formed. *)
Lemma clients_wf_update i c c' s : clist s !! i = Some c -> open c' = open c ->
  clients_wf s -> clients_wf (set_clist (<[i := c']> (clist s)) s).
Proof.
  unfold clients_wf, set_clist. cbn [connected clist]. intros Hi Ho ->.
  pose proof (count_insert open _ i c c' Hi) as E. rewrite Ho in E. lia.
Qed.

End clients_lemmas.

(** * Every operation keeps the list well formed *)

(** The operations other components apply to the list, with the NULL handles and
    names they may be given. *)
Inductive client_op :=
| O_add (fd : Z) | O_remove (fd : Z)
| O_set_name (i : option nat) (nm : option (list Z)) (len : Z)
| O_set_filter (i : option nat) (sub : Z)
| O_set_request (i : option nat) (req : Z) | O_unset_request (i : option nat) (req : Z)
| O_reset_ack_cold | O_reset_ack_shtdwn
| O_inform (i : option nat) (ev : e_mmgr_events) (p : payload)
| O_inform_all (ev : e_mmgr_events) (p : payload).

Section client_ops.
Context `{Platform}.
Implicit Types (s : client_list) (h : history).

Definition run_client_op (o : client_op) : IO client_list e_mmgr_errors :=
  match o with
  | O_add fd => client_add fd
  | O_remove fd => client_remove fd
  | O_set_name i nm len => client_set_name i nm len
  | O_set_filter i sub => client_set_filter i sub
  | O_set_request i req => client_set_request i req
  | O_unset_request i req => client_unset_request i req
  | O_reset_ack_cold => clients_reset_ack_cold
  | O_reset_ack_shtdwn => clients_reset_ack_shtdwn
  | O_inform i ev p => client_inform i ev p
  | O_inform_all ev p => clients_inform_all ev p
  end.

(** A handle is NULL or points into the list. *)
Definition handle_ok (n : nat) (i : option nat) : Prop :=
  match i with Some i => (i < n)%nat | None => True end.

(** The descriptor was returned by [accept], a name is NULL, ends in a NUL or
    fills its length, and an event comes with its data. *)
Definition client_op_ok (n : nat) (o : client_op) : Prop :=
  match o with
  | O_add fd => fd <> CLOSED_FD
  | O_set_name i nm len =>
      handle_ok n i /\ match nm with Some b => len <= strlen b \/ 0 ∈ b | None => True end
  | O_set_filter i _ | O_set_request i _ | O_unset_request i _ => handle_ok n i
  | O_inform i ev p => handle_ok n i /\ carries ev p
  | O_inform_all ev p => carries ev p
  | _ => True
  end.

(** The operation is given a NULL handle or a NULL name. *)
Definition passes_null (o : client_op) : Prop :=
  match o with
  | O_set_name i nm _ => i = None \/ nm = None
  | O_set_filter i _ | O_set_request i _ | O_unset_request i _ | O_inform i _ _ => i = None
  | _ => False
  end.

Definition clients_inv (n : nat) (s : client_list) : Prop :=
  clients_wf s /\ length (clist s) = n.

Lemma client_add_eq fd s h :
  client_add fd s h =
  match find_index (fun c => cfd c =? CLOSED_FD) (clist s) with
  | None => Done E_ERR_FAILED s h
  | Some i =>
      let t := reply h (X_clock_gettime CLOCK_MONOTONIC) in
      let c := {| name := NEW_CLIENT_NAME; cfd := fd; time := t;
                  subscription := bit (event_id E_MMGR_ACK) .| bit (event_id E_MMGR_NACK);
                  cnx := E_CNX_RESOURCE_RELEASED |} in
      Done E_ERR_SUCCESS
        {| connected := connected s + 1; clist := <[i := c]> (clist s);
           down_state := down_state s |} (X_clock_gettime CLOCK_MONOTONIC :: h)
  end.
Proof. unfold client_add, init_client. run_simp. destruct (find_index _ _); [|done]. by run_calls. Qed.

Lemma client_add_inv n fd s h : clients_inv n s -> fd <> CLOSED_FD ->
  wp False (client_add fd) (fun _ s' _ => clients_inv n s') s h.
Proof.
  intros [Hw Hn] Hfd. unfold wp. rewrite client_add_eq.
  destruct (find_index _ _) as [i|] eqn:E; [|done].
  apply find_index_Some in E as (c & Hi & Hc & _). apply Z.eqb_eq in Hc.
  split; [|cbn [clist]; by rewrite length_insert].
  unfold clients_wf in *. cbn [connected clist].
  match goal with |- context [<[i:=?c']> _] =>
    pose proof (count_insert open _ i c c' Hi) as E; assert (open c' = true) as Ho end.
  { unfold open. cbn. apply negb_true_iff. by apply Z.eqb_neq. }
  assert (open c = false) as Hoc by (unfold open; by rewrite Hc).
  rewrite Ho, Hoc in E. cbn [Nat.b2n] in E. lia.
Qed.

Lemma client_remove_inv n fd s h : clients_inv n s ->
  wp False (client_remove fd) (fun _ s' _ => clients_inv n s') s h.
Proof.
  intros [Hw Hn]. unfold client_remove, remove_from_list, cnx_close. wp_simp.
  destruct (Z.eqb_spec fd CLOSED_FD) as [->|Hfd]; [by wp_calls|].
  destruct (find_index _ _) as [i|] eqn:E; [|by wp_calls]. wp_calls.
  apply find_index_Some in E as (c & Hi & Hc & _). apply Z.eqb_eq in Hc.
  split; [|cbn [clist set_clist set_connected]; by rewrite length_alter].
  unfold clients_wf, set_clist, set_connected in *. cbn [connected clist].
  rewrite (alter_insert _ _ _ c) by done.
  pose proof (count_insert open _ i c (set_cfd CLOSED_FD c) Hi) as E.
  assert (open c = true) as Ho.
  { unfold open. apply negb_true_iff, Z.eqb_neq. congruence. }
  rewrite Ho in E. change (open (set_cfd _ c)) with false in E. cbn [Nat.b2n] in E. lia.
Qed.

Lemma update_inv n i f s h : clients_inv n s -> (i < n)%nat -> (forall c, open (f c) = open c) ->
  wp False (update (Some i) f) (fun _ s' _ => clients_inv n s') s h.
Proof.
  intros [Hw Hn] Hi Hf. destruct (lookup_lt_is_Some_2 (clist s) i) as [c Hc]; [lia|].
  unfold wp. rewrite (update_eq _ c) by done.
  split; [by eapply clients_wf_update|]. cbn [clist set_clist]. by rewrite length_insert.
Qed.

Lemma reset_ack_inv n f s h : clients_inv n s ->
  wp False (reset_ack f) (fun _ s' _ => clients_inv n s') s h.
Proof.
  intros [Hw Hn]. unfold reset_ack. wp_simp. split; [|cbn; by rewrite length_map].
  unfold clients_wf in *. cbn. rewrite Hw. f_equal. clear. unfold count.
  induction (clist s) as [|c l IH]; [done|]. cbn.
  destruct (open c) eqn:E; [|by rewrite E].
  replace (open (set_cnx _ c)) with (open c) by done. rewrite E. cbn. by f_equal.
Qed.

(** The invariant holds after a run that returns; [excuse] is what a failed
    assertion needs, and nothing else may happen. *)
Definition kept {A} (n : nat) (excuse : Prop) (o : outcome history client_list A) : Prop :=
  match o with
  | Done _ s' _ => clients_inv n s'
  | Abort _ => excuse
  | Exit _ | Undef _ => False
  end.

Lemma kept_wp {A} n E (m : IO client_list A) s h :
  wp False m (fun _ s' _ => clients_inv n s') s h -> kept n E (m s h).
Proof. unfold wp, kept. by destruct (m s h). Qed.

Lemma kept_bind {A B} n E (m : IO client_list A) (k : A -> IO client_list B) s h :
  kept n E (m s h) -> (forall a s' h', clients_inv n s' -> kept n E (k a s' h')) ->
  kept n E ((m ≫= k) s h).
Proof. unfold kept at 1, mbind, M_bind. destruct (m s h); eauto. Qed.

(** A handle given to an operation: valid, or NULL and the assertion fails. *)
Lemma kept_deref {A} n (E : Prop) i (k : client -> IO client_list A) s h :
  clients_inv n s -> handle_ok n i -> (i = None -> E) ->
  (forall c, kept n E (k c s h)) -> kept n E ((deref i ≫= k) s h).
Proof.
  intros [_ Hn] Hi HE Hk. destruct i as [i|]; [|by apply HE].
  destruct (lookup_lt_is_Some_2 (clist s) i) as [c Hc]; [cbn in Hi; lia|].
  erewrite run_bind by by apply deref_eq. apply Hk.
Qed.

Lemma kept_update n (E : Prop) i f s h :
  clients_inv n s -> handle_ok n i -> (i = None -> E) -> (forall c, open (f c) = open c) ->
  kept n E (update i f s h).
Proof.
  intros Hs Hi HE Hf. destruct i as [i|]; [|by apply HE]. by apply kept_wp, update_inv.
Qed.

(** Informing a client without memory for the message: nothing is sent, and when
    the client subscribed the assertion of [cnx_write] fails. *)
Lemma inform_kept n (E : Prop) c ev p s h :
  clients_inv n s -> carries ev p -> (~ alloc_ok -> E) -> kept n E (inform c ev p s h).
Proof.
  intros Hs Hc HE. unfold inform. destruct (set_data_ok ev p s h Hc) as (build & -> & Hb).
  destruct (reply h (X_calloc (SIZE_HEADER + strlen (event_body ev p)))) eqn:Er.
  - erewrite run_bind by (rewrite Hb; unfold prepared; by rewrite Er).
    destruct (subscribed c ev); [|done]. unfold cnx_write. cbn [data].
    destruct (_ || _) eqn:Eb; [|done]. exfalso. cbn [hdr len] in Eb.
    rewrite (uint32_id (SIZE_HEADER + _)) in Eb by by apply carries_size.
    unfold frame, SIZE_HEADER, strlen in Eb. rewrite !length_app, !be32_length in Eb.
    apply orb_true_iff in Eb as [Eb|Eb]; apply Z.ltb_lt in Eb; lia.
  - erewrite run_bind by (rewrite Hb; unfold prepared; by rewrite Er).
    destruct (subscribed c ev); [|done]. apply HE. intros Ha. by rewrite Ha in Er.
Qed.

Lemma inform_loop_kept n (E : Prop) l ev p r s h :
  clients_inv n s -> carries ev p -> (~ alloc_ok -> E) -> kept n E (inform_loop l ev p r s h).
Proof.
  intros Hs Hc HE. revert r s h Hs. induction l as [|c l IH]; intros r s h Hs; [done|].
  cbn [inform_loop]. destruct (open c); [|by apply IH].
  apply kept_bind; [by apply inform_kept|]. intros ? s1 h1 Hs1. by apply IH.
Qed.

Lemma run_client_op_kept n (E : Prop) o s h :
  clients_inv n s -> client_op_ok n o -> (~ alloc_ok -> E) -> (passes_null o -> E) ->
  kept n E (run_client_op o s h).
Proof.
  intros Hs Ho Ha Hn. destruct o; cbn [run_client_op client_op_ok passes_null] in *.
  - by apply kept_wp, client_add_inv.
  - by apply kept_wp, client_remove_inv.
  - destruct Ho as [Hi Hb]. unfold client_set_name. apply kept_deref; [done|done|by auto|]. intros _.
    destruct nm as [b|]; [|by apply Hn; right]. set (len' := if _ <? _ then _ else _).
    replace (_ || _) with true.
    2:{ symmetry. apply orb_true_iff. destruct Hb as [Hb|Hb];
          [left; apply Z.leb_le; unfold strlen in Hb; subst len';
           destruct (Z.ltb_spec CLIENT_NAME_LEN len); lia|right; by apply bool_decide_eq_true_2]. }
    apply kept_bind; [apply kept_update; auto|]. intros ? s1 h1 Hs1.
    apply kept_bind; [apply kept_update; auto|]. by intros.
  - unfold client_set_filter. apply kept_bind; [by apply kept_update|]. intros ? s1 h1 Hs1.
    apply kept_bind; [by apply kept_update|]. by intros.
  - unfold client_set_request. apply kept_bind; [by apply kept_update|]. by intros.
  - unfold client_unset_request. apply kept_bind; [by apply kept_update|]. by intros.
  - by apply kept_wp, reset_ack_inv.
  - by apply kept_wp, reset_ack_inv.
  - destruct Ho as [Hi Hc]. unfold client_inform. apply kept_deref; [done..|].
    intros c. by apply inform_kept.
  - unfold clients_inform_all. rewrite run_get.
    destruct (_ && _); [done|]. apply kept_bind.
    { by destruct (bool_decide _). }
    intros ? s1 h1 Hs1. apply kept_bind.
    { by destruct (bool_decide _). }
    intros ? s2 h2 Hs2. by apply inform_loop_kept.
Qed.

Definition run_client_ops (l : list client_op) : IO client_list unit :=
  for_each l (fun o => _ ← run_client_op o; mret tt).

(** C12. Whatever sequence of operations runs, with memory or without, it leaves
    the number of connected clients equal to the number of open slots, between
    none and all of the list, whose size never changes, unless an assertion
    fails; and one fails only when an allocation is refused (the message of an
    event to a client that subscribed to it) or when an operation is given a
    NULL handle or a NULL name.  Nothing else happens: no access outside the
    list, a name or a message.  The operations are given NULL or valid handles,
    names that end in a NUL or fill their length, events with the data they
    carry, and never add the closed descriptor. *)
Theorem clients_connected_invariant l s h : clients_wf s ->
  Forall (client_op_ok (length (clist s))) l ->
  match run_client_ops l s h with
  | Done _ s' _ => clients_wf s' /\ list_size s' = list_size s /\
                   0 <= connected s' <= list_size s'
  | Abort _ => ~ alloc_ok \/ Exists passes_null l
  | Exit _ | Undef _ => False
  end.
Proof.
  intros Hw Hl. set (n := length (clist s)) in *.
  assert (Hk : forall l1 s1 h1, clients_inv n s1 -> (forall o, o ∈ l1 -> o ∈ l) ->
    kept n (~ alloc_ok \/ Exists passes_null l) (run_client_ops l1 s1 h1)).
  { induction l1 as [|o l1 IH]; intros s1 h1 Hs1 Hin; [done|].
    unfold run_client_ops. cbn [for_each]. apply kept_bind.
    - apply kept_bind; [|by intros]. assert (o ∈ l) as Hol by (apply Hin; left).
      apply run_client_op_kept; [done| |intros ?; by left|].
      + rewrite Forall_forall in Hl. apply Hl. by apply list_elem_of_In.
      + intros Hp. right. apply Exists_exists. exists o. split; [by apply list_elem_of_In|done].
    - intros ? s2 h2 Hs2. apply IH; [done|]. intros o' Ho'. apply Hin. by right. }
  specialize (Hk l s h (conj Hw eq_refl) (fun _ x => x)).
  unfold kept in Hk. destruct (run_client_ops l s h) as [? s1 ?|?|?|?]; [|done..].
  destruct Hk as [Hw1 Hn1]. unfold list_size. rewrite Hn1. split_and!; try done;
    rewrite Hw1; [lia|]. pose proof (count_le open (clist s1)). lia.
Qed.

(** * Notifications *)

(** What is announced of a sequence of notifications: a MODEM_DOWN that follows
    another one with no MODEM_UP in between is dropped. *)
Fixpoint announce (down : bool) (l : list (e_mmgr_events * payload))
  : list (e_mmgr_events * payload) :=
  match l with
  | [] => []
  | (ev, p) :: l' =>
      (if bool_decide (ev = E_MMGR_EVENT_MODEM_DOWN) && down then [] else [(ev, p)])
      ++ announce (down_after ev down) l'
  end.

(** C11. Notifying a sequence of events sends, for each announced event in order,
    one well-formed frame to each open client that subscribed to it, in the
    order of the list, and nothing else. *)
Theorem clients_notifications l s h : alloc_ok ->
  Forall (fun '(ev, p) => carries ev p) l ->
  wp False (for_each l (fun '(ev, p) => _ ← clients_inform_all ev p; mret tt))
    (fun _ s' h' => clist s' = clist s /\ exists wss,
       sent h' = sent h ++ concat wss /\
       Forall2 (fun '(ev, p) ws =>
           delivered (List.filter (fun c => open c && subscribed c ev) (clist s)) ev p ws)
         (announce (down_state s) l) wss) s h.
Proof.
  intros Ha. revert s h. induction l as [|[ev p] l IH]; intros s h Hl.
  { cbn. split; [done|]. exists []. by rewrite app_nil_r. }
  apply Forall_cons_iff in Hl as [Hc Hl]. cbn [for_each announce]. wp_simp.
  eapply wp_mono; [by apply inform_all_wp|]. cbv beta. intros ? s1 h1 (-> & ws & Hs & Hd).
  apply wp_ret. eapply wp_mono; [by apply IH|]. cbv beta. intros ? s2 h2 (Hl2 & wss & Hs2 & Hd2).
  split; [done|]. rewrite Hs2, Hs. unfold told in Hd.
  destruct (bool_decide _ && _).
  - exists wss. inv Hd. by rewrite app_nil_r.
  - exists (ws :: wss). cbn [concat app]. rewrite app_assoc. split; [done|]. by constructor.
Qed.

(** * Acknowledgements *)

(** Waits for [ev], acknowledged by [flag]: the slot is open and subscribed. *)
Definition waits (ev : e_mmgr_events) (c : client) : bool := open c && subscribed c ev.

Lemma land_lor_bit x n : 0 <= n -> Z.land (x .| bit n) (bit n) = bit n.
Proof.
  intros Hn. apply Z.bits_inj'. intros i Hi. rewrite Z.land_spec, testbit_set, bit_testbit by done.
  by destruct (i =? n), (Z.testbit x i).
Qed.

Lemma land_clear_bit x n : 0 <= n -> Z.land (x .~ bit n) (bit n) = 0.
Proof.
  intros Hn. apply Z.bits_inj'. intros i Hi.
  rewrite Z.land_spec, testbit_clear, bit_testbit, Z.bits_0 by done.
  by destruct (i =? n), (Z.testbit x i).
Qed.

Definition has_flag (n : Z) (c : client) : bool := Z.land (cnx c) (bit n) =? bit n.

(** After the acknowledgements [acks], slot by slot. *)
Definition acked_inv (n : Z) (l0 : list client) (acks : list nat) (l : list client) : Prop :=
  length l = length l0 /\
  forall i c, l !! i = Some c -> exists c0, l0 !! i = Some c0 /\
    open c = open c0 /\ subscription c = subscription c0 /\
    (open c = true -> has_flag n c = bool_decide (i ∈ acks)).

Lemma acked_inv_start n l : 0 <= n ->
  acked_inv n l [] (map (fun c => if open c then set_cnx (cnx c .~ bit n) c else c) l).
Proof.
  intros Hn. split; [by rewrite length_map|]. intros i c.
  rewrite list_lookup_fmap. destruct (l !! i) as [c0|]; [|done]. intros [= <-].
  exists c0. split; [done|]. destruct (open c0) eqn:E; [|by rewrite E].
  split; [done|]. split; [done|]. intros _. unfold has_flag. cbn [cnx set_cnx].
  rewrite land_clear_bit by done. rewrite bool_decide_eq_false_2 by apply not_elem_of_nil.
  apply Z.eqb_neq. unfold bit. rewrite Z.shiftl_1_l. pose proof (Z.pow_pos_nonneg 2 n). lia.
Qed.

Lemma acked_inv_ack n l0 acks l i c : 0 <= n -> acked_inv n l0 acks l -> l !! i = Some c ->
  acked_inv n l0 (i :: acks) (<[i := set_cnx (cnx c .| bit n) c]> l).
Proof.
  intros Hn [Hl Ha] Hi. split; [by rewrite length_insert|]. intros j d Hj.
  destruct (decide (j = i)) as [->|Hne].
  - rewrite list_lookup_insert_eq in Hj by (by eapply lookup_lt_Some). injection Hj as <-.
    destruct (Ha i c Hi) as (c0 & H0 & Ho & Hs & _). exists c0. split_and!; try done.
    intros _. rewrite bool_decide_eq_true_2 by left. unfold has_flag. cbn [cnx set_cnx].
    rewrite land_lor_bit by done. apply Z.eqb_refl.
  - rewrite list_lookup_insert_ne in Hj by done.
    destruct (Ha j d Hj) as (c0 & H0 & Ho & Hs & Hf). exists c0. split_and!; try done.
    intros Hop. rewrite (Hf Hop). apply bool_decide_ext. rewrite elem_of_cons. naive_solver.
Qed.

(** The clients [acks] acknowledge one after the other. *)
Lemma acks_wp n acks l0 done s h : 0 <= n ->
  acked_inv n l0 done (clist s) -> Forall (fun i => (i < length l0)%nat) acks ->
  wp False (for_each acks (fun i => _ ← client_set_request (Some i) (bit n); mret tt))
    (fun _ s' _ => exists acks', (forall i, i ∈ acks' <-> i ∈ acks \/ i ∈ done) /\
                   acked_inv n l0 acks' (clist s')) s h.
Proof.
  intros Hn. revert done s h. induction acks as [|i acks IH]; intros dn s h Ha Hi.
  { exists dn. split; [|done]. intros i. rewrite elem_of_nil. naive_solver. }
  apply Forall_cons_iff in Hi as [Hi His]. cbn [for_each].
  destruct (lookup_lt_is_Some_2 (clist s) i) as [c Hc]; [destruct Ha; lia|].
  wp_simp. eapply run_wp; [by apply client_set_request_eq|]. wp_simp.
  eapply wp_mono; [by apply IH; [apply acked_inv_ack|]|].
  cbv beta. intros ? s' h' (acks' & He & Ha'). exists acks'. split; [|done].
  intros j. rewrite He, !elem_of_cons. naive_solver.
Qed.

(** The cold-reset handshake: once the acknowledgements have been reset and
    the clients [acks] have acknowledged, in any order, the daemon sees every
    acknowledgement (with or without the debug print) exactly when each open
    client that subscribed to the cold-reset notification is in [acks]. *)
Theorem cold_reset_handshake acks print s h :
  Forall (fun i => (i < length (clist s))%nat) acks ->
  wp False
    (_ ← clients_reset_ack_cold;
     for_each acks (fun i => _ ← client_set_request (Some i) E_CNX_COLD_RESET; mret tt) ;;
     clients_has_ack_cold print)
    (fun answer _ _ => answer = true <->
       forall i c, clist s !! i = Some c ->
         open c && subscribed c E_MMGR_NOTIFY_MODEM_COLD_RESET = true -> i ∈ acks) s h.
Proof.
  intros Hi. unfold clients_reset_ack_cold, reset_ack. wp_simp.
  eapply wp_mono.
  { apply (acks_wp 2 acks (clist s) []); [done|by apply acked_inv_start|done]. }
  cbv beta. intros ? s1 h1 (acks' & He & Hlen & Ha).
  unfold clients_has_ack_cold, check_all_clients_ack. wp_simp.
  rewrite check_ack_loop_forallb, andb_true_l. change (event_id _ <? _) with false. cbv iota.
  rewrite forallb_forall. split.
  - intros Hall i c0 Hc0 Hw.
    destruct (lookup_lt_is_Some_2 (clist s1) i) as [c Hc];
      [apply lookup_lt_Some in Hc0; lia|].
    destruct (Ha i c Hc) as (c0' & H0' & Ho & Hs & Hf). simplify_eq.
    specialize (Hall c). rewrite <- list_elem_of_In in Hall.
    specialize (Hall (list_elem_of_lookup_2 _ _ _ Hc)).
    unfold subscribed in *. rewrite Hs, Ho, Hw in Hall. cbn in Hall.
    apply andb_true_iff in Hw as [Hop _]. rewrite <- Ho in Hop. specialize (Hf Hop).
    unfold has_flag in Hf. change (bit 2) with E_CNX_COLD_RESET in Hf.
    rewrite Hall in Hf. symmetry in Hf. apply bool_decide_eq_true in Hf.
    apply He in Hf as [|Hn]; [done|]. by apply elem_of_nil in Hn.
  - intros Hall c Hc. apply list_elem_of_In, list_elem_of_lookup in Hc as [i Hc].
    destruct (Ha i c Hc) as (c0 & H0 & Ho & Hs & Hf). specialize (Hall i c0 H0).
    unfold subscribed in *. rewrite Ho, Hs.
    destruct (open c0 && _) eqn:E; [|done]. cbn. specialize (Hall eq_refl).
    apply andb_true_iff in E as [Hop _]. rewrite <- Ho in Hop. specialize (Hf Hop).
    unfold has_flag in Hf. change (bit 2) with E_CNX_COLD_RESET in Hf. rewrite Hf.
    apply bool_decide_eq_true. apply He. by left.
Qed.

End client_ops.

(** * Witnesses *)

(** A client subscribed to all events, and a free slot. *)
Definition demo_client (fd : Z) : client := {|
  name := bytes "ril"; cfd := fd; time := {| ts_sec := 0; ts_nsec := 0 |};
  subscription := 2 ^ 19 - 1;
  cnx := E_CNX_NAME .| E_CNX_FILTER .| E_CNX_RESOURCE_RELEASED |}.

Definition demo_clients : client_list := {|
  connected := 1; clist := [demo_client 7; demo_client CLOSED_FD]; down_state := false |}.

Lemma clients_connected_invariant_witness :
  match @run_client_ops still
          [O_add 8; O_set_name (Some 1%nat) (Some (bytes "gps")) 3; O_remove 7]
          demo_clients [] with
  | Done _ s' _ => clients_wf s' /\ list_size s' = list_size demo_clients /\
                   0 <= connected s' <= list_size s'
  | Abort _ => ~ @alloc_ok still \/
      Exists passes_null [O_add 8; O_set_name (Some 1%nat) (Some (bytes "gps")) 3; O_remove 7]
  | Exit _ | Undef _ => False
  end.
Proof.
  apply (@clients_connected_invariant still); [done|].
  repeat constructor; (done || by left).
Defined.

Lemma clients_notifications_witness :
  wp False (for_each [(E_MMGR_EVENT_MODEM_DOWN, P_null); (E_MMGR_EVENT_MODEM_DOWN, P_null)]
              (fun '(ev, p) => _ ← @clients_inform_all still ev p; mret tt))
    (fun _ s' h' => clist s' = clist demo_clients /\ exists wss,
       sent h' = sent [] ++ concat wss /\
       Forall2 (fun '(ev, p) ws =>
           delivered (List.filter (fun c => open c && subscribed c ev) (clist demo_clients)) ev p ws)
         (announce (down_state demo_clients)
            [(E_MMGR_EVENT_MODEM_DOWN, P_null); (E_MMGR_EVENT_MODEM_DOWN, P_null)]) wss)
    demo_clients [].
Proof. apply (@clients_notifications still); [done|]. repeat constructor. Defined.

Lemma cold_reset_handshake_witness :
  wp False
    (_ ← clients_reset_ack_cold;
     for_each [0%nat] (fun i => _ ← client_set_request (Some i) E_CNX_COLD_RESET; mret tt) ;;
     clients_has_ack_cold E_MUTE)
    (fun answer _ _ => answer = true <->
       forall i c, clist demo_clients !! i = Some c ->
         open c && subscribed c E_MMGR_NOTIFY_MODEM_COLD_RESET = true -> i ∈ [0%nat])
    demo_clients ([] : history).
Proof.
  apply (cold_reset_handshake [0%nat] E_MUTE demo_clients []). repeat constructor; cbn; lia.
Defined.
