(* ===== verification/Timer.v ===== *)
(** The timers of core/timer_events.c: which are armed, when they end, how long
    the event loop may sleep and what each expiry asks for. *)
From S2P Require Import Prelude Platform Io Msg Recov Clients.

(** * State *)

(** The timers; [E_TIMER_NUM] is their number. *)
Inductive e_timer_type :=
| E_TIMER_COLD_RESET_ACK | E_TIMER_MODEM_SHUTDOWN_ACK | E_TIMER_WAIT_FOR_IPC_READY
| E_TIMER_WAIT_FOR_BUS_READY | E_TIMER_REBOOT_MODEM_DELAY | E_TIMER_CORE_DUMP_IPC_RESET
| E_TIMER_WAIT_CORE_DUMP_READY | E_TIMER_MDM_FLASHING | E_TIMER_CORE_DUMP_READING
| E_TIMER_FMMO.
#[export] Instance e_timer_type_eq : EqDecision e_timer_type.
Proof. solve_decision. Defined.

(** The order of the enumeration. *)
Definition TIMER : list e_timer_type :=
  [ E_TIMER_COLD_RESET_ACK; E_TIMER_MODEM_SHUTDOWN_ACK; E_TIMER_WAIT_FOR_IPC_READY;
    E_TIMER_WAIT_FOR_BUS_READY; E_TIMER_REBOOT_MODEM_DELAY; E_TIMER_CORE_DUMP_IPC_RESET;
    E_TIMER_WAIT_CORE_DUMP_READY; E_TIMER_MDM_FLASHING; E_TIMER_CORE_DUMP_READING;
    E_TIMER_FMMO ].

Definition timer_id (t : e_timer_type) : nat :=
  match t with
  | E_TIMER_COLD_RESET_ACK => 0 | E_TIMER_MODEM_SHUTDOWN_ACK => 1
  | E_TIMER_WAIT_FOR_IPC_READY => 2 | E_TIMER_WAIT_FOR_BUS_READY => 3
  | E_TIMER_REBOOT_MODEM_DELAY => 4 | E_TIMER_CORE_DUMP_IPC_RESET => 5
  | E_TIMER_WAIT_CORE_DUMP_READY => 6 | E_TIMER_MDM_FLASHING => 7
  | E_TIMER_CORE_DUMP_READING => 8 | E_TIMER_FMMO => 9
  end.

Definition E_TIMER_NO_ACTION : Z := 0.
Definition E_TIMER_RESET : Z := bit 0.
Definition E_TIMER_START_MDM_OFF : Z := bit 1.
Definition E_TIMER_FINALIZE_MDM_OFF : Z := bit 2.
Definition E_TIMER_CD_ERR : Z := bit 3.
Definition E_TIMER_CANCEL_FLASHING : Z := bit 4.
Definition E_TIMER_STOP_MCDR : Z := bit 5.
Definition E_TIMER_STREAMLINE : Z := bit 6.

Definition TIMER_INFINITE : Z := -1.

(** The arrays are indexed by the timers; the client list the handle points to
    is passed along by [timer_event]. *)
Record mmgr_timer := {
  ttype : Z; timeout : e_timer_type -> Z; end_ : e_timer_type -> timespec }.

Record mmgr_timings := {
  tm_ipc_ready : Z; tm_cd_ipc_reset : Z; tm_cd_ipc_ready : Z; tm_mdm_flash : Z; tm_fmmo : Z }.

Definition tbit (t : e_timer_type) : Z := bit (Z.of_nat (timer_id t)).
Definition armed (s : mmgr_timer) (t : e_timer_type) : bool := ttype s .& tbit t.

Definition set_ttype (x : Z) (s : mmgr_timer) : mmgr_timer :=
  {| ttype := x; timeout := timeout s; end_ := end_ s |}.
Definition set_end (t : e_timer_type) (e : timespec) (s : mmgr_timer) : mmgr_timer :=
  {| ttype := ttype s; timeout := timeout s;
     end_ := fun u => if bool_decide (u = t) then e else end_ s u |}.

(** * Operations *)

(** [timer_get_elapsed]: a 32-bit [long]; C division truncates. *)
Definition timer_get_elapsed (cur e : timespec) : Z :=
  int32 ((ts_sec e - ts_sec cur) * 1000 + Z.quot (ts_nsec e - ts_nsec cur) 1000000).

Definition timer_is_elapsed (s : mmgr_timer) (t : e_timer_type) (cur : timespec) : bool :=
  armed s t && (timer_get_elapsed cur (end_ s t) <=? 0).

(** One iteration of the loop of [timer_get_timeout]. *)
Definition timeout_step (s : mmgr_timer) (cur : timespec) (min : Z) (t : e_timer_type) : Z :=
  if armed s t then
    let diff := timer_get_elapsed cur (end_ s t) in
    let diff := if diff <? 0 then 0 else diff in
    if min =? TIMER_INFINITE then diff else if diff <? min then diff else min
  else min.

Section timer.
Context `{Platform}.

Definition timer_get_timeout : IO mmgr_timer Z :=
  s ← get;
  if ttype s =? 0 then mret TIMER_INFINITE
  else
    cur ← call (X_clock_gettime CLOCK_BOOTTIME);
    mret (fold_left (timeout_step s cur) TIMER TIMER_INFINITE).

Definition timer_start (t : e_timer_type) : IO mmgr_timer e_mmgr_errors :=
  current ← call (X_clock_gettime CLOCK_BOOTTIME);
  s ← get;
  when (negb (timeout s t =? 0))
    (modify (fun s => set_ttype (ttype s .| tbit t) s) ;;
     modify (set_end t {| ts_sec := int32 (ts_sec current + timeout s t);
                          ts_nsec := ts_nsec current |})) ;;
  mret E_ERR_SUCCESS.

Definition timer_stop_all : IO mmgr_timer e_mmgr_errors :=
  modify (set_ttype 0) ;; mret E_ERR_SUCCESS.

Definition timer_stop (t : e_timer_type) : IO mmgr_timer e_mmgr_errors :=
  modify (fun s => set_ttype (ttype s .~ tbit t) s) ;; mret E_ERR_SUCCESS.

(** The timer with the clients its handle points to. *)
Abbreviation TC := (mmgr_timer * client_list)%type.

Definition on_timer {A} (m : IO mmgr_timer A) : IO TC A :=
  zoom fst (fun t s => (t, s.2)) m.
Definition on_clients {A} (m : IO client_list A) : IO TC A :=
  zoom snd (fun c s => (s.1, c)) m.

(** One [if (timer_is_elapsed(...))] block of [timer_event]: [body] returns the
    bits it adds to [*action]. *)
Definition on_elapsed (t : e_timer_type) (cur : timespec) (body : IO TC Z) (action : Z)
  : IO TC Z :=
  s ← get;
  if timer_is_elapsed s.1 t cur then a ← body; mret (action .| a) else mret action.

Definition tft_error (ev_type msg : string) : payload :=
  P_tft_event {| tft_type := E_EVENT_ERROR; tft_name := bytes ev_type; tft_log := 1;
                 tft_data := [bytes msg] |}.

Definition timer_event (state : e_mmgr_state) (core_dump_signal_hw_working : bool) : IO TC Z :=
  cur ← call (X_clock_gettime CLOCK_BOOTTIME);
  a ← on_elapsed E_TIMER_COLD_RESET_ACK cur
        (_ ← on_clients (clients_has_ack_cold E_PRINT);
         _ ← on_timer (timer_stop E_TIMER_COLD_RESET_ACK);
         mret E_TIMER_RESET) E_TIMER_NO_ACTION;
  a ← on_elapsed E_TIMER_MODEM_SHUTDOWN_ACK cur
        (_ ← on_clients (clients_has_ack_shtdwn E_PRINT);
         _ ← on_timer (timer_stop E_TIMER_MODEM_SHUTDOWN_ACK);
         mret (E_TIMER_RESET .| E_TIMER_START_MDM_OFF)) a;
  a ← on_elapsed E_TIMER_WAIT_FOR_IPC_READY cur
        (_ ← on_clients (clients_inform_all E_MMGR_RESPONSE_MODEM_FW_RESULT
                           (P_fw_result E_MODEM_FW_READY_TIMEOUT));
         _ ← on_clients (clients_inform_all E_MMGR_NOTIFY_TFT_EVENT
                           (tft_error "TFT_ERROR_IPC" "IPC READY not received"));
         _ ← on_timer (timer_stop E_TIMER_WAIT_FOR_IPC_READY);
         mret E_TIMER_RESET) a;
  a ← on_elapsed E_TIMER_WAIT_FOR_BUS_READY cur
        (_ ← on_clients (clients_inform_all E_MMGR_NOTIFY_TFT_EVENT
                           (tft_error "TFT_ERROR_USB"
                              (if bool_decide (state = E_MMGR_MDM_CONF_ONGOING)
                               then "BUS READY (Modem Mode) not received"
                               else "BUS READY (Flash Mode) not received")));
         _ ← on_timer (timer_stop E_TIMER_WAIT_FOR_BUS_READY);
         mret E_TIMER_RESET) a;
  a ← on_elapsed E_TIMER_REBOOT_MODEM_DELAY cur
        (_ ← on_timer (timer_stop E_TIMER_REBOOT_MODEM_DELAY); mret E_TIMER_STREAMLINE) a;
  a ← on_elapsed E_TIMER_CORE_DUMP_IPC_RESET cur
        (_ ← on_timer (timer_stop E_TIMER_CORE_DUMP_IPC_RESET); mret E_TIMER_CD_ERR) a;
  a ← on_elapsed E_TIMER_WAIT_CORE_DUMP_READY cur
        (_ ← on_timer (timer_stop E_TIMER_WAIT_CORE_DUMP_READY);
         (if core_dump_signal_hw_working
          then _ ← on_clients (clients_inform_all E_MMGR_NOTIFY_CORE_DUMP_COMPLETE
                     (P_core_dump {| cd_state := E_CD_LINK_ERROR; cd_path := [];
                                     cd_reason := bytes "modem enumeration failure" |}));
               mret E_TIMER_RESET
          else mret E_TIMER_RESET)) a;
  a ← on_elapsed E_TIMER_MDM_FLASHING cur
        (_ ← on_timer (timer_stop E_TIMER_MDM_FLASHING); mret E_TIMER_CANCEL_FLASHING) a;
  a ← on_elapsed E_TIMER_CORE_DUMP_READING cur
        (_ ← on_timer (timer_stop E_TIMER_CORE_DUMP_READING); mret E_TIMER_STOP_MCDR) a;
  on_elapsed E_TIMER_FMMO cur
    (_ ← on_timer (timer_stop E_TIMER_FMMO); mret E_TIMER_FINALIZE_MDM_OFF) a.

(** [mcdr_timeout] is [mcdr->gnl.timeout]. *)
Definition timer_init (recov : mmgr_recovery) (timings : mmgr_timings) (mcdr_timeout : Z)
  : IO (option mmgr_timer) unit :=
  ok ← call (X_calloc 128);
  modify (fun _ =>
    if (ok : bool) then
      Some {| ttype := 0;
              timeout := fun t =>
                match t with
                | E_TIMER_COLD_RESET_ACK => rc_cold_timeout recov
                | E_TIMER_MODEM_SHUTDOWN_ACK => rc_shtdwn_timeout recov
                | E_TIMER_WAIT_FOR_IPC_READY | E_TIMER_WAIT_FOR_BUS_READY
                | E_TIMER_REBOOT_MODEM_DELAY => tm_ipc_ready timings
                | E_TIMER_CORE_DUMP_IPC_RESET => tm_cd_ipc_reset timings
                | E_TIMER_WAIT_CORE_DUMP_READY => tm_cd_ipc_ready timings
                | E_TIMER_MDM_FLASHING => tm_mdm_flash timings
                | E_TIMER_CORE_DUMP_READING => mcdr_timeout
                | E_TIMER_FMMO => tm_fmmo timings
                end;
              end_ := fun _ => {| ts_sec := 0; ts_nsec := 0 |} |}
    else None).

Definition timer_get_value (t : e_timer_type) : IO mmgr_timer Z :=
  current ← call (X_clock_gettime CLOCK_BOOTTIME);
  s ← get;
  mret (int32 (int32 (timeout s t * 1000) - timer_get_elapsed current (end_ s t))).

End timer.

(** * Lemmas *)

(** What the expiry of each timer asks for. *)
Definition action_of (t : e_timer_type) : Z :=
  match t with
  | E_TIMER_COLD_RESET_ACK | E_TIMER_WAIT_FOR_IPC_READY | E_TIMER_WAIT_FOR_BUS_READY
  | E_TIMER_WAIT_CORE_DUMP_READY => E_TIMER_RESET
  | E_TIMER_MODEM_SHUTDOWN_ACK => E_TIMER_RESET .| E_TIMER_START_MDM_OFF
  | E_TIMER_REBOOT_MODEM_DELAY => E_TIMER_STREAMLINE
  | E_TIMER_CORE_DUMP_IPC_RESET => E_TIMER_CD_ERR
  | E_TIMER_MDM_FLASHING => E_TIMER_CANCEL_FLASHING
  | E_TIMER_CORE_DUMP_READING => E_TIMER_STOP_MCDR
  | E_TIMER_FMMO => E_TIMER_FINALIZE_MDM_OFF
  end.

Definition stopped (t : e_timer_type) (s : mmgr_timer) : mmgr_timer :=
  set_ttype (ttype s .~ tbit t) s.

Lemma armed_testbit s t : armed s t = Z.testbit (ttype s) (Z.of_nat (timer_id t)).
Proof. apply has_bit. lia. Qed.

Lemma timer_id_eqb t u :
  (Z.of_nat (timer_id u) =? Z.of_nat (timer_id t)) = bool_decide (u = t).
Proof. by destruct t, u. Qed.

Lemma armed_stopped t u s : armed (stopped t s) u = negb (bool_decide (u = t)) && armed s u.
Proof.
  rewrite !armed_testbit. cbn. unfold tbit. rewrite testbit_clear by lia. by rewrite timer_id_eqb.
Qed.

Lemma armed_started t u s :
  armed (set_ttype (ttype s .| tbit t) s) u = bool_decide (u = t) || armed s u.
Proof.
  rewrite !armed_testbit. cbn. unfold tbit. rewrite testbit_set by lia. by rewrite timer_id_eqb.
Qed.

Lemma elapsed_stopped t u s cur : u <> t ->
  timer_is_elapsed (stopped t s) u cur = timer_is_elapsed s u cur.
Proof.
  intros Hn. unfold timer_is_elapsed. rewrite armed_stopped.
  by rewrite bool_decide_eq_false_2 by done.
Qed.

(** Handling the timers of a list one after the other. *)
Definition fire (cur : timespec) (x : mmgr_timer * Z) (t : e_timer_type) : mmgr_timer * Z :=
  if timer_is_elapsed x.1 t cur then (stopped t x.1, x.2 .| action_of t) else x.

Lemma fire_all cur l : NoDup l -> forall s a,
  let r := fold_left (fire cur) l (s, a) in
  (forall u, armed r.1 u =
     armed s u && negb (bool_decide (u ∈ l) && timer_is_elapsed s u cur)) /\
  timeout r.1 = timeout s /\ end_ r.1 = end_ s /\
  r.2 = fold_left (fun a t => if timer_is_elapsed s t cur then a .| action_of t else a) l a.
Proof.
  induction 1 as [|t l Hn Hnd IH]; intros s a; cbn [fold_left].
  { split_and!; try done. intros u. rewrite bool_decide_eq_false_2 by apply not_elem_of_nil.
    by rewrite andb_true_r. }
  assert (Hf : forall s', (forall u, u <> t -> timer_is_elapsed s' u cur = timer_is_elapsed s u cur) ->
    forall b, fold_left (fun a t => if timer_is_elapsed s' t cur then a .| action_of t else a) l b =
    fold_left (fun a t => if timer_is_elapsed s t cur then a .| action_of t else a) l b).
  { intros s' He. clear IH Hnd. induction l as [|v l IHl]; intros b; [done|]. cbn.
    apply not_elem_of_cons in Hn as [Hv Hn]. rewrite He by done. by apply IHl. }
  assert (Hx : fire cur (s, a) t =
    if timer_is_elapsed s t cur then (stopped t s, a .| action_of t) else (s, a)) by done.
  cbv zeta. rewrite Hx. destruct (timer_is_elapsed s t cur) eqn:Et.
  - destruct (IH (stopped t s) (a .| action_of t)) as (Ha & Ht & He & Hr). split_and!.
    + intros u. rewrite Ha, armed_stopped.
      destruct (decide (u = t)) as [->|Hu].
      * rewrite (bool_decide_eq_true_2 (t ∈ t :: l)) by left. rewrite Et.
        rewrite bool_decide_eq_true_2 by done. cbn. by rewrite andb_false_r.
      * rewrite elapsed_stopped by done. rewrite bool_decide_eq_false_2 by done. cbn [negb andb].
        do 3 f_equal. apply bool_decide_ext. rewrite elem_of_cons. naive_solver.
    + exact Ht.
    + exact He.
    + rewrite Hr. apply Hf. intros u Hu. by apply elapsed_stopped.
  - destruct (IH s a) as (Ha & Ht & He & Hr). split_and!; try done.
    intros u. rewrite Ha. destruct (decide (u = t)) as [->|Hu].
    + by rewrite Et, !andb_false_r.
    + do 3 f_equal. apply bool_decide_ext. rewrite elem_of_cons. naive_solver.
Qed.

Lemma TIMER_complete t : t ∈ TIMER.
Proof. unfold TIMER. rewrite !elem_of_cons. destruct t; tauto. Qed.

Lemma TIMER_NoDup : NoDup TIMER.
Proof. apply (bool_decide_unpack (NoDup TIMER)). by vm_compute. Qed.

Section timer_lemmas.
Context `{Platform}.
Implicit Types (h : history).

(** A block handles its timer as [fire] does and keeps the clients. *)
Definition handles (t : e_timer_type) (body : IO (mmgr_timer * client_list) Z) : Prop :=
  forall s h, wp False body (fun a s' _ =>
    a = action_of t /\ s'.1 = stopped t s.1 /\ clist s'.2 = clist s.2 /\
    connected s'.2 = connected s.2) s h.

Lemma on_elapsed_wp t cur body s a h : handles t body ->
  wp False (on_elapsed t cur body a)
    (fun a' s' _ => (s'.1, a') = fire cur (s.1, a) t /\ clist s'.2 = clist s.2 /\
                    connected s'.2 = connected s.2) s h.
Proof.
  intros Hb. unfold on_elapsed, fire. wp_simp. cbn [fst snd].
  destruct (timer_is_elapsed s.1 t cur); wp_simp; [|done].
  eapply wp_mono; [apply Hb|]. cbv beta. intros a' [t' c'] h' (-> & E & ? & ?). cbn in *. by subst.
Qed.

Lemma handles_inform t ev p (m : IO (mmgr_timer * client_list) Z) : alloc_ok -> carries ev p ->
  handles t m -> handles t (_ ← on_clients (clients_inform_all ev p); m).
Proof.
  intros Ha Hc Hm s h. unfold on_clients. wp_simp.
  eapply wp_mono; [by apply inform_all_wp|]. cbv beta. intros ? c h' [-> _].
  eapply wp_mono; [apply Hm|]. cbv beta. intros a' [t' c'] h2 (-> & E & Ec & En). cbn in *. by subst.
Qed.

Lemma handles_stop t : handles t (_ ← on_timer (timer_stop t); mret (action_of t)).
Proof. intros s h. unfold on_timer, timer_stop. wp_simp. done. Qed.

Lemma tft_error_carries ev_type msg :
  (String.length ev_type < 100)%nat -> (String.length msg < 100)%nat ->
  carries E_MMGR_NOTIFY_TFT_EVENT (tft_error ev_type msg).
Proof.
  intros H1 H2.
  assert (Hl : forall x, strlen (bytes x) = Z.of_nat (String.length x)).
  { intros x. unfold strlen, bytes. rewrite length_map.
    induction x as [|c x IH]; [done|]. cbn. lia. }
  cbn. split.
  - cbn [wire tft_error tft_type tft_name tft_log tft_data length map concat].
    unfold lstring. rewrite !strlen_app, !strlen_be32, !Hl. change (strlen []) with 0.
    unfold SIZE_HEADER. lia.
  - cbn. split; [done|]. repeat constructor. rewrite Hl.
    unfold MMGR_CLI_MAX_RECOVERY_CAUSE_LEN. lia.
Qed.

(** The whole of [timer_event] is [fire] over all timers. *)
Lemma timer_event_wp state hw s h : alloc_ok ->
  let cur := reply h (X_clock_gettime CLOCK_BOOTTIME) in
  wp False (timer_event state hw)
    (fun a s' _ => (s'.1, a) = fold_left (fire cur) TIMER (s.1, E_TIMER_NO_ACTION) /\
                   clist s'.2 = clist s.2 /\ connected s'.2 = connected s.2) s h.
Proof.
  intros Ha cur. unfold timer_event, TIMER. wp_call. fold cur.
  cbn [fold_left].
  repeat match goal with
  | |- wp _ (on_elapsed ?t cur ?b ?a ≫= _) _ ?s ?h =>
      apply wp_bind; eapply wp_mono; [apply (on_elapsed_wp t cur b s a h)|];
      [|cbv beta; intros ? ? ? (<- & <- & <-)]
  | |- wp _ (on_elapsed ?t cur ?b ?a) _ ?s ?h =>
      eapply wp_mono; [apply (on_elapsed_wp t cur b s a h)|];
      [|cbv beta; intros ? ? ? (<- & <- & <-); done]
  end; try apply handles_stop.
  - apply handles_inform; [done..|]. apply handles_inform; [done| |apply handles_stop].
    apply tft_error_carries; cbn; lia.
  - apply handles_inform; [done| |apply handles_stop].
    destruct state; apply tft_error_carries; apply Nat.ltb_lt; by vm_compute.
  - destruct hw; [|apply handles_stop]. intros s1 h1. unfold on_timer, timer_stop, on_clients.
    wp_simp. eapply wp_mono; [by apply inform_all_wp|]. cbv beta. by intros ? c h2 [-> _].
Qed.

End timer_lemmas.

(** * Remaining time *)

(** Nanoseconds from [cur] to [e]. *)
Definition remaining_ns (cur e : timespec) : Z :=
  (ts_sec e - ts_sec cur) * 10 ^ 9 + (ts_nsec e - ts_nsec cur).

Definition valid_time (t : timespec) : Prop := 0 <= ts_nsec t < 10 ^ 9.

(** The difference of the two times, in milliseconds, fits a 32-bit [long]. *)
Definition close_times (cur e : timespec) : Prop :=
  valid_time cur /\ valid_time e /\ - 2147482 <= ts_sec e - ts_sec cur <= 2147482.

Lemma elapsed_spec cur e : close_times cur e ->
  timer_get_elapsed cur e =
    (ts_sec e - ts_sec cur) * 1000 + Z.quot (ts_nsec e - ts_nsec cur) 1000000 /\
  (timer_get_elapsed cur e - 1) * 10 ^ 6 < remaining_ns cur e < (timer_get_elapsed cur e + 1) * 10 ^ 6.
Proof.
  intros (H1 & H2 & Hd). unfold valid_time in *. unfold timer_get_elapsed, remaining_ns.
  set (d := ts_nsec e - ts_nsec cur). assert (Hb : - 10 ^ 9 < d < 10 ^ 9) by lia.
  assert (Hq : - 1000 < Z.quot d 1000000 < 1000 /\
    (Z.quot d 1000000 - 1) * 10 ^ 6 < d < (Z.quot d 1000000 + 1) * 10 ^ 6).
  { pose proof (Z.quot_rem' d 1000000).
    destruct (decide (0 <= d)).
    - pose proof (Z.rem_bound_pos d 1000000). lia.
    - pose proof (Z.rem_bound_pos_neg d 1000000). lia. }
  rewrite int32_id by lia. split; [done|]. lia.
Qed.

(** A timer whose end lies in the past has elapsed. *)
Lemma elapsed_past cur e : close_times cur e -> remaining_ns cur e < 0 ->
  timer_get_elapsed cur e <= 0.
Proof. intros Hc Hr. destruct (elapsed_spec cur e Hc) as [_ Hb]. nia. Qed.

(** The least value over the armed timers. *)
Lemma timeout_fold s cur l m :
  -1 <= m ->
  let r := fold_left (timeout_step s cur) l m in
  (r = -1 <-> m = -1 /\ forall t, t ∈ l -> armed s t = false) /\ -1 <= r /\
  (m <> -1 -> r <= m) /\
  (forall t, t ∈ l -> armed s t = true -> r <= Z.max 0 (timer_get_elapsed cur (end_ s t))) /\
  (r <> -1 -> r = m \/
    exists t, t ∈ l /\ armed s t = true /\ r = Z.max 0 (timer_get_elapsed cur (end_ s t))).
Proof.
  revert m. induction l as [|t l IH]; intros m Hm; cbn [fold_left].
  { split_and!; [|lia|lia|by intros t Ht%elem_of_nil|by left].
    split; [|by intros [? _]]. intros ->. split; [done|]. by intros t Ht%elem_of_nil. }
  set (m' := timeout_step s cur m t).
  assert (Hs : (armed s t = false /\ m' = m) \/
    (armed s t = true /\ 0 <= m' /\ (m <> -1 -> m' <= m) /\
     m' <= Z.max 0 (timer_get_elapsed cur (end_ s t)) /\
     (m' = m \/ m' = Z.max 0 (timer_get_elapsed cur (end_ s t))))).
  { subst m'. unfold timeout_step, TIMER_INFINITE.
    destruct (armed s t); [right|left; done]. split; [done|].
    destruct (Z.ltb_spec (timer_get_elapsed cur (end_ s t)) 0);
      destruct (Z.eqb_spec m (-1)); try case_match; rewrite ?Z.ltb_lt, ?Z.ltb_ge in *; lia. }
  destruct (IH m' ltac:(lia)) as (H1 & H2 & H3 & H4 & H5). cbv zeta. split_and!.
  - rewrite H1. split.
    + intros [Hm' Ha]. destruct Hs as [[Hf ->]|Hs]; [|lia]. split; [done|].
      intros u [->|Hu]%elem_of_cons; [done|by apply Ha].
    + intros [-> Ha]. destruct Hs as [[_ ->]|Hs].
      * split; [done|]. intros u Hu. apply Ha. by right.
      * destruct Hs as [Ht _]. rewrite Ha in Ht by left. done.
  - done.
  - intros Hn. destruct Hs as [[_ E]|Hs]; [rewrite E in *; tauto|]. lia.
  - intros u [->|Hu]%elem_of_cons Ha; [|by apply H4]. destruct Hs as [[Hf _]|Hs]; [congruence|].
    lia.
  - intros Hn. destruct (H5 Hn) as [E|(u & Hu & Ha & Hr)].
    + destruct Hs as [[_ E']|(Ht & _ & _ & _ & [E'|E'])]; [left; congruence|left; congruence|].
      right. exists t. split; [left|]. split; [done|congruence].
    + right. exists u. split; [by right|done].
Qed.

Lemma actions_testbit (el : e_timer_type -> bool) l a n : 
  Z.testbit (fold_left (fun a t => if el t then a .| action_of t else a) l a) n =
  Z.testbit a n || existsb (fun t => el t && Z.testbit (action_of t) n) l.
Proof.
  revert a. induction l as [|t l IH]; intros a; cbn; [by rewrite orb_false_r|].
  rewrite IH. destruct (el t); cbn; [|done]. by rewrite Z.lor_spec, orb_assoc.
Qed.

(** Some bit of every action is set. *)
Definition action_bit (t : e_timer_type) : Z := Z.log2 (action_of t).

Lemma action_bit_set t : Z.testbit (action_of t) (action_bit t) = true /\ 0 <= action_bit t.
Proof. by destruct t. Qed.

(** * Theorems *)

Section timer_theorems.
Context `{Platform}.
Implicit Types (h : history).

Lemma timer_get_timeout_wp s h :
  let cur := reply h (X_clock_gettime CLOCK_BOOTTIME) in
  let left t := Z.max 0 (timer_get_elapsed cur (end_ s t)) in
  wp False timer_get_timeout
    (fun r s' _ => s' = s /\
       (r = TIMER_INFINITE <-> forall t, armed s t = false) /\
       (r <> TIMER_INFINITE ->
          (forall t, armed s t = true -> r <= left t) /\
          exists t, armed s t = true /\ r = left t)) s h.
Proof.
  intros cur left. unfold timer_get_timeout. wp_simp.
  destruct (Z.eqb_spec (ttype s) 0) as [E|E].
  - wp_simp. split; [done|]. split; [|done]. split; [|done]. intros _ t.
    rewrite armed_testbit, E. apply Z.bits_0.
  - wp_calls. split; [done|]. fold cur.
    destruct (timeout_fold s cur TIMER TIMER_INFINITE) as (H1 & _ & _ & H4 & H5); [done|].
    cbv zeta in *. split.
    + rewrite H1. split; [intros [_ Ha] t; apply Ha, TIMER_complete|].
      intros Ha. split; [done|]. by intros.
    + intros Hn. split; [intros t; apply H4, TIMER_complete|].
      destruct (H5 Hn) as [|(t & _ & Ht & Hr)]; [done|]. by exists t.
Qed.

Lemma timer_event_exact_wp state hw s h : alloc_ok ->
  let cur := reply h (X_clock_gettime CLOCK_BOOTTIME) in
  wp False (timer_event state hw)
    (fun a s' _ =>
       (forall t, armed s'.1 t = armed s.1 t && negb (timer_is_elapsed s.1 t cur)) /\
       (forall n, Z.testbit a n = true <->
          exists t, timer_is_elapsed s.1 t cur = true /\ Z.testbit (action_of t) n = true) /\
       timeout s'.1 = timeout s.1 /\ end_ s'.1 = end_ s.1 /\
       clist s'.2 = clist s.2 /\ connected s'.2 = connected s.2) s h.
Proof.
  intros Ha cur. eapply wp_mono; [by apply timer_event_wp|]. cbv beta. fold cur.
  intros a [t' c'] h' (E & Hc). cbn [fst snd] in *.
  destruct (fire_all cur TIMER TIMER_NoDup s.1 E_TIMER_NO_ACTION) as (H1 & H2 & H3 & H4).
  cbv zeta in *. rewrite <- E in *. cbn [fst snd] in *. split_and!; try done; try apply Hc.
  - intros t. rewrite H1. by rewrite bool_decide_eq_true_2 by apply TIMER_complete.
  - intros n. rewrite H4, actions_testbit. unfold E_TIMER_NO_ACTION. rewrite Z.bits_0. cbn [orb].
    rewrite existsb_exists. split.
    + intros (t & _ & Ht%andb_true_iff). by exists t.
    + intros (t & Ht). exists t. rewrite andb_true_iff.
      split; [apply list_elem_of_In, TIMER_complete|done].
Qed.

(** The timeout of the event loop is infinite exactly when no timer is armed;
    otherwise it is the remaining time of the armed timer that ends first, zero
    if it has already ended. *)
Theorem timer_get_timeout_least s h :
  let cur := reply h (X_clock_gettime CLOCK_BOOTTIME) in
  let left t := Z.max 0 (timer_get_elapsed cur (end_ s t)) in
  wp False timer_get_timeout
    (fun r s' _ => s' = s /\
       (r = TIMER_INFINITE <-> forall t, armed s t = false) /\
       (r <> TIMER_INFINITE ->
          (forall t, armed s t = true -> r <= left t) /\
          exists t, armed s t = true /\ r = left t)) s h.
Proof. apply timer_get_timeout_wp. Qed.

(** [timer_event] disarms exactly the timers that have elapsed, asks for
    exactly the union of their actions, and leaves the clients connected. *)
Theorem timer_event_exact state hw s h : alloc_ok ->
  let cur := reply h (X_clock_gettime CLOCK_BOOTTIME) in
  wp False (timer_event state hw)
    (fun a s' _ =>
       (forall t, armed s'.1 t = armed s.1 t && negb (timer_is_elapsed s.1 t cur)) /\
       (forall n, Z.testbit a n = true <->
          exists t, timer_is_elapsed s.1 t cur = true /\ Z.testbit (action_of t) n = true) /\
       timeout s'.1 = timeout s.1 /\ end_ s'.1 = end_ s.1 /\
       clist s'.2 = clist s.2 /\ connected s'.2 = connected s.2) s h.
Proof. apply timer_event_exact_wp. Qed.

(** C13. Sleeping for the timeout plus one millisecond is enough: when some timer
    is armed, the next [timer_event] that finds the clock at least the timeout
    plus one millisecond further handles an armed timer.  This holds within what
    the 32-bit millisecond count can express: when the timeout is asked for, and
    again at that event, each armed timer ends at most 2147482 seconds (24.8
    days) before or after the clock's reading.  The clients the expiry informs
    are given memory for their messages. *)
Theorem timer_progress state hw s h :
  alloc_ok -> (exists t, armed s.1 t = true) ->
  let cur := reply h (X_clock_gettime CLOCK_BOOTTIME) in
  (forall t, armed s.1 t = true -> close_times cur (end_ s.1 t)) ->
  wp False (on_timer timer_get_timeout)
    (fun r s' h' => s' = s /\ forall h2,
       let now := reply h2 (X_clock_gettime CLOCK_BOOTTIME) in
       (forall t, armed s.1 t = true -> close_times now (end_ s.1 t)) ->
       (r + 1) * 10 ^ 6 <= remaining_ns cur now ->
       wp False (timer_event state hw)
         (fun a s2 _ => a <> E_TIMER_NO_ACTION /\
            exists t, armed s.1 t = true /\ armed s2.1 t = false) s h2) s h.
Proof.
  intros Ha [t0 Ht0] cur Hclose. unfold on_timer. apply wp_zoom.
  eapply wp_mono; [apply timer_get_timeout_wp|]. cbv beta zeta. fold cur.
  intros r s' h' (-> & Hinf & Hleast). split; [by destruct s|]. intros h2 Hnow Hslept.
  set (now := reply h2 (X_clock_gettime CLOCK_BOOTTIME)) in *.
  destruct (decide (r = TIMER_INFINITE)) as [E|E].
  { apply Hinf with (t := t0) in E. congruence. }
  destruct (Hleast E) as (_ & t & Ht & Hr).
  assert (Hel : timer_is_elapsed s.1 t (reply h2 (X_clock_gettime CLOCK_BOOTTIME)) = true).
  { unfold timer_is_elapsed. rewrite Ht. apply Z.leb_le, elapsed_past; [by apply Hnow|].
    destruct (elapsed_spec cur (end_ s.1 t) (Hclose t Ht)) as [_ Hb].
    fold now. unfold remaining_ns in *. lia. }
  eapply wp_mono; [by apply timer_event_exact_wp|]. cbv beta zeta.
  intros a s2 h3 (H1 & H2 & _). split.
  - intros ->. destruct (action_bit_set t) as [Hb _].
    assert (Z.testbit E_TIMER_NO_ACTION (action_bit t) = true) as Hx by (apply H2; eauto).
    unfold E_TIMER_NO_ACTION in Hx. by rewrite Z.bits_0 in Hx.
  - exists t. rewrite H1, Hel, andb_false_r. done.
Qed.

(** A timer started with a non-zero timeout fires on time: not while more
    than a millisecond is left, and always once its timeout has passed. *)
Theorem timer_start_fires_on_time t s h e :
  let c0 := reply h (X_clock_gettime CLOCK_BOOTTIME) in
  0 < timeout s t -> 0 <= ts_sec c0 -> ts_sec c0 + timeout s t < 2 ^ 31 ->
  let fin := {| ts_sec := ts_sec c0 + timeout s t; ts_nsec := ts_nsec c0 |} in
  close_times e fin ->
  wp False (timer_start t)
    (fun _ s' _ => armed s' t = true /\
       (remaining_ns c0 e <= timeout s t * 10 ^ 9 - 10 ^ 6 -> timer_is_elapsed s' t e = false) /\
       (timeout s t * 10 ^ 9 <= remaining_ns c0 e -> timer_is_elapsed s' t e = true) /\
       forall u, u <> t -> armed s' u = armed s u /\ end_ s' u = end_ s u) s h.
Proof.
  intros c0 Ht Hc Hmax fin Hclose. unfold timer_start. wp_call. fold c0. wp_simp.
  replace (timeout s t =? 0) with false by (symmetry; apply Z.eqb_neq; lia). cbn [negb].
  rewrite int32_id by lia. fold fin. wp_simp.
  set (s' := set_end t fin (set_ttype (ttype s .| tbit t) s)).
  assert (Harm : forall u, armed s' u = bool_decide (u = t) || armed s u).
  { intros u. rewrite <- armed_started. done. }
  assert (Hend : end_ s' t = fin) by (cbn; by rewrite bool_decide_eq_true_2).
    rewrite Harm, bool_decide_eq_true_2 by done. cbn [orb].
  unfold timer_is_elapsed. rewrite Harm, Hend, bool_decide_eq_true_2 by done. cbn [orb andb].
  destruct (elapsed_spec e fin Hclose) as [_ Hb].
  assert (Hsum : remaining_ns e fin = timeout s t * 10 ^ 9 - remaining_ns c0 e)
    by (unfold remaining_ns; cbn; lia).
  split_and!; [done|intros; apply Z.leb_gt; lia|intros; apply Z.leb_le; lia|].
  intros u Hu. rewrite Harm, bool_decide_eq_false_2 by done. split; [done|].
  cbn. by rewrite bool_decide_eq_false_2.
Qed.

End timer_theorems.

(** * Witnesses *)

Definition demo_timer : mmgr_timer := {|
  ttype := tbit E_TIMER_FMMO; timeout := fun _ => 2;
  end_ := fun _ => {| ts_sec := 1002; ts_nsec := 0 |} |}.

(** One second passes at each call. *)
Definition ticking : Platform :=
  demo_platform {| tv_sec := 1000; tv_usec := 0 |}
    (fun h => {| ts_sec := 1000 + Z.of_nat (length h); ts_nsec := 0 |}).

Lemma timer_event_exact_witness :
  wp False (@timer_event still E_MMGR_MDM_UP true)
    (fun a s' _ =>
       (forall t, armed s'.1 t = armed demo_timer t &&
          negb (timer_is_elapsed demo_timer t {| ts_sec := 1000; ts_nsec := 0 |})) /\
       (forall n, Z.testbit a n = true <-> exists t,
          timer_is_elapsed demo_timer t {| ts_sec := 1000; ts_nsec := 0 |} = true /\
          Z.testbit (action_of t) n = true) /\
       timeout s'.1 = timeout demo_timer /\ end_ s'.1 = end_ demo_timer /\
       clist s'.2 = clist demo_clients /\ connected s'.2 = connected demo_clients)
    (demo_timer, demo_clients) [].
Proof. apply (@timer_event_exact still E_MMGR_MDM_UP true (demo_timer, demo_clients) []). done. Defined.

Lemma timer_progress_witness :
  wp False (on_timer (@timer_get_timeout ticking))
    (fun r s' h' => s' = (demo_timer, demo_clients) /\ forall h2,
       let now := @reply ticking h2 (X_clock_gettime CLOCK_BOOTTIME) in
       (forall t, armed demo_timer t = true -> close_times now (end_ demo_timer t)) ->
       (r + 1) * 10 ^ 6 <= remaining_ns {| ts_sec := 1000; ts_nsec := 0 |} now ->
       wp False (@timer_event ticking E_MMGR_MDM_UP true)
         (fun a s2 _ => a <> E_TIMER_NO_ACTION /\
            exists t, armed demo_timer t = true /\ armed s2.1 t = false)
         (demo_timer, demo_clients) h2) (demo_timer, demo_clients) [].
Proof.
  apply (@timer_progress ticking E_MMGR_MDM_UP true (demo_timer, demo_clients) []);
    [done|by exists E_TIMER_FMMO|].
  intros t _. unfold close_times, valid_time. cbn. lia.
Defined.

Lemma timer_start_fires_on_time_witness :
  wp False (@timer_start still E_TIMER_FMMO)
    (fun _ s' _ => armed s' E_TIMER_FMMO = true /\
       (remaining_ns {| ts_sec := 1000; ts_nsec := 0 |} {| ts_sec := 1001; ts_nsec := 5 |}
          <= 2 * 10 ^ 9 - 10 ^ 6 ->
        timer_is_elapsed s' E_TIMER_FMMO {| ts_sec := 1001; ts_nsec := 5 |} = false) /\
       (2 * 10 ^ 9 <= remaining_ns {| ts_sec := 1000; ts_nsec := 0 |}
                        {| ts_sec := 1001; ts_nsec := 5 |} ->
        timer_is_elapsed s' E_TIMER_FMMO {| ts_sec := 1001; ts_nsec := 5 |} = true) /\
       forall u, u <> E_TIMER_FMMO ->
         armed s' u = armed demo_timer u /\ end_ s' u = end_ demo_timer u) demo_timer [].
Proof.
  apply (@timer_start_fires_on_time still E_TIMER_FMMO demo_timer []
           {| ts_sec := 1001; ts_nsec := 5 |}); try done.
Defined.
