(* ===== verification/ClientMsg.v ===== *)
(** The client library's side of the protocol: the decoders of the events it
    receives (libclients/c/msg_to_data.c) and the builders of the requests it
    sends (libclients/c/data_to_msg.c).

    A decoder reads the received buffer through a cursor; a read past its end is
    [undefined].  When a decoder fails, what it leaves in the event, NULL or a structure
    half filled, is not modelled. *)
From S2P Require Import Prelude Platform Io Msg Clients.

Section decoders.
Context `{Platform} {S : Type}.

Abbreviation answer := (e_mmgr_errors * option cli_data)%type.

(** Runs a reader on the data of a message; a NULL pointer may not be read. *)
Definition with_reader {A} (m : msg) (r : IO (list Z) A) : IO S A := fun s h =>
  match data m with
  | None => Undef h
  | Some b =>
      match r b h with
      | Done a _ h' => Done a s h'
      | Abort h' => Abort h'
      | Exit h' => Exit h'
      | Undef h' => Undef h'
      end
  end.

(** [malloc(n)], then [k], or [err]. *)
Definition alloc {T A} (n : Z) (err : A) (k : IO T A) : IO T A :=
  ok ← call (X_calloc (uint32 n)); if (ok : bool) then k else mret err.

Definition failed : answer := (E_ERR_FAILED, None).

Definition set_data_empty (_ : msg) : IO S answer := mret (E_ERR_SUCCESS, Some D_null).

(** [fuse->id] has [FUSE_LEN] bytes; a longer message overflows it. *)
Definition set_data_fuse_info (m : msg) : IO S answer :=
  alloc 9 failed
    (with_reader m
       (if FUSE_LEN <? len (hdr m) then undefined
        else b ← read_bytes (len (hdr m)); mret (E_ERR_SUCCESS, Some (D_fuse_info b)))).

Definition set_data_hw_id (m : msg) : IO S answer :=
  alloc 8 failed
    (alloc (len (hdr m) + 1) failed
       (with_reader m
          (b ← read_bytes (len (hdr m)); mret (E_ERR_SUCCESS, Some (D_hw_id b))))).

(** The loop over the recovery causes; it stops at a failed allocation. *)
Fixpoint read_causes (n : nat) : IO (list Z) (list (list Z)) :=
  match n with
  | O => mret []
  | Datatypes.S n' =>
      l ← deserialize_size_t;
      ok ← call (X_calloc (uint32 (l + 1)));
      if (ok : bool) then c ← read_bytes l; cs ← read_causes n'; mret (c :: cs)
      else mret []
  end.

(** A count whose array size wraps would overflow the array: [undefined]. *)
Definition set_data_ap_reset (m : msg) : IO S answer :=
  with_reader m
    (len_name ← deserialize_size_t;
     alloc (len_name + 1) failed
       (nm ← read_bytes len_name;
        n ← (if uint32 (len_name + 4) <? len (hdr m) then deserialize_size_t else mret 0);
        alloc 16 failed
          (ok ← call (X_calloc (uint32 (n * 8)));
           let n := if (ok : bool) then n else 0 in
           if 2 ^ 32 <=? n * 8 then undefined
           else
             cs ← read_causes (Z.to_nat n);
             mret (E_ERR_SUCCESS, Some (D_ap_reset nm cs))))).

Definition set_data_core_dump (m : msg) : IO S answer :=
  if len (hdr m) <? 3 * 4 then mret failed
  else
    alloc 20 failed
      (with_reader m
         (state ← deserialize_uint32;
          path_len ← deserialize_size_t;
          reason_len ← deserialize_size_t;
          if negb (uint32 (path_len + reason_len) =? uint32 (len (hdr m) - 12))
          then mret failed
          else
            alloc (path_len + 1) failed
              (path ← read_bytes path_len;
               if 0 <? reason_len then
                 alloc (reason_len + 1) failed
                   (reason ← read_bytes reason_len;
                    mret (E_ERR_SUCCESS, Some (D_core_dump state path (Some reason))))
               else mret (E_ERR_SUCCESS, Some (D_core_dump state path None))))).

(** The loop over the data of a TFT event; a failed allocation fails the whole. *)
Fixpoint read_tft_data (n : nat) : IO (list Z) (option (list (list Z))) :=
  match n with
  | O => mret (Some [])
  | Datatypes.S n' =>
      l ← deserialize_size_t;
      ok ← call (X_calloc (uint32 (l + 1)));
      if (ok : bool)
      then v ← read_bytes l; r ← read_tft_data n'; mret (cons v <$> r)
      else mret None
  end.

Definition set_data_tft_event (m : msg) : IO S answer :=
  if len (hdr m) <? 4 * 4 then mret failed
  else
    alloc 24 failed
      (with_reader m
         (type ← deserialize_int;
          name_len ← deserialize_size_t;
          alloc (name_len + 1) failed
            (nm ← read_bytes name_len;
             log ← deserialize_int;
             num ← deserialize_size_t;
             if 0 <? num then
               ok ← call (X_calloc (num * 8));
               if (ok : bool) then
                 r ← read_tft_data (Z.to_nat num);
                 mret (match r with
                       | Some vs => (E_ERR_SUCCESS, Some (D_tft_event type nm log vs))
                       | None => failed
                       end)
               else mret failed
             else mret (E_ERR_SUCCESS, Some (D_tft_event type nm log []))))).

Definition set_data_fw_result (m : msg) : IO S answer :=
  if negb (len (hdr m) =? 4) then mret failed
  else
    alloc 4 failed
      (with_reader m
         (r ← deserialize_uint32; mret (E_ERR_SUCCESS, Some (D_fw_result r)))).

Definition set_data_nvm_result (m : msg) : IO S answer :=
  if negb (len (hdr m) =? 4 + 4) then mret failed
  else
    alloc 8 failed
      (with_reader m
         (r ← deserialize_uint32; c ← deserialize_int;
          mret (E_ERR_SUCCESS, Some (D_nvm_result r c)))).

(** The table [mmgr_cli_create_handle] fills. *)
Definition cli_set_data (ev : e_mmgr_events) : msg -> IO S answer :=
  match ev with
  | E_MMGR_RESPONSE_MODEM_HW_ID => set_data_hw_id
  | E_MMGR_RESPONSE_FUSE_INFO => set_data_fuse_info
  | E_MMGR_NOTIFY_AP_RESET => set_data_ap_reset
  | E_MMGR_NOTIFY_CORE_DUMP_COMPLETE => set_data_core_dump
  | E_MMGR_NOTIFY_TFT_EVENT => set_data_tft_event
  | E_MMGR_RESPONSE_MODEM_FW_RESULT => set_data_fw_result
  | E_MMGR_RESPONSE_MODEM_NVM_RESULT => set_data_nvm_result
  | _ => set_data_empty
  end.

(** * Requests *)

Abbreviation built := (e_mmgr_errors * msg)%type.

(** [mmgr_cli_requests_t]: the identifier, the length and what [data] holds. *)
Definition set_msg_name (rid rlen : Z) (nm : list Z) : IO S built :=
  if rlen <=? 0 then mret (E_ERR_FAILED, null_msg)
  else
    msg_prepare rid rlen
      (if Z.of_nat (length nm) <? rlen then undefined else put (take (Z.to_nat rlen) nm)).

Definition set_msg_filter (rid filter : Z) : IO S built :=
  msg_prepare rid 4 (serialize_uint32 filter).

(** [restart] is [None] for a NULL pointer. *)
Definition set_msg_restart (rid : Z) (restart : option Z) : IO S built :=
  match restart with
  | Some optional => msg_prepare rid 4 (serialize_uint32 optional)
  | None => msg_prepare rid 0 (mret tt)
  end.

Definition MMGR_CLI_MAX_RECOVERY_CAUSES : Z := 5.

(** An entry of the cause array: [None] for a NULL string. *)
Record recovery_cause := { rc_len : Z; rc_cause : option (list Z) }.

(** The sizes and contents the builder accepts; [req] is [None] for a NULL or
    misaligned pointer, [rlen] the length in bytes of the array. *)
Definition recovery_causes (rlen : Z) (req : option (list recovery_cause))
  : list (Z * list Z) :=
  let bad := (MMGR_CLI_MAX_RECOVERY_CAUSES * 8 <? rlen) || negb (rlen mod 8 =? 0) in
  let rlen := if bad then 0 else rlen in
  match req with
  | None => []
  | Some cs =>
      let cs := take (Z.to_nat (rlen / 8)) cs in
      match mapM (fun c => if MMGR_CLI_MAX_RECOVERY_CAUSE_LEN <? rc_len c then None
                           else pair (rc_len c) <$> rc_cause c) cs with
      | Some l => l
      | None => []
      end
  end.

Fixpoint causes_size (l : list (Z * list Z)) : Z :=
  match l with
  | [] => 0
  | (n, _) :: l' => n + causes_size l'
  end.

Definition set_msg_recovery (rid rlen : Z) (req : option (list recovery_cause)) : IO S built :=
  let cs := recovery_causes rlen req in
  let n := Z.of_nat (length cs) in
  let size := if n =? 0 then 0 else 4 + n * 4 + causes_size cs in
  msg_prepare rid size
    (when (negb (n =? 0))
       (serialize_size_t n ;;
        for_each cs (fun '(l, c) =>
          serialize_size_t l ;;
          (if Z.of_nat (length c) <? l then undefined else put (take (Z.to_nat l) c))))).

End decoders.

(** * Round trips *)

(** The serialised recovery causes a client sends and a reset notification
    carries: their number, then each string. *)
Definition causes_wire (cs : list (list Z)) : list Z :=
  be32 (Z.of_nat (length cs)) ++ concat (map lstring cs).

(** The client's view of the daemon's data. *)
Definition same_data (p : payload) (d : cli_data) : Prop :=
  match p, d with
  | P_hw_id a, D_hw_id b => a = b
  | P_fuse_info a, D_fuse_info b => a = b
  | P_ap_reset ap, D_ap_reset nm cs =>
      ap_name ap = nm /\ Z.of_nat (length cs) <= MMGR_CLI_MAX_RECOVERY_CAUSES /\
      ((ap_extra ap = [] /\ cs = []) \/ ap_extra ap = causes_wire cs)
  | P_fw_result r, D_fw_result i => i = fw_error_id r
  | P_nvm_result r, D_nvm_result i c =>
      i = nvm_error_id (nvm_id r) /\ c = nvm_sub_error_code r /\ - 2 ^ 31 <= c < 2 ^ 31
  | P_core_dump cd, D_core_dump i path reason =>
      i = cd_state_id (cd_state cd) /\ path = cd_path cd /\
      reason = match cd_reason cd with [] => None | r => Some r end
  | P_tft_event e, D_tft_event i nm log vs =>
      i = event_type_id (tft_type e) /\ nm = tft_name e /\ vs = tft_data e /\
      log = tft_log e /\ - 2 ^ 31 <= log < 2 ^ 31
  | _, _ => False
  end.

(** The client sees [d] when the daemon notifies [ev] with [p]. *)
Definition views (ev : e_mmgr_events) (p : payload) (d : cli_data) : Prop :=
  match ev with
  | E_MMGR_RESPONSE_MODEM_HW_ID | E_MMGR_RESPONSE_FUSE_INFO | E_MMGR_NOTIFY_AP_RESET
  | E_MMGR_NOTIFY_CORE_DUMP_COMPLETE | E_MMGR_NOTIFY_TFT_EVENT
  | E_MMGR_RESPONSE_MODEM_FW_RESULT | E_MMGR_RESPONSE_MODEM_NVM_RESULT => same_data p d
  | _ => d = D_null
  end.

Section roundtrip.
Context `{Platform}.
Implicit Types (h : history) (b : list Z).

Lemma wp_u32 X v rest Q h : 0 <= v < 2 ^ 32 -> Q v rest h ->
  wp X deserialize_uint32 Q (be32 v ++ rest) h.
Proof. intros Hv HQ. eapply run_wp; [by apply deserialize_be32|done]. Qed.

Lemma wp_int X v rest Q h : - 2 ^ 31 <= v < 2 ^ 31 -> Q v rest h ->
  wp X deserialize_int Q (be32 (uint32 v) ++ rest) h.
Proof. intros Hv HQ. eapply run_wp; [by apply deserialize_int_be32|done]. Qed.

Lemma wp_bytes X l rest Q h : Q l rest h -> wp X (read_bytes (strlen l)) Q (l ++ rest) h.
Proof. intros HQ. eapply run_wp; [by apply read_bytes_app|done]. Qed.

Lemma wp_bytes_all X l Q h : Q l [] h -> wp X (read_bytes (strlen l)) Q l h.
Proof. intros HQ. rewrite <- (app_nil_r l) at 2. by apply wp_bytes. Qed.

Lemma wp_alloc {T A} X n err (k : IO T A) Q (s : T) h : alloc_ok ->
  wp X k Q s (X_calloc (uint32 n) :: h) -> wp X (alloc n err k) Q s h.
Proof. intros Ha Hk. unfold alloc. wp_call. by rewrite Ha. Qed.

Lemma wp_with_reader {S A} X m b (r : IO (list Z) A) Q (s : S) h : data m = Some b ->
  wp X r (fun a _ h' => Q a s h') b h -> wp X (with_reader m r) Q s h.
Proof. intros Hd. unfold wp, with_reader. rewrite Hd. by destruct (r b h). Qed.

(** One field after the other. *)
Ltac rd :=
  rewrite <- ?app_assoc; cbv iota;
  lazymatch goal with
  | |- wp _ (_ ≫= _) _ _ _ => apply wp_bind; rd
  | |- wp _ (alloc _ _ _) _ _ _ => apply wp_alloc; [done|]
  | |- wp _ (with_reader _ _) _ _ _ => eapply wp_with_reader; [reflexivity|]
  | |- wp _ deserialize_uint32 _ _ _ => apply wp_u32; [|cbv beta]
  | |- wp _ deserialize_size_t _ _ _ => apply wp_u32; [|cbv beta]
  | |- wp _ deserialize_int _ _ _ => apply wp_int; [|cbv beta]
  | |- wp _ (read_bytes _) _ _ _ =>
      first [apply wp_bytes | apply wp_bytes_all]; cbv beta
  | |- wp _ (mret _) _ _ _ => apply wp_ret
  end.

Lemma strlen_lstrings (l : list (list Z)) v :
  v ∈ l -> strlen v <= strlen (concat (map lstring l)).
Proof.
  induction l as [|w l IH]; [by intros ?%elem_of_nil|]. cbn [map concat].
  rewrite strlen_app. unfold lstring at 1. rewrite strlen_app, strlen_be32.
  intros [->|Hv]%elem_of_cons.
  - pose proof (strlen_nonneg (concat (map lstring l))). lia.
  - specialize (IH Hv). pose proof (strlen_nonneg w). lia.
Qed.

Lemma read_causes_ok cs rest Q h : alloc_ok ->
  strlen (concat (map lstring cs)) < 2 ^ 32 ->
  (forall h', Q cs rest h') ->
  wp False (read_causes (length cs)) Q (concat (map lstring cs) ++ rest) h.
Proof.
  intros Ha. revert Q h. induction cs as [|c cs IH]; intros Q h Hl HQ; cbn [length read_causes].
  { apply HQ. }
  pose proof (strlen_lstrings (c :: cs) c ltac:(left)) as Hc. pose proof (strlen_nonneg c).
  cbn [map concat] in *. rewrite strlen_app in Hl, Hc. unfold lstring at 1.
  pose proof (strlen_nonneg (lstring c)).
  rd; [lia|]. wp_call. rewrite Ha. rd. apply wp_bind. apply IH; [lia|]. intros h'. apply HQ.
Qed.

Lemma read_tft_data_ok vs rest Q h : alloc_ok ->
  strlen (concat (map lstring vs)) < 2 ^ 32 ->
  (forall h', Q (Some vs) rest h') ->
  wp False (read_tft_data (length vs)) Q (concat (map lstring vs) ++ rest) h.
Proof.
  intros Ha. revert Q h. induction vs as [|c vs IH]; intros Q h Hl HQ; cbn [length read_tft_data].
  { apply HQ. }
  pose proof (strlen_lstrings (c :: vs) c ltac:(left)) as Hc. pose proof (strlen_nonneg c).
  cbn [map concat] in *. rewrite strlen_app in Hl, Hc. unfold lstring at 1.
  pose proof (strlen_nonneg (lstring c)).
  rd; [lia|]. wp_call. rewrite Ha. rd. apply wp_bind. apply IH; [lia|]. intros h'. apply HQ.
Qed.

(** The message a client holds after it has read the frame of [p]. *)
Definition received (mid t : Z) (b : list Z) : msg :=
  {| hdr := {| id := mid; ts := t; len := strlen b |}; data := Some b |}.

Section decode.
Context {S : Type} (Ha : alloc_ok) (mid t : Z).
Implicit Types (s : S).

Lemma decode_hw_id hw s h :
  wp False (set_data_hw_id (received mid t hw))
    (fun r s' _ => r = (E_ERR_SUCCESS, Some (D_hw_id hw)) /\ s' = s) s h.
Proof. unfold set_data_hw_id. do 5 rd. done. Qed.

Lemma decode_fuse_info f s h : strlen f = FUSE_LEN ->
  wp False (set_data_fuse_info (received mid t f))
    (fun r s' _ => r = (E_ERR_SUCCESS, Some (D_fuse_info f)) /\ s' = s) s h.
Proof.
  intros Hf. unfold set_data_fuse_info. do 2 rd. cbn [len hdr received].
  rewrite Hf at 1. change (FUSE_LEN <? FUSE_LEN) with false. cbv iota. do 2 rd. done.
Qed.

Lemma decode_fw_result r s h :
  wp False (set_data_fw_result (received mid t (be32 (fw_error_id r))))
    (fun x s' _ => x = (E_ERR_SUCCESS, Some (D_fw_result (fw_error_id r))) /\ s' = s) s h.
Proof.
  unfold set_data_fw_result. change (len _) with 4.
  change (negb (4 =? 4)) with false. cbv iota. do 2 rd.
  rewrite <- (app_nil_r (be32 (fw_error_id r))). rd; [destruct r; cbn; lia|]. by rd.
Qed.

Lemma decode_nvm_result i c s h : 0 <= i < 2 ^ 32 -> - 2 ^ 31 <= c < 2 ^ 31 ->
  wp False (set_data_nvm_result (received mid t (be32 i ++ be32 (uint32 c))))
    (fun x s' _ => x = (E_ERR_SUCCESS, Some (D_nvm_result i c)) /\ s' = s) s h.
Proof.
  intros Hi Hc. unfold set_data_nvm_result. change (len _) with 8.
  change (negb (8 =? 4 + 4)) with false. cbv iota. do 2 rd.
  rewrite <- (app_nil_r (be32 (uint32 c))). rd; [done|]. rd; [done|]. by rd.
Qed.

Lemma decode_core_dump cd s h : payload_ok (P_core_dump cd) ->
  wp False (set_data_core_dump (received mid t (wire (P_core_dump cd))))
    (fun x s' _ => x = (E_ERR_SUCCESS, Some (D_core_dump (cd_state_id (cd_state cd)) (cd_path cd)
       match cd_reason cd with [] => None | r => Some r end)) /\ s' = s) s h.
Proof.
  intros [Hl _]. unfold set_data_core_dump. cbn [wire] in *. set (b := be32 _ ++ _) in *.
  assert (Hb : strlen b = 12 + (strlen (cd_path cd) + strlen (cd_reason cd)))
    by (unfold b; rewrite !strlen_app, !strlen_be32; lia).
  pose proof (strlen_nonneg (cd_path cd)). pose proof (strlen_nonneg (cd_reason cd)).
  unfold SIZE_HEADER in Hl. cbn [len hdr received]. rewrite Hb.
  replace (_ <? 3 * 4) with false by (symmetry; apply Z.ltb_ge; lia). do 2 rd. unfold b.
  rd; [destruct (cd_state cd); cbn; lia|]. rd; [lia|]. rd; [lia|].
  replace (12 + (strlen (cd_path cd) + strlen (cd_reason cd)) - 12)
    with (strlen (cd_path cd) + strlen (cd_reason cd)) by lia.
  rewrite Z.eqb_refl. cbn [negb]. rd. rd.
  destruct (cd_reason cd) as [|c r]; [done|].
  replace (0 <? strlen (c :: r)) with true by done. rd. rd. by rd.
Qed.

Lemma decode_tft_event e s h : payload_ok (P_tft_event e) -> - 2 ^ 31 <= tft_log e < 2 ^ 31 ->
  wp False (set_data_tft_event (received mid t (wire (P_tft_event e))))
    (fun x s' _ => x = (E_ERR_SUCCESS, Some (D_tft_event (event_type_id (tft_type e))
       (tft_name e) (tft_log e) (tft_data e))) /\ s' = s) s h.
Proof.
  intros (Hl & Hn & _) Hlog. unfold set_data_tft_event. cbn [wire] in *.
  set (b := be32 _ ++ _) in *.
  assert (Hb : strlen b = 16 + (strlen (tft_name e) + strlen (concat (map lstring (tft_data e)))))
    by (unfold b, lstring at 1; rewrite !strlen_app, !strlen_be32; lia).
  pose proof (strlen_nonneg (tft_name e)).
  pose proof (strlen_nonneg (concat (map lstring (tft_data e)))).
  unfold SIZE_HEADER in Hl. cbn [len hdr received].
  replace (_ <? 4 * 4) with false by (symmetry; apply Z.ltb_ge; lia). do 2 rd. unfold b, lstring at 1.
  rd; [destruct (tft_type e); cbn; lia|]. rd; [lia|]. rd. rd. rd; [done|].
  unfold MMGR_CLI_MAX_TFT_EVENT_DATA in Hn. rd; [lia|].
  destruct (tft_data e) as [|v vs] eqn:E; [done|]. rewrite <- E in *.
  replace (0 <? _) with true by (symmetry; apply Z.ltb_lt; rewrite E; cbn; lia).
  wp_call. rewrite Ha, Nat2Z.id. apply wp_bind.
  rewrite <- (app_nil_r (concat _)). apply read_tft_data_ok; [done|lia|done].
Qed.

Lemma decode_ap_reset nm cs extra s h :
  payload_ok (P_ap_reset {| ap_name := nm; ap_extra := extra |}) ->
  Z.of_nat (length cs) <= MMGR_CLI_MAX_RECOVERY_CAUSES ->
  (extra = [] /\ cs = []) \/ extra = causes_wire cs ->
  wp False (set_data_ap_reset (received mid t (lstring nm ++ extra)))
    (fun x s' _ => x = (E_ERR_SUCCESS, Some (D_ap_reset nm cs)) /\ s' = s) s h.
Proof.
  intros [Hl _] Hn Hcs. unfold MMGR_CLI_MAX_RECOVERY_CAUSES in Hn.
  cbn [wire ap_name ap_extra] in Hl. unfold SIZE_HEADER, lstring in Hl.
  rewrite !strlen_app, strlen_be32 in Hl. pose proof (strlen_nonneg nm). pose proof (strlen_nonneg extra).
  unfold set_data_ap_reset. rd. unfold lstring at 1. rd; [lia|]. do 2 rd. apply wp_bind.
  cbn [len hdr received]. unfold lstring.
  rewrite !strlen_app, strlen_be32, (uint32_id (strlen nm + 4)) by lia.
  destruct Hcs as [[-> ->]| -> ].
  - change (strlen []) with 0. replace (_ <? _) with false by (symmetry; apply Z.ltb_ge; lia). rd. rd.
    wp_call. rewrite Ha. by cbn.
  - unfold causes_wire in *. rewrite strlen_app, strlen_be32 in *.
    pose proof (strlen_nonneg (concat (map lstring cs))).
    replace (_ <? _) with true by (symmetry; apply Z.ltb_lt; lia). rd; [lia|]. rd.
    wp_call. rewrite Ha.
    replace (2 ^ 32 <=? _) with false by (symmetry; apply Z.leb_gt; lia).
    rewrite Nat2Z.id. apply wp_bind. rewrite <- (app_nil_r (concat _)).
    apply read_causes_ok; [done|lia|done].
Qed.

End decode.

Tactic Notation "decoded" uconstr(lem) := eapply wp_mono; [apply lem; try done|intros ? ? ? [-> ->]; try done].

(** The decoder of an event gives back the data of its body.  An event without
    data does not look at the message. *)
Lemma cli_set_data_ok {S} ev p d m (s : S) h :
  alloc_ok -> carries ev p -> views ev p d ->
  len (hdr m) = strlen (event_body ev p) ->
  (data m = Some (event_body ev p) \/ d = D_null) ->
  wp False (cli_set_data ev m) (fun x s' _ => x = (E_ERR_SUCCESS, Some d) /\ s' = s) s h.
Proof.
  intros Ha Hc Hv Hl Hd.
  assert (Hm : d = D_null \/ m = received (id (hdr m)) (ts (hdr m)) (event_body ev p)).
  { destruct Hd as [Hd|]; [right|by left]. destruct m as [[i t l] dt]. cbn in *. by subst. }
  destruct ev; try done; cbn [carries event_body cli_set_data views] in *;
    try (by subst); destruct p, d; try done; cbn [same_data wire] in *;
    (destruct Hm as [?|Hm]; [done|]; rewrite Hm).
  - decoded decode_core_dump. by destruct Hv as (-> & -> & ->).
  - destruct Hv as (<- & Hn & Hv), ap. by decoded decode_ap_reset.
  - destruct Hv as (-> & -> & -> & -> & Hlog). by decoded decode_tft_event.
  - subst. by decoded decode_hw_id.
  - subst. by decoded decode_fw_result.
  - destruct Hv as (-> & -> & Hr). decoded decode_nvm_result.
    destruct (nvm_id r); cbn; lia.
  - subst. decoded decode_fuse_info. apply Hc.
Qed.

(** C14. An event the daemon builds is the event the client is given: for every
    event with data, the frame the daemon's builder makes has a header that
    parses back to the event and the length of the body, and the client's
    decoder of the event turns the body back into the very data notified,
    without reading or writing outside its buffers. *)
Theorem event_roundtrip ev p d (cl : client_list) h h' :
  alloc_ok -> carries ev p -> views ev p d ->
  exists build m h1 b t,
    set_data ev = Some build /\ build p cl h = Done (E_ERR_SUCCESS, m) cl h1 /\
    data m = Some (frame (event_id ev) t b) /\
    parse_header (take (Z.to_nat SIZE_HEADER) (frame (event_id ev) t b)) tt h' =
      Done (E_ERR_SUCCESS, Some {| id := event_id ev; ts := t; len := strlen b |}) tt h' /\
    wp False (cli_set_data ev (received (event_id ev) t b))
      (fun x _ _ => x = (E_ERR_SUCCESS, Some d)) tt h'.
Proof.
  intros Ha Hc Hv. destruct (set_data_ok ev p cl h Hc) as (build & Hb & E).
  unfold prepared in E. rewrite Ha in E.
  exists build. do 2 eexists. exists (event_body ev p). eexists.
  split; [exact Hb|]. split; [exact E|]. split; [reflexivity|].
  pose proof (carries_size ev p Hc). unfold SIZE_HEADER in *.
  split.
  { apply parse_header_frame; [destruct ev; cbn; lia|apply uint32_range|lia]. }
  eapply wp_mono; [eapply cli_set_data_ok; [done..|by left]|]. by intros ? ? ? [-> _].
Qed.

End roundtrip.

(** What the builder of recovery requests accepts is bounded. *)
Lemma recovery_causes_bounds rlen req : 0 <= rlen ->
  Z.of_nat (length (recovery_causes rlen req)) <= MMGR_CLI_MAX_RECOVERY_CAUSES /\
  Forall (fun x => x.1 <= MMGR_CLI_MAX_RECOVERY_CAUSE_LEN) (recovery_causes rlen req).
Proof.
  intros Hr. unfold recovery_causes, MMGR_CLI_MAX_RECOVERY_CAUSES. destruct req as [cs|]; [|done].
  set (n := if _ || _ then 0 else rlen).
  assert (Hn : n <= 40).
  { subst n. destruct (Z.ltb_spec (5 * 8) rlen); cbn [orb]; [lia|]. destruct (negb _); lia. }
  destruct (mapM _ _) as [l|] eqn:E; [|done]. apply mapM_Some in E. split.
  - apply Forall2_length in E. rewrite <- E, length_take.
    assert (n / 8 <= 5) by (apply Z.div_le_upper_bound; lia). lia.
  - revert E. generalize (take (Z.to_nat (n / 8)) cs) as ds. clear.
    intros ds. induction 1 as [|c [k x] ds l Hc _ IH]; constructor; [|done].
    destruct (Z.ltb_spec MMGR_CLI_MAX_RECOVERY_CAUSE_LEN (rc_len c)); [done|].
    destruct (rc_cause c); cbn in Hc; simplify_eq. done.
Qed.

Lemma causes_size_strlen l : Forall (fun x => x.1 = strlen x.2) l ->
  4 + Z.of_nat (length l) * 4 + causes_size l = strlen (causes_wire (map snd l)).
Proof.
  unfold causes_wire. rewrite strlen_app, strlen_be32.
  induction 1 as [|[n c] l Hc _ IH]; [done|]. cbn [causes_size length map concat snd fst] in *.
  unfold lstring at 1. rewrite !strlen_app, strlen_be32. lia.
Qed.

Lemma causes_size_bound l k : Forall (fun x => x.1 <= k) l -> 0 <= k ->
  causes_size l <= Z.of_nat (length l) * k.
Proof. induction 1 as [|[n c] l Hc _ IH]; intros; [done|]. cbn in *. lia. Qed.

(** The recovery request a client builds never overflows its buffer, for
    any array it is given; its body is the serialised list of the causes it
    accepts (at most five, of at most 512 bytes), or empty when it accepts none,
    which is the form the reset notification of the daemon carries on. *)
Theorem recovery_request_wire `{Platform} {S} rid rlen req (s : S) h :
  0 <= rlen ->
  Forall (fun x => x.1 = strlen x.2) (recovery_causes rlen req) ->
  set_msg_recovery rid rlen req s h =
  prepared rid
    (match recovery_causes rlen req with [] => [] | cs => causes_wire (map snd cs) end) s h.
Proof.
  intros Hr Hlen. unfold set_msg_recovery.
  destruct (recovery_causes_bounds rlen req Hr) as [Hn Hk].
  pose proof (causes_size_strlen _ Hlen) as Hsz.
  pose proof (causes_size_bound _ _ Hk ltac:(done)) as Hb.
  unfold MMGR_CLI_MAX_RECOVERY_CAUSES, MMGR_CLI_MAX_RECOVERY_CAUSE_LEN in *.
  destruct (recovery_causes rlen req) as [|x l] eqn:E.
  { apply msg_prepare_writes; [apply writes_nil|done|done]. }
  rewrite <- E in *.
  assert (Hz : (Z.of_nat (length (recovery_causes rlen req)) =? 0) = false)
    by (apply Z.eqb_neq; rewrite E; cbn; lia).
  rewrite Hz. cbn [negb when]. apply msg_prepare_writes; [|done|unfold SIZE_HEADER; lia].
  unfold causes_wire. rewrite length_map.
  apply writes_seq; [apply writes_put|]. rewrite map_map.
  apply (writes_for_each _ _ (fun x => lstring x.2)). intros [n c] Hx.
  rewrite Forall_forall in Hlen. apply list_elem_of_In, Hlen in Hx. cbn in Hx. subst n.
  replace (Z.of_nat (length c) <? strlen c) with false by (symmetry; apply Z.ltb_ge; unfold strlen; lia).
  rewrite take_ge by (unfold strlen; lia). apply writes_seq; apply writes_put.
Qed.

(** * Witnesses *)

Lemma event_roundtrip_witness :
  exists build m h1 b t,
    @set_data still client_list E_MMGR_NOTIFY_AP_RESET = Some build /\
    build (P_ap_reset {| ap_name := bytes "ril"; ap_extra := causes_wire [bytes "hang"] |})
      demo_clients [] = Done (E_ERR_SUCCESS, m) demo_clients h1 /\
    data m = Some (frame (event_id E_MMGR_NOTIFY_AP_RESET) t b) /\
    parse_header (take (Z.to_nat SIZE_HEADER) (frame (event_id E_MMGR_NOTIFY_AP_RESET) t b)) tt [] =
      Done (E_ERR_SUCCESS, Some {| id := event_id E_MMGR_NOTIFY_AP_RESET; ts := t; len := strlen b |})
        tt [] /\
    wp False (@cli_set_data still unit E_MMGR_NOTIFY_AP_RESET
                (received (event_id E_MMGR_NOTIFY_AP_RESET) t b))
      (fun x _ _ => x = (E_ERR_SUCCESS, Some (D_ap_reset (bytes "ril") [bytes "hang"]))) tt [].
Proof.
  apply (@event_roundtrip still E_MMGR_NOTIFY_AP_RESET
    (P_ap_reset {| ap_name := bytes "ril"; ap_extra := causes_wire [bytes "hang"] |})
    (D_ap_reset (bytes "ril") [bytes "hang"]) demo_clients [] []); [done|done|].
  cbn. split; [done|]. split; [done|]. by right.
Defined.

Lemma recovery_request_wire_witness :
  @set_msg_recovery still unit 4 8 (Some [{| rc_len := 4; rc_cause := Some (bytes "hang") |}]) tt [] =
  @prepared still unit 4 (causes_wire [bytes "hang"]) tt [].
Proof.
  apply (@recovery_request_wire still unit 4 8
    (Some [{| rc_len := 4; rc_cause := Some (bytes "hang") |}]) tt []); [done|].
  repeat constructor.
Defined.
