(* ===== verification/CliLib.v ===== *)
(** The client library: its connection to the daemon and its reader thread
    (libclients/c/utils.c) and the interface it offers (libclients/c/interface.c).

    The state is the context behind a handle.  The reader thread shares it with
    the caller; its turns are run at the points where the caller blocks (waiting
    for the reader, sleeping, joining) and where the thread is created, as many
    as the platform says.  The mutexes make each access to the shared fields
    atomic and are not modelled.  The callbacks of the client are calls of the
    platform; they do not call the library back, which refuses requests from its
    reader thread. *)
From S2P Require Import Prelude Platform Io Msg Clients ClientMsg.

(** * Data *)

(** inc/mmgr_cli.h *)
Inductive e_err_mmgr_cli :=
| E_ERR_CLI_SUCCEED | E_ERR_CLI_FAILED | E_ERR_CLI_ALREADY_LOCK | E_ERR_CLI_ALREADY_UNLOCK
| E_ERR_CLI_BAD_HANDLE | E_ERR_CLI_TIMEOUT | E_ERR_CLI_REJECTED | E_ERR_CLI_BAD_CNX_STATE.
#[export] Instance e_err_mmgr_cli_eq : EqDecision e_err_mmgr_cli.
Proof. solve_decision. Defined.

(** libclients/c/common.h *)
Inductive cnx_state := E_CNX_DISCONNECTED | E_CNX_CONNECTED | E_CNX_RECONNECT.
#[export] Instance cnx_state_eq : EqDecision cnx_state.
Proof. solve_decision. Defined.

(** What the [void *data] of a request points to. *)
Inductive request_data :=
| Q_null
| Q_name (nm : list Z)
| Q_filter (filter : Z)
| Q_restart (optional : Z)
| Q_causes (causes : list recovery_cause).

Record mmgr_cli_requests := { rq_id : Z; rq_len : Z; rq_data : request_data }.

(** The integer value of a request. *)
Definition request_id (r : e_mmgr_requests) : Z :=
  Z.of_nat (default 0%nat (find_index (fun x => bool_decide (x = r)) MMGR_REQUESTS)).

(** A request without data. *)
Definition request_for (r : e_mmgr_requests) : mmgr_cli_requests :=
  {| rq_id := request_id r; rq_len := 0; rq_data := Q_null |}.

(** [l_thr_id] says whether [thr_id] is not -1.  [l_reader] is the reader thread
    while it runs: its local [fd_max]. *)
Record mmgr_lib_context := {
  l_events : Z; l_thr_id : bool; l_cli_ctx : Z; l_connected : cnx_state;
  l_fd_socket : Z; l_fd_read : Z; l_fd_write : Z;
  l_func : list (option Z); l_cli_name : list Z; l_lock : bool;
  l_ack : Z; l_tid : Z; l_cnx_name : list Z; l_reader : option Z }.

(** A handle of the client: NULL, a context, or a pointer to a freed one. *)
Inductive mmgr_cli_handle := H_null | H_ctx (l : mmgr_lib_context) | H_freed.

Definition set_sub (ev : Z) (fn : list (option Z)) (l : mmgr_lib_context) : mmgr_lib_context :=
  {| l_events := ev; l_thr_id := l_thr_id l; l_cli_ctx := l_cli_ctx l;
     l_connected := l_connected l; l_fd_socket := l_fd_socket l; l_fd_read := l_fd_read l;
     l_fd_write := l_fd_write l; l_func := fn; l_cli_name := l_cli_name l;
     l_lock := l_lock l; l_ack := l_ack l; l_tid := l_tid l; l_cnx_name := l_cnx_name l;
     l_reader := l_reader l |}.

Definition set_thread (t : bool) (r : option Z) (l : mmgr_lib_context) : mmgr_lib_context :=
  {| l_events := l_events l; l_thr_id := t; l_cli_ctx := l_cli_ctx l;
     l_connected := l_connected l; l_fd_socket := l_fd_socket l; l_fd_read := l_fd_read l;
     l_fd_write := l_fd_write l; l_func := l_func l; l_cli_name := l_cli_name l;
     l_lock := l_lock l; l_ack := l_ack l; l_tid := l_tid l; l_cnx_name := l_cnx_name l;
     l_reader := r |}.

Definition set_connected_state (c : cnx_state) (l : mmgr_lib_context) : mmgr_lib_context :=
  {| l_events := l_events l; l_thr_id := l_thr_id l; l_cli_ctx := l_cli_ctx l;
     l_connected := c; l_fd_socket := l_fd_socket l; l_fd_read := l_fd_read l;
     l_fd_write := l_fd_write l; l_func := l_func l; l_cli_name := l_cli_name l;
     l_lock := l_lock l; l_ack := l_ack l; l_tid := l_tid l; l_cnx_name := l_cnx_name l;
     l_reader := l_reader l |}.

Definition set_fds (s r w : Z) (l : mmgr_lib_context) : mmgr_lib_context :=
  {| l_events := l_events l; l_thr_id := l_thr_id l; l_cli_ctx := l_cli_ctx l;
     l_connected := l_connected l; l_fd_socket := s; l_fd_read := r;
     l_fd_write := w; l_func := l_func l; l_cli_name := l_cli_name l;
     l_lock := l_lock l; l_ack := l_ack l; l_tid := l_tid l; l_cnx_name := l_cnx_name l;
     l_reader := l_reader l |}.

Definition set_sync (k : bool) (a t : Z) (l : mmgr_lib_context) : mmgr_lib_context :=
  {| l_events := l_events l; l_thr_id := l_thr_id l; l_cli_ctx := l_cli_ctx l;
     l_connected := l_connected l; l_fd_socket := l_fd_socket l; l_fd_read := l_fd_read l;
     l_fd_write := l_fd_write l; l_func := l_func l; l_cli_name := l_cli_name l;
     l_lock := k; l_ack := a; l_tid := t; l_cnx_name := l_cnx_name l;
     l_reader := l_reader l |}.

Definition set_cnx_name (n : list Z) (l : mmgr_lib_context) : mmgr_lib_context :=
  {| l_events := l_events l; l_thr_id := l_thr_id l; l_cli_ctx := l_cli_ctx l;
     l_connected := l_connected l; l_fd_socket := l_fd_socket l; l_fd_read := l_fd_read l;
     l_fd_write := l_fd_write l; l_func := l_func l; l_cli_name := l_cli_name l;
     l_lock := l_lock l; l_ack := l_ack l; l_tid := l_tid l; l_cnx_name := n;
     l_reader := l_reader l |}.

Definition DEF_MMGR_RESPONSIVE_TIMEOUT : Z := 20.
Definition PIPE_BUF : Z := 4096.
Definition FD_SETSIZE : Z := 1024.
Definition DEFAULT_TID : Z := 1.

(** The events in the order of the enumeration. *)
Definition MMGR_EVENTS : list e_mmgr_events :=
  [ E_MMGR_EVENT_MODEM_DOWN; E_MMGR_EVENT_MODEM_UP; E_MMGR_EVENT_MODEM_NFLUSH;
    E_MMGR_EVENT_MODEM_OUT_OF_SERVICE; E_MMGR_NOTIFY_MODEM_COLD_RESET;
    E_MMGR_NOTIFY_MODEM_SHUTDOWN; E_MMGR_NOTIFY_PLATFORM_REBOOT; E_MMGR_NOTIFY_CORE_DUMP;
    E_MMGR_ACK; E_MMGR_NACK; E_MMGR_NOTIFY_CORE_DUMP_COMPLETE; E_MMGR_NOTIFY_AP_RESET;
    E_MMGR_NOTIFY_SELF_RESET; E_MMGR_NOTIFY_TFT_EVENT; E_MMGR_RESPONSE_MODEM_HW_ID;
    E_MMGR_RESPONSE_MODEM_FW_RESULT; E_MMGR_RESPONSE_MODEM_NVM_RESULT;
    E_MMGR_RESPONSE_FUSE_INFO; E_MMGR_RESPONSE_MODEM_BACKUP_PRODUCTION ].

(** The event an identifier below [E_MMGR_NUM_EVENTS] stands for. *)
Definition event_of_id (id : Z) : option e_mmgr_events :=
  if (0 <=? id) && (id <? event_id E_MMGR_NUM_EVENTS)
  then MMGR_EVENTS !! Z.to_nat id else None.

(** [id == E_MMGR_ACK || id == E_MMGR_NACK]. *)
Definition is_answer (ev : e_mmgr_events) : bool :=
  match ev with E_MMGR_ACK | E_MMGR_NACK => true | _ => false end.

(** The two requests the daemon does not answer. *)
Definition unanswered (r : e_mmgr_requests) : bool :=
  match r with E_MMGR_ACK_MODEM_COLD_RESET | E_MMGR_ACK_MODEM_SHUTDOWN => true | _ => false end.

Section library.
Context `{Platform}.

Abbreviation lib := mmgr_lib_context.

(** * Synchronisation *)

Definition get_ack : IO lib Z := gets l_ack.

Definition set_ack (a : Z) : IO lib unit := modify (fun l => set_sync (l_lock l) a (l_tid l) l).

(** The signal wakes the thread that waits in [send_msg]. *)
Definition ev_ack (id : Z) : IO lib e_err_mmgr_cli := set_ack id ;; mret E_ERR_CLI_SUCCEED.

Definition is_connected : IO lib bool :=
  gets (fun l => bool_decide (l_connected l = E_CNX_CONNECTED)).

Definition is_lock : IO lib bool := gets l_lock.

Definition set_lock (b : bool) : IO lib unit :=
  modify (fun l => set_sync b (l_ack l) (l_tid l) l).

Definition is_request_rejected : IO lib e_err_mmgr_cli :=
  me ← call X_gettid;
  t ← gets l_tid;
  mret (if t =? me then E_ERR_CLI_REJECTED else E_ERR_CLI_SUCCEED).

(** * Messages *)

(** A header that could not be read leaves the message zeroed, which passes for
    event 0 without data. *)
Definition read_msg : IO lib (e_err_mmgr_cli * msg) :=
  fd ← gets l_fd_socket;
  '(err, hd) ← msg_get_header fd;
  if bool_decide (err = E_ERR_DISCONNECTED) then
    modify (set_connected_state E_CNX_RECONNECT) ;; mret (E_ERR_CLI_BAD_CNX_STATE, null_msg)
  else
    let hd := default (hdr null_msg) hd in
    if len hd =? 0 then mret (E_ERR_CLI_SUCCEED, {| hdr := hd; data := None |})
    else
      ok ← call (X_calloc (len hd));
      if (ok : bool) then
        '(err, d) ← cnx_read fd (len hd);
        mret (if succeeded err && (strlen d =? len hd) then E_ERR_CLI_SUCCEED
              else E_ERR_CLI_FAILED, {| hdr := hd; data := Some d |})
      else mret (E_ERR_CLI_FAILED, {| hdr := hd; data := None |}).

(** The table [set_msg] that [mmgr_cli_create_handle] fills.  Data of another
    type than the request's, or an array shorter than its length, is read out of
    bounds. *)
Definition set_msg (r : e_mmgr_requests) (rq : mmgr_cli_requests) : IO lib (e_mmgr_errors * msg) :=
  match r, rq_data rq with
  | E_MMGR_SET_NAME, Q_name nm => set_msg_name (rq_id rq) (rq_len rq) nm
  | E_MMGR_SET_NAME, _ => set_msg_name (rq_id rq) (rq_len rq) []
  | E_MMGR_SET_EVENTS, Q_filter f => set_msg_filter (rq_id rq) f
  | E_MMGR_SET_EVENTS, _ => undefined
  | E_MMGR_REQUEST_MODEM_RESTART, Q_restart o => set_msg_restart (rq_id rq) (Some o)
  | E_MMGR_REQUEST_MODEM_RESTART, Q_null => set_msg_restart (rq_id rq) None
  | E_MMGR_REQUEST_MODEM_RESTART, _ => undefined
  | E_MMGR_REQUEST_MODEM_RECOVERY, Q_causes cs =>
      if (rq_len rq <=? MMGR_CLI_MAX_RECOVERY_CAUSES * 8) && (Z.of_nat (length cs) <? rq_len rq / 8)
      then undefined else set_msg_recovery (rq_id rq) (rq_len rq) (Some cs)
  | E_MMGR_REQUEST_MODEM_RECOVERY, Q_null => set_msg_recovery (rq_id rq) (rq_len rq) None
  | E_MMGR_REQUEST_MODEM_RECOVERY, _ => undefined
  | _, _ => msg_prepare (rq_id rq) 0 (mret tt)
  end.

(** * Sending a request

    [wait] is the wait for the answer and [pause] the sleep before the request is
    sent again; they depend on the method.  The loop ends when the clock does
    not go back: it takes [loop_fuel] turns at most here. *)
Section send.
Variables (wait : Z -> IO lib e_mmgr_errors) (pause : Z -> IO lib unit).

Fixpoint send_loop (fuel : nat) (r : e_mmgr_requests) (m : msg) (start timeout sleep_duration : Z)
  : IO lib (e_err_mmgr_cli * e_mmgr_errors) :=
  match fuel with
  | O => undefined
  | S n =>
      fd ← gets l_fd_socket;
      err ← cnx_write fd (data m) (uint32 (SIZE_HEADER + len (hdr m)));
      if negb (succeeded err) then mret (E_ERR_CLI_FAILED, err)
      else if unanswered r then mret (E_ERR_CLI_SUCCEED, err)
      else
        err ← wait timeout;
        if bool_decide (err = E_ERR_TTY_TIMEOUT) then mret (E_ERR_CLI_FAILED, err)
        else
          ack ← get_ack;
          if ack =? event_id E_MMGR_ACK then mret (E_ERR_CLI_SUCCEED, err)
          else
            ts ← call (X_clock_gettime CLOCK_REALTIME);
            let timeout := int32 (DEF_MMGR_RESPONSIVE_TIMEOUT - (ts_sec ts - start)) in
            if (0 <? timeout) && (sleep_duration + 1 <=? timeout) then
              pause (sleep_duration + 1) ;;
              send_loop n r m start timeout (sleep_duration + 1)
            else mret (E_ERR_CLI_FAILED, err)
  end.

Definition send_msg_with (request : option mmgr_cli_requests) (timeout : Z)
  : IO lib e_err_mmgr_cli :=
  match request with
  | None => mret E_ERR_CLI_FAILED
  | Some rq =>
      match request_of_id (rq_id rq) with
      | None => mret E_ERR_CLI_FAILED
      | Some r =>
          if timeout <=? 0 then mret E_ERR_CLI_FAILED
          else
            set_ack (event_id E_MMGR_NUM_EVENTS) ;;
            '(_, m) ← set_msg r rq;
            start ← call (X_clock_gettime CLOCK_REALTIME);
            '(ret, err) ← send_loop loop_fuel r m (ts_sec start) timeout 1;
            mret (if bool_decide (err = E_ERR_TTY_TIMEOUT) then E_ERR_CLI_TIMEOUT else ret)
      end
  end.
End send.

(** E_SEND_SINGLE: the caller reads the answer itself. *)
Definition single_wait (timeout : Z) : IO lib e_mmgr_errors :=
  fd ← gets l_fd_socket;
  err ← tty_wait_for_event fd (int32 (timeout * 1000));
  if bool_decide (err = E_ERR_TTY_TIMEOUT) then mret err
  else
    '(ret, answer) ← read_msg;
    when (bool_decide (ret = E_ERR_CLI_SUCCEED)) (set_ack (id (hdr answer))) ;;
    mret err.

Definition single_pause (sec : Z) : IO lib unit := call (X_sleep sec).

Definition send_single : option mmgr_cli_requests -> Z -> IO lib e_err_mmgr_cli :=
  send_msg_with single_wait single_pause.

(** * The reader thread *)

(** The acknowledgement of a notification. *)
Definition ack_of (ev : e_mmgr_events) : option mmgr_cli_requests :=
  match ev with
  | E_MMGR_NOTIFY_MODEM_COLD_RESET => Some (request_for E_MMGR_ACK_MODEM_COLD_RESET)
  | E_MMGR_NOTIFY_MODEM_SHUTDOWN => Some (request_for E_MMGR_ACK_MODEM_SHUTDOWN)
  | _ => None
  end.

Definition call_cli_callback (m : msg) : IO lib e_err_mmgr_cli :=
  match event_of_id (id (hdr m)) with
  | None => mret E_ERR_CLI_FAILED
  | Some ev =>
      '(ret, err) ←
        (if is_answer ev then ret ← ev_ack (id (hdr m)); mret (ret, 1)
         else
           fn ← gets l_func;
           match fn !! Z.to_nat (id (hdr m)) with
           | Some (Some func) =>
               '(_, d) ← cli_set_data ev m;
               me ← call X_gettid;
               modify (fun l => set_sync (l_lock l) (l_ack l) me l) ;;
               _ ← call (X_clock_gettime CLOCK_BOOTTIME);
               ctx ← gets l_cli_ctx;
               err ← call (X_cli_callback func ctx (id (hdr m)) d);
               _ ← call (X_clock_gettime CLOCK_BOOTTIME);
               mret (E_ERR_CLI_SUCCEED, err)
           | _ => mret (E_ERR_CLI_FAILED, 1)
           end);
      match ack_of ev with
      | Some request =>
          when (err =? 0)
            (_ ← send_single (Some request) DEF_MMGR_RESPONSIVE_TIMEOUT; mret tt)
      | None => mret tt
      end ;;
      mret ret
  end.

Definition handle_cnx_event : IO lib e_err_mmgr_cli :=
  '(ret, m) ← read_msg;
  if bool_decide (ret = E_ERR_CLI_SUCCEED) then call_cli_callback m else mret ret.

(** [in_pipe] and [in_socket]: what [FD_ISSET] says of the two descriptors. *)
Definition handle_events (in_pipe in_socket : bool) : IO lib e_err_mmgr_cli :=
  if in_pipe then
    fd ← gets l_fd_read; _ ← call (X_read fd PIPE_BUF); mret E_ERR_CLI_BAD_CNX_STATE
  else if in_socket then handle_cnx_event else mret E_ERR_CLI_FAILED.

(** The two requests of the registration, in turn while they succeed. *)
Fixpoint register_loop (requests : list mmgr_cli_requests) (start timeout : Z)
    (ret : e_err_mmgr_cli) : IO lib e_err_mmgr_cli :=
  match requests with
  | [] => mret ret
  | rq :: rest =>
      ret ← send_single (Some rq) timeout;
      if negb (bool_decide (ret = E_ERR_CLI_SUCCEED)) then mret ret
      else
        ts ← call (X_clock_gettime CLOCK_REALTIME);
        register_loop rest start (int32 (DEF_MMGR_RESPONSIVE_TIMEOUT - (ts_sec ts - start))) ret
  end.

Definition register_client : IO lib e_err_mmgr_cli :=
  nm ← gets l_cli_name;
  ev ← gets l_events;
  start ← call (X_clock_gettime CLOCK_REALTIME);
  register_loop [ {| rq_id := request_id E_MMGR_SET_NAME; rq_len := strlen nm; rq_data := Q_name nm |};
                  {| rq_id := request_id E_MMGR_SET_EVENTS; rq_len := 4; rq_data := Q_filter ev |} ]
    (ts_sec start) DEF_MMGR_RESPONSIVE_TIMEOUT E_ERR_CLI_FAILED.

Definition cli_connect : IO lib e_err_mmgr_cli :=
  nm ← gets l_cnx_name;
  fd ← call (X_socket_local_client nm);
  if fd <? 0 then mret E_ERR_CLI_FAILED
  else modify (fun l => set_fds fd (l_fd_read l) (l_fd_write l) l) ;; register_client.

(** [if (p_lib->fd_socket != CLOSED_FD) cnx_close(&p_lib->fd_socket)]. *)
Definition close_socket : IO lib unit :=
  fd ← gets l_fd_socket;
  when (negb (fd =? CLOSED_FD))
    ('(_, fd') ← cnx_close fd; modify (fun l => set_fds fd' (l_fd_read l) (l_fd_write l) l)).

Definition close_pipe : IO lib unit :=
  r ← gets l_fd_read;
  when (negb (r =? CLOSED_FD))
    (_ ← call (X_close r); modify (fun l => set_fds (l_fd_socket l) CLOSED_FD (l_fd_write l) l)) ;;
  w ← gets l_fd_write;
  when (negb (w =? CLOSED_FD))
    (_ ← call (X_close w); modify (fun l => set_fds (l_fd_socket l) (l_fd_read l) CLOSED_FD l)).

(** The two loops of [handle_disconnection] only end with the daemon's help. *)
Fixpoint reconnect (fuel : nat) : IO lib unit :=
  match fuel with
  | O => undefined
  | S n =>
      call (X_sleep 1) ;;
      close_socket ;;
      ret ← cli_connect;
      if bool_decide (ret = E_ERR_CLI_SUCCEED) then mret tt else reconnect n
  end.

Fixpoint restore_lock (fuel : nat) : IO lib e_err_mmgr_cli :=
  match fuel with
  | O => undefined
  | S n =>
      ret ← send_single (Some (request_for E_MMGR_RESOURCE_ACQUIRE)) DEF_MMGR_RESPONSIVE_TIMEOUT;
      if bool_decide (ret = E_ERR_CLI_SUCCEED) then mret ret else restore_lock n
  end.

(** A made-up event without data. *)
Definition fake_msg (ev : e_mmgr_events) : msg :=
  {| hdr := {| id := event_id ev; ts := 0; len := 0 |}; data := None |}.

Definition handle_disconnection : IO lib e_err_mmgr_cli :=
  state ← gets l_connected;
  modify (set_connected_state E_CNX_DISCONNECTED) ;;
  if bool_decide (state = E_CNX_RECONNECT) then
    _ ← call_cli_callback (fake_msg E_MMGR_EVENT_MODEM_DOWN);
    _ ← call_cli_callback (fake_msg E_MMGR_NOTIFY_MODEM_COLD_RESET);
    reconnect loop_fuel ;;
    locked ← gets l_lock;
    ret ← (if (locked : bool) then restore_lock loop_fuel else mret E_ERR_CLI_SUCCEED);
    modify (set_connected_state E_CNX_CONNECTED) ;;
    mret ret
  else close_socket ;; close_pipe ;; mret E_ERR_CLI_FAILED.

(** A turn of the loop of [read_events], while the thread runs. *)
Definition reader_turn : IO lib unit :=
  reader ← gets l_reader;
  match reader with
  | None => mret tt
  | Some fd_max =>
      r ← gets l_fd_read;
      fd ← gets l_fd_socket;
      if negb ((0 <=? r) && (r <? FD_SETSIZE) && (0 <=? fd) && (fd <? FD_SETSIZE)) then undefined
      else
        ready ← call (X_select fd_max r fd);
        ret ← match ready with
              | None => mret E_ERR_CLI_FAILED
              | Some (in_pipe, in_socket) =>
                  ret ← handle_events in_pipe in_socket;
                  if bool_decide (ret = E_ERR_CLI_BAD_CNX_STATE) then handle_disconnection
                  else mret ret
              end;
        when (bool_decide (ret = E_ERR_CLI_FAILED)) (modify (fun l => set_thread (l_thr_id l) None l))
  end.

(** The start of [read_events]. *)
Definition reader_start : IO lib unit :=
  modify (fun l => set_thread true
    (Some (if l_fd_read l <? l_fd_socket l then l_fd_socket l else l_fd_read l)) l).

Fixpoint run_reader (turns : nat) : IO lib unit :=
  match turns with
  | O => mret tt
  | S n => reader_turn ;; run_reader n
  end.

(** [pthread_join]: the thread runs to its end. *)
Fixpoint join_reader (fuel : nat) : IO lib unit :=
  reader ← gets l_reader;
  match reader, fuel with
  | None, _ => mret tt
  | Some _, O => undefined
  | Some _, S n => reader_turn ;; join_reader n
  end.

(** E_SEND_THREADED: the reader thread reads the answer. *)
Definition threaded_wait (timeout : Z) : IO lib e_mmgr_errors :=
  ts ← call (X_clock_gettime CLOCK_REALTIME);
  '(turns, timedout) ← call (X_cond_timedwait (ts_sec ts + timeout));
  run_reader turns ;;
  mret (if (timedout : bool) then E_ERR_TTY_TIMEOUT else E_ERR_SUCCESS).

Definition threaded_pause (sec : Z) : IO lib unit :=
  call (X_sleep sec) ;; turns ← call X_schedule; run_reader turns.

Definition send_threaded : option mmgr_cli_requests -> Z -> IO lib e_err_mmgr_cli :=
  send_msg_with threaded_wait threaded_pause.

Inductive e_send_method := E_SEND_SINGLE | E_SEND_THREADED.

Definition send_msg (request : option mmgr_cli_requests) (method : e_send_method) (timeout : Z)
  : IO lib e_err_mmgr_cli :=
  match method with
  | E_SEND_SINGLE => send_single request timeout
  | E_SEND_THREADED => send_threaded request timeout
  end.

Definition cli_disconnect : IO lib e_err_mmgr_cli :=
  c ← is_connected;
  when (c : bool) (fd ← gets l_fd_write; _ ← call (X_write fd [0]); mret tt) ;;
  t ← gets l_thr_id;
  when (t : bool) (join_reader loop_fuel ;; modify (fun l => set_thread false (l_reader l) l)) ;;
  c ← is_connected;
  mret (if (c : bool) then E_ERR_CLI_FAILED else E_ERR_CLI_SUCCEED).

(** * The interface *)

(** Runs an operation on the context of a handle. *)
Definition on_handle {A} (null : A) (m : IO lib A) : IO mmgr_cli_handle A := fun s h =>
  match s with
  | H_null => Done null s h
  | H_freed => Undef h
  | H_ctx l =>
      match m l h with
      | Done a l' h' => Done a (H_ctx l') h'
      | Abort h' => Abort h'
      | Exit h' => Exit h'
      | Undef h' => Undef h'
      end
  end.

Abbreviation checked := (on_handle E_ERR_CLI_BAD_HANDLE).

Definition mmgr_cli_send_msg (request : option mmgr_cli_requests)
  : IO mmgr_cli_handle e_err_mmgr_cli :=
  checked
    (c ← is_connected;
     if negb c then mret E_ERR_CLI_BAD_CNX_STATE
     else
       ret ← is_request_rejected;
       if bool_decide (ret = E_ERR_CLI_REJECTED) then mret ret
       else send_threaded request DEF_MMGR_RESPONSIVE_TIMEOUT).

(** The context [mmgr_cli_create_handle] fills. *)
Definition new_context (client_name : list Z) (context : Z) : mmgr_lib_context := {|
  l_events := bit (event_id E_MMGR_ACK) .| bit (event_id E_MMGR_NACK);
  l_thr_id := false; l_cli_ctx := context; l_connected := E_CNX_DISCONNECTED;
  l_fd_socket := CLOSED_FD; l_fd_read := CLOSED_FD; l_fd_write := CLOSED_FD;
  l_func := replicate (Z.to_nat (event_id E_MMGR_NUM_EVENTS)) None;
  l_cli_name := in_buffer CLIENT_NAME_LEN (cstr client_name); l_lock := false;
  l_ack := E_MMGR_NUM_REQUESTS; l_tid := DEFAULT_TID; l_cnx_name := (cnx_get_name [] 1).2;
  l_reader := None |}.

(** [client_name] is [None] for NULL; [handle] itself is not NULL. *)
Definition mmgr_cli_create_handle (client_name : option (list Z)) (context : Z)
  : IO mmgr_cli_handle e_err_mmgr_cli :=
  s ← get;
  match s, client_name with
  | H_null, Some nm =>
      ok ← call (X_calloc 480);
      if (ok : bool) then modify (fun _ => H_ctx (new_context nm context)) ;; mret E_ERR_CLI_SUCCEED
      else mret E_ERR_CLI_FAILED
  | H_null, None => mret E_ERR_CLI_FAILED
  | _, _ => mret E_ERR_CLI_BAD_HANDLE
  end.

Definition mmgr_cli_delete_handle : IO mmgr_cli_handle e_err_mmgr_cli :=
  ret ← checked (c ← is_connected;
                 mret (if (c : bool) then E_ERR_CLI_BAD_CNX_STATE else E_ERR_CLI_SUCCEED));
  when (bool_decide (ret = E_ERR_CLI_SUCCEED)) (modify (fun _ => H_freed)) ;;
  mret ret.

(** [func] is [None] for NULL. *)
Definition mmgr_cli_subscribe_event (func : option Z) (ev : Z)
  : IO mmgr_cli_handle e_err_mmgr_cli :=
  checked
    (c ← is_connected;
     if (c : bool) then mret E_ERR_CLI_BAD_CNX_STATE
     else
       match event_of_id ev, func with
       | Some e, Some f =>
           if is_answer e then mret E_ERR_CLI_FAILED
           else
             l ← get;
             match l_func l !! Z.to_nat ev with
             | Some None =>
                 modify (set_sub (l_events l .| bit ev) (<[Z.to_nat ev := Some f]> (l_func l))) ;;
                 mret E_ERR_CLI_SUCCEED
             | _ => mret E_ERR_CLI_FAILED
             end
       | _, _ => mret E_ERR_CLI_FAILED
       end).

Definition mmgr_cli_unsubscribe_event (ev : Z) : IO mmgr_cli_handle e_err_mmgr_cli :=
  checked
    (c ← is_connected;
     if (c : bool) then mret E_ERR_CLI_BAD_CNX_STATE
     else
       match event_of_id ev with
       | Some e =>
           if is_answer e then mret E_ERR_CLI_FAILED
           else
             modify (fun l => set_sub (l_events l .~ bit ev) (<[Z.to_nat ev := None]> (l_func l)) l) ;;
             mret E_ERR_CLI_SUCCEED
       | None => mret E_ERR_CLI_FAILED
       end).

Definition mmgr_cli_connect : IO mmgr_cli_handle e_err_mmgr_cli :=
  checked
    (c ← is_connected;
     if (c : bool) then mret E_ERR_CLI_SUCCEED
     else
       p ← call X_pipe;
       ret ← match p with
             | None => mret E_ERR_CLI_FAILED
             | Some (r, w) => modify (fun l => set_fds (l_fd_socket l) r w l) ;; cli_connect
             end;
       ret ← (if negb (bool_decide (ret = E_ERR_CLI_SUCCEED)) then mret ret
              else
                err ← call X_reader_create;
                if negb (err =? 0) then mret E_ERR_CLI_FAILED
                else
                  reader_start ;;
                  turns ← call X_schedule;
                  run_reader turns ;;
                  modify (set_connected_state E_CNX_CONNECTED) ;;
                  mret ret);
       when (negb (bool_decide (ret = E_ERR_CLI_SUCCEED)))
         (_ ← handle_disconnection; mret tt) ;;
       mret ret).

Definition mmgr_cli_disconnect : IO mmgr_cli_handle e_err_mmgr_cli :=
  checked
    (c ← is_connected;
     if (c : bool) then cli_disconnect else mret E_ERR_CLI_BAD_CNX_STATE).

(** [mmgr_cli_lock] and [mmgr_cli_unlock] differ in the request, the state they
    want and the error of the other one. *)
Definition lock_op (to : bool) (request : e_mmgr_requests) (already : e_err_mmgr_cli)
  : IO mmgr_cli_handle e_err_mmgr_cli :=
  checked
    (c ← is_connected;
     if negb c then mret E_ERR_CLI_BAD_CNX_STATE
     else
       ret ← is_request_rejected;
       if bool_decide (ret = E_ERR_CLI_REJECTED) then mret ret
       else
         locked ← is_lock;
         if Bool.eqb locked to then mret already
         else
           ret ← send_threaded (Some (request_for request)) DEF_MMGR_RESPONSIVE_TIMEOUT;
           if bool_decide (ret = E_ERR_CLI_SUCCEED) then set_lock to ;; mret ret
           else mret E_ERR_CLI_FAILED).

Definition mmgr_cli_lock : IO mmgr_cli_handle e_err_mmgr_cli :=
  lock_op true E_MMGR_RESOURCE_ACQUIRE E_ERR_CLI_ALREADY_LOCK.

Definition mmgr_cli_unlock : IO mmgr_cli_handle e_err_mmgr_cli :=
  lock_op false E_MMGR_RESOURCE_RELEASE E_ERR_CLI_ALREADY_UNLOCK.

Definition mmgr_cli_get_fd : IO mmgr_cli_handle Z := on_handle CLOSED_FD (gets l_fd_socket).

Definition mmgr_cli_set_instance (inst : Z) : IO mmgr_cli_handle e_err_mmgr_cli :=
  checked
    (c ← is_connected;
     if (c : bool) then mret E_ERR_CLI_BAD_CNX_STATE
     else
       modify (fun l => set_cnx_name (cnx_get_name (l_cnx_name l) inst).2 l) ;;
       mret E_ERR_CLI_SUCCEED).

End library.
