(* ===== verification/CliLibSpec.v ===== *)
(** What the client library promises: the subscriptions it keeps and registers,
    the end of the registration whatever the daemon answers, and the delivery of
    the daemon's events to the client's callbacks. *)
From S2P Require Import Prelude Platform Io Msg Clients ClientMsg CliLib.

(** * What the operations leave alone

    [keeps f m]: whatever it calls, [m] does not change [f]. *)
Definition any_call (_ : extcall) : bool := true.

Abbreviation keeps f m := (within (same f) any_call m).

Section frame.
Context `{Platform} {T : Type} (f : mmgr_lib_context -> T).

Lemma within_with_reader {S A} (R : S -> S -> Prop) `{!PreOrder R} P (m : msg) (r : IO (list Z) A) :
  within anyS P r -> within R P (with_reader m r).
Proof.
  intros Hr s h. unfold with_reader. destruct (data m) as [b|]; [|apply extends_refl].
  specialize (Hr b h). destruct (r b h); try done. by destruct Hr.
Qed.

Lemma within_with_buffer {S} (R : S -> S -> Prop) `{!PreOrder R} P n (w : IO wbuf unit) :
  within anyS P w -> within R P (with_buffer n w).
Proof.
  intros Hr s h. unfold with_buffer. specialize (Hr {| buf := replicate (Z.to_nat n) 0; off := 0 |} h).
  destruct (w _ h); try done. by destruct Hr.
Qed.

Lemma within_put {P} bs : within anyS P (put bs : IO wbuf unit).
Proof. intros s h. unfold put. destruct (_ <=? _)%nat; [split; [done|]|]; apply extends_refl. Qed.

Lemma within_u32 {P} : within anyS P (deserialize_uint32 : IO (list Z) Z).
Proof.
  intros s h. do 4 (destruct s as [|? s]; [apply extends_refl|]). split; [done|apply extends_refl].
Qed.

Lemma within_bytes {P} n : within anyS P (read_bytes n : IO (list Z) (list Z)).
Proof. intros s h. unfold read_bytes. destruct (_ && _); [split; [done|]|]; apply extends_refl. Qed.

End frame.

#[export] Hint Resolve within_put within_u32 within_bytes : within.

(** The calls of decoders and builders. *)
Definition msg_call (c : extcall) : bool :=
  match c with X_calloc _ | X_gettimeofday => true | _ => false end.

Section messages.
Context `{Platform} {S : Type} (R : S -> S -> Prop) `{HR : !PreOrder R}.

Lemma w_causes n : within anyS msg_call (read_causes n).
Proof. induction n as [|n IH]; cbn [read_causes]; within_auto. Qed.

Lemma w_tft_data n : within anyS msg_call (read_tft_data n).
Proof. induction n as [|n IH]; cbn [read_tft_data]; within_auto. Qed.

Hint Resolve w_causes w_tft_data : within.

Ltac message :=
  repeat first
    [ solve [auto with within typeclass_instances]
    | apply within_with_reader; [typeclasses eauto|]
    | apply within_with_buffer; [typeclasses eauto|]
    | within_step
    | lazymatch goal with |- within _ _ ?m => progress within_unfold m end ].

Lemma w_set_data ev m : within R msg_call (cli_set_data ev m).
Proof. destruct ev; message. Qed.

Lemma w_prepare mid size body : within anyS msg_call body ->
  within R msg_call (msg_prepare mid size body).
Proof. intros Hb. message. Qed.

End messages.

(** The operations below the interface only change the connection, the thread
    and the synchronisation fields, and not the lock. *)
Class Private (R : mmgr_lib_context -> mmgr_lib_context -> Prop) := {
  private_preorder : PreOrder R;
  private_sync l a t : R l (set_sync (l_lock l) a t l);
  private_connected c l : R l (set_connected_state c l);
  private_fds s r w l : R l (set_fds s r w l);
  private_thread t r l : R l (set_thread t r l)
}.
#[export] Existing Instance private_preorder.

Section private.
Context `{Platform} (R : mmgr_lib_context -> mmgr_lib_context -> Prop) `{HP : !Private R}.

Lemma w_any {A} (m : IO mmgr_lib_context A) : within R msg_call m -> within R any_call m.
Proof. by apply within_weaken. Qed.

Lemma w_set_msg r rq : within R any_call (set_msg r rq).
Proof.
  assert (Hp : forall mid size body, within anyS msg_call body ->
    within R any_call (msg_prepare mid size body)) by (intros; by apply w_any, w_prepare; [apply HP|]).
  unfold set_msg, set_msg_name, set_msg_filter, set_msg_restart, set_msg_recovery, serialize_size_t.
  destruct r, (rq_data rq); repeat first [ apply Hp | case_match | progress unfold serialize_uint32 | solve [auto with within typeclass_instances]
    | apply within_when | apply within_bind; [typeclasses eauto| |intros ?]
    | apply within_for_each; [typeclasses eauto|]; intros [? ?] ].
Qed.

Lemma w_header fd : within R any_call (msg_get_header fd).
Proof.
  unfold msg_get_header. apply within_bind; [apply HP|within_auto|]. intros [ret d].
  destruct (succeeded ret); [|within_auto]. intros s h. unfold parse_header.
  destruct (_ =? 0); [by split; [apply HP|apply extends_refl]|].
  destruct (_ <? _); [by split; [apply HP|apply extends_refl]|].
  match goal with |- context [match ?m d h with _ => _ end] =>
    assert (Hw : within anyS any_call m) by within_auto; specialize (Hw d h); destruct (m d h)
  end; try done. destruct Hw. by split; [apply HP|].
Qed.

Lemma w_set_data_any ev m : within R any_call (cli_set_data ev m).
Proof. apply w_any, w_set_data. apply HP. Qed.

Lemma w_tty_any fd t : within R any_call (tty_wait_for_event fd t).
Proof. eapply within_weaken; [|apply w_wait; apply HP]. done. Qed.

Hint Resolve w_set_msg w_header w_set_data_any w_tty_any : within.

Lemma w_set_ack a : within R any_call (set_ack a).
Proof. apply within_modify. intros l. apply private_sync. Qed.

Hint Resolve w_set_ack : within.

Ltac modified :=
  lazymatch goal with
  | |- within _ _ (modify _) =>
      apply within_modify; intros ?;
      (first [apply private_sync|apply private_connected|apply private_fds|apply private_thread])
  end.

Ltac private_auto :=
  repeat first
    [ solve [auto with within typeclass_instances]
    | modified
    | within_step
    | lazymatch goal with |- within _ _ ?m => progress within_unfold m end ].

Lemma w_read_msg : within R any_call read_msg.
Proof. private_auto. Qed.

Hint Resolve w_read_msg : within.

Lemma w_send wait pause rq timeout :
  (forall t, within R any_call (wait t)) -> (forall n, within R any_call (pause n)) ->
  within R any_call (send_msg_with wait pause rq timeout).
Proof.
  intros Hw Hp. unfold send_msg_with.
  assert (Hl : forall n r m start timeout d,
    within R any_call (send_loop wait pause n r m start timeout d)).
  { induction n as [|n IH]; intros; cbn [send_loop]; private_auto. }
  private_auto.
Qed.

Lemma w_send_single rq timeout : within R any_call (send_single rq timeout).
Proof. apply w_send; intros; unfold single_wait, single_pause; private_auto. Qed.

Hint Resolve w_send_single : within.

Lemma w_callback m : within R any_call (call_cli_callback m).
Proof. private_auto. Qed.

Lemma w_cli_connect : within R any_call cli_connect.
Proof.
  assert (Hl : forall rqs start timeout ret,
    within R any_call (register_loop rqs start timeout ret)).
  { induction rqs as [|rq rqs IH]; intros; cbn [register_loop]; private_auto. }
  unfold cli_connect, register_client. private_auto.
Qed.

Hint Resolve w_callback w_cli_connect : within.

Lemma w_disconnection : within R any_call handle_disconnection.
Proof.
  assert (Hr : forall n, within R any_call (reconnect n)).
  { induction n as [|n IH]; cbn [reconnect]; private_auto. }
  assert (Hl : forall n, within R any_call (restore_lock n)).
  { induction n as [|n IH]; cbn [restore_lock]; private_auto. }
  unfold handle_disconnection. private_auto.
Qed.

Hint Resolve w_disconnection : within.

Lemma w_reader_turn : within R any_call reader_turn.
Proof. private_auto. Qed.

Hint Resolve w_reader_turn : within.

Lemma w_run_reader n : within R any_call (run_reader n).
Proof. induction n as [|n IH]; cbn [run_reader]; private_auto. Qed.

Hint Resolve w_run_reader : within.

Lemma w_send_threaded rq timeout : within R any_call (send_threaded rq timeout).
Proof. apply w_send; intros; unfold threaded_wait, threaded_pause; private_auto. Qed.

Lemma w_cli_disconnect : within R any_call cli_disconnect.
Proof.
  assert (Hj : forall n, within R any_call (join_reader n)).
  { induction n as [|n IH]; cbn [join_reader]; private_auto. }
  unfold cli_disconnect. private_auto.
Qed.

End private.

#[export] Hint Resolve w_send_single w_send_threaded w_callback w_cli_connect w_disconnection
  w_reader_turn w_run_reader w_cli_disconnect : within.

(** * Subscriptions *)

(** The mask registered at the daemon and the table of callbacks. *)
Definition subs (l : mmgr_lib_context) : Z * list (option Z) := (l_events l, l_func l).

#[export] Instance subs_private : Private (same subs).
Proof. split; [apply _|done..]. Qed.

Definition handled (fn : list (option Z)) (i : Z) : bool :=
  match fn !! Z.to_nat i with Some (Some _) => true | _ => false end.

(** The mask has the answers and exactly the events that have a callback. *)
Definition sub_ok (l : mmgr_lib_context) : Prop :=
  length (l_func l) = 19%nat /\
  (forall i, 0 <= i -> Z.testbit (l_events l) i =
     (i =? event_id E_MMGR_ACK) || (i =? event_id E_MMGR_NACK) || handled (l_func l) i) /\
  (forall ev, is_answer ev = true -> handled (l_func l) (event_id ev) = false).

Lemma event_of_id_Some i ev : event_of_id i = Some ev -> i = event_id ev /\ 0 <= i < 19.
Proof.
  unfold event_of_id. cbn [event_id]. destruct (Z.leb_spec 0 i), (Z.ltb_spec i 19); cbn [andb]; try done.
  intros Hi. split; [|done]. rewrite <- (Z2Nat.id i) by done.
  assert (Hl : (Z.to_nat i < 19)%nat) by lia. revert Hi Hl. generalize (Z.to_nat i). clear.
  intros n Hi Hl. do 19 (destruct n as [|n]; [cbn in Hi; by injection Hi as <-|]). lia.
Qed.

Lemma event_of_event_id ev : ev <> E_MMGR_NUM_EVENTS -> event_of_id (event_id ev) = Some ev.
Proof. by destruct ev. Qed.

Lemma handled_insert fn i x k : length fn = 19%nat -> 0 <= i < 19 -> 0 <= k ->
  handled (<[Z.to_nat i := x]> fn) k =
  if k =? i then (match x with Some _ => true | None => false end) else handled fn k.
Proof.
  intros Hl Hi Hk. unfold handled. destruct (Z.eqb_spec k i) as [->|Hne].
  - rewrite list_lookup_insert_eq by lia. by destruct x.
  - by rewrite list_lookup_insert_ne by lia.
Qed.

Lemma is_answer_id ev : is_answer ev = (event_id ev =? 8) || (event_id ev =? 9).
Proof. by destruct ev. Qed.

(** Subscribing and unsubscribing keep the two in step. *)
Lemma sub_ok_insert l i x m : sub_ok l -> 0 <= i < 19 -> i <> 8 -> i <> 9 ->
  (forall k, 0 <= k -> Z.testbit m k =
     if k =? i then (match x with Some _ => true | None => false end) else Z.testbit (l_events l) k) ->
  sub_ok (set_sub m (<[Z.to_nat i := x]> (l_func l)) l).
Proof.
  intros (Hl & Hm & Ha) Hi H8 H9 Hb. unfold sub_ok. cbn [l_func l_events set_sub event_id].
  split; [by rewrite length_insert|]. split.
  - intros k Hk. rewrite Hb, handled_insert by done. destruct (Z.eqb_spec k i) as [->|]; [|by apply Hm].
    replace (i =? 8) with false by lia. by replace (i =? 9) with false by lia.
  - intros ev He. rewrite handled_insert; [|done|done|by destruct ev].
    rewrite is_answer_id in He. destruct (Z.eqb_spec (event_id ev) i); [lia|].
    apply Ha. by rewrite is_answer_id.
Qed.

Lemma new_context_ok nm ctx : sub_ok (new_context nm ctx).
Proof.
  split; [done|]. split.
  - intros i Hi. unfold handled. cbn [new_context l_events l_func event_id].
    rewrite testbit_set, bit_testbit by done.
    replace (match _ with Some (Some _) => true | _ => false end) with false.
    { by rewrite orb_false_r, orb_comm. }
    destruct (replicate _ _ !! _) as [[]|] eqn:E; [|done..].
    by apply lookup_replicate in E as [? _].
  - by intros [] Ha.
Qed.

(** The operations of a client on a connected or unconnected handle, and the
    turns of the reader thread. *)
Inductive cli_op :=
| C_subscribe (func : option Z) (ev : Z) | C_unsubscribe (ev : Z)
| C_connect | C_disconnect | C_lock | C_unlock | C_send (rq : option mmgr_cli_requests)
| C_set_instance (inst : Z) | C_reader.

Section ops.
Context `{Platform}.

Definition run_cli_op (op : cli_op) : IO mmgr_cli_handle e_err_mmgr_cli :=
  match op with
  | C_subscribe func ev => mmgr_cli_subscribe_event func ev
  | C_unsubscribe ev => mmgr_cli_unsubscribe_event ev
  | C_connect => mmgr_cli_connect
  | C_disconnect => mmgr_cli_disconnect
  | C_lock => mmgr_cli_lock
  | C_unlock => mmgr_cli_unlock
  | C_send rq => mmgr_cli_send_msg rq
  | C_set_instance inst => mmgr_cli_set_instance inst
  | C_reader => on_handle E_ERR_CLI_BAD_HANDLE (reader_turn ;; mret E_ERR_CLI_SUCCEED)
  end.

Fixpoint run_cli_ops (ops : list cli_op) : IO mmgr_cli_handle (list e_err_mmgr_cli) :=
  match ops with
  | [] => mret []
  | op :: ops' => r ← run_cli_op op; rs ← run_cli_ops ops'; mret (r :: rs)
  end.

(** The callbacks a client expects after an operation, given its result. *)
Definition subs_after (fn : list (option Z)) (x : cli_op * e_err_mmgr_cli) : list (option Z) :=
  match x with
  | (C_subscribe (Some f) ev, E_ERR_CLI_SUCCEED) => <[Z.to_nat ev := Some f]> fn
  | (C_unsubscribe ev, E_ERR_CLI_SUCCEED) => <[Z.to_nat ev := None]> fn
  | _ => fn
  end.

Lemma on_handle_inv {A} n (m : IO mmgr_lib_context A) l h a s' h' :
  on_handle n m (H_ctx l) h = Done a s' h' -> exists l', s' = H_ctx l' /\ m l h = Done a l' h'.
Proof. cbn. destruct (m l h); naive_solver. Qed.

Lemma within_done {S A} (R : S -> S -> Prop) P (m : IO S A) s h a s' h' :
  within R P m -> m s h = Done a s' h' -> R s s'.
Proof. intros Hm E. specialize (Hm s h). rewrite E in Hm. apply Hm. Qed.

(** The other operations leave the subscriptions alone. *)
Lemma op_keeps_subs op :
  match op with
  | C_subscribe _ _ | C_unsubscribe _ => True
  | _ => exists m, run_cli_op op = on_handle E_ERR_CLI_BAD_HANDLE m /\ keeps subs m
  end.
Proof. destruct op; try done; eexists; (split; [reflexivity|within_auto]). Qed.

Lemma op_sub_ok op l h r s' h' : sub_ok l -> run_cli_op op (H_ctx l) h = Done r s' h' ->
  exists l', s' = H_ctx l' /\ sub_ok l' /\ l_func l' = subs_after (l_func l) (op, r).
Proof.
  intros Hok. pose proof (op_keeps_subs op) as Hk.
  assert (Hkeep : forall n m, run_cli_op op = on_handle n m -> keeps subs m ->
    (forall fn, subs_after fn (op, r) = fn) -> run_cli_op op (H_ctx l) h = Done r s' h' ->
    exists l', s' = H_ctx l' /\ sub_ok l' /\ l_func l' = subs_after (l_func l) (op, r)).
  { intros n m -> Hm Hs (l' & -> & E)%on_handle_inv.
    apply (within_done _ _ _ _ _ _ _ _ Hm) in E. injection E as He Hf. exists l'.
    split; [done|]. rewrite Hs, Hf. split; [|done]. unfold sub_ok. by rewrite He, Hf. }
  destruct op as [func ev|ev| | | | |rq|inst|];
    try (destruct Hk as (m & E & Hm); by eapply Hkeep).
  - cbn [run_cli_op]. unfold mmgr_cli_subscribe_event. intros (l' & -> & E)%on_handle_inv.
    revert E. unfold is_connected.
    run_simp. case_bool_decide; [by intros [= <- <- <-]; exists l; destruct func|].
    destruct (event_of_id ev) as [e|] eqn:Ee, func as [f|]; try (by intros [= <- <- <-]; exists l).
    destruct (is_answer e) eqn:Ea; [by intros [= <- <- <-]; exists l|]. run_simp.
    apply event_of_id_Some in Ee as [-> Hev]. rewrite is_answer_id in Ea.
    destruct (l_func l !! Z.to_nat (event_id e)) as [[g|]|];
      [by intros [= <- <- <-]; exists l| |by intros [= <- <- <-]; exists l].
    intros [= <- <- <-]. eexists. split; [done|]. split; [|done].
    apply sub_ok_insert; [done|lia..|]. intros k Hk'. rewrite testbit_set by lia.
    by destruct (k =? event_id e).
  - cbn [run_cli_op]. unfold mmgr_cli_unsubscribe_event. intros (l' & -> & E)%on_handle_inv.
    revert E. unfold is_connected.
    run_simp. case_bool_decide; [by intros [= <- <- <-]; exists l|].
    destruct (event_of_id ev) as [e|] eqn:Ee; [|by intros [= <- <- <-]; exists l].
    destruct (is_answer e) eqn:Ea; [by intros [= <- <- <-]; exists l|]. run_simp.
    apply event_of_id_Some in Ee as [-> Hev]. rewrite is_answer_id in Ea.
    intros [= <- <- <-]. eexists. split; [done|]. split; [|done].
    apply sub_ok_insert; [done|lia..|]. intros k Hk'. rewrite testbit_clear by lia.
    by destruct (k =? event_id e).
Qed.

(** C38.  The subscriptions of a client: after any sequence of operations on a
    new handle, with the turns of the reader thread in between, the callbacks
    are those of the subscriptions that succeeded and were not taken back, and
    the mask the library registers at the daemon has exactly their events and
    the two answers: it is this mask that the next registration sends. *)
Theorem subscriptions_tracked nm ctx ops h rs s' h' :
  run_cli_ops ops (H_ctx (new_context nm ctx)) h = Done rs s' h' ->
  exists l, s' = H_ctx l /\
    l_func l = foldl subs_after (replicate 19 None) (zip ops rs) /\
    forall i, 0 <= i -> Z.testbit (l_events l) i =
      (i =? event_id E_MMGR_ACK) || (i =? event_id E_MMGR_NACK) || handled (l_func l) i.
Proof.
  change (replicate 19 None) with (l_func (new_context nm ctx)).
  generalize (new_context_ok nm ctx). generalize (new_context nm ctx). intros l Hok.
  revert l h rs Hok. induction ops as [|op ops IH]; intros l h rs Hok; cbn [run_cli_ops].
  { intros [= <- <- <-]. exists l. split; [done|]. split; [done|]. apply Hok. }
  unfold mbind at 1, M_bind at 1. destruct (run_cli_op op (H_ctx l) h) as [r s1 h1| | |] eqn:E; try done.
  destruct (op_sub_ok _ _ _ _ _ _ Hok E) as (l1 & -> & Hok1 & Hf).
  unfold mbind, M_bind. destruct (run_cli_ops ops (H_ctx l1) h1) as [rs1 s2 h2| | |] eqn:E1; try done.
  intros [= <- <- <-]. destruct (IH _ _ _ Hok1 E1) as (l2 & -> & Hl2 & Hm2).
  exists l2. split; [done|]. split; [|done]. cbn [zip zip_with foldl]. by rewrite <- Hf.
Qed.

End ops.

(** * Registration *)

(** The date, in seconds of 32 bits; it does not go back. *)
Definition now `{Platform} (h : history) : Z := ts_sec (reply h (X_clock_gettime CLOCK_REALTIME)).

Definition clock_runs `{Platform} : Prop := forall h c,
  0 <= now h < 2 ^ 31 /\ now h <= now (c :: h).

Section registration.
Context `{Platform}.
Implicit Types (l : mmgr_lib_context) (h : history).

(** The daemon sends some of a body it announced, or closes. *)
Hypothesis Hrecv : forall h fd len, reply h (X_recv fd len) <> R_never.

Lemma header_ends fd l h :
  wp False (msg_get_header fd) (fun _ l' h' => l' = l /\ extends not_send h h') l h.
Proof.
  unfold msg_get_header, cnx_read. apply wp_bind, wp_bind.
  change (wp False (call ?c) ?Q l h) with (Q (reply h c) l (c :: h)). cbv beta.
  assert (He : extends not_send h (X_recv fd SIZE_HEADER :: h)) by by apply extends_one.
  pose proof (Hrecv h fd SIZE_HEADER) as Hn. destruct (reply h (X_recv fd SIZE_HEADER)) as [d| |]; [|done..]. wp_simp.
  change (succeeded E_ERR_SUCCESS) with true. cbv iota. unfold wp, parse_header.
  destruct (_ =? 0); [done|]. destruct (Z.ltb_spec (Z.of_nat (length d)) SIZE_HEADER) as [|Hl]; [done|].
  unfold SIZE_HEADER in Hl. do 12 (destruct d as [|? d]; [cbn in Hl; lia|]). done.
Qed.

Lemma read_msg_ends l h :
  wp False read_msg
    (fun _ l' h' => l_fd_socket l' = l_fd_socket l /\ extends not_send h h') l h.
Proof.
  unfold read_msg. wp_simp. eapply wp_mono; [apply header_ends|]. cbv beta.
  intros [err hd] l' h1 [-> He]. case_bool_decide; [done|].
  destruct (_ =? 0); [done|]. wp_call. set (h2 := X_calloc _ :: h1).
  assert (He2 : extends not_send h h2) by (eapply extends_trans; [done|by apply extends_one]).
  destruct (reply h1 _); [|done]. unfold cnx_read. apply wp_bind, wp_bind.
  change (wp False (call ?c) ?Q l h2) with (Q (reply h2 c) l (c :: h2)). cbv beta.
  pose proof (Hrecv h2 (l_fd_socket l) (len (default (hdr null_msg) hd))) as Hn.
  destruct (reply h2 _); [..|done]; (split; [done|]; eapply extends_trans; [done|by apply extends_one]).
Qed.

(** Waiting for an answer ends, whatever comes. *)
Lemma single_wait_ends timeout l h :
  wp False (single_wait timeout)
    (fun _ l' h' => l_fd_socket l' = l_fd_socket l /\ extends not_send h h') l h.
Proof.
  unfold single_wait. wp_simp. eapply wp_mono; [apply dia_wait|]. cbv beta.
  intros err l' h1 (-> & He & _).
  assert (He1 : extends not_send h h1).
  { destruct He as (k & -> & Hk). exists k. split; [done|]. revert Hk. apply Forall_impl. by intros []. }
  case_bool_decide; [done|]. wp_use read_msg_ends. intros [ret m] l2 h2 [Hf He2]. wp_simp.
  assert (extends not_send h h2) by by eapply extends_trans. by destruct (bool_decide _).
Qed.

Hypothesis Hclock : clock_runs.

Lemma now_extends P h h' : extends P h h' -> now h <= now h'.
Proof.
  intros (k & -> & Hk). induction Hk as [|c k Hc _ IH]; [done|].
  change ((c :: k) ++ h) with (c :: (k ++ h)). destruct (Hclock (k ++ h) c) as [_ Hn]. lia.
Qed.

(** [m] is the message built for the body [b]. *)
Definition framed (m : msg) (mid t : Z) (b : list Z) : Prop :=
  data m = Some (frame mid t b) /\ len (hdr m) = strlen b /\ SIZE_HEADER + strlen b < 2 ^ 32.

Lemma write_framed fd m mid t b l h : framed m mid t b ->
  wp False (cnx_write fd (data m) (uint32 (SIZE_HEADER + len (hdr m))))
    (fun _ l' h' => l' = l /\ h' = X_send fd (frame mid t b) :: h) l h.
Proof.
  intros (-> & -> & Hb). unfold cnx_write, SIZE_HEADER in *. pose proof (strlen_nonneg b).
  rewrite uint32_id by lia. assert (Hl : Z.of_nat (length (frame mid t b)) = 12 + strlen b).
  { unfold frame. rewrite !length_app, !be32_length. unfold strlen. lia. }
  replace ((12 + strlen b <? 0) || (Z.of_nat (length (frame mid t b)) <? 12 + strlen b)) with false by lia.
  wp_call. rewrite take_ge by lia. done.
Qed.

(** Before the (k+1)-th attempt the loop sleeps k+1 seconds, which must be left of
    the twenty of the timeout: there are at most twenty attempts. *)
Lemma send_loop_ends n r m mid t b start timeout k l h : framed m mid t b ->
  0 <= start <= now h -> 1 <= k <= 20 -> 21 - k <= Z.of_nat n ->
  wp False (send_loop single_wait single_pause n r m start timeout k)
    (fun x l' h' => l_fd_socket l' = l_fd_socket l /\ (exists c, (1 <= Z.of_nat c <= 21 - k) /\
       sent h' = sent h ++ replicate c (l_fd_socket l, frame mid t b)) /\
       (x.1 = E_ERR_CLI_SUCCEED -> x.2 <> E_ERR_TTY_TIMEOUT /\
          (unanswered r = true \/ l_ack l' = event_id E_MMGR_ACK))) l h.
Proof.
  intros Hm. revert timeout k l h. induction n as [|n IH]; intros timeout k l h Hs Hk Hn; [lia|].
  cbn [send_loop]. wp_simp. eapply wp_mono; [by apply write_framed|]. cbv beta.
  intros err l' h1 [-> ->]. set (h1 := X_send _ _ :: h).
  assert (Hone : exists c, 1 <= Z.of_nat c <= 21 - k /\
    sent h1 = sent h ++ replicate c (l_fd_socket l, frame mid t b)).
  { exists 1%nat. split; [lia|]. unfold h1. by rewrite sent_cons. }
  destruct (succeeded err) eqn:Ee; [|by split_and!]. apply bool_decide_eq_true in Ee as ->.
  destruct (unanswered r) eqn:Eu; [by split_and!; auto|]. cbn [negb].
  wp_use single_wait_ends. intros err l2 h2 [Hfd He].
  assert (Hs2 : sent h2 = sent h1) by by apply sent_extends.
  assert (Hone2 : exists c, 1 <= Z.of_nat c <= 21 - k /\
    sent h2 = sent h ++ replicate c (l_fd_socket l, frame mid t b)) by by rewrite Hs2.
  case_bool_decide; [by split_and!|]. unfold get_ack. wp_simp.
  destruct (Z.eqb_spec (l_ack l2) (event_id E_MMGR_ACK)); [by split_and!; auto|].
  wp_call. change (ts_sec (reply h2 (X_clock_gettime CLOCK_REALTIME))) with (now h2).
  set (c := X_clock_gettime _). unfold DEF_MMGR_RESPONSIVE_TIMEOUT.
  destruct (Hclock h2 c) as [Hr2 Hc2]. apply now_extends in He.
  assert (now h <= now h1) by (eapply (now_extends any_call); by apply extends_one).
  rewrite int32_id by lia.
  assert (Hs3 : sent (c :: h2) = sent h1) by by rewrite sent_cons_other.
  destruct (_ && _) eqn:Ew; [|split_and!; [done|by rewrite Hs3|done]].
  apply andb_prop in Ew as [_ Ew%Z.leb_le]. assert (k <= 19) by lia.
  unfold single_pause. wp_call. destruct (Hclock (c :: h2) (X_sleep (k + 1))) as [_ ?].
  eapply wp_mono; [apply IH; lia|]. cbv beta. intros x l3 h3 (Hf3 & (n' & Hn' & Hs4) & Hx).
  split_and!; [congruence| |done]. exists (S n'). split; [lia|].
  rewrite Hs4, sent_cons_other, Hs3, Hfd by done. unfold h1. by rewrite sent_cons, <- app_assoc.
Qed.

Lemma send_single_ends r rq timeout mid b l h : (20 <= loop_fuel)%nat -> alloc_ok ->
  request_of_id (rq_id rq) = Some r ->
  (forall l h, set_msg r rq l h = prepared mid b l h) -> SIZE_HEADER + strlen b < 2 ^ 32 ->
  wp False (send_single (Some rq) timeout)
    (fun ret l' h' => l_fd_socket l' = l_fd_socket l /\ (exists c t,
       (c <= 20)%nat /\ (0 < timeout -> (1 <= c)%nat) /\
       (ret = E_ERR_CLI_SUCCEED -> (1 <= c)%nat) /\
       sent h' = sent h ++ replicate c (l_fd_socket l, frame mid t b)) /\
       (ret = E_ERR_CLI_SUCCEED -> unanswered r = true \/ l_ack l' = event_id E_MMGR_ACK)) l h.
Proof.
  intros Hfuel Ha Hr Hset Hb. unfold send_single, send_msg_with. rewrite Hr.
  destruct (Z.leb_spec timeout 0).
  { split_and!; [done| |done]. exists 0%nat, 0. split_and!; [lia|lia|done|by rewrite app_nil_r]. }
  unfold set_ack. wp_simp. set (l1 := set_sync _ _ _ l).
  eapply run_wp; [rewrite Hset; unfold prepared; rewrite Ha; reflexivity|]. cbv beta iota.
  wp_call. set (h1 := X_gettimeofday :: _).
  change (ts_sec (reply h1 (X_clock_gettime CLOCK_REALTIME))) with (now h1). set (c := X_clock_gettime _).
  destruct (Hclock h1 c) as [? Hc].
  apply wp_bind. eapply wp_mono; [eapply (send_loop_ends _ _ _ mid); [by repeat split|lia..]|].
  cbv beta. intros [ret err] l2 h2 (Hf & (n & Hn & Hs) & Hx). cbn [fst snd] in Hx.
  split_and!; [done| |].
  - eexists n, _. split_and!; [lia|lia|lia|].
    unfold c, h1 in Hs. rewrite !sent_cons_other in Hs by done. exact Hs.
  - case_bool_decide; [done|]. apply Hx.
Qed.

Lemma set_name_prepared nm l h : nm <> [] -> strlen nm < CLIENT_NAME_LEN ->
  set_msg E_MMGR_SET_NAME {| rq_id := request_id E_MMGR_SET_NAME; rq_len := strlen nm;
    rq_data := Q_name nm |} l h = prepared 0 nm l h.
Proof.
  intros Hne Hlt. unfold CLIENT_NAME_LEN in Hlt. unfold set_msg, set_msg_name. cbn [rq_data rq_id rq_len].
  assert (0 < strlen nm) by (unfold strlen; destruct nm; [done|cbn; lia]).
  replace (strlen nm <=? 0) with false by lia.
  apply msg_prepare_writes; [|done|unfold SIZE_HEADER; lia].
  replace (Z.of_nat (length nm) <? strlen nm) with false by (unfold strlen; lia).
  rewrite take_ge by (unfold strlen; lia). apply writes_put.
Qed.

Lemma set_events_prepared f l h :
  set_msg E_MMGR_SET_EVENTS {| rq_id := request_id E_MMGR_SET_EVENTS; rq_len := 4;
    rq_data := Q_filter f |} l h = prepared 1 (be32 f) l h.
Proof. apply msg_prepare_writes; [apply writes_put|done|done]. Qed.

(** From [h] to [h'], the name was sent on [fd] and then the mask, each at most
    twenty times; the mask at least once, and acknowledged, when [ret] is a success. *)
Definition registered l h (fd : Z) (ret : e_err_mmgr_cli) l' h' : Prop :=
  exists c1 c2 t1 t2, (1 <= c1 <= 20)%nat /\ (c2 <= 20)%nat /\
    sent h' = sent h ++ replicate c1 (fd, frame (request_id E_MMGR_SET_NAME) t1 (l_cli_name l))
                     ++ replicate c2 (fd, frame (request_id E_MMGR_SET_EVENTS) t2 (be32 (l_events l))) /\
    (ret = E_ERR_CLI_SUCCEED -> (1 <= c2)%nat /\ l_ack l' = event_id E_MMGR_ACK).

Lemma register_client_ends l h : (20 <= loop_fuel)%nat -> alloc_ok ->
  l_cli_name l <> [] -> strlen (l_cli_name l) < CLIENT_NAME_LEN ->
  wp False register_client (fun ret l' h' =>
    l_fd_socket l' = l_fd_socket l /\ registered l h (l_fd_socket l) ret l' h') l h.
Proof.
  intros Hfuel Ha Hne Hlen. unfold register_client. wp_calls. cbn [register_loop].
  set (h1 := X_clock_gettime _ :: _).
  assert (Hs1 : sent h1 = sent h) by by unfold h1; rewrite !sent_cons_other.
  apply wp_bind.
  eapply wp_mono; [eapply (send_single_ends E_MMGR_SET_NAME); [done|done|done|
    intros; by apply set_name_prepared|unfold CLIENT_NAME_LEN, SIZE_HEADER in *; lia]|].
  cbv beta. intros ret l2 h2 (Hf2 & (c1 & t1 & Hc1 & Hc1' & _ & Hs2) & Hr2).
  rewrite Hs1 in Hs2. case_bool_decide as Hret; cbn [negb].
  2:{ split; [done|]. exists c1, 0%nat, t1, 0. rewrite app_nil_r. split_and!; [by apply Hc1'|lia|lia|done..]. }
  wp_call. set (h3 := X_clock_gettime _ :: h2). apply wp_bind.
  assert (Hs3 : sent h3 = sent h2) by by unfold h3; rewrite !sent_cons_other.
  eapply wp_mono; [eapply (send_single_ends E_MMGR_SET_EVENTS); [done|done|done|
    intros; by apply set_events_prepared|done]|].
  cbv beta. intros ret2 l4 h4 (Hf4 & (c2 & t2 & Hc2 & _ & Hc2' & Hs4) & Hr4).
  rewrite Hs3, Hs2, Hf2, <- app_assoc in Hs4. rewrite Hf2 in Hf4.
  assert (Hend : forall h5, sent h5 = sent h4 -> registered l h (l_fd_socket l) ret2 l4 h5).
  { intros h5 Hs5. exists c1, c2, t1, t2. rewrite Hs5. split_and!; [by apply Hc1'|lia|lia|done|].
    intros Hs. split; [by apply Hc2'|]. by destruct (Hr4 Hs). }
  case_bool_decide; cbn [negb]; [|by split; [|apply Hend]].
  wp_call. split; [done|]. apply Hend. by rewrite sent_cons_other.
Qed.

(** C39.  Connecting ends, for a client with a name (not empty, and of at most
    [CLIENT_NAME_LEN - 1] bytes): whatever bytes the daemon sends, or none, when
    the clock does not go back, memory is available and a daemon that announces a
    body sends some of it or closes (announced_body_blocks: the [recv] of a body
    has no timeout), [cli_connect] returns after sending the client's name at most
    twenty times and then the mask of its subscriptions at most twenty times, all on
    the new socket; it succeeds only on an acknowledgement of the mask.  Without a socket it fails and sends nothing. *)
Theorem registration_ends l h : (20 <= loop_fuel)%nat -> alloc_ok ->
  l_cli_name l <> [] -> strlen (l_cli_name l) < CLIENT_NAME_LEN ->
  wp False cli_connect (fun ret l' h' =>
    let fd := reply h (X_socket_local_client (l_cnx_name l)) in
    if fd <? 0 then ret = E_ERR_CLI_FAILED /\ l' = l /\ sent h' = sent h
    else l_fd_socket l' = fd /\ registered l h fd ret l' h') l h.
Proof.
  intros Hfuel Ha Hne Hlen. unfold cli_connect. wp_calls.
  set (c := X_socket_local_client _). set (fd := reply h c : Z). change (reply h c) with fd.
  destruct (fd <? 0); [split_and!; [done..|by unfold c; rewrite sent_cons_other]|]. wp_simp.
  eapply wp_mono; [by apply register_client_ends|]. cbv beta. intros ret l' h' [Hf Hr].
  split; [done|]. unfold registered in *. unfold c in Hr. by rewrite sent_cons_other in Hr.
Qed.

End registration.

(** * Delivery *)

(** The callbacks called, oldest first. *)
Definition callbacks (h : history) : list (Z * Z * Z * option cli_data) :=
  omap (fun c => match c with X_cli_callback f x i d => Some (f, x, i, d) | _ => None end) (rev h).

(** Neither a message nor a callback. *)
Definition mute (c : extcall) : bool :=
  match c with X_send _ _ | X_cli_callback _ _ _ _ => false | _ => true end.

Lemma callbacks_cons c h :
  callbacks (c :: h) =
  callbacks h ++ match c with X_cli_callback f x i d => [(f, x, i, d)] | _ => [] end.
Proof. unfold callbacks. cbn. rewrite omap_app. by destruct c. Qed.

Lemma mute_extends h h' : extends mute h h' -> sent h' = sent h /\ callbacks h' = callbacks h.
Proof.
  intros (k & -> & Hk). induction Hk as [|c k Hc _ IH]; [done|].
  change ((c :: k) ++ h) with (c :: (k ++ h)). rewrite sent_cons, callbacks_cons.
  by destruct c; rewrite ?app_nil_r.
Qed.

Lemma extends_weaken (P Q : extcall -> bool) h h' :
  (forall c, P c = true -> Q c = true) -> extends P h h' -> extends Q h h'.
Proof. intros HP (k & -> & Hk). exists k. split; [done|]. revert Hk. apply Forall_impl. auto. Qed.

(** The acknowledgement a client owes: one frame without body when its callback
    returned 0 on a notification of reset or shutdown, nothing otherwise. *)
Definition acknowledges (ev : e_mmgr_events) (ret fd : Z) (ws : list (Z * list Z)) : Prop :=
  match ack_of ev with
  | Some rq => if ret =? 0 then exists t, ws = [(fd, frame (rq_id rq) t [])] else ws = []
  | None => ws = []
  end.

Section delivery.
Context `{Platform} (Hfuel : (0 < loop_fuel)%nat) (Ha : alloc_ok).
Implicit Types (l : mmgr_lib_context) (h : history).

Lemma send_unanswered r l h : unanswered r = true ->
  wp False (send_single (Some (request_for r)) DEF_MMGR_RESPONSIVE_TIMEOUT)
    (fun _ l' h' => exists t, sent h' = sent h ++ [(l_fd_socket l, frame (request_id r) t [])] /\
       callbacks h' = callbacks h) l h.
Proof.
  intros Hu. unfold send_single, send_msg_with.
  assert (Hr : request_of_id (rq_id (request_for r)) = Some r) by by destruct r.
  assert (Hset : forall l h, set_msg r (request_for r) l h = prepared (request_id r) [] l h).
  { intros. destruct r; try done; (apply msg_prepare_writes; [apply writes_nil|done..]). }
  rewrite Hr. unfold set_ack. change (DEF_MMGR_RESPONSIVE_TIMEOUT <=? 0) with false. wp_simp.
  eapply run_wp; [rewrite Hset; unfold prepared; rewrite Ha; reflexivity|]. cbv beta iota.
  wp_call. apply wp_bind. destruct loop_fuel as [|n]; [lia|]. cbn [send_loop]. wp_simp.
  eapply wp_mono; [apply write_framed; by repeat split|]. cbv beta. intros err l' h' [-> ->].
  rewrite Hu. destruct (succeeded err); cbn [negb];
    (eexists; split; [rewrite !sent_cons, !app_nil_r; reflexivity|by rewrite !callbacks_cons, !app_nil_r]).
Qed.

(** Reading a frame from the socket. *)
Lemma read_msg_frame mid t b l h : 0 <= mid < 2 ^ 32 -> 0 <= t < 2 ^ 32 -> strlen b < 2 ^ 32 ->
  reply h (X_recv (l_fd_socket l) SIZE_HEADER) = R_data (take (Z.to_nat SIZE_HEADER) (frame mid t b)) ->
  (b <> [] -> reply (X_calloc (strlen b) :: X_recv (l_fd_socket l) SIZE_HEADER :: h)
                (X_recv (l_fd_socket l) (strlen b)) = R_data b) ->
  wp False read_msg (fun x l' h' => l' = l /\ extends mute h h' /\ x.1 = E_ERR_CLI_SUCCEED /\
    hdr x.2 = {| id := mid; ts := t; len := strlen b |} /\ (data x.2 = Some b \/ b = [])) l h.
Proof.
  intros Hm Ht Hb Hh Hd. unfold read_msg, msg_get_header, cnx_read. wp_calls. rewrite Hh.
  wp_simp. change (succeeded E_ERR_SUCCESS) with true. cbv iota.
  eapply run_wp; [by apply parse_header_frame|]. cbv beta iota. simpl_decide. cbv iota.
  cbn [default len]. unfold Datatypes.id. cbn [len]. destruct (Z.eqb_spec (strlen b) 0) as [E|E].
  { apply wp_ret. split; [done|]. split; [by apply extends_one|]. split_and!; [done..|]. right. by destruct b. }
  wp_call. rewrite Ha. wp_calls. rewrite Hd by (by intros ->). wp_simp.
  change (succeeded E_ERR_SUCCESS) with true. rewrite Z.eqb_refl.
  split_and!; [done| |done|done|by left].
  exists [X_recv (l_fd_socket l) (strlen b); X_calloc (strlen b); X_recv (l_fd_socket l) SIZE_HEADER].
  split; [done|]. by repeat constructor.
Qed.

(** The callback of a subscribed event, and the acknowledgement it entails. *)
Lemma callback_delivers ev p d f m l h : carries ev p -> views ev p d ->
  hdr m = {| id := event_id ev; ts := ts (hdr m); len := strlen (event_body ev p) |} ->
  (data m = Some (event_body ev p) \/ d = D_null) -> is_answer ev = false ->
  l_func l !! Z.to_nat (event_id ev) = Some (Some f) ->
  let c := X_cli_callback f (l_cli_ctx l) (event_id ev) (Some d) in
  wp False (call_cli_callback m) (fun ret l' h' => ret = E_ERR_CLI_SUCCEED /\
    callbacks h' = callbacks h ++ [(f, l_cli_ctx l, event_id ev, Some d)] /\
    exists k hc ws, h' = k ++ c :: hc /\ sent h' = sent h ++ ws /\
      acknowledges ev (reply hc c) (l_fd_socket l) ws) l h.
Proof.
  intros Hc Hv Hh Hd Hans Hf c. unfold call_cli_callback. rewrite Hh. cbn [id].
  rewrite event_of_event_id by by intros ->. rewrite Hans. wp_simp. rewrite Hf. wp_simp.
  eapply wp_mono; [eapply wp_within; [apply (w_set_data anyS)|eapply cli_set_data_ok; try done; by rewrite Hh]|].
  cbv beta. intros x l' h1 ([-> ->] & _ & He). wp_calls. cbn [l_cli_ctx set_sync]. fold c.
  set (h2 := X_clock_gettime CLOCK_BOOTTIME :: X_gettid :: h1).
  assert (Hsil : extends mute h h2).
  { eapply extends_trans; [eapply extends_weaken; [|exact He]; by intros []|].
    exists [X_clock_gettime CLOCK_BOOTTIME; X_gettid]. split; [done|]. by repeat constructor. }
  apply mute_extends in Hsil as [Hs2 Hc2]. set (err := reply h2 c : Z). change (reply h2 c) with err.
  set (h3 := X_clock_gettime CLOCK_BOOTTIME :: c :: h2).
  assert (Hs3 : sent h3 = sent h) by by unfold h3, c; rewrite !sent_cons, !app_nil_r.
  assert (Hc3 : callbacks h3 = callbacks h ++ [(f, l_cli_ctx l, event_id ev, Some d)])
    by by unfold h3, c; rewrite !callbacks_cons, Hc2, app_nil_r.
  assert (Hnone : acknowledges ev err (l_fd_socket l) [] ->
    callbacks h3 = callbacks h ++ [(f, l_cli_ctx l, event_id ev, Some d)] /\
    exists k hc ws, h3 = k ++ c :: hc /\ sent h3 = sent h ++ ws /\
      acknowledges ev (reply hc c) (l_fd_socket l) ws).
  { intros Hack. split; [done|]. exists [X_clock_gettime CLOCK_BOOTTIME], h2, []. by rewrite app_nil_r. }
  unfold acknowledges in Hnone |- *. destruct (ack_of ev) as [rq|] eqn:Eack; [|by split; [|apply Hnone]].
  destruct (Z.eqb_spec err 0) as [E0|E0]; [|by split; [|apply Hnone]].
  assert (Hrq : exists r, rq = request_for r /\ unanswered r = true)
    by (destruct ev; try done; injection Eack as <-; by eexists).
  destruct Hrq as (r & -> & Hu). wp_simp.
  eapply wp_mono; [eapply wp_within; [apply (w_send_single (same subs))|by apply send_unanswered]|].
  cbv beta. intros _ l3 h4 ((t & Hs4 & Hc4) & _ & (k & -> & _)). split; [done|].
  split; [by rewrite Hc4|]. exists (k ++ [X_clock_gettime CLOCK_BOOTTIME]), h2. eexists.
  split; [by rewrite <- app_assoc|]. split; [by rewrite Hs4, Hs3|]. change (reply h2 c) with err.
  rewrite E0. by exists t.
Qed.

(** C40.  An event of the daemon reaches its client: when the socket holds the
    frame the daemon builds for an event and its data, and the client subscribed
    a callback to it, the reader thread calls this callback, once, with the very
    data of the event, and carries on; it acknowledges a notified reset or
    shutdown, with one message, exactly when the callback returned 0. *)
Theorem event_delivered ev p d f t l h :
  carries ev p -> views ev p d -> (event_body ev p <> [] \/ d = D_null) -> 0 <= t < 2 ^ 32 ->
  is_answer ev = false -> l_func l !! Z.to_nat (event_id ev) = Some (Some f) ->
  reply h (X_recv (l_fd_socket l) SIZE_HEADER) =
    R_data (take (Z.to_nat SIZE_HEADER) (frame (event_id ev) t (event_body ev p))) ->
  (event_body ev p <> [] ->
   reply (X_calloc (strlen (event_body ev p)) :: X_recv (l_fd_socket l) SIZE_HEADER :: h)
     (X_recv (l_fd_socket l) (strlen (event_body ev p))) = R_data (event_body ev p)) ->
  let c := X_cli_callback f (l_cli_ctx l) (event_id ev) (Some d) in
  wp False handle_cnx_event (fun ret l' h' => ret = E_ERR_CLI_SUCCEED /\
    callbacks h' = callbacks h ++ [(f, l_cli_ctx l, event_id ev, Some d)] /\
    exists k hc ws, h' = k ++ c :: hc /\ sent h' = sent h ++ ws /\
      acknowledges ev (reply hc c) (l_fd_socket l) ws) l h.
Proof.
  intros Hc Hv Hb Ht Hans Hf Hhd Hbody c. unfold handle_cnx_event. apply wp_bind.
  pose proof (carries_size ev p Hc). unfold SIZE_HEADER in *.
  eapply wp_mono; [apply (read_msg_frame (event_id ev) t (event_body ev p)); try done; [by destruct ev|lia]|].
  cbv beta. intros [ret m] l' h1 (-> & He & Hr & Hh & Hd). cbn [fst snd] in *. subst ret. simpl_decide.
  apply mute_extends in He as [Hs1 Hc1].
  eapply wp_mono; [eapply callback_delivers; try done; [by rewrite Hh|naive_solver]|].
  cbv beta. intros ret l2 h2. by rewrite Hs1, Hc1.
Qed.

End delivery.

(** * Witnesses *)

(** Sockets opened, and whether the pipe was written since the last one. *)
Definition sockets (h : history) : nat :=
  count (fun c => match c with X_socket_local_client _ => true | _ => false end) h.

Fixpoint signalled (h : history) : bool :=
  match h with
  | [] => false
  | X_write _ _ :: _ => true
  | X_socket_local_client _ :: _ => false
  | _ :: h' => signalled h'
  end.

(** A daemon that acknowledges everything from its [n]-th connection on, and
    closes the earlier ones. *)
Definition acking (n : nat) : Platform := with_reply still (fun h c =>
  match c with
  | X_recv _ _ => R_data (if (sockets h <? n)%nat then [] else frame (event_id E_MMGR_ACK) 0 [])
  | X_epoll_wait_tty _ _ => (1, {| ep_hup := false; ep_in := true |})
  | X_select _ _ _ => Some (signalled h, negb (signalled h))
  | X_cond_timedwait _ => (1%nat, false)
  | c => @reply still h c
  end).

Lemma acking_clock n : @clock_runs (acking n).
Proof.
  assert (forall h, 0 <= slept_sec h) by (induction h as [|[] h IH]; cbn; lia).
  intros h c. unfold now. cbn. specialize (H h). destruct c; cbn; lia.
Qed.

Lemma subscriptions_tracked_witness : exists rs l h',
  @run_cli_ops (acking 0) [C_subscribe (Some 7) 1; C_subscribe (Some 9) 8; C_subscribe (Some 9) 4;
    C_connect; C_lock; C_unsubscribe 1; C_disconnect; C_unsubscribe 1]
    (H_ctx (new_context (bytes "ril") 0)) [] = Done rs (H_ctx l) h' /\
  rs = [E_ERR_CLI_SUCCEED; E_ERR_CLI_FAILED; E_ERR_CLI_SUCCEED; E_ERR_CLI_SUCCEED;
        E_ERR_CLI_SUCCEED; E_ERR_CLI_BAD_CNX_STATE; E_ERR_CLI_SUCCEED; E_ERR_CLI_SUCCEED] /\
  l_func l = <[4%nat := Some 9]> (replicate 19 None).
Proof.
  destruct (@run_cli_ops (acking 0) [C_subscribe (Some 7) 1; C_subscribe (Some 9) 8;
    C_subscribe (Some 9) 4; C_connect; C_lock; C_unsubscribe 1; C_disconnect; C_unsubscribe 1]
    (H_ctx (new_context (bytes "ril") 0)) []) as [rs s' h'| | |] eqn:E;
    [|exfalso; revert E; by vm_compute..].
  destruct (@subscriptions_tracked (acking 0) _ _ _ _ _ _ _ E) as (l & -> & Hf & _).
  exists rs, l, h'. split; [done|]. rewrite Hf. clear Hf.
  apply (f_equal (fun o => match o with Done a _ _ => a | _ => [] end)) in E. vm_compute in E.
  by subst rs.
Defined.

Lemma registration_ends_witness : exists ret l' h',
  @cli_connect (acking 0) (new_context (bytes "ril") 0) [] = Done ret l' h' /\
  ret = E_ERR_CLI_SUCCEED /\ @registered (new_context (bytes "ril") 0) [] 5 ret l' h'.
Proof.
  destruct (wp_done _ _ _ _ (@registration_ends (acking 0) ltac:(done) (acking_clock 0)
    (new_context (bytes "ril") 0) [] ltac:(vm_compute; lia) ltac:(done) ltac:(done) ltac:(done)))
    as (ret & l' & h' & E & HQ).
  exists ret, l', h'. split; [exact E|]. split; [|exact (proj2 HQ)].
  apply (f_equal (fun o => match o with Done a _ _ => a | _ => E_ERR_CLI_FAILED end)) in E.
  by vm_compute in E.
Defined.

(** A daemon that resets the platform for a hang. *)
Definition ringing : Platform := with_reply still (fun h c =>
  match c with
  | X_recv _ n =>
      let b := event_body E_MMGR_NOTIFY_AP_RESET
                 (P_ap_reset {| ap_name := bytes "ril"; ap_extra := causes_wire [bytes "hang"] |}) in
      R_data (if n =? SIZE_HEADER then take 12 (frame (event_id E_MMGR_NOTIFY_AP_RESET) 9 b) else b)
  | c => @reply still h c
  end).

Definition demo_lib : mmgr_lib_context :=
  set_sub (bit 11) (<[11%nat := Some 3]> (replicate 19 None)) (new_context (bytes "ril") 0).

Lemma event_delivered_witness : exists l' h',
  @handle_cnx_event ringing demo_lib [] = Done E_ERR_CLI_SUCCEED l' h' /\
  callbacks h' = [(3, 0, 11, Some (D_ap_reset (bytes "ril") [bytes "hang"]))] /\ sent h' = [].
Proof.
  destruct (wp_done _ _ _ _ (@event_delivered ringing ltac:(vm_compute; lia) ltac:(done)
    E_MMGR_NOTIFY_AP_RESET
    (P_ap_reset {| ap_name := bytes "ril"; ap_extra := causes_wire [bytes "hang"] |})
    (D_ap_reset (bytes "ril") [bytes "hang"]) 3 9 demo_lib []
    ltac:(done) ltac:(cbn; split; [done|]; split; [done|]; by right) ltac:(by left) ltac:(lia)
    ltac:(done) ltac:(done) ltac:(done) ltac:(done)))
    as (ret & l' & h' & E & -> & Hc & k & hc & ws & _ & Hs & Hw).
  exists l', h'. split; [exact E|]. split; [exact Hc|]. by rewrite Hs, Hw.
Defined.

(** * Limits of the library *)

(** A disconnection releases the modem in the daemon but not the flag of the
    library: after connecting again, the client can no longer take it. *)
Theorem lock_lost_after_disconnection :
  exists h' l', @run_cli_ops (acking 0) [C_connect; C_lock; C_disconnect; C_connect; C_lock]
    (H_ctx (new_context (bytes "ril") 0)) [] =
  Done [E_ERR_CLI_SUCCEED; E_ERR_CLI_SUCCEED; E_ERR_CLI_SUCCEED; E_ERR_CLI_SUCCEED;
        E_ERR_CLI_ALREADY_LOCK] (H_ctx l') h'.
Proof. do 2 eexists. vm_compute. reflexivity. Qed.

(** When the daemon closes the connection during the registration,
    [mmgr_cli_connect] reports a failure although it ends up connected, without a
    reader thread. *)
Theorem failed_connection_is_connected :
  exists h' l', @mmgr_cli_connect (acking 2) (H_ctx (new_context (bytes "ril") 0)) [] =
    Done E_ERR_CLI_FAILED (H_ctx l') h' /\ l_connected l' = E_CNX_CONNECTED /\ l_reader l' = None.
Proof. do 2 eexists. split; [vm_compute; reflexivity|]. done. Qed.

(** A message that is not for a callback of the client ends the reader thread and
    leaves the client connected: here the event of [ringing], not subscribed. *)
Theorem unhandled_event_ends_reader :
  let l := set_thread true (Some 10) (set_fds 5 10 11
             (set_connected_state E_CNX_CONNECTED (new_context (bytes "ril") 0))) in
  exists h' l', @reader_turn (with_reply ringing (fun h c =>
      match c with X_select _ _ _ => Some (false, true) | c => @reply ringing h c end)) l [] =
    Done tt l' h' /\ l_reader l' = None /\ l_connected l' = E_CNX_CONNECTED.
Proof. do 2 eexists. split; [vm_compute; reflexivity|]. done. Qed.

(** An empty client name cannot be registered: the first message stops the
    client's process. *)
Theorem nameless_client_aborts `{Platform} l h : (0 < loop_fuel)%nat -> l_cli_name l = [] ->
  0 <= reply h (X_socket_local_client (l_cnx_name l)) -> exists h', cli_connect l h = Abort h'.
Proof.
  intros Hfuel Hn Hfd. unfold cli_connect. run_calls.
  destruct (Z.ltb_spec (reply h (X_socket_local_client (l_cnx_name l))) 0); [lia|].
  unfold register_client. run_calls. cbn [l_cli_name set_fds]. rewrite Hn. cbn [register_loop].
  unfold send_single, send_msg_with. destruct loop_fuel as [|n]; [lia|]. eexists. reflexivity.
Qed.

(** A daemon that announces four bytes and then neither sends them nor closes. *)
Definition stalling : Platform := with_reply (acking 0) (fun h c =>
  match c with
  | X_recv _ n => if n =? SIZE_HEADER then R_data (take 12 (frame (event_id E_MMGR_ACK) 0 [0; 0; 0; 0])) else R_never
  | c => @reply (acking 0) h c
  end).

(** Then the connection never returns: the [recv] of the body has no timeout, unlike the
    wait for the header. *)
Theorem announced_body_blocks : exists h',
  @cli_connect stalling (new_context (bytes "ril") 0) [] = Undef (X_recv 5 4 :: h').
Proof. eexists. vm_compute. reflexivity. Qed.
