(* ===== verification/Link.v ===== *)
(** The modem link: core/link/link.c, core/link/ctrl.c and core/link/pm.c.  Its
    handles only hold configuration, so the operations read a context and act
    through sysfs files. *)
From S2P Require Import Prelude Platform Io.

(** * Configuration, as the telephony configuration gives it *)

Record link_ctrl := { lc_device : list Z; lc_on : list Z; lc_off : list Z; lc_reset : list Z }.

Record power := { pw_device : list Z; pw_on : list Z; pw_off : list Z }.

(** A link of any type: the fields of the types it does not have are unused. *)
Record link := {
  lk_type : e_link; lk_device : list Z; lk_hsi_ctrl : list Z; lk_hsi_cmd : list Z;
  lk_high_speed : bool; lk_baudrate : Z }.

Record ctrl_ctx := {
  ctrl_mdm : link_ctrl; ctrl_mdm_type : e_link; ctrl_cd : link_ctrl; ctrl_cd_type : e_link }.

Record pm_ctx := {
  pm_mdm : power; pm_mdm_type : e_link; pm_cd : power; pm_cd_type : e_link }.

(** [bus_ev] is the module of bus events: only the flash path it has found is
    used here, and it is an argument of the functions that need it. *)
Record link_ctx := {
  flash_ebl : link; flash_fw : link; bb : link; cd_type : e_link;
  ctrl : ctrl_ctx; pm : pm_ctx; lk_ssic_hack : bool }.

(** The parts of the configuration [link_init] reads. *)
Record mmgr_mdm_link := {
  ml_flash_ebl : link; ml_flash_fw : link; ml_baseband : link;
  ml_ctrl : link_ctrl; ml_power : power }.

Record mcdr_link := { cl_type : e_link; cl_ctrl : link_ctrl; cl_power : power }.

Inductive e_ctrl_action := E_ACTION_ON | E_ACTION_OFF | E_ACTION_RESET.

Section link.
Context `{Platform} {S : Type}.

(** * core/link/ctrl.c *)

(** A device name is empty when [strncmp] finds it equal to "". *)
Definition empty_path (l : list Z) : bool := bool_decide (cstr l = []).

Definition ctrl_init (mdm_type : e_link) (mdm_ctrl : link_ctrl) (cdt : e_link) (cd_ctrl : link_ctrl)
  : IO S (option ctrl_ctx) :=
  ok ← call (X_calloc 320);
  if (ok : bool) then
    if bool_decide (mdm_type = E_LINK_USB) && empty_path (lc_device mdm_ctrl) then mret None
    else if bool_decide (cdt = E_LINK_USB) && empty_path (lc_device cd_ctrl) then mret None
    else mret (Some {| ctrl_mdm := mdm_ctrl; ctrl_mdm_type := mdm_type;
                       ctrl_cd := cd_ctrl; ctrl_cd_type := cdt |})
  else mret None.

Definition ctrl_set_state (c : link_ctrl) (action : e_ctrl_action) : IO S e_mmgr_errors :=
  let cmd := match action with
             | E_ACTION_OFF => lc_off c
             | E_ACTION_ON => lc_on c
             | E_ACTION_RESET => lc_reset c
             end in
  file_write (lc_device c) cmd.

Definition ctrl_on_mdm_down (ctx : ctrl_ctx) : IO S e_mmgr_errors :=
  match ctrl_mdm_type ctx with
  | E_LINK_HSI | E_LINK_SPI | E_LINK_UART => mret E_ERR_SUCCESS
  | E_LINK_USB => ctrl_set_state (ctrl_mdm ctx) E_ACTION_OFF
  | E_LINK_OTHER => mret E_ERR_FAILED
  end.

Definition ctrl_on_mdm_reset_op (ctx : ctrl_ctx) : IO S e_mmgr_errors :=
  match ctrl_mdm_type ctx with
  | E_LINK_HSI | E_LINK_SPI | E_LINK_UART => mret E_ERR_SUCCESS
  | E_LINK_USB => ctrl_set_state (ctrl_mdm ctx) E_ACTION_ON
  | E_LINK_OTHER => mret E_ERR_FAILED
  end.

Definition ctrl_on_mdm_reset (ctx : ctrl_ctx) (delay : Z) : IO S e_mmgr_errors :=
  if 0 <? delay
  then _ ← call (X_pthread_create (T_delay_link_reset delay)); mret E_ERR_SUCCESS
  else ctrl_on_mdm_reset_op ctx.

Definition ctrl_on_cd_ipc_failure (ctx : ctrl_ctx) : IO S e_mmgr_errors :=
  match ctrl_mdm_type ctx with
  | E_LINK_HSI | E_LINK_SPI | E_LINK_UART => mret E_ERR_SUCCESS
  | E_LINK_USB => ctrl_set_state (ctrl_cd ctx) E_ACTION_RESET
  | E_LINK_OTHER => mret E_ERR_FAILED
  end.

(** * core/link/pm.c *)

Definition pm_init (mdm_type : e_link) (mdm_power : power) (cdt : e_link) (cd_power : power)
  : IO S (option pm_ctx) :=
  ok ← call (X_calloc 256);
  if (ok : bool) then
    if bool_decide (mdm_type = E_LINK_USB) && empty_path (pw_device mdm_power) then mret None
    else if bool_decide (cdt = E_LINK_UART) && empty_path (pw_device cd_power) then mret None
    else mret (Some {| pm_mdm := mdm_power; pm_mdm_type := mdm_type;
                       pm_cd := cd_power; pm_cd_type := cdt |})
  else mret None.

Definition pm_set_state (p : power) (state : bool) : IO S e_mmgr_errors :=
  file_write (pw_device p) (if state then pw_on p else pw_off p).

Definition pm_on_mdm_up (ctx : pm_ctx) : IO S e_mmgr_errors :=
  match pm_mdm_type ctx with
  | E_LINK_HSI | E_LINK_SPI | E_LINK_UART => mret E_ERR_SUCCESS
  | E_LINK_USB => pm_set_state (pm_mdm ctx) true
  | E_LINK_OTHER => mret E_ERR_FAILED
  end.

Definition pm_on_cd (ctx : pm_ctx) : IO S e_mmgr_errors :=
  match pm_cd_type ctx with
  | E_LINK_HSI | E_LINK_USB | E_LINK_SPI => mret E_ERR_SUCCESS
  | E_LINK_UART => pm_set_state (pm_cd ctx) false
  | E_LINK_OTHER => mret E_ERR_FAILED
  end.

Definition pm_on_cd_complete (ctx : pm_ctx) : IO S e_mmgr_errors :=
  match pm_cd_type ctx with
  | E_LINK_HSI | E_LINK_USB | E_LINK_SPI => mret E_ERR_SUCCESS
  | E_LINK_UART => pm_set_state (pm_cd ctx) true
  | E_LINK_OTHER => mret E_ERR_FAILED
  end.

(** * core/link/link.c *)

Definition link_set_spi_speed (l : link) : IO S e_mmgr_errors :=
  r ← call (X_open (lk_device l));
  if 0 <? r.1 then
    e ← call (X_spi_ioctl r.1 (lk_high_speed l));
    _ ← call (X_close r.1);
    mret (if e =? 0 then E_ERR_SUCCESS else E_ERR_FAILED)
  else mret E_ERR_FAILED.

(** [bus] is the flash path the bus module has found, or [None] when the module
    is not given. *)
Definition link_get_flash_interface (l : link) (bus : option (list Z)) : option (list Z) :=
  match lk_type l with
  | E_LINK_USB => match bus with Some p => Some p | None => Some (lk_device l) end
  | E_LINK_HSI | E_LINK_UART | E_LINK_SPI => Some (lk_device l)
  | E_LINK_OTHER => None
  end.

Definition link_on_mdm_reset (l : link_ctx) (delay : Z) : IO S e_mmgr_errors :=
  ctrl_on_mdm_reset (ctrl l) delay.

Definition link_on_mdm_flash (l : link_ctx) : IO S e_mmgr_errors :=
  if bool_decide (lk_type (flash_ebl l) = E_LINK_HSI)
  then file_write (lk_hsi_ctrl (flash_ebl l)) (lk_hsi_cmd (flash_ebl l))
  else if bool_decide (lk_type (flash_fw l) = E_LINK_SPI)
  then link_set_spi_speed (flash_fw l)
  else mret E_ERR_SUCCESS.

Definition link_on_mdm_flash_complete (l : link_ctx) : IO S e_mmgr_errors :=
  ret ← (if bool_decide (lk_type (bb l) = E_LINK_HSI)
         then file_write (lk_hsi_ctrl (bb l)) (lk_hsi_cmd (bb l))
         else if bool_decide (lk_type (bb l) = E_LINK_SPI)
         then link_set_spi_speed (bb l)
         else mret E_ERR_SUCCESS);
  when (lk_ssic_hack l) (_ ← ctrl_on_mdm_reset (ctrl l) 15; mret tt) ;;
  mret ret.

Definition link_on_mdm_up (l : link_ctx) : IO S e_mmgr_errors := pm_on_mdm_up (pm l).

Definition link_on_cd (l : link_ctx) : IO S e_mmgr_errors := pm_on_cd (pm l).

Definition link_on_cd_complete (l : link_ctx) : IO S e_mmgr_errors := pm_on_cd_complete (pm l).

Definition link_on_cd_failure (l : link_ctx) : IO S e_mmgr_errors := ctrl_on_cd_ipc_failure (ctrl l).

Definition link_on_mdm_down (l : link_ctx) : IO S e_mmgr_errors := ctrl_on_mdm_down (ctrl l).

Definition link_get_bb_interface (l : link_ctx) : option (list Z) :=
  link_get_flash_interface (bb l) None.

Definition link_get_flash_ebl_type (l : link_ctx) : e_link := lk_type (flash_ebl l).
Definition link_get_flash_fw_type (l : link_ctx) : e_link := lk_type (flash_fw l).
Definition link_get_bb_type (l : link_ctx) : e_link := lk_type (bb l).
Definition link_get_cd_type (l : link_ctx) : e_link := cd_type l.

Definition link_get_ebl_baudrate (l : link_ctx) : Z :=
  if bool_decide (lk_type (flash_ebl l) = E_LINK_UART) then lk_baudrate (flash_ebl l) else 0.

Definition link_init (links : mmgr_mdm_link) (mcdr : mcdr_link) (ssic_hack : bool)
  : IO S link_ctx :=
  ok ← call (X_calloc 2048);
  ASSERT ok ;;
  c ← ctrl_init (lk_type (ml_baseband links)) (ml_ctrl links) (cl_type mcdr) (cl_ctrl mcdr);
  p ← pm_init (lk_type (ml_baseband links)) (ml_power links) (cl_type mcdr) (cl_power mcdr);
  match c, p with
  | Some c, Some p =>
      mret {| flash_ebl := ml_flash_ebl links; flash_fw := ml_flash_fw links;
              bb := ml_baseband links; cd_type := cl_type mcdr;
              ctrl := c; pm := p; lk_ssic_hack := ssic_hack |}
  | _, _ => abort
  end.

End link.

(** * Effects *)

Section link_effects.
Context `{Platform} {S : Type}.

(** Everything the link does, it does through files: no request to the modem
    control driver, and no change to the state of the caller. *)
Lemma file_write_quiet path v : within (@eq S) not_ioctl (file_write path v).
Proof. within_auto. Qed.
#[local] Hint Resolve file_write_quiet : within.

Lemma link_down_quiet l : within (@eq S) not_ioctl (link_on_mdm_down l).
Proof. within_auto. Qed.

Lemma link_reset_quiet l d : within (@eq S) not_ioctl (link_on_mdm_reset l d).
Proof. within_auto. Qed.

Lemma link_up_quiet l : within (@eq S) not_ioctl (link_on_mdm_up l).
Proof. within_auto. Qed.

Lemma link_flash_quiet l : within (@eq S) not_ioctl (link_on_mdm_flash l).
Proof. within_auto. Qed.

Lemma link_flash_complete_quiet l : within (@eq S) not_ioctl (link_on_mdm_flash_complete l).
Proof. within_auto. Qed.

Lemma link_cd_quiet l : within (@eq S) not_ioctl (link_on_cd l).
Proof. within_auto. Qed.

Lemma link_cd_complete_quiet l : within (@eq S) not_ioctl (link_on_cd_complete l).
Proof. within_auto. Qed.

Lemma link_cd_failure_quiet l : within (@eq S) not_ioctl (link_on_cd_failure l).
Proof. within_auto. Qed.

(** The operations of the link always return. *)
Lemma file_write_total path v (s : S) h :
  wp False (file_write path v) (fun _ s' _ => s' = s) s h.
Proof.
  unfold file_write. wp_call. destruct (_ <? 0); [done|].
  destruct (0 <? Z.of_nat (length v)); wp_calls; done.
Qed.

End link_effects.

#[export] Hint Resolve file_write_quiet link_down_quiet link_reset_quiet link_up_quiet
  link_flash_quiet link_flash_complete_quiet link_cd_quiet link_cd_complete_quiet
  link_cd_failure_quiet : within.

(** Total correctness of the operations of the link. *)
Ltac link_total :=
  intros; cbv beta delta
    [link_on_mdm_down link_on_mdm_reset link_on_mdm_up link_on_mdm_flash
     link_on_mdm_flash_complete link_on_cd link_on_cd_complete link_on_cd_failure
     ctrl_on_mdm_down ctrl_on_mdm_reset ctrl_on_mdm_reset_op ctrl_on_cd_ipc_failure
     pm_on_mdm_up pm_on_cd pm_on_cd_complete ctrl_set_state pm_set_state link_set_spi_speed];
  repeat first
    [ done
    | by apply file_write_total
    | eapply wp_mono; [by apply file_write_total|]; cbv beta; intros ? ? ? ->
    | progress wp_calls
    | case_match ].

Section link_total.
Context `{Platform} {S : Type}.
Implicit Types (s : S).

Lemma link_down_total l s h : wp False (link_on_mdm_down l) (fun _ s' _ => s' = s) s h.
Proof. link_total. Qed.

Lemma link_reset_total l d s h : wp False (link_on_mdm_reset l d) (fun _ s' _ => s' = s) s h.
Proof. link_total. Qed.

Lemma link_up_total l s h : wp False (link_on_mdm_up l) (fun _ s' _ => s' = s) s h.
Proof. link_total. Qed.

Lemma link_flash_total l s h : wp False (link_on_mdm_flash l) (fun _ s' _ => s' = s) s h.
Proof. link_total. Qed.

Lemma link_flash_complete_total l s h :
  wp False (link_on_mdm_flash_complete l) (fun _ s' _ => s' = s) s h.
Proof. link_total. Qed.

Lemma link_cd_total l s h : wp False (link_on_cd l) (fun _ s' _ => s' = s) s h.
Proof. link_total. Qed.

Lemma link_cd_complete_total l s h : wp False (link_on_cd_complete l) (fun _ s' _ => s' = s) s h.
Proof. link_total. Qed.

Lemma link_cd_failure_total l s h : wp False (link_on_cd_failure l) (fun _ s' _ => s' = s) s h.
Proof. link_total. Qed.

End link_total.

(** A configuration: everything on the HSI link. *)
Definition demo_link : link_ctx :=
  let l := {| lk_type := E_LINK_HSI; lk_device := bytes "/dev/ttyIFX0"; lk_hsi_ctrl := [];
              lk_hsi_cmd := []; lk_high_speed := false; lk_baudrate := 0 |} in
  let c := {| lc_device := []; lc_on := []; lc_off := []; lc_reset := [] |} in
  let p := {| pw_device := []; pw_on := []; pw_off := [] |} in
  {| flash_ebl := l; flash_fw := l; bb := l; cd_type := E_LINK_HSI;
     ctrl := {| ctrl_mdm := c; ctrl_mdm_type := E_LINK_HSI; ctrl_cd := c; ctrl_cd_type := E_LINK_HSI |};
     pm := {| pm_mdm := p; pm_mdm_type := E_LINK_HSI; pm_cd := p; pm_cd_type := E_LINK_HSI |};
     lk_ssic_hack := false |}.
