(* ===== verification/Mcd.v ===== *)
(** The modem control driver: core/mdm_mcd.c.  Power and reset go through
    ioctls; the events polled are the bits of a filter. *)
From S2P Require Import Prelude Platform Io Link.

Definition E_EV_NONE : Z := 0.
Definition E_EV_MODEM_SELF_RESET : Z := bit 0.
Definition E_EV_CORE_DUMP : Z := bit 1.
Definition E_EV_IPC_READY : Z := bit 2.
Definition E_EV_FW_DOWNLOAD_READY : Z := bit 3.
Definition E_EV_MODEM_OFF : Z := bit 4.

Record mmgr_mcd_ctx := {
  mcd_fd : Z; ssic_hack : bool; off_allowed : bool; flashless : bool;
  ipc_ready_present : bool; filter : Z; mcd_link : link_ctx }.

Definition set_filter (f : Z) (m : mmgr_mcd_ctx) : mmgr_mcd_ctx :=
  {| mcd_fd := mcd_fd m; ssic_hack := ssic_hack m; off_allowed := off_allowed m;
     flashless := flashless m; ipc_ready_present := ipc_ready_present m; filter := f;
     mcd_link := mcd_link m |}.

Section mcd.
Context `{Platform}.

(** An ioctl: whether it succeeded, and the integer it may have written. *)
Definition mcd_ioctl {S} (fd : Z) (req : mdm_ctrl) : IO S (bool * Z) :=
  r ← call (X_ioctl fd req); mret (r.1 =? 0, r.2).

Abbreviation IOm := (IO mmgr_mcd_ctx).

Definition mdm_mcd_cold_reset : IOm e_mmgr_errors :=
  m ← get;
  if ssic_hack m then
    '(ok, _) ← mcd_ioctl (mcd_fd m) MDM_CTRL_POWER_OFF;
    if (ok : bool)
    then _ ← call (X_pthread_create (T_delay_mdm_up 8)); mret E_ERR_SUCCESS
    else mret E_ERR_FAILED
  else
    '(ok, _) ← mcd_ioctl (mcd_fd m) MDM_CTRL_COLD_RESET;
    mret (if (ok : bool) then E_ERR_SUCCESS else E_ERR_FAILED).

Definition mdm_mcd_down : IOm e_mmgr_errors :=
  m ← get;
  when (negb (ssic_hack m)) (_ ← link_on_mdm_down (mcd_link m); mret tt) ;;
  '(ok, _) ← mcd_ioctl (mcd_fd m) MDM_CTRL_POWER_OFF;
  when (ssic_hack m) (call (X_sleep 8) ;; _ ← link_on_mdm_down (mcd_link m); mret tt) ;;
  mret (if (ok : bool) then E_ERR_SUCCESS else E_ERR_FAILED).

Definition mdm_mcd_off : IOm e_mmgr_errors :=
  m ← get;
  if off_allowed m then mdm_mcd_down else mdm_mcd_cold_reset.

(** The part of [mdm_mcd_up] that depends on the state read. *)
Definition mcd_boot (state : Z) : IOm e_mmgr_errors :=
  m ← get;
  if state .& MDM_CTRL_STATE_OFF then
    '(on, _) ← mcd_ioctl (mcd_fd m) MDM_CTRL_POWER_ON;
    if negb (flashless m) then call (X_sleep 1) ;; mdm_mcd_cold_reset
    else mret (if (on : bool) then E_ERR_SUCCESS else E_ERR_FAILED)
  else mdm_mcd_cold_reset.

Definition mdm_mcd_up : IOm e_mmgr_errors :=
  m ← get;
  _ ← link_on_mdm_reset (mcd_link m) (if ssic_hack m then 1 else 0);
  '(ok, state) ← mcd_ioctl (mcd_fd m) MDM_CTRL_GET_STATE;
  if (ok : bool) then
    ret ← mcd_boot state;
    when (negb (succeeded ret)) (_ ← link_on_mdm_down (mcd_link m); mret tt) ;;
    mret ret
  else mret E_ERR_FAILED.

(** Bits of the events the states read stand for. *)
Definition events_of_state (read : Z) : Z :=
  (if read .& MDM_CTRL_STATE_OFF then E_EV_MODEM_OFF else 0)
  .| (if read .& MDM_CTRL_STATE_IPC_READY then E_EV_IPC_READY else 0)
  .| (if read .& MDM_CTRL_STATE_COREDUMP then E_EV_CORE_DUMP else 0)
  .| (if read .& MDM_CTRL_STATE_FW_DOWNLOAD_READY then E_EV_FW_DOWNLOAD_READY else 0).

Definition mdm_mcd_get_state : IOm Z :=
  m ← get;
  '(ok, read) ← mcd_ioctl (mcd_fd m) MDM_CTRL_GET_STATE;
  state ←
    (if (ok : bool) then
       let state := events_of_state read in
       '(ok, read) ← mcd_ioctl (mcd_fd m) MDM_CTRL_GET_HANGUP_REASONS;
       mret (if (ok : bool) && (read .& MDM_CTRL_HU_RESET)
             then state .| E_EV_MODEM_SELF_RESET else state)
     else mret E_EV_NONE);
  _ ← mcd_ioctl (mcd_fd m) MDM_CTRL_CLEAR_HANGUP_REASONS;
  mret state.

Definition mdm_mcd_update_filter : IOm e_mmgr_errors :=
  m ← get;
  '(ok, _) ← mcd_ioctl (mcd_fd m) (MDM_CTRL_SET_POLLED_STATES (filter m));
  mret (if (ok : bool) then E_ERR_SUCCESS else E_ERR_FAILED).

Definition mdm_mcd_register (events : Z) (overwrite : bool) : IOm e_mmgr_errors :=
  modify (fun m => set_filter (if overwrite then events else filter m .| events) m) ;;
  mdm_mcd_update_filter.

Definition mdm_mcd_unregister (events : Z) : IOm e_mmgr_errors :=
  modify (fun m => set_filter (filter m .~ events) m) ;;
  mdm_mcd_update_filter.

Definition mdm_mcd_get_fd : IOm Z := gets mcd_fd.

Definition mdm_mcd_is_ipc_ready_present : IOm bool := gets ipc_ready_present.

(** [mdm_mcd_configure]; the second part of the answer of a failed ioctl is
    [errno], and [EBUSY] (16) means that the driver is already configured. *)
Definition mdm_mcd_configure {S} (fd board : Z) (mdm_name : list Z) : IO S e_mmgr_errors :=
  let type :=
    if bool_decide (mdm_name = bytes "6360") then MODEM_6360
    else if bool_decide (mdm_name = bytes "7160") then MODEM_7160
    else if bool_decide (mdm_name = bytes "7260") then MODEM_7260
    else if bool_decide (mdm_name = bytes "2230") then MODEM_2230
    else MODEM_UNSUP in
  r ← call (X_ioctl fd (MDM_CTRL_SET_CFG board type));
  mret (if r.1 =? 0 then E_ERR_SUCCESS
        else if r.2 =? 16 then E_ERR_SUCCESS else E_ERR_FAILED).

Definition mdm_mcd_init (path : list Z) (board : Z) (mdm_name : list Z) (fls : bool)
    (l : link_ctx) (off ssic : bool)
  : IO (option mmgr_mcd_ctx) unit :=
  ok ← call (X_calloc 20);
  ASSERT ok ;;
  r ← call (X_open path);
  if r.1 =? -1 then _ ← call (X_close r.1); modify (fun _ => None)
  else
    _ ← mdm_mcd_configure r.1 board mdm_name;
    let m := {| mcd_fd := r.1; ssic_hack := ssic; off_allowed := off; flashless := fls;
                ipc_ready_present := board =? BOARD_AOB; filter := MDM_CTRL_STATE_COREDUMP;
                mcd_link := l |} in
    _ ← mcd_ioctl r.1 (MDM_CTRL_SET_POLLED_STATES (filter m));
    modify (fun _ => Some m).

End mcd.

(** * Decoding of the driver's state *)

Lemma testbit_if (b : bool) n i : 0 <= n ->
  Z.testbit (if b then bit n else 0) i = b && (i =? n).
Proof. intros. destruct b; [by rewrite bit_testbit|apply Z.bits_0]. Qed.

Lemma events_of_state_bit `{Platform} read i :
  Z.testbit (events_of_state read) i =
    ((read .& MDM_CTRL_STATE_OFF) && (i =? 4)) || ((read .& MDM_CTRL_STATE_IPC_READY) && (i =? 2))
    || ((read .& MDM_CTRL_STATE_COREDUMP) && (i =? 1))
    || ((read .& MDM_CTRL_STATE_FW_DOWNLOAD_READY) && (i =? 3)).
Proof.
  unfold events_of_state, E_EV_MODEM_OFF, E_EV_IPC_READY, E_EV_CORE_DUMP, E_EV_FW_DOWNLOAD_READY.
  by rewrite !Z.lor_spec, !testbit_if by lia.
Qed.

(** Reading the modem's state: each event reported is there exactly when
    the driver's state has the flag it stands for, a self reset exactly when the
    hang-up reasons have the reset one, nothing is reported when the state cannot
    be read, and the hang-up reasons are cleared in every case. *)
Theorem mcd_events_decoded `{Platform} (m : mmgr_mcd_ctx) h :
  let r := reply h (X_ioctl (mcd_fd m) MDM_CTRL_GET_STATE) in
  let h1 := X_ioctl (mcd_fd m) MDM_CTRL_GET_STATE :: h in
  let q := reply h1 (X_ioctl (mcd_fd m) MDM_CTRL_GET_HANGUP_REASONS) in
  let ok := r.1 =? 0 in
  wp False mdm_mcd_get_state
    (fun st m' h' => m' = m /\
       st .& E_EV_MODEM_OFF = ok && (r.2 .& MDM_CTRL_STATE_OFF) /\
       st .& E_EV_IPC_READY = ok && (r.2 .& MDM_CTRL_STATE_IPC_READY) /\
       st .& E_EV_CORE_DUMP = ok && (r.2 .& MDM_CTRL_STATE_COREDUMP) /\
       st .& E_EV_FW_DOWNLOAD_READY = ok && (r.2 .& MDM_CTRL_STATE_FW_DOWNLOAD_READY) /\
       st .& E_EV_MODEM_SELF_RESET = ok && ((q.1 =? 0) && (q.2 .& MDM_CTRL_HU_RESET)) /\
       driver_calls h' = driver_calls h ++ MDM_CTRL_GET_STATE ::
         (if ok then [MDM_CTRL_GET_HANGUP_REASONS] else []) ++ [MDM_CTRL_CLEAR_HANGUP_REASONS]) m h.
Proof.
  cbv zeta. unfold mdm_mcd_get_state, mcd_ioctl. wp_calls.
  set (r := reply h (X_ioctl (mcd_fd m) MDM_CTRL_GET_STATE)). destruct (r.1 =? 0); wp_calls.
  - set (q := reply _ (X_ioctl (mcd_fd m) MDM_CTRL_GET_HANGUP_REASONS)).
    rewrite !driver_cons, <- !app_assoc. cbn [andb app]. split; [done|].
    unfold E_EV_MODEM_OFF, E_EV_IPC_READY, E_EV_CORE_DUMP, E_EV_FW_DOWNLOAD_READY,
      E_EV_MODEM_SELF_RESET.
    destruct ((q.1 =? 0) && (q.2 .& MDM_CTRL_HU_RESET));
      rewrite ?(has_bit (_ .| _)), ?(has_bit (events_of_state _)), ?Z.lor_spec, ?bit_testbit,
        !events_of_state_bit by lia;
      cbn [Z.eqb Pos.eqb]; rewrite ?andb_true_r, ?andb_false_r, ?orb_false_r; done.
  - rewrite !driver_cons, <- !app_assoc. done.
Qed.

(** * The filter *)

(** The states the driver was last asked to poll. *)
Fixpoint polled (h : history) : option Z :=
  match h with
  | [] => None
  | X_ioctl _ (MDM_CTRL_SET_POLLED_STATES f) :: _ => Some f
  | _ :: h' => polled h'
  end.

Inductive mcd_op := Reg (e : Z) (overwrite : bool) | Unreg (e : Z).

Definition run_mcd_op `{Platform} (o : mcd_op) : IO mmgr_mcd_ctx unit :=
  match o with
  | Reg e ow => _ ← mdm_mcd_register e ow; mret tt
  | Unreg e => _ ← mdm_mcd_unregister e; mret tt
  end.

(** Whether an event is registered for, after an operation. *)
Definition registered_after (i : Z) (b : bool) (o : mcd_op) : bool :=
  match o with
  | Reg e true => Z.testbit e i
  | Reg e false => b || Z.testbit e i
  | Unreg e => b && negb (Z.testbit e i)
  end.

Lemma run_mcd_op_wp `{Platform} o m h :
  wp False (run_mcd_op o)
    (fun _ m' h' => polled h' = Some (filter m') /\ mcd_fd m' = mcd_fd m /\
       forall i, 0 <= i ->
         Z.testbit (filter m') i = registered_after i (Z.testbit (filter m) i) o) m h.
Proof.
  destruct o as [e [|]|e]; cbn [run_mcd_op];
    unfold mdm_mcd_register, mdm_mcd_unregister, mdm_mcd_update_filter, mcd_ioctl; wp_calls;
    (split; [done|]); (split; [done|]); intros i Hi;
    cbn [filter set_filter registered_after].
  - done.
  - apply Z.lor_spec.
  - unfold clear. by rewrite Z.land_spec, Z.lnot_spec.
Qed.

(** The filter of the driver: after any sequence of registrations and
    unregistrations, the driver has been told to poll exactly the filter the
    daemon keeps, and a state is in it exactly when the operations, taken in
    order, leave it registered. *)
Theorem mcd_filter_tracks `{Platform} (l : list mcd_op) (m : mmgr_mcd_ctx) h :
  polled h = Some (filter m) ->
  wp False (for_each l run_mcd_op)
    (fun _ m' h' => polled h' = Some (filter m') /\
       forall i, 0 <= i -> Z.testbit (filter m') i =
         fold_left (registered_after i) l (Z.testbit (filter m) i)) m h.
Proof.
  revert m h. induction l as [|o l IH]; intros m h Hp; cbn [for_each]; [by wp_simp|].
  apply wp_bind. eapply wp_mono; [apply run_mcd_op_wp|]. cbv beta.
  intros _ m1 h1 (Hp1 & _ & Hb). eapply wp_mono; [by apply IH|]. cbv beta.
  intros _ m2 h2 (Hp2 & Hb2). split; [done|]. intros i Hi. cbn [fold_left].
  by rewrite Hb2, Hb.
Qed.

(** * Power *)

Section power.
Context `{Platform}.
Implicit Types (m : mmgr_mcd_ctx) (h : history).

(** The request a reset sends to the driver. *)
Definition reset_request (m : mmgr_mcd_ctx) : mdm_ctrl :=
  if ssic_hack m then MDM_CTRL_POWER_OFF else MDM_CTRL_COLD_RESET.

(** The status of an operation whose driver request had answer [r]. *)
Definition status (r : Z * Z) : e_mmgr_errors := if r.1 =? 0 then E_ERR_SUCCESS else E_ERR_FAILED.

Lemma cold_reset_wp m h :
  wp False mdm_mcd_cold_reset
    (fun r m' h' => m' = m /\ r = status (reply h (X_ioctl (mcd_fd m) (reset_request m))) /\
       driver_calls h' = driver_calls h ++ [reset_request m]) m h.
Proof.
  unfold mdm_mcd_cold_reset, mcd_ioctl, reset_request, status. wp_calls.
  destruct (ssic_hack m); wp_calls; [destruct (_ =? 0); wp_calls|].
  - rewrite driver_cons_other, driver_cons by done. by split_and!.
  - rewrite driver_cons. by split_and!.
  - rewrite driver_cons. by split_and!.
Qed.

(** A call of the link leaves the driver alone. *)
Lemma link_step {A} (k : IO mmgr_mcd_ctx A) (op : IO mmgr_mcd_ctx e_mmgr_errors) Q m h :
  within eq not_ioctl op -> wp False op (fun _ m' _ => m' = m) m h ->
  (forall h', driver_calls h' = driver_calls h -> wp False k Q m h') ->
  wp False (_ ← op; k) Q m h.
Proof.
  intros Hw Ht Hk. apply wp_bind. eapply wp_mono; [by eapply wp_within|].
  cbv beta. intros r m' h' (-> & _ & Hx). apply Hk. by apply driver_extends.
Qed.

Lemma mcd_down_wp m h :
  wp False mdm_mcd_down
    (fun r m' h' => m' = m /\ driver_calls h' = driver_calls h ++ [MDM_CTRL_POWER_OFF]) m h.
Proof.
  unfold mdm_mcd_down, mcd_ioctl. apply wp_bind, wp_get.
  destruct (ssic_hack m); cbn [negb when].
  - wp_calls. eapply wp_mono; [eapply wp_within; [apply link_down_quiet|apply link_down_total]|].
    cbv beta. intros ? ? h' (-> & _ & E%driver_extends). wp_simp. split; [done|].
    by rewrite E, !driver_cons, app_nil_r.
  - apply wp_bind. eapply link_step; [apply link_down_quiet|apply link_down_total|].
    intros h' E. wp_calls. rewrite driver_cons, E. by split.
Qed.

(** The requests that follow the reading of the state. *)
Definition boot_requests (m : mmgr_mcd_ctx) (state : Z) : list mdm_ctrl :=
  if state .& MDM_CTRL_STATE_OFF then
    MDM_CTRL_POWER_ON :: (if flashless m then [] else [reset_request m])
  else [reset_request m].

Lemma mcd_boot_wp state m h :
  wp False (mcd_boot state)
    (fun _ m' h' => m' = m /\ driver_calls h' = driver_calls h ++ boot_requests m state) m h.
Proof.
  unfold mcd_boot, boot_requests, mcd_ioctl. apply wp_bind, wp_get.
  destruct (state .& MDM_CTRL_STATE_OFF).
  - wp_calls. destruct (flashless m); cbn [negb]; wp_calls; [by rewrite driver_cons|].
    eapply wp_mono; [apply cold_reset_wp|]. cbv beta. intros ? ? ? (-> & _ & ->).
    rewrite driver_cons_other, driver_cons, <- app_assoc by done. done.
  - eapply wp_mono; [apply cold_reset_wp|]. cbv beta. by intros ? ? ? (-> & _ & ->).
Qed.

End power.

(** Turning the modem off for good: a modem that may be switched off gets
    one power-off request; one that may not (two modems share the supply) gets
    one reset request instead, and is never powered off unless the reset itself
    is done by power cycling. *)
Theorem mcd_off_requests `{Platform} (m : mmgr_mcd_ctx) h :
  wp False mdm_mcd_off
    (fun _ m' h' => m' = m /\
       driver_calls h' = driver_calls h ++
         [if off_allowed m then MDM_CTRL_POWER_OFF else reset_request m]) m h.
Proof.
  unfold mdm_mcd_off. apply wp_bind, wp_get. destruct (off_allowed m).
  - apply mcd_down_wp.
  - eapply wp_mono; [apply cold_reset_wp|]. cbv beta. by intros ? ? ? (-> & _ & E).
Qed.

(** Powering the modem up: the requests the driver gets depend on the
    state it reports.  An unreadable state ends the operation with a failure; a
    modem that is off is powered on, then reset too if it keeps its firmware in
    flash; a modem that is already on is reset. *)
Theorem mcd_up_requests `{Platform} (m : mmgr_mcd_ctx) h :
  wp False mdm_mcd_up
    (fun r m' h' => m' = m /\ exists h1,
       driver_calls h1 = driver_calls h /\
       let q := reply h1 (X_ioctl (mcd_fd m) MDM_CTRL_GET_STATE) in
       (q.1 <> 0 -> r = E_ERR_FAILED) /\
       driver_calls h' = driver_calls h ++ MDM_CTRL_GET_STATE ::
         (if q.1 =? 0 then boot_requests m q.2 else [])) m h.
Proof.
  unfold mdm_mcd_up. apply wp_bind, wp_get.
  eapply link_step; [apply link_reset_quiet|apply link_reset_total|]. intros h1 E1.
  unfold mcd_ioctl. wp_calls. set (q := reply h1 (X_ioctl (mcd_fd m) MDM_CTRL_GET_STATE)).
  destruct (Z.eqb_spec q.1 0) as [Hq|Hq].
  2:{ split; [done|]. exists h1. cbv zeta. fold q. rewrite (proj2 (Z.eqb_neq _ _) Hq).
      by rewrite driver_cons, E1. }
  wp_simp. eapply wp_mono; [apply mcd_boot_wp|]. cbv beta. intros r m' h2 (-> & E2).
  assert (Hd : driver_calls h2 = driver_calls h ++ MDM_CTRL_GET_STATE :: boot_requests m q.2)
    by (by rewrite E2, driver_cons, E1, <- app_assoc).
  assert (Hend : forall h3, driver_calls h3 = driver_calls h2 ->
    m = m /\ exists h1, driver_calls h1 = driver_calls h /\
      let q := reply h1 (X_ioctl (mcd_fd m) MDM_CTRL_GET_STATE) in
      (q.1 <> 0 -> r = E_ERR_FAILED) /\
      driver_calls h3 = driver_calls h ++ MDM_CTRL_GET_STATE ::
        (if q.1 =? 0 then boot_requests m q.2 else [])).
  { intros h3 E3. split; [done|]. exists h1. cbv zeta. fold q. rewrite Hq. cbn [Z.eqb].
    by rewrite E3, Hd. }
  destruct (succeeded r); cbn [negb]; wp_simp.
  - by apply Hend.
  - eapply wp_mono; [eapply wp_within; [apply link_down_quiet|apply link_down_total]|].
    cbv beta. intros ? ? h3 (-> & _ & Hx). apply Hend. by apply driver_extends.
Qed.

(** A modem control handle with the power controls of a single modem. *)
Definition demo_mcd : mmgr_mcd_ctx := {|
  mcd_fd := 4; ssic_hack := false; off_allowed := true; flashless := true;
  ipc_ready_present := true; filter := 8; mcd_link := demo_link |}.

Lemma mcd_filter_tracks_witness :
  exists m' h', for_each [Reg 16 false; Unreg 8; Reg 3 true; Reg 4 false] (@run_mcd_op still)
    demo_mcd [X_ioctl 4 (MDM_CTRL_SET_POLLED_STATES 8)] = Done tt m' h' /\
    polled h' = Some 7 /\ filter m' = 7.
Proof.
  destruct (wp_done _ _ _ _ (@mcd_filter_tracks still
    [Reg 16 false; Unreg 8; Reg 3 true; Reg 4 false] demo_mcd
    [X_ioctl 4 (MDM_CTRL_SET_POLLED_STATES 8)] eq_refl)) as ([] & m' & h' & E & Hp & _).
  exists m', h'. split; [exact E|]. rewrite Hp. revert E. vm_compute. by intros [= <- _].
Defined.
