(* ===== verification/Firmware.v ===== *)
(** The modem firmware: which file is pushed (libutils/mdm_fw.c), the calls of
    the modem update library (core/mdm_mup.c) and the flashing module
    (core/mdm_flash.c).

    The flashing thread is run where it is created: until it is joined, the
    daemon reads none of what it writes.  Strings are values; the buffers that
    hold them are not modelled. *)
From S2P Require Import Prelude Platform Io Files Msg Link.

(** * libutils/mdm_fw.c *)

Record mdm_dbg_fw := { miu_folder : list Z; miu_fw : list Z }.

(** [fw_dbg] is [None] in a production build. *)
Record mdm_fw := {
  fw_tlvs : list (list Z); fw_input : list Z; fw_injection : list Z; fw_factory : list Z;
  fw_runtime : list Z; fw_nvm_cal : list Z; fw_regexp : list Z; fw_dbg : option mdm_dbg_fw;
  fw_flashless : bool; blob_path : list Z; fw_packaged_path : list Z; rnd_path : option (list Z);
  nvm_dyn_path : list Z; nvm_sta_path : list Z }.

(** The configuration of the firmware and of the modem. *)
Record mmgr_fw := {
  cfg_input : list Z; cfg_injection : list Z; cfg_factory : list Z; cfg_runtime : list Z;
  cfg_nvm_cal : list Z; cfg_nvm_dyn : list Z; cfg_nvm_sta : list Z; cfg_rnd_cert : list Z }.

Record mdm_info := {
  mi_name : list Z; mi_hw_revision : list Z; mi_sw_revision : list Z; mi_flashless : bool;
  mi_tlvs : list (list Z) }.

Definition REGEXP_SIZE : Z := 128.

(** [revision], or the pattern [any] when it is not known. *)
Definition revision_or (any : string) (revision : list Z) : list Z :=
  if bool_decide (revision = bytes "NA") then bytes any else revision.

Definition get_fw_regexp (mdm_name : list Z) (flashless : bool) (hw_revision sw_revision : list Z)
  : list Z :=
  let fw_type := bytes (if flashless then "FLASHLESS" else "NAND") in
  in_buffer REGEXP_SIZE
    (if bool_decide (mdm_name = bytes "6360")
     then bytes "^XMM_" ++ mdm_name ++ bytes "_.*" ++ fw_type ++ bytes ".*\.fls$"
     else bytes "^XMM_" ++ mdm_name ++ bytes "_REV" ++ revision_or "[[:digit:]]{2}" hw_revision
       ++ bytes "_[[:digit:]]{4}\.[[:digit:]]{2}_V"
       ++ revision_or "[[:digit:]]{1}\.[[:digit:]]{1}" sw_revision
       ++ bytes ".*" ++ fw_type ++ bytes ".*\.fls$").

Section fw.
Context `{Platform} {S : Type}.

Definition mdm_fw_get_fw_path (fw : mdm_fw) : IO S (option (list Z)) :=
  miu ← match fw_dbg fw with
        | Some d => ok ← file_exist (miu_fw d); mret (if (ok : bool) then Some (miu_fw d) else None)
        | None => mret None
        end;
  match miu with
  | Some p => mret (Some p)
  | None =>
      files ← file_find (fw_input fw) (fw_regexp fw);
      mret (match files with [f] => Some f | _ => None end)
  end.

Definition mdm_fw_get_tlvs (fw : mdm_fw) : IO S (list (list Z)) :=
  match fw_dbg fw with
  | Some d =>
      files ← file_find_ext (miu_folder d) (bytes "tlv");
      if (0 <? length files)%nat then
        ok ← call (X_calloc (Z.of_nat (length (fw_tlvs fw) + length files)));
        ASSERT ok ;;
        mret (fw_tlvs fw ++ map (take (TLV_FILENAME_SIZE - 1)) files)
      else mret (fw_tlvs fw)
  | None => mret (fw_tlvs fw)
  end.

Definition mdm_fw_get_calib_files (fw : mdm_fw) : list Z * list Z :=
  (take (MY_PATH_MAX - 1) (path_join (fw_runtime fw) (fw_nvm_cal fw)),
   take (MY_PATH_MAX - 1) (path_join (fw_factory fw) (fw_nvm_cal fw))).

Definition mdm_fw_backup_calib (fw : mdm_fw) : IO S e_mmgr_errors :=
  let '(run, bkup) := mdm_fw_get_calib_files fw in file_copy run bkup.

Definition mdm_fw_prepare_calib (fw : mdm_fw) : IO S unit :=
  let '(run, bkup) := mdm_fw_get_calib_files fw in
  there ← file_exist run;
  when (negb there) (_ ← file_copy bkup run; mret tt).

Definition mdm_fw_get_runtime_path (fw : mdm_fw) : list Z := fw_runtime fw.
Definition mdm_fw_get_blob_hash_path (fw : mdm_fw) : list Z := blob_path fw.
Definition mdm_fw_get_rnd_path (fw : mdm_fw) : option (list Z) := rnd_path fw.
Definition mdm_fw_get_nvm_dyn_path (fw : mdm_fw) : list Z := nvm_dyn_path fw.
Definition mdm_fw_get_nvm_sta_path (fw : mdm_fw) : list Z := nvm_sta_path fw.
Definition mdm_fw_get_fw_package_path (fw : mdm_fw) : list Z := fw_packaged_path fw.
Definition mdm_fw_get_factory_folder (fw : mdm_fw) : list Z := fw_factory fw.

(** [None] in production. *)
Definition mdm_fw_dbg_get_miu_folder (fw : mdm_fw) : option (list Z) := miu_folder <$> fw_dbg fw.
Definition mdm_fw_dbg_get_miu_fw_path (fw : mdm_fw) : option (list Z) := miu_fw <$> fw_dbg fw.

Definition mdm_fw_create_folders (fw : mdm_fw) : IO S e_mmgr_errors :=
  if fw_flashless fw then
    r1 ← folder_create (fw_runtime fw);
    r2 ← folder_create (fw_injection fw);
    mdm_fw_prepare_calib fw ;;
    mret (if (r1 =? 0) && (r2 =? 0) then E_ERR_SUCCESS else E_ERR_FAILED)
  else mret E_ERR_SUCCESS.

Definition mdm_fw_compute_path (folder filename : list Z) : IO S (list Z) :=
  ok ← call (X_calloc (Z.of_nat (length folder + length filename + 2)));
  ASSERT ok ;;
  mret (path_join folder filename).

(** Result: the debug part and the path of the certificate. *)
Definition mdm_fw_dbg_init (debug : bool) (inst_id : Z) (input rnd_cert : list Z)
  : IO S (option mdm_dbg_fw * option (list Z)) :=
  if debug then
    ok ← call (X_calloc 24);
    ASSERT ok ;;
    miu ← mdm_fw_compute_path input (in_buffer 10 (bytes "miu_" ++ print_int inst_id));
    miu_fls ← mdm_fw_compute_path miu (bytes "fw.fls");
    rnd ← mdm_fw_compute_path miu rnd_cert;
    mret (Some {| miu_folder := miu; miu_fw := miu_fls |}, Some rnd)
  else mret (None, None).

(** [strncat] to a folder of the configuration. *)
Definition add_subfolder (folder sub : list Z) : list Z :=
  folder ++ take (FOLDER_SIZE - length folder - 1) sub.

(** [debug] is [MDM_FW_DEBUG].  Without an input folder the result is NULL; a
    debug build then frees the fields of a debug part that is not allocated. *)
Definition mdm_fw_init (debug : bool) (inst_id : Z) (mdm : mdm_info) (cfg : mmgr_fw)
  : IO S (option mdm_fw) :=
  ok ← call (X_calloc 1024);
  ASSERT ok ;;
  let sub := in_buffer 10 (bytes "/" ++ print_int inst_id ++ bytes "/") in
  let add folder := if mi_flashless mdm then add_subfolder folder sub else folder in
  let injection := add (cfg_injection cfg) in
  let factory := if inst_id =? 1 then cfg_factory cfg else add (cfg_factory cfg) in
  let runtime := add (cfg_runtime cfg) in
  there ← folder_exist (cfg_input cfg);
  if negb there then (if debug then undefined else mret None)
  else
    ok ← (if (0 <? length (mi_tlvs mdm))%nat then call (X_calloc (Z.of_nat (length (mi_tlvs mdm))))
          else mret true);
    ASSERT ok ;;
    blob ← mdm_fw_compute_path (cfg_input cfg) (bytes "hash");
    packaged ← mdm_fw_compute_path injection (bytes "fw.fls");
    dyn ← mdm_fw_compute_path runtime (cfg_nvm_dyn cfg);
    sta ← mdm_fw_compute_path runtime (cfg_nvm_sta cfg);
    '(dbg, rnd) ← mdm_fw_dbg_init debug inst_id (cfg_input cfg) (cfg_rnd_cert cfg);
    mret (Some
      {| fw_tlvs := map (fun f => take (TLV_FILENAME_SIZE - 1) (path_join (cfg_input cfg) f)) (mi_tlvs mdm);
         fw_input := cfg_input cfg; fw_injection := injection; fw_factory := factory;
         fw_runtime := runtime; fw_nvm_cal := cfg_nvm_cal cfg;
         fw_regexp := get_fw_regexp (mi_name mdm) (mi_flashless mdm) (mi_hw_revision mdm)
                        (mi_sw_revision mdm);
         fw_dbg := dbg; fw_flashless := mi_flashless mdm; blob_path := blob;
         fw_packaged_path := packaged; rnd_path := rnd; nvm_dyn_path := dyn; nvm_sta_path := sta |}).

(** * core/mdm_mup.c *)

Record mdm_mup_ctx := { mup_mdm_name : list Z; streamline_dlc : list Z; mup_rnd : list Z }.

Definition mup_verdict (err : e_mup_err) : e_modem_fw_error :=
  match err with
  | E_MUP_FW_RESTRICTED | E_MUP_SUCCEED => E_MODEM_FW_SUCCEED
  | E_MUP_FAILED | E_MUP_BAD_PARAMETER => E_MODEM_FW_ERROR_UNSPECIFIED
  | E_MUP_FW_OUTDATED => E_MODEM_FW_OUTDATED
  | E_MUP_FW_CORRUPTED => E_MODEM_FW_SECURITY_CORRUPTED
  end.

Definition mup_ok (e : e_mup_err) : bool := bool_decide (e = E_MUP_SUCCEED).

(** The body of [mdm_mup_push_fw] between the initialisation and [out]. *)
Definition mup_push (mup : mdm_mup_ctx) (fw eb_port fls_port : list Z) : IO S e_modem_fw_error :=
  v ← call (X_mup_check_fw_version fw (mup_mdm_name mup));
  if negb (mup_ok v) then mret E_MODEM_FW_BAD_FAMILY
  else
    o ← call (X_mup_open_device eb_port fls_port fw);
    if negb (mup_ok o) then mret E_MODEM_FW_ERROR_UNSPECIFIED
    else
      there ← file_exist (mup_rnd mup);
      c ← call (X_mup_config_secur_channel (if (there : bool) then Some (mup_rnd mup) else None));
      if negb (mup_ok c) then mret E_MODEM_FW_ERROR_UNSPECIFIED
      else err ← call (X_mup_update_fw eb_port fls_port fw); mret (mup_verdict err).

(** [None] stands for a NULL argument. *)
Definition mdm_mup_push_fw (mup : mdm_mup_ctx) (fw eb_port fls_port : option (list Z))
  : IO S e_modem_fw_error :=
  match fw, eb_port, fls_port with
  | Some fw, Some eb_port, Some fls_port =>
      i ← call X_mup_initialize;
      verdict ← (if mup_ok i.1 then mup_push mup fw eb_port fls_port
                 else mret E_MODEM_FW_ERROR_UNSPECIFIED);
      when (i.2) (_ ← call X_mup_dispose; mret tt) ;;
      mret verdict
  | _, _, _ => abort
  end.

Definition mdm_mup_package (nvm_folder input output : list Z) : IO S e_mmgr_errors :=
  e ← call (X_mup_gen_fls input output nvm_folder);
  mret (if mup_ok e then E_ERR_SUCCESS else E_ERR_FAILED).

Definition mdm_mup_push_tlv (mup : mdm_mup_ctx) (filename : list Z)
  : IO S mmgr_cli_nvm_update_result :=
  i ← call X_mup_initialize;
  if negb (mup_ok i.1)
  then mret {| nvm_id := E_MODEM_NVM_NO_NVM_PATCH; nvm_sub_error_code := mup_err_id E_MUP_FAILED |}
  else
    e ← call (X_mup_update_nvm (streamline_dlc mup) filename);
    _ ← call X_mup_dispose;
    mret {| nvm_id := if mup_ok e then E_MODEM_NVM_SUCCEED else E_MODEM_NVM_FAIL;
            nvm_sub_error_code := mup_err_id e |}.

(** [None] is the NULL handle of a failed symbol resolution. *)
Definition mdm_mup_init (mdm_name dlc : list Z) (rnd : option (list Z))
  : IO S (option mdm_mup_ctx) :=
  ok ← call (X_calloc 64);
  match rnd with
  | None => abort
  | Some rnd =>
      ASSERT ok ;;
      lib ← call (X_dlopen (bytes "libmodemupdate.so"));
      ASSERT lib ;;
      err ← call X_dlerror;
      mret (if (err : bool) then None
            else Some {| mup_mdm_name := mdm_name; streamline_dlc := dlc; mup_rnd := rnd |})
  end.

End fw.

(** * core/mdm_flash.c *)

Definition MDM_UPDATE_ERR_NONE : Z := 0.
Definition MDM_UPDATE_ERR_FLASH : Z := bit 0.
Definition MDM_UPDATE_ERR_TLV : Z := bit 1.

Definition HASH_SIZE : Z := 33.

Record mdm_flash_ctx := {
  fl_mup : mdm_mup_ctx; fl_fw : mdm_fw; fl_link : link_ctx;
  fl_flashless : bool; fl_update : bool; flash_ongoing : bool; attempts : Z;
  flash_err : e_modem_fw_error; upgrade_err : Z; fl_fd_pipe : Z * Z;
  fw_file : option (list Z); fw_packaged : list Z;
  blob_key : list Z; blob_value : list Z; cfg_key : list Z; cfg_value : list Z }.

Definition set_update (x : bool) (m : mdm_flash_ctx) : mdm_flash_ctx :=
  {| fl_mup := fl_mup m; fl_fw := fl_fw m; fl_link := fl_link m; fl_flashless :=
     fl_flashless m; fl_update := x; flash_ongoing := flash_ongoing m; attempts :=
     attempts m; flash_err := flash_err m; upgrade_err := upgrade_err m; fl_fd_pipe :=
     fl_fd_pipe m; fw_file := fw_file m; fw_packaged := fw_packaged m; blob_key :=
     blob_key m; blob_value := blob_value m; cfg_key := cfg_key m; cfg_value :=
     cfg_value m |}.
Definition set_ongoing (x : bool) (m : mdm_flash_ctx) : mdm_flash_ctx :=
  {| fl_mup := fl_mup m; fl_fw := fl_fw m; fl_link := fl_link m; fl_flashless :=
     fl_flashless m; fl_update := fl_update m; flash_ongoing := x; attempts := attempts
     m; flash_err := flash_err m; upgrade_err := upgrade_err m; fl_fd_pipe := fl_fd_pipe
     m; fw_file := fw_file m; fw_packaged := fw_packaged m; blob_key := blob_key m;
     blob_value := blob_value m; cfg_key := cfg_key m; cfg_value := cfg_value m |}.
Definition set_attempts (x : Z) (m : mdm_flash_ctx) : mdm_flash_ctx :=
  {| fl_mup := fl_mup m; fl_fw := fl_fw m; fl_link := fl_link m; fl_flashless :=
     fl_flashless m; fl_update := fl_update m; flash_ongoing := flash_ongoing m;
     attempts := x; flash_err := flash_err m; upgrade_err := upgrade_err m; fl_fd_pipe
     := fl_fd_pipe m; fw_file := fw_file m; fw_packaged := fw_packaged m; blob_key :=
     blob_key m; blob_value := blob_value m; cfg_key := cfg_key m; cfg_value :=
     cfg_value m |}.
Definition set_flash_err (x : e_modem_fw_error) (m : mdm_flash_ctx) : mdm_flash_ctx :=
  {| fl_mup := fl_mup m; fl_fw := fl_fw m; fl_link := fl_link m; fl_flashless :=
     fl_flashless m; fl_update := fl_update m; flash_ongoing := flash_ongoing m;
     attempts := attempts m; flash_err := x; upgrade_err := upgrade_err m; fl_fd_pipe :=
     fl_fd_pipe m; fw_file := fw_file m; fw_packaged := fw_packaged m; blob_key :=
     blob_key m; blob_value := blob_value m; cfg_key := cfg_key m; cfg_value :=
     cfg_value m |}.
Definition set_upgrade_err (x : Z) (m : mdm_flash_ctx) : mdm_flash_ctx :=
  {| fl_mup := fl_mup m; fl_fw := fl_fw m; fl_link := fl_link m; fl_flashless :=
     fl_flashless m; fl_update := fl_update m; flash_ongoing := flash_ongoing m;
     attempts := attempts m; flash_err := flash_err m; upgrade_err := x; fl_fd_pipe :=
     fl_fd_pipe m; fw_file := fw_file m; fw_packaged := fw_packaged m; blob_key :=
     blob_key m; blob_value := blob_value m; cfg_key := cfg_key m; cfg_value :=
     cfg_value m |}.
Definition set_fw_file (x : option (list Z)) (m : mdm_flash_ctx) : mdm_flash_ctx :=
  {| fl_mup := fl_mup m; fl_fw := fl_fw m; fl_link := fl_link m; fl_flashless :=
     fl_flashless m; fl_update := fl_update m; flash_ongoing := flash_ongoing m;
     attempts := attempts m; flash_err := flash_err m; upgrade_err := upgrade_err m;
     fl_fd_pipe := fl_fd_pipe m; fw_file := x; fw_packaged := fw_packaged m; blob_key :=
     blob_key m; blob_value := blob_value m; cfg_key := cfg_key m; cfg_value :=
     cfg_value m |}.
Definition set_cfg_value (x : list Z) (m : mdm_flash_ctx) : mdm_flash_ctx :=
  {| fl_mup := fl_mup m; fl_fw := fl_fw m; fl_link := fl_link m; fl_flashless :=
     fl_flashless m; fl_update := fl_update m; flash_ongoing := flash_ongoing m;
     attempts := attempts m; flash_err := flash_err m; upgrade_err := upgrade_err m;
     fl_fd_pipe := fl_fd_pipe m; fw_file := fw_file m; fw_packaged := fw_packaged m;
     blob_key := blob_key m; blob_value := blob_value m; cfg_key := cfg_key m; cfg_value
     := x |}.

Section flash.
Context `{Platform}.
Abbreviation IOf := (IO mdm_flash_ctx).

Definition mdm_flash_set_upgrade_err (err : Z) : IOf unit :=
  modify (fun m => set_upgrade_err (upgrade_err m .| err) m).

Definition mdm_flash_is_property_equal (key value : list Z) : IOf bool :=
  read ← property_get_string key; mret (bool_decide (read = cstr value)).

Definition mdm_flash_are_property_hashes_empty : IOf bool :=
  m ← get;
  b ← mdm_flash_is_property_equal (blob_key m) [];
  if (b : bool) then mdm_flash_is_property_equal (cfg_key m) [] else mret false.

(** The hash of the names of the TLV files and of the firmware's path. *)
Definition mdm_flash_compute_cfg_hash (fw : list Z) : IOf unit :=
  m ← get;
  tlvs ← mdm_fw_get_tlvs (fl_fw m);
  modify (set_cfg_value (md5_hex (concat tlvs ++ fw))).

Definition mdm_flash_is_hash_changed (fw_path : list Z) : IOf bool :=
  m ← get;
  blob ← mdm_flash_is_property_equal (blob_key m) (blob_value m);
  mdm_flash_compute_cfg_hash fw_path ;;
  m ← get;
  cfg ← mdm_flash_is_property_equal (cfg_key m) (cfg_value m);
  mret (negb blob || negb cfg).

(** The flashing thread; [bus] is the flash path the bus module has found. *)
Definition mdm_flash_push (bus : list Z) : IOf unit :=
  m ← get;
  match fw_file m with
  | None => abort
  | Some _ =>
      err ← mdm_mup_push_fw (fl_mup m) (fw_file m)
              (link_get_flash_interface (flash_ebl (fl_link m)) (Some bus))
              (link_get_flash_interface (flash_fw (fl_link m)) (Some bus));
      modify (set_flash_err err) ;;
      _ ← call (X_write (fl_fd_pipe m).2 [0]);
      mret tt
  end.

Definition mdm_flash_remove_fw_packaged : IOf unit :=
  m ← get;
  match fw_file m with
  | Some f =>
      when (fl_flashless m) (_ ← call (X_unlink f); mret tt) ;;
      modify (set_fw_file None)
  | None => mret tt
  end.

Definition mdm_flash_get_flashing_err : IOf e_modem_fw_error := gets flash_err.

Definition mdm_flash_get_upgrade_err : IOf Z := gets upgrade_err.

Definition mdm_flash_prepare : IOf e_mmgr_errors :=
  modify (set_upgrade_err MDM_UPDATE_ERR_NONE) ;;
  m ← get;
  input ← mdm_fw_get_fw_path (fl_fw m);
  ret ←
    match input with
    | Some input =>
        u ← mdm_flash_is_hash_changed input;
        modify (set_update u) ;;
        (if fl_flashless m then
           _ ← mdm_mup_package (fw_runtime (fl_fw m)) input (fw_packaged m);
           modify (set_fw_file (Some (fw_packaged m)))
         else modify (set_fw_file (Some input))) ;;
        f ← gets fw_file;
        there ← match f with Some f => file_exist f | None => mret false end;
        if (there : bool) then mret E_ERR_SUCCESS
        else modify (set_fw_file None) ;; mret E_ERR_FAILED
    | None => mret E_ERR_FAILED
    end;
  when (negb (succeeded ret)) (mdm_flash_set_upgrade_err MDM_UPDATE_ERR_FLASH) ;;
  mret ret.

Definition mdm_flash_start (bus : list Z) : IOf e_mmgr_errors :=
  m ← get;
  if negb (flash_ongoing m) then
    modify (set_attempts (int32 (attempts m + 1))) ;;
    modify (set_flash_err E_MODEM_FW_ERROR_UNSPECIFIED) ;;
    _ ← link_on_mdm_flash (fl_link m);
    _ ← call (X_pthread_create T_flash);
    mdm_flash_push bus ;;
    modify (set_ongoing true) ;;
    mret E_ERR_SUCCESS
  else mret E_ERR_FAILED.

Definition mdm_flash_finalize : IOf unit :=
  m ← get;
  when (flash_ongoing m)
    (_ ← call (X_pthread_join T_flash);
     modify (set_ongoing false) ;;
     mdm_flash_remove_fw_packaged ;;
     _ ← link_on_mdm_flash_complete (fl_link m);
     mret tt).

(** The loop over the TLV files: the last status, and the file that failed. *)
Fixpoint push_tlvs (mup : mdm_mup_ctx) (tlvs : list (list Z)) (err : mmgr_cli_nvm_update_result)
  : IOf (mmgr_cli_nvm_update_result * option (list Z)) :=
  match tlvs with
  | [] => mret (err, None)
  | f :: tlvs' =>
      err ← mdm_mup_push_tlv mup f;
      if bool_decide (nvm_id err = E_MODEM_NVM_SUCCEED) then push_tlvs mup tlvs' err
      else mdm_flash_set_upgrade_err MDM_UPDATE_ERR_TLV ;; mret (err, Some f)
  end.

(** Result: the file that failed, and [*err].  The caller's [err] is not
    initialised: its initial value is asked of the platform. *)
Definition mdm_flash_streamline : IOf (option (list Z) * mmgr_cli_nvm_update_result) :=
  m ← get;
  '(err, filename) ←
    (if negb (fl_update m) then
       mret ({| nvm_id := E_MODEM_NVM_NO_NVM_PATCH;
                nvm_sub_error_code := nvm_error_id E_MODEM_NVM_SUCCEED |}, None)
     else
       ASSERT (bool_decide (flash_err m = E_MODEM_FW_SUCCEED)) ;;
       tlvs ← mdm_fw_get_tlvs (fl_fw m);
       junk ← call X_uninitialised_nvm;
       r ← push_tlvs (fl_mup m) tlvs {| nvm_id := junk.1; nvm_sub_error_code := junk.2 |};
       modify (set_update false) ;;
       mret r);
  m ← get;
  when (bool_decide (nvm_id err = E_MODEM_NVM_NO_NVM_PATCH)
        || bool_decide (nvm_id err = E_MODEM_NVM_SUCCEED))
    (_ ← call (X_property_set (blob_key m) (blob_value m));
     _ ← call (X_property_set (cfg_key m) (cfg_value m));
     mret tt) ;;
  mret (filename, err).

Definition mdm_flash_get_fd : IOf Z := gets (fun m => (fl_fd_pipe m).1).

Definition mdm_flash_cancel {A} : IOf A := mdm_flash_remove_fw_packaged ;; exit_.

Definition mdm_flash_get_attempts : IOf Z := gets attempts.

Definition mdm_flash_reset_attempts : IOf unit := modify (set_attempts 0).

Definition mdm_flash_is_required : IOf bool := gets (fun m => fl_flashless m || fl_update m).

(** [mdm_flash_init]: [mdm_name] and [dlc] are the modem's name and the channel
    of its customisation. *)
Definition mdm_flash_init (mdm_name dlc : list Z) (fls : bool) (fw : mdm_fw) (keys : key_ctx)
    (l : link_ctx) : IO (option mdm_flash_ctx) unit :=
  ok ← call (X_calloc 256);
  ASSERT ok ;;
  mup ← mdm_mup_init mdm_name dlc (rnd_path fw);
  match mup with
  | None => abort
  | Some mup =>
      '(ret, blob) ← file_read (blob_path fw) HASH_SIZE;
      ASSERT (succeeded ret) ;;
      b ← property_get_string (k_blob keys);
      c ← (if bool_decide (b = []) then property_get_string (k_cfg keys) else mret b);
      when (bool_decide (b = []) && bool_decide (c = []))
        (_ ← call (X_unlink (nvm_dyn_path fw));
         match fw_dbg fw with
         | Some d => _ ← folder_remove (miu_folder d); mret tt
         | None => abort
         end) ;;
      p ← call X_pipe;
      match p with
      | Some p => modify (fun _ => Some
          {| fl_mup := mup; fl_fw := fw; fl_link := l; fl_flashless := fls;
             fl_update := false; flash_ongoing := false; attempts := 0;
             flash_err := E_MODEM_FW_ERROR_UNSPECIFIED; upgrade_err := MDM_UPDATE_ERR_NONE;
             fl_fd_pipe := p; fw_file := None; fw_packaged := fw_packaged_path fw;
             blob_key := k_blob keys; blob_value := cstr blob;
             cfg_key := k_cfg keys; cfg_value := [] |})
      | None => abort
      end
  end.

End flash.

(** * Pushing a firmware *)

Section mup_lemmas.
Context `{Platform} {S : Type}.
Implicit Types (s : S) (h : history).

(** How many contexts of the update library are open. *)
Fixpoint mup_open (h : history) : Z :=
  match h with
  | [] => 0
  | X_mup_initialize :: h' => mup_open h' + (if (reply h' X_mup_initialize).2 then 1 else 0)
  | X_mup_dispose :: h' => mup_open h' - 1
  | _ :: h' => mup_open h'
  end.

(** The stages of an update, each given the answers so far. *)
Definition stages_ok (mup : mdm_mup_ctx) (fw eb fls : list Z) (h : history) : bool :=
  let h1 := X_mup_check_fw_version fw (mup_mdm_name mup) :: h in
  let h2 := X_mup_open_device eb fls fw :: h1 in
  let h3 := X_stat_isreg (mup_rnd mup) :: h2 in
  let c := X_mup_config_secur_channel
             (if reply h2 (X_stat_isreg (mup_rnd mup)) then Some (mup_rnd mup) else None) in
  let u := X_mup_update_fw eb fls fw in
  mup_ok (reply h (X_mup_check_fw_version fw (mup_mdm_name mup))) &&
  mup_ok (reply h1 (X_mup_open_device eb fls fw)) &&
  mup_ok (reply h3 c) &&
  bool_decide (mup_verdict (reply (c :: h3) u) = E_MODEM_FW_SUCCEED).

Lemma mup_push_wp mup fw eb fls s h :
  wp False (mup_push mup fw eb fls)
    (fun v s' h' => s' = s /\ mup_open h' = mup_open h /\
       (v = E_MODEM_FW_SUCCEED <-> stages_ok mup fw eb fls h = true)) s h.
Proof.
  unfold mup_push, stages_ok, file_exist. wp_call.
  destruct (mup_ok (reply h (X_mup_check_fw_version fw (mup_mdm_name mup)))); cbn [negb andb];
    [|by split_and!].
  wp_call. destruct (mup_ok _); cbn [negb andb]; [|by split_and!].
  wp_call. wp_call. destruct (mup_ok _); cbn [negb andb]; [|by split_and!].
  wp_call. split; [done|]. split; [done|]. by rewrite bool_decide_eq_true.
Qed.

End mup_lemmas.

(** Pushing a firmware through the update library: the verdict is a
    success exactly when the library could be initialised and every stage
    (family check, device, secure channel, update) succeeded, a restricted
    firmware counting as one; and a context the library opened is closed again
    on every path. *)
Theorem push_fw_verdict `{Platform} {S} (mup : mdm_mup_ctx) fw eb fls (s : S) h :
  let i := reply h X_mup_initialize in
  wp False (mdm_mup_push_fw mup (Some fw) (Some eb) (Some fls))
    (fun v s' h' => s' = s /\ mup_open h' = mup_open h /\
       (v = E_MODEM_FW_SUCCEED <->
        mup_ok i.1 && stages_ok mup fw eb fls (X_mup_initialize :: h) = true)) s h.
Proof.
  intros i. unfold mdm_mup_push_fw. wp_call. fold i.
  assert (Hend : forall (v : e_modem_fw_error) h1,
    mup_open h1 = mup_open h + (if i.2 then 1 else 0) ->
    wp False (when i.2 (_ ← call X_mup_dispose; mret tt) ;; mret v)
      (fun v' s' h' => s' = s /\ mup_open h' = mup_open h /\ v' = v) s h1).
  { intros v h1 E. destruct i.2; wp_calls; split; try done; split; try done; cbn [mup_open]; lia. }
  apply wp_bind. destruct (mup_ok i.1); cbn [andb].
  - eapply wp_mono; [apply mup_push_wp|]. cbv beta. intros v s' h1 (-> & E & Hv).
    eapply wp_mono; [apply Hend; rewrite E; reflexivity|]. cbv beta.
    intros v' s' h' (-> & E' & ->). by split_and!.
  - apply wp_ret. eapply wp_mono; [apply (Hend E_MODEM_FW_ERROR_UNSPECIFIED); reflexivity|]. cbv beta.
    intros v' s' h' (-> & E' & ->). by split_and!.
Qed.

(** * The flashing thread *)

(** How many threads of a kind are running. *)
Fixpoint threads (flashing : bool) (h : history) : Z :=
  match h with
  | [] => 0
  | X_pthread_create T_flash :: h' => threads flashing h' + (if flashing then 1 else 0)
  | X_pthread_join T_flash :: h' => threads flashing h' - (if flashing then 1 else 0)
  | X_pthread_create T_mcdr :: h' => threads flashing h' + (if flashing then 0 else 1)
  | X_pthread_join T_mcdr :: h' => threads flashing h' - (if flashing then 0 else 1)
  | _ :: h' => threads flashing h'
  end.

Definition not_thread (c : extcall) : bool :=
  match c with
  | X_pthread_create (T_flash | T_mcdr) | X_pthread_join (T_flash | T_mcdr) => false
  | _ => true
  end.

Lemma threads_extends b h h' : extends not_thread h h' -> threads b h' = threads b h.
Proof.
  intros (k & -> & Hk). induction Hk as [|c k Hc Hk IH]; [done|].
  change ((c :: k) ++ h) with (c :: (k ++ h)). destruct c; try exact IH;
    match goal with t : thread |- _ => by destruct t end.
Qed.

Inductive flash_op := F_prepare | F_start (bus : list Z) | F_finalize.

Section flash_lemmas.
Context `{Platform}.
Implicit Types (m : mdm_flash_ctx) (h : history).

Definition run_flash_op (o : flash_op) : IO mdm_flash_ctx unit :=
  match o with
  | F_prepare => _ ← mdm_flash_prepare; mret tt
  | F_start bus => _ ← mdm_flash_start bus; mret tt
  | F_finalize => mdm_flash_finalize
  end.

(** There is a thread exactly when the module believes there is one. *)
Definition one_thread (m : mdm_flash_ctx) (h : history) : Prop :=
  threads true h = Z.b2z (flash_ongoing m).

(** A property of how a program ends, should it not fail an assertion. *)
Definition ends {S A} (r : outcome history S A) (Q : S -> history -> Prop) : Prop :=
  match r with
  | Done _ s h => Q s h
  | Abort _ => True
  | Exit _ | Undef _ => False
  end.

Lemma prepare_within : within (same flash_ongoing) not_thread mdm_flash_prepare.
Proof. within_auto. Qed.

Lemma push_within bus : within (same flash_ongoing) not_thread (mdm_flash_push bus).
Proof. within_auto. Qed.

(** The parts of the flash module that preparing a firmware leaves alone. *)
Definition flash_static (m : mdm_flash_ctx) :=
  (fl_mup m, fl_fw m, fl_link m, fl_flashless m, flash_ongoing m, attempts m, flash_err m,
   fl_fd_pipe m, fw_packaged m, (blob_key m, blob_value m, cfg_key m)).

Lemma prepare_static : within (same flash_static) not_thread mdm_flash_prepare.
Proof. within_auto. Qed.

Lemma fw_path_total {S} fw (s : S) h : files_ok ->
  wp False (mdm_fw_get_fw_path fw) (fun _ s' _ => s' = s) s h.
Proof.
  intros Hok. cut (dia (S := S) h (mdm_fw_get_fw_path fw) anyQ).
  { intros Hd. eapply wp_mono; [apply Hd|]. cbv beta. naive_solver. }
  unfold mdm_fw_get_fw_path, file_exist. dia_auto.
Qed.

Lemma get_tlvs_total {S} fw (s : S) h : files_ok ->
  wp False (mdm_fw_get_tlvs fw)
    (fun l s' _ => s' = s /\ exists extra, l = fw_tlvs fw ++ extra /\
       (fw_dbg fw = None -> extra = []) /\
       Forall (fun f => (length f <= TLV_FILENAME_SIZE - 1)%nat) extra) s h.
Proof.
  intros Hok. unfold mdm_fw_get_tlvs, file_find_ext. destruct (fw_dbg fw) as [d|].
  - apply wp_bind. eapply wp_mono; [by apply dia_find|]. cbv beta. intros files s' h' (-> & _ & _).
    destruct (0 <? length files)%nat; [|split; [done|]; exists []; by rewrite app_nil_r].
    wp_call. rewrite (fo_alloc Hok). cbn [ASSERT]. split; [done|].
    eexists. split; [reflexivity|]. split; [done|].
    apply Forall_map, Forall_true. intros f. rewrite length_take. lia.
  - split; [done|]. exists []. by rewrite app_nil_r.
Qed.

Lemma hash_changed_total p m h : files_ok ->
  wp False (mdm_flash_is_hash_changed p) (fun _ m' _ => upgrade_err m' = upgrade_err m) m h.
Proof.
  unfold mdm_flash_is_hash_changed, mdm_flash_is_property_equal, property_get_string,
    mdm_flash_compute_cfg_hash. intros Hok. wp_calls.
  eapply wp_mono; [by apply get_tlvs_total|]. cbv beta. intros tl m' h' [-> _]. by wp_calls.
Qed.

Lemma prepare_total m h : files_ok ->
  wp False mdm_flash_prepare
    (fun r m' _ => (succeeded r = true -> is_Some (fw_file m')) /\
       upgrade_err m' = (if succeeded r then MDM_UPDATE_ERR_NONE else MDM_UPDATE_ERR_FLASH)) m h.
Proof.
  intros Hok. unfold mdm_flash_prepare. apply wp_bind, wp_modify, wp_bind, wp_get, wp_bind.
  eapply wp_mono; [by apply fw_path_total|]. cbv beta. intros [input|] m1 h1 ->.
  2:{ wp_simp. by split. }
  apply wp_bind, wp_bind. eapply wp_mono; [by apply hash_changed_total|]. cbv beta.
  intros u m2 h2 E2. cbn [upgrade_err set_upgrade_err] in E2. apply wp_bind, wp_modify.
  unfold mdm_mup_package, file_exist, mdm_flash_set_upgrade_err.
  cbn [fl_flashless set_upgrade_err].
  destruct (fl_flashless m); wp_calls; cbn [fw_file set_fw_file];
    wp_calls; destruct (reply _ (X_stat_isreg _)); wp_simp; cbn;
    rewrite ?E2; split; done.
Qed.

(** The ports the flashing thread needs are known. *)
Definition flash_links_ok (l : link_ctx) : Prop :=
  lk_type (flash_ebl l) <> E_LINK_OTHER /\ lk_type (flash_fw l) <> E_LINK_OTHER.

Lemma flash_interface_some l bus : lk_type l <> E_LINK_OTHER ->
  exists p, link_get_flash_interface l (Some bus) = Some p.
Proof. unfold link_get_flash_interface. destruct (lk_type l); try done; by eexists. Qed.

Lemma push_fw_total {S} mup fw eb fls (s : S) h :
  wp False (mdm_mup_push_fw mup (Some fw) (Some eb) (Some fls)) (fun _ s' _ => s' = s) s h.
Proof.
  unfold mdm_mup_push_fw. wp_call. apply wp_bind. destruct (mup_ok _).
  - eapply wp_mono; [apply mup_push_wp|]. cbv beta. intros v s' h' (-> & _).
    destruct (snd _); by wp_calls.
  - apply wp_ret. destruct (snd _); by wp_calls.
Qed.

Lemma push_wp bus f m h : fw_file m = Some f -> flash_links_ok (fl_link m) ->
  wp False (mdm_flash_push bus) (fun _ m' _ => exists v, m' = set_flash_err v m) m h.
Proof.
  intros Hf [H1 H2]. unfold mdm_flash_push. apply wp_bind, wp_get. rewrite Hf.
  destruct (flash_interface_some _ bus H1) as [p1 ->], (flash_interface_some _ bus H2) as [p2 ->].
  apply wp_bind. eapply wp_mono; [apply push_fw_total|]. cbv beta. intros v m' h' ->.
  wp_calls. by exists v.
Qed.

Lemma push_ends bus m h : ends (mdm_flash_push bus m h) (fun _ _ => True).
Proof.
  destruct (fw_file m) as [f|] eqn:Hf.
  2:{ unfold mdm_flash_push. run_simp. by rewrite Hf. }
  destruct (decide (lk_type (flash_ebl (fl_link m)) = E_LINK_OTHER)) as [E|E].
  { unfold mdm_flash_push. run_simp. rewrite Hf. unfold link_get_flash_interface at 1.
    by rewrite E. }
  destruct (decide (lk_type (flash_fw (fl_link m)) = E_LINK_OTHER)) as [E2|E2].
  { unfold mdm_flash_push. run_simp. rewrite Hf. unfold link_get_flash_interface at 2.
    rewrite E2. destruct (link_get_flash_interface _ _); done. }
  destruct (wp_done _ _ _ _ (push_wp bus f m h Hf (conj E E2))) as (a & m' & h' & -> & _). done.
Qed.

(** Starting: one more thread, which has left its verdict, or nothing at all. *)
Lemma start_ends bus m h : one_thread m h -> ends (mdm_flash_start bus m h) one_thread.
Proof.
  unfold one_thread. intros Ht. unfold mdm_flash_start. run_simp.
  destruct (flash_ongoing m) eqn:Eo; cbn [negb]; run_simp; [cbn [ends]; by rewrite Eo|].
  set (m1 := set_flash_err _ _).
  destruct (wp_done _ _ _ _ (wp_within _ _ _ _ _ _ _ (link_flash_quiet (fl_link m))
    (link_flash_total (fl_link m) m1 h))) as (r & m2 & h2 & E2 & -> & _ & _).
  assert (Hx : extends not_thread h h2).
  { assert (Hw : within (@eq mdm_flash_ctx) not_thread (link_on_mdm_flash (fl_link m))) by within_auto.
    specialize (Hw m1 h). rewrite E2 in Hw. apply Hw. }
  rewrite (run_bind _ _ _ _ _ _ _ E2). run_calls.
  pose proof (push_ends bus m1 (X_pthread_create T_flash :: h2)) as Hp.
  pose proof (push_within bus m1 (X_pthread_create T_flash :: h2)) as Hw.
  unfold mbind at 1, M_bind at 1. destruct (mdm_flash_push bus m1 _) as [a m3 h3| | |]; try done.
  run_simp. cbn [ends flash_ongoing set_ongoing]. destruct Hw as [_ Hw].
  rewrite (threads_extends _ _ _ Hw). cbn [threads]. rewrite (threads_extends _ _ _ Hx), Ht. done.
Qed.

Lemma complete_wp l m h :
  wp False (_ ← link_on_mdm_flash_complete l; mret tt)
    (fun _ m' h' => m' = m /\ threads true h' = threads true h) m h.
Proof.
  apply wp_bind.
  assert (Hw : within (@eq mdm_flash_ctx) not_thread (link_on_mdm_flash_complete l)) by within_auto.
  eapply wp_mono; [eapply wp_within; [exact Hw|apply link_flash_complete_total]|]. cbv beta.
  intros r m2 h2 (-> & _ & Hx). apply wp_ret. by rewrite (threads_extends _ _ _ Hx).
Qed.

Lemma remove_wp m h :
  wp False mdm_flash_remove_fw_packaged
    (fun _ m' h' => m' = set_fw_file None m /\ threads true h' = threads true h) m h.
Proof.
  unfold mdm_flash_remove_fw_packaged. apply wp_bind, wp_get.
  destruct (fw_file m) eqn:E; [destruct (fl_flashless m); by wp_calls|].
  split; [|done]. destruct m; cbn in *; by subst.
Qed.

Lemma finalize_wp m h : one_thread m h ->
  wp False mdm_flash_finalize
    (fun _ m' h' => one_thread m' h' /\
       m' = (if flash_ongoing m then set_fw_file None (set_ongoing false m) else m)) m h.
Proof.
  unfold one_thread, mdm_flash_finalize. intros Ht. apply wp_bind, wp_get, wp_when.
  destruct (flash_ongoing m) eqn:Eo; [|by rewrite ?Eo].
  wp_call. apply wp_bind, wp_modify, wp_bind. eapply wp_mono; [apply remove_wp|]. cbv beta.
  intros _ m' h' [-> E]. eapply wp_mono; [apply complete_wp|]. cbv beta.
  intros _ m' h2 [-> E2]. split; [|done]. rewrite E2, E. cbn [threads]. rewrite Ht. done.
Qed.

Lemma flash_start_wp bus f m h :
  fw_file m = Some f -> flash_links_ok (fl_link m) ->
  wp False (mdm_flash_start bus)
    (fun r m' h' =>
       if flash_ongoing m then r = E_ERR_FAILED /\ m' = m /\ h' = h
       else r = E_ERR_SUCCESS /\ threads true h' = threads true h + 1 /\
         exists v, m' = set_ongoing true (set_flash_err v
           (set_flash_err E_MODEM_FW_ERROR_UNSPECIFIED (set_attempts (int32 (attempts m + 1)) m)))) m h.
Proof.
  intros Hf Hl. unfold mdm_flash_start. apply wp_bind, wp_get.
  destruct (flash_ongoing m) eqn:Eo; cbn [negb]; [done|].
  apply wp_bind, wp_modify, wp_bind, wp_modify, wp_bind.
  assert (Hw : within (@eq mdm_flash_ctx) not_thread (link_on_mdm_flash (fl_link m))) by within_auto.
  eapply wp_mono; [eapply wp_within; [exact Hw|apply link_flash_total]|]. cbv beta.
  intros r m1 h1 (-> & _ & Hx). wp_call. apply wp_bind.
  eapply wp_mono; [eapply wp_within; [apply push_within|by apply (push_wp _ f)]|]. cbv beta.
  intros _ m2 h2 ((v & ->) & _ & Hx2). wp_simp. split; [done|]. split; [|by exists v].
  rewrite (threads_extends _ _ _ Hx2). cbn [threads]. by rewrite (threads_extends _ _ _ Hx).
Qed.

End flash_lemmas.

(** The flashing thread: whatever sequence of preparations, starts and
    ends of a flashing is run, the number of threads created and not yet joined
    is 0 or 1, and it is what the module's own flag says, so two threads never
    push a firmware at once and none is joined twice; the only other way to end
    is a failed assertion. *)
Theorem flash_one_thread `{Platform} (l : list flash_op) m h :
  files_ok -> one_thread m h ->
  ends (for_each l run_flash_op m h) one_thread.
Proof.
  intros Hok. revert m h. induction l as [|o l IH]; intros m h Ht; [done|]. cbn [for_each].
  assert (Ho : ends (run_flash_op o m h) one_thread).
  { destruct o as [|bus|]; cbn [run_flash_op].
    - destruct (wp_done _ _ _ _ (wp_within _ _ _ _ _ _ _ prepare_within (prepare_total m h Hok)))
        as (r & m' & h' & E & _ & Hs & Hx).
      rewrite (run_bind _ _ _ _ _ _ _ E). cbn. unfold one_thread.
      rewrite (threads_extends _ _ _ Hx). by rewrite Hs.
    - pose proof (start_ends bus m h Ht) as Hs. unfold mbind, M_bind.
      destruct (mdm_flash_start bus m h); done.
    - destruct (wp_done _ _ _ _ (finalize_wp m h Ht)) as (r & m' & h' & -> & Hf & _). done. }
  unfold mbind, M_bind. destruct (run_flash_op o m h); try done. by apply IH.
Qed.

(** Starting a flashing with a firmware ready: a second start is refused
    and changes nothing; otherwise the attempt is counted, one thread is created
    and it leaves a verdict. *)
Theorem flash_start_spec `{Platform} bus f m h :
  fw_file m = Some f -> flash_links_ok (fl_link m) ->
  wp False (mdm_flash_start bus)
    (fun r m' h' =>
       if flash_ongoing m then r = E_ERR_FAILED /\ m' = m /\ h' = h
       else r = E_ERR_SUCCESS /\ threads true h' = threads true h + 1 /\
         exists v, m' = set_ongoing true (set_flash_err v
           (set_flash_err E_MODEM_FW_ERROR_UNSPECIFIED (set_attempts (int32 (attempts m + 1)) m)))) m h.
Proof. apply flash_start_wp. Qed.

(** * Customisation *)

(** The TLV files given to the update library, and the properties stored, oldest
    first. *)
Definition tlv_pushed (h : history) : list (list Z) :=
  omap (fun c => match c with X_mup_update_nvm _ f => Some f | _ => None end) (rev h).

Definition props_stored (h : history) : list (list Z * list Z) :=
  omap (fun c => match c with X_property_set k v => Some (k, v) | _ => None end) (rev h).

Lemma tlv_pushed_cons c h :
  tlv_pushed (c :: h) = tlv_pushed h ++ match c with X_mup_update_nvm _ f => [f] | _ => [] end.
Proof. unfold tlv_pushed. cbn. rewrite omap_app. by destruct c. Qed.

Lemma stored_cons c h :
  props_stored (c :: h) = props_stored h ++ match c with X_property_set k v => [(k, v)] | _ => [] end.
Proof. unfold props_stored. cbn. rewrite omap_app. by destruct c. Qed.

Definition neither (c : extcall) : bool :=
  match c with X_property_set _ _ | X_mup_update_nvm _ _ => false | _ => true end.

Lemma neither_extends h h' : extends neither h h' ->
  tlv_pushed h' = tlv_pushed h /\ props_stored h' = props_stored h.
Proof.
  intros (k & -> & Hk). induction Hk as [|c k Hc Hk [IH1 IH2]]; [done|].
  change ((c :: k) ++ h) with (c :: (k ++ h)). rewrite tlv_pushed_cons, stored_cons, IH1, IH2.
  by destruct c; rewrite ?app_nil_r.
Qed.

(** What pushing the list [l] may have come to, [r] being the result. *)
Definition tlvs_outcome (l : list (list Z)) (r : option (list Z) * mmgr_cli_nvm_update_result)
    (old new : list (list Z)) : Prop :=
  match r.1 with
  | None => nvm_id r.2 = E_MODEM_NVM_SUCCEED /\ new = old ++ l
  | Some f => exists l1 l2, l = l1 ++ f :: l2 /\
      (nvm_id r.2 = E_MODEM_NVM_FAIL /\ new = old ++ l1 ++ [f] \/
       nvm_id r.2 = E_MODEM_NVM_NO_NVM_PATCH /\ new = old ++ l1)
  end.

Section streamline.
Context `{Platform}.
Implicit Types (m : mdm_flash_ctx) (h : history).

Lemma push_tlv_wp mup f m h :
  wp False (mdm_mup_push_tlv mup f) (fun r m' h' => m' = m /\ props_stored h' = props_stored h /\
    match nvm_id r with
    | E_MODEM_NVM_NO_NVM_PATCH => tlv_pushed h' = tlv_pushed h
    | E_MODEM_NVM_SUCCEED | E_MODEM_NVM_FAIL => tlv_pushed h' = tlv_pushed h ++ [f]
    | _ => False
    end) m h.
Proof.
  unfold mdm_mup_push_tlv. wp_call. destruct (mup_ok _); cbn [negb].
  - wp_calls. rewrite !stored_cons, !tlv_pushed_cons, !app_nil_r.
    split; [done|]. split; [done|]. cbn [nvm_id]. by destruct (mup_ok _).
  - wp_calls. by rewrite stored_cons, tlv_pushed_cons, !app_nil_r.
Qed.

Lemma push_tlvs_wp mup l err m h :
  l <> [] \/ nvm_id err = E_MODEM_NVM_SUCCEED ->
  wp False (push_tlvs mup l err) (fun r m' h' =>
    m' = set_upgrade_err (if r.2 is Some _ then upgrade_err m .| MDM_UPDATE_ERR_TLV else upgrade_err m) m /\
    props_stored h' = props_stored h /\ tlvs_outcome l (r.2, r.1) (tlv_pushed h) (tlv_pushed h')) m h.
Proof.
  revert err m h. induction l as [|f l IH]; intros err m h Hl; cbn [push_tlvs].
  { apply wp_ret. split; [by destruct m|]. split; [done|]. cbn. rewrite app_nil_r.
    by destruct Hl. }
  apply wp_bind. eapply wp_mono; [apply push_tlv_wp|]. cbv beta. intros r m1 h1 (-> & Es & Ep).
  case_bool_decide as Er.
  - eapply wp_mono; [apply IH; by right|]. cbv beta. intros [r2 [g|]] m2 h2 (-> & Es2 & Ho);
      rewrite Er in Ep; rewrite Ep in Ho; cbn in *.
    + split; [done|]. split; [congruence|]. destruct Ho as (l1 & l2 & -> & Ho).
      exists (f :: l1), l2. split; [done|]. rewrite <- !app_assoc in Ho. exact Ho.
    + split; [done|]. split; [congruence|]. rewrite <- app_assoc in Ho. exact Ho.
  - unfold mdm_flash_set_upgrade_err. wp_simp. split; [done|]. split; [done|].
    exists [], l. split; [done|]. cbn. destruct (nvm_id r); try done; [right|left]; by rewrite ?app_nil_r.
Qed.

Lemma get_tlvs_quiet {S} fw : within (@eq S) neither (mdm_fw_get_tlvs fw).
Proof. within_auto. Qed.

(** The part of [mdm_flash_streamline] after the files. *)
Lemma store_wp err (r : option (list Z) * mmgr_cli_nvm_update_result) m h :
  nvm_id r.2 = nvm_id err ->
  wp False (when (bool_decide (nvm_id err = E_MODEM_NVM_NO_NVM_PATCH)
        || bool_decide (nvm_id err = E_MODEM_NVM_SUCCEED))
    (_ ← call (X_property_set (blob_key m) (blob_value m));
     _ ← call (X_property_set (cfg_key m) (cfg_value m));
     mret tt) ;; mret r)
    (fun r' m' h' => r' = r /\ m' = m /\ tlv_pushed h' = tlv_pushed h /\
       props_stored h' = props_stored h ++
         match nvm_id r.2 with
         | E_MODEM_NVM_NO_NVM_PATCH | E_MODEM_NVM_SUCCEED =>
             [(blob_key m, blob_value m); (cfg_key m, cfg_value m)]
         | _ => []
         end) m h.
Proof.
  intros ->. apply wp_bind, wp_when.
  destruct (nvm_id err); cbn; wp_calls;
    split_and!; try done; rewrite ?stored_cons, ?tlv_pushed_cons, ?app_nil_r, <- ?app_assoc; done.
Qed.

End streamline.

(** Customising the modem after a firmware was pushed: the TLV files are
    given to the update library in order until one is refused; that file is
    reported and recorded as a TLV error, and nothing is left to update.  The
    hashes that make the next boot skip the update are stored exactly when the
    status is a success or says that there was no patch. *)
Theorem streamline_spec `{Platform} m h :
  files_ok -> (fl_update m = true -> flash_err m = E_MODEM_FW_SUCCEED /\ fw_tlvs (fl_fw m) <> []) ->
  wp False mdm_flash_streamline (fun r m' h' =>
    (if fl_update m then
       (exists extra, tlvs_outcome (fw_tlvs (fl_fw m) ++ extra) r (tlv_pushed h) (tlv_pushed h') /\
         (fw_dbg (fl_fw m) = None -> extra = [])) /\
       m' = set_update false (set_upgrade_err
              (if r.1 is Some _ then upgrade_err m .| MDM_UPDATE_ERR_TLV else upgrade_err m) m)
     else r.1 = None /\ nvm_id r.2 = E_MODEM_NVM_NO_NVM_PATCH /\ m' = m /\ tlv_pushed h' = tlv_pushed h) /\
    props_stored h' = props_stored h ++
      match nvm_id r.2 with
      | E_MODEM_NVM_NO_NVM_PATCH | E_MODEM_NVM_SUCCEED =>
          [(blob_key m, blob_value m); (cfg_key m, cfg_value m)]
      | _ => []
      end) m h.
Proof.
  intros Hok Hu. unfold mdm_flash_streamline. apply wp_bind, wp_get, wp_bind.
  destruct (fl_update m); cbn [negb].
  2:{ apply wp_ret, wp_bind, wp_get. eapply wp_mono; [by apply store_wp|]. cbv beta.
      intros r m' h' (-> & -> & -> & ->). done. }
  destruct (Hu eq_refl) as [He Ht]. apply wp_bind. rewrite (bool_decide_eq_true_2 _ He).
  apply wp_ret, wp_bind.
  eapply wp_mono; [eapply wp_within; [apply get_tlvs_quiet|by apply get_tlvs_total]|]. cbv beta.
  intros tl m1 h1 ((-> & extra & -> & Hx & _) & _ & Hq). apply neither_extends in Hq as [Eq1 Eq2].
  wp_call. apply wp_bind. eapply wp_mono; [apply push_tlvs_wp; left; by destruct (fw_tlvs _)|].
  cbv beta. intros [err file] m2 h2 (-> & Es & Ho). cbn [fst snd] in *.
  rewrite tlv_pushed_cons, app_nil_r, Eq1 in Ho. rewrite stored_cons, app_nil_r, Eq2 in Es.
  apply wp_bind, wp_modify, wp_ret, wp_bind, wp_get.
  eapply wp_mono; [by apply store_wp|]. cbv beta. intros r m' h' (-> & -> & E1 & E2).
  rewrite E2, E1, Es. split; [|done]. split; [|done]. by exists extra.
Qed.

(** A module whose firmware is found and whose modem takes one TLV file. *)
Definition demo_flash : mdm_flash_ctx := {|
  fl_mup := {| mup_mdm_name := bytes "XMM7160"; streamline_dlc := bytes "/dev/gsmtty1";
               mup_rnd := bytes "/r" |};
  fl_fw := {| fw_tlvs := [bytes "a.tlv"; bytes "b.tlv"]; fw_input := bytes "/fw"; fw_injection := [];
              fw_factory := bytes "/f"; fw_runtime := bytes "/t"; fw_nvm_cal := bytes "c.nvm";
              fw_regexp := []; fw_dbg := None; blob_path := []; fw_packaged_path := bytes "/p";
              rnd_path := Some (bytes "/r"); nvm_dyn_path := [];
              fw_flashless := true; nvm_sta_path := [] |};
  fl_link := demo_link; fl_flashless := true; fl_update := true; flash_ongoing := false;
  attempts := 0; flash_err := E_MODEM_FW_SUCCEED; upgrade_err := 0; fl_fd_pipe := (10, 11);
  fw_file := Some (bytes "/p"); fw_packaged := bytes "/p"; blob_key := bytes "bk";
  blob_value := bytes "bv"; cfg_key := bytes "ck"; cfg_value := bytes "cv" |}.

Lemma flash_one_thread_witness :
  ends (for_each [F_start []; F_prepare; F_start []; F_finalize; F_finalize] (@run_flash_op still)
          demo_flash []) one_thread.
Proof.
  apply (@flash_one_thread still _ demo_flash []); [by apply no_folders_ok|]. reflexivity.
Defined.

Lemma flash_start_spec_witness :
  wp False (@mdm_flash_start still [])
    (fun r m' h' => r = E_ERR_SUCCESS /\ attempts m' = 1 /\ threads true h' = 1) demo_flash [].
Proof.
  eapply wp_mono; [by apply (@flash_start_spec still [] (bytes "/p") demo_flash [])|].
  cbv beta. cbn [flash_ongoing demo_flash]. intros r m' h' (-> & E & v & ->). done.
Defined.

Lemma streamline_spec_witness :
  wp False (@mdm_flash_streamline still)
    (fun _ m' h' => fl_update m' = false /\ length (props_stored h') = 2%nat) demo_flash [].
Proof.
  eapply wp_mono; [eapply wp_conj; [by apply (@streamline_spec still demo_flash []); [apply no_folders_ok|]|]|].
  - instantiate (1 := fun r _ _ => nvm_id r.2 = E_MODEM_NVM_SUCCEED). vm_compute. done.
  - cbv beta. cbn [fl_update demo_flash]. intros r m' h' ([[_ ->] Es] & Er).
    rewrite Es, Er. done.
Defined.

(** The device of [still], on which the update library cannot be initialised. *)
Definition no_mup_lib : Platform := with_reply still (fun h c =>
  match c with X_mup_initialize => (E_MUP_FAILED, false) | c => @reply still h c end).

(** The hashes are stored although no TLV file was applied, when the update
    library cannot be initialised: the failure is reported with the identifier
    that stands for the absence of a patch. *)
Theorem streamline_stores_unapplied :
  exists m' h', @mdm_flash_streamline no_mup_lib demo_flash [] =
    Done (Some (bytes "a.tlv"),
          {| nvm_id := E_MODEM_NVM_NO_NVM_PATCH; nvm_sub_error_code := mup_err_id E_MUP_FAILED |})
      m' h' /\
    tlv_pushed h' = [] /\ props_stored h' = [(bytes "bk", bytes "bv"); (bytes "ck", bytes "cv")] /\
    fl_update m' = false.
Proof. eexists _, _. split; [vm_compute; reflexivity|]. by vm_compute. Qed.
