(* ===== verification/Mcdr.v ===== *)
(** The core dump reader: core/core_dump.c.  The reading thread is run where it
    is created; the state of libmcdr is asked of the platform. *)
From S2P Require Import Prelude Platform Io.

(** [lib] tells whether the function pointers of [mcdr_lib_t] are set. *)
Record mcdr_ctx := {
  mc_enabled : bool; mc_running : bool; mc_lib : bool; mc_fd_pipe : Z * Z;
  mc_path : list Z; mc_enable_cd_log : bool; mc_mdm_version : list Z; mc_coredump_file : list Z }.

(** The general section of the core dump configuration. *)
Record mcdr_gnl := { mg_enable : bool; mg_path : list Z; mg_enable_cd_log : bool }.

Definition set_running (b : bool) (m : mcdr_ctx) : mcdr_ctx :=
  {| mc_enabled := mc_enabled m; mc_running := b; mc_lib := mc_lib m;
     mc_fd_pipe := mc_fd_pipe m; mc_path := mc_path m; mc_enable_cd_log := mc_enable_cd_log m;
     mc_mdm_version := mc_mdm_version m; mc_coredump_file := mc_coredump_file m |}.
Definition set_version (v : list Z) (m : mcdr_ctx) : mcdr_ctx :=
  {| mc_enabled := mc_enabled m; mc_running := mc_running m; mc_lib := mc_lib m;
     mc_fd_pipe := mc_fd_pipe m; mc_path := mc_path m; mc_enable_cd_log := mc_enable_cd_log m;
     mc_mdm_version := v; mc_coredump_file := mc_coredump_file m |}.
Definition set_coredump_file (f : list Z) (m : mcdr_ctx) : mcdr_ctx :=
  {| mc_enabled := mc_enabled m; mc_running := mc_running m; mc_lib := mc_lib m;
     mc_fd_pipe := mc_fd_pipe m; mc_path := mc_path m; mc_enable_cd_log := mc_enable_cd_log m;
     mc_mdm_version := mc_mdm_version m; mc_coredump_file := f |}.

Section mcdr.
Context `{Platform}.
Abbreviation IOc := (IO mcdr_ctx).

Definition mcdr_init (cfg : mcdr_gnl) : IO (option mcdr_ctx) unit :=
  ok ← call (X_calloc 512);
  ASSERT ok ;;
  let disabled := {| mc_enabled := false; mc_running := false; mc_lib := false;
                     mc_fd_pipe := (0, 0); mc_path := []; mc_enable_cd_log := false;
                     mc_mdm_version := []; mc_coredump_file := [] |} in
  if negb (mg_enable cfg) then modify (fun _ => Some disabled)
  else
    lib ← call (X_dlopen (bytes "libmcdr.so"));
    if negb lib then _ ← call X_dlerror; modify (fun _ => Some disabled)
    else
      err ← call X_dlerror;
      ASSERT (negb err) ;;
      p ← call X_pipe;
      match p with
      | None => abort
      | Some p =>
          modify (fun _ => Some
            {| mc_enabled := true; mc_running := false; mc_lib := true; mc_fd_pipe := p;
               mc_path := mg_path cfg; mc_enable_cd_log := mg_enable_cd_log cfg;
               mc_mdm_version := []; mc_coredump_file := [] |})
      end.

(** A call through a pointer of [mcdr_lib_t]: undefined when it is NULL. *)
Definition mcdr_lib_call (c : extcall) : IOc (ans c) :=
  m ← get; if mc_lib m then call c else undefined.

(** The reading thread. *)
Definition mcdr_read : IOc unit :=
  f ← mcdr_lib_call X_mcdr_read;
  modify (set_coredump_file f) ;;
  m ← get;
  _ ← call (X_write (mc_fd_pipe m).2 [0]);
  mret tt.

Definition mcdr_start : IOc e_mmgr_errors :=
  m ← get;
  if negb (mc_running m) then
    modify (set_running true) ;;
    _ ← call (X_pthread_create T_mcdr);
    mcdr_read ;;
    mret E_ERR_SUCCESS
  else mret E_ERR_FAILED.

Definition mcdr_finalize : IOc unit :=
  m ← get;
  when (mc_running m)
    (modify (set_running false) ;; _ ← call (X_pthread_join T_mcdr); mret tt).

Definition mcdr_cancel : IOc unit :=
  m ← get;
  when (mc_running m)
    (st ← mcdr_lib_call X_mcdr_get_state;
     when (negb (bool_decide ((st : mcdr_status) = MCDR_ARCHIVE_IN_PROGRESS)))
       (_ ← mcdr_lib_call X_mcdr_cleanup; mret tt) ;;
     mcdr_finalize).

Definition mcdr_get_fd : IOc Z := gets (fun m => (mc_fd_pipe m).1).

Definition mcdr_get_path : IOc (list Z) := gets mc_path.

Definition mcdr_get_mdm_version : IOc (list Z) := gets mc_mdm_version.

Definition mcdr_set_mdm_version (v : list Z) : IOc unit :=
  modify (set_version (take (MDM_VERSION_SIZE - 1) (cstr v))).

Definition mcdr_get_filename : IOc (list Z) := gets mc_coredump_file.

Definition mcdr_get_error_reason : IOc (list Z) := mcdr_lib_call X_mcdr_get_reason.

Definition mcdr_is_enabled : IOc bool := gets mc_enabled.

Definition mcdr_log_is_enabled : IOc bool := gets mc_enable_cd_log.

Definition cd_result (st : mcdr_status) : e_core_dump_state :=
  match st with
  | MCDR_ARCHIVE_IN_PROGRESS | MCDR_SUCCEED => E_CD_SUCCEED
  | MCDR_CLEANING_UP | MCDR_FS_ERROR | MCDR_INIT_ERROR | MCDR_IO_ERROR => E_CD_LINK_ERROR
  | MCDR_START_PROT_ERR | MCDR_PROT_ERROR => E_CD_PROTOCOL_ERROR
  | MCDR_OTHER => E_CD_OTHER
  end.

(** The state is read twice: for the log, then for the result. *)
Definition mcdr_get_result : IOc e_core_dump_state :=
  _ ← mcdr_lib_call X_mcdr_get_state;
  st ← mcdr_lib_call X_mcdr_get_state;
  mret (cd_result st).

End mcdr.
