(* ===== verification/Bus.v ===== *)
(** USB bus events: core/bus_events.c.  The callbacks of libusbhost queue the
    events; the daemon then handles the queue. *)
From S2P Require Import Prelude Platform Io Files.

Definition BUS_EV_CAPACITY : nat := 32.
Definition MDM_FLASH_READY : Z := bit 0.
Definition MDM_BB_READY : Z := bit 1.
Definition MDM_CD_READY : Z := bit 2.


(** A product and a vendor identifier. *)
Abbreviation usb_id := (Z * Z)%type.

(** [evs] holds the first [i] entries of the array of the source; the paths are
    the C strings of the arrays. *)
Record bus_ev := {
  evs : list (list Z * e_bus_ev); mdm_state : Z; wd_fd : Z;
  modem_flash_path : list Z; modem_bb_path : list Z; modem_cd_path : list Z;
  flash_id : usb_id; bb_id : usb_id; reconfig_id : usb_id; cd_id : usb_id }.

Definition set_evs (x : list (list Z * e_bus_ev)) (b : bus_ev) : bus_ev :=
  {| evs := x; mdm_state := mdm_state b; wd_fd := wd_fd b; modem_flash_path :=
     modem_flash_path b; modem_bb_path := modem_bb_path b; modem_cd_path :=
     modem_cd_path b; flash_id := flash_id b; bb_id := bb_id b; reconfig_id :=
     reconfig_id b; cd_id := cd_id b |}.
Definition set_mdm_state (x : Z) (b : bus_ev) : bus_ev :=
  {| evs := evs b; mdm_state := x; wd_fd := wd_fd b; modem_flash_path :=
     modem_flash_path b; modem_bb_path := modem_bb_path b; modem_cd_path :=
     modem_cd_path b; flash_id := flash_id b; bb_id := bb_id b; reconfig_id :=
     reconfig_id b; cd_id := cd_id b |}.
Definition set_wd_fd (x : Z) (b : bus_ev) : bus_ev :=
  {| evs := evs b; mdm_state := mdm_state b; wd_fd := x; modem_flash_path :=
     modem_flash_path b; modem_bb_path := modem_bb_path b; modem_cd_path :=
     modem_cd_path b; flash_id := flash_id b; bb_id := bb_id b; reconfig_id :=
     reconfig_id b; cd_id := cd_id b |}.
Definition set_modem_flash_path (x : list Z) (b : bus_ev) : bus_ev :=
  {| evs := evs b; mdm_state := mdm_state b; wd_fd := wd_fd b; modem_flash_path := x;
     modem_bb_path := modem_bb_path b; modem_cd_path := modem_cd_path b; flash_id :=
     flash_id b; bb_id := bb_id b; reconfig_id := reconfig_id b; cd_id := cd_id b |}.
Definition set_modem_bb_path (x : list Z) (b : bus_ev) : bus_ev :=
  {| evs := evs b; mdm_state := mdm_state b; wd_fd := wd_fd b; modem_flash_path :=
     modem_flash_path b; modem_bb_path := x; modem_cd_path := modem_cd_path b; flash_id
     := flash_id b; bb_id := bb_id b; reconfig_id := reconfig_id b; cd_id := cd_id b |}.
Definition set_modem_cd_path (x : list Z) (b : bus_ev) : bus_ev :=
  {| evs := evs b; mdm_state := mdm_state b; wd_fd := wd_fd b; modem_flash_path :=
     modem_flash_path b; modem_bb_path := modem_bb_path b; modem_cd_path := x; flash_id
     := flash_id b; bb_id := bb_id b; reconfig_id := reconfig_id b; cd_id := cd_id b |}.

Section bus.
Context `{Platform}.
Abbreviation IOb := (IO bus_ev).

(** [strncpy] of a path into an array of [PATH_MAX] bytes.  A path of [PATH_MAX]
    bytes or more leaves the array without a final NUL; reading it is then taken
    to stop at the end of the array.  The paths are those of device nodes, far
    shorter. *)
Definition store_path (p : list Z) : list Z := take (Z.to_nat PATH_MAX) (cstr p).

(** [add_ev], which both callbacks call. *)
Definition add_ev (path : list Z) (event : e_bus_ev) : IOb e_mmgr_errors :=
  b ← get;
  if (BUS_EV_CAPACITY <=? length (evs b))%nat then mret E_ERR_FAILED
  else modify (set_evs (evs b ++ [(store_path path, event)])) ;; mret E_ERR_SUCCESS.

(** The events the library reports, each through its callback. *)
Definition bus_callbacks (l : list (list Z * e_bus_ev)) : IOb unit :=
  for_each l (fun e => _ ← add_ev e.1 e.2; mret tt).

Definition bus_ev_read : IOb unit := l ← call X_usb_host_read_event; bus_callbacks l.

Definition is_pid_and_vid (dev id : usb_id) : bool := (dev.1 =? id.1) && (dev.2 =? id.2).

(** One event of the queue: whether it makes [bus_ev_hdle_events] succeed. *)
Definition hdle_added (path : list Z) : IOb bool :=
  b ← get;
  dev ← call (X_usb_device_open path);
  match dev with
  | None => mret false
  | Some dev =>
      if is_pid_and_vid dev (flash_id b) then
        modify (set_mdm_state (mdm_state b .| MDM_FLASH_READY)) ;;
        modify (set_modem_flash_path (store_path path)) ;; mret true
      else if is_pid_and_vid dev (bb_id b) then
        modify (set_mdm_state (mdm_state b .| MDM_BB_READY)) ;;
        modify (set_modem_bb_path (store_path path)) ;; mret true
      else if is_pid_and_vid dev (reconfig_id b) then
        modify (set_mdm_state (mdm_state b .| MDM_BB_READY)) ;;
        modify (set_modem_bb_path (store_path path)) ;; mret true
      else if is_pid_and_vid dev (cd_id b) then
        modify (set_mdm_state (mdm_state b .| MDM_CD_READY)) ;;
        modify (set_modem_cd_path (store_path path)) ;; mret true
      else mret false
  end.

Definition hdle_deleted (path : list Z) : IOb bool :=
  b ← get;
  if bool_decide (modem_flash_path b = path) then
    modify (set_mdm_state (mdm_state b .~ MDM_FLASH_READY)) ;;
    modify (set_modem_flash_path []) ;; mret true
  else if bool_decide (modem_bb_path b = path) then
    modify (set_mdm_state (mdm_state b .~ MDM_BB_READY)) ;;
    modify (set_modem_bb_path []) ;; mret true
  else if bool_decide (modem_cd_path b = path) then
    modify (set_mdm_state (mdm_state b .~ MDM_CD_READY)) ;;
    modify (set_modem_cd_path []) ;; mret true
  else mret false.

Definition hdle_event (e : list Z * e_bus_ev) : IOb bool :=
  match e.2 with
  | EV_ADDED => hdle_added e.1
  | EV_DELETED => hdle_deleted e.1
  | EV_NONE => mret false
  end.

Fixpoint hdle_events_loop (l : list (list Z * e_bus_ev)) (ret : e_mmgr_errors)
  : IOb e_mmgr_errors :=
  match l with
  | [] => mret ret
  | e :: l' =>
      ok ← hdle_event e;
      hdle_events_loop l' (if (ok : bool) then E_ERR_SUCCESS else ret)
  end.

Definition bus_ev_hdle_events : IOb e_mmgr_errors :=
  b ← get;
  ret ← hdle_events_loop (evs b) E_ERR_FAILED;
  modify (set_evs []) ;;
  mret ret.

Definition bus_ev_get_state : IOb Z := gets mdm_state.

Definition bus_ev_get_fd : IOb Z := gets wd_fd.

Definition bus_ev_start : IOb e_mmgr_errors :=
  fd ← call X_usb_host_get_fd; modify (set_wd_fd fd) ;; mret E_ERR_SUCCESS.

Definition bus_ev_get_flash_interface : IOb (list Z) := gets modem_flash_path.

(** A link of [bus_ev_init]: its type, and its identifiers if it is a USB one. *)
Record usb_link := { ul_usb : bool; ul_id : usb_id }.

Definition id_ok (l : usb_link) : bool :=
  negb (ul_usb l) || (negb ((ul_id l).1 =? 0) && negb ((ul_id l).2 =? 0)).
Definition id_kept (l : usb_link) : usb_id :=
  if ul_usb l && id_ok l then ul_id l else (0, 0).

(** [None] is the NULL handle of a failure. *)
Definition bus_ev_init (flash bb reconfig_usb mcdr : usb_link) : IO (option bus_ev) unit :=
  ok ← call (X_calloc 16384);
  if negb ok then modify (fun _ => None)
  else
    let b := {| evs := []; mdm_state := 0; wd_fd := CLOSED_FD; modem_flash_path := [];
                modem_bb_path := []; modem_cd_path := [];
                flash_id := id_kept flash; bb_id := id_kept bb;
                reconfig_id := id_kept reconfig_usb; cd_id := id_kept mcdr |} in
    let links := [flash; bb; reconfig_usb; mcdr] in
    if existsb ul_usb links && forallb id_ok links then
      ok ← call X_usb_host_init;
      if negb ok then modify (fun _ => None)
      else
        modify (fun _ => Some b) ;;
        zoom (default b) (fun b' _ => Some b')
          (l ← call X_usb_host_load; bus_callbacks l ;; _ ← bus_ev_hdle_events; mret tt)
    else modify (fun _ => Some b).

End bus.

(** * The devices present

    What the bus module promises: for each kind of device, the path of the last
    one added that has not been removed since. *)
Inductive bus_kind := K_flash | K_bb | K_cd.

Record devices := { d_flash : option (list Z); d_bb : option (list Z); d_cd : option (list Z) }.

(** The kind of a device, by its identifiers. *)
Definition kind_of (b : bus_ev) (dev : option usb_id) : option bus_kind :=
  match dev with
  | None => None
  | Some d =>
      if is_pid_and_vid d (flash_id b) then Some K_flash
      else if is_pid_and_vid d (bb_id b) then Some K_bb
      else if is_pid_and_vid d (reconfig_id b) then Some K_bb
      else if is_pid_and_vid d (cd_id b) then Some K_cd
      else None
  end.

Definition spec_added (k : bus_kind) (p : list Z) (d : devices) : devices :=
  match k with
  | K_flash => {| d_flash := Some p; d_bb := d_bb d; d_cd := d_cd d |}
  | K_bb => {| d_flash := d_flash d; d_bb := Some p; d_cd := d_cd d |}
  | K_cd => {| d_flash := d_flash d; d_bb := d_bb d; d_cd := Some p |}
  end.

Definition spec_deleted (p : list Z) (d : devices) : devices * bool :=
  if bool_decide (d_flash d = Some p)
  then ({| d_flash := None; d_bb := d_bb d; d_cd := d_cd d |}, true)
  else if bool_decide (d_bb d = Some p)
  then ({| d_flash := d_flash d; d_bb := None; d_cd := d_cd d |}, true)
  else if bool_decide (d_cd d = Some p)
  then ({| d_flash := d_flash d; d_bb := d_bb d; d_cd := None |}, true)
  else (d, false).

(** One event, of a device of kind [k] if it is one of the modem's: the devices
    afterwards and whether the event was about one of them. *)
Definition spec_event (k : option bus_kind) (e : list Z * e_bus_ev) (d : devices)
  : devices * bool :=
  match e.2, k with
  | EV_ADDED, Some k => (spec_added k e.1 d, true)
  | EV_DELETED, _ => spec_deleted e.1 d
  | _, _ => (d, false)
  end.

Fixpoint spec_events (l : list ((list Z * e_bus_ev) * option bus_kind)) (d : devices) (r : bool)
  : devices * bool :=
  match l with
  | [] => (d, r)
  | (e, k) :: l' => let '(d', b) := spec_event k e d in spec_events l' d' (r || b)
  end.

(** The devices the state of the module stands for. *)
Definition seen (b : bus_ev) : devices :=
  let show (m : Z) (p : list Z) := if mdm_state b .& m then Some p else None in
  {| d_flash := show MDM_FLASH_READY (modem_flash_path b);
     d_bb := show MDM_BB_READY (modem_bb_path b);
     d_cd := show MDM_CD_READY (modem_cd_path b) |}.

(** A ready bit is set exactly when the path it goes with is not empty. *)
Definition agrees (b : bus_ev) (m : Z) (p : list Z) : Prop :=
  mdm_state b .& m = true <-> p <> [].

Definition bus_wf (b : bus_ev) : Prop :=
  agrees b MDM_FLASH_READY (modem_flash_path b) /\ agrees b MDM_BB_READY (modem_bb_path b) /\
  agrees b MDM_CD_READY (modem_cd_path b).

(** An event as the queue stores it: a path that is a proper C string. *)
Definition queued (e : list Z * e_bus_ev) : Prop := store_path e.1 = e.1 /\ e.1 <> [].

Definition same_ids (b b' : bus_ev) : Prop :=
  flash_id b' = flash_id b /\ bb_id b' = bb_id b /\ reconfig_id b' = reconfig_id b /\
  cd_id b' = cd_id b /\ wd_fd b' = wd_fd b.

Section bus_lemmas.
Context `{Platform}.
Implicit Types (b : bus_ev) (h : history).

Lemma has_set x m n : 0 <= m -> 0 <= n -> (x .| bit m) .& bit n = (n =? m) || (x .& bit n).
Proof. intros. rewrite !has_bit by done. by apply testbit_set. Qed.

Lemma has_clear x m n : 0 <= m -> 0 <= n -> (x .~ bit m) .& bit n = negb (n =? m) && (x .& bit n).
Proof. intros. rewrite !has_bit by done. by apply testbit_clear. Qed.

Lemma same_ids_refl b : same_ids b b.
Proof. done. Qed.

Lemma same_ids_trans b1 b2 b3 : same_ids b1 b2 -> same_ids b2 b3 -> same_ids b1 b3.
Proof. unfold same_ids. intuition congruence. Qed.

Lemma hdle_added_wp b p h : bus_wf b -> queued (p, EV_ADDED) ->
  let k := kind_of b (reply h (X_usb_device_open p)) in
  wp False (hdle_added p)
    (fun r b' h' => bus_wf b' /\ same_ids b b' /\ evs b' = evs b /\ h' = X_usb_device_open p :: h /\
       (seen b', r) = spec_event k (p, EV_ADDED) (seen b)) b h.
Proof.
  intros Hwf [Hp Hn] k. cbn [fst] in Hp, Hn. unfold hdle_added. wp_calls. unfold k, kind_of.
  destruct (reply h (X_usb_device_open p)) as [d|]; [|by split_and!; auto using same_ids_refl].
  destruct (is_pid_and_vid d (flash_id b)); [|destruct (is_pid_and_vid d (bb_id b));
    [|destruct (is_pid_and_vid d (reconfig_id b)); [|destruct (is_pid_and_vid d (cd_id b))]]];
    wp_simp; try (by split_and!; auto using same_ids_refl); rewrite ?Hp;
    destruct Hwf as (H1 & H2 & H3); unfold agrees in *;
    (split; [unfold bus_wf, agrees; cbn -[has]; unfold MDM_FLASH_READY, MDM_BB_READY, MDM_CD_READY in *;
             rewrite !has_set by lia; cbn [Z.eqb Pos.eqb orb];
             split_and!; first [exact H1|exact H2|exact H3|by split]|]);
    (split; [by split_and!|]); (split; [done|]); (split; [done|]);
    cbn [spec_event snd fst]; f_equal; unfold seen, spec_added; cbn -[has];
    unfold MDM_FLASH_READY, MDM_BB_READY, MDM_CD_READY in *;
    rewrite !has_set by lia; reflexivity.
Qed.

Lemma path_present b m p q : agrees b m q -> p <> [] ->
  bool_decide ((if mdm_state b .& m then Some q else None) = Some p) = bool_decide (q = p).
Proof.
  intros Ha Hp. apply bool_decide_ext. destruct (mdm_state b .& m) eqn:E.
  - split; [by intros [= ->]|by intros ->].
  - split; [done|]. intros ->. exfalso. destruct Ha as [_ Ha]. by rewrite Ha in E.
Qed.

Lemma hdle_deleted_wp b p h : bus_wf b -> queued (p, EV_DELETED) ->
  wp False (hdle_deleted p)
    (fun r b' h' => bus_wf b' /\ same_ids b b' /\ evs b' = evs b /\ h' = h /\
       (seen b', r) = spec_deleted p (seen b)) b h.
Proof.
  intros Hwf [_ Hn]. cbn in Hn. unfold hdle_deleted, spec_deleted. wp_simp.
  destruct Hwf as (H1 & H2 & H3).
  change (d_flash (seen b)) with
    (if mdm_state b .& MDM_FLASH_READY then Some (modem_flash_path b) else None).
  change (d_bb (seen b)) with
    (if mdm_state b .& MDM_BB_READY then Some (modem_bb_path b) else None).
  change (d_cd (seen b)) with
    (if mdm_state b .& MDM_CD_READY then Some (modem_cd_path b) else None).
  rewrite (path_present b _ p _ H1), (path_present b _ p _ H2), (path_present b _ p _ H3) by done.
  repeat case_bool_decide; wp_simp; [..|by split_and!; auto using same_ids_refl; split]; unfold agrees in *;
    (split; [unfold bus_wf, agrees; cbn -[has]; unfold MDM_FLASH_READY, MDM_BB_READY, MDM_CD_READY in *;
             rewrite !has_clear by lia; cbn [Z.eqb Pos.eqb negb andb];
             split_and!; first [exact H1|exact H2|exact H3|by split]|]);
    (split; [by split_and!|]); (split; [done|]); (split; [done|]);
    f_equal; unfold seen; cbn -[has];
    unfold MDM_FLASH_READY, MDM_BB_READY, MDM_CD_READY in *;
    rewrite !has_clear by lia; reflexivity.
Qed.

Lemma hdle_event_wp b e h : bus_wf b -> queued e ->
  wp False (hdle_event e)
    (fun r b' _ => bus_wf b' /\ same_ids b b' /\ evs b' = evs b /\
       exists k, (e.2 = EV_ADDED -> exists h1, k = kind_of b (reply h1 (X_usb_device_open e.1))) /\
         (seen b', r) = spec_event k e (seen b)) b h.
Proof.
  intros Hwf Hq. destruct e as [p [| |]]; cbn [hdle_event snd fst].
  - wp_simp. split_and!; [done|apply same_ids_refl|done|]. by exists None.
  - eapply wp_mono; [by apply hdle_added_wp|]. cbv beta zeta.
    intros r b' h' (Hw & Hi & He & _ & E). split_and!; [done..|]. eexists.
    split; [by eexists|exact E].
  - eapply wp_mono; [by apply hdle_deleted_wp|]. cbv beta.
    intros r b' h' (Hw & Hi & He & _ & E). split_and!; [done..|]. by exists None.
Qed.

Lemma kind_of_ids b b' d : same_ids b b' -> kind_of b' d = kind_of b d.
Proof. intros (E1 & E2 & E3 & E4 & _). unfold kind_of. by rewrite E1, E2, E3, E4. Qed.

Lemma hdle_events_loop_wp l : forall b h ret r, bus_wf b -> Forall queued l ->
  succeeded ret = r ->
  wp False (hdle_events_loop l ret)
    (fun ret' b' _ => bus_wf b' /\ same_ids b b' /\
       exists ks, Forall2 (fun e k => e.2 = EV_ADDED ->
                    exists h1, k = kind_of b (reply h1 (X_usb_device_open e.1))) l ks /\
         (seen b', succeeded ret') = spec_events (zip l ks) (seen b) r) b h.
Proof.
  induction l as [|e l IH]; intros b h ret r Hwf Hq Hr; cbn [hdle_events_loop].
  { wp_simp. split_and!; [done|apply same_ids_refl|]. exists []. split; [constructor|].
    cbn. by rewrite Hr. }
  apply Forall_cons_iff in Hq as [He Hq]. apply wp_bind.
  eapply wp_mono; [by apply hdle_event_wp|]. cbv beta.
  intros ok b1 h1 (Hw1 & Hi1 & _ & k & Hk & E).
  eapply wp_mono; [apply (IH b1 h1 _ (r || ok)); [done..|]|].
  { destruct ok; [by rewrite orb_true_r|by rewrite orb_false_r]. }
  cbv beta. intros ret' b2 h2 (Hw2 & Hi2 & ks & Hks & E2).
  split_and!; [done|by eapply same_ids_trans|]. exists (k :: ks). split.
  - constructor; [done|]. eapply Forall2_impl; [|exact Hks]. cbv beta.
    intros e' k' Hx Ha. destruct (Hx Ha) as [h3 ->]. exists h3. by apply kind_of_ids.
  - cbn [zip zip_with spec_events]. by rewrite <- E.
Qed.

Lemma cstr_take_cstr n p : cstr (take n (cstr p)) = take n (cstr p).
Proof.
  revert n. induction p as [|c p IH]; intros n; cbn; [by rewrite take_nil|].
  destruct (c =? 0) eqn:E; [by rewrite take_nil|]. destruct n as [|n]; [done|].
  cbn. rewrite E. by rewrite IH.
Qed.

Lemma store_path_store p : store_path (store_path p) = store_path p.
Proof.
  unfold store_path. rewrite cstr_take_cstr. rewrite take_take. by rewrite Nat.min_id.
Qed.

(** The queue after the callbacks: the events in order, up to its capacity. *)
Lemma bus_callbacks_eq l : forall b h, (length (evs b) <= BUS_EV_CAPACITY)%nat ->
  bus_callbacks l b h =
  Done tt (set_evs (take BUS_EV_CAPACITY (evs b ++ map (fun e => (store_path e.1, e.2)) l)) b) h.
Proof.
  induction l as [|[p e] l IH]; intros b h Hl.
  { cbn -[take]. rewrite app_nil_r, take_ge by done. by destruct b. }
  unfold bus_callbacks. cbn [for_each fst snd]. fold (bus_callbacks l). unfold add_ev. run_simp.
  destruct (Nat.leb_spec BUS_EV_CAPACITY (length (evs b))); run_simp.
  - rewrite IH by done. assert (length (evs b) = BUS_EV_CAPACITY) as Hc by lia.
    by rewrite !take_app_length' by done.
  - rewrite IH. 
    + cbn [map]. change (evs (set_evs (evs b ++ [(store_path p, e)]) b))
        with (evs b ++ [(store_path p, e)]). rewrite <- app_assoc. by destruct b.
    + cbn [evs set_evs]. rewrite length_app. cbn [length]. lia.
Qed.

End bus_lemmas.

(** C35.  The bus module against what it promises: reading the pending events
    and handling them keeps the first 32 of them in order, never overflows the
    queue and leaves it empty; afterwards the ready bits and the paths are those
    of the devices present, computed event by event by [spec_events] from the
    identifiers each added device shows, and the status is a success exactly
    when one of the events was about a device of the modem. *)
Theorem bus_tracks_devices `{Platform} b h :
  bus_wf b -> evs b = [] ->
  Forall (fun e => cstr e.1 <> []) (reply h X_usb_host_read_event) ->
  let queue := take BUS_EV_CAPACITY
                 (map (fun e => (store_path e.1, e.2)) (reply h X_usb_host_read_event)) in
  wp False (bus_ev_read ;; bus_ev_hdle_events)
    (fun ret b' _ => bus_wf b' /\ evs b' = [] /\ same_ids b b' /\
       exists ks, Forall2 (fun e k => e.2 = EV_ADDED ->
                    exists h1, k = kind_of b (reply h1 (X_usb_device_open e.1))) queue ks /\
         (seen b', succeeded ret) = spec_events (zip queue ks) (seen b) false) b h.
Proof.
  intros Hwf He Hp queue. unfold bus_ev_read. apply wp_bind. wp_call.
  eapply run_wp.
  { apply bus_callbacks_eq. rewrite He. cbn. lia. }
  rewrite He. cbn [app]. fold queue. unfold bus_ev_hdle_events. wp_simp.
  eapply wp_mono; [apply (hdle_events_loop_wp _ _ _ _ false)|].
  - exact Hwf.
  - apply Forall_take, Forall_map. eapply Forall_impl; [|exact Hp]. cbn. intros [p e] Hc.
    cbn in Hc. split; [apply store_path_store|]. cbn. unfold store_path. by destruct (cstr p).
  - done.
  - cbv beta. intros ret b' h' (Hw & Hi & ks & Hks & E). split_and!; [done|done|done|].
    exists ks. by split.
Qed.

(** A modem in flash mode appears, then goes away. *)
Definition demo_bus : bus_ev := {|
  evs := []; mdm_state := 0; wd_fd := 7; modem_flash_path := []; modem_bb_path := [];
  modem_cd_path := []; flash_id := (1, 2); bb_id := (3, 4); reconfig_id := (0, 0);
  cd_id := (5, 6) |}.

Definition plugging : Platform := with_reply still (fun h c =>
  match c with
  | X_usb_host_read_event =>
      [(bytes "/dev/usb1", EV_ADDED); (bytes "/dev/usb2", EV_ADDED); (bytes "/dev/usb1", EV_DELETED)]
  | X_usb_device_open p => if bool_decide (p = bytes "/dev/usb1") then Some (1, 2) else Some (3, 4)
  | c => @reply still h c
  end).

Lemma bus_tracks_devices_witness :
  exists ret b' h', (@bus_ev_read plugging ;; @bus_ev_hdle_events plugging) demo_bus [] = Done ret b' h' /\
    ret = E_ERR_SUCCESS /\ seen b' = {| d_flash := None; d_bb := Some (bytes "/dev/usb2"); d_cd := None |}.
Proof.
  assert (Hwf : bus_wf demo_bus) by (split_and!; split; done).
  assert (Hp : Forall (fun e => cstr e.1 <> []) (@reply plugging [] X_usb_host_read_event))
    by (repeat constructor; done).
  destruct (wp_done _ _ _ _ (@bus_tracks_devices plugging demo_bus [] Hwf eq_refl Hp))
    as (ret & b' & h' & E & _).
  exists ret, b', h'. split; [exact E|]. revert E. vm_compute. intros [= <- <- _]. done.
Defined.
