(* ===== verification/Secure.v ===== *)
(** The security channel: core/security.c.

    The modem sends messages "+xsecchannel:<send id>,<request id>,<length>,"
    followed by data in base 64; the security library answers each and the
    answer is queued as a command, sent once the previous one is acknowledged.

    A number of a message that does not fit an [int] makes [sscanf] undefined.
    The slots of [send_queue] beyond [nb_of_msgs] are never read: the list holds
    the others. *)
From S2P Require Import Prelude Platform Io Files At.

Definition AT_SEC_RETRY : nat := 4.
(** [AT_SIZE] of this file. *)
Definition SEC_AT_SIZE : Z := 1024.
Definition MSGS_MAX : Z := 6.
Definition MSG_START_STR : list Z := bytes "+xsecchannel:".
Definition MSG_ANSWER_START : list Z := bytes "+xsecchannel=".
Definition MAX_TLV_LEN : Z := 2048.
Definition SECURE_CH_DATA_FREE_RETURN_DATA : Z := 0.

Record sec_msg := { message : list Z; length_ : Z; err : bool }.

(** [sec_lib]: whether [dlopen] gave a handle. *)
Record secure := {
  sec_enable : bool; sec_dlc : list Z; sec_fd : Z; sec_lib : bool;
  send_queue : list sec_msg; nb_of_msgs : Z; err_msg : option (list Z) }.

Definition set_sec_fd (fd : Z) (s : secure) : secure :=
  {| sec_enable := sec_enable s; sec_dlc := sec_dlc s; sec_fd := fd; sec_lib := sec_lib s;
     send_queue := send_queue s; nb_of_msgs := nb_of_msgs s; err_msg := err_msg s |}.
Definition set_queue (q : list sec_msg) (n : Z) (s : secure) : secure :=
  {| sec_enable := sec_enable s; sec_dlc := sec_dlc s; sec_fd := sec_fd s; sec_lib := sec_lib s;
     send_queue := q; nb_of_msgs := n; err_msg := err_msg s |}.
Definition set_err_msg (e : option (list Z)) (s : secure) : secure :=
  {| sec_enable := sec_enable s; sec_dlc := sec_dlc s; sec_fd := sec_fd s; sec_lib := sec_lib s;
     send_queue := send_queue s; nb_of_msgs := nb_of_msgs s; err_msg := e |}.

Inductive modem_rsp := OK | ERROR | NONE.

(** The pointer [msg_data] of [secure_event]: a live buffer has a size and holds
    a string. *)
Inductive msg_ptr := P_null_ptr | P_freed | P_buffer (size : Z) (text : list Z).

Definition lower (c : Z) : Z := if (65 <=? c) && (c <=? 90) then c + 32 else c.

(** [strcasestr]. *)
Definition strcasestr (needle l : list Z) : option nat := strstr (map lower needle) (map lower l).

(** [sscanf(received, "%d,%d,%d,", ...)] when it converts the three numbers. *)
Definition scan_header (l : list Z) : option (Z * Z * Z) :=
  '(a, l) ← scan_num l; l ← scan_char 44 l;
  '(b, l) ← scan_num l; l ← scan_char 44 l;
  '(c, _) ← scan_num l; Some (a, b, c).

Definition fits_int (z : Z) : bool := (- 2 ^ 31 <=? z) && (z <? 2 ^ 31).

(** What [retrieve_data] gives: the status, the string [*message] when it is
    allocated, the identifiers and the length. *)
Record retrieved := { rt_ret : e_mmgr_errors; rt_message : option (list Z);
                      rt_send_id : Z; rt_req_id : Z; rt_len : Z }.

Section messages.
Context `{Platform} {S : Type}.

(** The data of the message: [received] starts after the opening quote. *)
Definition retrieve_message (fd : Z) (received : list Z) (len : Z)
  : IO S (e_mmgr_errors * option (list Z)) :=
  ok ← call (X_calloc (uint32 (len + 3)));
  if negb ok then mret (E_ERR_FAILED, None)
  else
    let data_len := match strstr [13] received with
                    | Some k => Z.of_nat k
                    | None => Z.of_nat (length received)
                    end in
    let data_len := if len <? data_len then len else data_len in
    if data_len <? 0 then undefined
    else
      let data := take (Z.to_nat data_len) received in
      if negb (data_len =? len) then
        let remain := len - data_len + 3 in
        '(ret, d) ← tty_read fd remain AT_READ_MAX_RETRIES;
        if negb (succeeded ret) || negb (Z.of_nat (length d) =? remain)
        then mret (ret, Some (cstr (data ++ d)))
        else mret (E_ERR_SUCCESS, Some (cstr (take (Z.to_nat len) (data ++ d))))
      else mret (E_ERR_SUCCESS, Some (cstr data)).

Definition retrieve_data (fd : Z) (received : list Z) : IO S retrieved :=
  let received := drop (length MSG_START_STR) received in
  let failed a b c := {| rt_ret := E_ERR_FAILED; rt_message := None; rt_send_id := a;
                         rt_req_id := b; rt_len := c |} in
  match scan_header received with
  | None => mret (failed 0 0 0)
  | Some (send_id, req_id, len) =>
      if negb (fits_int send_id && fits_int req_id && fits_int len) then undefined
      else if MAX_TLV_LEN <? len then mret (failed send_id req_id len)
      else
        match strstr [34] received with
        | None => mret (failed send_id req_id len)
        | Some k =>
            '(ret, m) ← retrieve_message fd (drop (k + 1) received) len;
            mret {| rt_ret := ret; rt_message := m; rt_send_id := send_id; rt_req_id := req_id;
                    rt_len := len |}
        end
  end.

(** Result: the status, the type and the converted data when it is allocated. *)
Definition decode_data (received : list Z) (rec_len : Z)
  : IO S (e_mmgr_errors * Z * option (list Z)) :=
  ok ← call (X_calloc rec_len);
  if negb ok then mret (E_ERR_FAILED, 0, None)
  else
    match b64_pton received rec_len with
    | None => mret (E_ERR_FAILED, 0, None)
    | Some tmp =>
        if rec_len <? 2 then undefined
        else
          let byte i := nth i tmp 0 in
          let type := byte 0%nat + 256 * byte 1%nat in
          ok ← call (X_calloc (Z.of_nat (length tmp)));
          mret (if (ok : bool) then (E_ERR_SUCCESS, type, Some tmp) else (E_ERR_FAILED, type, None))
    end.

(** The command "at+xsecchannel=<send id>,<request id>,<length>," and the data. *)
Definition sec_command (send_id req_id : Z) (conv : list Z) : list Z :=
  bytes "at" ++ MSG_ANSWER_START ++ print_int send_id ++ bytes "," ++ print_int req_id
  ++ bytes "," ++ print_int (Z.of_nat (length conv)) ++ bytes "," ++ [34] ++ conv ++ [34; 13; 10].

(** [send] and [send_len] are the values of [*send] and [*send_len]. *)
Definition encode_data (send_id req_id : Z) (src : option (list Z)) (send : msg_ptr) (send_len : Z)
  : IO S (e_mmgr_errors * msg_ptr * Z) :=
  match src with
  | None => abort
  | Some src =>
      let src_len := Z.of_nat (length src) in
      if src_len <=? 0 then mret (E_ERR_FAILED, send, send_len)
      else
        let conv_len := int32 (uint32 (src_len * 4) / 3 + 4) in
        ok ← call (X_calloc conv_len);
        if negb ok then mret (E_ERR_FAILED, P_null_ptr, send_len)
        else
          match b64_ntop src conv_len with
          | None => mret (E_ERR_FAILED, P_null_ptr, send_len)
          | Some conv =>
              let send_len := Z.of_nat (length conv) + 5 * 2 + 12
                              + (10 + Z.of_nat (length MSG_ANSWER_START)) in
              ok ← call (X_calloc send_len);
              if negb ok then mret (E_ERR_FAILED, P_null_ptr, send_len)
              else
                let cmd := sec_command send_id req_id conv in
                mret (E_ERR_SUCCESS, P_buffer send_len (in_buffer send_len cmd),
                      Z.of_nat (length cmd))
          end
  end.

End messages.

Section secure.
Context `{Platform}.
Abbreviation IOs := (IO secure).

(** Up to [tries] attempts to write the first command. *)
Fixpoint send_sec_loop (tries : nat) (fd : Z) (m : sec_msg) (ret : e_mmgr_errors) : IOs e_mmgr_errors :=
  match tries with
  | O => mret ret
  | S n => ret ← tty_write fd (take (Z.to_nat (length_ m)) (message m));
           if succeeded ret then mret ret else send_sec_loop n fd m ret
  end.

Definition send_sec_msg : IOs e_mmgr_errors :=
  s ← get;
  match send_queue s with
  | [] => undefined
  | m :: _ => send_sec_loop AT_SEC_RETRY (sec_fd s) m E_ERR_FAILED
  end.

(** [memcpy] reads [len + 1] bytes of the buffer, which is then freed. *)
Definition push_msg (p : msg_ptr) (len : Z) : IOs e_mmgr_errors :=
  match p with
  | P_null_ptr => abort
  | P_freed => undefined
  | P_buffer size text =>
      s ← get;
      ret ← (if nb_of_msgs s <? MSGS_MAX then
               ok ← call (X_calloc (len + 1));
               ASSERT ok ;;
               (if size <? len + 1 then undefined
                else modify (set_queue (send_queue s ++ [{| message := text; length_ := len; err := false |}])
                               (nb_of_msgs s + 1))) ;;
               mret E_ERR_SUCCESS
             else mret E_ERR_FAILED);
      s ← get;
      when (nb_of_msgs s =? 1)
        (r ← send_sec_msg;
         when (negb (succeeded r)) (modify (set_queue [] (nb_of_msgs s - 1)))) ;;
      mret ret
  end.

(** Called with a message in the queue. *)
Definition pull_msg : IOs e_mmgr_errors :=
  s ← get;
  match send_queue s with
  | [] => undefined
  | _ :: q =>
      modify (set_queue q (nb_of_msgs s - 1)) ;;
      when (0 <? nb_of_msgs s - 1) (_ ← send_sec_msg; mret tt) ;;
      mret E_ERR_SUCCESS
  end.

Definition check_response (buffer : list Z) : modem_rsp :=
  if contains (bytes "OK") buffer then OK
  else if contains (bytes "ERROR") buffer then ERROR
  else NONE.

(** Result: the status and the final values of [*send] and [*send_len].  When
    the security library fails, the status is still that of [decode_data]. *)
Definition handle_message (buffer : list Z) (send : msg_ptr) (send_len : Z)
  : IOs (e_mmgr_errors * msg_ptr * Z) :=
  s ← get;
  rt ← retrieve_data (sec_fd s) buffer;
  match rt_message rt with
  | Some data =>
      if negb (succeeded (rt_ret rt)) then mret (rt_ret rt, send, send_len)
      else
        '(ret, type, conv) ← decode_data data (rt_len rt);
        match conv with
        | Some conv =>
            if negb (succeeded ret) then mret (ret, send, send_len)
            else
              '(e, conv') ← call (X_secure_callback type (Some conv));
              if e <? 0 then mret (ret, send, send_len)
              else
                '(ret, send, send_len) ←
                  encode_data (rt_send_id rt) (rt_req_id rt) conv' send send_len;
                if negb (succeeded ret) then mret (ret, send, send_len)
                else
                  _ ← call (X_secure_callback SECURE_CH_DATA_FREE_RETURN_DATA None);
                  mret (E_ERR_SUCCESS, send, send_len)
        | None => mret (ret, send, send_len)
        end
  | None => mret (rt_ret rt, send, send_len)
  end.

(** The loop over the messages of the buffer: [l] starts with the next one.
    [push_msg] frees the buffer it is given. *)
Fixpoint handle_messages (fuel : nat) (l : list Z) (msg_data : msg_ptr) (len_data : Z)
  : IOs (msg_ptr * Z) :=
  match fuel with
  | O => undefined
  | S n =>
      '(ret, msg_data, len_data) ← handle_message l msg_data len_data;
      msg_data ← (if negb (bool_decide (ret = E_ERR_FAILED))
                  then _ ← push_msg msg_data len_data; mret P_freed
                  else mret msg_data);
      let l := drop (length MSG_START_STR) l in
      match strcasestr MSG_START_STR l with
      | Some k => handle_messages n (drop k l) msg_data len_data
      | None => mret (msg_data, len_data)
      end
  end.

(** The answer to the last command. *)
Definition handle_response (buffer : list Z) : IOs unit :=
  s ← get;
  when (0 <? nb_of_msgs s)
    (match check_response buffer with
     | OK => _ ← pull_msg; mret tt
     | ERROR =>
         match send_queue s with
         | [] => undefined
         | m :: q =>
             if negb (err m) then
               _ ← send_sec_msg;
               modify (set_queue ({| message := message m; length_ := length_ m; err := true |} :: q)
                         (nb_of_msgs s))
             else
               modify (set_err_msg (Some (bytes "AT+XSECCHANNEL command rejected"))) ;;
               _ ← pull_msg; mret tt
         end
     | NONE => mret tt
     end).

Fixpoint secure_loop (fuel : nat) (msg_data : msg_ptr) (len_data : Z) : IOs e_mmgr_errors :=
  match fuel with
  | O => undefined
  | S n =>
      s ← get;
      '(ret, d) ← tty_read (sec_fd s) SEC_AT_SIZE AT_READ_MAX_RETRIES;
      if negb (succeeded ret) then mret ret
      else if (length d =? 0)%nat then mret ret
      else
        let buffer := cstr d in
        '(msg_data, len_data) ←
          (match strcasestr MSG_START_STR buffer with
           | Some k => handle_messages (S (length buffer)) (drop k buffer) msg_data len_data
           | None => mret (msg_data, len_data)
           end);
        handle_response buffer ;;
        secure_loop n msg_data len_data
  end.

Definition secure_event : IOs e_mmgr_errors :=
  s ← get;
  if sec_enable s then
    modify (set_err_msg None) ;;
    secure_loop loop_fuel P_null_ptr 0
  else mret E_ERR_SUCCESS.

(** Result: the status and the descriptor. *)
Definition secure_register : IOs (e_mmgr_errors * Z) :=
  modify (set_sec_fd CLOSED_FD) ;;
  s ← get;
  ret ← (if sec_enable s
         then '(ret, fd) ← tty_open (sec_dlc s) (sec_fd s); modify (set_sec_fd fd) ;; mret ret
         else mret E_ERR_SUCCESS);
  s ← get;
  mret (ret, sec_fd s).

Definition secure_start : IOs e_mmgr_errors :=
  s ← get;
  if sec_enable s then
    ret ← tty_write (sec_fd s) (bytes "at+xsecchannel?" ++ [13]);
    modify (set_queue [] 0) ;;
    mret ret
  else mret E_ERR_SUCCESS.

Definition secure_stop : IOs e_mmgr_errors :=
  s ← get;
  if sec_enable s
  then '(ret, fd) ← tty_close (sec_fd s); modify (set_sec_fd fd) ;; mret ret
  else mret E_ERR_SUCCESS.

Definition secure_get_fd : IOs Z := gets sec_fd.

Definition secure_get_error : IOs (option (list Z)) := gets err_msg.

(** [None] is the NULL handle of a failure. *)
Definition secure_init (enabled : bool) (device : list Z) : IO (option secure) unit :=
  ok ← call (X_calloc 4300);
  let s lib := {| sec_enable := enabled; sec_dlc := if enabled then in_buffer PATH_MAX device else [];
                  sec_fd := CLOSED_FD; sec_lib := lib; send_queue := [];
                  nb_of_msgs := 0; err_msg := None |} in
  if negb ok then modify (fun _ => None)
  else if enabled then
    lib ← call (X_dlopen (bytes "libdx_cc7.so"));
    if negb lib then _ ← call X_dlerror; modify (fun _ => None)
    else
      err ← call X_dlerror;
      if (err : bool) then modify (fun _ => None) else modify (fun _ => Some (s true))
  else modify (fun _ => Some (s false)).

End secure.

(** * The queue *)

(** The counter is the number of commands in the queue, and each command is as
    long as its text. *)
Record queue_inv (s : secure) : Prop := {
  qi_nb : nb_of_msgs s = Z.of_nat (length (send_queue s));
  qi_max : nb_of_msgs s <= MSGS_MAX;
  qi_len : Forall (fun m => length_ m = Z.of_nat (length (message m))) (send_queue s) }.

(** The calls that hand the whole of [text] to the terminal. *)
Fixpoint attempts `{Platform} (fd : Z) (text : list Z) (h : history) : nat :=
  match h with
  | [] => 0
  | X_write fd' d :: h =>
      if decide (fd' = fd /\ d = text) then S (attempts fd text h) else attempts fd text h
  | _ :: h => attempts fd text h
  end.

(** In between, the terminal was handed [text] [k] times, and it took a beginning
    of it at each. *)
Definition sends `{Platform} (fd : Z) (text : list Z) (k : nat) (h h' : history) : Prop :=
  attempts fd text h' = (k + attempts fd text h)%nat /\
  exists ns, length ns = k /\
    accepted fd h' = accepted fd h ++ concat ((fun n => take n text) <$> ns).

(** What it accepted ends with the whole of [text]. *)
Definition cmd_delivered `{Platform} (fd : Z) (text : list Z) (h h' : history) : Prop :=
  exists pre, accepted fd h' = accepted fd h ++ pre ++ text.

(** The command is written: it is handed over one to four times, and it is taken
    whole or the four attempts are made. *)
Definition cmd_written `{Platform} (fd : Z) (text : list Z) (h h' : history) : Prop :=
  exists k, (1 <= k <= AT_SEC_RETRY)%nat /\ sends fd text k h h' /\
    (k = AT_SEC_RETRY \/ cmd_delivered fd text h h').

(** A command the modem answered with ERROR. *)
Definition rejected (m : sec_msg) : sec_msg :=
  {| message := message m; length_ := length_ m; err := true |}.

Definition not_write (c : extcall) : bool := match c with X_write _ _ => false | _ => true end.

Lemma accepted_extends `{Platform} fd h h' : extends not_write h h' -> accepted fd h' = accepted fd h.
Proof.
  intros (k & -> & Hk). induction Hk as [|c k Hc Hk IH]; [done|].
  change ((c :: k) ++ h) with (c :: (k ++ h)). cbn [accepted].
  destruct c; try done; by rewrite app_nil_r.
Qed.

Lemma attempts_extends `{Platform} fd text h h' :
  extends not_write h h' -> attempts fd text h' = attempts fd text h.
Proof.
  intros (k & -> & Hk). induction Hk as [|c k Hc Hk IH]; [done|].
  change ((c :: k) ++ h) with (c :: (k ++ h)). cbn [attempts]. by destruct c.
Qed.

(** Writing hands the whole text over once, then only what is left of it. *)
Lemma tty_write_attempts `{Platform} {A} fd text (s : A) h :
  wp False (tty_write fd text)
    (fun _ s' h' => s' = s /\ attempts fd text h' = S (attempts fd text h)) s h.
Proof.
  assert (Hl : forall fuel rest h, (length rest < fuel)%nat -> (length rest < length text)%nat ->
    wp False (tty_write_loop fuel fd rest)
      (fun _ s' h' => s' = s /\ attempts fd text h' = attempts fd text h) s h).
  { clear h. induction fuel as [|n IH]; intros rest h Hf Hr; [lia|].
    cbn [tty_write_loop]. wp_call.
    assert (Ha : attempts fd text (X_write fd rest :: h) = attempts fd text h).
    { cbn [attempts]. rewrite decide_False; [done|]. intros [_ ->]. lia. }
    repeat case_match; try done. eapply wp_mono; [apply IH; rewrite length_drop; lia|].
    cbv beta. by rewrite Ha. }
  unfold tty_write. cbn [tty_write_loop]. wp_call.
  assert (Ha : attempts fd text (X_write fd text :: h) = S (attempts fd text h)).
  { cbn [attempts]. by rewrite decide_True. }
  repeat case_match; try done. eapply wp_mono; [apply Hl; rewrite length_drop; lia|].
  cbv beta. by rewrite Ha.
Qed.

Section queue.
Context `{Platform} (Hw : writes_at_most).

Lemma send_loop_wp tries fd m ret s h : length_ m = Z.of_nat (length (message m)) ->
  ret <> E_ERR_SUCCESS ->
  wp False (send_sec_loop tries fd m ret) (fun r s' h' => s' = s /\ extends tty_call h h' /\
    exists k, (min 1 tries <= k <= tries)%nat /\ sends fd (message m) k h h' /\
      (if succeeded r then cmd_delivered fd (message m) h h' else k = tries)) s h.
Proof.
  intros Hl. revert ret h. induction tries as [|n IH]; intros ret h Hr; cbn [send_sec_loop].
  { split_and!; [done|apply extends_refl|]. exists 0%nat. split; [lia|]. split.
    - split; [done|]. exists []. by rewrite app_nil_r.
    - destruct (succeeded ret) eqn:Es; [|done]. by apply bool_decide_eq_true in Es. }
  rewrite Hl, Nat2Z.id, firstn_all. apply wp_bind.
  eapply wp_mono; [apply wp_conj; [apply wp_conj|apply dia_write];
    [by apply tty_write_loop_accepted; [|lia]|apply tty_write_attempts]|].
  cbv beta. intros r s1 h1 [[(-> & k & Ek & Hk) [_ Ha]] (_ & He & _)]. destruct (succeeded r) eqn:Es.
  - split_and!; [done..|]. exists 1%nat. split; [lia|]. split.
    + split; [done|]. exists [k]. split; [done|]. cbn. by rewrite Ek, app_nil_r.
    + rewrite Es. apply bool_decide_eq_true in Es. exists []. by rewrite Ek, Hk.
  - eapply wp_mono; [apply IH; intros ->; done|]. cbv beta.
    intros r2 s2 h2 (-> & He2 & j & Hj & (Ha2 & ns & <- & En) & Hd).
    split_and!; [done|by eapply extends_trans|]. exists (S (length ns)). split; [lia|]. split.
    + split; [lia|]. exists (k :: ns). split; [done|]. cbn. by rewrite En, Ek, app_assoc.
    + destruct (succeeded r2); [|by f_equal]. destruct Hd as [pre Hp].
      exists (take k (message m) ++ pre). by rewrite Hp, Ek, !app_assoc.
Qed.

(** The command is handed over once to [AT_SEC_RETRY] times: until it is taken
    whole, or four times. *)
Lemma send_sec_wp m q s h : send_queue s = m :: q -> length_ m = Z.of_nat (length (message m)) ->
  wp False send_sec_msg (fun r s' h' => s' = s /\ extends tty_call h h' /\
    exists k, (1 <= k <= AT_SEC_RETRY)%nat /\ sends (sec_fd s) (message m) k h h' /\
      (if succeeded r then cmd_delivered (sec_fd s) (message m) h h' else k = AT_SEC_RETRY)) s h.
Proof.
  intros Hq Hl. unfold send_sec_msg. apply wp_bind, wp_get. rewrite Hq.
  by apply send_loop_wp.
Qed.

Lemma sec_push_wp size text s h : alloc_ok -> queue_inv s -> Z.of_nat (length text) < size ->
  wp False (push_msg (P_buffer size text) (Z.of_nat (length text))) (fun r s' h' =>
    extends tty_call h h' /\ queue_inv s' /\ sec_fd s' = sec_fd s /\ err_msg s' = err_msg s /\
    let m := {| message := text; length_ := Z.of_nat (length text); err := false |} in
    match send_queue s with
    | [] => r = E_ERR_SUCCESS /\
        exists k, (1 <= k <= AT_SEC_RETRY)%nat /\ sends (sec_fd s) text k h h' /\
          ((send_queue s' = [] /\ k = AT_SEC_RETRY) \/
           (send_queue s' = [m] /\ cmd_delivered (sec_fd s) text h h'))
    | q => extends not_write h h' /\
        if nb_of_msgs s <? MSGS_MAX
        then r = E_ERR_SUCCESS /\ send_queue s' = q ++ [m]
        else r = E_ERR_FAILED /\ s' = s
    end) s h.
Proof.
  intros Ha [Hn Hm Hf] Hs. cbn [push_msg]. apply wp_bind, wp_get, wp_bind.
  destruct (Z.ltb_spec (nb_of_msgs s) MSGS_MAX) as [Hlt|Hge].
  - wp_call. rewrite Ha. cbn [ASSERT]. apply wp_bind, wp_ret, wp_bind.
    destruct (Z.ltb_spec size (Z.of_nat (length text) + 1)); [lia|].
    apply wp_modify, wp_ret, wp_bind, wp_get. cbn [nb_of_msgs set_queue].
    set (m := {| message := text; length_ := _; err := false |}).
    set (h1 := X_calloc _ :: h). set (s1 := set_queue _ _ s).
    assert (He1 : extends tty_call h h1) by by apply extends_one.
    assert (Hi1 : queue_inv s1).
    { split; cbn [nb_of_msgs send_queue s1 set_queue]; [rewrite length_app; cbn; lia|lia|].
      apply Forall_app. split; [done|]. by repeat constructor. }
    assert (Ew : extends not_write h h1) by by apply extends_one.
    assert (Ea : accepted (sec_fd s) h1 = accepted (sec_fd s) h) by by apply accepted_extends.
    apply wp_bind, wp_when. destruct (Z.eqb_spec (nb_of_msgs s + 1) 1) as [E1|E1].
    + destruct (send_queue s) as [|m0 q] eqn:Eq; [|cbn [length] in Hn; lia].
      apply wp_bind. eapply wp_mono; [by apply (send_sec_wp m [])|]. cbv beta.
      intros r s2 h2 (-> & He2 & k & Hk & (Ha2 & ns & Hns & En) & Hd).
      cbn [message m sec_fd set_queue s1] in *.
      rewrite Ea in En. assert (He : extends tty_call h h2) by by eapply extends_trans.
      assert (Ho : sends (sec_fd s) text k h h2).
      { split; [|by exists ns]. by rewrite Ha2, (attempts_extends _ _ _ _ Ew). }
      apply wp_when. destruct (succeeded r); cbn [negb].
      * apply wp_ret. split_and!; try done. exists k. split_and!; [lia..|done|]. right. split; [done|].
        destruct Hd as [pre Hp]. exists pre. by rewrite Hp, Ea.
      * apply wp_modify, wp_ret. split_and!; try done; [split; cbn; [lia|lia|done]|].
        exists k. split_and!; [lia..|done|]. by left.
    + apply wp_ret. split_and!; try done.
      destruct (send_queue s) as [|m0 q] eqn:Eq; [cbn [length] in Hn; lia|]. split_and!; done.
  - apply wp_ret, wp_bind, wp_get, wp_bind, wp_when.
    destruct (Z.eqb_spec (nb_of_msgs s) 1); [unfold MSGS_MAX in *; lia|].
    apply wp_ret. split_and!; [apply extends_refl|done..|].
    destruct (send_queue s) eqn:Eq; [cbn [length] in Hn; unfold MSGS_MAX in *; lia|].
    split_and!; [apply extends_refl|done..].
Qed.

Lemma sec_pull_wp m q s h : queue_inv s -> send_queue s = m :: q ->
  wp False pull_msg (fun r s' h' =>
    extends tty_call h h' /\ r = E_ERR_SUCCESS /\ s' = set_queue q (nb_of_msgs s - 1) s /\
    queue_inv s' /\
    match q with [] => h' = h | m' :: _ => cmd_written (sec_fd s) (message m') h h' end) s h.
Proof.
  intros [Hn Hm Hf] Hq. unfold pull_msg. apply wp_bind, wp_get. rewrite Hq.
  apply wp_bind, wp_modify, wp_bind, wp_when.
  rewrite Hq in Hn, Hf. cbn [length] in Hn. apply Forall_cons_iff in Hf as [Hfm Hf].
  assert (Hi : queue_inv (set_queue q (nb_of_msgs s - 1) s)) by (split; cbn; [lia|lia|done]).
  destruct q as [|m' q]; cbn [length] in Hn.
  - destruct (Z.ltb_spec 0 (nb_of_msgs s - 1)); [lia|]. split_and!; try done. apply extends_refl.
  - destruct (Z.ltb_spec 0 (nb_of_msgs s - 1)); [|lia]. apply wp_bind.
    eapply wp_mono; [apply (send_sec_wp m' q); [done|by apply Forall_cons_iff in Hf as [? _]]|].
    cbv beta. intros r s1 h1 (-> & He & k & Hk & Ho & Hd). split_and!; [done..|].
    exists k. split_and!; [lia..|done|]. destruct (succeeded r); auto.
Qed.

(** What an answer [buffer] of the modem does to a queue that is not empty. *)
Lemma sec_response_wp buffer m q s h : queue_inv s -> send_queue s = m :: q ->
  wp False (handle_response buffer) (fun _ s' h' =>
    extends tty_call h h' /\ queue_inv s' /\
    (err_msg s' = err_msg s \/ err_msg s' = Some (bytes "AT+XSECCHANNEL command rejected")) /\
    match check_response buffer with
    | NONE => s' = s /\ h' = h
    | OK => send_queue s' = q /\
        match q with [] => h' = h | m' :: _ => cmd_written (sec_fd s) (message m') h h' end
    | ERROR =>
        if err m then send_queue s' = q /\
          match q with [] => h' = h | m' :: _ => cmd_written (sec_fd s) (message m') h h' end
        else send_queue s' = rejected m :: q /\ cmd_written (sec_fd s) (message m) h h'
    end) s h.
Proof.
  intros Hi Hq. pose proof Hi as [Hn Hm Hf]. rewrite Hq in Hn, Hf. cbn [length] in Hn.
  apply Forall_cons_iff in Hf as [Hl Hf].
  unfold handle_response. apply wp_bind, wp_get, wp_when.
  destruct (Z.ltb_spec 0 (nb_of_msgs s)); [|lia]. destruct (check_response buffer).
  - apply wp_bind. eapply wp_mono; [by apply (sec_pull_wp m q)|]. cbv beta.
    intros r s' h' (He & -> & -> & Hi' & Ho). apply wp_ret. split_and!; try done. by left.
  - rewrite Hq. destruct (err m); cbn [negb].
    + apply wp_bind, wp_modify, wp_bind.
      eapply wp_mono; [apply (sec_pull_wp m q); [by destruct Hi; split|done]|].
      cbv beta. intros r s' h' (He & -> & -> & Hi' & Ho). apply wp_ret. split_and!; try done. by right.
    + apply wp_bind. eapply wp_mono; [by apply (send_sec_wp m q)|]. cbv beta.
      intros r s' h' (-> & He & k & Hk & Ho & Hd). apply wp_modify. split_and!; try done.
      * split; cbn; [lia|done|by constructor].
      * by left.
      * exists k. split_and!; [lia..|done|]. destruct (succeeded r); auto.
  - split_and!; try done; [apply extends_refl|by left].
Qed.

End queue.

(** C36.  The commands of the security channel are a bounded queue.  A new
    command is put at its end, unless six wait already (then the queue and the
    channel stay as they were); nothing is written when others wait, and when
    none does it is written at once.  Each time a command is written, the whole of
    it is handed to the terminal at least once and at most four times, and either
    the terminal takes all of it or the four attempts are made; in that second case
    a new command may be given up.  The answer OK, or a second answer ERROR, removes
    the command at the head and has the next one written, if there is one; the
    first answer ERROR marks the command at the head and has it written again
    (hence eight attempts at most for a command); another answer changes nothing.
    It is stated when [write] never reports more bytes than it was given and when
    memory is available. *)
Theorem secure_queue_fifo `{Platform} s h :
  writes_at_most -> alloc_ok -> queue_inv s ->
  (forall size text, Z.of_nat (length text) < size ->
    wp False (push_msg (P_buffer size text) (Z.of_nat (length text))) (fun r s' h' =>
      queue_inv s' /\
      let m := {| message := text; length_ := Z.of_nat (length text); err := false |} in
      match send_queue s with
      | [] => r = E_ERR_SUCCESS /\
          exists k, (1 <= k <= AT_SEC_RETRY)%nat /\ sends (sec_fd s) text k h h' /\
            ((send_queue s' = [] /\ k = AT_SEC_RETRY) \/
             (send_queue s' = [m] /\ cmd_delivered (sec_fd s) text h h'))
      | q => extends not_write h h' /\
          if nb_of_msgs s <? MSGS_MAX
          then r = E_ERR_SUCCESS /\ send_queue s' = q ++ [m]
          else r = E_ERR_FAILED /\ s' = s
      end) s h) /\
  (forall buffer m q, send_queue s = m :: q ->
    wp False (handle_response buffer) (fun _ s' h' =>
      queue_inv s' /\
      match check_response buffer with
      | NONE => s' = s /\ h' = h
      | OK => send_queue s' = q /\
          match q with [] => h' = h | m' :: _ => cmd_written (sec_fd s) (message m') h h' end
      | ERROR =>
          if err m then send_queue s' = q /\
            match q with [] => h' = h | m' :: _ => cmd_written (sec_fd s) (message m') h h' end
          else send_queue s' = rejected m :: q /\ cmd_written (sec_fd s) (message m) h h'
      end) s h).
Proof.
  intros Hw Ha Hi. split.
  - intros size text Hs. eapply wp_mono; [by apply sec_push_wp|]. cbv beta.
    intros r s' h' (_ & ? & _ & _ & ?). done.
  - intros buffer m q Hq. eapply wp_mono; [by apply (sec_response_wp Hw buffer m q)|]. cbv beta.
    intros _ s' h' (_ & ? & _ & ?). by split.
Qed.

(** * The events of the channel *)

(** An identifier the modem sends has 16 bits. *)
Definition id16 (z : Z) : Prop := 0 <= z < 2 ^ 16.

(** The numbers of each message in [buffer] are in range. *)
Definition sane_frames (buffer : list Z) : Prop :=
  forall k, match scan_header (drop (length MSG_START_STR) (drop k buffer)) with
            | Some (send_id, req_id, len) => id16 send_id /\ id16 req_id /\ 2 <= len < 2 ^ 31
            | None => True
            end.

(** What the channel relies on: memory; the modem's messages; the security
    library, which succeeds and gives data back; [b64_ntop], which keeps room
    for the final NUL; a terminal that stays open. *)
Record channel_ok `{Platform} : Prop := {
  ch_alloc : alloc_ok;
  ch_writes : writes_at_most;
  ch_frames : forall fd (s : secure) h r d s' h',
    tty_read fd SEC_AT_SIZE AT_READ_MAX_RETRIES s h = Done (r, d) s' h' -> sane_frames (cstr d);
  ch_open : forall h fd len, reply h (X_read fd len) <> inl EBADF;
  ch_callback : forall h t d, 0 <= (reply h (X_secure_callback t d)).1 /\
    is_Some (reply h (X_secure_callback t d)).2;
  ch_ntop : forall src size conv, b64_ntop src size = Some conv -> Z.of_nat (length conv) < size }.

(** A decimal number takes as many bytes as its size allows. *)
Lemma digits_bound fuel n acc k : 0 <= n < 10 ^ Z.of_nat k -> (1 <= k)%nat -> (k <= fuel)%nat ->
  (length (digits fuel n acc) <= k + length acc)%nat.
Proof.
  revert n acc k. induction fuel as [|f IH]; intros n acc k Hn Hk Hf; [lia|]. cbn [digits].
  destruct (Z.ltb_spec n 10); [cbn; lia|].
  destruct k as [|[|k]]; [lia|cbn in Hn; lia|].
  assert (Hp : 10 ^ Z.of_nat (S (S k)) = 10 * 10 ^ Z.of_nat (S k))
    by (rewrite (Nat2Z.inj_succ (S k)), Z.pow_succ_r; lia).
  etrans; [apply (IH _ _ (S k)); [|lia|lia]|cbn; lia].
  split; [apply Z.div_pos; lia|apply Z.div_lt_upper_bound; lia].
Qed.

Lemma print_length z k : 0 <= z < 10 ^ Z.of_nat k -> (1 <= k <= 11)%nat ->
  (length (print_int z) <= k)%nat.
Proof.
  intros Hz Hk. unfold print_int. destruct (Z.ltb_spec z 0); [lia|].
  pose proof (digits_bound 11 z [] k Hz). cbn [length] in *. lia.
Qed.

(** The command fits the buffer allocated for it. *)
Lemma command_fits send_id req_id conv : id16 send_id -> id16 req_id ->
  Z.of_nat (length conv) < 2 ^ 31 ->
  Z.of_nat (length (sec_command send_id req_id conv)) < Z.of_nat (length conv) + 45.
Proof.
  intros Hs Hr Hc. unfold sec_command. rewrite !length_app. unfold id16 in *.
  pose proof (print_length send_id 5) as H1. pose proof (print_length req_id 5) as H2.
  pose proof (print_length (Z.of_nat (length conv)) 10) as H3.
  change (10 ^ Z.of_nat 5) with 100000 in *. change (10 ^ Z.of_nat 10) with 10000000000 in *.
  change (length (bytes "at")) with 2%nat. change (length MSG_ANSWER_START) with 13%nat.
  change (length (bytes ",")) with 1%nat. cbn [length]. lia.
Qed.

Section events.
Context `{Platform} (Hc : channel_ok) (Hp : terminals_pause).

(** A dialogue that may use the queue. *)
Definition sec_err_ok (s : secure) : Prop :=
  err_msg s = None \/ err_msg s = Some (bytes "AT+XSECCHANNEL command rejected").
Definition sec_inv (s : secure) : Prop := queue_inv s /\ sec_err_ok s.

Definition secures {A} (h : history) (m : IO secure A) (Q : A -> history -> Prop) : Prop :=
  forall s, sec_inv s -> wp False m (fun a s' h' => sec_inv s' /\ extends tty_call h h' /\ Q a h') s h.

Lemma secures_dia {A} h (m : IO secure A) Q : dia h m Q -> secures h m Q.
Proof. intros Hd s Hs. eapply wp_mono; [apply Hd|]. cbv beta. by intros a s' h' (-> & ? & ?). Qed.

Lemma secures_ret {A} h (a : A) (Q : A -> history -> Prop) : Q a h -> secures h (mret a) Q.
Proof. intros. by apply secures_dia, dia_ret. Qed.

Lemma secures_bind {A B} h (m : IO secure A) (k : A -> IO secure B) Q R :
  secures h m Q -> (forall a h', extends tty_call h h' -> Q a h' -> secures h' (k a) R) ->
  secures h (m ≫= k) R.
Proof.
  intros Hm Hk s Hs. apply wp_bind. eapply wp_mono; [by apply Hm|]. cbv beta.
  intros a s' h' (Hs' & He & HQ). eapply wp_mono; [by apply Hk|]. cbv beta.
  intros b s'' h'' (? & He' & HR). split_and!; [done| |done]. by eapply extends_trans.
Qed.

Lemma secures_mono {A} h (m : IO secure A) (Q R : A -> history -> Prop) :
  secures h m Q -> (forall a h', extends tty_call h h' -> Q a h' -> R a h') -> secures h m R.
Proof.
  intros Hm HQ s Hs. eapply wp_mono; [by apply Hm|]. cbv beta. intros a s' h' (? & ? & ?). auto.
Qed.

Lemma secures_get {A} h (k : secure -> IO secure A) Q :
  (forall s, sec_inv s -> wp False (k s) (fun a s' h' => sec_inv s' /\ extends tty_call h h' /\ Q a h') s h) ->
  secures h (get ≫= k) Q.
Proof. intros Hk s Hs. apply wp_bind, wp_get. by apply Hk. Qed.

(** The status of a read: never that of a closed terminal. *)
Lemma read_status h fd size n : 0 <= size ->
  dia (S := secure) h (tty_read fd size n)
    (fun r h' => r.1 = E_ERR_SUCCESS \/ r.1 = E_ERR_FAILED).
Proof.
  intros Hs. unfold tty_read. destruct (Z.ltb_spec size 0); [lia|].
  generalize (Z.to_nat n), (@nil Z). intros k data. revert h data.
  induction k as [|k IH]; intros h data; cbn [tty_read_loop]; [apply dia_ret; by left|].
  eapply (dia_bind _ _ _ (fun r _ => r <> inl EBADF)); [apply dia_call; [done|apply (ch_open Hc)]|].
  intros [e|d] h1 _ Hr.
  - apply dia_ret. case_bool_decide; [congruence|by right].
  - destruct (take _ d); [|apply IH]. destruct (_ <? _)%nat; [apply dia_ret; by left|].
    eapply (dia_bind _ _ _ anyQ); [dia_auto|]. intros; apply IH.
Qed.

Lemma retrieve_message_ok h fd received len : 0 <= len ->
  dia (S := secure) h (retrieve_message fd received len) (fun r _ =>
    r.1 = E_ERR_FAILED \/ (r.1 = E_ERR_SUCCESS /\ is_Some r.2)).
Proof.
  intros Hl. unfold retrieve_message.
  eapply (dia_bind _ _ _ (fun ok _ => ok = true)); [by apply dia_call; [|apply (ch_alloc Hc)]|].
  intros ok h1 _ ->. cbn [negb].
  set (n := match strstr [13] received with Some k => Z.of_nat k | None => _ end).
  assert (0 <= n) by (subst n; destruct (strstr _ _); lia).
  set (dl := if len <? n then len else n).
  assert (0 <= dl <= len) by (subst dl; destruct (Z.ltb_spec len n); lia).
  destruct (Z.ltb_spec dl 0); [lia|]. destruct (Z.eqb_spec dl len); cbn [negb].
  { apply dia_ret. right. by split. }
  eapply dia_bind; [apply read_status; lia|]. cbv beta. intros [r d] h2 _ [E|E]; cbn [fst] in E; subst r.
  - cbn [succeeded]. destruct (_ || _); apply dia_ret; right; by split.
  - change (succeeded E_ERR_FAILED) with false. cbn [negb orb]. apply dia_ret. by left.
Qed.

Lemma retrieve_ok h fd buffer k : sane_frames buffer ->
  dia (S := secure) h (retrieve_data fd (drop k buffer)) (fun rt _ =>
    rt_ret rt = E_ERR_FAILED \/
    (rt_ret rt = E_ERR_SUCCESS /\ is_Some (rt_message rt) /\ id16 (rt_send_id rt) /\
     id16 (rt_req_id rt) /\ 2 <= rt_len rt)).
Proof.
  intros Hs. specialize (Hs k). unfold retrieve_data.
  destruct (scan_header _) as [[[a b] c]|]; [|apply dia_ret; by left].
  destruct Hs as (Ha & Hb & Hl). replace (fits_int a && fits_int b && fits_int c) with true.
  2:{ symmetry. unfold fits_int, id16 in *. rewrite !andb_true_iff, !Z.leb_le, !Z.ltb_lt. lia. }
  cbn [negb]. destruct (MAX_TLV_LEN <? c); [apply dia_ret; by left|].
  destruct (strstr [34] _); [|apply dia_ret; by left].
  eapply dia_bind; [apply retrieve_message_ok; lia|]. cbv beta. intros [r m] h1 _ Hr.
  apply dia_ret. cbn [rt_ret rt_message rt_send_id rt_req_id rt_len fst snd] in *.
  destruct Hr as [->|[-> Hm]]; [by left|]. right. split_and!; [done..|lia].
Qed.

Lemma decode_ok h data len : 2 <= len ->
  dia (S := secure) h (decode_data data len) (fun '(r, _, c) _ =>
    (r = E_ERR_FAILED /\ c = None) \/ (r = E_ERR_SUCCESS /\ is_Some c)).
Proof.
  intros Hl. unfold decode_data.
  eapply (dia_bind _ _ _ (fun ok _ => ok = true)); [by apply dia_call; [|apply (ch_alloc Hc)]|].
  intros ok h1 _ ->. cbn [negb]. destruct (b64_pton data len); [|apply dia_ret; by left].
  destruct (Z.ltb_spec len 2); [lia|].
  eapply (dia_bind _ _ _ (fun ok _ => ok = true)); [by apply dia_call; [|apply (ch_alloc Hc)]|].
  intros ok h2 _ ->. apply dia_ret. right. by split.
Qed.

(** A buffer that holds the whole command. *)
Definition whole (p : msg_ptr) (len : Z) : Prop :=
  exists size text, p = P_buffer size text /\ len = Z.of_nat (length text) /\ len < size.

Lemma encode_ok h a b src send n : id16 a -> id16 b ->
  dia (S := secure) h (encode_data a b (Some src) send n) (fun '(r, p, len) _ =>
    r = E_ERR_FAILED \/ (r = E_ERR_SUCCESS /\ whole p len)).
Proof.
  intros Ha Hb. unfold encode_data. destruct (_ <=? 0); [apply dia_ret; by left|].
  set (size := int32 _).
  eapply (dia_bind _ _ _ (fun ok _ => ok = true)); [by apply dia_call; [|apply (ch_alloc Hc)]|].
  intros ok h1 _ ->. cbn [negb]. destruct (b64_ntop src size) as [conv|] eqn:E; [|apply dia_ret; by left].
  apply (ch_ntop Hc) in E. assert (size < 2 ^ 31) by apply int32_range.
  eapply (dia_bind _ _ _ (fun ok _ => ok = true)); [by apply dia_call; [|apply (ch_alloc Hc)]|].
  intros ok h2 _ ->. cbn [negb]. apply dia_ret. right. split; [done|].
  pose proof (command_fits a b conv Ha Hb ltac:(lia)) as Hf.
  change (Z.of_nat (length MSG_ANSWER_START)) with 13.
  eexists _, _. split; [reflexivity|]. unfold in_buffer.
  rewrite length_take. split; lia.
Qed.

Lemma handle_message_ok h buffer k send n : sane_frames buffer ->
  secures h (handle_message (drop k buffer) send n) (fun '(r, p, len) _ =>
    r = E_ERR_FAILED \/ (r = E_ERR_SUCCESS /\ whole p len)).
Proof.
  intros Hs. unfold handle_message. apply secures_get. intros s Hi.
  revert Hi. apply (secures_dia h _ (fun '(r, p, len) _ =>
    r = E_ERR_FAILED \/ (r = E_ERR_SUCCESS /\ whole p len))). generalize (sec_fd s). intros fd.
  eapply dia_bind; [by apply retrieve_ok|]. cbv beta. intros rt h1 _ Hrt.
  destruct (rt_message rt) as [data|] eqn:Em.
  2:{ apply dia_ret. destruct Hrt as [->|(_ & [? Hx] & _)]; [by left|done]. }
  destruct Hrt as [->|(-> & _ & Ha & Hb & Hl)]; [apply dia_ret; by left|]. cbn [negb].
  change (succeeded E_ERR_SUCCESS) with true. cbn [negb].
  eapply dia_bind; [by apply decode_ok|]. cbv beta. intros [[r ty] c] h2 _ [[-> ->]|[-> [conv ->]]].
  { apply dia_ret. by left. }
  change (succeeded E_ERR_SUCCESS) with true. cbn [negb].
  eapply (dia_bind _ _ _ (fun x _ => 0 <= x.1 /\ is_Some x.2)).
  { apply dia_call; [done|]. apply (ch_callback Hc). }
  intros [e c'] h3 _ [He [conv' Hv]]. cbn [fst snd] in *. subst c'.
  destruct (Z.ltb_spec e 0); [lia|].
  eapply dia_bind; [by apply encode_ok|]. cbv beta. intros [[r p] len] h4 _ [->|[-> Hw]].
  { apply dia_ret. by left. }
  change (succeeded E_ERR_SUCCESS) with true. cbn [negb].
  eapply (dia_bind _ _ _ anyQ); [dia_auto|]. intros. apply dia_ret. by right.
Qed.

(** Reading the channel: the messages are sane. *)
Lemma secures_dia_frames {B} h fd (k : e_mmgr_errors * list Z -> IO secure B) Q :
  (forall r d h', extends tty_call h h' -> (d <> [] -> (answers h < answers h')%nat) ->
     sane_frames (cstr d) -> secures h' (k (r, d)) Q) ->
  secures h (tty_read fd SEC_AT_SIZE AT_READ_MAX_RETRIES ≫= k) Q.
Proof.
  intros Hk s Hs. apply wp_bind.
  destruct (wp_done _ _ _ _ (dia_read (S := secure) h fd SEC_AT_SIZE AT_READ_MAX_RETRIES ltac:(done) s))
    as ([r d] & s' & h' & E & -> & He & _ & Ha).
  unfold wp at 1. rewrite E. eapply wp_mono; [by apply Hk; [..|by eapply (ch_frames Hc)|]|]. cbv beta.
  intros b s'' h'' (? & He' & HR). split_and!; [done| |done]. by eapply extends_trans.
Qed.

Lemma push_ok h p len : whole p len -> secures h (push_msg p len) anyQ.
Proof.
  intros (size & text & -> & -> & Hs) s [Hq He].
  eapply wp_mono; [by apply (sec_push_wp (ch_writes Hc)); [apply (ch_alloc Hc)|..]|]. cbv beta.
  intros r s' h' (? & ? & _ & Ee & _). split_and!; try done. split; [done|]. unfold sec_err_ok. by rewrite Ee.
Qed.

(** [fuel] is more than what is left of the buffer. *)
Lemma handle_messages_ok fuel h buffer k p n : sane_frames buffer ->
  (length (drop k buffer) < fuel)%nat -> (length MSG_START_STR <= length (drop k buffer))%nat ->
  secures h (handle_messages fuel (drop k buffer) p n) anyQ.
Proof.
  intros Hs. revert h k p n. induction fuel as [|f IH]; intros h k p n Hf Hk; [lia|].
  cbn [handle_messages]. eapply secures_bind; [by apply handle_message_ok|]. cbv beta.
  intros [[r p'] len] h1 _ Hr. eapply (secures_bind _ _ _ anyQ).
  { destruct Hr as [->|[-> Hw]].
    - rewrite bool_decide_eq_true_2 by done. by apply secures_ret.
    - rewrite bool_decide_eq_false_2 by done. cbn [negb].
      eapply secures_bind; [by apply push_ok|]. intros. by apply secures_ret. }
  intros p2 h2 _ _. rewrite drop_drop. destruct (strcasestr _ _) as [j|] eqn:E; [|by apply secures_ret].
  apply strstr_lt in E. rewrite !length_map in E.
  rewrite drop_drop. apply IH; rewrite !length_drop in *; change (length MSG_START_STR) with 13%nat in *; lia.
Qed.

Lemma handle_response_ok h buffer : secures h (handle_response buffer) anyQ.
Proof.
  intros s [Hq He]. destruct (send_queue s) as [|m q] eqn:Eq.
  - unfold handle_response. apply wp_bind, wp_get, wp_when.
    destruct (Z.ltb_spec 0 (nb_of_msgs s)) as [Hn|]; [|split_and!; [done|apply extends_refl|done]].
    destruct Hq as [Hq _ _]. rewrite Eq in Hq. cbn in Hq. lia.
  - eapply wp_mono; [by apply (sec_response_wp (ch_writes Hc) buffer m q)|]. cbv beta.
    intros u s' h' (? & ? & Hm & _). split_and!; [split; [done|]|done..].
    unfold sec_err_ok in *. destruct Hm as [-> | ->]; naive_solver.
Qed.

Lemma secure_loop_ok n h p len : (loop_fuel <= n + answers h)%nat ->
  secures h (secure_loop n p len) anyQ.
Proof.
  revert h p len. induction n as [|n IH]; intros h p len Hn; [specialize (Hp h); lia|].
  cbn [secure_loop]. apply secures_get. intros s Hi. revert Hi.
  apply (secures_dia_frames h (sec_fd s)). intros r d h1 He1 Ha Hs.
  destruct (negb (succeeded r)); [by apply secures_ret|].
  destruct (Nat.eqb_spec (length d) 0) as [|Hd]; [by apply secures_ret|].
  eapply (secures_bind _ _ _ anyQ).
  { destruct (strcasestr MSG_START_STR (cstr d)) as [k|] eqn:E; [|by apply secures_ret].
    apply strstr_lt in E. rewrite !length_map in E.
    apply handle_messages_ok; [done|..]; rewrite length_drop; lia. }
  intros [p' len'] h2 He2 _. eapply secures_bind; [apply handle_response_ok|]. intros _ h3 He3 _.
  apply IH. apply answers_mono in He2, He3. specialize (Ha ltac:(by destruct d)). lia.
Qed.

End events.

(** C37.  An event of the security channel, when the modem's messages carry
    identifiers of 16 bits and a length, and the security library answers: it is
    handled to the end, no buffer is overrun (the command built for the modem
    always fits its buffer), and the queue keeps its form. *)
Theorem secure_event_safe `{Platform} s h :
  channel_ok -> terminals_pause -> sec_inv s ->
  wp False secure_event (fun _ s' h' => sec_inv s' /\ extends tty_call h h') s h.
Proof.
  intros Hc Hp [Hq He]. unfold secure_event. apply wp_bind, wp_get.
  destruct (sec_enable s); [|split; [done|apply extends_refl]]. apply wp_bind, wp_modify.
  eapply wp_mono; [apply (secure_loop_ok Hc Hp loop_fuel); [lia|]|].
  - split; [destruct Hq; by split|by left].
  - cbv beta. naive_solver.
Qed.

(** Silent terminals. *)
Lemma silent_frames P : (forall h fd, @reply P h (X_read fd SEC_AT_SIZE) = inr []) ->
  forall fd (s : secure) h r d s' h',
    @tty_read P secure fd SEC_AT_SIZE AT_READ_MAX_RETRIES s h = Done (r, d) s' h' -> d = [].
Proof.
  intros Hr fd s h r d s' h' E.
  assert (forall k h, @dia P secure _ h (@tty_read_loop P _ k fd SEC_AT_SIZE []) (fun x _ => x.2 = [])) as Hl.
  { clear -Hr. induction k as [|k IH]; intros h; cbn [tty_read_loop]; [by apply dia_ret|].
    eapply (dia_bind _ _ _ (fun x _ => x = inr [])); [by apply dia_call; [|apply Hr]|].
    intros x h1 _ ->. rewrite take_nil. cbn. eapply (dia_bind _ _ _ anyQ); [dia_auto|].
    intros. apply IH. }
  unfold tty_read in E. change (SEC_AT_SIZE <? 0) with false in E. cbv iota in E.
  specialize (Hl (Z.to_nat AT_READ_MAX_RETRIES) h s). unfold wp in Hl. rewrite E in Hl.
  by destruct Hl as (_ & _ & ?).
Qed.

Lemma silent_pauses P : (0 < @loop_fuel P)%nat -> (forall h fd len, @reply P h (X_read fd len) = inr []) ->
  (forall h e t, (@reply P h (X_epoll_wait_tty e t)).1 = 0) -> @terminals_pause P.
Proof.
  intros Hf Hr Hw h. assert (@answers P h = 0%nat) as ->; [|done].
  induction h as [|c h IH]; [done|]. destruct c; cbn [answers]; try done; [by rewrite Hr|by rewrite Hw].
Qed.

(** A modem that sends one message: the identifiers are 1 and 2. *)
Definition demo_frame : list Z :=
  bytes "+XSECCHANNEL: 1,2,4," ++ [34] ++ bytes "QUJD" ++ [34; 13; 10].

Definition one_frame (n : nat) : list Z := match n with O => demo_frame | _ => [] end.

Definition sane_check (buffer : list Z) : bool :=
  forallb (fun k => match scan_header (drop (length MSG_START_STR) (drop k buffer)) with
                    | Some (a, b, c) => (0 <=? a) && (a <? 2 ^ 16) && (0 <=? b) && (b <? 2 ^ 16)
                                        && (2 <=? c) && (c <? 2 ^ 31)
                    | None => true
                    end) (seq 0 (S (length buffer))).

Lemma sane_check_ok buffer : sane_check buffer = true -> sane_frames buffer.
Proof.
  unfold sane_check, sane_frames. rewrite forallb_forall. intros Hc k.
  destruct (decide (k <= length buffer)%nat) as [Hk|Hk].
  - specialize (Hc k). destruct (scan_header _) as [[[a b] c]|]; [|done].
    assert (In k (seq 0 (S (length buffer)))) as Hi by (apply in_seq; lia).
    specialize (Hc Hi). unfold id16.
    rewrite !andb_true_iff, !Z.leb_le, !Z.ltb_lt in Hc. lia.
  - rewrite (drop_ge buffer) by lia. by rewrite drop_nil.
Qed.

Lemma demo_channel_ok : @channel_ok (talking one_frame).
Proof.
  split; try done.
  - intros h fd d. cbn. lia.
  - intros fd s h r d s' h' E.
    assert (forall k h data, (data = [] \/ (data = demo_frame /\ (1 <= turns h)%nat)) ->
      @dia (talking one_frame) secure _ h (@tty_read_loop (talking one_frame) _ k fd SEC_AT_SIZE data)
        (fun x _ => x.2 = [] \/ x.2 = demo_frame)) as Hl.
    { clear. induction k as [|k IH]; intros h data Hd; cbn [tty_read_loop].
      { apply dia_ret. cbn. naive_solver. }
      eapply (dia_bind _ _ _ (fun x h' => (1 <= turns h')%nat /\
        (x = inr [] \/ (x = inr demo_frame /\ turns h = 0%nat)))).
      { apply dia_call; [done|]. split; [cbn; lia|]. cbn [reply talking with_reply].
        destruct (Nat.ltb_spec (turns h) 15); [|by left].
        destruct (turns h) eqn:Et; [by right|by left]. }
      intros x h1 _ [Ht [->|[-> E0]]].
      - rewrite take_nil. destruct (_ <? _)%nat; [apply dia_ret; cbn; naive_solver|].
        eapply (dia_bind _ _ _ (fun _ h' => (1 <= turns h')%nat)); [by apply dia_call|].
        intros _ h2 _ Ht2. apply IH. naive_solver.
      - destruct Hd as [->|[_ ?]]; [|lia]. apply IH. right. by split. }
    unfold tty_read in E. change (SEC_AT_SIZE <? 0) with false in E. cbv iota in E.
    specialize (Hl (Z.to_nat AT_READ_MAX_RETRIES) h [] ltac:(by left) s). unfold wp in Hl. rewrite E in Hl.
    cbn [snd] in Hl. destruct Hl as (_ & _ & [-> | ->]); apply sane_check_ok; by vm_compute.
  - intros src size conv. cbn. destruct (Z.ltb_spec (Z.of_nat (length src)) size); [|done].
    by intros [= <-].
Qed.

Definition demo_secure : secure :=
  {| sec_enable := true; sec_dlc := bytes "/dev/gsmtty9"; sec_fd := 7; sec_lib := true;
     send_queue := []; nb_of_msgs := 0; err_msg := None |}.

Lemma demo_secure_inv : sec_inv demo_secure.
Proof. split; [by split|by left]. Qed.

Lemma secure_event_safe_witness :
  sec_inv demo_secure /\
  exists r s' h', @secure_event (talking one_frame) demo_secure [] = Done r s' h' /\ sec_inv s' /\
    map message (send_queue s') =
      [bytes "at+xsecchannel=1,2,2," ++ [34] ++ bytes "AB" ++ [34; 13; 10]].
Proof.
  split; [apply demo_secure_inv|].
  destruct (wp_done _ _ _ _ (@secure_event_safe (talking one_frame) demo_secure [] demo_channel_ok
    (talking_pauses one_frame) demo_secure_inv)) as (r & s' & h' & E & Hi & _).
  exists r, s', h'. split; [done|]. split; [done|].
  vm_compute in E. injection E as <- <- <-. reflexivity.
Defined.

Lemma secure_queue_fifo_witness :
  wp False (@push_msg (talking one_frame) (P_buffer 4 (bytes "at?")) 3)
    (fun r s' _ => r = E_ERR_SUCCESS /\ queue_inv s') demo_secure [].
Proof.
  eapply wp_mono; [apply (@secure_queue_fifo (talking one_frame) demo_secure [] (ch_writes demo_channel_ok)
    (ch_alloc demo_channel_ok) (proj1 demo_secure_inv))|]; [cbn; lia|].
  cbv beta. cbn [send_queue demo_secure]. naive_solver.
Defined.

(** The security library fails on the first message: [handle_message] still
    reports a success, and the daemon stops on the assertion of [push_msg]. *)
Theorem secure_library_failure_aborts :
  exists h', @secure_event (with_reply (talking one_frame) (fun h c =>
    match c with
    | X_secure_callback _ _ => (-1, None)
    | c => @reply (talking one_frame) h c
    end)) demo_secure [] = Abort h'.
Proof. eexists. vm_compute. reflexivity. Qed.

(** A message that announces a negative length: it is compared with the largest
    length only, and the data is copied with that size. *)
Definition negative_frame (n : nat) : list Z :=
  match n with
  | O => bytes "+XSECCHANNEL: 1,2,-1," ++ [34] ++ bytes "QUJD" ++ [34; 13; 10]
  | _ => []
  end.

Theorem negative_length_undefined :
  exists h', @secure_event (talking negative_frame) demo_secure [] = Undef h'.
Proof. eexists. vm_compute. reflexivity. Qed.
