(* ===== verification/Mmgr.v ===== *)
(** The state of the daemon: [mmgr_data_t] of core/events_manager.h, and how the
    operations of each component act on their part of it.

    A handle of the source is the component's record: no component keeps a
    pointer into another's state, except the timer's to the clients, which its
    operations take as an argument.  The tables of handlers are functions:
    [fake_requests] is all [client_events_init] reads to fill them. *)
From S2P Require Import Prelude Platform Io Files At Msg Recov Clients Timer Link Mcd Firmware Mcdr Bus.
From S2P Require Import Secure.

(** [cli_req] and [link_state] are sets of these bits. *)
Definition E_CLI_REQ_NONE : Z := 0.
Definition E_CLI_REQ_RESET : Z := bit 1.
Definition E_CLI_REQ_OFF : Z := bit 2.
Definition E_CLI_REQ_PROD : Z := bit 3.

Definition E_MDM_LINK_NONE : Z := 0.
Definition E_MDM_LINK_BB_READY : Z := bit 0.
Definition E_MDM_LINK_FLASH_READY : Z := bit 1.
Definition E_MDM_LINK_FW_DL_READY : Z := bit 2.
Definition E_MDM_LINK_IPC_READY : Z := bit 3.
Definition E_MDM_LINK_CORE_DUMP_READY : Z := bit 4.
Definition E_MDM_LINK_CORE_DUMP_READ_READY : Z := bit 5.

Inductive e_events_type :=
| E_EVENT_IPC | E_EVENT_NEW_CLIENT | E_EVENT_CLIENT | E_EVENT_TIMEOUT | E_EVENT_MCD
| E_EVENT_BUS | E_EVENT_SECUR | E_EVENT_FLASHING | E_EVENT_MCDR.
#[export] Instance e_events_type_eq : EqDecision e_events_type.
Proof. solve_decision. Defined.

(** [ev] holds the descriptors [epoll_wait] reported. *)
Record mmgr_events := {
  nfds : Z; ev : list Z; cur_ev : Z; ev_state : e_events_type; cli_req : Z; link_state : Z }.

Record current_request := { req_hdr : msg_hdr; req_data : option (list Z); req_client : option nat }.

(** [is_mdm_bb_ready] is the static variable of [bus_events]. *)
Record mmgr_data := {
  epollfd : Z; fd_tty : Z; fd_cnx : Z; dsda : bool; cd_retrieved : bool;
  state : e_mmgr_state; wakeup_cfg : e_mdm_wakeup_cfg;
  reset : reset_management; clients : client_list; timer : mmgr_timer; mcdr : mcdr_ctx;
  events : mmgr_events; request : current_request; secur : secure; mcd : mmgr_mcd_ctx;
  flash : mdm_flash_ctx; fw : mdm_fw; dlc : mdm_dlc; keys : key_ctx; mlink : link_ctx;
  bus : bus_ev; fake_requests : bool; is_mdm_bb_ready : bool }.

Definition put_fd_tty (x : Z) (s : mmgr_data) : mmgr_data :=
  {| epollfd := epollfd s; fd_tty := x; fd_cnx := fd_cnx s; dsda := dsda s; cd_retrieved
     := cd_retrieved s; state := state s; wakeup_cfg := wakeup_cfg s; reset := reset s;
     clients := clients s; timer := timer s; mcdr := mcdr s; events := events s; request
     := request s; secur := secur s; mcd := mcd s; flash := flash s; fw := fw s; dlc :=
     dlc s; keys := keys s; mlink := mlink s; bus := bus s; fake_requests :=
     fake_requests s; is_mdm_bb_ready := is_mdm_bb_ready s |}.
Definition put_fd_cnx (x : Z) (s : mmgr_data) : mmgr_data :=
  {| epollfd := epollfd s; fd_tty := fd_tty s; fd_cnx := x; dsda := dsda s; cd_retrieved
     := cd_retrieved s; state := state s; wakeup_cfg := wakeup_cfg s; reset := reset s;
     clients := clients s; timer := timer s; mcdr := mcdr s; events := events s; request
     := request s; secur := secur s; mcd := mcd s; flash := flash s; fw := fw s; dlc :=
     dlc s; keys := keys s; mlink := mlink s; bus := bus s; fake_requests :=
     fake_requests s; is_mdm_bb_ready := is_mdm_bb_ready s |}.
Definition put_epollfd (x : Z) (s : mmgr_data) : mmgr_data :=
  {| epollfd := x; fd_tty := fd_tty s; fd_cnx := fd_cnx s; dsda := dsda s; cd_retrieved
     := cd_retrieved s; state := state s; wakeup_cfg := wakeup_cfg s; reset := reset s;
     clients := clients s; timer := timer s; mcdr := mcdr s; events := events s; request
     := request s; secur := secur s; mcd := mcd s; flash := flash s; fw := fw s; dlc :=
     dlc s; keys := keys s; mlink := mlink s; bus := bus s; fake_requests :=
     fake_requests s; is_mdm_bb_ready := is_mdm_bb_ready s |}.
Definition put_cd_retrieved (x : bool) (s : mmgr_data) : mmgr_data :=
  {| epollfd := epollfd s; fd_tty := fd_tty s; fd_cnx := fd_cnx s; dsda := dsda s;
     cd_retrieved := x; state := state s; wakeup_cfg := wakeup_cfg s; reset := reset s;
     clients := clients s; timer := timer s; mcdr := mcdr s; events := events s; request
     := request s; secur := secur s; mcd := mcd s; flash := flash s; fw := fw s; dlc :=
     dlc s; keys := keys s; mlink := mlink s; bus := bus s; fake_requests :=
     fake_requests s; is_mdm_bb_ready := is_mdm_bb_ready s |}.
Definition put_state (x : e_mmgr_state) (s : mmgr_data) : mmgr_data :=
  {| epollfd := epollfd s; fd_tty := fd_tty s; fd_cnx := fd_cnx s; dsda := dsda s;
     cd_retrieved := cd_retrieved s; state := x; wakeup_cfg := wakeup_cfg s; reset :=
     reset s; clients := clients s; timer := timer s; mcdr := mcdr s; events := events
     s; request := request s; secur := secur s; mcd := mcd s; flash := flash s; fw := fw
     s; dlc := dlc s; keys := keys s; mlink := mlink s; bus := bus s; fake_requests :=
     fake_requests s; is_mdm_bb_ready := is_mdm_bb_ready s |}.
Definition put_wakeup_cfg (x : e_mdm_wakeup_cfg) (s : mmgr_data) : mmgr_data :=
  {| epollfd := epollfd s; fd_tty := fd_tty s; fd_cnx := fd_cnx s; dsda := dsda s;
     cd_retrieved := cd_retrieved s; state := state s; wakeup_cfg := x; reset := reset
     s; clients := clients s; timer := timer s; mcdr := mcdr s; events := events s;
     request := request s; secur := secur s; mcd := mcd s; flash := flash s; fw := fw s;
     dlc := dlc s; keys := keys s; mlink := mlink s; bus := bus s; fake_requests :=
     fake_requests s; is_mdm_bb_ready := is_mdm_bb_ready s |}.
Definition put_reset (x : reset_management) (s : mmgr_data) : mmgr_data :=
  {| epollfd := epollfd s; fd_tty := fd_tty s; fd_cnx := fd_cnx s; dsda := dsda s;
     cd_retrieved := cd_retrieved s; state := state s; wakeup_cfg := wakeup_cfg s; reset
     := x; clients := clients s; timer := timer s; mcdr := mcdr s; events := events s;
     request := request s; secur := secur s; mcd := mcd s; flash := flash s; fw := fw s;
     dlc := dlc s; keys := keys s; mlink := mlink s; bus := bus s; fake_requests :=
     fake_requests s; is_mdm_bb_ready := is_mdm_bb_ready s |}.
Definition put_clients (x : client_list) (s : mmgr_data) : mmgr_data :=
  {| epollfd := epollfd s; fd_tty := fd_tty s; fd_cnx := fd_cnx s; dsda := dsda s;
     cd_retrieved := cd_retrieved s; state := state s; wakeup_cfg := wakeup_cfg s; reset
     := reset s; clients := x; timer := timer s; mcdr := mcdr s; events := events s;
     request := request s; secur := secur s; mcd := mcd s; flash := flash s; fw := fw s;
     dlc := dlc s; keys := keys s; mlink := mlink s; bus := bus s; fake_requests :=
     fake_requests s; is_mdm_bb_ready := is_mdm_bb_ready s |}.
Definition put_timer (x : mmgr_timer) (s : mmgr_data) : mmgr_data :=
  {| epollfd := epollfd s; fd_tty := fd_tty s; fd_cnx := fd_cnx s; dsda := dsda s;
     cd_retrieved := cd_retrieved s; state := state s; wakeup_cfg := wakeup_cfg s; reset
     := reset s; clients := clients s; timer := x; mcdr := mcdr s; events := events s;
     request := request s; secur := secur s; mcd := mcd s; flash := flash s; fw := fw s;
     dlc := dlc s; keys := keys s; mlink := mlink s; bus := bus s; fake_requests :=
     fake_requests s; is_mdm_bb_ready := is_mdm_bb_ready s |}.
Definition put_mcdr (x : mcdr_ctx) (s : mmgr_data) : mmgr_data :=
  {| epollfd := epollfd s; fd_tty := fd_tty s; fd_cnx := fd_cnx s; dsda := dsda s;
     cd_retrieved := cd_retrieved s; state := state s; wakeup_cfg := wakeup_cfg s; reset
     := reset s; clients := clients s; timer := timer s; mcdr := x; events := events s;
     request := request s; secur := secur s; mcd := mcd s; flash := flash s; fw := fw s;
     dlc := dlc s; keys := keys s; mlink := mlink s; bus := bus s; fake_requests :=
     fake_requests s; is_mdm_bb_ready := is_mdm_bb_ready s |}.
Definition put_events (x : mmgr_events) (s : mmgr_data) : mmgr_data :=
  {| epollfd := epollfd s; fd_tty := fd_tty s; fd_cnx := fd_cnx s; dsda := dsda s;
     cd_retrieved := cd_retrieved s; state := state s; wakeup_cfg := wakeup_cfg s; reset
     := reset s; clients := clients s; timer := timer s; mcdr := mcdr s; events := x;
     request := request s; secur := secur s; mcd := mcd s; flash := flash s; fw := fw s;
     dlc := dlc s; keys := keys s; mlink := mlink s; bus := bus s; fake_requests :=
     fake_requests s; is_mdm_bb_ready := is_mdm_bb_ready s |}.
Definition put_request (x : current_request) (s : mmgr_data) : mmgr_data :=
  {| epollfd := epollfd s; fd_tty := fd_tty s; fd_cnx := fd_cnx s; dsda := dsda s;
     cd_retrieved := cd_retrieved s; state := state s; wakeup_cfg := wakeup_cfg s; reset
     := reset s; clients := clients s; timer := timer s; mcdr := mcdr s; events :=
     events s; request := x; secur := secur s; mcd := mcd s; flash := flash s; fw := fw
     s; dlc := dlc s; keys := keys s; mlink := mlink s; bus := bus s; fake_requests :=
     fake_requests s; is_mdm_bb_ready := is_mdm_bb_ready s |}.
Definition put_secur (x : secure) (s : mmgr_data) : mmgr_data :=
  {| epollfd := epollfd s; fd_tty := fd_tty s; fd_cnx := fd_cnx s; dsda := dsda s;
     cd_retrieved := cd_retrieved s; state := state s; wakeup_cfg := wakeup_cfg s; reset
     := reset s; clients := clients s; timer := timer s; mcdr := mcdr s; events :=
     events s; request := request s; secur := x; mcd := mcd s; flash := flash s; fw :=
     fw s; dlc := dlc s; keys := keys s; mlink := mlink s; bus := bus s; fake_requests
     := fake_requests s; is_mdm_bb_ready := is_mdm_bb_ready s |}.
Definition put_mcd (x : mmgr_mcd_ctx) (s : mmgr_data) : mmgr_data :=
  {| epollfd := epollfd s; fd_tty := fd_tty s; fd_cnx := fd_cnx s; dsda := dsda s;
     cd_retrieved := cd_retrieved s; state := state s; wakeup_cfg := wakeup_cfg s; reset
     := reset s; clients := clients s; timer := timer s; mcdr := mcdr s; events :=
     events s; request := request s; secur := secur s; mcd := x; flash := flash s; fw :=
     fw s; dlc := dlc s; keys := keys s; mlink := mlink s; bus := bus s; fake_requests
     := fake_requests s; is_mdm_bb_ready := is_mdm_bb_ready s |}.
Definition put_flash (x : mdm_flash_ctx) (s : mmgr_data) : mmgr_data :=
  {| epollfd := epollfd s; fd_tty := fd_tty s; fd_cnx := fd_cnx s; dsda := dsda s;
     cd_retrieved := cd_retrieved s; state := state s; wakeup_cfg := wakeup_cfg s; reset
     := reset s; clients := clients s; timer := timer s; mcdr := mcdr s; events :=
     events s; request := request s; secur := secur s; mcd := mcd s; flash := x; fw :=
     fw s; dlc := dlc s; keys := keys s; mlink := mlink s; bus := bus s; fake_requests
     := fake_requests s; is_mdm_bb_ready := is_mdm_bb_ready s |}.
Definition put_bus (x : bus_ev) (s : mmgr_data) : mmgr_data :=
  {| epollfd := epollfd s; fd_tty := fd_tty s; fd_cnx := fd_cnx s; dsda := dsda s;
     cd_retrieved := cd_retrieved s; state := state s; wakeup_cfg := wakeup_cfg s; reset
     := reset s; clients := clients s; timer := timer s; mcdr := mcdr s; events :=
     events s; request := request s; secur := secur s; mcd := mcd s; flash := flash s;
     fw := fw s; dlc := dlc s; keys := keys s; mlink := mlink s; bus := x; fake_requests
     := fake_requests s; is_mdm_bb_ready := is_mdm_bb_ready s |}.
Definition put_is_mdm_bb_ready (x : bool) (s : mmgr_data) : mmgr_data :=
  {| epollfd := epollfd s; fd_tty := fd_tty s; fd_cnx := fd_cnx s; dsda := dsda s;
     cd_retrieved := cd_retrieved s; state := state s; wakeup_cfg := wakeup_cfg s; reset
     := reset s; clients := clients s; timer := timer s; mcdr := mcdr s; events :=
     events s; request := request s; secur := secur s; mcd := mcd s; flash := flash s;
     fw := fw s; dlc := dlc s; keys := keys s; mlink := mlink s; bus := bus s;
     fake_requests := fake_requests s; is_mdm_bb_ready := x |}.
Definition put_dsda (x : bool) (s : mmgr_data) : mmgr_data :=
  {| epollfd := epollfd s; fd_tty := fd_tty s; fd_cnx := fd_cnx s; dsda := x;
     cd_retrieved := cd_retrieved s; state := state s; wakeup_cfg := wakeup_cfg s; reset
     := reset s; clients := clients s; timer := timer s; mcdr := mcdr s; events :=
     events s; request := request s; secur := secur s; mcd := mcd s; flash := flash s;
     fw := fw s; dlc := dlc s; keys := keys s; mlink := mlink s; bus := bus s;
     fake_requests := fake_requests s; is_mdm_bb_ready := is_mdm_bb_ready s |}.
Definition put_fw (x : mdm_fw) (s : mmgr_data) : mmgr_data :=
  {| epollfd := epollfd s; fd_tty := fd_tty s; fd_cnx := fd_cnx s; dsda := dsda s;
     cd_retrieved := cd_retrieved s; state := state s; wakeup_cfg := wakeup_cfg s; reset
     := reset s; clients := clients s; timer := timer s; mcdr := mcdr s; events :=
     events s; request := request s; secur := secur s; mcd := mcd s; flash := flash s;
     fw := x; dlc := dlc s; keys := keys s; mlink := mlink s; bus := bus s;
     fake_requests := fake_requests s; is_mdm_bb_ready := is_mdm_bb_ready s |}.
Definition put_dlc (x : mdm_dlc) (s : mmgr_data) : mmgr_data :=
  {| epollfd := epollfd s; fd_tty := fd_tty s; fd_cnx := fd_cnx s; dsda := dsda s;
     cd_retrieved := cd_retrieved s; state := state s; wakeup_cfg := wakeup_cfg s; reset
     := reset s; clients := clients s; timer := timer s; mcdr := mcdr s; events :=
     events s; request := request s; secur := secur s; mcd := mcd s; flash := flash s;
     fw := fw s; dlc := x; keys := keys s; mlink := mlink s; bus := bus s; fake_requests
     := fake_requests s; is_mdm_bb_ready := is_mdm_bb_ready s |}.
Definition put_keys (x : key_ctx) (s : mmgr_data) : mmgr_data :=
  {| epollfd := epollfd s; fd_tty := fd_tty s; fd_cnx := fd_cnx s; dsda := dsda s;
     cd_retrieved := cd_retrieved s; state := state s; wakeup_cfg := wakeup_cfg s; reset
     := reset s; clients := clients s; timer := timer s; mcdr := mcdr s; events :=
     events s; request := request s; secur := secur s; mcd := mcd s; flash := flash s;
     fw := fw s; dlc := dlc s; keys := x; mlink := mlink s; bus := bus s; fake_requests
     := fake_requests s; is_mdm_bb_ready := is_mdm_bb_ready s |}.
Definition put_mlink (x : link_ctx) (s : mmgr_data) : mmgr_data :=
  {| epollfd := epollfd s; fd_tty := fd_tty s; fd_cnx := fd_cnx s; dsda := dsda s;
     cd_retrieved := cd_retrieved s; state := state s; wakeup_cfg := wakeup_cfg s; reset
     := reset s; clients := clients s; timer := timer s; mcdr := mcdr s; events :=
     events s; request := request s; secur := secur s; mcd := mcd s; flash := flash s;
     fw := fw s; dlc := dlc s; keys := keys s; mlink := x; bus := bus s; fake_requests
     := fake_requests s; is_mdm_bb_ready := is_mdm_bb_ready s |}.
Definition put_fake_requests (x : bool) (s : mmgr_data) : mmgr_data :=
  {| epollfd := epollfd s; fd_tty := fd_tty s; fd_cnx := fd_cnx s; dsda := dsda s;
     cd_retrieved := cd_retrieved s; state := state s; wakeup_cfg := wakeup_cfg s; reset
     := reset s; clients := clients s; timer := timer s; mcdr := mcdr s; events :=
     events s; request := request s; secur := secur s; mcd := mcd s; flash := flash s;
     fw := fw s; dlc := dlc s; keys := keys s; mlink := mlink s; bus := bus s;
     fake_requests := x; is_mdm_bb_ready := is_mdm_bb_ready s |}.

Definition put_nfds (x : Z) (e : mmgr_events) : mmgr_events :=
  {| nfds := x; ev := ev e; cur_ev := cur_ev e; ev_state := ev_state e; cli_req :=
     cli_req e; link_state := link_state e |}.
Definition put_ev (x : list Z) (e : mmgr_events) : mmgr_events :=
  {| nfds := nfds e; ev := x; cur_ev := cur_ev e; ev_state := ev_state e; cli_req :=
     cli_req e; link_state := link_state e |}.
Definition put_cur_ev (x : Z) (e : mmgr_events) : mmgr_events :=
  {| nfds := nfds e; ev := ev e; cur_ev := x; ev_state := ev_state e; cli_req := cli_req
     e; link_state := link_state e |}.
Definition put_ev_state (x : e_events_type) (e : mmgr_events) : mmgr_events :=
  {| nfds := nfds e; ev := ev e; cur_ev := cur_ev e; ev_state := x; cli_req := cli_req
     e; link_state := link_state e |}.
Definition put_cli_req (x : Z) (e : mmgr_events) : mmgr_events :=
  {| nfds := nfds e; ev := ev e; cur_ev := cur_ev e; ev_state := ev_state e; cli_req :=
     x; link_state := link_state e |}.
Definition put_link_state (x : Z) (e : mmgr_events) : mmgr_events :=
  {| nfds := nfds e; ev := ev e; cur_ev := cur_ev e; ev_state := ev_state e; cli_req :=
     cli_req e; link_state := x |}.

(** * Acting on a part of the state *)

Section lift.
Context `{Platform}.
Abbreviation IOd := (IO mmgr_data).

Definition on_reset {A} (m : IO reset_management A) : IOd A := zoom reset put_reset m.
Definition on_cli {A} (m : IO client_list A) : IOd A := zoom clients put_clients m.
Definition on_tim {A} (m : IO mmgr_timer A) : IOd A := zoom timer put_timer m.
Definition on_mcdr {A} (m : IO mcdr_ctx A) : IOd A := zoom mcdr put_mcdr m.
Definition on_secur {A} (m : IO secure A) : IOd A := zoom secur put_secur m.
Definition on_mcd {A} (m : IO mmgr_mcd_ctx A) : IOd A := zoom mcd put_mcd m.
Definition on_flash {A} (m : IO mdm_flash_ctx A) : IOd A := zoom flash put_flash m.
Definition on_bus {A} (m : IO bus_ev A) : IOd A := zoom bus put_bus m.
Definition on_events {A} (m : IO mmgr_events A) : IOd A := zoom events put_events m.

(** The operations that take the timer and its clients. *)
Definition on_timer_clients {A} (m : IO (mmgr_timer * client_list) A) : IOd A :=
  zoom (fun s => (timer s, clients s)) (fun x s => put_timer x.1 (put_clients x.2 s)) m.

(** [set_mmgr_state]. *)
Definition set_mmgr_state (st : e_mmgr_state) : IOd unit := modify (put_state st).

Definition get_cli_req : IOd Z := gets (fun s => cli_req (events s)).
Definition set_cli_req (x : Z) : IOd unit := on_events (modify (put_cli_req x)).
Definition get_link_state : IOd Z := gets (fun s => link_state (events s)).
Definition set_link_state (x : Z) : IOd unit := on_events (modify (put_link_state x)).

(** [link_state |= x] and [link_state &= ~x]. *)
Definition link_add (x : Z) : IOd unit := l ← get_link_state; set_link_state (l .| x).
Definition link_del (x : Z) : IOd unit := l ← get_link_state; set_link_state (l .~ x).

(** [clients_inform_all(mmgr->clients, ...)] with its status ignored. *)
Definition tell_all (e : e_mmgr_events) (p : payload) : IOd unit :=
  _ ← on_cli (clients_inform_all e p); mret tt.

(** [client_inform(mmgr->request.client, ...)]. *)
Definition tell_requester (e : e_mmgr_events) (p : payload) : IOd e_mmgr_errors :=
  s ← get; on_cli (client_inform (req_client (request s)) e p).

Definition start_timer (t : e_timer_type) : IOd unit := _ ← on_tim (timer_start t); mret tt.
Definition stop_timer (t : e_timer_type) : IOd unit := _ ← on_tim (timer_stop t); mret tt.
Definition stop_all_timers : IOd unit := _ ← on_tim timer_stop_all; mret tt.

(** [mdm_mcd_register] and [mdm_mcd_unregister] with their status ignored. *)
Definition mcd_register (e : Z) (overwrite : bool) : IOd unit :=
  _ ← on_mcd (mdm_mcd_register e overwrite); mret tt.
Definition mcd_unregister (e : Z) : IOd unit := _ ← on_mcd (mdm_mcd_unregister e); mret tt.

Definition force_recovery (o : e_force_operation) : IOd unit :=
  _ ← on_reset (recov_force o); mret tt.

(** A TFT event structure as the handlers fill it. *)
Definition MMGR_CLI_TFT_AP_LOG_MASK : Z := bit 0.
Definition MMGR_CLI_TFT_BP_LOG_MASK : Z := bit 1.

Definition tft (t : e_event_type) (name : string) (log : Z) (data : list (list Z)) : payload :=
  P_tft_event {| tft_type := t; tft_name := bytes name; tft_log := log; tft_data := data |}.

End lift.
