(* ===== verification/ModemEvents.v ===== *)
(** The events of the modem: core/modem_events.c. *)
From S2P Require Import Prelude Platform Io Files At Msg Recov Clients Timer Link Mcd Firmware Mcdr Bus.
From S2P Require Import Secure Mmgr.

(** * The core dump logs *)

Definition TIMESTAMP_LEN : Z := 32.
Definition CD_DUMPLOG_CMD : list Z := bytes "at@cdd:dumpLog()" ++ CR.
Definition CD_LOG_TERMINATION : list Z := bytes "*** CDD log dump done ***".

Section core_dump_logs.
Context `{Platform} {S : Type}.

(** Result: the status and the new value of [*len].  [written] is unsigned: an
    error of [write] is taken for a success. *)
Definition write_to_cd_log_file (fs_fd : Z) (pszResp : list Z) (len : Z) : IO S (Z * Z) :=
  let '(ret, len) := match strstr CD_LOG_TERMINATION pszResp with
                     | Some k => (1, Z.of_nat (k + length CD_LOG_TERMINATION))
                     | None => (0, len)
                     end in
  if 0 <? fs_fd then
    written ← call (X_write fs_fd (take (Z.to_nat len) pszResp));
    if 0 <? uint32 written then
      written' ← call (X_write fs_fd LINE_SEPARATOR);
      mret (ret, uint32 (uint32 written + written'))
    else mret (-1, 0)
  else mret (-1, 0).

(** The name of the log file, after that of the core dump if there is one. *)
Definition cd_log_file (mdm_version filename : list Z) : IO S (list Z) :=
  basename ←
    (if bool_decide (filename = []) then
       timestamp ← generate_timestamp TIMESTAMP_LEN;
       mret (in_buffer PATH_MAX (bytes "cd_debug_" ++ mdm_version ++ bytes "_" ++
                                 default (bytes "00000000000000") timestamp))
     else
       let base := in_buffer PATH_MAX filename in
       mret (match strstr (bytes ".tar.gz") base with Some k => take k base | None => base end));
  mret (in_buffer PATH_MAX (basename ++ bytes ".txt")).

(** Asks for the logs until they are read; the result of [read_cd_logs] is
    [None] when the command could not be sent. *)
Fixpoint dump_logs (fuel : nat) (fd fs_fd : Z) : IO S (e_mmgr_errors * option Z) :=
  match fuel with
  | O => undefined
  | Datatypes.S n =>
      ret ← send_at_retry fd CD_DUMPLOG_CMD 0 AT_ANSWER_NO_TIMEOUT;
      if negb (succeeded ret) then mret (ret, None)
      else
        read_status ← read_cd_logs fd fs_fd write_to_cd_log_file;
        if read_status =? -1 then dump_logs n fd fs_fd else mret (ret, Some read_status)
  end.

(** The label [Exit]. *)
Definition cd_logs_exit (fd fs_fd dir_fd : Z) : IO S unit :=
  when (0 <? fd) (_ ← tty_close fd; mret tt) ;;
  when (0 <? fs_fd) (_ ← call (X_fsync fs_fd); _ ← call (X_close fs_fd); mret tt) ;;
  when (0 <? dir_fd) (_ ← call (X_close dir_fd); mret tt).

(** [mdm_start_core_dump_logs], given what it reads of the daemon's state. *)
Definition fetch_core_dump_logs (core_dump_log_port mdm_version path filename : list Z)
  : IO S e_mmgr_errors :=
  '(ret, fd) ← tty_open core_dump_log_port CLOSED_FD;
  if fd <=? 0 then cd_logs_exit fd (-1) (-1) ;; mret ret
  else
    dir ← call (X_open path);
    if dir.1 <=? 0 then cd_logs_exit fd (-1) dir.1 ;; mret ret
    else
      file ← cd_log_file mdm_version filename;
      fs_fd ← call (X_openat dir.1 file);
      if fs_fd <=? 0 then cd_logs_exit fd fs_fd dir.1 ;; mret ret
      else
        '(ret, read_status) ← dump_logs loop_fuel fd fs_fd;
        match read_status with
        | None => cd_logs_exit fd fs_fd dir.1 ;; mret ret
        | Some st =>
            if negb (st =? 0) then cd_logs_exit fd fs_fd dir.1 ;; mret E_ERR_FAILED
            else
              _ ← call (X_fsync fs_fd);
              _ ← call (X_close fs_fd);
              _ ← call (X_tcflush fd);
              cd_logs_exit fd (-1) dir.1 ;; mret ret
        end.

End core_dump_logs.

(** Fetching the logs is a dialogue, which ends when the terminals pause. *)
Section fetch_ends.
Context `{Platform} {S : Type}.

Lemma w_write_to_cd_log R `{HR : !PreOrder R} fs l n :
  within (S := S) R tty_call (write_to_cd_log_file fs l n).
Proof. within_auto. Qed.

Lemma w_fetch R `{HR : !PreOrder R} port v path f :
  within (S := S) R tty_call (fetch_core_dump_logs port v path f).
Proof.
  assert (Hd : forall k fd fs, within (S := S) R tty_call (dump_logs k fd fs)).
  { induction k as [|k IH]; intros fd fs; cbn [dump_logs]; [apply within_undefined|].
    apply (within_bind R tty_call); [auto with within|]. intros ret.
    destruct (negb _); [by apply within_ret|]. apply (within_bind R tty_call).
    - apply w_read_cd_logs; [done|]. intros. by apply w_write_to_cd_log.
    - intros st. destruct (_ =? _); [apply IH|by apply within_ret]. }
  unfold fetch_core_dump_logs. within_auto.
Qed.

Context (Hp : terminals_pause).

Lemma dia_cd_lines n h fs cr ret : (length cr < n)%nat ->
  dia (S := S) h (cd_lines n write_to_cd_log_file fs cr ret) anyQ.
Proof.
  revert h cr ret. induction n as [|n IH]; intros h cr ret Hn; [lia|]. cbn [cd_lines].
  destruct (strstr LINE_SEPARATOR cr) as [k|] eqn:E; [|by apply dia_ret].
  pose proof (strstr_lt _ _ _ E) as Hl. change (length LINE_SEPARATOR) with 2%nat in *.
  destruct (_ =? _)%nat; [apply IH; rewrite length_drop; lia|].
  eapply (dia_bind _ _ _ anyQ); [unfold write_to_cd_log_file; dia_auto|].
  intros [res len] h1 _ _. destruct (0 <? res); [by apply dia_ret|].
  destruct (res =? 0); [|by apply dia_ret]. apply IH. rewrite length_drop. lia.
Qed.

(** A status of -1 takes an answer of the terminal. *)
Lemma dia_read_cd_loop n h fd fs pending ret : (loop_fuel <= n + answers h)%nat ->
  dia (S := S) h (read_cd_loop n fd fs write_to_cd_log_file pending ret) (fun r h' =>
    r = -1 -> ret = -1 \/ (answers h < answers h')%nat).
Proof.
  revert h pending ret. induction n as [|n IH]; intros h pending ret Hn; [specialize (Hp h); lia|].
  cbn [read_cd_loop]. eapply dia_bind; [apply dia_wait|]. cbv beta. intros e h1 He1 Ha.
  destruct (succeeded e) eqn:Es; cbn [negb]; [|apply dia_ret; by left].
  apply bool_decide_eq_true in Es. specialize (Ha Es).
  destruct (Z.leb_spec (AT_DEFAULT_RESPONSE_SIZE - Z.of_nat (length pending)) 0); [apply dia_ret; by left|].
  eapply dia_bind; [apply dia_read; lia|]. cbv beta. intros [e2 d] h2 He2 _. apply answers_mono in He2.
  destruct (negb _); [apply dia_ret; by left|].
  destruct (_ <=? _)%nat; [apply dia_ret; right; lia|].
  eapply dia_bind; [apply dia_cd_lines; lia|]. intros [[out r] rest] h3 He3 _. apply answers_mono in He3.
  destruct out; [apply dia_ret; right; lia|]. destruct (_ <? _)%nat; [|apply dia_ret; right; lia].
  eapply dia_mono; [apply IH; lia|]. cbv beta. intros r2 h4 He4 _ _. apply answers_mono in He4.
  right. lia.
Qed.

Lemma dia_dump_logs n h fd fs : (loop_fuel <= n + answers h)%nat ->
  dia (S := S) h (dump_logs n fd fs) anyQ.
Proof.
  revert h. induction n as [|n IH]; intros h Hn; [specialize (Hp h); lia|]. cbn [dump_logs].
  eapply (dia_bind _ _ _ anyQ); [by apply dia_send_at_retry|]. intros ret h1 He1 _.
  apply answers_mono in He1. destruct (negb _); [by apply dia_ret|]. unfold read_cd_logs.
  eapply (dia_bind _ _ _ (fun r h' => r = -1 -> (answers h1 < answers h')%nat)).
  - destruct (_ <=? _); [by apply dia_ret|]. eapply dia_mono; [apply dia_read_cd_loop; lia|].
    cbv beta. intros r h2 _ Hr ->. by destruct (Hr eq_refl).
  - intros r h2 _ Hr. destruct (Z.eqb_spec r (-1)); [|by apply dia_ret]. apply IH.
    specialize (Hr ltac:(done)). lia.
Qed.

Lemma dia_fetch h port v path f : dia (S := S) h (fetch_core_dump_logs port v path f) anyQ.
Proof.
  unfold fetch_core_dump_logs, cd_log_file, generate_timestamp, cd_logs_exit.
  assert (forall h fd fs, dia (S := S) h (dump_logs loop_fuel fd fs) anyQ) as Hd
    by (intros; apply dia_dump_logs; lia).
  dia_auto.
Qed.
End fetch_ends.

#[export] Hint Resolve w_fetch : within.

Section modem_events.
Context `{Platform}.
Abbreviation IOd := (IO mmgr_data).

Definition POWER_OFF_MODEM : list Z := bytes "AT+CFUN=0" ++ [13].
Definition AT_CFUN_RETRY : Z := 0.

(** * Notifications *)

Definition close_tty : IOd unit :=
  s ← get; '(_, fd) ← tty_close (fd_tty s); modify (put_fd_tty fd).

Definition mdm_close_fds : IOd unit := _ ← on_secur secure_stop; close_tty.

(** [mcdr_hdle]: whether the handle is given.  The path sent ends with a NUL. *)
Definition notify_core_dump (mcdr_hdle : bool) (st : e_core_dump_state) : IOd unit :=
  if mcdr_hdle then
    path ← on_mcdr mcdr_get_path;
    filename ← on_mcdr mcdr_get_filename;
    ok ← call (X_calloc (strlen path + strlen filename + 2));
    if negb ok then mret tt
    else
      reason ← (match st with
                | E_CD_TIMEOUT => mret (bytes "Timeout. Operation aborted")
                | E_CD_SUCCEED => mret []
                | _ => on_mcdr mcdr_get_error_reason
                end);
      tell_all E_MMGR_NOTIFY_CORE_DUMP_COMPLETE
        (P_core_dump {| cd_state := st; cd_path := path_join path filename ++ [0];
                        cd_reason := reason |})
  else
    tell_all E_MMGR_NOTIFY_CORE_DUMP_COMPLETE
      (P_core_dump {| cd_state := st; cd_path := []; cd_reason := [] |}).

(** One TFT event of [inform_flash_err] with a single message. *)
Definition flash_stat (log : Z) (msg : string) : IOd unit :=
  tell_all E_MMGR_NOTIFY_TFT_EVENT (tft E_EVENT_STATS "TFT_STAT_FLASH" log [bytes msg]).

Definition inform_flash_err (err : e_modem_fw_error) (att tmr : Z) : IOd unit :=
  tell_all E_MMGR_RESPONSE_MODEM_FW_RESULT (P_fw_result err) ;;
  match err with
  | E_MODEM_FW_BAD_FAMILY =>
      flash_stat 0 "Modem FW bad family" ;;
      call (X_broadcast_msg E_MSG_INTENT_MODEM_FW_BAD_FAMILY)
  | E_MODEM_FW_SUCCEED =>
      let msg := bytes "Modem flashing succeed" in
      ok1 ← call (X_calloc MMGR_CLI_MAX_TFT_EVENT_DATA_LEN);
      ok2 ← (if (ok1 : bool) then call (X_calloc MMGR_CLI_MAX_TFT_EVENT_DATA_LEN) else mret false);
      let data := if negb ok1 then [msg] else if negb ok2 then [msg; print_int att]
                  else [msg; print_int att; print_int tmr] in
      tell_all E_MMGR_NOTIFY_TFT_EVENT (tft E_EVENT_STATS "TFT_STAT_FLASH" 0 data)
  | E_MODEM_FW_SW_CORRUPTED => flash_stat 0 "Modem FW corrupted"
  | E_MODEM_FW_ERROR_UNSPECIFIED =>
      flash_stat MMGR_CLI_TFT_AP_LOG_MASK "Modem FW unspecified error"
  | E_MODEM_FW_OUTDATED =>
      flash_stat 0 "Modem FW outdated" ;;
      call (X_broadcast_msg E_MSG_INTENT_MODEM_FW_OUTDATED)
  | E_MODEM_FW_SECURITY_CORRUPTED =>
      flash_stat 0 "Modem FW security corrupted" ;;
      call (X_broadcast_msg E_MSG_INTENT_MODEM_FW_SECURITY_CORRUPTED)
  | E_MODEM_FW_READY_TIMEOUT | E_MODEM_FW_NUM => mret tt
  end.

Definition inform_upgrade_err (err : Z) : IOd unit :=
  when (err .& MDM_UPDATE_ERR_FLASH)
    (call (X_broadcast_msg E_MSG_INTENT_MODEM_FW_UPDATE_FAILURE)) ;;
  tell_all E_MMGR_NOTIFY_TFT_EVENT
    (tft E_EVENT_ERROR "TFT_MDM_UPDATE" MMGR_CLI_TFT_AP_LOG_MASK
       ((if err .& MDM_UPDATE_ERR_FLASH then [bytes "FLS UPDATE FAILURE"] else []) ++
        (if err .& MDM_UPDATE_ERR_TLV then [bytes "TLV UPDATE FAILURE"] else []))).

(** * Streamline and core dump *)

Definition streamline : IOd bool :=
  '(filename, err) ← on_flash mdm_flash_streamline;
  match filename with
  | Some f =>
      tell_all E_MMGR_NOTIFY_TFT_EVENT
        (tft E_EVENT_ERROR "TFT_ERROR_TLV"
           (MMGR_CLI_TFT_AP_LOG_MASK .| MMGR_CLI_TFT_BP_LOG_MASK)
           [bytes "TLV failure: failed to apply TLV"; f]) ;;
      force_recovery E_FORCE_OOS ;;
      set_mmgr_state E_MMGR_MDM_RESET
  | None => mret tt
  end ;;
  tell_all E_MMGR_RESPONSE_MODEM_NVM_RESULT (P_nvm_result err) ;;
  mret (bool_decide (nvm_id err = E_MODEM_NVM_SUCCEED)).

Definition core_dump_prepare : IOd unit :=
  s ← get;
  v ← call (X_property_get (k_mdm_version (keys s)) []);
  on_mcdr (mcdr_set_mdm_version v) ;;
  enabled ← on_mcdr mcdr_is_enabled;
  if (enabled : bool) then
    stop_timer E_TIMER_CORE_DUMP_IPC_RESET ;;
    stop_timer E_TIMER_WAIT_CORE_DUMP_READY ;;
    start_timer E_TIMER_CORE_DUMP_READING ;;
    _ ← link_on_cd (mlink s);
    _ ← on_mcdr mcdr_start;
    modify (put_cd_retrieved true)
  else
    stop_all_timers ;;
    set_mmgr_state E_MMGR_MDM_RESET.

Definition core_dump_finalize (st : e_core_dump_state) : IOd unit :=
  s ← get;
  _ ← link_on_cd_complete (mlink s);
  call (X_broadcast_msg E_MSG_INTENT_CORE_DUMP_COMPLETE) ;;
  notify_core_dump true st ;;
  mcd_register MDM_CTRL_STATE_IPC_READY false ;;
  mcd_unregister MDM_CTRL_STATE_WARM_BOOT ;;
  when (bool_decide (link_get_bb_type (mlink s) = E_LINK_USB)) (set_link_state E_MDM_LINK_NONE) ;;
  set_mmgr_state E_MMGR_MDM_RESET.

Definition update_modem_tty : IOd e_mmgr_errors :=
  s ← get;
  ret ← tty_listen_fd (epollfd s) (fd_tty s);
  if succeeded ret
  then on_mcd (mdm_mcd_register (MDM_CTRL_STATE_COREDUMP .| MDM_CTRL_STATE_OFF
                .| MDM_CTRL_STATE_WARM_BOOT .| MDM_CTRL_STATE_COLD_BOOT) true)
  else mret ret.

(** * Recovery *)

Definition pre_mdm_cold_reset : IOd e_mmgr_errors :=
  current_state ← on_reset recov_get_state;
  n ← on_cli clients_get_connected;
  (if bool_decide (current_state = E_OPERATION_NONE) && negb (n =? 0) then
     _ ← on_reset (recov_set_state E_OPERATION_WAIT);
     tell_all E_MMGR_EVENT_MODEM_DOWN P_null ;;
     tell_all E_MMGR_NOTIFY_MODEM_COLD_RESET P_null ;;
     set_mmgr_state E_MMGR_WAIT_COLD_ACK ;;
     start_timer E_TIMER_COLD_RESET_ACK
   else if bool_decide (current_state = E_OPERATION_WAIT) || (n =? 0) then
     _ ← on_reset (recov_set_state E_OPERATION_CONTINUE);
     o ← on_reset recov_get_operation;
     when (negb (bool_decide (o = E_FORCE_NO_COUNT)))
       (call (X_broadcast_msg E_MSG_INTENT_MODEM_COLD_RESET)) ;;
     s ← get;
     required ← (if bool_decide (link_get_bb_type (mlink s) = E_LINK_USB)
                 then on_flash mdm_flash_is_required else mret false);
     set_mmgr_state (if (required : bool) then E_MMGR_MDM_START else E_MMGR_MDM_CONF_ONGOING) ;;
     n ← on_cli clients_get_connected;
     when (negb (n =? 0))
       (_ ← on_cli clients_reset_ack_cold; stop_timer E_TIMER_COLD_RESET_ACK)
   else mret tt) ;;
  mret E_ERR_SUCCESS.

Definition pre_modem_out_of_service : IOd e_mmgr_errors :=
  tell_all E_MMGR_EVENT_MODEM_OUT_OF_SERVICE P_null ;;
  call (X_broadcast_msg E_MSG_INTENT_MODEM_OUT_OF_SERVICE) ;;
  set_mmgr_state E_MMGR_MDM_OOS ;;
  _ ← on_reset (recov_set_state E_OPERATION_CONTINUE);
  mret E_ERR_SUCCESS.

Definition pre_platform_reboot : IOd e_mmgr_errors :=
  reboot_counter ← on_reset recov_get_reboot;
  _ ← on_reset (recov_set_state E_OPERATION_CONTINUE);
  allowed ← on_reset recov_get_retry_allowed;
  (if allowed <=? reboot_counter then
     _ ← on_reset recov_next;
     _ ← pre_modem_out_of_service;
     mret tt
   else
     on_reset (recov_set_reboot (int32 (reboot_counter + 1))) ;;
     tell_all E_MMGR_NOTIFY_PLATFORM_REBOOT P_null ;;
     call (X_broadcast_msg E_MSG_INTENT_PLATFORM_REBOOT) ;;
     set_mmgr_state E_MMGR_MDM_OOS) ;;
  mret E_ERR_SUCCESS.

Definition mdm_start_shtdwn : IOd e_mmgr_errors :=
  s ← get;
  mcd_register (MDM_CTRL_STATE_WARM_BOOT .| MDM_CTRL_STATE_COREDUMP) true ;;
  '(_, fd) ← tty_open (mdm_dlc_get_shutdown (dlc s)) CLOSED_FD;
  if fd <? 0 then mret E_ERR_FAILED
  else
    _ ← send_at_retry fd POWER_OFF_MODEM AT_CFUN_RETRY AT_ANSWER_NO_TIMEOUT;
    _ ← tty_close fd;
    mret E_ERR_SUCCESS.

Definition mdm_finalize_shtdwn : IOd e_mmgr_errors :=
  tell_all E_MMGR_EVENT_MODEM_DOWN P_null ;;
  _ ← on_reset (recov_set_state E_OPERATION_NONE);
  mdm_close_fds ;;
  on_mcd mdm_mcd_down.

(** The table [hdler_pre_mdm] of [modem_events_init]; [None] for NULL. *)
Definition hdler_pre_mdm (l : e_escalation_level) : option (IOd e_mmgr_errors) :=
  match l with
  | E_EL_MODEM_COLD_RESET => Some pre_mdm_cold_reset
  | E_EL_PLATFORM_REBOOT => Some pre_platform_reboot
  | E_EL_MODEM_OUT_OF_SERVICE => Some pre_modem_out_of_service
  | E_EL_UNKNOWN | E_EL_NUMBER_OF => None
  end.

(** The table [hdler_mdm]. *)
Definition hdler_mdm (l : e_escalation_level) : option (IO mmgr_mcd_ctx e_mmgr_errors) :=
  match l with
  | E_EL_MODEM_COLD_RESET => Some mdm_mcd_cold_reset
  | E_EL_PLATFORM_REBOOT => Some platform_reboot
  | E_EL_MODEM_OUT_OF_SERVICE => Some mdm_mcd_off
  | E_EL_UNKNOWN | E_EL_NUMBER_OF => None
  end.

Definition terminal_level (l : e_escalation_level) : bool :=
  bool_decide (l = E_EL_PLATFORM_REBOOT) || bool_decide (l = E_EL_MODEM_OUT_OF_SERVICE).

(** The end of [reset_modem], for a level that resets the modem. *)
Definition reset_modem_finish : IOd unit :=
  _ ← on_reset recov_done;
  required ← on_flash mdm_flash_is_required;
  mcd_register ((if (required : bool) then MDM_CTRL_STATE_FW_DOWNLOAD_READY
                 else MDM_CTRL_STATE_IPC_READY) .| MDM_CTRL_STATE_COREDUMP) true ;;
  ipc ← on_mcd mdm_mcd_is_ipc_ready_present;
  when (negb required && ipc) (start_timer E_TIMER_WAIT_FOR_IPC_READY) ;;
  s ← get;
  when (bool_decide (link_get_bb_type (mlink s) = E_LINK_USB))
    (start_timer E_TIMER_WAIT_FOR_BUS_READY ;; set_link_state E_MDM_LINK_NONE).

(** The operation itself, once the preliminary one does not ask to wait. *)
Definition reset_modem_op (level : e_escalation_level) : IOd unit :=
  mcd_register (if terminal_level level then MDM_CTRL_STATE_UNKNOWN
                else MDM_CTRL_STATE_COREDUMP) true ;;
  stop_all_timers ;;
  mdm_close_fds ;;
  s ← get;
  _ ← link_on_mdm_reset (mlink s) 0;
  level ← on_reset recov_get_level;
  match hdler_mdm level with
  | None => abort
  | Some op =>
      _ ← on_mcd op;
      if terminal_level level then mret tt else reset_modem_finish
  end.

(** The first test of the source compares a variable that still holds
    [E_EL_UNKNOWN]: the firmware is always prepared. *)
Definition reset_modem : IOd e_mmgr_errors :=
  ret ← on_flash mdm_flash_prepare;
  when (negb (succeeded ret)) (force_recovery E_FORCE_OOS) ;;
  _ ← on_reset recov_start;
  level ← on_reset recov_get_level;
  match hdler_pre_mdm level with
  | None => abort
  | Some pre =>
      _ ← pre;
      st ← on_reset recov_get_state;
      (if bool_decide (st = E_OPERATION_WAIT) then mret tt else reset_modem_op level) ;;
      mret E_ERR_SUCCESS
  end.

(** * Configuration of the modem *)

Definition configure_modem : IOd e_mmgr_errors :=
  s ← get;
  match link_get_bb_interface (mlink s) with
  | None => abort
  | Some path =>
      '(ret, fd) ← tty_open path (fd_tty s);
      modify (put_fd_tty fd) ;;
      if negb (succeeded ret) then set_mmgr_state E_MMGR_MDM_RESET ;; mret ret
      else
        '(ret, fd, cfg) ← switch_to_mux fd path (link_get_bb_type (mlink s))
          (mdm_dlc_get_mux_cfg (dlc s)) (mdm_dlc_get_sanity (dlc s)) (wakeup_cfg s);
        modify (put_fd_tty fd) ;;
        modify (put_wakeup_cfg cfg) ;;
        if negb (succeeded ret) then
          tell_all E_MMGR_NOTIFY_TFT_EVENT
            (tft E_EVENT_ERROR "TFT_ERROR_IPC"
               (MMGR_CLI_TFT_AP_LOG_MASK .| MMGR_CLI_TFT_BP_LOG_MASK)
               [bytes "MUX configuration failed"]) ;;
          set_mmgr_state E_MMGR_MDM_RESET ;;
          mret ret
        else
          set_mmgr_state E_MMGR_MDM_UP ;;
          _ ← update_modem_tty;
          mret ret
  end.

(** The loop that empties the terminal. *)
Fixpoint drain (fuel : nat) (fd : Z) : IOd unit :=
  match fuel with
  | O => undefined
  | S n =>
      r ← call (X_read fd 64);
      match r with
      | inr (_ :: _) => drain n fd
      | _ => mret tt
      end
  end.

Definition cleanup_ipc_event : IOd e_mmgr_errors :=
  s ← get;
  drain loop_fuel (fd_tty s) ;;
  mdm_close_fds ;;
  mret E_ERR_SUCCESS.

(** The modem is down after a requested shutdown. *)
Definition finish_shutdown : IOd unit :=
  stop_timer E_TIMER_FMMO ;;
  _ ← mdm_finalize_shtdwn;
  set_mmgr_state E_MMGR_MDM_OFF.

Definition ipc_event : IOd e_mmgr_errors :=
  tell_all E_MMGR_EVENT_MODEM_DOWN P_null ;;
  _ ← cleanup_ipc_event;
  s ← get;
  let cfg := match wakeup_cfg s with
             | E_MDM_WAKEUP_OUTBAND => bytes "Streamline OUTBAND"
             | E_MDM_WAKEUP_INBAND => bytes "Streamline INBAND"
             | E_MDM_WAKEUP_UNKNOWN => bytes "Streamline UNKNOWN"
             end in
  tell_all E_MMGR_NOTIFY_TFT_EVENT
    (tft E_EVENT_ERROR "TFT_ERROR_IPC" MMGR_CLI_TFT_AP_LOG_MASK [bytes "IPC hang-up"; cfg]) ;;
  (if bool_decide (state s = E_MMGR_MDM_PREPARE_OFF) then finish_shutdown
   else set_mmgr_state E_MMGR_MDM_RESET) ;;
  mret E_ERR_SUCCESS.

(** [ret = secure_register(...) == E_ERR_SUCCESS] assigns the comparison: 1,
    the value of [E_ERR_FAILED], when it holds and 0 otherwise. *)
Definition launch_secur : IOd e_mmgr_errors :=
  '(r, fd) ← on_secur secure_register;
  let ret := if succeeded r then E_ERR_FAILED else E_ERR_SUCCESS in
  if succeeded r && negb (fd =? CLOSED_FD) then
    s ← get;
    _ ← tty_listen_fd (epollfd s) fd;
    on_secur secure_start
  else mret ret.

Definition mdm_start_core_dump_logs : IOd e_mmgr_errors :=
  s ← get;
  mdm_version ← on_mcdr mcdr_get_mdm_version;
  path ← on_mcdr mcdr_get_path;
  filename ← on_mcdr mcdr_get_filename;
  fetch_core_dump_logs (mdm_dlc_get_cd_logs (dlc s)) mdm_version path filename.

Definition do_configure : IOd e_mmgr_errors :=
  ret ← configure_modem;
  if negb (succeeded ret) then mret ret
  else
    ok ← streamline;
    ret ← (if (ok : bool) then
             tell_all E_MMGR_EVENT_MODEM_NFLUSH P_null ;;
             start_timer E_TIMER_REBOOT_MODEM_DELAY ;;
             mret ret
           else
             ret ← launch_secur;
             tell_all E_MMGR_EVENT_MODEM_UP P_null ;;
             mret ret);
    s ← get;
    when (cd_retrieved s)
      (modify (put_cd_retrieved false) ;;
       log ← on_mcdr mcdr_log_is_enabled;
       when log
         (r ← on_mcdr mcdr_get_result;
          when (negb (bool_decide (r = E_CD_SUCCEED)))
            (_ ← mdm_start_core_dump_logs; mret tt))) ;;
    _ ← link_on_mdm_up (mlink s);
    mret ret.

(** * Events of the modem control driver *)

(** [mdm_flash_start], its timer, or a reset if a thread is already running. *)
Definition start_flashing : IOd e_mmgr_errors :=
  p ← on_bus bus_ev_get_flash_interface;
  ret ← on_flash (mdm_flash_start p);
  (if succeeded ret then start_timer E_TIMER_MDM_FLASHING
   else set_mmgr_state E_MMGR_MDM_RESET) ;;
  mret ret.

(** Closes the link to a modem that has gone down. *)
Definition drop_link : IOd unit :=
  s ← get;
  when (negb (fd_tty s =? CLOSED_FD))
    (tell_all E_MMGR_EVENT_MODEM_DOWN P_null ;; mdm_close_fds).

Definition on_fw_download_ready : IOd e_mmgr_errors :=
  link_add E_MDM_LINK_FW_DL_READY ;;
  link_del E_MDM_LINK_IPC_READY ;;
  mcd_unregister MDM_CTRL_STATE_FW_DOWNLOAD_READY ;;
  s ← get;
  if negb (bool_decide (link_get_flash_ebl_type (mlink s) = E_LINK_USB))
     || (link_state (events s) .& E_MDM_LINK_FLASH_READY)
  then start_flashing else mret E_ERR_SUCCESS.

Definition on_ipc_ready : IOd e_mmgr_errors :=
  stop_timer E_TIMER_WAIT_FOR_IPC_READY ;;
  link_add E_MDM_LINK_IPC_READY ;;
  link_del E_MDM_LINK_FW_DL_READY ;;
  mcd_unregister MDM_CTRL_STATE_IPC_READY ;;
  s ← get;
  if bool_decide (state s = E_MMGR_MDM_CONF_ONGOING) &&
     (negb (bool_decide (link_get_bb_type (mlink s) = E_LINK_USB))
      || (link_state (events s) .& E_MDM_LINK_BB_READY))
  then do_configure else mret E_ERR_SUCCESS.

Definition on_core_dump : IOd e_mmgr_errors :=
  set_mmgr_state E_MMGR_MDM_CORE_DUMP ;;
  stop_all_timers ;;
  drop_link ;;
  link_add E_MDM_LINK_CORE_DUMP_READY ;;
  mcd_unregister MDM_CTRL_STATE_COREDUMP ;;
  start_timer E_TIMER_CORE_DUMP_IPC_RESET ;;
  start_timer E_TIMER_WAIT_CORE_DUMP_READY ;;
  tell_all E_MMGR_NOTIFY_CORE_DUMP P_null ;;
  call (X_broadcast_msg E_MSG_INTENT_CORE_DUMP_WARNING) ;;
  s ← get;
  (if bool_decide (link_get_cd_type (mlink s) = E_LINK_USB) &&
      negb (link_state (events s) .& E_MDM_LINK_CORE_DUMP_READ_READY)
   then mret tt else core_dump_prepare) ;;
  mret E_ERR_SUCCESS.

Definition on_self_reset : IOd e_mmgr_errors :=
  mcd_unregister MDM_CTRL_STATE_WARM_BOOT ;;
  s ← get;
  (if bool_decide (state s = E_MMGR_MDM_CORE_DUMP) then
     r ← on_mcdr mcdr_get_result;
     when (negb (bool_decide (r = E_CD_SUCCEED)))
       (enabled ← on_mcdr mcdr_is_enabled;
        when enabled (on_mcdr mcdr_cancel) ;;
        notify_core_dump false E_CD_SELF_RESET ;;
        set_mmgr_state E_MMGR_MDM_RESET)
   else if bool_decide (state s = E_MMGR_MDM_PREPARE_OFF) then finish_shutdown
   else
     tell_all E_MMGR_EVENT_MODEM_DOWN P_null ;;
     tell_all E_MMGR_NOTIFY_SELF_RESET P_null ;;
     set_mmgr_state E_MMGR_MDM_RESET) ;;
  mret E_ERR_SUCCESS.

Definition modem_control_event : IOd e_mmgr_errors :=
  mcd_state ← on_mcd mdm_mcd_get_state;
  if mcd_state .& E_EV_FW_DOWNLOAD_READY then on_fw_download_ready
  else if mcd_state .& E_EV_IPC_READY then on_ipc_ready
  else if mcd_state .& E_EV_CORE_DUMP then on_core_dump
  else if mcd_state .& E_EV_MODEM_SELF_RESET then on_self_reset
  else mret E_ERR_SUCCESS.

(** * Events of the bus *)

(** [link_state & ready], or a modem without the ready signal. *)
Definition ready_for (ready : Z) : IOd bool :=
  s ← get;
  ipc ← on_mcd mdm_mcd_is_ipc_ready_present;
  mret ((link_state (events s) .& ready) || negb ipc).

Definition bus_configure : IOd e_mmgr_errors :=
  go ← ready_for E_MDM_LINK_IPC_READY;
  if (go : bool) then do_configure else mret E_ERR_SUCCESS.

Definition bus_core_dump : IOd unit :=
  set_mmgr_state E_MMGR_MDM_CORE_DUMP ;;
  stop_all_timers ;;
  drop_link ;;
  start_timer E_TIMER_CORE_DUMP_IPC_RESET ;;
  tell_all E_MMGR_NOTIFY_CORE_DUMP P_null ;;
  call (X_broadcast_msg E_MSG_INTENT_CORE_DUMP_WARNING) ;;
  link_add E_MDM_LINK_CORE_DUMP_READY ;;
  core_dump_prepare.

Definition bus_disconnected : IOd unit :=
  modify (put_is_mdm_bb_ready false) ;;
  s ← get;
  when (bool_decide (state s = E_MMGR_MDM_UP) || bool_decide (state s = E_MMGR_WAIT_COLD_ACK)
        || bool_decide (state s = E_MMGR_WAIT_SHT_ACK)
        || bool_decide (state s = E_MMGR_MDM_CONF_ONGOING))
    (tell_all E_MMGR_EVENT_MODEM_DOWN P_null ;;
     when (negb (fd_tty s =? CLOSED_FD)) mdm_close_fds ;;
     stop_timer E_TIMER_WAIT_CORE_DUMP_READY ;;
     start_timer E_TIMER_WAIT_CORE_DUMP_READY ;;
     set_mmgr_state E_MMGR_MDM_LINK_USB_DISC).

Definition bus_dispatch : IOd e_mmgr_errors :=
  b ← on_bus bus_ev_get_state;
  s ← get;
  if (b .& MDM_BB_READY) && bool_decide (state s = E_MMGR_MDM_CONF_ONGOING) then
    modify (put_is_mdm_bb_ready true) ;;
    stop_timer E_TIMER_WAIT_FOR_BUS_READY ;;
    link_del E_MDM_LINK_FLASH_READY ;;
    link_add E_MDM_LINK_BB_READY ;;
    bus_configure
  else if (b .& MDM_BB_READY) && bool_decide (state s = E_MMGR_MDM_LINK_USB_DISC) then
    modify (put_is_mdm_bb_ready true) ;;
    stop_timer E_TIMER_WAIT_FOR_BUS_READY ;;
    stop_timer E_TIMER_WAIT_CORE_DUMP_READY ;;
    link_add E_MDM_LINK_BB_READY ;;
    bus_configure
  else if (b .& MDM_FLASH_READY) && bool_decide (state s = E_MMGR_MDM_START) then
    stop_timer E_TIMER_WAIT_FOR_BUS_READY ;;
    link_add E_MDM_LINK_FLASH_READY ;;
    link_del E_MDM_LINK_BB_READY ;;
    go ← ready_for E_MDM_LINK_FW_DL_READY;
    if (go : bool) then start_flashing else mret E_ERR_SUCCESS
  else if (b .& MDM_CD_READY) && bool_decide (state s = E_MMGR_MDM_CORE_DUMP) then
    drop_link ;;
    link_add E_MDM_LINK_CORE_DUMP_READ_READY ;;
    l ← get_link_state;
    when (l .& E_MDM_LINK_CORE_DUMP_READY) core_dump_prepare ;;
    mret E_ERR_SUCCESS
  else if (b .& MDM_CD_READY) && bool_decide (state s = E_MMGR_MDM_LINK_USB_DISC) then
    bus_core_dump ;;
    mret E_ERR_SUCCESS
  else if negb (b .& MDM_BB_READY) && is_mdm_bb_ready s then
    bus_disconnected ;;
    mret E_ERR_SUCCESS
  else mret E_ERR_SUCCESS.

Definition bus_events : IOd e_mmgr_errors :=
  on_bus bus_ev_read ;;
  r ← on_bus bus_ev_hdle_events;
  if negb (succeeded r) then mret E_ERR_SUCCESS else bus_dispatch.

End modem_events.
