(* ===== verification/ClientEvents.v ===== *)
(** The requests of the clients: core/client_events.c. *)
From S2P Require Import Prelude Platform Io Files Msg Recov Clients Timer Link Mcd Firmware Mcdr Bus.
From S2P Require Import Secure Mmgr ModemEvents.

Definition CARE_CENTER : Z := 0xCA2CE7E2.

Definition put_hdr (x : msg_hdr) (r : current_request) : current_request :=
  {| req_hdr := x; req_data := req_data r; req_client := req_client r |}.
Definition put_data (x : option (list Z)) (r : current_request) : current_request :=
  {| req_hdr := req_hdr r; req_data := x; req_client := req_client r |}.
Definition put_client (x : option nat) (r : current_request) : current_request :=
  {| req_hdr := req_hdr r; req_data := req_data r; req_client := x |}.

Section client_events.
Context `{Platform}.
Abbreviation IOd := (IO mmgr_data).

Definition set_request (f : current_request -> current_request) : IOd unit :=
  modify (fun s => put_request (f (request s)) s).

Definition client_nack : IOd e_mmgr_errors := tell_requester E_MMGR_NACK P_null.

Definition client_ack : IOd e_mmgr_errors := tell_requester E_MMGR_ACK P_null.

(** The acknowledgement most handlers start with. *)
Definition ack : IOd unit := _ ← client_ack; mret tt.

Definition request_modem_fuse_info : IOd e_mmgr_errors := tell_requester E_MMGR_NACK P_null.

Definition request_modem_get_hw_id : IOd e_mmgr_errors := tell_requester E_MMGR_NACK P_null.

Definition request_set_name : IOd e_mmgr_errors :=
  s ← get;
  let r := request s in
  ret ← on_cli (client_set_name (req_client r) (req_data r) (len (req_hdr r)));
  _ ← tell_requester E_MMGR_ACK P_null;
  mret (if succeeded ret then ret else E_ERR_DISCONNECTED).

(** The four bytes of a request, in network order. *)
Definition request_uint32 : IOd Z :=
  s ← get;
  match req_data (request s) with
  | Some (a :: b :: c :: d :: _) => mret (of_be32 a b c d)
  | _ => undefined
  end.

(** What a client that has just subscribed is told of the modem. *)
Definition status_event (st : e_mmgr_state) : e_mmgr_events :=
  match st with
  | E_MMGR_MDM_OOS => E_MMGR_EVENT_MODEM_OUT_OF_SERVICE
  | E_MMGR_MDM_START | E_MMGR_MDM_CONF_ONGOING | E_MMGR_MDM_RESET | E_MMGR_MDM_OFF
  | E_MMGR_MDM_PREPARE_OFF | E_MMGR_MDM_LINK_USB_DISC => E_MMGR_EVENT_MODEM_DOWN
  | E_MMGR_MDM_UP => E_MMGR_EVENT_MODEM_UP
  | E_MMGR_MDM_CORE_DUMP => E_MMGR_NOTIFY_CORE_DUMP
  | E_MMGR_WAIT_COLD_ACK => E_MMGR_NOTIFY_MODEM_COLD_RESET
  | E_MMGR_WAIT_SHT_ACK => E_MMGR_NOTIFY_MODEM_SHUTDOWN
  | E_MMGR_NUM => E_MMGR_NUM_EVENTS
  end.

Definition request_set_events : IOd e_mmgr_errors :=
  s ← get;
  if len (req_hdr (request s)) =? 4 then
    filter ← request_uint32;
    ret ← on_cli (client_set_filter (req_client (request s)) filter);
    ack ;;
    s ← get;
    _ ← tell_requester (status_event (state s)) P_null;
    mret ret
  else
    _ ← tell_requester E_MMGR_NACK P_null;
    mret E_ERR_FAILED.

Definition unset_released : IOd e_mmgr_errors :=
  s ← get; on_cli (client_unset_request (req_client (request s)) E_CNX_RESOURCE_RELEASED).

Definition set_client_request (r : Z) : IOd unit :=
  s ← get; _ ← on_cli (client_set_request (req_client (request s)) r); mret tt.

(** The end of [resource_acquire_wakeup_modem], once the modem is powered up. *)
Definition wakeup_started : IOd unit :=
  s ← get;
  required ← on_flash mdm_flash_is_required;
  let usb := bool_decide (link_get_flash_ebl_type (mlink s) = E_LINK_USB) in
  set_mmgr_state (if usb && required then E_MMGR_MDM_START else E_MMGR_MDM_CONF_ONGOING) ;;
  set_cli_req E_CLI_REQ_NONE ;;
  _ ← on_reset recov_reinit;
  ipc ← on_mcd mdm_mcd_is_ipc_ready_present;
  when (negb required && ipc) (start_timer E_TIMER_WAIT_FOR_IPC_READY) ;;
  when usb (start_timer E_TIMER_WAIT_FOR_BUS_READY).

Definition resource_acquire_wakeup_modem : IOd e_mmgr_errors :=
  ack ;;
  _ ← unset_released;
  mcd_register MDM_CTRL_STATE_COREDUMP true ;;
  set_link_state E_MDM_LINK_NONE ;;
  ret ← on_flash mdm_flash_prepare;
  if negb (succeeded ret) then
    force_recovery E_FORCE_OOS ;;
    _ ← reset_modem;
    mret E_ERR_FAILED
  else
    required ← on_flash mdm_flash_is_required;
    ipc ← on_mcd mdm_mcd_is_ipc_ready_present;
    (if (required : bool) then mcd_register MDM_CTRL_STATE_FW_DOWNLOAD_READY false
     else when ipc (mcd_register MDM_CTRL_STATE_IPC_READY false)) ;;
    ret ← on_mcd mdm_mcd_up;
    when (succeeded ret) wakeup_started ;;
    mret ret.

Definition resource_acquire : IOd e_mmgr_errors := ack ;; unset_released.

Definition request_resource_release_mdm_off : IOd e_mmgr_errors :=
  set_client_request E_CNX_RESOURCE_RELEASED ;;
  ack ;;
  mret E_ERR_SUCCESS.

Definition request_resource_release : IOd e_mmgr_errors :=
  ack ;;
  set_client_request E_CNX_RESOURCE_RELEASED ;;
  held ← on_cli (clients_has_resource E_PRINT);
  s ← get;
  when (negb held && negb (dsda s))
    (tell_all E_MMGR_NOTIFY_MODEM_SHUTDOWN P_null ;;
     stop_all_timers ;;
     start_timer E_TIMER_MODEM_SHUTDOWN_ACK ;;
     set_mmgr_state E_MMGR_WAIT_SHT_ACK) ;;
  mret E_ERR_SUCCESS.

Definition notify_ap_reset : IOd e_mmgr_errors :=
  s ← get;
  let r := request s in
  name ← on_cli (client_get_name (req_client r));
  ok ← call (X_calloc (strlen name));
  if negb ok then mret E_ERR_FAILED
  else
    let extra :=
      if bool_decide (request_of_id (id (req_hdr r)) = Some E_MMGR_REQUEST_MODEM_RECOVERY)
         && negb (len (req_hdr r) =? 0)
      then default [] (req_data r) else [] in
    on_cli (clients_inform_all E_MMGR_NOTIFY_AP_RESET
              (P_ap_reset {| ap_name := name; ap_extra := extra |})).

Definition request_modem_recovery : IOd e_mmgr_errors :=
  ack ;;
  t ← on_reset recov_get_last_reset;
  s ← get;
  when (tv_sec t <? int32 (ts (req_hdr (request s))))
    (set_cli_req E_CLI_REQ_RESET ;;
     _ ← notify_ap_reset;
     set_mmgr_state E_MMGR_MDM_RESET) ;;
  mret E_ERR_SUCCESS.

Definition request_modem_restart : IOd e_mmgr_errors :=
  ack ;;
  s ← get;
  optional ← (if len (req_hdr (request s)) =? 4 then request_uint32 else mret 0);
  name ← on_cli (client_get_name (req_client (request s)));
  (if (optional =? CARE_CENTER) && bool_decide (name = bytes "MMB_NVM")
   then force_recovery E_FORCE_OOS
   else set_cli_req E_CLI_REQ_RESET ;; force_recovery E_FORCE_NO_COUNT) ;;
  set_mmgr_state E_MMGR_MDM_RESET ;;
  mret E_ERR_SUCCESS.

Definition request_bkup_prod : IOd e_mmgr_errors :=
  ack ;;
  c ← get_cli_req;
  set_cli_req (c .| E_CLI_REQ_PROD) ;;
  force_recovery E_FORCE_NO_COUNT ;;
  set_mmgr_state E_MMGR_MDM_RESET ;;
  mret E_ERR_SUCCESS.

Definition request_ack_cold_reset : IOd e_mmgr_errors :=
  set_client_request E_CNX_COLD_RESET ;;
  all ← on_cli (clients_has_ack_cold E_MUTE);
  when all
    (s ← get;
     when (cli_req (events s) .& E_CLI_REQ_PROD)
       (r ← mdm_fw_backup_calib (fw s);
        when (succeeded r) (tell_all E_MMGR_RESPONSE_MODEM_BACKUP_PRODUCTION P_null)) ;;
     set_cli_req E_CLI_REQ_RESET ;;
     set_mmgr_state E_MMGR_MDM_RESET) ;;
  mret E_ERR_SUCCESS.

Definition request_ack_modem_shutdown : IOd e_mmgr_errors :=
  set_client_request E_CNX_MODEM_SHUTDOWN ;;
  all ← on_cli (clients_has_ack_shtdwn E_MUTE);
  when all
    (set_cli_req E_CLI_REQ_OFF ;;
     stop_timer E_TIMER_MODEM_SHUTDOWN_ACK ;;
     set_mmgr_state E_MMGR_MDM_RESET) ;;
  mret E_ERR_SUCCESS.

Definition request_force_modem_shutdown : IOd e_mmgr_errors :=
  ack ;;
  tell_all E_MMGR_NOTIFY_MODEM_SHUTDOWN P_null ;;
  start_timer E_TIMER_MODEM_SHUTDOWN_ACK ;;
  set_mmgr_state E_MMGR_WAIT_SHT_ACK ;;
  mret E_ERR_SUCCESS.

(** * Fake requests *)

(** The handlers that acknowledge the request and broadcast one event. *)
Definition fake_event (e : e_mmgr_events) : IOd e_mmgr_errors :=
  ack ;; tell_all e P_null ;; mret E_ERR_SUCCESS.

Definition request_fake_up : IOd e_mmgr_errors := fake_event E_MMGR_EVENT_MODEM_UP.
Definition request_fake_down : IOd e_mmgr_errors := fake_event E_MMGR_EVENT_MODEM_DOWN.
Definition request_fake_shtdwn : IOd e_mmgr_errors := fake_event E_MMGR_NOTIFY_MODEM_SHUTDOWN.
Definition request_fake_oos : IOd e_mmgr_errors := fake_event E_MMGR_EVENT_MODEM_OUT_OF_SERVICE.
Definition request_fake_cdd : IOd e_mmgr_errors := fake_event E_MMGR_NOTIFY_CORE_DUMP.
Definition request_fake_ptfrmreboot : IOd e_mmgr_errors := fake_event E_MMGR_NOTIFY_PLATFORM_REBOOT.
Definition request_fake_self_reset : IOd e_mmgr_errors := fake_event E_MMGR_NOTIFY_SELF_RESET.

Definition request_fake_cdd_complete : IOd e_mmgr_errors :=
  ack ;;
  path ← on_mcdr mcdr_get_path;
  let filename := take (Z.to_nat (PATH_MAX - 2)) (path_join path (bytes "cd_fake_coredump.tgz")) in
  _ ← file_write filename [];
  tell_all E_MMGR_NOTIFY_CORE_DUMP_COMPLETE
    (P_core_dump {| cd_state := E_CD_SUCCEED; cd_path := filename;
                    cd_reason := bytes "(fake reason)" |}) ;;
  mret E_ERR_SUCCESS.

Definition request_fake_ap_reset : IOd e_mmgr_errors := ack ;; notify_ap_reset.

(** The test data of [request_fake_tft_event], from index [i] on. *)
Fixpoint fake_tft_data (n : nat) (i : Z) : IOd (list (list Z)) :=
  match n with
  | O => mret []
  | S n' =>
      ok ← call (X_calloc MMGR_CLI_MAX_TFT_EVENT_DATA_LEN);
      l ← fake_tft_data n' (i + 1);
      mret ((if (ok : bool) then bytes "Test data " ++ print_int i else []) :: l)
  end.

Definition request_fake_tft_event : IOd e_mmgr_errors :=
  data ← fake_tft_data (Z.to_nat MMGR_CLI_MAX_TFT_EVENT_DATA) 0;
  ack ;;
  tell_all E_MMGR_NOTIFY_TFT_EVENT
    (tft E_EVENT_STATS "TFT_EVENT_TEST" (MMGR_CLI_TFT_AP_LOG_MASK .| MMGR_CLI_TFT_BP_LOG_MASK)
       data) ;;
  mret E_ERR_SUCCESS.

(** * Dispatch *)

(** The table [hdler_client] that [client_events_init] fills. *)
Definition hdler_client (fake : bool) (st : e_mmgr_state) (r : e_mmgr_requests)
  : IOd e_mmgr_errors :=
  let faked m := if fake then m else client_nack in
  match r with
  | E_MMGR_SET_NAME => request_set_name
  | E_MMGR_SET_EVENTS => request_set_events
  | E_MMGR_RESOURCE_ACQUIRE =>
      match st with
      | E_MMGR_MDM_OFF => resource_acquire_wakeup_modem
      | E_MMGR_MDM_UP | E_MMGR_MDM_START | E_MMGR_MDM_CONF_ONGOING | E_MMGR_WAIT_COLD_ACK =>
          resource_acquire
      | _ => client_nack
      end
  | E_MMGR_RESOURCE_RELEASE =>
      match st with
      | E_MMGR_MDM_OFF | E_MMGR_WAIT_SHT_ACK => request_resource_release_mdm_off
      | E_MMGR_WAIT_COLD_ACK | E_MMGR_MDM_UP => request_resource_release
      | _ => client_nack
      end
  | E_MMGR_REQUEST_MODEM_RECOVERY =>
      match st with
      | E_MMGR_MDM_UP => request_modem_recovery
      | E_MMGR_WAIT_COLD_ACK => client_ack
      | _ => client_nack
      end
  | E_MMGR_REQUEST_MODEM_RESTART =>
      match st with E_MMGR_MDM_UP => request_modem_restart | _ => client_nack end
  | E_MMGR_REQUEST_FORCE_MODEM_SHUTDOWN =>
      match st with E_MMGR_MDM_UP => request_force_modem_shutdown | _ => client_nack end
  | E_MMGR_ACK_MODEM_COLD_RESET =>
      match st with E_MMGR_WAIT_COLD_ACK => request_ack_cold_reset | _ => client_nack end
  | E_MMGR_ACK_MODEM_SHUTDOWN =>
      match st with E_MMGR_WAIT_SHT_ACK => request_ack_modem_shutdown | _ => client_nack end
  | E_MMGR_REQUEST_MODEM_FUSE_INFO =>
      match st with E_MMGR_MDM_UP => request_modem_fuse_info | _ => client_nack end
  | E_MMGR_REQUEST_MODEM_GET_HW_ID =>
      match st with E_MMGR_MDM_UP => request_modem_get_hw_id | _ => client_nack end
  | E_MMGR_REQUEST_MODEM_BACKUP_PRODUCTION =>
      match st with E_MMGR_MDM_UP => request_bkup_prod | _ => client_nack end
  | E_MMGR_REQUEST_FAKE_DOWN => faked request_fake_down
  | E_MMGR_REQUEST_FAKE_UP => faked request_fake_up
  | E_MMGR_REQUEST_FAKE_AP_RESET => faked request_fake_ap_reset
  | E_MMGR_REQUEST_FAKE_SELF_RESET => faked request_fake_self_reset
  | E_MMGR_REQUEST_FAKE_MODEM_SHUTDOWN => faked request_fake_shtdwn
  | E_MMGR_REQUEST_FAKE_MODEM_OUT_OF_SERVICE => faked request_fake_oos
  | E_MMGR_REQUEST_FAKE_CORE_DUMP => faked request_fake_cdd
  | E_MMGR_REQUEST_FAKE_CORE_DUMP_COMPLETE => faked request_fake_cdd_complete
  | E_MMGR_REQUEST_FAKE_PLATFORM_REBOOT => faked request_fake_ptfrmreboot
  | E_MMGR_REQUEST_FAKE_TFT_EVENT => faked request_fake_tft_event
  end.

(** The call through the table, when the state has a row in it. *)
Definition dispatch (r : e_mmgr_requests) (ret : e_mmgr_errors) : IOd e_mmgr_errors :=
  s ← get;
  if bool_decide (state s = E_MMGR_NUM) then mret ret
  else hdler_client (fake_requests s) (state s) r.

Definition is_registration (r : e_mmgr_requests) : bool :=
  bool_decide (r = E_MMGR_SET_NAME) || bool_decide (r = E_MMGR_SET_EVENTS).

(** The request proper, once its data have been read. *)
Definition handle_request (ret : e_mmgr_errors) : IOd e_mmgr_errors :=
  s ← get;
  match request_of_id (id (req_hdr (request s))) with
  | None => mret ret
  | Some r =>
      registered ← on_cli (client_is_registered (req_client (request s)));
      if negb registered && negb (is_registration r) then
        _ ← tell_requester E_MMGR_NACK P_null; mret ret
      else dispatch r ret
  end.

Definition client_request : IOd e_mmgr_errors :=
  set_request (put_data None) ;;
  s ← get;
  let size := len (req_hdr (request s)) in
  if 0 <? size then
    ok ← call (X_calloc size);
    if negb ok then mret E_ERR_FAILED
    else
      fd ← on_cli (client_get_fd (req_client (request s)));
      '(ret, d) ← cnx_read fd size;
      set_request (put_data (Some d)) ;;
      if negb (succeeded ret) || negb (strlen d =? size) then mret ret
      else handle_request ret
  else handle_request E_ERR_FAILED.

(** The descriptor of the current event; outside the array it is undefined. *)
Definition event_fd : IOd Z :=
  s ← get;
  match ev (events s) !! Z.to_nat (cur_ev (events s)) with
  | Some fd => if cur_ev (events s) <? 0 then undefined else mret fd
  | None => undefined
  end.

Definition known_client : IOd e_mmgr_errors :=
  fd ← event_fd;
  client ← on_cli (client_find fd);
  match client with
  | None => _ ← call (X_close fd); mret E_ERR_SUCCESS
  | Some i =>
      '(ret, h) ← msg_get_header fd;
      match h with Some h => set_request (put_hdr h) | None => mret tt end ;;
      set_request (put_client (Some i)) ;;
      match ret with
      | E_ERR_SUCCESS => client_request
      | E_ERR_DISCONNECTED =>
          _ ← dispatch E_MMGR_RESOURCE_RELEASE ret;
          on_cli (client_remove fd)
      | _ => mret ret
      end
  end.

Definition new_client : IOd e_mmgr_errors :=
  fd ← event_fd;
  n ← on_cli clients_get_connected;
  allowed ← on_cli clients_get_allowed;
  if n <=? allowed then
    conn_sock ← cnx_accept fd;
    if conn_sock <? 0 then mret E_ERR_FAILED
    else
      s ← get;
      r ← tty_listen_fd (epollfd s) conn_sock;
      if succeeded r then on_cli (client_add conn_sock) else mret E_ERR_FAILED
  else mret E_ERR_FAILED.

End client_events.
