(* ===== verification/EventsManager.v ===== *)
(** The event loop: core/events_manager.c, and the telephony switch of
    core/modem_manager.c that sets its first state. *)
From S2P Require Import Prelude Platform Io Files At Msg Recov Clients Timer Link Mcd Firmware Mcdr Bus.
From S2P Require Import Secure Mmgr ModemEvents ClientEvents.

Definition FIRST_EVENT : Z := -1.

Section events_manager.
Context `{Platform}.
Abbreviation IOd := (IO mmgr_data).

Definition security_event : IOd e_mmgr_errors :=
  ret ← on_secur secure_event;
  e ← on_secur secure_get_error;
  match e with
  | Some m =>
      tell_all E_MMGR_NOTIFY_TFT_EVENT
        (tft E_EVENT_ERROR "TFT_ERROR_MISC"
           (MMGR_CLI_TFT_AP_LOG_MASK .| MMGR_CLI_TFT_BP_LOG_MASK) [m])
  | None => mret tt
  end ;;
  mret ret.

Definition events_dispose : IOd e_mmgr_errors :=
  _ ← call (X_wake_lock false);
  s ← get;
  when (negb (fd_tty s =? CLOSED_FD)) close_tty ;;
  when (negb (fd_cnx s =? CLOSED_FD))
    ('(_, fd) ← cnx_close (fd_cnx s); modify (put_fd_cnx fd)) ;;
  when (negb (epollfd s =? CLOSED_FD)) (_ ← call (X_close (epollfd s)); mret tt) ;;
  mret E_ERR_SUCCESS.

Definition events_init (nb_client : Z) : IOd e_mmgr_errors :=
  modify (put_fd_tty CLOSED_FD) ;;
  modify (put_fd_cnx CLOSED_FD) ;;
  modify (put_epollfd CLOSED_FD) ;;
  on_events (modify (put_nfds 0)) ;;
  ok ← call (X_calloc (12 * (nb_client + 1)));
  if negb ok then mret E_ERR_FAILED
  else on_events (modify (put_cur_ev FIRST_EVENT)) ;; mret E_ERR_SUCCESS.

(** Runs [m] and goes on with [k] if it succeeds ([goto out] otherwise). *)
Definition and_then (m k : IOd e_mmgr_errors) : IOd e_mmgr_errors :=
  ret ← m; if succeeded ret then k else mret ret.

Definition listen_to (fd : IOd Z) : IOd e_mmgr_errors :=
  fd ← fd; s ← get; tty_listen_fd (epollfd s) fd.

Definition events_start (inst_id : Z) : IOd e_mmgr_errors :=
  and_then ('(ret, fd) ← cnx_open (cnx_get_name [] inst_id).2; modify (put_fd_cnx fd) ;; mret ret)
 (and_then ('(ret, fd) ← tty_init_listener; modify (put_epollfd fd) ;; mret ret)
 (and_then (listen_to (gets fd_cnx))
 (and_then (listen_to (on_mcd mdm_mcd_get_fd))
 (and_then (listen_to (on_flash mdm_flash_get_fd))
 (and_then (enabled ← on_mcdr mcdr_is_enabled;
            if (enabled : bool) then listen_to (on_mcdr mcdr_get_fd) else mret E_ERR_SUCCESS)
 (and_then
   (s ← get;
    if bool_decide (link_get_flash_ebl_type (mlink s) = E_LINK_USB)
       || bool_decide (link_get_flash_fw_type (mlink s) = E_LINK_USB)
       || bool_decide (link_get_bb_type (mlink s) = E_LINK_USB)
    then and_then (on_bus bus_ev_start) (listen_to (on_bus bus_ev_get_fd))
    else mret E_ERR_SUCCESS)
   (s ← get;
    when (negb (bool_decide (link_get_bb_type (mlink s) = E_LINK_USB)))
      (link_add E_MDM_LINK_BB_READY) ;;
    mret E_ERR_SUCCESS))))))).

(** The [do ... while (nfds == -1)] loop around [epoll_wait]. *)
Fixpoint wait_loop (fuel : nat) : IOd e_mmgr_errors :=
  match fuel with
  | O => undefined
  | S n =>
      on_events (modify (put_cur_ev FIRST_EVENT)) ;;
      allowed ← on_cli clients_get_allowed;
      timeout ← on_tim timer_get_timeout;
      s ← get;
      r ← call (X_epoll_wait (epollfd s) (allowed + 1) timeout);
      match r with
      | inr fds =>
          on_events (modify (put_ev fds)) ;;
          on_events (modify (put_nfds (Z.of_nat (length fds)))) ;;
          mret E_ERR_SUCCESS
      | inl e =>
          on_events (modify (put_nfds (-1))) ;;
          if bool_decide (e = EBADF) || bool_decide (e = EINVAL) then mret E_ERR_FAILED
          else wait_loop n
      end
  end.

(** Which component a descriptor belongs to. *)
Definition classify (fd : Z) (s : mmgr_data) : e_events_type :=
  if fd =? fd_cnx s then E_EVENT_NEW_CLIENT
  else if fd =? fd_tty s then E_EVENT_IPC
  else if fd =? mcd_fd (mcd s) then E_EVENT_MCD
  else if fd =? wd_fd (bus s) then E_EVENT_BUS
  else if fd =? sec_fd (secur s) then E_EVENT_SECUR
  else if fd =? (fl_fd_pipe (flash s)).1 then E_EVENT_FLASHING
  else if fd =? (mc_fd_pipe (mcdr s)).1 then E_EVENT_MCDR
  else E_EVENT_CLIENT.

Definition wait_for_event : IOd e_mmgr_errors :=
  s ← get;
  ret ← (if nfds (events s) <=? cur_ev (events s) + 1 then wait_loop loop_fuel
         else mret E_ERR_SUCCESS);
  if negb (succeeded ret) then mret ret
  else
    on_events (modify (fun e => put_cur_ev (cur_ev e + 1) e)) ;;
    s ← get;
    (if nfds (events s) =? 0 then on_events (modify (put_ev_state E_EVENT_TIMEOUT))
     else
       fd ← event_fd;
       s ← get;
       on_events (modify (put_ev_state (classify fd s)))) ;;
    mret ret.

Definition flush_pipe (fd : Z) : IOd unit := _ ← call (X_read fd 1); mret tt.

(** * The events *)

Definition timeout_event : IOd unit :=
  s ← get;
  mdm_action ← on_timer_clients
    (timer_event (state s) (negb (bool_decide (state s = E_MMGR_MDM_LINK_USB_DISC))));
  when (mdm_action .& E_TIMER_STREAMLINE)
    (force_recovery E_FORCE_NO_COUNT ;; set_mmgr_state E_MMGR_MDM_RESET) ;;
  when (mdm_action .& E_TIMER_RESET) (set_mmgr_state E_MMGR_MDM_RESET) ;;
  when (mdm_action .& E_TIMER_CD_ERR) (_ ← link_on_cd_failure (mlink s); mret tt) ;;
  when (mdm_action .& E_TIMER_CANCEL_FLASHING)
    (tell_all E_MMGR_NOTIFY_TFT_EVENT
       (tft E_EVENT_STATS "TFT_STAT_FLASH" 0
          [bytes "Timeout during modem flashing. Operation cancelled"]) ;;
     on_flash (@mdm_flash_cancel _ unit) ;;
     set_mmgr_state E_MMGR_MDM_RESET) ;;
  when (mdm_action .& E_TIMER_STOP_MCDR)
    (on_mcdr mcdr_cancel ;;
     core_dump_finalize E_CD_TIMEOUT ;;
     fd ← on_mcdr mcdr_get_fd;
     flush_pipe fd) ;;
  if mdm_action .& E_TIMER_START_MDM_OFF then set_cli_req E_CLI_REQ_OFF
  else
    when (mdm_action .& E_TIMER_FINALIZE_MDM_OFF)
      (tell_all E_MMGR_NOTIFY_TFT_EVENT
         (tft E_EVENT_ERROR "TFT_ERROR_MISC" MMGR_CLI_TFT_AP_LOG_MASK
            [bytes "Timeout during FMMO. Force modem shutdown"]) ;;
       _ ← mdm_finalize_shtdwn;
       set_mmgr_state E_MMGR_MDM_OFF).

(** The two last arguments of [inform_flash_err] are given in the wrong order. *)
Definition flashing_event : IOd unit :=
  fd ← on_flash mdm_flash_get_fd;
  flush_pipe fd ;;
  stop_timer E_TIMER_MDM_FLASHING ;;
  on_flash mdm_flash_finalize ;;
  mcd_register MDM_CTRL_STATE_IPC_READY false ;;
  err ← on_flash mdm_flash_get_upgrade_err;
  when (negb (err =? MDM_UPDATE_ERR_NONE)) (inform_upgrade_err err) ;;
  e ← on_flash mdm_flash_get_flashing_err;
  tmr ← on_tim (timer_get_value E_TIMER_MDM_FLASHING);
  att ← on_flash mdm_flash_get_attempts;
  inform_flash_err e tmr att ;;
  if bool_decide (e = E_MODEM_FW_SUCCEED) then
    on_flash mdm_flash_reset_attempts ;;
    set_mmgr_state E_MMGR_MDM_CONF_ONGOING ;;
    s ← get;
    when (bool_decide (link_get_bb_type (mlink s) = E_LINK_USB))
      (start_timer E_TIMER_WAIT_FOR_BUS_READY) ;;
    ipc ← on_mcd mdm_mcd_is_ipc_ready_present;
    when ipc (start_timer E_TIMER_WAIT_FOR_IPC_READY)
  else
    when (negb (bool_decide (e = E_MODEM_FW_ERROR_UNSPECIFIED))) (force_recovery E_FORCE_OOS) ;;
    set_mmgr_state E_MMGR_MDM_RESET.

Definition mcdr_event : IOd unit :=
  fd ← on_mcdr mcdr_get_fd;
  flush_pipe fd ;;
  stop_timer E_TIMER_CORE_DUMP_READING ;;
  s ← get;
  when (bool_decide (state s = E_MMGR_MDM_CORE_DUMP))
    (on_mcdr mcdr_finalize ;;
     r ← on_mcdr mcdr_get_result;
     core_dump_finalize r).

(** What the loop does before it waits. *)
Definition before_wait : IOd unit :=
  s ← get;
  if cli_req (events s) .& E_CLI_REQ_OFF then
    _ ← on_cli clients_reset_ack_shtdwn;
    set_cli_req (cli_req (events s) .~ E_CLI_REQ_OFF) ;;
    when (negb (dsda s))
      (start_timer E_TIMER_FMMO ;;
       _ ← mdm_start_shtdwn;
       set_mmgr_state E_MMGR_MDM_PREPARE_OFF)
  else
    when (bool_decide (state s = E_MMGR_MDM_RESET))
      (_ ← reset_modem;
       c ← get_cli_req;
       set_cli_req (c .~ E_CLI_REQ_RESET)).

Definition handle_event (e : e_events_type) : IOd unit :=
  match e with
  | E_EVENT_IPC => _ ← ipc_event; mret tt
  | E_EVENT_MCD => _ ← modem_control_event; mret tt
  | E_EVENT_BUS => _ ← bus_events; mret tt
  | E_EVENT_NEW_CLIENT => _ ← new_client; mret tt
  | E_EVENT_CLIENT => _ ← known_client; mret tt
  | E_EVENT_SECUR => _ ← security_event; mret tt
  | E_EVENT_TIMEOUT => timeout_event
  | E_EVENT_FLASHING => flashing_event
  | E_EVENT_MCDR => mcdr_event
  end.

(** One turn of the loop.  Result: the value of [wakelock] for the next turn, or
    [None] when the loop is left. *)
Definition events_step (wakelock : bool) : IOd (option bool) :=
  before_wait ;;
  s ← get;
  wakelock ←
    (if bool_decide (state s = E_MMGR_MDM_OFF) || bool_decide (state s = E_MMGR_MDM_UP)
        || bool_decide (state s = E_MMGR_MDM_OOS)
     then _ ← call (X_wake_lock false); mret false
     else mret wakelock);
  ret ← wait_for_event;
  if negb (succeeded ret) then mret None
  else
    when (negb wakelock) (_ ← call (X_wake_lock true); mret tt) ;;
    s ← get;
    handle_event (ev_state (events s)) ;;
    mret (Some true).

(** The first [n] turns. *)
Fixpoint events_manager (n : nat) (wakelock : bool) : IOd (option bool) :=
  match n with
  | O => mret (Some wakelock)
  | S n' =>
      r ← events_step wakelock;
      match r with
      | None => mret None
      | Some w => events_manager n' w
      end
  end.

(** * core/modem_manager.c *)

(** An absent property reads as 0: the telephony stack is then enabled. *)
Definition disable_telephony : IOd unit :=
  '(_, off) ← property_get_int (bytes "persist.sys.telephony.off");
  if off =? 1 then force_recovery E_FORCE_OOS ;; set_mmgr_state E_MMGR_MDM_RESET
  else set_mmgr_state E_MMGR_MDM_OFF.

End events_manager.
