(* ===== verification/Frame.v ===== *)
(** What a program leaves alone: a part [f] of the daemon's state is the same when
    it returns. *)
From S2P Require Import Prelude Platform Io Files At Msg Recov Clients Timer Link Mcd Firmware Mcdr Bus.
From S2P Require Import Secure Mmgr ModemEvents ClientEvents EventsManager.

Definition fixes {T A} (f : mmgr_data -> T) (m : IO mmgr_data A) : Prop :=
  forall s h, match m s h with Done _ s' _ => f s' = f s | _ => True end.

Section follow.
Context {T A B : Type} (f : mmgr_data -> T).
Implicit Types (m : IO mmgr_data A) (k : A -> IO mmgr_data B).

Lemma fixes_bind m k : fixes f m -> (forall a, fixes f (k a)) -> fixes f (m ≫= k).
Proof.
  intros Hm Hk s h. specialize (Hm s h). unfold mbind, M_bind. destruct (m s h) as [a s1 h1| | |]; try done.
  specialize (Hk a s1 h1). destruct (k a s1 h1); congruence || done.
Qed.

Lemma fixes_zoom {S} (pr : mmgr_data -> S) up (m : IO S A) :
  (forall x s, f (up x s) = f s) -> fixes f (zoom pr up m).
Proof. intros Hu s h. unfold zoom. by destruct (m (pr s) h). Qed.

Lemma fixes_ret (a : A) : fixes f (mret a).
Proof. done. Qed.

Lemma fixes_when b (m : IO mmgr_data unit) : fixes f m -> fixes f (when b m).
Proof. by destruct b. Qed.

Lemma fixes_modify g : (forall s, f (g s) = f s) -> fixes f (modify g).
Proof. intros Hf s h. apply Hf. Qed.

(** A program that returns also leaves [f] alone. *)
Lemma wp_fixes X m Q s h : fixes f m -> wp X m Q s h ->
  wp X m (fun a s' h' => Q a s' h' /\ f s' = f s) s h.
Proof. intros Hm. specialize (Hm s h). unfold wp. by destruct (m s h). Qed.

End follow.

Create HintDb fixes discriminated.
#[export] Hint Constants Opaque : fixes.
#[export] Hint Resolve fixes_ret : fixes.

Ltac fixes_step :=
  lazymatch goal with
  | |- forall _, _ => intros ?
  | |- fixes _ (_ ≫= _) => apply fixes_bind
  | |- fixes _ (when _ _) => apply fixes_when
  | |- fixes _ (match ?x with _ => _ end) => destruct x
  | |- fixes _ (call _) => intros ? ?; reflexivity
  | |- fixes _ get => intros ? ?; reflexivity
  | |- fixes _ (gets _) => intros ? ?; reflexivity
  | |- fixes _ abort => intros ? ?; exact Logic.I
  | |- fixes _ exit_ => intros ? ?; exact Logic.I
  | |- fixes _ undefined => intros ? ?; exact Logic.I
  | |- fixes _ (ASSERT ?b) => destruct b
  | |- fixes _ (modify _) => apply fixes_modify; intros ?; reflexivity
  | |- fixes _ (zoom _ _ _) => apply fixes_zoom; intros ? ?; reflexivity
  end.

Ltac fixes_auto :=
  repeat first
    [ fixes_step
    | solve [typeclasses eauto 6 with fixes]
    | lazymatch goal with |- fixes _ ?m => progress within_unfold m end ].

(** Loops. *)
Section loops.
Context `{Platform} {T : Type} (f : mmgr_data -> T).

(** A dialogue leaves any part of the state alone. *)
Lemma fixes_within {A} P (m : IO mmgr_data A) : within eq P m -> fixes f m.
Proof. intros Hw s h. specialize (Hw s h). destruct (m s h); try done. by destruct Hw as [<- _]. Qed.

Lemma fixes_tty_open p fd : fixes f (tty_open p fd).
Proof. apply (fixes_within tty_call), w_open, _. Qed.

Lemma fixes_tty_write fd d : fixes f (tty_write fd d).
Proof. apply (fixes_within tty_call), w_write, _. Qed.

Lemma fixes_send_at fd cmd n t : fixes f (send_at_retry fd cmd n t).
Proof. apply (fixes_within tty_call), w_send_at_retry, _. Qed.

Lemma fixes_mux fd p t m d cfg : fixes f (switch_to_mux fd p t m d cfg).
Proof. apply (fixes_within tty_call), w_switch_to_mux, _. Qed.

Lemma fixes_fetch port v p name : fixes f (fetch_core_dump_logs port v p name).
Proof. apply (fixes_within tty_call), w_fetch, _. Qed.

Lemma fixes_drain k fd : fixes f (drain k fd).
Proof. induction k as [|k IH]; cbn [drain]; fixes_auto. Qed.

Lemma fixes_fake_data k i : fixes f (fake_tft_data k i).
Proof. revert i. induction k as [|k IH]; intros i; cbn [fake_tft_data]; fixes_auto. Qed.

Lemma fixes_header fd : fixes f (msg_get_header fd).
Proof.
  unfold msg_get_header, cnx_read. fixes_auto. intros s h. unfold parse_header.
  destruct (_ =? 0); [done|]. destruct (_ <? _); [done|].
  match goal with |- context [match ?x with Done _ _ _ => _ | _ => _ end] => by destruct x end.
Qed.

End loops.

#[export] Hint Resolve fixes_tty_open fixes_tty_write fixes_send_at fixes_mux fixes_fetch fixes_drain fixes_fake_data
  fixes_header : fixes.
