(* ===== verification/Safety.v ===== *)
(** Robustness of the daemon: which programs keep the invariant of the state and
    neither fail an assertion nor do anything undefined, whatever the platform
    answers within the limits of [Civil].  The results are in ClientSafety.v. *)
From S2P Require Import Prelude Platform Io Files At Msg Recov Clients Timer Link Mcd Firmware Mcdr Bus.
From S2P Require Import Secure Mmgr ModemEvents ClientEvents EventsManager.

(** * Keeping an invariant

    [keepsX X I P m]: from a state of [I], [m] returns a value of [P] in a state
    of [I], or leaves through [exit] where [X] allows it. *)
Definition keepsX {S A} (X : Prop) (I : S -> Prop) (P : A -> Prop) (m : IO S A) : Prop :=
  forall s h, I s -> wp X m (fun a s' _ => I s' /\ P a) s h.

Definition any {A} (_ : A) : Prop := True.

Section keeps.
Context {S : Type} (I : S -> Prop) {X : Prop}.
Abbreviation keeps := (keepsX X).

Lemma keeps_ret {A} (P : A -> Prop) a : P a -> keeps I P (mret a).
Proof. by intros Ha s h Hs. Qed.

Lemma keeps_bind {A B} (P : A -> Prop) (Q : B -> Prop) (m : IO S A) k :
  keeps I P m -> (forall a, P a -> keeps I Q (k a)) -> keeps I Q (m ≫= k).
Proof.
  intros Hm Hk s h Hs. apply wp_bind. eapply wp_mono; [by apply Hm|]. cbv beta.
  intros a s' h' [Hs' Ha]. by apply Hk.
Qed.

Lemma keeps_get : keeps I I get.
Proof. by intros s h Hs. Qed.

Lemma keeps_gets {A} (f : S -> A) : keeps I any (gets f).
Proof. by intros s h Hs. Qed.

Lemma keeps_modify f : (forall s, I s -> I (f s)) -> keeps I any (modify f).
Proof. intros Hf s h Hs. split; [by apply Hf|done]. Qed.

Lemma keeps_call `{Platform} cc : keeps I any (call cc).
Proof. by intros s h Hs. Qed.

Lemma keeps_exit {A} (P : A -> Prop) : keepsX True I P exit_.
Proof. by intros s h Hs. Qed.

Lemma keeps_when (b : bool) m : (b = true -> keeps I any m) -> keeps I any (when b m).
Proof. intros Hm. destruct b; [by apply Hm|]. by apply keeps_ret. Qed.

Lemma keeps_weaken {A} (P Q : A -> Prop) m : keeps I P m -> (forall a, P a -> Q a) -> keeps I Q m.
Proof.
  intros Hm HPQ s h Hs. eapply wp_mono; [by apply Hm|]. cbv beta. intros a s' h' [? ?]. auto.
Qed.

Lemma keeps_wp {A} (P : A -> Prop) m : keepsX False I P m -> keeps I P m.
Proof.
  intros Hm s h Hs. specialize (Hm s h Hs). unfold wp in *. by destruct (m s h).
Qed.

Lemma keeps_total {A} m :
  (forall s h, wp False m (fun (_ : A) s' _ => s' = s) s h) -> keeps I any m.
Proof.
  intros Hm. apply keeps_wp. intros s h Hs. eapply wp_mono; [apply Hm|].
  cbv beta. by intros a s' h' ->.
Qed.

Lemma keeps_zoom {T A} (J : T -> Prop) (P : A -> Prop) (pr : T -> S) (up : S -> T -> T) m :
  (forall t, J t -> I (pr t)) -> (forall t s, J t -> I s -> J (up s t)) ->
  keeps I P m -> keeps J P (zoom pr up m).
Proof.
  intros Hpr Hup Hm t h Ht. apply wp_zoom. eapply wp_mono; [apply Hm; auto|]. cbv beta.
  intros a s' h' [? ?]. auto.
Qed.

End keeps.

Create HintDb keeps discriminated.
#[export] Hint Constants Opaque : keeps.
#[export] Hint Resolve keeps_get keeps_gets keeps_exit : keeps.

(** Values no one looks at. *)
Ltac keeps_any :=
  match goal with
  | |- any _ => exact Logic.I
  | |- _ => idtac
  end.

Ltac keeps_step :=
  lazymatch goal with
  | |- forall _, _ => intros ?
  | |- keepsX _ _ _ (mret _) => apply keeps_ret; keeps_any
  | |- keepsX _ _ _ (_ ≫= _) =>
      first [ eapply keeps_bind; [solve [typeclasses eauto 6 with keeps]|]
            | apply (keeps_bind _ any) ]
  | |- keepsX _ _ any (when _ _) => apply keeps_when
  | |- keepsX _ ?I _ (@call ?H ?S ?c) => exact (@keeps_call S I _ H c)
  | |- keepsX _ _ _ (match ?x with _ => _ end) => destruct x eqn:?
  end.

Ltac keeps_auto :=
  repeat first
    [ keeps_step
    | solve [typeclasses eauto 6 with keeps]
    | lazymatch goal with
      | |- keepsX _ _ _ (zoom _ _ _) => fail
      | |- keepsX _ _ _ (fun _ => _) => fail
      | |- keepsX _ _ _ ?m => progress within_unfold m
      end ].

(** * The limits of the platform *)

Section civil.
Context `{Platform}.

(** How many times in a row [epoll_wait] was interrupted. *)
Fixpoint interruptions (h : history) : nat :=
  match h with
  | X_epoll_wait a b c :: h' =>
      match reply h' (X_epoll_wait a b c) with
      | inl e => if bool_decide (e = EBADF) || bool_decide (e = EINVAL) then 0
                 else S (interruptions h')
      | inr _ => 0
      end
  | _ :: h' => interruptions h'
  | [] => 0
  end.

End civil.

(** The platform answers as its documentation says: memory does not run out,
    [recv] gives no more than it was asked for, and no more than Linux ever
    transfers at once; who announces a body sends some of it or closes, so that [recv]
    returns; the strings of libmcdr and the names of TLV files fit
    their buffers; the folders are not nested too deep; the security channel is well behaved; a terminal does
    not send without end, [epoll_wait] is not interrupted without end and the
    monotonic clock advances. *)
Class Civil `{Platform} : Prop := {
  civil_alloc : alloc_ok;
  civil_recv : forall h fd len d, 0 <= len -> reply h (X_recv fd len) = R_data d ->
    strlen d <= Z.min len 0x7ffff000;
  civil_answers : forall h fd len, reply h (X_recv fd len) <> R_never;
  civil_file : forall h, strlen (reply h X_mcdr_read) < 2 ^ 20;
  civil_reason : forall h, strlen (reply h X_mcdr_get_reason) < 2 ^ 20;
  civil_tlv : Z.of_nat TLV_FILENAME_SIZE <= MMGR_CLI_MAX_RECOVERY_CAUSE_LEN;
  civil_paths : short_paths;
  civil_channel : channel_ok;
  civil_reads : terminals_pause;
  civil_sleeps : sleeps_pass;
  civil_waits : forall h, (interruptions h < loop_fuel)%nat }.

(** * Components *)

Lemma civil_files `{Civil} : files_ok.
Proof. split; [apply civil_alloc|apply civil_paths]. Qed.

(** A dialogue keeps anything. *)
Lemma keeps_dia `{Civil} {X : Prop} {S A} (I : S -> Prop) (m : IO S A) :
  (forall h, dia h m anyQ) -> keepsX X I any m.
Proof.
  intros Hd. apply keeps_total. intros s h. eapply wp_mono; [apply Hd|]. cbv beta. naive_solver.
Qed.

Section components.
Context `{Civil} {X : Prop}.
Abbreviation keeps := (keepsX X).

(** ** Clients *)

Definition names_ok (s : client_list) : Prop :=
  Forall (fun cl => strlen (name cl) <= CLIENT_NAME_LEN) (clist s).

Definition cli_ok (n : nat) (s : client_list) : Prop := clients_inv n s /\ names_ok s.

Lemma cli_lookup n s i : cli_ok n s -> (i < n)%nat ->
  exists cl, clist s !! i = Some cl /\ strlen (name cl) <= CLIENT_NAME_LEN.
Proof.
  intros [[_ Hl] Hn] Hi. destruct (lookup_lt_is_Some_2 (clist s) i) as [cl Hc]; [lia|].
  exists cl. split; [done|]. by eapply (Forall_lookup_1 _ _ _ _ Hn).
Qed.

Lemma cli_update n i f : (i < n)%nat -> (forall cl, open (f cl) = open cl) ->
  (forall cl, strlen (name cl) <= CLIENT_NAME_LEN -> strlen (name (f cl)) <= CLIENT_NAME_LEN) ->
  keeps (cli_ok n) any (update (Some i) f).
Proof.
  intros Hi Ho Hn s h Hs. destruct (cli_lookup n s i Hs Hi) as (cl & Hc & Hcl).
  unfold wp. rewrite (update_eq _ cl) by done. destruct Hs as [[Hw Hlen] Hnm].
  split; [|done]. split; [split; [by eapply clients_wf_update|]|].
  - cbn [clist set_clist]. by rewrite length_insert.
  - unfold names_ok. cbn [clist set_clist]. apply Forall_insert; auto.
Qed.

Lemma cli_set_request n i x : (i < n)%nat ->
  keeps (cli_ok n) any (client_set_request (Some i) x).
Proof.
  intros Hi. unfold client_set_request.
  eapply keeps_bind; [by apply cli_update|]. intros. by apply keeps_ret.
Qed.

Lemma cli_unset_request n i x : (i < n)%nat ->
  keeps (cli_ok n) any (client_unset_request (Some i) x).
Proof.
  intros Hi. unfold client_unset_request.
  eapply keeps_bind; [by apply cli_update|]. intros. by apply keeps_ret.
Qed.

Lemma cli_set_filter n i x : (i < n)%nat ->
  keeps (cli_ok n) any (client_set_filter (Some i) x).
Proof.
  intros Hi. unfold client_set_filter.
  eapply keeps_bind; [by apply cli_update|]. intros.
  eapply keeps_bind; [by apply cli_update|]. intros. by apply keeps_ret.
Qed.

Lemma cli_deref n i : (i < n)%nat ->
  keeps (cli_ok n) (fun cl => strlen (name cl) <= CLIENT_NAME_LEN) (deref (Some i)).
Proof.
  intros Hi s h Hs. destruct (cli_lookup n s i Hs Hi) as (cl & Hc & Hcl).
  unfold wp. by rewrite (deref_eq _ cl) by done.
Qed.

Lemma cli_set_name n i b : (i < n)%nat ->
  keeps (cli_ok n) any (client_set_name (Some i) (Some b) (strlen b)).
Proof.
  intros Hi. unfold client_set_name. eapply keeps_bind; [by apply cli_deref|]. intros _ _.
  replace (_ || _) with true.
  2:{ symmetry. apply orb_true_iff. left. apply Z.leb_le. unfold strlen.
      destruct (Z.ltb_spec CLIENT_NAME_LEN (Z.of_nat (length b))); lia. }
  eapply keeps_bind; [apply cli_update; [done|done|]|].
  { intros cl _. cbn [name set_name]. unfold strlen.
    pose proof (cstr_length (take (Z.to_nat (if CLIENT_NAME_LEN <? strlen b
      then CLIENT_NAME_LEN else strlen b)) b)) as Hle. rewrite length_take in Hle.
    unfold strlen in *. destruct (Z.ltb_spec CLIENT_NAME_LEN (Z.of_nat (length b)));
      unfold CLIENT_NAME_LEN in *; lia. }
  intros. eapply keeps_bind; [by apply cli_update|]. intros. by apply keeps_ret.
Qed.

Lemma cli_get_name n i : (i < n)%nat ->
  keeps (cli_ok n) (fun nm => strlen nm <= CLIENT_NAME_LEN) (client_get_name (Some i)).
Proof.
  intros Hi. unfold client_get_name. eapply keeps_bind; [by apply cli_deref|]. intros cl Hcl.
  by apply keeps_ret.
Qed.

Lemma cli_get_fd n i : (i < n)%nat -> keeps (cli_ok n) any (client_get_fd (Some i)).
Proof.
  intros Hi. unfold client_get_fd. eapply keeps_bind; [by apply cli_deref|]. intros.
  by apply keeps_ret.
Qed.

Lemma cli_registered n i : (i < n)%nat -> keeps (cli_ok n) any (client_is_registered (Some i)).
Proof.
  intros Hi. unfold client_is_registered. eapply keeps_bind; [by apply cli_deref|]. intros.
  by apply keeps_ret.
Qed.

Lemma cli_inform n i ev p : (i < n)%nat -> carries ev p ->
  keeps (cli_ok n) any (client_inform (Some i) ev p).
Proof.
  intros Hi Hc. unfold client_inform. eapply keeps_bind; [by apply cli_deref|]. intros cl _.
  apply keeps_total. intros s h. eapply wp_mono; [apply inform_wp; [apply civil_alloc|done]|].
  cbv beta. by intros a s' h' [-> _].
Qed.

Lemma cli_inform_all n ev p : carries ev p -> keeps (cli_ok n) any (clients_inform_all ev p).
Proof.
  intros Hc. apply keeps_wp. intros s h Hs.
  eapply wp_mono; [apply inform_all_wp; [apply civil_alloc|done]|]. cbv beta.
  by intros a s' h' [-> _].
Qed.

Lemma cli_reset_ack n f : keeps (cli_ok n) any (reset_ack f).
Proof.
  apply keeps_wp. intros s h [Hi Hn].
  eapply wp_mono; [apply wp_conj; [by apply (reset_ack_inv n)|]|].
  - instantiate (1 := fun _ s' _ => names_ok s'). unfold reset_ack. wp_simp.
    unfold names_ok in *. cbn [clist set_clist]. apply Forall_map.
    eapply Forall_impl; [|exact Hn]. cbn. intros cl Hc. by destruct (open cl).
  - cbv beta. intros a s' h' [? ?]. done.
Qed.

Lemma cli_add n fd : fd <> CLOSED_FD -> keeps (cli_ok n) any (client_add fd).
Proof.
  intros Hfd. apply keeps_wp. intros s h [Hi Hn].
  eapply wp_mono; [apply wp_conj; [by apply (client_add_inv n)|]|].
  - instantiate (1 := fun _ s' _ => names_ok s'). unfold wp. rewrite client_add_eq.
    destruct (find_index _ _); [|done]. unfold names_ok. cbn [clist].
    apply Forall_insert; [done|]. by apply Z.leb_le.
  - cbv beta. intros a s' h' [? ?]. done.
Qed.

Lemma cli_remove n fd : keeps (cli_ok n) any (client_remove fd).
Proof.
  apply keeps_wp. intros s h [Hi Hn].
  eapply wp_mono; [apply wp_conj; [by apply (client_remove_inv n)|]|].
  - instantiate (1 := fun _ s' _ => names_ok s').
    unfold client_remove, remove_from_list, cnx_close. wp_simp.
    destruct (fd =? CLOSED_FD); [by wp_calls|]. destruct (find_index _ _); [|by wp_calls].
    wp_calls. unfold names_ok. cbn [clist set_clist set_connected]. apply Forall_alter; [done|].
    by intros x ? Hx.
  - cbv beta. intros a s' h' [? ?]. done.
Qed.

Lemma cli_find n fd : keeps (cli_ok n) (fun i => forall j, i = Some j -> (j < n)%nat) (client_find fd).
Proof.
  intros s h Hs. unfold client_find. wp_simp. split; [done|]. intros j.
  destruct (fd =? CLOSED_FD); [done|]. intros (cl & Hc & _)%find_index_Some.
  destruct Hs as [[_ Hl] _]. apply lookup_lt_Some in Hc. lia.
Qed.

(** ** Escalation *)

Definition valid_level (l : e_escalation_level) : bool :=
  match l with
  | E_EL_MODEM_COLD_RESET | E_EL_PLATFORM_REBOOT | E_EL_MODEM_OUT_OF_SERVICE => true
  | E_EL_UNKNOWN | E_EL_NUMBER_OF => false
  end.

Definition recov_ok (c r : Z) (s : reset_management) : Prop :=
  0 <= c /\ 0 <= r /\ process s = table c r /\ valid_level (level_id s) = true.

Lemma recov_ok_wf c r s : recov_ok c r s -> recov_wf c r s.
Proof. intros (_ & _ & Hp & Hl). split; [done|]. by destruct (level_id s). Qed.

Lemma level_after_valid r l : valid_level (level_after r l) = true.
Proof. destruct l; cbn; try done. by destruct (0 <? r). Qed.

Lemma rec_start c r : keeps (recov_ok c r) any recov_start.
Proof.
  intros s h Hs. unfold wp. rewrite (recov_start_eq c r); [|by apply recov_ok_wf|by destruct Hs].
  destruct Hs as (? & ? & ? & ?). destruct (bool_decide (op s = _)); [done|].
  destruct (_ && _); [|done]. split; [|done]. split_and!; try done.
  cbn [level_id set_last set_counter set_level]. destruct (0 <? c); [done|apply level_after_valid].
Qed.

Lemma rec_reinit c r : keeps (recov_ok c r) any recov_reinit.
Proof.
  intros s h Hs. unfold wp. rewrite (recov_reinit_eq c r); [|by apply recov_ok_wf|by destruct Hs].
  destruct Hs as (? & ? & ? & ?). split; [|done]. split_and!; try done.
  cbn [level_id set_last set_counter set_level]. destruct (0 <? c); [done|apply level_after_valid].
Qed.

Lemma rec_next c r : keeps (recov_ok c r) any recov_next.
Proof.
  intros s h Hs. unfold wp. rewrite (recov_next_eq c r) by by apply recov_ok_wf.
  destruct Hs as (? & ? & ? & ?). split; [|done]. split_and!; try done. apply level_after_valid.
Qed.

Lemma rec_done c r : keeps (recov_ok c r) any recov_done.
Proof.
  intros s h Hs. unfold wp.
  rewrite (recov_done_eq c r); [|by apply recov_ok_wf|by destruct Hs|by destruct Hs as (_ & ? & _)].
  destruct Hs as (? & ? & ? & Hl). cbv zeta. split; [|done].
  destruct (level_id s) eqn:El; try done; destruct (bool_decide _);
    try (destruct (_ <=? _)); split_and!; cbn [level_id set_counter set_level set_op set_state];
    rewrite ?El; try done; apply level_after_valid.
Qed.

Lemma rec_level c r :
  keeps (recov_ok c r) (fun l => valid_level l = true) recov_get_level.
Proof. by intros s h (? & ? & ? & ?). Qed.

Lemma rec_set_state c r st : keeps (recov_ok c r) any (recov_set_state st).
Proof. by intros s h (? & ? & ? & ?). Qed.

Lemma rec_force c r o : keeps (recov_ok c r) any (recov_force o).
Proof. by intros s h (? & ? & ? & ?). Qed.

Lemma rec_retry c r : keeps (recov_ok c r) any recov_get_retry_allowed.
Proof.
  intros s h Hs. unfold recov_get_retry_allowed. wp_simp.
  unfold wp. rewrite (process_at_table c r); [|by apply Hs|by apply recov_ok_wf in Hs as [_ ?]].
  pose proof Hs as (_ & _ & _ & Hl). by destruct (level_id s).
Qed.

Lemma rec_get_reboot c r : keeps (recov_ok c r) any recov_get_reboot.
Proof.
  intros s h Hs. unfold recov_get_reboot, property_get_int. wp_calls.
  destruct (scan_int _); by wp_simp.
Qed.

Lemma rec_set_reboot c r v : keeps (recov_ok c r) any (recov_set_reboot v).
Proof. intros s h Hs. unfold recov_set_reboot, property_set_int. by wp_calls. Qed.

(** ** Flashing *)

(** The names of the TLV files fit a TFT event. *)
Definition flash_ok (m : mdm_flash_ctx) : Prop :=
  Forall (fun f => strlen f < MMGR_CLI_MAX_RECOVERY_CAUSE_LEN) (fw_tlvs (fl_fw m)).

Lemma flash_ok_same m m' : same fl_fw m m' -> flash_ok m -> flash_ok m'.
Proof. unfold same, flash_ok. by intros ->. Qed.

Lemma fl_prepare : keeps flash_ok any mdm_flash_prepare.
Proof.
  apply keeps_wp. intros s h Hs.
  eapply wp_mono; [eapply wp_within; [apply prepare_static|apply prepare_total, civil_files]|].
  cbv beta. intros r s' h' (_ & E & _). split; [|done]. eapply flash_ok_same, Hs.
  revert E. unfold same, flash_static. by intros [= _ -> _ _ _ _ _ _ _ _ _ _].
Qed.

Lemma fl_finalize : keeps flash_ok any mdm_flash_finalize.
Proof.
  apply keeps_wp. intros s h Hs. unfold mdm_flash_finalize. apply wp_bind, wp_get, wp_when.
  destruct (flash_ongoing s); [|done]. wp_call. apply wp_bind, wp_modify, wp_bind.
  eapply wp_mono; [apply remove_wp|]. cbv beta. intros _ m' h' [-> _].
  eapply wp_mono; [apply complete_wp|]. cbv beta. by intros ? ? ? [-> _].
Qed.

Lemma fl_cancel {A} : keepsX True flash_ok any (@mdm_flash_cancel _ A).
Proof.
  unfold mdm_flash_cancel. apply (keeps_bind _ any); [|intros; apply keeps_exit].
  apply keeps_wp. intros s h Hs. eapply wp_mono; [apply remove_wp|]. cbv beta. by intros ? ? ? [-> _].
Qed.

Lemma fl_reset_attempts : keeps flash_ok any mdm_flash_reset_attempts.
Proof. by apply keeps_modify. Qed.

(** ** Core dump *)

Definition mcdr_ok (m : mcdr_ctx) : Prop :=
  mc_lib m = true /\ strlen (mc_path m) < 2 ^ 20 /\ strlen (mc_coredump_file m) < 2 ^ 20.

Lemma mc_call (cc : extcall) (Q : ans cc -> Prop) :
  (forall h, Q (reply h cc)) -> keeps mcdr_ok Q (mcdr_lib_call cc).
Proof.
  intros HQ s h Hs. unfold mcdr_lib_call. apply wp_bind, wp_get.
  rewrite (proj1 Hs). by apply wp_call.
Qed.

Lemma mc_finalize : keeps mcdr_ok any mcdr_finalize.
Proof.
  intros s h Hs. unfold mcdr_finalize. wp_simp. destruct (mc_running s); [|done]. by wp_calls.
Qed.

Lemma mc_cancel : keeps mcdr_ok any mcdr_cancel.
Proof.
  unfold mcdr_cancel. eapply keeps_bind; [apply keeps_get|]. intros m Hm. apply keeps_when. intros _.
  eapply keeps_bind; [by apply (mc_call X_mcdr_get_state any)|]. intros st _.
  eapply keeps_bind; [apply keeps_when; intros _|intros _ _; apply mc_finalize].
  eapply keeps_bind; [by apply (mc_call X_mcdr_cleanup any)|]. intros _ _.
  by apply keeps_ret.
Qed.

Lemma mc_start : keeps mcdr_ok any mcdr_start.
Proof.
  intros s h Hs. unfold mcdr_start. apply wp_bind, wp_get. destruct (mc_running s); [done|].
  apply wp_bind, wp_modify. wp_call. apply wp_bind. unfold mcdr_read, mcdr_lib_call.
  apply wp_bind, wp_bind, wp_get. destruct Hs as (Hl & Hp & Hf). cbn [mc_lib set_running]. rewrite Hl.
  apply wp_call, wp_bind, wp_modify, wp_bind, wp_get. wp_calls. split; [|done].
  split_and!; [done|done|]. apply civil_file.
Qed.

Lemma mc_result : keeps mcdr_ok any mcdr_get_result.
Proof.
  unfold mcdr_get_result. eapply keeps_bind; [by apply (mc_call X_mcdr_get_state any)|]. intros _ _.
  eapply keeps_bind; [by apply (mc_call X_mcdr_get_state any)|]. intros. by apply keeps_ret.
Qed.

Lemma mc_reason : keeps mcdr_ok (fun x => strlen x < 2 ^ 20) mcdr_get_error_reason.
Proof. apply (mc_call X_mcdr_get_reason). apply civil_reason. Qed.

Lemma mc_version v : keeps mcdr_ok any (mcdr_set_mdm_version v).
Proof. by intros s h Hs. Qed.

Lemma mc_get_path : keeps mcdr_ok (fun x => strlen x < 2 ^ 20) mcdr_get_path.
Proof. by intros s h (? & ? & ?). Qed.

Lemma mc_get_file : keeps mcdr_ok (fun x => strlen x < 2 ^ 20) mcdr_get_filename.
Proof. by intros s h (? & ? & ?). Qed.

(** ** Security *)


Lemma sec_stop : keeps sec_inv any secure_stop.
Proof.
  intros s h Hs. unfold secure_stop, tty_close. wp_simp.
  destruct (sec_enable s); [|done]. destruct Hs as [[? ? ?] ?].
  destruct (_ <? _); wp_calls; (split; [split; [by split|done]|done]).
Qed.

Lemma sec_event : keeps sec_inv any secure_event.
Proof.
  apply keeps_wp. intros s h Hs.
  eapply wp_mono; [apply secure_event_safe; [apply civil_channel|apply civil_reads|done]|].
  cbv beta. by intros a s' h' [? _].
Qed.

Lemma sec_error : keeps sec_inv
  (fun e => forall m, e = Some m -> strlen m < MMGR_CLI_MAX_RECOVERY_CAUSE_LEN) secure_get_error.
Proof.
  intros s h Hs. split; [done|]. intros m E. destruct Hs as [_ He].
  destruct He as [He|He]; rewrite He in E; [done|]. injection E as <-. by vm_compute.
Qed.

(** ** Modem control driver and link: any state will do *)

Definition mcd_any (_ : mmgr_mcd_ctx) : Prop := True.

Lemma mcd_total {A} (m : IO mmgr_mcd_ctx A) :
  (forall s h, wp False m (fun _ _ _ => True) s h) -> keeps mcd_any any m.
Proof.
  intros Hm. apply keeps_wp. intros s h _. eapply wp_mono; [apply Hm|]. done.
Qed.

Lemma mcd_register_keeps e o : keeps mcd_any any (mdm_mcd_register e o).
Proof.
  apply mcd_total. intros s h. pose proof (run_mcd_op_wp (Reg e o) s h) as Hw.
  cbn [run_mcd_op] in Hw. apply (proj1 (wp_bind _ _ _ _ _ _)) in Hw.
  eapply wp_mono; [exact Hw|]. done.
Qed.

Lemma mcd_unregister_keeps e : keeps mcd_any any (mdm_mcd_unregister e).
Proof.
  apply mcd_total. intros s h. pose proof (run_mcd_op_wp (Unreg e) s h) as Hw.
  cbn [run_mcd_op] in Hw. apply (proj1 (wp_bind _ _ _ _ _ _)) in Hw.
  eapply wp_mono; [exact Hw|]. done.
Qed.

Lemma mcd_down_keeps : keeps mcd_any any mdm_mcd_down.
Proof. apply mcd_total. intros s h. eapply wp_mono; [apply mcd_down_wp|]. done. Qed.

Lemma mcd_reset_keeps : keeps mcd_any any mdm_mcd_cold_reset.
Proof. apply mcd_total. intros s h. eapply wp_mono; [apply cold_reset_wp|]. done. Qed.

Lemma mcd_off_keeps : keeps mcd_any any mdm_mcd_off.
Proof.
  apply mcd_total. intros s h. unfold mdm_mcd_off. apply wp_bind, wp_get.
  destruct (off_allowed s); eapply wp_mono; [apply mcd_down_wp|done|apply cold_reset_wp|done].
Qed.

Lemma mcd_up_keeps : keeps mcd_any any mdm_mcd_up.
Proof.
  apply mcd_total. intros s h. unfold mdm_mcd_up. apply wp_bind, wp_get, wp_bind.
  eapply wp_mono; [apply link_reset_total|]. cbv beta. intros _ s1 h1 ->. unfold mcd_ioctl.
  apply wp_bind. wp_calls. destruct (_ =? 0); [|done]. apply wp_bind.
  eapply wp_mono; [apply mcd_boot_wp|]. cbv beta. intros ret s2 h2 _. apply wp_bind, wp_when.
  destruct (succeeded ret); cbn [negb]; [done|]. apply wp_bind.
  eapply wp_mono; [apply link_down_total|]. done.
Qed.

End components.

(** * What the daemon sends *)

Lemma strlen_bytes x : strlen (bytes x) = Z.of_nat (String.length x).
Proof.
  unfold strlen, bytes. rewrite length_map. induction x as [|a x IH]; [done|]. cbn. lia.
Qed.

Lemma wire_tft_data l : Forall (fun v => strlen v < MMGR_CLI_MAX_RECOVERY_CAUSE_LEN) l ->
  strlen (concat (map lstring l)) <= 516 * Z.of_nat (length l).
Proof.
  induction 1 as [|v l Hv Hl IH]; [done|]. cbn [map concat length]. unfold lstring in *.
  rewrite !strlen_app, strlen_be32. unfold MMGR_CLI_MAX_RECOVERY_CAUSE_LEN in Hv. lia.
Qed.

Lemma tft_carries t nm log data : (String.length nm < 100)%nat ->
  Z.of_nat (length data) <= MMGR_CLI_MAX_TFT_EVENT_DATA ->
  Forall (fun v => strlen v < MMGR_CLI_MAX_RECOVERY_CAUSE_LEN) data ->
  carries E_MMGR_NOTIFY_TFT_EVENT (tft t nm log data).
Proof.
  intros Hn Hl Hd. pose proof (wire_tft_data _ Hd). unfold tft. cbn [carries payload_ok tft_data].
  split; [|done]. cbn [wire tft_type tft_name tft_log tft_data]. unfold lstring at 1.
  rewrite !strlen_app, !strlen_be32, strlen_bytes.
  unfold SIZE_HEADER, MMGR_CLI_MAX_TFT_EVENT_DATA in *. lia.
Qed.

Lemma core_dump_carries cd : strlen (cd_path cd) < 2 ^ 30 -> strlen (cd_reason cd) < 2 ^ 30 ->
  carries E_MMGR_NOTIFY_CORE_DUMP_COMPLETE (P_core_dump cd).
Proof.
  intros Hp Hr. cbn [carries]. unfold payload_ok. cbn [wire]. rewrite !strlen_app, !strlen_be32.
  unfold SIZE_HEADER. split; [lia|done].
Qed.

Lemma ap_reset_carries ap : strlen (ap_name ap) <= CLIENT_NAME_LEN ->
  strlen (ap_extra ap) <= 0x7ffff000 -> carries E_MMGR_NOTIFY_AP_RESET (P_ap_reset ap).
Proof.
  intros Hp Hr. cbn [carries]. unfold payload_ok. cbn [wire]. unfold lstring. rewrite !strlen_app, !strlen_be32.
  unfold SIZE_HEADER, CLIENT_NAME_LEN in *. split; [lia|done].
Qed.

Lemma status_event_carries st : st <> E_MMGR_NUM -> carries (status_event st) P_null.
Proof. by destruct st. Qed.

(** * The state of the daemon *)

(** The cursor of the pending events stays behind them. *)
Definition ev_ok (e : mmgr_events) : Prop :=
  -1 <= cur_ev e /\ nfds e <= Z.of_nat (length (ev e)).

(** [rq] fixes the request being served, if any. *)
Record inv (n : nat) (c r : Z) (rq : option current_request) (s : mmgr_data) : Prop := {
  inv_cli : cli_ok n (clients s);
  inv_reset : recov_ok c r (reset s);
  inv_mcdr : mcdr_ok (mcdr s);
  inv_secur : sec_inv (secur s);
  inv_flash : flash_ok (flash s);
  inv_state : state s <> E_MMGR_NUM;
  inv_events : ev_ok (events s);
  inv_request : forall q, rq = Some q -> request s = q }.

Section daemon.
Context `{Civil} {X : Prop} (n : nat) (c r : Z) (rq : option current_request).
Abbreviation keeps := (keepsX X).
Abbreviation J := (inv n c r rq).

Lemma lift_cli {A} P (m : IO client_list A) : keeps (cli_ok n) P m -> keeps J P (on_cli m).
Proof. apply keeps_zoom; [apply inv_cli|]. intros s x [] Hx. by split. Qed.

Lemma lift_reset {A} P (m : IO reset_management A) :
  keeps (recov_ok c r) P m -> keeps J P (on_reset m).
Proof. apply keeps_zoom; [apply inv_reset|]. intros s x [] Hx. by split. Qed.

Lemma lift_mcdr {A} P (m : IO mcdr_ctx A) : keeps mcdr_ok P m -> keeps J P (on_mcdr m).
Proof. apply keeps_zoom; [apply inv_mcdr|]. intros s x [] Hx. by split. Qed.

Lemma lift_secur {A} P (m : IO secure A) : keeps sec_inv P m -> keeps J P (on_secur m).
Proof. apply keeps_zoom; [apply inv_secur|]. intros s x [] Hx. by split. Qed.

Lemma lift_flash {A} P (m : IO mdm_flash_ctx A) : keeps flash_ok P m -> keeps J P (on_flash m).
Proof. apply keeps_zoom; [apply inv_flash|]. intros s x [] Hx. by split. Qed.

Lemma lift_mcd {A} P (m : IO mmgr_mcd_ctx A) : keeps mcd_any P m -> keeps J P (on_mcd m).
Proof. apply keeps_zoom; [done|]. intros s x [] Hx. by split. Qed.

Lemma lift_tim {A} (m : IO mmgr_timer A) :
  (forall s h, wp False m (fun _ _ _ => True) s h) -> keeps J any (on_tim m).
Proof.
  intros Hm. apply (keeps_zoom (fun _ => True)); [done| |].
  - intros s x [] Hx. by split.
  - apply keeps_wp. intros s h _. eapply wp_mono; [apply Hm|]. done.
Qed.

Lemma lift_events {A} P (m : IO mmgr_events A) : keeps ev_ok P m -> keeps J P (on_events m).
Proof. apply keeps_zoom; [apply inv_events|]. intros s x [] Hx. by split. Qed.

(** ** The shorthands of the handlers *)

Lemma k_state st : st <> E_MMGR_NUM -> keeps J any (set_mmgr_state st).
Proof. intros Hst. apply keeps_modify. intros s []. by split. Qed.

Lemma k_cli_req x : keeps J any (set_cli_req x).
Proof. apply lift_events, keeps_modify. by intros e []. Qed.

Lemma k_link_state x : keeps J any (set_link_state x).
Proof. apply lift_events, keeps_modify. by intros e []. Qed.

Lemma k_get_cli_req : keeps J any get_cli_req.
Proof. apply keeps_gets. Qed.

Lemma k_link_add x : keeps J any (link_add x).
Proof. eapply keeps_bind; [apply keeps_gets|]. intros. apply k_link_state. Qed.

Lemma k_link_del x : keeps J any (link_del x).
Proof. eapply keeps_bind; [apply keeps_gets|]. intros. apply k_link_state. Qed.

Lemma k_tell_all ev p : carries ev p -> keeps J any (tell_all ev p).
Proof.
  intros Hc. eapply keeps_bind; [by apply lift_cli, cli_inform_all|]. intros. by apply keeps_ret.
Qed.

Lemma k_start t : keeps J any (start_timer t).
Proof.
  eapply keeps_bind; [|intros; by apply keeps_ret]. apply lift_tim. intros s h.
  unfold timer_start. wp_calls. by destruct (negb _).
Qed.

Lemma k_stop t : keeps J any (stop_timer t).
Proof. eapply keeps_bind; [by apply lift_tim|]. intros. by apply keeps_ret. Qed.

Lemma k_stop_all : keeps J any stop_all_timers.
Proof. eapply keeps_bind; [by apply lift_tim|]. intros. by apply keeps_ret. Qed.

Lemma k_register e o : keeps J any (mcd_register e o).
Proof.
  eapply keeps_bind; [apply lift_mcd, mcd_register_keeps|]. intros. by apply keeps_ret.
Qed.

Lemma k_unregister e : keeps J any (mcd_unregister e).
Proof.
  eapply keeps_bind; [apply lift_mcd, mcd_unregister_keeps|]. intros. by apply keeps_ret.
Qed.

Lemma k_force o : keeps J any (force_recovery o).
Proof. eapply keeps_bind; [apply lift_reset, rec_force|]. intros. by apply keeps_ret. Qed.

Lemma k_fd_tty x : keeps J any (modify (put_fd_tty x)).
Proof. apply keeps_modify. intros s []. by split. Qed.

Lemma k_cd_retrieved x : keeps J any (modify (put_cd_retrieved x)).
Proof. apply keeps_modify. intros s []. by split. Qed.

End daemon.

#[export] Hint Resolve lift_cli lift_reset lift_mcdr lift_secur lift_flash lift_mcd
  cli_set_request cli_unset_request cli_set_filter cli_get_name cli_get_fd cli_registered
  cli_inform cli_inform_all cli_reset_ack cli_add cli_remove cli_find
  rec_start rec_reinit rec_next rec_done rec_level rec_set_state rec_force rec_retry
  rec_get_reboot rec_set_reboot fl_prepare fl_finalize fl_cancel fl_reset_attempts mc_finalize mc_cancel mc_start
  mc_result mc_reason mc_version mc_get_path mc_get_file sec_stop sec_event sec_error
  mcd_register_keeps mcd_unregister_keeps mcd_down_keeps mcd_reset_keeps mcd_off_keeps
  mcd_up_keeps
  k_state k_cli_req k_link_state k_get_cli_req k_link_add k_link_del k_start k_stop k_stop_all
  k_register k_unregister k_force k_fd_tty k_cd_retrieved : keeps.

#[export] Hint Extern 1 (_ <> E_MMGR_NUM) => repeat case_match; discriminate : keeps.
#[export] Hint Extern 2 (keepsX _ _ _ (tell_all _ P_null)) => apply k_tell_all; exact Logic.I : keeps.

(** Constant TFT events. *)
Ltac tft_solve :=
  apply tft_carries; [apply Nat.ltb_lt; reflexivity|cbn [length app]; unfold MMGR_CLI_MAX_TFT_EVENT_DATA; lia|
    repeat constructor; try (rewrite strlen_bytes; apply Z.ltb_lt; reflexivity)].

#[export] Hint Extern 3 (keepsX _ _ _ (tell_all E_MMGR_NOTIFY_TFT_EVENT (tft _ _ _ [bytes _]))) =>
  apply k_tell_all; tft_solve : keeps.

Ltac kauto := solve [typeclasses eauto 6 with keeps].

(** As [keeps_auto], entering the parts of the state. *)
Ltac daemon_auto :=
  repeat first
    [ keeps_step
    | solve [typeclasses eauto 6 with keeps]
    | lazymatch goal with
      | |- keepsX _ _ _ (on_cli _) => apply lift_cli
      | |- keepsX _ _ _ (on_reset _) => apply lift_reset
      | |- keepsX _ _ _ (on_mcdr _) => apply lift_mcdr
      | |- keepsX _ _ _ (on_secur _) => apply lift_secur
      | |- keepsX _ _ _ (on_flash _) => apply lift_flash
      | |- keepsX _ _ _ (on_mcd _) => apply lift_mcd
      | |- keepsX _ _ _ (zoom _ _ _) => fail
      | |- keepsX _ _ _ (fun _ => _) => fail
      | |- keepsX _ _ _ ?m => progress within_unfold m
      end ].

(** * Resetting the modem *)

Section modem.
Context `{Civil} {X : Prop} (n : nat) (c r : Z) (rq : option current_request).
Abbreviation keeps := (keepsX X).
Abbreviation J := (inv n c r rq).

Lemma k_link {A} (m : IO mmgr_data A) :
  (forall s h, wp False m (fun _ s' _ => s' = s) s h) -> keeps J any m.
Proof. apply keeps_total. Qed.

Lemma k_close_fds : keeps J any mdm_close_fds.
Proof.
  unfold mdm_close_fds, close_tty. daemon_auto.
Qed.

Lemma k_get_connected : keeps J any (on_cli clients_get_connected).
Proof. apply lift_cli, keeps_gets. Qed.

Lemma k_get_allowed : keeps J any (on_cli clients_get_allowed).
Proof. apply lift_cli, keeps_gets. Qed.

Lemma k_get_state : keeps J any (on_reset recov_get_state).
Proof. apply lift_reset, keeps_gets. Qed.

Lemma k_get_operation : keeps J any (on_reset recov_get_operation).
Proof. apply lift_reset, keeps_gets. Qed.

Lemma k_required : keeps J any (on_flash mdm_flash_is_required).
Proof. apply lift_flash, keeps_gets. Qed.

Lemma k_ipc_ready : keeps J any (on_mcd mdm_mcd_is_ipc_ready_present).
Proof. apply lift_mcd, keeps_gets. Qed.

#[local] Hint Resolve k_close_fds k_get_connected k_get_allowed k_get_state k_get_operation
  k_required k_ipc_ready : keeps.

Lemma k_pre_cold : keeps J any pre_mdm_cold_reset.
Proof. unfold pre_mdm_cold_reset. daemon_auto. Qed.

Lemma k_pre_oos : keeps J any pre_modem_out_of_service.
Proof. unfold pre_modem_out_of_service. daemon_auto. Qed.

#[local] Hint Resolve k_pre_cold k_pre_oos : keeps.

Lemma k_pre_reboot : keeps J any pre_platform_reboot.
Proof. unfold pre_platform_reboot. daemon_auto. Qed.

Lemma k_finish : keeps J any reset_modem_finish.
Proof. unfold reset_modem_finish. daemon_auto. Qed.

#[local] Hint Resolve k_pre_reboot k_finish : keeps.

Lemma k_reset_op l : keeps J any (reset_modem_op l).
Proof.
  unfold reset_modem_op. do 3 (apply (keeps_bind _ any); [kauto|intros _ _]).
  eapply keeps_bind; [apply keeps_get|]. intros s Hs.
  apply (keeps_bind _ any); [apply keeps_total, link_reset_total|]. intros _ _.
  eapply keeps_bind; [kauto|]. cbv beta. intros l' Hl.
  destruct l'; try done; cbn [hdler_mdm].
  - apply (keeps_bind _ any); [kauto|]. intros _ _.
    change (terminal_level _) with false. cbv iota. kauto.
  - apply (keeps_bind _ any); [apply lift_mcd; unfold platform_reboot; daemon_auto|]. intros _ _.
    by apply keeps_ret.
  - apply (keeps_bind _ any); [kauto|]. intros _ _. by apply keeps_ret.
Qed.

#[local] Hint Resolve k_reset_op : keeps.

Lemma k_reset_modem : keeps J any reset_modem.
Proof.
  unfold reset_modem. apply (keeps_bind _ any); [kauto|]. intros ret _.
  do 2 (apply (keeps_bind _ any); [daemon_auto|intros _ _]).
  eapply keeps_bind; [kauto|]. cbv beta. intros l Hl.
  destruct l; try done; cbn [hdler_pre_mdm]; daemon_auto.
Qed.

#[local] Hint Resolve k_reset_modem : keeps.

(** ** Going down *)

Lemma k_tty_open path fd : keeps J any (tty_open path fd).
Proof. apply keeps_dia. intros. apply dia_open. Qed.

Lemma k_tty_write fd d : keeps J any (tty_write fd d).
Proof. apply keeps_dia. intros. apply dia_write. Qed.

#[local] Hint Resolve k_tty_open k_tty_write : keeps.

Lemma k_send_at fd cmd k t : keeps J any (send_at_retry fd cmd k t).
Proof. apply keeps_dia. intros. apply dia_send_at_retry, civil_reads. Qed.

#[local] Hint Resolve k_send_at : keeps.

Lemma k_start_shtdwn : keeps J any mdm_start_shtdwn.
Proof. unfold mdm_start_shtdwn, tty_close. daemon_auto. Qed.

Lemma k_finalize_shtdwn : keeps J any mdm_finalize_shtdwn.
Proof. unfold mdm_finalize_shtdwn. daemon_auto. Qed.

#[local] Hint Resolve k_start_shtdwn k_finalize_shtdwn : keeps.

Lemma k_finish_shutdown : keeps J any finish_shutdown.
Proof. unfold finish_shutdown. daemon_auto. Qed.

#[local] Hint Resolve k_finish_shutdown : keeps.

Lemma k_drain fd k h0 s : J s -> (loop_fuel <= k + answers h0)%nat ->
  wp X (drain k fd) (fun _ s' _ => J s') s h0.
Proof.
  revert h0. induction k as [|k IH]; intros h0 Hs Hk; cbn [drain].
  { pose proof (civil_reads h0). lia. }
  wp_call. destruct (reply h0 (X_read fd 64)) as [e|[|b l]] eqn:E; [done..|].
  apply IH; [done|]. cbn [answers]. rewrite E. lia.
Qed.

Lemma k_ipc_event : keeps J any ipc_event.
Proof.
  unfold ipc_event, cleanup_ipc_event. apply (keeps_bind _ any); [kauto|]. intros _ _.
  apply (keeps_bind _ any).
  { eapply keeps_bind; [apply keeps_get|]. intros s Hs. apply (keeps_bind _ any).
    - intros s' h' Hs'. eapply wp_mono; [apply k_drain; [done|lia]|]. done.
    - daemon_auto. }
  intros _ _. eapply keeps_bind; [apply keeps_get|]. intros s Hs.
  apply (keeps_bind _ any); [|daemon_auto]. apply k_tell_all. destruct (wakeup_cfg s); tft_solve.
Qed.

(** ** The end of a core dump and of a flashing *)

Lemma k_notify b st : keeps J any (notify_core_dump b st).
Proof.
  unfold notify_core_dump. destruct b; [|apply k_tell_all, core_dump_carries; done].
  eapply keeps_bind; [kauto|]. cbv beta. intros path Hp.
  eapply keeps_bind; [kauto|]. cbv beta. intros file Hf.
  apply (keeps_bind _ any); [keeps_step|]. intros ok _. destruct ok; cbn [negb]; [|by apply keeps_ret].
  apply (keeps_bind _ (fun x => strlen x < 2 ^ 20)).
  { destruct st; try kauto; by apply keeps_ret. }
  intros reason Hr. apply k_tell_all, core_dump_carries; cbn [cd_path cd_reason]; [|lia].
  unfold path_join. rewrite !strlen_app. change (strlen (bytes "/")) with 1.
  change (strlen [0]) with 1. lia.
Qed.

#[local] Hint Resolve k_notify : keeps.

Lemma k_link_cd l : keeps J any (link_on_cd_complete l).
Proof. apply keeps_total. intros. apply link_cd_complete_total. Qed.

Lemma k_link_cd_failure l : keeps J any (link_on_cd_failure l).
Proof. apply keeps_total. intros. apply link_cd_failure_total. Qed.

#[local] Hint Resolve k_link_cd k_link_cd_failure : keeps.

Lemma k_cd_finalize st : keeps J any (core_dump_finalize st).
Proof. unfold core_dump_finalize. daemon_auto. Qed.

#[local] Hint Resolve k_cd_finalize : keeps.

Lemma k_flash_stat log msg : (String.length msg < 100)%nat -> keeps J any (flash_stat log msg).
Proof.
  intros Hm. apply k_tell_all, tft_carries; [apply Nat.ltb_lt; reflexivity|done|].
  repeat constructor. rewrite strlen_bytes. unfold MMGR_CLI_MAX_RECOVERY_CAUSE_LEN. lia.
Qed.

Lemma digits_length fuel z acc : (length (digits fuel z acc) <= fuel + length acc)%nat.
Proof.
  revert z acc. induction fuel as [|k IH]; intros z acc; cbn [digits]; [done|].
  destruct (z <? 10); [cbn [length]; lia|].
  specialize (IH (z / 10) ((48 + z mod 10) :: acc)). cbn [length] in IH. lia.
Qed.

Lemma print_int_short z : strlen (print_int z) < MMGR_CLI_MAX_RECOVERY_CAUSE_LEN.
Proof.
  unfold print_int, strlen, MMGR_CLI_MAX_RECOVERY_CAUSE_LEN.
  pose proof (digits_length 11 (- z) []). pose proof (digits_length 11 z []). cbn [length] in *.
  destruct (z <? 0); cbn [length]; lia.
Qed.

Lemma k_inform_flash e a t : keeps J any (inform_flash_err e a t).
Proof.
  unfold inform_flash_err. apply (keeps_bind _ any); [by apply k_tell_all|]. intros _ _.
  destruct e; try (by apply keeps_ret);
    try (apply k_flash_stat; apply Nat.ltb_lt; reflexivity);
    try (apply (keeps_bind _ any); [apply k_flash_stat; apply Nat.ltb_lt; reflexivity|];
         intros _ _; daemon_auto).
  apply (keeps_bind _ any); [keeps_step|]. intros ok1 _.
  apply (keeps_bind _ any); [daemon_auto|]. intros ok2 _. apply k_tell_all.
  apply tft_carries; [apply Nat.ltb_lt; reflexivity| |].
  - destruct (negb ok1), (negb ok2); cbn [length]; unfold MMGR_CLI_MAX_TFT_EVENT_DATA; lia.
  - destruct (negb ok1), (negb ok2); repeat constructor; try apply print_int_short;
      rewrite strlen_bytes; by apply Z.ltb_lt.
Qed.

Lemma k_inform_upgrade e : keeps J any (inform_upgrade_err e).
Proof.
  unfold inform_upgrade_err. apply (keeps_bind _ any); [daemon_auto|]. intros _ _.
  apply k_tell_all. destruct (e .& MDM_UPDATE_ERR_FLASH), (e .& MDM_UPDATE_ERR_TLV); tft_solve.
Qed.

#[local] Hint Resolve k_inform_flash k_inform_upgrade : keeps.

Lemma k_timer_value t : keeps J any (on_tim (timer_get_value t)).
Proof. apply lift_tim. intros s h. unfold timer_get_value. by wp_calls. Qed.

#[local] Hint Resolve k_timer_value : keeps.

Lemma k_flashing : keeps J any flashing_event.
Proof. unfold flashing_event, flush_pipe. daemon_auto. Qed.

Lemma k_mcdr_event : keeps J any mcdr_event.
Proof. unfold mcdr_event, flush_pipe. daemon_auto. Qed.

Lemma k_security : keeps J any security_event.
Proof.
  unfold security_event. apply (keeps_bind _ any); [kauto|]. intros ret _.
  eapply keeps_bind; [kauto|]. cbv beta. intros e He.
  apply (keeps_bind _ any); [|intros; by apply keeps_ret].
  destruct e as [m|]; [|by apply keeps_ret]. apply k_tell_all.
  apply tft_carries; [apply Nat.ltb_lt; reflexivity|done|]. repeat constructor. by apply He.
Qed.

Lemma k_timer_event st b : keeps J any (on_timer_clients (timer_event st b)).
Proof.
  apply (keeps_zoom (fun x => cli_ok n x.2)).
  - intros s []. done.
  - intros s [t cl] [] Hx. by split.
  - apply keeps_wp. intros s h [[Hw Hl] Hn].
    eapply wp_mono; [apply timer_event_wp, civil_alloc|]. cbv beta. intros a s' h' (_ & E1 & E2).
    split; [|done]. unfold cli_ok, clients_inv, clients_wf, names_ok. rewrite E1, E2. done.
Qed.

#[local] Hint Resolve k_timer_event : keeps.

Lemma k_before_wait : keeps J any before_wait.
Proof. unfold before_wait. daemon_auto. Qed.

End modem.

#[export] Hint Resolve k_close_fds k_get_connected k_get_allowed k_get_state k_get_operation
  k_required k_ipc_ready k_reset_modem k_notify k_timer_event k_finalize_shtdwn k_cd_finalize
  k_link_cd_failure : keeps.

(** The expiry of the flashing timer leaves through [exit]. *)
Lemma k_timeout `{Civil} n c r rq : keepsX True (inv n c r rq) any timeout_event.
Proof. unfold timeout_event, flush_pipe. daemon_auto. Qed.
