(* ===== verification/ClientSafety.v ===== *)
(** No client can stop the daemon: the handlers of the requests keep the
    invariant of Safety.v, whatever bytes are received; and the turn of the event
    loop around them. *)
From S2P Require Import Prelude Platform Io Files At Msg Recov Clients Timer Link Mcd Firmware Mcdr Bus.
From S2P Require Import Secure Mmgr ModemEvents ClientEvents EventsManager Safety.

(** * The handlers *)

Section handlers.
Context `{Civil} {X : Prop} (n : nat) (c r : Z) (q : current_request) (i : nat).
Abbreviation keeps := (keepsX X).
Context (Hq : req_client q = Some i) (Hi : (i < n)%nat).
Abbreviation J := (inv n c r (Some q)).

Lemma asked s : J s -> request s = q.
Proof. intros Hs. by eapply inv_request. Qed.

Lemma asker s : J s -> req_client (request s) = Some i.
Proof. intros Hs. by rewrite (asked s Hs). Qed.

Lemma k_tell ev p : carries ev p -> keeps J any (tell_requester ev p).
Proof.
  intros Hc. unfold tell_requester. eapply keeps_bind; [apply keeps_get|]. intros s Hs.
  rewrite (asker s Hs). by apply lift_cli, cli_inform.
Qed.

Lemma k_ack : keeps J any ack.
Proof. eapply keeps_bind; [by apply k_tell|]. intros. by apply keeps_ret. Qed.

Lemma k_nack : keeps J any client_nack.
Proof. by apply k_tell. Qed.

Lemma k_client_ack : keeps J any client_ack.
Proof. by apply k_tell. Qed.

Lemma k_set_client x : keeps J any (set_client_request x).
Proof.
  unfold set_client_request. eapply keeps_bind; [apply keeps_get|]. intros s Hs.
  rewrite (asker s Hs). apply (keeps_bind _ any); [by apply lift_cli, cli_set_request|].
  intros. by apply keeps_ret.
Qed.

Lemma k_unset : keeps J any unset_released.
Proof.
  unfold unset_released. eapply keeps_bind; [apply keeps_get|]. intros s Hs.
  rewrite (asker s Hs). by apply lift_cli, cli_unset_request.
Qed.

#[local] Hint Resolve k_ack k_nack k_client_ack k_set_client k_unset : keeps.

Lemma k_release_off : keeps J any request_resource_release_mdm_off.
Proof. unfold request_resource_release_mdm_off. daemon_auto. Qed.

Lemma k_release : keeps J any request_resource_release.
Proof. unfold request_resource_release. daemon_auto. Qed.

Lemma k_acquire : keeps J any resource_acquire.
Proof. unfold resource_acquire. daemon_auto. Qed.

Lemma k_wakeup_started : keeps J any wakeup_started.
Proof. unfold wakeup_started. daemon_auto. Qed.

#[local] Hint Resolve k_wakeup_started : keeps.

Lemma k_wakeup : keeps J any resource_acquire_wakeup_modem.
Proof. unfold resource_acquire_wakeup_modem. daemon_auto. Qed.

Lemma k_restart_shutdown : keeps J any request_force_modem_shutdown.
Proof. unfold request_force_modem_shutdown. daemon_auto. Qed.

Lemma k_ack_shutdown : keeps J any request_ack_modem_shutdown.
Proof. unfold request_ack_modem_shutdown. daemon_auto. Qed.

Lemma k_file_copy a b : keeps J any (file_copy a b).
Proof. unfold file_copy. daemon_auto. Qed.

#[local] Hint Resolve k_file_copy : keeps.

Lemma k_ack_cold : keeps J any request_ack_cold_reset.
Proof. unfold request_ack_cold_reset, mdm_fw_backup_calib. daemon_auto. Qed.

Lemma k_bkup : keeps J any request_bkup_prod.
Proof. unfold request_bkup_prod. daemon_auto. Qed.

#[local] Hint Resolve k_release_off k_release k_acquire k_wakeup k_restart_shutdown k_ack_shutdown k_ack_cold
  k_bkup : keeps.

(** The end of a connection: the data of the request are not looked at. *)
Lemma k_dispatch_release ret : keeps J any (dispatch E_MMGR_RESOURCE_RELEASE ret).
Proof.
  unfold dispatch. eapply keeps_bind; [apply keeps_get|]. intros s Hs.
  destruct (bool_decide _); [by apply keeps_ret|]. cbn [hdler_client]. destruct (state s); kauto.
Qed.

(** The data of the request have been received whole. *)
Definition data_ok (x : current_request) : Prop :=
  match req_data x with
  | Some d => strlen d = len (req_hdr x) /\ strlen d <= 0x7ffff000
  | None => len (req_hdr x) <= 0
  end.

Context (Hd : data_ok q).

Lemma k_uint32 : len (req_hdr q) = 4 -> keeps J any request_uint32.
Proof.
  intros Hl. unfold request_uint32. eapply keeps_bind; [apply keeps_get|]. intros s Hs.
  rewrite (asked s Hs). unfold data_ok in Hd. destruct (req_data q) as [d|]; [|lia].
  destruct Hd as [E _]. rewrite Hl in E. unfold strlen in E.
  destruct d as [|a [|b [|e [|g l]]]]; cbn [length] in E; try lia. by apply keeps_ret.
Qed.

Lemma k_set_name : 0 < len (req_hdr q) -> keeps J any request_set_name.
Proof.
  intros Hl. unfold request_set_name. eapply keeps_bind; [apply keeps_get|]. intros s Hs.
  rewrite (asked s Hs), Hq. unfold data_ok in Hd. destruct (req_data q) as [d|]; [|lia].
  destruct Hd as [<- _]. apply (keeps_bind _ any); [by apply lift_cli, cli_set_name|]. intros ret _.
  apply (keeps_bind _ any); [by apply k_tell|]. intros. by apply keeps_ret.
Qed.

Lemma k_set_events : keeps J any request_set_events.
Proof.
  unfold request_set_events. eapply keeps_bind; [apply keeps_get|]. intros s Hs.
  rewrite (asked s Hs), Hq. destruct (Z.eqb_spec (len (req_hdr q)) 4) as [Hl|_].
  - apply (keeps_bind _ any); [by apply k_uint32|]. intros f _.
    apply (keeps_bind _ any); [by apply lift_cli, cli_set_filter|]. intros ret _.
    apply (keeps_bind _ any); [apply k_ack|]. intros _ _.
    eapply keeps_bind; [apply keeps_get|]. intros s2 Hs2.
    apply (keeps_bind _ any); [|intros; by apply keeps_ret].
    apply k_tell, status_event_carries, Hs2.
  - apply (keeps_bind _ any); [by apply k_tell|]. intros. by apply keeps_ret.
Qed.

Lemma k_ap_reset : keeps J any notify_ap_reset.
Proof.
  unfold notify_ap_reset. eapply keeps_bind; [apply keeps_get|]. intros s Hs.
  rewrite (asked s Hs), Hq. eapply keeps_bind; [by apply lift_cli, cli_get_name|]. cbv beta.
  intros nm Hn. apply (keeps_bind _ any); [keeps_step|]. intros ok _.
  destruct ok; cbn [negb]; [|by apply keeps_ret]. apply lift_cli, cli_inform_all, ap_reset_carries;
    cbn [ap_name ap_extra]; [done|].
  unfold data_ok in Hd. destruct (_ && _); [|by apply Z.leb_le].
  destruct (req_data q); [by destruct Hd|]. by apply Z.leb_le.
Qed.

#[local] Hint Resolve k_ap_reset : keeps.

Lemma k_recovery : keeps J any request_modem_recovery.
Proof. unfold request_modem_recovery. daemon_auto. Qed.

Lemma k_restart : keeps J any request_modem_restart.
Proof.
  unfold request_modem_restart. apply (keeps_bind _ any); [apply k_ack|]. intros _ _.
  eapply keeps_bind; [apply keeps_get|]. intros s Hs. rewrite (asked s Hs), Hq.
  apply (keeps_bind _ any).
  { destruct (Z.eqb_spec (len (req_hdr q)) 4); [by apply k_uint32|by apply keeps_ret]. }
  intros o _. eapply keeps_bind; [by apply lift_cli, cli_get_name|]. intros nm _. daemon_auto.
Qed.

Lemma k_fake_event ev : carries ev P_null -> keeps J any (fake_event ev).
Proof.
  intros Hc. unfold fake_event. apply (keeps_bind _ any); [apply k_ack|]. intros _ _.
  apply (keeps_bind _ any); [by apply k_tell_all|]. intros. by apply keeps_ret.
Qed.

Lemma k_fake_cdd : keeps J any request_fake_cdd_complete.
Proof.
  unfold request_fake_cdd_complete. apply (keeps_bind _ any); [apply k_ack|]. intros _ _.
  eapply keeps_bind; [apply lift_mcdr, mc_get_path|]. cbv beta. intros p Hp.
  apply (keeps_bind _ any); [unfold file_write; daemon_auto|]. intros _ _.
  apply (keeps_bind _ any); [|intros; by apply keeps_ret].
  apply k_tell_all, core_dump_carries; cbn [cd_path cd_reason]; [|by apply Z.ltb_lt].
  unfold strlen. rewrite length_take. unfold PATH_MAX. lia.
Qed.

Lemma k_fake_data k x : keeps J
  (fun l => length l = k /\ Forall (fun v => strlen v < MMGR_CLI_MAX_RECOVERY_CAUSE_LEN) l)
  (fake_tft_data k x).
Proof.
  revert x. induction k as [|k IH]; intros x; cbn [fake_tft_data]; [by apply keeps_ret|].
  apply (keeps_bind _ any); [keeps_step|]. intros ok _.
  eapply keeps_bind; [apply IH|]. cbv beta. intros l [E Hl]. apply keeps_ret. cbn [length].
  split; [by rewrite E|]. constructor; [|done]. destruct ok; [|done].
  rewrite strlen_app, strlen_bytes. unfold MMGR_CLI_MAX_RECOVERY_CAUSE_LEN.
  assert (strlen (print_int x) <= 12); [|cbn; lia]. unfold print_int, strlen.
  pose proof (digits_length 11 (- x) []). pose proof (digits_length 11 x []). cbn [length] in *.
  destruct (x <? 0); cbn [length]; lia.
Qed.

Lemma k_fake_tft : keeps J any request_fake_tft_event.
Proof.
  unfold request_fake_tft_event. eapply keeps_bind; [apply k_fake_data|]. cbv beta. intros l [E Hl].
  apply (keeps_bind _ any); [apply k_ack|]. intros _ _.
  apply (keeps_bind _ any); [|intros; by apply keeps_ret].
  apply k_tell_all, tft_carries; [by apply Nat.ltb_lt| |done]. by rewrite E.
Qed.

Lemma k_fake_ap : keeps J any request_fake_ap_reset.
Proof. unfold request_fake_ap_reset. daemon_auto. Qed.

#[local] Hint Resolve k_recovery k_restart k_set_events k_fake_cdd k_fake_tft k_fake_ap : keeps.
#[local] Hint Extern 1 (keepsX _ _ _ (request_fake_up)) => by apply k_fake_event : keeps.
#[local] Hint Extern 1 (keepsX _ _ _ (request_fake_down)) => by apply k_fake_event : keeps.
#[local] Hint Extern 1 (keepsX _ _ _ (request_fake_shtdwn)) => by apply k_fake_event : keeps.
#[local] Hint Extern 1 (keepsX _ _ _ (request_fake_oos)) => by apply k_fake_event : keeps.
#[local] Hint Extern 1 (keepsX _ _ _ (request_fake_cdd)) => by apply k_fake_event : keeps.
#[local] Hint Extern 1 (keepsX _ _ _ (request_fake_ptfrmreboot)) => by apply k_fake_event : keeps.
#[local] Hint Extern 1 (keepsX _ _ _ (request_fake_self_reset)) => by apply k_fake_event : keeps.

(** Every entry of the table. *)
Lemma k_handler fake st rr : (rr = E_MMGR_SET_NAME -> 0 < len (req_hdr q)) ->
  keeps J any (hdler_client fake st rr).
Proof.
  intros Hn. destruct rr; cbn [hdler_client]; try kauto;
    try (destruct st; try kauto; by apply k_tell); try (destruct fake; kauto).
  by apply k_set_name, Hn.
Qed.

Lemma k_dispatch rr ret : (rr = E_MMGR_SET_NAME -> 0 < len (req_hdr q)) ->
  keeps J any (dispatch rr ret).
Proof.
  intros Hn. unfold dispatch. eapply keeps_bind; [apply keeps_get|]. intros s Hs.
  destruct (bool_decide _); [by apply keeps_ret|]. by apply k_handler.
Qed.

End handlers.

(** * Receiving a request *)

(** The header in the bytes received, if there are enough. *)
Definition header_of (d : list Z) : option msg_hdr :=
  match d with
  | a1 :: a2 :: a3 :: a4 :: b1 :: b2 :: b3 :: b4 :: c1 :: c2 :: c3 :: c4 :: _ =>
      Some {| id := of_be32 a1 a2 a3 a4; ts := of_be32 b1 b2 b3 b4; len := of_be32 c1 c2 c3 c4 |}
  | _ => None
  end.

(** The bytes are the header of a name request without data. *)
Definition nameless (d : list Z) : bool :=
  match header_of d with
  | Some x => bool_decide (request_of_id (id x) = Some E_MMGR_SET_NAME) && (len x <=? 0)
  | None => false
  end.

Lemma get_header_wp `{Platform} {S} fd (s : S) h : reply h (X_recv fd SIZE_HEADER) <> R_never ->
  wp False (msg_get_header fd) (fun v s' h' => s' = s /\ h' = X_recv fd SIZE_HEADER :: h /\
    match v.1 with
    | E_ERR_SUCCESS => exists d x, reply h (X_recv fd SIZE_HEADER) = R_data d /\
        header_of d = Some x /\ v.2 = Some x
    | _ => v.2 = None
    end) s h.
Proof.
  intros Hn. unfold msg_get_header, cnx_read. apply wp_bind, wp_bind. wp_calls.
  destruct (reply h (X_recv fd SIZE_HEADER)) as [d| |]; [|done..]. apply wp_ret.
  change (succeeded E_ERR_SUCCESS) with true. cbv iota. unfold parse_header, wp.
  destruct (Z.eqb_spec (Z.of_nat (length d)) 0); [done|].
  destruct (Z.ltb_spec (Z.of_nat (length d)) SIZE_HEADER) as [|Hd]; [done|].
  unfold SIZE_HEADER in Hd.
  do 12 (destruct d as [|? d]; [cbn [length] in *; lia|]). cbn.
  split; [done|]. split; [done|]. by eexists _, _.
Qed.

(** A header that can be read. *)
Lemma header_read `{Platform} {S} fd d x (s : S) h :
  reply h (X_recv fd SIZE_HEADER) = R_data d -> header_of d = Some x ->
  msg_get_header fd s h = Done (E_ERR_SUCCESS, Some x) s (X_recv fd SIZE_HEADER :: h).
Proof.
  intros Hr Hx. unfold msg_get_header, cnx_read, parse_header. run_calls. rewrite Hr. cbn [fst snd]. run_simp.
  do 12 (destruct d as [|? d]; [done|]). cbn in Hx. injection Hx as <-.
  replace (_ =? 0) with false by (symmetry; apply Z.eqb_neq; cbn [length]; lia).
  replace (_ <? SIZE_HEADER) with false by (symmetry; apply Z.ltb_ge; cbn [length]; unfold SIZE_HEADER; lia).
  done.
Qed.

Lemma inv_asked `{Civil} n c r rq s : inv n c r rq s -> inv n c r (Some (request s)) s.
Proof. intros []. split; try done. by intros q [= ->]. Qed.

Lemma inv_free `{Civil} n c r rq s : inv n c r rq s -> inv n c r None s.
Proof. by intros []. Qed.

Lemma inv_put `{Civil} n c r rq q s : inv n c r rq s -> inv n c r (Some q) (put_request q s).
Proof. intros []. split; try done. by intros q' [= ->]. Qed.

(** A lemma on the handlers at a known request, used from a state. *)
Lemma keeps_use `{Civil} {X : Prop} {A} n c r q (m : IO mmgr_data A) s h :
  keepsX X (inv n c r (Some q)) any m -> inv n c r (Some q) s ->
  wp X m (fun _ s' _ => inv n c r None s') s h.
Proof.
  intros Hm Hs. eapply wp_mono; [by apply Hm|]. cbv beta. intros a s' h' [Hs' _]. by eapply inv_free.
Qed.

Lemma handle_request_wp `{Civil} n c r q i ret s h :
  inv n c r (Some q) s -> req_client q = Some i -> (i < n)%nat -> data_ok q ->
  (request_of_id (id (req_hdr q)) = Some E_MMGR_SET_NAME -> 0 < len (req_hdr q)) ->
  wp False (handle_request ret) (fun _ s' _ => inv n c r None s') s h.
Proof.
  intros Hs Hq Hi Hd Hn. apply (keeps_use n c r q); [|done].
  unfold handle_request. eapply keeps_bind; [apply keeps_get|]. intros s1 Hs1.
  rewrite (asked n c r q s1 Hs1), Hq.
  destruct (request_of_id (id (req_hdr q))) as [rr|]; [|by apply keeps_ret].
  apply (keeps_bind _ any); [by apply lift_cli, cli_registered|]. intros reg _.
  destruct (_ && _).
  - apply (keeps_bind _ any); [by eapply k_tell|]. intros. by apply keeps_ret.
  - apply (k_dispatch n c r q i Hq Hi Hd). intros ->. by apply Hn.
Qed.

Lemma client_request_wp `{Civil} n c r q i s h :
  inv n c r (Some q) s -> req_client q = Some i -> (i < n)%nat ->
  (request_of_id (id (req_hdr q)) = Some E_MMGR_SET_NAME -> 0 < len (req_hdr q)) ->
  wp False client_request (fun _ s' _ => inv n c r None s') s h.
Proof.
  intros Hs Hq Hi Hn. unfold client_request, set_request.
  apply wp_bind, wp_modify, wp_bind, wp_get. rewrite (asked n c r q s Hs).
  set (q0 := put_data None q). set (s0 := put_request q0 s).
  assert (Hs0 : inv n c r (Some q0) s0) by by eapply inv_put.
  change (len (req_hdr (request s0))) with (len (req_hdr q)).
  destruct (Z.ltb_spec 0 (len (req_hdr q))) as [Hl|Hl].
  2:{ apply (handle_request_wp n c r q0 i); try done. }
  wp_call. rewrite civil_alloc. cbn [negb]. change (req_client (request s0)) with (req_client q).
  rewrite Hq. apply wp_bind.
  eapply wp_mono; [apply (lift_cli n c r (Some q0) any); [by apply cli_get_fd|exact Hs0]|].
  cbv beta. intros fd s1 h1 [Hs1 _]. unfold cnx_read. apply wp_bind, wp_bind. wp_calls.
  destruct (reply h1 (X_recv fd (len (req_hdr q)))) as [d| |] eqn:Er; [apply wp_ret..|by apply civil_answers in Er];
    apply wp_bind, wp_modify; rewrite (asked n c r q0 s1 Hs1).
  2:{ cbn. by eapply inv_free, inv_put. }
  change (succeeded E_ERR_SUCCESS) with true. cbn [negb orb].
  destruct (Z.eqb_spec (strlen d) (len (req_hdr q))) as [El|]; cbn [negb].
  2:{ apply wp_ret. by eapply inv_free, inv_put. }
  apply (handle_request_wp n c r (put_data (Some d) q0) i); try done; [by eapply inv_put|].
  apply civil_recv in Er; [|lia]. cbn. split; [done|]. lia.
Qed.

(** The descriptor of the current event exists. *)
Definition current_fd (e : mmgr_events) : option Z :=
  if cur_ev e <? 0 then None else ev e !! Z.to_nat (cur_ev e).

Lemma event_fd_wp `{Platform} fd s h : current_fd (events s) = Some fd ->
  event_fd s h = Done fd s h.
Proof.
  unfold current_fd, event_fd. intros Hc. run_simp. destruct (_ <? _); [done|]. by rewrite Hc.
Qed.

Lemma known_client_wp `{Civil} n c r s h fd :
  inv n c r None s -> current_fd (events s) = Some fd ->
  (forall d, reply h (X_recv fd SIZE_HEADER) = R_data d -> nameless d = false) ->
  wp False known_client (fun _ s' _ => inv n c r None s') s h.
Proof.
  intros Hs Hf Hd. unfold known_client. apply wp_bind. eapply run_wp; [by apply event_fd_wp|].
  apply wp_bind. unfold on_cli, client_find. apply wp_zoom. wp_simp.
  destruct (if fd =? CLOSED_FD then None else _) as [i|] eqn:Ei.
  2:{ wp_calls. destruct Hs. by split. }
  assert (Hi : (i < n)%nat).
  { destruct (fd =? CLOSED_FD); [done|]. apply find_index_Some in Ei as (cl & Hc & _).
    destruct (inv_cli _ _ _ _ _ Hs) as [[_ <-] _]. by eapply lookup_lt_Some. }
  assert (Hs1 : inv n c r None (put_clients (clients s) s)) by (destruct Hs; by split).
  apply wp_bind. eapply wp_mono; [apply get_header_wp, civil_answers|]. cbv beta.
  intros [ret x] s1 h1 (-> & -> & Hr). cbn [fst snd] in Hr. unfold set_request.
  destruct ret; first [subst x | destruct Hr as (d & x' & Er & Ex & ->)]; cbn [fst snd].
  - apply wp_bind, wp_modify, wp_bind, wp_modify.
    eapply (client_request_wp n c r _ i); [by eapply inv_put, inv_put|done|done|].
    cbn. intros Hn. specialize (Hd _ Er). unfold nameless in Hd. rewrite Ex in Hd.
    rewrite bool_decide_eq_true_2 in Hd by done. cbn [andb] in Hd. apply Z.leb_gt in Hd. lia.
  - apply wp_bind, wp_ret, wp_bind, wp_modify, wp_ret. by eapply inv_free, inv_put.
  - apply wp_bind, wp_ret, wp_bind, wp_modify, wp_ret. by eapply inv_free, inv_put.
  - apply wp_bind, wp_ret, wp_bind, wp_modify, wp_ret. by eapply inv_free, inv_put.
  - apply wp_bind, wp_ret, wp_bind, wp_modify, wp_ret. by eapply inv_free, inv_put.
  - apply wp_bind, wp_ret, wp_bind, wp_modify, wp_bind.
    eapply wp_mono; [eapply (k_dispatch_release n c r _ i); [..|by eapply inv_put]; done|].
    cbv beta. intros a s2 h2 [Hs2 _]. eapply wp_mono; [apply (lift_cli n c r None any);
      [apply cli_remove|by eapply inv_free]|]. cbv beta. by intros b s3 h3 [? _].
Qed.


Lemma new_client_wp `{Civil} n c r s h fd :
  inv n c r None s -> current_fd (events s) = Some fd ->
  wp False new_client (fun _ s' _ => inv n c r None s') s h.
Proof.
  intros Hs Hf. unfold new_client. apply wp_bind. eapply run_wp; [by apply event_fd_wp|].
  assert (Hk : forall m : IO mmgr_data e_mmgr_errors, keepsX False (inv n c r None) any m ->
    wp False m (fun _ s' _ => inv n c r None s') s h).
  { intros m Hm. eapply wp_mono; [by apply Hm|]. cbv beta. by intros ? ? ? [? _]. }
  apply Hk. do 2 (apply (keeps_bind _ any); [kauto|intros ? _]).
  destruct (_ <=? _); [|by apply keeps_ret]. unfold cnx_accept.
  apply (keeps_bind _ any); [keeps_step|]. intros sock _.
  destruct (Z.ltb_spec sock 0); [by apply keeps_ret|]. unfold tty_listen_fd.
  eapply keeps_bind; [apply keeps_get|]. intros s1 Hs1.
  apply (keeps_bind _ any); [daemon_auto|]. intros ret _.
  destruct (succeeded ret); [|by apply keeps_ret]. apply lift_cli, cli_add. unfold CLOSED_FD. lia.
Qed.

(** * Waiting *)

Lemma wait_loop_wp `{Civil} n c r k s h :
  inv n c r None s -> (loop_fuel <= k + interruptions h)%nat ->
  wp False (wait_loop k) (fun ret s' _ => inv n c r None s' /\
    (succeeded ret = true -> cur_ev (events s') = FIRST_EVENT /\
       nfds (events s') = Z.of_nat (length (ev (events s'))))) s h.
Proof.
  revert s h. induction k as [|k IH]; intros s h Hs Hk; cbn [wait_loop].
  { pose proof (civil_waits h). lia. }
  unfold on_events. apply wp_bind, wp_zoom, wp_modify, wp_bind. unfold on_cli, clients_get_allowed.
  apply wp_zoom, wp_gets, wp_bind. unfold on_tim. apply wp_zoom.
  assert (Ht : forall t h0, wp False timer_get_timeout (fun _ t' h' => t' = t /\
    interruptions h' = interruptions h0) t h0).
  { intros t h0. unfold timer_get_timeout. wp_simp. destruct (ttype t =? 0); by wp_calls. }
  eapply wp_mono; [apply Ht|]. cbv beta. intros tmo t h1 [-> Ei].
  apply wp_bind, wp_get. wp_call. destruct (reply h1 _) as [e|fds] eqn:Er.
  - apply wp_bind, wp_zoom, wp_modify. destruct (_ || _) eqn:Eb.
    + apply wp_ret. split; [|done]. destruct Hs. split; try done. split; cbn; unfold FIRST_EVENT; lia.
    + apply IH; [destruct Hs; split; try done; split; cbn; unfold FIRST_EVENT; lia|].
      cbn [interruptions]. rewrite Er, Eb. lia.
  - apply wp_bind, wp_zoom, wp_modify, wp_bind, wp_zoom, wp_modify, wp_ret.
    split; [|done]. destruct Hs. by split.
Qed.

Lemma wait_for_event_wp `{Civil} n c r s h : inv n c r None s ->
  wp False wait_for_event (fun ret s' _ => inv n c r None s' /\
    (succeeded ret = true ->
       if nfds (events s') =? 0 then ev_state (events s') = E_EVENT_TIMEOUT
       else exists fd, current_fd (events s') = Some fd /\
              ev_state (events s') = classify fd s')) s h.
Proof.
  intros Hs. unfold wait_for_event. apply wp_bind, wp_get, wp_bind.
  eapply wp_mono with (Q := fun ret s' _ => inv n c r None s' /\ (succeeded ret = true ->
    -1 <= cur_ev (events s') /\
    (cur_ev (events s') + 1 < nfds (events s') \/ nfds (events s') = 0) /\
    nfds (events s') <= Z.of_nat (length (ev (events s'))))).
  { destruct (Z.leb_spec (nfds (events s)) (cur_ev (events s) + 1)).
    - eapply wp_mono; [apply (wait_loop_wp n c r); [done|lia]|]. cbv beta.
      intros ret s1 h1 [Hs1 Hr]. split; [done|]. intros [E1 E2]%Hr. rewrite E1, E2.
      unfold FIRST_EVENT. lia.
    - apply wp_ret. split; [done|]. intros _. destruct (inv_events _ _ _ _ _ Hs). lia. }
  cbv beta. intros ret s1 h1 [Hs1 Hr]. destruct (succeeded ret) eqn:Er; cbn [negb].
  2:{ apply wp_ret. split; [done|]. by rewrite Er. }
  specialize (Hr eq_refl) as (Hc & Hlt & Hle). unfold on_events.
  apply wp_bind, wp_zoom, wp_modify, wp_bind, wp_get, wp_bind. cbn [events put_events nfds put_cur_ev].
  destruct (Z.eqb_spec (nfds (events s1)) 0) as [E0|E0].
  - apply wp_zoom, wp_modify, wp_ret. split.
    + destruct Hs1. split; try done. split; cbn; lia.
    + intros _. cbn [events put_events nfds put_cur_ev put_ev_state]. by rewrite (proj2 (Z.eqb_eq _ _) E0).
  - destruct (lookup_lt_is_Some_2 (ev (events s1)) (Z.to_nat (cur_ev (events s1) + 1))) as [fd Hfd];
      [lia|].
    assert (Hcf : current_fd (put_cur_ev (cur_ev (events s1) + 1) (events s1)) = Some fd).
    { unfold current_fd. cbn [cur_ev put_cur_ev ev].
      by rewrite (proj2 (Z.ltb_ge _ _)) by lia. }
    apply wp_bind. eapply run_wp; [by apply event_fd_wp|].
    apply wp_bind, wp_get, wp_zoom, wp_modify, wp_ret. split.
    + destruct Hs1. split; try done. split; cbn; lia.
    + intros _. cbn [events put_events nfds put_cur_ev put_ev_state].
      rewrite (proj2 (Z.eqb_neq _ _) E0). by exists fd.
Qed.

(** * Results *)

(** C5.  A client that sends what it announces cannot stop the daemon.  Whatever
    bytes a client sends, serving its request (known_client), its disconnection
    or a new connection (new_client) returns without failing an assertion,
    without undefined behaviour and in a state of the invariant: the count of
    connected clients is the number of open slots, the escalation is on a level
    that has a handler, and the next turn of the loop is served under the same
    guarantee.  Two things are asked of the client, and each is needed: its name
    request carries data (nameless_request_aborts: the daemon fails an
    assertion), and it sends some of each body it announces, or closes
    (announced_body_never_served: the daemon waits for ever in a [recv] without
    timeout).  What the platform does is that of [Civil]: memory does not run
    out, the strings of the core dump library fit, a [send] returns, terminals
    fall silent, the clock advances; and the invariant has the core dump library
    loaded and the escalation enabled. *)
Theorem clients_cannot_stop_daemon `{Civil} n c r s h fd :
  inv n c r None s -> current_fd (events s) = Some fd ->
  (forall d, reply h (X_recv fd SIZE_HEADER) = R_data d -> nameless d = false) ->
  wp False known_client (fun _ s' _ => inv n c r None s') s h /\
  wp False new_client (fun _ s' _ => inv n c r None s') s h.
Proof.
  intros Hs Hf Hd. split; [by eapply known_client_wp|by eapply new_client_wp].
Qed.

(** What the loop does before it waits (a shutdown or a recovery of the
    modem) and its handling of the timers, of a hang-up of the modem's terminal,
    of the end of a flashing or of a core dump and of the security channel keep
    the invariant too; only the expiry of the flashing timer may leave, through
    [exit]. *)
Theorem loop_keeps_invariant `{Civil} n c r s h : inv n c r None s ->
  wp False before_wait (fun _ s' _ => inv n c r None s') s h /\
  (forall e, e ∈ [E_EVENT_IPC; E_EVENT_SECUR; E_EVENT_FLASHING; E_EVENT_MCDR] ->
     wp False (handle_event e) (fun _ s' _ => inv n c r None s') s h) /\
  wp True (handle_event E_EVENT_TIMEOUT) (fun _ s' _ => inv n c r None s') s h.
Proof.
  intros Hs.
  assert (Hk : forall X (m : IO mmgr_data unit), keepsX X (inv n c r None) any m ->
    wp X m (fun _ s' _ => inv n c r None s') s h).
  { intros X m Hm. eapply wp_mono; [by apply Hm|]. cbv beta. by intros ? ? ? [? _]. }
  split_and!.
  - apply Hk, k_before_wait.
  - intros e He. apply Hk. rewrite !elem_of_cons, elem_of_nil in He.
    destruct He as [->|[->|[->|[->|[]]]]]; cbn [handle_event].
    + apply (keeps_bind _ any); [apply k_ipc_event|]. intros. by apply keeps_ret.
    + apply (keeps_bind _ any); [apply k_security|]. intros. by apply keeps_ret.
    + apply k_flashing.
    + apply k_mcdr_event.
  - apply Hk, k_timeout.
Qed.

(** The exception is real: a client whose name request has no data stops
    the daemon, which fails the assertion on the missing buffer. *)
Theorem nameless_request_aborts `{Civil} n c r s h fd i d x :
  inv n c r None s -> current_fd (events s) = Some fd ->
  client_find fd (clients s) h = Done (Some i) (clients s) h ->
  reply h (X_recv fd SIZE_HEADER) = R_data d -> header_of d = Some x ->
  request_of_id (id x) = Some E_MMGR_SET_NAME -> len x <= 0 ->
  known_client s h = Abort (X_recv fd SIZE_HEADER :: h).
Proof.
  intros Hs Hf Hi Hr Hx Hid Hl. unfold known_client.
  rewrite (run_bind _ _ _ _ _ _ _ (event_fd_wp fd s h Hf)).
  erewrite run_bind; [|unfold on_cli, zoom; rewrite Hi; reflexivity].
  destruct (wp_done _ _ _ _ (get_header_wp fd (put_clients (clients s) s) h ltac:(by rewrite Hr)))
    as ([ret hd] & s' & h' & E & -> & -> & Hv).
  rewrite (run_bind _ _ _ _ _ _ _ E). cbn [fst snd] in Hv.
  assert (ret = E_ERR_SUCCESS /\ hd = Some x) as [-> ->].
  { clear Hi. revert E. rewrite (header_read fd d x) by done. by intros [= <- <-]. }
  unfold set_request. run_simp. unfold client_request, set_request. run_simp.
  cbn [request put_request put_client put_hdr put_data req_hdr req_data req_client].
  rewrite (proj2 (Z.ltb_ge _ _) Hl). unfold handle_request. run_simp.
  cbn [request put_request put_client put_hdr put_data req_hdr req_data req_client]. rewrite Hid.
  set (s1 := put_request _ _).
  assert (Hcl : clients s1 = clients s) by done.
  assert (Hil : exists cl, clist (clients s) !! i = Some cl).
  { revert Hi. unfold client_find. run_simp. destruct (fd =? CLOSED_FD); [done|].
    intros [= (cl & Hc & _)%find_index_Some]. by exists cl. }
  destruct Hil as [cl Hcl2].
  erewrite run_bind; [|unfold on_cli, zoom, client_is_registered;
    rewrite (run_bind _ _ _ _ _ _ _ (deref_eq i cl (clients s1) _ Hcl2)); reflexivity].
  change (is_registration E_MMGR_SET_NAME) with true. rewrite andb_false_r.
  unfold dispatch. run_simp. rewrite bool_decide_eq_false_2 by apply Hs.
  cbn [hdler_client]. unfold request_set_name. run_simp. unfold mbind at 1, M_bind at 1.
  unfold on_cli, zoom, client_set_name. unfold s1.
  cbn [request put_clients put_request req_client req_data put_client put_hdr put_data].
  rewrite (run_bind _ _ _ _ _ _ _ (deref_eq i cl _ _ Hcl2)). done.
Qed.

(** So is the other: a client that announces a body and neither sends it nor closes makes
    the daemon wait for ever. *)
Theorem announced_body_never_served `{Platform} s h fd cl x d :
  current_fd (events s) = Some fd -> fd <> CLOSED_FD -> clist (clients s) !! 0%nat = Some cl -> cfd cl = fd ->
  reply h (X_recv fd SIZE_HEADER) = R_data d -> header_of d = Some x -> 0 < len x ->
  reply (X_recv fd SIZE_HEADER :: h) (X_calloc (len x)) = true ->
  reply (X_calloc (len x) :: X_recv fd SIZE_HEADER :: h) (X_recv fd (len x)) = R_never ->
  known_client s h = Undef (X_recv fd (len x) :: X_calloc (len x) :: X_recv fd SIZE_HEADER :: h).
Proof.
  intros Hf Hopen Hcl <- Hr Hx Hl Ha Hn. unfold known_client.
  rewrite (run_bind _ _ _ _ _ _ _ (event_fd_wp (cfd cl) s h Hf)).
  assert (Hfind : client_find (cfd cl) (clients s) h = Done (Some 0%nat) (clients s) h).
  { unfold client_find. run_simp. rewrite (proj2 (Z.eqb_neq _ _) Hopen).
    destruct (clist (clients s)) as [|cl' l]; [done|]. injection Hcl as ->. unfold find_index. cbn. by rewrite Z.eqb_refl. }
  erewrite run_bind; [|unfold on_cli, zoom; rewrite Hfind; reflexivity].
  destruct (wp_done _ _ _ _ (get_header_wp (cfd cl) (put_clients (clients s) s) h ltac:(by rewrite Hr)))
    as ([ret hd] & s' & h' & E & -> & -> & Hv).
  rewrite (run_bind _ _ _ _ _ _ _ E). cbn [fst snd] in Hv.
  assert (ret = E_ERR_SUCCESS /\ hd = Some x) as [-> ->].
  { revert E. rewrite (header_read (cfd cl) d x) by done. by intros [= <- <-]. }
  unfold set_request. run_simp. unfold client_request, set_request. run_simp.
  cbn [request put_request put_client put_hdr put_data req_hdr req_data req_client].
  rewrite (proj2 (Z.ltb_lt _ _) Hl). run_calls. rewrite Ha. cbn [negb].
  cbn [request put_request put_client put_hdr put_data req_hdr req_data req_client].
  erewrite run_bind; [|unfold on_cli, zoom, client_get_fd;
    rewrite (run_bind _ _ _ _ _ _ _ (deref_eq 0%nat cl _ _ Hcl)); reflexivity].
  unfold cnx_read. run_calls. by rewrite Hn.
Qed.

(** * A daemon that waits *)

(** Platforms that answer as [still], except for what clients send and for the
    state the driver reports. *)
Definition with_peers (recv : list Z) (st : Z) : Platform := with_reply still (fun h cc =>
  match cc with
  | X_recv _ len => R_data (take (Z.to_nat len) recv)
  | X_ioctl _ MDM_CTRL_GET_STATE => (0, st)
  | cc => @reply still h cc
  end).

Abbreviation with_clients recv := (with_peers recv 0).

Lemma with_peers_civil recv st : (length recv < 1000)%nat -> @Civil (with_peers recv st).
Proof.
  intros Hl. split; try done.
  - intros h fd len d Hn [= <-]. unfold strlen. rewrite length_take. lia.
  - apply fo_paths. by apply no_folders_ok.
  - split; try done.
    + intros h fd d. cbn. lia.
    + intros fd s h r d s' h' E. rewrite (silent_frames (with_peers recv st) ltac:(done) _ _ _ _ _ _ _ E).
      by apply sane_check_ok.
    + intros src size conv. cbn. destruct (Z.ltb_spec (Z.of_nat (length src)) size); [|done].
      by intros [= <-].
  - apply silent_pauses; [cbn; lia|done..].
  - apply slept_clock_passes; [cbn; lia|done].
  - intros h. cbn [loop_fuel with_peers with_reply still demo_platform].
    induction h as [|cc h IH]; cbn [interruptions]; [lia|]. destruct cc; try exact IH. cbn. lia.
Qed.

(** The modem is up; a client is served on descriptor 7. *)
Definition demo_data : mmgr_data := {|
  epollfd := 3; fd_tty := 5; fd_cnx := 6; dsda := false; cd_retrieved := false;
  state := E_MMGR_MDM_UP; wakeup_cfg := E_MDM_WAKEUP_UNKNOWN;
  reset := demo_reset E_EL_MODEM_COLD_RESET; clients := demo_clients;
  timer := {| ttype := 0; timeout := fun _ => 10; end_ := fun _ => {| ts_sec := 0; ts_nsec := 0 |} |};
  mcdr := {| mc_enabled := true; mc_running := false; mc_lib := true; mc_fd_pipe := (20, 21);
             mc_path := bytes "/cd"; mc_enable_cd_log := false; mc_mdm_version := [];
             mc_coredump_file := [] |};
  events := {| nfds := 1; ev := [7]; cur_ev := 0; ev_state := E_EVENT_CLIENT; cli_req := 0;
               link_state := 0 |};
  request := {| req_hdr := {| id := 0; ts := 0; len := 0 |}; req_data := None; req_client := None |};
  secur := {| sec_enable := false; sec_dlc := []; sec_fd := CLOSED_FD; sec_lib := false;
              send_queue := []; nb_of_msgs := 0; err_msg := None |};
  mcd := demo_mcd; flash := demo_flash; fw := fl_fw demo_flash;
  dlc := {| sanity_check := bytes "/dev/gsmtty1"; shtdwn := bytes "/dev/gsmtty2";
            custom := bytes "/dev/gsmtty3"; cd_logs := bytes "/dev/gsmtty4";
            mux := {| frame_size := 1509; retry := 3 |} |};
  keys := {| k_blob := []; k_cfg := []; k_amtl := []; k_reboot := bytes "reboot"; k_mdm_version := [] |};
  mlink := demo_link; bus := demo_bus; fake_requests := false; is_mdm_bb_ready := true |}.

Lemma demo_inv rq : rq = None -> inv 2 1 1 rq demo_data.
Proof.
  intros ->. split; try done.
  - split; [done|]. repeat constructor; by apply Z.leb_le.
  - split; [by split|by left].
  - by repeat constructor.
Qed.

(** A recovery request (identifier 4) with four bytes of data, then its data. *)
Definition recovery_bytes : list Z := [0; 0; 0; 4; 0; 0; 0; 9; 0; 0; 0; 4].

Lemma clients_cannot_stop_daemon_witness :
  wp False (@known_client (with_clients recovery_bytes)) (fun _ s' _ => inv 2 1 1 None s') demo_data [] /\
  wp False (@new_client (with_clients recovery_bytes)) (fun _ s' _ => inv 2 1 1 None s') demo_data [].
Proof.
  apply (@clients_cannot_stop_daemon (with_clients recovery_bytes)
    (with_peers_civil recovery_bytes 0 ltac:(cbn; lia)) 2 1 1 demo_data [] 7).
  - by apply demo_inv.
  - reflexivity.
  - intros d [= <-]. reflexivity.
Defined.

Lemma loop_keeps_invariant_witness :
  wp False (@before_wait (with_clients [])) (fun _ s' _ => inv 2 1 1 None s') demo_data [].
Proof.
  apply (@loop_keeps_invariant (with_clients []) (with_peers_civil [] 0 ltac:(cbn; lia))
    2 1 1 demo_data []). by apply demo_inv.
Defined.

Lemma nameless_request_aborts_witness :
  @known_client (with_clients (replicate 12 0)) demo_data [] = Abort [X_recv 7 12].
Proof.
  apply (@nameless_request_aborts (with_clients (replicate 12 0))
    (with_peers_civil (replicate 12 0) 0 ltac:(cbn; lia)) 2 1 1 demo_data [] 7 0%nat
    (replicate 12 0) {| id := 0; ts := 0; len := 0 |}); try reflexivity.
  by apply demo_inv.
Defined.
