(* ===== verification/Daemon.v ===== *)
(** The whole loop of the daemon: the events of the modem control driver and of
    the bus, and any number of turns of the loop. *)
From S2P Require Import Prelude Platform Io Files At Msg Recov Clients Timer Link Mcd Firmware Mcdr Bus.
From S2P Require Import Secure Mmgr ModemEvents ClientEvents EventsManager Frame Safety ClientSafety.

(** * Without undefined behaviour

    As [keepsX True], but [m] may also stop on a failed assertion: what the
    driver and the flashing can make the daemon do when they contradict what it
    asked for. *)
Definition safely {S A} (r : outcome history S A) (Q : A -> S -> Prop) : Prop :=
  match r with
  | Done a s _ => Q a s
  | Abort _ | Exit _ => True
  | Undef _ => False
  end.

Definition safe {S A} (I : S -> Prop) (P : A -> Prop) (m : IO S A) : Prop :=
  forall s h, I s -> safely (m s h) (fun a s' => I s' /\ P a).

Section safe.
Context {S : Type} (I : S -> Prop).

Lemma keeps_safe {A} (P : A -> Prop) m : keepsX True I P m -> safe I P m.
Proof. intros Hm s h Hs. specialize (Hm s h Hs). unfold wp, safely in *. by destruct (m s h). Qed.

Lemma safe_ret {A} (P : A -> Prop) a : P a -> safe I P (mret a).
Proof. intros. by apply keeps_safe, keeps_ret. Qed.

Lemma safe_abort {A} (P : A -> Prop) : safe I P abort.
Proof. done. Qed.

Lemma safe_bind {A B} (P : A -> Prop) (Q : B -> Prop) (m : IO S A) k :
  safe I P m -> (forall a, P a -> safe I Q (k a)) -> safe I Q (m ≫= k).
Proof.
  intros Hm Hk s h Hs. specialize (Hm s h Hs). unfold mbind, M_bind.
  destruct (m s h) as [a s' h'| | |]; try done. destruct Hm as [Hs' Ha]. by apply Hk.
Qed.

Lemma safe_get : safe I any get.
Proof. by intros s h Hs. Qed.

Lemma safe_when (b : bool) m : safe I any m -> safe I any (when b m).
Proof. intros Hm. destruct b; [done|by apply safe_ret]. Qed.

Lemma safe_zoom {T A} (J : T -> Prop) (P : A -> Prop) (pr : T -> S) (up : S -> T -> T) m :
  (forall t, J t -> I (pr t)) -> (forall t s, J t -> I s -> J (up s t)) ->
  safe I P m -> safe J P (zoom pr up m).
Proof.
  intros Hpr Hup Hm t h Ht. specialize (Hm (pr t) h (Hpr t Ht)). unfold zoom.
  destruct (m (pr t) h); [|done..]. destruct Hm. cbn. auto.
Qed.

Lemma safe_within {A} R P (m : IO S A) :
  (forall s s', R s s' -> I s -> I s') -> within R P m -> safe (fun _ => True) any m ->
  safe I any m.
Proof.
  intros HI Hw Hm s h Hs. specialize (Hw s h). specialize (Hm s h Logic.I). unfold safely in *.
  destruct (m s h); try done. destruct Hw. split; [|done]. by eapply HI.
Qed.

End safe.

Create HintDb safe discriminated.
#[export] Hint Resolve safe_get : safe.

(** Follows the code; the parts that keep the invariant are left to
    [daemon_auto]. *)
Ltac safe_step :=
  lazymatch goal with
  | |- forall _, _ => intros ?
  | |- safe _ _ (mret _) => apply safe_ret; keeps_any
  | |- safe _ _ abort => apply safe_abort
  | |- safe _ _ (_ ≫= _) => apply (safe_bind _ any)
  | |- safe _ any (when _ _) => apply safe_when
  | |- safe _ _ (match ?x with _ => _ end) => destruct x eqn:?
  end.

Ltac safe_auto :=
  repeat first
    [ solve [typeclasses eauto 6 with safe]
    | solve [apply keeps_safe; typeclasses eauto 6 with keeps]
    | safe_step
    | solve [apply keeps_safe; daemon_auto] ].

(** * The parts the driver's events reach *)

Section parts.
Context `{Civil} {X : Prop}.

(** ** Flashing *)

Lemma fl_start bus : safe flash_ok any (mdm_flash_start bus).
Proof.
  apply (safe_within flash_ok (same fl_fw) (fun _ => true)); [apply flash_ok_same|within_auto|].
  unfold mdm_flash_start. apply (safe_bind _ any); [by apply keeps_safe|]. intros m _.
  destruct (negb _); [|by apply safe_ret].
  do 2 (apply (safe_bind _ any); [by apply keeps_safe, keeps_modify|intros _ _]).
  apply (safe_bind _ any); [apply keeps_safe, keeps_total; intros; apply link_flash_total|].
  intros _ _. apply (safe_bind _ any); [apply keeps_safe, keeps_call|]. intros _ _.
  apply (safe_bind _ any).
  2:{ intros _ _. apply keeps_safe, (keeps_bind _ any); [by apply keeps_modify|].
      intros _ _. by apply keeps_ret. }
  intros s h _. pose proof (push_ends bus s h) as Hp. unfold ends, safely in *.
  by destruct (mdm_flash_push bus s h).
Qed.

Lemma push_tlvs_from mup l err m h :
  wp False (push_tlvs mup l err)
    (fun r m' _ => fl_fw m' = fl_fw m /\ forall f, r.2 = Some f -> f ∈ l) m h.
Proof.
  revert err m h. induction l as [|f l IH]; intros err m h; cbn [push_tlvs]; [done|].
  apply wp_bind. eapply wp_mono; [apply push_tlv_wp|]. cbv beta. intros e m1 h1 (-> & _).
  case_bool_decide.
  - eapply wp_mono; [apply IH|]. cbv beta. intros r m2 h2 [E Hr]. split; [done|].
    intros f' Hf. by apply list_elem_of_further, Hr.
  - unfold mdm_flash_set_upgrade_err. wp_simp. split; [done|]. cbn. intros ? [= <-].
    apply list_elem_of_here.
Qed.

(** What [mdm_flash_streamline] asserts. *)
Definition flashed (m : mdm_flash_ctx) : Prop :=
  fl_update m = true -> flash_err m = E_MODEM_FW_SUCCEED.

(** The file a failed customisation names fits an event. *)
Lemma fl_streamline_wp m h : flash_ok m -> flashed m ->
  wp False mdm_flash_streamline (fun r m' _ => flash_ok m' /\
    forall f, r.1 = Some f -> strlen f < MMGR_CLI_MAX_RECOVERY_CAUSE_LEN) m h.
Proof.
  intros Hm Hf. unfold mdm_flash_streamline. apply wp_bind, wp_get, wp_bind.
  eapply wp_mono with (Q := fun r m' _ => flash_ok m' /\
    forall f, r.2 = Some f -> strlen f < MMGR_CLI_MAX_RECOVERY_CAUSE_LEN).
  - destruct (fl_update m) eqn:Eu; cbn [negb]; [|done]. rewrite bool_decide_eq_true_2 by by apply Hf.
    cbn [ASSERT]. apply wp_bind, wp_ret, wp_bind.
    eapply wp_mono; [apply get_tlvs_total, civil_files|]. cbv beta.
    intros l m1 h1 (-> & extra & -> & _ & Hx). wp_call. apply wp_bind.
    eapply wp_mono; [apply push_tlvs_from|]. cbv beta. intros r m2 h2 [Ef Hr].
    apply wp_bind, wp_modify, wp_ret. split.
    { eapply flash_ok_same; [|exact Hm]. exact Ef. }
    unfold flash_ok in Hm. rewrite Forall_forall in Hm, Hx.
    intros f [Hin|Hin]%Hr%elem_of_app; apply list_elem_of_In in Hin; [by apply Hm|].
    apply Hx in Hin. pose proof civil_tlv. unfold strlen, MMGR_CLI_MAX_RECOVERY_CAUSE_LEN in *. lia.
  - cbv beta. intros [err f] m1 h1 [Hm1 Hr]. wp_simp. case_match; by wp_calls.
Qed.

Lemma fl_streamline : safe flash_ok
  (fun r => forall f, r.1 = Some f -> strlen f < MMGR_CLI_MAX_RECOVERY_CAUSE_LEN)
  mdm_flash_streamline.
Proof.
  intros m h Hm. destruct (fl_update m) eqn:Eu; [destruct (decide (flash_err m = E_MODEM_FW_SUCCEED))|].
  2:{ unfold mdm_flash_streamline. run_simp. rewrite Eu. cbn [negb].
      by rewrite bool_decide_eq_false_2. }
  all: pose proof (fl_streamline_wp m h Hm) as Hw; unfold wp, safely, flashed in *;
    destruct (mdm_flash_streamline m h); try done; apply Hw; intros; congruence.
Qed.

(** ** Security *)

Lemma sec_register : keepsX X sec_inv any secure_register.
Proof.
  assert (Hf : forall fd, keepsX X sec_inv any (modify (set_sec_fd fd))).
  { intros fd. apply keeps_modify. intros s [[]]. by split. }
  unfold secure_register. apply (keeps_bind _ any); [apply Hf|]. intros _ _.
  eapply keeps_bind; [apply keeps_get|]. intros s Hs.
  apply (keeps_bind _ any); [|intros ret _; eapply keeps_bind; [apply keeps_get|]; intros; by apply keeps_ret].
  destruct (sec_enable s); [|by apply keeps_ret].
  apply (keeps_bind _ any); [apply keeps_dia; intros; apply dia_open|]. intros [r fd] _.
  apply (keeps_bind _ any); [apply Hf|]. intros. by apply keeps_ret.
Qed.

Lemma sec_start : keepsX X sec_inv any secure_start.
Proof.
  unfold secure_start. eapply keeps_bind; [apply keeps_get|]. intros s Hs.
  destruct (sec_enable s); [|by apply keeps_ret].
  apply (keeps_bind _ any); [apply keeps_dia; intros; apply dia_write|]. intros r _.
  apply (keeps_bind _ any); [|intros; by apply keeps_ret].
  apply keeps_modify. intros t [_ He]. split; [|done]. split; [done| |constructor].
  unfold MSGS_MAX. cbn. lia.
Qed.

(** ** Driver and bus: any state will do *)

Lemma mcd_state_keeps : keepsX X mcd_any any mdm_mcd_get_state.
Proof.
  apply mcd_total. intros s h. unfold mdm_mcd_get_state, mcd_ioctl. wp_calls.
  destruct (_ =? 0); by wp_calls.
Qed.

Lemma callbacks_total l b h : wp False (bus_callbacks l) (fun _ _ _ => True) b h.
Proof.
  unfold bus_callbacks. revert b h. induction l as [|e l IH]; intros b h; cbn [for_each]; [done|].
  apply wp_bind, wp_bind. eapply wp_mono with (Q := fun _ _ _ => True).
  { unfold add_ev. wp_simp. case_match; by wp_simp. }
  intros ? b1 h1 _. apply wp_ret, IH.
Qed.

Lemma bus_read_total b h : wp False bus_ev_read (fun _ _ _ => True) b h.
Proof. unfold bus_ev_read. wp_call. apply callbacks_total. Qed.

Lemma bus_handle_total b h : wp False bus_ev_hdle_events (fun _ _ _ => True) b h.
Proof.
  unfold bus_ev_hdle_events. wp_simp. generalize E_ERR_FAILED.
  generalize (evs b) at 1. intros l. revert b h.
  induction l as [|[p e] l IH]; intros b h ret; cbn [hdle_events_loop]; wp_simp; [done|].
  unfold hdle_event. destruct e; cbn [fst snd].
  - wp_simp. apply IH.
  - unfold hdle_added. wp_calls. destruct (reply h _); wp_simp; [|apply IH].
    repeat case_match; wp_simp; apply IH.
  - unfold hdle_deleted. wp_simp. repeat case_match; wp_simp; apply IH.
Qed.

End parts.

(** * The events of the modem and of the bus *)

Section daemon.
Context `{Civil} {X : Prop} (n : nat) (c r : Z) (rq : option current_request).
Abbreviation J := (inv n c r rq).
Abbreviation keeps := (keepsX X J any).

Lemma k_bus {A} (m : IO bus_ev A) :
  (forall s h, wp False m (fun _ _ _ => True) s h) -> keeps (on_bus m).
Proof.
  intros Hm. apply (keeps_zoom (fun _ => True)); [done| |].
  - intros s x [] Hx. by split.
  - apply keeps_wp. intros s h _. eapply wp_mono; [apply Hm|]. done.
Qed.

Lemma k_wakeup_cfg x : keeps (modify (put_wakeup_cfg x)).
Proof. apply keeps_modify. intros s []. by split. Qed.

Lemma k_bb_ready x : keeps (modify (put_is_mdm_bb_ready x)).
Proof. apply keeps_modify. intros s []. by split. Qed.

Lemma k_dia {A} (m : IO mmgr_data A) : (forall h, dia h m anyQ) -> keeps m.
Proof. apply keeps_dia. Qed.

Lemma k_mcd_state : keeps (on_mcd mdm_mcd_get_state).
Proof. apply lift_mcd, mcd_state_keeps. Qed.

Lemma k_up l : keeps (link_on_mdm_up l).
Proof. apply keeps_total. intros. apply link_up_total. Qed.

Lemma k_cd l : keeps (link_on_cd l).
Proof. apply keeps_total. intros. apply link_cd_total. Qed.

Lemma k_bus_read : keeps (on_bus bus_ev_read).
Proof. apply k_bus, bus_read_total. Qed.

Lemma k_bus_handle : keeps (on_bus bus_ev_hdle_events).
Proof. apply k_bus, bus_handle_total. Qed.

Lemma k_bus_gets {A} (f : bus_ev -> A) : keeps (on_bus (gets f)).
Proof. by apply k_bus. Qed.

Lemma k_bus_state : keeps (on_bus bus_ev_get_state).
Proof. apply k_bus_gets. Qed.

Lemma k_mcdr_gets {A} (f : mcdr_ctx -> A) : keeps (on_mcdr (gets f)).
Proof. apply lift_mcdr, keeps_gets. Qed.

#[local] Hint Resolve sec_register sec_start k_wakeup_cfg k_bb_ready k_mcd_state k_up k_cd k_bus_read k_bus_handle
  k_bus_state : keeps.

Lemma k_core_dump_prepare : keeps core_dump_prepare.
Proof. unfold core_dump_prepare. daemon_auto. Qed.

Lemma k_core_dump_logs : keeps mdm_start_core_dump_logs.
Proof.
  unfold mdm_start_core_dump_logs. eapply keeps_bind; [apply keeps_get|]. intros s Hs.
  do 3 (apply (keeps_bind _ any); [apply k_mcdr_gets|intros ? _]).
  apply k_dia. intros h. apply dia_fetch, civil_reads.
Qed.

Lemma k_drop_link : keeps drop_link.
Proof. unfold drop_link. daemon_auto. Qed.

Lemma k_finish_off : keeps finish_shutdown.
Proof. apply k_finish_shutdown. Qed.

#[local] Hint Resolve k_core_dump_prepare k_core_dump_logs k_drop_link k_finish_off : keeps.

Lemma k_on_core_dump : keeps on_core_dump.
Proof. unfold on_core_dump. daemon_auto. Qed.

Lemma k_on_self_reset : keeps on_self_reset.
Proof. unfold on_self_reset. daemon_auto. Qed.

Lemma k_bus_core_dump : keeps bus_core_dump.
Proof. unfold bus_core_dump. daemon_auto. Qed.

Lemma k_bus_disconnected : keeps bus_disconnected.
Proof. unfold bus_disconnected. daemon_auto. Qed.

Lemma k_update_tty : keeps update_modem_tty.
Proof. unfold update_modem_tty. daemon_auto. Qed.

Lemma k_secur : keeps launch_secur.
Proof. unfold launch_secur. daemon_auto. Qed.

#[local] Hint Resolve k_on_core_dump k_on_self_reset k_bus_core_dump k_bus_disconnected k_update_tty k_secur
  : keeps.

Lemma k_tlv_failure f : strlen f < MMGR_CLI_MAX_RECOVERY_CAUSE_LEN ->
  keeps (tell_all E_MMGR_NOTIFY_TFT_EVENT
    (tft E_EVENT_ERROR "TFT_ERROR_TLV" (MMGR_CLI_TFT_AP_LOG_MASK .| MMGR_CLI_TFT_BP_LOG_MASK)
       [bytes "TLV failure: failed to apply TLV"; f])).
Proof.
  intros Hf. apply k_tell_all, tft_carries; [by apply Nat.ltb_lt|done|].
  apply Forall_cons; [rewrite strlen_bytes; by apply Z.ltb_lt|].
  apply Forall_cons; [done|constructor].
Qed.

(** Configuring the modem on a known interface. *)
Lemma configure_keeps s h : J s -> is_Some (link_get_bb_interface (mlink s)) ->
  wp X configure_modem (fun _ s' _ => J s' /\ any tt) s h.
Proof.
  intros Hs [path Hb]. unfold configure_modem. apply wp_bind, wp_get. rewrite Hb.
  cut (forall m : IO mmgr_data e_mmgr_errors, keeps m -> wp X m (fun _ s' _ => J s' /\ any tt) s h).
  { intros Hk. apply Hk. clear Hk.
    apply (keeps_bind _ any); [apply k_dia; intros; apply dia_open|]. intros [ret fd] _.
    apply (keeps_bind _ any); [kauto|]. intros _ _.
    destruct (negb (succeeded ret)); [daemon_auto|].
    apply (keeps_bind _ any).
    { apply k_dia. intros. apply dia_switch_to_mux; [apply civil_reads|apply civil_sleeps]. }
    intros [[ret' fd'] cfg] _. daemon_auto. }
  intros m Hm. by apply Hm.
Qed.

End daemon.

#[export] Hint Resolve sec_register sec_start k_wakeup_cfg k_bb_ready k_mcd_state k_up k_cd k_bus_read
  k_bus_handle k_bus_state k_core_dump_prepare k_core_dump_logs k_drop_link k_finish_off
  k_on_core_dump k_on_self_reset k_bus_core_dump k_bus_disconnected k_update_tty k_secur : keeps.

(** ** Those that may stop on an assertion *)

Section asserting.
Context `{Civil} (n : nat) (c r : Z) (rq : option current_request).
Abbreviation J := (inv n c r rq).

Lemma s_flash {A} P (m : IO mdm_flash_ctx A) : safe flash_ok P m -> safe J P (on_flash m).
Proof. apply safe_zoom; [apply inv_flash|]. intros s x [] Hx. by split. Qed.

Lemma s_start_flashing : safe J any start_flashing.
Proof.
  unfold start_flashing. apply (safe_bind _ any); [apply keeps_safe, k_bus_gets|]. intros p _.
  apply (safe_bind _ any); [apply s_flash, fl_start|]. intros ret _. safe_auto.
Qed.

Lemma s_streamline : safe J any streamline.
Proof.
  unfold streamline. eapply safe_bind; [apply s_flash, fl_streamline|]. cbv beta.
  intros [f err] Hf. cbn [fst] in Hf. apply (safe_bind _ any).
  - apply keeps_safe. destruct f as [f|]; [|by apply keeps_ret].
    apply (keeps_bind _ any); [by apply k_tlv_failure, Hf|daemon_auto].
  - intros _ _. apply (safe_bind _ any); [|intros; by apply safe_ret].
    by apply keeps_safe, k_tell_all.
Qed.

Lemma s_configure : safe J any configure_modem.
Proof.
  intros s h Hs. destruct (link_get_bb_interface (mlink s)) as [path|] eqn:Eb.
  - assert (Hk := configure_keeps (X := False) n c r rq s h Hs (ex_intro _ path Eb)).
    unfold wp, safely in *. by destruct (configure_modem s h).
  - unfold configure_modem. run_simp. by rewrite Eb.
Qed.

#[local] Hint Resolve s_start_flashing s_streamline s_configure : safe.

Lemma s_do_configure : safe J any do_configure.
Proof. unfold do_configure. safe_auto. Qed.

#[local] Hint Resolve s_do_configure : safe.

Lemma s_modem_control : safe J any modem_control_event.
Proof. unfold modem_control_event, on_fw_download_ready, on_ipc_ready. safe_auto. Qed.

Lemma s_bus_events : safe J any bus_events.
Proof. unfold bus_events, bus_dispatch, bus_configure, ready_for. safe_auto. Qed.

End asserting.

(** * When the assertions hold

    The assertions the events of the driver and of the bus can reach: a flashing
    starts with a firmware prepared and known ports, and the modem is configured
    on a known interface, after a successful flashing if it was to be flashed. *)
Definition flash_prepared (s : mmgr_data) : Prop :=
  (flash_ongoing (flash s) = false -> is_Some (fw_file (flash s))) /\
  flash_links_ok (fl_link (flash s)).

Definition configurable (s : mmgr_data) : Prop :=
  flashed (flash s) /\ is_Some (link_get_bb_interface (mlink s)).

(** All they depend on. *)
Definition stage (s : mmgr_data) := (flash s, mlink s, state s).

Section ready.
Context `{Civil} (n : nat) (c r : Z) (rq : option current_request).
Abbreviation J := (inv n c r rq).
Abbreviation ok m := (wp False m (fun _ s' _ => J s')).

Lemma prepared_stage s s' : stage s' = stage s -> flash_prepared s -> flash_prepared s'.
Proof. unfold stage, flash_prepared. by intros [= -> _ _]. Qed.

Lemma configurable_stage s s' : stage s' = stage s -> configurable s -> configurable s'.
Proof. unfold stage, configurable. by intros [= -> -> _]. Qed.

Lemma ok_keeps {A} (m : IO mmgr_data A) s h : keepsX False J any m -> J s -> ok m s h.
Proof. intros Hm Hs. eapply wp_mono; [by apply Hm|]. cbv beta. by intros ? ? ? [? _]. Qed.

(** A part that keeps the invariant and what [f] shows of the state. *)
Lemma ok_seq {T A B} (f : mmgr_data -> T) (m : IO mmgr_data A) (k : A -> IO mmgr_data B) Q s h :
  J s -> keepsX False J any m -> fixes f m ->
  (forall a s' h', J s' -> f s' = f s -> wp False (k a) Q s' h') -> wp False (m ≫= k) Q s h.
Proof.
  intros Hs Hm Hw Hk. apply wp_bind. eapply wp_mono; [eapply wp_fixes; [exact Hw|by apply Hm]|].
  cbv beta. intros a s' h' ([Hs' _] & E). by apply Hk.
Qed.

Lemma ok_start s h : J s -> flash_prepared s -> ok start_flashing s h.
Proof.
  intros Hs Hp. unfold start_flashing.
  apply (ok_seq stage); [done|apply k_bus_gets|fixes_auto|]. intros p s1 h1 Hs1 E1.
  destruct (prepared_stage _ _ E1 Hp) as [Hf Hl]. apply wp_bind. unfold on_flash. apply wp_zoom.
  eapply wp_mono with (Q := fun _ m' _ => flash_ok m').
  { pose proof (fl_start p (flash s1) h1 (inv_flash _ _ _ _ _ Hs1)) as Hk.
    destruct (flash_ongoing (flash s1)) eqn:Eo.
    - unfold mdm_flash_start. apply wp_bind, wp_get. rewrite Eo. apply wp_ret, Hs1.
    - destruct (Hf eq_refl) as [f Ef].
      destruct (wp_done _ _ _ _ (flash_start_wp p f (flash s1) h1 Ef Hl)) as (x & m' & h' & E & _).
      unfold wp, safely in *. rewrite E in *. apply Hk. }
  cbv beta. intros ret m' h' Hm'. apply ok_keeps; [|by destruct Hs1].
  destruct (succeeded ret); daemon_auto.
Qed.

Lemma ok_streamline {B} (k : bool -> IO mmgr_data B) Q s h :
  J s -> flashed (flash s) ->
  (forall a s' h', J s' -> mlink s' = mlink s -> wp False (k a) Q s' h') ->
  wp False (streamline ≫= k) Q s h.
Proof.
  intros Hs Hf Hk. unfold streamline. apply wp_bind, wp_bind. unfold on_flash at 1. apply wp_zoom.
  eapply wp_mono; [apply fl_streamline_wp; [apply Hs|done]|]. cbv beta.
  intros [err_f err] m' h' [Hm' Hr]. cbn [fst] in Hr.
  assert (Hs1 : J (put_flash m' s)) by by destruct Hs.
  change (mlink s) with (mlink (put_flash m' s)) in Hk. revert Hs1 Hk. generalize (put_flash m' s).
  intros s1 Hs1 Hk.
  apply (ok_seq mlink); [done| |fixes_auto|].
  - destruct err_f as [f|]; [|by apply keeps_ret].
    apply (keeps_bind _ any); [by apply k_tlv_failure, Hr|daemon_auto].
  - intros _ s2 h2 Hs2 E2. apply (ok_seq mlink); [done|by apply k_tell_all|fixes_auto|].
    intros _ s3 h3 Hs3 E3. apply wp_ret, Hk; [done|by rewrite E3].
Qed.

Lemma ok_configure s h : J s -> configurable s ->
  wp False configure_modem (fun _ s' _ => J s' /\ flash s' = flash s /\ mlink s' = mlink s) s h.
Proof.
  intros Hs [_ [path Hb]].
  assert (Hk : wp False configure_modem (fun _ s' _ => J s') s h).
  { eapply wp_mono; [apply (configure_keeps n c r rq); [done|by exists path]|]. by intros ? ? ? [? _]. }
  assert (Hf : fixes (fun s => (flash s, mlink s)) configure_modem) by fixes_auto.
  eapply wp_mono; [eapply wp_fixes; [exact Hf|exact Hk]|]. cbv beta.
  by intros ? s' ? (? & [= -> ->]).
Qed.

Lemma ok_do_configure s h : J s -> configurable s -> ok do_configure s h.
Proof.
  intros Hs Hc. unfold do_configure. apply wp_bind.
  eapply wp_mono; [by apply ok_configure|]. cbv beta. intros ret s1 h1 (Hs1 & Ef & El).
  destruct (negb (succeeded ret)); [by apply wp_ret|].
  apply ok_streamline; [done|rewrite Ef; apply Hc|]. intros a s2 h2 Hs2 _.
  apply ok_keeps; [|done]. daemon_auto.
Qed.

(** The hypotheses of the theorem below. *)
Definition ready (s : mmgr_data) : Prop :=
  flash_prepared s /\
  (state s = E_MMGR_MDM_CONF_ONGOING \/ state s = E_MMGR_MDM_LINK_USB_DISC -> configurable s).

Lemma ready_stage s s' : stage s' = stage s -> ready s -> ready s'.
Proof.
  intros E [Hp Hc]. split; [by eapply prepared_stage|]. intros Hst.
  eapply configurable_stage; [exact E|]. apply Hc. by injection E as _ _ <-.
Qed.

(** Skips a part of a handler that leaves [stage] alone. *)
Ltac ok_skip :=
  eapply (ok_seq stage); [eassumption|solve [kauto|daemon_auto]|fixes_auto|];
  let E := fresh in intros ? ? ? ? E;
  first [ match goal with Hr : ready ?t |- _ => apply (ready_stage _ _ E) in Hr end
        | match goal with Hr : configurable ?t |- _ => apply (configurable_stage _ _ E) in Hr end
        | match goal with Hr : flash_prepared ?t |- _ => apply (prepared_stage _ _ E) in Hr end ];
  clear E.

Lemma ok_modem_control s h : J s -> ready s -> ok modem_control_event s h.
Proof.
  intros Hs Hr. unfold modem_control_event. ok_skip.
  destruct (a .& E_EV_FW_DOWNLOAD_READY).
  { unfold on_fw_download_ready. do 3 ok_skip. apply wp_bind, wp_get.
    case_match; [by apply ok_start, Hr|by apply wp_ret]. }
  destruct (a .& E_EV_IPC_READY).
  { unfold on_ipc_ready. do 4 ok_skip. apply wp_bind, wp_get.
    case_bool_decide as Est; cbn [andb]; [|by apply wp_ret].
    destruct (_ || _); [|by apply wp_ret]. apply ok_do_configure; [done|]. apply Hr. by left. }
  apply ok_keeps; [|done]. daemon_auto.
Qed.

Lemma ok_bus_configure s h : J s -> configurable s -> ok bus_configure s h.
Proof.
  intros Hs Hr. unfold bus_configure.
  apply (ok_seq stage); [done|unfold ready_for; daemon_auto|fixes_auto|]. intros go s1 h1 Hs1 E1.
  destruct go; [|by apply wp_ret]. apply ok_do_configure; [done|by eapply configurable_stage].
Qed.

Lemma ok_bus_events s h : J s -> ready s -> ok bus_events s h.
Proof.
  intros Hs Hr. unfold bus_events. do 2 ok_skip. destruct (negb _); [by apply wp_ret|].
  unfold bus_dispatch. ok_skip. apply wp_bind, wp_get.
  match goal with |- context [?x .& MDM_BB_READY] => set (b := x); clearbody b end.
  match goal with Hr : ready ?x |- _ => rename x into t; destruct Hr as [Hp Hc] end.
  destruct (_ && bool_decide (state t = E_MMGR_MDM_CONF_ONGOING)) eqn:E1.
  { apply andb_true_iff in E1 as [_ E1%bool_decide_eq_true]. specialize (Hc (or_introl E1)).
    clear Hp. do 4 ok_skip. by apply ok_bus_configure. }
  destruct (_ && bool_decide (state t = E_MMGR_MDM_LINK_USB_DISC)) eqn:E2.
  { apply andb_true_iff in E2 as [_ E2%bool_decide_eq_true]. specialize (Hc (or_intror E2)).
    clear Hp. do 4 ok_skip. by apply ok_bus_configure. }
  clear Hc. destruct (_ && bool_decide (state t = E_MMGR_MDM_START)).
  { do 3 ok_skip. apply (ok_seq stage); [done|unfold ready_for; daemon_auto|fixes_auto|].
    intros go s1 h1 Hs1 E3. destruct go; [|by apply wp_ret].
    apply ok_start; [done|by eapply prepared_stage]. }
  apply ok_keeps; [|done]. daemon_auto.
Qed.

End ready.

(** * The loop *)

Section loop.
Context `{Civil} (n : nat) (c r : Z).
Abbreviation J := (inv n c r None).

Lemma wp_safely {A} X (m : IO mmgr_data A) (Q : A -> mmgr_data -> Prop) s h :
  wp X m (fun a s' _ => Q a s') s h -> safely (m s h) Q.
Proof. unfold wp, safely. by destruct (m s h). Qed.

Lemma known_client_safe s h fd : J s -> current_fd (events s) = Some fd ->
  safely (known_client s h) (fun _ s' => J s').
Proof.
  intros Hs Hf. destruct (reply h (X_recv fd SIZE_HEADER)) as [d| |] eqn:Er; [|..|by apply civil_answers in Er].
  2:{ eapply (wp_safely False), known_client_wp; [done..|]. by rewrite Er. }
  destruct (nameless d) eqn:Ed.
  2:{ eapply (wp_safely False), known_client_wp; [done..|]. rewrite Er. by intros ? [= <-]. }
  destruct (if fd =? CLOSED_FD then None
            else find_index (fun cl => fd =? cfd cl) (clist (clients s))) as [i|] eqn:Ei.
  - unfold nameless in Ed. destruct (header_of d) as [x|] eqn:Ex; [|done].
    apply andb_true_iff in Ed as [Hid%bool_decide_eq_true Hl%Z.leb_le].
    rewrite (nameless_request_aborts n c r s h fd i d x) by first [done|unfold client_find; run_simp; by rewrite Ei].
    done.
  - eapply (wp_safely False). unfold known_client. apply wp_bind. eapply run_wp; [by apply event_fd_wp|].
    apply wp_bind. unfold on_cli, client_find. apply wp_zoom. wp_simp. rewrite Ei. wp_calls.
    destruct Hs. by split.
Qed.

(** An event, once the wait has told where it comes from. *)
Lemma handle_event_safe s h : J s ->
  (forall e, e = E_EVENT_CLIENT \/ e = E_EVENT_NEW_CLIENT -> ev_state (events s) = e ->
     exists fd, current_fd (events s) = Some fd) ->
  safely (handle_event (ev_state (events s)) s h) (fun _ s' => J s').
Proof.
  intros Hs Hfd.
  assert (Hk : forall m : IO mmgr_data unit, safe J any m -> safely (m s h) (fun _ s' => J s')).
  { intros m Hm. specialize (Hm s h Hs). unfold safely in *. destruct (m s h); naive_solver. }
  assert (Hd : forall A (m : IO mmgr_data A), safe J any m -> safe J any (_ ← m; mret tt)).
  { intros A m Hm. apply (safe_bind _ any); [done|]. intros. by apply safe_ret. }
  assert (Hc : forall A (m : IO mmgr_data A), safely (m s h) (fun _ s' => J s') ->
    safely ((_ ← m; mret tt) s h) (fun _ s' => J s')).
  { intros A m Hm. unfold mbind, M_bind, safely in *. by destruct (m s h). }
  destruct (loop_keeps_invariant n c r s h Hs) as (_ & He & Ht).
  destruct (ev_state (events s)) eqn:Ee; 
    try (eapply (wp_safely False), He; solve [repeat first [apply list_elem_of_here|apply list_elem_of_further]]).
  - destruct (Hfd E_EVENT_NEW_CLIENT) as [fd Hf]; [by right|done|].
    apply Hc. by eapply (wp_safely False), new_client_wp.
  - destruct (Hfd E_EVENT_CLIENT) as [fd Hf]; [by left|done|]. apply Hc. by eapply known_client_safe.
  - by eapply (wp_safely True).
  - apply Hk, Hd, s_modem_control.
  - apply Hk, Hd, s_bus_events.
Qed.

Lemma events_step_safe w s h : J s -> safely (events_step w s h) (fun _ s' => J s').
Proof.
  intros Hs. unfold events_step.
  destruct (wp_done _ _ _ _ (proj1 (loop_keeps_invariant n c r s h Hs))) as ([] & s1 & h1 & E & Hs1).
  rewrite (run_bind _ _ _ _ _ _ _ E). run_simp.
  assert (Ht : forall w1 h2, safely ((ret ← wait_for_event;
    if negb (succeeded ret) then mret None
    else when (negb w1) (_ ← call (X_wake_lock true); mret tt) ;;
         s ← get; handle_event (ev_state (events s)) ;; mret (Some true)) s1 h2) (fun _ s' => J s')).
  2:{ destruct (bool_decide _ || _ || _); run_calls; apply Ht. }
  intros w1 h2.
  destruct (wp_done _ _ _ _ (wait_for_event_wp n c r s1 h2 Hs1)) as (ret & s2 & h3 & E3 & Hs2 & Hr).
  rewrite (run_bind _ _ _ _ _ _ _ E3). destruct (succeeded ret); cbn [negb]; [|done].
  specialize (Hr eq_refl).
  assert (Hl : exists h4, when (negb w1) (_ ← call (X_wake_lock true); mret tt) s2 h3 = Done tt s2 h4)
    by (destruct w1; by eexists).
  destruct Hl as (h4 & El). rewrite (run_bind _ _ _ _ _ _ _ El). run_simp.
  pose proof (handle_event_safe s2 h4 Hs2) as He. unfold mbind, M_bind, safely in *.
  destruct (handle_event _ s2 h4); try done; apply He; intros e Hev Hst;
    (destruct (nfds (events s2) =? 0); [destruct Hev; congruence|]);
    destruct Hr as (fd & Hf & _); by exists fd.
Qed.

End loop.

Lemma events_manager_safe `{Civil} n c r k w s h : inv n c r None s ->
  safely (events_manager k w s h) (fun _ s' => inv n c r None s').
Proof.
  revert w s h. induction k as [|k IH]; intros w s h Hs; cbn [events_manager]; [done|].
  pose proof (events_step_safe n c r w s h Hs) as He. unfold mbind, M_bind, safely in *.
  destruct (events_step w s h) as [[w'|] s' h'| | |]; try done. by apply IH.
Qed.



(** C8.  The events of the modem control driver and of the bus fail no assertion
    when the daemon is ready for them: with a firmware prepared, or a flashing
    already running, on known ports, and, where the modem may be configured, its
    interface known and its flashing, if one was due, successful.  Whatever the
    driver, the bus and the modem then answer within the limits of [Civil] (those
    of daemon_never_undefined: memory available, bounded strings, terminals that
    fall silent, a well behaved security channel), the configuration,
    customisation, flashing and core dump they lead to return in a state of the
    invariant.  The invariant has the core dump enabled and its library loaded: it
    does not hold of a daemon configured without core dump, where a self-reset of
    the modem calls through a null pointer (core_dump.c:362). *)
Theorem modem_events_complete `{Civil} n c r rq s h : inv n c r rq s -> ready s ->
  wp False modem_control_event (fun _ s' _ => inv n c r rq s') s h /\
  wp False bus_events (fun _ s' _ => inv n c r rq s') s h.
Proof. intros Hs Hr. split; [by apply ok_modem_control|by apply ok_bus_events]. Qed.

(** The driver reports that the firmware can be downloaded. *)
Lemma modem_events_complete_witness :
  exists ret s' h', @modem_control_event (with_peers [] 32) demo_data [] = Done ret s' h' /\
    inv 2 1 1 None s' /\ flash_ongoing (flash s') = true.
Proof.
  assert (Hr : ready demo_data).
  { split; [|by intros [|]]. split; [by exists (bytes "/p")|by split]. }
  destruct (wp_done _ _ _ _ (proj1 (@modem_events_complete (with_peers [] 32)
    (with_peers_civil [] 32 ltac:(cbn; lia)) 2 1 1 None demo_data [] (demo_inv None eq_refl) Hr)))
    as (ret & s' & h' & E & Hi).
  exists ret, s', h'. split_and!; [exact E|exact Hi|]. revert E. vm_compute. by intros [= _ <- _].
Defined.
