(* ===== verification/Startup.v ===== *)
(** The start of the daemon: core/modem_manager.c.  The telephony configuration
    (libtcs) is an argument of [mmgr_init]. *)
From S2P Require Import Prelude Platform Io Files At Msg Recov Clients Timer Link Mcd Firmware Mcdr Bus.
From S2P Require Import Secure Mmgr ModemEvents ClientEvents EventsManager Frame Safety ClientSafety Daemon.

(** * The telephony configuration, as far as the daemon reads it *)

Record channel_cfg := { cc_mmgr : channels_mmgr; cc_secured : list Z }.

Record tcs_mdm := { tm_info : mdm_info; tm_secured : bool; tm_chs : list channel_cfg }.

(** The configuration of the daemon for a modem; the USB identifiers of the links
    of [ic_link] and [ic_cd_link] are those given to the bus module. *)
Record mmgr_info := {
  ic_recov : mmgr_recovery; ic_timings : mmgr_timings; ic_mcdr : mcdr_gnl; ic_mcdr_timeout : Z;
  ic_cd_link : mcdr_link; ic_link : mmgr_mdm_link; ic_cli_max : Z; ic_mux : mux_t;
  ic_usb_flash : usb_link; ic_usb_bb : usb_link; ic_usb_reconfig : usb_link; ic_usb_cd : usb_link;
  ic_mcd_path : list Z; ic_mcd_board : Z; ic_fw : mmgr_fw }.

(** A handle of the library: what its two functions give ([None] for NULL). *)
Record tcs_handle := {
  tcs_get_config : option (list tcs_mdm); tcs_get_mmgr_config : tcs_mdm -> option mmgr_info }.

Definition FAKE_EVENTS_BUILD_TYPE : list Z := bytes "eng".

Section startup.
Context `{Platform}.
Abbreviation IOd := (IO mmgr_data).

(** [mmgr->x = x_init(...)]: the new component, [None] for NULL. *)
Definition fresh {S A} (m : IO (option A) unit) : IO S (option A) :=
  fun s h => match m None h with
             | Done _ o h' => Done o s h'
             | Abort h' => Abort h'
             | Exit h' => Exit h'
             | Undef h' => Undef h'
             end.

(** [ASSERT((mmgr->x = x_init(...)) != NULL)]. *)
Definition init {A} (m : IO (option A) unit) (put : A -> mmgr_data -> mmgr_data) : IOd unit :=
  o ← fresh m; match o with Some x => modify (put x) | None => abort end.

(** core/client_events.c; the table it fills is [hdler_client]. *)
Definition client_events_init (nb_client : Z) : IOd e_mmgr_errors :=
  o ← fresh (clients_init nb_client);
  match o with
  | None => mret E_ERR_FAILED
  | Some c =>
      modify (put_clients c) ;;
      build_type ← property_get_string (bytes "ro.build.type");
      set_cli_req E_CLI_REQ_NONE ;;
      modify (put_fake_requests (bool_decide (build_type = FAKE_EVENTS_BUILD_TYPE))) ;;
      mret E_ERR_SUCCESS
  end.

Definition set_amtl_cfg (mdm_name : list Z) (keys : key_ctx) : IOd unit :=
  amtl_cfg ← property_get_string (k_amtl keys);
  when (bool_decide (amtl_cfg = []))
    (platform ← property_get_string (bytes "ro.board.platform");
     _ ← call (X_property_set (k_amtl keys)
                 (take (PROPERTY_VALUE_MAX - 1) (platform ++ bytes "_XMM_" ++ mdm_name)));
     mret tt).

(** The modules of [mmgr_init], once the configuration is read: [ch] is the first
    channel of the modem.  [modem_events_init] only fills tables of handlers, which
    are functions here. *)
Definition init_modules (debug : bool) (inst_id : Z) (nb : Z) (mdm : tcs_mdm) (ch : channel_cfg)
    (cfg : mmgr_info) : IOd unit :=
  init (key_init inst_id) put_keys ;;
  modify (put_dsda (nb =? 2)) ;;
  let ssic_hack := contains (bytes "ssic") (cstr (lc_device (ml_ctrl (ic_link cfg)))) in
  s ← get;
  init (recov_init (ic_recov cfg) (k_reboot (keys s))) put_reset ;;
  init (secure_init (tm_secured mdm) (cc_secured ch)) put_secur ;;
  init (mcdr_init (ic_mcdr cfg)) put_mcdr ;;
  r ← client_events_init (ic_cli_max cfg);
  ASSERT (succeeded r) ;;
  init (timer_init (ic_recov cfg) (ic_timings cfg) (ic_mcdr_timeout cfg)) put_timer ;;
  init (bus_ev_init (ic_usb_flash cfg) (ic_usb_bb cfg) (ic_usb_reconfig cfg) (ic_usb_cd cfg)) put_bus ;;
  l ← link_init (ic_link cfg) (ic_cd_link cfg) ssic_hack;
  modify (put_mlink l) ;;
  init (mdm_dlc_init (ic_mux cfg) (cc_mmgr ch)) put_dlc ;;
  r ← events_init (ic_cli_max cfg);
  ASSERT (succeeded r) ;;
  init (mdm_mcd_init (ic_mcd_path cfg) (ic_mcd_board cfg) (mi_name (tm_info mdm))
          (mi_flashless (tm_info mdm)) l (negb (nb =? 2)) ssic_hack) put_mcd ;;
  f ← mdm_fw_init debug inst_id (tm_info mdm) (ic_fw cfg);
  match f with
  | None => abort
  | Some f =>
      modify (put_fw f) ;;
      r ← mdm_fw_create_folders f;
      ASSERT (succeeded r) ;;
      s ← get;
      init (mdm_flash_init (mi_name (tm_info mdm)) (ch_mdm_custo (cc_mmgr ch))
              (mi_flashless (tm_info mdm)) f (keys s) l) put_flash ;;
      s ← get;
      set_amtl_cfg (mi_name (tm_info mdm)) (keys s)
  end.

(** [h] is the handle of the telephony configuration. *)
Definition mmgr_init (debug : bool) (h : option tcs_handle) (inst_id : Z) : IOd unit :=
  let mdm_id := int32 (inst_id - 1) in
  match h with
  | None => abort
  | Some h =>
      match tcs_get_config h with
      | None => abort
      | Some cfg =>
          let nb := Z.of_nat (length cfg) in
          ASSERT (1 <=? nb) ;;
          ASSERT (uint32 mdm_id <? nb) ;;
          ASSERT (0 <=? mdm_id) ;;
          match cfg !! Z.to_nat mdm_id with
          | None => undefined
          | Some mdm =>
              ASSERT (0 <? length (mi_tlvs (tm_info mdm)))%nat ;;
              match tm_chs mdm, tcs_get_mmgr_config h mdm with
              | ch :: _, Some mmgr_cfg => init_modules debug inst_id nb mdm ch mmgr_cfg
              | _, _ => abort
              end
          end
      end
  end.

(** * main *)

(** What [getopt] makes of an argument; [Opt_other] is an error. *)
Inductive option_arg := Opt_h | Opt_v | Opt_i (optarg : list Z) | Opt_other.

Definition DEFAULT_INST_ID : Z := 1.

(** [strtol(l, &end_ptr, 10)] as an [int]. *)
Definition strtol (l : list Z) : Z :=
  Z.max (- 2 ^ 31) (Z.min (2 ^ 31 - 1) (default 0 (scan_int l))).

(** The loop over the options; [None] goes to [out]. *)
Fixpoint parse_options (l : list option_arg) (inst_id : Z) : option Z :=
  match l with
  | [] => Some inst_id
  | Opt_i optarg :: l' => parse_options l' (strtol optarg)
  | (Opt_h | Opt_v | Opt_other) :: _ => None
  end.

Definition SIGHUP : Z := 1.
Definition SIGUSR1 : Z := 10.
Definition SIGTERM : Z := 15.
Definition MMGR_UMASK : Z := 0x4b.

Definition catch_signal (sig : Z) : IOd e_mmgr_errors :=
  r ← call (X_sigaction sig); mret (if r =? -1 then E_ERR_FAILED else E_ERR_SUCCESS).

(** [sigemptyset] does not fail. *)
Definition set_signal_handler : IOd e_mmgr_errors :=
  and_then (catch_signal SIGUSR1) (and_then (catch_signal SIGHUP) (catch_signal SIGTERM)).

(** [memset]: the handles are NULL until [mmgr_init] sets them, and nothing reads
    them before; their parts of the record are left as they are. *)
Definition cleared (s : mmgr_data) : mmgr_data :=
  {| epollfd := 0; fd_tty := 0; fd_cnx := 0; dsda := false; cd_retrieved := false;
     state := E_MMGR_MDM_OFF; wakeup_cfg := E_MDM_WAKEUP_UNKNOWN; reset := reset s;
     clients := clients s; timer := timer s; mcdr := mcdr s;
     events := {| nfds := 0; ev := []; cur_ev := 0; ev_state := E_EVENT_IPC; cli_req := 0;
                  link_state := 0 |};
     request := {| req_hdr := {| id := 0; ts := 0; len := 0 |}; req_data := None;
                   req_client := None |};
     secur := secur s; mcd := mcd s; flash := flash s; fw := fw s; dlc := dlc s;
     keys := keys s; mlink := mlink s; bus := bus s; fake_requests := false;
     is_mdm_bb_ready := false |}.

(** [main] up to the loop: whether the loop is entered. *)
Definition start_daemon (debug : bool) (h : option tcs_handle) (opts : list option_arg) : IOd unit :=
  modify cleared ;;
  match parse_options opts DEFAULT_INST_ID with
  | None => exit_
  | Some inst_id =>
      _ ← call (X_umask MMGR_UMASK);
      ret ← set_signal_handler;
      if negb (succeeded ret) then exit_
      else
        err ← call X_atexit;
        if negb (err =? 0) then exit_
        else
          mmgr_init debug h inst_id ;;
          disable_telephony ;;
          ret ← events_start inst_id;
          if negb (succeeded ret) then exit_ else mret tt
  end.

(** [main], for the first [n] turns of the loop. *)
Definition main (debug : bool) (h : option tcs_handle) (opts : list option_arg) (n : nat) : IOd unit :=
  start_daemon debug h opts ;;
  r ← events_manager n false;
  match r with None => exit_ | Some _ => mret tt end.

End startup.

(** * What start-up needs *)

(** The part of the configuration of a working platform: recovery and core dump
    are enabled, the devices of the links and the channels are named. *)
Record config_ok (cfg : mmgr_info) (ch : channel_cfg) : Prop := {
  co_recov : rc_enable (ic_recov cfg) = true;
  co_mcdr : mg_enable (ic_mcdr cfg) = true;
  co_mcdr_path : strlen (mg_path (ic_mcdr cfg)) < 2 ^ 20;
  co_bb : lk_type (ml_baseband (ic_link cfg)) = E_LINK_USB ->
    empty_path (lc_device (ml_ctrl (ic_link cfg))) = false /\
    empty_path (pw_device (ml_power (ic_link cfg))) = false;
  co_cd_usb : cl_type (ic_cd_link cfg) = E_LINK_USB ->
    empty_path (lc_device (cl_ctrl (ic_cd_link cfg))) = false;
  co_cd_uart : cl_type (ic_cd_link cfg) = E_LINK_UART ->
    empty_path (pw_device (cl_power (ic_cd_link cfg))) = false;
  co_channels : Forall (fun l => cstr (in_buffer PATH_MAX l) <> [])
    [ch_sanity_check (cc_mmgr ch); ch_shutdown (cc_mmgr ch); ch_mdm_custo (cc_mmgr ch);
     ch_cd_logs (cc_mmgr ch)] }.

Definition not_read (c : extcall) : bool := match c with X_read _ _ => false | _ => true end.

(** No file has been read yet. *)
Definition unread (h : history) : Prop := Forall (fun c => not_read c = true) h.

(** The platform has what the daemon opens when it starts: the libraries it loads
    with their symbols, its files, folders and users, the hash of the firmware
    (the first file it reads), the USB library, signals and sockets. *)
Class Provisioned `{Civil} : Prop := {
  pv_lib : forall h l, reply h (X_dlopen l) = true;
  pv_symbols : forall h, reply h X_dlerror = false;
  pv_pipe : forall h, is_Some (reply h X_pipe);
  pv_open : forall h p, 0 <= (reply h (X_open p)).1;
  pv_close : forall h fd, reply h (X_close fd) = 0;
  pv_hash : forall h fd, unread h -> exists c l, reply h (X_read fd HASH_SIZE) = inr (c :: l);
  pv_usb : forall h, reply h X_usb_host_init = true;
  pv_mkdir : forall h p, (reply h (X_mkdir p)).1 = 0 \/ (reply h (X_mkdir p)).2 = EEXIST;
  pv_users : forall h u, is_Some (reply h (X_getpwnam u)) /\ is_Some (reply h (X_getgrnam u));
  pv_owner : forall h p u g, reply h (X_chown p u g) = 0 /\ reply h (X_chmod p) = 0;
  pv_signals : forall h sig, reply h (X_sigaction sig) <> -1 /\ reply h X_atexit = 0;
  pv_sockets : forall h fd, 0 <= reply h (X_listen fd);
  pv_epoll : forall h ep fd, reply h X_epoll_create <> CLOSED_FD /\
    reply h (X_epoll_ctl_add ep fd) <> -1 }.

(** * Each module is built *)

Section modules.
Context `{Provisioned}.

Definition built {A} (P : A -> Prop) (m : IO (option A) unit) : Prop :=
  forall h, wp False m (fun _ o _ => exists x, o = Some x /\ P x) None h.

Lemma key_built inst_id : built (fun _ => True) (key_init inst_id).
Proof. intros h. unfold key_init. wp_calls. rewrite civil_alloc. cbn [ASSERT]. wp_calls. by eexists. Qed.

Lemma recov_built recov key : rc_enable recov = true ->
  built (recov_ok (cold_budget recov) (reboot_budget recov)) (recov_init recov key).
Proof.
  intros He h. unfold recov_init. wp_calls. rewrite civil_alloc, He. cbn [ASSERT]. wp_calls.
  eexists. split; [reflexivity|]. unfold recov_ok, cold_budget, reboot_budget, budget. rewrite He.
  split_and!; [by case_match; lia|by case_match; lia| |done].
  cbn. unfold table. by destruct (0 <? rc_reboot recov) eqn:E; cbn; rewrite ?E.
Qed.

Lemma secure_built enabled device : built sec_inv (secure_init enabled device).
Proof.
  intros h. unfold secure_init. wp_calls. rewrite civil_alloc. cbn [negb].
  assert (Hi : forall d l, sec_inv {| sec_enable := enabled; sec_dlc := d; sec_fd := CLOSED_FD;
    sec_lib := l; send_queue := []; nb_of_msgs := 0; err_msg := None |}).
  { intros. split; [by split|by left]. }
  destruct enabled; wp_calls; [|by eexists].
  rewrite pv_lib. cbn [negb]. wp_calls. rewrite pv_symbols. wp_calls. by eexists.
Qed.

Lemma mcdr_built cfg : mg_enable cfg = true -> strlen (mg_path cfg) < 2 ^ 20 ->
  built mcdr_ok (mcdr_init cfg).
Proof.
  intros He Hp h. unfold mcdr_init. wp_calls. rewrite civil_alloc, He. cbn [ASSERT negb]. wp_calls.
  rewrite pv_lib. cbn [negb]. wp_calls. rewrite pv_symbols. cbn [negb ASSERT]. wp_calls.
  match goal with |- context [reply ?h X_pipe] => destruct (pv_pipe h) as [p ->] end.
  wp_simp. eexists. split; [reflexivity|]. by split.
Qed.

Lemma slots_built n s h :
  wp False (init_slots n) (fun l s' _ => s' = s /\ length l = n /\
    Forall (fun c => cfd c = CLOSED_FD /\ name c = NEW_CLIENT_NAME) l) s h.
Proof.
  revert h. induction n as [|n IH]; intros h; cbn [init_slots]; [done|].
  unfold init_client. wp_calls. eapply wp_mono; [apply IH|]. cbv beta.
  intros l s' h' (-> & <- & Hl). wp_simp. split_and!; [done..|]. by constructor.
Qed.

Lemma clients_built n : 0 <= n -> built (cli_ok (Z.to_nat n)) (clients_init n).
Proof.
  intros Hn h. unfold clients_init. wp_calls. rewrite civil_alloc. wp_calls. rewrite civil_alloc.
  wp_simp. eapply wp_mono; [apply slots_built|]. cbv beta. intros l s' h' (-> & Hlen & Hl). wp_simp.
  eexists. split; [reflexivity|]. split; [split; [|done]|].
  - unfold clients_wf. cbn [connected clist]. symmetry. change 0 with (Z.of_nat 0). f_equal.
    clear -Hl. unfold count, open. induction Hl as [|c l [Hc _] Hl IH]; cbn; [done|]. by rewrite Hc.
  - unfold names_ok. cbn [clist]. eapply Forall_impl; [|exact Hl]. cbn. intros c [_ ->].
    by apply Z.leb_le.
Qed.

Lemma timer_built recov timings t : built (fun _ => True) (timer_init recov timings t).
Proof. intros h. unfold timer_init. wp_calls. rewrite civil_alloc. by eexists. Qed.

Lemma bus_built flash bb reconfig cd : built (fun _ => True) (bus_ev_init flash bb reconfig cd).
Proof.
  intros h. unfold bus_ev_init. wp_calls. rewrite civil_alloc. cbn [negb].
  case_match; [|wp_simp; by eexists]. wp_calls. rewrite pv_usb. cbn [negb]. wp_simp. wp_calls.
  eapply wp_mono with (Q := fun _ _ _ => True).
  - unfold bus_callbacks. apply callbacks_total.
  - cbv beta. intros _ b h' _. apply wp_bind. eapply wp_mono; [apply bus_handle_total|]. cbv beta.
    intros ? b' h'' _. wp_simp. by eexists.
Qed.

Lemma usb_named (t t' : e_link) b : (t = t' -> b = false) -> bool_decide (t = t') && b = false.
Proof. intros Hb. case_bool_decide; [by rewrite Hb|done]. Qed.

Lemma link_built hack cfg ch (s : mmgr_data) h : config_ok cfg ch ->
  wp False (link_init (ic_link cfg) (ic_cd_link cfg) hack) (fun _ s' _ => s' = s) s h.
Proof.
  intros Hc. unfold link_init, ctrl_init, pm_init. wp_calls. rewrite civil_alloc. cbn [ASSERT].
  wp_calls. rewrite civil_alloc.
  rewrite !(usb_named (lk_type _)) by (intros E; by apply (co_bb _ _ Hc)).
  rewrite (usb_named (cl_type _) E_LINK_USB) by (apply (co_cd_usb _ _ Hc)).
  rewrite (usb_named (cl_type _) E_LINK_UART) by (apply (co_cd_uart _ _ Hc)).
  wp_calls. rewrite civil_alloc. by wp_calls.
Qed.

Lemma dlc_built cfg ch mux : config_ok cfg ch -> built (fun _ => True) (mdm_dlc_init mux (cc_mmgr ch)).
Proof.
  intros Hc h. unfold mdm_dlc_init. wp_calls. rewrite civil_alloc. cbn [ASSERT]. wp_calls.
  pose proof (co_channels _ _ Hc) as Hl. rewrite !Forall_cons_iff in Hl.
  destruct Hl as (? & ? & ? & ? & _). rewrite !bool_decide_eq_false_2 by done. by eexists.
Qed.

Lemma mcd_built path board nm fls l off hack :
  built (fun _ => True) (mdm_mcd_init path board nm fls l off hack).
Proof.
  intros h. unfold mdm_mcd_init, mdm_mcd_configure, mcd_ioctl. wp_calls. rewrite civil_alloc.
  cbn [ASSERT]. wp_calls.
  rewrite (proj2 (Z.eqb_neq _ (-1))) by
    (match goal with |- (reply ?h (X_open ?p)).1 <> _ => pose proof (pv_open h p) end; lia).
  wp_calls. by eexists.
Qed.

(** A debug build finds its certificate. *)
Definition fw_ok (f : mdm_fw) : Prop :=
  is_Some (fw_dbg f) /\ is_Some (rnd_path f) /\
  Forall (fun t => strlen t < MMGR_CLI_MAX_RECOVERY_CAUSE_LEN) (fw_tlvs f).

Lemma compute_path_built {S} folder file (s : S) h :
  wp False (mdm_fw_compute_path folder file) (fun _ s' _ => s' = s) s h.
Proof. unfold mdm_fw_compute_path. wp_calls. rewrite civil_alloc. cbn [ASSERT]. by wp_calls. Qed.

Ltac path_step := apply wp_bind; eapply wp_mono; [apply compute_path_built|]; cbv beta; intros ? ? ? ->.

Lemma fw_built inst_id mdm cfg (s : mmgr_data) h :
  (forall h, reply h (X_stat_isdir (cfg_input cfg)) = true) ->
  wp False (mdm_fw_init true inst_id mdm cfg)
    (fun o s' _ => s' = s /\ exists f, o = Some f /\ fw_ok f) s h.
Proof.
  intros Hin. unfold mdm_fw_init, folder_exist. wp_call. rewrite civil_alloc. cbn [ASSERT].
  apply wp_bind, wp_ret. wp_call. rewrite Hin. cbn [negb]. apply wp_bind.
  eapply wp_mono with (Q := fun ok s' _ => ok = true /\ s' = s).
  { case_match; [|done]. split; [apply civil_alloc|done]. }
  cbv beta. intros ok s1 h1 [-> ->]. cbn [ASSERT]. apply wp_bind, wp_ret.
  do 4 path_step. unfold mdm_fw_dbg_init. apply wp_bind. wp_call. rewrite civil_alloc. cbn [ASSERT].
  apply wp_bind, wp_ret. do 3 path_step. wp_simp. split; [done|]. eexists. split; [reflexivity|].
  split_and!; [by eexists|by eexists|]. cbn [fw_tlvs]. apply Forall_map, Forall_true. intros t.
  pose proof civil_tlv. unfold strlen, MMGR_CLI_MAX_RECOVERY_CAUSE_LEN in *. rewrite length_take. lia.
Qed.

Lemma hash_read {S} path (s : S) h : unread h ->
  wp False (file_read path HASH_SIZE) (fun r s' _ => s' = s /\ r.1 = E_ERR_SUCCESS) s h.
Proof.
  intros Hu. unfold file_read. wp_call.
  rewrite (proj2 (Z.ltb_ge _ 0)) by apply pv_open. change (0 <? HASH_SIZE) with true. cbv iota.
  wp_call. destruct (pv_hash (X_open path :: h) (reply h (X_open path)).1) as (c & l & E);
    [by constructor|]. rewrite E. wp_call. rewrite pv_close.
  change (0 =? 0) with true. cbn [length andb].
  rewrite (proj2 (Z.ltb_lt 0 _)) by lia. by wp_simp.
Qed.

Lemma flash_built nm dlc fls f k l h : fw_ok f -> unread h ->
  wp False (mdm_flash_init nm dlc fls f k l) (fun _ o _ => exists x, o = Some x /\ flash_ok x) None h.
Proof.
  intros ([d Hd] & [rnd Hr] & Ht) Hu. unfold mdm_flash_init, mdm_mup_init. wp_call.
  rewrite civil_alloc. cbn [ASSERT]. apply wp_bind, wp_ret. rewrite Hr, Hd. apply wp_bind. wp_call.
  rewrite civil_alloc. cbn [ASSERT]. apply wp_bind, wp_ret. wp_call. rewrite pv_lib. cbn [ASSERT].
  apply wp_bind, wp_ret. wp_call. rewrite pv_symbols. apply wp_ret, wp_bind.
  eapply wp_mono; [apply hash_read; by repeat constructor|]. cbv beta.
  intros [ret blob] ? h1 [-> Hs]. cbn [fst] in Hs. subst ret. cbn [succeeded]. cbn [ASSERT].
  apply wp_bind, wp_ret. unfold property_get_string. apply wp_bind. wp_call. apply wp_ret, wp_bind.
  eapply wp_mono with (Q := fun _ s' _ => s' = None); [case_match; by wp_calls|]. cbv beta.
  intros c ? h2 ->. apply wp_bind. eapply wp_mono with (Q := fun _ s' _ => s' = None).
  - apply wp_when. case_match; [|done]. wp_call. apply wp_bind.
    eapply wp_mono; [apply dia_remove, civil_files|]. cbv beta. by intros ? ? ? (-> & _).
  - cbv beta. intros _ ? h3 ->. wp_call. destruct (pv_pipe h3) as [p ->]. by eexists.
Qed.

End modules.

(** * The composition *)

Section compose.
Context `{Provisioned}.

Lemma unread_extends h h' : extends not_read h h' -> unread h -> unread h'.
Proof. intros (k & -> & Hk) Hu. by apply Forall_app. Qed.

(** The part of start-up before the first file is read. *)
Lemma op_seq {A B} (R : A -> mmgr_data -> Prop) (m : IO mmgr_data A) (k : A -> IO mmgr_data B) Q s h :
  wp False m (fun a s' _ => R a s') s h -> within anyS not_read m -> unread h ->
  (forall a s' h', R a s' -> unread h' -> wp False (k a) Q s' h') -> wp False (m ≫= k) Q s h.
Proof.
  intros Hm Hw Hu Hk. apply wp_bind. eapply wp_mono; [eapply wp_within; [exact Hw|exact Hm]|].
  cbv beta. intros a s' h' (HR & _ & Hx). apply Hk; [done|]. by eapply unread_extends.
Qed.

Lemma init_wp {A} (P : A -> Prop) m (put : A -> mmgr_data -> mmgr_data) s h :
  wp False m (fun _ o _ => exists x, o = Some x /\ P x) None h ->
  wp False (init m put) (fun _ s' _ => exists x, s' = put x s /\ P x) s h.
Proof.
  intros Hm. unfold init. apply wp_bind. unfold fresh, wp in *. destruct (m None h); try done.
  destruct Hm as (x & -> & Hx). by exists x.
Qed.

Lemma w_fresh {S A} (m : IO (option A) unit) :
  within anyS not_read m -> within (@anyS S) not_read (fresh m).
Proof. intros Hm s h. specialize (Hm None h). unfold fresh. by destruct (m None h). Qed.

Lemma w_slots n : within anyS not_read (init_slots n).
Proof. induction n as [|n IH]; cbn [init_slots]; within_auto. Qed.

Lemma w_events f : within anyS not_read (on_events (modify f)).
Proof. intros s h. split; [done|apply extends_refl]. Qed.

Lemma w_cli_req x : within anyS not_read (set_cli_req x).
Proof. apply w_events. Qed.

#[local] Hint Resolve w_events w_cli_req : within.

Lemma w_client_events n : within anyS not_read (client_events_init n).
Proof.
  unfold client_events_init. apply (within_bind anyS not_read); [|within_auto].
  apply w_fresh. unfold clients_init. pose proof w_slots. within_auto.
Qed.

Lemma w_bus f b r c : within anyS not_read (bus_ev_init f b r c).
Proof.
  assert (Hl : forall l, within anyS not_read (hdle_events_loop l E_ERR_FAILED)).
  { intros l. generalize E_ERR_FAILED. induction l as [|e l IH]; intros ret; cbn [hdle_events_loop]; within_auto. }
  assert (Hz : forall b0 : bus_ev, within anyS not_read (zoom (default b0) (fun b' _ => Some b')
    (l ← call X_usb_host_load; bus_callbacks l ;; _ ← bus_ev_hdle_events; mret tt))).
  { intros b0. apply (within_zoom anyS not_read); [done|]. within_auto. }
  within_auto.
Qed.

Lemma w_init {A} m (put : A -> mmgr_data -> mmgr_data) :
  within anyS not_read m -> within anyS not_read (init m put).
Proof.
  intros Hm. unfold init. apply (within_bind anyS not_read).
  - by apply w_fresh.
  - intros [x|]; [by apply within_modify|apply within_abort].
Qed.

Lemma init_seq {A B} (P : A -> Prop) m put (k : IO mmgr_data B) Q s h :
  built (A := A) P m -> within anyS not_read m -> unread h ->
  (forall x h', P x -> unread h' -> wp False k Q (put x s) h') -> wp False (init m put ;; k) Q s h.
Proof.
  intros Hm Hw Hu Hk. eapply op_seq; [apply init_wp, Hm|by apply w_init|done|]. cbv beta.
  intros _ s' h' (x & -> & Hx) Hu'. by apply Hk.
Qed.

Lemma client_events_wp n s h : 0 <= n ->
  wp False (client_events_init n) (fun r s' _ => r = E_ERR_SUCCESS /\
    exists c f, cli_ok (Z.to_nat n) c /\
      s' = put_fake_requests f (put_events (put_cli_req E_CLI_REQ_NONE (events s)) (put_clients c s))) s h.
Proof.
  intros Hn. unfold client_events_init. apply wp_bind. pose proof (clients_built n Hn h) as Hc.
  unfold wp, fresh in *. destruct (clients_init n None h) as [[] o h1| | |]; try done.
  destruct Hc as (c & -> & Hc). unfold property_get_string, set_cli_req, on_events. run_calls.
  split; [done|]. by exists c, (bool_decide (take (PROPERTY_VALUE_MAX - 1)
    (cstr (reply h1 (X_property_get (bytes "ro.build.type") []))) = FAKE_EVENTS_BUILD_TYPE)).
Qed.

Lemma events_init_wp n s h :
  wp False (events_init n) (fun r s' _ => r = E_ERR_SUCCESS /\
    exists e, ev_ok e /\ s' = put_events e (put_epollfd CLOSED_FD (put_fd_cnx CLOSED_FD
      (put_fd_tty CLOSED_FD s)))) s h.
Proof.
  unfold events_init, on_events. wp_simp. wp_calls. rewrite civil_alloc. cbn [negb]. wp_simp.
  split; [done|]. exists (put_cur_ev FIRST_EVENT (put_nfds 0 (events s))). split; [|by destruct s].
  split; cbn; unfold FIRST_EVENT; lia.
Qed.

Lemma folder_created path (s : mmgr_data) h :
  wp False (folder_create path) (fun r s' _ => r = 0 /\ s' = s) s h.
Proof.
  unfold folder_create. wp_call. pose proof (pv_mkdir h path) as Hm.
  destruct (reply h (X_mkdir path)) as [r e]. cbn [fst snd] in Hm.
  destruct (Z.eqb_spec r 0) as [->|Hr]; cbn [negb].
  - wp_call. destruct (pv_users (X_mkdir path :: h) SYSTEM_USER) as [[uid ->] _]. wp_call.
    match goal with |- context [reply ?h (X_getgrnam ?u)] =>
      destruct (pv_users h u) as [_ [gid ->]] end. wp_call.
    rewrite (proj1 (pv_owner _ _ _ _)). cbn [Z.eqb negb]. wp_call.
    by rewrite (proj2 (pv_owner _ _ 0 0)).
  - destruct Hm as [ | -> ]; [done|]. by rewrite bool_decide_eq_true_2.
Qed.

Lemma folders_created f (s : mmgr_data) h :
  wp False (mdm_fw_create_folders f) (fun r s' _ => r = E_ERR_SUCCESS /\ s' = s) s h.
Proof.
  unfold mdm_fw_create_folders. destruct (fw_flashless f); [|done].
  do 2 (apply wp_bind; eapply wp_mono; [apply folder_created|]; cbv beta; intros ? ? ? [-> ->]).
  unfold mdm_fw_prepare_calib, file_exist, file_copy. destruct (mdm_fw_get_calib_files f) as [run bkup].
  wp_calls. destruct (reply _ (X_stat_isreg run)); cbn [negb when]; wp_calls; [done|].
  repeat first [done | progress wp_calls | case_match].
Qed.

Lemma amtl_wp nm k (s : mmgr_data) h : wp False (set_amtl_cfg nm k) (fun _ s' _ => s' = s) s h.
Proof. unfold set_amtl_cfg, property_get_string. wp_calls. destruct (bool_decide _); by wp_calls. Qed.

Lemma init_modules_wp inst_id nb mdm ch cfg s h :
  config_ok cfg ch -> 0 <= ic_cli_max cfg -> unread h -> state s <> E_MMGR_NUM ->
  (forall h, reply h (X_stat_isdir (cfg_input (ic_fw cfg))) = true) ->
  wp False (init_modules true inst_id nb mdm ch cfg) (fun _ s' _ =>
    inv (Z.to_nat (ic_cli_max cfg)) (cold_budget (ic_recov cfg)) (reboot_budget (ic_recov cfg)) None s')
    s h.
Proof.
  intros Hc Hn Hu Hst Hin. unfold init_modules.
  eapply init_seq; [apply key_built|within_auto|done|]. intros k1 h1 _ Hu1.
  apply wp_bind, wp_modify. cbv zeta. apply wp_bind, wp_get.
  eapply init_seq; [apply recov_built, Hc|within_auto|done|]. intros rs h2 Hrs Hu2.
  eapply init_seq; [apply secure_built|within_auto|done|]. intros sec h3 Hsec Hu3.
  eapply init_seq; [apply mcdr_built; apply Hc|within_auto|done|]. intros cd h4 Hcd Hu4.
  eapply op_seq; [by apply client_events_wp|apply w_client_events|done|]. cbv beta.
  intros ? ? h5 (-> & c & fake & Hcl & ->) Hu5. cbn [succeeded]. cbn [ASSERT]. apply wp_bind, wp_ret.
  eapply init_seq; [apply timer_built|within_auto|done|]. intros tm h6 _ Hu6.
  eapply init_seq; [apply bus_built|apply w_bus|done|]. intros b h7 _ Hu7.
  eapply op_seq; [by eapply link_built|within_auto|done|]. cbv beta. intros l ? h8 -> Hu8.
  apply wp_bind, wp_modify.
  eapply init_seq; [by eapply dlc_built|within_auto|done|]. intros d h9 _ Hu9.
  eapply op_seq; [apply events_init_wp|within_auto|done|]. cbv beta.
  intros ? ? h10 (-> & e & He & ->) Hu10. cbn [succeeded]. cbn [ASSERT]. apply wp_bind, wp_ret.
  eapply init_seq; [apply mcd_built|within_auto|done|]. intros m h11 _ Hu11.
  eapply op_seq; [by apply fw_built|within_auto|done|]. cbv beta.
  intros ? ? h12 (-> & f & -> & Hf) Hu12. apply wp_bind, wp_modify.
  eapply op_seq; [apply folders_created|within_auto|done|]. cbv beta.
  intros ? ? h13 (-> & ->) Hu13. cbn [succeeded]. cbn [ASSERT]. apply wp_bind, wp_ret.
  apply wp_bind, wp_get, wp_bind. eapply wp_mono; [apply init_wp, flash_built; done|]. cbv beta.
  intros _ ? h14 (fl & -> & Hfl). apply wp_bind, wp_get.
  eapply wp_mono; [apply amtl_wp|]. cbv beta. intros _ ? h15 ->. by split.
Qed.

(** ** The rest of [main] *)

Context (n : nat) (c r : Z).

(** The invariant, in a given state with a given escalation. *)
Definition at_state (st : e_mmgr_state * reset_management) (s : mmgr_data) : Prop :=
  inv n c r None s /\ (state s, reset s) = st.

Definition succeeds (st : e_mmgr_state * reset_management) (m : IO mmgr_data e_mmgr_errors) : Prop :=
  forall s h, at_state st s -> wp False m (fun ret s' _ => ret = E_ERR_SUCCESS /\ at_state st s') s h.

Lemma succeeds_then st m k : succeeds st m -> succeeds st k -> succeeds st (and_then m k).
Proof.
  intros Hm Hk s h Hs. unfold and_then. apply wp_bind. eapply wp_mono; [by apply Hm|]. cbv beta.
  intros ? s' h' [-> Hs']. by apply Hk.
Qed.

Lemma succeeds_put st (m : IO mmgr_data (e_mmgr_errors * Z)) f :
  (forall s h, wp False m (fun x s' _ => x.1 = E_ERR_SUCCESS /\ s' = s) s h) ->
  (forall x s, at_state st s -> at_state st (f x s)) ->
  succeeds st ('(ret, fd) ← m; modify (f fd) ;; mret ret).
Proof.
  intros Hm Hf s h Hs. apply wp_bind. eapply wp_mono; [apply Hm|]. cbv beta.
  intros [ret fd] ? h' [E ->]. cbn [fst] in E. apply wp_bind, wp_modify, wp_ret. split; [done|by apply Hf].
Qed.

Lemma succeeds_listen st (fd : IO mmgr_data Z) :
  (forall s h, at_state st s -> wp False fd (fun _ s' _ => at_state st s') s h) ->
  succeeds st (listen_to fd).
Proof.
  intros Hf s h Hs. unfold listen_to, tty_listen_fd. apply wp_bind. eapply wp_mono; [by apply Hf|].
  cbv beta. intros x s' h' Hs'. apply wp_bind, wp_get. wp_call.
  rewrite (proj2 (Z.eqb_neq _ _)) by apply (pv_epoll _ (epollfd s')). by apply wp_ret.
Qed.

Lemma at_zoom {S A} st (pr : mmgr_data -> S) up (m : IO S A) s h :
  (forall s, up (pr s) s = s) -> (forall x h, wp False m (fun _ x' _ => x' = x) x h) ->
  at_state st s -> wp False (zoom pr up m) (fun _ s' _ => at_state st s') s h.
Proof.
  intros Hu Hm Hs. apply wp_zoom. eapply wp_mono; [apply Hm|]. cbv beta. intros ? ? ? ->. by rewrite Hu.
Qed.

Lemma events_start_wp st inst_id : succeeds st (events_start inst_id).
Proof.
  assert (Hz : forall S A (pr : mmgr_data -> S) up (f : S -> A) s (h : history),
    (forall s, up (pr s) s = s) -> at_state st s ->
    wp False (zoom pr up (gets f)) (fun _ s' _ => at_state st s') s h).
  { intros. by apply at_zoom. }
  unfold events_start. repeat apply succeeds_then.
  - apply succeeds_put.
    + intros s h. unfold cnx_open. wp_calls. split; [|done].
      by rewrite (proj2 (Z.ltb_ge _ 0)) by apply pv_sockets.
    + intros x s [[] Hst]. by split; [split|].
  - apply succeeds_put.
    + intros s h. unfold tty_init_listener. wp_calls. split; [|done].
      by rewrite (proj2 (Z.eqb_neq _ _)) by apply (pv_epoll _ 0 0).
    + intros x s [[] Hst]. by split; [split|].
  - apply succeeds_listen. by intros s h Hs.
  - apply succeeds_listen. intros. apply Hz; [by intros []|done].
  - apply succeeds_listen. intros. apply Hz; [by intros []|done].
  - intros s h Hs. apply wp_bind. eapply wp_mono; [apply Hz; [by intros []|done]|]. cbv beta.
    intros [] s' h' Hs'; [|done]. apply succeeds_listen; [|done].
    intros. apply Hz; [by intros []|done].
  - intros s h Hs. apply wp_bind, wp_get. destruct (_ || _ || _); [|done].
    apply succeeds_then; [| |done].
    + intros s1 h1 [[] Hst]. unfold bus_ev_start, on_bus. wp_calls. split; [done|]. by split; [split|].
    + apply succeeds_listen. intros. apply Hz; [by intros []|done].
  - intros s h [Hs Hst]. apply wp_bind, wp_get, wp_bind, wp_when.
    destruct (negb _); [|by split]. unfold link_add, get_link_state, set_link_state, on_events.
    wp_simp. split; [done|]. split; [|done]. destruct Hs as [? ? ? ? ? ? []]. by split.
Qed.

(** Where the telephony switch leaves the daemon. *)
Definition first_state (s : mmgr_data) : Prop :=
  state s = E_MMGR_MDM_OFF \/ (state s = E_MMGR_MDM_RESET /\ op (reset s) = E_FORCE_OOS).

Lemma disable_telephony_wp s h : inv n c r None s ->
  wp False disable_telephony (fun _ s' _ => inv n c r None s' /\ first_state s') s h.
Proof.
  intros Hs. unfold disable_telephony, property_get_int. apply wp_bind. wp_call.
  assert (Hk : forall st, st <> E_MMGR_NUM -> forall o, inv n c r None (put_state st
    (put_reset (set_op o (reset s)) s)) /\ inv n c r None (put_state st s)).
  { intros st Hst o. destruct Hs as [? (? & ? & ? & ?)]. by split; split. }
  match goal with |- wp False (match ?x with _ => _ end) _ _ _ => destruct x as [off|] end;
    apply wp_ret; [destruct (off =? 1)|]; cbn [Z.eqb];
    unfold force_recovery, recov_force, on_reset, set_mmgr_state; wp_simp.
  - split; [by apply Hk|by right].
  - split; [by apply (Hk E_MMGR_MDM_OFF ltac:(done) E_FORCE_OOS)|by left].
  - split; [by apply (Hk E_MMGR_MDM_OFF ltac:(done) E_FORCE_OOS)|by left].
Qed.

End compose.

(** * The start of the daemon *)

(** The configuration [t] has the instance [inst_id]: its modem, the first
    channel of it and the configuration of the daemon for it. *)
Record selects `{Platform} (t : tcs_handle) (inst_id : Z) (ch : channel_cfg) (cfg : mmgr_info) : Prop := {
  se_id : 1 <= inst_id < 2 ^ 31;
  se_modem : exists cfgs mdm chs, tcs_get_config t = Some cfgs /\
    cfgs !! Z.to_nat (inst_id - 1) = Some mdm /\ mi_tlvs (tm_info mdm) <> [] /\
    tm_chs mdm = ch :: chs /\ tcs_get_mmgr_config t mdm = Some cfg;
  se_config : config_ok cfg ch;
  se_clients : 0 <= ic_cli_max cfg;
  se_folder : forall h, reply h (X_stat_isdir (cfg_input (ic_fw cfg))) = true }.

Section daemon.
Context `{Provisioned}.
Variables (t : tcs_handle) (opts : list option_arg) (inst_id : Z) (ch : channel_cfg) (cfg : mmgr_info).
Hypotheses (Hopts : parse_options opts DEFAULT_INST_ID = Some inst_id) (Ht : selects t inst_id ch cfg).

Definition started (s : mmgr_data) : Prop :=
  inv (Z.to_nat (ic_cli_max cfg)) (cold_budget (ic_recov cfg)) (reboot_budget (ic_recov cfg)) None s.

Lemma mmgr_init_wp s h : unread h -> state s <> E_MMGR_NUM ->
  wp False (mmgr_init true (Some t) inst_id) (fun _ s' _ => started s') s h.
Proof.
  intros Hu Hst. destruct Ht as [Hid (cfgs & mdm & chs & Ec & Em & Htl & Ech & Ei) Hc Hn Hin].
  unfold mmgr_init. rewrite Ec. replace (int32 (inst_id - 1)) with (inst_id - 1)
    by (symmetry; apply int32_id; lia).
  pose proof (lookup_lt_Some _ _ _ Em) as Hlt. rewrite uint32_id by lia.
  rewrite (proj2 (Z.leb_le 1 _)), (proj2 (Z.ltb_lt (inst_id - 1) _)), (proj2 (Z.leb_le 0 _)) by lia.
  cbn [ASSERT]. do 3 apply wp_bind, wp_ret. rewrite Em.
  rewrite (proj2 (Nat.ltb_lt 0 _)) by (destruct (mi_tlvs (tm_info mdm)); cbn; [done|lia]).
  cbn [ASSERT]. apply wp_bind, wp_ret. rewrite Ech, Ei. by apply init_modules_wp.
Qed.

Lemma signals_set (s : mmgr_data) h :
  wp False set_signal_handler (fun r s' h' => r = E_ERR_SUCCESS /\ s' = s /\ (unread h -> unread h')) s h.
Proof.
  assert (Hc : forall sig h, wp False (catch_signal sig)
    (fun r s' h' => r = E_ERR_SUCCESS /\ s' = s /\ h' = X_sigaction sig :: h) s h).
  { intros sig h0. unfold catch_signal. wp_call. apply wp_ret.
    by rewrite (proj2 (Z.eqb_neq _ _)) by apply pv_signals. }
  unfold set_signal_handler, and_then.
  do 2 (apply wp_bind; eapply wp_mono; [apply Hc|]; cbv beta; intros ? ? ? (-> & -> & ->); cbn [succeeded]).
  eapply wp_mono; [apply Hc|]. cbv beta. intros ? ? ? (-> & -> & ->).
  split_and!; [done..|]. intros. by repeat constructor.
Qed.

Lemma start_daemon_wp s h : unread h ->
  wp False (start_daemon true (Some t) opts) (fun _ s' _ => started s' /\ first_state s') s h.
Proof.
  intros Hu. unfold start_daemon. apply wp_bind, wp_modify. rewrite Hopts. wp_call. apply wp_bind.
  eapply wp_mono; [apply signals_set|]. cbv beta. intros ? s1 h1 (-> & -> & Hu1).
  change (negb (succeeded E_ERR_SUCCESS)) with false. cbv iota. wp_call.
  rewrite (proj2 (pv_signals _ 0)). cbn [Z.eqb negb]. apply wp_bind.
  eapply wp_mono; [apply mmgr_init_wp; [constructor; [done|apply Hu1; by constructor]|done]|]. cbv beta.
  intros _ s2 h2 Hs2. apply wp_bind. eapply wp_mono; [by apply disable_telephony_wp|]. cbv beta.
  intros _ s3 h3 [Hs3 Hf]. apply wp_bind. eapply wp_mono; [eapply events_start_wp; by split|]. cbv beta.
  intros ? s4 h4 (-> & Hs4 & E). cbn [succeeded]. apply wp_ret. split; [done|].
  unfold first_state in *. injection E as -> ->. exact Hf.
Qed.

End daemon.

(** * Without [MMGR_DEBUG] *)

Section production.
Context `{Platform}.

(** [m] does not return. *)
Definition never {S A} (m : IO S A) : Prop :=
  forall s h, match m s h with Done _ _ _ => False | _ => True end.

Lemma never_then {S A B} (m : IO S A) (k : A -> IO S B) : (forall a, never (k a)) -> never (m ≫= k).
Proof. intros Hk s h. unfold mbind, M_bind. destruct (m s h) as [a s' h'| | |]; [apply Hk|done..]. Qed.

Lemma never_before {S A B} (m : IO S A) (k : A -> IO S B) : never m -> never (m ≫= k).
Proof. intros Hm s h. specialize (Hm s h). unfold mbind, M_bind. by destruct (m s h). Qed.

(** A value all results of [m] satisfy. *)
Lemma never_bind {S A B} (P : A -> Prop) (m : IO S A) (k : A -> IO S B) :
  (forall s h, match m s h with Done a _ _ => P a | _ => True end) ->
  (forall a, P a -> never (k a)) -> never (m ≫= k).
Proof.
  intros Hm Hk s h. specialize (Hm s h). unfold mbind, M_bind. destruct (m s h); [by apply Hk|done..].
Qed.

Lemma mup_never nm dlc : never (S := option mdm_flash_ctx) (mdm_mup_init nm dlc None).
Proof. unfold mdm_mup_init. by apply never_then. Qed.

Lemma init_never {A} m (put : A -> mmgr_data -> mmgr_data) : never m -> never (init m put).
Proof.
  intros Hm. apply never_before. intros s h. specialize (Hm None h). unfold fresh.
  by destruct (m None h).
Qed.

Lemma fw_without_cert inst_id mdm cfg (s : mmgr_data) h :
  match mdm_fw_init false inst_id mdm cfg s h with
  | Done o _ _ => forall f, o = Some f -> rnd_path f = None
  | _ => True
  end.
Proof.
  assert (Hb : forall A B (m : IO mmgr_data A) (k : A -> IO mmgr_data B) (Q : B -> Prop),
    (forall a s h, match k a s h with Done o _ _ => Q o | _ => True end) ->
    forall s h, match (m ≫= k) s h with Done o _ _ => Q o | _ => True end).
  { intros A B m k Q Hk s0 h0. unfold mbind, M_bind. destruct (m s0 h0); [apply Hk|done..]. }
  revert s h. unfold mdm_fw_init. do 3 (apply Hb; intros ?). destruct (negb _); [done|].
  do 6 (apply Hb; intros ?). intros s h. cbn [mdm_fw_dbg_init]. run_simp. by intros f [= <-].
Qed.

Theorem production_never_starts h inst_id : never (mmgr_init false h inst_id).
Proof.
  unfold mmgr_init. destruct h as [t|]; [|done]. destruct (tcs_get_config t) as [cfg|]; [|done].
  do 3 (apply never_then; intros ?). destruct (cfg !! _) as [mdm|]; [|done].
  apply never_then. intros ?. destruct (tm_chs mdm) as [|ch chs]; [done|].
  destruct (tcs_get_mmgr_config t mdm) as [i|]; [|done]. unfold init_modules.
  do 2 (apply never_then; intros ?). cbv zeta. apply never_then. intros s0.
  do 3 (apply never_then; intros ?). apply never_then. intros ?. do 3 (apply never_then; intros ?).
  apply never_then. intros l. do 2 (apply never_then; intros ?). apply never_then. intros ?.
  do 2 (apply never_then; intros ?). eapply never_bind; [apply fw_without_cert|]. cbv beta.
  intros [f|] Hf; [|done]. apply never_then. intros ?. apply never_then. intros ?.
  apply never_then. intros ?. apply never_then. intros s1. apply never_before, init_never.
  unfold mdm_flash_init. do 2 (apply never_then; intros ?). rewrite (Hf f eq_refl).
  apply never_before, mup_never.
Qed.

Lemma main_never h opts n : never (main false h opts n).
Proof.
  apply never_before. unfold start_daemon. apply never_then. intros ?.
  destruct (parse_options _ _) as [inst_id|]; [|done]. apply never_then. intros ?.
  apply never_then. intros ret. destruct (negb _); [done|]. apply never_then. intros err.
  destruct (negb _); [done|]. apply never_before, production_never_starts.
Qed.

End production.

(** * The daemon starts *)

(** C7.  Built with MMGR_DEBUG, the daemon starts and runs; built without, [main]
    never gets to its loop, because the path of the RND certificate stays NULL and
    the flashing module asserts that it is not.
    The first half is stated of a platform that has all the daemon opens
    ([Provisioned]: the libraries load with their symbols, the pipe, files,
    sockets and epoll descriptors open, the hash of the firmware can be read,
    the folders, users and signals are there, the USB library initialises) and
    behaves as [Civil] asks (memory does not run out, and the rest listed at
    daemon_never_undefined), and of a configuration that selects a modem with a
    TLV and a channel, enables the recovery and the core dump, and names the
    channels and, for links by USB or UART, their devices.  Then [main]
    initialises every module in its order, reads the switch of the telephony and
    starts its event sources without failing an assertion or leaving: the state
    satisfies the invariant of the loop, with as many client slots and as many
    recoveries as configured, and the modem is off, or on its way out of service
    if the telephony is switched off.  Any number of turns of the loop then run
    without undefined behaviour and keep the invariant, unless an assertion fails
    or the daemon leaves. *)
Theorem daemon_starts `{Provisioned} t opts inst_id ch cfg s :
  parse_options opts DEFAULT_INST_ID = Some inst_id -> selects t inst_id ch cfg ->
  wp False (start_daemon true (Some t) opts)
    (fun _ s' _ => started cfg s' /\ first_state s') s [] /\
  (forall n, safely (main true (Some t) opts n s []) (fun _ s' => started cfg s')) /\
  (forall n, never (main false (Some t) opts n)).
Proof.
  intros Ho Ht. apply and_assoc. split; [|intros n; apply main_never]. pose proof (start_daemon_wp t opts inst_id ch cfg Ho Ht s []) as Hs.
  specialize (Hs ltac:(by constructor)). split; [done|]. intros n.
  destruct (wp_done _ _ _ _ Hs) as ([] & s1 & h1 & E & Hs1 & _).
  unfold main. rewrite (run_bind _ _ _ _ _ _ _ E).
  pose proof (events_manager_safe _ _ _ n false s1 h1 Hs1) as Hm. unfold mbind, M_bind, safely in *.
  by destruct (events_manager n false s1 h1) as [[w|] s2 h2| | |].
Qed.

(** ** A platform that starts the daemon *)

Definition complete : Platform := with_reply still (fun h cc =>
  match cc with
  | X_read _ n => if (n =? HASH_SIZE) && forallb not_read h then inr (bytes "a1b2") else inr []
  | X_stat_isdir p => (length p <? Z.to_nat (PATH_MAX - 1))%nat
  | cc => @reply still h cc
  end).

(** At most one file is read. *)
Lemma complete_answers h : (@answers complete h <= 1)%nat /\
  (forallb not_read h = true -> @answers complete h = 0%nat).
Proof.
  induction h as [|c h [IH1 IH2]]; [split; [cbn; lia|done]|].
  destruct c; cbn [answers forallb not_read andb reply complete with_reply still demo_platform default_ans];
    try (by split); try (cbn; split; [lia|done]).
  destruct (forallb not_read h); [|rewrite andb_false_r; by split].
  specialize (IH2 eq_refl). destruct (len =? HASH_SIZE); cbn [andb bytes]; (split; [|done]);
    rewrite ?IH2; cbn; lia.
Qed.

#[local] Instance complete_civil : @Civil complete.
Proof.
  split; try done.
  - intros h p Hp. cbn. split; [|by intros entries [= <-]].
    apply Nat.ltb_ge. unfold PATH_MAX in *. lia.
  - split; try done.
    + intros h fd d. cbn. lia.
    + intros fd s h r d s' h' E. rewrite (silent_frames complete ltac:(done) _ _ _ _ _ _ _ E).
      by apply sane_check_ok.
    + intros h fd len. cbn. by destruct (_ && _).
    + intros src size conv. cbn. destruct (Z.ltb_spec (Z.of_nat (length src)) size); [|done].
      by intros [= <-].
  - intros h. pose proof (complete_answers h). cbn [loop_fuel complete with_reply still demo_platform]. lia.
  - apply slept_clock_passes; [cbn; lia|done].
  - intros h. cbn [loop_fuel complete with_reply still demo_platform].
    induction h as [|cc h IH]; cbn [interruptions]; [lia|]. destruct cc; try exact IH. cbn. lia.
Qed.

#[local] Instance complete_provisioned : @Provisioned complete _.
Proof.
  split; try done; try (intros; cbn; by eexists); try (intros; cbn; lia).
  - intros h fd Hu. cbn [reply complete with_reply].
    replace (forallb not_read h) with true; [by do 2 eexists|]. symmetry.
    apply forallb_forall. intros x Hx. unfold unread in Hu. rewrite Forall_forall in Hu. by apply Hu.
Qed.

Definition demo_info : mmgr_info := {|
  ic_recov := {| rc_enable := true; rc_cold_reset := 2; rc_reboot := 1; rc_reset_delay := 60;
                 rc_cold_timeout := 5; rc_shtdwn_timeout := 5 |};
  ic_timings := {| tm_ipc_ready := 60; tm_cd_ipc_reset := 10; tm_cd_ipc_ready := 20;
                   tm_mdm_flash := 30; tm_fmmo := 15 |};
  ic_mcdr := {| mg_enable := true; mg_path := bytes "/logs/core"; mg_enable_cd_log := true |};
  ic_mcdr_timeout := 300;
  ic_cd_link := {| cl_type := E_LINK_HSI; cl_ctrl := ctrl_cd (ctrl demo_link);
                   cl_power := pm_cd (pm demo_link) |};
  ic_link := {| ml_flash_ebl := flash_ebl demo_link; ml_flash_fw := flash_fw demo_link;
                ml_baseband := bb demo_link; ml_ctrl := ctrl_mdm (ctrl demo_link);
                ml_power := pm_mdm (pm demo_link) |};
  ic_cli_max := 4; ic_mux := {| frame_size := 1509; retry := 3 |};
  ic_usb_flash := {| ul_usb := false; ul_id := (0, 0) |};
  ic_usb_bb := {| ul_usb := false; ul_id := (0, 0) |};
  ic_usb_reconfig := {| ul_usb := false; ul_id := (0, 0) |};
  ic_usb_cd := {| ul_usb := false; ul_id := (0, 0) |};
  ic_mcd_path := bytes "/dev/mdm_ctrl"; ic_mcd_board := 1;
  ic_fw := {| cfg_input := bytes "/fw"; cfg_injection := bytes "/inj"; cfg_factory := bytes "/fact";
              cfg_runtime := bytes "/run"; cfg_nvm_cal := bytes "cal"; cfg_nvm_dyn := bytes "dyn";
              cfg_nvm_sta := bytes "sta"; cfg_rnd_cert := bytes "rnd" |} |}.

Definition demo_channel : channel_cfg := {|
  cc_mmgr := {| ch_sanity_check := bytes "/dev/gsmtty1"; ch_shutdown := bytes "/dev/gsmtty2";
                ch_mdm_custo := bytes "/dev/gsmtty3"; ch_cd_logs := bytes "/dev/gsmtty4" |};
  cc_secured := bytes "/dev/gsmtty5" |}.

Definition demo_tcs : tcs_handle := {|
  tcs_get_config := Some [
    {| tm_info := {| mi_name := bytes "7160"; mi_hw_revision := bytes "20"; mi_sw_revision := bytes "NA";
                     mi_flashless := true; mi_tlvs := [bytes "a.tlv"] |};
       tm_secured := true; tm_chs := [demo_channel] |}];
  tcs_get_mmgr_config := fun _ => Some demo_info |}.

Lemma daemon_starts_witness :
  exists s' h', @start_daemon complete true (Some demo_tcs) [Opt_i (bytes "1")] demo_data [] = Done tt s' h' /\
    started demo_info s' /\ state s' = E_MMGR_MDM_OFF /\ length (clist (clients s')) = 4%nat.
Proof.
  assert (Hc : config_ok demo_info demo_channel).
  { split; try done. by repeat constructor. }
  assert (Ht : @selects complete demo_tcs 1 demo_channel demo_info).
  { split; try done. by do 3 eexists. }
  destruct (wp_done _ _ _ _ (proj1 (@daemon_starts complete _ _ demo_tcs [Opt_i (bytes "1")] 1
    demo_channel demo_info demo_data eq_refl Ht))) as ([] & s' & h' & E & Hs & _).
  exists s', h'. split; [exact E|]. split; [exact Hs|]. revert E. vm_compute. by intros [= <- _].
Defined.
