(* ===== verification/StateMachine.v ===== *)
(** The state machine of the daemon (core/states.h): which states each event may
    lead to from each state, proved of the whole handlers. *)
From S2P Require Import Prelude Platform Io Files At Msg Recov Clients Timer Link Mcd Firmware Mcdr Bus.
From S2P Require Import Secure Mmgr ModemEvents ClientEvents EventsManager Frame Safety ClientSafety.

(** * Following the state

    [stays m]: when [m] returns, the state of the daemon is what it was. *)
Abbreviation stays := (fixes state).

(** [leads st m L]: when [m] is run in state [st] and returns, the state is one
    of [L]. *)
Definition leads {A} (st : e_mmgr_state) (m : IO mmgr_data A) (L : list e_mmgr_state) : Prop :=
  forall s h, state s = st -> match m s h with Done _ s' _ => state s' ∈ L | _ => True end.

Section follow.
Context {A B : Type}.
Implicit Types (m : IO mmgr_data A) (k : A -> IO mmgr_data B).

Lemma leads_stay st m k L : stays m -> (forall a, leads st (k a) L) -> leads st (m ≫= k) L.
Proof.
  intros Hm Hk s h Hs. specialize (Hm s h). unfold mbind, M_bind.
  destruct (m s h) as [a s1 h1| | |]; try done. apply Hk. congruence.
Qed.

Lemma leads_bind st m k L1 L : leads st m L1 -> (forall st1 a, st1 ∈ L1 -> leads st1 (k a) L) ->
  leads st (m ≫= k) L.
Proof.
  intros Hm Hk s h Hs. specialize (Hm s h Hs). unfold mbind, M_bind.
  destruct (m s h) as [a s1 h1| | |]; try done. by eapply Hk.
Qed.

Lemma leads_get st (k : mmgr_data -> IO mmgr_data B) L :
  (forall s, state s = st -> leads st (k s) L) -> leads st (get ≫= k) L.
Proof. intros Hk s h Hs. by apply (Hk s Hs). Qed.

Lemma leads_set st x (k : unit -> IO mmgr_data B) L :
  leads x (k tt) L -> leads st (set_mmgr_state x ≫= k) L.
Proof. intros Hk s h Hs. by apply Hk. Qed.

Lemma leads_end st x (L : list e_mmgr_state) : x ∈ L -> leads st (set_mmgr_state x) L.
Proof. by intros Hx s h Hs. Qed.

Lemma leads_stays st m L : stays m -> st ∈ L -> leads st m L.
Proof.
  intros Hm HL s h Hs. specialize (Hm s h). destruct (m s h); try done. congruence.
Qed.

Lemma leads_sub st m L L' : leads st m L -> (forall x, x ∈ L -> x ∈ L') -> leads st m L'.
Proof. intros Hm HL s h Hs. specialize (Hm s h Hs). destruct (m s h); try done. by apply HL. Qed.

Lemma leads_assoc {C} st (m : IO mmgr_data C) (k0 : C -> IO mmgr_data A) k L :
  leads st (m ≫= (fun x => k0 x ≫= k)) L -> leads st ((m ≫= k0) ≫= k) L.
Proof. intros Hm s h Hs. specialize (Hm s h Hs). by rewrite run_assoc. Qed.

End follow.

Lemma leads_when st b (m : IO mmgr_data unit) L :
  (b = true -> leads st m L) -> st ∈ L -> leads st (when b m) L.
Proof. intros Hm HL. destruct b; [by apply Hm|]. by apply leads_stays. Qed.

(** Follows the code of a handler. *)
Ltac in_list :=
  repeat case_match;
  solve [repeat (apply elem_of_cons; first [left; reflexivity | right]) |
         rewrite ?elem_of_app, ?elem_of_cons, ?elem_of_nil in *; naive_solver].

Ltac leads_step :=
  lazymatch goal with
  | |- forall _, _ => intros ?
  | |- leads _ abort _ => intros ? ? ?; exact Logic.I
  | |- leads _ (set_mmgr_state _) _ => apply leads_end
  | |- leads _ (set_mmgr_state _ ≫= _) _ => apply leads_set
  | |- leads _ (get ≫= _) _ => apply leads_get
  | |- leads _ (match ?x with _ => _ end) _ => destruct x eqn:?
  | |- leads _ (when _ _) _ => apply leads_when; [intros ?|]
  | |- leads _ (mret _) _ => apply leads_stays; [apply fixes_ret|]
  | |- leads _ (?m ≫= _) _ =>
      first [ apply leads_stay; [solve [fixes_auto]|]
            | apply leads_assoc
            | lazymatch m with
              | match ?x with _ => _ end => destruct x eqn:?
              | when ?b _ => destruct b eqn:?; cbn [when]
              | mbind _ _ => fail
              | _ => progress within_unfold m
              end ]
  | |- leads _ _ _ => apply leads_stays; [solve [fixes_auto]|]
  | |- _ ∈ _ => in_list
  end.

Ltac leads_auto :=
  repeat first
    [ leads_step
    | lazymatch goal with
      | |- leads _ (_ ≫= _) _ => fail
      | |- leads _ ?m _ => progress within_unfold m
      end ].

(** * The tables *)

Definition reset_targets (st : e_mmgr_state) : list e_mmgr_state :=
  [st; E_MMGR_WAIT_COLD_ACK; E_MMGR_MDM_START; E_MMGR_MDM_CONF_ONGOING; E_MMGR_MDM_OOS].

(** Where a request may lead. *)
Definition request_targets (st : e_mmgr_state) (rr : e_mmgr_requests) : list e_mmgr_state :=
  match rr, st with
  | E_MMGR_RESOURCE_ACQUIRE, E_MMGR_MDM_OFF => reset_targets E_MMGR_MDM_OFF
  | E_MMGR_RESOURCE_RELEASE, (E_MMGR_WAIT_COLD_ACK | E_MMGR_MDM_UP) => [st; E_MMGR_WAIT_SHT_ACK]
  | E_MMGR_REQUEST_MODEM_RECOVERY, E_MMGR_MDM_UP => [st; E_MMGR_MDM_RESET]
  | (E_MMGR_REQUEST_MODEM_RESTART | E_MMGR_REQUEST_MODEM_BACKUP_PRODUCTION), E_MMGR_MDM_UP =>
      [E_MMGR_MDM_RESET]
  | E_MMGR_REQUEST_FORCE_MODEM_SHUTDOWN, E_MMGR_MDM_UP => [E_MMGR_WAIT_SHT_ACK]
  | E_MMGR_ACK_MODEM_COLD_RESET, E_MMGR_WAIT_COLD_ACK
  | E_MMGR_ACK_MODEM_SHUTDOWN, E_MMGR_WAIT_SHT_ACK => [st; E_MMGR_MDM_RESET]
  | _, _ => [st]
  end.

(** Where an event may lead. *)
Definition event_targets (e : e_events_type) (st : e_mmgr_state) : list e_mmgr_state :=
  match e with
  | E_EVENT_IPC =>
      [if bool_decide (st = E_MMGR_MDM_PREPARE_OFF) then E_MMGR_MDM_OFF else E_MMGR_MDM_RESET]
  | E_EVENT_MCD =>
      [st; E_MMGR_MDM_RESET; E_MMGR_MDM_CORE_DUMP] ++
      match st with
      | E_MMGR_MDM_CONF_ONGOING => [E_MMGR_MDM_UP]
      | E_MMGR_MDM_PREPARE_OFF => [E_MMGR_MDM_OFF]
      | _ => []
      end
  | E_EVENT_BUS =>
      [st; E_MMGR_MDM_RESET] ++
      match st with
      | E_MMGR_MDM_CONF_ONGOING => [E_MMGR_MDM_UP; E_MMGR_MDM_LINK_USB_DISC]
      | E_MMGR_MDM_LINK_USB_DISC => [E_MMGR_MDM_UP; E_MMGR_MDM_CORE_DUMP]
      | E_MMGR_MDM_UP | E_MMGR_WAIT_COLD_ACK | E_MMGR_WAIT_SHT_ACK => [E_MMGR_MDM_LINK_USB_DISC]
      | _ => []
      end
  | E_EVENT_TIMEOUT => [st; E_MMGR_MDM_RESET; E_MMGR_MDM_OFF]
  | E_EVENT_FLASHING => [E_MMGR_MDM_CONF_ONGOING; E_MMGR_MDM_RESET]
  | E_EVENT_MCDR => [if bool_decide (st = E_MMGR_MDM_CORE_DUMP) then E_MMGR_MDM_RESET else st]
  | E_EVENT_CLIENT => st :: concat (map (request_targets st) MMGR_REQUESTS)
  | E_EVENT_NEW_CLIENT | E_EVENT_SECUR => [st]
  end.

(** Where the loop may be before it waits. *)
Definition before_targets (st : e_mmgr_state) : list e_mmgr_state :=
  E_MMGR_MDM_PREPARE_OFF ::
  (if bool_decide (st = E_MMGR_MDM_RESET) then reset_targets st else [st]).

(** * The handlers *)

Section machine.
Context `{Platform}.

Lemma reset_op_stays l : stays (reset_modem_op l).
Proof. unfold reset_modem_op. fixes_auto. Qed.

Lemma l_pre_oos st : leads st pre_modem_out_of_service [E_MMGR_MDM_OOS].
Proof. unfold pre_modem_out_of_service. leads_auto. Qed.

Lemma l_reset st : leads st reset_modem (reset_targets st).
Proof.
  unfold reset_modem, reset_targets. do 3 (apply leads_stay; [fixes_auto|intros ?]).
  apply leads_stay; [fixes_auto|]. intros l. destruct l; cbn [hdler_pre_mdm]; try done.
  - eapply (leads_bind _ _ _ (reset_targets st)); [unfold pre_mdm_cold_reset, reset_targets; leads_auto|].
    intros st1 ? Hst. apply leads_stays; [fixes_auto|exact Hst].
  - eapply (leads_bind _ _ _ (reset_targets st)).
    + unfold pre_platform_reboot, reset_targets. do 3 (apply leads_stay; [fixes_auto|intros ?]).
      eapply (leads_bind _ _ _ [E_MMGR_MDM_OOS]); [|intros; apply leads_stays; [done|in_list]].
      destruct (_ <=? _).
      * apply leads_stay; [fixes_auto|intros ?].
        eapply leads_bind; [apply l_pre_oos|]. intros. by apply leads_stays.
      * leads_auto.
    + intros st1 ? Hst. apply leads_stays; [fixes_auto|exact Hst].
  - eapply leads_bind; [apply l_pre_oos|]. intros st1 ? Hst.
    apply leads_stays; [fixes_auto|in_list].
Qed.

(** ** Requests *)

Lemma l_wakeup : leads E_MMGR_MDM_OFF resource_acquire_wakeup_modem (reset_targets E_MMGR_MDM_OFF).
Proof.
  unfold resource_acquire_wakeup_modem, reset_targets. do 5 (apply leads_stay; [fixes_auto|intros ?]).
  destruct (succeeded _); cbn [negb].
  - leads_auto.
  - apply leads_stay; [fixes_auto|intros ?]. eapply leads_bind; [apply l_reset|].
    intros. by apply leads_stays.
Qed.

Lemma l_handler fake st rr : leads st (hdler_client fake st rr) (request_targets st rr).
Proof.
  destruct rr; cbn [hdler_client request_targets];
    try (apply leads_stays; [solve [fixes_auto]|in_list]);
    destruct st; try (apply leads_stays; [solve [fixes_auto]|in_list]);
    first [apply l_wakeup | leads_auto].
Qed.

Lemma requests_complete rr : rr ∈ MMGR_REQUESTS.
Proof. unfold MMGR_REQUESTS. destruct rr; in_list. Qed.

Lemma l_dispatch st rr ret : leads st (dispatch rr ret) (event_targets E_EVENT_CLIENT st).
Proof.
  unfold dispatch. apply leads_get. intros s Hs. destruct (bool_decide _).
  { apply leads_stays; [done|in_list]. }
  rewrite Hs. eapply leads_sub; [apply l_handler|]. intros x Hx. cbn [event_targets].
  apply elem_of_cons. right. apply list_elem_of_In, in_concat.
  exists (request_targets st rr). split; [|by apply list_elem_of_In].
  apply in_map, list_elem_of_In, requests_complete.
Qed.

Lemma l_known st : leads st known_client (event_targets E_EVENT_CLIENT st).
Proof.
  assert (Hst : st ∈ event_targets E_EVENT_CLIENT st) by (apply elem_of_cons; by left).
  assert (Hh : forall ret, leads st (handle_request ret) (event_targets E_EVENT_CLIENT st)).
  { intros ret. unfold handle_request. apply leads_get. intros s Hs.
    destruct (request_of_id _); [|by apply leads_stays].
    apply leads_stay; [fixes_auto|]. intros reg. destruct (_ && _).
    - apply leads_stays; [fixes_auto|done].
    - apply l_dispatch. }
  unfold known_client. apply leads_stay; [fixes_auto|]. intros fd.
  apply leads_stay; [fixes_auto|]. intros [i|]; [|apply leads_stays; [fixes_auto|done]].
  apply leads_stay; [fixes_auto|]. intros [ret x].
  do 2 (apply leads_stay; [unfold set_request; fixes_auto|intros ?]).
  destruct ret; try (apply leads_stays; [solve [fixes_auto]|done]).
  - unfold client_request, set_request. apply leads_stay; [fixes_auto|intros ?].
    apply leads_get. intros s Hs. destruct (0 <? _); [|apply Hh].
    apply leads_stay; [fixes_auto|]. intros ok. destruct (negb ok); [apply leads_stays; [fixes_auto|done]|].
    do 2 (apply leads_stay; [unfold cnx_read; fixes_auto|intros ?]). case_match.
    apply leads_stay; [fixes_auto|intros ?]. destruct (_ || _); [by apply leads_stays|apply Hh].
  - eapply leads_bind; [apply l_dispatch|]. intros st1 ? Hst1. apply leads_stays; [fixes_auto|done].
Qed.

(** ** Events of the modem *)

Lemma l_finish_shutdown st : leads st finish_shutdown [E_MMGR_MDM_OFF].
Proof. unfold finish_shutdown. leads_auto. Qed.

Lemma l_ipc st : leads st ipc_event (event_targets E_EVENT_IPC st).
Proof.
  unfold ipc_event. do 2 (apply leads_stay; [fixes_auto|intros ?]). apply leads_get. intros s Hs.
  apply leads_stay; [fixes_auto|intros ?]. rewrite Hs. cbn [event_targets].
  destruct (bool_decide _).
  - eapply leads_bind; [apply l_finish_shutdown|]. intros. by apply leads_stays.
  - leads_auto.
Qed.

Lemma l_start_flashing st : leads st start_flashing [st; E_MMGR_MDM_RESET].
Proof. unfold start_flashing. leads_auto. Qed.

Lemma l_cd_prepare st : leads st core_dump_prepare [st; E_MMGR_MDM_RESET].
Proof. unfold core_dump_prepare. leads_auto. Qed.

Lemma l_configure st : leads st configure_modem [E_MMGR_MDM_RESET; E_MMGR_MDM_UP].
Proof. unfold configure_modem. leads_auto. Qed.

Lemma l_streamline st : leads st streamline [st; E_MMGR_MDM_RESET].
Proof. unfold streamline. leads_auto. Qed.

Lemma l_do_configure st : leads st do_configure [E_MMGR_MDM_RESET; E_MMGR_MDM_UP].
Proof.
  unfold do_configure. eapply leads_bind; [apply l_configure|]. intros st1 ret Hst1.
  destruct (negb _); [by apply leads_stays|].
  eapply leads_bind; [apply l_streamline|]. intros st2 ok Hst2.
  apply leads_stays; [fixes_auto|]. in_list.
Qed.

Lemma l_self_reset st : leads st on_self_reset (event_targets E_EVENT_MCD st).
Proof.
  unfold on_self_reset, event_targets. apply leads_stay; [fixes_auto|intros ?].
  apply leads_get. intros s Hs. rewrite Hs. case_bool_decide as E1; [subst st; rewrite E1; leads_auto|].
  case_bool_decide as E2; [|leads_auto].
  eapply leads_bind; [apply l_finish_shutdown|]. intros. apply leads_stays; [done|]. rewrite E2. in_list.
Qed.

Lemma l_mcd st : leads st modem_control_event (event_targets E_EVENT_MCD st).
Proof.
  unfold modem_control_event. apply leads_stay; [fixes_auto|]. intros x.
  destruct (x .& _).
  { unfold on_fw_download_ready. do 3 (apply leads_stay; [fixes_auto|intros ?]).
    apply leads_get. intros s Hs. destruct (_ || _).
    - eapply leads_sub; [apply l_start_flashing|]. intros. cbn [event_targets]. in_list.
    - apply leads_stays; [done|]. cbn [event_targets]. in_list. }
  destruct (x .& _).
  { unfold on_ipc_ready. do 4 (apply leads_stay; [fixes_auto|intros ?]).
    apply leads_get. intros s Hs. rewrite Hs. case_bool_decide as E; cbn [andb].
    - subst st. rewrite E. destruct (_ || _); [|apply leads_stays; [done|cbn [event_targets]; in_list]].
      eapply leads_sub; [apply l_do_configure|]. intros. cbn [event_targets]. in_list.
    - apply leads_stays; [done|]. cbn [event_targets]. in_list. }
  destruct (x .& _).
  { unfold on_core_dump. apply leads_set. eapply (leads_sub _ _ [E_MMGR_MDM_CORE_DUMP; E_MMGR_MDM_RESET]).
    - do 8 (apply leads_stay; [fixes_auto|intros ?]). apply leads_get. intros s Hs.
      eapply leads_bind; [|intros; by apply leads_stays].
      destruct (_ && _); [leads_auto|apply l_cd_prepare].
    - intros. cbn [event_targets]. in_list. }
  destruct (x .& _); [apply l_self_reset|]. apply leads_stays; [done|]. cbn [event_targets]. in_list.
Qed.

Lemma l_bus_dispatch st : leads st bus_dispatch (event_targets E_EVENT_BUS st).
Proof.
  unfold bus_dispatch. apply leads_stay; [fixes_auto|]. intros b. apply leads_get. intros s Hs.
  assert (Hc : forall x, leads x bus_configure [x; E_MMGR_MDM_RESET; E_MMGR_MDM_UP]).
  { intros x. unfold bus_configure. apply leads_stay; [fixes_auto|]. intros go.
    destruct (go : bool); [|by apply leads_stays; [|in_list]].
    eapply leads_sub; [apply l_do_configure|]. intros. in_list. }
  assert (Hstay : st ∈ event_targets E_EVENT_BUS st) by (cbn [event_targets]; in_list).
  rewrite Hs. destruct (_ && _) eqn:E1.
  { apply andb_true_iff in E1 as [_ E1%bool_decide_eq_true]. subst st. rewrite E1.
    do 4 (apply leads_stay; [fixes_auto|intros ?]).
    eapply leads_sub; [apply Hc|]. intros. cbn [event_targets]. in_list. }
  destruct ((b .& MDM_BB_READY) && bool_decide (st = E_MMGR_MDM_LINK_USB_DISC)) eqn:E2.
  { apply andb_true_iff in E2 as [_ E2%bool_decide_eq_true]. subst st. rewrite E2.
    do 4 (apply leads_stay; [fixes_auto|intros ?]).
    eapply leads_sub; [apply Hc|]. intros. cbn [event_targets]. in_list. }
  destruct ((b .& MDM_FLASH_READY) && _).
  { do 4 (apply leads_stay; [fixes_auto|]; intros ?). case_match; [|by apply leads_stays].
    eapply leads_sub; [apply l_start_flashing|]. intros. cbn [event_targets]. in_list. }
  destruct ((b .& MDM_CD_READY) && bool_decide (st = E_MMGR_MDM_CORE_DUMP)).
  { do 3 (apply leads_stay; [fixes_auto|]; intros ?). eapply leads_bind.
    - apply (leads_when _ _ _ [st; E_MMGR_MDM_RESET]); [intros _; apply l_cd_prepare|in_list].
    - intros. apply leads_stays; [done|]. cbn [event_targets]. in_list. }
  destruct ((b .& MDM_CD_READY) && bool_decide (st = E_MMGR_MDM_LINK_USB_DISC)) eqn:E3.
  { apply andb_true_iff in E3 as [_ E3%bool_decide_eq_true]. subst st. rewrite E3.
    eapply (leads_bind _ _ _ [E_MMGR_MDM_CORE_DUMP; E_MMGR_MDM_RESET]).
    - unfold bus_core_dump. apply leads_set. do 6 (apply leads_stay; [fixes_auto|]; intros ?).
      apply l_cd_prepare.
    - intros. apply leads_stays; [done|]. cbn [event_targets]. in_list. }
  destruct (negb (b .& MDM_BB_READY) && is_mdm_bb_ready s);
    [|apply leads_stays; [apply fixes_ret|exact Hstay]].
  eapply leads_bind; [|intros ? ? Hx; apply leads_stays; [done|exact Hx]].
  unfold bus_disconnected. apply leads_stay; [fixes_auto|]. intros ?. apply leads_get. intros s1 Hs1.
  rewrite Hs1. apply leads_when; [|done]. intros E4.
  do 4 (apply leads_stay; [fixes_auto|]; intros ?). apply leads_end. cbn [event_targets].
  destruct st; try done; in_list.
Qed.

Lemma handle_event_leads e st : leads st (handle_event e) (event_targets e st).
Proof.
  assert (Hst : forall (m : IO mmgr_data e_mmgr_errors) L, leads st m L -> leads st (_ ← m; mret tt) L).
  { intros m L Hm. eapply leads_bind; [exact Hm|]. intros ? ? Hx. by apply leads_stays. }
  destruct e; cbn [handle_event]; try apply Hst.
  - apply l_ipc.
  - apply leads_stays; [fixes_auto|]. cbn [event_targets]. in_list.
  - apply l_known.
  - unfold timeout_event, event_targets. apply leads_get. intros s Hs.
    apply leads_stay; [fixes_auto|]. intros x. clear Hs.
    eapply (leads_bind _ _ _ [st; E_MMGR_MDM_RESET]); [leads_auto|]. intros st1 ? H1.
    eapply (leads_bind _ _ _ [st; E_MMGR_MDM_RESET]); [leads_auto|]. intros st2 ? H2.
    apply leads_stay; [fixes_auto|]. intros ?.
    eapply (leads_bind _ _ _ [st; E_MMGR_MDM_RESET]); [leads_auto|]. intros st3 ? H3.
    eapply (leads_bind _ _ _ [st; E_MMGR_MDM_RESET]); [leads_auto|]. intros st4 ? H4.
    leads_auto.
  - apply l_mcd.
  - unfold bus_events. do 2 (apply leads_stay; [fixes_auto|]; intros ?).
    destruct (negb _); [|apply l_bus_dispatch]. apply leads_stays; [done|]. cbn [event_targets]. in_list.
  - apply leads_stays; [fixes_auto|]. cbn [event_targets]. in_list.
  - unfold flashing_event, event_targets. leads_auto.
  - unfold mcdr_event, event_targets. do 3 (apply leads_stay; [fixes_auto|]; intros ?).
    apply leads_get. intros s Hs. rewrite Hs. destruct (bool_decide _); cbn [when]; leads_auto.
Qed.

Lemma before_wait_leads st : leads st before_wait (before_targets st).
Proof.
  unfold before_wait, before_targets. apply leads_get. intros s Hs. rewrite Hs.
  destruct (_ .& _); [case_bool_decide; subst; unfold reset_targets; leads_auto|].
  case_bool_decide as E; [|cbn [when]; apply leads_stays; [done|in_list]].
  cbn [when]. eapply leads_bind; [apply l_reset|]. intros st1 ? H1. apply leads_stays; [fixes_auto|].
  apply elem_of_cons. by right.
Qed.

End machine.

(** * Results *)

(** C9.  The state machine of the daemon: when the loop has done what precedes a
    wait, and when it has handled an event, whatever the event, the platform's
    answers and the rest of the state, its state is one the tables allow from
    where it was. *)
Theorem daemon_state_machine `{Platform} s h :
  match before_wait s h with
  | Done _ s' _ => state s' ∈ before_targets (state s)
  | _ => True
  end /\
  forall e, match handle_event e s h with
            | Done _ s' _ => state s' ∈ event_targets e (state s)
            | _ => True
            end.
Proof.
  split; [by apply before_wait_leads|]. intros e. by apply handle_event_leads.
Qed.

(** What the tables say of the two states, for every event and state. *)
Lemma earned_table e st :
  (E_MMGR_MDM_UP ∈ event_targets e st -> st = E_MMGR_MDM_UP \/
     e ∈ [E_EVENT_MCD; E_EVENT_BUS] /\
     st ∈ [E_MMGR_MDM_CONF_ONGOING; E_MMGR_MDM_LINK_USB_DISC]) /\
  (E_MMGR_MDM_OOS ∈ event_targets e st -> st = E_MMGR_MDM_OOS \/
     e = E_EVENT_CLIENT /\ st = E_MMGR_MDM_OFF).
Proof.
  split; apply (bool_decide_unpack (_ -> _)); destruct e, st; by vm_compute.
Qed.

(** C10.  The modem is only declared up by an event of the modem (the control
    driver or the bus) that found it being configured, or back after a USB
    disconnection; in particular no request of a client, timer or flashing event
    does; and out of service is only entered by a recovery or, for a client, by
    waking up a modem that is off. *)
Theorem up_and_oos_are_earned `{Platform} e s h a s' h' :
  handle_event e s h = Done a s' h' ->
  (state s' = E_MMGR_MDM_UP -> state s = E_MMGR_MDM_UP \/
     e ∈ [E_EVENT_MCD; E_EVENT_BUS] /\
     state s ∈ [E_MMGR_MDM_CONF_ONGOING; E_MMGR_MDM_LINK_USB_DISC]) /\
  (state s' = E_MMGR_MDM_OOS -> state s = E_MMGR_MDM_OOS \/
     e = E_EVENT_CLIENT /\ state s = E_MMGR_MDM_OFF).
Proof.
  intros E. pose proof (handle_event_leads e (state s) s h eq_refl) as Hl. rewrite E in Hl.
  destruct (earned_table e (state s)) as [H1 H2]. split; intros Hs'; rewrite Hs' in Hl; auto.
Qed.

Lemma up_and_oos_are_earned_witness :
  exists s' h', @handle_event (with_clients []) E_EVENT_IPC demo_data [] = Done tt s' h' /\
    state s' <> E_MMGR_MDM_OOS.
Proof.
  eexists _, _. split; [vm_compute; reflexivity|].
  intros Hs. edestruct (@up_and_oos_are_earned (with_clients []) E_EVENT_IPC demo_data [] tt)
    as [_ Ho]; [vm_compute; reflexivity|]. by destruct (Ho Hs) as [?|[? _]].
Defined.
