(* ===== verification/Recovery.v ===== *)
(** A recovery of the modem, from the decision to the requests the driver gets:
    [reset_modem] of core/modem_events.c on each level of the escalation. *)
From S2P Require Import Prelude Platform Io Files At Msg Recov Clients Timer Link Mcd Firmware Mcdr Bus.
From S2P Require Import Secure Mmgr ModemEvents Safety ClientSafety.

(** * Calls that are not for the driver *)

Ltac within_seq := apply within_bind; [typeclasses eauto| |].

Section quiet.
Context `{Platform}.

Lemma with_buffer_within {S} R `{!PreOrder R} n (w : IO wbuf unit) :
  within anyS not_ioctl w -> within (S := S) R not_ioctl (with_buffer n w).
Proof.
  intros Hw s h. unfold with_buffer. specialize (Hw {| buf := replicate (Z.to_nat n) 0; off := 0 |} h).
  destruct (w _ h) as [? ? ?| | |]; try done. destruct Hw. split; [reflexivity|done].
Qed.

Lemma put_within bs : within anyS not_ioctl (put bs : IO wbuf unit).
Proof. intros w h. unfold put. destruct (_ <=? _)%nat; [split; [done|]|]; apply extends_refl. Qed.

#[local] Hint Resolve put_within : within.

Lemma msg_prepare_within {S} R `{!PreOrder R} mid size (body : IO wbuf unit) :
  within anyS not_ioctl body -> within (S := S) R not_ioctl (msg_prepare mid size body).
Proof.
  intros Hb. unfold msg_prepare. within_seq; [within_auto|]. intros ok.
  destruct (ok : bool); [|within_auto]. within_seq; [|within_auto].
  apply with_buffer_within; [done|]. within_seq; [within_auto|done].
Qed.

Lemma set_data_within {S} R `{!PreOrder R} ev p build : set_data ev = Some build ->
  within (S := S) R not_ioctl (build p).
Proof.
  intros Hb.
  destruct ev; cbn [set_data] in Hb; try done; injection Hb as <-;
    try (apply msg_prepare_within; [done|]; within_auto);
    destruct p; try (by apply within_undefined);
    (apply msg_prepare_within; [done|]); within_auto.
Qed.

Lemma inform_within {R} `{!PreOrder R} cl ev p : within R not_ioctl (inform cl ev p).
Proof.
  unfold inform. destruct (set_data ev) as [build|] eqn:E; [|within_auto].
  within_seq; [by eapply set_data_within|]. intros [? m].
  destruct (subscribed cl ev); within_auto.
Qed.

Lemma inform_all_within ev p : within (same clist) not_ioctl (clients_inform_all ev p).
Proof.
  assert (Hl : forall l ret, within (same clist) not_ioctl (inform_loop l ev p ret)).
  { induction l as [|cl l IH]; intros ret; cbn [inform_loop]; [within_auto|].
    destruct (open cl); [|apply IH]. within_seq; [apply inform_within|]. intros. apply IH. }
  unfold clients_inform_all. within_seq; [within_auto|]. intros s.
  destruct (_ && _); [within_auto|].
  within_seq; [within_auto|intros _]. within_seq; [within_auto|intros _]. apply Hl.
Qed.

Lemma prepare_quiet : within (same flash_static) not_ioctl mdm_flash_prepare.
Proof. within_auto. Qed.

End quiet.

(** Neither a request to the driver nor a message to a client. *)
Definition silent (cc : extcall) : bool :=
  match cc with X_ioctl _ _ | X_send _ _ => false | _ => true end.

Definition quiet (h h' : history) : Prop :=
  driver_calls h' = driver_calls h /\ sent h' = sent h.

Lemma silent_extends h h' : extends silent h h' -> quiet h h'.
Proof.
  intros (k & -> & Hk). induction Hk as [|cc k Hc Hk [IH1 IH2]]; [done|].
  change ((cc :: k) ++ h) with (cc :: (k ++ h)).
  split; [rewrite driver_cons_other|rewrite sent_cons_other]; try done; by destruct cc.
Qed.

#[export] Instance quiet_preorder : PreOrder quiet.
Proof.
  split; [done|]. intros h1 h2 h3 [E1 E2] [E3 E4]. split; congruence.
Qed.

Lemma quiet_cons cc h : silent cc = true -> quiet h (cc :: h).
Proof. intros Hc. by apply silent_extends, extends_one. Qed.

(** * The commands of a recovery, on the whole state *)

Section steps.
Context `{Platform}.
Implicit Types (s : mmgr_data) (h : history).

(** Closing a terminal. *)
Definition closed (fd : Z) : Z := if CLOSED_FD <? fd then CLOSED_FD else fd.

Lemma prepare_silent : within (same flash_static) silent mdm_flash_prepare.
Proof. within_auto. Qed.

Lemma q_prepare s h : files_ok ->
  wp False (on_flash mdm_flash_prepare) (fun ret s' h' => exists f, s' = put_flash f s /\
    flash_static f = flash_static (flash s) /\ quiet h h' /\
    upgrade_err f = if succeeded ret then MDM_UPDATE_ERR_NONE else MDM_UPDATE_ERR_FLASH) s h.
Proof.
  intros Hok. apply wp_zoom.
  eapply wp_mono; [eapply wp_within; [apply prepare_silent|by apply prepare_total]|].
  cbv beta. intros ret f h' ((_ & Hu) & Hs & Hx). exists f. split_and!; try done.
  by apply silent_extends.
Qed.

Lemma q_tell ev p s h : alloc_ok -> carries ev p ->
  wp False (tell_all ev p) (fun _ s' h' =>
    s' = put_clients (set_down (down_after ev (down_state (clients s))) (clients s)) s /\
    driver_calls h' = driver_calls h /\
    exists ws, sent h' = sent h ++ ws /\ delivered (told ev (clients s)) ev p ws) s h.
Proof.
  intros Ha Hc. apply wp_bind, wp_zoom.
  eapply wp_mono; [eapply wp_within; [apply inform_all_within|by apply inform_all_wp]|]. cbv beta.
  intros ret cl h' ((-> & ws & Hw & Hd) & _ & Hx). apply wp_ret. split; [done|].
  split; [by apply driver_extends|]. by exists ws.
Qed.

Lemma q_start t s h :
  wp False (start_timer t) (fun _ s' h' => quiet h h' /\ exists x, s' = put_timer x s) s h.
Proof.
  apply wp_bind, wp_zoom. unfold timer_start. wp_call. apply wp_bind, wp_get.
  apply wp_bind, wp_when. destruct (negb _); wp_simp; (split; [by apply quiet_cons|by eexists]).
Qed.

Lemma q_stop t s h :
  wp False (stop_timer t) (fun _ s' h' => h' = h /\ exists x, s' = put_timer x s) s h.
Proof. apply wp_bind, wp_zoom. unfold timer_stop. wp_simp. split; [done|by eexists]. Qed.

Lemma q_stop_all s h :
  wp False stop_all_timers (fun _ s' h' => h' = h /\ s' = put_timer (set_ttype 0 (timer s)) s) s h.
Proof. apply wp_bind, wp_zoom. unfold timer_stop_all. wp_simp. done. Qed.

Lemma q_close s h :
  wp False mdm_close_fds (fun _ s' h' => quiet h h' /\
    exists x, s' = put_fd_tty (closed (fd_tty s)) (put_secur x s)) s h.
Proof.
  unfold mdm_close_fds, close_tty. apply wp_bind, wp_zoom.
  assert (Hs : forall x h0, wp False secure_stop (fun _ _ h1 => quiet h0 h1) x h0).
  { intros x h0. unfold secure_stop, tty_close. wp_simp.
    destruct (sec_enable x); [|done]. destruct (_ <? _); wp_calls; by try apply quiet_cons. }
  eapply wp_mono; [apply Hs|]. cbv beta. intros _ x h1 Hq. apply wp_bind, wp_get, wp_bind.
  unfold tty_close, closed. cbn [fd_tty put_secur].
  destruct (CLOSED_FD <? fd_tty s); wp_calls; (split; [|by eexists]); [|done].
  etrans; [done|]. by apply quiet_cons.
Qed.

Lemma q_link_reset l s h : wp False (link_on_mdm_reset l 0) (fun _ s' h' => s' = s /\ quiet h h') s h.
Proof.
  assert (Hw : within (@eq mmgr_data) silent (link_on_mdm_reset l 0)) by within_auto.
  eapply wp_mono; [eapply wp_within; [exact Hw|apply link_reset_total]|]. cbv beta.
  intros _ s' h' (-> & _ & Hx). split; [done|]. by apply silent_extends.
Qed.

Lemma q_register e o s h :
  wp False (mcd_register e o) (fun _ s' h' =>
    let f := if o then e else filter (mcd s) .| e in
    s' = put_mcd (set_filter f (mcd s)) s /\ sent h' = sent h /\
    driver_calls h' = driver_calls h ++ [MDM_CTRL_SET_POLLED_STATES f]) s h.
Proof.
  apply wp_bind, wp_zoom. unfold mdm_mcd_register, mdm_mcd_update_filter, mcd_ioctl. wp_calls.
  split; [done|]. split; [by apply sent_cons_other|]. by rewrite driver_cons.
Qed.

End steps.

(** * The beginning of a recovery *)

(** The level a recovery is run at: out of service when it is forced or when the
    firmware cannot be prepared. *)
Definition begun (c r : Z) (s : mmgr_data) (l : e_escalation_level) (s' : mmgr_data) : Prop :=
  exists f x, s' = put_reset x (put_flash f s) /\ flash_static f = flash_static (flash s) /\
    recov_ok c r x /\ rm_state x = rm_state (reset s) /\ level_id x = l /\
    if (upgrade_err f =? MDM_UPDATE_ERR_NONE) && negb (bool_decide (op (reset s) = E_FORCE_OOS)) then
      op x = op (reset s) /\
      (level_id (reset s) = E_EL_MODEM_OUT_OF_SERVICE -> l = E_EL_MODEM_OUT_OF_SERVICE) /\
      (level_id (reset s) = E_EL_MODEM_COLD_RESET -> 0 < c -> l = E_EL_MODEM_COLD_RESET)
    else l = E_EL_MODEM_OUT_OF_SERVICE.

Section begin.
Context `{Platform}.

Lemma start_wp c r x h : recov_ok c r x ->
  wp False recov_start (fun _ x' h' => quiet h h' /\ recov_ok c r x' /\ rm_state x' = rm_state x /\
    if bool_decide (op x = E_FORCE_OOS) then level_id x' = E_EL_MODEM_OUT_OF_SERVICE
    else op x' = op x /\
      (level_id x = E_EL_MODEM_OUT_OF_SERVICE -> level_id x' = E_EL_MODEM_OUT_OF_SERVICE) /\
      (level_id x = E_EL_MODEM_COLD_RESET -> 0 < c -> level_id x' = E_EL_MODEM_COLD_RESET)) x h.
Proof.
  intros Hx. unfold wp. rewrite (recov_start_eq c r); [|by apply recov_ok_wf|by destruct Hx].
  destruct Hx as (Hc & Hr & Hp & Hl). destruct (bool_decide (op x = _)).
  { split; [by apply quiet_cons|]. done. }
  destruct (bool_decide_reflect (level_id x = E_EL_MODEM_OUT_OF_SERVICE)) as [E|E]; cbn [negb andb].
  { split; [by apply quiet_cons|]. done. }
  destruct (_ <? _); [|split; [by apply quiet_cons|done]].
  split; [etrans; [|by apply quiet_cons]; by apply quiet_cons|].
  cbn [rm_state op level_id set_last set_counter set_level].
  split; [split_and!; try done; cbn; by destruct (0 <? c), (0 <? r)|].
  split_and!; try done. intros _ H0. by rewrite (proj2 (Z.ltb_lt _ _) H0).
Qed.

Lemma begin_step {A} c r (K : e_escalation_level -> IO mmgr_data A) Q s h :
  files_ok -> recov_ok c r (reset s) ->
  (forall l s' h', quiet h h' -> begun c r s l s' -> wp False (K l) Q s' h') ->
  wp False (ret ← on_flash mdm_flash_prepare;
    when (negb (succeeded ret)) (force_recovery E_FORCE_OOS) ;;
    _ ← on_reset recov_start;
    level ← on_reset recov_get_level;
    K level) Q s h.
Proof.
  intros Hok Hx HK. apply wp_bind. eapply wp_mono; [by apply q_prepare|]. cbv beta.
  intros ret s1 h1 (f & -> & Hf & Hq & Hu). apply wp_bind, wp_when.
  assert (Hgo : forall x h2, recov_ok c r x -> rm_state x = rm_state (reset s) ->
    (forall x', recov_ok c r x' -> rm_state x' = rm_state x ->
       (if bool_decide (op x = E_FORCE_OOS) then level_id x' = E_EL_MODEM_OUT_OF_SERVICE
        else op x' = op x /\
          (level_id x = E_EL_MODEM_OUT_OF_SERVICE -> level_id x' = E_EL_MODEM_OUT_OF_SERVICE) /\
          (level_id x = E_EL_MODEM_COLD_RESET -> 0 < c -> level_id x' = E_EL_MODEM_COLD_RESET)) ->
       begun c r s (level_id x') (put_reset x' (put_flash f s))) ->
    quiet h h2 ->
    wp False (_ ← on_reset recov_start; level ← on_reset recov_get_level; K level) Q
      (put_reset x (put_flash f s)) h2).
  { intros x h2 Hx2 Hrm Hb Hq2. apply wp_bind, wp_zoom. eapply wp_mono; [by apply (start_wp c r)|].
    cbv beta. cbn [reset put_reset]. intros _ x' h3 (Hq3 & Hx3 & Hr3 & H3).
    apply wp_bind, wp_zoom, wp_gets. apply HK; [by etrans|].
    cbn [reset put_reset]. by apply Hb. }
  destruct (succeeded ret) eqn:Er; cbn [negb].
  - replace (put_flash f s) with (put_reset (reset s) (put_flash f s)) by done.
    apply Hgo; try done. intros x' Hx' Hr' H'. exists f, x'. split_and!; try done.
    rewrite Hu. cbn. by destruct (bool_decide _).
  - apply wp_bind, wp_zoom, wp_bind, wp_modify, wp_ret, wp_ret.
    apply (Hgo (set_op E_FORCE_OOS (reset s))); try done. intros x' Hx' Hr' H'.
    exists f, x'. split_and!; try done. by rewrite Hu.
Qed.

End begin.

(** * The operation *)

(** The requests that switch the modem off, as [mdm_mcd_off] makes them. *)
Definition off_requests `{Platform} (m : mmgr_mcd_ctx) : list mdm_ctrl :=
  if off_allowed m then [MDM_CTRL_POWER_OFF] else [reset_request m].

Section operation.
Context `{Platform}.

Lemma off_wp m h :
  wp False mdm_mcd_off (fun _ m' h' => m' = m /\ sent h' = sent h /\
    driver_calls h' = driver_calls h ++ off_requests m) m h.
Proof.
  assert (Hw : within (@eq mmgr_mcd_ctx) not_send mdm_mcd_off) by within_auto.
  eapply wp_mono; [eapply wp_within; [exact Hw|]|].
  - instantiate (1 := fun _ m' h' => m' = m /\ driver_calls h' = driver_calls h ++ off_requests m).
    unfold mdm_mcd_off, off_requests. apply wp_bind, wp_get.
    destruct (off_allowed m); eapply wp_mono; [apply mcd_down_wp|done|apply cold_reset_wp|].
    cbv beta. by intros ? ? ? (? & _ & ?).
  - cbv beta. intros _ m' h' ((-> & Hd) & _ & Hx). split_and!; try done. by apply sent_extends.
Qed.

Lemma reset_wp m h :
  wp False mdm_mcd_cold_reset (fun _ m' h' => m' = m /\ sent h' = sent h /\
    driver_calls h' = driver_calls h ++ [reset_request m]) m h.
Proof.
  assert (Hw : within (@eq mmgr_mcd_ctx) not_send mdm_mcd_cold_reset) by within_auto.
  eapply wp_mono; [eapply wp_within; [exact Hw|apply cold_reset_wp]|].
  cbv beta. intros _ m' h' ((-> & _ & Hd) & _ & Hx). split_and!; try done. by apply sent_extends.
Qed.

(** What comes before the operation: the filter, the timers and the link. *)
Lemma op_step l Q s h :
  let f := if terminal_level l then MDM_CTRL_STATE_UNKNOWN else MDM_CTRL_STATE_COREDUMP in
  level_id (reset s) = l ->
  (forall x h', sent h' = sent h -> driver_calls h' = driver_calls h ++ [MDM_CTRL_SET_POLLED_STATES f] ->
     wp False (match hdler_mdm l with
               | None => abort
               | Some op => _ ← on_mcd op; if terminal_level l then mret tt else reset_modem_finish
               end) Q
       (put_fd_tty (closed (fd_tty s)) (put_secur x
          (put_timer (set_ttype 0 (timer s)) (put_mcd (set_filter f (mcd s)) s)))) h') ->
  wp False (reset_modem_op l) Q s h.
Proof.
  intros f Hl Hk. unfold reset_modem_op. apply wp_bind. eapply wp_mono; [apply q_register|].
  cbv beta zeta. intros _ s1 h1 (-> & Hs1 & Hd1). apply wp_bind. eapply wp_mono; [apply q_stop_all|].
  cbv beta. intros _ s2 h2 [-> ->]. apply wp_bind. eapply wp_mono; [apply q_close|]. cbv beta.
  intros _ s3 h3 ([Hd3 Hs3] & x & ->). apply wp_bind, wp_get, wp_bind.
  eapply wp_mono; [apply q_link_reset|]. cbv beta. intros _ s4 h4 (-> & Hd4 & Hs4).
  apply wp_bind, wp_zoom, wp_gets. cbn [reset put_fd_tty put_secur put_timer put_mcd]. rewrite Hl.
  apply Hk; [congruence|]. rewrite Hd4, Hd3, Hd1. done.
Qed.

End operation.

(** [reset_modem] once its level is known. *)
Definition reset_at `{Platform} (level : e_escalation_level) : IO mmgr_data e_mmgr_errors :=
  match hdler_pre_mdm level with
  | None => abort
  | Some pre =>
      _ ← pre;
      st ← on_reset recov_get_state;
      (if bool_decide (st = E_OPERATION_WAIT) then mret tt else reset_modem_op level) ;;
      mret E_ERR_SUCCESS
  end.

(** What being put out of service comes to. *)
Definition out_of_service `{Platform} (s : mmgr_data) (h : history) (s' : mmgr_data) (h' : history)
  : Prop :=
  state s' = E_MMGR_MDM_OOS /\ level_id (reset s') = E_EL_MODEM_OUT_OF_SERVICE /\
  ttype (timer s') = 0 /\ fd_tty s' = closed (fd_tty s) /\
  filter (mcd s') = MDM_CTRL_STATE_UNKNOWN /\
  driver_calls h' = driver_calls h ++
    MDM_CTRL_SET_POLLED_STATES MDM_CTRL_STATE_UNKNOWN :: off_requests (mcd s) /\
  exists ws, sent h' = sent h ++ ws /\
    delivered (List.filter (fun cl => open cl && subscribed cl E_MMGR_EVENT_MODEM_OUT_OF_SERVICE)
                 (clist (clients s))) E_MMGR_EVENT_MODEM_OUT_OF_SERVICE P_null ws.

Lemma out_of_service_wp `{Platform} s h : alloc_ok ->
  level_id (reset s) = E_EL_MODEM_OUT_OF_SERVICE ->
  wp False (reset_at E_EL_MODEM_OUT_OF_SERVICE)
    (fun _ s' h' => flash s' = flash s /\ out_of_service s h s' h') s h.
Proof.
  intros Ha Hl. unfold reset_at. cbn [hdler_pre_mdm]. unfold pre_modem_out_of_service.
  apply wp_bind, wp_bind.
  eapply wp_mono; [by apply q_tell|]. cbv beta. intros _ s2 h2 (-> & Hd2 & ws & Hs2 & Hw).
  wp_call. unfold set_mmgr_state. apply wp_bind, wp_modify, wp_bind, wp_zoom.
  unfold recov_set_state. apply wp_bind, wp_modify, wp_ret, wp_ret, wp_bind, wp_zoom, wp_gets.
  rewrite bool_decide_eq_false_2 by done. apply wp_bind. apply op_step; [done|].
  change (terminal_level _) with true. cbv iota. cbn [hdler_mdm]. intros y h3 Hs3 Hd3.
  apply wp_bind, wp_zoom. eapply wp_mono; [apply off_wp|]. cbv beta.
  intros _ m h4 (-> & Hs4 & Hd4). apply wp_ret, wp_ret.
  split; [done|]. unfold out_of_service. split_and!; try done.
  - rewrite Hd4, Hd3, driver_cons_other, Hd2 by done. by rewrite <- app_assoc.
  - exists ws. rewrite Hs4, Hs3, sent_cons_other, Hs2 by done. split; [done|exact Hw].
Qed.

Lemma out_of_service_quiet `{Platform} c r l s h s1 h1 s' h' : quiet h h1 -> begun c r s l s1 ->
  out_of_service s1 h1 s' h' -> out_of_service s h s' h'.
Proof.
  intros [Hd Hs] (f & x & -> & _) (H1 & H2 & H3 & H4 & H5 & H6 & ws & H7 & H8).
  unfold out_of_service. rewrite <- Hd, <- Hs. split_and!; try done. by exists ws.
Qed.

Lemma done_wp `{Platform} c r x h : recov_ok c r x ->
  wp False recov_done (fun _ x' h' => h' = h /\ rm_state x' = E_OPERATION_NONE) x h.
Proof.
  intros Hx. unfold wp.
  rewrite (recov_done_eq c r); [|by apply recov_ok_wf|by destruct Hx|by destruct Hx as (_ & ? & _)].
  cbv zeta. split; [done|]. destruct (level_id x), (bool_decide _); try destruct (_ <=? _); done.
Qed.

(** * Results *)

(** Out of service: when the recovery is forced there or the escalation has
    reached it, [reset_modem] tells every subscribed client, stops all timers,
    closes the link to the modem, makes the driver report nothing any more and
    has it switch the modem off, in this order and with no other request; the
    daemon is then out of service, and so is its escalation. *)
Theorem recovery_out_of_service `{Platform} c r s h :
  files_ok -> recov_ok c r (reset s) ->
  op (reset s) = E_FORCE_OOS \/ level_id (reset s) = E_EL_MODEM_OUT_OF_SERVICE ->
  wp False reset_modem (fun _ s' h' => out_of_service s h s' h') s h.
Proof.
  intros Hok Hx Ho. pose proof (fo_alloc Hok) as Ha. apply (begin_step c r); [done..|]. fold reset_at. intros l s1 h1 Hq Hb.
  destruct (Hb) as (f & x & -> & _ & Hx' & _ & Hlx & Hif).
  assert (l = E_EL_MODEM_OUT_OF_SERVICE) as ->.
  { destruct (_ && _) eqn:E; [|done]. destruct Ho as [Ho|Ho]; [|by apply Hif].
    rewrite Ho in E. by rewrite andb_false_r in E. }
  eapply wp_mono; [by apply out_of_service_wp|]. cbv beta. intros _ s' h' [_ Hs'].
  by eapply out_of_service_quiet.
Qed.

(** C3.  The first half of a cold reset: while clients are connected and none
    has been asked, [reset_modem] announces that the modem goes down and asks the
    subscribed clients to acknowledge the reset; it sends the driver nothing and
    keeps the link open, and the daemon waits for the acknowledgements.  If the
    firmware cannot be prepared, the modem is put out of service instead. *)
Theorem recovery_asks_clients `{Platform} c r s h :
  files_ok -> recov_ok c r (reset s) -> 0 < c ->
  level_id (reset s) = E_EL_MODEM_COLD_RESET -> op (reset s) <> E_FORCE_OOS ->
  rm_state (reset s) = E_OPERATION_NONE -> connected (clients s) <> 0 ->
  wp False reset_modem (fun _ s' h' =>
    if upgrade_err (flash s') =? MDM_UPDATE_ERR_NONE then
      state s' = E_MMGR_WAIT_COLD_ACK /\ rm_state (reset s') = E_OPERATION_WAIT /\
      level_id (reset s') = E_EL_MODEM_COLD_RESET /\ op (reset s') = op (reset s) /\
      mcd s' = mcd s /\ fd_tty s' = fd_tty s /\ driver_calls h' = driver_calls h /\
      exists ws1 ws2, sent h' = sent h ++ ws1 ++ ws2 /\
        delivered (told E_MMGR_EVENT_MODEM_DOWN (clients s)) E_MMGR_EVENT_MODEM_DOWN P_null ws1 /\
        delivered (List.filter (fun cl => open cl && subscribed cl E_MMGR_NOTIFY_MODEM_COLD_RESET)
                     (clist (clients s))) E_MMGR_NOTIFY_MODEM_COLD_RESET P_null ws2
    else out_of_service s h s' h') s h.
Proof.
  intros Hok Hx Hc Hl Hop Hst Hn. pose proof (fo_alloc Hok) as Ha. apply (begin_step c r); [done..|]. fold reset_at. intros l s1 h1 Hq Hb.
  destruct (Hb) as (f & x & -> & Hf & Hx' & Hrm & Hlx & Hif).
  rewrite (bool_decide_eq_false_2 _ Hop), andb_true_r in Hif.
  destruct (upgrade_err f =? MDM_UPDATE_ERR_NONE) eqn:Eu.
  2:{ subst l. rewrite Hif. eapply wp_mono; [by apply out_of_service_wp|]. cbv beta.
      intros _ s' h' [-> Hs']. cbn [flash put_reset put_flash]. rewrite Eu.
      by eapply out_of_service_quiet. }
  destruct Hif as (Ho & _ & Hcold). rewrite (Hcold Hl Hc) in *. unfold reset_at.
  cbn [hdler_pre_mdm]. unfold pre_mdm_cold_reset. apply wp_bind, wp_bind, wp_zoom, wp_gets.
  cbn [reset put_reset]. rewrite Hrm, Hst. apply wp_bind, wp_zoom, wp_gets.
  cbn [clients put_reset put_flash]. rewrite bool_decide_eq_true_2 by done.
  rewrite (proj2 (Z.eqb_neq _ _) Hn). cbn [andb negb]. apply wp_bind, wp_bind, wp_zoom.
  unfold recov_set_state. apply wp_bind, wp_modify, wp_ret, wp_bind.
  eapply wp_mono; [by apply q_tell|]. cbv beta. intros _ s2 h2 (-> & Hd2 & ws1 & Hs2 & Hw1).
  apply wp_bind. eapply wp_mono; [by apply q_tell|]. cbv beta.
  intros _ s3 h3 (-> & Hd3 & ws2 & Hs3 & Hw2). unfold set_mmgr_state. apply wp_bind, wp_modify.
  eapply wp_mono; [apply q_start|]. cbv beta. intros _ s4 h4 ([Hd4 Hs4] & t & ->).
  apply wp_ret, wp_bind, wp_zoom, wp_gets.
  rewrite bool_decide_eq_true_2 by done. apply wp_bind, wp_ret, wp_ret.
  cbn [flash put_timer put_state put_clients put_reset put_flash]. rewrite Eu.
  destruct Hq as [Hd1 Hs1]. split_and!; try done.
  - congruence.
  - exists ws1, ws2. rewrite Hs4, Hs3, Hs2, Hs1, <- app_assoc. done.
Qed.

(** Whether the modem has to be flashed before it is configured. *)
Definition flash_required (f : mdm_flash_ctx) : bool := fl_flashless f || fl_update f.

Section second_half.
Context `{Platform}.

Lemma finish_wp c r s h : recov_ok c r (reset s) ->
  wp False reset_modem_finish (fun _ s' h' =>
    state s' = state s /\ fd_tty s' = fd_tty s /\ flash s' = flash s /\
    rm_state (reset s') = E_OPERATION_NONE /\ sent h' = sent h /\
    driver_calls h' = driver_calls h ++
      [MDM_CTRL_SET_POLLED_STATES ((if flash_required (flash s) then MDM_CTRL_STATE_FW_DOWNLOAD_READY
                                    else MDM_CTRL_STATE_IPC_READY) .| MDM_CTRL_STATE_COREDUMP)]) s h.
Proof.
  intros Hx. unfold reset_modem_finish. apply wp_bind, wp_zoom.
  eapply wp_mono; [by apply (done_wp c r)|]. cbv beta. intros _ x h1 [-> Hrm].
  apply wp_bind, wp_zoom, wp_gets. cbn [flash put_reset put_flash]. fold (flash_required (flash s)).
  apply wp_bind. eapply wp_mono; [apply q_register|]. cbv beta zeta. intros _ s2 h2 (-> & Hs2 & Hd2).
  apply wp_bind, wp_zoom, wp_gets, wp_bind, wp_when.
  assert (Hend : forall s3 h3, quiet h2 h3 ->
    state s3 = state s /\ fd_tty s3 = fd_tty s /\ flash s3 = flash s /\
      rm_state (reset s3) = E_OPERATION_NONE ->
    wp False (s0 ← get;
      when (bool_decide (link_get_bb_type (mlink s0) = E_LINK_USB))
        (start_timer E_TIMER_WAIT_FOR_BUS_READY ;; set_link_state E_MDM_LINK_NONE))
    (fun _ s' h' => state s' = state s /\ fd_tty s' = fd_tty s /\ flash s' = flash s /\
      rm_state (reset s') = E_OPERATION_NONE /\ sent h' = sent h /\
      driver_calls h' = driver_calls h ++
        [MDM_CTRL_SET_POLLED_STATES ((if flash_required (flash s) then MDM_CTRL_STATE_FW_DOWNLOAD_READY
                                      else MDM_CTRL_STATE_IPC_READY) .| MDM_CTRL_STATE_COREDUMP)])
      s3 h3).
  { intros s3 h3 [Hd3 Hs3] (E1 & E2 & E3 & E4). apply wp_bind, wp_get, wp_when.
    destruct (bool_decide _); [|split_and!; try done; congruence].
    apply wp_bind. eapply wp_mono; [apply q_start|]. cbv beta. intros _ s4 h4 ([Hd4 Hs4] & t & ->).
    apply wp_zoom, wp_modify. split_and!; try done; congruence. }
  destruct (_ && _); [|by apply Hend].
  eapply wp_mono; [apply q_start|]. cbv beta. intros _ s4 h4 (Hq & t & ->). by apply Hend.
Qed.

(** The preliminary operation, when it does not have to wait. *)
Lemma second_pre_wp c r s h : recov_ok c r (reset s) ->
  rm_state (reset s) = E_OPERATION_WAIT \/ connected (clients s) = 0 ->
  wp False pre_mdm_cold_reset (fun _ s' h' => quiet h h' /\
    state s' = (if bool_decide (link_get_bb_type (mlink s) = E_LINK_USB) && flash_required (flash s)
                then E_MMGR_MDM_START else E_MMGR_MDM_CONF_ONGOING) /\
    reset s' = set_state E_OPERATION_CONTINUE (reset s) /\ flash s' = flash s /\ mcd s' = mcd s /\
    fd_tty s' = fd_tty s /\ mlink s' = mlink s) s h.
Proof.
  intros Hx Hst. unfold pre_mdm_cold_reset. apply wp_bind, wp_zoom, wp_gets, wp_bind, wp_zoom, wp_gets.
  replace (bool_decide (rm_state (reset s) = E_OPERATION_NONE) && _) with false.
  2:{ cbn [clients put_reset]. destruct Hst as [->|E]; [done|]. rewrite E. by rewrite andb_false_r. }
  replace (bool_decide (rm_state (reset s) = E_OPERATION_WAIT) || _) with true.
  2:{ cbn [clients put_reset]. destruct Hst as [->|E]; [done|]. rewrite E. by rewrite orb_true_r. }
  apply wp_bind, wp_bind, wp_zoom. unfold recov_set_state. apply wp_bind, wp_modify, wp_ret.
  apply wp_bind, wp_zoom, wp_gets, wp_bind, wp_when.
  set (s2 := put_reset _ _).
  assert (Hrest : forall h2, quiet h h2 ->
    wp False (s0 ← get;
      required ← (if bool_decide (link_get_bb_type (mlink s0) = E_LINK_USB)
                  then on_flash mdm_flash_is_required else mret false);
      set_mmgr_state (if (required : bool) then E_MMGR_MDM_START else E_MMGR_MDM_CONF_ONGOING) ;;
      n ← on_cli clients_get_connected;
      when (negb (n =? 0)) (_ ← on_cli clients_reset_ack_cold; stop_timer E_TIMER_COLD_RESET_ACK))
      (fun _ s' h' => wp False (mret E_ERR_SUCCESS) (fun _ s' h' => quiet h h' /\
         state s' = (if bool_decide (link_get_bb_type (mlink s) = E_LINK_USB) && flash_required (flash s)
                     then E_MMGR_MDM_START else E_MMGR_MDM_CONF_ONGOING) /\
         reset s' = set_state E_OPERATION_CONTINUE (reset s) /\ flash s' = flash s /\ mcd s' = mcd s /\
         fd_tty s' = fd_tty s /\ mlink s' = mlink s) s' h') s2 h2).
  { intros h2 Hq. apply wp_bind, wp_get, wp_bind. change (mlink s2) with (mlink s).
    unfold flash_required, set_mmgr_state.
    destruct (bool_decide _); cbn [andb];
      [apply wp_zoom, wp_gets|apply wp_ret];
      apply wp_bind, wp_modify, wp_bind, wp_zoom, wp_gets, wp_when;
      (destruct (negb _); [|split_and!; done]);
      apply wp_bind, wp_zoom; unfold clients_reset_ack_cold, reset_ack;
      apply wp_bind, wp_modify, wp_ret;
      (eapply wp_mono; [apply q_stop|]); cbv beta; intros _ s4 h4 (-> & t & ->); split_and!; done. }
  destruct (negb _); [|by apply Hrest].
  refine (Hrest (X_broadcast_msg E_MSG_INTENT_MODEM_COLD_RESET :: h) _). by apply quiet_cons.
Qed.

End second_half.

(** C4.  The second half of a cold reset: once the clients have been asked, or
    when there is none to ask, [reset_modem] has the driver watch for core dumps
    only, reset the modem and then watch for the next sign of it, the firmware
    download or the IPC, according to whether it has to be flashed; these are the
    only requests it makes.  The link is closed and the next recovery will ask
    the clients again. *)
Theorem recovery_resets_modem `{Platform} c r s h :
  files_ok -> recov_ok c r (reset s) -> 0 < c ->
  level_id (reset s) = E_EL_MODEM_COLD_RESET -> op (reset s) <> E_FORCE_OOS ->
  rm_state (reset s) = E_OPERATION_WAIT \/ connected (clients s) = 0 ->
  wp False reset_modem (fun _ s' h' =>
    if upgrade_err (flash s') =? MDM_UPDATE_ERR_NONE then
      let required := flash_required (flash s') in
      state s' = (if bool_decide (link_get_bb_type (mlink s) = E_LINK_USB) && required
                  then E_MMGR_MDM_START else E_MMGR_MDM_CONF_ONGOING) /\
      rm_state (reset s') = E_OPERATION_NONE /\ fd_tty s' = closed (fd_tty s) /\
      sent h' = sent h /\
      driver_calls h' = driver_calls h ++
        [MDM_CTRL_SET_POLLED_STATES MDM_CTRL_STATE_COREDUMP;
         reset_request (mcd s);
         MDM_CTRL_SET_POLLED_STATES ((if required then MDM_CTRL_STATE_FW_DOWNLOAD_READY
                                      else MDM_CTRL_STATE_IPC_READY) .| MDM_CTRL_STATE_COREDUMP)]
    else out_of_service s h s' h') s h.
Proof.
  intros Hok Hx Hc Hl Hop Hst. pose proof (fo_alloc Hok) as Ha. apply (begin_step c r); [done..|]. fold reset_at. intros l s1 h1 Hq Hb.
  destruct (Hb) as (f & x & -> & Hf & Hx' & Hrm & Hlx & Hif).
  rewrite (bool_decide_eq_false_2 _ Hop), andb_true_r in Hif.
  destruct (upgrade_err f =? MDM_UPDATE_ERR_NONE) eqn:Eu.
  2:{ subst l. rewrite Hif. eapply wp_mono; [by apply out_of_service_wp|]. cbv beta.
      intros _ s' h' [-> Hs']. cbn [flash put_reset put_flash]. rewrite Eu.
      by eapply out_of_service_quiet. }
  destruct Hif as (Ho & _ & Hcold). rewrite (Hcold Hl Hc) in *. unfold reset_at.
  cbn [hdler_pre_mdm]. apply wp_bind.
  eapply wp_mono; [apply (second_pre_wp c r); cbn [reset clients put_reset put_flash]; [done|]|].
  { destruct Hst as [Hst|Hst]; [left; congruence|by right]. }
  cbv beta. intros _ s2 h2 (Hq2 & Es & Er & Ef & Em & Ed & El).
  apply wp_bind, wp_zoom, wp_gets. rewrite Er. rewrite bool_decide_eq_false_2 by done.
  apply wp_bind. apply op_step; [exact Hlx|].
  change (terminal_level _) with false. cbv iota. cbn [hdler_mdm]. intros y h3 Hs3 Hd3.
  apply wp_bind, wp_zoom. eapply wp_mono; [apply reset_wp|]. cbv beta.
  intros _ m h4 (-> & Hs4 & Hd4).
  eapply wp_mono; [apply (finish_wp c r)|].
  { exact Hx'. }
  cbn [flash put_mcd put_fd_tty put_secur put_timer put_reset state fd_tty mcd].
  intros _ s5 h5 (E1 & E2 & E3 & E4 & E5 & E6). apply wp_ret.
  rewrite E3, Ef. cbn [flash put_reset put_flash]. rewrite Eu. cbv zeta.
  destruct Hq as [Hd1 Hs1], Hq2 as [Hd2 Hs2]. rewrite E1, Es. split_and!; try done.
  - rewrite E2, Ed. done.
  - congruence.
  - rewrite E6, Hd4, Hd3. cbn [mcd put_fd_tty put_secur put_timer put_mcd put_reset].
    rewrite Em, Ef, Hd2, Hd1, <- !app_assoc. done.
Qed.

(** A device that has a firmware for the modem. *)
Definition with_firmware : Platform := with_reply still (fun h cc =>
  match cc with
  | X_opendir _ => inr [(bytes "modem.fls", false)]
  | X_regexec _ _ => true
  | cc => @reply still h cc
  end).

Lemma with_firmware_ok : @files_ok with_firmware.
Proof. split; [done|]. intros h p _. split; [done|]. intros e [= <-]. by repeat constructor. Qed.

Lemma demo_recov_ok : recov_ok 1 1 (reset demo_data).
Proof. done. Qed.

Lemma recovery_out_of_service_witness :
  exists s' h', @reset_modem with_firmware
      (put_reset (set_op E_FORCE_OOS (reset demo_data)) demo_data) [] = Done E_ERR_SUCCESS s' h' /\
    state s' = E_MMGR_MDM_OOS /\
    driver_calls h' = [MDM_CTRL_SET_POLLED_STATES 64; MDM_CTRL_POWER_OFF].
Proof.
  destruct (wp_done _ _ _ _ (@recovery_out_of_service with_firmware 1 1
    (put_reset (set_op E_FORCE_OOS (reset demo_data)) demo_data) [] with_firmware_ok ltac:(done)
    (or_introl eq_refl))) as (ret & s' & h' & E & Hs & _ & _ & _ & _ & Hd & _).
  exists s', h'. split; [|split; [exact Hs|rewrite Hd; reflexivity]].
  rewrite E. f_equal. revert E. vm_compute. by intros [= <- _ _].
Defined.

Lemma recovery_asks_clients_witness :
  exists ret s' h', @reset_modem with_firmware demo_data [] = Done ret s' h' /\
    state s' = E_MMGR_WAIT_COLD_ACK /\ driver_calls h' = [].
Proof.
  destruct (wp_done _ _ _ _ (@recovery_asks_clients with_firmware 1 1 demo_data []
    with_firmware_ok ltac:(done) ltac:(done) ltac:(done) ltac:(done) ltac:(done) ltac:(done)))
    as (ret & s' & h' & E & Hs).
  exists ret, s', h'. split; [exact E|].
  assert (Hu : upgrade_err (flash s') = 0) by (revert E; vm_compute; by intros [= _ <- _]).
  rewrite Hu in Hs. destruct Hs as (H1 & _ & _ & _ & _ & _ & H2 & _). done.
Defined.

Lemma recovery_resets_modem_witness :
  exists ret s' h', @reset_modem with_firmware
      (put_reset (set_state E_OPERATION_WAIT (reset demo_data)) demo_data) [] = Done ret s' h' /\
    state s' = E_MMGR_MDM_CONF_ONGOING /\
    driver_calls h' = [MDM_CTRL_SET_POLLED_STATES 8; MDM_CTRL_COLD_RESET;
                       MDM_CTRL_SET_POLLED_STATES 40].
Proof.
  destruct (wp_done _ _ _ _ (@recovery_resets_modem with_firmware 1 1
    (put_reset (set_state E_OPERATION_WAIT (reset demo_data)) demo_data) []
    with_firmware_ok ltac:(done) ltac:(done) ltac:(done) ltac:(done) ltac:(by left)))
    as (ret & s' & h' & E & Hs).
  exists ret, s', h'. split; [exact E|].
  assert (Hu : upgrade_err (flash s') = 0) by (revert E; vm_compute; by intros [= _ <- _]).
  assert (Hf : flash_required (flash s') = true) by (revert E; vm_compute; by intros [= _ <- _]).
  rewrite Hu in Hs. cbv zeta in Hs. rewrite Hf in Hs. destruct Hs as (H1 & _ & _ & _ & H2).
  split; [exact H1|]. rewrite H2. reflexivity.
Defined.
