(* ===== verification/Requests.v ===== *)
(** What the daemon answers to its clients: the requests it refuses, and the
    acknowledgements and releases that make it move. *)
From S2P Require Import Prelude Platform Io Files At Msg Recov Clients Timer Link Mcd Firmware Mcdr Bus.
From S2P Require Import Secure Mmgr ModemEvents ClientEvents EventsManager Safety ClientSafety.
From S2P Require Import Recovery.

(** The requests served in each state; [fake] allows the fake ones. *)
Definition served (fake : bool) (st : e_mmgr_state) (rr : e_mmgr_requests) : bool :=
  match rr with
  | E_MMGR_SET_NAME | E_MMGR_SET_EVENTS => true
  | E_MMGR_RESOURCE_ACQUIRE =>
      bool_decide (st ∈ [E_MMGR_MDM_OFF; E_MMGR_MDM_UP; E_MMGR_MDM_START; E_MMGR_MDM_CONF_ONGOING;
                         E_MMGR_WAIT_COLD_ACK])
  | E_MMGR_RESOURCE_RELEASE =>
      bool_decide (st ∈ [E_MMGR_MDM_OFF; E_MMGR_WAIT_SHT_ACK; E_MMGR_WAIT_COLD_ACK; E_MMGR_MDM_UP])
  | E_MMGR_REQUEST_MODEM_RECOVERY => bool_decide (st ∈ [E_MMGR_MDM_UP; E_MMGR_WAIT_COLD_ACK])
  | E_MMGR_REQUEST_MODEM_RESTART | E_MMGR_REQUEST_FORCE_MODEM_SHUTDOWN
  | E_MMGR_REQUEST_MODEM_BACKUP_PRODUCTION => bool_decide (st = E_MMGR_MDM_UP)
  | E_MMGR_ACK_MODEM_COLD_RESET => bool_decide (st = E_MMGR_WAIT_COLD_ACK)
  | E_MMGR_ACK_MODEM_SHUTDOWN => bool_decide (st = E_MMGR_WAIT_SHT_ACK)
  | E_MMGR_REQUEST_MODEM_FUSE_INFO | E_MMGR_REQUEST_MODEM_GET_HW_ID => false
  | _ => fake
  end.

Definition registered (cl : client) : bool := (cnx cl .& E_CNX_NAME) && (cnx cl .& E_CNX_FILTER).

Section requests.
Context `{Platform}.
Implicit Types (s : mmgr_data) (h : history).

Lemma put_clients_id s : put_clients (clients s) s = s.
Proof. by destruct s. Qed.

(** The requester is told of an event without data. *)
Lemma tell_requester_wp i cl ev s h : alloc_ok -> carries ev P_null ->
  req_client (request s) = Some i -> clist (clients s) !! i = Some cl ->
  wp False (tell_requester ev P_null) (fun _ s' h' => s' = s /\
    driver_calls h' = driver_calls h /\ exists ws, sent h' = sent h ++ ws /\
      delivered (if subscribed cl ev then [cl] else []) ev P_null ws) s h.
Proof.
  intros Ha Hc Hi Hcl. unfold tell_requester. apply wp_bind, wp_get. rewrite Hi. apply wp_zoom.
  unfold client_inform. apply wp_bind. eapply run_wp; [by apply deref_eq|].
  eapply wp_mono; [eapply wp_within; [apply (inform_within (R := eq))|by apply inform_wp]|]. cbv beta.
  intros ret c' h' ((-> & ws & Hs & Hd) & _ & Hx). split; [apply put_clients_id|].
  split; [by apply driver_extends|]. by exists ws.
Qed.

(** An entry of the table that is not served answers with a NACK. *)
Lemma unserved_handler fake st rr : served fake st rr = false ->
  hdler_client fake st rr = tell_requester E_MMGR_NACK P_null.
Proof. intros Hs. destruct rr; destruct st, fake; (discriminate Hs || reflexivity). Qed.

(** Setting a flag of the requester. *)
Lemma set_client_request_wp i cl x s h :
  req_client (request s) = Some i -> clist (clients s) !! i = Some cl ->
  wp False (set_client_request x) (fun _ s' h' => h' = h /\
    s' = put_clients (set_clist (<[i := set_cnx (cnx cl .| x) cl]> (clist (clients s))) (clients s)) s) s h.
Proof.
  intros Hi Hcl. unfold set_client_request. apply wp_bind, wp_get. rewrite Hi.
  apply wp_bind, wp_zoom. eapply run_wp; [by apply client_set_request_eq|]. by apply wp_ret.
Qed.

Lemma file_copy_total a b s h : wp False (file_copy a b) (fun _ s' _ => s' = s) s h.
Proof.
  unfold file_copy. wp_call. destruct (_ <? 0); [done|]. wp_call. destruct (_ <? 0); [by wp_calls|].
  wp_call. apply wp_bind. destruct (reply _ (X_fstat _)); by wp_calls.
Qed.

Lemma backup_wp f s h :
  wp False (mdm_fw_backup_calib f) (fun _ s' h' => s' = s /\ driver_calls h' = driver_calls h) s h.
Proof.
  unfold mdm_fw_backup_calib, mdm_fw_get_calib_files.
  eapply wp_mono; [eapply wp_within; [|apply file_copy_total]|].
  - instantiate (1 := not_ioctl). instantiate (1 := eq). within_auto.
  - cbv beta. intros _ s' h' (-> & _ & Hx). split; [done|]. by apply driver_extends.
Qed.

End requests.

(** C15.  A request is refused when its client is not registered yet, unless it is
    part of the registration, or when the state of the daemon does not serve it:
    the client is sent a NACK, if it subscribed to it, and nothing else happens,
    neither to the daemon nor to the modem. *)
Theorem refused_request `{Platform} i cl rr ret s h :
  alloc_ok -> state s <> E_MMGR_NUM ->
  req_client (request s) = Some i -> clist (clients s) !! i = Some cl ->
  request_of_id (id (req_hdr (request s))) = Some rr ->
  registered cl || is_registration rr = false \/ served (fake_requests s) (state s) rr = false ->
  wp False (handle_request ret) (fun _ s' h' => s' = s /\ driver_calls h' = driver_calls h /\
    exists ws, sent h' = sent h ++ ws /\
      delivered (if subscribed cl E_MMGR_NACK then [cl] else []) E_MMGR_NACK P_null ws) s h.
Proof.
  intros Ha Hn Hi Hcl Hr Hor. unfold handle_request. apply wp_bind, wp_get. rewrite Hr, Hi.
  apply wp_bind, wp_zoom. unfold client_is_registered. apply wp_bind.
  eapply run_wp; [by apply deref_eq|]. apply wp_ret. rewrite put_clients_id.
  fold (registered cl). destruct (negb (registered cl) && negb (is_registration rr)) eqn:E.
  - apply wp_bind. eapply wp_mono; [by apply (tell_requester_wp i cl)|]. done.
  - destruct Hor as [Hor|Hor].
    { rewrite <- negb_orb, Hor in E. done. }
    unfold dispatch. apply wp_bind, wp_get. rewrite bool_decide_eq_false_2 by done.
    rewrite unserved_handler by done. by apply (tell_requester_wp i cl).
Qed.

(** Every open client that was asked has acknowledged. *)
Definition all_acked (ev : e_mmgr_events) (flag : Z) (l : list client) : bool :=
  forallb (fun cl => negb (open cl && subscribed cl ev) || (Z.land (cnx cl) flag =? flag)) l.

(** An acknowledgement of the cold reset: it is recorded, and the reset goes
    on exactly when every open client that subscribed to the notification has
    acknowledged; until then the daemon keeps waiting. *)
Theorem ack_cold_reset_spec `{Platform} i cl s h :
  alloc_ok -> req_client (request s) = Some i -> clist (clients s) !! i = Some cl ->
  let l := <[i := set_cnx (cnx cl .| E_CNX_COLD_RESET) cl]> (clist (clients s)) in
  let all := all_acked E_MMGR_NOTIFY_MODEM_COLD_RESET E_CNX_COLD_RESET l in
  wp False request_ack_cold_reset (fun _ s' h' =>
    state s' = (if all then E_MMGR_MDM_RESET else state s) /\
    cli_req (events s') = (if all then E_CLI_REQ_RESET else cli_req (events s)) /\
    clist (clients s') = l /\ driver_calls h' = driver_calls h) s h.
Proof.
  intros Ha Hi Hcl l all. unfold request_ack_cold_reset. apply wp_bind.
  eapply wp_mono; [by apply (set_client_request_wp i cl)|]. cbv beta. fold l.
  intros _ s1 h1 [-> ->]. apply wp_bind, wp_zoom. unfold clients_has_ack_cold, check_all_clients_ack.
  apply wp_bind, wp_get, wp_ret. cbn [clients put_clients clist set_clist].
  change (event_id _ <? _) with false. cbv iota. rewrite check_ack_loop_forallb, andb_true_l.
  fold (all_acked E_MMGR_NOTIFY_MODEM_COLD_RESET E_CNX_COLD_RESET l). fold all.
  apply wp_bind, wp_when. destruct all; [|by split_and!].
  apply wp_bind, wp_get. apply wp_bind, wp_when.
  assert (Hend : forall s2 h2, clist (clients s2) = l -> driver_calls h2 = driver_calls h ->
    wp False (set_cli_req E_CLI_REQ_RESET ;; set_mmgr_state E_MMGR_MDM_RESET)
      (fun _ s' h' => wp False (mret E_ERR_SUCCESS) (fun _ s' h' =>
         state s' = E_MMGR_MDM_RESET /\ cli_req (events s') = E_CLI_REQ_RESET /\
         clist (clients s') = l /\ driver_calls h' = driver_calls h) s' h') s2 h2).
  { intros s2 h2 El Ed. unfold set_cli_req, set_mmgr_state, on_events.
    apply wp_bind, wp_zoom, wp_modify, wp_modify, wp_ret. by split_and!. }
  destruct (_ .& _); [|by apply Hend]. apply wp_bind.
  eapply wp_mono; [apply backup_wp|]. cbv beta. intros r s2 h2 [-> Hd2].
  apply wp_when. destruct (succeeded r); [|by apply Hend].
  eapply wp_mono; [by apply q_tell|]. cbv beta. intros _ s3 h3 (-> & Hd3 & _).
  apply Hend; [done|congruence].
Qed.

(** A client that releases the modem: the modem is shut down exactly when
    no open client holds it any more and the device has a single modem; the
    clients are then asked to acknowledge, and the only timer left armed is the
    one of this acknowledgement. *)
Theorem resource_release_spec `{Platform} i cl s h :
  alloc_ok -> req_client (request s) = Some i -> clist (clients s) !! i = Some cl ->
  timeout (timer s) E_TIMER_MODEM_SHUTDOWN_ACK <> 0 ->
  let l := <[i := set_cnx (cnx cl .| E_CNX_RESOURCE_RELEASED) cl]> (clist (clients s)) in
  let off := negb (existsb (fun c => open c && negb (Z.land (cnx c) E_CNX_RESOURCE_RELEASED
                                                     =? E_CNX_RESOURCE_RELEASED)) l)
             && negb (dsda s) in
  wp False request_resource_release (fun _ s' h' =>
    state s' = (if off then E_MMGR_WAIT_SHT_ACK else state s) /\
    clist (clients s') = l /\ driver_calls h' = driver_calls h /\
    (if off then forall t, armed (timer s') t = bool_decide (t = E_TIMER_MODEM_SHUTDOWN_ACK)
     else timer s' = timer s)) s h.
Proof.
  intros Ha Hi Hcl Ht l off. unfold request_resource_release, ack, client_ack.
  apply wp_bind, wp_bind. eapply wp_mono; [by apply (tell_requester_wp i cl)|]. cbv beta.
  intros _ s1 h1 (-> & Hd1 & _). apply wp_ret, wp_bind.
  eapply wp_mono; [by apply (set_client_request_wp i cl)|]. cbv beta. fold l.
  intros _ s2 h2 [-> ->]. apply wp_bind, wp_zoom. unfold clients_has_resource.
  apply wp_bind, wp_get, wp_ret. cbn [clients put_clients clist set_clist].
  rewrite has_resource_loop_existsb, orb_false_l. apply wp_bind, wp_get, wp_bind, wp_when.
  cbn [dsda put_clients]. fold off. destruct off; [|by split_and!].
  apply wp_bind. eapply wp_mono; [by apply q_tell|]. cbv beta. intros _ s3 h3 (-> & Hd3 & _).
  apply wp_bind. eapply wp_mono; [apply q_stop_all|]. cbv beta. intros _ s4 h4 [-> ->].
  unfold start_timer, timer_start. apply wp_bind, wp_bind, wp_zoom. wp_call.
  apply wp_bind, wp_get, wp_bind, wp_when. cbn [timer put_timer put_clients timeout set_ttype].
  rewrite (proj2 (Z.eqb_neq _ _) Ht). cbn [negb].
  apply wp_bind, wp_modify, wp_modify, wp_ret, wp_ret. unfold set_mmgr_state.
  apply wp_modify, wp_ret. split_and!; try done.
  - rewrite driver_cons_other by done. congruence.
  - intros t. cbn [timer put_state put_timer]. rewrite armed_testbit. cbn [ttype set_ttype set_end].
    unfold tbit. rewrite testbit_set, Z.bits_0, orb_false_r, timer_id_eqb by lia. done.
Qed.

(** The client of [demo_data] makes a request. *)
Definition asks (rid : Z) : mmgr_data :=
  put_request {| req_hdr := {| id := rid; ts := 0; len := 0 |}; req_data := None;
                 req_client := Some 0%nat |} demo_data.

Lemma refused_request_witness :
  wp False (@handle_request still E_ERR_FAILED)
    (fun _ s' h' => s' = asks 8 /\ length (sent h') = 1%nat) (asks 8) [].
Proof.
  eapply wp_mono; [apply (@refused_request still 0%nat (demo_client 7) E_MMGR_ACK_MODEM_SHUTDOWN);
    try done; by right|].
  cbv beta. intros _ s' h' (-> & _ & ws & -> & Hd). split; [done|].
  change (length ws = 1%nat). by rewrite <- (Forall2_length Hd).
Defined.

Lemma ack_cold_reset_spec_witness :
  wp False (@request_ack_cold_reset still)
    (fun _ s' _ => state s' = E_MMGR_MDM_RESET) (asks 7) [].
Proof.
  eapply wp_mono; [by apply (@ack_cold_reset_spec still 0%nat (demo_client 7))|].
  cbv beta zeta. intros _ s' h' [-> _]. reflexivity.
Defined.

Lemma resource_release_spec_witness :
  wp False (@request_resource_release still)
    (fun _ s' _ => state s' = E_MMGR_WAIT_SHT_ACK) (asks 3) [].
Proof.
  eapply wp_mono; [by apply (@resource_release_spec still 0%nat (demo_client 7))|].
  cbv beta zeta. intros _ s' h' [-> _]. reflexivity.
Defined.
