(* ===== verification/FuelGauge.v ===== *)
(** The configuration of the fuel gauge: em_common/fg_config/fg_conf_helper.c, the
    tool that restores the saved state of the battery's gauge at boot and saves
    it at shutdown.

    A packed structure is the list of its bytes, its 16-bit fields little-endian.
    A descriptor is the path it was opened on: each is read or written once.
    Logging is left out, but for the one message that prints the identifiers of the
    batteries as strings; indeterminate memory is what [G_uninit] answers. *)
From S2P Require Import Prelude.

(** * The boundary *)

Inductive gcall :=
| G_open (path : list Z)                   (* O_RDONLY *)
| G_open_w (path : list Z)                 (* O_WRONLY *)
| G_creat (path : list Z)                  (* O_WRONLY | O_CREAT *)
| G_read (path : list Z) (len : Z) | G_write (path data : list Z) | G_close (path : list Z)
| G_opendir (path : list Z) | G_closedir
| G_malloc (size : Z) | G_uninit (size : nat)
| G_dump_header (header : list Z) | G_dump (table : list Z).

(** What each gives: an error number, or its result. *)
Definition gans (c : gcall) : Type :=
  match c with
  | G_open _ | G_open_w _ | G_creat _ => option positive
  | G_read _ _ => positive + list Z
  | G_write _ _ => positive + Z
  | G_opendir _ => positive + list (list Z)
  | G_malloc _ => bool
  | G_uninit _ => list Z
  | G_close _ | G_closedir | G_dump_header _ | G_dump _ => unit
  end.

Class Gauge := { g_answer : list gcall -> forall c, gans c }.

(** The state of the tool: the static [is_xpwr]. *)
Abbreviation FG A := (M (list gcall) bool A).

Definition sys `{Gauge} (c : gcall) : FG (gans c) := fun s h => Done (g_answer h c) s (c :: h).

(** A function that returns zero and its result, or the number of an error; [try]
    goes on with the result. *)
Definition try {A B} (m : FG (Z + A)) (k : A -> FG (Z + B)) : FG (Z + B) :=
  r ← m; match r with inl e => mret (inl e) | inr a => k a end.

Notation "x '←!' m ; k" := (try m (fun x => k)) (at level 100, m at next level, right associativity)
  : mmgr_scope.

Definition ENOENT : Z := 2.
Definition EIO : Z := 5.
Definition ENOMEM : Z := 12.
Definition EINVAL : Z := 22.
Definition ENODATA : Z := 61.
Definition PATH_MAX : Z := 4096.

(** * Layouts *)

Definition XPWR_PRIMARY_FILE : list Z := bytes "/system/etc/fg_config_xpwr.bin".
Definition XPWR_CONFIG_SIZE : Z := 38.
Definition XPWR_SEC_CONFIG_SIZE : Z := 40.
Definition INTEL_FG_DEV_FILE : list Z := bytes "/dev/intel_fg".
Definition PRIMARY_FILE : list Z := bytes "/system/etc/fg_config.bin".
Definition SECONDARY_FILE : list Z := bytes "/config/em/battid.dat".
Definition DEV_FILE : list Z := bytes "/dev/fg".
Definition POWER_SUPPLY_PATH : list Z := bytes "/sys/class/power_supply/".
Definition MAX_COMMAND_LINE_BUF : Z := 1024.
Definition MAX_TABLE_NAME_SIZE : nat := 8.
Definition MAX_BATTID_SIZE : nat := 8.
Definition MODEL_NAME_SIZE : nat := 2.
Definition MAX_SERIAL_NUM_SIZE : nat := 12.
Definition MAX_FG_TABLES : Z := 15.

(** [sizeof] of the structures. *)
Definition primary_header_size : nat := 8.
Definition table_size : nat := 162.
Definition sec_file_size : nat := 177.

(** A table without its checksum. *)
Definition table_data_size : nat := 160.

Definition MAX_PRIM_FILE_SIZE : Z :=
  Z.of_nat primary_header_size + MAX_FG_TABLES * Z.of_nat table_size.

(** The 16-bit field at [off]. *)
Definition u16 (off : nat) (buf : list Z) : Z :=
  (default 0 (buf !! off) + 256 * default 0 (buf !! (off + 1)%nat)) mod 2 ^ 16.

Definition le16 (z : Z) : list Z := [z mod 256; z / 256 mod 256].

(** Bytes stored at [off]. *)
Definition put_at (off : nat) (l buf : list Z) : list Z :=
  take off buf ++ l ++ drop (off + length l) buf.

(** [struct primary_header]. *)
Definition file_size (header : list Z) : Z := u16 2 header.
Definition header_cksum (header : list Z) : Z := u16 4 header.

(** [struct table_body]: its fields start at these offsets. *)
Definition table_name (t : list Z) : list Z := drop 5 t.
Definition table_battid (t : list Z) : list Z := drop 13 t.
Definition table_cksum (t : list Z) : Z := u16 160 t.
Definition set_config_init (t : list Z) : list Z := put_at 21 [1] t.

(** [struct sec_file_body], of which the table is the first part. *)
Definition sec_pcksum (s : list Z) : Z := u16 162 s.
Definition sec_serial (s : list Z) : list Z := drop 164 s.

(** [short] and [unsigned short]. *)
Definition int16 (z : Z) : Z := (z + 2 ^ 15) mod 2 ^ 16 - 2 ^ 15.
Definition uint16 (z : Z) : Z := z mod 2 ^ 16.

Definition checksum (buf : list Z) (len : nat) : Z :=
  uint16 (fold_left (fun chksum d => int16 (chksum + d)) (take len buf) 0).

(** [strncmp(a, b, n) == 0]; [None] when it reads past the end of a buffer. *)
Fixpoint strncmp_eq (n : nat) (a b : list Z) : option bool :=
  match n, a, b with
  | O, _, _ => Some true
  | S n', x :: a', y :: b' =>
      if x =? y then if x =? 0 then Some true else strncmp_eq n' a' b' else Some false
  | S _, _, _ => None
  end.

Definition terminated (l : list Z) : bool := existsb (Z.eqb 0) l.

Section fg_conf.
Context `{Gauge}.

Definition lift_ub {A} (o : option A) : FG A :=
  match o with Some a => mret a | None => undefined end.

(** * The files *)

(** The whole of [size] bytes read from a file, or [ENODATA]. *)
Definition read_exactly (path : list Z) (size : Z) : FG (Z + list Z) :=
  o ← sys (G_open path);
  match o with
  | Some errno => mret (inl (Zpos errno))
  | None =>
      r ← sys (G_read path size);
      sys (G_close path) ;;
      mret (match r with
            | inr d => if Z.of_nat (length d) =? size then inr d else inl ENODATA
            | inl _ => inl ENODATA
            end)
  end.

Definition read_primary_header : FG (Z + list Z) :=
  pheader ←! read_exactly PRIMARY_FILE (Z.of_nat primary_header_size);
  mret (if MAX_PRIM_FILE_SIZE <? file_size pheader then inl EINVAL else inr pheader).

Definition read_primary_file (size : Z) : FG (Z + list Z) := read_exactly PRIMARY_FILE size.

Definition read_xpwr_primary_file : FG (Z + list Z) :=
  read_exactly XPWR_PRIMARY_FILE XPWR_CONFIG_SIZE.

Definition read_secondary_file : FG (Z + list Z) :=
  read_exactly SECONDARY_FILE (Z.of_nat sec_file_size).

Definition read_xpwr_secondary_file : FG (Z + list Z) :=
  read_exactly SECONDARY_FILE XPWR_SEC_CONFIG_SIZE.

(** * The battery *)

Definition dot (name : list Z) : bool :=
  bool_decide (name = bytes ".") || bool_decide (name = bytes "..").

Definition attr_path (ps_name attr : list Z) : list Z :=
  in_buffer PATH_MAX (POWER_SUPPLY_PATH ++ bytes "/" ++ ps_name ++ bytes "/" ++ attr).

(** [if (buf[length - 1] == '\n') buf[length - 1] = 0]. *)
Definition chomp (length : nat) (buf : list Z) : list Z :=
  if bool_decide (buf !! (length - 1)%nat = Some 10) then <[(length - 1)%nat := 0]> buf else buf.

(** The loop over the entries of the folder; [buf] is kept between them. *)
Fixpoint ps_name_loop (entries : list (list Z)) (buf : list Z) : FG (Z + list Z) :=
  match entries with
  | [] => sys G_closedir ;; mret (inl ENOENT)
  | ps_name :: entries' =>
      if dot ps_name then ps_name_loop entries' buf
      else
        o ← sys (G_open (attr_path ps_name (bytes "type")));
        match o with
        | Some errno => sys G_closedir ;; mret (inl (Zpos errno))
        | None =>
            r ← sys (G_read (attr_path ps_name (bytes "type")) 20);
            sys (G_close (attr_path ps_name (bytes "type"))) ;;
            match r with
            | inr (c :: d) =>
                let buf := chomp (length (c :: d)) ((c :: d) ++ drop (length (c :: d)) buf) in
                if bool_decide (cstr buf = bytes "Battery") then
                  when (contains (bytes "dollar") ps_name) (modify (fun _ => true)) ;;
                  sys G_closedir ;;
                  mret (inr (in_buffer PATH_MAX ps_name))
                else ps_name_loop entries' buf
            | _ => ps_name_loop entries' buf
            end
        end
  end.

Definition get_battery_ps_name : FG (Z + list Z) :=
  buf ← sys (G_uninit 20);
  dir ← sys (G_opendir POWER_SUPPLY_PATH);
  match dir with
  | inl errno => mret (inl (Zpos errno))
  | inr entries => ps_name_loop entries buf
  end.

(** At most [len] bytes of an attribute of the battery. *)
Definition read_attr (attr : list Z) (len : nat) : FG (Z + list Z) :=
  ps_batt_name ←! get_battery_ps_name;
  o ← sys (G_open (attr_path ps_batt_name attr));
  match o with
  | Some errno => mret (inl (Zpos errno))
  | None =>
      r ← sys (G_read (attr_path ps_batt_name attr) (Z.of_nat len));
      sys (G_close (attr_path ps_batt_name attr)) ;;
      mret (match r with inl errno => inl (Zpos errno) | inr d => inr d end)
  end.

Definition get_battid (battid : list Z) : FG (Z + list Z) :=
  d ←! read_attr (bytes "model_name") MODEL_NAME_SIZE;
  mret (inr (d ++ drop (length d) battid)).

Definition get_serial_num (serial_num : list Z) : FG (Z + list Z) :=
  d ←! read_attr (bytes "serial_number") MAX_SERIAL_NUM_SIZE;
  mret (inr (<[length d := 0]> (d ++ drop (length d) serial_num))).

(** [char serial_num[MAX_SERIAL_NUM_SIZE + 1] = {'\0'}]. *)
Definition no_serial : list Z := replicate (MAX_SERIAL_NUM_SIZE + 1) 0.

(** * The checks *)

(** [buf] is the whole buffer of [size] bytes. *)
Definition is_prim_cksum_ok (buf : list Z) : FG bool :=
  if (length buf <? 6)%nat then undefined
  else mret (checksum (put_at 4 [0; 0] buf) (length buf) =? header_cksum buf).

Definition is_sec_cksum_ok (sbuf : list Z) : bool :=
  checksum sbuf table_data_size =? table_cksum sbuf.

(** * The device *)

Definition write_dev (path data : list Z) : FG Z :=
  o ← sys (G_open_w path);
  match o with
  | Some errno => mret (Zpos errno)
  | None =>
      r ← sys (G_write path data);
      sys (G_close path) ;;
      mret (match r with
            | inl errno => Zpos errno
            | inr n => if n =? Z.of_nat (length data) then 0 else EIO
            end)
  end.

Definition write_to_intel_fg_dev (buf : list Z) : FG Z :=
  write_dev INTEL_FG_DEV_FILE (take (Z.to_nat (XPWR_CONFIG_SIZE - 2)) buf).

Definition write_to_dev (fg_tbl : list Z) : FG Z := write_dev DEV_FILE (take table_data_size fg_tbl).

(** * The choice of the configuration *)

(** The loop over the tables of the primary file from [size] on. *)
Fixpoint primary_loop (fuel : nat) (pbuf ps_batt_name battid : list Z) (size : nat) : FG (Z + list Z) :=
  match fuel with
  | O => undefined
  | S n =>
      if file_size pbuf <=? Z.of_nat size then mret (inl EINVAL)
      else
        let temp_tbl := drop size pbuf in
        same_name ← lift_ub (strncmp_eq MAX_TABLE_NAME_SIZE (table_name temp_tbl) (ps_batt_name ++ [0]));
        same_id ← (if (same_name : bool)
                   then lift_ub (strncmp_eq MODEL_NAME_SIZE (table_battid temp_tbl) battid)
                   else mret false);
        if (same_id : bool) then
          if (length temp_tbl <? table_size)%nat then undefined
          else mret (inr (take table_size temp_tbl))
        else primary_loop n pbuf ps_batt_name battid (size + table_size)
  end.

Definition get_primary_fg_config (pbuf battid : list Z) : FG (Z + list Z) :=
  ps_batt_name ←! get_battery_ps_name;
  primary_loop (S (Z.to_nat (file_size pbuf))) pbuf ps_batt_name battid primary_header_size.

Definition isCOS : FG bool :=
  cmdline_buf ← sys (G_uninit (Z.to_nat MAX_COMMAND_LINE_BUF));
  o ← sys (G_open (bytes "/proc/cmdline"));
  match o with
  | Some _ => mret false
  | None =>
      r ← sys (G_read (bytes "/proc/cmdline") MAX_COMMAND_LINE_BUF);
      sys (G_close (bytes "/proc/cmdline")) ;;
      match r with
      | inr (c :: d) =>
          let buf := (c :: d) ++ drop (length (c :: d)) cmdline_buf in
          let line := cstr (in_buffer MAX_COMMAND_LINE_BUF buf) in
          mret (match strstr (bytes "androidboot.mode=") line with
                | Some k => is_prefix (bytes "charger") (drop (k + length (bytes "androidboot.mode=")) line)
                | None => false
                end)
      | _ => mret false
      end
  end.

(** [read_pri_config]. *)
Definition read_pri_config (is_pcksum_ok : bool) (pbuf battid : list Z) : FG (Z + list Z) :=
  if negb is_pcksum_ok then mret (inl (- EINVAL))
  else
    tbl ←! get_primary_fg_config pbuf battid;
    inCOS ← isCOS;
    mret (inr (if (inCOS : bool) then set_config_init tbl else tbl)).

(** The tests on a secondary file whose checksum is right.  A mismatch of the
    identifiers is logged with [%s] of both, which reads on to a zero: past the
    identifier when nothing ends it. *)
Definition sec_matches (sbuf battid serial_num pheader : list Z) : FG bool :=
  same_id ← lift_ub (strncmp_eq MODEL_NAME_SIZE (table_battid sbuf) battid);
  if negb same_id then
    if terminated (take MAX_BATTID_SIZE (table_battid sbuf)) && terminated battid then mret false
    else undefined
  else if negb (terminated (sec_serial sbuf)) then undefined
  else
    let serial := cstr (sec_serial sbuf) in
    if negb (length serial =? length (cstr serial_num))%nat then mret false
    else
      same ← lift_ub (strncmp_eq (length (cstr serial_num)) (sec_serial sbuf) serial_num);
      mret (same && (header_cksum pheader =? sec_pcksum sbuf)).

(** The part of [get_fg_config_table] for the tables of maxim gauges. *)
Definition get_table_config (battid : list Z) : FG (Z + list Z) :=
  serial_num ←! get_serial_num no_serial;
  pheader ←! read_primary_header;
  ok ← sys (G_malloc (file_size pheader));
  if negb ok then mret (inl ENOMEM)
  else
    pbuf ←! read_primary_file (file_size pheader);
    is_pcksum_ok ← is_prim_cksum_ok pbuf;
    sec ← read_secondary_file;
    match sec with
    | inl _ => read_pri_config is_pcksum_ok pbuf battid
    | inr sbuf =>
        if negb is_pcksum_ok && negb (is_sec_cksum_ok sbuf) then mret (inl EINVAL)
        else
          use_sec ← (if is_sec_cksum_ok sbuf then sec_matches sbuf battid serial_num pheader
                     else mret false);
          if (use_sec : bool) then mret (inr (take table_size sbuf))
          else read_pri_config is_pcksum_ok pbuf battid
    end.

(** The part for the gauge of Intel, whose configuration has no tables. *)
Definition get_xpwr_config : FG Z :=
  ok ← sys (G_malloc XPWR_SEC_CONFIG_SIZE);
  if negb ok then mret ENOMEM
  else
    ok ← sys (G_malloc XPWR_CONFIG_SIZE);
    if negb ok then mret ENOMEM
    else
      sec ← read_xpwr_secondary_file;
      let xpwr_sbuf := match sec with inr s => s | inl _ => [] end in
      let use_sec_file := match sec with inr s => checksum s 38 =? u16 38 s | inl _ => false end in
      pri ← read_xpwr_primary_file;
      match pri with
      | inl _ => mret EINVAL
      | inr xpwr_pbuf =>
          let pcksum := checksum xpwr_pbuf 36 in
          if negb (pcksum =? u16 36 xpwr_pbuf) && negb use_sec_file then mret EINVAL
          else if use_sec_file && (pcksum =? u16 36 xpwr_sbuf) then write_to_intel_fg_dev xpwr_sbuf
          else write_to_intel_fg_dev xpwr_pbuf
      end.

(** The status, and the table [sec_tbl] points to. *)
Definition get_fg_config_table (sec_tbl : list Z) : FG (Z * list Z) :=
  battid ← sys (G_uninit MAX_BATTID_SIZE);
  id ← get_battid battid;
  match id with
  | inl e => mret (e, sec_tbl)
  | inr battid =>
      is_xpwr ← get;
      if (is_xpwr : bool) then ret ← get_xpwr_config; mret (ret, sec_tbl)
      else
        r ← get_table_config battid;
        mret (match r with inl e => (e, sec_tbl) | inr tbl => (0, tbl) end)
  end.

(** * Saving *)

Definition write_sec (data : list Z) : FG Z :=
  r ← sys (G_write SECONDARY_FILE data);
  sys (G_close SECONDARY_FILE) ;;
  mret (match r with
        | inl _ => ENODATA
        | inr n => if n =? Z.of_nat (length data) then 0 else ENODATA
        end).

Definition write_xpwr_sec (buf : list Z) : FG Z :=
  o ← sys (G_creat SECONDARY_FILE);
  match o with
  | Some errno => mret (Zpos errno)
  | None =>
      r ← read_xpwr_primary_file;
      let buf := match r with inr tmp => put_at 36 (take 2 (drop 36 tmp)) buf | inl _ => buf end in
      write_sec (put_at 38 (le16 (checksum buf 38)) buf)
  end.

Definition write_sec_config (sbuf : list Z) : FG Z :=
  o ← sys (G_creat SECONDARY_FILE);
  match o with
  | Some errno => mret (Zpos errno)
  | None =>
      pheader ← read_primary_header;
      match pheader with
      | inl _ => sys (G_close SECONDARY_FILE) ;; mret ENODATA
      | inr pheader =>
          let sbuf := put_at 162 (le16 (header_cksum pheader)) sbuf in
          let sbuf := put_at 160 (le16 (checksum sbuf table_data_size)) sbuf in
          serial_num ← get_serial_num no_serial;
          match serial_num with
          | inl _ => sys (G_close SECONDARY_FILE) ;; mret ENODATA
          | inr serial_num => write_sec (put_at 164 (cstr serial_num ++ [0]) sbuf)
          end
      end
  end.

(** * The commands *)

Definition write_fgdev_config : FG Z :=
  sbuf ← sys (G_uninit sec_file_size);
  '(ret, tbl) ← get_fg_config_table (take table_size sbuf);
  if negb (ret =? 0) then mret ret
  else is_xpwr ← get; if (is_xpwr : bool) then mret 0 else write_to_dev tbl.

(** What is read of a device: all of [size] bytes, or a status. *)
Definition read_dev (path : list Z) (size : nat) : FG (Z + list Z) :=
  r ← sys (G_read path (Z.of_nat size));
  match r with
  | inr d => if (length d =? size)%nat then mret (inr d) else sys (G_close path) ;; mret (inl ENODATA)
  | inl errno => sys (G_close path) ;; mret (inl (Zpos errno))
  end.

Definition read_fg_write_sec : FG Z :=
  sbuf ← sys (G_uninit sec_file_size);
  xpwr_sbuf ← sys (G_uninit (Z.to_nat XPWR_SEC_CONFIG_SIZE));
  r ← get_battery_ps_name;
  is_xpwr ← get;
  if match r with inr _ => is_xpwr | inl _ => false end then
    o ← sys (G_open INTEL_FG_DEV_FILE);
    match o with
    | Some errno => mret (Zpos errno)
    | None =>
        d ← read_dev INTEL_FG_DEV_FILE (Z.to_nat (XPWR_CONFIG_SIZE - 2));
        match d with
        | inl e => mret e
        | inr d =>
            ret ← write_xpwr_sec (d ++ drop (length d) xpwr_sbuf);
            sys (G_close INTEL_FG_DEV_FILE) ;;
            mret ret
        end
    end
  else
    o ← sys (G_open DEV_FILE);
    match o with
    | Some errno => mret (Zpos errno)
    | None =>
        d ← read_dev DEV_FILE table_data_size;
        match d with
        | inl e => mret e
        | inr d =>
            _ ← write_sec_config (d ++ drop (length d) sbuf);
            sys (G_close DEV_FILE) ;;
            mret 0
        end
    end.

Definition dump_config (config : list Z) : FG Z :=
  if (length config <? table_size)%nat then undefined
  else sys (G_dump (take table_size config)) ;; mret 0.

(** [dump_config] of each table of the primary file. *)
Fixpoint dump_loop (fuel : nat) (pbuf : list Z) (size : Z) (offset : nat) : FG Z :=
  match fuel with
  | O => undefined
  | S n =>
      if size <=? Z.of_nat offset then mret 0
      else
        ret ← dump_config (drop offset pbuf);
        if negb (ret =? 0) then mret ret else dump_loop n pbuf size (offset + table_size)
  end.

Definition dump_primary : FG Z :=
  h ← read_primary_header;
  match h with
  | inl e => mret e
  | inr pheader =>
      sys (G_dump_header pheader) ;;
      ok ← sys (G_malloc (file_size pheader));
      if negb ok then mret ENOMEM
      else
        p ← read_primary_file (file_size pheader);
        match p with
        | inl e => mret e
        | inr pbuf =>
            dump_loop (S (Z.to_nat (file_size pheader))) pbuf (file_size pheader) primary_header_size
        end
  end.

(** [sel] is the character after [-d], zero if there is none. *)
Definition dump_fg_config (sel : Z) : FG Z :=
  sbuf ← sys (G_uninit sec_file_size);
  if sel =? 112 (* 'p' *) then dump_primary
  else if sel =? 115 (* 's' *) then
    r ← read_secondary_file;
    match r with inl e => mret e | inr sbuf => dump_config sbuf end
  else if sel =? 0 then
    '(ret, tbl) ← get_fg_config_table (take table_size sbuf);
    if negb (ret =? 0) then mret ret else dump_config tbl
  else mret EINVAL.

(** [argv] without the name of the program. *)
Definition main (argv : list (list Z)) : FG Z :=
  match argv with
  | [arg] =>
      let c (i : nat) := default 0 (arg !! i) in
      if c 0%nat =? 45 (* '-' *) then
        if c 1%nat =? 119 (* 'w' *) then write_fgdev_config
        else if c 1%nat =? 114 (* 'r' *) then read_fg_write_sec
        else if c 1%nat =? 100 (* 'd' *) then dump_fg_config (c 2%nat)
        else if c 1%nat =? 104 (* 'h' *) then mret 0
        else mret EINVAL
      else mret EINVAL
  | _ => mret (- EINVAL)
  end.

End fg_conf.
