(* ===== verification/FuelGaugeSpec.v ===== *)
(** Theorems about the configuration of the fuel gauge (FuelGauge.v), on a system
    that keeps its files. *)
From S2P Require Import Prelude FuelGauge.

(** * Calls *)

(** The calls that change no file. *)
Definition reads (c : gcall) : bool :=
  match c with G_write _ _ | G_creat _ => false | _ => true end.

(** [h'] continues [h] without changing any file. *)
Definition calm (h h' : list gcall) : Prop :=
  exists k, h' = k ++ h /\ Forall (fun c => reads c = true) k.

(** The data written to the file [p], oldest first. *)
Definition written_to (p : list Z) (h : list gcall) : list (list Z) :=
  omap (fun c => match c with G_write q d => if bool_decide (q = p) then Some d else None | _ => None end)
    (rev h).

(** The content of the files after the calls [h], all on files that held [disk]. *)
Fixpoint file_at (disk : list Z -> option (list Z)) (h : list gcall) (p : list Z) : option (list Z) :=
  match h with
  | [] => disk p
  | G_write q d :: h' =>
      if bool_decide (q = p) then Some (d ++ drop (length d) (default [] (file_at disk h' p)))
      else file_at disk h' p
  | G_creat q :: h' =>
      if bool_decide (q = p) then Some (default [] (file_at disk h' p)) else file_at disk h' p
  | _ :: h' => file_at disk h' p
  end.

(** A system with the files [disk], whose power supplies are [dir]. *)
Class Disk `{Gauge} (disk : list Z -> option (list Z)) (dir : list (list Z)) : Prop := {
  dk_open h p : g_answer h (G_open p) = if file_at disk h p is Some _ then None else Some 2%positive;
  dk_open_w h p : g_answer h (G_open_w p) = if file_at disk h p is Some _ then None else Some 2%positive;
  dk_creat h p : g_answer h (G_creat p) = None;
  dk_read h p n c : file_at disk h p = Some c -> g_answer h (G_read p n) = inr (take (Z.to_nat n) c);
  dk_write h p d : g_answer h (G_write p d) = inr (Z.of_nat (length d));
  dk_dir h : g_answer h (G_opendir POWER_SUPPLY_PATH) = inr dir;
  dk_malloc h n : g_answer h (G_malloc n) = true;
  dk_uninit h n : length (g_answer h (G_uninit n)) = n }.

Lemma calm_refl h : calm h h.
Proof. by exists []. Qed.

Lemma calm_cons c h h' : reads c = true -> calm h h' -> calm h (c :: h').
Proof. intros Hc (k & -> & Hk). exists (c :: k). split; [done|by constructor]. Qed.

Lemma calm_trans h1 h2 h3 : calm h1 h2 -> calm h2 h3 -> calm h1 h3.
Proof.
  intros (k & -> & Hk) (k' & -> & Hk'). exists (k' ++ k). rewrite app_assoc.
  split; [done|by apply Forall_app].
Qed.

Lemma calm_file disk h h' p : calm h h' -> file_at disk h' p = file_at disk h p.
Proof.
  intros (k & -> & Hk). induction Hk as [|c k Hc _ IH]; [done|]. by destruct c.
Qed.

Lemma calm_written p h h' : calm h h' -> written_to p h' = written_to p h.
Proof.
  intros (k & -> & Hk). unfold written_to. induction Hk as [|c k Hc _ IH]; [done|].
  cbn [app rev]. rewrite omap_app, IH. destruct c; try done; by rewrite app_nil_r.
Qed.

Create HintDb calm discriminated.
#[export] Hint Resolve calm_refl calm_cons calm_trans : calm.

(** Steps through a call. *)
Ltac g_call :=
  apply wp_bind;
  lazymatch goal with
  | |- wp ?X (sys ?c) ?Q ?s ?h =>
      change (wp X (sys c) Q s h) with (Q (g_answer h c) s (c :: h)); cbv beta
  end.

Ltac calm := repeat first [assumption | apply calm_refl | apply calm_cons; [done|]].

(** * Bytes *)

Lemma u16_le16 off z l : (off + 2 <= length l)%nat -> 0 <= z < 2 ^ 16 -> u16 off (put_at off (le16 z) l) = z.
Proof.
  intros Hl Hz. unfold u16, put_at, le16. assert (Ht : length (take off l) = off) by (rewrite length_take; lia).
  rewrite !(lookup_app_r (take off l)) by lia. rewrite Ht, Nat.sub_diag. replace (off + 1 - off)%nat with 1%nat by lia.
  cbn. rewrite (Z.mod_small (z / 256)) by (split; [apply Z.div_pos; lia|apply Z.div_lt_upper_bound; lia]).
  rewrite Z.mod_small by (pose proof (Z.div_mod z 256); pose proof (Z.mod_pos_bound z 256); lia).
  pose proof (Z.div_mod z 256). lia.
Qed.

Lemma length_put off l buf : (off + length l <= length buf)%nat -> length (put_at off l buf) = length buf.
Proof. intros. unfold put_at. rewrite !length_app, length_take, length_drop. lia. Qed.

Lemma lookup_put_other off l buf i : (i < off \/ off + length l <= i)%nat -> (off + length l <= length buf)%nat ->
  put_at off l buf !! i = buf !! i.
Proof.
  intros Hi Hl. unfold put_at. assert (Ht : length (take off buf) = off) by (rewrite length_take; lia).
  destruct Hi as [Hi|Hi].
  - rewrite lookup_app_l by lia. rewrite lookup_take_lt by lia. done.
  - rewrite lookup_app_r by lia. rewrite lookup_app_r by lia. rewrite lookup_drop, Ht. f_equal. lia.
Qed.

Lemma u16_put_other o off l buf : (o + 2 <= off \/ off + length l <= o)%nat -> (off + length l <= length buf)%nat ->
  u16 o (put_at off l buf) = u16 o buf.
Proof. intros Ho Hl. unfold u16. by rewrite !lookup_put_other by lia. Qed.

Lemma take_put n off l buf : (n <= off)%nat -> (off <= length buf)%nat -> take n (put_at off l buf) = take n buf.
Proof.
  intros Hn Hl. unfold put_at. rewrite take_app_le by (rewrite length_take; lia).
  rewrite take_take. by rewrite Nat.min_l.
Qed.

Lemma u16_range off l : 0 <= u16 off l < 2 ^ 16.
Proof. apply Z.mod_pos_bound. lia. Qed.

Lemma checksum_range l n : 0 <= checksum l n < 2 ^ 16.
Proof. apply Z.mod_pos_bound. lia. Qed.

(** [checksum] is the sum of the bytes modulo 2^16. *)
Lemma checksum_sum l n : checksum l n = foldr Z.add 0 (take n l) mod 2 ^ 16.
Proof.
  unfold checksum, uint16. generalize (take n l). clear l n. intros l.
  assert (Hf : forall a, fold_left (fun s d => int16 (s + d)) l a mod 2 ^ 16 = (a + foldr Z.add 0 l) mod 2 ^ 16).
  { induction l as [|x l IH]; intros a; cbn [fold_left foldr]; [f_equal; lia|].
    rewrite IH. pose proof (Z.div_mod (a + x + 2 ^ 15) (2 ^ 16) ltac:(lia)) as E.
    rewrite <- (Z.mod_add (a + (x + foldr Z.add 0 l)) (- ((a + x + 2 ^ 15) / 2 ^ 16)) (2 ^ 16)) by lia.
    f_equal. unfold int16. lia. }
  by rewrite Hf.
Qed.

Lemma cstr_take l n : (length (cstr l) <= n)%nat -> cstr (take n l) = cstr l.
Proof.
  revert n. induction l as [|c l IH]; intros [|n]; cbn; [done..| |].
  - destruct (c =? 0); [done|]. cbn. lia.
  - destruct (c =? 0); [done|]. cbn. intros. by rewrite IH by lia.
Qed.

Lemma strncmp_spec n a b : (n <= length a)%nat -> (n <= length b)%nat \/ terminated b = true ->
  strncmp_eq n a b = Some (bool_decide (cstr (take n a) = cstr (take n b))).
Proof.
  revert a b. induction n as [|n IH]; intros a b Ha Hb; [by rewrite bool_decide_eq_true_2|].
  destruct a as [|x a]; [cbn in Ha; lia|].
  destruct b as [|y b]; [destruct Hb as [Hb|]; [cbn in Hb; lia|done]|].
  cbn [strncmp_eq take cstr]. destruct (Z.eqb_spec x y) as [<-|Hxy].
  - destruct (Z.eqb_spec x 0) as [->|Hx]; [by rewrite bool_decide_eq_true_2|].
    rewrite IH.
    + f_equal. apply bool_decide_ext. split; [by intros ->|by intros [= ->]].
    + cbn in Ha. lia.
    + destruct Hb as [Hb|Hb]; [left; cbn in Hb; lia|right].
      unfold terminated in *. cbn [existsb] in Hb. by rewrite (proj2 (Z.eqb_neq 0 x)) in Hb by lia.
  - f_equal. symmetry. apply bool_decide_eq_false_2.
    destruct (Z.eqb_spec x 0), (Z.eqb_spec y 0); try done; subst; try done. by intros [= ? _].
Qed.

(** * The battery of a system *)

(** What is read of a file in one go. *)
Definition read_of (w : list Z -> option (list Z)) (p : list Z) (n : nat) : Z + list Z :=
  match w p with
  | None => inl ENOENT
  | Some c => if (length c <? n)%nat then inl ENODATA else inr (take n c)
  end.

(** The first battery of [dir] is [name]: each entry before it has a type, which
    is not that of a battery. *)
Definition typed (w : list Z -> option (list Z)) (e k : list Z) : Prop :=
  w (attr_path e (bytes "type")) = Some (k ++ [10]) /\ (length k < 20)%nat.

Record battery (w : list Z -> option (list Z)) (dir : list (list Z)) (name : list Z) : Prop := {
  ba_type : typed w name (bytes "Battery");
  ba_name : dot name = false /\ (length name <= 255)%nat;
  ba_first : exists pre post, dir = pre ++ name :: post /\
    Forall (fun e => dot e = true \/ exists k, typed w e k /\ cstr k <> bytes "Battery") pre }.

Section disk.
Context `{Disk}.

Lemma read_exactly_wp p n (s : bool) h :
  wp False (read_exactly p (Z.of_nat n))
    (fun r s' h' => r = read_of (file_at disk h) p n /\ s' = s /\ calm h h') s h.
Proof.
  unfold read_exactly, read_of. g_call. rewrite dk_open.
  destruct (file_at disk h p) as [c|] eqn:E; [|split; [done|split; [done|calm]]].
  g_call. rewrite (dk_read _ _ _ c) by done. g_call. rewrite Nat2Z.id.
  split; [|split; [done|calm]]. rewrite length_take.
  destruct (Nat.ltb_spec (length c) n).
  - by rewrite (proj2 (Z.eqb_neq _ _)) by lia.
  - by rewrite (proj2 (Z.eqb_eq _ _)) by lia.
Qed.

Lemma cstr_app_zero k e : cstr (k ++ 0 :: e) = cstr k.
Proof. induction k as [|c k IH]; cbn; [done|]. destruct (c =? 0); [done|]. by rewrite IH. Qed.

(** The end of a line is cut. *)
Lemma chomp_line k old c d : k ++ [10] = c :: d -> (length k < 20)%nat -> length old = 20%nat ->
  let buf := chomp (length (c :: d)) ((c :: d) ++ drop (length (c :: d)) old) in
  cstr buf = cstr k /\ length buf = 20%nat.
Proof.
  intros <- Hk Ho. unfold chomp. rewrite length_app. cbn [length].
  replace (length k + 1 - 1)%nat with (length k) by lia.
  rewrite <- app_assoc. rewrite lookup_app_r, Nat.sub_diag by lia. cbn [lookup app list_lookup].
  rewrite bool_decide_eq_true_2 by done.
  rewrite insert_app_r_alt, Nat.sub_diag by lia. cbn [insert list_insert app]. split.
  - apply cstr_app_zero.
  - rewrite length_app. cbn [length]. rewrite length_drop. lia.
Qed.

Lemma ps_loop_wp pre name post buf s h :
  typed (file_at disk h) name (bytes "Battery") -> dot name = false -> (length name <= 255)%nat ->
  Forall (fun e => dot e = true \/ exists k, typed (file_at disk h) e k /\ cstr k <> bytes "Battery") pre ->
  length buf = 20%nat ->
  wp False (ps_name_loop (pre ++ name :: post) buf)
    (fun r s' h' => r = inr name /\ s' = s || contains (bytes "dollar") name /\ calm h h') s h.
Proof.
  intros [Ht _] Hd Hn Hpre. revert buf h Ht Hpre. induction pre as [|e pre IH]; intros buf h Ht Hpre Hb.
  - cbn [app ps_name_loop]. rewrite Hd. g_call. rewrite dk_open, Ht. g_call.
    rewrite (dk_read _ _ _ (bytes "Battery" ++ [10])) by exact Ht. rewrite take_ge by (cbn; lia).
    g_call. destruct (bytes "Battery" ++ [10]) as [|c d] eqn:E; [done|].
    destruct (chomp_line (bytes "Battery") buf c d E ltac:(cbn; lia) Hb) as [Hc _]. cbn zeta in Hc.
    cbn [app] in Hc |- *. rewrite Hc.
    rewrite bool_decide_eq_true_2 by done.
    assert (Hi : in_buffer PATH_MAX name = name).
    { unfold in_buffer. apply take_ge. unfold PATH_MAX. lia. }
    destruct (contains (bytes "dollar") name); cbn [when].
    + apply wp_bind, wp_modify. g_call. rewrite Hi, orb_true_r. split; [done|split; [done|calm]].
    + apply wp_bind, wp_ret. g_call. rewrite Hi, orb_false_r. split; [done|split; [done|calm]].
  - apply Forall_cons_1 in Hpre as [He Hpre]. cbn [app ps_name_loop].
    destruct (dot e) eqn:Ed; [by apply IH|].
    destruct He as [|(k & [Hk Hlen] & Hne)]; [done|].
    g_call. rewrite dk_open, Hk. g_call. rewrite (dk_read _ _ _ (k ++ [10])) by exact Hk. rewrite take_ge by (rewrite length_app; cbn; lia).
    g_call. destruct (k ++ [10]) as [|c d] eqn:E; [by destruct k|].
    destruct (chomp_line k buf c d E Hlen Hb) as [Hc Hb']. cbn [app] in Hc, Hb' |- *. rewrite Hc.
    rewrite bool_decide_eq_false_2 by done.
    eapply wp_mono; [apply IH; done|]. cbv beta.
    intros r s' h' (-> & -> & Hcalm). split; [done|split; [done|]].
    eapply calm_trans; [|exact Hcalm]. calm.
Qed.

Lemma battery_wp name s h : battery (file_at disk h) dir name ->
  wp False get_battery_ps_name
    (fun r s' h' => r = inr name /\ s' = s || contains (bytes "dollar") name /\ calm h h') s h.
Proof.
  intros [Ht [Hd Hn] (pre & post & Hdir & Hpre)]. unfold get_battery_ps_name. g_call. g_call.
  rewrite dk_dir, Hdir. eapply wp_mono; [apply ps_loop_wp; try done; apply dk_uninit|]. cbv beta.
  intros r s' h' (-> & -> & Hc). split; [done|split; [done|]]. eapply calm_trans; [|exact Hc]. calm.
Qed.

End disk.

(** * The choice of the configuration *)

(** The value of [androidboot.mode] is in the command line: [cos] tells whether
    it is [charger], whatever memory follows. *)
Definition boot_mode (w : list Z -> option (list Z)) (cos : bool) : Prop :=
  match w (bytes "/proc/cmdline") with
  | None => cos = false
  | Some l => l <> [] /\ Forall (fun c => c <> 0) l /\ (length l <= 1000)%nat /\
      exists k, strstr (bytes "androidboot.mode=") l = Some k /\
        forall e, is_prefix (bytes "charger") (drop (k + 17) l ++ e) = cos
  end.

(** The battery [name] has a maxim gauge, the model [id] and the serial number
    [serial]. *)
Record gauge_of (w : list Z -> option (list Z)) (dir : list (list Z)) (name id serial : list Z) : Prop := {
  ga_battery : battery w dir name;
  ga_maxim : contains (bytes "dollar") name = false;
  ga_model : exists m, w (attr_path name (bytes "model_name")) = Some m /\ (2 <= length m)%nat /\ id = take 2 m;
  ga_serial : exists n, w (attr_path name (bytes "serial_number")) = Some n /\ serial = cstr (take 12 n) }.

(** The primary file [c] holds [k] whole tables. *)
Definition primary_ok (c : list Z) (k : nat) : Prop :=
  (k <= 15)%nat /\ file_size c = Z.of_nat (primary_header_size + k * table_size) /\
  (primary_header_size + k * table_size <= length c)%nat.

Definition nth_table (c : list Z) (i : nat) : list Z :=
  take table_size (drop (primary_header_size + i * table_size) c).

Definition tables_of (c : list Z) (k : nat) : list (list Z) := map (nth_table c) (seq 0 k).

(** The table is that of the battery. *)
Definition is_for (name id t : list Z) : bool :=
  bool_decide (cstr (take 8 (table_name t)) = cstr (take 8 (name ++ [0]))) &&
  bool_decide (cstr (take 2 (table_battid t)) = cstr id).

(** The secondary file [s] was saved for this battery with this primary file. *)
Definition saved_for (s c id serial : list Z) : bool :=
  bool_decide (cstr (take 2 (table_battid s)) = cstr id) &&
  bool_decide (cstr (sec_serial s) = serial) && (header_cksum c =? sec_pcksum s).

Definition prim_intact (c : list Z) : bool :=
  let f := take (Z.to_nat (file_size c)) c in
  checksum (put_at 4 [0; 0] f) (length f) =? header_cksum c.

(** The configuration that is due: [sec] is the content of the secondary file,
    if it is there and long enough. *)
Definition chosen (c : list Z) (k : nat) (sec : option (list Z)) (name id serial : list Z) (cos : bool)
  : Z + list Z :=
  let from_primary :=
    if negb (prim_intact c) then inl (- EINVAL)
    else match find (is_for name id) (tables_of c k) with
         | Some t => inr (if cos then set_config_init t else t)
         | None => inl EINVAL
         end in
  match sec with
  | None => from_primary
  | Some s =>
      if negb (prim_intact c) && negb (is_sec_cksum_ok s) then inl EINVAL
      else if is_sec_cksum_ok s && saved_for s c id serial then inr (take table_size s)
      else from_primary
  end.

(** The identifier [id] of the battery, in its buffer [battid], can be printed along
    with that of the secondary file, whenever they are: when they differ. *)
Definition printable (sec : option (list Z)) (id battid : list Z) : Prop :=
  forall s, sec = Some s -> is_sec_cksum_ok s = true -> cstr (take 2 (table_battid s)) <> cstr id ->
  terminated (take MAX_BATTID_SIZE (table_battid s)) = true /\ terminated battid = true.

Definition sec_content (w : list Z -> option (list Z)) : option (list Z) :=
  match read_of w SECONDARY_FILE sec_file_size with inr s => Some s | inl _ => None end.

Section choice.
Context `{Disk}.

Lemma read_attr_wp name attr n s h : battery (file_at disk h) dir name -> contains (bytes "dollar") name = false ->
  wp False (read_attr attr n) (fun r s' h' =>
    r = match file_at disk h (attr_path name attr) with Some c => inr (take n c) | None => inl ENOENT end /\
    s' = s /\ calm h h') s h.
Proof.
  intros Hb Hd. unfold read_attr, try. apply wp_bind. eapply wp_mono; [by apply battery_wp|]. cbv beta.
  intros r s1 h1 (-> & -> & Hc). rewrite Hd, orb_false_r. g_call. rewrite dk_open, (calm_file disk h h1) by done.
  destruct (file_at disk h (attr_path name attr)) as [c|] eqn:E; [|split; [done|split; [done|calm]]].
  g_call. rewrite (dk_read _ _ _ c) by (rewrite <- E; apply calm_file; calm). g_call. rewrite Nat2Z.id.
  split; [done|split; [done|calm]].
Qed.

Lemma battid_wp name id serial old s h : gauge_of (file_at disk h) dir name id serial -> length old = 8%nat ->
  wp False (get_battid old) (fun r s' h' =>
    r = inr (id ++ drop 2 old) /\ length id = 2%nat /\ s' = s /\ calm h h') s h.
Proof.
  intros [Hb Hd (m & Hm & Hl & ->) _] Ho. unfold get_battid, try. apply wp_bind.
  eapply wp_mono; [by eapply read_attr_wp|]. cbv beta. intros r s' h' (-> & -> & Hc). rewrite Hm.
  assert (Ht : length (take MODEL_NAME_SIZE m) = 2%nat) by (rewrite length_take; unfold MODEL_NAME_SIZE; lia).
  apply wp_ret. rewrite Ht. by split_and!.
Qed.

Lemma serial_buffer d : (length d <= 12)%nat ->
  let b := <[length d := 0]> (d ++ drop (length d) no_serial) in
  cstr b = cstr d /\ length b = 13%nat /\ terminated b = true.
Proof.
  intros Hd. rewrite insert_app_r_alt, Nat.sub_diag by lia.
  destruct (drop (length d) no_serial) as [|x l] eqn:E.
  { apply (f_equal length) in E. rewrite length_drop in E. cbn in E. lia. }
  apply (f_equal length) in E. rewrite length_drop in E. cbn in E. cbn [insert list_insert].
  split_and!; [apply cstr_app_zero|rewrite length_app; cbn; lia|].
  apply existsb_exists. exists 0. split; [|done]. apply in_or_app. right. by left.
Qed.

Lemma serial_wp name id serial s h : gauge_of (file_at disk h) dir name id serial ->
  wp False (get_serial_num no_serial) (fun r s' h' =>
    (exists b, r = inr b /\ cstr b = serial /\ length b = 13%nat /\ terminated b = true) /\
    s' = s /\ calm h h') s h.
Proof.
  intros [Hb Hd _ (n & Hn & ->)]. unfold get_serial_num, try. apply wp_bind.
  eapply wp_mono; [by eapply read_attr_wp|]. cbv beta. intros r s' h' (-> & -> & Hc). rewrite Hn.
  apply wp_ret. split; [|done]. eexists. split; [reflexivity|]. apply serial_buffer.
  rewrite length_take. unfold MAX_SERIAL_NUM_SIZE. lia.
Qed.

Lemma cos_wp cos s h : boot_mode (file_at disk h) cos ->
  wp False isCOS (fun r s' h' => r = cos /\ s' = s /\ calm h h') s h.
Proof.
  intros Hb. unfold isCOS. g_call. g_call. rewrite dk_open. unfold boot_mode in Hb.
  change (file_at disk (G_uninit (Z.to_nat MAX_COMMAND_LINE_BUF) :: h)) with (file_at disk h).
  destruct (file_at disk h (bytes "/proc/cmdline")) as [l|] eqn:E; [|apply wp_ret; split; [by rewrite Hb|split; [done|calm]]].
  destruct Hb as (Hne & Hnz & Hl & k & Hk & Hcos).
  g_call. rewrite (dk_read _ _ _ l) by done. rewrite take_ge by (unfold MAX_COMMAND_LINE_BUF; lia).
  g_call. destruct l as [|c d] eqn:El; [done|]. rewrite <- El in *. split; [|split; [done|calm]].
  match goal with |- context [l ++ ?x] => set (e := x) end.
  assert (Hline : exists e', cstr (in_buffer MAX_COMMAND_LINE_BUF (l ++ e)) = l ++ e').
  { unfold in_buffer. rewrite take_app, take_ge by (unfold MAX_COMMAND_LINE_BUF; lia).
    generalize (take (Z.to_nat (MAX_COMMAND_LINE_BUF - 1) - length l) e). clear -Hnz. intros e'.
    exists (cstr e'). induction Hnz as [|x l Hx _ IH]; [done|]. cbn. rewrite IH.
    by rewrite (proj2 (Z.eqb_neq _ _)). }
  destruct Hline as [e' ->]. rewrite (strstr_app _ _ _ k) by done.
  pose proof (strstr_lt _ _ _ Hk) as Hlt. rewrite drop_app_le by exact Hlt. apply Hcos.
Qed.

Lemma field_take o n t (l : list Z) : (o + n <= t)%nat -> take n (drop o (take t l)) = take n (drop o l).
Proof. intros. rewrite !take_drop_commute, take_take. by rewrite Nat.min_l by lia. Qed.

Lemma terminated_end (l : list Z) : terminated (l ++ [0]) = true.
Proof. apply existsb_exists. exists 0. split; [|done]. apply in_or_app. right. by left. Qed.

Lemma lift_ub_wp {A} (a : A) Q (s : bool) h : Q a s h -> wp False (lift_ub (Some a)) Q s h.
Proof. done. Qed.

(** [p] is what has been read of the primary file. *)
Lemma primary_loop_wp m i c p name id b fuel (s : bool) h :
  (length p = primary_header_size + (i + m) * table_size)%nat -> file_size p = Z.of_nat (length p) ->
  p = take (length p) c -> take 2 b = id -> (2 <= length b)%nat -> (m < fuel)%nat ->
  wp False (primary_loop fuel p name b (primary_header_size + i * table_size))
    (fun r s' h' => r = match find (is_for name id) (map (nth_table c) (seq i m)) with
                        | Some t => inr t | None => inl EINVAL end /\ s' = s /\ h' = h) s h.
Proof.
  revert i fuel. induction m as [|m IH]; intros i fuel Hp Hs Hc Hb H2 Hf; (destruct fuel as [|fuel]; [lia|]);
    cbn [primary_loop]; rewrite Hs.
  - rewrite (proj2 (Z.leb_le _ _)) by lia. done.
  - rewrite (proj2 (Z.leb_gt _ _)) by (unfold table_size in *; lia).
    set (off := (primary_header_size + i * table_size)%nat) in *.
    assert (Hl : (table_size <= length (drop off p))%nat) by (rewrite length_drop; unfold table_size in *; lia).
    assert (Ht : take table_size (drop off p) = nth_table c i).
    { unfold nth_table. fold off. rewrite Hc. apply field_take. rewrite length_drop in Hl. unfold table_size in *. lia. }
    assert (Hn : take 8 (table_name (drop off p)) = take 8 (table_name (nth_table c i))).
    { rewrite <- Ht. unfold table_name. symmetry. apply field_take. unfold table_size. lia. }
    assert (Hi : take 2 (table_battid (drop off p)) = take 2 (table_battid (nth_table c i))).
    { rewrite <- Ht. unfold table_battid. symmetry. apply field_take. unfold table_size. lia. }
    cbn [seq map find]. cbv zeta. unfold MAX_TABLE_NAME_SIZE, MODEL_NAME_SIZE.
    assert (E1 := strncmp_spec 8 (table_name (drop off p)) (name ++ [0])
      ltac:(unfold table_name; rewrite length_drop; unfold table_size in *; lia)
      (or_intror (terminated_end name))).
    assert (E2 := strncmp_spec 2 (table_battid (drop off p)) b
      ltac:(unfold table_battid; rewrite length_drop; unfold table_size in *; lia) (or_introl H2)).
    rewrite Hn in E1. rewrite Hi, Hb in E2. rewrite E1. cbn [lift_ub]. apply wp_bind, wp_ret. unfold is_for at 1.
    rewrite E2. clear E1 E2.
    destruct (bool_decide (cstr (take 8 (table_name (nth_table c i))) = _)); cbn [andb lift_ub];
      [destruct (bool_decide (_ = cstr id))|]; apply wp_bind, wp_ret; cbv iota.
    1: rewrite (proj2 (Nat.ltb_ge _ _)) by exact Hl; by rewrite Ht.
    all: replace (off + table_size)%nat with (primary_header_size + S i * table_size)%nat by (unfold off; lia);
      apply IH; try done; lia.
Qed.

Lemma primary_config_wp c k name id serial b s h :
  gauge_of (file_at disk h) dir name id serial -> primary_ok c k -> take 2 b = id -> (2 <= length b)%nat ->
  wp False (get_primary_fg_config (take (Z.to_nat (file_size c)) c) b)
    (fun r s' h' => r = match find (is_for name id) (tables_of c k) with Some t => inr t | None => inl EINVAL end /\
      s' = s /\ calm h h') s h.
Proof.
  intros [Hb Hd _ _] (Hk & Hs & Hl) Hid H2. rewrite Hs, Nat2Z.id.
  set (n := (primary_header_size + k * table_size)%nat) in *.
  assert (Hn : length (take n c) = n) by (rewrite length_take; lia).
  assert (Hf : file_size (take n c) = Z.of_nat n).
  { rewrite <- Hs. unfold file_size, u16. rewrite !lookup_take_lt by (unfold n, primary_header_size; lia). done. }
  unfold get_primary_fg_config, try. apply wp_bind. eapply wp_mono; [by apply battery_wp|]. cbv beta.
  intros r s1 h1 (-> & -> & Hc). rewrite Hd, orb_false_r.
  pose proof (primary_loop_wp k 0 c (take n c) name id b (S (Z.to_nat (file_size (take n c)))) s h1) as Hw.
  rewrite Hf, Nat2Z.id in Hw |- *. eapply wp_mono; [apply Hw; rewrite ?Hn; try done; unfold n, table_size; lia|].
  cbv beta. intros r s' h' (-> & -> & ->). split; [done|split; [done|done]].
Qed.

Lemma pri_config_wp intact cos c k name id serial b s h :
  gauge_of (file_at disk h) dir name id serial -> boot_mode (file_at disk h) cos -> primary_ok c k ->
  take 2 b = id -> (2 <= length b)%nat ->
  wp False (read_pri_config intact (take (Z.to_nat (file_size c)) c) b)
    (fun r s' h' => r =
      (if negb intact then inl (- EINVAL)
       else match find (is_for name id) (tables_of c k) with
            | Some t => inr (if cos then set_config_init t else t)
            | None => inl EINVAL
            end) /\ s' = s /\ calm h h') s h.
Proof.
  intros Hg Hb Hp Hid H2. unfold read_pri_config. destruct intact; cbn [negb]; [|split; [done|split; [done|calm]]].
  unfold try. apply wp_bind. eapply wp_mono; [by eapply primary_config_wp|]. cbv beta.
  intros r s1 h1 (-> & -> & Hc). destruct (find _ _) as [t|]; [|split; [done|split; done]].
  apply wp_bind. eapply wp_mono; [apply (cos_wp cos)|].
  { unfold boot_mode. by rewrite (calm_file disk h h1). }
  cbv beta. intros r s2 h2 (-> & -> & Hc2). split; [done|split; [done|by eapply calm_trans]].
Qed.

Lemma sec_matches_wp sbuf b id serial_num hdr (s : bool) h :
  length sbuf = sec_file_size -> terminated (sec_serial sbuf) = true -> take 2 b = id -> (2 <= length b)%nat ->
  length serial_num = 13%nat -> terminated serial_num = true ->
  is_sec_cksum_ok sbuf = true -> printable (Some sbuf) id b ->
  wp False (sec_matches sbuf b serial_num hdr)
    (fun r s' h' => r = saved_for sbuf hdr id (cstr serial_num) /\ s' = s /\ h' = h) s h.
Proof.
  intros Hl Ht Hid H2 Hn Hnt Hck Hpr. unfold sec_matches, saved_for, MODEL_NAME_SIZE.
  assert (Hs : length (sec_serial sbuf) = 13%nat) by (unfold sec_serial; rewrite length_drop, Hl; done).
  assert (E1 := strncmp_spec 2 (table_battid sbuf) b
    ltac:(unfold table_battid; rewrite length_drop, Hl; unfold sec_file_size; lia) (or_introl H2)).
  rewrite Hid in E1. rewrite E1.
  cbn [lift_ub]. apply wp_bind, wp_ret.
  destruct (bool_decide_reflect (cstr (take 2 (table_battid sbuf)) = cstr id)) as [Hsame|Hdiff]; cbn [negb andb].
  2:{ destruct (Hpr sbuf eq_refl Hck Hdiff) as [-> ->]. done. }
  rewrite Ht. cbn [negb].
  pose proof (cstr_length serial_num) as Hc.
  destruct (Nat.eqb_spec (length (cstr (sec_serial sbuf))) (length (cstr serial_num))) as [E|E]; cbn [negb].
  - rewrite strncmp_spec by lia. cbn [lift_ub]. apply wp_bind, wp_ret, wp_ret.
    rewrite (cstr_take (sec_serial sbuf) (length (cstr serial_num))) by lia.
    by rewrite (cstr_take serial_num (length (cstr serial_num))) by lia.
  - apply wp_ret. rewrite bool_decide_eq_false_2 by congruence. done.
Qed.

Lemma header_wp c k (s : bool) h : file_at disk h PRIMARY_FILE = Some c -> primary_ok c k ->
  wp False read_primary_header (fun r s' h' =>
    r = inr (take primary_header_size c) /\ s' = s /\ calm h h') s h.
Proof.
  intros Hw (Hk & Hs & Hl). unfold read_primary_header, try. apply wp_bind.
  eapply wp_mono; [apply read_exactly_wp|]. cbv beta. intros r s' h' (-> & -> & Hc). unfold read_of. rewrite Hw.
  rewrite (proj2 (Nat.ltb_ge _ _)) by lia. apply wp_ret. split; [|done].
  rewrite (proj2 (Z.ltb_ge _ _)); [done|]. change (file_size (take primary_header_size c)) with (u16 2 (take 8 c)).
  unfold u16. rewrite !lookup_take_lt by lia. change (file_size c <= MAX_PRIM_FILE_SIZE). rewrite Hs.
  unfold MAX_PRIM_FILE_SIZE, MAX_FG_TABLES, primary_header_size, table_size. lia.
Qed.

Lemma primary_wp c n (s : bool) h : file_at disk h PRIMARY_FILE = Some c -> (n <= length c)%nat ->
  wp False (read_primary_file (Z.of_nat n)) (fun r s' h' => r = inr (take n c) /\ s' = s /\ calm h h') s h.
Proof.
  intros Hw Hl. eapply wp_mono; [apply read_exactly_wp|]. cbv beta. intros r s' h' (-> & -> & Hc).
  unfold read_of. rewrite Hw. by rewrite (proj2 (Nat.ltb_ge _ _)) by lia.
Qed.

(** Reading the primary file and checking it. *)
Lemma primary_read_wp c k {A} (R : list Z -> list Z -> bool -> FG (Z + A)) Q (s : bool) h :
  file_at disk h PRIMARY_FILE = Some c -> primary_ok c k ->
  (forall hdr h', calm h h' -> file_size hdr = file_size c -> header_cksum hdr = header_cksum c ->
     wp False (R hdr (take (Z.to_nat (file_size c)) c) (prim_intact c)) Q s h') ->
  wp False (pheader ←! read_primary_header;
            ok ← sys (G_malloc (file_size pheader));
            if negb ok then mret (inl ENOMEM)
            else pbuf ←! read_primary_file (file_size pheader);
                 i ← is_prim_cksum_ok pbuf; R pheader pbuf i) Q s h.
Proof.
  intros Hw Hp HR. unfold try. apply wp_bind. eapply wp_mono; [by eapply header_wp|]. cbv beta.
  intros ? s2 h2 (-> & -> & Hc2). destruct Hp as (Hk & Hs & Hl).
  set (n := (primary_header_size + k * table_size)%nat) in *.
  assert (Hh : forall o m, (o + 2 <= m)%nat -> u16 o (take m c) = u16 o c).
  { intros o m Ho. unfold u16. by rewrite !lookup_take_lt by lia. }
  assert (Hsz : file_size (take primary_header_size c) = Z.of_nat n).
  { rewrite <- Hs. apply Hh. unfold primary_header_size. lia. }
  rewrite Hsz. g_call. rewrite dk_malloc. cbn [negb]. apply wp_bind.
  eapply wp_mono; [apply (primary_wp c); [rewrite <- Hw; apply calm_file; calm|exact Hl]|]. cbv beta.
  intros ? s3 h3 (-> & -> & Hc3). apply wp_bind. unfold is_prim_cksum_ok.
  assert (Hn : length (take n c) = n) by (rewrite length_take; lia). rewrite Hn.
  rewrite (proj2 (Nat.ltb_ge _ _)) by (unfold n, primary_header_size; lia). apply wp_ret.
  replace (_ =? _) with (prim_intact c).
  - rewrite Hs, Nat2Z.id in HR. apply HR; [|by rewrite Hsz|apply Hh; unfold primary_header_size; lia].
    eapply calm_trans; [|exact Hc3]. calm.
  - unfold prim_intact. rewrite Hs, Nat2Z.id, Hn. f_equal. symmetry. apply Hh.
    unfold n, primary_header_size. lia.
Qed.

(** What depends on the files other than the secondary one. *)
Definition same_files (w w' : list Z -> option (list Z)) : Prop :=
  forall p, p <> SECONDARY_FILE -> w' p = w p.

Lemma attr_path_other name attr : attr_path name attr <> SECONDARY_FILE.
Proof.
  intros E. apply (f_equal (fun l => l !! 1%nat)) in E. revert E. unfold attr_path, in_buffer.
  rewrite lookup_take_lt by (unfold PATH_MAX; lia). by rewrite lookup_app_l by (cbn; lia).
Qed.

Lemma gauge_same w w' name id serial : same_files w w' -> gauge_of w dir name id serial ->
  gauge_of w' dir name id serial.
Proof.
  intros Hw [[[Hty Hl] Hnm (pre & post & Hd & Hpre)] Hm Hid Hsn].
  assert (Ha : forall e a, w' (attr_path e a) = w (attr_path e a)) by (intros; apply Hw, attr_path_other).
  split; [split|..]; rewrite ?Ha; try done.
  - by split; [rewrite Ha|].
  - exists pre, post. split; [done|]. eapply Forall_impl; [|exact Hpre]. cbv beta.
    intros e [He|(x & [Hx Hlx] & Hne)]; [by left|right]. exists x. split; [|done]. by split; [rewrite Ha|].
Qed.

Lemma calm_gauge h h' name id serial : calm h h' ->
  gauge_of (file_at disk h) dir name id serial -> gauge_of (file_at disk h') dir name id serial.
Proof. intros Hc. apply gauge_same. intros p _. by apply calm_file. Qed.

Lemma sec_content_length w s : sec_content w = Some s -> length s = sec_file_size.
Proof.
  unfold sec_content, read_of. destruct (w SECONDARY_FILE) as [l|]; [|done].
  destruct (Nat.ltb_spec (length l) sec_file_size); [done|]. intros [= <-]. rewrite length_take. lia.
Qed.

(** The mode of the boot is only read when the secondary file is not used. *)
Lemma table_config_wp c k cos name id serial b s h :
  let w := file_at disk h in
  gauge_of w dir name id serial -> w PRIMARY_FILE = Some c -> primary_ok c k ->
  (match sec_content w with
   | Some s => is_sec_cksum_ok s && saved_for s c id serial = false
   | None => True
   end -> boot_mode w cos) ->
  (forall sec, sec_content w = Some sec -> terminated (sec_serial sec) = true) ->
  printable (sec_content w) id b -> take 2 b = id -> (2 <= length b)%nat ->
  wp False (get_table_config b)
    (fun r s' h' => r = chosen c k (sec_content w) name id serial cos /\ s' = s /\ calm h h') s h.
Proof.
  intros w Hg Hw Hp Hb Ht Hpr Hid H2. unfold get_table_config. unfold try at 1.
  apply wp_bind. eapply wp_mono; [by eapply serial_wp|]. cbv beta.
  intros ? s1 h1 ((sn & -> & Hsn & Hln & Htn) & -> & Hc1).
  apply (primary_read_wp c k); [by rewrite (calm_file disk h h1)|done|].
  intros hdr h2 Hc2 _ Hcs. apply (calm_trans _ _ _ Hc1) in Hc2. apply wp_bind.
  eapply wp_mono; [apply read_exactly_wp|]. cbv beta. intros r s3 h3 (-> & -> & Hc3).
  apply (calm_trans _ _ _ Hc2) in Hc3.
  assert (Hpri : forall h', calm h h' -> boot_mode w cos ->
    wp False (read_pri_config (prim_intact c) (take (Z.to_nat (file_size c)) c) b) (fun r s' h'' => r =
      (if negb (prim_intact c) then inl (- EINVAL)
       else match find (is_for name id) (tables_of c k) with
            | Some t => inr (if cos then set_config_init t else t) | None => inl EINVAL end) /\
      s' = s /\ calm h h'') s h').
  { intros h' Hc Hbm. eapply wp_mono; [apply (pri_config_wp _ cos c k name id serial); try done|].
    - by eapply calm_gauge.
    - unfold boot_mode. by rewrite (calm_file disk h h').
    - cbv beta. intros r' s' h'' (-> & -> & Hc'). split; [done|split; [done|by eapply calm_trans]]. }
  unfold chosen. fold w in Hb. pose proof (sec_content_length w) as Hsl.
  unfold sec_content, read_of in *. rewrite (calm_file disk h h2) by done. fold w.
  change (Z + list Z)%type with (sum Z (list Z)) in *.
  destruct (match w SECONDARY_FILE with
            | Some c => if (length c <? sec_file_size)%nat then inl ENODATA else inr (take sec_file_size c)
            | None => inl ENOENT end) as [e|sb]; [by apply Hpri, Hb|].
  specialize (Hsl sb eq_refl). specialize (Ht sb eq_refl).
  destruct (negb (prim_intact c) && negb (is_sec_cksum_ok sb)); [by apply wp_ret|].
  destruct (is_sec_cksum_ok sb) eqn:Hck; cbn [andb] in Hb |- *; apply wp_bind; [|by apply wp_ret, Hpri, Hb].
  eapply wp_mono; [by eapply sec_matches_wp|]. cbv beta. intros r s5 h5 (-> & -> & ->).
  rewrite Hsn. assert (E : saved_for sb hdr id serial = saved_for sb c id serial)
    by (unfold saved_for; by rewrite Hcs).
  rewrite E. destruct (saved_for sb c id serial); [by apply wp_ret|by apply Hpri, Hb].
Qed.

Lemma config_wp c k cos name id serial t0 h :
  let w := file_at disk h in
  gauge_of w dir name id serial -> w PRIMARY_FILE = Some c -> primary_ok c k ->
  (match sec_content w with
   | Some s => is_sec_cksum_ok s && saved_for s c id serial = false
   | None => True
   end -> boot_mode w cos) ->
  (forall sec, sec_content w = Some sec -> terminated (sec_serial sec) = true) ->
  printable (sec_content w) id (id ++ drop 2 (g_answer h (G_uninit MAX_BATTID_SIZE))) ->
  wp False (get_fg_config_table t0)
    (fun r s' h' => r = match chosen c k (sec_content w) name id serial cos with
                        | inl e => (e, t0) | inr t => (0, t) end /\ s' = false /\ calm h h') false h.
Proof.
  intros w Hg Hw Hp Hb Ht Hpr. unfold get_fg_config_table. g_call. apply wp_bind.
  eapply wp_mono; [eapply battid_wp; [exact Hg|apply dk_uninit]|]. cbv beta.
  intros ? s1 h1 (-> & Hid & -> & Hc1). apply wp_bind, wp_get. cbv iota.
  assert (Hc : calm h h1) by (eapply calm_trans; [|exact Hc1]; calm).
  assert (Hs : sec_content (file_at disk h1) = sec_content w)
    by (unfold sec_content, read_of; by rewrite (calm_file disk h h1)).
  apply wp_bind. eapply wp_mono; [apply (table_config_wp c k cos name id serial); try done|].
  - by eapply calm_gauge.
  - by rewrite (calm_file disk h h1).
  - intros Hm. unfold boot_mode. rewrite (calm_file disk h h1) by done. apply Hb. by rewrite <- Hs.
  - intros sec. rewrite Hs. apply Ht.
  - by rewrite Hs.
  - by rewrite take_app_le, take_ge by lia.
  - rewrite length_app. lia.
  - cbv beta. rewrite Hs. intros r s' h' (-> & -> & Hc2). apply wp_ret.
    split; [by destruct (chosen _ _ _ _ _ _ _)|split; [done|by eapply calm_trans]].
Qed.

(** ** Saving *)

(** What is saved of the data [d] of the device. *)
Definition saved_file (s c d serial : list Z) : Prop :=
  length s = sec_file_size /\ take table_data_size s = d /\ is_sec_cksum_ok s = true /\
  header_cksum c = sec_pcksum s /\ cstr (sec_serial s) = serial /\ terminated (sec_serial s) = true /\
  take 2 (table_battid s) = take 2 (table_battid d).

Lemma saved_file_ok c d garbage sn serial : length d = table_data_size -> length garbage = sec_file_size ->
  cstr sn = serial -> (length serial <= 12)%nat ->
  let s1 := put_at 162 (le16 (header_cksum c)) (d ++ drop (length d) garbage) in
  let s2 := put_at 160 (le16 (checksum s1 table_data_size)) s1 in
  saved_file (put_at 164 (cstr sn ++ [0]) s2) c d serial.
Proof.
  intros Hd Hg <- Hn s1 s2. unfold table_data_size, sec_file_size in *.
  assert (L0 : length (d ++ drop (length d) garbage) = 177%nat) by (rewrite length_app, length_drop; lia).
  assert (L1 : length s1 = 177%nat) by (unfold s1; rewrite length_put; [done|cbn; lia]).
  assert (L2 : length s2 = 177%nat) by (unfold s2; rewrite length_put; [done|cbn; lia]).
  assert (Hz : length (cstr sn ++ [0]) = S (length (cstr sn))) by (rewrite length_app; cbn; lia).
  set (s3 := put_at 164 (cstr sn ++ [0]) s2).
  assert (Ht1 : take 160 s1 = d).
  { unfold s1. rewrite take_put by lia. rewrite take_app_le by lia. by rewrite take_ge by lia. }
  assert (Ht : take 160 s3 = d).
  { unfold s3. rewrite take_put by lia. unfold s2. by rewrite take_put by lia. }
  assert (Hser : sec_serial s3 = cstr sn ++ 0 :: drop (164 + length (cstr sn ++ [0])) s2).
  { unfold sec_serial, s3, put_at. rewrite drop_app_ge by (rewrite length_take; lia).
    rewrite length_take, L2. cbn [Nat.min Nat.sub drop]. by rewrite <- app_assoc. }
  unfold saved_file. split_and!.
  - unfold s3. rewrite length_put; [done|]. lia.
  - exact Ht.
  - unfold is_sec_cksum_ok, table_cksum, checksum, table_data_size. rewrite Ht. apply Z.eqb_eq. unfold s3.
    rewrite u16_put_other by lia. unfold s2. rewrite u16_le16 by (lia || apply checksum_range).
    unfold checksum, table_data_size. by rewrite Ht1.
  - unfold sec_pcksum, s3. rewrite u16_put_other by lia. unfold s2. rewrite u16_put_other by (cbn; lia).
    unfold s1. by rewrite u16_le16 by (lia || apply u16_range).
  - rewrite Hser. rewrite cstr_app_zero. apply cstr_id, cstr_text.
  - rewrite Hser. unfold terminated. rewrite existsb_app. cbn. by rewrite orb_true_r.
  - rewrite <- Ht. unfold table_battid. symmetry. by apply field_take; lia.
Qed.

Lemma write_sec_wp d (s : bool) h :
  wp False (write_sec d) (fun r s' h' => r = 0 /\ s' = s /\
    h' = G_close SECONDARY_FILE :: G_write SECONDARY_FILE d :: h) s h.
Proof. unfold write_sec. g_call. g_call. rewrite dk_write, Z.eqb_refl. done. Qed.

(** [h'] continues [h] and changes no file but the secondary one. *)
Definition saves (h h' : list gcall) : Prop :=
  forall p, p <> SECONDARY_FILE -> file_at disk h' p = file_at disk h p /\ written_to p h' = written_to p h.

Lemma calm_saves h h' : calm h h' -> saves h h'.
Proof. intros Hc p _. by split; [apply calm_file|apply calm_written]. Qed.

Lemma saves_trans h1 h2 h3 : saves h1 h2 -> saves h2 h3 -> saves h1 h3.
Proof. intros E1 E2 p Hp. destruct (E1 p Hp), (E2 p Hp). split; by etrans. Qed.

Lemma saves_creat h : saves h (G_creat SECONDARY_FILE :: h).
Proof.
  intros p Hp. cbn [file_at]. rewrite bool_decide_eq_false_2 by done. split; [done|].
  unfold written_to. cbn [rev]. rewrite omap_app. by rewrite app_nil_r.
Qed.

Lemma saves_write h d : saves h (G_close SECONDARY_FILE :: G_write SECONDARY_FILE d :: h).
Proof.
  intros p Hp. cbn [file_at]. rewrite bool_decide_eq_false_2 by done. split; [done|].
  unfold written_to. cbn [rev]. rewrite !omap_app. cbn. rewrite bool_decide_eq_false_2 by done.
  by rewrite !app_nil_r.
Qed.

Lemma saves_gauge h h' name id serial : saves h h' ->
  gauge_of (file_at disk h) dir name id serial -> gauge_of (file_at disk h') dir name id serial.
Proof. intros Hs. apply gauge_same. intros p Hp. by apply Hs. Qed.

Lemma write_sec_config_wp c k name id serial d garbage (s : bool) h :
  gauge_of (file_at disk h) dir name id serial -> file_at disk h PRIMARY_FILE = Some c -> primary_ok c k ->
  length d = table_data_size -> length garbage = sec_file_size ->
  wp False (write_sec_config (d ++ drop (length d) garbage)) (fun r s' h' =>
    r = 0 /\ s' = s /\ saves h h' /\
    exists f, saved_file f c d serial /\ sec_content (file_at disk h') = Some f) s h.
Proof.
  intros Hg Hw Hp Hd Hgl. unfold write_sec_config. g_call. rewrite dk_creat.
  pose proof (saves_creat h) as Hc0. set (h0 := G_creat SECONDARY_FILE :: h) in *.
  apply wp_bind. eapply wp_mono; [eapply (header_wp c k); [by rewrite (proj1 (Hc0 PRIMARY_FILE ltac:(done)))|done]|].
  cbv beta. intros ? s1 h1 (-> & -> & Hc1%calm_saves). apply (saves_trans _ _ _ Hc0) in Hc1.
  assert (Hh : header_cksum (take primary_header_size c) = header_cksum c).
  { destruct Hp as (_ & _ & Hl). unfold header_cksum, u16, primary_header_size in *.
    by rewrite !lookup_take_lt by lia. }
  rewrite Hh. apply wp_bind. eapply wp_mono; [eapply serial_wp; by eapply saves_gauge|]. cbv beta.
  intros ? s2 h2 ((sn & -> & Hsn & Hln & _) & -> & Hc2%calm_saves). apply (saves_trans _ _ _ Hc1) in Hc2.
  assert (Hn : (length serial <= 12)%nat).
  { destruct Hg as [_ _ _ (n & _ & ->)]. pose proof (cstr_length (take 12 n)) as Hcl. rewrite length_take in Hcl. lia. }
  pose proof (saved_file_ok c d garbage sn serial Hd Hgl Hsn Hn) as Hf. cbv zeta in Hf.
  match type of Hf with saved_file ?x _ _ _ => set (f := x) in * end.
  eapply wp_mono; [apply write_sec_wp|]. cbv beta. intros r s3 h3 (-> & -> & ->).
  split; [done|split; [done|split; [eapply saves_trans; [exact Hc2|apply saves_write]|]]].
  exists f. split; [exact Hf|]. destruct Hf as [Hlf _]. unfold sec_content, read_of. cbn [file_at].
  rewrite bool_decide_eq_true_2 by done.
  rewrite length_app. rewrite (proj2 (Nat.ltb_ge _ _)) by lia.
  by rewrite take_app_le, take_ge by lia.
Qed.

Lemma save_wp c k name id serial dev h :
  gauge_of (file_at disk h) dir name id serial -> file_at disk h PRIMARY_FILE = Some c -> primary_ok c k ->
  file_at disk h DEV_FILE = Some dev -> (table_data_size <= length dev)%nat ->
  wp False read_fg_write_sec (fun r s' h' => r = 0 /\ s' = false /\ saves h h' /\
    exists f, saved_file f c (take table_data_size dev) serial /\ sec_content (file_at disk h') = Some f)
    false h.
Proof.
  intros Hg Hw Hp Hv Hl. unfold read_fg_write_sec. g_call. g_call. apply wp_bind.
  eapply wp_mono; [apply (battery_wp name); apply Hg|]. cbv beta.
  intros ? s1 h1 (-> & -> & Hc1). rewrite (ga_maxim _ _ _ _ _ Hg). apply wp_bind, wp_get. cbn [orb].
  assert (Hc : calm h h1) by (eapply calm_trans; [|exact Hc1]; calm). clear Hc1.
  assert (Hv1 : file_at disk h1 DEV_FILE = Some dev) by (by rewrite (calm_file disk h h1)).
  g_call. rewrite dk_open, Hv1. unfold read_dev. apply wp_bind. g_call.
  rewrite (dk_read _ _ _ dev) by exact Hv1. rewrite Nat2Z.id.
  assert (Hlt : length (take table_data_size dev) = table_data_size) by (rewrite length_take; lia).
  rewrite (proj2 (Nat.eqb_eq _ _)) by exact Hlt. apply wp_ret.
  match goal with |- wp _ _ _ _ ?x => set (h2 := x) end.
  assert (Hc2 : calm h h2) by (unfold h2; calm). clearbody h2.
  apply wp_bind. eapply wp_mono;
    [apply (write_sec_config_wp c k name id serial); [by eapply calm_gauge|by rewrite (calm_file disk h h2)|done|done|]|].
  - apply dk_uninit.
  - cbv beta. intros ? s3 h3 (_ & -> & Hs & f & Hf & Hsf). g_call.
    split; [done|split; [done|split]].
    + eapply saves_trans; [apply calm_saves; exact Hc2|]. eapply saves_trans; [exact Hs|].
      apply calm_saves. calm.
    + exists f. split; [exact Hf|exact Hsf].
Qed.

(** ** Restoring what was saved *)

Lemma chosen_saved f c k name id serial cos d : saved_file f c d serial -> take 2 (table_battid d) = id ->
  chosen c k (Some f) name id serial cos = inr (take table_size f) /\
  is_sec_cksum_ok f && saved_for f c id serial = true.
Proof.
  intros (Hl & Ht & Hck & Hp & Hs & Hz & Hb) Hid.
  assert (E : saved_for f c id serial = true).
  { unfold saved_for. rewrite Hb, Hid, Hs, Hp, Z.eqb_refl. by rewrite !bool_decide_eq_true_2. }
  unfold chosen. rewrite Hck, E, andb_false_r. done.
Qed.

(** [h'] continues [h], and changes and writes no file but [p]. *)
Definition writes_only (p : list Z) (h h' : list gcall) : Prop :=
  forall q, q <> p -> file_at disk h' q = file_at disk h q /\ written_to q h' = written_to q h.

Lemma write_dev_wp p d (s : bool) h : is_Some (file_at disk h p) ->
  wp False (write_dev p d) (fun r s' h' => r = 0 /\ s' = s /\ written_to p h' = written_to p h ++ [d] /\
    writes_only p h h') s h.
Proof.
  intros [x Hx]. unfold write_dev. g_call. rewrite dk_open_w, Hx. g_call. rewrite dk_write. g_call.
  rewrite Z.eqb_refl. split; [done|split; [done|split]].
  - unfold written_to. cbn [rev]. rewrite !omap_app. cbn.
    rewrite bool_decide_eq_true_2 by done. by rewrite !app_nil_r.
  - intros q Hq. cbn [file_at]. rewrite bool_decide_eq_false_2 by done. split; [done|].
    unfold written_to. cbn [rev]. rewrite !omap_app. cbn. rewrite bool_decide_eq_false_2 by done.
    by rewrite !app_nil_r.
Qed.

Lemma restore_wp c k name id serial dev d f h :
  gauge_of (file_at disk h) dir name id serial -> file_at disk h PRIMARY_FILE = Some c -> primary_ok c k ->
  file_at disk h DEV_FILE = Some dev -> take 2 (table_battid d) = id ->
  saved_file f c d serial -> sec_content (file_at disk h) = Some f ->
  wp False write_fgdev_config (fun r s' h' => r = 0 /\ s' = false /\
    written_to DEV_FILE h' = written_to DEV_FILE h ++ [d] /\ writes_only DEV_FILE h h') false h.
Proof.
  intros Hg Hw Hp Hv Hid Hf Hs. destruct (chosen_saved f c k name id serial false d Hf Hid) as [Hch Hok].
  unfold write_fgdev_config. g_call. apply wp_bind.
  eapply wp_mono; [apply (config_wp c k false name id serial); try done|].
  - change (file_at disk (G_uninit sec_file_size :: h)) with (file_at disk h). rewrite Hs. congruence.
  - change (file_at disk (G_uninit sec_file_size :: h)) with (file_at disk h). rewrite Hs.
    intros sec [= <-]. apply Hf.
  - change (file_at disk (G_uninit sec_file_size :: h)) with (file_at disk h). rewrite Hs.
    intros sec [= <-] _ Hne. destruct Hne. destruct Hf as (_ & _ & _ & _ & _ & _ & ->). by rewrite Hid.
  - cbv beta. change (file_at disk (G_uninit sec_file_size :: h)) with (file_at disk h). rewrite Hs, Hch.
    intros r s' h' (-> & -> & Hc). assert (Hc' : calm h h') by (eapply calm_trans; [|exact Hc]; calm).
    cbn [Z.eqb negb]. apply wp_bind, wp_get. cbv iota. unfold write_to_dev.
    replace (take table_data_size (take table_size f)) with d.
    + eapply wp_mono; [apply write_dev_wp; rewrite (calm_file disk h h') by done; by eexists|]. cbv beta.
      intros r s2 h2 (-> & -> & E & Ho). split_and!; [done..|by rewrite E, (calm_written DEV_FILE h h')|].
      intros q Hq. destruct (Ho q Hq) as [-> ->]. by rewrite (calm_file disk h h'), (calm_written q h h').
    + destruct Hf as (_ & <- & _). by rewrite take_take.
Qed.

End choice.

(** * Results *)

(** C34.  The configuration of a maxim gauge is the one that is due.  On a system
    that keeps its files, with memory, with a battery whose model and serial number
    can be read and whose primary file holds whole tables, the tool returns, reads
    nothing outside a buffer and changes no file: it takes the table of the secondary
    file exactly when its checksum is right and it was saved for this battery and this
    primary file, and else the first table of the primary file for the battery, marked
    for initialisation in charger mode, or an error when there is none or no file is
    intact.  Three faults of the code are left out, each by a hypothesis: a secondary
    file whose serial number does not end in its field; a secondary file with a right
    checksum and the identifier of another battery, which is logged as a string along
    with the battery's, when either does not end in its field ([printable],
    foreign_battery_undefined); and a command line of the kernel that is empty, of
    more than 1000 bytes or without androidboot.mode, where the search runs on in
    uninitialised memory ([boot_mode]; that the file cannot be opened is allowed). *)
Theorem config_selection `{Disk} c k cos name id serial t0 h :
  let w := file_at disk h in
  gauge_of w dir name id serial -> w PRIMARY_FILE = Some c -> primary_ok c k -> boot_mode w cos ->
  (forall sec, sec_content w = Some sec -> terminated (sec_serial sec) = true) ->
  printable (sec_content w) id (id ++ drop 2 (g_answer h (G_uninit MAX_BATTID_SIZE))) ->
  wp False (get_fg_config_table t0)
    (fun r s' h' => r = match chosen c k (sec_content w) name id serial cos with
                        | inl e => (e, t0) | inr t => (0, t) end /\
      forall p, file_at disk h' p = w p) false h.
Proof.
  intros w Hg Hw Hp Hb Ht Hpr. eapply wp_mono; [by apply (config_wp c k cos name id serial)|]. cbv beta.
  intros r s' h' (-> & _ & Hc). split; [done|]. intros p. by apply calm_file.
Qed.

(** C33.  What is saved is what is restored.  On a system that keeps its files, with
    memory, saving the state of the gauge at shutdown and restoring it at the next
    boot, with the same battery, a maxim gauge that reports that battery's identifier,
    and the same primary file of whole tables, both succeed; the device is written
    exactly the data that was read from it, once, and no file other than the device
    and the secondary one is written or changed. *)
Theorem saved_config_restored `{Disk} c k name id serial dev h :
  let w := file_at disk h in
  gauge_of w dir name id serial -> w PRIMARY_FILE = Some c -> primary_ok c k ->
  w DEV_FILE = Some dev -> (table_data_size <= length dev)%nat -> take 2 (table_battid dev) = id ->
  wp False (r1 ← read_fg_write_sec; r2 ← write_fgdev_config; mret (r1, r2)) (fun r _ h' =>
    r = (0, 0) /\ written_to DEV_FILE h' = written_to DEV_FILE h ++ [take table_data_size dev] /\
    forall p, p <> SECONDARY_FILE -> p <> DEV_FILE ->
      file_at disk h' p = w p /\ written_to p h' = written_to p h) false h.
Proof.
  intros w Hg Hw Hp Hv Hl Hid. apply wp_bind. eapply wp_mono; [by eapply (save_wp c k name id serial dev)|].
  cbv beta. intros ? ? h1 (-> & -> & Hs & f & Hf & Hsf). apply wp_bind.
  assert (Hb : take 2 (table_battid (take table_data_size dev)) = id).
  { rewrite <- Hid. unfold table_battid. apply field_take. unfold table_data_size. lia. }
  eapply wp_mono; [eapply (restore_wp c k name id serial dev)|].
  - by eapply saves_gauge.
  - by rewrite (proj1 (Hs PRIMARY_FILE ltac:(done))).
  - done.
  - by rewrite (proj1 (Hs DEV_FILE ltac:(done))).
  - exact Hb.
  - exact Hf.
  - exact Hsf.
  - cbv beta. intros ? s2 h2 (-> & -> & E & Ho). apply wp_ret. split_and!; [done| |].
    + rewrite E. by rewrite (proj2 (Hs DEV_FILE ltac:(done))).
    + intros p Hp1 Hp2. destruct (Ho p Hp2) as [-> ->]. by apply Hs.
Qed.

(** ** The gauge of Intel *)

(** What is written to its device: [None] when there is none to write. *)
Definition xpwr_chosen (w : list Z -> option (list Z)) : option (list Z) :=
  let sec := match read_of w SECONDARY_FILE 40 with
             | inr s => if checksum s 38 =? u16 38 s then Some s else None
             | inl _ => None
             end in
  match read_of w XPWR_PRIMARY_FILE 38 with
  | inl _ => None
  | inr p =>
      match sec with
      | Some s => Some (take 36 (if checksum p 36 =? u16 36 s then s else p))
      | None => if checksum p 36 =? u16 36 p then Some (take 36 p) else None
      end
  end.

Lemma xpwr_config_wp `{Disk} (s : bool) h : is_Some (file_at disk h INTEL_FG_DEV_FILE) ->
  wp False get_xpwr_config (fun r s' h' => s' = s /\
    match xpwr_chosen (file_at disk h) with
    | Some d => r = 0 /\ written_to INTEL_FG_DEV_FILE h' = written_to INTEL_FG_DEV_FILE h ++ [d]
    | None => r = EINVAL /\ written_to INTEL_FG_DEV_FILE h' = written_to INTEL_FG_DEV_FILE h
    end) s h.
Proof.
  intros Hd. unfold get_xpwr_config. g_call. rewrite dk_malloc. g_call. rewrite dk_malloc. cbn [negb].
  apply wp_bind. eapply wp_mono; [apply (read_exactly_wp SECONDARY_FILE 40)|]. cbv beta.
  intros r1 s1 h1 (Hr1 & -> & Hc1). apply wp_bind.
  eapply wp_mono; [apply (read_exactly_wp XPWR_PRIMARY_FILE 38)|]. cbv beta. intros r2 s2 h2 (Hr2 & -> & Hc2).
  assert (Hc : calm h h2) by (eapply calm_trans; [|exact Hc2]; eapply calm_trans; [|exact Hc1]; calm).
  unfold xpwr_chosen. change (read_of (file_at disk (G_malloc _ :: _)) SECONDARY_FILE 40) with
    (read_of (file_at disk h) SECONDARY_FILE 40) in Hr1. rewrite <- Hr1.
  replace (read_of (file_at disk h) XPWR_PRIMARY_FILE 38) with r2
    by (rewrite Hr2; unfold read_of; by rewrite (calm_file disk _ h1 _ Hc1)).
  assert (Hw : forall d, wp False (write_to_intel_fg_dev d) (fun r s' h' => s' = s /\ r = 0 /\
    written_to INTEL_FG_DEV_FILE h' = written_to INTEL_FG_DEV_FILE h ++ [take 36 d]) s h2).
  { intros d. eapply wp_mono; [apply write_dev_wp; by rewrite (calm_file disk h h2)|]. cbv beta.
    intros r s' h' (-> & -> & E & _). rewrite E. by rewrite (calm_written _ h h2). }
  assert (He : forall X : Prop, X -> X /\ EINVAL = EINVAL /\ written_to INTEL_FG_DEV_FILE h2 =
    written_to INTEL_FG_DEV_FILE h) by (intros; by rewrite (calm_written _ h h2)).
  destruct r2 as [|p]; [apply wp_ret; by apply He|].
  destruct r1 as [|sec]; cbn [andb negb]; rewrite ?andb_true_r, ?andb_false_r.
  - destruct (checksum p 36 =? u16 36 p); cbn [negb]; [apply Hw|apply wp_ret; by apply He].
  - destruct (checksum sec 38 =? u16 38 sec); cbn [andb negb]; rewrite ?andb_true_r, ?andb_false_r.
    + destruct (checksum p 36 =? u16 36 sec); apply Hw.
    + destruct (checksum p 36 =? u16 36 p); cbn [negb]; [apply Hw|apply wp_ret; by apply He].
Qed.

(** A damaged primary file is written to the device when the secondary file is
    intact: its sum, not the one it holds, is compared with the one saved. *)
Theorem xpwr_damaged_primary_used `{Disk} p sec (s : bool) h :
  let w := file_at disk h in
  is_Some (w INTEL_FG_DEV_FILE) -> w XPWR_PRIMARY_FILE = Some p -> length p = 38%nat ->
  w SECONDARY_FILE = Some sec -> length sec = 40%nat -> checksum sec 38 = u16 38 sec ->
  u16 36 sec = u16 36 p -> checksum p 36 <> u16 36 p ->
  wp False get_xpwr_config (fun r _ h' => r = 0 /\
    written_to INTEL_FG_DEV_FILE h' = written_to INTEL_FG_DEV_FILE h ++ [take 36 p]) s h.
Proof.
  intros w Hd Hp Hlp Hs Hls Hok Hsaved Hbad. eapply wp_mono; [by apply xpwr_config_wp|]. cbv beta.
  intros r s' h' (_ & Hr). revert Hr. fold w. unfold xpwr_chosen, read_of. rewrite Hp, Hs, Hlp, Hls.
  cbn [Nat.ltb Nat.leb]. rewrite !take_ge by lia. rewrite Hok, Z.eqb_refl, Hsaved.
  by rewrite (proj2 (Z.eqb_neq _ _) Hbad).
Qed.

(** ** A system *)

Definition disk_gauge (disk : list Z -> option (list Z)) (dir : list (list Z)) : Gauge := {|
  g_answer h c :=
    match c return gans c with
    | G_open p => if file_at disk h p is Some _ then None else Some 2%positive
    | G_open_w p => if file_at disk h p is Some _ then None else Some 2%positive
    | G_creat _ => None
    | G_read p n => match file_at disk h p with Some c => inr (take (Z.to_nat n) c) | None => inl 9%positive end
    | G_write _ d => inr (Z.of_nat (length d))
    | G_opendir _ => inr dir
    | G_malloc _ => true
    | G_uninit n => replicate n 99
    | G_close _ | G_closedir | G_dump_header _ | G_dump _ => tt
    end |}.

Lemma disk_gauge_ok disk dir : @Disk (disk_gauge disk dir) disk dir.
Proof.
  split; intros; try done.
  - cbn. by rewrite H.
  - cbn. apply length_replicate.
Qed.

Definition demo_name : list Z := bytes "max17047".

Definition demo_table : list Z :=
  [0; 162; 0; 1; 0] ++ demo_name ++ bytes "AB" ++ replicate 6 0 ++ [0] ++ replicate 138 7 ++ [0; 0].

(** A primary file with one table. *)
Definition demo_primary : list Z :=
  let p := [1; 0; 170; 0; 0; 0; 0; 0] ++ demo_table in put_at 4 (le16 (checksum p 170)) p.

Definition demo_disk (primary : list Z) (p : list Z) : option (list Z) :=
  if bool_decide (p = PRIMARY_FILE) then Some primary
  else if bool_decide (p = DEV_FILE) then Some (take 20 demo_table ++ replicate 140 8)
  else if bool_decide (p = bytes "/proc/cmdline") then Some (bytes "quiet androidboot.mode=main ")
  else if bool_decide (p = attr_path demo_name (bytes "type")) then Some (bytes "Battery" ++ [10])
  else if bool_decide (p = attr_path demo_name (bytes "model_name")) then Some (bytes "AB")
  else if bool_decide (p = attr_path demo_name (bytes "serial_number")) then Some (bytes "SN12")
  else None.

Definition demo_dir : list (list Z) := [bytes "."; bytes ".."; demo_name].

Definition demo_system (primary : list Z) : Gauge := disk_gauge (demo_disk primary) demo_dir.

Lemma demo_gauge_of primary :
  gauge_of (demo_disk primary) demo_dir demo_name (bytes "AB") (bytes "SN12").
Proof.
  split; [split|..].
  - split; [|cbn; lia]. by vm_compute.
  - split; [done|cbn; lia].
  - exists [bytes "."; bytes ".."], []. split; [done|]. repeat constructor; by left.
  - by vm_compute.
  - exists (bytes "AB"). split; [by vm_compute|split; [cbn; lia|done]].
  - exists (bytes "SN12"). split; [by vm_compute|done].
Qed.

Lemma demo_primary_ok : primary_ok demo_primary 1.
Proof. split; [lia|]. split; [by vm_compute|]. vm_compute. lia. Qed.

Lemma config_selection_witness :
  exists h', @get_fg_config_table (demo_system demo_primary) [] false [] = Done (0, demo_table) false h'.
Proof.
  assert (Hb : boot_mode (demo_disk demo_primary) false).
  { unfold boot_mode. change (demo_disk demo_primary (bytes "/proc/cmdline")) with
      (Some (bytes "quiet androidboot.mode=main ")).
    split_and!; [done|by repeat constructor|cbn; lia|]. exists 6%nat. by split; [vm_compute|]. }
  destruct (wp_done _ _ _ _ (@config_selection _ _ _ (disk_gauge_ok (demo_disk demo_primary) demo_dir)
    demo_primary 1 false demo_name (bytes "AB") (bytes "SN12") [] [] (demo_gauge_of _) ltac:(by vm_compute)
    demo_primary_ok Hb ltac:(by vm_compute) ltac:(by intros ?))) as (r & s' & h' & E & Hr & _).
  exists h'. unfold demo_system. rewrite E. f_equal; [rewrite Hr; by vm_compute|].
  revert E. vm_compute. by intros [= _ <- _].
Defined.

Lemma saved_config_restored_witness :
  exists s' h', @mbind _ _ _ _ (fun r1 => r2 ← @write_fgdev_config (demo_system demo_primary); mret (r1, r2))
      (@read_fg_write_sec (demo_system demo_primary)) false [] = Done (0, 0) s' h' /\
    written_to DEV_FILE h' = [take 20 demo_table ++ replicate 140 8] /\
    forall p, p <> SECONDARY_FILE -> p <> DEV_FILE ->
      file_at (demo_disk demo_primary) h' p = demo_disk demo_primary p /\ written_to p h' = [].
Proof.
  destruct (wp_done _ _ _ _ (@saved_config_restored _ _ _ (disk_gauge_ok (demo_disk demo_primary) demo_dir)
    demo_primary 1 demo_name (bytes "AB") (bytes "SN12") (take 20 demo_table ++ replicate 140 8) []
    (demo_gauge_of _) ltac:(by vm_compute) demo_primary_ok ltac:(by vm_compute) ltac:(vm_compute; lia)
    ltac:(by vm_compute))) as (r & s' & h' & E & -> & Hw & Ho).
  exists s', h'. split; [exact E|]. split; [rewrite Hw; by vm_compute|exact Ho].
Defined.

(** ** Where the hypotheses fail *)

(** A primary file that announces fewer bytes than its own header: the checksum
    is read and cleared outside the buffer. *)
Theorem short_primary_undefined :
  exists h', @write_fgdev_config (demo_system [1; 0; 4; 0; 5; 0; 0; 0]) false [] = Undef h'.
Proof. eexists. vm_compute. reflexivity. Qed.

(** A secondary file saved for the battery "XYZ": the identifier of the present one,
    two bytes in a buffer nothing else was stored in, is printed as a string. *)
Theorem foreign_battery_undefined :
  let s := take 13 demo_table ++ bytes "XYZ" ++ replicate 161 0 in
  let s := put_at 160 (le16 (checksum s 160)) s in
  let sys_ := disk_gauge (fun p => if bool_decide (p = SECONDARY_FILE) then Some s else demo_disk demo_primary p) demo_dir in
  exists h', @get_fg_config_table sys_ [] false [] = Undef h'.
Proof. eexists. vm_compute. reflexivity. Qed.

(** A failure to save is not reported: here the primary file is missing. *)
Theorem save_failure_hidden :
  let sys_ := disk_gauge (fun p => if bool_decide (p = PRIMARY_FILE) then None else demo_disk [] p) demo_dir in
  exists h', @read_fg_write_sec sys_ false [] = Done 0 false h' /\ written_to SECONDARY_FILE h' = [].
Proof. eexists. vm_compute. by split. Qed.
