(* ===== verification/ObjectHeap.v ===== *)
(** The object heap of the video driver: psb_video/src/object_heap.c.

    The driver hands out identifiers of its configurations, contexts, surfaces and
    buffers from heaps that grow by sixteen objects and chain the free ones through
    their own field.  An object of a heap is the index of its entry; the part of an
    object that belongs to its user is left out. *)
From stdpp Require Import gmap.
From S2P Require Import Prelude.

(** * The boundary: the allocator *)

(** [M_free] says what is given back: the object of an entry, or the table. *)
Inductive mcall := M_realloc (size : Z) | M_calloc (size : Z) | M_free (i : option Z).

Class Allocator := { gives : list mcall -> mcall -> bool }.

(** * The heap *)

Definition OBJECT_HEAP_OFFSET_MASK : Z := 0x7F000000.
Definition OBJECT_HEAP_ID_MASK : Z := 0x00FFFFFF.

Definition LAST_FREE : Z := -1.
Definition ALLOCATED : Z := -2.
Definition SUSPENDED : Z := -3.

Record object_base := { obj_id : Z; obj_next_free : Z }.

(** [heap_index] holds the objects below [heap_size]; an entry beyond it is not an
    object. *)
Record object_heap := {
  object_size : Z; id_offset : Z; heap_index : list object_base; next_free : Z; heap_size : Z;
  heap_increment : Z }.

Definition set_index (l : list object_base) (h : object_heap) : object_heap :=
  {| object_size := object_size h; id_offset := id_offset h; heap_index := l;
     next_free := next_free h; heap_size := heap_size h; heap_increment := heap_increment h |}.

Definition set_next (n : Z) (h : object_heap) : object_heap :=
  {| object_size := object_size h; id_offset := id_offset h; heap_index := heap_index h;
     next_free := n; heap_size := heap_size h; heap_increment := heap_increment h |}.

Definition set_size (n : Z) (h : object_heap) : object_heap :=
  {| object_size := object_size h; id_offset := id_offset h; heap_index := heap_index h;
     next_free := next_free h; heap_size := n; heap_increment := heap_increment h |}.

Section object_heap.
Context `{Allocator}.

(** Whether the driver is built with its assertions. *)
Variable debug : bool.

Abbreviation OH A := (M (list mcall) object_heap A).

Definition mem (c : mcall) : OH bool := fun s h => Done (gives h c) s (c :: h).

Definition psb_ASSERT (b : bool) : OH unit := ASSERT (negb debug || b).

(** [heap->heap_index[i]]. *)
Definition entry (i : Z) : OH object_base :=
  s ← get;
  if i <? 0 then undefined
  else match heap_index s !! Z.to_nat i with Some o => mret o | None => undefined end.

Definition set_next_free (i : Z) (n : Z) : OH unit :=
  modify (fun s => set_index (alter (fun o => {| obj_id := obj_id o; obj_next_free := n |}) (Z.to_nat i)
                                (heap_index s)) s).

(** The loop of [object_heap_expand], from the last of the [k] new entries down;
    [None] is an object that could not be allocated. *)
Fixpoint expand_loop (k : nat) (size old_size offset : Z) (objs : list (option object_base))
    (malloc_error : bool) (nf : Z) : OH (list (option object_base) * bool * Z) :=
  match k with
  | O => mret (objs, malloc_error, nf)
  | S k' =>
      let i := old_size + Z.of_nat k' in
      ok ← mem (M_calloc size);
      if (ok : bool) then
        expand_loop k' size old_size offset
          (Some {| obj_id := i + offset; obj_next_free := nf |} :: objs) malloc_error i
      else expand_loop k' size old_size offset (None :: objs) true nf
  end.

Definition object_heap_expand : OH Z :=
  s ← get;
  let new_heap_size := heap_size s + heap_increment s in
  ok ← mem (M_realloc (4 * new_heap_size));
  if negb ok then mret (-1)
  else
    '(objs, malloc_error, nf) ← expand_loop (Z.to_nat (heap_increment s)) (object_size s) (heap_size s)
                                  (id_offset s) [] false (next_free s);
    if (malloc_error : bool) then
      for_each (rev (zip (seqZ (heap_size s) (heap_increment s)) objs)) (fun '(i, o) =>
        when (bool_decide (is_Some o)) (_ ← mem (M_free (Some i)); mret tt)) ;;
      mret (-1)
    else
      modify (set_index (heap_index s ++ omap (fun o => o) objs)) ;;
      modify (set_next nf) ;;
      modify (set_size new_heap_size) ;;
      mret 0.

Definition object_heap_init (size offset : Z) : OH Z :=
  modify (fun _ => {| object_size := size; id_offset := Z.land offset OBJECT_HEAP_OFFSET_MASK;
                      heap_index := []; next_free := LAST_FREE; heap_size := 0;
                      heap_increment := 16 |}) ;;
  object_heap_expand.

Definition object_heap_allocate : OH Z :=
  s ← get;
  r ← (if next_free s =? LAST_FREE then object_heap_expand else mret 0);
  if r =? -1 then mret (-1)
  else
    s ← get;
    psb_ASSERT (0 <=? next_free s) ;;
    obj ← entry (next_free s);
    modify (set_next (obj_next_free obj)) ;;
    set_next_free (next_free s) ALLOCATED ;;
    mret (obj_id obj).

(** [None] is NULL. *)
Definition object_heap_lookup (id : Z) : OH (option Z) :=
  s ← get;
  if (id <? id_offset s) || (heap_size s + id_offset s <? id) then mret None
  else
    let i := Z.land id OBJECT_HEAP_ID_MASK in
    _ ← entry i; mret (Some i).

Definition in_use (o : object_base) : bool :=
  (obj_next_free o =? ALLOCATED) || (obj_next_free o =? SUSPENDED).

(** The loop of [object_heap_next] from [i] on, with the new value of the
    iterator; the entries left are [heap_size - i]. *)
Fixpoint next_loop (fuel : nat) (i : Z) : OH (option Z * Z) :=
  s ← get;
  if heap_size s <=? i then mret (None, i)
  else
    match fuel with
    | O => undefined
    | S n =>
        obj ← entry i;
        if in_use obj then mret (Some i, i) else next_loop n (i + 1)
    end.

Definition object_heap_next (iter : Z) : OH (option Z * Z) :=
  s ← get;
  next_loop (Z.to_nat (heap_size s - (iter + 1))) (iter + 1).

Definition object_heap_first : OH (option Z * Z) := object_heap_next (-1).

Definition object_heap_free (obj : option Z) : OH unit :=
  match obj with
  | None => mret tt
  | Some i =>
      o ← entry i;
      psb_ASSERT (in_use o) ;;
      s ← get;
      set_next_free i (next_free s) ;;
      modify (set_next (Z.land (obj_id o) OBJECT_HEAP_ID_MASK))
  end.

Definition object_heap_destroy : OH unit :=
  s ← get;
  for_each (seqZ 0 (heap_size s)) (fun i =>
    obj ← entry i;
    psb_ASSERT (negb (obj_next_free obj =? ALLOCATED)) ;;
    psb_ASSERT (negb (obj_next_free obj =? SUSPENDED)) ;;
    _ ← mem (M_free (Some i)); mret tt) ;;
  _ ← mem (M_free None);
  modify (fun s => set_next LAST_FREE (set_index [] (set_size 0 s))).

Definition object_heap_suspend_object (obj : Z) (suspend : bool) : OH unit :=
  o ← entry obj;
  if suspend then
    psb_ASSERT (obj_next_free o =? ALLOCATED) ;; set_next_free obj SUSPENDED
  else
    psb_ASSERT (obj_next_free o =? SUSPENDED) ;; set_next_free obj ALLOCATED.

(** The loop of [psb_Terminate] over what is left of a heap of configurations, with
    the identifiers it frees; the objects of a heap bound its rounds. *)
Fixpoint clean_up_loop (fuel : nat) (r : option Z * Z) : OH (list Z) :=
  match r, fuel with
  | (None, _), _ => mret []
  | (Some _, _), O => undefined
  | (Some i, iter), S n =>
      o ← entry i;
      object_heap_free (Some i) ;;
      r' ← object_heap_next iter;
      ids ← clean_up_loop n r';
      mret (obj_id o :: ids)
  end.

Definition clean_up_configs : OH (list Z) :=
  s ← get;
  r ← object_heap_first;
  ids ← clean_up_loop (Z.to_nat (heap_size s)) r;
  object_heap_destroy ;;
  mret ids.

End object_heap.
