(* ===== verification/ObjectHeapSpec.v ===== *)
(** The object heap of the video driver: its contract and its teardown.

    A heap stands for the map of the identifiers of the objects in use, to whether
    each is suspended; a client of the heap runs against that map.  The free objects
    form a chain of entries, each once, that holds every entry not in use. *)
From Stdlib Require Import Sorted.
From stdpp Require Import gmap.
From S2P Require Import Prelude ObjectHeap.

(** * What the heap stands for *)

(** The objects in use: whether each is suspended. *)
Definition status (o : object_base) : option (Z * bool) :=
  if obj_next_free o =? ALLOCATED then Some (obj_id o, false)
  else if obj_next_free o =? SUSPENDED then Some (obj_id o, true) else None.

Definition view (h : object_heap) : gmap Z bool := list_to_map (omap status (heap_index h)).

(** The free objects, chained from [nf]. *)
Fixpoint chain (objs : list object_base) (nf : Z) (l : list nat) : Prop :=
  match l with
  | [] => nf = LAST_FREE
  | i :: l' => nf = Z.of_nat i /\ exists o, objs !! i = Some o /\ chain objs (obj_next_free o) l'
  end.

Record heap_ok (h : object_heap) (free : list nat) : Prop := {
  ok_chain : chain (heap_index h) (next_free h) free;
  ok_free : NoDup free;
  ok_objs : forall i o, heap_index h !! i = Some o ->
    obj_id o = Z.of_nat i + id_offset h /\ (i ∉ free -> in_use o = true) /\ (i ∈ free -> in_use o = false);
  ok_size : heap_size h = Z.of_nat (length (heap_index h));
  ok_bound : heap_size h <= 2 ^ 24;
  ok_increment : heap_increment h = 16;
  ok_offset : exists z, id_offset h = Z.land z OBJECT_HEAP_OFFSET_MASK }.

(** ** The contract of a heap *)

Inductive heap_op := Op_allocate | Op_free (x : Z) | Op_suspend (x : Z) (b : bool) | Op_lookup (x : Z).

(** What a client may ask: it only frees and looks up what it holds, and suspends an
    object, or makes it valid again, once. *)
Definition allowed (m : gmap Z bool) (op : heap_op) : bool :=
  match op with
  | Op_allocate => true
  | Op_free x | Op_lookup x => bool_decide (is_Some (m !! x))
  | Op_suspend x b => bool_decide (m !! x = Some (negb b))
  end.

(** The answer to an operation and the objects in use after it. *)
Inductive heap_spec (m : gmap Z bool) : heap_op -> option Z -> gmap Z bool -> Prop :=
| Spec_allocate x : 0 <= x -> m !! x = None -> heap_spec m Op_allocate (Some x) (<[x := false]> m)
| Spec_no_memory : heap_spec m Op_allocate (Some (-1)) m
| Spec_free x b : m !! x = Some b -> heap_spec m (Op_free x) None (delete x m)
| Spec_suspend x b : m !! x = Some (negb b) -> heap_spec m (Op_suspend x b) None (<[x := b]> m)
| Spec_lookup x b : m !! x = Some b -> heap_spec m (Op_lookup x) (Some x) m
| Spec_refused op : allowed m op = false -> heap_spec m op None m.

Inductive heap_run : gmap Z bool -> list heap_op -> list (option Z) -> gmap Z bool -> Prop :=
| Run_end m : heap_run m [] [] m
| Run_step m op a m' ops l m'' :
    heap_spec m op a m' -> heap_run m' ops l m'' -> heap_run m (op :: ops) (a :: l) m''.

(** *** The contract in full

    The abstract heap: the objects in use, the first identifier and how many objects
    were made. *)
Record heap_abs := { used : gmap Z bool; first_id : Z; made : Z }.

Definition abs_of (s : object_heap) : heap_abs :=
  {| used := view s; first_id := id_offset s; made := heap_size s |}.

Definition with_used (m : gmap Z bool) (a : heap_abs) : heap_abs :=
  {| used := m; first_id := first_id a; made := made a |}.

Definition grown (a : heap_abs) : heap_abs :=
  {| used := used a; first_id := first_id a; made := made a + 16 |}.

Definition in_range (a : heap_abs) (x : Z) : Prop := first_id a <= x < first_id a + made a.
#[export] Instance in_range_dec a x : Decision (in_range a x).
Proof. unfold in_range. apply _. Defined.

Definition full (a : heap_abs) : Prop := forall x, in_range a x -> is_Some (used a !! x).

(** What may be asked of the heap: to free an object in use, to suspend one that is
    not suspended or make valid one that is, and to look up any identifier but the
    first past the objects made. *)
Definition legal (a : heap_abs) (op : heap_op) : Prop :=
  match op with
  | Op_allocate => True
  | Op_free x => is_Some (used a !! x)
  | Op_suspend x b => used a !! x = Some (negb b)
  | Op_lookup x => x <> first_id a + made a
  end.

(** A free object is taken while there is one; otherwise sixteen more are made,
    memory permitting.  A lookup finds every object made: those in use, suspended or
    not, and the free ones too. *)
Inductive heap_does (a : heap_abs) : heap_op -> option Z -> heap_abs -> Prop :=
| Does_allocate x : ~ full a -> used a !! x = None -> in_range a x -> 0 <= x ->
    heap_does a Op_allocate (Some x) (with_used (<[x := false]> (used a)) a)
| Does_grow x : full a -> used a !! x = None -> in_range (grown a) x -> 0 <= x ->
    heap_does a Op_allocate (Some x) (with_used (<[x := false]> (used a)) (grown a))
| Does_no_memory : full a -> heap_does a Op_allocate (Some (-1)) a
| Does_free x b : used a !! x = Some b ->
    heap_does a (Op_free x) None (with_used (delete x (used a)) a)
| Does_suspend x b : used a !! x = Some (negb b) ->
    heap_does a (Op_suspend x b) None (with_used (<[x := b]> (used a)) a)
| Does_lookup x : heap_does a (Op_lookup x) (if decide (in_range a x) then Some x else None) a.

Section client.
Context `{Allocator} (debug : bool).

Abbreviation OH A := (M (list mcall) object_heap A).

(** An operation as the driver asks for it, by identifier; the driver does not look
    whether there is an object to suspend. *)
Definition do_op (op : heap_op) : OH (option Z) :=
  match op with
  | Op_allocate => r ← object_heap_allocate debug; mret (Some r)
  | Op_free x => obj ← object_heap_lookup x; object_heap_free debug obj ;; mret None
  | Op_suspend x b =>
      obj ← object_heap_lookup x;
      match obj with
      | None => undefined
      | Some i => object_heap_suspend_object debug i b ;; mret None
      end
  | Op_lookup x =>
      obj ← object_heap_lookup x;
      match obj with
      | None => mret None
      | Some i => o ← entry i; mret (Some (obj_id o))
      end
  end.

(** A client that never asks for what it is not allowed to. *)
Definition run_op (op : heap_op) : OH (option Z) :=
  s ← get; if negb (allowed (view s) op) then mret None else do_op op.

Fixpoint run_ops (ops : list heap_op) : OH (list (option Z)) :=
  match ops with
  | [] => mret []
  | op :: ops' => a ← run_op op; l ← run_ops ops'; mret (a :: l)
  end.

(** The heap serves the operations [ops] as the abstract one does: as long as they are
    legal, each returns, with an answer of the abstract heap, and what it stands for
    afterwards is what the abstract heap is then. *)
Fixpoint serves (ops : list heap_op) (a : heap_abs) (s : object_heap) (h : list mcall) : Prop :=
  abs_of s = a /\
  match ops with
  | [] => True
  | op :: ops' =>
      legal a op ->
      wp False (do_op op) (fun r s' h' => exists a', heap_does a op r a' /\
        ((forall h c, gives h c = true) -> r <> Some (-1)) /\ serves ops' a' s' h') s h
  end.

End client.

Lemma offset_mod z : Z.land z OBJECT_HEAP_OFFSET_MASK mod 2 ^ 24 = 0.
Proof. rewrite <- Z.land_ones by lia. rewrite <- Z.land_assoc. apply Z.land_0_r. Qed.

Lemma id_mask i z : 0 <= i < 2 ^ 24 ->
  Z.land (i + Z.land z OBJECT_HEAP_OFFSET_MASK) OBJECT_HEAP_ID_MASK = i.
Proof.
  intros Hi. change OBJECT_HEAP_ID_MASK with (Z.ones 24). rewrite Z.land_ones by lia.
  rewrite Zplus_mod, offset_mod, Z.add_0_r, Zmod_mod. by apply Z.mod_small.
Qed.

Lemma in_use_status o : in_use o = true <-> is_Some (status o).
Proof.
  unfold in_use, status. destruct (_ =? ALLOCATED), (_ =? SUSPENDED); cbn; split; try done; try by eexists;
    by intros [? ?].
Qed.

(** The identifiers of the entries are their own, so that the view is read entry by
    entry. *)
Definition ids_from (off : Z) (objs : list object_base) : Prop :=
  forall i o, objs !! i = Some o -> obj_id o = Z.of_nat i + off.

Lemma view_lookup off objs x b : ids_from off objs ->
  (list_to_map (omap status objs) : gmap Z bool) !! x = Some b <->
  exists i o, objs !! i = Some o /\ x = Z.of_nat i + off /\ status o = Some (x, b).
Proof.
  intros Hids. assert (Hst : forall o y c, status o = Some (y, c) -> y = obj_id o).
  { intros o y c. unfold status. destruct (_ =? ALLOCATED); [by intros [= -> _]|].
    destruct (_ =? SUSPENDED); [by intros [= -> _]|done]. }
  revert off Hids. induction objs as [|o objs IH]; intros off Hids.
  - cbn. split; [done|]. by intros (i & o & Hi & _).
  - assert (Htl : ids_from (off + 1) objs).
    { intros i o' Hi. rewrite (Hids (S i) o' Hi). lia. }
    assert (Hrec : (list_to_map (omap status objs) : gmap Z bool) !! x = Some b <->
      exists i o', (o :: objs) !! S i = Some o' /\ x = Z.of_nat (S i) + off /\ status o' = Some (x, b)).
    { rewrite (IH _ Htl). split; intros (i & o' & Hi & Hx & Hs); exists i, o'; split_and!; try done; lia. }
    cbn [omap list_omap]. destruct (status o) as [[y c]|] eqn:E.
    + pose proof (Hst _ _ _ E) as Hy. rewrite (Hids 0%nat o eq_refl) in Hy. cbn [list_to_map foldr uncurry].
      cbn. destruct (decide (y = x)) as [->|Hne].
      * rewrite lookup_insert_eq. split.
        -- intros [= ->]. exists 0%nat, o. split_and!; [done|lia|done].
        -- intros (i & o' & Hi & Hx & Hs). assert (i = 0%nat) as -> by lia.
           injection Hi as <-. congruence.
      * rewrite lookup_insert_ne by done. etrans; [apply Hrec|]. split.
        -- intros (i & o' & H'). by exists (S i), o'.
        -- intros ([|i] & o' & Hi & Hx & Hs); [lia|]. by exists i, o'.
    + etrans; [apply Hrec|]. split.
      * intros (i & o' & H'). by exists (S i), o'.
      * intros ([|i] & o' & Hi & Hx & Hs); [injection Hi as <-; congruence|]. by exists i, o'.
Qed.

(** ** Changing an entry *)

Definition with_next (n : Z) (o : object_base) : object_base := {| obj_id := obj_id o; obj_next_free := n |}.

Lemma lookup_alter_with (i : nat) n (objs : list object_base) (j : nat) :
  alter (with_next n) i objs !! j = if decide (i = j) then with_next n <$> objs !! j else objs !! j.
Proof.
  destruct (decide (i = j)) as [->|Hne]; [apply list_lookup_alter_eq|by apply list_lookup_alter_ne].
Qed.

Lemma ids_alter off objs (i : nat) n : ids_from off objs -> ids_from off (alter (with_next n) i objs).
Proof.
  intros Hids j o. rewrite lookup_alter_with. destruct (decide (i = j)); [|apply Hids].
  destruct (objs !! j) as [o'|] eqn:E; [|done]. intros [= <-]. by apply (Hids j o').
Qed.

Lemma view_alter off objs (i : nat) o n : ids_from off objs -> objs !! i = Some o ->
  (list_to_map (omap status (alter (with_next n) i objs)) : gmap Z bool) =
  match status (with_next n o) with
  | Some (_, b) => <[obj_id o := b]> (list_to_map (omap status objs))
  | None => delete (obj_id o) (list_to_map (omap status objs))
  end.
Proof.
  intros Hids Ho. apply map_eq. intros x. apply option_eq. intros b.
  rewrite (view_lookup off) by by apply ids_alter. pose proof (Hids i o Ho) as Hid.
  assert (Hold : forall j o', objs !! j = Some o' -> j <> i -> obj_id o <> Z.of_nat j + off) by (intros; lia).
  assert (Hval : forall y c, status (with_next n o) = Some (y, c) -> y = obj_id o).
  { intros y c. unfold status. repeat case_match; by intros [=]. }
  destruct (decide (x = obj_id o)) as [->|Hx].
  - transitivity (status (with_next n o) = Some (obj_id o, b)).
    + split.
      * intros (j & o' & Hj & Hxj & Hs). assert (j = i) as -> by lia. rewrite lookup_alter_with, decide_True in Hj by done.
        rewrite Ho in Hj. by injection Hj as <-.
      * intros Hs. exists i, (with_next n o). rewrite lookup_alter_with, decide_True, Ho by done. done.
    + destruct (status (with_next n o)) as [[y c]|] eqn:E.
      * rewrite lookup_insert_eq. rewrite (Hval _ _ eq_refl). split; by intros [= ->].
      * rewrite lookup_delete_eq. done.
  - transitivity ((list_to_map (omap status objs) : gmap Z bool) !! x = Some b).
    + rewrite (view_lookup off) by done. split; intros (j & o' & Hj & Hxj & Hs); exists j, o'.
      * rewrite lookup_alter_with, decide_False in Hj by (intros ->; lia). done.
      * rewrite lookup_alter_with, decide_False by (intros ->; lia). done.
    + destruct (status (with_next n o)) as [[y c]|]; [by rewrite lookup_insert_ne|by rewrite lookup_delete_ne].
Qed.

Lemma chain_alter objs (i : nat) n nf l : i ∉ l -> chain objs nf l -> chain (alter (with_next n) i objs) nf l.
Proof.
  revert nf. induction l as [|j l IH]; intros nf Hi; cbn [chain]; [done|].
  rewrite not_elem_of_cons in Hi. destruct Hi as [Hij Hi]. intros (-> & o & Ho & Hc). split; [done|]. exists o.
  rewrite lookup_alter_with, decide_False by done. split; [done|by apply IH].
Qed.

(** ** New entries *)

Fixpoint fresh (old off : Z) (k : nat) (nf : Z) : list object_base :=
  match k with
  | O => []
  | S k' => fresh old off k' (old + Z.of_nat k') ++
            [{| obj_id := old + Z.of_nat k' + off; obj_next_free := nf |}]
  end.

Lemma length_fresh old off k nf : length (fresh old off k nf) = k.
Proof. revert nf. induction k as [|k IH]; intros nf; cbn; [done|]. rewrite length_app, IH. cbn. lia. Qed.

Lemma lookup_fresh old off k nf i o : 0 <= old -> -1 <= nf -> fresh old off k nf !! i = Some o ->
  obj_id o = old + Z.of_nat i + off /\ in_use o = false.
Proof.
  intros Ho. revert nf. induction k as [|k IH]; intros nf Hnf; cbn [fresh]; [done|].
  intros [Hi|[Hi E]]%lookup_app_Some.
  - apply (IH (old + Z.of_nat k)); [lia|done].
  - rewrite length_fresh in Hi, E. destruct (i - k)%nat as [|m] eqn:Em; [|done]. injection E as <-. cbn.
    split; [f_equal; lia|]. unfold in_use, ALLOCATED, SUSPENDED. cbn.
    by rewrite !(proj2 (Z.eqb_neq _ _)) by lia.
Qed.

Lemma chain_fresh base off k nf l ext :
  let old := Z.of_nat (length base) in
  chain (base ++ fresh old off k nf ++ ext) nf l ->
  chain (base ++ fresh old off k nf ++ ext) (match k with O => nf | S _ => old end) (seq (length base) k ++ l).
Proof.
  intros old. revert nf l ext. induction k as [|k IH]; intros nf l ext Hc; [done|]. cbn [fresh] in *.
  rewrite <- app_assoc in Hc |- *. rewrite seq_S, <- app_assoc.
  specialize (IH (old + Z.of_nat k) ((length base + k)%nat :: l) ([{| obj_id := old + Z.of_nat k + off; obj_next_free := nf |}] ++ ext)).
  replace (match k with O => old + Z.of_nat k | S _ => old end) with old in IH by (destruct k; lia).
  apply IH. cbn [chain]. split; [lia|].
  exists {| obj_id := old + Z.of_nat k + off; obj_next_free := nf |}. split; [|exact Hc].
  rewrite lookup_app_r by lia. rewrite lookup_app_r by (rewrite length_fresh; lia).
  rewrite length_fresh. by replace (length base + k - length base - k)%nat with 0%nat by lia.
Qed.

Section proofs.
Context `{Allocator} (debug : bool).

(** Memory is available. *)
Definition memory : Prop := forall h c, gives h c = true.

Lemma expand_loop_wp k size old off acc err nf (s : object_heap) h :
  wp False (expand_loop k size old off acc err nf) (fun '(objs, e, nf') s' _ => s' = s /\
    (memory -> e = err) /\
    (e = false -> err = false /\ objs = map Some (fresh old off k nf) ++ acc /\
       nf' = match k with O => nf | S _ => old end)) s h.
Proof.
  revert acc err nf h. induction k as [|k IH]; intros acc err nf h; cbn [expand_loop].
  - split; [done|]. split; [done|]. intros ->. done.
  - apply wp_bind. change (wp False (mem ?c) ?Q s h) with (Q (gives h c) s (c :: h)). cbv beta.
    destruct (gives h _) eqn:E; (eapply wp_mono; [apply IH|]); cbv beta; intros [[objs e] nf'] s' h' (-> & Hm & Hs);
      (split; [done|]; split).
    + done.
    + intros He. destruct (Hs He) as (Herr & -> & ->). split; [done|]. cbn [fresh].
      rewrite map_app, <- app_assoc. split; [done|]. destruct k; lia.
    + intros Hmem. by rewrite Hmem in E.
    + intros He. by destruct (Hs He).
Qed.

Lemma free_objs_wp (l : list (Z * option object_base)) (s : object_heap) h :
  wp False (for_each l (fun '(i, o) =>
      when (bool_decide (is_Some o)) (_ ← mem (M_free (Some i)); mret tt)))
    (fun _ s' _ => s' = s) s h.
Proof.
  apply (wp_for_each _ _ _ (fun s' _ => s' = s)); [done|]. intros [i o] s' h' _ ->. by destruct (bool_decide _).
Qed.

Lemma expand_wp free s h : heap_ok s free -> heap_size s + 16 <= 2 ^ 24 ->
  wp False object_heap_expand (fun r s' _ =>
    (memory -> r = 0) /\
    ((r = -1 /\ s' = s) \/
     (r = 0 /\ heap_size s' = heap_size s + 16 /\ view s' = view s /\ id_offset s' = id_offset s /\
      heap_ok s' (seq (length (heap_index s)) 16 ++ free)))) s h.
Proof.
  intros [Hch Hfr Hob Hsz Hbd Hin [z Hoff]] Hmax. unfold object_heap_expand. apply wp_bind, wp_get, wp_bind.
  change (wp False (mem ?c) ?Q s h) with (Q (gives h c) s (c :: h)). cbv beta.
  destruct (gives h _) eqn:E; cbn [negb]; [|split; [intros Hm; by rewrite Hm in E|by left]].
  rewrite Hin. change (Z.to_nat 16) with 16%nat. apply wp_bind. eapply wp_mono; [apply expand_loop_wp|]. cbv beta.
  intros [[objs e] nf'] s' h' (-> & Hm & Hs). destruct e.
  { apply wp_bind. eapply wp_mono; [apply free_objs_wp|]. cbv beta. intros _ ? ? ->.
    split; [intros Hmem; by specialize (Hm Hmem)|by left]. }
  destruct (Hs eq_refl) as (_ & -> & ->). clear Hs Hm.
  apply wp_bind, wp_modify, wp_bind, wp_modify, wp_bind, wp_modify, wp_ret.
  set (new := fresh (heap_size s) (id_offset s) 16 (next_free s)).
  assert (Ho : omap (fun o => o) (map Some new ++ []) = new).
  { rewrite app_nil_r. clear. induction new as [|o l IH]; [done|]. cbn. by f_equal. }
  rewrite Ho. split; [done|]. right.
  assert (Hnf : -1 <= next_free s).
  { destruct free; cbn [chain] in Hch; [rewrite Hch; unfold LAST_FREE; lia|]. destruct Hch as [-> _]. lia. }
  assert (Hnew : forall i o, new !! i = Some o -> obj_id o = heap_size s + Z.of_nat i + id_offset s /\ in_use o = false).
  { intros i o. apply lookup_fresh; [lia|done]. }
  split; [done|split; [cbn; lia|split; [|split; [done|]]]].
  { unfold view. cbn [heap_index set_size set_next set_index]. rewrite omap_app.
    assert (Hnil : omap status new = []); [|by rewrite Hnil, app_nil_r].
    clear -Hnew. assert (Hall : Forall (fun o => in_use o = false) new).
    { apply Forall_lookup. intros i o Hi. by apply (Hnew i o). }
    clear Hnew. induction Hall as [|o l Ho Hl IH]; [done|]. cbn.
    destruct (status o) eqn:E; [|exact IH]. assert (in_use o = true) by (apply in_use_status; by eexists). congruence. }
  pose proof (chain_fresh (heap_index s) (id_offset s) 16 (next_free s) free []) as Hcf. cbv zeta in Hcf.
  rewrite <- Hsz in Hcf. fold new in Hcf. rewrite app_nil_r in Hcf.
  split; cbn [heap_index next_free heap_size heap_increment id_offset set_size set_next set_index].
  - apply Hcf. clear -Hch. revert Hch. generalize (next_free s). induction free as [|i l IH]; intros nf; [done|].
    cbn [chain]. intros (-> & o & Hi & Hc). split; [done|]. exists o. split; [by apply lookup_app_l_Some|by apply IH].
  - apply list.NoDup_app. split; [apply NoDup_seq|]. split; [|done]. intros i Hi%elem_of_seq Hf.
    clear -Hch Hi Hf. revert Hch. generalize (next_free s). induction free as [|j l IH]; intros nf; [by apply not_elem_of_nil in Hf|].
    cbn [chain]. intros (-> & o & Ho & Hc). apply elem_of_cons in Hf as [->|Hf]; [|by eapply IH].
    apply lookup_lt_Some in Ho. lia.
  - intros i o [Hi|[Hi Hn]]%lookup_app_Some.
    + destruct (Hob i o Hi) as (Hid & Hu & Hf). apply lookup_lt_Some in Hi. split; [done|].
      rewrite elem_of_app, elem_of_seq. split; [intros Hni; apply Hu; tauto|intros [?|?]; [lia|by apply Hf]].
    + destruct (Hnew _ _ Hn) as [Hid Hu]. apply lookup_lt_Some in Hn. unfold new in Hn. rewrite length_fresh in Hn.
      split; [rewrite Hid; lia|]. rewrite elem_of_app, elem_of_seq. split; [intros Hni; exfalso; apply Hni; left; lia|done].
  - rewrite length_app. unfold new. rewrite length_fresh. lia.
  - lia.
  - done.
  - by exists z.
Qed.

Lemma heap_ids s free : heap_ok s free -> ids_from (id_offset s) (heap_index s).
Proof. intros Hs i o Hi. by apply (ok_objs _ _ Hs). Qed.

Lemma entry_wp i o s h : 0 <= i -> heap_index s !! Z.to_nat i = Some o ->
  wp False (entry i) (fun r s' h' => r = o /\ s' = s /\ h' = h) s h.
Proof. intros Hi Ho. unfold entry. apply wp_bind, wp_get. by rewrite (proj2 (Z.ltb_ge _ _)), Ho by lia. Qed.

Lemma assert_wp b Q (s : object_heap) h : b = true -> Q tt s h -> wp False (psb_ASSERT debug b) Q s h.
Proof. intros -> HQ. unfold psb_ASSERT. by rewrite orb_true_r. Qed.

(** The entry [i] of an object in use becomes [n], free or suspended or not. *)
Lemma heap_ok_alter s free i o n : heap_ok s free -> heap_index s !! i = Some o -> i ∉ free ->
  in_use (with_next n o) = true -> heap_ok (set_index (alter (with_next n) i (heap_index s)) s) free.
Proof.
  intros [Hch Hfr Hob Hsz Hbd Hin Hoff] Ho Hi Hn.
  split; cbn [heap_index next_free heap_size heap_increment id_offset set_index]; try done.
  - by apply chain_alter.
  - intros j o'. rewrite lookup_alter_with. destruct (decide (i = j)) as [->|]; [|apply Hob].
    rewrite Ho. intros [= <-]. split; [by apply (Hob j o)|]. by split.
  - by rewrite length_alter.
Qed.

Lemma pop_wp i free s h : heap_ok s (i :: free) ->
  wp False (psb_ASSERT debug (0 <=? next_free s) ;; obj ← entry (next_free s);
            modify (set_next (obj_next_free obj)) ;; set_next_free (next_free s) ALLOCATED ;; mret (obj_id obj))
    (fun r s' _ => heap_ok s' free /\ id_offset s' = id_offset s /\ heap_size s' = heap_size s /\
       0 <= r /\ view s !! r = None /\ view s' = <[r := false]> (view s)) s h.
Proof.
  intros Hs. pose proof (heap_ids _ _ Hs) as Hids. destruct Hs as [Hch Hfr Hob Hsz Hbd Hin [z Hoff]].
  cbn [chain] in Hch. destruct Hch as (Hn & o & Ho & Hch). apply list.NoDup_cons in Hfr as [Hni Hfr].
  destruct (Hob i o Ho) as (Hid & _ & Hu). specialize (Hu ltac:(left)).
  assert (Hneg : 0 <= id_offset s) by (rewrite Hoff; apply Z.land_nonneg; right; by unfold OBJECT_HEAP_OFFSET_MASK).
  apply wp_bind, assert_wp; [rewrite Hn; apply Z.leb_le; lia|].
  apply wp_bind. eapply wp_mono; [apply entry_wp; [lia|rewrite Hn, Nat2Z.id; exact Ho]|]. cbv beta.
  intros r s1 h1 (-> & -> & ->). apply wp_bind, wp_modify, wp_bind, wp_modify, wp_ret. rewrite Hn, Nat2Z.id.
  change (fun o0 => {| obj_id := obj_id o0; obj_next_free := ALLOCATED |}) with (with_next ALLOCATED).
  split_and!; try done; [|lia| |].
  - split; cbn [heap_index next_free heap_size heap_increment id_offset set_index set_next]; try done.
    + by apply chain_alter.
    + intros j o'. rewrite lookup_alter_with. destruct (decide (i = j)) as [->|Hne].
      * rewrite Ho. intros [= <-]. split; [done|]. by split.
      * intros Hj. destruct (Hob j o' Hj) as (Hjd & Hj1 & Hj2). split; [done|].
        rewrite elem_of_cons in Hj1, Hj2. split; [intros Hnj; apply Hj1; by intros [->|?]|].
        intros Hjf. apply Hj2. by right.
    + by rewrite length_alter.
    + by exists z.
  - destruct (view s !! obj_id o) as [b|] eqn:E; [|done]. apply (view_lookup (id_offset s)) in E; [|done].
    destruct E as (j & o' & Hj & Hjd & Hst). assert (j = i) as -> by lia. rewrite Ho in Hj. injection Hj as <-.
    assert (in_use o = true) by (apply in_use_status; by eexists). congruence.
  - unfold view. cbn [heap_index set_index set_next]. by rewrite (view_alter (id_offset s) _ _ o).
Qed.

Lemma allocate_wp free s h : heap_ok s free -> heap_size s + 16 <= 2 ^ 24 ->
  wp False (object_heap_allocate debug) (fun r s' _ =>
    (exists free', heap_ok s' free') /\ heap_size s' <= heap_size s + 16 /\ id_offset s' = id_offset s /\
    (memory -> r <> -1) /\
    ((r = -1 /\ view s' = view s /\ free = [] /\ heap_size s' = heap_size s) \/
     (0 <= r /\ view s !! r = None /\ view s' = <[r := false]> (view s) /\
      heap_size s' = heap_size s + match free with [] => 16 | _ => 0 end))) s h.
Proof.
  intros Hs Hmax. unfold object_heap_allocate. apply wp_bind, wp_get. destruct free as [|i free].
  - pose proof (ok_chain _ _ Hs) as Hn. cbn [chain] in Hn. rewrite Hn. cbn [Z.eqb LAST_FREE Pos.eqb].
    apply wp_bind. eapply wp_mono; [by apply (expand_wp [])|]. cbv beta. intros r s1 h1 (Hm & Hr).
    destruct Hr as [[-> ->]|(-> & Hsz & Hv & Ho & Hs1)].
    + apply wp_ret. split_and!; [by exists []|lia|done|by intros Hmem; specialize (Hm Hmem)|by left].
    + change (0 =? -1) with false. cbv iota. apply wp_bind, wp_get.
      change (seq (length (heap_index s)) 16 ++ []) with
        (length (heap_index s) :: seq (S (length (heap_index s))) 15 ++ []) in Hs1.
      eapply wp_mono; [by eapply pop_wp|]. cbv beta. intros r s2 h2 (Hok & Ho2 & Hsz2 & Hr & Hn2 & Hv2).
      rewrite Hv in Hn2, Hv2. split_and!; [by eexists|lia|by rewrite Ho2|lia|right]. split_and!; [done..|lia].
  - pose proof (ok_chain _ _ Hs) as [Hn _].
    rewrite (proj2 (Z.eqb_neq (next_free s) LAST_FREE)) by (rewrite Hn; unfold LAST_FREE; lia).
    apply wp_bind, wp_ret. change (0 =? -1) with false. cbv iota. apply wp_bind, wp_get.
    eapply wp_mono; [by eapply pop_wp|]. cbv beta. intros r s2 h2 (Hok & Ho2 & Hsz2 & Hr & Hn2 & Hv2).
    split_and!; [by eexists|lia|done|lia|right]. split_and!; [done..|lia].
Qed.

(** Any identifier of the heap is found, whether or not its object is in use. *)
Lemma lookup_wp free s x h : heap_ok s free -> id_offset s <= x < id_offset s + heap_size s ->
  wp False (object_heap_lookup x) (fun r s' h' => r = Some (x - id_offset s) /\ s' = s /\ h' = h) s h.
Proof.
  intros Hs Hx. pose proof (ok_bound _ _ Hs) as Hb. pose proof (ok_size _ _ Hs) as Hsz.
  destruct (ok_offset _ _ Hs) as [z Hz]. unfold object_heap_lookup. apply wp_bind, wp_get.
  rewrite (proj2 (Z.ltb_ge _ _)), (proj2 (Z.ltb_ge _ _)) by lia. cbn [orb].
  assert (Hm : Z.land x OBJECT_HEAP_ID_MASK = x - id_offset s).
  { replace x with ((x - id_offset s) + id_offset s) at 1 by lia. rewrite Hz at 2. apply id_mask. lia. }
  rewrite Hm. destruct (lookup_lt_is_Some_2 (heap_index s) (Z.to_nat (x - id_offset s))) as [o Ho]; [lia|].
  apply wp_bind. eapply wp_mono; [apply (entry_wp _ o); [lia|done]|]. cbv beta. by intros ? ? ? (_ & -> & ->).
Qed.

Lemma view_entry free s x b : heap_ok s free -> view s !! x = Some b ->
  id_offset s <= x < id_offset s + heap_size s /\
  exists o, heap_index s !! Z.to_nat (x - id_offset s) = Some o /\ obj_id o = x /\
    status o = Some (x, b) /\ Z.to_nat (x - id_offset s) ∉ free.
Proof.
  intros Hs Hv. apply (view_lookup (id_offset s)) in Hv; [|by eapply heap_ids].
  destruct Hv as (i & o & Hi & -> & Hst). destruct (ok_objs _ _ Hs i o Hi) as (Hid & _ & Hu).
  pose proof (lookup_lt_Some _ _ _ Hi). rewrite (ok_size _ _ Hs). split; [lia|]. exists o.
  replace (Z.to_nat (Z.of_nat i + id_offset s - id_offset s)) with i by lia. split_and!; try done.
  intros Hf. assert (Hi' : in_use o = true) by (apply in_use_status; by eexists). by rewrite (Hu Hf) in Hi'.
Qed.

Lemma free_wp free s x b h : heap_ok s free -> view s !! x = Some b ->
  wp False (object_heap_free debug (Some (x - id_offset s))) (fun _ s' h' => h' = h /\
    (exists free', heap_ok s' free') /\ heap_size s' = heap_size s /\ id_offset s' = id_offset s /\
    view s' = delete x (view s)) s h.
Proof.
  intros Hs Hv. pose proof (heap_ids _ _ Hs) as Hids.
  destruct (view_entry _ _ _ _ Hs Hv) as (Hx & o & Ho & Hid & Hst & Hf). set (i := Z.to_nat (x - id_offset s)) in *.
  cbn [object_heap_free]. apply wp_bind. eapply wp_mono; [apply (entry_wp _ o); [lia|exact Ho]|]. cbv beta.
  intros ? s2 h2 (-> & -> & ->). apply wp_bind, assert_wp; [apply in_use_status; by eexists|].
  apply wp_bind, wp_get, wp_bind, wp_modify, wp_modify. fold i.
  change (fun o0 => {| obj_id := obj_id o0; obj_next_free := next_free s |}) with (with_next (next_free s)).
  destruct Hs as [Hch Hfr Hob Hsz Hbd Hin [z Hoff]].
  assert (Hnf : -1 <= next_free s).
  { destruct free; cbn [chain] in Hch; [rewrite Hch; unfold LAST_FREE; lia|]. destruct Hch as [-> _]. lia. }
  assert (Hmask : Z.land (obj_id o) OBJECT_HEAP_ID_MASK = Z.of_nat i).
  { rewrite (proj1 (Hob i o Ho)), Hoff. apply id_mask. lia. }
  assert (Hu : in_use (with_next (next_free s) o) = false).
  { unfold in_use, ALLOCATED, SUSPENDED. cbn. by rewrite !(proj2 (Z.eqb_neq _ _)) by lia. }
  split_and!; try done.
  - exists (i :: free).
    split; cbn [heap_index next_free heap_size heap_increment id_offset set_index set_next]; try done.
    + rewrite Hmask. cbn [chain]. split; [done|]. exists (with_next (next_free s) o).
      rewrite lookup_alter_with, decide_True, Ho by done. split; [done|]. by apply chain_alter.
    + by apply list.NoDup_cons.
    + intros j o'. rewrite lookup_alter_with. rewrite elem_of_cons. destruct (decide (i = j)) as [<-|Hne].
      * rewrite Ho. intros [= <-]. split; [apply (proj1 (Hob i o Ho))|]. split; [intros []; by left|done].
      * intros Hj. destruct (Hob j o' Hj) as (Hjd & Hj1 & Hj2). split; [done|].
        split; [intros Hnj; apply Hj1; tauto|]. intros [E|?]; [by subst j|by apply Hj2].
    + by rewrite length_alter.
    + by exists z.
  - unfold view. cbn [heap_index set_index set_next]. rewrite (view_alter (id_offset s) _ _ o) by done.
    destruct (status (with_next (next_free s) o)) eqn:E; [|by rewrite Hid].
    assert (in_use (with_next (next_free s) o) = true) by (apply in_use_status; by eexists). congruence.
Qed.

Lemma suspend_wp free s x b h : heap_ok s free -> view s !! x = Some (negb b) ->
  wp False (object_heap_suspend_object debug (x - id_offset s) b) (fun _ s' _ =>
    heap_ok s' free /\ heap_size s' = heap_size s /\ id_offset s' = id_offset s /\
    view s' = <[x := b]> (view s)) s h.
Proof.
  intros Hs Hv. pose proof (heap_ids _ _ Hs) as Hids.
  destruct (view_entry _ _ _ _ Hs Hv) as (Hx & o & Ho & Hid & Hst & Hf).
  assert (Hsb : obj_next_free o = if b then ALLOCATED else SUSPENDED).
  { revert Hst. unfold status. destruct (Z.eqb_spec (obj_next_free o) ALLOCATED) as [->|].
    - intros [= _ E]. by destruct b.
    - destruct (Z.eqb_spec (obj_next_free o) SUSPENDED) as [->|]; [|done]. intros [= _ E]. by destruct b. }
  unfold object_heap_suspend_object. apply wp_bind. eapply wp_mono; [apply (entry_wp _ o); [lia|exact Ho]|]. cbv beta.
  intros ? s2 h2 (-> & -> & ->).
  assert (Hk : forall n c, in_use (with_next n o) = true -> status (with_next n o) = Some (obj_id o, c) ->
    let s' := set_index (alter (with_next n) (Z.to_nat (x - id_offset s)) (heap_index s)) s in
    heap_ok s' free /\ heap_size s' = heap_size s /\ id_offset s' = id_offset s /\ view s' = <[x := c]> (view s)).
  { intros n c Hu Hc s'. split_and!; [by eapply heap_ok_alter|done..|].
    unfold view, s'. cbn [heap_index set_index]. rewrite (view_alter (id_offset s) _ _ o) by done. by rewrite Hc, Hid. }
  destruct b; (apply wp_bind, assert_wp; [by rewrite Hsb|]); apply wp_modify; by apply Hk.
Qed.

(** ** Runs of a client *)

(** The room a heap of [s] has for [n] more operations. *)
Definition room (n : nat) (s : object_heap) : Prop := heap_size s + 16 * Z.of_nat n <= 2 ^ 24.

Lemma offset_nonneg s free : heap_ok s free -> 0 <= id_offset s.
Proof.
  intros Hs. destruct (ok_offset _ _ Hs) as [z ->]. apply Z.land_nonneg. right. by unfold OBJECT_HEAP_OFFSET_MASK.
Qed.

Lemma run_op_wp op s free n h : heap_ok s free -> room (S n) s ->
  wp False (run_op debug op) (fun a s' _ => heap_spec (view s) op a (view s') /\
    (memory -> a <> Some (-1)) /\ (exists free', heap_ok s' free') /\ room n s') s h.
Proof.
  intros Hs Hn. unfold room in *. unfold run_op. apply wp_bind, wp_get.
  destruct (allowed (view s) op) eqn:Ha; cbn [negb do_op].
  2:{ apply wp_ret. split_and!; [by constructor|done|by exists free|lia]. }
  destruct op as [|x|x b|x]; cbn [allowed] in Ha; [|apply bool_decide_eq_true in Ha..].
  - apply wp_bind. eapply wp_mono; [eapply allocate_wp; [done|lia]|]. cbv beta.
    intros r s' h' (Hok & Hsz & _ & Hm & Hr). apply wp_ret. split_and!; [|by intros Hmem [= E]; by apply Hm|done|lia].
    destruct Hr as [(-> & -> & _)|(H0 & Hx & -> & _)]; by constructor.
  - destruct Ha as [b Hv]. destruct (view_entry _ _ _ _ Hs Hv) as [Hx _].
    apply wp_bind. eapply wp_mono; [by eapply lookup_wp|]. cbv beta. intros ? ? ? (-> & -> & ->).
    apply wp_bind. eapply wp_mono; [by eapply free_wp|]. cbv beta. intros _ s' h' (_ & Hok & Hsz & _ & Hv').
    apply wp_ret. rewrite Hv'. split_and!; [by econstructor|done|done|lia].
  - destruct (view_entry _ _ _ _ Hs Ha) as [Hx _].
    apply wp_bind. eapply wp_mono; [by eapply lookup_wp|]. cbv beta. intros ? ? ? (-> & -> & ->).
    apply wp_bind. eapply wp_mono; [by eapply suspend_wp|]. cbv beta. intros _ s' h' (Hok & Hsz & _ & Hv').
    apply wp_ret. rewrite Hv'. split_and!; [by constructor|done|by exists free|lia].
  - destruct Ha as [b Hv]. destruct (view_entry _ _ _ _ Hs Hv) as (Hx & o & Ho & Hid & _).
    apply wp_bind. eapply wp_mono; [by eapply lookup_wp|]. cbv beta. intros ? ? ? (-> & -> & ->).
    apply wp_bind. eapply wp_mono; [apply (entry_wp _ o); [lia|done]|]. cbv beta. intros ? ? ? (-> & -> & ->).
    apply wp_ret. rewrite Hid. pose proof (offset_nonneg _ _ Hs).
    split_and!; [by econstructor|intros _ [= ->]; lia|by exists free|lia].
Qed.

Lemma run_ops_wp ops n s free h : heap_ok s free -> room (length ops + n) s ->
  wp False (run_ops debug ops) (fun l s' _ => heap_run (view s) ops l (view s') /\
    (memory -> Some (-1) ∉ l) /\ (exists free', heap_ok s' free') /\ room n s') s h.
Proof.
  revert s free h. induction ops as [|op ops IH]; intros s free h Hs Hn; cbn [run_ops].
  { apply wp_ret. split_and!; [by constructor|intros _; apply not_elem_of_nil|by exists free|done]. }
  apply wp_bind. eapply wp_mono; [eapply (run_op_wp _ _ _ (length ops + n)); [done|exact Hn]|]. cbv beta.
  intros a s1 h1 (Hop & Hm & [free1 Hs1] & Hn1). apply wp_bind. eapply wp_mono; [by eapply IH|]. cbv beta.
  intros l s2 h2 (Hrun & Hml & Hok & Hn2). apply wp_ret. split_and!; [by econstructor| |done|done].
  intros Hmem. rewrite not_elem_of_cons. split; [|by apply Hml]. intros E. by apply (Hm Hmem).
Qed.

(** The objects are all in use when none is free. *)
Lemma full_free s free : heap_ok s free -> full (abs_of s) <-> free = [].
Proof.
  intros Hs. pose proof (ok_size _ _ Hs) as Hsz. unfold full, in_range, abs_of. cbn [used first_id made].
  split.
  - destruct free as [|i free]; [done|]. intros Hf. exfalso.
    pose proof (ok_chain _ _ Hs) as (_ & o & Ho & _). pose proof (lookup_lt_Some _ _ _ Ho).
    destruct (Hf (Z.of_nat i + id_offset s) ltac:(lia)) as [b Hb].
    destruct (view_entry _ _ _ _ Hs Hb) as (_ & _ & _ & _ & _ & Hni).
    apply Hni. replace (Z.to_nat _) with i by lia. left.
  - intros -> x Hx. destruct (lookup_lt_is_Some_2 (heap_index s) (Z.to_nat (x - id_offset s))) as [o Ho]; [lia|].
    destruct (ok_objs _ _ Hs _ o Ho) as (Hid & Hu & _).
    destruct (proj1 (in_use_status o) (Hu (not_elem_of_nil _))) as [[y b] Hst]. exists b.
    unfold view. apply (view_lookup (id_offset s)); [by eapply heap_ids|].
    exists (Z.to_nat (x - id_offset s)), o. split_and!; [done|lia|]. rewrite Hst.
    revert Hst. unfold status. repeat case_match; intros [=]; do 2 f_equal; lia.
Qed.

Lemma do_op_wp op s free n h : heap_ok s free -> room (S n) s -> legal (abs_of s) op ->
  wp False (do_op debug op) (fun r s' _ => heap_does (abs_of s) op r (abs_of s') /\
    (memory -> r <> Some (-1)) /\ (exists free', heap_ok s' free') /\ room n s') s h.
Proof.
  intros Hs Hn Hl. unfold room in *. pose proof (offset_nonneg _ _ Hs) as Hoff.
  assert (Hab : forall s' m, id_offset s' = id_offset s -> heap_size s' = heap_size s -> view s' = m ->
    abs_of s' = with_used m (abs_of s)).
  { intros s' m Ho Hz <-. unfold abs_of, with_used. cbn. by rewrite Ho, Hz. }
  destruct op as [|x|x b|x]; cbn [do_op legal abs_of used first_id made] in *.
  - apply wp_bind. eapply wp_mono; [eapply allocate_wp; [done|lia]|]. cbv beta.
    intros r s' h' ([free' Hok] & Hsz & Ho & Hm & Hr). apply wp_ret.
    split_and!; [|by intros Hmem [= E]; by apply Hm|by exists free'|lia].
    pose proof (full_free _ _ Hs) as Hfull.
    destruct Hr as [(-> & Hv & -> & Hz)|(H0 & Hx & Hv & Hz)].
    + replace (abs_of s') with (abs_of s) by (unfold abs_of; by rewrite Hv, Ho, Hz).
      constructor. by apply Hfull.
    + assert (Hin : in_range (abs_of s') r).
      { apply (view_entry free' s' r false Hok). by rewrite Hv, lookup_insert_eq. }
      unfold in_range, abs_of in Hin. cbn in Hin. rewrite Ho in Hin. destruct free as [|i free].
      * replace (abs_of s') with (with_used (<[r := false]> (view s)) (grown (abs_of s)))
          by (unfold abs_of, with_used, grown; cbn; by rewrite Hv, Ho, Hz).
        constructor; [by apply Hfull|done| |done]. unfold in_range, grown. cbn. lia.
      * rewrite (Hab s' (<[r := false]> (view s))) by (done || lia).
        constructor; [by intros ?%Hfull|done| |done]. unfold in_range. cbn. lia.
  - destruct Hl as [b Hv]. destruct (view_entry _ _ _ _ Hs Hv) as [Hx _].
    apply wp_bind. eapply wp_mono; [by eapply lookup_wp|]. cbv beta. intros ? ? ? (-> & -> & ->).
    apply wp_bind. eapply wp_mono; [by eapply free_wp|]. cbv beta. intros _ s' h' (_ & Hok & Hsz & Ho & Hv').
    apply wp_ret. rewrite (Hab s' _ Ho Hsz Hv'). split_and!; [by econstructor|done|done|lia].
  - destruct (view_entry _ _ _ _ Hs Hl) as [Hx _].
    apply wp_bind. eapply wp_mono; [by eapply lookup_wp|]. cbv beta. intros ? ? ? (-> & -> & ->).
    apply wp_bind. eapply wp_mono; [by eapply suspend_wp|]. cbv beta. intros _ s' h' (Hok & Hsz & Ho & Hv').
    apply wp_ret. rewrite (Hab s' _ Ho Hsz Hv'). split_and!; [by constructor|done|by exists free|lia].
  - destruct (decide (in_range (abs_of s) x)) as [Hx|Hx].
    + pose proof (Does_lookup (abs_of s) x) as Hd. rewrite decide_True in Hd by done.
      unfold in_range, abs_of in Hx. cbn in Hx.
      apply wp_bind. eapply wp_mono; [by eapply lookup_wp|]. cbv beta. intros ? ? ? (-> & -> & ->).
      pose proof (ok_size _ _ Hs) as Hsz.
      destruct (lookup_lt_is_Some_2 (heap_index s) (Z.to_nat (x - id_offset s))) as [o Ho]; [lia|].
      apply wp_bind. eapply wp_mono; [apply (entry_wp _ o); [lia|done]|]. cbv beta. intros ? ? ? (-> & -> & ->).
      apply wp_ret. destruct (ok_objs _ _ Hs _ _ Ho) as [Hid _].
      replace (obj_id o) with x by lia. split_and!; [done|intros _ [= ->]; lia|by exists free|lia].
    + pose proof (Does_lookup (abs_of s) x) as Hd. rewrite decide_False in Hd by done.
      unfold in_range, abs_of in Hx. cbn in Hx. unfold object_heap_lookup. apply wp_bind, wp_bind, wp_get.
      replace (_ || _) with true; [apply wp_ret, wp_ret; split_and!; [done|done|by exists free|lia]|].
      symmetry. apply orb_true_iff. rewrite !Z.ltb_lt. lia.
Qed.

Lemma serves_ok ops n s free h : heap_ok s free -> room (length ops + n) s ->
  serves debug ops (abs_of s) s h.
Proof.
  revert s free h. induction ops as [|op ops IH]; intros s free h Hs Hn; (split; [done|]); [done|].
  intros Hl. eapply wp_mono; [by eapply (do_op_wp _ _ _ (length ops + n))|]. cbv beta.
  intros r s' h' (Hd & Hm & [free' Hs'] & Hn'). exists (abs_of s'). split_and!; [done|done|by eapply IH].
Qed.

Lemma heap_init_wp size offset s h :
  wp False (object_heap_init size offset) (fun r s' _ => (memory -> r = 0) /\ (r = 0 \/ r = -1) /\
    view s' = ∅ /\ (exists free, heap_ok s' free) /\ heap_size s' = (if r =? 0 then 16 else 0) /\
    id_offset s' = Z.land offset OBJECT_HEAP_OFFSET_MASK) s h.
Proof.
  unfold object_heap_init. apply wp_bind, wp_modify. set (s0 := Build_object_heap _ _ _ _ _ _).
  assert (Hs0 : heap_ok s0 []).
  { split; cbn; [done|constructor|done|done|lia|done|by exists offset]. }
  eapply wp_mono; [by apply (expand_wp [] s0)|]. cbv beta. intros r s' h' (Hm & Hr).
  destruct Hr as [[-> ->]|(-> & Hsz & Hv & Ho & Hs1)]; (split; [done|]).
  - split_and!; [by right|done|by exists []|done|done].
  - split_and!; [by left|by rewrite Hv|by eexists|by rewrite Hsz|done].
Qed.

(** ** Iteration and teardown *)

Lemma entry_view s free i o : heap_ok s free -> heap_index s !! i = Some o ->
  view s !! (Z.of_nat i + id_offset s) = snd <$> status o.
Proof.
  intros Hs Ho. pose proof (heap_ids _ _ Hs) as Hids. apply option_eq. intros b. unfold view.
  rewrite (view_lookup (id_offset s)) by done. pose proof (Hids i o Ho) as Hid. split.
  - intros (j & o' & Hj & Hij & Hst). assert (j = i) as -> by lia. rewrite Ho in Hj. injection Hj as <-. by rewrite Hst.
  - destruct (status o) as [[y c]|] eqn:E; [|done]. intros [= ->]. exists i, o. split_and!; [done|lia|].
    rewrite E. f_equal. f_equal. revert E. unfold status. repeat case_match; intros [=]; congruence.
Qed.

Definition from (i : Z) (s : object_heap) : Prop := forall x b, view s !! x = Some b -> i + id_offset s <= x.

Lemma next_loop_wp n i s free h : heap_ok s free -> 0 <= i -> heap_size s - i <= Z.of_nat n -> from i s ->
  wp False (next_loop n i) (fun r s' h' => s' = s /\ h' = h /\
    ((view s = ∅ /\ exists k, r = (None, k)) \/
     exists j b, r = (Some j, j) /\ i <= j < heap_size s /\ view s !! (j + id_offset s) = Some b /\ from j s)) s h.
Proof.
  intros Hs. revert i. induction n as [|n IH]; intros i Hi Hn Hf; cbn [next_loop]; apply wp_bind, wp_get.
  all: destruct (Z.leb_spec (heap_size s) i) as [Hle|Hlt]; [apply wp_ret; split_and!; [done..|]; left; split; [|by eexists]|].
  1, 3: apply map_eq; intros x; rewrite lookup_empty; destruct (view s !! x) as [b|] eqn:E; [|done];
    pose proof (Hf _ _ E); destruct (view_entry _ _ _ _ Hs E) as [Hx _]; lia.
  { lia. }
  pose proof (ok_size _ _ Hs) as Hsz.
  destruct (lookup_lt_is_Some_2 (heap_index s) (Z.to_nat i)) as [o Ho]; [lia|].
  pose proof (entry_view _ _ _ _ Hs Ho) as Hv. rewrite Z2Nat.id in Hv by lia.
  apply wp_bind. eapply wp_mono; [by apply (entry_wp _ o)|]. cbv beta. intros ? s1 h1 (-> & -> & ->).
  destruct (in_use o) eqn:Hu.
  - apply wp_ret. split_and!; [done..|]. right. apply in_use_status in Hu. destruct Hu as [[y b] Hst].
    rewrite Hst in Hv. exists i, b. by split_and!.
  - assert (Hst : status o = None).
    { destruct (status o) eqn:E; [|done]. assert (in_use o = true) by (apply in_use_status; by eexists). congruence. }
    rewrite Hst in Hv. eapply wp_mono; [apply IH; [lia|lia|]|].
    + intros x b Hx. pose proof (Hf _ _ Hx). assert (x <> i + id_offset s) by (intros ->; by rewrite Hv in Hx). lia.
    + cbv beta. intros r s' h' (-> & -> & [Hr|(j & b & -> & Hj & Hv' & Hf')]); (split_and!; [done..|]);
        [by left|right]. exists j, b. split_and!; try done; lia.
Qed.

(** The identifiers listed are those of [m], each once, in increasing order. *)
Definition lists (m : gmap Z bool) (ids : list Z) : Prop :=
  StronglySorted Z.lt ids /\ forall x, x ∈ ids <-> is_Some (m !! x).

Lemma lists_cons m x b ids : m !! x = Some b -> (forall y c, m !! y = Some c -> x <= y) ->
  lists (delete x m) ids -> lists m (x :: ids).
Proof.
  intros Hx Hmin [Hsort Hin]. split.
  - constructor; [done|]. apply List.Forall_forall. intros y Hy%list_elem_of_In. apply Hin in Hy as [c Hc].
    apply lookup_delete_Some in Hc as [Hne Hc]. pose proof (Hmin _ _ Hc). lia.
  - intros y. rewrite elem_of_cons, Hin. destruct (decide (y = x)) as [->|Hne].
    + rewrite Hx. split; [by eexists|by left].
    + rewrite lookup_delete_ne by done. split; [by intros [?|?]|by right].
Qed.

Lemma clean_up_loop_wp n i s free h : heap_ok s free -> 0 <= i -> heap_size s - i <= Z.of_nat n -> from i s ->
  wp False (r ← next_loop (Z.to_nat (heap_size s - i)) i; clean_up_loop debug n r) (fun ids s' h' =>
    h' = h /\ lists (view s) ids /\ view s' = ∅ /\ heap_size s' = heap_size s /\ exists free', heap_ok s' free') s h.
Proof.
  revert i s free. induction n as [|n IH]; intros i s free Hs Hi Hn Hf.
  all: apply wp_bind; eapply wp_mono; [eapply (next_loop_wp _ _ _ free); [done|done|lia|done]|]; cbv beta.
  all: intros r s1 h1 (-> & -> & [[Hv [k ->]]|(j & b & -> & Hj & Hv & Hfj)]).
  1, 3: cbn [clean_up_loop]; apply wp_ret; rewrite Hv; split_and!; try done; [split; [constructor|]|by eexists];
    intros x; rewrite lookup_empty; split; [by intros ?%not_elem_of_nil|by intros [? ?]].
  { lia. }
  cbn [clean_up_loop]. destruct (view_entry _ _ _ _ Hs Hv) as (_ & o & Ho & Hid & _).
  replace (j + id_offset s - id_offset s) with j in Ho by lia.
  apply wp_bind. eapply wp_mono; [apply (entry_wp _ o); [lia|done]|]. cbv beta. intros ? ? ? (-> & -> & ->).
  apply wp_bind. replace (Some j) with (Some (j + id_offset s - id_offset s)) by (f_equal; lia).
  eapply wp_mono; [by eapply free_wp|]. cbv beta.
  intros _ s2 h2 (-> & [free2 Hs2] & Hsz & Ho2 & Hv2).
  change (object_heap_next j) with (fun s0 h0 => next_loop (Z.to_nat (heap_size s0 - (j + 1))) (j + 1) s0 h0).
  assert (Hf2 : from (j + 1) s2).
  { intros y c Hy. rewrite Hv2 in Hy. apply lookup_delete_Some in Hy as [Hne Hy]. rewrite Ho2.
    pose proof (Hfj _ _ Hy). lia. }
  assert (Hrec : wp False (r' ← next_loop (Z.to_nat (heap_size s2 - (j + 1))) (j + 1); clean_up_loop debug n r')
    (fun ids s' h' => h' = h /\ lists (view s2) ids /\ view s' = ∅ /\ heap_size s' = heap_size s2 /\
       exists free', heap_ok s' free') s2 h).
  { eapply (IH (j + 1) s2 free2); [done|lia|rewrite Hsz; lia|done]. }
  apply wp_bind in Hrec. apply wp_bind.
  eapply wp_mono; [exact Hrec|]. cbv beta. intros r s3 h3 H3. apply wp_bind. eapply wp_mono; [exact H3|]. cbv beta.
  intros ids s4 h4 (-> & Hl & Hv4 & Hsz4 & Hok4). apply wp_ret. rewrite Hid. split_and!; try done; [|lia].
  eapply lists_cons; [done| |by rewrite <- Hv2]. intros y c Hy. by apply (Hfj y c).
Qed.

(** What the teardown of a heap of [n] objects gives back, the last first. *)
Definition given_back (n : Z) : list mcall :=
  M_free None :: rev (map (fun i => M_free (Some i)) (seqZ 0 n)).

(** Destroying a heap none of whose objects is in use frees each object, and the
    table, once. *)
Lemma destroy_wp s free h : heap_ok s free -> view s = ∅ ->
  wp False (object_heap_destroy debug) (fun _ s' h' =>
    h' = given_back (heap_size s) ++ h /\ heap_index s' = [] /\ heap_size s' = 0 /\
    next_free s' = LAST_FREE) s h.
Proof.
  intros Hs Hv. unfold object_heap_destroy. apply wp_bind, wp_get, wp_bind.
  pose proof (ok_size _ _ Hs) as Hsz. set (body := fun i : Z => _).
  assert (Hbody : forall i h', (i < length (heap_index s))%nat ->
    body (Z.of_nat i) s h' = Done tt s (M_free (Some (Z.of_nat i)) :: h')).
  { intros i h' Hi. destruct (lookup_lt_is_Some_2 _ _ Hi) as [o Ho].
    pose proof (entry_view _ _ _ _ Hs Ho) as Hvo. rewrite Hv, lookup_empty in Hvo.
    assert (Hst : status o = None) by (by destruct (status o)). clear Hvo.
    assert (He : entry (Z.of_nat i) s h' = Done o s h').
    { unfold entry, get, mbind, M_bind. by rewrite (proj2 (Z.ltb_ge _ _)), Nat2Z.id, Ho by lia. }
    unfold body. unfold mbind at 1, M_bind at 1. rewrite He.
    revert Hst. unfold status. destruct (obj_next_free o =? ALLOCATED); [done|].
    destruct (obj_next_free o =? SUSPENDED); [done|]. intros _. unfold psb_ASSERT. by rewrite orb_true_r. }
  assert (Hloop : forall k i h', (i + k <= length (heap_index s))%nat ->
    for_each (seqZ (Z.of_nat i) (Z.of_nat k)) body s h' =
    Done tt s (rev (map (fun i => M_free (Some i)) (seqZ (Z.of_nat i) (Z.of_nat k))) ++ h')).
  { induction k as [|k IH]; intros i h' Hik; [done|]. rewrite seqZ_cons by lia. cbn [for_each map rev].
    unfold mbind, M_bind. rewrite Hbody by lia.
    replace (Z.pred (Z.of_nat (S k))) with (Z.of_nat k) by lia. replace (Z.succ (Z.of_nat i)) with (Z.of_nat (S i)) by lia.
    rewrite IH by lia. by rewrite <- app_assoc. }
  unfold wp at 1, given_back. rewrite Hsz. change 0 with (Z.of_nat 0). rewrite Hloop by lia. done.
Qed.

Lemma clean_up_wp s free h : heap_ok s free ->
  wp False (clean_up_configs debug) (fun ids s' h' =>
    lists (view s) ids /\ view s' = ∅ /\ next_free s' = LAST_FREE /\ heap_size s' = 0 /\
    h' = given_back (heap_size s) ++ h) s h.
Proof.
  intros Hs. unfold clean_up_configs, object_heap_first, object_heap_next. apply wp_bind, wp_get, wp_bind, wp_bind, wp_get.
  change (-1 + 1) with 0. pose proof (ok_size _ _ Hs) as Hsz.
  assert (Hf : from 0 s).
  { intros x b Hx. destruct (view_entry _ _ _ _ Hs Hx) as [? _]. lia. }
  pose proof (clean_up_loop_wp (Z.to_nat (heap_size s)) 0 s free h Hs ltac:(lia) ltac:(lia) Hf) as Hc.
  apply wp_bind in Hc. eapply wp_mono; [exact Hc|]. cbv beta. intros r s1 h1 Hc1.
  apply wp_bind. eapply wp_mono; [exact Hc1|]. cbv beta. intros ids s2 h2 (-> & Hl & Hv & Hsz2 & [free2 Hs2]).
  apply wp_bind. eapply wp_mono; [by eapply destroy_wp|]. cbv beta. intros _ s3 h3 (-> & Hix & Hz & Hn).
  apply wp_ret. split_and!; [done|by unfold view; rewrite Hix|done|done|]. by rewrite Hsz2.
Qed.

End proofs.

(** * Theorems *)

Section theorems.
Context `{Allocator}.

(** C16. (refinement) A heap is what its contract says.  Its initialisation makes
    sixteen objects, or none when memory is refused; from then on every sequence of
    legal allocations, releases, suspensions and lookups is served as the abstract
    heap serves it, with or without the assertions and whatever memory is refused:
    each operation returns, no assertion fails, nothing outside the heap is read, and
    the objects in use, their suspension and the number of objects made are the
    abstract ones.  An allocation takes an object not in use, makes sixteen more only
    when all are in use, and fails only when all are in use and memory is refused.  A
    lookup answers for every identifier of an object made and NULL otherwise; free
    and suspended objects are found too, although object_heap.h says a suspended one
    is not.  Legal: an object is freed while in use, suspended while valid, made valid
    while suspended, and the identifier looked up is not the first one past the
    objects made, for which the table is read past its end (lookup_past_end).  The
    bound keeps the identifiers in their 24 bits. *)
Theorem object_heap_refines debug size offset ops s h : 16 * (Z.of_nat (length ops) + 1) <= 2 ^ 24 ->
  wp False (object_heap_init size offset) (fun r s' h' =>
    (r = 0 \/ r = -1) /\ (memory -> r = 0) /\
    serves debug ops {| used := ∅; first_id := Z.land offset OBJECT_HEAP_OFFSET_MASK;
                        made := if r =? 0 then 16 else 0 |} s' h') s h.
Proof.
  intros Hn. eapply wp_mono; [apply heap_init_wp|]. cbv beta.
  intros r s1 h1 (Hm & Hr & Hv & [free Hs1] & Hsz & Ho). split_and!; [done|done|].
  rewrite <- Hv, <- Ho, <- Hsz. eapply (serves_ok debug ops 0); [done|].
  unfold room. rewrite Hsz. destruct (r =? 0); lia.
Qed.

(** C17. (termination) The teardown of a heap: whatever its clients did before, the
    loop of first and next ends, frees exactly the objects still in use, each once and
    in the order of their identifiers although each is freed under the iterator, and
    leaves a heap that object_heap_destroy takes apart without failing an assertion,
    giving the memory of every object back once, in the order of the table, and then the
    table.  (Here the clients ask only for what [allowed] lets them.) *)
Theorem heap_teardown debug size offset ops s h : 16 * (Z.of_nat (length ops) + 1) <= 2 ^ 24 ->
  wp False (object_heap_init size offset ;; l ← run_ops debug ops; n ← gets heap_size;
            ids ← clean_up_configs debug; mret (l, n, ids))
    (fun '(l, n, ids) s' h' => (exists m, heap_run ∅ ops l m /\ lists m ids) /\
       (exists h1, h' = given_back n ++ h1) /\
       view s' = ∅ /\ heap_size s' = 0 /\ next_free s' = LAST_FREE) s h.
Proof.
  intros Hn. apply wp_bind. eapply wp_mono; [apply heap_init_wp|]. cbv beta.
  intros r s1 h1 (_ & _ & Hv & [free Hs1] & Hsz & _). apply wp_bind.
  eapply wp_mono; [eapply (run_ops_wp debug ops 0); [done|unfold room; destruct (r =? 0); lia]|]. cbv beta.
  intros l s2 h2 (Hrun & _ & [free2 Hs2] & _). rewrite Hv in Hrun. apply wp_bind, wp_gets, wp_bind.
  eapply wp_mono; [by eapply clean_up_wp|]. cbv beta. intros ids s3 h3 (Hl & Hv3 & Hn3 & Hz3 & Hh3).
  apply wp_ret. split_and!; [by exists (view s2)|by exists h2|done..].
Qed.

(** The first identifier past the heap passes the test of object_heap_lookup, which
    reads the table past its end. *)
Theorem lookup_past_end s free h : heap_ok s free -> heap_size s < 2 ^ 24 ->
  object_heap_lookup (heap_size s + id_offset s) s h = Undef h.
Proof.
  intros Hs Hlt. pose proof (ok_size _ _ Hs) as Hsz. destruct (ok_offset _ _ Hs) as [z Hz].
  unfold object_heap_lookup, mbind, M_bind, get.
  rewrite (proj2 (Z.ltb_ge _ (id_offset s))), (proj2 (Z.ltb_ge (heap_size s + id_offset s) _)) by lia. cbn [orb].
  rewrite Hz, id_mask by lia. unfold entry, mbind, M_bind, get. rewrite (proj2 (Z.ltb_ge _ _)) by lia.
  by rewrite (proj2 (lookup_ge_None _ _)) by lia.
Qed.

(** A free object, or a suspended one, is found all the same. *)
Theorem lookup_finds_free s free i h : heap_ok s free -> i ∈ free ->
  wp False (object_heap_lookup (Z.of_nat i + id_offset s)) (fun r _ _ => r = Some (Z.of_nat i)) s h /\
  view s !! (Z.of_nat i + id_offset s) = None.
Proof.
  intros Hs Hi. assert (Ho : exists o, heap_index s !! i = Some o).
  { pose proof (ok_chain _ _ Hs) as Hc. clear -Hi Hc. revert Hc. generalize (next_free s).
    induction free as [|j l IH]; intros nf; [by apply not_elem_of_nil in Hi|]. cbn [chain].
    intros (_ & o & Ho & Hc). apply elem_of_cons in Hi as [->|Hi]; [by exists o|by eapply IH]. }
  destruct Ho as [o Ho]. pose proof (lookup_lt_Some _ _ _ Ho). pose proof (ok_size _ _ Hs). split.
  - eapply wp_mono; [eapply lookup_wp; [done|lia]|]. cbv beta. intros r ? ? (-> & _). f_equal. lia.
  - rewrite (entry_view _ _ _ _ Hs Ho). destruct (ok_objs _ _ Hs i o Ho) as (_ & _ & Hu).
    destruct (status o) eqn:E; [|done]. assert (in_use o = true) by (apply in_use_status; by eexists).
    rewrite Hu in * by done. done.
Qed.

End theorems.

(** * Witnesses *)

(** A platform one of whose allocations fails. *)
#[local] Instance small_memory : Allocator := {| gives := fun h _ => negb (length h =? 19)%nat |}.

Definition heap0 : object_heap := Build_object_heap 0 0 [] 0 0 0.

Definition heap_ops : list heap_op :=
  [Op_allocate; Op_allocate; Op_suspend 0x4000000 true; Op_free 0x4000001; Op_free 0x4000007; Op_allocate;
   Op_lookup 0x4000000] ++ replicate 16 Op_allocate.

Theorem object_heap_refines_witness :
  wp False (object_heap_init 24 0x4000000) (fun r s' h' =>
    (r = 0 \/ r = -1) /\ (memory -> r = 0) /\
    serves true heap_ops {| used := ∅; first_id := Z.land 0x4000000 OBJECT_HEAP_OFFSET_MASK;
                            made := if r =? 0 then 16 else 0 |} s' h') heap0 [].
Proof. apply object_heap_refines. vm_compute. discriminate. Defined.

Theorem heap_teardown_witness :
  wp False (object_heap_init 24 0x4000000 ;; l ← run_ops true heap_ops; n ← gets heap_size;
            ids ← clean_up_configs true; mret (l, n, ids))
    (fun '(l, n, ids) s' h' => (exists m, heap_run ∅ heap_ops l m /\ lists m ids) /\
       (exists h1, h' = given_back n ++ h1) /\
       view s' = ∅ /\ heap_size s' = 0 /\ next_free s' = LAST_FREE) heap0 [].
Proof. apply heap_teardown. vm_compute. discriminate. Defined.

(** The answers there: the seventeenth allocation finds no memory for its object; the
    next does. *)
Example heap_answers :
  match (object_heap_init 24 0x4000000 ;; run_ops true heap_ops) heap0 [] with
  | Done l _ _ => (take 8 l, nth 20 l None, nth 21 l None, nth 22 l None)
  | _ => ([], None, None, None)
  end = ([Some 0x4000000; Some 0x4000001; None; None; None; Some 0x4000001; Some 0x4000000; Some 0x4000002],
         Some 0x400000F, Some (-1), Some 0x4000010).
Proof. vm_compute. reflexivity. Qed.
