(* ===== verification/Memory.v ===== *)
(** Dynamic memory, for the components whose nodes are allocated one by one.

    An allocation gives an address that is not in use and what the memory there holds,
    or nothing; the nodes in use are a map kept by the component. *)
From stdpp Require Import gmap.
From S2P Require Import Prelude.

Inductive mcall := M_malloc (r : option Z) | M_free (p : Z) | M_malloc_other (ok : bool) | M_free_other.

(** The allocator of nodes of type [N]; what it gives may depend on all the calls made
    so far.  [malloc_other] says whether there is memory for something whose contents
    the model keeps elsewhere. *)
Class Malloc (N : Type) := {
  malloc_gives : list mcall -> gset Z -> option (Z * N);
  malloc_other : list mcall -> bool;
  malloc_new : forall h used p n, malloc_gives h used = Some (p, n) -> 0 < p /\ p ∉ used }.

(** Every allocation is given. *)
Definition memory {N} `{Malloc N} : Prop := forall h used, malloc_gives h used <> None.

(** ** An allocator

    Memory at growing addresses, except for the allocations of [bad]; [junk] is what it
    holds. *)
Section growing.
Context {N : Type} (junk : N) (bad : list nat).

Definition growing (h : list mcall) (used : gset Z) : option (Z * N) :=
  let p := 16 * (1 + Z.of_nat (length h)) in
  if bool_decide (p ∈ used) || bool_decide (length h ∈ bad) then None else Some (p, junk).

Lemma growing_new h used p n : growing h used = Some (p, n) -> 0 < p /\ p ∉ used.
Proof.
  unfold growing. destruct (bool_decide (_ ∈ used)) eqn:E; [done|]. apply bool_decide_eq_false in E.
  destruct (bool_decide _); [done|]. intros [= <- _]. split; [lia|done].
Qed.

Definition growing_memory : Malloc N :=
  {| malloc_gives := growing; malloc_other := fun _ => true; malloc_new := growing_new |}.

End growing.
