(* ===== verification/Rings.v ===== *)
(** The doubly linked lists of libwsbm: libwsbm/src/wsbm_util.h.

    A list is a ring through its head, whose links are inside the objects on the list.
    The memory is explicit: an entry is an address, the two fields of its links are in
    maps, and reading what was not written or was freed is undefined.  A component
    says where it keeps each of its families of links ([Linked]); several rings, each
    with its own head, may share one family.  Each macro is described by what it does
    to the ring it changes and by what it leaves alone ([agree_off]). *)
From stdpp Require Import gmap.
From S2P Require Import Prelude.

(** * The memory and the macros *)

Record links := { nexts : gmap Z Z; prevs : gmap Z Z }.

Definition forget (p : Z) (k : links) : links :=
  {| nexts := delete p (nexts k); prevs := delete p (prevs k) |}.

(** The families of links [L] of a state [S]; [live]: the object at that address is
    allocated. *)
Class Linked (L S : Type) := {
  links_of : L -> S -> links;
  set_links : L -> links -> S -> S;
  live : L -> S -> Z -> bool;
  links_set : forall l k s, links_of l (set_links l k s) = k;
  set_set_links : forall l k k' s, set_links l k (set_links l k' s) = set_links l k s;
  live_set : forall l k s p, live l (set_links l k s) p = live l s p }.

Section macros.
Context {H L S : Type} `{!Linked L S}.

Definition get_next (l : L) (p : Z) : M H S Z :=
  s ← get; match nexts (links_of l s) !! p with Some q => mret q | None => undefined end.

Definition get_prev (l : L) (p : Z) : M H S Z :=
  s ← get; match prevs (links_of l s) !! p with Some q => mret q | None => undefined end.

Definition set_next (l : L) (p q : Z) : M H S unit :=
  s ← get;
  if live l s p then
    modify (set_links l {| nexts := <[p := q]> (nexts (links_of l s)); prevs := prevs (links_of l s) |})
  else undefined.

Definition set_prev (l : L) (p q : Z) : M H S unit :=
  s ← get;
  if live l s p then
    modify (set_links l {| nexts := nexts (links_of l s); prevs := <[p := q]> (prevs (links_of l s)) |})
  else undefined.

Definition WSBMINITLISTHEAD (l : L) (item : Z) : M H S unit :=
  set_prev l item item ;; set_next l item item.

Definition WSBMLISTADD (l : L) (item list : Z) : M H S unit :=
  set_prev l item list ;;
  n ← get_next l list; set_next l item n ;;
  n ← get_next l list; set_prev l n item ;;
  set_next l list item.

Definition WSBMLISTADDTAIL (l : L) (item list : Z) : M H S unit :=
  set_next l item list ;;
  p ← get_prev l list; set_prev l item p ;;
  p ← get_prev l list; set_next l p item ;;
  set_prev l list item.

Definition WSBMLISTDEL (l : L) (item : Z) : M H S unit :=
  p ← get_prev l item; n ← get_next l item; set_next l p n ;;
  n ← get_next l item; p ← get_prev l item; set_prev l n p.

Definition WSBMLISTDELINIT (l : L) (item : Z) : M H S unit :=
  WSBMLISTDEL l item ;; set_next l item item ;; set_prev l item item.

End macros.

(** * Rings *)

Definition adjacent (m : links) (a b : Z) : Prop := nexts m !! a = Some b /\ prevs m !! b = Some a.

Fixpoint walk (m : links) (c : list Z) : Prop :=
  match c with
  | [] => True
  | a :: c' => match c' with [] => True | b :: _ => adjacent m a b end /\ walk m c'
  end.

(** [item] between [a] and [b]; [a] and [b] without what was between them; an entry
    alone. *)
Definition insert_between (a item b : Z) (m : links) : links :=
  {| nexts := <[a := item]> (<[item := b]> (nexts m)); prevs := <[b := item]> (<[item := a]> (prevs m)) |}.

Definition join (a b : Z) (m : links) : links :=
  {| nexts := <[a := b]> (nexts m); prevs := <[b := a]> (prevs m) |}.

Definition alone (item : Z) (m : links) : links :=
  {| nexts := <[item := item]> (nexts m); prevs := <[item := item]> (prevs m) |}.

(** Two memories that differ at most at the entries of [P]. *)
Definition agree_off (P : list Z) (m m' : links) : Prop :=
  forall k, k ∉ P -> nexts m' !! k = nexts m !! k /\ prevs m' !! k = prevs m !! k.

Lemma agree_off_trans P m m1 m2 : agree_off P m m1 -> agree_off P m1 m2 -> agree_off P m m2.
Proof. intros H1 H2 k Hk. destruct (H1 k Hk) as [<- <-]. by apply H2. Qed.

Lemma agree_off_mono P P' m m' : P ⊆ P' -> agree_off P m m' -> agree_off P' m m'.
Proof. intros HP Ha k Hk. apply Ha. set_solver. Qed.

Lemma agree_off_insert a item b m : agree_off [a; item; b] m (insert_between a item b m).
Proof. intros k Hk. cbn. by rewrite !lookup_insert_ne by set_solver. Qed.

Lemma agree_off_join a b m : agree_off [a; b] m (join a b m).
Proof. intros k Hk. cbn. by rewrite !lookup_insert_ne by set_solver. Qed.

Lemma agree_off_alone a m : agree_off [a] m (alone a m).
Proof. intros k Hk. cbn. by rewrite !lookup_insert_ne by set_solver. Qed.

Lemma agree_off_forget a m : agree_off [a] m (forget a m).
Proof. intros k Hk. cbn. by rewrite !lookup_delete_ne by set_solver. Qed.

Lemma walk_app m c1 a c2 : walk m (c1 ++ a :: c2) <-> walk m (c1 ++ [a]) /\ walk m (a :: c2).
Proof.
  induction c1 as [|x [|y c1] IH]; cbn [app] in *.
  - cbn. tauto.
  - cbn. tauto.
  - cbn [walk] in *. rewrite IH. tauto.
Qed.

Lemma walk_frame m m' c :
  (forall k, k ∈ removelast c -> nexts m' !! k = nexts m !! k) ->
  (forall k, k ∈ tail c -> prevs m' !! k = prevs m !! k) -> walk m c -> walk m' c.
Proof.
  induction c as [|a [|b c] IH]; [done..|]. intros Hn Hp [[Ha1 Ha2] Hw].
  change (walk m' (a :: b :: c)) with (adjacent m' a b /\ walk m' (b :: c)).
  split; [split; [rewrite Hn by left; done|rewrite Hp by left; done]|].
  apply IH; [|intros k Hk; apply Hp; by right|done]. intros k Hk. apply Hn. by right.
Qed.

Lemma removelast_snoc {A} (l : list A) x : removelast (l ++ [x]) = l.
Proof. rewrite removelast_app by done. by rewrite app_nil_r. Qed.

(** The entry after a position, and before it, of the ring of head [hd]. *)
Definition first_of (hd : Z) (l : list Z) : Z := match l with [] => hd | p :: _ => p end.
Definition last_of (hd : Z) (l : list Z) : Z := List.last l hd.

Section rings.
Context (hd : Z).

Record ring (m : links) (l : list Z) : Prop := {
  ring_walk : walk m (hd :: l ++ [hd]);
  ring_nodup : NoDup (hd :: l) }.

(** A ring is cut between [l1] and [l2], at [a] and [b]. *)
Record cut (l1 l2 : list Z) (a b : Z) : Prop := {
  cut_left : exists c1, hd :: l1 = c1 ++ [a];
  cut_right : exists c2, l2 ++ [hd] = b :: c2 }.

Lemma cut_exists l1 l2 : exists a b, cut l1 l2 a b.
Proof.
  destruct (exists_last (l := hd :: l1)) as (c1 & a & E); [done|]. exists a.
  destruct l2 as [|b l2]; [exists hd|exists b]; split; try by exists c1. all: by eexists.
Qed.

Lemma cut_first_last l1 l2 : cut l1 l2 (last_of hd l1) (first_of hd l2).
Proof.
  split; [|destruct l2; by eexists]. unfold last_of. destruct l1 as [|x l1 _] using rev_ind; [by exists []|].
  rewrite List.last_last. by exists (hd :: l1).
Qed.

Definition walks (m : links) (l1 l2 : list Z) : Prop := walk m (hd :: l1) /\ walk m (l2 ++ [hd]).

Lemma walk_cut m l1 l2 a b : cut l1 l2 a b ->
  walk m (hd :: (l1 ++ l2) ++ [hd]) <-> walks m l1 l2 /\ adjacent m a b.
Proof.
  intros [[c1 H1] [c2 H2]]. unfold walks. rewrite <- app_assoc, app_comm_cons, H1, H2, <- app_assoc. cbn [app].
  rewrite walk_app. cbn [walk]. tauto.
Qed.

Lemma cut_member l1 l2 a b : cut l1 l2 a b -> a ∈ hd :: l1 /\ b ∈ l2 ++ [hd].
Proof.
  intros [[c1 H1] [c2 H2]]. rewrite H1, H2. split; [|left]. rewrite elem_of_app. right. by left.
Qed.

Lemma cut_members l1 l2 a b : cut l1 l2 a b -> a ∈ hd :: l1 ++ l2 /\ b ∈ hd :: l1 ++ l2.
Proof. intros [Ha Hb]%cut_member. set_solver. Qed.

(** The two parts of a cut ring do not see a change of the links between them. *)
Lemma walks_frame m m' l1 l2 a b : cut l1 l2 a b -> NoDup (hd :: l1 ++ l2) ->
  (forall k, k <> a -> k ∈ hd :: l1 ++ l2 -> nexts m' !! k = nexts m !! k) ->
  (forall k, k <> b -> k ∈ hd :: l1 ++ l2 -> prevs m' !! k = prevs m !! k) -> walks m l1 l2 -> walks m' l1 l2.
Proof.
  intros Hc Hnd Hn Hp [Hw1 Hw2]. destruct (cut_member _ _ _ _ Hc) as [Ha Hb]. destruct Hc as [[c1 H1] [c2 H2]].
  rewrite app_comm_cons in Hnd. pose proof Hnd as Hnd'. apply list.NoDup_app in Hnd' as (Hnd1 & Hdis & Hnd2).
  assert (Hnr : NoDup (l2 ++ [hd])).
  { apply list.NoDup_app. split; [done|]. split; [|apply NoDup_singleton].
    intros x Hx E%list_elem_of_singleton. subst x. apply (Hdis hd); [by left|done]. }
  assert (Hin1 : forall k, k ∈ hd :: l1 -> k ∈ hd :: l1 ++ l2) by (intros k; rewrite app_comm_cons, elem_of_app; tauto).
  assert (Hin2 : forall k, k ∈ l2 -> k ∈ hd :: l1 ++ l2) by (intros k; rewrite app_comm_cons, elem_of_app; tauto).
  split; (eapply walk_frame; [| |eassumption]).
  - intros k. rewrite H1, removelast_snoc. intros Hk. apply Hn.
    + intros ->. rewrite H1 in Hnd1. apply list.NoDup_app in Hnd1 as (_ & Hd & _). apply (Hd a Hk). by left.
    + apply Hin1. rewrite H1, elem_of_app. by left.
  - cbn [tail]. intros k Hk. apply Hp; [|apply Hin1; by right]. intros ->.
    apply elem_of_app in Hb as [Hb|Hb%list_elem_of_singleton].
    + apply (Hdis b); [by right|done].
    + subst b. by inversion Hnd1.
  - intros k. rewrite removelast_snoc. intros Hk. apply Hn; [|by apply Hin2]. intros ->. by apply (Hdis a).
  - intros k Hk. assert (Hb' : k <> b).
    { intros ->. rewrite H2 in Hnr, Hk. cbn [tail] in Hk. by inversion Hnr. }
    apply Hp; [done|]. assert (Hk' : k ∈ l2 ++ [hd]) by (rewrite H2 in Hk |- *; cbn [tail] in Hk; by right).
    apply elem_of_app in Hk' as [?|E%list_elem_of_singleton]; [by apply Hin2|subst k; by left].
Qed.

Lemma ring_insert m l1 l2 a b item : cut l1 l2 a b -> ring m (l1 ++ l2) -> item ∉ hd :: l1 ++ l2 ->
  ring (insert_between a item b m) (l1 ++ item :: l2).
Proof.
  intros Hc [Hw Hnd] Hi. split.
  2:{ rewrite app_comm_cons, <- Permutation_middle. by apply NoDup_cons_2. }
  apply (walk_cut _ _ _ _ _ Hc) in Hw as [Hw _]. destruct (cut_members _ _ _ _ Hc) as [Ha Hb].
  assert (Hai : a <> item) by set_solver. assert (Hbi : b <> item) by set_solver.
  assert (Hw' : walks (insert_between a item b m) l1 l2).
  { eapply walks_frame; [done|done|..|done]; cbn; intros k Hk Hin; assert (k <> item) by (by intros ->);
      by rewrite !lookup_insert_ne by done. }
  destruct Hw' as [Hw1 Hw2]. destruct Hc as [[c1 H1] [c2 H2]].
  rewrite <- app_assoc. cbn [app]. rewrite app_comm_cons, H1, H2, <- app_assoc. cbn [app]. rewrite walk_app.
  rewrite H1 in Hw1. rewrite H2 in Hw2. split; [done|].
  change (walk ?m (a :: item :: b :: c2)) with (adjacent m a item /\ adjacent m item b /\ walk m (b :: c2)).
  split; [|split; [|exact Hw2]]; split; cbn [nexts prevs insert_between].
  - apply lookup_insert_eq.
  - rewrite lookup_insert_ne by done. apply lookup_insert_eq.
  - rewrite lookup_insert_ne by done. apply lookup_insert_eq.
  - apply lookup_insert_eq.
Qed.

Lemma ring_at m l1 l2 a b item : cut l1 l2 a b -> ring m (l1 ++ item :: l2) ->
  prevs m !! item = Some a /\ nexts m !! item = Some b /\ walks m l1 l2 /\ NoDup (hd :: l1 ++ l2) /\
  item ∉ hd :: l1 ++ l2.
Proof.
  intros [[c1 H1] [c2 H2]] [Hw Hnd]. rewrite app_comm_cons, <- Permutation_middle in Hnd.
  inversion Hnd as [|? ? Hi Hnd']; subst.
  rewrite <- app_assoc in Hw. cbn [app] in Hw. rewrite app_comm_cons, H1, H2, <- app_assoc in Hw. cbn [app] in Hw.
  apply walk_app in Hw as [Hw1 Hw].
  change (walk m (a :: item :: b :: c2)) with (adjacent m a item /\ adjacent m item b /\ walk m (b :: c2)) in Hw.
  destruct Hw as ([_ Hp] & [Hn _] & Hw2). unfold walks. rewrite H1, H2. split_and!; done.
Qed.

Lemma ring_next m l1 l2 item : ring m (l1 ++ item :: l2) -> nexts m !! item = Some (first_of hd l2).
Proof. intros Hr. by destruct (ring_at _ _ _ _ _ _ (cut_first_last l1 l2) Hr) as (_ & ? & _). Qed.

Lemma ring_prev m l1 l2 item : ring m (l1 ++ item :: l2) -> prevs m !! item = Some (last_of hd l1).
Proof. intros Hr. by destruct (ring_at _ _ _ _ _ _ (cut_first_last l1 l2) Hr) as (? & _). Qed.

Lemma ring_first m l : ring m l -> nexts m !! hd = Some (first_of hd l).
Proof. intros [Hw _]. by apply (walk_cut _ [] l _ _ (cut_first_last [] l)) in Hw as [_ [? _]]. Qed.

Lemma ring_last m l : ring m l -> prevs m !! hd = Some (last_of hd l).
Proof.
  intros [Hw _]. rewrite <- (app_nil_r l) in Hw.
  by apply (walk_cut _ l [] _ _ (cut_first_last l [])) in Hw as [_ [_ ?]].
Qed.

Lemma ring_join m l1 l2 a b item : cut l1 l2 a b -> ring m (l1 ++ item :: l2) -> ring (join a b m) (l1 ++ l2).
Proof.
  intros Hc Hr. destruct (ring_at _ _ _ _ _ _ Hc Hr) as (_ & _ & Hw & Hnd & _). split; [|done].
  apply (walk_cut _ _ _ _ _ Hc). split; [|by split; cbn; rewrite lookup_insert_eq].
  eapply walks_frame; [done|done|..|done]; cbn; intros k Hk _; by rewrite lookup_insert_ne.
Qed.

(** What is outside a ring is not read. *)
Lemma ring_frame m m' l : ring m l ->
  (forall k, k ∈ hd :: l -> nexts m' !! k = nexts m !! k /\ prevs m' !! k = prevs m !! k) -> ring m' l.
Proof.
  intros [Hw Hnd] Hk. split; [|done]. rewrite app_comm_cons in *. eapply walk_frame; [..|exact Hw].
  - intros k. rewrite removelast_snoc. apply Hk.
  - cbn [tail app]. intros k [?|E%list_elem_of_singleton]%elem_of_app; apply Hk; [by right|subst k; by left].
Qed.

Lemma ring_off P m m' l : ring m l -> agree_off P m m' -> (forall k, k ∈ hd :: l -> k ∉ P) -> ring m' l.
Proof. intros Hr Ha Hd. eapply ring_frame; [exact Hr|]. intros k Hk. by apply Ha, Hd. Qed.

Lemma ring_alone m : ring (alone hd m) [].
Proof. split; [|apply NoDup_singleton]. cbn. unfold adjacent. cbn. by rewrite !lookup_insert_eq. Qed.

End rings.

(** * The macros on rings *)

Section proofs.
Context {H L S : Type} `{!Linked L S}.
Implicit Types (s : S) (h : H).

Abbreviation wpm := (wp (H := H) (S := S) False).

Lemma get_next_wp l p q Q s h : nexts (links_of l s) !! p = Some q -> Q q s h -> wpm (get_next l p) Q s h.
Proof. intros E HQ. unfold get_next. apply wp_bind, wp_get. by rewrite E. Qed.

Lemma get_prev_wp l p q Q s h : prevs (links_of l s) !! p = Some q -> Q q s h -> wpm (get_prev l p) Q s h.
Proof. intros E HQ. unfold get_prev. apply wp_bind, wp_get. by rewrite E. Qed.

Lemma set_next_wp l p q Q s h : live l s p = true ->
  Q tt (set_links l {| nexts := <[p := q]> (nexts (links_of l s)); prevs := prevs (links_of l s) |} s) h ->
  wpm (set_next l p q) Q s h.
Proof. intros E HQ. unfold set_next. apply wp_bind, wp_get. by rewrite E. Qed.

Lemma set_prev_wp l p q Q s h : live l s p = true ->
  Q tt (set_links l {| nexts := nexts (links_of l s); prevs := <[p := q]> (prevs (links_of l s)) |} s) h ->
  wpm (set_prev l p q) Q s h.
Proof. intros E HQ. unfold set_prev. apply wp_bind, wp_get. by rewrite E. Qed.

Ltac links_step :=
  try apply wp_bind;
  first [ eapply get_next_wp | eapply get_prev_wp | apply set_next_wp | apply set_prev_wp ];
  rewrite ?live_set, ?links_set, ?set_set_links; cbn [nexts prevs]; try done.

Lemma init_head_wp l item Q s h : live l s item = true ->
  Q tt (set_links l (alone item (links_of l s)) s) h -> wpm (WSBMINITLISTHEAD l item) Q s h.
Proof. intros Hl HQ. unfold WSBMINITLISTHEAD. do 2 links_step. Qed.

Lemma add_wp l item list n Q s h : nexts (links_of l s) !! list = Some n -> item <> list ->
  live l s item = true -> live l s list = true -> live l s n = true ->
  Q tt (set_links l (insert_between list item n (links_of l s)) s) h -> wpm (WSBMLISTADD l item list) Q s h.
Proof.
  intros Hn Hne Hi Hl Hln HQ. unfold WSBMLISTADD. links_step. links_step. links_step.
  links_step; [by rewrite lookup_insert_ne|]. do 2 links_step.
Qed.

Lemma add_tail_wp l item list p Q s h : prevs (links_of l s) !! list = Some p -> item <> list ->
  live l s item = true -> live l s list = true -> live l s p = true ->
  Q tt (set_links l (insert_between p item list (links_of l s)) s) h -> wpm (WSBMLISTADDTAIL l item list) Q s h.
Proof.
  intros Hn Hne Hi Hl Hln HQ. unfold WSBMLISTADDTAIL. links_step. links_step. links_step.
  links_step; [by rewrite lookup_insert_ne|]. do 2 links_step.
Qed.

Lemma del_wp l item a b Q s h : prevs (links_of l s) !! item = Some a -> nexts (links_of l s) !! item = Some b ->
  a <> item -> live l s a = true -> live l s b = true ->
  Q tt (set_links l (join a b (links_of l s)) s) h -> wpm (WSBMLISTDEL l item) Q s h.
Proof.
  intros Ha Hb Hne Hla Hlb HQ. unfold WSBMLISTDEL. links_step. links_step. links_step.
  links_step; [by rewrite lookup_insert_ne|]. links_step. links_step.
Qed.

(** The nodes of a ring are there. *)
Definition present (l : L) s (c : list Z) : Prop := forall p, p ∈ c -> live l s p = true.

Section ring.
Context (hd : Z).

Lemma present_cut l s l1 l2 a b : cut hd l1 l2 a b -> present l s (hd :: l1 ++ l2) ->
  live l s a = true /\ live l s b = true.
Proof. intros Hc Hp. destruct (cut_members _ _ _ _ _ Hc). split; by apply Hp. Qed.

Lemma push_ring l item rs Q s h : ring hd (links_of l s) rs -> present l s (hd :: rs) -> live l s item = true ->
  item ∉ hd :: rs ->
  (forall k, ring hd k (item :: rs) -> agree_off (item :: hd :: rs) (links_of l s) k -> Q tt (set_links l k s) h) ->
  wpm (WSBMLISTADD l item hd) Q s h.
Proof.
  intros Hr Hp Hi Hni HQ. pose proof (cut_first_last hd [] rs) as Hc.
  destruct (present_cut _ _ [] _ _ _ Hc Hp) as [_ Hb].
  eapply add_wp; [by apply (ring_first _ _ _ Hr)|set_solver|done|by apply Hp; left|done|].
  apply HQ; [by apply (ring_insert _ _ [] rs)|]. eapply agree_off_mono; [|apply agree_off_insert].
  destruct (cut_members _ [] _ _ _ Hc). set_solver.
Qed.

Lemma insert_ring l item x l1 l2 Q s h : ring hd (links_of l s) (l1 ++ x :: l2) ->
  present l s (hd :: l1 ++ x :: l2) -> live l s item = true -> item ∉ hd :: l1 ++ x :: l2 ->
  (forall k, ring hd k (l1 ++ item :: x :: l2) -> agree_off (item :: hd :: l1 ++ x :: l2) (links_of l s) k ->
    Q tt (set_links l k s) h) ->
  wpm (WSBMLISTADDTAIL l item x) Q s h.
Proof.
  intros Hr Hp Hi Hni HQ. pose proof (cut_first_last hd l1 (x :: l2)) as Hc. cbn [first_of] in Hc.
  destruct (present_cut _ _ _ _ _ _ Hc Hp) as [Ha Hb].
  eapply add_tail_wp; [by eapply ring_prev|set_solver|done|done|done|].
  apply HQ; [by apply ring_insert|]. eapply agree_off_mono; [|apply agree_off_insert].
  destruct (cut_members _ _ _ _ _ Hc). set_solver.
Qed.

Lemma append_ring l item rs Q s h : ring hd (links_of l s) rs -> present l s (hd :: rs) -> live l s item = true ->
  item ∉ hd :: rs ->
  (forall k, ring hd k (rs ++ [item]) -> agree_off (item :: hd :: rs) (links_of l s) k -> Q tt (set_links l k s) h) ->
  wpm (WSBMLISTADDTAIL l item hd) Q s h.
Proof.
  intros Hr Hp Hi Hni HQ. pose proof (cut_first_last hd rs []) as Hc. cbn [first_of] in Hc.
  pose proof (cut_members _ _ _ _ _ Hc) as [Hin _]. rewrite app_nil_r in Hin.
  eapply add_tail_wp; [by apply (ring_last _ _ _ Hr)|set_solver|done|by apply Hp; left|by apply Hp|].
  apply HQ.
  - apply ring_insert; rewrite ?app_nil_r; done.
  - eapply agree_off_mono; [|apply agree_off_insert]. set_solver.
Qed.

Lemma remove_ring l item l1 l2 Q s h : ring hd (links_of l s) (l1 ++ item :: l2) ->
  present l s (hd :: l1 ++ item :: l2) ->
  (forall k, ring hd k (l1 ++ l2) -> agree_off (hd :: l1 ++ l2) (links_of l s) k -> Q tt (set_links l k s) h) ->
  wpm (WSBMLISTDEL l item) Q s h.
Proof.
  intros Hr Hp HQ. pose proof (cut_first_last hd l1 l2) as Hc.
  assert (Hp' : present l s (hd :: l1 ++ l2)) by (intros p Hin; apply Hp; set_solver).
  destruct (present_cut _ _ _ _ _ _ Hc Hp') as [Hla Hlb].
  destruct (ring_at _ _ _ _ _ _ _ Hc Hr) as (Ha & Hb & _ & _ & Hni).
  destruct (cut_members _ _ _ _ _ Hc) as [Ha' Hb'].
  eapply del_wp; [exact Ha|exact Hb|by intros E; apply Hni; rewrite <- E|done|done|].
  apply HQ; [by apply (ring_join _ _ _ _ _ _ item)|]. eapply agree_off_mono; [|apply agree_off_join]. set_solver.
Qed.

Lemma remove_init_ring l item l1 l2 Q s h : ring hd (links_of l s) (l1 ++ item :: l2) ->
  present l s (hd :: l1 ++ item :: l2) ->
  (forall k, ring hd k (l1 ++ l2) -> ring item k [] -> agree_off (hd :: l1 ++ item :: l2) (links_of l s) k ->
    Q tt (set_links l k s) h) ->
  wpm (WSBMLISTDELINIT l item) Q s h.
Proof.
  intros Hr Hp HQ. unfold WSBMLISTDELINIT. apply wp_bind. eapply remove_ring; [done|done|]. intros k Hk Ha.
  assert (Hl : live l s item = true) by (apply Hp; set_solver).
  pose proof (ring_nodup _ _ _ Hr) as Hnd. rewrite app_comm_cons, <- Permutation_middle in Hnd.
  apply list.NoDup_cons in Hnd as [Hni _]. do 2 links_step. fold (alone item k). apply HQ.
  - eapply ring_off; [exact Hk|apply agree_off_alone|]. set_solver.
  - apply ring_alone.
  - eapply agree_off_trans; [eapply agree_off_mono; [|exact Ha]|eapply agree_off_mono; [|apply agree_off_alone]];
      set_solver.
Qed.

(** An entry on no list is its own ring, and taking it off changes nothing. *)
Lemma remove_init_alone l item Q s h : ring item (links_of l s) [] -> live l s item = true ->
  (forall k, (forall p, nexts k !! p = nexts (links_of l s) !! p /\ prevs k !! p = prevs (links_of l s) !! p) ->
    Q tt (set_links l k s) h) ->
  wpm (WSBMLISTDELINIT l item) Q s h.
Proof.
  intros Hr Hl HQ. pose proof (ring_first _ _ _ Hr) as Hn. pose proof (ring_last _ _ _ Hr) as Hp.
  cbn [first_of last_of List.last] in Hn, Hp. unfold WSBMLISTDELINIT, WSBMLISTDEL.
  apply wp_bind. links_step. links_step. links_step. links_step; [apply lookup_insert_eq|]. links_step. links_step.
  links_step. links_step. apply HQ. intros p. cbn [nexts prevs].
  destruct (decide (p = item)) as [->|]; [rewrite !lookup_insert_eq; split; congruence|by rewrite !lookup_insert_ne].
Qed.

End ring.
End proofs.
