(* ===== verification/WsbmMM.v ===== *)
(** The memory manager of the buffer pools: libwsbm/src/wsbm_mm.c.

    A range of addresses is cut into blocks, kept in two lists whose links are inside
    the nodes: [ML], all the blocks in the order of their addresses, and [FL], the
    stack of the free ones.  The heads of both lists are in the
    manager, at the address [HEAD] (struct _WsbmMM and struct _WsbmMMNode start with
    the same two links, so that the manager's address is that of its heads' entry).
    The pointer of a node to its manager is left out: there is one. *)
From stdpp Require Import gmap.
From S2P Require Import Prelude Memory Rings.

Record mm_node := { node_free : bool; node_start : Z; node_size : Z }.

(** * The memory *)

Inductive list_id := FL | ML.

Record wsbm_mm := { fl_entry : links; ml_entry : links; nodes : gmap Z mm_node }.

Definition HEAD : Z := 0.
Definition ENOMEM : Z := 12.

Definition ulong (z : Z) : Z := z mod 2 ^ 32.

Definition mm_links (l : list_id) (s : wsbm_mm) : links :=
  match l with FL => fl_entry s | ML => ml_entry s end.

Definition set_mm_links (l : list_id) (k : links) (s : wsbm_mm) : wsbm_mm :=
  match l with
  | FL => {| fl_entry := k; ml_entry := ml_entry s; nodes := nodes s |}
  | ML => {| fl_entry := fl_entry s; ml_entry := k; nodes := nodes s |}
  end.

Definition set_nodes (n : gmap Z mm_node) (s : wsbm_mm) : wsbm_mm :=
  {| fl_entry := fl_entry s; ml_entry := ml_entry s; nodes := n |}.

#[export] Program Instance wsbm_mm_links : Linked list_id wsbm_mm := {|
  Rings.links_of := mm_links;
  Rings.set_links := set_mm_links;
  Rings.live _ s p := (p =? HEAD) || bool_decide (is_Some (nodes s !! p)) |}.
Next Obligation. by intros []. Qed.
Next Obligation. by intros []. Qed.
Next Obligation. by intros []. Qed.

Section wsbm_mm.
Context `{Malloc mm_node}.

Abbreviation MM A := (M (list mcall) wsbm_mm A).

Definition get_node (p : Z) : MM mm_node :=
  s ← get; match nodes s !! p with Some n => mret n | None => undefined end.

Definition set_node (p : Z) (n : mm_node) : MM unit :=
  s ← get;
  if bool_decide (is_Some (nodes s !! p)) then modify (set_nodes (<[p := n]> (nodes s))) else undefined.

Definition malloc : MM (option Z) := fun s h =>
  match malloc_gives h (dom (nodes s)) with
  | Some (p, n) => Done (Some p) (set_nodes (<[p := n]> (nodes s)) s) (M_malloc (Some p) :: h)
  | None => Done None s (M_malloc None :: h)
  end.

Definition free (p : Z) : MM unit := fun s h =>
  if bool_decide (is_Some (nodes s !! p)) then
    Done tt {| fl_entry := forget p (fl_entry s); ml_entry := forget p (ml_entry s);
               nodes := delete p (nodes s) |} (M_free p :: h)
  else Undef h.

(** ** The manager *)

Definition wsbmMMTailSpace : MM Z :=
  tail_node ← get_prev ML HEAD;
  entry ← get_node tail_node;
  if negb (node_free entry) then mret 0 else mret (node_size entry).

Definition wsbmMMRemoveSpaceFromTail (size : Z) : MM Z :=
  tail_node ← get_prev ML HEAD;
  entry ← get_node tail_node;
  if negb (node_free entry) then mret (- ENOMEM)
  else if node_size entry <=? size then mret (- ENOMEM)
  else
    set_node tail_node {| node_free := node_free entry; node_start := node_start entry;
                          node_size := ulong (node_size entry - size) |} ;;
    mret 0.

Definition wsbmMMCreateTailNode (start size : Z) : MM Z :=
  child ← malloc;
  match child with
  | None => mret (- ENOMEM)
  | Some child =>
      set_node child {| node_free := true; node_start := start; node_size := size |} ;;
      WSBMLISTADDTAIL ML child HEAD ;;
      WSBMLISTADDTAIL FL child HEAD ;;
      mret 0
  end.

(** [None] is NULL. *)
Definition wsbmMMSplitAtStart (parent size : Z) : MM (option Z) :=
  child ← malloc;
  match child with
  | None => mret None
  | Some child =>
      WSBMINITLISTHEAD FL child ;;
      p ← get_node parent;
      set_node child {| node_free := false; node_start := node_start p; node_size := size |} ;;
      WSBMLISTADDTAIL ML child parent ;;
      WSBMINITLISTHEAD FL child ;;
      p ← get_node parent;
      set_node parent {| node_free := node_free p; node_start := ulong (node_start p + size);
                         node_size := ulong (node_size p - size) |} ;;
      mret (Some child)
  end.

(** [wsbmMMPutBlock]: the block grows the previous one, then the next one is absorbed
    or grows, and what was not merged is put on the stack. *)
Definition put_prev (cur p : Z) : MM (option Z) :=
  if p =? HEAD then mret None
  else
    prev_node ← get_node p;
    if node_free prev_node then
      c ← get_node cur;
      set_node p {| node_free := node_free prev_node; node_start := node_start prev_node;
                    node_size := ulong (node_size prev_node + node_size c) |} ;;
      mret (Some p)
    else mret None.

Definition put_next (cur n : Z) (merged : option Z) : MM bool :=
  if n =? HEAD then mret (bool_decide (is_Some merged))
  else
    next_node ← get_node n;
    if node_free next_node then
      match merged with
      | Some p =>
          prev_node ← get_node p;
          set_node p {| node_free := node_free prev_node; node_start := node_start prev_node;
                        node_size := ulong (node_size prev_node + node_size next_node) |} ;;
          WSBMLISTDEL ML n ;;
          WSBMLISTDEL FL n ;;
          free n ;;
          mret true
      | None =>
          c ← get_node cur;
          set_node n {| node_free := node_free next_node; node_start := node_start c;
                        node_size := ulong (node_size next_node + node_size c) |} ;;
          mret true
      end
    else mret (bool_decide (is_Some merged)).

Definition put_last (cur : Z) (merged : bool) : MM unit :=
  if negb merged then
    c ← get_node cur;
    set_node cur {| node_free := true; node_start := node_start c; node_size := node_size c |} ;;
    WSBMLISTADD FL cur HEAD
  else
    WSBMLISTDEL ML cur ;;
    free cur.

Definition wsbmMMPutBlock (cur : Z) : MM unit :=
  p ← get_prev ML cur;
  merged ← put_prev cur p;
  n ← get_next ML cur;
  merged ← put_next cur n merged;
  put_last cur merged.

Definition misalignment (start alignment : Z) : Z := if alignment =? 0 then 0 else start mod alignment.

(** [wsbmMMGetBlock] once the start of [parent] is aligned. *)
Definition get_aligned (parent size : Z) (align_splitoff : option Z) : MM (option Z) :=
  p ← get_node parent;
  if node_size p =? size then
    WSBMLISTDELINIT FL parent ;;
    set_node parent {| node_free := false; node_start := node_start p; node_size := node_size p |} ;;
    mret (Some parent)
  else
    child ← wsbmMMSplitAtStart parent size;
    match align_splitoff with Some a => wsbmMMPutBlock a | None => mret tt end ;;
    mret child.

Definition wsbmMMGetBlock (parent size alignment : Z) : MM (option Z) :=
  p ← get_node parent;
  let tmp := misalignment (node_start p) alignment in
  if tmp =? 0 then get_aligned parent size None
  else
    align_splitoff ← wsbmMMSplitAtStart parent (alignment - tmp);
    match align_splitoff with
    | None => mret None
    | Some a => get_aligned parent size (Some a)
    end.

(** The loop of [wsbmMMSearchFree] from [entry] on; the nodes bound its rounds. *)
Fixpoint search_loop (fuel : nat) (entry size alignment : Z) (best_match : bool) (best : option Z)
    (best_size : Z) : MM (option Z) :=
  if entry =? HEAD then mret best
  else
    match fuel with
    | O => undefined
    | S n =>
        e ← get_node entry;
        let continue best best_size :=
          entry ← get_next FL entry; search_loop n entry size alignment best_match best best_size in
        if node_size e <? size then continue best best_size
        else
          let tmp := misalignment (node_start e) alignment in
          let wasted := if tmp =? 0 then 0 else alignment - tmp in
          if ulong (size + wasted) <=? node_size e then
            if negb best_match then mret (Some entry)
            else if size <? best_size then continue (Some entry) (node_size e)
            else continue best best_size
          else continue best best_size
    end.

Definition wsbmMMSearchFree (size alignment : Z) (best_match : bool) : MM (option Z) :=
  s ← get;
  entry ← get_next FL HEAD;
  search_loop (base.size (nodes s)) entry size alignment best_match None (2 ^ 32 - 1).

Definition wsbmMMclean : MM bool :=
  n ← get_next ML HEAD; n ← get_next ML n; mret (n =? HEAD).

Definition wsbmMMinit (start size : Z) : MM Z :=
  modify (fun _ => {| fl_entry := {| nexts := ∅; prevs := ∅ |}; ml_entry := {| nexts := ∅; prevs := ∅ |};
                      nodes := ∅ |}) ;;
  WSBMINITLISTHEAD ML HEAD ;;
  WSBMINITLISTHEAD FL HEAD ;;
  wsbmMMCreateTailNode start size.

Definition wsbmMMtakedown : MM unit :=
  entry ← get_next FL HEAD;
  m ← get_next ML entry;
  if negb (m =? HEAD) then mret tt
  else
    f ← get_next FL entry;
    if negb (f =? HEAD) then mret tt
    else
      WSBMLISTDEL FL entry ;;
      WSBMLISTDEL ML entry ;;
      free entry.

(** How a pool asks for a block, in [pool_create] and [pool_validate] of
    wsbm_userpool.c, which look for the best match. *)
Definition pool_get (best_match : bool) (size alignment : Z) : MM (option Z) :=
  node ← wsbmMMSearchFree size alignment best_match;
  match node with
  | None => mret None
  | Some node => wsbmMMGetBlock node size alignment
  end.

End wsbm_mm.
