(* ===== verification/WsbmMMInv.v ===== *)
(** The memory manager of the buffer pools: its memory and its operations.

    Both lists are rings through their head; a manager is the list [C] of its blocks in
    order and the stack [F] of the free ones.  Each operation is described by what it
    does to them: [put_cells] and [get_cells] for giving a block back and taking one,
    [suits] for looking for one. *)
From stdpp Require Import gmap.
From S2P Require Import Prelude Memory Rings WsbmMM.

(** A block of memory: its address and its node. *)
Abbreviation cell := (Z * mm_node)%type.

Abbreviation ring := (Rings.ring HEAD).
Abbreviation first_of := (Rings.first_of HEAD).

Section proofs.
Context `{Malloc mm_node}.

Abbreviation wpm := (wp (H := list mcall) (S := wsbm_mm) False).

(** * The memory of a manager

    [C] lists the blocks in order, [F] the stack of the free ones; the nodes of [X] are
    allocated and in no list of blocks. *)

Record mm_wf (s : wsbm_mm) (C : list cell) (F : list Z) (X : list cell) : Prop := {
  wf_ml : ring (ml_entry s) C.*1;
  wf_fl : ring (fl_entry s) F;
  wf_nodes : forall p n, nodes s !! p = Some n <-> (p, n) ∈ C ++ X;
  wf_keys : NoDup (HEAD :: (C ++ X).*1);
  wf_in : forall p, p ∈ F -> p ∈ (C ++ X).*1 }.

Lemma elem_of_keys (p : Z) (L : list cell) : p ∈ L.*1 <-> exists n, (p, n) ∈ L.
Proof.
  rewrite list_elem_of_fmap. split.
  - intros ([q n] & -> & Hi). by exists n.
  - intros [n Hi]. by exists (p, n).
Qed.

Section wf.
Context {s : wsbm_mm} {C : list cell} {F : list Z} {X : list cell} (Hwf : mm_wf s C F X).

Lemma wf_live l p : p ∈ (C ++ X).*1 -> live l s p = true.
Proof.
  intros [n Hi]%elem_of_keys. cbn. apply orb_true_iff. right. apply bool_decide_eq_true.
  exists n. by apply (wf_nodes _ _ _ _ Hwf).
Qed.

Lemma wf_present_ml : present ML s (HEAD :: C.*1).
Proof. intros p [->|Hi]%elem_of_cons; [done|]. apply wf_live. rewrite fmap_app, elem_of_app. by left. Qed.

Lemma wf_present_fl : present FL s (HEAD :: F).
Proof. intros p [->|Hi]%elem_of_cons; [done|]. by apply wf_live, (wf_in _ _ _ _ Hwf). Qed.

Lemma wf_get_node p n Q h : (p, n) ∈ C ++ X -> Q n s h -> wpm (get_node p) Q s h.
Proof.
  intros Hi HQ. apply (wf_nodes _ _ _ _ Hwf) in Hi. unfold get_node. apply wp_bind, wp_get. by rewrite Hi.
Qed.

Lemma wf_malloc Q h : (malloc_gives h (dom (nodes s)) = None -> Q None s (M_malloc None :: h)) ->
  (forall c n s', c ∉ HEAD :: (C ++ X).*1 -> mm_wf s' C F ((c, n) :: X) -> Q (Some c) s' (M_malloc (Some c) :: h)) ->
  wpm malloc Q s h.
Proof.
  intros Hnone Hsome. unfold malloc, wp. destruct (malloc_gives h _) as [[c n]|] eqn:E; [|by apply Hnone].
  destruct (malloc_new _ _ _ _ E) as [Hc Hfresh]. destruct Hwf as [Hml Hfl Hn Hk Hi].
  assert (Hni : c ∉ HEAD :: (C ++ X).*1).
  { rewrite not_elem_of_cons. split; [unfold HEAD; lia|]. intros [m Hm]%elem_of_keys.
    apply Hfresh, elem_of_dom. exists m. by apply Hn. }
  apply (Hsome c n); [done|]. split; try done.
  - intros p m. cbn [nodes set_nodes]. rewrite lookup_insert_Some, Hn, !elem_of_app, elem_of_cons.
    split; [intros [[-> ->]|[_ ?]]; tauto|]. intros [Hin|[[= -> ->]|Hin]]; [|by left|]; right;
      (split; [intros ->; apply Hni; right; apply elem_of_keys; exists m; rewrite elem_of_app; tauto|tauto]).
  - rewrite fmap_app. cbn. rewrite <- Permutation_middle, <- fmap_app. rewrite Permutation_swap.
    by apply NoDup_cons_2.
  - intros p Hp. apply Hi in Hp. rewrite fmap_app in *. cbn. rewrite elem_of_app, elem_of_cons in *. tauto.
Qed.

End wf.

(** The same cells, one of them changed. *)
Lemma wf_set s C C' p n n' R F X X' Q h : mm_wf s C F X -> C ++ X ≡ₚ (p, n) :: R -> C' ++ X' ≡ₚ (p, n') :: R ->
  C'.*1 = C.*1 -> (forall s', mm_wf s' C' F X' -> Q tt s' h) -> wpm (set_node p n') Q s h.
Proof.
  intros [Hml Hfl Hn Hk Hi] HP HP' HC HQ.
  assert (Hp : is_Some (nodes s !! p)) by (exists n; apply Hn; rewrite HP; by left).
  unfold set_node. apply wp_bind, wp_get. rewrite bool_decide_eq_true_2 by done. apply wp_modify, HQ.
  assert (E : (C' ++ X').*1 ≡ₚ (C ++ X).*1) by (by rewrite HP, HP').
  split; cbn [nodes set_nodes fl_entry ml_entry];
    [by rewrite HC|done| |by rewrite E|intros q Hq; rewrite E; by apply Hi].
  rewrite HP in Hk. cbn in Hk. rewrite Permutation_swap in Hk. apply list.NoDup_cons in Hk as [Hk _].
  intros q m. rewrite lookup_insert_Some, Hn, HP, HP', !elem_of_cons. split.
  - intros [[-> ->]|[Hne [[= E1 E2]|?]]]; [by left|congruence|by right].
  - intros [[= -> ->]|Hin]; [by left|right]. split; [|by right]. intros ->. apply Hk. right. apply elem_of_keys.
    by exists m.
Qed.

Lemma wf_set_cell s C1 p n n' C2 F X Q h : mm_wf s (C1 ++ (p, n) :: C2) F X ->
  (forall s', mm_wf s' (C1 ++ (p, n') :: C2) F X -> Q tt s' h) -> wpm (set_node p n') Q s h.
Proof.
  intros Hwf. eapply (wf_set _ _ _ _ n n' (C1 ++ C2 ++ X)); [exact Hwf| | |by rewrite !fmap_app];
    rewrite <- app_assoc; symmetry; apply Permutation_middle.
Qed.

Lemma wf_set_extra s C F c m m' X Q h : mm_wf s C F ((c, m) :: X) ->
  (forall s', mm_wf s' C F ((c, m') :: X) -> Q tt s' h) -> wpm (set_node c m') Q s h.
Proof.
  intros Hwf. eapply (wf_set _ _ _ _ m m' (C ++ X)); [exact Hwf| | |done]; symmetry; apply Permutation_middle.
Qed.

(** The blocks that move between the lists and [X]. *)
Lemma wf_move s C F X C' X' k : mm_wf s C F X -> C ++ X ≡ₚ C' ++ X' -> ring k C'.*1 -> mm_wf (set_links ML k s) C' F X'.
Proof.
  intros [Hml Hfl Hn Hk Hi] HP Hr. split; cbn [Rings.set_links wsbm_mm_links set_mm_links ml_entry fl_entry nodes]; try done.
  - intros p n. by rewrite Hn, HP.
  - by rewrite <- HP.
  - intros p Hp. rewrite <- HP. by apply Hi.
Qed.

Lemma wf_insert s C1 p n C2 F c m X Q h : mm_wf s (C1 ++ (p, n) :: C2) F ((c, m) :: X) ->
  (forall s', mm_wf s' (C1 ++ (c, m) :: (p, n) :: C2) F X -> Q tt s' h) -> wpm (WSBMLISTADDTAIL ML c p) Q s h.
Proof.
  intros Hwf HQ. pose proof (wf_ml _ _ _ _ Hwf) as Hr. pose proof (wf_present_ml Hwf) as Hp.
  rewrite fmap_app in Hr, Hp. cbn in Hr, Hp. eapply insert_ring; [exact Hr|exact Hp| | |].
  - apply (wf_live Hwf). rewrite fmap_app. set_solver.
  - pose proof (wf_keys _ _ _ _ Hwf) as Hk. rewrite fmap_app in Hk. cbn in Hk.
    rewrite <- Permutation_middle, Permutation_swap in Hk. apply list.NoDup_cons in Hk as [Hk _].
    rewrite fmap_app in Hk. cbn in Hk. set_solver.
  - intros k Hk _. apply HQ. eapply wf_move; [exact Hwf| |by rewrite fmap_app].
    rewrite <- !app_assoc. cbn. apply Permutation_app_head. rewrite <- Permutation_middle. apply Permutation_swap.
Qed.

Lemma wf_append s C F c m X Q h : mm_wf s C F ((c, m) :: X) ->
  (forall s', mm_wf s' (C ++ [(c, m)]) F X -> Q tt s' h) -> wpm (WSBMLISTADDTAIL ML c HEAD) Q s h.
Proof.
  intros Hwf HQ. eapply (append_ring HEAD ML); [exact (wf_ml _ _ _ _ Hwf)|exact (wf_present_ml Hwf)| | |].
  - apply (wf_live Hwf). rewrite fmap_app. set_solver.
  - pose proof (wf_keys _ _ _ _ Hwf) as Hk. rewrite fmap_app in Hk. cbn in Hk.
    rewrite <- Permutation_middle, Permutation_swap in Hk. apply list.NoDup_cons in Hk as [Hk _]. set_solver.
  - intros k Hk _. apply HQ. eapply wf_move; [exact Hwf| |by rewrite fmap_app].
    by rewrite <- app_assoc.
Qed.

Lemma wf_remove s C1 p n C2 F X Q h : mm_wf s (C1 ++ (p, n) :: C2) F X ->
  (forall s', mm_wf s' (C1 ++ C2) F ((p, n) :: X) -> Q tt s' h) -> wpm (WSBMLISTDEL ML p) Q s h.
Proof.
  intros Hwf HQ. pose proof (wf_ml _ _ _ _ Hwf) as Hr. pose proof (wf_present_ml Hwf) as Hp.
  rewrite fmap_app in Hr, Hp. cbn in Hr, Hp. eapply remove_ring; [exact Hr|exact Hp|].
  intros k Hk _. apply HQ. eapply wf_move; [exact Hwf| |by rewrite fmap_app].
  rewrite <- !app_assoc. cbn. apply Permutation_app_head. apply Permutation_middle.
Qed.

(** The stack of free blocks. *)
Lemma wf_stack s C F X F' k : mm_wf s C F X -> ring k F' -> (forall p, p ∈ F' -> p ∈ (C ++ X).*1) ->
  mm_wf (set_links FL k s) C F' X.
Proof. intros [Hml Hfl Hn Hk Hi] Hr Hin. by split. Qed.

Lemma wf_new s C F X p : mm_wf s C F X -> p ∈ (C ++ X).*1 -> p ∉ F -> p ∉ HEAD :: F.
Proof.
  intros Hwf Hp Hni. pose proof (wf_keys _ _ _ _ Hwf) as Hk. apply list.NoDup_cons in Hk as [Hk _].
  rewrite not_elem_of_cons. split; [by intros ->|done].
Qed.

Lemma wf_push s C F X p Q h : mm_wf s C F X -> p ∈ (C ++ X).*1 -> p ∉ F ->
  (forall s', mm_wf s' C (p :: F) X -> Q tt s' h) -> wpm (WSBMLISTADD FL p HEAD) Q s h.
Proof.
  intros Hwf Hp Hni HQ. eapply (push_ring HEAD FL); [exact (wf_fl _ _ _ _ Hwf)|exact (wf_present_fl Hwf)| | |].
  - by apply (wf_live Hwf).
  - by eapply wf_new.
  - intros k Hk _. apply HQ. eapply wf_stack; [exact Hwf|exact Hk|].
    intros q [->|Hq]%elem_of_cons; [done|by apply (wf_in _ _ _ _ Hwf)].
Qed.

Lemma wf_push_tail s C F X p Q h : mm_wf s C F X -> p ∈ (C ++ X).*1 -> p ∉ F ->
  (forall s', mm_wf s' C (F ++ [p]) X -> Q tt s' h) -> wpm (WSBMLISTADDTAIL FL p HEAD) Q s h.
Proof.
  intros Hwf Hp Hni HQ. eapply (append_ring HEAD FL); [exact (wf_fl _ _ _ _ Hwf)|exact (wf_present_fl Hwf)| | |].
  - by apply (wf_live Hwf).
  - by eapply wf_new.
  - intros k Hk _. apply HQ. eapply wf_stack; [exact Hwf|exact Hk|].
    intros q [Hq|E%list_elem_of_singleton]%elem_of_app; [by apply (wf_in _ _ _ _ Hwf)|by subst q].
Qed.

Lemma wf_pop s C F1 p F2 X Q h : mm_wf s C (F1 ++ p :: F2) X ->
  (forall s', mm_wf s' C (F1 ++ F2) X -> Q tt s' h) ->
  wpm (WSBMLISTDEL FL p) Q s h /\ wpm (WSBMLISTDELINIT FL p) Q s h.
Proof.
  intros Hwf HQ. pose proof (wf_in _ _ _ _ Hwf) as Hin.
  assert (Hk : forall k, ring k (F1 ++ F2) -> Q tt (set_links FL k s) h).
  { intros k Hk. apply HQ. eapply wf_stack; [exact Hwf|exact Hk|]. intros q Hq. apply Hin. set_solver. }
  split; [eapply (remove_ring HEAD FL)|eapply (remove_init_ring HEAD FL)];
    solve [exact (wf_fl _ _ _ _ Hwf)|exact (wf_present_fl Hwf)|intros; by apply Hk].
Qed.

(** The links of a block that is on no list of free blocks. *)
Lemma wf_init_fl s C F X p Q h : mm_wf s C F X -> p ∈ (C ++ X).*1 -> p ∉ F ->
  (forall s', mm_wf s' C F X -> Q tt s' h) -> wpm (WSBMINITLISTHEAD FL p) Q s h.
Proof.
  intros Hwf Hp Hni HQ. apply init_head_wp; [by apply (wf_live Hwf)|]. apply HQ.
  eapply wf_stack; [exact Hwf| |exact (wf_in _ _ _ _ Hwf)]. eapply ring_frame; [exact (wf_fl _ _ _ _ Hwf)|].
  pose proof (wf_new _ _ _ _ _ Hwf Hp Hni). intros q Hq. cbn. by rewrite !lookup_insert_ne by set_solver.
Qed.

Lemma wf_free s C F c m X Q h : mm_wf s C F ((c, m) :: X) -> c ∉ F ->
  (forall s', mm_wf s' C F X -> Q tt s' (M_free c :: h)) -> wpm (free c) Q s h.
Proof.
  intros Hwf Hni HQ. destruct Hwf as [Hml Hfl Hn Hk Hi]. unfold free, wp.
  assert (Hc : is_Some (nodes s !! c)) by (exists m; apply Hn; set_solver).
  rewrite bool_decide_eq_true_2 by done. apply HQ.
  rewrite <- Permutation_middle in Hk. cbn in Hk. rewrite Permutation_swap in Hk.
  apply list.NoDup_cons in Hk as [Hck Hk].
  assert (Hring : forall k l, ring k l -> c ∉ HEAD :: l -> ring (forget c k) l).
  { intros k l Hr Hcl. eapply ring_frame; [exact Hr|]. intros q Hq. cbn.
    by rewrite !lookup_delete_ne by set_solver. }
  split; cbn [ml_entry fl_entry nodes]; [apply Hring; [done|]|apply Hring; [done|set_solver]| |done|].
  - rewrite fmap_app in Hck. set_solver.
  - intros p n. rewrite lookup_delete_Some, Hn, !elem_of_app, elem_of_cons. split.
    + intros [Hne [?|[[= -> _]|?]]]; [tauto|done|tauto].
    + intros Hin. split; [|tauto]. intros ->. apply Hck. right. apply elem_of_keys. exists n. by rewrite elem_of_app.
  - intros p Hp. specialize (Hi p Hp). rewrite <- Permutation_middle in Hi. cbn in Hi.
    apply elem_of_cons in Hi as [->|Hi]; done.
Qed.

(** The neighbours of a block. *)
Definition before (C : list cell) : Z := match list.last C with Some (p, _) => p | None => HEAD end.
Definition after (C : list cell) : Z := match hd_error C with Some (p, _) => p | None => HEAD end.

Lemma cut_cells C1 C2 : cut HEAD C1.*1 C2.*1 (before C1) (after C2).
Proof.
  split.
  - unfold before. destruct C1 as [|[c m] C1 _] using rev_ind; [by exists []|]. rewrite last_snoc, fmap_app. cbn.
    by exists (HEAD :: C1.*1).
  - destruct C2 as [|[c m] C2]; by eexists.
Qed.

Lemma wf_neighbours s C1 p n C2 F X : mm_wf s (C1 ++ (p, n) :: C2) F X ->
  prevs (ml_entry s) !! p = Some (before C1) /\ nexts (ml_entry s) !! p = Some (after C2).
Proof.
  intros Hwf. pose proof (wf_ml _ _ _ _ Hwf) as Hr. rewrite fmap_app in Hr. cbn in Hr.
  destruct (ring_at _ _ _ _ _ _ _ (cut_cells C1 C2) Hr) as (? & ? & _). done.
Qed.

Lemma wf_get_prev s C1 p n C2 F X Q h : mm_wf s (C1 ++ (p, n) :: C2) F X -> Q (before C1) s h -> wpm (get_prev ML p) Q s h.
Proof. intros Hwf. apply get_prev_wp. by eapply wf_neighbours. Qed.

Lemma wf_get_next s C1 p n C2 F X Q h : mm_wf s (C1 ++ (p, n) :: C2) F X -> Q (after C2) s h -> wpm (get_next ML p) Q s h.
Proof. intros Hwf. apply get_next_wp. by eapply wf_neighbours. Qed.

(** ** Giving a block back *)

Definition frees (C : list cell) : list Z := omap (fun '(p, n) => if node_free n then Some p else None) C.

Lemma frees_app C1 C2 : frees (C1 ++ C2) = frees C1 ++ frees C2.
Proof. apply omap_app. Qed.

Lemma frees_cons p n C : frees ((p, n) :: C) = if node_free n then p :: frees C else frees C.
Proof. unfold frees. cbn. by destruct (node_free n). Qed.

Lemma elem_of_frees p C : p ∈ frees C <-> exists n, (p, n) ∈ C /\ node_free n = true.
Proof.
  unfold frees. rewrite list_elem_of_omap. split.
  - intros ([q n] & Hi & E). destruct (node_free n) eqn:En; [|done]. injection E as ->. by exists n.
  - intros (n & Hi & En). exists (p, n). by rewrite En.
Qed.

(** The state of a manager between its operations. *)
Definition mm_ok (s : wsbm_mm) (C : list cell) (F : list Z) : Prop := mm_wf s C F [] /\ F ≡ₚ frees C.

Definition ends_free (C : list cell) : bool := match list.last C with Some (_, m) => node_free m | None => false end.
Definition starts_free (C : list cell) : bool := match hd_error C with Some (_, m) => node_free m | None => false end.

Definition grow (m : mm_node) (z : Z) : mm_node :=
  {| node_free := node_free m; node_start := node_start m; node_size := ulong (node_size m + z) |}.

(** The blocks once [p] is given back, between [C1] and [C2]. *)
Inductive put_cells (p : Z) (n : mm_node) : list cell -> list cell -> list cell -> Prop :=
| Put_alone C1 C2 : ends_free C1 = false -> starts_free C2 = false ->
    put_cells p n C1 C2 (C1 ++ (p, {| node_free := true; node_start := node_start n; node_size := node_size n |}) :: C2)
| Put_prev C1 q m C2 : node_free m = true -> starts_free C2 = false ->
    put_cells p n (C1 ++ [(q, m)]) C2 (C1 ++ (q, grow m (node_size n)) :: C2)
| Put_next C1 q m C2 : ends_free C1 = false -> node_free m = true ->
    put_cells p n C1 ((q, m) :: C2)
      (C1 ++ (q, {| node_free := true; node_start := node_start n; node_size := ulong (node_size m + node_size n) |}) :: C2)
| Put_both C1 q m r k C2 : node_free m = true -> node_free k = true ->
    put_cells p n (C1 ++ [(q, m)]) ((r, k) :: C2)
      (C1 ++ (q, grow (grow m (node_size n)) (node_size k)) :: C2).

Lemma ends_free_spec C : if ends_free C then exists C' q m, C = C' ++ [(q, m)] /\ node_free m = true
  else C = [] \/ exists C' q m, C = C' ++ [(q, m)] /\ node_free m = false.
Proof.
  unfold ends_free. destruct C as [|[q m] C _] using rev_ind; [by left|]. rewrite last_snoc.
  destruct (node_free m) eqn:E; [|right]; by exists C, q, m.
Qed.

Lemma starts_free_spec C : if starts_free C then exists q m C', C = (q, m) :: C' /\ node_free m = true
  else C = [] \/ exists q m C', C = (q, m) :: C' /\ node_free m = false.
Proof.
  unfold starts_free. destruct C as [|[q m] C]; [by left|]. cbn.
  destruct (node_free m) eqn:E; [|right]; by exists q, m, C.
Qed.

Lemma wf_not_head s C F X p n : mm_wf s C F X -> (p, n) ∈ C -> (p =? HEAD) = false.
Proof.
  intros Hwf Hi. apply Z.eqb_neq. intros ->. pose proof (wf_keys _ _ _ _ Hwf) as Hk.
  apply list.NoDup_cons in Hk as [Hk _]. apply Hk, elem_of_keys. exists n. rewrite elem_of_app. by left.
Qed.

(** A block given back while its neighbours may absorb it leaves [ML] and is freed. *)
Lemma wf_drop s C1 p n C2 F Q h : mm_wf s (C1 ++ (p, n) :: C2) F [] -> p ∉ F ->
  (forall s' , mm_wf s' (C1 ++ C2) F [] -> Q tt s' (M_free p :: h)) ->
  wpm (WSBMLISTDEL ML p ;; free p) Q s h.
Proof.
  intros Hwf Hni HQ. apply wp_bind. eapply wf_remove; [exact Hwf|]. intros s1 H1.
  eapply wf_free; [exact H1|done|exact HQ].
Qed.

Lemma ok_frees_split s C1 p n C2 F : mm_ok s (C1 ++ (p, n) :: C2) F -> node_free n = true ->
  exists F1 F2, F = F1 ++ p :: F2 /\ F1 ++ F2 ≡ₚ frees C1 ++ frees C2.
Proof.
  intros [_ HF] Hn. rewrite frees_app, frees_cons, Hn in HF.
  assert (Hp : p ∈ F) by (rewrite HF; set_solver). apply list_elem_of_split in Hp as (F1 & F2 & ->).
  exists F1, F2. split; [done|]. rewrite <- !Permutation_middle in HF. by apply (Permutation_cons_inv (a := p)) in HF.
Qed.

Lemma ok_not_free s C1 p n C2 F : mm_ok s (C1 ++ (p, n) :: C2) F -> node_free n = false -> p ∉ F.
Proof.
  intros [Hwf HF] Hn Hp. rewrite HF in Hp. rewrite frees_app, frees_cons, Hn in Hp.
  pose proof (wf_keys _ _ _ _ Hwf) as Hk. apply list.NoDup_cons in Hk as [_ Hk].
  rewrite app_nil_r, fmap_app in Hk. cbn in Hk. rewrite <- Permutation_middle, <- fmap_app in Hk.
  apply list.NoDup_cons in Hk as [Hk _]. apply Hk, elem_of_keys. rewrite <- frees_app in Hp.
  apply elem_of_frees in Hp as (m & Hm & _). by exists m.
Qed.

Lemma put_prev_wp s C1 p n C2 F h : mm_wf s (C1 ++ (p, n) :: C2) F [] ->
  wpm (put_prev p (before C1)) (fun merged s' _ =>
    match merged with
    | None => ends_free C1 = false /\ s' = s
    | Some q => exists C1' m, C1 = C1' ++ [(q, m)] /\ node_free m = true /\
        mm_wf s' (C1' ++ (q, grow m (node_size n)) :: (p, n) :: C2) F []
    end) s h.
Proof.
  intros Hwf. unfold put_prev. pose proof (ends_free_spec C1) as He. destruct (ends_free C1) eqn:E1.
  - destruct He as (C1' & q & m & -> & Hm). rewrite <- app_assoc in Hwf. cbn [app] in Hwf.
    unfold before. rewrite last_snoc, (wf_not_head _ _ _ _ q m Hwf) by set_solver.
    apply wp_bind. eapply (wf_get_node Hwf q m); [set_solver|]. rewrite Hm. apply wp_bind.
    eapply (wf_get_node Hwf p n); [set_solver|]. apply wp_bind. eapply wf_set_cell; [exact Hwf|].
    intros s1 H1. apply wp_ret. exists C1', m. split; [done|]. split; [done|]. unfold grow. by rewrite Hm.
  - destruct He as [->|(C1' & q & m & -> & Hm)]; [by apply wp_ret|].
    unfold before. rewrite last_snoc. rewrite <- app_assoc in Hwf. cbn [app] in Hwf.
    rewrite (wf_not_head _ _ _ _ q m Hwf) by set_solver.
    apply wp_bind. eapply (wf_get_node Hwf q m); [set_solver|]. rewrite Hm. by apply wp_ret.
Qed.

(** The next block absorbed, when the previous one was. *)
Lemma put_next_both s C1 q m p n r k C2 F h : mm_wf s (C1 ++ (q, m) :: (p, n) :: (r, k) :: C2) F [] -> r ∈ F ->
  node_free k = true ->
  wpm (put_next p r (Some q)) (fun merged s' _ => merged = true /\ exists F1 F2, F = F1 ++ r :: F2 /\
    mm_wf s' (C1 ++ (q, grow m (node_size k)) :: (p, n) :: C2) (F1 ++ F2) []) s h.
Proof.
  intros Hwf Hr Hk. pose proof (ring_nodup _ _ _ (wf_fl _ _ _ _ Hwf)) as Hnd. unfold put_next.
  rewrite (wf_not_head _ _ _ _ r k Hwf) by set_solver.
  apply wp_bind. eapply (wf_get_node Hwf r k); [set_solver|]. rewrite Hk.
  apply wp_bind. eapply (wf_get_node Hwf q m); [set_solver|]. apply wp_bind.
  eapply wf_set_cell; [exact Hwf|]. intros s2 H2. fold (grow m (node_size k)) in H2.
  change (C1 ++ (q, ?m') :: (p, n) :: (r, k) :: C2) with (C1 ++ [(q, m'); (p, n)] ++ (r, k) :: C2) in H2.
  rewrite app_assoc in H2. apply wp_bind. eapply wf_remove; [exact H2|]. intros s3 H3.
  rewrite <- app_assoc in H3. cbn [app] in H3. apply list_elem_of_split in Hr as (F1 & F2 & ->).
  rewrite app_comm_cons, <- Permutation_middle in Hnd. apply list.NoDup_cons in Hnd as [Hni _].
  apply wp_bind. eapply wf_pop; [exact H3|]. intros s4 H4.
  apply wp_bind. eapply wf_free; [exact H4|set_solver|]. intros s5 H5. apply wp_ret. split; [done|].
  by exists F1, F2.
Qed.

Lemma put_next_free s C1 p n r k C2 F h : mm_wf s (C1 ++ (p, n) :: (r, k) :: C2) F [] -> node_free k = true ->
  wpm (put_next p r None) (fun merged s' _ => merged = true /\
    mm_wf s' (C1 ++ (p, n) :: (r, {| node_free := true; node_start := node_start n;
      node_size := ulong (node_size k + node_size n) |}) :: C2) F []) s h.
Proof.
  intros Hwf Hk. unfold put_next. rewrite (wf_not_head _ _ _ _ r k Hwf) by set_solver.
  apply wp_bind. eapply (wf_get_node Hwf r k); [set_solver|]. rewrite Hk.
  apply wp_bind. eapply (wf_get_node Hwf p n); [set_solver|]. apply wp_bind.
  rewrite cons_middle, app_assoc in Hwf. eapply wf_set_cell; [exact Hwf|]. intros s2 H2. apply wp_ret. split; [done|].
  by rewrite <- app_assoc in H2.
Qed.

Lemma put_next_not s C1 p n C2 F merged h : mm_wf s (C1 ++ (p, n) :: C2) F [] -> starts_free C2 = false ->
  wpm (put_next p (after C2) merged) (fun b s' _ => b = bool_decide (is_Some merged) /\ s' = s) s h.
Proof.
  intros Hwf E2. unfold put_next. pose proof (starts_free_spec C2) as Hs. rewrite E2 in Hs.
  destruct Hs as [->|(r & k & C2' & -> & Hk)]; [by apply wp_ret|]. cbn [after hd_error].
  rewrite (wf_not_head _ _ _ _ r k Hwf) by set_solver.
  apply wp_bind. eapply (wf_get_node Hwf r k); [set_solver|]. rewrite Hk. by apply wp_ret.
Qed.

Lemma put_last_alone s C1 p n C2 F h : mm_wf s (C1 ++ (p, n) :: C2) F [] -> p ∉ F ->
  wpm (put_last p false) (fun _ s' _ =>
    mm_wf s' (C1 ++ (p, {| node_free := true; node_start := node_start n; node_size := node_size n |}) :: C2) (p :: F) []) s h.
Proof.
  intros Hwf Hni. cbn [put_last negb]. apply wp_bind. eapply (wf_get_node Hwf p n); [set_solver|].
  apply wp_bind. eapply wf_set_cell; [exact Hwf|]. intros s1 H1.
  eapply wf_push; [exact H1| |done|done]. rewrite app_nil_r, fmap_app. set_solver.
Qed.

Lemma put_wp s C1 p n C2 F h : mm_ok s (C1 ++ (p, n) :: C2) F -> node_free n = false ->
  wpm (wsbmMMPutBlock p) (fun _ s' _ => exists C' F', put_cells p n C1 C2 C' /\ mm_ok s' C' F') s h.
Proof.
  intros Hok Hn. pose proof Hok as [Hwf HF]. pose proof (ok_not_free _ _ _ _ _ _ Hok Hn) as Hni.
  rewrite frees_app, frees_cons, Hn in HF. pose proof (starts_free_spec C2) as Hs.
  unfold wsbmMMPutBlock. apply wp_bind. eapply wf_get_prev; [exact Hwf|]. apply wp_bind.
  eapply wp_mono; [by apply put_prev_wp|]. cbv beta. intros [q|] s1 h1.
  - intros (C1' & m & -> & Hm & H1). rewrite cons_middle, app_assoc in H1. rewrite frees_app, frees_cons, Hm in HF.
    apply wp_bind. eapply wf_get_next; [exact H1|]. apply wp_bind. destruct (starts_free C2) eqn:E2.
    + destruct Hs as (r & k & C2' & -> & Hk). rewrite frees_cons, Hk in HF. rewrite <- app_assoc in H1. cbn [app] in H1.
      eapply wp_mono; [apply (put_next_both _ _ _ _ _ _ _ _ _ _ _ H1); [rewrite HF; set_solver|done]|]. cbv beta.
      intros ? s2 h2 (-> & F1 & F2 & -> & H2). rewrite <- !Permutation_middle in HF.
      apply (Permutation_cons_inv (a := r)) in HF.
      rewrite cons_middle, app_assoc in H2. eapply wf_drop; [exact H2|set_solver|]. intros s3 H3.
      rewrite <- app_assoc in H3. eexists _, _. split; [by apply Put_both|]. split; [exact H3|].
      rewrite HF, frees_app. cbn [app]. rewrite frees_cons. cbn [node_free grow]. rewrite Hm. by rewrite <- app_assoc, <- Permutation_middle.
    + eapply wp_mono; [by eapply put_next_not|]. cbv beta. intros ? s2 h2 [-> ->].
      eapply wf_drop; [exact H1|done|]. intros s3 H3. rewrite <- app_assoc in H3.
      eexists _, _. split; [by apply Put_prev|]. split; [exact H3|].
      rewrite HF, frees_app. cbn [app]. rewrite frees_cons. cbn [node_free grow]. rewrite Hm. by rewrite <- app_assoc.
  - intros [E1 ->]. apply wp_bind. eapply wf_get_next; [exact Hwf|]. apply wp_bind. destruct (starts_free C2) eqn:E2.
    + destruct Hs as (r & k & C2' & -> & Hk). rewrite frees_cons, Hk in HF.
      eapply wp_mono; [by apply put_next_free|]. cbv beta. intros ? s2 h2 [-> H2].
      eapply wf_drop; [exact H2|done|]. intros s3 H3.
      eexists _, _. split; [by apply Put_next|]. split; [exact H3|]. by rewrite HF, frees_app, frees_cons.
    + eapply wp_mono; [by eapply put_next_not|]. cbv beta. intros ? s2 h2 [-> ->].
      eapply wp_mono; [by eapply put_last_alone|]. cbv beta. intros _ s3 h3 H3.
      eexists _, _. split; [by apply Put_alone|]. split; [exact H3|].
      rewrite frees_app, frees_cons. cbn [node_free]. by rewrite HF, Permutation_middle.
Qed.

(** ** Taking a block *)

Lemma split_wp s C1 p n C2 F size h : mm_wf s (C1 ++ (p, n) :: C2) F [] ->
  wpm (wsbmMMSplitAtStart p size) (fun r s' _ =>
    match r with
    | None => s' = s /\ ~ memory
    | Some c => (c ∉ HEAD :: (C1 ++ (p, n) :: C2).*1) /\
        mm_wf s' (C1 ++ (c, {| node_free := false; node_start := node_start n; node_size := size |})
          :: (p, {| node_free := node_free n; node_start := ulong (node_start n + size);
                    node_size := ulong (node_size n - size) |}) :: C2) F []
    end) s h.
Proof.
  intros Hwf. unfold wsbmMMSplitAtStart. apply wp_bind. apply (wf_malloc Hwf).
  { intros E. apply wp_ret. split; [done|]. intros Hm. by apply (Hm h (dom (nodes s))). }
  rewrite app_nil_r. intros c m s1 Hc H1.
  assert (HcF : c ∉ F).
  { intros Hi. apply (wf_in _ _ _ _ Hwf) in Hi. rewrite app_nil_r in Hi. apply Hc. by right. }
  assert (Hin : forall X, c ∈ (X ++ [(c, m)]).*1) by (intros X; rewrite fmap_app; set_solver).
  apply wp_bind. eapply wf_init_fl; [exact H1|done|done|]. clear H1. intros s2 H2.
  apply wp_bind. eapply (wf_get_node H2 p n); [set_solver|]. apply wp_bind.
  eapply wf_set_extra; [exact H2|]. clear H2. intros s3 H3.
  apply wp_bind. eapply wf_insert; [exact H3|]. clear H3. intros s4 H4.
  apply wp_bind. eapply wf_init_fl; [exact H4|rewrite app_nil_r, fmap_app; set_solver|done|]. clear H4. intros s5 H5.
  apply wp_bind. eapply (wf_get_node H5 p n); [set_solver|]. apply wp_bind.
  rewrite cons_middle, app_assoc in H5. eapply wf_set_cell; [exact H5|]. clear H5. intros s6 H6. apply wp_ret.
  split; [done|]. by rewrite <- app_assoc in H6.
Qed.

(** What is left out before a block for its alignment. *)
Definition pad (start alignment : Z) : Z :=
  if misalignment start alignment =? 0 then 0 else alignment - misalignment start alignment.

(** The blocks once [size] is taken from the free block [p] between [C1] and [C2]. *)
Inductive get_cells (p : Z) (n : mm_node) (size alignment : Z) (C1 C2 : list cell) : option Z -> list cell -> Prop :=
| Get_null : get_cells p n size alignment C1 C2 None (C1 ++ (p, n) :: C2)
| Get_all : pad (node_start n) alignment = 0 -> node_size n = size ->
    get_cells p n size alignment C1 C2 (Some p)
      (C1 ++ (p, {| node_free := false; node_start := node_start n; node_size := size |}) :: C2)
| Get_part c : pad (node_start n) alignment = 0 -> node_size n <> size ->
    get_cells p n size alignment C1 C2 (Some c)
      (C1 ++ (c, {| node_free := false; node_start := node_start n; node_size := size |})
          :: (p, {| node_free := true; node_start := node_start n + size; node_size := node_size n - size |}) :: C2)
| Get_end a z : z = pad (node_start n) alignment -> z <> 0 -> node_size n = z + size ->
    get_cells p n size alignment C1 C2 (Some p)
      (C1 ++ (a, {| node_free := false; node_start := node_start n; node_size := z |})
          :: (p, {| node_free := false; node_start := node_start n + z; node_size := size |}) :: C2)
| Get_middle a c z : z = pad (node_start n) alignment -> z <> 0 -> node_size n <> z + size ->
    get_cells p n size alignment C1 C2 (Some c)
      (C1 ++ (a, {| node_free := true; node_start := node_start n; node_size := z |})
          :: (c, {| node_free := false; node_start := node_start n + z; node_size := size |})
          :: (p, {| node_free := true; node_start := node_start n + (z + size);
                    node_size := node_size n - (z + size) |}) :: C2).

(** [size] bytes fit in [n] after its alignment. *)
Definition fits (n : mm_node) (size alignment : Z) : Prop :=
  0 <= size /\ 0 <= pad (node_start n) alignment /\ pad (node_start n) alignment + size <= node_size n /\
  0 <= node_start n /\ node_start n + node_size n < 2 ^ 32.

Lemma ulong_id z : 0 <= z < 2 ^ 32 -> ulong z = z.
Proof. apply Z.mod_small. Qed.

Lemma split_ok s C1 p n C2 F size h : mm_ok s (C1 ++ (p, n) :: C2) F ->
  0 <= size <= node_size n -> 0 <= node_start n -> node_start n + node_size n < 2 ^ 32 ->
  wpm (wsbmMMSplitAtStart p size) (fun r s' _ =>
    match r with
    | None => s' = s /\ ~ memory
    | Some c => mm_ok s' (C1 ++ (c, {| node_free := false; node_start := node_start n; node_size := size |})
          :: (p, {| node_free := node_free n; node_start := node_start n + size;
                    node_size := node_size n - size |}) :: C2) F
    end) s h.
Proof.
  intros [Hwf HF] Hsz Hst Hend. eapply wp_mono; [by apply split_wp|]. cbv beta. intros [c|] s1 h1; [|done].
  rewrite !ulong_id by lia. intros [_ H1]. split; [done|].
  rewrite HF, !frees_app, !frees_cons. by cbn [node_free].
Qed.

Lemma get_aligned_exact s C1 p n C2 F a h : mm_ok s (C1 ++ (p, n) :: C2) F -> node_free n = true ->
  wpm (get_aligned p (node_size n) a) (fun r s' _ => r = Some p /\
    exists F', mm_ok s' (C1 ++ (p, {| node_free := false; node_start := node_start n; node_size := node_size n |}) :: C2) F') s h.
Proof.
  intros Hok Hn. destruct (ok_frees_split _ _ _ _ _ _ Hok Hn) as (F1 & F2 & -> & HF). destruct Hok as [Hwf _].
  unfold get_aligned. apply wp_bind. eapply (wf_get_node Hwf p n); [set_solver|]. rewrite Z.eqb_refl.
  apply wp_bind. eapply wf_pop; [exact Hwf|]. intros s1 H1. apply wp_bind.
  eapply wf_set_cell; [exact H1|]. intros s2 H2. apply wp_ret. split; [done|].
  exists (F1 ++ F2). split; [done|]. by rewrite HF, frees_app, frees_cons.
Qed.

Lemma get_aligned_part s C1 p n C2 F size alignment h : mm_ok s (C1 ++ (p, n) :: C2) F -> node_free n = true ->
  0 <= size <= node_size n -> 0 <= node_start n -> node_start n + node_size n < 2 ^ 32 ->
  pad (node_start n) alignment = 0 ->
  wpm (get_aligned p size None) (fun r s' _ => (r = None -> ~ memory) /\
    exists C' F', get_cells p n size alignment C1 C2 r C' /\ mm_ok s' C' F') s h.
Proof.
  intros Hok Hn Hsz Hst Hend Hp. destruct (decide (node_size n = size)) as [<-|Hne].
  { eapply wp_mono; [by eapply get_aligned_exact|]. cbv beta. intros r s1 h1 (-> & F' & H1). split; [done|].
    eexists _, F'. split; [by apply Get_all|done]. }
  unfold get_aligned. pose proof Hok as [Hwf _]. apply wp_bind. eapply (wf_get_node Hwf p n); [set_solver|].
  rewrite (proj2 (Z.eqb_neq _ _)) by done. apply wp_bind. eapply wp_mono; [by eapply split_ok|]. cbv beta.
  intros [c|] s1 h1.
  - intros H1. apply wp_bind, wp_ret, wp_ret. split; [done|]. rewrite Hn in H1. eexists _, F.
    split; [by apply Get_part|done].
  - intros [-> Hm]. apply wp_bind, wp_ret, wp_ret. split; [done|]. eexists _, F. split; [by apply Get_null|done].
Qed.

Lemma last_cell_free C1 a z : ends_free (C1 ++ [(a, z)]) = node_free z.
Proof. unfold ends_free. by rewrite last_snoc. Qed.

(** The alignment is given back, or undone. *)
Lemma get_aligned_padded s C1 a m p n C2 F size h :
  let k := {| node_free := true; node_start := node_start m + node_size m; node_size := node_size n - node_size m |} in
  mm_ok s (C1 ++ (a, m) :: (p, k) :: C2) F -> node_free n = true -> node_free m = false -> node_start m = node_start n ->
  0 < node_size m -> 0 <= size -> node_size m + size <= node_size n -> 0 <= node_start n ->
  node_start n + node_size n < 2 ^ 32 -> ends_free C1 = false ->
  forall alignment, node_size m = pad (node_start n) alignment ->
  wpm (get_aligned p size (Some a)) (fun r s' _ => (r = None -> ~ memory) /\
    exists C' F', get_cells p n size alignment C1 C2 r C' /\ mm_ok s' C' F') s h.
Proof.
  intros k Hok Hn Hm Hstart Hpos Hsz Hfit Hst Hend HC alignment Hal.
  assert (Hm' : m = {| node_free := false; node_start := node_start n; node_size := node_size m |})
    by (destruct m; cbn in *; congruence).
  rewrite cons_middle, app_assoc in Hok.
  destruct (decide (node_size k = size)) as [<-|Hne].
  { eapply wp_mono; [by eapply get_aligned_exact|]. cbv beta. intros r s1 h1 (-> & F' & H1). split; [done|].
    rewrite <- app_assoc in H1. cbn [app k node_start node_size] in H1. eexists _, F'.
    split; [|exact H1].
    pose proof (Get_end p n (node_size k) alignment C1 C2 a (node_size m) Hal ltac:(lia) ltac:(cbn; lia)) as Hend'.
    rewrite <- Hm', <- Hstart in Hend'. exact Hend'. }
  unfold get_aligned. pose proof Hok as [Hwf _]. apply wp_bind. eapply (wf_get_node Hwf p k); [set_solver|].
  rewrite (proj2 (Z.eqb_neq _ _)) by done. apply wp_bind.
  eapply wp_mono; [eapply split_ok; [exact Hok|cbn; lia..]|]. cbv beta.
  intros [c|] s1 h1.
  - intros H1. rewrite <- app_assoc in H1. cbn [app k node_start node_size node_free] in H1.
    apply wp_bind. eapply wp_mono; [by eapply put_wp|]. cbv beta. intros _ s2 h2 (C' & F' & Hput & H2).
    apply wp_ret. split; [done|]. eexists _, F'. split; [|exact H2].
    inversion Hput; subst; [|by rewrite last_cell_free in HC; congruence|discriminate|discriminate].
    rewrite Hstart. replace (node_start n + node_size m + size) with (node_start n + (node_size m + size)) by lia.
    replace (node_size n - node_size m - size) with (node_size n - (node_size m + size)) by lia.
    apply Get_middle; [done|lia|]. cbn in Hne. lia.
  - intros [-> Hmem]. rewrite <- app_assoc in Hok. cbn [app] in Hok.
    apply wp_bind. eapply wp_mono; [by eapply put_wp|]. cbv beta. intros _ s2 h2 (C' & F' & Hput & H2).
    apply wp_ret. split; [done|]. eexists _, F'. split; [|exact H2].
    inversion Hput; subst; [discriminate|discriminate| |by rewrite last_cell_free in HC; congruence].
    cbn [k node_size node_start]. rewrite Hstart. rewrite ulong_id by (cbn; lia).
    replace (node_size n - node_size m + node_size m) with (node_size n) by lia.
    replace {| node_free := true; node_start := node_start n; node_size := node_size n |} with n
      by (destruct n; cbn in *; congruence).
    apply Get_null.
Qed.

Lemma get_wp s C1 p n C2 F size alignment h : mm_ok s (C1 ++ (p, n) :: C2) F -> node_free n = true ->
  ends_free C1 = false -> fits n size alignment ->
  wpm (wsbmMMGetBlock p size alignment) (fun r s' _ => (r = None -> ~ memory) /\
    exists C' F', get_cells p n size alignment C1 C2 r C' /\ mm_ok s' C' F') s h.
Proof.
  intros Hok Hn HC (Hsz & Hpad & Hfit & Hst & Hend). pose proof Hok as [Hwf _]. unfold wsbmMMGetBlock.
  apply wp_bind. eapply (wf_get_node Hwf p n); [set_solver|]. cbv zeta.
  destruct (misalignment (node_start n) alignment =? 0) eqn:E.
  { eapply get_aligned_part; [done|done|unfold pad in Hfit; rewrite E in Hfit; lia|lia|lia|]. unfold pad. by rewrite E. }
  assert (Hz : pad (node_start n) alignment = alignment - misalignment (node_start n) alignment) by (unfold pad; by rewrite E).
  apply wp_bind. rewrite <- Hz. eapply wp_mono; [eapply split_ok; [exact Hok|lia..]|]. cbv beta.
  assert (Hpos : 0 < pad (node_start n) alignment).
  { unfold misalignment in E, Hz. destruct (alignment =? 0) eqn:Ea; [done|]. apply Z.eqb_neq in Ea, E.
    destruct (Z.lt_trichotomy alignment 0) as [Hneg|[?|Hp]]; [|done|].
    - pose proof (Z.mod_neg_bound (node_start n) alignment Hneg). lia.
    - pose proof (Z.mod_pos_bound (node_start n) alignment Hp). lia. }
  intros [a|] s1 h1.
  - intros H1. rewrite Hn in H1. by eapply (get_aligned_padded _ _ _ {| node_free := false; node_start := node_start n; node_size := pad (node_start n) alignment |}).
  - intros [-> Hmem]. apply wp_ret. split; [done|]. eexists _, F. split; [apply Get_null|done].
Qed.

(** ** Looking for a block *)

Lemma wf_fl_next s C F1 p F2 X : mm_wf s C (F1 ++ p :: F2) X -> nexts (fl_entry s) !! p = Some (first_of F2).
Proof. intros Hwf. eapply ring_next, (wf_fl _ _ _ _ Hwf). Qed.

Lemma wf_fl_first s C F X : mm_wf s C F X -> nexts (fl_entry s) !! HEAD = Some (first_of F).
Proof. intros Hwf. eapply ring_first, (wf_fl _ _ _ _ Hwf). Qed.

Lemma wf_fuel s C F : mm_wf s C F [] -> (length F <= base.size (nodes s))%nat.
Proof.
  intros Hwf. rewrite <- size_dom. pose proof (ring_nodup _ _ _ (wf_fl _ _ _ _ Hwf)) as Hnd.
  apply list.NoDup_cons in Hnd as [_ Hnd]. rewrite <- (size_list_to_set (C := gset Z)) by done.
  apply subseteq_size. intros p Hp. rewrite elem_of_list_to_set in Hp.
  apply (wf_in _ _ _ _ Hwf) in Hp. rewrite app_nil_r in Hp. apply elem_of_keys in Hp as [n Hn].
  apply elem_of_dom. exists n. apply (wf_nodes _ _ _ _ Hwf). by rewrite app_nil_r.
Qed.

Section search.
Context (C : list cell) (size alignment : Z).

Definition suits (p : Z) : Prop :=
  exists n, (p, n) ∈ C /\ node_free n = true /\ pad (node_start n) alignment + size <= node_size n.

Lemma pad_bounds x : 0 <= alignment -> 0 <= pad x alignment <= alignment.
Proof.
  intros Ha. unfold pad, misalignment. destruct (Z.eqb_spec alignment 0) as [->|]; [done|].
  pose proof (Z.mod_pos_bound x alignment). case_match; lia.
Qed.

Lemma search_loop_wp s F1 F2 fuel best_match best best_size h :
  mm_ok s C (F1 ++ F2) -> (length F2 <= fuel)%nat -> 0 <= size -> 0 <= alignment -> size + alignment < 2 ^ 32 - 1 ->
  match best with Some p => suits p | None => best_size = 2 ^ 32 - 1 /\ forall p, p ∈ F1 -> ~ suits p end ->
  wpm (search_loop fuel (first_of F2) size alignment best_match best best_size) (fun r s' h' => s' = s /\ h' = h /\
    match r with Some p => suits p | None => forall p, p ∈ F1 ++ F2 -> ~ suits p end) s h.
Proof.
  intros Hok Hfuel Hsz Hal Hmax. pose proof Hok as [Hwf HF]. revert fuel F1 best best_size Hok Hwf HF Hfuel.
  induction F2 as [|p F2 IH]; intros fuel F1 best best_size Hok Hwf HF Hfuel Hbest.
  { assert (E : forall f, search_loop f HEAD size alignment best_match best best_size = mret best) by (by intros []).
    cbn [Rings.first_of]. rewrite E. apply wp_ret. split_and!; [done..|]. rewrite app_nil_r. destruct best; [done|]. apply Hbest. }
  assert (Hp : exists n, (p, n) ∈ C /\ node_free n = true).
  { apply elem_of_frees. rewrite <- HF. set_solver. }
  destruct Hp as (n & Hp & Hn). assert (Hp' : (p, n) ∈ C ++ []) by (by rewrite app_nil_r).
  destruct fuel as [|fuel]; cbn [length] in Hfuel; [lia|]. cbn [search_loop Rings.first_of].
  rewrite (wf_not_head _ _ _ _ p n Hwf) by done. apply wp_bind. eapply (wf_get_node Hwf p n); [done|]. cbv zeta.
  assert (Hnext : forall best best_size,
    match best with Some q => suits q | None => best_size = 2 ^ 32 - 1 /\ forall q, q ∈ F1 ++ [p] -> ~ suits q end ->
    wpm (entry ← get_next FL p; search_loop fuel entry size alignment best_match best best_size)
      (fun r s' h' => s' = s /\ h' = h /\
        match r with Some p => suits p | None => forall q, q ∈ F1 ++ p :: F2 -> ~ suits q end) s h).
  { intros b bs Hb. apply wp_bind. eapply (get_next_wp FL); [exact (wf_fl_next _ _ _ _ _ _ Hwf)|].
    rewrite cons_middle, app_assoc in Hok, Hwf, HF |- *. apply IH; [done..|lia|done]. }
  assert (Hnot : ~ suits p -> match best with Some q => suits q
    | None => best_size = 2 ^ 32 - 1 /\ forall q, q ∈ F1 ++ [p] -> ~ suits q end).
  { intros Hns. destruct best; [done|]. destruct Hbest as [-> Hb]. split; [done|].
    intros q [Hq|E%list_elem_of_singleton]%elem_of_app; [by apply Hb|by subst q]. }
  assert (Hsuits : suits p <-> pad (node_start n) alignment + size <= node_size n).
  { split; [|intros ?; by exists n]. intros (m & Hm & _ & Hfit).
    apply (wf_nodes _ _ _ _ Hwf) in Hp'. assert (Hm' : (p, m) ∈ C ++ []) by (by rewrite app_nil_r).
    apply (wf_nodes _ _ _ _ Hwf) in Hm'. congruence. }
  pose proof (pad_bounds (node_start n) Hal) as Hpad.
  destruct (Z.ltb_spec (node_size n) size); [apply Hnext, Hnot; rewrite Hsuits; lia|].
  fold (pad (node_start n) alignment). rewrite ulong_id by lia.
  destruct (Z.leb_spec (size + pad (node_start n) alignment) (node_size n)); [|apply Hnext, Hnot; rewrite Hsuits; lia].
  assert (Hs : suits p) by (apply Hsuits; lia). destruct best_match; cbn [negb]; [|by apply wp_ret].
  destruct (Z.ltb_spec size best_size); [by apply Hnext|]. apply Hnext. destruct best; [done|]. lia.
Qed.

Lemma search_wp s F best_match h : mm_ok s C F -> 0 <= size -> 0 <= alignment -> size + alignment < 2 ^ 32 - 1 ->
  wpm (wsbmMMSearchFree size alignment best_match) (fun r s' h' => s' = s /\ h' = h /\
    match r with Some p => suits p | None => forall p, ~ suits p end) s h.
Proof.
  intros Hok Hsz Hal Hmax. pose proof Hok as [Hwf HF]. unfold wsbmMMSearchFree. apply wp_bind, wp_get, wp_bind.
  eapply (get_next_wp FL); [exact (wf_fl_first _ _ _ _ Hwf)|].
  eapply wp_mono; [apply (search_loop_wp _ []); [done|by eapply wf_fuel|done..|]|].
  { split; [done|]. by intros p ?%not_elem_of_nil. }
  cbv beta. intros r s' h' (-> & -> & Hr). split_and!; [done..|]. destruct r; [done|]. cbn [app] in Hr.
  intros p Hs. apply (Hr p); [|done]. destruct Hs as (n & Hp & Hn & _). rewrite HF. apply elem_of_frees. by exists n.
Qed.

End search.

End proofs.
