(* ===== verification/WsbmMMSpec.v ===== *)
(** The memory manager of the buffer pools: its contract.

    The blocks, in the order of their list, cut the range without holes or overlaps, and
    two free blocks are never neighbours.  A client of the manager is run against the
    map of the blocks it holds. *)
From stdpp Require Import gmap.
From S2P Require Import Prelude Memory Rings WsbmMM WsbmMMInv.

(** * The blocks of a range *)

(** The blocks cut the range from [a] to [b]. *)
Fixpoint tiled (a b : Z) (C : list cell) : Prop :=
  match C with
  | [] => a = b
  | (_, n) :: C' => node_start n = a /\ 0 < node_size n /\ tiled (a + node_size n) b C'
  end.

Lemma tiled_app a b C1 C2 : tiled a b (C1 ++ C2) <-> exists m, tiled a m C1 /\ tiled m b C2.
Proof.
  revert a. induction C1 as [|[p n] C1 IH]; intros a; cbn [app tiled].
  - split; [by exists a|]. by intros (m & -> & ?).
  - rewrite IH. split; [intros (? & ? & m & ? & ?); by exists m|intros (m & (? & ? & ?) & ?)]. split_and!; [done..|].
    by exists m.
Qed.

Lemma tiled_le a b C : tiled a b C -> a <= b.
Proof. revert a. induction C as [|[p n] C IH]; intros a; cbn; [lia|]. intros (_ & ? & Hr%IH). lia. Qed.

Lemma tiled_at a b C1 p n C2 : tiled a b (C1 ++ (p, n) :: C2) <->
  tiled a (node_start n) C1 /\ 0 < node_size n /\ tiled (node_start n + node_size n) b C2.
Proof.
  rewrite tiled_app. cbn [tiled]. split.
  - intros (m & ? & <- & ? & ?). by split_and!.
  - intros (? & ? & ?). by exists (node_start n).
Qed.

(** No two free blocks are neighbours. *)
Fixpoint separated (C : list cell) : bool :=
  match C with
  | [] => true
  | (_, n) :: C' => negb (node_free n && starts_free C') && separated C'
  end.

Lemma separated_app C1 C2 :
  separated (C1 ++ C2) = separated C1 && negb (ends_free C1 && starts_free C2) && separated C2.
Proof.
  induction C1 as [|[p n] C1 IH]; [done|]. cbn [app separated]. rewrite IH.
  destruct C1 as [|[q m] C1].
  - unfold ends_free. cbn. by destruct (node_free n).
  - change (starts_free (((q, m) :: C1) ++ C2)) with (node_free m). change (starts_free ((q, m) :: C1)) with (node_free m).
    assert (E : ends_free ((p, n) :: (q, m) :: C1) = ends_free ((q, m) :: C1)) by done. rewrite E.
    by rewrite !andb_assoc.
Qed.

Lemma separated_at C1 p n C2 : separated (C1 ++ (p, n) :: C2) =
  separated C1 && negb (ends_free C1 && node_free n) && negb (node_free n && starts_free C2) && separated C2.
Proof. rewrite separated_app. cbn [separated]. change (starts_free ((p, n) :: C2)) with (node_free n). by rewrite !andb_assoc. Qed.

(** The blocks in use. *)
Definition used (C : list cell) : list (Z * (Z * Z)) :=
  omap (fun '(p, n) => if node_free n then None else Some (p, (node_start n, node_size n))) C.

Lemma used_app C1 C2 : used (C1 ++ C2) = used C1 ++ used C2.
Proof. apply omap_app. Qed.

Lemma used_cons p n C : used ((p, n) :: C) = if node_free n then used C else (p, (node_start n, node_size n)) :: used C.
Proof. unfold used. cbn. by destruct (node_free n). Qed.

Lemma elem_of_used p b C : (p, b) ∈ used C <-> exists n, (p, n) ∈ C /\ node_free n = false /\ b = (node_start n, node_size n).
Proof.
  unfold used. rewrite list_elem_of_omap. split.
  - intros ([q n] & Hi & E). destruct (node_free n) eqn:En; [done|]. injection E as -> <-. by exists n.
  - intros (n & Hi & En & ->). exists (p, n). by rewrite En.
Qed.

Record well_cut (lo hi : Z) (C : list cell) : Prop := {
  cut_tiled : tiled lo hi C;
  cut_separated : separated C = true;
  cut_lo : 0 <= lo;
  cut_hi : hi < 2 ^ 32 }.

Lemma well_cut_at lo hi C1 p n C2 : well_cut lo hi (C1 ++ (p, n) :: C2) ->
  lo <= node_start n /\ 0 < node_size n /\ node_start n + node_size n <= hi.
Proof.
  intros [Ht _ _ _]. apply tiled_at in Ht as (H1%tiled_le & ? & H2%tiled_le). lia.
Qed.

Lemma well_cut_free lo hi C1 p n C2 : well_cut lo hi (C1 ++ (p, n) :: C2) -> node_free n = true ->
  ends_free C1 = false /\ starts_free C2 = false.
Proof.
  intros [_ Hs _ _] Hn. rewrite separated_at, Hn, andb_true_r, andb_true_l in Hs.
  by destruct (separated C1), (ends_free C1), (starts_free C2).
Qed.

Lemma starts_cons p n C : starts_free ((p, n) :: C) = node_free n.
Proof. done. Qed.

Ltac solve_separated :=
  rewrite ?separated_at, ?starts_cons in *; cbn [separated node_free grow] in *; rewrite ?starts_cons in *;
  repeat match goal with
  | E : node_free ?x = _ |- _ => rewrite E in *; clear E
  | E : starts_free ?x = _ |- _ => rewrite E in *; clear E
  | E : ends_free ?x = _ |- _ => rewrite E in *; clear E
  end;
  repeat match goal with
  | |- context [separated ?x] => destruct (separated x)
  | |- context [starts_free ?x] => destruct (starts_free x)
  | |- context [ends_free ?x] => destruct (ends_free x)
  end; cbn in *; rewrite ?andb_false_r in *; done.

Lemma put_cut lo hi p n C1 C2 C' : well_cut lo hi (C1 ++ (p, n) :: C2) -> node_free n = false -> put_cells p n C1 C2 C' ->
  well_cut lo hi C' /\ used (C1 ++ (p, n) :: C2) ≡ₚ (p, (node_start n, node_size n)) :: used C'.
Proof.
  intros Hc Hn Hput. pose proof (well_cut_at _ _ _ _ _ _ Hc) as Hb. destruct Hc as [Ht Hs Hlo Hhi].
  destruct Hput as [C1 C2 E1 E2|C1 q m C2 Hm E2|C1 q m C2 E1 Hm|C1 q m r k C2 Hm Hk];
    rewrite <- ?app_assoc in Ht, Hs |- *; cbn [app] in Ht, Hs |- *; rewrite tiled_at in Ht; cbn [tiled] in Ht.
  - split; [split; [by rewrite tiled_at|solve_separated|done|done]|].
    rewrite !used_app, !used_cons, Hn. symmetry. apply Permutation_middle.
  - destruct Ht as (H1 & Hq & H2 & H3 & H4). pose proof (tiled_le _ _ _ H1). pose proof (tiled_le _ _ _ H4).
    split; [split; [|solve_separated|done|done]|].
    + rewrite tiled_at. cbn [grow node_start node_size]. rewrite ulong_id by lia. rewrite Z.add_assoc.
      split_and!; [done|lia|done].
    + rewrite !used_app, !used_cons. cbn [grow node_free]. rewrite Hm, Hn. symmetry. apply Permutation_middle.
  - destruct Ht as (H1 & Hq & H2 & H3 & H4). pose proof (tiled_le _ _ _ H1). pose proof (tiled_le _ _ _ H4).
    split; [split; [|solve_separated|done|done]|].
    + rewrite tiled_at. cbn [node_start node_size]. rewrite ulong_id by lia.
      replace (node_start n + (node_size m + node_size n)) with (node_start n + node_size n + node_size m) by lia.
      split_and!; [done|lia|done].
    + rewrite !used_app, !used_cons. cbn [node_free]. rewrite Hm, Hn. symmetry. apply Permutation_middle.
  - destruct Ht as (H1 & Hq & H2 & H3 & H4 & H5 & H6). pose proof (tiled_le _ _ _ H1). pose proof (tiled_le _ _ _ H6).
    split; [split; [|solve_separated|done|done]|].
    + rewrite tiled_at. cbn [grow node_start node_size]. rewrite !ulong_id by (rewrite ?ulong_id; lia).
      rewrite !Z.add_assoc. split_and!; [done|lia|done].
    + rewrite !used_app, !used_cons. cbn [grow node_free]. rewrite Hm, Hn, Hk. symmetry. apply Permutation_middle.
Qed.

(** What a request does to the blocks in use. *)
Definition lost_by (z start : Z) (all : Prop) (l : list (Z * Z)) : Prop := l = [] \/ (z <> 0 /\ all /\ l = [(start, z)]).

Lemma get_cut lo hi p n size alignment C1 C2 r C' : well_cut lo hi (C1 ++ (p, n) :: C2) -> node_free n = true ->
  0 < size -> 0 <= alignment -> pad (node_start n) alignment + size <= node_size n ->
  get_cells p n size alignment C1 C2 r C' ->
  well_cut lo hi C' /\
  match r with
  | None => C' = C1 ++ (p, n) :: C2
  | Some q => exists a lost,
      lost_by (pad (node_start n) alignment) (node_start n) (pad (node_start n) alignment + size = node_size n) lost /\
      used C' ≡ₚ (q, (node_start n + pad (node_start n) alignment, size)) ::
        map (fun b => (a, b)) lost ++ used (C1 ++ (p, n) :: C2)
  end.
Proof.
  intros Hc Hn Hsz Hal Hfit Hget. pose proof (pad_bounds alignment (node_start n) Hal) as Hpad.
  pose proof (well_cut_free _ _ _ _ _ _ Hc Hn) as [E1 E2]. pose proof Hc as [Ht Hs Hlo Hhi]. rewrite tiled_at in Ht.
  destruct Ht as (H1 & H2 & H3). rewrite used_app, used_cons, Hn.
  destruct Hget as [|Hp Hsize|c Hp Hsize|a z Hz Hz0 Hsize|a c z Hz Hz0 Hsize].
  - done.
  - split; [split; [|solve_separated|done|done]|].
    + rewrite tiled_at. cbn [node_start node_size]. subst size. by split_and!.
    + exists 0, []. split; [by left|]. rewrite used_app, used_cons, Hp, Z.add_0_r. cbn [map app]. symmetry. apply Permutation_middle.
  - split; [split; [|solve_separated|done|done]|].
    + rewrite tiled_at. cbn [tiled node_start node_size]. split_and!; try done; [lia|].
      by replace (node_start n + size + (node_size n - size)) with (node_start n + node_size n) by lia.
    + exists 0, []. split; [by left|]. rewrite used_app, !used_cons, Hp, Z.add_0_r. cbn [map app]. symmetry. apply Permutation_middle.
  - rewrite <- Hz in *. split; [split; [|solve_separated|done|done]|].
    + rewrite tiled_at. cbn [tiled node_start node_size]. split_and!; try done; [lia|].
      by replace (node_start n + z + size) with (node_start n + node_size n) by lia.
    + exists a, [(node_start n, z)]. split; [right; split_and!; [done|lia|done]|]. rewrite used_app, !used_cons. cbn [map app node_free node_start node_size].
      rewrite <- !Permutation_middle. apply Permutation_swap.
  - rewrite <- Hz in *. split; [split; [|solve_separated|done|done]|].
    + rewrite tiled_at. cbn [tiled node_start node_size]. split_and!; try done; try lia.
      by replace (node_start n + z + size + (node_size n - (z + size))) with (node_start n + node_size n) by lia.
    + exists 0, []. split; [by left|]. rewrite used_app, !used_cons. cbn [map app node_free]. symmetry. apply Permutation_middle.
Qed.

(** Blocks of a range do not overlap. *)
Definition apart (b c : Z * Z) : Prop := b.1 + b.2 <= c.1 \/ c.1 + c.2 <= b.1.

Lemma tiled_in a b C p n : tiled a b C -> (p, n) ∈ C -> a <= node_start n /\ node_start n + node_size n <= b /\ 0 < node_size n.
Proof.
  intros Ht (C1 & C2 & ->)%list_elem_of_split. apply tiled_at in Ht as (H1%tiled_le & ? & H2%tiled_le). lia.
Qed.

Lemma tiled_apart a b C1 p n C2 q m : tiled a b (C1 ++ (p, n) :: C2) -> (q, m) ∈ C1 ++ C2 ->
  apart (node_start n, node_size n) (node_start m, node_size m).
Proof.
  intros (H1 & H2 & H3)%tiled_at [Hq|Hq]%elem_of_app.
  - destruct (tiled_in _ _ _ _ _ H1 Hq). right. cbn. lia.
  - destruct (tiled_in _ _ _ _ _ H3 Hq). left. cbn. lia.
Qed.

(** A gap between the blocks in use is inside one free block. *)
Lemma gap_free a b C x size : tiled a b C -> separated C = true -> 0 < size -> a <= x -> x + size <= b ->
  (forall p v, (p, v) ∈ used C -> apart (x, size) v) ->
  exists p n, (p, n) ∈ C /\ node_free n = true /\ node_start n <= x /\ x + size <= node_start n + node_size n.
Proof.
  revert a. induction C as [|[p n] C IH]; intros a; cbn [tiled separated]; [lia|].
  intros (<- & Hpos & Ht) [Hsep Hs]%andb_true_iff Hsz Hax Hxb Hgap. rewrite used_cons in Hgap.
  destruct (Z_le_gt_dec (node_start n + node_size n) x) as [Hle|Hgt].
  { destruct (IH _ Ht Hs Hsz Hle Hxb) as (q & m & Hq & ?).
    - intros q v Hq. apply (Hgap q v). destruct (node_free n); [done|by right].
    - exists q, m. split; [by right|done]. }
  destruct (node_free n) eqn:Hn.
  - destruct (Z_le_gt_dec (x + size) (node_start n + node_size n)) as [Hle|Hgt'].
    { exists p, n. split_and!; [by left|done..]. }
    destruct C as [|[q m] C]; cbn [tiled] in Ht; [lia|]. destruct Ht as (Hm & Hmp & _).
    rewrite starts_cons in Hsep. destruct (node_free m) eqn:Em; [done|]. rewrite used_cons, Em in Hgap.
    specialize (Hgap q _ ltac:(left)). unfold apart in Hgap. cbn in Hgap. lia.
  - specialize (Hgap p _ ltac:(left)). unfold apart in Hgap. cbn in Hgap. lia.
Qed.

(** * The contract of a manager *)

(** What its client holds, and what was lost: the space left out in front of a block
    for its alignment when the block takes all that follows. *)
Record book := { held : gmap Z (Z * Z); lost : list (Z * Z) }.

Inductive pool_op := P_get (best_match : bool) (size alignment : Z) | P_put (p : Z).

Section contract.
Context (lo hi : Z) (memory : Prop).

(** [b] is in the range and meets nothing. *)
Definition clear (bk : book) (b : Z * Z) : Prop :=
  lo <= b.1 /\ b.1 + b.2 <= hi /\ (forall p v, held bk !! p = Some v -> apart b v) /\ (forall v, v ∈ lost bk -> apart b v).

(** A whole room: nothing is free right before or right after it. *)
Definition room (bk : book) (b : Z * Z) : Prop :=
  clear bk b /\ ~ clear bk (b.1 - 1, 1) /\ ~ clear bk (b.1 + b.2, 1).

(** Alignment 0 asks for nothing. *)
Definition aligned (x alignment : Z) : Prop := alignment = 0 \/ (alignment | x).

Definition allowed (A : gmap Z (Z * Z)) (op : pool_op) : bool :=
  match op with
  | P_get _ size alignment => (0 <? size) && (0 <=? alignment) && (size + alignment <? 2 ^ 32 - 1)
  | P_put p => bool_decide (is_Some (A !! p))
  end.

(** A block given leaves nothing out, or, when with its alignment it takes a whole
    room up to its end, the space in front of it, which is lost. *)
Inductive pool_spec (bk : book) : pool_op -> option (Z * (Z * Z)) -> book -> Prop :=
| Spec_get best size alignment p x : held bk !! p = None -> aligned x alignment -> clear bk (x, size) ->
    pool_spec bk (P_get best size alignment) (Some (p, (x, size)))
      {| held := <[p := (x, size)]> (held bk); lost := lost bk |}
| Spec_get_end best size alignment p x z : held bk !! p = None -> aligned x alignment -> clear bk (x, size) ->
    0 < z < alignment -> room bk (x - z, z + size) ->
    pool_spec bk (P_get best size alignment) (Some (p, (x, size)))
      {| held := <[p := (x, size)]> (held bk); lost := (x - z, z) :: lost bk |}
| Spec_none best size alignment : (memory -> forall x, aligned x alignment -> ~ clear bk (x, size)) ->
    pool_spec bk (P_get best size alignment) None bk
| Spec_put p v : held bk !! p = Some v ->
    pool_spec bk (P_put p) None {| held := delete p (held bk); lost := lost bk |}
| Spec_refused op : allowed (held bk) op = false -> pool_spec bk op None bk.

Inductive pool_run : book -> list pool_op -> list (option (Z * (Z * Z))) -> book -> Prop :=
| Run_end bk : pool_run bk [] [] bk
| Run_step bk op a bk' ops l bk'' :
    pool_spec bk op a bk' -> pool_run bk' ops l bk'' -> pool_run bk (op :: ops) (a :: l) bk''.

(** Requests in multiples of [g], which the alignments divide. *)
Definition uniform_op (g : Z) (op : pool_op) : Prop :=
  match op with
  | P_get _ size alignment => (g | size) /\ (alignment = 0 \/ (alignment | g))
  | P_put _ => True
  end.

Definition multiples (g : Z) (C : list cell) : Prop := forall p n, (p, n) ∈ C -> (g | node_start n).

Lemma put_multiples g p n C1 C2 C' : put_cells p n C1 C2 C' -> multiples g (C1 ++ (p, n) :: C2) -> multiples g C'.
Proof.
  intros Hput Hg q m.
  destruct Hput as [C1 C2 E1 E2|C1 r k C2 Hk E2|C1 r k C2 E1 Hk|C1 r k r' k' C2 Hk Hk'];
    intros [Hi|[[= -> ->]|Hi]%elem_of_cons]%elem_of_app; cbn [grow node_start];
    try (by apply (Hg q); set_solver); first [apply (Hg p n); set_solver|apply (Hg r k); set_solver].
Qed.

Lemma get_multiples g p n size alignment C1 C2 r C' : get_cells p n size alignment C1 C2 r C' ->
  (g | size) -> pad (node_start n) alignment = 0 -> multiples g (C1 ++ (p, n) :: C2) -> multiples g C'.
Proof.
  intros Hget Hsz Hp Hg. pose proof (Hg p n ltac:(set_solver)) as Hn.
  destruct Hget as [| |c _ _|a z Hz Hz0 _|a c z Hz Hz0 _]; try done; [..|congruence|congruence]; intros q m.
  - intros [Hi|[[= -> ->]|Hi]%elem_of_cons]%elem_of_app; [|done|]; apply (Hg q); set_solver.
  - intros [Hi|[[= -> ->]|[[= -> ->]|Hi]%elem_of_cons]%elem_of_cons]%elem_of_app; [|done| |]; cbn [node_start];
      [apply (Hg q); set_solver|by apply Z.divide_add_r|apply (Hg q); set_solver].
Qed.

Lemma uniform_pad g x alignment : alignment = 0 \/ (alignment | g) -> (g | x) -> pad x alignment = 0.
Proof.
  intros [->|Ha] Hx; [done|]. unfold pad, misalignment. destruct (Z.eqb_spec alignment 0); [done|].
  rewrite (proj2 (Z.mod_divide x alignment ltac:(done))); [done|]. by etrans.
Qed.

Lemma aligned_misalignment x alignment : aligned x alignment <-> misalignment x alignment = 0.
Proof.
  unfold aligned, misalignment. destruct (Z.eqb_spec alignment 0) as [|Hne]; [tauto|].
  rewrite Z.mod_divide by done. tauto.
Qed.

(** The first aligned address after [st]. *)
Lemma pad_least st x alignment : 0 <= alignment -> st <= x -> aligned x alignment -> st + pad st alignment <= x.
Proof.
  intros Ha Hle Hx%aligned_misalignment. unfold pad, misalignment in *. destruct (Z.eqb_spec alignment 0) as [->|Hne]; [cbn; lia|].
  destruct (Z.eqb_spec (st mod alignment) 0) as [|Hst]; [lia|].
  apply Z.mod_divide in Hx as [k ->]; [|done]. pose proof (Z.div_mod st alignment Hne).
  pose proof (Z.mod_pos_bound st alignment ltac:(lia)).
  assert (st / alignment < k) by (apply Z.nle_gt; intros ?; nia). nia.
Qed.

Lemma pad_aligned st alignment : aligned (st + pad st alignment) alignment.
Proof.
  apply aligned_misalignment. unfold pad, misalignment. destruct (Z.eqb_spec alignment 0) as [|Hne]; [done|].
  destruct (Z.eqb_spec (st mod alignment) 0) as [E|]; [by rewrite Z.add_0_r|].
  replace (st + (alignment - st mod alignment)) with ((st - st mod alignment) + 1 * alignment) by lia.
  rewrite Z.mod_add by done. apply Z.mod_divide; [done|]. exists (st / alignment).
  pose proof (Z.div_mod st alignment Hne). lia.
Qed.

(** The blocks in use are those held and those lost. *)
Record accounts (C : list cell) (bk : book) : Prop := {
  acc_cut : well_cut lo hi C;
  acc_used : exists ids, used C ≡ₚ map_to_list (held bk) ++ ids /\ map snd ids = lost bk }.

Lemma used_apart C q v R : well_cut lo hi C -> NoDup C.*1 -> used C ≡ₚ (q, v) :: R ->
  lo <= v.1 /\ v.1 + v.2 <= hi /\ (forall r w, (r, w) ∈ R -> apart v w /\ r <> q).
Proof.
  intros [Ht _ _ _] Hnd HP. assert (Hq : (q, v) ∈ used C) by (rewrite HP; by left).
  apply elem_of_used in Hq as (n & (C1 & C2 & ->)%list_elem_of_split & Hn & ->).
  destruct (tiled_in _ _ _ q n Ht ltac:(set_solver)) as (? & ? & ?). cbn [fst snd]. split_and!; [done..|].
  rewrite used_app, used_cons, Hn, <- Permutation_middle in HP. apply (Permutation_cons_inv (a := (q, (_, _)))) in HP.
  intros r w Hr. rewrite <- HP, <- used_app in Hr. apply elem_of_used in Hr as (m & Hm & _ & ->).
  split; [by eapply tiled_apart|]. intros ->.
  rewrite fmap_app in Hnd. cbn in Hnd. rewrite <- Permutation_middle, <- fmap_app in Hnd.
  apply list.NoDup_cons in Hnd as [Hnd _]. apply Hnd, elem_of_keys. by exists m.
Qed.

Lemma acc_elem C bk v : accounts C bk -> (exists p, held bk !! p = Some v) \/ v ∈ lost bk <-> exists p, (p, v) ∈ used C.
Proof.
  intros [_ (ids & HP & Hl)]. rewrite <- Hl. setoid_rewrite HP. setoid_rewrite elem_of_app.
  setoid_rewrite elem_of_map_to_list. split.
  - intros [[p Hp]|([q w] & Hw & Hi)%list_elem_of_In%in_map_iff]; [exists p; by left|]. cbn in Hw. subst w.
    exists q. right. by apply list_elem_of_In.
  - intros [p [Hp|Hp]]; [left; by exists p|right]. apply list_elem_of_In, in_map_iff. exists (p, v).
    split; [done|by apply list_elem_of_In].
Qed.

(** A free block of the list is a whole room. *)
Lemma room_cell C1 p n C2 bk : accounts (C1 ++ (p, n) :: C2) bk -> node_free n = true ->
  room bk (node_start n, node_size n).
Proof.
  intros Hacc Hn. pose proof (acc_cut _ _ Hacc) as Hcut.
  pose proof (well_cut_at _ _ _ _ _ _ Hcut) as Hb. destruct (well_cut_free _ _ _ _ _ _ Hcut Hn) as [E1 E2].
  pose proof (cut_tiled _ _ _ Hcut) as Ht.
  assert (Hin : forall v, (exists q, held bk !! q = Some v) \/ v ∈ lost bk -> exists q m,
    (q, m) ∈ C1 ++ C2 /\ v = (node_start m, node_size m)).
  { intros v [q Hq]%(acc_elem _ _ _ Hacc). rewrite used_app, used_cons, Hn, <- used_app in Hq.
    apply elem_of_used in Hq as (m & Hm & _ & ->). by exists q, m. }
  assert (Hno : forall q m, (q, m) ∈ C1 ++ C2 -> node_free m = false -> forall b, clear bk b ->
    apart b (node_start m, node_size m)).
  { intros q m Hm Em b (_ & _ & Hh & Hl).
    assert (Hv : exists q, (q, (node_start m, node_size m)) ∈ used (C1 ++ (p, n) :: C2)).
    { exists q. rewrite used_app, used_cons, Hn, <- used_app. apply elem_of_used. by exists m. }
    apply (acc_elem _ _ _ Hacc) in Hv as [[r Hr]|Hr]; [by apply (Hh r)|by apply Hl]. }
  split; [|split].
  - split_and!; [cbn; lia..| |]; intros; (destruct (Hin v) as (q & m & Hm & ->); [eauto|]); by eapply tiled_apart.
  - intros Hc. cbn [fst snd] in Hc. destruct C1 as [|[q m] C1 _] using rev_ind.
    + cbn in Ht. destruct Ht as [Ht _]. destruct Hc as [Hc _]. cbn in Hc. lia.
    + unfold ends_free in E1. rewrite list.last_snoc in E1. pose proof (Hno q m ltac:(set_solver) E1 _ Hc) as Ha.
      rewrite <- app_assoc in Ht. cbn [app] in Ht. apply tiled_at in Ht as (_ & ? & Ht). cbn in Ht.
      destruct Ht as [Ht _]. unfold apart in Ha. cbn in Ha. lia.
  - intros Hc. cbn [fst snd] in Hc. apply tiled_at in Ht as (_ & _ & Ht). destruct C2 as [|[q m] C2].
    + cbn in Ht. destruct Hc as (_ & Hc & _). cbn in Hc. lia.
    + rewrite starts_cons in E2. pose proof (Hno q m ltac:(set_solver) E2 _ Hc) as Ha.
      cbn in Ht. destruct Ht as (Ht & ? & _). unfold apart in Ha. cbn in Ha. lia.
Qed.

End contract.

(** ** Runs of a client *)

Section client.
Context `{Malloc mm_node}.

Abbreviation MM A := (M (list mcall) wsbm_mm A).
Abbreviation wpm := (wp (H := list mcall) (S := wsbm_mm) False).

(** A pool, which keeps the place of each block it was given; what it is not allowed
    to ask it does not ask. *)
Definition run_op (A : gmap Z (Z * Z)) (op : pool_op) : MM (option (Z * (Z * Z)) * gmap Z (Z * Z)) :=
  if negb (allowed A op) then mret (None, A)
  else
    match op with
    | P_get best size alignment =>
        node ← pool_get best size alignment;
        match node with
        | None => mret (None, A)
        | Some p => n ← get_node p; let b := (node_start n, node_size n) in mret (Some (p, b), <[p := b]> A)
        end
    | P_put p => wsbmMMPutBlock p ;; mret (None, delete p A)
    end.

Fixpoint run_ops (A : gmap Z (Z * Z)) (ops : list pool_op) : MM (list (option (Z * (Z * Z))) * gmap Z (Z * Z)) :=
  match ops with
  | [] => mret ([], A)
  | op :: ops' => '(a, A') ← run_op A op; '(l, A'') ← run_ops A' ops'; mret (a :: l, A'')
  end.

Context (lo hi : Z).

(** The requests are multiples of a number, or any; then nothing is lost, or anything. *)
Context (unit_size : option Z).

Definition uniform (op : pool_op) : Prop := match unit_size with Some g => uniform_op g op | None => True end.

Definition no_loss (C : list cell) (bk : book) : Prop :=
  match unit_size with Some g => multiples g C /\ lost bk = [] | None => True end.

(** A manager between its operations. *)
Definition mm_inv (s : wsbm_mm) (bk : book) : Prop :=
  exists C F, mm_ok s C F /\ accounts lo hi C bk /\ no_loss C bk.

Lemma ok_keys s C F : mm_ok s C F -> NoDup C.*1.
Proof.
  intros [Hwf _]. pose proof (wf_keys _ _ _ _ Hwf) as Hk. apply list.NoDup_cons in Hk as [_ Hk].
  by rewrite app_nil_r in Hk.
Qed.

(** A block given: it is in the range, apart from the others, and new. *)
Lemma get_spec C C' bk q x size z start all best alignment :
  (all -> room lo hi bk (start, z + size)) -> accounts lo hi C bk -> well_cut lo hi C' -> NoDup C'.*1 -> 0 <= alignment ->
  z = pad start alignment -> x = start + z ->
  (exists a lost', lost_by z start all lost' /\ used C' ≡ₚ (q, (x, size)) :: map (fun b => (a, b)) lost' ++ used C) ->
  exists bk', pool_spec lo hi memory bk (P_get best size alignment) (Some (q, (x, size))) bk' /\
    accounts lo hi C' bk' /\ held bk' = <[q := (x, size)]> (held bk) /\ (z = 0 -> lost bk' = lost bk).
Proof.
  intros Hroom Hacc Hcut Hnd Hal Hz Hx (a & lost' & Hlost & HP). pose proof (acc_used _ _ _ _ Hacc) as (ids & HU & Hids).
  destruct (used_apart _ _ _ _ _ _ Hcut Hnd HP) as (H1 & H2 & H3). cbn [fst snd] in H1, H2.
  assert (Hold : forall v, (exists p, held bk !! p = Some v) \/ v ∈ lost bk -> apart (x, size) v).
  { intros v Hv. apply (acc_elem _ _ _ _ _ Hacc) in Hv as [p Hp]. apply (H3 p). rewrite elem_of_app. by right. }
  assert (Hnew : held bk !! q = None).
  { apply eq_None_not_Some. intros [v Hv]. destruct (H3 q v) as [_ Hne]; [|done].
    rewrite HU, !elem_of_app, elem_of_map_to_list. tauto. }
  assert (Hclear : clear lo hi bk (x, size)).
  { split_and!; [done|done|intros p v Hv; apply Hold; left; by exists p|intros v Hv; apply Hold; by right]. }
  assert (Haligned : aligned x alignment) by (subst; apply pad_aligned).
  destruct Hlost as [->|(Hz0 & Hall & ->)].
  - eexists. split; [by apply Spec_get|]. split_and!; [|done|done]. split; [done|]. exists ids.
    split; [|done]. cbn [held map app] in *. rewrite map_to_list_insert by done. by rewrite HP, HU.
  - cbn [map app] in HP. rewrite Permutation_swap in HP.
    destruct (used_apart _ _ _ _ _ _ Hcut Hnd HP) as (G1 & G2 & G3). cbn [fst snd] in G1, G2.
    assert (Hx' : x - z = start) by lia.
    eexists. split; [apply (Spec_get_end _ _ _ _ _ _ _ _ _ z); try done|].
    + pose proof (pad_bounds alignment start Hal). unfold pad, misalignment in *. 
      destruct (Z.eqb_spec alignment 0) as [->|]; [cbn in *; lia|].
      pose proof (Z.mod_pos_bound start alignment ltac:(lia)).
      destruct (Z.eqb_spec (start mod alignment) 0); lia.
    + rewrite Hx'. by apply Hroom.
    + split_and!; [|done|done]. split; [done|]. exists ((a, (x - z, z)) :: ids). rewrite Hx'.
      split; [|cbn; by rewrite Hids]. cbn [held]. rewrite map_to_list_insert by done.
      rewrite HP, HU. cbn [app]. rewrite <- Permutation_middle. apply Permutation_swap.
Qed.

Lemma pool_run_get best size alignment s bk h : mm_inv s bk -> allowed (held bk) (P_get best size alignment) = true ->
  uniform (P_get best size alignment) ->
  wpm (run_op (held bk) (P_get best size alignment)) (fun '(a, A') s' _ => exists bk',
    pool_spec lo hi memory bk (P_get best size alignment) a bk' /\ A' = held bk' /\ mm_inv s' bk') s h.
Proof.
  intros (C & F & Hok & Hacc & Hloss) Ha Hu. unfold run_op. rewrite Ha. cbn [negb].
  apply andb_true_iff in Ha as [[Hsz%Z.ltb_lt Hal%Z.leb_le]%andb_true_iff Hmax%Z.ltb_lt].
  unfold pool_get. apply wp_bind, wp_bind. eapply wp_mono; [eapply (search_wp C); [done|lia|done|done]|]. cbv beta.
  intros r s1 h1 (-> & -> & Hr). destruct r as [p|].
  2:{ apply wp_ret, wp_ret. exists bk. split_and!; [|done|by exists C, F].  apply Spec_none. intros _ x Hx (G1 & G2 & G3 & G4).
      pose proof (acc_cut _ _ _ _ Hacc) as [Ht Hs _ _]. cbn [fst snd] in G1, G2.
      destruct (gap_free _ _ _ x size Ht Hs Hsz G1 G2) as (p & n & Hp & Hn & Hst & Hend).
      - intros q v Hq. assert (Hv : exists q, (q, v) ∈ used C) by by exists q.
        apply (acc_elem _ _ _ _ _ Hacc) in Hv as [[? ?]|?]; [by eapply G3|by apply G4].
      - apply (Hr p). exists n. split_and!; [done..|]. pose proof (pad_least _ _ _ Hal Hst Hx). lia. }
  destruct Hr as (n & (C1 & C2 & ->)%list_elem_of_split & Hn & Hfit).
  pose proof (acc_cut _ _ _ _ Hacc) as Hcut. destruct (well_cut_free _ _ _ _ _ _ Hcut Hn) as [E1 _].
  destruct (well_cut_at _ _ _ _ _ _ Hcut) as (Hlo & _ & Hhi). pose proof Hcut as [_ _ Hlo0 Hhi0].
  pose proof (pad_bounds alignment (node_start n) Hal) as Hpad.
  eapply wp_mono; [eapply get_wp; [exact Hok|done|done|]|]; [split_and!; lia|]. cbv beta.
  intros r s1 h1 (Hmem & C' & F' & Hget & Hok').
  pose proof (get_cut _ _ _ _ _ _ _ _ _ _ Hcut Hn Hsz Hal Hfit Hget) as [Hcut' Hused].
  assert (Hroom : pad (node_start n) alignment + size = node_size n ->
    room lo hi bk (node_start n, pad (node_start n) alignment + size)) by (intros ->; by eapply room_cell).
  destruct r as [q|].
  2:{ apply wp_ret. exists bk. split_and!; [apply Spec_none; intros Hm; by destruct (Hmem eq_refl Hm)|done|].
      subst C'. exists (C1 ++ (p, n) :: C2), F'. by split_and!. }
  destruct (get_spec _ _ _ q (node_start n + pad (node_start n) alignment) size _ (node_start n) _ best alignment
    Hroom Hacc Hcut' (ok_keys _ _ _ Hok') Hal eq_refl eq_refl Hused) as (bk' & Hspec & Hacc' & Hheld & Hlost).
  assert (Hq : exists m, (q, m) ∈ C' ++ [] /\ (node_start m, node_size m) = (node_start n + pad (node_start n) alignment, size)).
  { destruct Hused as (a & lost' & _ & HP).
    assert (Hq : (q, (node_start n + pad (node_start n) alignment, size)) ∈ used C') by (rewrite HP; by left).
    apply elem_of_used in Hq as (m & Hm & _ & E). exists m. rewrite app_nil_r. by split. }
  destruct Hq as (m & Hm & Em). pose proof Hok' as [Hwf' _]. apply wp_bind. eapply (wf_get_node Hwf' q m); [done|].
  cbv zeta. rewrite Em. apply wp_ret. exists bk'. split_and!; [done|by rewrite Hheld|].
  exists C', F'. split_and!; [done..|]. unfold no_loss, uniform in *. destruct unit_size as [g|]; [|done].
  destruct Hloss as [Hg Hl], Hu as [Hgs Hga].
  assert (Hp0 : pad (node_start n) alignment = 0) by (apply (uniform_pad g); [done|apply (Hg p n); set_solver]).
  split; [by eapply get_multiples|]. by rewrite Hlost.
Qed.

Lemma pool_run_put p s bk h : mm_inv s bk -> allowed (held bk) (P_put p) = true ->
  wpm (run_op (held bk) (P_put p)) (fun '(a, A') s' _ => exists bk',
    pool_spec lo hi memory bk (P_put p) a bk' /\ A' = held bk' /\ mm_inv s' bk') s h.
Proof.
  intros (C & F & Hok & Hacc & Hloss) Ha. unfold run_op. rewrite Ha. cbn [negb].
  apply bool_decide_eq_true in Ha as [v Hv].
  pose proof (acc_used _ _ _ _ Hacc) as (ids & HU & Hids). pose proof (acc_cut _ _ _ _ Hacc) as Hcut.
  assert (Hp : (p, v) ∈ used C) by (rewrite HU, elem_of_app, elem_of_map_to_list; by left).
  apply elem_of_used in Hp as (n & (C1 & C2 & ->)%list_elem_of_split & Hn & ->).
  apply wp_bind. eapply wp_mono; [by eapply put_wp|]. cbv beta. intros _ s1 h1 (C' & F' & Hput & Hok').
  destruct (put_cut _ _ _ _ _ _ _ Hcut Hn Hput) as [Hcut' HP]. apply wp_ret.
  exists {| held := delete p (held bk); lost := lost bk |}. split_and!; [by eapply Spec_put|done|].
  exists C', F'. split_and!; [done| |].
  - split; [done|]. exists ids. split; [|done]. cbn [held].
    rewrite HP in HU. rewrite <- (insert_delete_id (held bk) p _ Hv), map_to_list_insert in HU by apply lookup_delete_eq.
    by apply (Permutation_cons_inv (a := (p, (node_start n, node_size n)))) in HU.
  - unfold no_loss in *. destruct unit_size as [g|]; [|done]. destruct Hloss as [Hg Hl].
    split; [by eapply put_multiples|done].
Qed.

Lemma pool_ops_wp ops s bk h : mm_inv s bk -> Forall uniform ops ->
  wpm (run_ops (held bk) ops) (fun '(l, A') s' _ => exists bk',
    pool_run lo hi memory bk ops l bk' /\ A' = held bk' /\ mm_inv s' bk') s h.
Proof.
  revert s bk h. induction ops as [|op ops IH]; intros s bk h Hs Hu; cbn [run_ops].
  { apply wp_ret. exists bk. split_and!; [constructor|done..]. }
  inversion Hu as [|? ? Hop Hu']; subst. apply wp_bind.
  assert (Hstep : wpm (run_op (held bk) op) (fun '(a, A') s' _ => exists bk',
    pool_spec lo hi memory bk op a bk' /\ A' = held bk' /\ mm_inv s' bk') s h).
  { destruct (allowed (held bk) op) eqn:Ha; [destruct op; [by apply pool_run_get|by apply pool_run_put]|].
    unfold run_op. rewrite Ha. apply wp_ret. exists bk. split_and!; [by apply Spec_refused|done..]. }
  eapply wp_mono; [exact Hstep|]. cbv beta. intros [a A'] s1 h1 (bk1 & Hspec & -> & H1).
  apply wp_bind. eapply wp_mono; [by apply IH|]. cbv beta. intros [l A''] s2 h2 (bk2 & Hrun & -> & H2).
  apply wp_ret. exists bk2. split_and!; [by eapply Run_step|done..].
Qed.

(** ** The beginning and the end *)

Lemma create_tail_wp start size s h : mm_wf s [] [] [] ->
  wpm (wsbmMMCreateTailNode start size) (fun r s' _ => (r = - ENOMEM /\ ~ memory) \/
    (r = 0 /\ exists p, mm_ok s' [(p, {| node_free := true; node_start := start; node_size := size |})] [p])) s h.
Proof.
  intros Hwf. unfold wsbmMMCreateTailNode. apply wp_bind. apply (wf_malloc Hwf).
  { intros E. apply wp_ret. left. split; [done|]. intros Hm. by apply (Hm h (dom (nodes s))). }
  intros c n s1 Hc H1. apply wp_bind. eapply wf_set_extra; [exact H1|]. intros s2 H2.
  apply wp_bind. eapply wf_append; [exact H2|]. intros s3 H3. cbn [app] in H3.
  apply wp_bind. eapply (wf_push_tail _ _ []); [exact H3|cbn; by left|apply not_elem_of_nil|]. intros s4 H4.
  apply wp_ret. right. split; [done|]. exists c. split; [exact H4|done].
Qed.

Lemma mm_init_wp size s h : 0 <= lo -> 0 < size -> hi = lo + size -> hi < 2 ^ 32 ->
  match unit_size with Some g => (g | lo) | None => True end ->
  wpm (wsbmMMinit lo size) (fun r s' _ => (r = - ENOMEM /\ ~ memory) \/
    (r = 0 /\ mm_inv s' {| held := ∅; lost := [] |})) s h.
Proof.
  intros Hlo Hsz Hhi Hmax Hu. unfold wsbmMMinit. apply wp_bind, wp_modify, wp_bind. apply init_head_wp; [done|].
  apply wp_bind. apply init_head_wp; [done|].
  eapply wp_mono; [apply create_tail_wp|].
  - assert (Hr : forall k : links, nexts k !! HEAD = Some HEAD -> prevs k !! HEAD = Some HEAD -> ring k []).
    { intros k H1 H2. split; [by split|apply NoDup_singleton]. }
    split; cbn; [by apply Hr|by apply Hr| |apply NoDup_singleton|by intros p ?%not_elem_of_nil].
    intros p n. rewrite lookup_empty. split; [done|by intros ?%not_elem_of_nil].
  - cbv beta. intros r s1 h1 [Hr|(-> & p & Hok)]; [by left|right]. split; [done|].
    eexists _, _. split; [exact Hok|]. split.
    + split; [split; [cbn; lia|done|done|done]|]. exists []. split; [|done]. cbn [held app]. by rewrite map_to_list_empty.
    + unfold no_loss. destruct unit_size as [g|]; [|done]. split; [|done].
      by intros q m [= -> ->]%list_elem_of_singleton.
Qed.

(** A manager none of whose blocks is in use has one block. *)
Lemma all_free_one a b C : a < b -> tiled a b C -> separated C = true -> used C = [] -> exists p n, C = [(p, n)] /\ node_free n = true.
Proof.
  intros Hab. destruct C as [|[p n] [|[q m] C]]; cbn [tiled separated]; [lia|..].
  - intros _ _ Hu. rewrite used_cons in Hu. exists p, n. by destruct (node_free n).
  - intros _ [Hs _]%andb_true_iff Hu. rewrite !used_cons, starts_cons in *. by destruct (node_free n), (node_free m).
Qed.

Lemma close_wp s h : mm_inv s {| held := ∅; lost := [] |} -> lo < hi ->
  wpm (c ← wsbmMMclean; wsbmMMtakedown ;; mret c) (fun c s' _ => c = true /\ nodes s' = ∅) s h.
Proof.
  intros (C & F & [Hwf HF] & [Hcut (ids & HU & Hids)] & _) Hlt. cbn [held lost] in *.
  destruct ids; [|done]. rewrite map_to_list_empty in HU. apply Permutation_nil_r in HU.
  destruct (all_free_one _ _ _ Hlt (cut_tiled _ _ _ Hcut) (cut_separated _ _ _ Hcut) HU) as (p & n & -> & Hn).
  assert (HF' : F = [p]).
  { rewrite (frees_cons p n []), Hn in HF. by apply Permutation_singleton_r in HF. }
  subst F. pose proof (wf_ml _ _ _ _ Hwf) as [[[Hhp _] [[Hph _] _]] _]. cbn in Hhp, Hph.
  unfold wsbmMMclean. apply wp_bind, wp_bind. eapply (get_next_wp ML); [exact Hhp|]. apply wp_bind.
  eapply (get_next_wp ML); [exact Hph|]. apply wp_ret. rewrite Z.eqb_refl. unfold wsbmMMtakedown.
  apply wp_bind, wp_bind. eapply (get_next_wp FL); [exact (wf_fl_first _ _ _ _ Hwf)|]. cbn [first_of].
  apply wp_bind. eapply (get_next_wp ML); [exact Hph|]. rewrite Z.eqb_refl. cbn [negb].
  apply wp_bind. eapply (get_next_wp FL); [exact (wf_fl_next _ _ [] _ _ _ Hwf)|]. cbn [Rings.first_of negb Z.eqb HEAD].
  apply wp_bind. eapply (wf_pop _ _ []); [exact Hwf|]. intros s1 H1. cbn [app] in H1.
  apply wp_bind. eapply (wf_remove _ []); [exact H1|]. intros s2 H2. cbn [app] in H2.
  eapply wf_free; [exact H2|apply not_elem_of_nil|]. intros s3 H3. apply wp_ret. split; [done|].
  apply map_eq. intros q. rewrite lookup_empty. apply eq_None_not_Some. intros [m Hm].
  apply (wf_nodes _ _ _ _ H3) in Hm. by apply not_elem_of_nil in Hm.
Qed.

(** ** The tail of the range *)

Lemma wf_tail s C p n F X Q h : mm_wf s (C ++ [(p, n)]) F X -> Q p s h -> wpm (get_prev ML HEAD) Q s h.
Proof.
  intros Hwf HQ. pose proof (wf_ml _ _ _ _ Hwf) as [Hw _]. rewrite fmap_app in Hw. cbn [fmap list_fmap fst] in Hw.
  rewrite <- app_assoc, app_comm_cons in Hw. cbn [app] in Hw.
  change (HEAD :: C.*1 ++ [p; HEAD]) with ((HEAD :: C.*1) ++ p :: [HEAD]) in Hw. apply walk_app in Hw as [_ [[_ Hp] _]].
  by eapply (get_prev_wp ML).
Qed.

(** Space taken from the tail of the range shortens its last block, when that is free
    and larger, and leaves the others. *)
Theorem remove_space_from_tail size s C p n F h : mm_ok s (C ++ [(p, n)]) F -> well_cut lo hi (C ++ [(p, n)]) ->
  0 <= size ->
  wpm (wsbmMMRemoveSpaceFromTail size) (fun r s' _ =>
    if node_free n && (size <? node_size n) then
      r = 0 /\ exists C', mm_ok s' C' F /\ well_cut lo (hi - size) C' /\ used C' = used (C ++ [(p, n)])
    else r = - ENOMEM /\ s' = s) s h.
Proof.
  intros [Hwf HF] Hcut Hsz. destruct (well_cut_at _ _ _ _ _ _ Hcut) as (H1 & H2 & H3). destruct Hcut as [Ht Hs Hlo Hhi].
  unfold wsbmMMRemoveSpaceFromTail. apply wp_bind. eapply wf_tail; [exact Hwf|]. apply wp_bind.
  eapply (wf_get_node Hwf p n); [set_solver|]. destruct (node_free n) eqn:Hn; cbn [negb andb]; [|by apply wp_ret].
  destruct (Z.leb_spec (node_size n) size), (Z.ltb_spec size (node_size n)); try lia; [by apply wp_ret|].
  apply wp_bind. eapply wf_set_cell; [exact Hwf|]. intros s1 Hwf1. apply wp_ret. split; [done|].
  rewrite ulong_id in Hwf1 by lia. eexists. split; [split; [exact Hwf1|]|split; [split; [..|done|lia]|]].
  - by rewrite HF, !frees_app, !frees_cons, Hn.
  - rewrite tiled_at in Ht |- *. cbn [tiled node_start node_size] in *. split_and!; [apply Ht|lia|lia].
  - rewrite separated_at in Hs |- *. cbn [separated node_free] in *. by rewrite Hn in Hs.
  - by rewrite !used_app, !used_cons, Hn.
Qed.

Theorem tail_space s C p n F h : mm_ok s (C ++ [(p, n)]) F ->
  wpm wsbmMMTailSpace (fun r s' _ => s' = s /\ r = if node_free n then node_size n else 0) s h.
Proof.
  intros [Hwf _]. unfold wsbmMMTailSpace. apply wp_bind. eapply wf_tail; [exact Hwf|]. apply wp_bind.
  eapply (wf_get_node Hwf p n); [set_solver|]. by destruct (node_free n); apply wp_ret.
Qed.

End client.

(** * Theorems *)

Section theorems.
Context `{Malloc mm_node}.

Abbreviation wpm := (wp (H := list mcall) (S := wsbm_mm) False).
Abbreviation MM A := (M (list mcall) wsbm_mm A).

(** A pool over the range of [size] bytes at [lo]; [None] is a failed initialisation. *)
Definition pool_session (lo size : Z) (ops : list pool_op) : MM (option (list (option (Z * (Z * Z))) * gmap Z (Z * Z))) :=
  r ← wsbmMMinit lo size;
  if r =? 0 then l ← run_ops ∅ ops; mret (Some l) else mret None.

(** The same, and a client that gave everything back takes the manager down; what
    [wsbmMMclean] answered. *)
Definition pool_close (lo size : Z) (ops : list pool_op) : MM (option bool) :=
  o ← pool_session lo size ops;
  match o with
  | Some (_, A) => if bool_decide (A = ∅) then c ← wsbmMMclean; wsbmMMtakedown ;; mret (Some c) else mret None
  | None => mret None
  end.

(** C18. (refinement) The memory manager is what its contract says, whatever blocks are
    asked for and given back and whenever memory runs out.  A block given has the size
    asked for and the alignment, lies in the range and meets neither another block in
    use nor lost space.  It leaves no space out, except when, with the space its
    alignment leaves out in front, it takes a whole room, with nothing free right before
    or after: then that space, shorter than the alignment, is lost for good, even once
    the block is given back (alignment_lost; when the alignments divide the sizes
    nothing is lost).  Giving a block back makes exactly its place available again.
    With memory, a request is refused only when what is neither in use nor lost has no
    aligned room for it; without, it may be refused, and nothing changes.  No link or
    node is used after it was freed and the searches end.  The sizes are positive, the
    alignments not negative, their sum fits 32 bits, and only blocks held are given
    back. *)
Theorem wsbm_mm_refines lo size ops s h : 0 <= lo -> 0 < size -> lo + size < 2 ^ 32 ->
  wpm (pool_session lo size ops) (fun o _ _ =>
    match o with
    | None => ~ memory
    | Some (l, A) => exists bk, pool_run lo (lo + size) memory {| held := ∅; lost := [] |} ops l bk /\ A = held bk
    end) s h.
Proof.
  intros Hlo Hsz Hmax. unfold pool_session. apply wp_bind.
  eapply wp_mono; [by apply (mm_init_wp lo (lo + size) None)|]. cbv beta. intros r s1 h1 [[-> Hm]|[-> H1]].
  - apply wp_ret. done.
  - apply wp_bind. eapply wp_mono; [apply (pool_ops_wp lo (lo + size) None _ _ {| held := ∅; lost := [] |} _ H1)|].
    { by apply Forall_true. }
    cbv beta. intros [l A] s2 h2 (bk & Hrun & -> & _). apply wp_ret. by exists bk.
Qed.

(** C19. (safety) When the sizes asked for are multiples of one number that the range
    starts at a multiple of and that the alignments divide, nothing is ever lost: once
    every block was given back, in any order, the free space is one block again,
    wsbmMMclean says so, and wsbmMMtakedown frees the last node. *)
Theorem wsbm_mm_closes lo size g ops s h : 0 <= lo -> 0 < size -> lo + size < 2 ^ 32 -> (g | lo) ->
  Forall (uniform_op g) ops ->
  wpm (pool_close lo size ops) (fun o s' _ => forall c, o = Some c -> c = true /\ nodes s' = ∅) s h.
Proof.
  intros Hlo Hsz Hmax Hg Hops. unfold pool_close, pool_session. apply wp_bind, wp_bind.
  eapply wp_mono; [by apply (mm_init_wp lo (lo + size) (Some g))|]. cbv beta. intros r s1 h1 [[-> Hm]|[-> H1]].
  { apply wp_ret, wp_ret. intros c [=]. }
  apply wp_bind. eapply wp_mono; [apply (pool_ops_wp lo (lo + size) (Some g) _ _ {| held := ∅; lost := [] |} _ H1 Hops)|].
  cbv beta. intros [l A] s2 h2 (bk & _ & -> & H2). apply wp_ret.
  destruct (decide (held bk = ∅)) as [Hh|Hh]; [|rewrite bool_decide_eq_false_2 by done; apply wp_ret; intros c [=]].
  rewrite bool_decide_eq_true_2 by done. destruct bk as [A L]. cbn [held] in *. subst A.
  assert (HL : L = []) by (by destruct H2 as (C & F & _ & _ & _ & HL)). subst L.
  pose proof (close_wp lo (lo + size) (Some g) _ h2 H2 ltac:(lia)) as Hc. apply wp_bind in Hc. apply wp_bind.
  eapply wp_mono; [exact Hc|]. cbv beta. intros c s3 h3 Ht. apply wp_bind in Ht. apply wp_bind.
  eapply wp_mono; [exact Ht|]. cbv beta. intros _ s4 h4 Hr. apply wp_ret in Hr. apply wp_ret. intros c' [= <-]. exact Hr.
Qed.

End theorems.

(** * Witnesses *)

Definition mm_memory (bad : list nat) : Malloc mm_node := growing_memory {| node_free := true; node_start := -1; node_size := -1 |} bad.

Definition mm0 : wsbm_mm := {| fl_entry := {| nexts := ∅; prevs := ∅ |}; ml_entry := {| nexts := ∅; prevs := ∅ |}; nodes := ∅ |}.

Definition page_ops : list pool_op :=
  [P_get true 4096 4096; P_get true 8192 4096; P_get false 4096 0; P_put 32; P_get true 65536 0; P_put 48; P_put 64].

Theorem wsbm_mm_refines_witness :
  wp False (pool_session (H := mm_memory [2%nat]) 4096 32768 page_ops) (fun o _ _ =>
    match o with
    | None => ~ memory (H := mm_memory [2%nat])
    | Some (l, A) => exists bk,
        pool_run 4096 (4096 + 32768) (memory (H := mm_memory [2%nat])) {| held := ∅; lost := [] |} page_ops l bk /\ A = held bk
    end) mm0 [].
Proof. apply (wsbm_mm_refines (H := mm_memory [2%nat])); lia. Defined.

Theorem wsbm_mm_closes_witness :
  wp False (pool_close (H := mm_memory []) 4096 32768 page_ops)
    (fun o s' _ => forall c, o = Some c -> c = true /\ nodes s' = ∅) mm0 [].
Proof.
  apply (wsbm_mm_closes (H := mm_memory []) 4096 32768 4096); [lia|lia|lia|by exists 1|].
  repeat (apply List.Forall_cons;
    [cbn; first [done|split; [first [by exists 1|by exists 2|by exists 16]|first [by left|by right; exists 1]]]|]).
  apply List.Forall_nil.
Defined.

(** There the client does give everything back. *)
Example page_ops_close :
  match pool_close (H := mm_memory []) 4096 32768 page_ops mm0 [] with
  | Done o s _ => (o, map_to_list (nodes s))
  | _ => (None, [])
  end = (Some true, []).
Proof. vm_compute. reflexivity. Qed.

(** ** What goes wrong *)

#[local] Instance good_memory : Malloc mm_node := mm_memory [].

Definition outcome_of {A} (o : outcome (list mcall) wsbm_mm A) : option (A * list cell) :=
  match o with Done a s _ => Some (a, map_to_list (nodes s)) | _ => None end.

Definition answers_of (o : option (list (option (Z * (Z * Z))) * gmap Z (Z * Z))) : list (option (Z * (Z * Z))) :=
  match o with Some (l, _) => l | None => [] end.

(** A block that takes all that follows its alignment loses the space left out: the
    block is given back, and the manager is not clean and keeps a node for ever. *)
Example alignment_lost :
  outcome_of ((o ← pool_session 16 48 [P_get true 32 32; P_put 16]; c ← wsbmMMclean; wsbmMMtakedown ;; mret (answers_of o, c)) mm0 []) =
  Some (([Some (16, (32, 32)); None], false), [(32, {| node_free := false; node_start := 16; node_size := 16 |})]).
Proof. vm_compute. reflexivity. Qed.

(** With free blocks of 40 and 20 bytes, the best match for 10 bytes is taken from the
    first. *)
Example best_match_is_not_best :
  option_map (fun r => List.last r.1 None) (outcome_of ((o ← pool_session 0 100
    [P_get true 40 0; P_get true 10 0; P_get true 20 0; P_get true 30 0; P_put 32; P_put 64; P_get true 10 0];
    mret (answers_of o)) mm0 [])) = Some (Some (80, (0, 10))).
Proof. vm_compute. reflexivity. Qed.

(** The manager is taken down while a block is in use, when the free space is after
    it. *)
Example takedown_in_use :
  outcome_of ((o ← pool_session 0 100 [P_get true 40 0]; wsbmMMtakedown ;; mret (answers_of o)) mm0 []) =
  Some ([Some (32, (0, 40))], [(32, {| node_free := false; node_start := 0; node_size := 40 |})]).
Proof. vm_compute. reflexivity. Qed.
