(* ===== verification/OmxList.v ===== *)
(** The lists and queues of the OMX core: wrs_omxil_core/utils/src/list.c and queue.c.

    A list is the address of its first entry, NULL when it is empty; an entry holds the
    addresses of its neighbours and a pointer to its data.  The memory is explicit:
    reading or writing through NULL or a freed entry is undefined. *)
From stdpp Require Import gmap.
From S2P Require Import Prelude Memory.

Definition NULL : Z := 0.

(** struct list. *)
Record list_node := { next : Z; prev : Z; data : Z }.

Definition with_next (p : Z) (n : list_node) : list_node := {| next := p; prev := prev n; data := data n |}.
Definition with_prev (p : Z) (n : list_node) : list_node := {| next := next n; prev := p; data := data n |}.
Definition with_data (p : Z) (n : list_node) : list_node := {| next := next n; prev := prev n; data := p |}.

Abbreviation heap := (gmap Z list_node).

Section lists.
Context `{Malloc list_node}.

Abbreviation L A := (M (list mcall) heap A).

Definition load (p : Z) : L list_node :=
  m ← get; match (m : heap) !! p with Some n => mret n | None => undefined end.

(** A store through [p]. *)
Definition store (p : Z) (f : list_node -> list_node) : L unit := n ← load p; modify (insert p (f n)).

Definition malloc : L Z := fun m h =>
  match malloc_gives h (dom m) with
  | Some (p, n) => Done p (<[p := n]> m) (M_malloc (Some p) :: h)
  | None => Done NULL m (M_malloc None :: h)
  end.

Definition free (p : Z) : L unit := fun m h =>
  if p =? NULL then Done tt m h
  else if bool_decide (is_Some (m !! p)) then Done tt (delete p m) (M_free p :: h) else Undef h.

(** ** list.c *)

Definition __list_init (entry : Z) : L unit :=
  if entry =? NULL then mret tt
  else store entry (with_prev NULL) ;; store entry (with_next NULL) ;; store entry (with_data NULL).

Definition __list_alloc : L Z := new ← malloc; __list_init new ;; mret new.

Definition list_alloc (data : Z) : L Z :=
  new ← __list_alloc;
  when (negb (new =? NULL)) (store new (with_data data)) ;;
  mret new.

Definition __list_free (entry : Z) : L unit := free entry.

Definition __list_next (entry : Z) : L Z := if entry =? NULL then mret NULL else n ← load entry; mret (next n).
Definition __list_prev (entry : Z) : L Z := if entry =? NULL then mret NULL else n ← load entry; mret (prev n).

(** A loop over a list goes through each entry of the memory at most once. *)
Definition rounds : L nat := m ← get; mret (base.size (m : heap)).

(** [list_foreach_safe]; the body says whether it breaks. *)
Fixpoint foreach_safe {B} (fuel : nat) (ptr nxt : Z) (acc : B) (body : Z -> B -> L (B * bool)) : L B :=
  if ptr =? NULL then mret acc
  else
    match fuel with
    | O => undefined
    | S n =>
        '(acc, stop) ← body ptr acc;
        if (stop : bool) then mret acc
        else nxt' ← __list_next nxt; foreach_safe n nxt nxt' acc body
    end.

Definition list_foreach_safe {B} (list : Z) (acc : B) (body : Z -> B -> L (B * bool)) : L B :=
  k ← rounds; nxt ← __list_next list; foreach_safe k list nxt acc body.

Definition list_free_all (list : Z) : L unit :=
  list_foreach_safe list tt (fun ptr _ => __list_free ptr ;; mret (tt, false)).

Fixpoint last_loop (fuel : nat) (list : Z) : L Z :=
  n ← load list;
  if next n =? NULL then mret list
  else match fuel with O => undefined | S k => last_loop k (next n) end.

Definition __list_last (list : Z) : L Z := if list =? NULL then mret list else k ← rounds; last_loop k list.

Fixpoint first_loop (fuel : nat) (list : Z) : L Z :=
  n ← load list;
  if prev n =? NULL then mret list
  else match fuel with O => undefined | S k => first_loop k (prev n) end.

Definition __list_first (list : Z) : L Z := if list =? NULL then mret list else k ← rounds; first_loop k list.

Fixpoint entry_loop (fuel : nat) (entry index i : Z) : L Z :=
  if entry =? NULL then mret entry
  else if i =? index then mret entry
  else
    match fuel with
    | O => undefined
    | S k => entry ← __list_next entry; entry_loop k entry index (i + 1)
    end.

Definition __list_entry (list index : Z) : L Z := k ← rounds; entry_loop k list index 0.

Fixpoint length_loop (fuel : nat) (list length : Z) : L Z :=
  if list =? NULL then mret length
  else
    match fuel with
    | O => undefined
    | S k => n ← load list; length_loop k (next n) (length + 1)
    end.

Definition list_length (list : Z) : L Z := k ← rounds; length_loop k list 0.

Definition __list_add_before (entry new : Z) : L Z :=
  if entry =? NULL then mret new
  else
    e ← load entry;
    let p := prev e in
    when (negb (p =? NULL)) (store p (with_next new)) ;;
    store new (with_prev p) ;;
    store new (with_next entry) ;;
    store entry (with_prev new) ;;
    mret new.

Definition __list_add_after (entry new : Z) : L Z :=
  if entry =? NULL then mret new
  else
    e ← load entry;
    let n := next e in
    when (negb (n =? NULL)) (store n (with_prev new)) ;;
    store new (with_next n) ;;
    store new (with_prev entry) ;;
    store entry (with_next new) ;;
    mret entry.

Definition __list_add_head (list new : Z) : L Z :=
  if list =? NULL then mret new
  else first ← __list_first list; _ ← __list_add_before first new; mret new.

Definition __list_add_tail (list new : Z) : L Z :=
  if list =? NULL then mret new
  else last ← __list_last list; _ ← __list_add_after last new; mret list.

Definition list_add_head (list data : Z) : L Z :=
  new ← list_alloc data;
  if new =? NULL then mret NULL else __list_add_head list new.

Definition list_add_tail (list data : Z) : L Z :=
  new ← list_alloc data;
  if new =? NULL then mret NULL else __list_add_tail list new.

Definition __list_remove (list entry : Z) : L Z :=
  if entry =? NULL then mret list
  else
    e ← load entry;
    let p := prev e in let n := next e in
    list ← (if p =? NULL then mret n else store p (with_next n) ;; mret list);
    when (negb (n =? NULL)) (store n (with_prev p)) ;;
    store entry (with_prev NULL) ;;
    store entry (with_next NULL) ;;
    mret list.

Definition __list_delete (list entry : Z) : L Z :=
  list ← __list_remove list entry; __list_free entry ;; mret list.

Definition list_delete (list d : Z) : L Z :=
  list_foreach_safe list list (fun ptr list =>
    n ← load ptr;
    if data n =? d then list ← __list_delete list ptr; mret (list, true) else mret (list, false)).

Definition list_delete_all (list d : Z) : L Z :=
  list_foreach_safe list list (fun ptr list =>
    n ← load ptr;
    if data n =? d then list ← __list_delete list ptr; mret (list, false) else mret (list, false)).

Fixpoint find_loop (fuel : nat) (step : Z -> L Z) (ptr d : Z) : L Z :=
  if ptr =? NULL then mret ptr
  else
    n ← load ptr;
    if data n =? d then mret ptr
    else match fuel with O => undefined | S k => ptr ← step ptr; find_loop k step ptr d end.

Definition list_find (list d : Z) : L Z := k ← rounds; find_loop k __list_next list d.

Definition list_find_reverse (list d : Z) : L Z :=
  k ← rounds; ptr ← __list_last list; find_loop k __list_prev ptr d.

End lists.

(** ** queue.c *)

Record queue := { head : Z; tail : Z; length : Z }.

(** A queue and the memory of its entries. *)
Record queue_mem := { the_queue : queue; entries : heap }.

Definition set_head (p : Z) (s : queue_mem) : queue_mem :=
  {| the_queue := {| head := p; tail := tail (the_queue s); length := length (the_queue s) |}; entries := entries s |}.
Definition set_tail (p : Z) (s : queue_mem) : queue_mem :=
  {| the_queue := {| head := head (the_queue s); tail := p; length := length (the_queue s) |}; entries := entries s |}.
Definition add_length (n : Z) (s : queue_mem) : queue_mem :=
  {| the_queue := {| head := head (the_queue s); tail := tail (the_queue s); length := length (the_queue s) + n |};
     entries := entries s |}.

Section queues.
Context `{Malloc list_node}.

Abbreviation Q A := (M (list mcall) queue_mem A).

Definition lists {A} (m : M (list mcall) heap A) : Q A :=
  zoom entries (fun m s => {| the_queue := the_queue s; entries := m |}) m.

Definition get_head : Q Z := gets (fun s => head (the_queue s)).
Definition get_tail : Q Z := gets (fun s => tail (the_queue s)).

Definition __queue_init : Q unit :=
  modify (fun s => {| the_queue := {| head := NULL; tail := NULL; length := 0 |}; entries := entries s |}).

(** Whether there is memory for the queue. *)
Definition malloc_queue : Q bool := fun s h => Done (malloc_other h) s (M_malloc_other (malloc_other h) :: h).

Definition queue_alloc : Q bool :=
  queue ← malloc_queue;
  when queue __queue_init ;;
  mret queue.

Definition __queue_free : Q unit := fun s h => Done tt s (M_free_other :: h).

Definition queue_free_all : Q unit := list ← get_head; lists (list_free_all list) ;; __queue_init.

Definition tail_if_none : Q unit :=
  t ← get_tail; when (t =? NULL) (h ← get_head; modify (set_tail h)).

Definition __queue_push_head (entry : Z) : Q unit :=
  h ← get_head; h ← lists (__list_add_head h entry); modify (set_head h) ;;
  tail_if_none ;;
  modify (add_length 1).

Definition queue_push_head (data : Z) : Q Z :=
  entry ← lists (list_alloc data);
  if entry =? NULL then mret (-1)
  else
    h ← get_head; h ← lists (__list_add_head h entry); modify (set_head h) ;;
    tail_if_none ;;
    modify (add_length 1) ;;
    mret 0.

(** The new tail is the entry after the old one, if there was one. *)
Definition move_tail : Q unit :=
  t ← get_tail; n ← lists (load t);
  if negb (next n =? NULL) then modify (set_tail (next n)) else modify (set_head t).

(** The entry is passed to [list_add_tail] as the data of a new one. *)
Definition __queue_push_tail (entry : Z) : Q unit :=
  t ← get_tail; t ← lists (list_add_tail t entry); modify (set_tail t) ;;
  if t =? NULL then mret tt
  else move_tail ;; modify (add_length 1).

Definition queue_push_tail (data : Z) : Q Z :=
  entry ← lists (list_alloc data);
  if entry =? NULL then mret (-1)
  else
    t ← get_tail; t ← lists (__list_add_tail t entry); modify (set_tail t) ;;
    move_tail ;;
    modify (add_length 1) ;;
    mret 0.

Definition __queue_pop_head : Q Z :=
  entry ← get_head;
  if entry =? NULL then mret entry
  else
    h ← lists (__list_remove entry entry); modify (set_head h) ;;
    when (h =? NULL) (modify (set_tail NULL)) ;;
    modify (add_length (-1)) ;;
    mret entry.

Definition __queue_pop_tail : Q Z :=
  entry ← get_tail;
  if entry =? NULL then mret entry
  else
    e ← lists (load entry);
    h ← get_head; h ← lists (__list_remove h entry); modify (set_head h) ;;
    modify (set_tail (prev e)) ;;
    modify (add_length (-1)) ;;
    mret entry.

(** The data of an entry taken out, which is freed. *)
Definition take_data (entry : Z) : Q Z :=
  if entry =? NULL then mret NULL
  else n ← lists (load entry); lists (__list_free entry) ;; mret (data n).

Definition queue_pop_head : Q Z := entry ← __queue_pop_head; take_data entry.
Definition queue_pop_tail : Q Z := entry ← __queue_pop_tail; take_data entry.

Definition __queue_peek_head : Q Z := get_head.
Definition __queue_peek_tail : Q Z := get_tail.

Definition peek_data (entry : Z) : Q Z :=
  if entry =? NULL then mret NULL else n ← lists (load entry); mret (data n).

Definition queue_peek_head : Q Z := entry ← __queue_peek_head; peek_data entry.
Definition queue_peek_tail : Q Z := entry ← __queue_peek_tail; peek_data entry.

Definition queue_length : Q Z := gets (fun s => length (the_queue s)).

End queues.
