(* ===== verification/OmxListSpec.v ===== *)
(** The lists and queues of the OMX core: what they do.

    A list in memory is the sequence of its entries, each an address and its data; the
    rest of the memory is another map, which an operation leaves as it is but for the
    entries that move between the two.  A queue is a sequence of data. *)
From stdpp Require Import gmap.
From S2P Require Import Prelude Memory OmxList.

(** * Lists in memory *)

Abbreviation entry := (Z * Z)%type.

(** The entry after [C], and the one before: [qn] and [pp] when it is empty. *)
Definition hd_of (qn : Z) (C : list entry) : Z := match C with [] => qn | (a, _) :: _ => a end.
Fixpoint lst_of (pp : Z) (C : list entry) : Z := match C with [] => pp | (a, _) :: C' => lst_of a C' end.

Fixpoint seg (m : heap) (pp : Z) (C : list entry) (qn : Z) : Prop :=
  match C with
  | [] => True
  | (a, d) :: C' => m !! a = Some {| next := hd_of qn C'; prev := pp; data := d |} /\ seg m a C' qn
  end.

(** The list [C], first entry after [pp], and the rest [X] of the memory. *)
Record list_from (pp : Z) (m : heap) (C : list entry) (X : heap) : Prop := {
  at_seg : seg m pp C NULL;
  at_keys : NoDup (NULL :: C.*1);
  at_null : X !! NULL = None;
  at_apart : forall k, k ∈ C.*1 -> X !! k = None;
  at_rest : forall k, k ∉ C.*1 -> m !! k = X !! k }.

Abbreviation list_at := (list_from NULL).

Lemma seg_app m pp C1 C2 qn :
  seg m pp (C1 ++ C2) qn <-> seg m pp C1 (hd_of qn C2) /\ seg m (lst_of pp C1) C2 qn.
Proof.
  revert pp. induction C1 as [|[a d] C1 IH]; intros pp; cbn [app seg lst_of]; [tauto|]. rewrite IH.
  assert (E : hd_of qn (C1 ++ C2) = hd_of (hd_of qn C2) C1) by (by destruct C1). rewrite E. tauto.
Qed.

Lemma lst_of_app pp C1 C2 : lst_of pp (C1 ++ C2) = lst_of (lst_of pp C1) C2.
Proof. revert pp. induction C1 as [|[a d] C1 IH]; intros pp; [done|]. apply IH. Qed.

Lemma hd_of_app qn C1 C2 : hd_of qn (C1 ++ C2) = hd_of (hd_of qn C2) C1.
Proof. by destruct C1. Qed.

Lemma seg_frame m m' pp C qn : (forall k, k ∈ C.*1 -> m' !! k = m !! k) -> seg m pp C qn -> seg m' pp C qn.
Proof.
  revert pp. induction C as [|[a d] C IH]; intros pp Hk; [done|]. cbn [seg]. intros [Ha Hs].
  split; [rewrite Hk by (cbn; left); done|]. apply IH; [|done]. intros k Hi. apply Hk. by right.
Qed.

Lemma keys_elem a (C : list entry) : a ∈ C.*1 <-> exists d, (a, d) ∈ C.
Proof.
  rewrite list_elem_of_fmap. split; [intros ([b d] & -> & Hi); by exists d|intros [d Hi]; by exists (a, d)].
Qed.

(** The link of the last entry to the next, and of the first to the previous one. *)
Definition set_last (qn : Z) (C : list entry) (m : heap) : heap :=
  match C with [] => m | _ => alter (with_next qn) (lst_of NULL C) m end.
Definition set_first (pp : Z) (C : list entry) (m : heap) : heap :=
  match C with [] => m | (a, _) :: _ => alter (with_prev pp) a m end.

Lemma lst_of_snoc pp C a d : lst_of pp (C ++ [(a, d)]) = a.
Proof. by rewrite lst_of_app. Qed.

Lemma lst_of_in pp C : C <> [] -> lst_of pp C ∈ C.*1.
Proof.
  destruct C as [|[a d] C _] using rev_ind; [done|]. intros _. rewrite lst_of_snoc, fmap_app, elem_of_app. right. by left.
Qed.

Lemma set_last_ne qn C m k : k ∉ C.*1 -> set_last qn C m !! k = m !! k.
Proof.
  intros Hk. unfold set_last. destruct C as [|c C]; [done|]. rewrite lookup_alter_ne; [done|].
  intros E. apply Hk. rewrite <- E. by apply lst_of_in.
Qed.

Lemma set_first_ne pp C m k : k ∉ C.*1 -> set_first pp C m !! k = m !! k.
Proof. destruct C as [|[a d] C]; [done|]. cbn. intros Hk. rewrite lookup_alter_ne; [done|]. set_solver. Qed.

Lemma seg_set_last m pp C qn qn' : NoDup C.*1 -> seg m pp C qn -> seg (set_last qn' C m) pp C qn'.
Proof.
  destruct C as [|[a d] C _] using rev_ind; [done|]. intros Hnd. rewrite !seg_app. cbn [seg hd_of]. intros (Hs & Ha & _).
  assert (E : set_last qn' (C ++ [(a, d)]) m = alter (with_next qn') a m).
  { unfold set_last. rewrite lst_of_snoc. by destruct C. }
  rewrite E. rewrite fmap_app in Hnd. apply list.NoDup_app in Hnd as (_ & Hd & _).
  split_and!; [|by rewrite lookup_alter_eq, Ha|done]. eapply seg_frame; [|exact Hs].
  intros k Hk. rewrite lookup_alter_ne; [done|]. intros ->. apply (Hd k Hk). by left.
Qed.

Lemma seg_set_first m pp pp' C qn : NoDup C.*1 -> seg m pp C qn -> seg (set_first pp' C m) pp' C qn.
Proof.
  destruct C as [|[a d] C]; [done|]. cbn. intros Hnd [Ha Hs]. apply list.NoDup_cons in Hnd as [Ha' _].
  split; [by rewrite lookup_alter_eq, Ha|]. eapply seg_frame; [|exact Hs].
  intros k Hk. rewrite lookup_alter_ne; [done|]. by intros ->.
Qed.

Lemma keys_app (C1 C2 : list entry) : NoDup (NULL :: (C1 ++ C2).*1) ->
  NoDup C1.*1 /\ NoDup C2.*1 /\ (forall k, k ∈ C1.*1 -> k ∉ C2.*1) /\ (NULL ∉ C1.*1) /\ (NULL ∉ C2.*1).
Proof.
  rewrite fmap_app. intros [Hn Hnd]%list.NoDup_cons. apply list.NoDup_app in Hnd as (H1 & H2 & H3).
  rewrite not_elem_of_app in Hn. split_and!; tauto.
Qed.

(** [new], an entry of the rest, between [C1] and [C2]. *)
Definition splice (new : Z) (d : Z) (C1 C2 : list entry) (m : heap) : heap :=
  set_first new C2 (<[new := {| next := hd_of NULL C2; prev := lst_of NULL C1; data := d |}]> (set_last new C1 m)).

Lemma splice_at m C1 C2 X new nn : list_at m (C1 ++ C2) X -> X !! new = Some nn ->
  list_at (splice new (data nn) C1 C2 m) (C1 ++ (new, data nn) :: C2) (delete new X).
Proof.
  intros [Hs Hk Hn Ha Hr] Hnew. destruct (keys_app _ _ Hk) as (H1 & H2 & H3 & H4 & H5).
  assert (Hni : new ∉ (C1 ++ C2).*1) by (intros Hi; rewrite (Ha _ Hi) in Hnew; done).
  assert (Hnn : new <> NULL) by (intros ->; congruence).
  rewrite fmap_app, not_elem_of_app in Hni. destruct Hni as [Hn1 Hn2]. apply seg_app in Hs as [Hs1 Hs2]. unfold splice.
  assert (HP : (C1 ++ (new, data nn) :: C2).*1 ≡ₚ new :: (C1 ++ C2).*1).
  { rewrite !fmap_app. cbn. by rewrite Permutation_middle. }
  split.
  - rewrite seg_app. cbn [seg hd_of]. split_and!.
    + eapply seg_frame; [|exact (seg_set_last m _ _ _ new H1 Hs1)]. intros k Hi.
      rewrite set_first_ne by (by apply H3). rewrite lookup_insert_ne by (by intros ->). done.
    + rewrite set_first_ne by done. by rewrite lookup_insert_eq.
    + apply (seg_set_first _ (lst_of NULL C1)); [done|]. eapply seg_frame; [|exact Hs2]. intros k Hi.
      rewrite lookup_insert_ne by (by intros ->). apply set_last_ne. intros Hi'. by apply (H3 k).
  - rewrite HP, Permutation_swap. apply list.NoDup_cons. rewrite not_elem_of_cons.
    split; [|done]. split; [done|]. rewrite fmap_app, not_elem_of_app. done.
  - by rewrite lookup_delete_ne.
  - intros k. rewrite HP, elem_of_cons. intros [->|Hi]; [apply lookup_delete_eq|].
    destruct (decide (k = new)) as [->|]; [apply lookup_delete_eq|]. rewrite lookup_delete_ne by done. by apply Ha.
  - intros k. rewrite HP, not_elem_of_cons. intros [Hne Hi]. rewrite lookup_delete_ne by done.
    rewrite <- Hr by done. rewrite fmap_app, not_elem_of_app in Hi. destruct Hi.
    rewrite set_first_ne, lookup_insert_ne, set_last_ne by done. done.
Qed.

(** The entry [e] taken out, alone. *)
Definition cut_out (e : Z) (d : Z) (C1 C2 : list entry) (m : heap) : heap :=
  <[e := {| next := NULL; prev := NULL; data := d |}]>
    (set_first (lst_of NULL C1) C2 (set_last (hd_of NULL C2) C1 m)).

Lemma cut_out_at m C1 e d C2 X : list_at m (C1 ++ (e, d) :: C2) X ->
  list_at (cut_out e d C1 C2 m) (C1 ++ C2) (<[e := {| next := NULL; prev := NULL; data := d |}]> X).
Proof.
  intros [Hs Hk Hn Ha Hr].
  assert (HP : (C1 ++ (e, d) :: C2).*1 ≡ₚ e :: (C1 ++ C2).*1).
  { rewrite !fmap_app. cbn. by rewrite Permutation_middle. }
  rewrite HP in Hk. rewrite Permutation_swap in Hk. apply list.NoDup_cons in Hk as [Hke Hk].
  rewrite not_elem_of_cons in Hke. destruct Hke as [Hen Hke].
  destruct (keys_app _ _ Hk) as (H1 & H2 & H3 & H4 & H5).
  pose proof Hke as Hke'. rewrite fmap_app, not_elem_of_app in Hke'. destruct Hke' as [He1 He2].
  apply seg_app in Hs as [Hs1 [_ Hs2]]. unfold cut_out. split.
  - rewrite seg_app. split.
    + eapply seg_frame; [|exact (seg_set_last m _ _ _ (hd_of NULL C2) H1 Hs1)]. intros k Hi.
      rewrite lookup_insert_ne by (by intros ->). by rewrite set_first_ne by (by apply H3).
    + eapply seg_frame; [intros k Hi; apply lookup_insert_ne; by intros ->|].
      apply (seg_set_first _ e); [done|]. eapply seg_frame; [|exact Hs2]. intros k Hi.
      apply set_last_ne. intros Hi'. by apply (H3 k).
  - done.
  - by rewrite lookup_insert_ne by done.
  - intros k Hi. rewrite lookup_insert_ne by (by intros ->). apply Ha. rewrite HP. by right.
  - intros k Hi. destruct (decide (k = e)) as [->|Hne]; [by rewrite !lookup_insert_eq|].
    rewrite !lookup_insert_ne by done. pose proof Hi as Hi'. rewrite fmap_app, not_elem_of_app in Hi'. destruct Hi'.
    rewrite set_first_ne, set_last_ne by done. apply Hr. rewrite HP, not_elem_of_cons. done.
Qed.

Lemma at_lookup pp m C1 a d C2 X : list_from pp m (C1 ++ (a, d) :: C2) X ->
  m !! a = Some {| next := hd_of NULL C2; prev := lst_of pp C1; data := d |}.
Proof. intros [Hs _ _ _ _]. apply seg_app in Hs as [_ [Ha _]]. done. Qed.

Lemma at_not_null pp m C a X : list_from pp m C X -> a ∈ C.*1 -> (a =? NULL) = false.
Proof.
  intros [_ Hk _ _ _] Hi. apply Z.eqb_neq. intros ->. by apply list.NoDup_cons in Hk as [Hk _].
Qed.

Lemma hd_null pp m C X : list_from pp m C X -> (hd_of NULL C =? NULL) = true <-> C = [].
Proof.
  intros Hat. destruct C as [|[a d] C]; [done|]. cbn. rewrite (at_not_null _ _ _ a _ Hat) by (cbn; by left). done.
Qed.

Lemma at_fuel pp m C X : list_from pp m C X -> (List.length C <= base.size m)%nat.
Proof.
  intros [Hs Hk _ _ _]. apply list.NoDup_cons in Hk as [_ Hk]. rewrite <- size_dom, <- (length_fmap fst).
  rewrite <- (size_list_to_set (C := gset Z)) by done. apply subseteq_size. intros k Hi.
  rewrite elem_of_list_to_set in Hi. apply elem_of_dom. apply keys_elem in Hi as [d (C1 & C2 & ->)%list_elem_of_split].
  apply seg_app in Hs as [_ [Ha _]]. by eexists.
Qed.

(** * list.c *)

Section proofs.
Context `{Malloc list_node}.

Abbreviation wpl := (wp (H := list mcall) (S := heap) False).

Lemma load_wp p n Q (m : heap) h : m !! p = Some n -> Q n m h -> wpl (load p) Q m h.
Proof. intros E HQ. unfold load. apply wp_bind, wp_get. by rewrite E. Qed.

Lemma list_store_wp p f n Q (m : heap) h : m !! p = Some n -> Q tt (alter f p m) h -> wpl (store p f) Q m h.
Proof.
  intros E HQ. unfold store. apply wp_bind. eapply load_wp; [exact E|]. apply wp_modify.
  replace (<[p := f n]> m) with (alter f p m); [done|]. apply map_eq. intros k.
  destruct (decide (k = p)) as [->|]; [by rewrite lookup_alter_eq, E, lookup_insert_eq|].
  by rewrite lookup_alter_ne, lookup_insert_ne by done.
Qed.

Lemma alter_both f g p n (m : heap) : m !! p = Some n -> alter g p (alter f p m) = <[p := g (f n)]> m.
Proof.
  intros E. apply map_eq. intros k. destruct (decide (k = p)) as [->|].
  - by rewrite !lookup_alter_eq, E, lookup_insert_eq.
  - by rewrite !lookup_alter_ne, lookup_insert_ne by done.
Qed.

(** The link of a neighbour, when there is one. *)
Lemma link_prev_wp m C1 C2 X q Q h : list_at m (C1 ++ C2) X -> Q tt (set_last q C1 m) h ->
  wpl (when (negb (lst_of NULL C1 =? NULL)) (store (lst_of NULL C1) (with_next q))) Q m h.
Proof.
  intros Hat HQ. destruct C1 as [|[a d] C1 _] using rev_ind; [done|]. rewrite lst_of_snoc.
  rewrite <- app_assoc in Hat. cbn [app] in Hat.
  rewrite (at_not_null _ _ _ a _ Hat) by (rewrite fmap_app; set_solver). cbn [negb when].
  eapply list_store_wp; [by eapply at_lookup|]. unfold set_last in HQ. rewrite lst_of_snoc in HQ. by destruct C1.
Qed.

Lemma link_next_wp m C1 C2 X q Q h : list_at m (C1 ++ C2) X -> Q tt (set_first q C2 m) h ->
  wpl (when (negb (hd_of NULL C2 =? NULL)) (store (hd_of NULL C2) (with_prev q))) Q m h.
Proof.
  intros Hat HQ. destruct C2 as [|[a d] C2]; [done|]. cbn [hd_of].
  rewrite (at_not_null _ _ _ a _ Hat) by (rewrite fmap_app; set_solver). cbn [negb when].
  eapply list_store_wp; [by eapply at_lookup|done].
Qed.

Lemma rest_lookup pp m C X k n : list_from pp m C X -> X !! k = Some n -> m !! k = Some n /\ k ∉ C.*1.
Proof.
  intros [_ _ _ Ha Hr] Hk. assert (Hni : k ∉ C.*1) by (intros Hi; by rewrite (Ha _ Hi) in Hk).
  by rewrite Hr.
Qed.

Lemma set_first_commute q C (m : heap) k v : k ∉ C.*1 -> set_first q C (<[k := v]> m) = <[k := v]> (set_first q C m).
Proof. destruct C as [|[a d] C]; [done|]. intros Hk. cbn. apply alter_insert_ne. set_solver. Qed.

Lemma alter_comm f g k l (m : heap) : k <> l -> alter f k (alter g l m) = alter g l (alter f k m).
Proof.
  intros Hne. apply map_eq. intros j. destruct (decide (j = k)) as [E|Hk].
  { subst j. by rewrite lookup_alter_eq, !(lookup_alter_ne _ _ l), lookup_alter_eq by done. }
  destruct (decide (j = l)) as [E|Hl].
  { subst j. by rewrite lookup_alter_eq, !(lookup_alter_ne _ _ k), lookup_alter_eq by done. }
  by rewrite !lookup_alter_ne by done.
Qed.

Lemma set_first_alter q C f (m : heap) k : k ∉ C.*1 -> set_first q C (alter f k m) = alter f k (set_first q C m).
Proof. destruct C as [|[a d] C]; [done|]. intros Hk. cbn. apply alter_comm. set_solver. Qed.

Lemma add_before_wp m C1 e d C2 X new nn Q h : list_at m (C1 ++ (e, d) :: C2) X -> X !! new = Some nn ->
  (forall m', list_at m' (C1 ++ (new, data nn) :: (e, d) :: C2) (delete new X) -> Q new m' h) ->
  wpl (__list_add_before e new) Q m h.
Proof.
  intros Hat Hnew HQ. unfold __list_add_before. pose proof (rest_lookup _ _ _ _ _ _ Hat Hnew) as [Hmn Hni].
  rewrite (at_not_null _ _ _ e _ Hat) by (rewrite fmap_app; set_solver).
  apply wp_bind. eapply load_wp; [by eapply at_lookup|]. cbn [prev]. apply wp_bind.
  eapply link_prev_wp; [exact Hat|]. rewrite fmap_app in Hni. cbn in Hni.
  assert (Hm1 : set_last new C1 m !! new = Some nn) by (rewrite set_last_ne by set_solver; done).
  apply wp_bind. eapply list_store_wp; [exact Hm1|]. apply wp_bind.
  eapply list_store_wp; [rewrite lookup_alter_eq, Hm1; reflexivity|]. rewrite (alter_both _ _ _ _ _ Hm1).
  assert (He : set_last new C1 m !! e = m !! e).
  { apply set_last_ne. destruct (keys_app _ _ (at_keys _ _ _ _ Hat)) as (_ & _ & Hd & _). intros Hi.
    apply (Hd e Hi). cbn. left. }
  apply wp_bind. eapply list_store_wp; [rewrite lookup_insert_ne by set_solver; rewrite He; by eapply at_lookup|].
  apply wp_ret, HQ. exact (splice_at _ C1 ((e, d) :: C2) X new nn Hat Hnew).
Qed.

Lemma add_after_wp m C1 e d C2 X new nn Q h : list_at m (C1 ++ (e, d) :: C2) X -> X !! new = Some nn ->
  (forall m', list_at m' (C1 ++ (e, d) :: (new, data nn) :: C2) (delete new X) -> Q e m' h) ->
  wpl (__list_add_after e new) Q m h.
Proof.
  intros Hat Hnew HQ. unfold __list_add_after. pose proof (rest_lookup _ _ _ _ _ _ Hat Hnew) as [Hmn Hni].
  rewrite (at_not_null _ _ _ e _ Hat) by (rewrite fmap_app; set_solver).
  apply wp_bind. eapply load_wp; [by eapply at_lookup|]. cbn [next]. apply wp_bind.
  rewrite cons_middle, app_assoc in Hat. rewrite fmap_app in Hni. cbn in Hni.
  destruct (keys_app _ _ (at_keys _ _ _ _ Hat)) as (_ & _ & Hd & _).
  assert (He2 : e ∉ C2.*1) by (apply Hd; rewrite fmap_app; set_solver).
  eapply link_next_wp; [exact Hat|].
  assert (Hm1 : set_first new C2 m !! new = Some nn) by (rewrite set_first_ne by set_solver; done).
  apply wp_bind. eapply list_store_wp; [exact Hm1|]. apply wp_bind.
  eapply list_store_wp; [rewrite lookup_alter_eq, Hm1; reflexivity|]. rewrite (alter_both _ _ _ _ _ Hm1).
  rewrite <- app_assoc in Hat. apply wp_bind.
  eapply list_store_wp; [rewrite lookup_insert_ne by set_solver; rewrite set_first_ne by done; by eapply at_lookup|].
  apply wp_ret, HQ. rewrite app_assoc in Hat.
  pose proof (splice_at _ _ _ _ _ _ Hat Hnew) as Hs. rewrite <- app_assoc in Hs. cbn [app] in Hs.
  unfold splice in Hs. rewrite lst_of_snoc in Hs.
  assert (E : set_last new (C1 ++ [(e, d)]) m = alter (with_next new) e m).
  { unfold set_last. rewrite lst_of_snoc. by destruct C1. }
  rewrite E, set_first_commute, set_first_alter in Hs by set_solver.
  rewrite alter_insert_ne by set_solver. exact Hs.
Qed.

Lemma list_remove_wp m C1 e d C2 X Q h : list_at m (C1 ++ (e, d) :: C2) X ->
  (forall m', list_at m' (C1 ++ C2) (<[e := {| next := NULL; prev := NULL; data := d |}]> X) ->
    Q (hd_of NULL (C1 ++ C2)) m' h) ->
  wpl (__list_remove (hd_of NULL (C1 ++ (e, d) :: C2)) e) Q m h.
Proof.
  intros Hat HQ. unfold __list_remove.
  rewrite (at_not_null _ _ _ e _ Hat) by (rewrite fmap_app; set_solver).
  pose proof (at_lookup _ _ _ _ _ _ _ Hat) as He.
  apply wp_bind. eapply load_wp; [exact He|]. cbv zeta. cbn [next prev]. apply wp_bind.
  assert (Hkeys : (e ∉ C1.*1) /\ (e ∉ C2.*1) /\ (forall k, k ∈ C1.*1 -> k ∉ C2.*1)).
  { destruct (keys_app _ _ (at_keys _ _ _ _ Hat)) as (_ & H2 & Hd & _). cbn in H2. apply list.NoDup_cons in H2 as [H2 _].
    split_and!; [|done|]; [intros Hi; apply (Hd e Hi); cbn; left|]. intros k Hk Hi. apply (Hd k Hk). cbn. by right. }
  destruct Hkeys as (H1 & H2 & Hd).
  eapply (wp_mono _ _ (fun l m' h' => l = hd_of NULL (C1 ++ C2) /\ m' = set_last (hd_of NULL C2) C1 m /\ h' = h)).
  { destruct C1 as [|[a b] C1 _] using rev_ind; [by apply wp_ret|]. rewrite lst_of_snoc.
    pose proof Hat as Hat'. rewrite <- app_assoc in Hat'. cbn [app] in Hat'.
    rewrite (at_not_null _ _ _ a _ Hat') by (rewrite fmap_app; set_solver).
    apply wp_bind. eapply list_store_wp; [by eapply at_lookup|]. apply wp_ret.
    split_and!; [by destruct C1| |done]. unfold set_last. rewrite lst_of_snoc. by destruct C1. }
  cbv beta. intros l m1 h1 (-> & -> & ->). apply wp_bind.
  eapply (wp_mono _ _ (fun _ m' h' => m' = set_first (lst_of NULL C1) C2 (set_last (hd_of NULL C2) C1 m) /\ h' = h)).
  { destruct C2 as [|[a b] C2]; [by apply wp_ret|]. cbn [hd_of].
    rewrite (at_not_null _ _ _ a _ Hat) by (rewrite fmap_app; set_solver). cbn [negb when].
    rewrite cons_middle, app_assoc in Hat.
    eapply list_store_wp; [rewrite set_last_ne by set_solver; by eapply at_lookup|done]. }
  cbv beta. intros _ m2 h2 (-> & ->).
  assert (He' : set_first (lst_of NULL C1) C2 (set_last (hd_of NULL C2) C1 m) !! e = m !! e)
    by (rewrite set_first_ne, set_last_ne by done; done).
  rewrite He in He'. apply wp_bind. eapply list_store_wp; [exact He'|]. apply wp_bind.
  eapply list_store_wp; [rewrite lookup_alter_eq, He'; reflexivity|]. rewrite (alter_both _ _ _ _ _ He'). apply wp_ret, HQ.
  by apply (cut_out_at _ _ _ _ _ _ Hat).
Qed.

Lemma alloc_wp d Q m h : m !! NULL = None -> (~ memory -> forall h', Q NULL m h') ->
  (forall r h', r <> NULL -> m !! r = None -> Q r (<[r := {| next := NULL; prev := NULL; data := d |}]> m) h') ->
  wpl (list_alloc d) Q m h.
Proof.
  intros Hnull Hno Hyes. unfold list_alloc, __list_alloc. apply wp_bind, wp_bind. unfold malloc, wp at 1.
  destruct (malloc_gives h (dom m)) as [[p n]|] eqn:E.
  - destruct (malloc_new _ _ _ _ E) as [Hp Hni]. apply not_elem_of_dom in Hni.
    assert (Hpn : p <> NULL) by (unfold NULL; lia). unfold __list_init. rewrite (proj2 (Z.eqb_neq _ _)) by done.
    assert (Hm : <[p := n]> m !! p = Some n) by apply lookup_insert_eq.
    apply wp_bind, wp_bind. eapply list_store_wp; [exact Hm|]. apply wp_bind.
    eapply list_store_wp; [rewrite lookup_alter_eq, Hm; reflexivity|]. rewrite (alter_both _ _ _ _ _ Hm), insert_insert_eq.
    eapply list_store_wp; [apply lookup_insert_eq|]. rewrite alter_insert_eq. apply wp_ret.
    rewrite (proj2 (Z.eqb_neq _ _)) by done. cbn [negb when]. apply wp_bind.
    eapply list_store_wp; [apply lookup_insert_eq|]. rewrite alter_insert_eq. apply wp_ret. by apply Hyes.
  - apply wp_bind, wp_ret, wp_ret. cbn [negb when]. apply wp_bind, wp_ret, wp_ret. apply Hno.
    intros Hm. by apply (Hm h (dom m)).
Qed.

Lemma at_alloc pp m C X r n : list_from pp m C X -> r <> NULL -> m !! r = None ->
  X !! r = None /\ list_from pp (<[r := n]> m) C (<[r := n]> X).
Proof.
  intros [Hs Hk Hn Ha Hr] Hrn Hmr. assert (Hni : r ∉ C.*1).
  { intros [d (C1 & C2 & ->)%list_elem_of_split]%keys_elem. apply seg_app in Hs as [_ [Hs _]]. congruence. }
  split; [by rewrite <- Hr|]. split; [|done|by rewrite lookup_insert_ne| |].
  - eapply seg_frame; [|exact Hs]. intros k Hi. apply lookup_insert_ne. by intros ->.
  - intros k Hi. rewrite lookup_insert_ne by (by intros ->). by apply Ha.
  - intros k Hi. destruct (decide (k = r)) as [->|]; [by rewrite !lookup_insert_eq|].
    rewrite !lookup_insert_ne by done. by apply Hr.
Qed.

Lemma list_free_wp e n Q m h : m !! e = Some n -> e <> NULL -> Q tt (delete e m) (M_free e :: h) -> wpl (__list_free e) Q m h.
Proof.
  intros He Hn HQ. unfold __list_free, free, wp. rewrite (proj2 (Z.eqb_neq _ _)) by done.
  by rewrite bool_decide_eq_true_2 by by exists n.
Qed.

(** An entry of the rest freed. *)
Lemma at_free pp m C X e n : list_from pp m C (<[e := n]> X) -> X !! e = None ->
  m !! e = Some n /\ e <> NULL /\ list_from pp (delete e m) C X.
Proof.
  intros Hat HX. assert (Hen : e <> NULL).
  { intros ->. pose proof (at_null _ _ _ _ Hat) as Hn. by rewrite lookup_insert_eq in Hn. }
  destruct (rest_lookup _ _ _ _ e _ Hat (lookup_insert_eq _ _ _)) as [He Hni]. split; [done|]. split; [done|].
  destruct Hat as [Hs Hk Hn Ha Hr]. split.
  - eapply seg_frame; [|exact Hs]. intros k Hi. apply lookup_delete_ne. by intros ->.
  - done.
  - by rewrite lookup_insert_ne in Hn.
  - intros k Hi. specialize (Ha k Hi). by rewrite lookup_insert_ne in Ha by (by intros ->).
  - intros k Hi. destruct (decide (k = e)) as [->|]; [by rewrite lookup_delete_eq|].
    rewrite lookup_delete_ne by done. rewrite Hr by done. by apply lookup_insert_ne.
Qed.

(** An entry deleted: the rest of the memory is as it was. *)
Lemma delete_wp m C1 e d C2 X Q h : list_at m (C1 ++ (e, d) :: C2) X ->
  (forall m', list_at m' (C1 ++ C2) X -> Q (hd_of NULL (C1 ++ C2)) m' (M_free e :: h)) ->
  wpl (__list_delete (hd_of NULL (C1 ++ (e, d) :: C2)) e) Q m h.
Proof.
  intros Hat HQ. unfold __list_delete. apply wp_bind. eapply list_remove_wp; [exact Hat|]. intros m1 H1.
  destruct (at_free _ _ _ _ _ _ H1) as (He & Hen & H2); [apply (at_apart _ _ _ _ Hat); rewrite fmap_app; set_solver|].
  apply wp_bind. eapply list_free_wp; [exact He|done|]. by apply wp_ret, HQ.
Qed.

(** ** Going through a list *)

Lemma list_next_wp pp m C1 a d C2 X Q h : list_from pp m (C1 ++ (a, d) :: C2) X ->
  Q (hd_of NULL C2) m h -> wpl (__list_next a) Q m h.
Proof.
  intros Hat HQ. unfold __list_next. rewrite (at_not_null _ _ _ a _ Hat) by (rewrite fmap_app; set_solver).
  apply wp_bind. eapply load_wp; [by eapply at_lookup|]. by apply wp_ret.
Qed.

Lemma last_wp m C1 a d C2 X h : list_at m (C1 ++ (a, d) :: C2) X ->
  wpl (__list_last a) (fun r m' h' => r = lst_of a C2 /\ m' = m /\ h' = h) m h.
Proof.
  intros Hat. unfold __list_last. rewrite (at_not_null _ _ _ a _ Hat) by (rewrite fmap_app; set_solver).
  apply wp_bind. unfold rounds. apply wp_bind, wp_get, wp_ret.
  assert (Hf : (List.length C2 <= base.size m)%nat) by (pose proof (at_fuel _ _ _ _ Hat); rewrite length_app in *; cbn in *; lia).
  generalize (base.size m) Hf. clear Hf. intros k Hf. revert C1 a d k Hat Hf.
  induction C2 as [|[b e] C2 IH]; intros C1 a d k Hat Hf; destruct k as [|k]; cbn [last_loop List.length] in *; try lia;
    apply wp_bind; (eapply load_wp; [by eapply at_lookup|]); cbn [next hd_of]; try by apply wp_ret.
  rewrite (at_not_null _ _ _ b _ Hat) by (rewrite fmap_app; set_solver). cbn [lst_of].
  apply (IH (C1 ++ [(a, d)]) b e); [by rewrite <- app_assoc|lia].
Qed.

Lemma first_wp m C1 a d C2 X h : list_at m (C1 ++ (a, d) :: C2) X ->
  wpl (__list_first a) (fun r m' h' => r = hd_of NULL (C1 ++ (a, d) :: C2) /\ m' = m /\ h' = h) m h.
Proof.
  intros Hat. unfold __list_first. rewrite (at_not_null _ _ _ a _ Hat) by (rewrite fmap_app; set_solver).
  apply wp_bind. unfold rounds. apply wp_bind, wp_get, wp_ret.
  assert (Hf : (List.length C1 <= base.size m)%nat) by (pose proof (at_fuel _ _ _ _ Hat); rewrite length_app in *; cbn in *; lia).
  generalize (base.size m) Hf. clear Hf. intros k Hf. revert a d C2 k Hat Hf.
  induction C1 as [|[b e] C1 IH] using rev_ind; intros a d C2 k Hat Hf.
  - destruct k; cbn [first_loop]; apply wp_bind; (eapply load_wp; [by eapply at_lookup|]); by apply wp_ret.
  - rewrite length_app in Hf. cbn in Hf. destruct k as [|k]; [lia|]. cbn [first_loop].
    apply wp_bind. eapply load_wp; [by eapply at_lookup|]. cbn [prev]. rewrite lst_of_snoc.
    rewrite <- app_assoc in Hat |- *. cbn [app] in Hat |- *.
    rewrite (at_not_null _ _ _ b _ Hat) by (rewrite fmap_app; set_solver). apply IH; [done|lia].
Qed.

Lemma length_wp m C X h : list_at m C X ->
  wpl (list_length (hd_of NULL C)) (fun r m' h' => r = Z.of_nat (List.length C) /\ m' = m /\ h' = h) m h.
Proof.
  intros Hat. unfold list_length. apply wp_bind. unfold rounds. apply wp_bind, wp_get, wp_ret.
  assert (Hg : forall C2 C1 k l, list_at m (C1 ++ C2) X -> (List.length C2 <= k)%nat ->
    wpl (length_loop k (hd_of NULL C2) l) (fun r m' h' => r = l + Z.of_nat (List.length C2) /\ m' = m /\ h' = h) m h).
  { induction C2 as [|[a d] C2 IH]; intros C1 k l Hl Hk.
    - destruct k; cbn; by rewrite Z.add_0_r.
    - cbn in Hk. destruct k as [|k]; [lia|]. cbn [length_loop hd_of].
      rewrite (at_not_null _ _ _ a _ Hl) by (rewrite fmap_app; set_solver).
      apply wp_bind. eapply load_wp; [by eapply at_lookup|]. cbn [next].
      eapply wp_mono; [apply (IH (C1 ++ [(a, d)])); [by rewrite <- app_assoc|lia]|]. cbv beta.
      intros r m' h' (-> & ? & ?). cbn [List.length]. split_and!; [lia|done|done]. }
  apply (Hg C []); [done|]. by eapply at_fuel.
Qed.

Lemma list_entry_wp m C X i h : list_at m C X -> 0 <= i ->
  wpl (__list_entry (hd_of NULL C) i) (fun r m' h' => r = hd_of NULL (drop (Z.to_nat i) C) /\ m' = m /\ h' = h) m h.
Proof.
  intros Hat Hi. unfold __list_entry. apply wp_bind. unfold rounds. apply wp_bind, wp_get, wp_ret.
  assert (Hg : forall C2 C1 k j, list_at m (C1 ++ C2) X -> (List.length C2 <= k)%nat -> 0 <= j <= i ->
    wpl (entry_loop k (hd_of NULL C2) i j)
      (fun r m' h' => r = hd_of NULL (drop (Z.to_nat (i - j)) C2) /\ m' = m /\ h' = h) m h).
  { induction C2 as [|[a d] C2 IH]; intros C1 k j Hl Hk Hj.
    - rewrite drop_nil. destruct k; by apply wp_ret.
    - cbn in Hk. destruct k as [|k]; [lia|]. cbn [entry_loop]. cbn [hd_of].
      rewrite (at_not_null _ _ _ a _ Hl) by (rewrite fmap_app; set_solver).
      destruct (Z.eqb_spec j i) as [->|Hne]; [rewrite Z.sub_diag; by apply wp_ret|].
      apply wp_bind. eapply list_next_wp; [exact Hl|].
      replace (Z.to_nat (i - j)) with (S (Z.to_nat (i - (j + 1)))) by lia. cbn [drop].
      apply (IH (C1 ++ [(a, d)])); [by rewrite <- app_assoc|lia|lia]. }
  eapply wp_mono; [apply (Hg C [] _ 0); [done|by eapply at_fuel|lia]|]. cbv beta. by rewrite Z.sub_0_r.
Qed.

(** The entries of some data. *)
Abbreviation having d := (filter (fun e : entry => e.2 = d)).
Abbreviation lacking d := (filter (fun e : entry => e.2 <> d)).

Lemma find_wp m C X d h : list_at m C X ->
  wpl (list_find (hd_of NULL C) d) (fun r m' h' => r = hd_of NULL (having d C) /\ m' = m /\ h' = h) m h.
Proof.
  intros Hat. unfold list_find. apply wp_bind. unfold rounds. apply wp_bind, wp_get, wp_ret.
  assert (Hg : forall C2 C1 k, list_at m (C1 ++ C2) X -> (List.length C2 <= k)%nat ->
    wpl (find_loop k __list_next (hd_of NULL C2) d) (fun r m' h' => r = hd_of NULL (having d C2) /\ m' = m /\ h' = h) m h).
  { induction C2 as [|[a e] C2 IH]; intros C1 k Hl Hk.
    - destruct k; by apply wp_ret.
    - cbn in Hk. destruct k as [|k]; [lia|]. cbn [find_loop]. cbn [hd_of].
      rewrite (at_not_null _ _ _ a _ Hl) by (rewrite fmap_app; set_solver).
      apply wp_bind. eapply load_wp; [by eapply at_lookup|]. cbn [data]. rewrite filter_cons. cbn [snd].
      destruct (Z.eqb_spec e d) as [->|Hne]; [rewrite decide_True by done; by apply wp_ret|].
      rewrite decide_False by done. apply wp_bind. eapply list_next_wp; [exact Hl|].
      apply (IH (C1 ++ [(a, e)])); [by rewrite <- app_assoc|lia]. }
  apply (Hg C []); [done|]. by eapply at_fuel.
Qed.

Lemma find_reverse_wp m C X d h : list_at m C X ->
  wpl (list_find_reverse (hd_of NULL C) d) (fun r m' h' => r = lst_of NULL (having d C) /\ m' = m /\ h' = h) m h.
Proof.
  intros Hat. unfold list_find_reverse. apply wp_bind. unfold rounds at 1. apply wp_bind, wp_get, wp_ret, wp_bind.
  assert (Hg : forall C1 C2 k, list_at m (C1 ++ C2) X -> (List.length C1 <= k)%nat ->
    wpl (find_loop k __list_prev (lst_of NULL C1) d) (fun r m' h' => r = lst_of NULL (having d C1) /\ m' = m /\ h' = h) m h).
  { induction C1 as [|[a e] C1 IH] using rev_ind; intros C2 k Hl Hk.
    - destruct k; by apply wp_ret.
    - rewrite length_app in Hk. cbn in Hk. destruct k as [|k]; [lia|]. cbn [find_loop]. rewrite lst_of_snoc.
      rewrite <- app_assoc in Hl. cbn [app] in Hl.
      assert (Ha : (a =? NULL) = false) by (apply (at_not_null _ _ _ a _ Hl); rewrite fmap_app; set_solver).
      rewrite Ha. apply wp_bind. eapply load_wp; [by eapply at_lookup|]. cbn [data].
      rewrite list.filter_app, filter_cons. cbn [snd].
      destruct (Z.eqb_spec e d) as [->|Hne].
      { rewrite decide_True by done. rewrite lst_of_snoc. by apply wp_ret. }
      rewrite decide_False by done. change (having d []) with (@nil entry). rewrite app_nil_r.
      apply wp_bind. unfold __list_prev. rewrite Ha. apply wp_bind. eapply load_wp; [by eapply at_lookup|].
      apply wp_ret. eapply IH; [exact Hl|lia]. }
  destruct C as [|[a e] C]; [apply wp_ret, (Hg [] []); [done|cbn; lia]|]. cbn [hd_of].
  eapply wp_mono; [by apply (last_wp m [] a e C X)|]. cbv beta. intros r m' h' (-> & -> & ->).
  apply (Hg ((a, e) :: C) []); [by rewrite app_nil_r|]. by eapply at_fuel.
Qed.

(** ** Loops that take entries out *)

Lemma next_hd_wp pp m D C X Q h : list_from pp m (D ++ C) X -> Q (hd_of NULL (tl C)) m h ->
  wpl (__list_next (hd_of NULL C)) Q m h.
Proof.
  intros Hat HQ. destruct C as [|[a d] C]; [by apply wp_ret|]. by eapply list_next_wp.
Qed.

Lemma snoc_app (D : list entry) c C : D ++ c :: C = (D ++ [c]) ++ C.
Proof. by rewrite <- app_assoc. Qed.

(** The list without its first entry of data [d]. *)
Fixpoint without_first (d : Z) (C : list entry) : list entry :=
  match C with
  | [] => []
  | (a, e) :: C' => if e =? d then C' else (a, e) :: without_first d C'
  end.

Lemma delete_all_wp m C X d h : list_at m C X ->
  wpl (list_delete_all (hd_of NULL C) d) (fun r m' _ => r = hd_of NULL (lacking d C) /\ list_at m' (lacking d C) X) m h.
Proof.
  intros Hat. unfold list_delete_all, list_foreach_safe. apply wp_bind. unfold rounds. apply wp_bind, wp_get, wp_ret, wp_bind.
  eapply (next_hd_wp _ _ []); [exact Hat|]. set (body := fun ptr list : Z => _).
  assert (Hg : forall C2 D k m h, list_at m (D ++ C2) X -> (List.length C2 <= k)%nat ->
    wpl (foreach_safe k (hd_of NULL C2) (hd_of NULL (tl C2)) (hd_of NULL (D ++ C2)) body)
      (fun r m' _ => r = hd_of NULL (D ++ lacking d C2) /\ list_at m' (D ++ lacking d C2) X) m h).
  { induction C2 as [|[a e] C2 IH]; intros D k m' h' Hl Hk.
    - destruct k; by apply wp_ret.
    - cbn in Hk. destruct k as [|k]; [lia|]. cbn [foreach_safe]. cbn [hd_of tl].
      rewrite (at_not_null _ _ _ a _ Hl) by (rewrite fmap_app; set_solver).
      apply wp_bind. unfold body at 1. apply wp_bind. eapply load_wp; [by eapply at_lookup|]. cbn [data].
      rewrite filter_cons. cbn [snd]. destruct (Z.eqb_spec e d) as [->|Hne].
      + rewrite decide_False by (intros Hn; by apply Hn). apply wp_bind. eapply delete_wp; [exact Hl|].
        intros m1 H1. apply wp_ret, wp_bind. eapply next_hd_wp; [exact H1|]. apply IH; [done|lia].
      + rewrite decide_True by done. apply wp_ret, wp_bind. rewrite snoc_app in Hl. rewrite (snoc_app D (a, e) C2), (snoc_app D (a, e) (lacking d C2)).
        eapply next_hd_wp; [exact Hl|]. apply IH; [done|lia]. }
  apply (Hg C []); [done|]. by eapply at_fuel.
Qed.

Lemma delete_first_wp m C X d h : list_at m C X ->
  wpl (list_delete (hd_of NULL C) d) (fun r m' _ => r = hd_of NULL (without_first d C) /\ list_at m' (without_first d C) X) m h.
Proof.
  intros Hat. unfold list_delete, list_foreach_safe. apply wp_bind. unfold rounds. apply wp_bind, wp_get, wp_ret, wp_bind.
  eapply (next_hd_wp _ _ []); [exact Hat|]. set (body := fun ptr list : Z => _).
  assert (Hg : forall C2 D k m h, list_at m (D ++ C2) X -> (List.length C2 <= k)%nat ->
    wpl (foreach_safe k (hd_of NULL C2) (hd_of NULL (tl C2)) (hd_of NULL (D ++ C2)) body)
      (fun r m' _ => r = hd_of NULL (D ++ without_first d C2) /\ list_at m' (D ++ without_first d C2) X) m h).
  { induction C2 as [|[a e] C2 IH]; intros D k m' h' Hl Hk.
    - destruct k; by apply wp_ret.
    - cbn in Hk. destruct k as [|k]; [lia|]. cbn [foreach_safe without_first]. cbn [hd_of tl].
      rewrite (at_not_null _ _ _ a _ Hl) by (rewrite fmap_app; set_solver).
      apply wp_bind. unfold body at 1. apply wp_bind. eapply load_wp; [by eapply at_lookup|]. cbn [data].
      destruct (Z.eqb_spec e d) as [->|Hne].
      + apply wp_bind. eapply delete_wp; [exact Hl|]. intros m1 H1. apply wp_ret. by apply wp_ret.
      + apply wp_ret, wp_bind. rewrite snoc_app in Hl. rewrite (snoc_app D (a, e) C2), (snoc_app D (a, e) (without_first d C2)).
        eapply next_hd_wp; [exact Hl|]. apply IH; [done|lia]. }
  apply (Hg C []); [done|]. by eapply at_fuel.
Qed.

Lemma free_all_wp m C X h : list_at m C X -> wpl (list_free_all (hd_of NULL C)) (fun _ m' _ => m' = X) m h.
Proof.
  intros Hat. unfold list_free_all, list_foreach_safe. apply wp_bind. unfold rounds. apply wp_bind, wp_get, wp_ret, wp_bind.
  eapply (next_hd_wp _ _ []); [exact Hat|]. pose proof (at_fuel _ _ _ _ Hat) as Hf. revert Hat Hf.
  assert (Hg : forall C pp k m h, list_from pp m C X -> (List.length C <= k)%nat ->
    wpl (foreach_safe k (hd_of NULL C) (hd_of NULL (tl C)) tt (fun ptr _ => __list_free ptr ;; mret (tt, false)))
      (fun _ m' _ => m' = X) m h); [|intros Hat Hf; by eapply Hg].
  clear.
  induction C as [|[a d] C IH]; intros pp k m h Hat Hf.
  - assert (E : m = X) by (apply map_eq; intros i; apply (at_rest _ _ _ _ Hat); apply not_elem_of_nil).
    destruct k; by apply wp_ret.
  - cbn in Hf. destruct k as [|k]; [lia|]. cbn [foreach_safe]. cbn [hd_of tl].
    pose proof (at_not_null _ _ _ a _ Hat ltac:(cbn; left)) as Hn. rewrite Hn. apply Z.eqb_neq in Hn.
    apply wp_bind, wp_bind. eapply list_free_wp; [exact (at_lookup _ _ [] _ _ _ _ Hat)|done|]. apply wp_ret.
    assert (Hat' : list_from a (delete a m) C X).
    { destruct Hat as [[_ Hs] Hk Hnl Ha Hr]. cbn in Hk. rewrite Permutation_swap in Hk. apply list.NoDup_cons in Hk as [Hka Hk].
      rewrite not_elem_of_cons in Hka. split; try done.
      - eapply seg_frame; [|exact Hs]. intros i Hi. apply lookup_delete_ne. intros ->. tauto.
      - intros i Hi. apply Ha. cbn. by right.
      - intros i Hi. destruct (decide (i = a)) as [->|].
        + rewrite lookup_delete_eq. symmetry. apply Ha. cbn. left.
        + rewrite lookup_delete_ne by done. apply Hr. cbn. rewrite not_elem_of_cons. done. }
    apply wp_bind. eapply (next_hd_wp _ _ []); [exact Hat'|]. eapply IH; [exact Hat'|lia].
Qed.

(** ** Adding at the ends *)

(** The entry [r] just allocated is all of a list, or its first, or its last. *)
Section new_entry.
Context (m : heap) (X : heap) (r d : Z).

Abbreviation X' := (<[r := {| next := NULL; prev := NULL; data := d |}]> X).

Lemma new_alone : list_at m [] X' -> X !! r = None -> list_at m [(r, d)] X.
Proof.
  intros Hat HX. pose proof (splice_at m [] [] X' r _ Hat (lookup_insert_eq _ _ _)) as Hs. cbn [data app] in Hs.
  rewrite delete_insert_id in Hs by done. unfold splice in Hs. cbn [set_first set_last hd_of lst_of] in Hs.
  destruct (rest_lookup _ _ _ _ r _ Hat (lookup_insert_eq _ _ _)) as [Hm _]. by rewrite insert_id in Hs.
Qed.

Lemma add_head_wp C Q h : list_at m C X' -> X !! r = None ->
  (forall m', list_at m' ((r, d) :: C) X -> Q r m' h) -> wpl (__list_add_head (hd_of NULL C) r) Q m h.
Proof.
  intros Hat HX HQ. unfold __list_add_head. destruct C as [|[a e] C]; [apply wp_ret, HQ; by apply new_alone|].
  cbn [hd_of]. rewrite (at_not_null _ _ _ a _ Hat) by (cbn; left). apply wp_bind.
  eapply wp_mono; [by apply (first_wp m [] a e C X')|]. cbv beta. intros f m1 h1 (-> & -> & ->). cbn [app hd_of].
  apply wp_bind. eapply (add_before_wp _ []); [exact Hat|apply lookup_insert_eq|]. cbn [data app].
  rewrite delete_insert_id by done. intros m' H'. by apply wp_ret, HQ.
Qed.

Lemma add_tail_empty_wp Q h : list_at m [] X' -> X !! r = None ->
  (list_at m [(r, d)] X -> Q r m h) -> wpl (__list_add_tail NULL r) Q m h.
Proof. intros Hat HX HQ. apply wp_ret, HQ. by apply new_alone. Qed.

Lemma list_add_tail_wp C1 a e C2 Q h : list_at m (C1 ++ (a, e) :: C2) X' -> X !! r = None ->
  (forall m', list_at m' ((C1 ++ (a, e) :: C2) ++ [(r, d)]) X -> Q a m' h) -> wpl (__list_add_tail a r) Q m h.
Proof.
  intros Hat HX HQ. unfold __list_add_tail. rewrite (at_not_null _ _ _ a _ Hat) by (rewrite fmap_app; set_solver).
  apply wp_bind. eapply wp_mono; [by eapply last_wp|]. cbv beta. intros f m1 h1 (-> & -> & ->). apply wp_bind.
  assert (Hl : exists C b c, C1 ++ (a, e) :: C2 = C ++ [(b, c)] /\ lst_of a C2 = b).
  { destruct C2 as [|[b c] C2 _] using rev_ind; [by exists C1, a, e|].
    exists (C1 ++ (a, e) :: C2), b, c. split; [by rewrite <- app_assoc|by rewrite lst_of_snoc]. }
  destruct Hl as (C & b & c & E & ->). rewrite E in *.
  eapply add_after_wp; [exact Hat|apply lookup_insert_eq|]. cbn [data].
  rewrite delete_insert_id by done. intros m' H'. apply wp_ret, HQ. by rewrite <- app_assoc.
Qed.

End new_entry.

(** * queue.c *)

Abbreviation wpq := (wp (H := list mcall) (S := queue_mem) False).

Definition with_entries (s : queue_mem) (m : heap) : queue_mem := {| the_queue := the_queue s; entries := m |}.

Lemma lists_wp {A} (p : M (list mcall) heap A) Q s h :
  wpl p (fun a m h' => Q a (with_entries s m) h') (entries s) h -> wpq (lists p) Q s h.
Proof. unfold lists. by rewrite wp_zoom. Qed.

(** The queue of the entries [C], in a memory whose rest is [X]. *)
Definition queue_ok (s : queue_mem) (C : list entry) (X : heap) : Prop :=
  list_at (entries s) C X /\
  the_queue s = {| head := hd_of NULL C; tail := lst_of NULL C; length := Z.of_nat (List.length C) |}.

Lemma at_null_none pp m C X : list_from pp m C X -> m !! NULL = None.
Proof.
  intros [_ Hk Hn _ Hr]. apply list.NoDup_cons in Hk as [Hk _]. by rewrite Hr.
Qed.

Lemma tail_null pp m C X : list_from pp m C X -> C <> [] -> (lst_of NULL C =? NULL) = false.
Proof. intros Hat Hc. eapply at_not_null; [exact Hat|]. by apply lst_of_in. Qed.

(** A place for new data, or none. *)
Lemma alloc_at_wp d C X Q s h : queue_ok s C X -> (~ memory -> forall h', Q NULL s h') ->
  (forall r m h', r <> NULL -> X !! r = None ->
     list_at m C (<[r := {| next := NULL; prev := NULL; data := d |}]> X) -> Q r (with_entries s m) h') ->
  wpq (lists (list_alloc d)) Q s h.
Proof.
  intros [Hat _] Hno Hyes. apply lists_wp. apply alloc_wp; [by eapply at_null_none| |].
  - intros Hm h'. destruct s. by apply Hno.
  - intros r h' Hr Hmr. destruct (at_alloc _ _ _ _ r {| next := NULL; prev := NULL; data := d |} Hat Hr Hmr).
    by apply Hyes.
Qed.

Lemma push_head_wp d C X s h : queue_ok s C X ->
  wpq (queue_push_head d) (fun r s' _ => (r = -1 /\ ~ memory /\ queue_ok s' C X) \/
    (r = 0 /\ exists a, queue_ok s' ((a, d) :: C) X)) s h.
Proof.
  intros Hq. pose proof Hq as [Hat Eq]. unfold queue_push_head. apply wp_bind. eapply alloc_at_wp; [exact Hq| |].
  { intros Hm h'. apply wp_ret. left. by split_and!. }
  intros r m h' Hr HX H1. rewrite (proj2 (Z.eqb_neq _ _)) by done.
  apply wp_bind, wp_gets, wp_bind, lists_wp. cbn [the_queue with_entries entries]. rewrite Eq. cbn [head].
  eapply add_head_wp; [exact H1|done|]. intros m' H2. apply wp_bind, wp_modify. unfold tail_if_none.
  apply wp_bind, wp_bind, wp_gets. cbn [the_queue set_head with_entries tail head length]. rewrite Eq. cbn [tail].
  destruct C as [|c C]; [|rewrite (tail_null _ _ _ _ Hat) by done]; cbn [when];
    [apply wp_bind, wp_gets, wp_modify|apply wp_ret]; apply wp_bind, wp_modify, wp_ret; right; (split; [done|]); exists r;
    (split; [exact H2|]); cbn; rewrite Eq; cbn.
  - done.
  - destruct c as [a e]. f_equal. lia.
Qed.

Lemma push_tail_wp d C X s h : queue_ok s C X ->
  wpq (queue_push_tail d) (fun r s' _ => (r = -1 /\ ~ memory /\ queue_ok s' C X) \/
    (r = 0 /\ exists a, queue_ok s' (C ++ [(a, d)]) X)) s h.
Proof.
  intros Hq. pose proof Hq as [Hat Eq]. unfold queue_push_tail. apply wp_bind. eapply alloc_at_wp; [exact Hq| |].
  { intros Hm h'. apply wp_ret. left. by split_and!. }
  intros r m h' Hr HX H1. rewrite (proj2 (Z.eqb_neq _ _)) by done.
  apply wp_bind, wp_gets, wp_bind, lists_wp. cbn [the_queue with_entries entries]. rewrite Eq. cbn [tail].
  destruct C as [|[b e] C _] using rev_ind.
  - eapply add_tail_empty_wp; [exact H1|done|]. intros H2. apply wp_bind, wp_modify, wp_bind. unfold move_tail.
    apply wp_bind, wp_gets, wp_bind, lists_wp. eapply load_wp; [exact (at_lookup _ _ [] _ _ _ _ H2)|]. cbn [next hd_of negb Z.eqb NULL].
    apply wp_modify, wp_bind, wp_modify, wp_ret. right. split; [done|]. exists r. split; [exact H2|]. cbn. by rewrite Eq.
  - rewrite lst_of_snoc. eapply (list_add_tail_wp _ _ _ _ _ _ _ []); [exact H1|done|]. intros m' H2.
    apply wp_bind, wp_modify, wp_bind. unfold move_tail.
    apply wp_bind, wp_gets, wp_bind, lists_wp. rewrite <- app_assoc in H2. cbn [app] in H2.
    eapply load_wp; [by eapply at_lookup|]. cbn [next hd_of]. rewrite (proj2 (Z.eqb_neq _ _)) by done. cbn [negb].
    apply wp_modify, wp_bind, wp_modify, wp_ret. right. split; [done|]. exists r. rewrite <- app_assoc. cbn [app].
    split; [exact H2|]. cbn. rewrite Eq. cbn [head length]. rewrite !lst_of_app, !length_app. cbn [lst_of List.length].
    f_equal; [by destruct C as [|[? ?] ?]|lia].
Qed.

Lemma take_data_wp e d C X Q s h : list_at (entries s) C (<[e := {| next := NULL; prev := NULL; data := d |}]> X) ->
  X !! e = None -> (forall m, list_at m C X -> Q d (with_entries s m) (M_free e :: h)) -> wpq (take_data e) Q s h.
Proof.
  intros Hat HX HQ. destruct (at_free _ _ _ _ _ _ Hat HX) as (He & Hen & H1). unfold take_data.
  rewrite (proj2 (Z.eqb_neq _ _)) by done. apply wp_bind, lists_wp. eapply load_wp; [exact He|].
  apply wp_bind, lists_wp. eapply list_free_wp; [exact He|done|]. apply wp_ret. by apply HQ.
Qed.

Lemma pop_head_wp C X s h : queue_ok s C X ->
  wpq queue_pop_head (fun r s' _ => r = List.hd NULL C.*2 /\ queue_ok s' (tl C) X) s h.
Proof.
  intros [Hat Eq]. unfold queue_pop_head, __queue_pop_head. apply wp_bind, wp_bind, wp_gets. rewrite Eq. cbn [head].
  destruct C as [|[e d] C]; [by repeat apply wp_ret|]. cbn [hd_of].
  rewrite (at_not_null _ _ _ e _ Hat) by (cbn; left). apply wp_bind, lists_wp.
  eapply (list_remove_wp _ []); [exact Hat|]. intros m H1. cbn [app] in *. apply wp_bind, wp_modify, wp_bind.
  assert (HX : X !! e = None) by (apply (at_apart _ _ _ _ Hat); cbn; left).
  set (q := {| head := hd_of NULL C; tail := lst_of NULL C; length := Z.of_nat (List.length C) |}).
  assert (Hend : forall s', entries s' = m -> the_queue s' = {| head := hd_of NULL C; tail := lst_of NULL C; length := Z.of_nat (S (List.length C)) |} ->
    wpq (modify (add_length (-1)) ;; mret e) (fun r s1 h1 => wpq (take_data r)
      (fun r s' _ => r = List.hd NULL ((e, d) :: C).*2 /\ queue_ok s' C X) s1 h1) s' h).
  { intros s' Em Es. apply wp_bind, wp_modify, wp_ret. eapply take_data_wp; [cbn; rewrite Em; exact H1|done|].
    intros m' H2. split; [done|]. split; [exact H2|]. cbn. rewrite Es. cbn. f_equal. lia. }
  destruct C as [|[b c] C].
  - apply wp_modify. apply Hend; [done|]. cbn. by rewrite Eq.
  - cbn [hd_of]. rewrite (at_not_null _ _ _ b _ H1) by (cbn; left). apply wp_ret. apply Hend; [done|]. cbn. by rewrite Eq.
Qed.

Lemma pop_tail_wp C X s h : queue_ok s C X ->
  wpq queue_pop_tail (fun r s' _ => r = List.last C.*2 NULL /\ queue_ok s' (removelast C) X) s h.
Proof.
  intros [Hat Eq]. unfold queue_pop_tail, __queue_pop_tail. apply wp_bind, wp_bind, wp_gets. rewrite Eq. cbn [tail].
  destruct C as [|[e d] C _] using rev_ind; [by repeat apply wp_ret|]. rewrite (tail_null _ _ _ _ Hat) by (by destruct C).
  rewrite lst_of_snoc, fmap_app. change ([(e, d)].*2) with [d]. rewrite last_last, removelast_last.
  apply wp_bind, lists_wp. eapply load_wp; [by eapply at_lookup|]. apply wp_bind, wp_gets, wp_bind, lists_wp.
  cbn [the_queue with_entries entries]. rewrite Eq. cbn [head]. eapply list_remove_wp; [exact Hat|]. intros m H1.
  rewrite app_nil_r in *. apply wp_bind, wp_modify, wp_bind, wp_modify, wp_bind, wp_modify, wp_ret.
  eapply take_data_wp; [exact H1|apply (at_apart _ _ _ _ Hat); rewrite fmap_app; set_solver|].
  intros m' H2. split; [done|]. split; [exact H2|]. cbn. rewrite Eq. cbn. rewrite length_app. cbn. f_equal. lia.
Qed.

Lemma peek_head_wp C X s h : queue_ok s C X ->
  wpq queue_peek_head (fun r s' _ => r = List.hd NULL C.*2 /\ s' = s) s h.
Proof.
  intros [Hat Eq]. unfold queue_peek_head, __queue_peek_head, peek_data. apply wp_bind, wp_gets. rewrite Eq. cbn [head].
  destruct C as [|[e d] C]; [by apply wp_ret|]. cbn [hd_of]. rewrite (at_not_null _ _ _ e _ Hat) by (cbn; left).
  apply wp_bind, lists_wp. eapply load_wp; [exact (at_lookup _ _ [] _ _ _ _ Hat)|]. apply wp_ret. split; [done|].
  by destruct s.
Qed.

Lemma peek_tail_wp C X s h : queue_ok s C X ->
  wpq queue_peek_tail (fun r s' _ => r = List.last C.*2 NULL /\ s' = s) s h.
Proof.
  intros [Hat Eq]. unfold queue_peek_tail, __queue_peek_tail, peek_data. apply wp_bind, wp_gets. rewrite Eq. cbn [tail].
  destruct C as [|[e d] C _] using rev_ind; [by apply wp_ret|]. rewrite (tail_null _ _ _ _ Hat) by (by destruct C).
  rewrite lst_of_snoc, fmap_app. change ([(e, d)].*2) with [d]. rewrite last_last. apply wp_bind, lists_wp. eapply load_wp; [by eapply at_lookup|].
  apply wp_ret. split; [done|]. by destruct s.
Qed.

Lemma queue_free_all_wp C X s h : queue_ok s C X ->
  wpq queue_free_all (fun _ s' _ => queue_ok s' [] X /\ entries s' = X) s h.
Proof.
  intros [Hat Eq]. unfold queue_free_all. apply wp_bind, wp_gets, wp_bind, lists_wp. rewrite Eq. cbn [head].
  eapply wp_mono; [by apply free_all_wp|]. cbv beta. intros _ m h' ->. apply wp_modify. split; [|done]. split; [|done].
  cbn. split; [done|apply NoDup_singleton|exact (at_null _ _ _ _ Hat)|by intros k ?%not_elem_of_nil|done].
Qed.

(** * The contract of a queue *)

Inductive queue_op :=
| Push_head (d : Z) | Push_tail (d : Z) | Pop_head | Pop_tail | Peek_head | Peek_tail | Length | Free_all.

Definition run_op (op : queue_op) : M (list mcall) queue_mem Z :=
  match op with
  | Push_head d => queue_push_head d
  | Push_tail d => queue_push_tail d
  | Pop_head => queue_pop_head
  | Pop_tail => queue_pop_tail
  | Peek_head => queue_peek_head
  | Peek_tail => queue_peek_tail
  | Length => queue_length
  | Free_all => queue_free_all ;; mret 0
  end.

Fixpoint run_ops (ops : list queue_op) : M (list mcall) queue_mem (list Z) :=
  match ops with
  | [] => mret []
  | op :: ops' => a ← run_op op; l ← run_ops ops'; mret (a :: l)
  end.

(** What a queue of [D] answers, and the queue after it.  The data of an empty queue is
    NULL. *)
Inductive queue_spec (D : list Z) : queue_op -> Z -> list Z -> Prop :=
| Spec_push_head d : queue_spec D (Push_head d) 0 (d :: D)
| Spec_push_tail d : queue_spec D (Push_tail d) 0 (D ++ [d])
| Spec_no_head d : ~ memory -> queue_spec D (Push_head d) (-1) D
| Spec_no_tail d : ~ memory -> queue_spec D (Push_tail d) (-1) D
| Spec_pop_head : queue_spec D Pop_head (List.hd NULL D) (tl D)
| Spec_pop_tail : queue_spec D Pop_tail (List.last D NULL) (removelast D)
| Spec_peek_head : queue_spec D Peek_head (List.hd NULL D) D
| Spec_peek_tail : queue_spec D Peek_tail (List.last D NULL) D
| Spec_length : queue_spec D Length (Z.of_nat (List.length D)) D
| Spec_free_all : queue_spec D Free_all 0 [].

Inductive queue_run : list Z -> list queue_op -> list Z -> list Z -> Prop :=
| Run_end D : queue_run D [] [] D
| Run_step D op a D' ops l D'' : queue_spec D op a D' -> queue_run D' ops l D'' -> queue_run D (op :: ops) (a :: l) D''.

Lemma snd_tl (C : list entry) : (tl C).*2 = tl C.*2.
Proof. by destruct C. Qed.

Lemma snd_removelast (C : list entry) : (removelast C).*2 = removelast C.*2.
Proof.
  destruct C as [|[a d] C _] using rev_ind; [done|]. rewrite removelast_last, fmap_app. change ([(a, d)].*2) with [d].
  by rewrite removelast_last.
Qed.

Lemma queue_op_wp op C X s h : queue_ok s C X ->
  wpq (run_op op) (fun a s' _ => exists C', queue_spec C.*2 op a C'.*2 /\ queue_ok s' C' X) s h.
Proof.
  intros Hq. destruct op as [d|d| | | | | |]; cbn [run_op].
  - eapply wp_mono; [by eapply push_head_wp|]. cbv beta. intros a s' h' [(-> & Hm & Hq')|(-> & r & Hq')].
    + exists C. split; [by constructor|done].
    + exists ((r, d) :: C). split; [constructor|done].
  - eapply wp_mono; [by eapply push_tail_wp|]. cbv beta. intros a s' h' [(-> & Hm & Hq')|(-> & r & Hq')].
    + exists C. split; [by constructor|done].
    + exists (C ++ [(r, d)]). rewrite fmap_app. split; [constructor|done].
  - eapply wp_mono; [by eapply pop_head_wp|]. cbv beta. intros a s' h' [-> Hq']. exists (tl C). rewrite snd_tl.
    split; [constructor|done].
  - eapply wp_mono; [by eapply pop_tail_wp|]. cbv beta. intros a s' h' [-> Hq']. exists (removelast C).
    rewrite snd_removelast. split; [constructor|done].
  - eapply wp_mono; [by eapply peek_head_wp|]. cbv beta. intros a s' h' [-> ->]. exists C. split; [constructor|done].
  - eapply wp_mono; [by eapply peek_tail_wp|]. cbv beta. intros a s' h' [-> ->]. exists C. split; [constructor|done].
  - unfold queue_length. apply wp_gets. exists C. split; [|done]. destruct Hq as [_ ->]. cbn [length].
    rewrite <- (length_fmap snd C). constructor.
  - apply wp_bind. eapply wp_mono; [by eapply queue_free_all_wp|]. cbv beta. intros _ s' h' [Hq' _]. apply wp_ret.
    exists []. split; [constructor|done].
Qed.

Lemma queue_ops_wp ops C X s h : queue_ok s C X ->
  wpq (run_ops ops) (fun l s' _ => exists C', queue_run C.*2 ops l C'.*2 /\ queue_ok s' C' X) s h.
Proof.
  revert C s h. induction ops as [|op ops IH]; intros C s h Hq; cbn [run_ops].
  { apply wp_ret. exists C. split; [constructor|done]. }
  apply wp_bind. eapply wp_mono; [by eapply queue_op_wp|]. cbv beta. intros a s1 h1 (C1 & Hop & H1).
  apply wp_bind. eapply wp_mono; [by eapply IH|]. cbv beta. intros l s2 h2 (C2 & Hrun & H2).
  apply wp_ret. exists C2. split; [by econstructor|done].
Qed.

(** The life of a queue; [None] when there is no memory for it. *)
Definition queue_session (ops : list queue_op) : M (list mcall) queue_mem (option (list Z)) :=
  ok ← queue_alloc;
  if (ok : bool) then l ← run_ops ops; queue_free_all ;; __queue_free ;; mret (Some l) else mret None.

(** C20. (refinement) The linked queue is a sequence of data: pushing adds at its end,
    popping and peeking give the data at that end or NULL, the length is the number of
    data, whatever the sequence of operations and whenever memory runs out, when a push
    fails and changes nothing.  Freeing it gives all its memory back and leaves the rest
    of the memory, other lists included, as it was; nothing is used once freed and the
    loops end. *)
Theorem queue_refines ops s h : entries s !! NULL = None ->
  wpq (queue_session ops) (fun o s' _ => entries s' = entries s /\
    match o with Some l => exists D, queue_run [] ops l D | None => malloc_other h = false end) s h.
Proof.
  intros Hn. unfold queue_session, queue_alloc. apply wp_bind, wp_bind. unfold malloc_queue, wp at 1.
  destruct (malloc_other h) eqn:E; cbn [when]; [|by apply wp_bind, wp_ret, wp_ret, wp_ret].
  apply wp_bind, wp_modify, wp_ret.
  set (s1 := {| the_queue := {| head := NULL; tail := NULL; length := 0 |}; entries := entries s |}).
  assert (H1 : queue_ok s1 [] (entries s)).
  { split; [|done]. cbn. split; [done|apply NoDup_singleton|done|by intros k ?%not_elem_of_nil|done]. }
  apply wp_bind. eapply wp_mono; [by eapply queue_ops_wp|]. cbv beta. intros l s2 h2 (C & Hrun & H2).
  apply wp_bind. eapply wp_mono; [by eapply queue_free_all_wp|]. cbv beta. intros _ s3 h3 [_ H3].
  apply wp_ret. split; [done|]. by exists C.*2.
Qed.

Lemma having_lacking d (C : list entry) : having d (lacking d C) = [].
Proof.
  induction C as [|[a e] C IH]; [done|]. rewrite (filter_cons (fun c : entry => c.2 <> d)). cbn [snd].
  destruct (decide (e <> d)) as [Hne|]; [|done]. rewrite filter_cons. cbn [snd]. by rewrite decide_False.
Qed.

(** (equivalence) list_delete_all is a filter: of a list in memory it leaves exactly
    the entries whose data is not the one given, in their order and at their place,
    linked both ways, returns the first of them, and frees the others; the rest of the
    memory does not change.  list_length then counts those left and list_find finds no
    entry of that data. *)
Theorem list_delete_all_filters m C X d h : list_at m C X ->
  wpl (l ← list_delete_all (hd_of NULL C) d; n ← list_length l; p ← list_find l d; mret (l, n, p))
    (fun '(l, n, p) m' _ => l = hd_of NULL (lacking d C) /\ n = Z.of_nat (List.length (lacking d C)) /\ p = NULL /\
      list_at m' (lacking d C) X) m h.
Proof.
  intros Hat. apply wp_bind. eapply wp_mono; [by eapply delete_all_wp|]. cbv beta. intros l m1 h1 [-> H1].
  apply wp_bind. eapply wp_mono; [by eapply length_wp|]. cbv beta. intros n ? ? (-> & -> & ->).
  apply wp_bind. eapply wp_mono; [by eapply find_wp|]. cbv beta. intros p ? ? (-> & -> & ->). apply wp_ret.
  split_and!; try done. by rewrite having_lacking.
Qed.

End proofs.

(** * Witnesses *)

Definition list_memory (bad : list nat) : Malloc list_node := growing_memory {| next := -1; prev := -1; data := -1 |} bad.

Definition queue0 (m : heap) : queue_mem := {| the_queue := {| head := -1; tail := -1; length := -1 |}; entries := m |}.

Definition demo_ops : list queue_op :=
  [Push_tail 5; Push_tail 6; Push_head 7; Push_tail 8; Pop_head; Peek_tail; Pop_tail; Length; Pop_tail; Pop_head].

Theorem queue_refines_witness :
  wp False (queue_session (H := list_memory [2%nat]) demo_ops) (fun o s' _ => entries s' = entries (queue0 ∅) /\
    match o with
    | Some l => exists D, queue_run (H := list_memory [2%nat]) [] demo_ops l D
    | None => malloc_other (Malloc := list_memory [2%nat]) [] = false
    end) (queue0 ∅) [].
Proof. apply (queue_refines (H := list_memory [2%nat])). reflexivity. Defined.

Definition demo_cells : list entry := [(16, 5); (32, 7); (48, 5)].

Definition demo_heap : heap :=
  {[ 16 := {| next := 32; prev := 0; data := 5 |}; 32 := {| next := 48; prev := 16; data := 7 |};
     48 := {| next := 0; prev := 32; data := 5 |} ]}.

Lemma demo_at : list_at demo_heap demo_cells ∅.
Proof.
  split; [by repeat split|by apply (bool_decide_unpack _); vm_compute|done|done|].
  intros k Hk. unfold demo_heap, demo_cells in *. cbn in Hk.
  rewrite !lookup_insert_ne by set_solver. by rewrite lookup_singleton_ne by set_solver.
Qed.

Theorem list_delete_all_filters_witness :
  list_at demo_heap demo_cells ∅ /\
  wp False (l ← list_delete_all (hd_of NULL demo_cells) 5; n ← list_length l; p ← list_find l 5; mret (l, n, p))
    (fun '(l, n, p) m' _ => l = 32 /\ n = 1 /\ p = NULL /\ list_at m' [(32, 7)] ∅) demo_heap [].
Proof. split; [exact demo_at|exact (list_delete_all_filters _ _ _ 5 [] demo_at)]. Defined.

(** ** What goes wrong *)

#[local] Instance good_memory : Malloc list_node := list_memory [].

Definition answer_of {A} (o : outcome (list mcall) queue_mem A) : option A :=
  match o with Done a _ _ => Some a | _ => None end.

(** An entry pushed at the tail: the queue holds its address, not its data. *)
Example push_tail_entry :
  answer_of ((__queue_init ;; e ← lists (list_alloc 7); __queue_push_tail e ;; d ← queue_pop_head; mret (e, d)) (queue0 ∅) []) =
  Some (16, 16).
Proof. vm_compute. reflexivity. Qed.

(** Without memory, it loses the tail of the queue. *)
Example push_tail_loses :
  answer_of ((__queue_init ;; _ ← queue_push_tail (H := list_memory []) 5; e ← lists (list_alloc (H := list_memory []) 7);
    __queue_push_tail (H := list_memory [2%nat]) e ;; h ← queue_peek_head; t ← queue_peek_tail; mret (h, t)) (queue0 ∅) []) =
  Some (5, NULL).
Proof. vm_compute. reflexivity. Qed.
