(* ===== verification/FenceMgr.v ===== *)
(** The fence manager of libwsbm: libwsbm/src/wsbm_fencemgr.c.

    A fence stands for work given to the device; it signals some types of completion.
    The fences of a class that have types left to signal are on the list of their
    class, in the order of their creation; a fence found to have signalled a type
    makes the fences before it in its class signal the same type, without asking the
    device.

    The memory is explicit: the fences are in a map by address, their links (the field
    [head]) in a family of links ([Rings]); the head of class [c] is at the address
    [class_head c].  The manager's callbacks are an interface, [FenceDriver]; the one
    the library comes with, for the TTM of the kernel, is the instance built on [Drm].
    One thread runs: the mutexes of the classes are not represented, except that they
    may fail to be created. *)
From stdpp Require Import gmap.
From S2P Require Import Prelude Rings.

(** What is reached through [fence->private]: the pointer, and the bytes it points to
    when they were copied into the fence. *)
Abbreviation priv := (Z * list Z)%type.

Record fence_object := {
  fence_class : Z;
  fence_type : Z;
  private : priv;
  refCount : Z;
  signaled_types : Z }.

Record fence_mgr := {
  num_classes : Z;
  mgr_count : Z;
  fences : gmap Z fence_object;
  head : links }.

Inductive fcall :=
| F_calloc (r : option Z) | F_free (p : Z)
| F_alloc (ok : bool) | F_release
| F_mutex_init (ok : bool) | F_mutex_free
| F_signaled (handle flush_type ret types : Z)
| F_finish (handle fence_type : Z) (lazy : bool) (ret : Z)
| F_unref (handle : Z)
| F_usleep (us : Z).

(** The environment of the manager: addresses for the fences, other memory, mutexes. *)
Class FenceEnv := {
  fence_calloc : list fcall -> gset Z -> option Z;
  other_alloc : list fcall -> bool;
  mutex_init : list fcall -> bool;
  fence_calloc_new : forall h used p, fence_calloc h used = Some p -> 0 < p /\ p ∉ used }.

Definition EAGAIN : Z := 11.
Definition ERESTART : Z := 85.

(** struct _WsbmFenceMgrCreateInfo: the callbacks do not touch the fences. *)
Class FenceDriver := {
  drv_signaled : priv -> Z -> M (list fcall) unit (Z * Z);
  drv_finish : priv -> Z -> bool -> M (list fcall) unit Z;
  drv_unreference : priv -> M (list fcall) unit unit }.

Definition class_head (c : Z) : Z := - (c + 1).

Definition set_fences (f : gmap Z fence_object) (s : fence_mgr) : fence_mgr :=
  {| num_classes := num_classes s; mgr_count := mgr_count s; fences := f; head := head s |}.

Definition set_head (k : links) (s : fence_mgr) : fence_mgr :=
  {| num_classes := num_classes s; mgr_count := mgr_count s; fences := fences s; head := k |}.

Definition set_count (n : Z) (s : fence_mgr) : fence_mgr :=
  {| num_classes := num_classes s; mgr_count := int32 n; fences := fences s; head := head s |}.

#[export] Program Instance fence_links : Linked unit fence_mgr := {|
  links_of _ s := head s;
  set_links _ k s := set_head k s;
  live _ s p := bool_decide (is_Some (fences s !! p)) || ((- num_classes s <=? p) && (p <? 0)) |}.
Next Obligation. done. Qed.
Next Obligation. done. Qed.
Next Obligation. done. Qed.

Section fence_mgr.
Context `{FenceEnv} `{FenceDriver}.

Abbreviation MF A := (M (list fcall) fence_mgr A).

Definition call (c : fcall) : MF unit := fun s h => Done tt s (c :: h).

Definition callback {A} (m : M (list fcall) unit A) : MF A := zoom (fun _ => tt) (fun _ s => s) m.

Definition alloc_other : MF bool := fun s h => let ok := other_alloc h in Done ok s (F_alloc ok :: h).

Definition WSBM_MUTEX_INIT : MF bool := fun s h => let ok := mutex_init h in Done ok s (F_mutex_init ok :: h).

Definition WSBM_MUTEX_FREE : MF unit := call F_mutex_free.

Definition get_fence (p : Z) : MF fence_object :=
  s ← get; match fences s !! p with Some f => mret f | None => undefined end.

Definition set_fence (p : Z) (f : fence_object) : MF unit :=
  s ← get;
  if bool_decide (is_Some (fences s !! p)) then modify (set_fences (<[p := f]> (fences s))) else undefined.

Definition set_refs (n : Z) (f : fence_object) : fence_object :=
  {| fence_class := fence_class f; fence_type := fence_type f; private := private f; refCount := int32 n;
     signaled_types := signaled_types f |}.

Definition set_signaled (n : Z) (f : fence_object) : fence_object :=
  {| fence_class := fence_class f; fence_type := fence_type f; private := private f; refCount := refCount f;
     signaled_types := n |}.

(** An access to [mgr->classes[c]]. *)
Definition class_of (c : Z) : MF Z :=
  s ← get; if (0 <=? c) && (c <? num_classes s) then mret (class_head c) else undefined.

Definition wsbmFenceType (fence : Z) : MF Z := f ← get_fence fence; mret (fence_type f).

(** ** The manager *)

Definition free_mutexes (n : nat) : MF unit := for_each (seq 0 n) (fun _ => WSBM_MUTEX_FREE ;; WSBM_MUTEX_FREE).

(** The classes from [i] on; [false] once a mutex could not be made and all was undone. *)
Fixpoint init_classes (n i : nat) : MF bool :=
  match n with
  | O => mret true
  | S n =>
      WSBMINITLISTHEAD tt (class_head (Z.of_nat i)) ;;
      ret ← WSBM_MUTEX_INIT;
      if negb ret then free_mutexes i ;; mret false
      else
        ret ← WSBM_MUTEX_INIT;
        if negb ret then WSBM_MUTEX_FREE ;; free_mutexes i ;; mret false
        else init_classes n (S i)
  end.

Definition wsbmFenceMgrCreate (classes : Z) : MF bool :=
  tmp ← alloc_other;
  if negb tmp then mret false
  else
    modify (fun _ => {| num_classes := classes; mgr_count := 0; fences := ∅;
                        head := {| nexts := ∅; prevs := ∅ |} |}) ;;
    c ← alloc_other;
    if negb c then call F_release ;; mret false
    else
      ok ← init_classes (Z.to_nat classes) 0;
      if negb ok then call F_release ;; call F_release ;; mret false
      else modify (set_count 0) ;; mret true.

(** ** References *)

Definition wsbmFenceReference (fence : option Z) : MF (option Z) :=
  match fence with
  | None => mret None
  | Some p =>
      f ← get_fence p;
      set_fence p (set_refs (refCount f + 1) f) ;;
      mret (Some p)
  end.

Definition free_fence (p : Z) : MF unit := fun s h =>
  if bool_decide (is_Some (fences s !! p)) then
    Done tt (set_head (forget p (head s)) (set_fences (delete p (fences s)) s)) (F_free p :: h)
  else Undef h.

(** The caller's pointer is reset. *)
Definition wsbmFenceUnreference (pFence : option Z) : MF unit :=
  match pFence with
  | None => mret tt
  | Some p =>
      f ← get_fence p;
      set_fence p (set_refs (refCount f - 1) f) ;;
      if int32 (refCount f - 1) =? 0 then
        class_of (fence_class f) ;;
        WSBMLISTDELINIT tt p ;;
        f ← get_fence p;
        when (negb (fst (private f) =? 0)) (callback (drv_unreference (private f))) ;;
        s ← get; modify (set_count (mgr_count s - 1)) ;;
        free_fence p
      else mret tt
  end.

(** ** Signalling *)

(** [wsbmAtomicCmpXchg] on the types signalled by a fence. *)
Definition signaled_CmpXchg (p old new : Z) : MF Z :=
  f ← get_fence p;
  if signaled_types f =? old then set_fence p (set_signaled new f) ;; mret (signaled_types f)
  else mret (signaled_types f).

(** The compare-and-swap of [wsbmSignalPreviousFences]; nothing happens between the
    read and the swap, so that one round is enough. *)
Fixpoint signal_entry (fuel : nat) (entry types : Z) : MF Z :=
  match fuel with
  | O => undefined
  | S n =>
      f ← get_fence entry;
      let old := signaled_types f in
      let types := Z.lor old (Z.land types (fence_type f)) in
      if types =? old then mret types
      else
        ret_st ← signaled_CmpXchg entry old types;
        if ret_st =? old then mret types else signal_entry n entry types
  end.

(** The loop from [list] on, backwards; the fences bound its rounds. *)
Fixpoint signal_previous (fuel : nat) (hd list types : Z) : MF unit :=
  if list =? hd then mret tt
  else
    next ← get_next tt list;
    if next =? list then mret tt
    else
      match fuel with
      | O => undefined
      | S n =>
          prev ← get_prev tt list;
          types ← signal_entry 1 list types;
          f ← get_fence list;
          when (types =? fence_type f) (WSBMLISTDELINIT tt list) ;;
          signal_previous n hd prev types
      end.

Definition wsbmSignalPreviousFences (list class types : Z) : MF unit :=
  hd ← class_of class;
  s ← get; signal_previous (size (fences s)) hd list types.

Definition wsbmFenceFinish (fence type : Z) (lazy : bool) : MF Z :=
  f ← get_fence fence;
  if Z.land (signaled_types f) type =? type then mret 0
  else
    ret ← callback (drv_finish (private f) type lazy);
    if negb (ret =? 0) then mret ret
    else
      wsbmSignalPreviousFences fence (fence_class f) type ;; mret ret.

Definition wsbmFenceSignaledTypeCached (fence : Z) : MF Z :=
  f ← get_fence fence; mret (signaled_types f).

(** The compare-and-swap of [wsbmFenceSignaledType]. *)
Fixpoint signal_fence (fuel : nat) (fence class signaled : Z) : MF unit :=
  match fuel with
  | O => undefined
  | S n =>
      f ← get_fence fence;
      let old := signaled_types f in
      let types := Z.lor old signaled in
      if types =? old then mret tt
      else
        ret_st ← signaled_CmpXchg fence old types;
        when (old =? ret_st) (wsbmSignalPreviousFences fence class signaled) ;;
        if negb (old =? ret_st) then signal_fence n fence class signaled else mret tt
  end.

(** The result, and what is stored in [*signaled]. *)
Definition wsbmFenceSignaledType (fence flush_type : Z) : MF (Z * Z) :=
  f ← get_fence fence;
  if Z.land (signaled_types f) flush_type =? flush_type then mret (0, signaled_types f)
  else
    '(ret, signaled) ← callback (drv_signaled (private f) flush_type);
    if negb (ret =? 0) then f ← get_fence fence; mret (ret, signaled_types f)
    else
      signal_fence 1 fence (fence_class f) signaled ;;
      mret (0, signaled).

Definition wsbmFenceSignaled (fence flush_type : Z) : MF bool :=
  '(ret, types) ← wsbmFenceSignaledType fence flush_type;
  if negb (ret =? 0) then mret false else mret (Z.land types flush_type =? flush_type).

Definition wsbmFenceSignaledCached (fence flush_type : Z) : MF bool :=
  types ← wsbmFenceSignaledTypeCached fence; mret (Z.land types flush_type =? flush_type).

(** ** Creation *)

(** The size of struct _WsbmFenceObject, which is a multiple of 16: the copied bytes
    follow it. *)
Definition FENCE_SIZE : Z := 32.

Definition calloc_fence : MF (option Z) := fun s h =>
  let r := fence_calloc h (dom (fences s)) in
  match r with
  | Some p =>
      Done r (set_head {| nexts := <[p := 0]> (nexts (head s)); prevs := <[p := 0]> (prevs (head s)) |}
               (set_fences (<[p := {| fence_class := 0; fence_type := 0; private := (0, []); refCount := 0;
                                      signaled_types := 0 |}]> (fences s)) s)) (F_calloc r :: h)
  | None => Done None s (F_calloc None :: h)
  end.

(** [copy]: the bytes at [*private], when they are to be copied. *)
Definition wsbmFenceCreateSig (class type signaled ptr : Z) (copy : list Z) : MF (option Z) :=
  hd ← class_of class;
  fence ← calloc_fence;
  match fence with
  | None =>
      ret ← callback (drv_finish (ptr, copy) type false);
      when (negb (ret =? 0)) (call (F_usleep 10000000)) ;;
      callback (drv_unreference (ptr, copy)) ;;
      mret None
  | Some p =>
      set_fence p {| fence_class := class; fence_type := type;
                     private := (if bool_decide (copy = []) then (ptr, []) else (p + FENCE_SIZE, copy));
                     refCount := 1; signaled_types := signaled |} ;;
      WSBMLISTADDTAIL tt p hd ;;
      s ← get; modify (set_count (mgr_count s + 1)) ;;
      mret (Some p)
  end.

Definition wsbmFenceCreate (class type ptr : Z) (copy : list Z) : MF (option Z) :=
  wsbmFenceCreateSig class type 0 ptr copy.

End fence_mgr.

(** * The fences of the TTM

    [Drm]: the kernel, which may ask for a wait to be tried again, but not for ever. *)
Class Drm := {
  drm_fence_signaled : list fcall -> Z -> Z -> Z * Z;
  drm_fence_finish : list fcall -> Z -> Z -> bool -> Z;
  drm_tries : nat }.

Section ttm.
Context `{Drm}.

Abbreviation MD A := (M (list fcall) unit A).

Definition tSignaled (private : priv) (flush_type : Z) : MD (Z * Z) := fun s h =>
  let '(ret, types) := drm_fence_signaled h (fst private) flush_type in
  let types := if ret =? 0 then types else 0 in
  Done (ret, types) s (F_signaled (fst private) flush_type ret types :: h).

Fixpoint finish_loop (fuel : nat) (handle type : Z) (lazy : bool) : MD Z :=
  match fuel with
  | O => undefined
  | S n => fun s h =>
      let ret := drm_fence_finish h handle type lazy in
      let h := F_finish handle type lazy ret :: h in
      if (ret =? - EAGAIN) || (ret =? - ERESTART) then finish_loop n handle type lazy s h
      else Done ret s h
  end.

Definition tFinish (private : priv) (type : Z) (lazy : bool) : MD Z := finish_loop drm_tries (fst private) type lazy.

Definition tUnref (private : priv) : MD unit := fun s h => Done tt s (F_unref (fst private) :: h).

#[export] Instance ttm_driver : FenceDriver :=
  {| drv_signaled := tSignaled; drv_finish := tFinish; drv_unreference := tUnref |}.

Context `{FenceEnv}.

Definition wsbmFenceMgrTTMInit (numClass : Z) : M (list fcall) fence_mgr bool :=
  priv ← alloc_other;
  if negb priv then mret false
  else
    mgr ← wsbmFenceMgrCreate numClass;
    if negb mgr then call F_release ;; mret false else mret true.

(** [n]: the number of classes. *)
Definition wsbmFenceMgrTTMTakedown : M (list fcall) fence_mgr unit :=
  call F_release ;;
  s ← get;
  for_each (seq 0 (Z.to_nat (num_classes s))) (fun _ => WSBM_MUTEX_FREE ;; WSBM_MUTEX_FREE) ;;
  call F_release.

End ttm.
