(* ===== verification/FenceMgrSpec.v ===== *)
(** The fence manager of libwsbm: its invariant and what it promises.

    The list of a class is a ring through the head of the class; a fence on no list is
    a ring of its own.  The device is described by the types [gpu] that each fence has
    signalled, which only grow; a driver that reports nothing else is an instance of
    [HonestDriver]. *)
From stdpp Require Import gmap.
From S2P Require Import Prelude Rings FenceMgr.

(** * The lists *)

(** The types [a] are among [b]. *)
Definition within (a b : Z) : Prop := forall i, Z.testbit a i = true -> Z.testbit b i = true.

Lemma within_refl a : within a a.
Proof. by intros i. Qed.

Lemma within_trans a b c : within a b -> within b c -> within a c.
Proof. intros H1 H2 i Hi. by apply H2, H1. Qed.

Lemma within_lor a b c : within a c -> within b c -> within (Z.lor a b) c.
Proof. intros H1 H2 i. rewrite Z.lor_spec, orb_true_iff. intros [?|?]; [by apply H1|by apply H2]. Qed.

Lemma within_land a b c : within a c -> within (Z.land a b) c.
Proof. intros H1 i. rewrite Z.land_spec, andb_true_iff. intros [? _]. by apply H1. Qed.

Lemma within_sub a b : Z.land b a = a -> within a b.
Proof. intros <- i. rewrite Z.land_spec. by intros [? _]%andb_true_iff. Qed.

(** What one pass back through the fences [rl] of a list, the latest first, does: each
    signals what it has in common with what comes from the one after it. *)
Definition signal_with (types : Z) (f : fence_object) : Z :=
  Z.lor (signaled_types f) (Z.land types (fence_type f)).

Fixpoint propagate (rl : list Z) (types : Z) (fs : gmap Z fence_object) : gmap Z fence_object :=
  match rl with
  | [] => fs
  | p :: rl =>
      match fs !! p with
      | Some f => let types := signal_with types f in propagate rl types (<[p := set_signaled types f]> fs)
      | None => fs
      end
  end.

(** A fence is done when it signalled all its types. *)
Definition pending (fs : gmap Z fence_object) (p : Z) : bool :=
  match fs !! p with Some f => negb (signaled_types f =? fence_type f) | None => true end.

Definition fence_lists := Z -> list Z.

Definition upd (c : Z) (l : list Z) (Ls : fence_lists) : fence_lists := fun c' => if decide (c' = c) then l else Ls c'.

Lemma upd_eq c l Ls : upd c l Ls c = l.
Proof. unfold upd. by rewrite decide_True. Qed.

Lemma upd_ne c l Ls c' : c' <> c -> upd c l Ls c' = Ls c'.
Proof. intros. unfold upd. by rewrite decide_False. Qed.

Record fm_wf (s : fence_mgr) (Ls : fence_lists) : Prop := {
  wf_ring : forall c, 0 <= c < num_classes s -> ring (class_head c) (head s) (Ls c);
  wf_on : forall c p, 0 <= c < num_classes s -> p ∈ Ls c -> exists f, fences s !! p = Some f /\ fence_class f = c;
  wf_off : forall p f, fences s !! p = Some f -> p ∉ Ls (fence_class f) -> ring p (head s) [];
  wf_class : forall p f, fences s !! p = Some f -> 0 <= fence_class f < num_classes s;
  wf_pos : forall p f, fences s !! p = Some f -> 0 < p }.

(** The same fences but for what they signalled. *)
Definition same_shape (fs fs' : gmap Z fence_object) : Prop :=
  forall p, match fs !! p, fs' !! p with
  | Some f, Some f' => exists t, f' = set_signaled t f
  | None, None => True
  | _, _ => False
  end.

Lemma same_shape_refl fs : same_shape fs fs.
Proof. intros p. destruct (fs !! p) as [f|]; [|done]. exists (signaled_types f). by destruct f. Qed.

Lemma same_shape_trans fs fs1 fs2 : same_shape fs fs1 -> same_shape fs1 fs2 -> same_shape fs fs2.
Proof.
  intros H1 H2 p. specialize (H1 p). specialize (H2 p).
  destruct (fs !! p), (fs1 !! p), (fs2 !! p); try done. destruct H1 as [t ->], H2 as [u ->]. by exists u.
Qed.

Lemma same_shape_insert fs p f t : fs !! p = Some f -> same_shape fs (<[p := set_signaled t f]> fs).
Proof.
  intros Hp q. destruct (decide (q = p)) as [->|]; [rewrite Hp, lookup_insert_eq; by exists t|].
  rewrite lookup_insert_ne by done. apply same_shape_refl.
Qed.

Lemma same_shape_some fs fs' p f : same_shape fs fs' -> fs' !! p = Some f ->
  exists f0 t, fs !! p = Some f0 /\ f = set_signaled t f0.
Proof. intros Hs E. specialize (Hs p). rewrite E in Hs. destruct (fs !! p) as [f0|]; [|done]. destruct Hs as [t ->]. by exists f0, t. Qed.

Lemma same_shape_some' fs fs' p f : same_shape fs fs' -> fs !! p = Some f -> exists t, fs' !! p = Some (set_signaled t f).
Proof. intros Hs E. specialize (Hs p). rewrite E in Hs. destruct (fs' !! p) as [f'|]; [|done]. destruct Hs as [t ->]. by exists t. Qed.

Lemma propagate_shape rl types fs : same_shape fs (propagate rl types fs).
Proof.
  revert types fs. induction rl as [|p rl IH]; intros types fs; cbn; [apply same_shape_refl|].
  destruct (fs !! p) as [f|] eqn:E; [|apply same_shape_refl].
  eapply same_shape_trans; [by apply same_shape_insert|apply IH].
Qed.

(** The invariant does not see what the fences signalled. *)
Lemma wf_shape s Ls fs : fm_wf s Ls -> same_shape (fences s) fs -> fm_wf (set_fences fs s) Ls.
Proof.
  intros [Hr Hon Hoff Hc Hp] Hs. split; cbn; [done|..].
  - intros c p Hcl Hin. destruct (Hon c p Hcl Hin) as (f & Hf & <-).
    destruct (same_shape_some' _ _ _ _ Hs Hf) as [t ->]. by eexists.
  - intros p f Hf. destruct (same_shape_some _ _ _ _ Hs Hf) as (f0 & t & Hf0 & ->). exact (Hoff p f0 Hf0).
  - intros p f Hf. destruct (same_shape_some _ _ _ _ Hs Hf) as (f0 & t & Hf0 & ->). exact (Hc p f0 Hf0).
  - intros p f Hf. destruct (same_shape_some _ _ _ _ Hs Hf) as (f0 & t & Hf0 & ->). exact (Hp p f0 Hf0).
Qed.

Lemma class_head_neg c : 0 <= c -> class_head c < 0.
Proof. unfold class_head. lia. Qed.

Lemma class_head_inj c c' : class_head c = class_head c' -> c = c'.
Proof. unfold class_head. lia. Qed.

Section wf.
Context {s : fence_mgr} {Ls : fence_lists} (Hwf : fm_wf s Ls).

Lemma wf_live_fence p f : fences s !! p = Some f -> live tt s p = true.
Proof. intros E. cbn. by rewrite E. Qed.

Lemma wf_live_head c : 0 <= c < num_classes s -> live tt s (class_head c) = true.
Proof.
  intros Hc. cbn. apply orb_true_iff. right. unfold class_head. apply andb_true_iff.
  split; [apply Z.leb_le|apply Z.ltb_lt]; lia.
Qed.

Lemma wf_present c : 0 <= c < num_classes s -> present tt s (class_head c :: Ls c).
Proof.
  intros Hc p [->|Hp]%elem_of_cons; [by apply wf_live_head|].
  destruct (wf_on _ _ Hwf c p Hc Hp) as (f & Hf & _). by eapply wf_live_fence.
Qed.

(** A member of a ring is in no other. *)
Lemma wf_apart c c' p : 0 <= c < num_classes s -> 0 <= c' < num_classes s -> c <> c' ->
  p ∈ class_head c :: Ls c -> p ∉ class_head c' :: Ls c'.
Proof.
  intros Hc Hc' Hne. assert (Hpos : forall d q, 0 <= d < num_classes s -> q ∈ Ls d -> 0 < q).
  { intros d q Hd (f & Hf & _)%(wf_on _ _ Hwf d q Hd). by eapply wf_pos. }
  rewrite !elem_of_cons. intros [->|Hp] [E|Hp'].
  - by apply Hne, class_head_inj.
  - specialize (Hpos _ _ Hc' Hp'). pose proof (class_head_neg c). lia.
  - subst p. specialize (Hpos _ _ Hc Hp). pose proof (class_head_neg c'). lia.
  - destruct (wf_on _ _ Hwf c p Hc Hp) as (f & Hf & E1), (wf_on _ _ Hwf c' p Hc' Hp') as (f' & Hf' & E2). congruence.
Qed.

Lemma wf_off_apart c p f : 0 <= c < num_classes s -> fences s !! p = Some f -> p ∉ Ls (fence_class f) ->
  p ∉ class_head c :: Ls c.
Proof.
  intros Hc Hf Hni. pose proof (wf_pos _ _ Hwf _ _ Hf). rewrite elem_of_cons. intros [E|Hp].
  - pose proof (class_head_neg c). lia.
  - destruct (wf_on _ _ Hwf c p Hc Hp) as (f' & Hf' & E2). apply Hni. assert (f' = f) as -> by congruence. by rewrite E2.
Qed.

(** The list of one class is changed: its fences stay fences of the class, and what
    leaves it is alone. *)
Lemma wf_relink c l k : 0 <= c < num_classes s -> ring (class_head c) k l -> (forall p, p ∈ l -> p ∈ Ls c) ->
  (forall p, p ∈ Ls c -> p ∉ l -> ring p k []) -> agree_off (class_head c :: Ls c) (head s) k ->
  fm_wf (set_head k s) (upd c l Ls).
Proof.
  intros Hc Hk Hl Hout Ha. split; cbn [num_classes head fences set_head].
  - intros c' Hc'. unfold upd. destruct (decide (c' = c)) as [->|Hne]; [done|].
    eapply ring_off; [by apply (wf_ring _ _ Hwf)|exact Ha|]. intros q Hq. by eapply (wf_apart c' c).
  - intros c' p Hc'. unfold upd. destruct (decide (c' = c)) as [->|Hne]; [intros ?%Hl|]; by apply (wf_on _ _ Hwf).
  - intros p f Hf. unfold upd. destruct (decide (fence_class f = c)) as [E|Hne]; intros Hni.
    + destruct (decide (p ∈ Ls c)) as [Hin|Hno]; [by apply Hout|]. subst c.
      eapply ring_off; [by eapply (wf_off _ _ Hwf)|exact Ha|]. intros q [->|[]%not_elem_of_nil]%elem_of_cons.
      by eapply wf_off_apart.
    + eapply ring_off; [by eapply (wf_off _ _ Hwf)|exact Ha|]. intros q [->|[]%not_elem_of_nil]%elem_of_cons.
      by eapply wf_off_apart.
  - intros p f. apply (wf_class _ _ Hwf).
  - intros p f. apply (wf_pos _ _ Hwf).
Qed.

End wf.

Lemma propagate_other rl types fs p : p ∉ rl -> propagate rl types fs !! p = fs !! p.
Proof.
  revert types fs. induction rl as [|q rl IH]; intros types fs Hp; cbn; [done|].
  destruct (fs !! q) as [f|]; [|done]. rewrite IH by set_solver. by rewrite lookup_insert_ne by set_solver.
Qed.

Lemma pending_ext fs fs' p : fs !! p = fs' !! p -> pending fs p = pending fs' p.
Proof. unfold pending. by intros ->. Qed.

Lemma set_fences_id s : set_fences (fences s) s = s.
Proof. by destruct s. Qed.

Lemma set_signaled_id f : set_signaled (signaled_types f) f = f.
Proof. by destruct f. Qed.

(** * The operations *)

Section proofs.
Context `{FenceEnv} `{FenceDriver}.

Abbreviation wpm := (wp (H := list fcall) (S := fence_mgr) False).

Lemma get_fence_wp p f Q s h : fences s !! p = Some f -> Q f s h -> wpm (get_fence p) Q s h.
Proof. intros E HQ. unfold get_fence. apply wp_bind, wp_get. by rewrite E. Qed.

Lemma set_fence_wp p f Q s h : is_Some (fences s !! p) -> Q tt (set_fences (<[p := f]> (fences s)) s) h ->
  wpm (set_fence p f) Q s h.
Proof. intros E HQ. unfold set_fence. apply wp_bind, wp_get. by rewrite bool_decide_eq_true_2. Qed.

Lemma class_of_wp c Q s h : 0 <= c < num_classes s -> Q (class_head c) s h -> wpm (class_of c) Q s h.
Proof.
  intros Hc HQ. unfold class_of. apply wp_bind, wp_get.
  by rewrite (proj2 (Z.leb_le 0 c)), (proj2 (Z.ltb_lt c (num_classes s))) by lia.
Qed.

Lemma cmpxchg_wp p f new Q s h : fences s !! p = Some f ->
  Q (signaled_types f) (set_fences (<[p := set_signaled new f]> (fences s)) s) h ->
  wpm (signaled_CmpXchg p (signaled_types f) new) Q s h.
Proof.
  intros E HQ. unfold signaled_CmpXchg. apply wp_bind. eapply get_fence_wp; [done|]. rewrite Z.eqb_refl.
  apply wp_bind, set_fence_wp; [by exists f|]. by apply wp_ret.
Qed.

(** One entry: it signals, and the types go on to the one before it. *)
Lemma signal_entry_wp p f types Q s h : fences s !! p = Some f ->
  Q (signal_with types f) (set_fences (<[p := set_signaled (signal_with types f) f]> (fences s)) s) h ->
  wpm (signal_entry 1 p types) Q s h.
Proof.
  intros E HQ. cbn [signal_entry]. apply wp_bind. eapply get_fence_wp; [done|]. cbv zeta.
  fold (signal_with types f). destruct (Z.eqb_spec (signal_with types f) (signaled_types f)) as [Ht|Hne].
  - apply wp_ret. rewrite Ht, set_signaled_id, insert_id, set_fences_id in HQ by done. by rewrite Ht.
  - apply wp_bind, (cmpxchg_wp _ _ _ _ _ _ E). rewrite Z.eqb_refl. by apply wp_ret.
Qed.

(** An entry leaves its list. *)
Lemma wf_delinit s Ls c l1 p l2 Q h : fm_wf s Ls -> 0 <= c < num_classes s -> Ls c = l1 ++ p :: l2 ->
  (forall k, fm_wf (set_head k s) (upd c (l1 ++ l2) Ls) -> Q tt (set_head k s) h) ->
  wpm (WSBMLISTDELINIT tt p) Q s h.
Proof.
  intros Hwf Hc El HQ. pose proof (wf_ring _ _ Hwf c Hc) as Hr. pose proof (wf_present Hwf c Hc) as Hp. rewrite El in Hr, Hp.
  eapply (remove_init_ring (class_head c) tt); [exact Hr|exact Hp|]. intros k Hk Hal Ha. apply HQ.
  apply (wf_relink Hwf); [done|done|rewrite El; set_solver| |by rewrite El].
  rewrite El. intros q Hq Hni. assert (q = p) as -> by set_solver. done.
Qed.

Lemma upd_upd c l l' Ls c' : upd c l (upd c l' Ls) c' = upd c l Ls c'.
Proof. unfold upd. by destruct (decide (c' = c)). Qed.

Lemma fm_upd_same c Ls c' : upd c (Ls c) Ls c' = Ls c'.
Proof. unfold upd. by destruct (decide (c' = c)) as [->|]. Qed.

Lemma wf_ext s Ls Ls' : (forall c, Ls c = Ls' c) -> fm_wf s Ls -> fm_wf s Ls'.
Proof.
  intros E [Hr Hon Hoff Hc Hp]. split; [| | |done|done].
  - intros c. rewrite <- E. apply Hr.
  - intros c p. rewrite <- E. apply Hon.
  - intros p f. rewrite <- E. apply Hoff.
Qed.

(** What a pass leaves of the list of a class. *)
Definition after_pass (c : Z) (older newer : list Z) (types : Z) (s : fence_mgr) (Ls : fence_lists) (s' : fence_mgr) : Prop :=
  num_classes s' = num_classes s /\ mgr_count s' = mgr_count s /\
  fences s' = propagate (rev older) types (fences s) /\
  fm_wf s' (upd c (List.filter (pending (fences s')) older ++ newer) Ls).

Lemma signal_previous_wp c older newer fuel types s Ls h : fm_wf s Ls -> 0 <= c < num_classes s ->
  Ls c = older ++ newer -> (length older <= fuel)%nat ->
  wpm (signal_previous fuel (class_head c) (last_of (class_head c) older) types)
    (fun _ s' h' => h' = h /\ after_pass c older newer types s Ls s') s h.
Proof.
  revert newer fuel types s Ls. induction older as [|p older IH] using rev_ind; intros newer fuel types s Ls Hwf Hc El Hfuel.
  { cbn [last_of List.last]. destruct fuel; cbn [signal_previous]; rewrite Z.eqb_refl; (apply wp_ret; split; [done|];
      split_and!; [done..|]; cbn [rev List.filter app] in *; rewrite <- El; eapply wf_ext; [|exact Hwf];
      intros c'; by rewrite fm_upd_same). }
  rewrite length_app in Hfuel. cbn [length] in Hfuel. destruct fuel as [|fuel]; [lia|].
  rewrite <- app_assoc in El. cbn [app] in El.
  pose proof (wf_ring _ _ Hwf c Hc) as Hr. rewrite El in Hr.
  pose proof (ring_nodup _ _ _ Hr) as Hnd. rewrite app_comm_cons, <- Permutation_middle in Hnd.
  apply list.NoDup_cons in Hnd as [Hni Hnd].
  destruct (wf_on _ _ Hwf c p Hc ltac:(rewrite El; set_solver)) as (f & Hf & Hfc).
  assert (Elast : last_of (class_head c) (older ++ [p]) = p) by (unfold last_of; by rewrite List.last_last).
  rewrite Elast. cbn [signal_previous].
  rewrite (proj2 (Z.eqb_neq p (class_head c))) by set_solver.
  apply wp_bind. eapply (get_next_wp tt); [eapply ring_next, Hr|].
  assert (Hne : first_of (class_head c) newer <> p) by (destruct newer; cbn; set_solver).
  rewrite (proj2 (Z.eqb_neq _ _) Hne).
  apply wp_bind. eapply (get_prev_wp tt); [eapply ring_prev, Hr|].
  apply wp_bind, (signal_entry_wp _ _ _ _ _ _ Hf). set (t := signal_with types f).
  set (s1 := set_fences _ s).
  assert (Hwf1 : fm_wf s1 Ls) by (apply wf_shape; [done|by apply same_shape_insert]).
  apply wp_bind. eapply get_fence_wp; [apply lookup_insert_eq|]. apply wp_bind, wp_when.
  assert (Hpend : pending (propagate (rev (older ++ [p])) types (fences s)) p = negb (t =? fence_type f)).
  { rewrite rev_app_distr. cbn [rev app propagate]. rewrite Hf. fold t. unfold pending.
    rewrite propagate_other by (rewrite list_elem_of_In, <- in_rev, <- list_elem_of_In; set_solver).
    by rewrite lookup_insert_eq. }
  assert (Hprop : propagate (rev (older ++ [p])) types (fences s) = propagate (rev older) t (fences s1)).
  { rewrite rev_app_distr. cbn [rev app propagate]. by rewrite Hf. }
  change (fence_type (set_signaled t f)) with (fence_type f).
  assert (Hrest : forall k newer', fm_wf (set_head k s1) (upd c (older ++ newer') Ls) ->
    newer' = List.filter (pending (propagate (rev (older ++ [p])) types (fences s))) [p] ++ newer ->
    wpm (signal_previous fuel (class_head c) (last_of (class_head c) older) t)
      (fun _ s' h' => h' = h /\ after_pass c (older ++ [p]) newer types s Ls s') (set_head k s1) h).
  { intros k newer' Hk En. eapply wp_mono; [eapply (IH newer'); [exact Hk|done|apply upd_eq|lia]|].
    cbv beta. intros _ s' h' (-> & Hn & Hm & Hf' & Hwf'). split; [done|]. 
    change (fences (set_head k s1)) with (fences s1) in Hf'. rewrite <- Hprop in Hf'.
    split_and!; [done..|]. rewrite List.filter_app, <- app_assoc. rewrite Hf' at 2. rewrite <- En.
    eapply wf_ext; [|exact Hwf']. intros c'. by rewrite upd_upd. }
  cbn [List.filter] in Hrest. rewrite Hpend in Hrest. destruct (Z.eqb_spec t (fence_type f)) as [Et|Et]; cbn [negb app] in Hrest.
  - eapply wf_delinit; [exact Hwf1|done|exact El|]. intros k Hk. by apply (Hrest k newer).
  - assert (Es : set_head (head s1) s1 = s1) by (by destruct s). rewrite <- Es at 1. apply (Hrest _ (p :: newer)); [|done].
    rewrite Es, <- El. eapply wf_ext; [|exact Hwf1]. intros c'. by rewrite fm_upd_same.
Qed.

(** A fence on its list, or on none. *)
Lemma fm_wf_fuel s Ls c : fm_wf s Ls -> 0 <= c < num_classes s -> (length (Ls c) <= size (fences s))%nat.
Proof.
  intros Hwf Hc. pose proof (ring_nodup _ _ _ (wf_ring _ _ Hwf c Hc)) as Hnd. apply list.NoDup_cons in Hnd as [_ Hnd].
  rewrite <- size_dom, <- (size_list_to_set (C := gset Z)) by done. apply subseteq_size. intros p Hp.
  rewrite elem_of_list_to_set in Hp. destruct (wf_on _ _ Hwf c p Hc Hp) as (f & Hf & _). apply elem_of_dom. by exists f.
Qed.

Definition passed (p : Z) (f : fence_object) (types : Z) (s : fence_mgr) (Ls : fence_lists) (s' : fence_mgr) : Prop :=
  s' = s /\ p ∉ Ls (fence_class f) \/
  (exists older newer, Ls (fence_class f) = older ++ p :: newer /\
    after_pass (fence_class f) (older ++ [p]) newer types s Ls s').

Lemma signal_previous_fences_wp p f types s Ls h : fm_wf s Ls -> fences s !! p = Some f ->
  wpm (wsbmSignalPreviousFences p (fence_class f) types) (fun _ s' h' => h' = h /\ passed p f types s Ls s') s h.
Proof.
  intros Hwf Hf. pose proof (wf_class _ _ Hwf _ _ Hf) as Hc. unfold wsbmSignalPreviousFences.
  apply wp_bind, class_of_wp; [done|]. apply wp_bind, wp_get.
  destruct (decide (p ∈ Ls (fence_class f))) as [Hin|Hni].
  - pose proof (fm_wf_fuel _ _ _ Hwf Hc) as Hfuel. apply list_elem_of_split in Hin as (older & newer & El).
    rewrite El in Hfuel. rewrite length_app in Hfuel. cbn in Hfuel.
    rewrite cons_middle, app_assoc in El.
    assert (Elast : last_of (class_head (fence_class f)) (older ++ [p]) = p) by (unfold last_of; by rewrite List.last_last).
    rewrite <- Elast. eapply wp_mono; [eapply signal_previous_wp; [done|done|exact El|rewrite length_app; cbn; lia]|].
    cbv beta. intros _ s' h' [-> Hp]. split; [done|]. right. exists older, newer. rewrite Elast. split; [|done].
    by rewrite El, <- app_assoc.
  - pose proof (wf_off _ _ Hwf _ _ Hf Hni) as Hr. pose proof (ring_first _ _ _ Hr) as Hn. cbn [first_of] in Hn.
    pose proof (class_head_neg _ (proj1 Hc)). pose proof (wf_pos _ _ Hwf _ _ Hf).
    destruct (size (fences s)); cbn [signal_previous]; rewrite (proj2 (Z.eqb_neq p _)) by lia;
      (apply wp_bind; eapply (get_next_wp tt); [exact Hn|]; rewrite Z.eqb_refl; apply wp_ret; split; [done|by left]).
Qed.

Lemma wf_agree s Ls k : fm_wf s Ls -> agree_off [] (head s) k -> fm_wf (set_head k s) Ls.
Proof.
  intros [Hr Hon Hoff Hc Hp] Ha. split; cbn [num_classes head fences set_head]; [| |intros p f Hf Hni| |]; try done.
  - intros c Hcl. eapply ring_off; [by apply Hr|exact Ha|]. intros q _. apply not_elem_of_nil.
  - eapply ring_off; [by eapply Hoff|exact Ha|]. intros q _. apply not_elem_of_nil.
Qed.

Lemma wf_count s Ls n : fm_wf s Ls -> fm_wf (set_count n s) Ls.
Proof. by intros [Hr Hon Hoff Hc Hp]. Qed.

(** A fence leaves its list, if it was on it. *)
Lemma wf_leave s Ls p f Q h : fm_wf s Ls -> fences s !! p = Some f ->
  (forall k l, sublist l (Ls (fence_class f)) -> p ∉ l -> fm_wf (set_head k s) (upd (fence_class f) l Ls) ->
    Q tt (set_head k s) h) -> wpm (WSBMLISTDELINIT tt p) Q s h.
Proof.
  intros Hwf Hf HQ. pose proof (wf_class _ _ Hwf _ _ Hf) as Hc.
  destruct (decide (p ∈ Ls (fence_class f))) as [Hin|Hni].
  - pose proof (ring_nodup _ _ _ (wf_ring _ _ Hwf _ Hc)) as Hnd. apply list_elem_of_split in Hin as (l1 & l2 & El).
    rewrite El in Hnd. rewrite app_comm_cons, <- Permutation_middle in Hnd. apply list.NoDup_cons in Hnd as [Hni _].
    eapply wf_delinit; [done|done|exact El|]. intros k Hk. apply (HQ k (l1 ++ l2)); [|set_solver|done].
    rewrite El. apply sublist_app; [done|]. by constructor.
  - eapply (remove_init_alone tt p); [by eapply (wf_off _ _ Hwf)|by eapply (wf_live_fence (s := s))|].
    intros k Hk. apply (HQ k (Ls (fence_class f))); [done|done|].
    eapply (wf_ext _ Ls); [intros c; by rewrite fm_upd_same|]. apply wf_agree; [done|]. intros q _. apply Hk.
Qed.

Lemma fm_wf_free s Ls p f : fm_wf s Ls -> fences s !! p = Some f -> p ∉ Ls (fence_class f) ->
  fm_wf (set_head (forget p (head s)) (set_fences (delete p (fences s)) s)) Ls.
Proof.
  intros Hwf Hf Hni. split; cbn [num_classes head fences set_head set_fences].
  - intros c Hc. eapply ring_off; [by apply (wf_ring _ _ Hwf)|apply agree_off_forget|].
    pose proof (wf_off_apart Hwf c p f Hc Hf Hni). intros q Hq. set_solver.
  - intros c q Hc Hq. destruct (wf_on _ _ Hwf c q Hc Hq) as (g & Hg & Egc). exists g. split; [|done].
    rewrite lookup_delete_ne; [done|]. intros ->. assert (g = f) as -> by congruence. apply Hni. by rewrite Egc.
  - intros q g [Hne Hg]%lookup_delete_Some Hq.
    eapply ring_off; [by eapply (wf_off _ _ Hwf)|apply agree_off_forget|]. set_solver.
  - intros q g [_ Hg]%lookup_delete_Some. by eapply wf_class.
  - intros q g [_ Hg]%lookup_delete_Some. by eapply wf_pos.
Qed.

(** A new fence goes to the end of the list of its class. *)
Lemma fm_wf_new s Ls p f Q h :
  let s1 := set_head {| nexts := <[p := 0]> (nexts (head s)); prevs := <[p := 0]> (prevs (head s)) |}
              (set_fences (<[p := f]> (fences s)) s) in
  fm_wf s Ls -> fences s !! p = None -> 0 < p -> 0 <= fence_class f < num_classes s ->
  (forall k, fm_wf (set_head k s1) (upd (fence_class f) (Ls (fence_class f) ++ [p]) Ls) -> Q tt (set_head k s1) h) ->
  wpm (WSBMLISTADDTAIL tt p (class_head (fence_class f))) Q s1 h.
Proof.
  intros s1 Hwf Hn Hpos Hc HQ. set (c := fence_class f) in *.
  assert (Hnew : forall d, 0 <= d < num_classes s -> p ∉ class_head d :: Ls d).
  { intros d Hd. rewrite elem_of_cons. intros [E|Hin]; [pose proof (class_head_neg d); lia|].
    destruct (wf_on _ _ Hwf d p Hd Hin) as (g & Hg & _). congruence. }
  assert (Hoff1 : agree_off [p] (head s) (head s1)).
  { intros q Hq. cbn. by rewrite !lookup_insert_ne by set_solver. }
  assert (Hr1 : forall d, 0 <= d < num_classes s -> ring (class_head d) (head s1) (Ls d)).
  { intros d Hd. eapply ring_off; [by apply (wf_ring _ _ Hwf)|exact Hoff1|]. pose proof (Hnew d Hd). set_solver. }
  eapply (append_ring (class_head c) tt).
  - by apply Hr1.
  - intros q Hq. pose proof (wf_present Hwf c Hc q Hq) as Hl. cbn in Hl |- *. apply orb_true_iff in Hl as [Hl|Hl].
    + apply bool_decide_eq_true in Hl. rewrite bool_decide_eq_true_2; [done|]. apply lookup_insert_is_Some. naive_solver.
    + rewrite Hl. apply orb_true_r.
  - cbn. by rewrite lookup_insert_eq.
  - by apply Hnew.
  - intros k Hk Ha. apply HQ. split; unfold s1; cbn [num_classes head fences set_head set_fences].
    + intros d Hd. unfold upd. destruct (decide (d = c)) as [->|Hne]; [done|].
      eapply ring_off; [by apply Hr1|exact Ha|]. intros q Hq [->|Hq']%elem_of_cons; [by apply (Hnew d)|].
      by eapply (wf_apart Hwf d c).
    + intros d q Hd. unfold upd. destruct (decide (d = c)) as [->|Hne].
      * intros [Hq|E%list_elem_of_singleton]%elem_of_app; [|exists f; subst q; by rewrite lookup_insert_eq].
        destruct (wf_on _ _ Hwf c q Hd Hq) as (g & Hg & Eg). exists g. split; [|done].
        rewrite lookup_insert_ne; [done|]. by intros ->; congruence.
      * intros Hq. destruct (wf_on _ _ Hwf d q Hd Hq) as (g & Hg & Eg). exists g. split; [|done].
        rewrite lookup_insert_ne; [done|]. by intros ->; congruence.
    + intros q g [[<- <-]|[Hne Hg]]%lookup_insert_Some.
      * rewrite upd_eq. set_solver.
      * intros Hni. assert (Hni' : q ∉ Ls (fence_class g)).
        { unfold upd in Hni. destruct (decide (fence_class g = c)) as [->|]; set_solver. }
        pose proof (wf_off_apart Hwf c q g Hc Hg Hni') as Hap.
        eapply ring_off; [eapply ring_off; [by eapply (wf_off _ _ Hwf)|exact Hoff1|]|exact Ha|]; set_solver.
    + intros q g [[<- <-]|[Hne Hg]]%lookup_insert_Some; [done|by eapply wf_class].
    + intros q g [[<- <-]|[Hne Hg]]%lookup_insert_Some; [done|by eapply wf_pos].
Qed.

End proofs.

(** * What the device says *)

Definition extends (h h' : list fcall) : Prop := exists l, h' = l ++ h.

Lemma calls_extends_refl h : extends h h.
Proof. by exists []. Qed.

Lemma calls_extends_cons h c : extends h (c :: h).
Proof. by exists [c]. Qed.

Lemma calls_extends_trans h h1 h2 : extends h h1 -> extends h1 h2 -> extends h h2.
Proof. intros [l ->] [k ->]. exists (k ++ l). by rewrite app_assoc. Qed.

(** [gpu h p]: the types the fence [p] has signalled after [h].  A driver tells nothing
    else, and a wait that succeeds is for types that are signalled. *)
Class HonestDriver `{FenceDriver} (gpu : list fcall -> priv -> Z) := {
  gpu_mono : forall c h p, within (gpu h p) (gpu (c :: h) p);
  signaled_honest : forall p t h, wp False (drv_signaled p t)
    (fun r _ h' => extends h h' /\ (fst r = 0 -> within (snd r) (gpu h' p))) tt h;
  finish_honest : forall p t lazy h, wp False (drv_finish p t lazy)
    (fun r _ h' => extends h h' /\ (r = 0 -> within t (gpu h' p))) tt h;
  unreference_honest : forall p h, wp False (drv_unreference p) (fun _ _ h' => extends h h') tt h }.

(** What a client knows of the fences it holds. *)
Record held_fence := { h_class : Z; h_type : Z; h_priv : priv; h_refs : Z }.

Definition add_refs (n : Z) (a : held_fence) : held_fence :=
  {| h_class := h_class a; h_type := h_type a; h_priv := h_priv a; h_refs := h_refs a + n |}.

Inductive fence_op :=
| O_create (class type signaled ptr : Z) (copy : list Z)
| O_reference (p : Z) | O_unreference (p : Z)
| O_finish (p type : Z) (lazy : bool)
| O_signaled (p type : Z) | O_cached (p type : Z) | O_type (p : Z).

Inductive fence_answer := A_none | A_fence (o : option Z) | A_val (z : Z) | A_bool (b : bool).

Section client.
Context `{FenceEnv} `{FenceDriver}.

Definition fence_do (op : fence_op) : M (list fcall) fence_mgr fence_answer :=
  match op with
  | O_create class type signaled ptr copy => r ← wsbmFenceCreateSig class type signaled ptr copy; mret (A_fence r)
  | O_reference p => r ← wsbmFenceReference (Some p); mret (A_fence r)
  | O_unreference p => wsbmFenceUnreference (Some p) ;; mret A_none
  | O_finish p type lazy => r ← wsbmFenceFinish p type lazy; mret (A_val r)
  | O_signaled p type => b ← wsbmFenceSignaled p type; mret (A_bool b)
  | O_cached p type => b ← wsbmFenceSignaledCached p type; mret (A_bool b)
  | O_type p => r ← wsbmFenceType p; mret (A_val r)
  end.

Definition made (p ptr : Z) (copy : list Z) : priv :=
  if bool_decide (copy = []) then (ptr, []) else (p + FENCE_SIZE, copy).

(** What the client holds after an operation. *)
Definition client_after (op : fence_op) (r : fence_answer) (A : gmap Z held_fence) : gmap Z held_fence :=
  match op, r with
  | O_create class type _ ptr copy, A_fence (Some p) =>
      <[p := {| h_class := class; h_type := type; h_priv := made p ptr copy; h_refs := 1 |}]> A
  | O_reference p, _ => alter (add_refs 1) p A
  | O_unreference p, _ =>
      match A !! p with
      | Some a => if h_refs a =? 1 then delete p A else <[p := add_refs (-1) a]> A
      | None => A
      end
  | _, _ => A
  end.

Context (gpu : list fcall -> priv -> Z).

(** The device signals what [p] stands for before what [q] stands for. *)
Definition earlier (p q : priv) : Prop := forall h, within (gpu h q) (gpu h p).

(** A fence is created for a class of the manager, for work that comes after that of the
    fences of the class, and signals from the start nothing it has not signalled; the
    other operations are on fences that are held. *)
Definition legal (n : Z) (h : list fcall) (A : gmap Z held_fence) (op : fence_op) : Prop :=
  match op with
  | O_create class type signaled ptr copy =>
      0 <= class < n /\ forall p,
        within signaled (gpu h (made p ptr copy)) /\
        forall q a, A !! q = Some a -> h_class a = class -> earlier (h_priv a) (made p ptr copy)
  | O_reference p => exists a, A !! p = Some a /\ h_refs a + 1 < 2 ^ 31
  | O_unreference p | O_finish p _ _ | O_signaled p _ | O_cached p _ | O_type p => is_Some (A !! p)
  end.

(** A fence is said to have signalled only what it has, and a wait that succeeds is for
    types it has signalled. *)
Definition truthful (op : fence_op) (r : fence_answer) (A : gmap Z held_fence) (h' : list fcall) : Prop :=
  match op, r with
  | O_finish p type _, A_val ret => forall a, A !! p = Some a -> ret = 0 -> within type (gpu h' (h_priv a))
  | O_signaled p type, A_bool true | O_cached p type, A_bool true =>
      forall a, A !! p = Some a -> within type (gpu h' (h_priv a))
  | O_type p, A_val t => forall a, A !! p = Some a -> t = h_type a
  | _, _ => True
  end.

(** Every list is in the order of the work. *)
Definition in_sequence (A : gmap Z held_fence) (p q : Z) : Prop :=
  forall a b, A !! p = Some a -> A !! q = Some b -> earlier (h_priv a) (h_priv b).

Fixpoint in_order (A : gmap Z held_fence) (l : list Z) : Prop :=
  match l with
  | [] => True
  | p :: l => (forall q, q ∈ l -> in_sequence A p q) /\ in_order A l
  end.

Lemma in_order_app A l1 l2 : in_order A (l1 ++ l2) <->
  in_order A l1 /\ in_order A l2 /\ forall p q, p ∈ l1 -> q ∈ l2 -> in_sequence A p q.
Proof.
  induction l1 as [|x l1 IH]; cbn [app in_order].
  { split; [intros ?; split_and!; [done..|]; by intros p q ?%not_elem_of_nil|]. tauto. }
  rewrite IH. split.
  - intros (Hx & H1 & H2 & H12). split_and!; [|done|done|].
    + intros q Hq. apply Hx. set_solver.
    + intros p q [->|Hp]%elem_of_cons Hq; [apply Hx; set_solver|by apply H12].
  - intros ((Hx & H1) & H2 & H12). split_and!; [|done|done|].
    + intros q [Hq|Hq]%elem_of_app; [by apply Hx|apply H12; [by left|done]].
    + intros p q Hp Hq. apply H12; [by right|done].
Qed.

Lemma in_order_sublist A l l' : sublist l l' -> in_order A l' -> in_order A l.
Proof.
  induction 1 as [|x l l' Hs IH|x l l' Hs IH]; cbn; [done| |]; intros [Hx Ho]; [|by apply IH].
  split; [|by apply IH]. intros q Hq. apply Hx. by eapply elem_of_sublist.
Qed.

Lemma filter_sublist {B} (f : B -> bool) l : sublist (List.filter f l) l.
Proof. induction l as [|x l IH]; cbn; [done|]. destruct (f x); by constructor. Qed.

(** The invariant, for a manager of [n] classes. *)
Record fm_inv (n : Z) (s : fence_mgr) (h : list fcall) (A : gmap Z held_fence) (Ls : fence_lists) : Prop := {
  inv_wf : fm_wf s Ls;
  inv_num : num_classes s = n;
  inv_count : mgr_count s = int32 (Z.of_nat (size A));
  inv_dom : forall p, is_Some (fences s !! p) <-> is_Some (A !! p);
  inv_held : forall p f a, fences s !! p = Some f -> A !! p = Some a ->
    fence_class f = h_class a /\ fence_type f = h_type a /\ private f = h_priv a /\ refCount f = h_refs a /\
    0 < h_refs a < 2 ^ 31;
  inv_honest : forall p f, fences s !! p = Some f -> within (signaled_types f) (gpu h (private f));
  inv_order : forall c, 0 <= c < n -> in_order A (Ls c) }.

Context {Hgpu : HonestDriver gpu}.

Abbreviation wpm := (wp (H := list fcall) (S := fence_mgr) False).

Lemma gpu_extends h h' p : extends h h' -> within (gpu h p) (gpu h' p).
Proof.
  intros [l ->]. induction l as [|c l IH]; cbn; [apply within_refl|]. eapply within_trans; [exact IH|apply gpu_mono].
Qed.

Lemma inv_extends n s h h' A Ls : fm_inv n s h A Ls -> extends h h' -> fm_inv n s h' A Ls.
Proof.
  intros [? ? ? ? ? Hh ?] He. split; try done. intros p f Hf. eapply within_trans; [by eapply Hh|by apply gpu_extends].
Qed.

(** A pass makes no fence lie. *)
Lemma propagate_honest A h l types fs :
  in_order A l -> (forall p, p ∈ l -> exists f a, fs !! p = Some f /\ A !! p = Some a) ->
  (forall p f a, fs !! p = Some f -> A !! p = Some a -> private f = h_priv a) ->
  (forall p f, p ∈ l -> fs !! p = Some f -> within types (gpu h (private f))) ->
  (forall p f, fs !! p = Some f -> within (signaled_types f) (gpu h (private f))) ->
  forall p f, propagate (rev l) types fs !! p = Some f -> within (signaled_types f) (gpu h (private f)).
Proof.
  revert types fs. induction l as [|x l IH] using rev_ind; intros types fs Ho Hin Hpr Ht Hh; [done|].
  apply in_order_app in Ho as (Ho & _ & Hx). rewrite rev_app_distr. cbn [rev app propagate].
  destruct (Hin x ltac:(set_solver)) as (fx & ax & Hfx & Hax). rewrite Hfx.
  assert (Hw : within (signal_with types fx) (gpu h (private fx))).
  { apply within_lor; [by eapply Hh|]. apply within_land. apply (Ht x); [set_solver|done]. }
  apply IH; [done| | | |].
  - intros p Hp. destruct (decide (p = x)) as [->|Hne]; [rewrite lookup_insert_eq; by eexists _, ax|].
    rewrite lookup_insert_ne by done. apply Hin. set_solver.
  - intros p f a [[<- <-]|[Hne Hf]]%lookup_insert_Some Ha; [exact (Hpr x fx a Hfx Ha)|by eapply Hpr].
  - intros p f Hp Hf. eapply within_trans; [exact Hw|].
    destruct (Hin p ltac:(set_solver)) as (fp & ap & Hfp & Hap).
    assert (private f = h_priv ap) as ->.
    { apply lookup_insert_Some in Hf as [[<- <-]|[Hne Hf]]; [exact (Hpr x fx ap Hfx Hap)|by eapply Hpr]. }
    rewrite (Hpr _ _ _ Hfx Hax). refine (Hx p x Hp _ ap ax Hap Hax h). set_solver.
  - intros p f [[<- <-]|[Hne Hf]]%lookup_insert_Some; [done|by eapply Hh].
Qed.

Lemma fm_inv_client n s h A Ls p : fm_inv n s h A Ls -> is_Some (A !! p) -> exists f a, fences s !! p = Some f /\ A !! p = Some a.
Proof. intros Hi Hp. pose proof (proj2 (inv_dom _ _ _ _ _ Hi p) Hp) as [f Hf]. destruct Hp as [a Ha]. by exists f, a. Qed.

(** The invariant after a pass for types the device has signalled. *)
Lemma inv_passed n s h A Ls p f types s' : fm_inv n s h A Ls -> fences s !! p = Some f ->
  within types (gpu h (private f)) -> passed p f types s Ls s' -> exists Ls', fm_inv n s' h A Ls'.
Proof.
  intros Hi Hf Ht [[-> _]|(older & newer & El & Hn & Hm & Hfs & Hwf)]; [by exists Ls|].
  pose proof (inv_wf _ _ _ _ _ Hi) as Hw. pose proof (wf_class _ _ Hw _ _ Hf) as Hc. pose proof Hi as [_ En Ec Ed Eh Ehon Eo].
  pose proof (propagate_shape (rev (older ++ [p])) types (fences s)) as Hs. rewrite <- Hfs in Hs.
  rewrite cons_middle, app_assoc in El.
  assert (Hord : in_order A (older ++ [p])).
  { specialize (Eo (fence_class f) ltac:(by rewrite <- En)). rewrite El in Eo. by apply in_order_app in Eo as [? _]. }
  assert (Hin : forall q, q ∈ older ++ [p] -> exists f a, fences s !! q = Some f /\ A !! q = Some a).
  { intros q Hq. eapply fm_inv_client; [exact Hi|]. apply Ed.
    destruct (wf_on _ _ Hw _ q Hc) as (g & Hg & _); [rewrite El; set_solver|by exists g]. }
  eexists. split; [exact Hwf|by rewrite Hn|by rewrite Hm| | | |].
  - intros q. rewrite <- Ed. split; intros [g Hg].
    + destruct (same_shape_some _ _ _ _ Hs Hg) as (g0 & t & Hg0 & _). by exists g0.
    + destruct (same_shape_some' _ _ _ _ Hs Hg) as [t Hg']. by eexists.
  - intros q g a Hg Ha. destruct (same_shape_some _ _ _ _ Hs Hg) as (g0 & t & Hg0 & ->). exact (Eh q g0 a Hg0 Ha).
  - rewrite Hfs. eapply propagate_honest; [exact Hord|exact Hin| | |exact Ehon].
    + intros q g a Hg Ha. by destruct (Eh q g a Hg Ha) as (_ & _ & ? & _).
    + intros q g Hq Hg. apply elem_of_app in Hq as [Hq|E%list_elem_of_singleton]; [|subst q; by assert (g = f) as -> by congruence].
      eapply within_trans; [exact Ht|]. apply in_order_app in Hord as (_ & _ & Hseq).
      destruct (Hin q ltac:(set_solver)) as (g' & a & Hg' & Ha). destruct (Hin p ltac:(set_solver)) as (f' & b & Hf' & Hb).
      destruct (Eh _ _ _ Hg Ha) as (_ & _ & -> & _). destruct (Eh _ _ _ Hf Hb) as (_ & _ & -> & _).
      refine (Hseq q p Hq _ a b Ha Hb h). set_solver.
  - intros c Hc'. unfold upd. destruct (decide (c = fence_class f)) as [->|]; [|by apply Eo].
    eapply in_order_sublist; [|by apply (Eo (fence_class f))]. rewrite El. apply sublist_app; [apply filter_sublist|done].
Qed.

End client.

Lemma int32_add a b : int32 (int32 a + b) = int32 (a + b).
Proof.
  unfold int32. replace ((a + 2 ^ 31) mod 2 ^ 32 - 2 ^ 31 + b + 2 ^ 31) with ((a + 2 ^ 31) mod 2 ^ 32 + b) by lia.
  rewrite Z.add_mod_idemp_l by done. do 2 f_equal. lia.
Qed.

(** * The operations keep the invariant *)

Section steps.
Context `{FenceEnv} `{FenceDriver} (gpu : list fcall -> priv -> Z) {Hgpu : HonestDriver gpu} (n : Z).

Abbreviation wpm := (wp (H := list fcall) (S := fence_mgr) False).
Abbreviation inv := (fm_inv gpu n).

(** The postcondition of an operation that leaves the same fences held. *)
Definition keeps (h : list fcall) (A : gmap Z held_fence) (s' : fence_mgr) (h' : list fcall) : Prop :=
  extends h h' /\ exists Ls', inv s' h' A Ls'.

Lemma inv_signal s h A Ls p f t : inv s h A Ls -> fences s !! p = Some f -> within t (gpu h (private f)) ->
  inv (set_fences (<[p := set_signaled t f]> (fences s)) s) h A Ls.
Proof.
  intros [Hw En Ec Ed Eh Ehon Eo] Hf Ht. split; cbn [num_classes mgr_count fences set_fences]; try done.
  - apply wf_shape; [done|by apply same_shape_insert].
  - intros q. rewrite <- Ed, lookup_insert_is_Some. split; [|destruct (decide (p = q)); tauto]. intros [->|[_ ?]]; [by exists f|done].
  - intros q g a [[<- <-]|[Hne Hg]]%lookup_insert_Some Ha; [exact (Eh p f a Hf Ha)|by apply (Eh q)].
  - intros q g [[<- <-]|[Hne Hg]]%lookup_insert_Some; [done|by eapply Ehon].
Qed.

Lemma finish_ok s h A Ls p f type lazy : inv s h A Ls -> fences s !! p = Some f ->
  wpm (wsbmFenceFinish p type lazy) (fun r s' h' => keeps h A s' h' /\ (r = 0 -> within type (gpu h' (private f)))) s h.
Proof.
  intros Hi Hf. unfold wsbmFenceFinish. apply wp_bind. eapply get_fence_wp; [done|].
  destruct (Z.eqb_spec (Z.land (signaled_types f) type) type) as [E|_].
  - apply wp_ret. split; [split; [apply calls_extends_refl|by exists Ls]|]. intros _. eapply within_trans; [by apply within_sub|].
    by eapply (inv_honest _ _ _ _ _ _ Hi).
  - apply wp_bind. unfold callback. apply wp_zoom. eapply wp_mono; [apply (finish_honest (gpu := gpu))|]. cbv beta. intros r [] h1 [He Ht].
    pose proof (inv_extends gpu _ _ _ _ _ _ Hi He) as H1. destruct (Z.eqb_spec r 0) as [->|Hne]; cbn [negb].
    + apply wp_bind. eapply wp_mono; [apply (signal_previous_fences_wp _ _ _ _ _ _ (inv_wf _ _ _ _ _ _ H1) Hf)|].
      cbv beta. intros _ s2 h2 [-> Hp]. apply wp_ret. split; [|done]. split; [done|]. eapply (inv_passed gpu); [exact H1|exact Hf|by apply Ht|done].
    + apply wp_ret. split; [split; [done|by exists Ls]|]. by intros ->.
Qed.

Lemma signal_fence_ok s h A Ls p f types : inv s h A Ls -> fences s !! p = Some f -> within types (gpu h (private f)) ->
  wpm (signal_fence 1 p (fence_class f) types) (fun _ s' h' => h' = h /\ keeps h A s' h') s h.
Proof.
  intros Hi Hf Ht. cbn [signal_fence]. apply wp_bind. eapply get_fence_wp; [done|]. cbv zeta.
  destruct (_ =? _); [apply wp_ret; split; [done|]; split; [apply calls_extends_refl|by exists Ls]|].
  apply wp_bind, (cmpxchg_wp _ _ _ _ _ _ Hf). rewrite Z.eqb_refl. cbn [negb].
  set (t := Z.lor _ _).
  assert (H1 : inv (set_fences (<[p := set_signaled t f]> (fences s)) s) h A Ls).
  { apply inv_signal; [done|done|]. apply within_lor; [by eapply (inv_honest _ _ _ _ _ _ Hi)|done]. }
  apply wp_bind, wp_when.
  eapply wp_mono; [apply (signal_previous_fences_wp _ (set_signaled t f) _ _ _ _ (inv_wf _ _ _ _ _ _ H1)); apply lookup_insert_eq|].
  cbv beta. intros _ s2 h2 [-> Hp]. apply wp_ret. split; [done|]. split; [apply calls_extends_refl|].
  eapply (inv_passed gpu _ _ _ _ _ _ (set_signaled t f)); [exact H1|apply lookup_insert_eq|done|done].
Qed.

Lemma signaled_ok s h A Ls p f type : inv s h A Ls -> fences s !! p = Some f ->
  wpm (wsbmFenceSignaledType p type)
    (fun r s' h' => keeps h A s' h' /\ (fst r = 0 -> within (snd r) (gpu h' (private f)))) s h.
Proof.
  intros Hi Hf. unfold wsbmFenceSignaledType. apply wp_bind. eapply get_fence_wp; [done|].
  destruct (_ =? type).
  - apply wp_ret. split; [split; [apply calls_extends_refl|by exists Ls]|]. intros _. by eapply (inv_honest _ _ _ _ _ _ Hi).
  - apply wp_bind. unfold callback. apply wp_zoom. eapply wp_mono; [apply (signaled_honest (gpu := gpu))|].
    cbv beta. intros [r types] [] h1 [He Ht]. cbn [fst snd] in Ht. pose proof (inv_extends gpu _ _ _ _ _ _ Hi He) as H1.
    destruct (Z.eqb_spec r 0) as [->|Hne]; cbn [negb].
    + apply wp_bind. eapply wp_mono; [apply (signal_fence_ok _ _ _ _ _ _ _ H1 Hf); by apply Ht|].
      cbv beta. intros _ s2 h2 [-> [_ HL]]. apply wp_ret. split; [by split|done].
    + apply wp_bind. eapply get_fence_wp; [done|]. apply wp_ret. split; [split; [done|by exists Ls]|]. cbn [fst]. by intros ->.
Qed.

(** What a client knows is only used as far as it says what stands for what. *)
Lemma in_order_mono A A' l :
  (forall p a, A' !! p = Some a -> p ∈ l -> exists b, A !! p = Some b /\ h_priv a = h_priv b) ->
  in_order gpu A l -> in_order gpu A' l.
Proof.
  intros HA. induction l as [|x l IH]; cbn; [done|]. intros [Hx Ho]. split.
  - intros q Hq a b Ha Hb. destruct (HA x a Ha) as (a0 & Ha0 & ->); [by left|].
    destruct (HA q b Hb) as (b0 & Hb0 & ->); [by right|]. by apply (Hx q Hq).
  - apply IH; [|done]. intros q a Ha Hq. apply (HA q a Ha). by right.
Qed.

Lemma fm_inv_refs s h A Ls p f a d : inv s h A Ls -> fences s !! p = Some f -> A !! p = Some a -> 0 < h_refs a + d < 2 ^ 31 ->
  inv (set_fences (<[p := set_refs (refCount f + d) f]> (fences s)) s) h (<[p := add_refs d a]> A) Ls.
Proof.
  intros [Hw En Ec Ed Eh Ehon Eo] Hf Ha Hd. destruct (Eh p f a Hf Ha) as (E1 & E2 & E3 & E4 & E5).
  split; cbn [num_classes mgr_count fences set_fences]; try done.
  - destruct Hw as [Hr Hon Hoff Hc Hpos]. split; cbn [num_classes head fences set_fences]; [done|..].
    + intros c q Hcl Hq. destruct (Hon c q Hcl Hq) as (g & Hg & Egc).
      destruct (decide (q = p)) as [->|]; [|exists g; by rewrite lookup_insert_ne].
      rewrite lookup_insert_eq. eexists. split; [done|]. cbn. congruence.
    + intros q g [[<- <-]|[Hne Hg]]%lookup_insert_Some; [exact (Hoff p f Hf)|by apply Hoff].
    + intros q g [[<- <-]|[Hne Hg]]%lookup_insert_Some; [exact (Hc p f Hf)|by eapply Hc].
    + intros q g [[<- <-]|[Hne Hg]]%lookup_insert_Some; [exact (Hpos p f Hf)|by eapply Hpos].
  - by rewrite Ec, map_size_insert_Some by (by exists a).
  - intros q. rewrite !lookup_insert_is_Some, <- Ed. tauto.
  - intros q g b [[<- <-]|[Hne Hg]]%lookup_insert_Some.
    + rewrite lookup_insert_eq. intros [= <-]. cbn. rewrite E4, int32_id by lia. split_and!; done || lia.
    + rewrite lookup_insert_ne by done. by apply (Eh q).
  - intros q g [[<- <-]|[Hne Hg]]%lookup_insert_Some; [exact (Ehon p f Hf)|by eapply Ehon].
  - intros c Hc. eapply in_order_mono; [|by apply Eo]. intros q b [[<- <-]|[Hne Hb]]%lookup_insert_Some _; by eexists.
Qed.

Lemma fence_reference_ok s h A Ls p f a : inv s h A Ls -> fences s !! p = Some f -> A !! p = Some a -> h_refs a + 1 < 2 ^ 31 ->
  wpm (wsbmFenceReference (Some p)) (fun r s' h' => r = Some p /\ h' = h /\ inv s' h' (<[p := add_refs 1 a]> A) Ls) s h.
Proof.
  intros Hi Hf Ha Hmax. destruct (inv_held _ _ _ _ _ _ Hi p f a Hf Ha) as (_ & _ & _ & _ & ?).
  cbn [wsbmFenceReference]. apply wp_bind. eapply get_fence_wp; [done|]. apply wp_bind, set_fence_wp; [by exists f|].
  apply wp_ret. split_and!; [done..|]. apply fm_inv_refs; [done..|lia].
Qed.

(** The last reference: the fence leaves its list, what it stands for is given back to
    the device, and it is freed. *)
Lemma unreference_last s h A Ls p f a : inv s h A Ls -> fences s !! p = Some f -> A !! p = Some a -> h_refs a = 1 ->
  wpm (wsbmFenceUnreference (Some p)) (fun _ s' h' => extends h h' /\ exists Ls', inv s' h' (delete p A) Ls') s h.
Proof.
  intros Hi Hf Ha Hone. pose proof Hi as [Hw En Ec Ed Eh Ehon Eo]. destruct (Eh p f a Hf Ha) as (E1 & E2 & E3 & E4 & E5).
  cbn [wsbmFenceUnreference]. apply wp_bind. eapply get_fence_wp; [done|]. apply wp_bind, set_fence_wp; [by exists f|].
  assert (Hz : int32 (refCount f - 1) = 0) by (by rewrite E4, Hone). rewrite Hz, Z.eqb_refl.
  set (f1 := set_refs (refCount f - 1) f). set (s1 := set_fences _ s).
  assert (Hw1 : fm_wf s1 Ls).
  { destruct Hw as [Hr Hon Hoff Hc Hpos]. split; cbn [s1 num_classes head fences set_fences]; [done|..].
    + intros c q Hcl Hq. destruct (Hon c q Hcl Hq) as (g & Hg & Egc).
      destruct (decide (q = p)) as [->|]; [|exists g; by rewrite lookup_insert_ne].
      rewrite lookup_insert_eq. eexists. split; [done|]. cbn. congruence.
    + intros q g [[<- <-]|[Hne Hg]]%lookup_insert_Some; [exact (Hoff p f Hf)|by apply Hoff].
    + intros q g [[<- <-]|[Hne Hg]]%lookup_insert_Some; [exact (Hc p f Hf)|by eapply Hc].
    + intros q g [[<- <-]|[Hne Hg]]%lookup_insert_Some; [exact (Hpos p f Hf)|by eapply Hpos]. }
  assert (Hf1 : fences s1 !! p = Some f1) by apply lookup_insert_eq.
  pose proof (wf_class _ _ Hw1 _ _ Hf1) as Hc. apply wp_bind, class_of_wp; [exact Hc|].
  apply wp_bind. eapply wf_leave; [exact Hw1|exact Hf1|]. intros k l Hl Hni Hw2. cbn [f1 set_refs fence_class] in Hl, Hw2.
  apply wp_bind. eapply get_fence_wp; [exact Hf1|]. apply wp_bind, wp_when.
  assert (Hrest : forall h1, extends h h1 -> wpm
    (s ← get; modify (set_count (mgr_count s - 1)) ;; free_fence p)
    (fun _ s' h' => extends h h' /\ exists Ls', inv s' h' (delete p A) Ls') (set_head k s1) h1).
  { intros h1 He. apply wp_bind, wp_get, wp_bind, wp_modify. unfold free_fence, wp.
    rewrite bool_decide_eq_true_2 by (exists f1; exact Hf1). split; [eapply calls_extends_trans; [exact He|apply calls_extends_cons]|].
    assert (He' : extends h (F_free p :: h1)) by (eapply calls_extends_trans; [exact He|apply calls_extends_cons]).
    exists (upd (fence_class f) l Ls). split; cbn [num_classes mgr_count fences set_fences set_head set_count].
    - apply (wf_count _ _ (mgr_count (set_head k s1) - 1)) in Hw2. eapply fm_wf_free in Hw2; [exact Hw2|exact Hf1|].
      cbn [f1 set_refs fence_class]. by rewrite upd_eq.
    - done.
    - cbn [s1 mgr_count set_fences]. rewrite Ec. replace (int32 (Z.of_nat (size A)) - 1) with (int32 (Z.of_nat (size A)) + -1) by lia.
      rewrite int32_add, map_size_delete, Ha. pose proof (map_size_ne_0_lookup_2 A p ltac:(by exists a)). f_equal. lia.
    - intros q. cbn [s1 fences set_fences]. rewrite !lookup_delete_is_Some, lookup_insert_is_Some, Ed. naive_solver.
    - intros q g b. cbn [s1 fences set_fences]. intros [Hne Hg]%lookup_delete_Some [_ Hb]%lookup_delete_Some.
      rewrite lookup_insert_ne in Hg by done. by apply (Eh q).
    - intros q g. cbn [s1 fences set_fences]. intros [Hne Hg]%lookup_delete_Some. rewrite lookup_insert_ne in Hg by done.
      eapply within_trans; [by eapply Ehon|by apply gpu_extends].
    - intros c Hcl. eapply (in_order_mono A).
      + intros q b [_ Hb]%lookup_delete_Some _. by exists b.
      + unfold upd. destruct (decide (c = fence_class f)) as [->|]; [|by apply Eo].
        eapply in_order_sublist; [exact Hl|]. apply Eo. by rewrite <- En. }
  destruct (negb _); [|by apply Hrest, calls_extends_refl].
  unfold callback. apply wp_zoom. eapply wp_mono; [apply (unreference_honest (gpu := gpu))|]. cbv beta. intros _ _ h1 He.
  by apply Hrest.
Qed.

Lemma fence_unreference_ok s h A Ls p f a : inv s h A Ls -> fences s !! p = Some f -> A !! p = Some a ->
  wpm (wsbmFenceUnreference (Some p)) (fun _ s' h' => extends h h' /\
    exists Ls', inv s' h' (if h_refs a =? 1 then delete p A else <[p := add_refs (-1) a]> A) Ls') s h.
Proof.
  intros Hi Hf Ha. destruct (Z.eqb_spec (h_refs a) 1) as [E|Hne]; [by eapply unreference_last|].
  destruct (inv_held _ _ _ _ _ _ Hi p f a Hf Ha) as (_ & _ & _ & E4 & ?).
  cbn [wsbmFenceUnreference]. apply wp_bind. eapply get_fence_wp; [done|]. apply wp_bind, set_fence_wp; [by exists f|].
  rewrite E4, int32_id, (proj2 (Z.eqb_neq _ _)) by lia. apply wp_ret. split; [apply calls_extends_refl|]. exists Ls.
  rewrite <- E4. apply (fm_inv_refs _ _ _ _ _ _ _ (-1)); [done..|lia].
Qed.

Lemma create_ok s h A Ls class type signaled ptr copy : inv s h A Ls -> legal gpu n h A (O_create class type signaled ptr copy) ->
  wpm (wsbmFenceCreateSig class type signaled ptr copy) (fun r s' h' => extends h h' /\
    exists Ls', inv s' h' (client_after (O_create class type signaled ptr copy) (A_fence r) A) Ls') s h.
Proof.
  intros Hi [Hc Hlegal]. pose proof Hi as [Hw En Ec Ed Eh Ehon Eo]. unfold wsbmFenceCreateSig.
  apply wp_bind, class_of_wp; [by rewrite En|]. apply wp_bind. unfold calloc_fence, wp at 1.
  destruct (fence_calloc h (dom (fences s))) as [p|] eqn:Ep.
  2:{ assert (H1 : inv s (F_calloc None :: h) A Ls) by exact (inv_extends gpu _ _ _ _ _ _ Hi (calls_extends_cons _ _)).
      apply wp_bind. unfold callback. apply wp_zoom. eapply wp_mono; [apply (finish_honest (gpu := gpu))|].
      cbv beta. intros ret _ h1 [He _]. apply (calls_extends_trans _ _ _ (calls_extends_cons _ _)) in He. apply wp_bind, wp_when.
      assert (Hrest : forall h1, extends h h1 -> wpm (zoom (fun _ => tt) (fun _ s => s) (drv_unreference (ptr, copy)) ;; mret None)
        (fun r s' h' => extends h h' /\
          exists Ls', inv s' h' (client_after (O_create class type signaled ptr copy) (A_fence r) A) Ls') s h1).
      { intros h2 He2. apply wp_bind, wp_zoom. eapply wp_mono; [apply (unreference_honest (gpu := gpu))|].
        cbv beta. intros _ _ h3 He3. apply (calls_extends_trans _ _ _ He2) in He3. apply wp_ret. split; [done|]. exists Ls.
        exact (inv_extends gpu _ _ _ _ _ _ Hi He3). }
      destruct (negb _); [|by apply Hrest]. unfold call, wp at 1. apply Hrest. eapply calls_extends_trans; [exact He|apply calls_extends_cons]. }
  destruct (fence_calloc_new _ _ _ Ep) as [Hpos Hfresh]. apply not_elem_of_dom in Hfresh.
  assert (HA : A !! p = None).
  { apply eq_None_not_Some. rewrite <- Ed, Hfresh. by intros [? [=]]. }
  destruct (Hlegal p) as [Hsig Hlater]. fold (made p ptr copy).
  set (f := {| fence_class := class; fence_type := type; private := made p ptr copy; refCount := 1; signaled_types := signaled |}).
  apply wp_bind, set_fence_wp; [cbn; by rewrite lookup_insert_eq|]. cbn [fences set_fences set_head]. rewrite insert_insert_eq.
  apply wp_bind. change class with (fence_class f) at 1.
  eapply (fm_wf_new s Ls p f); [exact Hw|exact Hfresh|exact Hpos|cbn; by rewrite En|]. intros k Hw2.
  apply wp_bind, wp_get, wp_bind, wp_modify, wp_ret. split; [apply calls_extends_cons|].
  exists (upd class (Ls class ++ [p]) Ls). cbn [client_after].
  split; cbn [num_classes mgr_count fences set_fences set_head set_count].
  - by apply (wf_count _ _ (mgr_count s + 1)) in Hw2.
  - done.
  - rewrite Ec, int32_add, map_size_insert_None by done. f_equal. lia.
  - intros q. rewrite !lookup_insert_is_Some, Ed. tauto.
  - intros q g b [[<- <-]|[Hne Hg]]%lookup_insert_Some.
    + rewrite lookup_insert_eq. intros [= <-]. cbn. split_and!; done || lia.
    + rewrite lookup_insert_ne by done. by apply (Eh q).
  - intros q g [[<- <-]|[Hne Hg]]%lookup_insert_Some.
    + eapply within_trans; [exact Hsig|]. exact (gpu_extends gpu _ _ _ (calls_extends_cons _ _)).
    + eapply within_trans; [by eapply Ehon|]. exact (gpu_extends gpu _ _ _ (calls_extends_cons _ _)).
  - assert (Hnot : forall c, 0 <= c < n -> p ∉ Ls c).
    { intros c Hcl Hin. destruct (wf_on _ _ Hw c p) as (g & Hg & _); [by rewrite En|done|congruence]. }
    assert (Hold : forall c, 0 <= c < n -> in_order gpu (<[p := {| h_class := class; h_type := type;
      h_priv := made p ptr copy; h_refs := 1 |}]> A) (Ls c)).
    { intros c Hcl. eapply in_order_mono; [|by apply Eo]. intros q b Hb Hq.
      assert (p <> q) by (intros ->; by apply (Hnot c)). rewrite lookup_insert_ne in Hb by done. by exists b. }
    intros c Hcl. unfold upd. destruct (decide (c = class)) as [->|]; [|by apply Hold].
    apply in_order_app. split_and!; [by apply Hold|cbn; split; [by intros q ?%not_elem_of_nil|done]|].
    intros q r Hq E%list_elem_of_singleton a b Ha Hb. subst r.
    assert (p <> q) by (intros ->; by apply (Hnot class)). rewrite lookup_insert_ne in Ha by done.
    rewrite lookup_insert_eq in Hb. injection Hb as <-. apply (Hlater q a Ha).
    destruct (wf_on _ _ Hw class q) as (g & Hg & Egc); [by rewrite En|done|]. destruct (Eh q g a Hg Ha) as (<- & _). done.
Qed.

(** Every operation. *)
Lemma fence_step_ok s h A Ls op : inv s h A Ls -> legal gpu n h A op ->
  wpm (fence_do op) (fun r s' h' => truthful gpu op r A h' /\ extends h h' /\
    exists Ls', inv s' h' (client_after op r A) Ls') s h.
Proof.
  intros Hi Hl. destruct op as [class type signaled ptr copy|p|p|p type lazy|p type|p type|p]; cbn [fence_do].
  1:{ apply wp_bind. eapply wp_mono; [by eapply create_ok|]. cbv beta. intros r s1 h1 H1. by apply wp_ret. }
  1: destruct Hl as (a0 & Ha0 & Hmax); assert (Hl : is_Some (A !! p)) by (by exists a0).
  all: destruct (fm_inv_client _ _ _ _ _ _ p Hi Hl) as (f & a & Hf & Ha);
       destruct (inv_held _ _ _ _ _ _ Hi p f a Hf Ha) as (_ & Et & Epr & _); apply wp_bind.
  - assert (a0 = a) as -> by congruence. eapply wp_mono; [by eapply fence_reference_ok|]. cbv beta. intros r s1 h1 (-> & -> & H1).
    apply wp_ret. split_and!; [done|apply calls_extends_refl|]. exists Ls. cbn [client_after].
    replace (alter (add_refs 1) p A) with (<[p := add_refs 1 a]> A); [done|]. apply map_eq. intros q.
    destruct (decide (p = q)) as [<-|]; [by rewrite lookup_insert_eq, lookup_alter_eq, Ha|by rewrite lookup_insert_ne, lookup_alter_ne].
  - eapply wp_mono; [by eapply fence_unreference_ok|]. cbv beta. intros _ s1 h1 [He H1]. apply wp_ret. cbn [client_after].
    rewrite Ha. by split_and!.
  - eapply wp_mono; [by eapply finish_ok|]. cbv beta. intros r s1 h1 [[He H1] Ht]. apply wp_ret. split_and!; [|done..].
    cbn. intros b Hb. assert (b = a) as -> by congruence. by rewrite <- Epr.
  - unfold wsbmFenceSignaled. apply wp_bind. eapply wp_mono; [by eapply signaled_ok|]. cbv beta.
    intros [r types] s1 h1 [[He H1] Ht]. destruct (Z.eqb_spec r 0) as [->|Hne]; cbn [negb]; apply wp_ret, wp_ret; [|by split_and!].
    split_and!; [|done..]. cbn. destruct (Z.eqb_spec (Z.land types type) type) as [E|]; [|done].
    intros b Hb. assert (b = a) as -> by congruence. rewrite <- Epr. eapply within_trans; [by apply within_sub|by apply Ht].
  - unfold wsbmFenceSignaledCached, wsbmFenceSignaledTypeCached. apply wp_bind, wp_bind. eapply get_fence_wp; [done|].
    apply wp_ret, wp_ret, wp_ret. split_and!; [|apply calls_extends_refl|by exists Ls]. cbn.
    destruct (Z.eqb_spec (Z.land (signaled_types f) type) type) as [E|]; [|done].
    intros b Hb. assert (b = a) as -> by congruence. rewrite <- Epr. eapply within_trans; [by apply within_sub|].
    by eapply (inv_honest _ _ _ _ _ _ Hi).
  - unfold wsbmFenceType. apply wp_bind. eapply get_fence_wp; [done|]. apply wp_ret, wp_ret.
    split_and!; [|apply calls_extends_refl|by exists Ls]. cbn. intros b Hb. by assert (b = a) as -> by congruence.
Qed.

End steps.

(** * Creation and takedown *)

(** The memory and the mutexes of the manager that are not given back. *)
Fixpoint balance (h : list fcall) : Z * Z :=
  match h with
  | [] => (0, 0)
  | c :: h =>
      let '(m, x) := balance h in
      match c with
      | F_alloc true => (m + 1, x)
      | F_release => (m - 1, x)
      | F_mutex_init true => (m, x + 1)
      | F_mutex_free => (m, x - 1)
      | _ => (m, x)
      end
  end.

Section create.
Context `{FenceEnv}.

Abbreviation wpm := (wp (H := list fcall) (S := fence_mgr) False).

Lemma free_mutexes_wp l Q s h :
  (forall h', fst (balance h') = fst (balance h) -> snd (balance h') = snd (balance h) - 2 * Z.of_nat (length l) -> Q tt s h') ->
  wpm (for_each (l : list nat) (fun _ => WSBM_MUTEX_FREE ;; WSBM_MUTEX_FREE)) Q s h.
Proof.
  revert h. induction l as [|x l IH]; intros h HQ; cbn [for_each].
  - apply wp_ret, HQ; cbn; lia.
  - apply wp_bind, wp_bind. unfold WSBM_MUTEX_FREE, call, wp at 1. unfold wp at 1. apply IH.
    intros h' H1 H2. cbn [balance] in H1, H2. destruct (balance h) as [m x0]. cbn [fst snd length] in *. apply HQ; lia.
Qed.

(** [i] classes were made, [k] are left. *)
Lemma init_classes_wp k i s h : num_classes s = Z.of_nat (i + k) -> fences s = ∅ ->
  (forall c, 0 <= c < Z.of_nat i -> ring (class_head c) (head s) []) ->
  wpm (init_classes k i) (fun ok s' h' => fst (balance h') = fst (balance h) /\
    if ok then num_classes s' = num_classes s /\ fences s' = ∅ /\
        (forall c, 0 <= c < num_classes s -> ring (class_head c) (head s') []) /\
        snd (balance h') = snd (balance h) + 2 * Z.of_nat k
      else snd (balance h') = snd (balance h) - 2 * Z.of_nat i) s h.
Proof.
  revert i s h. induction k as [|k IH]; intros i s h Hn Hf Hr; cbn [init_classes].
  { apply wp_ret. split; [done|]. rewrite Nat.add_0_r in Hn. rewrite Hn. split_and!; [done..|]. cbn. lia. }
  apply wp_bind. eapply init_head_wp.
  { cbn. apply orb_true_iff. right. rewrite Hn. unfold class_head. apply andb_true_iff. split; [apply Z.leb_le|apply Z.ltb_lt]; lia. }
  cbn [Rings.set_links links_of fence_links]. set (s1 := set_head _ s).
  assert (Hr1 : forall c, 0 <= c < Z.of_nat (S i) -> ring (class_head c) (head s1) []).
  { intros c Hc. destruct (decide (c = Z.of_nat i)) as [->|]; [apply ring_alone|].
    eapply ring_off; [apply Hr; lia|apply agree_off_alone|]. unfold class_head.
    intros q [->|[]%not_elem_of_nil]%elem_of_cons E%list_elem_of_singleton. lia. }
  apply wp_bind. unfold WSBM_MUTEX_INIT at 1, wp at 1. destruct (mutex_init h); cbn [negb].
  2:{ apply wp_bind. apply free_mutexes_wp. intros h' H1 H2. apply wp_ret. cbn [balance] in H1, H2.
      destruct (balance h) as [m x]. rewrite length_seq in H2. by split. }
  apply wp_bind. unfold WSBM_MUTEX_INIT at 1, wp at 1. destruct (mutex_init _); cbn [negb].
  2:{ apply wp_bind. unfold WSBM_MUTEX_FREE at 1, call, wp at 1. apply wp_bind. apply free_mutexes_wp.
      intros h' H1 H2. apply wp_ret. cbn [balance] in H1, H2. destruct (balance h) as [m x]. cbn [fst snd] in *.
      rewrite length_seq in H2. split; [done|lia]. }
  eapply wp_mono; [apply (IH (S i)); [|exact Hf|exact Hr1]|].
  { cbn [num_classes s1 set_head]. rewrite Hn. lia. }
  cbv beta. intros ok s' h' [H1 H2]. cbn [balance] in H1, H2. destruct (balance h) as [m x]. cbn [fst snd] in *. split; [done|].
  destruct ok; [|lia]. destruct H2 as (E1 & E2 & E3 & E4). cbn [num_classes s1 set_head] in *. split_and!; [done..|lia].
Qed.

Lemma mgr_create_wp n s h : 0 <= n ->
  wpm (wsbmFenceMgrCreate n) (fun ok s' h' =>
    if ok then balance h' = (fst (balance h) + 2, snd (balance h) + 2 * n) /\ num_classes s' = n /\ mgr_count s' = 0 /\
        fences s' = ∅ /\ fm_wf s' (fun _ => [])
      else balance h' = balance h) s h.
Proof.
  intros Hn. unfold wsbmFenceMgrCreate. apply wp_bind. unfold alloc_other at 1, wp at 1.
  destruct (other_alloc h); cbn [negb].
  2:{ apply wp_ret. cbn. by destruct (balance h). }
  apply wp_bind, wp_modify, wp_bind. unfold alloc_other at 1, wp at 1. destruct (other_alloc _); cbn [negb].
  2:{ apply wp_bind. unfold call, wp at 1. apply wp_ret. cbn. destruct (balance h) as [m x]. f_equal; lia. }
  apply wp_bind. eapply wp_mono; [apply init_classes_wp; [cbn; lia|done|]|].
  { cbn [Z.of_nat]. intros c Hc. lia. }
  cbv beta. intros ok s1 h1 [H1 H2]. cbn [balance num_classes] in *. destruct (balance h) as [m x] eqn:E. cbn [fst snd] in *.
  destruct ok; cbn [negb].
  - destruct H2 as (E1 & E2 & E3 & E4). apply wp_bind, wp_modify, wp_ret. split_and!; try done.
    + rewrite (surjective_pairing (balance h1)). f_equal; lia.
    + split; cbn [num_classes head fences set_count].
      * rewrite E1. exact E3.
      * by intros c p _ ?%not_elem_of_nil.
      * intros p f. by rewrite E2, lookup_empty.
      * intros p f. by rewrite E2, lookup_empty.
      * intros p f. by rewrite E2, lookup_empty.
  - apply wp_bind. unfold call at 1, wp at 1. apply wp_bind. unfold call at 1, wp at 1. apply wp_ret. cbn [balance].
    rewrite (surjective_pairing (balance h1)). f_equal; lia.
Qed.

End create.

(** * Theorems *)

Section theorems.
Context `{FenceEnv} `{FenceDriver} (gpu : list fcall -> priv -> Z) {Hgpu : HonestDriver gpu} (n : Z).

Abbreviation wpm := (wp (H := list fcall) (S := fence_mgr) False).

(** A manager of [n] classes, its calls so far, and the fences its clients hold. *)
Inductive fence_reach : fence_mgr -> list fcall -> gmap Z held_fence -> Prop :=
| Reach_create s0 h0 s h : wsbmFenceMgrCreate n s0 h0 = Done true s h -> fence_reach s h ∅
| Reach_step s h A op r s' h' : fence_reach s h A -> legal gpu n h A op ->
    fence_do op s h = Done r s' h' -> fence_reach s' h' (client_after op r A).

Lemma fm_reach_inv s h A : 0 <= n -> fence_reach s h A -> exists Ls, fm_inv gpu n s h A Ls.
Proof.
  intros Hn. induction 1 as [s0 h0 s h E|s h A op r s' h' Hr [Ls Hi] Hl E].
  - pose proof (mgr_create_wp n s0 h0 Hn) as Hw. unfold wp in Hw. rewrite E in Hw. destruct Hw as (_ & En & Ec & Ef & Hwf).
    exists (fun _ => []). split; try done.
    + intros p. by rewrite Ef, !lookup_empty.
    + intros p f. by rewrite Ef, lookup_empty.
  - pose proof (fence_step_ok gpu n _ _ _ _ _ Hi Hl) as Hw. unfold wp in Hw. rewrite E in Hw. apply Hw.
Qed.

(** C30. (safety) Whatever was created, referenced, released, waited for and asked before, an
    operation on the fences does nothing undefined, and its answer is true of the
    device: the types a fence is said to have signalled, cached or not, it has signalled,
    although they may have been deduced from a later fence of its class and not asked
    for, and a successful wait is for signalled types. The device signals for good, and
    the fences of a class in the order of their creation. *)
Theorem fences_never_lie s h A op : 0 <= n -> fence_reach s h A -> legal gpu n h A op ->
  wpm (fence_do op) (fun r _ h' => truthful gpu op r A h') s h.
Proof.
  intros Hn Hr Hl. destruct (fm_reach_inv _ _ _ Hn Hr) as [Ls Hi].
  eapply wp_mono; [by apply (fence_step_ok gpu n _ _ _ _ _ Hi)|]. by intros r s' h' [? _].
Qed.

(** C31. (invariant) After any operations the fences in memory are exactly those the client
    holds references to, with as many references and the class and private data they
    were created with; the manager counts them; and the list of each class is a ring of
    fences of this class. *)
Theorem fence_references s h A : 0 <= n -> fence_reach s h A ->
  (forall p, match fences s !! p, A !! p with
             | Some f, Some a => refCount f = h_refs a /\ fence_class f = h_class a /\ private f = h_priv a
             | None, None => True
             | _, _ => False
             end) /\
  mgr_count s = int32 (Z.of_nat (size A)) /\
  forall c, 0 <= c < n -> exists l, ring (class_head c) (head s) l /\
    forall p, p ∈ l -> exists a, A !! p = Some a /\ h_class a = c.
Proof.
  intros Hn Hr. destruct (fm_reach_inv _ _ _ Hn Hr) as [Ls [Hw En Ec Ed Eh Ehon Eo]]. split_and!; [|done|].
  - intros p. specialize (Ed p). destruct (fences s !! p) as [f|] eqn:Ef, (A !! p) as [a|] eqn:Ea; [|..|done].
    + by destruct (Eh p f a Ef Ea) as (? & _ & ? & ? & _).
    + by destruct (proj1 Ed ltac:(by eexists)).
    + by destruct (proj2 Ed ltac:(by eexists)).
  - intros c Hc. exists (Ls c). rewrite <- En in Hc. split; [by apply (wf_ring _ _ Hw)|]. intros p Hp.
    destruct (wf_on _ _ Hw c p Hc Hp) as (f & Hf & <-). destruct (proj1 (Ed p)) as [a Ha]; [by exists f|].
    exists a. split; [done|]. by destruct (Eh p f a Hf Ha) as (<- & _).
Qed.

(** (functional) wsbmSignalPreviousFences visits the fence and those before it on the list
    of its class, latest first, adds to each the types left of those given after masking
    them with the types of the fences visited before, and takes off the list exactly the
    fences with nothing left to signal; a fence that is not on the list changes nothing. *)
Theorem signal_previous s h A p f types : 0 <= n -> fence_reach s h A -> fences s !! p = Some f ->
  wpm (wsbmSignalPreviousFences p (fence_class f) types) (fun _ s' h' => h' = h /\ exists l l',
    ring (class_head (fence_class f)) (head s) l /\ ring (class_head (fence_class f)) (head s') l' /\
    (s' = s /\ p ∉ l \/ exists older newer, l = older ++ p :: newer /\
      fences s' = propagate (p :: rev older) types (fences s) /\
      l' = List.filter (pending (fences s')) (older ++ [p]) ++ newer)) s h.
Proof.
  intros Hn Hr Hf. destruct (fm_reach_inv _ _ _ Hn Hr) as [Ls Hi]. pose proof (inv_wf _ _ _ _ _ _ Hi) as Hw.
  pose proof (wf_class _ _ Hw _ _ Hf) as Hc. pose proof (wf_ring _ _ Hw _ Hc) as Hring.
  eapply wp_mono; [by eapply signal_previous_fences_wp|]. cbv beta.
  intros _ s' h' [-> [[-> Hni]|(older & newer & El & Hnum & _ & Hfs & Hw')]]; split; try done.
  - exists (Ls (fence_class f)), (Ls (fence_class f)). split_and!; [done..|]. left. done.
  - eexists (Ls (fence_class f)), _. split; [done|]. split.
    + rewrite <- Hnum in Hc. pose proof (wf_ring _ _ Hw' _ Hc) as Hring'. rewrite upd_eq in Hring'. exact Hring'.
    + right. exists older, newer. rewrite rev_app_distr in Hfs. by split_and!.
Qed.

End theorems.

(** * The fences of the TTM *)

(** What the kernel documents: a type is signalled for good, a query tells nothing else,
    a wait that succeeds is for signalled types, and it is not interrupted for ever. *)
Fixpoint retried `{Drm} (handle type : Z) (lazy : bool) (k : nat) (h : list fcall) : list fcall :=
  match k with
  | O => h
  | S k => retried handle type lazy k (F_finish handle type lazy (drm_fence_finish h handle type lazy) :: h)
  end.

Class HonestDrm `{Drm} (gpu : list fcall -> Z -> Z) := {
  drm_mono : forall c h p, within (gpu h p) (gpu (c :: h) p);
  drm_signaled_ok : forall h p t ret types, drm_fence_signaled h p t = (ret, types) -> ret = 0 ->
    within types (gpu (F_signaled p t ret types :: h) p);
  drm_finish_ok : forall h p t lazy, drm_fence_finish h p t lazy = 0 -> within t (gpu (F_finish p t lazy 0 :: h) p);
  drm_settles : forall h p t lazy, exists k, (k < drm_tries)%nat /\
    drm_fence_finish (retried p t lazy k h) p t lazy <> - EAGAIN /\
    drm_fence_finish (retried p t lazy k h) p t lazy <> - ERESTART }.

Section ttm_honest.
Context `{Drm} (gpu : list fcall -> Z -> Z) `{!HonestDrm gpu}.

Lemma finish_loop_wp fuel p t lazy h :
  (exists k, (k < fuel)%nat /\ drm_fence_finish (retried p t lazy k h) p t lazy <> - EAGAIN /\
    drm_fence_finish (retried p t lazy k h) p t lazy <> - ERESTART) ->
  wp False (finish_loop fuel p t lazy) (fun r _ h' => extends h h' /\ (r = 0 -> within t (gpu h' p))) tt h.
Proof.
  revert h. induction fuel as [|fuel IH]; intros h (k & Hk & Hs1 & Hs2); [lia|]. cbn [finish_loop]. unfold wp.
  destruct (_ || _) eqn:E.
  - destruct k as [|k].
    { exfalso. apply orb_true_iff in E as [E|E]; apply Z.eqb_eq in E; [by apply Hs1|by apply Hs2]. }
    set (h1 := F_finish _ _ _ _ :: h).
    change (wp False (finish_loop fuel p t lazy) (fun r _ h' => extends h h' /\ (r = 0 -> within t (gpu h' p))) tt h1).
    eapply wp_mono; [apply (IH h1); exists k; split_and!; [lia|exact Hs1|exact Hs2]|]. cbv beta.
    intros r _ h' [He Ht]. split; [|done]. eapply calls_extends_trans; [apply calls_extends_cons|exact He].
  - split; [apply calls_extends_cons|]. intros E0. rewrite E0. by apply drm_finish_ok.
Qed.

#[export] Instance ttm_honest : HonestDriver (fun h p => gpu h (fst p)).
Proof.
  split.
  - intros c h p. apply (drm_mono (gpu := gpu)).
  - intros p t h. cbn. unfold tSignaled, wp. destruct (drm_fence_signaled h (fst p) t) as [ret types] eqn:E. cbn [fst snd].
    split; [apply calls_extends_cons|]. intros ->. cbn. exact (drm_signaled_ok _ _ _ _ _ E eq_refl).
  - intros p t lazy h. apply finish_loop_wp, drm_settles.
  - intros p h. cbn. unfold tUnref, wp. apply calls_extends_cons.
Qed.

Context `{FenceEnv}.

Abbreviation wpm := (wp (H := list fcall) (S := fence_mgr) False).

Lemma ttm_init_wp n s h : 0 <= n ->
  wpm (wsbmFenceMgrTTMInit n) (fun ok s' h' =>
    if ok then balance h' = (fst (balance h) + 3, snd (balance h) + 2 * n) /\ num_classes s' = n
    else balance h' = balance h) s h.
Proof.
  intros Hn. unfold wsbmFenceMgrTTMInit. apply wp_bind. unfold alloc_other at 1, wp at 1. destruct (other_alloc h); cbn [negb].
  2:{ apply wp_ret. cbn. by destruct (balance h). }
  apply wp_bind. eapply wp_mono; [by apply mgr_create_wp|]. cbv beta. cbn [balance]. destruct (balance h) as [m x]. cbn [fst snd].
  intros [] s1 h1; cbn [negb].
  - intros (E & En & _). apply wp_ret. split; [|done]. rewrite E. f_equal. lia.
  - intros E. apply wp_bind. unfold call, wp at 1. apply wp_ret. cbn [balance]. rewrite E. f_equal. lia.
Qed.

(** The manager once made and taken down. *)
Definition ttm_session (n : Z) : M (list fcall) fence_mgr bool :=
  ok ← wsbmFenceMgrTTMInit n; if negb ok then mret false else wsbmFenceMgrTTMTakedown ;; mret true.

(** (functional) Making the fence manager of the TTM and taking it down loses one block of
    memory, the table of the classes, and no mutex; a manager that could not be made
    loses nothing. *)
Theorem ttm_takedown_leaks n s h : 0 <= n ->
  wpm (ttm_session n) (fun ok _ h' =>
    balance h' = if ok then (fst (balance h) + 1, snd (balance h)) else balance h) s h.
Proof.
  intros Hn. unfold ttm_session. apply wp_bind. eapply wp_mono; [by apply ttm_init_wp|]. cbv beta. intros [] s1 h1.
  2:{ intros E. by apply wp_ret. }
  intros [E En]. unfold wsbmFenceMgrTTMTakedown. apply wp_bind, wp_bind. unfold call at 1, wp at 1. apply wp_bind, wp_get, wp_bind.
  apply free_mutexes_wp. intros h' H1 H2. rewrite length_seq, En in H2. unfold call, wp at 1. apply wp_ret.
  cbn [balance] in *. rewrite E in H1, H2. cbn [fst snd] in *.
  rewrite (surjective_pairing (balance h')), H1, H2. f_equal; lia.
Qed.

End ttm_honest.

(** * Witnesses *)

(** Fences at growing addresses; the calls of [bad] fail. *)
Definition growing_fence (h : list fcall) (used : gset Z) : option Z :=
  let p := 64 * (1 + Z.of_nat (length h)) in
  if bool_decide (p ∈ used) then None else Some p.

#[local] Program Instance fence_env : FenceEnv :=
  {| fence_calloc := growing_fence; other_alloc := fun _ => true; mutex_init := fun _ => true |}.
Next Obligation.
  intros h used p. unfold growing_fence. destruct (bool_decide (_ ∈ used)) eqn:E; [done|].
  apply bool_decide_eq_false in E. intros [= <-]. split; [lia|done].
Qed.

(** A device that signals the types 1 and 2 of each fence at the time that its handle
    is, and interrupts the waits before. *)
Definition clock_gpu (h : list fcall) (p : Z) : Z := if Z.min p 50 <=? Z.of_nat (length h) then 3 else 0.

#[local] Instance clock_drm : Drm :=
  {| drm_fence_signaled := fun h p t => (0, clock_gpu h p);
     drm_fence_finish := fun h p t _ => if (Z.min p 50 <=? Z.of_nat (length h)) && (Z.land 3 t =? t) then 0
                                        else if Z.min p 50 <=? Z.of_nat (length h) then -22 else - EAGAIN;
     drm_tries := 60 |}.

Lemma clock_mono h c p : within (clock_gpu h p) (clock_gpu (c :: h) p).
Proof.
  unfold clock_gpu. cbn [length]. destruct (Z.leb_spec (Z.min p 50) (Z.of_nat (length h))).
  - rewrite (proj2 (Z.leb_le _ _)) by lia. apply within_refl.
  - intros i. by rewrite Z.bits_0.
Qed.

Lemma retried_length p t lazy k h : length (retried p t lazy k h) = (length h + k)%nat.
Proof. revert h. induction k as [|k IH]; intros h; cbn; [lia|]. rewrite IH. cbn. lia. Qed.

#[local] Instance clock_honest : HonestDrm clock_gpu.
Proof.
  split.
  - intros c h p. apply clock_mono.
  - intros h p t ret types [= <- <-] _. apply clock_mono.
  - intros h p t lazy. cbn. destruct (Z.leb_spec (Z.min p 50) (Z.of_nat (length h))) as [Hle|]; [|done].
    destruct (Z.eqb_spec (Z.land 3 t) t) as [E|]; [|done]. intros _. unfold clock_gpu. cbn [length].
    rewrite (proj2 (Z.leb_le _ _)) by lia. by apply within_sub.
  - intros h p t lazy. exists 50%nat. split; [cbn; lia|]. cbn [drm_fence_finish clock_drm].
    rewrite retried_length, (proj2 (Z.leb_le _ _)) by lia. cbn [andb]. by destruct (_ =? t).
Qed.

(** What stands for a larger handle is later. *)
Lemma clock_earlier p q : fst p <= fst q -> earlier (fun h p => clock_gpu h (fst p)) p q.
Proof.
  intros Hle h. unfold clock_gpu. destruct (Z.leb_spec (Z.min (fst q) 50) (Z.of_nat (length h))).
  - rewrite (proj2 (Z.leb_le _ _)) by lia. apply within_refl.
  - intros i. by rewrite Z.bits_0.
Qed.

Definition no_mgr : fence_mgr := {| num_classes := 0; mgr_count := 0; fences := ∅; head := {| nexts := ∅; prevs := ∅ |} |}.

Definition clock_truth (h : list fcall) (p : priv) : Z := clock_gpu h (fst p).

Definition state_of {A} (o : outcome (list fcall) fence_mgr A) : fence_mgr := match o with Done _ s _ => s | _ => no_mgr end.
Definition calls_of {A} (o : outcome (list fcall) fence_mgr A) : list fcall := match o with Done _ _ h => h | _ => [] end.

(** A manager of one class and two fences of it, the handles 5 and 9. *)
Definition fence_op1 : fence_op := O_create 0 3 0 5 [].
Definition fence_op2 : fence_op := O_create 0 3 0 9 [].
Definition fence_run0 := wsbmFenceMgrCreate 1 no_mgr [].
Definition fence_run1 := fence_do fence_op1 (state_of fence_run0) (calls_of fence_run0).
Definition fence_run2 := fence_do fence_op2 (state_of fence_run1) (calls_of fence_run1).
Definition fence_held1 := client_after fence_op1 (A_fence (Some 320)) ∅.
Definition fence_held2 := client_after fence_op2 (A_fence (Some 384)) fence_held1.

Lemma fence_run_reach : fence_reach clock_truth 1 (state_of fence_run2) (calls_of fence_run2) fence_held2.
Proof.
  eapply (Reach_step _ _ _ _ _ fence_op2 (A_fence (Some 384))); [eapply (Reach_step _ _ _ _ _ fence_op1 (A_fence (Some 320)))| |].
  - by eapply (Reach_create _ _ no_mgr [] (state_of fence_run0) (calls_of fence_run0)).
  - split; [lia|]. intros p. split; [intros i; by rewrite Z.bits_0|]. intros q a. by rewrite lookup_empty.
  - vm_compute. reflexivity.
  - split; [lia|]. intros p. split; [intros i; by rewrite Z.bits_0|].
    unfold fence_held1. cbn [client_after fence_op1]. intros q a [[_ <-]|[_ Ha]]%lookup_insert_Some _; [apply clock_earlier; cbn; lia|by rewrite lookup_empty in Ha].
  - vm_compute. reflexivity.
Qed.

Theorem fences_never_lie_witness :
  legal clock_truth 1 (calls_of fence_run2) fence_held2 (O_signaled 384 3) /\
  wp False (fence_do (O_signaled 384 3)) (fun r _ h' => truthful clock_truth (O_signaled 384 3) r fence_held2 h')
    (state_of fence_run2) (calls_of fence_run2).
Proof.
  split; [by eexists; vm_compute|].
  apply (fences_never_lie clock_truth 1); [lia|apply fence_run_reach|by eexists; vm_compute].
Defined.

Theorem fence_references_witness :
  mgr_count (state_of fence_run2) = int32 (Z.of_nat (size fence_held2)) /\
  match fences (state_of fence_run2) !! 320, fence_held2 !! 320 with
  | Some f, Some a => refCount f = h_refs a /\ fence_class f = h_class a /\ private f = h_priv a
  | None, None => True
  | _, _ => False
  end.
Proof.
  destruct (fence_references clock_truth 1 _ (calls_of fence_run2) _ ltac:(lia) fence_run_reach) as (H1 & H2 & _).
  split; [exact H2|exact (H1 320)].
Defined.

Definition fence_384 : fence_object :=
  {| fence_class := 0; fence_type := 3; private := (9, []); refCount := 1; signaled_types := 0 |}.

Theorem signal_previous_witness :
  fences (state_of fence_run2) !! 384 = Some fence_384 /\
  wp False (wsbmSignalPreviousFences 384 0 3) (fun _ s' h' => h' = calls_of fence_run2 /\ exists l l',
    ring (class_head 0) (head (state_of fence_run2)) l /\ ring (class_head 0) (head s') l' /\
    (s' = state_of fence_run2 /\ 384 ∉ l \/ exists older newer, l = older ++ 384 :: newer /\
      fences s' = propagate (384 :: rev older) 3 (fences (state_of fence_run2)) /\
      l' = List.filter (pending (fences s')) (older ++ [384]) ++ newer))
    (state_of fence_run2) (calls_of fence_run2).
Proof.
  assert (E : fences (state_of fence_run2) !! 384 = Some fence_384) by (vm_compute; reflexivity). split; [exact E|].
  exact (signal_previous clock_truth 1 (state_of fence_run2) (calls_of fence_run2) fence_held2 384 fence_384 3 ltac:(lia) fence_run_reach E).
Defined.

Theorem ttm_takedown_leaks_witness :
  wp False (ttm_session 2) (fun ok _ h' => balance h' = if ok then (0 + 1, 0) else (0, 0)) no_mgr [].
Proof. apply (ttm_takedown_leaks 2 no_mgr []). lia. Defined.

(** ** What is not passed on

    Fences of the types 3, 1 and 3 of a class; the device signals 3 for the last.  The
    fence between does not have the type 2, and the first does not learn that the
    fences after it signalled 2; the last two leave the list. *)
Example types_narrowed :
  match (wsbmFenceMgrCreate 1 ;; a ← wsbmFenceCreate 0 3 1 []; b ← wsbmFenceCreate 0 1 2 [];
         c ← wsbmFenceCreate 0 3 3 [];
         match a, b, c with
         | Some a, Some b, Some c =>
             ret ← wsbmFenceFinish c 3 false;
             x ← wsbmFenceSignaledTypeCached a; y ← wsbmFenceSignaledTypeCached b; z ← wsbmFenceSignaledTypeCached c;
             mret (ret, [x; y; z])
         | _, _, _ => mret (-1, [])
         end) no_mgr [] with
  | Done r _ _ => r
  | _ => (-1, [])
  end = (0, [1; 1; 3]).
Proof. vm_compute. reflexivity. Qed.
