(* ===== verification/ValidateList.v ===== *)
(** The lists of buffers to validate: struct _ValidateList of libwsbm/src/wsbm_manager.c.

    A list holds each buffer once, with the placement flags asked for it; a hash table
    finds the node of a buffer.  Nodes are made by functions of the client
    (struct _WsbmVNodeFuncs) and kept for the next use of the list.

    A node is on [list] or on [free] with its links [head], and while it is on [list]
    on the bucket of its hash with its links [hashHead]: two families of links
    ([Rings]).  The heads of [list] and [free] are at [LIST] and [FREE], the one of
    bucket [i] at [bucket i]. *)
From stdpp Require Import gmap.
From S2P Require Import Prelude Rings.

Record vnode := { type_id : Z; listItem : Z; set_flags : Z; clr_flags : Z; vbuf : Z }.

(** [table]: the number of buckets there is memory for. *)
Record validate_list := {
  numTarget : Z;
  numCurrent : Z;
  numOnList : Z;
  hashSize : Z;
  hashMask : Z;
  driverData : Z;
  table : Z;
  vnodes : gmap Z vnode;
  vheads : links;
  vhashes : links }.

Inductive vcall :=
| V_alloc (type : Z) (r : option Z) | V_free (p : Z) | V_clear (p : Z)
| V_malloc (ok : bool) | V_release.

(** The functions of the client and the memory of the table.  The nodes are at 32-bit
    addresses, and what they hold at first is the client's affair. *)
Class VNodes := {
  vnode_alloc : list vcall -> gset Z -> Z -> option (Z * vnode);
  table_alloc : list vcall -> bool;
  vnode_alloc_new : forall h used t p n, vnode_alloc h used t = Some (p, n) -> 0 < p < 2 ^ 32 /\ p ∉ used }.

Definition LIST : Z := 0.
Definition FREE : Z := -1.
Definition bucket (i : Z) : Z := - (i + 1).
Definition EINVAL : Z := 22.
Definition ENOMEM : Z := 12.
Definition WSBM_PL_MASK_MEM : Z := 65535.

Inductive link_field := F_head | F_hashHead.

Definition set_vheads (k : links) (s : validate_list) : validate_list :=
  {| numTarget := numTarget s; numCurrent := numCurrent s; numOnList := numOnList s; hashSize := hashSize s;
     hashMask := hashMask s; driverData := driverData s; table := table s; vnodes := vnodes s; vheads := k;
     vhashes := vhashes s |}.

Definition set_vhashes (k : links) (s : validate_list) : validate_list :=
  {| numTarget := numTarget s; numCurrent := numCurrent s; numOnList := numOnList s; hashSize := hashSize s;
     hashMask := hashMask s; driverData := driverData s; table := table s; vnodes := vnodes s; vheads := vheads s;
     vhashes := k |}.

Definition set_vnodes (n : gmap Z vnode) (s : validate_list) : validate_list :=
  {| numTarget := numTarget s; numCurrent := numCurrent s; numOnList := numOnList s; hashSize := hashSize s;
     hashMask := hashMask s; driverData := driverData s; table := table s; vnodes := n; vheads := vheads s;
     vhashes := vhashes s |}.

Definition set_counts (current onlist : Z) (s : validate_list) : validate_list :=
  {| numTarget := numTarget s; numCurrent := uint32 current; numOnList := uint32 onlist; hashSize := hashSize s;
     hashMask := hashMask s; driverData := driverData s; table := table s; vnodes := vnodes s; vheads := vheads s;
     vhashes := vhashes s |}.

#[export] Program Instance validate_links : Linked link_field validate_list := {|
  links_of l s := match l with F_head => vheads s | F_hashHead => vhashes s end;
  set_links l k s := match l with F_head => set_vheads k s | F_hashHead => set_vhashes k s end;
  live l s p := bool_decide (is_Some (vnodes s !! p)) ||
    match l with
    | F_head => (p =? LIST) || (p =? FREE)
    | F_hashHead => (- table s <=? p) && (p <? 0)
    end |}.
Next Obligation. by intros []. Qed.
Next Obligation. by intros []. Qed.
Next Obligation. by intros []. Qed.

(** ** The hash *)

(** The four bytes of a 32-bit integer, least significant first. *)
Definition key_bytes (key : Z) : list Z :=
  [Z.land key 255; Z.land (Z.shiftr key 8) 255; Z.land (Z.shiftr key 16) 255; Z.land (Z.shiftr key 24) 255].

Definition hash_byte (hash k : Z) : Z :=
  let hash := uint32 (hash + k) in
  let hash := uint32 (hash + Z.shiftl hash 10) in
  Z.lxor hash (Z.shiftr hash 6).

Definition wsbmHashFunc (key : list Z) (mask : Z) : Z :=
  let hash := foldl hash_byte 0 key in
  let hash := uint32 (hash + Z.shiftl hash 3) in
  let hash := Z.lxor hash (Z.shiftr hash 11) in
  let hash := uint32 (hash + Z.shiftl hash 15) in
  Z.land hash mask.

(** The loop of [wsbmPot]; a shift by 32 is undefined. *)
Fixpoint pot (fuel : nat) (val shift : Z) : option Z :=
  match fuel with
  | O => None
  | S n => if Z.shiftl 1 shift <? val then pot n val (shift + 1) else Some shift
  end.

Definition wsbmPot (val : Z) : option Z := pot 32 (uint32 val) 0.

Section validate_list.
Context `{VNodes}.

Abbreviation MV A := (M (list vcall) validate_list A).

Definition get_vnode (p : Z) : MV vnode :=
  s ← get; match vnodes s !! p with Some n => mret n | None => undefined end.

Definition set_vnode (p : Z) (n : vnode) : MV unit :=
  s ← get; if bool_decide (is_Some (vnodes s !! p)) then modify (set_vnodes (<[p := n]> (vnodes s))) else undefined.

(** [wsbmVNodeFuncs()->alloc]; the links of the node are not set. *)
Definition alloc_vnode (type : Z) : MV (option Z) := fun s h =>
  match vnode_alloc h (dom (vnodes s)) type with
  | Some (p, n) => Done (Some p) (set_vnodes (<[p := n]> (vnodes s)) s) (V_alloc type (Some p) :: h)
  | None => Done None s (V_alloc type None :: h)
  end.

(** [node->func->free(node)]. *)
Definition free_vnode (p : Z) : MV unit := fun s h =>
  if bool_decide (is_Some (vnodes s !! p)) then
    Done tt (set_vheads (forget p (vheads s)) (set_vhashes (forget p (vhashes s)) (set_vnodes (delete p (vnodes s)) s)))
      (V_free p :: h)
  else Undef h.

(** [cur->func->clear(cur)]: what the client keeps in the node is reset. *)
Definition clear_vnode (p : Z) : MV unit := fun s h =>
  if bool_decide (is_Some (vnodes s !! p)) then Done tt s (V_clear p :: h) else Undef h.

Definition add_current (d : Z) : MV unit := s ← get; modify (set_counts (numCurrent s + d) (numOnList s)).
Definition add_onlist (d : Z) : MV unit := s ← get; modify (set_counts (numCurrent s) (numOnList s + d)).

Definition not64 (z : Z) : Z := Z.lxor z (2 ^ 64 - 1).

(** [list->hashTable + hash]. *)
Definition hash_head (hash : Z) : MV Z :=
  s ← get; if (0 <=? hash) && (hash <? table s) then mret (bucket hash) else undefined.

Definition validateListAddNode (item hash flags mask : Z) : MV (option Z) :=
  l ← get_next F_head FREE;
  node ← (if l =? FREE then
            node ← alloc_vnode 0;
            match node with
            | None => mret None
            | Some p => add_current 1 ;; mret (Some p)
            end
          else WSBMLISTDEL F_head l ;; mret (Some l));
  match node with
  | None => mret None
  | Some p =>
      n ← get_vnode p;
      s ← get;
      set_vnode p {| type_id := type_id n; listItem := numOnList s; set_flags := Z.land flags mask;
                     clr_flags := Z.land (not64 flags) mask; vbuf := item |} ;;
      WSBMLISTADDTAIL F_head p LIST ;;
      add_onlist 1 ;;
      hashHead ← hash_head hash;
      WSBMLISTADDTAIL F_hashHead p hashHead ;;
      mret (Some p)
  end.

(** The loops of [validateFreeList]; the nodes bound their rounds. *)
Fixpoint free_listed (fuel : nat) (l : Z) : MV unit :=
  if l =? LIST then mret tt
  else
    match fuel with
    | O => undefined
    | S n =>
        WSBMLISTDEL F_head l ;;
        WSBMLISTDEL F_hashHead l ;;
        free_vnode l ;;
        l ← get_next F_head LIST;
        add_current (-1) ;;
        add_onlist (-1) ;;
        free_listed n l
    end.

Fixpoint free_spare (fuel : nat) (l : Z) : MV unit :=
  if l =? FREE then mret tt
  else
    match fuel with
    | O => undefined
    | S n =>
        WSBMLISTDEL F_head l ;;
        free_vnode l ;;
        l ← get_next F_head FREE;
        add_current (-1) ;;
        free_spare n l
    end.

Definition set_table (z : Z) (s : validate_list) : validate_list :=
  {| numTarget := numTarget s; numCurrent := numCurrent s; numOnList := numOnList s; hashSize := hashSize s;
     hashMask := hashMask s; driverData := driverData s; table := z; vnodes := vnodes s; vheads := vheads s;
     vhashes := vhashes s |}.

(** [free(list->hashTable)]. *)
Definition free_table : MV unit := fun s h => Done tt (set_table 0 s) (V_release :: h).

Definition validateFreeList : MV unit :=
  l ← get_next F_head LIST;
  s ← get; free_listed (size (vnodes s)) l ;;
  l ← get_next F_head FREE;
  s ← get; free_spare (size (vnodes s)) l ;;
  free_table.

(** The loops of [validateListAdjustNodes]; they go on while the count is too small, and
    too large. *)
Fixpoint add_spare (fuel : nat) : MV Z :=
  s ← get;
  if numCurrent s <? numTarget s then
    match fuel with
    | O => undefined
    | S n =>
        node ← alloc_vnode (driverData s);
        match node with
        | None => mret (- ENOMEM)
        | Some p => add_current 1 ;; WSBMLISTADD F_head p FREE ;; add_spare n
        end
    end
  else mret 0.

Fixpoint drop_spare (fuel : nat) : MV unit :=
  s ← get;
  if numTarget s <? numCurrent s then
    l ← get_next F_head FREE;
    if l =? FREE then mret tt
    else
      match fuel with
      | O => undefined
      | S n => WSBMLISTDEL F_head l ;; free_vnode l ;; add_current (-1) ;; drop_spare n
      end
  else mret tt.

Definition validateListAdjustNodes : MV Z :=
  s ← get;
  ret ← add_spare (Z.to_nat (numTarget s - numCurrent s));
  s ← get;
  drop_spare (size (vnodes s)) ;;
  mret ret.

Fixpoint init_table (n i : nat) : MV unit :=
  match n with
  | O => mret tt
  | S n => WSBMINITLISTHEAD F_hashHead (bucket (Z.of_nat i)) ;; init_table n (S i)
  end.

(** The size of an entry of the table, for the product computed with 32 bits. *)
Definition HEAD_SIZE : Z := 8.

Definition validateCreateList (target data : Z) : MV Z :=
  match wsbmPot target with
  | None => undefined
  | Some shift =>
      let size := Z.shiftl 1 shift in
      fun s h =>
        if negb (table_alloc h) then Done (- ENOMEM) s (V_malloc false :: h)
        else
          (modify (fun _ =>
             {| numTarget := uint32 target; numCurrent := 0; numOnList := 0; hashSize := size; hashMask := uint32 (size - 1);
                driverData := data; table := uint32 (size * HEAD_SIZE) / HEAD_SIZE; vnodes := ∅;
                vheads := {| nexts := ∅; prevs := ∅ |}; vhashes := {| nexts := ∅; prevs := ∅ |} |}) ;;
           init_table (Z.to_nat size) 0 ;;
           WSBMINITLISTHEAD F_head LIST ;;
           WSBMINITLISTHEAD F_head FREE ;;
           ret ← validateListAdjustNodes;
           if negb (ret =? 0) then free_table ;; mret ret else mret ret) s (V_malloc true :: h)
  end.

Fixpoint reset_listed (fuel : nat) (l : Z) : MV unit :=
  if l =? LIST then mret tt
  else
    match fuel with
    | O => undefined
    | S n =>
        WSBMLISTDEL F_head l ;;
        WSBMLISTDEL F_hashHead l ;;
        WSBMLISTADD F_head l FREE ;;
        add_onlist (-1) ;;
        l ← get_next F_head LIST;
        reset_listed n l
    end.

Definition validateResetList : MV Z :=
  ret ← validateListAdjustNodes;
  if negb (ret =? 0) then mret ret
  else
    l ← get_next F_head LIST;
    s ← get; reset_listed (size (vnodes s)) l ;;
    validateListAdjustNodes.

(** The loop of [wsbmAddValidateItem] over a bucket. *)
Fixpoint find_in_bucket (fuel : nat) (hashHead l buf : Z) : MV (option Z) :=
  if l =? hashHead then mret None
  else
    match fuel with
    | O => undefined
    | S n =>
        node ← get_vnode l;
        if vbuf node =? buf then mret (Some l)
        else l ← get_next F_hashHead l; find_in_bucket n hashHead l buf
    end.

(** The flags already asked for, and more: [None] when they leave no memory or conflict. *)
Definition merge_flags (flags mask set clr : Z) : option (Z * Z) :=
  let set' := Z.land flags mask in
  let clr' := Z.land (not64 flags) mask in
  if Z.land (Z.lor clr clr') WSBM_PL_MASK_MEM =? WSBM_PL_MASK_MEM then None
  else if negb (Z.land (Z.land (Z.lor set set') (Z.lor clr clr')) (not64 WSBM_PL_MASK_MEM) =? 0) then None
  else
    let set := Z.land set (not64 (Z.land clr' WSBM_PL_MASK_MEM)) in
    Some (Z.lor set (Z.land set' (not64 WSBM_PL_MASK_MEM)), Z.lor clr clr').

Inductive add_result := Add_error (err : Z) | Add_done (itemLoc node : Z) (newItem : bool).

Definition wsbmAddValidateItem (buf flags mask : Z) : MV add_result :=
  s ← get;
  let hash := wsbmHashFunc (key_bytes (uint32 buf)) (hashMask s) in
  hashHead ← hash_head hash;
  l ← get_next F_hashHead hashHead;
  cur ← find_in_bucket (size (vnodes s)) hashHead l buf;
  match cur with
  | None =>
      cur ← validateListAddNode buf hash flags mask;
      match cur with
      | None => mret (Add_error (- ENOMEM))
      | Some p =>
          clear_vnode p ;;
          n ← get_vnode p; mret (Add_done (listItem n) p true)
      end
  | Some p =>
      n ← get_vnode p;
      match merge_flags flags mask (set_flags n) (clr_flags n) with
      | None => mret (Add_error (- EINVAL))
      | Some (set, clr) =>
          set_vnode p {| type_id := type_id n; listItem := listItem n; set_flags := set; clr_flags := clr; vbuf := vbuf n |} ;;
          n ← get_vnode p; mret (Add_done (listItem n) p false)
      end
  end.

(** ** Iteration: [None] is NULL *)

Definition validateListNode (iterator : Z) : Z := iterator.

Definition validateListIterator : MV (option Z) :=
  ret ← get_next F_head LIST; mret (if ret =? LIST then None else Some ret).

Definition validateListNext (iterator : Z) : MV (option Z) :=
  ret ← get_next F_head iterator; mret (if ret =? LIST then None else Some ret).

End validate_list.
