(* ===== verification/ValidateListInv.v ===== *)
(** The lists of buffers to validate: their memory.

    [l] and [f] are the nodes on [list] and [free], [X] the nodes on neither, [K] those
    in the buckets [Bs]. *)
From stdpp Require Import gmap.
From S2P Require Import Prelude Rings ValidateList.

Definition item_hash (s : validate_list) (b : Z) : Z := wsbmHashFunc (key_bytes (uint32 b)) (hashMask s).

Definition hash_of (s : validate_list) (p : Z) : option Z := (fun n => item_hash s (vbuf n)) <$> vnodes s !! p.

Record vl_wf (s : validate_list) (l f X : list Z) (Bs : Z -> list Z) (K : list Z) : Prop := {
  vw_list : ring LIST (vheads s) l;
  vw_free : ring FREE (vheads s) f;
  vw_nodes : forall p, is_Some (vnodes s !! p) <-> p ∈ l ++ f ++ X;
  vw_nodup : NoDup (l ++ f ++ X);
  vw_pos : forall p, is_Some (vnodes s !! p) -> 0 < p < 2 ^ 32;
  vw_buckets : forall i, 0 <= i < hashSize s -> ring (bucket i) (vhashes s) (Bs i);
  vw_hashed : forall i p, 0 <= i < hashSize s -> p ∈ Bs i <-> p ∈ K /\ hash_of s p = Some i;
  vw_keys : forall p, p ∈ K -> is_Some (vnodes s !! p);
  vw_knodup : NoDup K;
  vw_size : exists k, 0 <= k < 32 /\ hashSize s = 2 ^ k /\ hashMask s = 2 ^ k - 1 /\ table s = hashSize s }.

Definition bupd (i : Z) (l : list Z) (Bs : Z -> list Z) : Z -> list Z := fun j => if decide (j = i) then l else Bs j.

Section proofs.
Context `{VNodes}.

Abbreviation wpm := (wp (H := list vcall) (S := validate_list) False).

Lemma get_vnode_wp p n Q s h : vnodes s !! p = Some n -> Q n s h -> wpm (get_vnode p) Q s h.
Proof. intros E HQ. unfold get_vnode. apply wp_bind, wp_get. by rewrite E. Qed.

Lemma bucket_neg i : 0 <= i -> bucket i < 0.
Proof. unfold bucket. lia. Qed.

Lemma hash_range s l f X Bs K b : vl_wf s l f X Bs K -> 0 <= item_hash s b < hashSize s.
Proof.
  intros [_ _ _ _ _ _ _ _ _ (k & Hk & -> & Em & _)]. unfold item_hash, wsbmHashFunc. rewrite Em.
  replace (2 ^ k - 1) with (Z.ones k) by (rewrite Z.ones_equiv; lia). rewrite Z.land_ones by lia.
  apply Z.mod_pos_bound. lia.
Qed.

#[global] Opaque wsbmHashFunc.

Section wf.
Context {s : validate_list} {l f X : list Z} {Bs : Z -> list Z} {K : list Z} (Hwf : vl_wf s l f X Bs K).

Lemma vw_live d p : p ∈ l ++ f ++ X -> live d s p = true.
Proof. intros Hp%(vw_nodes _ _ _ _ _ _ Hwf). cbn. by rewrite bool_decide_eq_true_2. Qed.

Lemma vw_present_list : present F_head s (LIST :: l).
Proof. intros p [->|Hp]%elem_of_cons; [cbn; by rewrite orb_true_r|]. apply vw_live. set_solver. Qed.

Lemma vw_present_free : present F_head s (FREE :: f).
Proof. intros p [->|Hp]%elem_of_cons; [cbn; by rewrite orb_true_r|]. apply vw_live. set_solver. Qed.

Lemma vw_live_bucket i : 0 <= i < hashSize s -> live F_hashHead s (bucket i) = true.
Proof.
  intros Hi. destruct (vw_size _ _ _ _ _ _ Hwf) as (k & _ & _ & _ & E). cbn. apply orb_true_iff. right.
  rewrite E. unfold bucket. apply andb_true_iff. split; [apply Z.leb_le|apply Z.ltb_lt]; lia.
Qed.

Lemma vw_present_bucket i : 0 <= i < hashSize s -> present F_hashHead s (bucket i :: Bs i).
Proof.
  intros Hi p [->|Hp]%elem_of_cons; [by apply vw_live_bucket|]. apply (vw_hashed _ _ _ _ _ _ Hwf) in Hp as [Hp _]; [|done].
  apply vw_live, (vw_nodes _ _ _ _ _ _ Hwf), (vw_keys _ _ _ _ _ _ Hwf), Hp.
Qed.

Lemma vw_positive p : p ∈ l ++ f ++ X -> 0 < p.
Proof. intros Hp%(vw_nodes _ _ _ _ _ _ Hwf)%(vw_pos _ _ _ _ _ _ Hwf). lia. Qed.

(** The rings of [list] and [free] do not meet. *)
Lemma vw_apart p : p ∈ LIST :: l -> p ∉ FREE :: f ++ X.
Proof.
  pose proof (vw_nodup _ _ _ _ _ _ Hwf) as Hnd. apply list.NoDup_app in Hnd as (_ & Hd & _).
  rewrite !elem_of_cons. intros [->|Hp] [E|Hq].
  - done.
  - assert (0 < LIST) by (apply vw_positive; set_solver). by unfold LIST in *.
  - subst p. assert (0 < FREE) by (apply vw_positive; set_solver). by unfold FREE in *.
  - by apply (Hd p).
Qed.

Lemma vw_apart' p : p ∈ FREE :: f -> p ∉ LIST :: l.
Proof. intros Hp Hq. apply (vw_apart p Hq). set_solver. Qed.

Lemma vw_extra p : p ∈ X -> (p ∉ LIST :: l) /\ (p ∉ FREE :: f).
Proof.
  intros Hp. split; intros Hq.
  - apply (vw_apart p Hq). set_solver.
  - pose proof (vw_nodup _ _ _ _ _ _ Hwf) as Hnd. apply list.NoDup_app in Hnd as (_ & _ & Hnd).
    apply list.NoDup_app in Hnd as (_ & Hd & _). apply elem_of_cons in Hq as [->|Hq]; [|by apply (Hd p)].
    assert (0 < FREE) by (apply vw_positive; set_solver). by unfold FREE in *.
Qed.

Lemma vw_bucket_apart i j p : 0 <= i < hashSize s -> 0 <= j < hashSize s -> i <> j -> p ∈ bucket i :: Bs i -> p ∉ bucket j :: Bs j.
Proof.
  assert (Hpos : forall d q, 0 <= d < hashSize s -> q ∈ Bs d -> 0 < q).
  { intros d q Hd Hq. apply (vw_hashed _ _ _ _ _ _ Hwf) in Hq as [Hq _]; [|done].
    apply (vw_keys _ _ _ _ _ _ Hwf), (vw_pos _ _ _ _ _ _ Hwf) in Hq. lia. }
  intros Hi Hj Hne. rewrite !elem_of_cons. intros [->|Hp] [E|Hq].
  - unfold bucket in E. lia.
  - specialize (Hpos _ _ Hj Hq). unfold bucket in Hpos. lia.
  - subst p. specialize (Hpos _ _ Hi Hp). unfold bucket in Hpos. lia.
  - apply (vw_hashed _ _ _ _ _ _ Hwf) in Hp as [_ E1]; [|done]. apply (vw_hashed _ _ _ _ _ _ Hwf) in Hq as [_ E2]; [|done].
    congruence.
Qed.

(** The nodes on the lists are others, the same in all. *)
Lemma vw_move k l' f' X' : l' ++ f' ++ X' ≡ₚ l ++ f ++ X -> ring LIST k l' -> ring FREE k f' ->
  vl_wf (set_vheads k s) l' f' X' Bs K.
Proof.
  intros HP Hl Hf. destruct Hwf. split; try assumption.
  - intros p. rewrite HP. apply vw_nodes0.
  - by rewrite HP.
Qed.

End wf.

Lemma wf_pop_list s l1 p l2 f X Bs K Q h : vl_wf s (l1 ++ p :: l2) f X Bs K ->
  (forall k, vl_wf (set_vheads k s) (l1 ++ l2) f (p :: X) Bs K -> Q tt (set_vheads k s) h) -> wpm (WSBMLISTDEL F_head p) Q s h.
Proof.
  intros Hwf HQ. eapply (remove_ring LIST F_head); [exact (vw_list _ _ _ _ _ _ Hwf)|exact (vw_present_list Hwf)|].
  intros k Hk Ha. apply HQ, (vw_move Hwf); [rewrite <- !app_assoc; cbn; solve_Permutation|done|].
  eapply ring_off; [exact (vw_free _ _ _ _ _ _ Hwf)|exact Ha|]. intros q Hq Hin. apply (vw_apart' Hwf q Hq). set_solver.
Qed.

Lemma wf_pop_free s l f1 p f2 X Bs K Q h : vl_wf s l (f1 ++ p :: f2) X Bs K ->
  (forall k, vl_wf (set_vheads k s) l (f1 ++ f2) (p :: X) Bs K -> Q tt (set_vheads k s) h) -> wpm (WSBMLISTDEL F_head p) Q s h.
Proof.
  intros Hwf HQ. eapply (remove_ring FREE F_head); [exact (vw_free _ _ _ _ _ _ Hwf)|exact (vw_present_free Hwf)|].
  intros k Hk Ha. apply HQ, (vw_move Hwf); [rewrite <- !app_assoc; cbn; solve_Permutation| |done].
  eapply ring_off; [exact (vw_list _ _ _ _ _ _ Hwf)|exact Ha|]. intros q Hq Hin. apply (vw_apart Hwf q Hq). set_solver.
Qed.

Lemma wf_push_free s l f p X Bs K Q h : vl_wf s l f (p :: X) Bs K ->
  (forall k, vl_wf (set_vheads k s) l (p :: f) X Bs K -> Q tt (set_vheads k s) h) -> wpm (WSBMLISTADD F_head p FREE) Q s h.
Proof.
  intros Hwf HQ. destruct (vw_extra Hwf p) as [Hnl Hnf]; [by left|].
  eapply (push_ring FREE F_head); [exact (vw_free _ _ _ _ _ _ Hwf)|exact (vw_present_free Hwf)|apply (vw_live Hwf); set_solver|done|].
  intros k Hk Ha. apply HQ, (vw_move Hwf); [cbn; solve_Permutation| |done].
  eapply ring_off; [exact (vw_list _ _ _ _ _ _ Hwf)|exact Ha|]. intros q Hq Hin.
  apply elem_of_cons in Hin as [->|Hin]; [done|]. apply (vw_apart Hwf q Hq). set_solver.
Qed.

Lemma vw_append s l f p X Bs K Q h : vl_wf s l f (p :: X) Bs K ->
  (forall k, vl_wf (set_vheads k s) (l ++ [p]) f X Bs K -> Q tt (set_vheads k s) h) -> wpm (WSBMLISTADDTAIL F_head p LIST) Q s h.
Proof.
  intros Hwf HQ. destruct (vw_extra Hwf p) as [Hnl Hnf]; [by left|].
  eapply (append_ring LIST F_head); [exact (vw_list _ _ _ _ _ _ Hwf)|exact (vw_present_list Hwf)|apply (vw_live Hwf); set_solver|done|].
  intros k Hk Ha. apply HQ, (vw_move Hwf); [rewrite <- app_assoc; cbn; solve_Permutation|done|].
  eapply ring_off; [exact (vw_free _ _ _ _ _ _ Hwf)|exact Ha|]. intros q Hq Hin.
  apply elem_of_cons in Hin as [->|Hin]; [done|]. by apply (vw_apart' Hwf q Hq).
Qed.

(** The buckets. *)
Lemma vw_rehash s l f X Bs K k i B K' : vl_wf s l f X Bs K -> 0 <= i < hashSize s -> ring (bucket i) k B ->
  (forall j, 0 <= j < hashSize s -> j <> i -> ring (bucket j) k (Bs j)) ->
  (forall p, p ∈ B <-> p ∈ K' /\ hash_of s p = Some i) ->
  (forall j p, j <> i -> p ∈ K /\ hash_of s p = Some j <-> p ∈ K' /\ hash_of s p = Some j) ->
  (forall p, p ∈ K' -> is_Some (vnodes s !! p)) -> NoDup K' -> vl_wf (set_vhashes k s) l f X (bupd i B Bs) K'.
Proof.
  intros Hwf Hi Hk Hothers HB HK Hin Hnd. destruct Hwf. split; try assumption.
  - intros j Hj. unfold bupd. destruct (decide (j = i)) as [->|]; [done|by apply Hothers].
  - intros j p Hj. change (hash_of (set_vhashes k s) p) with (hash_of s p). unfold bupd.
    destruct (decide (j = i)) as [->|]; [apply HB|]. rewrite <- HK by done. by apply vw_hashed0.
Qed.

Lemma wf_unhash s l f X Bs K1 p K2 i Q h : vl_wf s l f X Bs (K1 ++ p :: K2) -> hash_of s p = Some i ->
  (forall k Bs', vl_wf (set_vhashes k s) l f X Bs' (K1 ++ K2) -> Q tt (set_vhashes k s) h) -> wpm (WSBMLISTDEL F_hashHead p) Q s h.
Proof.
  intros Hwf Hh HQ. assert (Hi : 0 <= i < hashSize s).
  { unfold hash_of in Hh. destruct (vnodes s !! p) as [n|]; [|done]. injection Hh as <-. by eapply hash_range. }
  pose proof (vw_buckets _ _ _ _ _ _ Hwf i Hi) as Hr. pose proof (vw_present_bucket Hwf i Hi) as Hp.
  pose proof (vw_knodup _ _ _ _ _ _ Hwf) as Hnd. rewrite <- Permutation_middle in Hnd. apply list.NoDup_cons in Hnd as [Hni Hnd].
  assert (HpB : p ∈ Bs i) by (apply (vw_hashed _ _ _ _ _ _ Hwf); [done|]; split; [set_solver|done]).
  apply list_elem_of_split in HpB as (B1 & B2 & EB). rewrite EB in Hr, Hp.
  pose proof (ring_nodup _ _ _ Hr) as HndB. rewrite app_comm_cons, <- Permutation_middle in HndB. apply list.NoDup_cons in HndB as [HniB _].
  eapply (remove_ring (bucket i) F_hashHead); [exact Hr|exact Hp|]. intros k Hk Ha.
  apply (HQ k (bupd i (B1 ++ B2) Bs)). eapply vw_rehash; [exact Hwf|exact Hi|exact Hk| | | | |exact Hnd].
  - intros j Hj Hne. eapply ring_off; [by apply (vw_buckets _ _ _ _ _ _ Hwf)|exact Ha|]. intros q Hq Hin.
    apply (vw_bucket_apart Hwf j i q Hj Hi Hne Hq). rewrite EB. set_solver.
  - intros q. pose proof (vw_hashed _ _ _ _ _ _ Hwf i q Hi) as E. rewrite EB in E.
    rewrite elem_of_app in E |- *. rewrite elem_of_cons in E. rewrite elem_of_app in E |- *. rewrite elem_of_cons in E.
    split.
    + intros Hq. assert (q <> p) by (intros ->; set_solver). tauto.
    + intros [Hq ?]. assert (q <> p) by (intros ->; set_solver). tauto.
  - intros j q Hne. rewrite !elem_of_app, elem_of_cons. split; [|tauto]. intros [[?|[->|?]] E]; [tauto|congruence|tauto].
  - intros q Hq. apply (vw_keys _ _ _ _ _ _ Hwf). set_solver.
Qed.

Lemma wf_hash s l f X Bs K p i Q h : vl_wf s l f X Bs K -> hash_of s p = Some i -> p ∉ K ->
  (forall k Bs', vl_wf (set_vhashes k s) l f X Bs' (p :: K) -> Q tt (set_vhashes k s) h) ->
  wpm (WSBMLISTADDTAIL F_hashHead p (bucket i)) Q s h.
Proof.
  intros Hwf Hh Hni HQ.
  assert (Hs : is_Some (vnodes s !! p)) by (unfold hash_of in Hh; by destruct (vnodes s !! p)).
  assert (Hi : 0 <= i < hashSize s).
  { unfold hash_of in Hh. destruct (vnodes s !! p) as [n|]; [|done]. injection Hh as <-. by eapply hash_range. }
  pose proof (vw_hashed _ _ _ _ _ _ Hwf) as HB.
  assert (Hnew : forall j, 0 <= j < hashSize s -> p ∉ bucket j :: Bs j).
  { intros j Hj. rewrite elem_of_cons. intros [E|Hp]; [|by apply (HB j p Hj) in Hp as [? _]].
    pose proof (vw_pos _ _ _ _ _ _ Hwf p Hs). unfold bucket in E. lia. }
  eapply (append_ring (bucket i) F_hashHead).
  - by apply (vw_buckets _ _ _ _ _ _ Hwf).
  - by apply (vw_present_bucket Hwf).
  - apply (vw_live Hwf). by apply (vw_nodes _ _ _ _ _ _ Hwf).
  - by apply Hnew.
  - intros k Hk Ha. apply (HQ k (bupd i (Bs i ++ [p]) Bs)). eapply vw_rehash; [exact Hwf|exact Hi|exact Hk| | | | |].
    + intros j Hj Hne. eapply ring_off; [by apply (vw_buckets _ _ _ _ _ _ Hwf)|exact Ha|]. intros q Hq [->|Hin]%elem_of_cons.
      * by apply (Hnew j Hj).
      * by apply (vw_bucket_apart Hwf j i q Hj Hi Hne Hq).
    + intros q. rewrite elem_of_app, list_elem_of_singleton, elem_of_cons, (HB i q Hi). split; [intros [[? ?]| ->]; tauto|].
      intros [[->|?] ?]; tauto.
    + intros j q Hne. rewrite elem_of_cons. split; [tauto|]. intros [[->|?] E]; [congruence|tauto].
    + intros q [->|Hq]%elem_of_cons; [done|by apply (vw_keys _ _ _ _ _ _ Hwf)].
    + apply NoDup_cons_2; [done|]. apply (vw_knodup _ _ _ _ _ _ Hwf).
Qed.

(** Nodes written, made and freed. *)
Lemma wf_set_vnode s l f X Bs K p n n' Q h : vl_wf s l f X Bs K -> vnodes s !! p = Some n -> (vbuf n' = vbuf n \/ p ∉ K) ->
  (vl_wf (set_vnodes (<[p := n']> (vnodes s)) s) l f X Bs K -> Q tt (set_vnodes (<[p := n']> (vnodes s)) s) h) ->
  wpm (set_vnode p n') Q s h.
Proof.
  intros Hwf Hp Hv HQ. unfold set_vnode. apply wp_bind, wp_get. rewrite bool_decide_eq_true_2 by by exists n.
  apply wp_modify, HQ. assert (Hdom : forall q, is_Some (<[p := n']> (vnodes s) !! q) <-> is_Some (vnodes s !! q)).
  { intros q. rewrite lookup_insert_is_Some. destruct (decide (p = q)) as [->|]; [|tauto]. split; [by exists n|by left]. }
  destruct Hwf. split; cbn [vnodes vheads vhashes hashSize hashMask table set_vnodes]; try assumption.
  - intros q. by rewrite Hdom.
  - intros q. rewrite Hdom. apply vw_pos0.
  - intros i q Hi. rewrite vw_hashed0 by done.
    assert (E : q ∈ K -> hash_of (set_vnodes (<[p := n']> (vnodes s)) s) q = hash_of s q); [|by split; intros [Hq E']; rewrite E in *].
    intros Hq. unfold hash_of. cbn. destruct (decide (p = q)) as [->|]; [|by rewrite lookup_insert_ne].
    destruct Hv as [Hv|]; [|done]. rewrite lookup_insert_eq, Hp. cbn. unfold item_hash. cbn. by rewrite Hv.
  - intros q Hq. rewrite Hdom. by apply vw_keys0.
Qed.

Lemma vw_fuel s l f X Bs K : vl_wf s l f X Bs K -> length (l ++ f ++ X) = size (vnodes s).
Proof.
  intros Hwf. rewrite <- size_dom, <- (size_list_to_set (C := gset Z)) by apply (vw_nodup _ _ _ _ _ _ Hwf).
  f_equal. apply set_eq. intros p. rewrite elem_of_list_to_set, elem_of_dom. symmetry. apply (vw_nodes _ _ _ _ _ _ Hwf).
Qed.

Lemma wf_alloc_vnode s l f X Bs K t Q h : vl_wf s l f X Bs K ->
  (vnode_alloc h (dom (vnodes s)) t = None -> size (dom (vnodes s)) = length (l ++ f ++ X) -> Q None s (V_alloc t None :: h)) ->
  (forall p n, vl_wf (set_vnodes (<[p := n]> (vnodes s)) s) l f (p :: X) Bs K -> p ∉ K -> p ∉ l ->
    Q (Some p) (set_vnodes (<[p := n]> (vnodes s)) s) (V_alloc t (Some p) :: h)) ->
  wpm (alloc_vnode t) Q s h.
Proof.
  intros Hwf Hnone Hsome. unfold alloc_vnode, wp. destruct (vnode_alloc h (dom (vnodes s)) t) as [[p n]|] eqn:E.
  2:{ apply Hnone; [done|]. rewrite size_dom. symmetry. by eapply vw_fuel. }
  destruct (vnode_alloc_new _ _ _ _ _ E) as [Hpos Hfresh%not_elem_of_dom].
  assert (Hni : p ∉ l ++ f ++ X) by (rewrite <- (vw_nodes _ _ _ _ _ _ Hwf), Hfresh; by intros [? [=]]).
  assert (HniK : p ∉ K) by (intros Hp%(vw_keys _ _ _ _ _ _ Hwf); rewrite Hfresh in Hp; by destruct Hp).
  apply Hsome; [|done|set_solver].
  assert (HP : l ++ f ++ p :: X ≡ₚ p :: l ++ f ++ X) by solve_Permutation.
  destruct Hwf. split; cbn [vnodes vheads vhashes hashSize hashMask table set_vnodes]; try assumption.
  - intros q. rewrite HP, lookup_insert_is_Some, vw_nodes0, elem_of_cons. destruct (decide (p = q)) as [->|]; [|naive_solver]. tauto.
  - rewrite HP. by apply NoDup_cons_2.
  - intros q. rewrite lookup_insert_is_Some. intros [->|[_ ?]]; [done|by apply vw_pos0].
  - intros i q Hi. rewrite vw_hashed0 by done.
    assert (E' : q ∈ K -> hash_of (set_vnodes (<[p := n]> (vnodes s)) s) q = hash_of s q); [|by split; intros [Hq E1]; rewrite E' in *].
    intros Hq. unfold hash_of. cbn. rewrite lookup_insert_ne; [done|]. by intros ->.
  - intros q Hq. rewrite lookup_insert_is_Some. destruct (decide (p = q)); [by left|right]. split; [done|by apply vw_keys0].
Qed.

Lemma wf_free_vnode s l f p X Bs K Q h : vl_wf s l f (p :: X) Bs K -> p ∉ K ->
  (forall s', vl_wf s' l f X Bs K -> (forall q, q <> p -> vnodes s' !! q = vnodes s !! q) -> numCurrent s' = numCurrent s ->
    numOnList s' = numOnList s -> numTarget s' = numTarget s -> driverData s' = driverData s -> Q tt s' (V_free p :: h)) ->
  wpm (free_vnode p) Q s h.
Proof.
  intros Hwf Hni HQ. unfold free_vnode, wp. assert (HP : l ++ f ++ p :: X ≡ₚ p :: l ++ f ++ X) by solve_Permutation.
  assert (Hs : is_Some (vnodes s !! p)) by (apply (vw_nodes _ _ _ _ _ _ Hwf); rewrite HP; by left).
  rewrite bool_decide_eq_true_2 by done. apply HQ; try done.
  2:{ intros q Hq. cbn. by rewrite lookup_delete_ne. }
  destruct (vw_extra Hwf p) as [Hnl Hnf]; [by left|]. pose proof (vw_nodup _ _ _ _ _ _ Hwf) as Hnd. rewrite HP in Hnd.
  apply list.NoDup_cons in Hnd as [Hnil Hnd].
  destruct Hwf. split; cbn [vnodes vheads vhashes hashSize hashMask table set_vnodes set_vheads set_vhashes]; try assumption.
  - eapply ring_off; [done|apply agree_off_forget|]. set_solver.
  - eapply ring_off; [done|apply agree_off_forget|]. set_solver.
  - intros q. rewrite lookup_delete_is_Some, vw_nodes0, HP, elem_of_cons. naive_solver.
  - intros q. rewrite lookup_delete_is_Some. intros [_ ?]. by apply vw_pos0.
  - intros i Hi. eapply ring_off; [by apply vw_buckets0|apply agree_off_forget|].
    intros q [->|Hq]%elem_of_cons E%list_elem_of_singleton.
    + pose proof (vw_pos0 p Hs). pose proof (bucket_neg i). lia.
    + subst q. by apply (vw_hashed0 i p Hi) in Hq as [? _].
  - intros i q Hi. rewrite vw_hashed0 by done. unfold hash_of. cbn. split; intros [Hq E]; (split; [done|]);
      assert (p <> q) by (by intros ->); [by rewrite lookup_delete_ne|by rewrite lookup_delete_ne in E].
  - intros q Hq. rewrite lookup_delete_is_Some. split; [by intros ->|by apply vw_keys0].
Qed.

Lemma wf_set_counts s l f X Bs K c o : vl_wf s l f X Bs K -> vl_wf (set_counts c o s) l f X Bs K.
Proof. intros []. by split. Qed.

(** There are fewer nodes than addresses. *)
Lemma vw_few s l f X Bs K : vl_wf s l f X Bs K -> Z.of_nat (length (l ++ f ++ X)) < 2 ^ 32.
Proof.
  intros Hwf. pose proof (vw_nodup _ _ _ _ _ _ Hwf) as Hnd.
  assert (Hsub : list_to_set (C := gset Z) (l ++ f ++ X) ⊆ list_to_set (seqZ 1 (2 ^ 32 - 1))).
  { intros p. rewrite !elem_of_list_to_set. intros Hp%(vw_nodes _ _ _ _ _ _ Hwf)%(vw_pos _ _ _ _ _ _ Hwf).
    apply elem_of_seqZ. lia. }
  apply subseteq_size in Hsub. rewrite !size_list_to_set, length_seqZ in Hsub; [lia|apply NoDup_seqZ|done].
Qed.


End proofs.
