(* ===== verification/ValidateListSpec.v ===== *)
(** The lists of buffers to validate: what they promise.

    A list is the sequence of the buffers added to it, each once, with the flags asked
    for it: [add_item] is what adding a buffer does to the sequence. *)
From stdpp Require Import gmap.
From S2P Require Import Prelude Rings ValidateList ValidateListInv.

(** A buffer with the flags to set and to clear. *)
Abbreviation item := (Z * (Z * Z))%type.

Definition item_of (n : vnode) : item := (vbuf n, (set_flags n, clr_flags n)).

(** The place of the buffer, whether it is new, and the sequence then; nothing when the
    flags cannot be met. *)
Definition add_item (L : list item) (buf flags mask : Z) : option (nat * bool * list item) :=
  match list_find (fun e => e.1 = buf) L with
  | None => Some (length L, true, L ++ [(buf, (Z.land flags mask, Z.land (not64 flags) mask))])
  | Some (i, (_, (set, clr))) =>
      match merge_flags flags mask set clr with
      | None => None
      | Some fl => Some (i, false, <[i := (buf, fl)]> L)
      end
  end.

(** The nodes [l] hold the sequence [L]. *)
Definition holds (s : validate_list) (l : list Z) (L : list item) : Prop :=
  Forall2 (fun p e => exists n, vnodes s !! p = Some n /\ item_of n = e) l L /\
  forall i p n, l !! i = Some p -> vnodes s !! p = Some n -> listItem n = Z.of_nat i.

Record vl_ok (target : Z) (s : validate_list) (l f : list Z) (Bs : Z -> list Z) (L : list item) : Prop := {
  ok_wf : vl_wf s l f [] Bs l;
  ok_holds : holds s l L;
  ok_once : NoDup L.*1;
  ok_target : numTarget s = target;
  ok_onlist : numOnList s = Z.of_nat (length l);
  ok_current : numCurrent s = Z.of_nat (length l + length f);
  ok_enough : target <= numCurrent s }.

Definition vl_list (target : Z) (s : validate_list) (L : list item) : Prop := exists l f Bs, vl_ok target s l f Bs L.

Lemma vw_perm s l f X Bs K K' : K ≡ₚ K' -> vl_wf s l f X Bs K -> vl_wf s l f X Bs K'.
Proof.
  intros HP []. split; try assumption.
  - intros i p Hi. rewrite <- HP. by apply vw_hashed.
  - intros p. rewrite <- HP. apply vw_keys.
  - by rewrite <- HP.
Qed.

(** The same sequence where the nodes are the same. *)
Lemma holds_ext s s' l L : (forall p, p ∈ l -> vnodes s' !! p = vnodes s !! p) -> holds s l L -> holds s' l L.
Proof.
  intros E [H1 H2]. split.
  - apply Forall2_same_length_lookup in H1 as [Hlen H1]. apply Forall2_same_length_lookup. split; [done|].
    intros i p e Hp He. destruct (H1 i p e Hp He) as (n & Hn & En). exists n.
    rewrite E by (by eapply list_elem_of_lookup_2). done.
  - intros i p n Hp. rewrite E by (by eapply list_elem_of_lookup_2). by apply H2.
Qed.

Lemma holds_at s l L i p e : holds s l L -> l !! i = Some p -> L !! i = Some e ->
  exists n, vnodes s !! p = Some n /\ item_of n = e /\ listItem n = Z.of_nat i.
Proof.
  intros [H1 H2] Hp He. destruct (Forall2_lookup_lr _ _ _ _ _ _ H1 Hp He) as (n & Hn & E). exists n.
  split; [done|]. split; [done|by eapply H2].
Qed.

(** More nodes than a list is ever given. *)
Definition MAX_NODES : Z := 2 ^ 24.

Section proofs.
Context `{VNodes}.

Abbreviation wpm := (wp (H := list vcall) (S := validate_list) False).

(** The client has memory for that many nodes of a list. *)
Definition vmemory : Prop := forall h used t, Z.of_nat (size used) < MAX_NODES -> vnode_alloc h used t <> None.

Lemma add_current_wp d Q s h : Q tt (set_counts (numCurrent s + d) (numOnList s) s) h -> wpm (add_current d) Q s h.
Proof. intros HQ. unfold add_current. by apply wp_bind, wp_get, wp_modify. Qed.

Lemma add_onlist_wp d Q s h : Q tt (set_counts (numCurrent s) (numOnList s + d) s) h -> wpm (add_onlist d) Q s h.
Proof. intros HQ. unfold add_onlist. by apply wp_bind, wp_get, wp_modify. Qed.

Lemma hash_head_wp s l f X Bs K b Q h : vl_wf s l f X Bs K -> Q (bucket (item_hash s b)) s h ->
  wpm (hash_head (item_hash s b)) Q s h.
Proof.
  intros Hwf HQ. pose proof (hash_range _ _ _ _ _ _ b Hwf). destruct (vw_size _ _ _ _ _ _ Hwf) as (k & _ & _ & _ & E).
  unfold hash_head. apply wp_bind, wp_get. rewrite E, (proj2 (Z.leb_le _ _)), (proj2 (Z.ltb_lt _ _)) by lia. done.
Qed.

(** ** Looking for a buffer *)

Lemma find_in_bucket_wp s l f X Bs K i B1 B2 fuel b h : vl_wf s l f X Bs K -> 0 <= i < hashSize s -> Bs i = B1 ++ B2 ->
  (length B2 <= fuel)%nat ->
  wpm (find_in_bucket fuel (bucket i) (first_of (bucket i) B2) b) (fun r s' h' => s' = s /\ h' = h /\
    match r with
    | Some p => p ∈ B2 /\ exists n, vnodes s !! p = Some n /\ vbuf n = b
    | None => forall p n, p ∈ B2 -> vnodes s !! p = Some n -> vbuf n <> b
    end) s h.
Proof.
  intros Hwf Hi. revert B1 fuel. induction B2 as [|p B2 IH]; intros B1 fuel EB Hfuel.
  - cbn [first_of]. destruct fuel; cbn [find_in_bucket]; rewrite Z.eqb_refl; apply wp_ret;
      (split_and!; [done..|]; by intros p n ?%not_elem_of_nil).
  - cbn [length] in Hfuel. destruct fuel as [|fuel]; [lia|]. cbn [find_in_bucket first_of].
    pose proof (vw_buckets _ _ _ _ _ _ Hwf i Hi) as Hr. rewrite EB in Hr.
    pose proof (ring_nodup _ _ _ Hr) as Hnd. apply list.NoDup_cons in Hnd as [Hni _].
    rewrite (proj2 (Z.eqb_neq p (bucket i))) by set_solver.
    assert (Hp : is_Some (vnodes s !! p)).
    { apply (vw_keys _ _ _ _ _ _ Hwf). apply (vw_hashed _ _ _ _ _ _ Hwf i p Hi). rewrite EB. set_solver. }
    destruct Hp as [n Hn]. apply wp_bind. eapply get_vnode_wp; [exact Hn|].
    destruct (Z.eqb_spec (vbuf n) b) as [E|Hne].
    + apply wp_ret. split_and!; [done..|by left|by exists n].
    + apply wp_bind. eapply (get_next_wp F_hashHead); [eapply ring_next, Hr|].
      eapply wp_mono; [apply (IH (B1 ++ [p])); [by rewrite <- app_assoc|lia]|]. cbv beta.
      intros [q|] s' h' (-> & -> & Hq); (split; [done|split; [done|]]).
      * destruct Hq as [Hq ?]. split; [by right|done].
      * intros q m [->|Hq']%elem_of_cons Hm; [by assert (m = n) as -> by congruence|by eapply Hq].
Qed.

(** A buffer is in the sequence when its node is in its bucket. *)
Definition found (s : validate_list) (l : list Z) (L : list item) (b : Z) (r : option Z) : Prop :=
  match r with
  | Some p => exists i n, l !! i = Some p /\ vnodes s !! p = Some n /\ vbuf n = b /\
      list_find (fun e => e.1 = b) L = Some (i, item_of n)
  | None => list_find (fun e => e.1 = b) L = None
  end.

Lemma find_node_wp {A} target s l f Bs L b (k : validate_list -> option Z -> M (list vcall) validate_list A) Q h :
  vl_ok target s l f Bs L -> (forall r, found s l L b r -> wpm (k s r) Q s h) ->
  wpm (s ← get;
       hashHead ← hash_head (item_hash s b);
       l ← get_next F_hashHead hashHead;
       cur ← find_in_bucket (size (vnodes s)) hashHead l b;
       k s cur) Q s h.
Proof.
  intros [Hwf Hh Honce _ _ _] HQ. pose proof (hash_range _ _ _ _ _ _ b Hwf) as Hi. set (i := item_hash s b) in *.
  apply wp_bind, wp_get, wp_bind. eapply hash_head_wp; [exact Hwf|]. fold i.
  apply wp_bind. eapply (get_next_wp F_hashHead); [eapply ring_first, (vw_buckets _ _ _ _ _ _ Hwf i Hi)|].
  assert (Hfuel : (length (Bs i) <= size (vnodes s))%nat).
  { pose proof (ring_nodup _ _ _ (vw_buckets _ _ _ _ _ _ Hwf i Hi)) as Hnd. apply list.NoDup_cons in Hnd as [_ Hnd].
    rewrite <- size_dom, <- (size_list_to_set (C := gset Z)) by done. apply subseteq_size. intros p Hp.
    rewrite elem_of_list_to_set in Hp. apply elem_of_dom, (vw_keys _ _ _ _ _ _ Hwf).
    by apply (vw_hashed _ _ _ _ _ _ Hwf i p Hi) in Hp as [? _]. }
  apply wp_bind. eapply wp_mono; [apply (find_in_bucket_wp _ _ _ _ _ _ _ [] (Bs i) _ b _ Hwf Hi); [done|exact Hfuel]|].
  cbv beta. intros r s' h' (-> & -> & Hr). apply HQ. destruct r as [p|]; cbn [found].
  - destruct Hr as [Hp (n & Hn & Hb)]. apply (vw_hashed _ _ _ _ _ _ Hwf i p Hi) in Hp as [Hp _].
    apply list_elem_of_lookup in Hp as [j Hj]. exists j, n. split_and!; [done..|].
    destruct (Forall2_lookup_l _ _ _ _ _ (proj1 Hh) Hj) as (e & He & (n' & Hn' & Ee)).
    assert (n' = n) as -> by congruence. apply list_find_Some. rewrite Ee. split_and!; [done|by rewrite <- Ee|].
    intros j' e' Hk Hlt Ek. assert (j' = j); [|lia]. eapply (NoDup_lookup L.*1); [done|by rewrite list_lookup_fmap, Hk|].
    rewrite list_lookup_fmap, He, <- Ee. cbn. by rewrite Ek, Hb.
  - apply list_find_None, Forall_forall. intros e He%list_elem_of_In Eb. apply list_elem_of_lookup in He as [j Hj].
    destruct (Forall2_lookup_r _ _ _ _ _ (proj1 Hh) Hj) as (p & Hp & (n & Hn & Ee)).
    apply (Hr p n); [|done|by rewrite <- Eb, <- Ee]. apply (vw_hashed _ _ _ _ _ _ Hwf i p Hi). split.
    + by eapply list_elem_of_lookup_2.
    + unfold hash_of. rewrite Hn. cbn. f_equal. unfold i. f_equal. by rewrite <- Eb, <- Ee.
Qed.

(** ** Adding a buffer *)

(** A node for a new buffer, from [free] or from the client. *)
Definition node_ready (target : Z) (s : validate_list) (l f : list Z) (Bs : Z -> list Z) (L : list item) (p : Z) : Prop :=
  vl_wf s l f [p] Bs l /\ holds s l L /\ numTarget s = target /\ numOnList s = Z.of_nat (length l) /\
  numCurrent s = Z.of_nat (length l + length f + 1) /\ target <= numCurrent s.

Lemma ready_free target s l p f Bs L k : vl_ok target s l (p :: f) Bs L -> vl_wf (set_vheads k s) l f [p] Bs l ->
  node_ready target (set_vheads k s) l f Bs L p.
Proof.
  intros [_ Hh _ Et Eo Ec En] Hwf. split_and!; [done..| |done]. cbn [set_vheads numCurrent]. rewrite Ec. cbn [length]. lia.
Qed.

Lemma ready_new target s l f Bs L p n : vl_ok target s l f Bs L -> vl_wf (set_vnodes (<[p := n]> (vnodes s)) s) l f [p] Bs l ->
  p ∉ l ->
  node_ready target (set_counts (numCurrent s + 1) (numOnList s) (set_vnodes (<[p := n]> (vnodes s)) s)) l f Bs L p.
Proof.
  intros [_ Hh _ Et Eo Ec En] Hwf Hni. pose proof (vw_few _ _ _ _ _ _ Hwf) as Hfew. rewrite !length_app in Hfew. cbn [length] in Hfew.
  split_and!; [by apply wf_set_counts|..|done| | |].
  - eapply holds_ext; [|exact Hh]. intros q Hq. cbn. rewrite lookup_insert_ne; [done|]. by intros ->.
  - cbn [set_counts numOnList set_vnodes]. rewrite Eo. apply uint32_id. lia.
  - cbn [set_counts numCurrent set_vnodes]. rewrite Ec, uint32_id by lia. lia.
  - cbn [set_counts numCurrent set_vnodes]. rewrite Ec, uint32_id by lia. lia.
Qed.

(** The node goes to the end of the sequence. *)
Lemma node_added target s l f Bs L p n b fl Q h : node_ready target s l f Bs L p -> NoDup L.*1 ->
  list_find (fun e => e.1 = b) L = None ->
  vnodes s !! p = Some n -> 
  (forall s' Bs' n', vl_ok target s' (l ++ [p]) f Bs' (L ++ [(b, fl)]) -> vnodes s' !! p = Some n' ->
    listItem n' = Z.of_nat (length L) -> Q (Some p) s' h) ->
  wpm (s1 ← get;
       set_vnode p {| type_id := type_id n; listItem := numOnList s1; set_flags := fl.1; clr_flags := fl.2; vbuf := b |} ;;
       WSBMLISTADDTAIL F_head p LIST ;;
       add_onlist 1 ;;
       hashHead ← hash_head (item_hash s b);
       WSBMLISTADDTAIL F_hashHead p hashHead ;;
       mret (Some p)) Q s h.
Proof.
  intros (Hwf & Hh & Et & Eo & Ec & En) Honce Hnew Hn HQ. apply wp_bind, wp_get, wp_bind.
  assert (Hni : p ∉ l) by (destruct (vw_extra Hwf p) as [Hl _]; [by left|set_solver]).
  assert (Hlen : length L = length l) by (symmetry; eapply Forall2_length, Hh).
  eapply wf_set_vnode; [exact Hwf|exact Hn|by right|]. set (n' := {| type_id := _ |}). set (s1 := set_vnodes _ s). intros H1.
  apply wp_bind. eapply vw_append; [exact H1|]. intros k1 H2. apply wp_bind, add_onlist_wp.
  set (s2 := set_counts _ _ _).
  assert (H3 : vl_wf s2 (l ++ [p]) f [] Bs l) by (by apply wf_set_counts).
  pose proof (vw_few _ _ _ _ _ _ H3) as Hfew. rewrite !length_app in Hfew. cbn [length] in Hfew.
  change (item_hash s b) with (item_hash s2 b). apply wp_bind. eapply hash_head_wp; [exact H3|].
  apply wp_bind. eapply wf_hash; [exact H3| |exact Hni|].
  { unfold hash_of. cbn [vnodes s2 set_counts set_vheads s1 set_vnodes]. by rewrite lookup_insert_eq. }
  intros k2 Bs2 H4. apply wp_ret. eapply (HQ _ Bs2 n').
  - split.
    + eapply vw_perm; [|exact H4]. rewrite Permutation_app_comm. done.
    + split.
      * apply Forall2_app.
        -- eapply holds_ext; [|exact Hh]. intros q Hq. cbn. rewrite lookup_insert_ne; [done|]. by intros ->.
        -- apply Forall2_cons; [|by apply Forall2_nil]. exists n'. cbn [vnodes set_vhashes s2 set_counts set_vheads s1 set_vnodes].
           rewrite lookup_insert_eq. split; [done|]. destruct fl. done.
      * intros i q m Hi Hm. cbn [vnodes set_vhashes s2 set_counts set_vheads s1 set_vnodes] in Hm.
        apply lookup_snoc_Some in Hi as [[Hlt Hi]|[-> <-]].
        -- assert (q <> p) by (intros ->; by apply Hni, (list_elem_of_lookup_2 _ i)).
           rewrite lookup_insert_ne in Hm by done. by eapply (proj2 Hh).
        -- rewrite lookup_insert_eq in Hm. injection Hm as <-. cbn. by rewrite Eo.
    + rewrite fmap_app. apply list.NoDup_app. split; [done|]. split; [|apply NoDup_singleton].
      intros x Hx E%list_elem_of_singleton. cbn in E. subst x. apply list_elem_of_fmap in Hx as (e & Ee & He).
      apply list_find_None in Hnew. rewrite Forall_forall in Hnew. apply (Hnew e); [by apply list_elem_of_In|done].
    + done.
    + cbn [numOnList set_vhashes s2 set_counts set_vheads s1 set_vnodes]. rewrite Eo, length_app, uint32_id by lia. cbn [length]. lia.
    + cbn [numCurrent set_vhashes s2 set_counts set_vheads s1 set_vnodes]. rewrite Ec, length_app, uint32_id by lia. cbn [length]. lia.
    + cbn [numCurrent set_vhashes s2 set_counts set_vheads s1 set_vnodes]. rewrite Ec, uint32_id by lia. lia.
  - cbn [vnodes set_vhashes s2 set_counts set_vheads s1 set_vnodes]. apply lookup_insert_eq.
  - cbn. by rewrite Eo, Hlen.
Qed.

Lemma add_node_wp target s l f Bs L b flags mask h : vl_ok target s l f Bs L -> list_find (fun e => e.1 = b) L = None ->
  wpm (validateListAddNode b (item_hash s b) flags mask) (fun r s' h' =>
    match r with
    | None => (~ vmemory \/ MAX_NODES <= Z.of_nat (length L)) /\ vl_list target s' L
    | Some p => exists l' f' Bs' n', vl_ok target s' l' f' Bs' (L ++ [(b, (Z.land flags mask, Z.land (not64 flags) mask))]) /\
        vnodes s' !! p = Some n' /\ listItem n' = Z.of_nat (length L)
    end) s h.
Proof.
  intros Hok Hnew. pose proof (ok_wf _ _ _ _ _ _ Hok) as Hwf. pose proof (ok_once _ _ _ _ _ _ Hok) as Honce.
  unfold validateListAddNode. apply wp_bind. eapply (get_next_wp F_head); [eapply ring_first, (vw_free _ _ _ _ _ _ Hwf)|].
  assert (Hgo : forall s1 f1 p h1, node_ready target s1 l f1 Bs L p -> item_hash s1 b = item_hash s b ->
    wpm (n ← get_vnode p;
       s1 ← get;
       set_vnode p {| type_id := type_id n; listItem := numOnList s1; set_flags := Z.land flags mask;
                      clr_flags := Z.land (not64 flags) mask; vbuf := b |} ;;
       WSBMLISTADDTAIL F_head p LIST ;;
       add_onlist 1 ;;
       hashHead ← hash_head (item_hash s b);
       WSBMLISTADDTAIL F_hashHead p hashHead ;;
       mret (Some p)) (fun r s' h' =>
    match r with
    | None => (~ vmemory \/ MAX_NODES <= Z.of_nat (length L)) /\ vl_list target s' L
    | Some p => exists l' f' Bs' n', vl_ok target s' l' f' Bs' (L ++ [(b, (Z.land flags mask, Z.land (not64 flags) mask))]) /\
        vnodes s' !! p = Some n' /\ listItem n' = Z.of_nat (length L)
    end) s1 h1).
  { intros s1 f1 p h1 Hr Eh. assert (Hp : is_Some (vnodes s1 !! p)).
    { apply (vw_nodes _ _ _ _ _ _ (proj1 Hr)). set_solver. }
    destruct Hp as [n Hn]. apply wp_bind. eapply get_vnode_wp; [exact Hn|]. rewrite <- Eh.
    eapply (node_added _ _ _ _ _ _ _ _ _ (Z.land flags mask, Z.land (not64 flags) mask) _ _ Hr Honce Hnew Hn).
    intros s' Bs' n' H1 H2 H3. by exists (l ++ [p]), f1, Bs', n'. }
  apply wp_bind. destruct f as [|p f]; cbn [first_of].
  - rewrite Z.eqb_refl. apply wp_bind. eapply wf_alloc_vnode; [exact Hwf| |].
    + intros E Esz. apply wp_ret, wp_ret. split; [|by exists l, [], Bs].
      rewrite !length_app, !Nat.add_0_r in Esz. pose proof (Forall2_length (proj1 (ok_holds _ _ _ _ _ _ Hok))) as El.
      destruct (decide (MAX_NODES <= Z.of_nat (length L))); [by right|left]. intros Hm. eapply Hm; [|exact E]. lia.
    + intros p n H1 HnK Hnl. apply wp_bind, add_current_wp, wp_ret, (Hgo _ []); [|done].
      exact (ready_new _ _ _ _ _ _ _ _ Hok H1 Hnl).
  - assert (Hp : (p =? FREE) = false).
    { apply Z.eqb_neq. assert (0 < p) by (apply (vw_positive Hwf); set_solver). by unfold FREE; lia. }
    rewrite Hp. apply wp_bind. eapply (wf_pop_free _ _ []); [exact Hwf|]. intros k H1. apply wp_ret, (Hgo _ f); [|done].
    by apply ready_free.
Qed.

(** The flags of a buffer of the sequence change. *)
Lemma ok_update target s l f Bs L i p n fl Q h : vl_ok target s l f Bs L -> l !! i = Some p -> vnodes s !! p = Some n ->
  (forall s' n', vl_ok target s' l f Bs (<[i := (vbuf n, fl)]> L) -> vnodes s' !! p = Some n' -> listItem n' = Z.of_nat i -> Q tt s' h) ->
  wpm (set_vnode p {| type_id := type_id n; listItem := listItem n; set_flags := fl.1; clr_flags := fl.2; vbuf := vbuf n |}) Q s h.
Proof.
  intros [Hwf Hh Honce Et Eo Ec En] Hi Hn HQ. set (n' := {| type_id := _ |}).
  eapply wf_set_vnode; [exact Hwf|exact Hn|by left|]. intros H1.
  assert (Hlen : length L = length l) by (symmetry; eapply Forall2_length, Hh).
  pose proof (vw_nodup _ _ _ _ _ _ Hwf) as Hnd. apply list.NoDup_app in Hnd as [Hnd _].
  destruct (Forall2_lookup_l _ _ _ _ _ (proj1 Hh) Hi) as (e & He & (m & Hm & Ee)). assert (m = n) as -> by congruence.
  eapply (HQ _ n').
  - split; try done.
    + split.
      * apply Forall2_same_length_lookup. rewrite length_insert. split; [done|]. intros j q e' Hj He'.
        cbn [vnodes set_vnodes]. destruct (decide (i = j)) as [<-|Hne].
        -- rewrite list_lookup_insert_eq in He' by (rewrite Hlen; by eapply lookup_lt_Some). injection He' as <-.
           assert (q = p) as -> by congruence. exists n'. rewrite lookup_insert_eq. split; [done|]. destruct fl. done.
        -- rewrite list_lookup_insert_ne in He' by done. assert (q <> p).
           { intros ->. apply Hne. by eapply NoDup_lookup. }
           rewrite lookup_insert_ne by done. by apply (Forall2_lookup_lr _ _ _ _ _ _ (proj1 Hh) Hj He').
      * intros j q m Hj Hm'. cbn [vnodes set_vnodes] in Hm'. destruct (decide (p = q)) as [<-|Hne].
        -- rewrite lookup_insert_eq in Hm'. injection Hm' as <-. cbn. by eapply (proj2 Hh).
        -- rewrite lookup_insert_ne in Hm' by done. by eapply (proj2 Hh).
    + rewrite list_fmap_insert. rewrite list_insert_id; [done|]. by rewrite list_lookup_fmap, He, <- Ee.
  - cbn. apply lookup_insert_eq.
  - cbn. by eapply (proj2 Hh).
Qed.

Definition add_post (target : Z) (L : list item) (b flags mask : Z) (r : add_result) (s' : validate_list) : Prop :=
  match r with
  | Add_error e =>
      vl_list target s' L /\
      (e = - ENOMEM /\ (~ vmemory \/ MAX_NODES <= Z.of_nat (length L)) /\ b ∉ L.*1 \/ e = - EINVAL /\ add_item L b flags mask = None)
  | Add_done itemLoc p new =>
      exists i L', add_item L b flags mask = Some (i, new, L') /\ itemLoc = Z.of_nat i /\ vl_list target s' L'
  end.

Lemma not_listed (L : list item) b : list_find (fun e => e.1 = b) L = None -> b ∉ L.*1.
Proof.
  intros E (e & Ee & He)%list_elem_of_fmap. apply list_find_None in E. rewrite Forall_forall in E.
  apply (E e); [by apply list_elem_of_In|done].
Qed.

Lemma add_validate_item_wp target s L b flags mask h : vl_list target s L ->
  wpm (wsbmAddValidateItem b flags mask) (fun r s' _ => add_post target L b flags mask r s') s h.
Proof.
  intros (l & f & Bs & Hok). unfold wsbmAddValidateItem. cbv zeta.
  apply (find_node_wp target s l f Bs L b (fun s cur => match cur with
    | None =>
        cur ← validateListAddNode b (item_hash s b) flags mask;
        match cur with
        | None => mret (Add_error (- ENOMEM))
        | Some p => clear_vnode p ;; n ← get_vnode p; mret (Add_done (listItem n) p true)
        end
    | Some p =>
        n ← get_vnode p;
        match merge_flags flags mask (set_flags n) (clr_flags n) with
        | None => mret (Add_error (- EINVAL))
        | Some (set, clr) =>
            set_vnode p {| type_id := type_id n; listItem := listItem n; set_flags := set; clr_flags := clr; vbuf := vbuf n |} ;;
            n ← get_vnode p; mret (Add_done (listItem n) p false)
        end
    end) _ h Hok).
  intros [p|] Hf; cbn [found] in Hf.
  - destruct Hf as (i & n & Hi & Hn & Hb & Hfind). apply wp_bind. eapply get_vnode_wp; [exact Hn|].
    assert (Ea : add_item L b flags mask = match merge_flags flags mask (set_flags n) (clr_flags n) with
      | None => None | Some fl => Some (i, false, <[i := (b, fl)]> L) end) by (unfold add_item; by rewrite Hfind).
    destruct (merge_flags flags mask (set_flags n) (clr_flags n)) as [[set clr]|].
    + apply wp_bind. eapply (ok_update _ _ _ _ _ _ i p n (set, clr)); [exact Hok|exact Hi|exact Hn|].
      intros s' n' H1 Hn' El. apply wp_bind. eapply get_vnode_wp; [exact Hn'|]. apply wp_ret.
      exists i, (<[i := (b, (set, clr))]> L). split; [done|]. split; [done|]. rewrite Hb in H1. by exists l, f, Bs.
    + apply wp_ret. split; [by exists l, f, Bs|by right].
  - apply wp_bind. eapply wp_mono; [by eapply add_node_wp|]. cbv beta. intros [p|] s' h'.
    + intros (l' & f' & Bs' & n' & H1 & Hn' & El). apply wp_bind. unfold clear_vnode, wp at 1.
      rewrite bool_decide_eq_true_2 by by exists n'. apply wp_bind. eapply get_vnode_wp; [exact Hn'|]. apply wp_ret.
      eexists (length L), _. split; [unfold add_item; by rewrite Hf|]. split; [done|]. by exists l', f', Bs'.
    + intros [Hm Hl]. apply wp_ret. split; [done|]. left. split; [done|]. split; [done|]. by apply not_listed.
Qed.

(** ** The spare nodes *)

(** A list whose counts are right, whatever its nodes hold. *)
Record vl_counts (target : Z) (s : validate_list) (l f : list Z) (Bs : Z -> list Z) : Prop := {
  vc_wf : vl_wf s l f [] Bs l;
  vc_target : numTarget s = target;
  vc_onlist : numOnList s = Z.of_nat (length l);
  vc_current : numCurrent s = Z.of_nat (length l + length f) }.

Lemma ok_counts target s l f Bs L : vl_ok target s l f Bs L -> vl_counts target s l f Bs.
Proof. by intros []. Qed.

(** The nodes of the list, as they were. *)
Definition same_nodes (l : list Z) (s s' : validate_list) : Prop := forall p, p ∈ l -> vnodes s' !! p = vnodes s !! p.

Lemma same_nodes_refl l s : same_nodes l s s.
Proof. by intros p. Qed.

Lemma same_nodes_trans l s s1 s2 : same_nodes l s s1 -> same_nodes l s1 s2 -> same_nodes l s s2.
Proof. intros H1 H2 p Hp. rewrite H2 by done. by apply H1. Qed.

Lemma add_spare_wp target s l f Bs fuel h : vl_counts target s l f Bs -> target - numCurrent s <= Z.of_nat fuel ->
  wpm (add_spare fuel) (fun r s' _ => exists f', vl_counts target s' l f' Bs /\ same_nodes l s s' /\
    (r = 0 /\ numCurrent s' = Z.max target (numCurrent s) \/ r = - ENOMEM /\ (~ vmemory \/ MAX_NODES < target) /\ numCurrent s < target)) s h.
Proof.
  revert s f h. induction fuel as [|fuel IH]; intros s f h Hc Hfuel; cbn [add_spare]; apply wp_bind, wp_get;
    destruct Hc as [Hwf Et Eo Ec]; rewrite Et; destruct (Z.ltb_spec (numCurrent s) target) as [Hlt|Hge]; try lia.
  1,3: apply wp_ret; exists f; split; [done|]; split; [apply same_nodes_refl|]; left; lia.
  apply wp_bind. eapply wf_alloc_vnode; [exact Hwf| |].
  - intros E Esz. apply wp_ret. exists f. split; [done|]. split; [apply same_nodes_refl|]. right. split_and!; [done| |done].
    destruct (decide (MAX_NODES < target)); [by right|left]. intros Hm. eapply Hm; [|exact E]. rewrite !length_app, Nat.add_0_r in Esz. lia.
  - intros p n H1 _ Hnl. apply wp_bind, add_current_wp. set (s2 := set_counts _ _ _).
    assert (H2 : vl_wf s2 l f [p] Bs l) by (by apply wf_set_counts).
    pose proof (vw_few _ _ _ _ _ _ H2) as Hfew. rewrite !length_app in Hfew. cbn [length] in Hfew.
    apply wp_bind. eapply wf_push_free; [exact H2|]. intros k H3.
    assert (Hc3 : numCurrent (set_vheads k s2) = Z.of_nat (length l + length (p :: f))).
    { cbn [numCurrent set_vheads s2 set_counts set_vnodes]. rewrite Ec, uint32_id by lia. cbn [length]. lia. }
    eapply wp_mono; [apply (IH _ (p :: f))|].
    + split; [exact H3|done| |exact Hc3]. cbn [numOnList set_vheads s2 set_counts set_vnodes]. rewrite Eo, uint32_id; lia.
    + rewrite Hc3. cbn [length]. lia.
    + cbv beta. intros r s' h' (f' & Hc' & Hs' & Hr). exists f'. split; [done|]. split.
      * eapply same_nodes_trans; [|exact Hs']. intros q Hq. cbn. rewrite lookup_insert_ne; [done|]. by intros ->.
      * rewrite Hc3 in Hr. cbn [length] in Hr. destruct Hr as [[-> Hr]|(-> & Hm & _)]; [left|by right]. split; [done|lia].
Qed.

Lemma drop_spare_wp target s l f Bs fuel h : vl_counts target s l f Bs -> (length f <= fuel)%nat ->
  wpm (drop_spare fuel) (fun _ s' _ => exists f', vl_counts target s' l f' Bs /\ same_nodes l s s' /\
    numCurrent s' = Z.max (Z.min target (numCurrent s)) (Z.of_nat (length l))) s h.
Proof.
  revert s f h. induction fuel as [|fuel IH]; intros s f h Hc Hfuel; cbn [drop_spare]; apply wp_bind, wp_get;
    destruct Hc as [Hwf Et Eo Ec]; rewrite Et; (destruct (Z.ltb_spec target (numCurrent s)) as [Hlt|Hge];
      [|apply wp_ret; exists f; split; [done|]; split; [apply same_nodes_refl|lia]]);
    apply wp_bind; (eapply (get_next_wp F_head); [eapply ring_first, (vw_free _ _ _ _ _ _ Hwf)|]);
    destruct f as [|p f]; cbn [length] in Hfuel; try lia; cbn [first_of].
  1,2: rewrite Z.eqb_refl; apply wp_ret; exists []; split; [done|]; split; [apply same_nodes_refl|cbn [length] in Ec; lia].
  assert (Hp : (p =? FREE) = false).
  { apply Z.eqb_neq. assert (0 < p) by (apply (vw_positive Hwf); set_solver). unfold FREE. lia. }
  assert (Hnl : p ∉ l).
  { intros Hp'. apply (vw_apart Hwf p); set_solver. }
  pose proof (vw_few _ _ _ _ _ _ Hwf) as Hfew. rewrite !length_app in Hfew. cbn [length] in Hfew, Ec.
  rewrite Hp. apply wp_bind. eapply (wf_pop_free _ _ []); [exact Hwf|]. intros k H1. cbn [app] in H1.
  apply wp_bind. eapply wf_free_vnode; [exact H1|done|]. intros s2 H2 Hother E1 E2 E3 _.
  cbn [set_vheads numCurrent numOnList numTarget] in E1, E2, E3. apply wp_bind, add_current_wp.
  assert (Ec' : numCurrent (set_counts (numCurrent s2 + -1) (numOnList s2) s2) = Z.of_nat (length l + length f)).
  { cbn [set_counts numCurrent]. rewrite E1, Ec, uint32_id by lia. lia. }
  eapply wp_mono; [apply (IH _ f); [split|lia]|].
  - by apply wf_set_counts.
  - cbn. by rewrite E3.
  - cbn [set_counts numOnList]. rewrite E2, Eo, uint32_id; lia.
  - exact Ec'.
  - cbv beta. intros _ s' h' (f' & Hc' & Hs' & Hr). exists f'. split; [done|]. split; [|rewrite Ec' in Hr; lia].
    eapply same_nodes_trans; [|exact Hs']. intros q Hq. cbn [set_counts vnodes]. rewrite Hother; [done|by intros ->].
Qed.

Lemma adjust_wp target s l f Bs h : vl_counts target s l f Bs ->
  wpm validateListAdjustNodes (fun r s' _ => exists f', vl_counts target s' l f' Bs /\ same_nodes l s s' /\
    (r = 0 /\ numCurrent s' = Z.max target (Z.of_nat (length l)) \/ r = - ENOMEM /\ (~ vmemory \/ MAX_NODES < target) /\ numCurrent s < target)) s h.
Proof.
  intros Hc. unfold validateListAdjustNodes. apply wp_bind, wp_get, wp_bind. pose proof (vc_target _ _ _ _ _ Hc) as Et.
  eapply wp_mono; [apply (add_spare_wp _ _ _ _ _ _ _ Hc); rewrite Et; lia|]. cbv beta. intros r s1 h1 (f1 & H1 & Hs1 & Hr).
  apply wp_bind, wp_get, wp_bind.
  eapply wp_mono; [apply (drop_spare_wp _ _ _ _ _ _ _ H1)|].
  { rewrite <- (vw_fuel _ _ _ _ _ _ (vc_wf _ _ _ _ _ H1)), !length_app. lia. }
  cbv beta. intros _ s2 h2 (f2 & H2 & Hs2 & E2). apply wp_ret. exists f2. split; [done|].
  split; [by eapply same_nodes_trans|]. pose proof (vc_current _ _ _ _ _ Hc) as Ec. pose proof (vc_current _ _ _ _ _ H1) as Ec1.
  destruct Hr as [[-> Hr]|Hr]; [left; split; [done|lia]|by right].
Qed.

Lemma holds_nil s : holds s [] [].
Proof. split; [by constructor|]. by intros i p n. Qed.

(** ** Emptying the list *)

Lemma vw_list_first s p l f Bs K : vl_wf s (p :: l) f [] Bs K -> (p =? LIST) = false.
Proof.
  intros Hwf. apply Z.eqb_neq. assert (0 < p) by (apply (vw_positive Hwf); set_solver). unfold LIST. lia.
Qed.

(** The first node leaves [list] and its bucket. *)
Lemma unlist_wp {A} s p l f Bs (k : M (list vcall) validate_list A) Q h : vl_wf s (p :: l) f [] Bs (p :: l) ->
  (forall s' Bs', vl_wf s' l f [p] Bs' l -> vnodes s' = vnodes s -> numCurrent s' = numCurrent s ->
    numOnList s' = numOnList s -> numTarget s' = numTarget s -> wpm k Q s' h) ->
  wpm (WSBMLISTDEL F_head p ;; WSBMLISTDEL F_hashHead p ;; k) Q s h.
Proof.
  intros Hwf HQ. apply wp_bind. eapply (wf_pop_list _ []); [exact Hwf|]. intros k1 H1. cbn [app] in H1.
  assert (Hp : is_Some (vnodes s !! p)) by (apply (vw_nodes _ _ _ _ _ _ Hwf); set_solver). destruct Hp as [n Hn].
  apply wp_bind. eapply (wf_unhash _ _ _ _ _ []); [exact H1|unfold hash_of; cbn [vnodes set_vheads]; by rewrite Hn|].
  intros k2 Bs2 H2. by eapply HQ.
Qed.

Lemma reset_listed_wp target s l f Bs fuel h : vl_counts target s l f Bs -> (length l <= fuel)%nat ->
  wpm (reset_listed fuel (first_of LIST l)) (fun _ s' _ => exists f' Bs', vl_counts target s' [] f' Bs' /\
    numCurrent s' = numCurrent s) s h.
Proof.
  revert s l f Bs h. induction fuel as [|fuel IH]; intros s l f Bs h Hc Hfuel; destruct l as [|p l]; cbn [length] in Hfuel; try lia;
    cbn [reset_listed first_of].
  1,2: rewrite Z.eqb_refl; apply wp_ret; by exists f, Bs.
  destruct Hc as [Hwf Et Eo Ec]. pose proof (vw_few _ _ _ _ _ _ Hwf) as Hfew. rewrite !length_app in Hfew. cbn [length] in Hfew, Eo, Ec.
  rewrite (vw_list_first _ _ _ _ _ _ Hwf). eapply unlist_wp; [exact Hwf|]. intros s1 Bs1 H1 _ E1 E2 E3.
  apply wp_bind. eapply wf_push_free; [exact H1|]. intros k2 H2. apply wp_bind, add_onlist_wp. set (s2 := set_counts _ _ _).
  assert (Hc2 : vl_counts target s2 l (p :: f) Bs1).
  { split; [by apply wf_set_counts|cbn; congruence| |].
    - cbn [s2 set_counts numOnList set_vheads]. rewrite E2, Eo, uint32_id; lia.
    - cbn [s2 set_counts numCurrent set_vheads]. rewrite E1, Ec, uint32_id by lia. cbn [length]. lia. }
  apply wp_bind. eapply (get_next_wp F_head); [eapply ring_first, (vw_list _ _ _ _ _ _ (vc_wf _ _ _ _ _ Hc2))|].
  eapply wp_mono; [apply (IH _ _ _ _ _ Hc2); lia|]. cbv beta. intros _ s' h' (f' & Bs' & Hc' & E'). exists f', Bs'.
  split; [done|]. rewrite E'. cbn [s2 set_counts numCurrent set_vheads]. rewrite E1, Ec, uint32_id; lia.
Qed.

(** There are always enough nodes: a reset makes none, and does not fail. *)
Lemma reset_list_nodes_wp target s L h : vl_list target s L ->
  wpm validateResetList (fun r s' _ => r = 0 /\ vl_list target s' [] /\ numCurrent s' = Z.max target 0) s h.
Proof.
  intros (l & f & Bs & Hok). unfold validateResetList. apply wp_bind. pose proof (ok_enough _ _ _ _ _ _ Hok) as Hen.
  eapply wp_mono; [eapply adjust_wp, ok_counts, Hok|]. cbv beta. intros r s1 h1 (f1 & H1 & Hs1 & Hr).
  destruct Hr as [[-> Er]|(_ & _ & Hlt)]; [|lia]. cbn [negb Z.eqb].
  apply wp_bind. eapply (get_next_wp F_head); [eapply ring_first, (vw_list _ _ _ _ _ _ (vc_wf _ _ _ _ _ H1))|].
  apply wp_bind, wp_get, wp_bind. eapply wp_mono; [apply (reset_listed_wp _ _ _ _ _ _ _ H1)|].
  { rewrite <- (vw_fuel _ _ _ _ _ _ (vc_wf _ _ _ _ _ H1)), !length_app. lia. }
  cbv beta. intros _ s2 h2 (f2 & Bs2 & H2 & E2). eapply wp_mono; [apply (adjust_wp _ _ _ _ _ _ H2)|]. cbv beta.
  intros r s3 h3 (f3 & H3 & _ & [[-> E3]|(_ & _ & Hlt)]); [|lia]. split; [done|]. cbn [length] in E3. split; [|exact E3].
  exists [], f3, Bs2. destruct H3 as [Hwf3 Et3 Eo3 Ec3]. split; [done|apply holds_nil|constructor|done..|lia].
Qed.

(** ** Freeing the list *)

Lemma free_listed_wp target s l f Bs fuel h : vl_counts target s l f Bs -> (length l <= fuel)%nat ->
  wpm (free_listed fuel (first_of LIST l)) (fun _ s' _ => exists Bs', vl_counts target s' [] f Bs') s h.
Proof.
  revert s l Bs h. induction fuel as [|fuel IH]; intros s l Bs h Hc Hfuel; destruct l as [|p l]; cbn [length] in Hfuel; try lia;
    cbn [free_listed first_of].
  1,2: rewrite Z.eqb_refl; apply wp_ret; by exists Bs.
  destruct Hc as [Hwf Et Eo Ec]. pose proof (vw_few _ _ _ _ _ _ Hwf) as Hfew. rewrite !length_app in Hfew. cbn [length] in Hfew, Eo, Ec.
  rewrite (vw_list_first _ _ _ _ _ _ Hwf). eapply unlist_wp; [exact Hwf|]. intros s1 Bs1 H1 _ E1 E2 E3.
  apply wp_bind. eapply wf_free_vnode; [exact H1| |].
  { destruct (vw_extra H1 p) as [Hl _]; [by left|set_solver]. }
  intros s2 H2 _ E4 E5 E6 _. apply wp_bind. eapply (get_next_wp F_head); [eapply ring_first, (vw_list _ _ _ _ _ _ H2)|].
  apply wp_bind, add_current_wp, wp_bind, add_onlist_wp. set (s3 := set_counts _ _ _).
  eapply wp_mono; [apply (IH s3 l Bs1); [split|lia]|].
  - by do 2 apply wf_set_counts.
  - cbn. congruence.
  - cbn [s3 set_counts numOnList numCurrent]. rewrite E5, E2, Eo, (uint32_id (Z.of_nat (S (length l)))), uint32_id; lia.
  - cbn [s3 set_counts numOnList numCurrent]. rewrite E4, E1, Ec, (uint32_id (_ + -1)), uint32_id; lia.
  - done.
Qed.

Lemma free_spare_wp target s f Bs fuel h : vl_counts target s [] f Bs -> (length f <= fuel)%nat ->
  wpm (free_spare fuel (first_of FREE f)) (fun _ s' _ => vnodes s' = ∅) s h.
Proof.
  revert s f h. induction fuel as [|fuel IH]; intros s f h Hc Hfuel; destruct f as [|p f]; cbn [length] in Hfuel; try lia;
    cbn [free_spare first_of]; destruct Hc as [Hwf Et Eo Ec].
  1,2: rewrite Z.eqb_refl; apply wp_ret; apply map_eq; intros q; rewrite lookup_empty; apply eq_None_not_Some;
    rewrite (vw_nodes _ _ _ _ _ _ Hwf); apply not_elem_of_nil.
  pose proof (vw_few _ _ _ _ _ _ Hwf) as Hfew. rewrite !length_app in Hfew. cbn [length] in Hfew, Eo, Ec.
  assert (Hp : (p =? FREE) = false).
  { apply Z.eqb_neq. assert (0 < p) by (apply (vw_positive Hwf); set_solver). unfold FREE. lia. }
  rewrite Hp. apply wp_bind. eapply (wf_pop_free _ _ []); [exact Hwf|]. intros k1 H1. cbn [app] in H1.
  apply wp_bind. eapply wf_free_vnode; [exact H1|apply not_elem_of_nil|]. intros s2 H2 _ E1 E2 E3 _.
  apply wp_bind. eapply (get_next_wp F_head); [eapply ring_first, (vw_free _ _ _ _ _ _ H2)|].
  cbn [set_vheads numCurrent numOnList numTarget] in E1, E2, E3. apply wp_bind, add_current_wp.
  apply (IH _ f); [split|lia].
  - by apply wf_set_counts.
  - cbn. congruence.
  - cbn [set_counts numOnList length]. rewrite E2, Eo. by rewrite uint32_id.
  - cbn [set_counts numCurrent length]. rewrite E1, Ec, uint32_id; lia.
Qed.

Lemma free_list_wp target s L h : vl_list target s L ->
  wpm validateFreeList (fun _ s' _ => vnodes s' = ∅ /\ table s' = 0) s h.
Proof.
  intros (l & f & Bs & Hok). unfold validateFreeList. pose proof (ok_counts _ _ _ _ _ _ Hok) as Hc. pose proof (vc_wf _ _ _ _ _ Hc) as Hwf.
  apply wp_bind. eapply (get_next_wp F_head); [eapply ring_first, (vw_list _ _ _ _ _ _ Hwf)|].
  apply wp_bind, wp_get, wp_bind. eapply wp_mono; [apply (free_listed_wp _ _ _ _ _ _ _ Hc)|].
  { rewrite <- (vw_fuel _ _ _ _ _ _ Hwf), !length_app. lia. }
  cbv beta. intros _ s1 h1 (Bs1 & H1). pose proof (vc_wf _ _ _ _ _ H1) as Hwf1.
  apply wp_bind. eapply (get_next_wp F_head); [eapply ring_first, (vw_free _ _ _ _ _ _ Hwf1)|].
  apply wp_bind, wp_get, wp_bind. eapply wp_mono; [apply (free_spare_wp _ _ _ _ _ _ H1)|].
  { rewrite <- (vw_fuel _ _ _ _ _ _ Hwf1), !length_app. lia. }
  cbv beta. intros _ s2 h2 E. unfold free_table, wp. by split.
Qed.

(** ** Making a list *)

Lemma pot_spec fuel val shift m : 0 <= shift <= m -> val <= 2 ^ m -> m < shift + Z.of_nat fuel ->
  exists k, pot fuel val shift = Some k /\ shift <= k <= m.
Proof.
  revert shift. induction fuel as [|fuel IH]; intros shift Hs Hv Hf; [lia|]. cbn [pot].
  rewrite Z.shiftl_mul_pow2, Z.mul_1_l by lia. destruct (Z.ltb_spec (2 ^ shift) val) as [Hlt|Hge].
  - assert (shift <> m) by (intros ->; lia). destruct (IH (shift + 1)) as (k & E & Hk); [lia..|]. exists k. split; [done|lia].
  - exists shift. split; [done|lia].
Qed.

Lemma init_table_wp n i s Q h : table s = Z.of_nat (i + n) -> 
  (forall c, 0 <= c < Z.of_nat i -> ring (bucket c) (vhashes s) []) ->
  (forall k, (forall c, 0 <= c < Z.of_nat (i + n) -> ring (bucket c) k []) -> Q tt (set_vhashes k s) h) ->
  wpm (init_table n i) Q s h.
Proof.
  revert i s. induction n as [|n IH]; intros i s Et Hr HQ; cbn [init_table].
  - apply wp_ret. assert (E : set_vhashes (vhashes s) s = s) by (by destruct s). rewrite <- E. apply HQ. by rewrite Nat.add_0_r.
  - apply wp_bind. eapply init_head_wp.
    { cbn. apply orb_true_iff. right. rewrite Et. unfold bucket. apply andb_true_iff. split; [apply Z.leb_le|apply Z.ltb_lt]; lia. }
    apply IH; [cbn; lia| |].
    + cbn. intros c Hc. destruct (decide (c = Z.of_nat i)) as [->|]; [apply ring_alone|].
      eapply ring_off; [apply Hr; lia|apply agree_off_alone|]. unfold bucket.
      intros q [->|[]%not_elem_of_nil]%elem_of_cons E%list_elem_of_singleton. lia.
    + intros k Hk. apply HQ. intros c Hc. apply Hk. lia.
Qed.

Lemma create_wp target data s h : 0 <= target <= MAX_NODES ->
  wpm (validateCreateList target data) (fun r s' h' =>
    r = 0 /\ vl_list target s' [] /\ numCurrent s' = target \/
    r = - ENOMEM /\ (table_alloc h = false /\ s' = s \/ ~ vmemory)) s h.
Proof.
  intros Ht. assert (Ht' : target <= 2 ^ 24) by apply Ht. unfold validateCreateList, wsbmPot. rewrite uint32_id by lia.
  destruct (pot_spec 32 target 0 28) as (k & Ek & Hk); [lia|lia|lia|]. rewrite Ek, Z.shiftl_mul_pow2, Z.mul_1_l by lia.
  assert (Hpow : 1 <= 2 ^ k <= 2 ^ 28) by (split; [apply (Z.pow_le_mono_r 2 0)|apply Z.pow_le_mono_r]; lia).
  unfold wp at 1. destruct (table_alloc h) eqn:Etab; cbn [negb]; [|right; split; [done|by left]].
  rewrite (uint32_id (2 ^ k - 1)), (uint32_id (2 ^ k * HEAD_SIZE)), Z.div_mul by (unfold HEAD_SIZE; lia).
  match goal with |- match ?m ?s0 ?h0 with _ => _ end => change (wpm m (fun r s' h' =>
    r = 0 /\ vl_list target s' [] /\ numCurrent s' = target \/ r = - ENOMEM /\ (true = false /\ s' = s \/ ~ vmemory)) s0 h0) end.
  apply wp_bind, wp_modify, wp_bind. apply init_table_wp; [cbn; lia|cbn; lia|]. intros k1 Hr1.
  apply wp_bind. apply init_head_wp; [done|]. apply wp_bind. apply init_head_wp; [done|].
  cbn [Rings.set_links links_of validate_links]. set (s1 := set_vheads _ _).
  assert (Hc : vl_counts target s1 [] [] (fun _ => [])).
  { split; [|done..]. split; cbn [s1 vheads vhashes vnodes hashSize hashMask table set_vheads set_vhashes app].
    - eapply ring_off; [apply ring_alone|apply agree_off_alone|].
      intros q [->|[]%not_elem_of_nil]%elem_of_cons E%list_elem_of_singleton. done.
    - apply ring_alone.
    - intros p. rewrite lookup_empty. split; [by intros [? [=]]|by intros ?%not_elem_of_nil].
    - constructor.
    - intros p. rewrite lookup_empty. by intros [? [=]].
    - intros i Hi. apply Hr1. lia.
    - intros i p _. split; [by intros ?%not_elem_of_nil|by intros [?%not_elem_of_nil _]].
    - by intros p ?%not_elem_of_nil.
    - constructor.
    - exists k. split_and!; [lia..|done|done|done]. }
  apply wp_bind. eapply wp_mono; [apply (adjust_wp _ _ _ _ _ _ Hc)|]. cbv beta.
  intros r s2 h2 (f2 & H2 & _ & [[-> E2]|(-> & [Hm|Hm] & _)]); [| |lia]; cbn [negb Z.eqb].
  - apply wp_ret. left. split; [done|]. split; [|cbn [length] in E2; lia]. exists [], f2, (fun _ => []).
    destruct H2 as [Hwf2 Et2 Eo2 Ec2]. split; [done|apply holds_nil|constructor|done..|cbn [length] in E2; lia].
  - apply wp_bind. unfold free_table, wp at 1. apply wp_ret. right. split; [done|by right].
Qed.

End proofs.

(** * Sessions *)

Inductive list_op := L_add (buf flags mask : Z) | L_reset | L_items.
Inductive list_answer := LA_add (r : add_result) | LA_reset (r : Z) | LA_items (L : list item).

(** What a list answers, for a client that has memory when [mem] holds. *)
Inductive list_step (mem : Prop) (L : list item) : list_op -> list_answer -> list item -> Prop :=
| Step_add b flags mask i new L' p : add_item L b flags mask = Some (i, new, L') ->
    list_step mem L (L_add b flags mask) (LA_add (Add_done (Z.of_nat i) p new)) L'
| Step_bad_flags b flags mask : add_item L b flags mask = None ->
    list_step mem L (L_add b flags mask) (LA_add (Add_error (- EINVAL))) L
| Step_no_memory b flags mask : (~ mem \/ MAX_NODES <= Z.of_nat (length L)) -> b ∉ L.*1 ->
    list_step mem L (L_add b flags mask) (LA_add (Add_error (- ENOMEM))) L
| Step_reset : list_step mem L L_reset (LA_reset 0) []
| Step_items : list_step mem L L_items (LA_items L) L.

Inductive list_run (mem : Prop) : list item -> list list_op -> list list_answer -> list item -> Prop :=
| Run_nil L : list_run mem L [] [] L
| Run_cons L op a L1 ops l L2 : list_step mem L op a L1 -> list_run mem L1 ops l L2 ->
    list_run mem L (op :: ops) (a :: l) L2.

Section session.
Context `{VNodes}.

Abbreviation wpm := (wp (H := list vcall) (S := validate_list) False).
Abbreviation MV A := (M (list vcall) validate_list A).

(** The way the lists are gone through: [cur ← validateListIterator], then
    [validateListNext] until NULL. *)
Fixpoint walk_list (fuel : nat) (cur : option Z) : MV (list item) :=
  match cur with
  | None => mret []
  | Some curBuf =>
      match fuel with
      | O => undefined
      | S n =>
          node ← get_vnode (validateListNode curBuf);
          curBuf ← validateListNext curBuf;
          l ← walk_list n curBuf;
          mret (item_of node :: l)
      end
  end.

Definition list_items : MV (list item) :=
  s ← get; curBuf ← validateListIterator; walk_list (size (vnodes s)) curBuf.

Definition list_do (op : list_op) : MV list_answer :=
  match op with
  | L_add buf flags mask => r ← wsbmAddValidateItem buf flags mask; mret (LA_add r)
  | L_reset => r ← validateResetList; mret (LA_reset r)
  | L_items => l ← list_items; mret (LA_items l)
  end.

Fixpoint list_ops (ops : list list_op) : MV (list list_answer) :=
  match ops with
  | [] => mret []
  | op :: ops => a ← list_do op; l ← list_ops ops; mret (a :: l)
  end.

(** A list is made, used and freed; [None]: it could not be made. *)
Definition list_session (target data : Z) (ops : list list_op) : MV (option (list list_answer)) :=
  r ← validateCreateList target data;
  if negb (r =? 0) then mret None else l ← list_ops ops; validateFreeList ;; mret (Some l).

Definition cursor (l : list Z) : option Z := match l with [] => None | p :: _ => Some p end.

Lemma cursor_first s l1 l2 f X Bs K : vl_wf s (l1 ++ l2) f X Bs K ->
  (if first_of LIST l2 =? LIST then None else Some (first_of LIST l2)) = cursor l2.
Proof.
  intros Hwf. destruct l2 as [|p l2]; [done|]. cbn [first_of cursor]. rewrite (proj2 (Z.eqb_neq p LIST)); [done|].
  assert (0 < p) by (apply (vw_positive Hwf); set_solver). unfold LIST. lia.
Qed.

Lemma walk_list_wp s l f Bs l1 l2 L1 L2 fuel h : vl_wf s l f [] Bs l -> l = l1 ++ l2 -> length l1 = length L1 ->
  holds s l (L1 ++ L2) -> (length l2 <= fuel)%nat ->
  wpm (walk_list fuel (cursor l2)) (fun r s' h' => s' = s /\ h' = h /\ r = L2) s h.
Proof.
  intros Hwf. revert l1 L1 L2 fuel. induction l2 as [|p l2 IH]; intros l1 L1 L2 fuel El Hlen Hh Hfuel.
  - assert (L2 = []) as ->.
    { assert (E : length l = length (L1 ++ L2)) by (eapply Forall2_length, Hh). rewrite El, !length_app in E. cbn in E. destruct L2; [done|cbn in E; lia]. }
    destruct fuel; by apply wp_ret.
  - cbn [length cursor] in *. destruct fuel as [|fuel]; [lia|]. cbn [walk_list].
    assert (Hp : l !! length l1 = Some p) by (by rewrite El, list_lookup_middle).
    destruct (Forall2_lookup_l _ _ _ _ _ (proj1 Hh) Hp) as (e & He & (n & Hn & En)).
    rewrite lookup_app_r, Hlen, Nat.sub_diag in He by lia. destruct L2 as [|e' L2]; [done|]. injection He as ->.
    apply wp_bind. eapply get_vnode_wp; [exact Hn|]. apply wp_bind. unfold validateListNext. apply wp_bind.
    pose proof (vw_list _ _ _ _ _ _ Hwf) as Hr. rewrite El in Hr.
    eapply (get_next_wp F_head); [eapply ring_next, Hr|]. apply wp_ret.
    assert (Hc : (if first_of LIST l2 =? LIST then None else Some (first_of LIST l2)) = cursor l2).
    { eapply (cursor_first s (l1 ++ [p])). rewrite <- app_assoc. cbn [app]. rewrite <- El. exact Hwf. }
    rewrite Hc. apply wp_bind.
    eapply wp_mono; [apply (IH (l1 ++ [p]) (L1 ++ [e])); [by rewrite <- app_assoc|rewrite !length_app; cbn; lia|rewrite <- app_assoc; exact Hh|lia]|].
    cbv beta. intros r s' h' (-> & -> & ->). apply wp_ret. by rewrite En.
Qed.

Lemma items_wp target s L h : vl_list target s L -> wpm list_items (fun r s' h' => s' = s /\ h' = h /\ r = L) s h.
Proof.
  intros (l & f & Bs & Hok). pose proof (ok_wf _ _ _ _ _ _ Hok) as Hwf. unfold list_items, validateListIterator.
  apply wp_bind, wp_get, wp_bind, wp_bind. eapply (get_next_wp F_head); [eapply ring_first, (vw_list _ _ _ _ _ _ Hwf)|].
  apply wp_ret. rewrite (cursor_first _ [] _ _ _ _ _ Hwf). eapply (walk_list_wp _ _ _ _ [] l []); [done|done|done|apply Hok|].
  rewrite <- (vw_fuel _ _ _ _ _ _ Hwf), length_app. lia.
Qed.

Lemma list_do_wp target s L op h : vl_list target s L ->
  wpm (list_do op) (fun a s' _ => exists L', list_step vmemory L op a L' /\ vl_list target s' L') s h.
Proof.
  intros Hl. destruct op as [b flags mask| |]; cbn [list_do]; apply wp_bind.
  - eapply wp_mono; [by eapply add_validate_item_wp|]. cbv beta. intros [e|loc p new] s' h' Hr; apply wp_ret.
    + destruct Hr as [Hl' [(-> & Hm & Hb)|[-> Ha]]]; exists L; (split; [|done]); by constructor.
    + destruct Hr as (i & L' & Ha & -> & Hl'). exists L'. split; [by constructor|done].
  - eapply wp_mono; [by eapply reset_list_nodes_wp|]. cbv beta. intros r s' h' (-> & Hl' & _). apply wp_ret. exists []. split; [constructor|done].
  - eapply wp_mono; [by eapply items_wp|]. cbv beta. intros r s' h' (-> & -> & ->). apply wp_ret. exists L. split; [constructor|done].
Qed.

Lemma list_ops_wp target s L ops h : vl_list target s L ->
  wpm (list_ops ops) (fun l s' _ => exists L', list_run vmemory L ops l L' /\ vl_list target s' L') s h.
Proof.
  revert s L h. induction ops as [|op ops IH]; intros s L h Hl; cbn [list_ops].
  - apply wp_ret. exists L. split; [constructor|done].
  - apply wp_bind. eapply wp_mono; [by eapply list_do_wp|]. cbv beta. intros a s1 h1 (L1 & Hs & H1).
    apply wp_bind. eapply wp_mono; [by apply IH|]. cbv beta. intros l s2 h2 (L2 & Hr & H2). apply wp_ret.
    exists L2. split; [by econstructor|done].
Qed.

(** C32. (refinement) A list of buffers to validate, from its creation to its release, behaves
    as a sequence without duplicates of buffers with their placement flags: adding a
    buffer appends it or merges its flags, or refuses the conflict; a reset empties it;
    an iteration gives its buffers in the order they were added. Memory is the only other
    reason to fail, and at the end every node is freed, the table too. *)
Theorem validate_list_refines target data ops s h : 0 <= target <= MAX_NODES ->
  wpm (list_session target data ops) (fun o s' _ =>
    match o with
    | None => table_alloc h = false \/ ~ vmemory
    | Some l => (exists L, list_run vmemory [] ops l L) /\ vnodes s' = ∅ /\ table s' = 0
    end) s h.
Proof.
  intros Ht. unfold list_session. apply wp_bind. eapply wp_mono; [by apply create_wp|]. cbv beta.
  intros r s1 h1 [(-> & H1 & _)|(-> & Hm)]; cbn [negb Z.eqb].
  - apply wp_bind. eapply wp_mono; [by eapply list_ops_wp|]. cbv beta. intros l s2 h2 (L & Hr & H2).
    apply wp_bind. eapply wp_mono; [by eapply free_list_wp|]. cbv beta. intros _ s3 h3 [E1 E2]. apply wp_ret.
    split; [by exists L|done].
  - apply wp_ret. destruct Hm as [[? _]|?]; [by left|by right].
Qed.

End session.

(** * Witnesses *)

Definition growing_vnode (bad : list nat) (h : list vcall) (used : gset Z) (t : Z) : option (Z * vnode) :=
  let p := 64 * (1 + Z.of_nat (length h)) in
  if bool_decide (p ∈ used) || bool_decide (length h ∈ bad) || negb (p <? 2 ^ 32) then None
  else Some (p, {| type_id := t; listItem := -1; set_flags := 0; clr_flags := 0; vbuf := 0 |}).

Lemma growing_vnode_new bad h used t p n : growing_vnode bad h used t = Some (p, n) -> 0 < p < 2 ^ 32 /\ p ∉ used.
Proof.
  unfold growing_vnode. destruct (bool_decide (_ ∈ used)) eqn:E; [done|]. apply bool_decide_eq_false in E.
  destruct (bool_decide (_ ∈ bad)); [done|]. cbn [orb]. destruct (Z.ltb_spec (64 * (1 + Z.of_nat (length h))) (2 ^ 32)); [|done].
  cbn [negb]. intros [= <- _]. split; [lia|done].
Qed.

Definition vnode_env (bad : list nat) : VNodes :=
  {| vnode_alloc := growing_vnode bad; table_alloc := fun _ => true; vnode_alloc_new := growing_vnode_new bad |}.

(** ** A client with memory for its nodes

    Nodes are at the lowest addresses that are free. *)
Definition lowest_free (used : gset Z) : option Z :=
  snd <$> list_find (fun p => p ∉ used) (Z.of_nat <$> seq 1 (S (size used))).

Lemma lowest_free_some used : exists p, lowest_free used = Some p /\ 0 < p <= Z.of_nat (S (size used)) /\ p ∉ used.
Proof.
  unfold lowest_free. destruct (list_find _ _) as [[i p]|] eqn:E.
  - apply list_find_Some in E as (Hi & Hp & _). exists p. split; [done|]. split; [|done].
    apply list_elem_of_lookup_2, list_elem_of_fmap in Hi as (k & -> & Hk). apply elem_of_seq in Hk. lia.
  - exfalso. apply list_find_None in E. set (l := Z.of_nat <$> seq 1 (S (size used))) in *.
    assert (Hsub : (list_to_set l : gset Z) ⊆ used).
    { intros p Hp. apply elem_of_list_to_set in Hp. rewrite Forall_forall in E. apply list_elem_of_In, E in Hp. by apply dec_stable in Hp. }
    apply subseteq_size in Hsub. rewrite size_list_to_set in Hsub by (apply NoDup_fmap_2; [intros x y; lia|apply NoDup_seq]).
    unfold l in Hsub. rewrite length_fmap, length_seq in Hsub. lia.
Qed.

Definition lowest_vnode (h : list vcall) (used : gset Z) (t : Z) : option (Z * vnode) :=
  match lowest_free used with
  | Some p => if p <? 2 ^ 32 then Some (p, {| type_id := t; listItem := -1; set_flags := 0; clr_flags := 0; vbuf := 0 |}) else None
  | None => None
  end.

Lemma lowest_vnode_new h used t p n : lowest_vnode h used t = Some (p, n) -> 0 < p < 2 ^ 32 /\ p ∉ used.
Proof.
  unfold lowest_vnode. destruct (lowest_free_some used) as (q & -> & Hq & Hn). destruct (Z.ltb_spec q (2 ^ 32)); [|done].
  intros [= <- _]. split; [lia|done].
Qed.

Definition full_vnodes : VNodes :=
  {| vnode_alloc := lowest_vnode; table_alloc := fun _ => true; vnode_alloc_new := lowest_vnode_new |}.

Lemma full_vnodes_memory : vmemory (H := full_vnodes).
Proof.
  intros h used t Hs. cbn. unfold lowest_vnode. destruct (lowest_free_some used) as (p & -> & Hp & _).
  rewrite (proj2 (Z.ltb_lt p _)) by (unfold MAX_NODES in Hs; lia). done.
Qed.

(** Two buffers of the same bucket, the second one again with other flags, flags that
    leave no memory, a reset. *)
Definition list_example : list list_op :=
  [L_add 4096 1 65535; L_add 8192 6 65535; L_add 8192 4 65535; L_add 8192 2 65535; L_items; L_reset; L_items].

Theorem validate_list_refines_witness :
  wp False (list_session (H := full_vnodes) 1 0 list_example) (fun o s' _ =>
    match o with
    | None => table_alloc (VNodes := full_vnodes) [] = false \/ ~ vmemory (H := full_vnodes)
    | Some l => (exists L, list_run (vmemory (H := full_vnodes)) [] list_example l L) /\ vnodes s' = ∅ /\ table s' = 0
    end) {| numTarget := 0; numCurrent := 0; numOnList := 0; hashSize := 0; hashMask := 0; driverData := 0; table := 0;
            vnodes := ∅; vheads := {| nexts := ∅; prevs := ∅ |}; vhashes := {| nexts := ∅; prevs := ∅ |} |} [].
Proof. apply (validate_list_refines (H := full_vnodes)). unfold MAX_NODES. lia. Defined.

(** ** What goes wrong *)

Definition no_list : validate_list :=
  {| numTarget := 0; numCurrent := 0; numOnList := 0; hashSize := 0; hashMask := 0; driverData := 0; table := 0;
     vnodes := ∅; vheads := {| nexts := ∅; prevs := ∅ |}; vhashes := {| nexts := ∅; prevs := ∅ |} |}.

(** The second node cannot be made: the table is freed and the first node is lost. *)
Example create_loses_nodes :
  match validateCreateList (H := vnode_env [2%nat]) 2 0 no_list [] with
  | Done r s h => (r, (map_to_list (vnodes s)).*1, h)
  | _ => (0, [], [])
  end = (- ENOMEM, [128], [V_release; V_alloc 0 None; V_alloc 0 (Some 128); V_malloc true]).
Proof. vm_compute. reflexivity. Qed.

(** The nodes of a list of type 1 are of type 0 once they are made for a buffer. *)
Example nodes_of_another_type :
  match (validateCreateList (H := vnode_env []) 1 1 ;; wsbmAddValidateItem (H := vnode_env []) 4096 1 65535 ;;
         wsbmAddValidateItem (H := vnode_env []) 8192 1 65535) no_list [] with
  | Done _ _ h => omap (fun c => match c with V_alloc t _ => Some t | _ => None end) (rev h)
  | _ => []
  end = [1; 0].
Proof. vm_compute. reflexivity. Qed.
