(* ===== verification/BufferMgr.v ===== *)
(** The buffer objects of libwsbm: libwsbm/src/wsbm_manager.c and the interface of the
    pools, libwsbm/src/wsbm_pool.h.

    A buffer object is a name for a storage; the storage is a part of the memory of a
    pool and counts the references to it: those of buffer objects, of the lists of
    buffers to validate it is on ([onList]) and, for a simple buffer, which is one
    object with its storage, those of its clients.  The last reference destroys it.

    The pools are an interface, [PoolOps], over a state [P] of their own: a storage is
    known by its address, and copying to and from what [map] gave is an access to the
    memory of the pool.  The common part of a storage (struct _WsbmBufStorage) is kept
    here, as wsbmBufStorageInit leaves it when a pool creates one, and is gone when the
    pool destroys it.  One thread runs, as with the functions of wsbmNullThreadFuncs. *)
From stdpp Require Import gmap.
From S2P Require Import Prelude Rings ValidateList.

Definition WSBM_BODATA_SIZE_ACCEPT : Z := 4096.
Definition WSBM_ACCESS_READ : Z := 1.
Definition WSBM_ACCESS_WRITE : Z := 2.
Definition WSBM_SYNCCPU_READ : Z := 1.
Definition WSBM_SYNCCPU_WRITE : Z := 2.
Definition WSBM_SYNCCPU_DONT_BLOCK : Z := 4.
Definition WSBM_PL_FLAG_SYSTEM : Z := 1.
Definition WSBM_PL_FLAG_CACHED : Z := Z.shiftl 1 16.

(** struct _WsbmBufferPool.  A pool is a number; a function a pool may leave NULL is an
    option.  [pl_write] and [pl_read] copy at an offset of a mapped address. *)
Class PoolOps (P : Type) := {
  pl_create : Z -> Z -> Z -> Z -> M unit P (option Z);
  pl_ub_create : Z -> Z -> Z -> Z -> Z -> M unit P (option Z);
  pl_createByReference : Z -> option (Z -> M unit P (option Z));
  pl_destroy : Z -> M unit P unit;
  pl_map : Z -> Z -> M unit P (Z * Z);
  pl_unmap : Z -> M unit P unit;
  pl_syncforcpu : Z -> Z -> M unit P Z;
  pl_releasefromcpu : Z -> Z -> M unit P unit;
  pl_offset : Z -> M unit P Z;
  pl_poolOffset : Z -> M unit P Z;
  pl_placement : Z -> M unit P Z;
  pl_size : Z -> M unit P Z;
  pl_kernel : Z -> M unit P Z;
  pl_fence : Z -> option (Z -> Z -> M unit P unit);
  pl_unvalidate : Z -> option (Z -> M unit P unit);
  pl_validate : Z -> option (Z -> Z -> Z -> M unit P Z);
  pl_waitIdle : Z -> bool -> M unit P Z;
  pl_setStatus : Z -> option (Z -> Z -> Z -> M unit P Z);
  pl_write : Z -> Z -> list Z -> M unit P unit;
  pl_read : Z -> Z -> Z -> M unit P (list Z) }.

Inductive buffer_type := COMPLEX | SIMPLE | REF.

#[export] Instance buffer_type_eq : EqDecision buffer_type.
Proof. solve_decision. Defined.

(** struct _WsbmBufStorage; [container]: the simple buffer that goes with it. *)
Record buf_storage := { st_pool : Z; st_refs : Z; st_onList : Z; st_container : option Z }.

(** struct _WsbmBufferObject. *)
Record buffer_object := {
  bo_refs : Z;
  bo_storage : option Z;
  bo_placement : Z;
  bo_alignment : Z;
  bo_type : buffer_type;
  bo_pool : option Z }.

Record buffer_list := { hasKernelBuffers : bool; kernelBuffers : validate_list; userBuffers : validate_list }.

(** struct _WsbmKernelBuf, which the kernel's validation updates. *)
Record kernel_buf := { gpuOffset : Z; kbuf_handle : Z; kbuf_placement : Z; fence_type_mask : Z }.

Definition wsbmKBufHandle (kBuf : kernel_buf) : Z := kbuf_handle kBuf.

Definition wsbmUpdateKBuf (kBuf : kernel_buf) (gpuOffset placement fence_type_mask : Z) : kernel_buf :=
  {| gpuOffset := gpuOffset; kbuf_handle := kbuf_handle kBuf; kbuf_placement := placement; fence_type_mask := fence_type_mask |}.

Record bm_state (P : Type) := {
  storages : gmap Z buf_storage;
  buffers : gmap Z buffer_object;
  blists : gmap Z buffer_list;
  vlog : list vcall;
  bpool : P }.
Arguments storages {P}. Arguments buffers {P}. Arguments blists {P}. Arguments vlog {P}. Arguments bpool {P}.

Inductive bcall := B_calloc (r : option Z) | B_free (p : Z).

(** Memory for the buffer objects and the lists. *)
Class BmEnv := {
  bm_alloc : list bcall -> gset Z -> option Z;
  bm_alloc_new : forall h used p, bm_alloc h used = Some p -> 0 < p /\ p ∉ used }.

Section bm.
Context {P : Type} `{!PoolOps P} `{!BmEnv} `{!VNodes}.

Abbreviation MB A := (M (list bcall) (bm_state P) A).
Abbreviation MP A := (M unit P A).

Definition set_storages (m : gmap Z buf_storage) (s : bm_state P) : bm_state P :=
  {| storages := m; buffers := buffers s; blists := blists s; vlog := vlog s; bpool := bpool s |}.
Definition set_buffers (m : gmap Z buffer_object) (s : bm_state P) : bm_state P :=
  {| storages := storages s; buffers := m; blists := blists s; vlog := vlog s; bpool := bpool s |}.
Definition set_blists (m : gmap Z buffer_list) (v : list vcall) (s : bm_state P) : bm_state P :=
  {| storages := storages s; buffers := buffers s; blists := m; vlog := v; bpool := bpool s |}.
Definition set_bpool (p : P) (s : bm_state P) : bm_state P :=
  {| storages := storages s; buffers := buffers s; blists := blists s; vlog := vlog s; bpool := p |}.

(** A function of a pool. *)
Definition on_pool {A} (m : MP A) : MB A := fun s h =>
  match m (bpool s) tt with
  | Done a p _ => Done a (set_bpool p s) h
  | Abort _ => Abort h
  | Exit _ => Exit h
  | Undef _ => Undef h
  end.

(** An operation on one of the lists of the list of buffers [p]. *)
Inductive which_list := Kernel | User.

Definition list_of (w : which_list) (l : buffer_list) : validate_list :=
  match w with Kernel => kernelBuffers l | User => userBuffers l end.

Definition set_list (w : which_list) (v : validate_list) (l : buffer_list) : buffer_list :=
  match w with
  | Kernel => {| hasKernelBuffers := hasKernelBuffers l; kernelBuffers := v; userBuffers := userBuffers l |}
  | User => {| hasKernelBuffers := hasKernelBuffers l; kernelBuffers := kernelBuffers l; userBuffers := v |}
  end.

Definition on_list {A} (w : which_list) (p : Z) (m : M (list vcall) validate_list A) : MB A := fun s h =>
  match blists s !! p with
  | Some l =>
      match m (list_of w l) (vlog s) with
      | Done a v log => Done a (set_blists (<[p := set_list w v l]> (blists s)) log s) h
      | Abort _ => Abort h
      | Exit _ => Exit h
      | Undef _ => Undef h
      end
  | None => Undef h
  end.

Definition get_buffer (p : Z) : MB buffer_object :=
  s ← get; match buffers s !! p with Some b => mret b | None => undefined end.

Definition set_buffer (p : Z) (b : buffer_object) : MB unit :=
  s ← get; if bool_decide (is_Some (buffers s !! p)) then modify (set_buffers (<[p := b]> (buffers s))) else undefined.

Definition get_storage (q : Z) : MB buf_storage :=
  s ← get; match storages s !! q with Some t => mret t | None => undefined end.

Definition set_storage (q : Z) (t : buf_storage) : MB unit :=
  s ← get; if bool_decide (is_Some (storages s !! q)) then modify (set_storages (<[q := t]> (storages s))) else undefined.

Definition get_blist (p : Z) : MB buffer_list :=
  s ← get; match blists s !! p with Some l => mret l | None => undefined end.

(** [buf->storage], dereferenced. *)
Definition storage_of (b : buffer_object) : MB Z :=
  match bo_storage b with Some q => mret q | None => undefined end.

Definition with_storage (o : option Z) (b : buffer_object) : buffer_object :=
  {| bo_refs := bo_refs b; bo_storage := o; bo_placement := bo_placement b; bo_alignment := bo_alignment b;
     bo_type := bo_type b; bo_pool := bo_pool b |}.
Definition with_refs (n : Z) (b : buffer_object) : buffer_object :=
  {| bo_refs := int32 n; bo_storage := bo_storage b; bo_placement := bo_placement b; bo_alignment := bo_alignment b;
     bo_type := bo_type b; bo_pool := bo_pool b |}.
Definition with_placement (z : Z) (b : buffer_object) : buffer_object :=
  {| bo_refs := bo_refs b; bo_storage := bo_storage b; bo_placement := z; bo_alignment := bo_alignment b;
     bo_type := bo_type b; bo_pool := bo_pool b |}.
Definition with_pool (o : option Z) (b : buffer_object) : buffer_object :=
  {| bo_refs := bo_refs b; bo_storage := bo_storage b; bo_placement := bo_placement b; bo_alignment := bo_alignment b;
     bo_type := bo_type b; bo_pool := o |}.
Definition with_type (t : buffer_type) (b : buffer_object) : buffer_object :=
  {| bo_refs := bo_refs b; bo_storage := bo_storage b; bo_placement := bo_placement b; bo_alignment := bo_alignment b;
     bo_type := t; bo_pool := bo_pool b |}.

Definition storage_refs (n : Z) (t : buf_storage) : buf_storage :=
  {| st_pool := st_pool t; st_refs := int32 n; st_onList := st_onList t; st_container := st_container t |}.
Definition storage_onList (n : Z) (t : buf_storage) : buf_storage :=
  {| st_pool := st_pool t; st_refs := st_refs t; st_onList := int32 n; st_container := st_container t |}.
Definition storage_container (o : option Z) (t : buf_storage) : buf_storage :=
  {| st_pool := st_pool t; st_refs := st_refs t; st_onList := st_onList t; st_container := o |}.

Definition change_buffer (p : Z) (f : buffer_object -> buffer_object) : MB unit := b ← get_buffer p; set_buffer p (f b).
Definition change_storage (q : Z) (f : buf_storage -> buf_storage) : MB unit := t ← get_storage q; set_storage q (f t).

(** Memory for a buffer object or a list; [new] is what it holds. *)
Definition used (s : bm_state P) : gset Z := dom (buffers s) ∪ dom (blists s).

Definition alloc_buffer (new : buffer_object) : MB (option Z) := fun s h =>
  let r := bm_alloc h (used s) in
  match r with
  | Some p => Done r (set_buffers (<[p := new]> (buffers s)) s) (B_calloc r :: h)
  | None => Done None s (B_calloc None :: h)
  end.

Definition free_buffer (p : Z) : MB unit := fun s h =>
  if bool_decide (is_Some (buffers s !! p)) then Done tt (set_buffers (delete p (buffers s)) s) (B_free p :: h) else Undef h.

(** ** Storages *)

(** A new storage: [wsbmBufStorageInit]. *)
Definition init_storage (pool : Z) (r : option Z) : MB (option Z) :=
  match r with
  | None => mret None
  | Some q =>
      s ← get;
      modify (set_storages (<[q := {| st_pool := pool; st_refs := 1; st_onList := 0; st_container := None |}]> (storages s))) ;;
      mret (Some q)
  end.

Definition create_storage (pool size placement alignment : Z) : MB (option Z) :=
  r ← on_pool (pl_create pool size placement alignment); init_storage pool r.

(** [pool->destroy]. *)
Definition destroy_storage (q : Z) : MB unit :=
  t ← get_storage q;
  on_pool (pl_destroy q) ;;
  s ← get; modify (set_storages (delete q (storages s))).

(** [wsbmBOFreeSimple]. *)
Definition wsbmBOFreeSimple (ptr : Z) : MB unit := free_buffer ptr.

(** The caller's pointer is reset. *)
Definition wsbmBufStorageUnref (pStorage : option Z) : MB unit :=
  match pStorage with
  | None => mret tt
  | Some q =>
      t ← get_storage q;
      set_storage q (storage_refs (st_refs t - 1) t) ;;
      if int32 (st_refs t - 1) =? 0 then
        match st_container t with Some p => wsbmBOFreeSimple p | None => mret tt end ;;
        destroy_storage q
      else mret tt
  end.

(** [wsbmBufStorageUnref(&buf->storage)]. *)
Definition unref_storage_of (p : Z) : MB unit :=
  b ← get_buffer p;
  set_buffer p (with_storage None b) ;;
  wsbmBufStorageUnref (bo_storage b).

(** ** Access to a buffer *)

Definition wsbmBOWaitIdle (buf : Z) (lazy : bool) : MB unit :=
  b ← get_buffer buf;
  match bo_storage b with
  | None => mret tt
  | Some storage => get_storage storage ;; on_pool (pl_waitIdle storage lazy) ;; mret tt
  end.

Definition wsbmBOMap (buf mode : Z) : MB (option Z) :=
  b ← get_buffer buf; storage ← storage_of b; get_storage storage ;;
  '(retval, virtual) ← on_pool (pl_map storage mode);
  mret (if retval =? 0 then Some virtual else None).

Definition wsbmBOUnmap (buf : Z) : MB unit :=
  b ← get_buffer buf;
  match bo_storage b with
  | None => mret tt
  | Some storage => get_storage storage ;; on_pool (pl_unmap storage)
  end.

Definition wsbmBOSyncForCpu (buf mode : Z) : MB Z :=
  b ← get_buffer buf; storage ← storage_of b; get_storage storage ;; on_pool (pl_syncforcpu storage mode).

Definition wsbmBOReleaseFromCpu (buf mode : Z) : MB unit :=
  b ← get_buffer buf; storage ← storage_of b; get_storage storage ;; on_pool (pl_releasefromcpu storage mode).

Definition wsbmBOOffsetHint (buf : Z) : MB Z :=
  b ← get_buffer buf; storage ← storage_of b; get_storage storage ;; on_pool (pl_offset storage).

Definition wsbmBOPoolOffset (buf : Z) : MB Z :=
  b ← get_buffer buf; storage ← storage_of b; get_storage storage ;; on_pool (pl_poolOffset storage).

Definition wsbmBOPlacementHint (buf : Z) : MB Z :=
  b ← get_buffer buf;
  ASSERT (bool_decide (is_Some (bo_storage b))) ;;
  storage ← storage_of b; get_storage storage ;; on_pool (pl_placement storage).

Definition wsbmBOSize (buf : Z) : MB Z :=
  b ← get_buffer buf; storage ← storage_of b; get_storage storage ;; on_pool (pl_size storage).

Definition wsbmBOSetStatus (buf setFlags clrFlags : Z) : MB Z :=
  b ← get_buffer buf;
  match bo_storage b with
  | None => mret 0
  | Some storage =>
      t ← get_storage storage;
      match pl_setStatus (st_pool t) with
      | None => mret (- EINVAL)
      | Some setStatus => on_pool (setStatus storage setFlags clrFlags)
      end
  end.

Definition wsbmKBuf (buf : Z) : MB Z :=
  b ← get_buffer buf; storage ← storage_of b; get_storage storage ;; on_pool (pl_kernel storage).

(** ** References *)

Definition wsbmBOReference (buf : Z) : MB Z :=
  b ← get_buffer buf;
  (if bool_decide (bo_type b = SIMPLE) then
     storage ← storage_of b; change_storage storage (fun t => storage_refs (st_refs t + 1) t)
   else set_buffer buf (with_refs (bo_refs b + 1) b)) ;;
  mret buf.

Definition wsbmBOUnreference (p_buf : option Z) : MB unit :=
  match p_buf with
  | None => mret tt
  | Some buf =>
      b ← get_buffer buf;
      if bool_decide (bo_type b = SIMPLE) then wsbmBufStorageUnref (bo_storage b)
      else
        set_buffer buf (with_refs (bo_refs b - 1) b) ;;
        if int32 (bo_refs b - 1) =? 0 then unref_storage_of buf ;; free_buffer buf else mret tt
  end.

(** ** The contents of a buffer *)

(** The last part of [wsbmBOData], from the label [out]. *)
Definition data_out (synced : bool) (storage : Z) (retval : Z) : MB Z :=
  when synced (on_pool (pl_releasefromcpu storage WSBM_SYNCCPU_WRITE)) ;; mret retval.

(** The data is written, the storage being synced for it. *)
Definition data_write (copy : Z -> MB Z) (storage : Z) (data synced : bool) : MB Z :=
  retval ← (if negb synced then on_pool (pl_syncforcpu storage WSBM_SYNCCPU_WRITE) else mret 0);
  if negb (retval =? 0) then data_out synced storage retval
  else
    retval ← (if data then copy storage else mret 0);
    data_out true storage retval.

(** The part after the buffer has a storage of the right size: its placement, and the
    data. *)
Definition data_copy (copy : Z -> MB Z) (buf placement : Z) (data synced : bool) : MB Z :=
  b ← get_buffer buf; storage ← storage_of b; t ← get_storage storage;
  let placement_diff := Z.lxor placement (bo_placement b) in
  if negb (placement_diff =? 0) then
    match pl_setStatus (st_pool t) with
    | None => abort
    | Some setStatus =>
        on_pool (pl_releasefromcpu storage WSBM_SYNCCPU_WRITE) ;;
        retval ← on_pool (setStatus storage (Z.land placement_diff placement) (clear placement_diff placement));
        if negb (retval =? 0) then data_out synced storage retval
        else set_buffer buf (with_placement placement b) ;; data_write copy storage data synced
    end
  else data_write copy storage data synced.

(** [newBuffer]: the buffer has no storage, or one that will not do. *)
Definition needs_storage (b : buffer_object) (newPool size : Z) : MB bool :=
  match bo_storage b with
  | None => mret true
  | Some storage =>
      t ← get_storage storage;
      if negb (st_pool t =? newPool) then mret true
      else
        n ← on_pool (pl_size storage);
        if n <? size then mret true
        else n ← on_pool (pl_size storage); mret (uint32 (size + WSBM_BODATA_SIZE_ACCEPT) <? n)
  end.

(** The buffer gets a storage of the pool [newPool], or none for no data. *)
Definition data_new (create : Z -> Z -> Z -> Z -> MB (option Z)) (copy : Z -> MB Z)
    (buf size newPool placement : Z) (data : bool) : MB Z :=
  unref_storage_of buf ;;
  if size =? 0 then
    change_buffer buf (fun b => with_placement placement (with_pool (Some newPool) b)) ;; mret 0
  else
    b ← get_buffer buf;
    r ← create newPool size placement (bo_alignment b);
    change_buffer buf (with_storage r) ;;
    match r with
    | None => mret (- ENOMEM)
    | Some _ =>
        change_buffer buf (fun b => with_pool (Some newPool) (with_placement placement b)) ;;
        data_copy copy buf placement data false
    end.

(** A busy storage is left to those who use it, if there is memory for another. *)
Definition data_busy (create : Z -> Z -> Z -> Z -> MB (option Z)) (copy : Z -> MB Z)
    (b : buffer_object) (buf storage pool size placement : Z) (data : bool) : MB Z :=
  tmp_storage ← create pool size placement (bo_alignment b);
  match tmp_storage with
  | Some tmp =>
      unref_storage_of buf ;;
      change_buffer buf (fun b => with_placement placement (with_storage (Some tmp) b)) ;;
      data_copy copy buf placement data false
  | None =>
      retval ← on_pool (pl_syncforcpu storage WSBM_SYNCCPU_WRITE);
      if negb (retval =? 0) then data_out false storage retval
      else data_copy copy buf placement data true
  end.

(** [wsbmBOData] and [wsbmBODataUB], which differ in how a storage is made and the data
    copied. *)
Definition data_with (create : Z -> Z -> Z -> Z -> MB (option Z)) (copy : Z -> MB Z)
    (buf size : Z) (data : bool) (newPool : option Z) (placement : Z) : MB Z :=
  b ← get_buffer buf;
  if bool_decide (bo_type b = SIMPLE) then mret (- EINVAL)
  else
    match match newPool with None => bo_pool b | Some _ => newPool end with
    | None => mret (- EINVAL)
    | Some newPool =>
        newBuffer ← needs_storage b newPool size;
        let placement := if placement =? 0 then bo_placement b else placement in
        if (newBuffer : bool) then
          if bool_decide (bo_type b = REF) then mret (- EINVAL)
          else data_new create copy buf size newPool placement data
        else
          storage ← storage_of b; t ← get_storage storage;
          busy ← (if negb (st_onList t =? 0) then mret true
                  else
                    r ← on_pool (pl_syncforcpu storage (Z.lor WSBM_SYNCCPU_WRITE WSBM_SYNCCPU_DONT_BLOCK));
                    mret (negb (r =? 0)));
          if (busy : bool) then data_busy create copy b buf storage (st_pool t) size placement data
          else data_copy copy buf placement data true
    end.

(** [memcpy(virtual + offset, data, size)] to a mapped storage. *)
Definition copy_to (virtual offset size : Z) (data : list Z) : MB unit :=
  if Z.of_nat (length data) <? size then undefined
  else on_pool (pl_write virtual offset (take (Z.to_nat size) data)).

Definition copy_mapped (size : Z) (data : list Z) (storage : Z) : MB Z :=
  '(retval, virtual) ← on_pool (pl_map storage WSBM_ACCESS_WRITE);
  if negb (retval =? 0) then mret retval
  else
    copy_to virtual 0 size data ;;
    on_pool (pl_unmap storage) ;;
    mret retval.

Definition wsbmBOData (buf size : Z) (data : option (list Z)) (newPool : option Z) (placement : Z) : MB Z :=
  data_with create_storage (copy_mapped size (default [] data)) buf size (bool_decide (is_Some data)) newPool placement.

(** [ttm_pool_ub_create], whatever the pool is; the storage is the memory of the caller. *)
Definition create_user (user_ptr pool size placement alignment : Z) : MB (option Z) :=
  r ← on_pool (pl_ub_create pool size placement alignment user_ptr); init_storage pool r.

Definition wsbmBODataUB (buf size : Z) (data : option (list Z)) (newPool : option Z) (placement user_ptr : Z) : MB Z :=
  data_with (create_user user_ptr)
    (fun storage => copy_to user_ptr 0 size (default [] data) ;; mret 0)
    buf size (bool_decide (is_Some data)) newPool placement.

Definition wsbmStorageClone (buf : Z) : MB (option Z) :=
  b ← get_buffer buf; storage ← storage_of b; t ← get_storage storage;
  n ← on_pool (pl_size storage);
  create_storage (st_pool t) n (bo_placement b) (bo_alignment b).

(** [buf->pool], whose functions are called on a storage: it is the pool of the storage. *)
Definition same_pool (b : buffer_object) (t : buf_storage) : MB unit :=
  if bool_decide (bo_pool b = Some (st_pool t)) then mret tt else undefined.

(** Both storages are mapped: the [memcpy] and what follows. *)
Definition copy_both (storage newStorage virtual nVirtual : Z) : MB unit :=
  n ← on_pool (pl_size storage);
  d ← on_pool (pl_read virtual 0 n);
  on_pool (pl_write nVirtual 0 d) ;;
  on_pool (pl_unmap newStorage) ;;
  on_pool (pl_unmap storage) ;;
  on_pool (pl_releasefromcpu storage WSBM_SYNCCPU_READ).

(** The copy of the contents by the CPU; a failure gives the new buffer up. *)
Definition clone_copy (buf newBuf : Z) : MB (option Z) :=
  let out_err1 := unref_storage_of newBuf ;; free_buffer newBuf ;; mret None in
  b ← get_buffer buf; storage ← storage_of b; t ← get_storage storage;
  nb ← get_buffer newBuf; newStorage ← storage_of nb;
  ret ← on_pool (pl_syncforcpu storage WSBM_SYNCCPU_READ);
  if negb (ret =? 0) then out_err1
  else
    let out_err2 := same_pool b t ;; on_pool (pl_releasefromcpu storage WSBM_SYNCCPU_READ) ;; out_err1 in
    '(ret, virtual) ← on_pool (pl_map storage WSBM_ACCESS_READ);
    if negb (ret =? 0) then out_err2
    else
      '(ret, nVirtual) ← on_pool (pl_map newStorage WSBM_ACCESS_WRITE);
      if negb (ret =? 0) then same_pool b t ;; on_pool (pl_unmap storage) ;; out_err2
      else
        copy_both storage newStorage virtual nVirtual ;; mret (Some newBuf).

(** [accelCopy]: a function of the client that copies its second buffer to its first. *)
Definition wsbmBOClone (buf : Z) (accelCopy : option (Z -> Z -> MB Z)) : MB (option Z) :=
  b ← get_buffer buf;
  newBuf ← alloc_buffer b;
  match newBuf with
  | None => mret None
  | Some newBuf =>
      r ← wsbmStorageClone buf;
      change_buffer newBuf (with_storage r) ;;
      match r with
      | None => free_buffer newBuf ;; mret None
      | Some _ =>
          change_buffer newBuf (with_refs 1) ;;
          copied ← match accelCopy with
                   | None => mret false
                   | Some accelCopy => r ← accelCopy newBuf buf; mret (r =? 0)
                   end;
          if (copied : bool) then mret (Some newBuf) else clone_copy buf newBuf
      end
  end.

(** The part of [wsbmBOSubData] that writes. *)
Definition sub_write (storage offset size : Z) (data : list Z) : MB Z :=
  '(ret, virtual) ← on_pool (pl_map storage WSBM_ACCESS_WRITE);
  if negb (ret =? 0) then on_pool (pl_releasefromcpu storage WSBM_SYNCCPU_WRITE) ;; mret ret
  else
    copy_to virtual offset size data ;;
    on_pool (pl_unmap storage) ;;
    on_pool (pl_releasefromcpu storage WSBM_SYNCCPU_WRITE) ;;
    mret ret.

(** The buffer gets the storage of its clone; the storage it has from there on. *)
Definition take_clone (buf : Z) (newBuf : option Z) (storage : Z) : MB Z :=
  match newBuf with
  | None => mret storage
  | Some n =>
      nb ← get_buffer n; storage ← storage_of nb;
      change_storage storage (fun t => storage_refs (st_refs t + 1) t) ;;
      unref_storage_of buf ;;
      change_buffer buf (with_storage (Some storage)) ;;
      wsbmBOUnreference (Some n) ;;
      mret storage
  end.

Definition wsbmBOSubData (buf offset size : Z) (data : option (list Z)) (accelCopy : option (Z -> Z -> MB Z)) : MB Z :=
  b ← get_buffer buf;
  if bool_decide (bo_type b = SIMPLE) then mret (- EINVAL)
  else
    match data with
    | None => mret 0
    | Some data =>
        if size =? 0 then mret 0
        else
          storage ← storage_of b; get_storage storage ;;
          ret ← on_pool (pl_syncforcpu storage WSBM_SYNCCPU_WRITE);
          if negb (ret =? 0) then mret ret
          else
            t ← get_storage storage;
            if negb (st_onList t =? 0) then
              on_pool (pl_releasefromcpu storage WSBM_SYNCCPU_WRITE) ;;
              newBuf ← wsbmBOClone buf accelCopy;
              storage ← take_clone buf newBuf storage;
              ret ← on_pool (pl_syncforcpu storage WSBM_SYNCCPU_WRITE);
              if negb (ret =? 0) then mret ret else sub_write storage offset size data
            else sub_write storage offset size data
    end.

(** [wants]: there is memory for the data. *)
Definition wsbmBOGetSubData (buf offset size : Z) (wants : bool) : MB (Z * option (list Z)) :=
  if negb (size =? 0) && wants then
    b ← get_buffer buf; storage ← storage_of b; get_storage storage ;;
    ret ← on_pool (pl_syncforcpu storage WSBM_SYNCCPU_READ);
    if negb (ret =? 0) then mret (ret, None)
    else
      '(ret, virtual) ← on_pool (pl_map storage WSBM_ACCESS_READ);
      if negb (ret =? 0) then on_pool (pl_releasefromcpu storage WSBM_SYNCCPU_WRITE) ;; mret (ret, None)
      else
        d ← on_pool (pl_read virtual offset size);
        on_pool (pl_unmap storage) ;;
        on_pool (pl_releasefromcpu storage WSBM_SYNCCPU_WRITE) ;;
        mret (ret, Some d)
  else mret (0, None).

Definition wsbmBOSetReferenced (buf handle : Z) : MB Z :=
  unref_storage_of buf ;;
  b ← get_buffer buf;
  match bo_pool b with
  | None => undefined
  | Some pool =>
      match pl_createByReference pool with
      | None => mret (- EINVAL)
      | Some createByReference =>
          r ← on_pool (createByReference handle);
          storage ← init_storage pool r;
          change_buffer buf (with_storage storage) ;;
          match storage with
          | None => mret (- EINVAL)
          | Some _ => change_buffer buf (with_type REF) ;; mret 0
          end
      end
  end.

(** ** New buffers *)

(** What [calloc] gives. *)
Definition zero_buffer : buffer_object :=
  {| bo_refs := 0; bo_storage := None; bo_placement := 0; bo_alignment := 0; bo_type := COMPLEX; bo_pool := None |}.

(** The size of a buffer object, and the offset of what follows it in its memory. *)
Definition BUFFER_SIZE : Z := 24.
Definition extra_offset : Z := Z.land (BUFFER_SIZE + 15) (Z.lnot 15).

Definition wsbmBOCreateSimple (pool size placement alignment : Z) : MB (option Z * Z) :=
  buf ← alloc_buffer zero_buffer;
  match buf with
  | None => mret (None, extra_offset)
  | Some buf =>
      r ← create_storage pool size placement alignment;
      match r with
      | None => free_buffer buf ;; mret (None, extra_offset)
      | Some storage =>
          change_storage storage (storage_container (Some buf)) ;;
          b ← get_buffer buf;
          set_buffer buf {| bo_refs := bo_refs b; bo_storage := Some storage; bo_placement := placement;
                            bo_alignment := alignment; bo_type := SIMPLE; bo_pool := Some pool |} ;;
          mret (Some buf, extra_offset)
      end
  end.

(** The loop of [wsbmGenBuffers]; the buffers it made. *)
Fixpoint gen_buffers (n : nat) (pool alignment placement : Z) : MB (Z * list Z) :=
  match n with
  | O => mret (0, [])
  | S n =>
      buf ← alloc_buffer {| bo_refs := 1; bo_storage := None; bo_placement := placement; bo_alignment := alignment;
                            bo_type := COMPLEX; bo_pool := Some pool |};
      match buf with
      | None => mret (- ENOMEM, [])
      | Some buf => '(ret, l) ← gen_buffers n pool alignment placement; mret (ret, buf :: l)
      end
  end.

Definition wsbmGenBuffers (pool : Z) (n : nat) (alignment placement : Z) : MB (Z * list Z) :=
  gen_buffers n pool alignment
    (if negb (placement =? 0) then placement else Z.lor WSBM_PL_FLAG_SYSTEM WSBM_PL_FLAG_CACHED).

Definition wsbmDeleteBuffers (l : list (option Z)) : MB unit := for_each l wsbmBOUnreference.

(** ** Lists of buffers *)

(** What [calloc] gives: the links of both lists are NULL. *)
Definition zero_list : validate_list :=
  {| numTarget := 0; numCurrent := 0; numOnList := 0; hashSize := 0; hashMask := 0; driverData := 0; table := 0;
     vnodes := ∅; vheads := {| nexts := ∅; prevs := ∅ |}; vhashes := {| nexts := ∅; prevs := ∅ |} |}.

Definition alloc_blist (new : buffer_list) : MB (option Z) := fun s h =>
  match bm_alloc h (used s) with
  | Some p => Done (Some p) (set_blists (<[p := new]> (blists s)) (vlog s) s) (B_calloc (Some p) :: h)
  | None => Done None s (B_calloc None :: h)
  end.

Definition free_blist (p : Z) : MB unit := fun s h =>
  if bool_decide (is_Some (blists s !! p)) then Done tt (set_blists (delete p (blists s)) (vlog s) s) (B_free p :: h) else Undef h.

(** A failure keeps the memory of the list. *)
Definition wsbmBOCreateList (target : Z) (kernel : bool) : MB (option Z) :=
  list ← alloc_blist {| hasKernelBuffers := kernel; kernelBuffers := zero_list; userBuffers := zero_list |};
  match list with
  | None => mret None
  | Some list =>
      ret ← (if kernel then on_list Kernel list (validateCreateList target 0) else mret 0);
      if negb (ret =? 0) then mret None
      else
        ret ← on_list User list (validateCreateList target 1);
        if negb (ret =? 0) then on_list Kernel list validateFreeList ;; mret None
        else mret (Some list)
  end.

(** The lists of a list of buffers, for those who go through them. *)
Definition wsbmGetKernelValidateList (l : buffer_list) : option validate_list :=
  if hasKernelBuffers l then Some (kernelBuffers l) else None.
Definition wsbmGetUserValidateList (l : buffer_list) : validate_list := userBuffers l.

Definition wsbmBOResetList (list : Z) : MB Z :=
  l ← get_blist list;
  ret ← (if hasKernelBuffers l then on_list Kernel list validateResetList else mret 0);
  if negb (ret =? 0) then mret ret else on_list User list validateResetList.

Definition wsbmBOFreeList (list : Z) : MB unit :=
  l ← get_blist list;
  (if hasKernelBuffers l then on_list Kernel list validateFreeList else mret tt) ;;
  on_list User list validateFreeList ;;
  free_blist list.

(** The result, and the location and the node written for the caller. *)
Definition wsbmBOAddListItem (list buf flags mask : Z) : MB (Z * option (Z * option Z)) :=
  b ← get_buffer buf;
  l ← get_blist list;
  '(ret, out) ← (if hasKernelBuffers l then
                   storage ← storage_of b; get_storage storage ;;
                   kbuf ← on_pool (pl_kernel storage);
                   r ← on_list Kernel list (wsbmAddValidateItem kbuf flags mask);
                   mret match r with
                        | Add_error e => (e, None)
                        | Add_done itemLoc node _ => (0, Some (itemLoc, Some node))
                        end
                 else mret (0, Some (-1000, None)));
  if negb (ret =? 0) then mret (ret, out)
  else
    r ← on_list User list (wsbmAddValidateItem (default 0 (bo_storage b)) flags mask);
    match r with
    | Add_error e => mret (e, out)
    | Add_done _ _ newItem =>
        (if newItem : bool then
           storage ← storage_of b;
           change_storage storage (fun t => storage_refs (st_refs t + 1) t) ;;
           change_storage storage (fun t => storage_onList (st_onList t + 1) t)
         else mret tt) ;;
        mret (0, out)
    end.

Definition wsbmBOFence (buf fence : Z) : MB unit :=
  b ← get_buffer buf; storage ← storage_of b; t ← get_storage storage;
  match pl_fence (st_pool t) with Some f => on_pool (f storage fence) | None => mret tt end.

Definition wsbmBOOnList (buf : Z) : MB Z :=
  b ← get_buffer buf;
  match bo_storage b with None => mret 0 | Some storage => t ← get_storage storage; mret (st_onList t) end.

(** [wsbmAtomicDec(&storage->onList); wsbmBufStorageUnref(&storage)]. *)
Definition drop_listed (storage : Z) : MB unit :=
  change_storage storage (fun t => storage_onList (st_onList t - 1) t) ;;
  wsbmBufStorageUnref (Some storage).

(** The loop over the user list: [body] is what is done with the node; it goes on as long
    as that gives 0. *)
Fixpoint each_listed (fuel : nat) (list : Z) (curBuf : option Z) (body : vnode -> MB Z) : MB Z :=
  match curBuf with
  | None => mret 0
  | Some curBuf =>
      match fuel with
      | O => undefined
      | S fuel =>
          node ← on_list User list (get_vnode (validateListNode curBuf));
          ret ← body node;
          if negb (ret =? 0) then mret ret
          else
            curBuf ← on_list User list (validateListNext curBuf);
            each_listed fuel list curBuf body
      end
  end.

(** The nodes bound the rounds. *)
Definition for_listed (list : Z) (body : vnode -> MB Z) : MB Z :=
  curBuf ← on_list User list validateListIterator;
  l ← get_blist list;
  each_listed (size (vnodes (userBuffers l))) list curBuf body.

Definition wsbmBOUnrefUserList (list : Z) : MB Z :=
  for_listed list (fun node => drop_listed (vbuf node) ;; mret 0) ;; wsbmBOResetList list.

Definition wsbmBOFenceUserList (list fence : Z) : MB Z :=
  for_listed list (fun node =>
    let storage := vbuf node in
    t ← get_storage storage;
    match pl_fence (st_pool t) with
    | None => undefined
    | Some f => on_pool (f storage fence) ;; drop_listed storage ;; mret 0
    end) ;;
  wsbmBOResetList list.

Definition wsbmBOValidateUserList (list : Z) : MB Z :=
  for_listed list (fun node =>
    let storage := vbuf node in
    t ← get_storage storage;
    match pl_validate (st_pool t) with
    | None => mret 0
    | Some validate => on_pool (validate storage (set_flags node) (clr_flags node))
    end).

Definition wsbmBOUnvalidateUserList (list : Z) : MB Z :=
  for_listed list (fun node =>
    let storage := vbuf node in
    t ← get_storage storage;
    match pl_unvalidate (st_pool t) with None => mret tt | Some unvalidate => on_pool (unvalidate storage) end ;;
    drop_listed storage ;; mret 0) ;;
  wsbmBOResetList list.

End bm.
