(* ===== verification/Pools.v ===== *)
(** What a pool promises to the buffer manager, and the pool of libwsbm that keeps it: the
    one on the memory of the process, libwsbm/src/wsbm_mallocpool.c.

    [PoolLaws] is the contract of the functions of struct _WsbmBufferPool.  It speaks of
    the state of the pools through [pl_view]: the storages there are, the pool of each,
    its bytes, and the address it is mapped at.  Nothing but this program writes to a
    storage. *)
From stdpp Require Import gmap.
From S2P Require Import Prelude ValidateList BufferMgr.

Record pool_storage := { ps_pool : Z; ps_bytes : list Z; ps_mapped : option Z }.

Definition ps_size (t : pool_storage) : Z := Z.of_nat (length (ps_bytes t)).
Definition with_mapped (m : option Z) (t : pool_storage) : pool_storage :=
  {| ps_pool := ps_pool t; ps_bytes := ps_bytes t; ps_mapped := m |}.
Definition with_bytes (d : list Z) (t : pool_storage) : pool_storage :=
  {| ps_pool := ps_pool t; ps_bytes := d; ps_mapped := ps_mapped t |}.

(** [d] stored at [offset] of [l]. *)
Definition splice (offset : Z) (d l : list Z) : list Z :=
  take (Z.to_nat offset) l ++ d ++ drop (Z.to_nat offset + length d) l.
Definition slice (offset n : Z) (l : list Z) : list Z := take (Z.to_nat n) (drop (Z.to_nat offset) l).

Lemma slice_splice o d l : 0 <= o -> o + Z.of_nat (length d) <= Z.of_nat (length l) ->
  slice o (Z.of_nat (length d)) (splice o d l) = d.
Proof.
  intros Ho Hl. unfold slice, splice. rewrite Nat2Z.id, drop_app_ge by (rewrite length_take; lia).
  rewrite length_take, Nat.min_l, Nat.sub_diag by lia. by rewrite drop_0, take_app_length.
Qed.

Lemma length_splice o d l : 0 <= o -> o + Z.of_nat (length d) <= Z.of_nat (length l) -> length (splice o d l) = length l.
Proof. intros Ho Hl. unfold splice. rewrite !length_app, length_take, length_drop. lia. Qed.

(** The result of a function that makes a storage of at least [size] bytes. *)
Definition pool_created (pool size : Z) (v : gmap Z pool_storage) (r : option Z) (v' : gmap Z pool_storage) : Prop :=
  match r with
  | None => v' = v
  | Some q => v !! q = None /\ exists w, ps_pool w = pool /\ size <= ps_size w < 2 ^ 32 /\ v' = <[q := w]> v
  end.

(** [pl_accepts]: what may be asked of a pool; [pl_shares]: the memory of the caller it
    may make a storage of; [pl_device]: its buffers are known to the device. *)
Class PoolLaws (P : Type) `{!PoolOps P} := {
  pl_view : P -> gmap Z pool_storage;
  pl_accepts : Z -> Z -> Z -> Prop;
  pl_shares : Z -> Z -> Z -> Prop;
  pl_device : Z -> Prop;
  law_create : forall pool size placement alignment p, pl_accepts pool size placement ->
    wp False (pl_create pool size placement alignment) (fun r p' _ => pool_created pool size (pl_view p) r (pl_view p')) p tt;
  law_ub_create : forall pool size placement alignment user p, pl_shares pool user size ->
    wp False (pl_ub_create pool size placement alignment user) (fun r p' _ => pool_created pool size (pl_view p) r (pl_view p')) p tt;
  law_user_write : forall pool user size d p, pl_shares pool user size -> Z.of_nat (length d) <= size ->
    wp False (pl_write user 0 d) (fun _ p' _ =>
      forall q, (fun t => (ps_pool t, ps_size t)) <$> pl_view p' !! q = (fun t => (ps_pool t, ps_size t)) <$> pl_view p !! q) p tt;
  law_reference : forall pool f handle p, pl_createByReference pool = Some f ->
    wp False (f handle) (fun r p' _ => pool_created pool 0 (pl_view p) r (pl_view p')) p tt;
  law_destroy : forall q t p, pl_view p !! q = Some t ->
    wp False (pl_destroy q) (fun _ p' _ => pl_view p' = delete q (pl_view p)) p tt;
  law_map : forall q t mode p, pl_view p !! q = Some t ->
    wp False (pl_map q mode) (fun r p' _ =>
      pl_view p' = if fst r =? 0 then <[q := with_mapped (Some (snd r)) t]> (pl_view p) else pl_view p) p tt;
  law_unmap : forall q t p, pl_view p !! q = Some t ->
    wp False (pl_unmap q) (fun _ p' _ => exists m, pl_view p' = <[q := with_mapped m t]> (pl_view p)) p tt;
  law_write : forall q t v offset d p, pl_view p !! q = Some t -> ps_mapped t = Some v ->
    0 <= offset -> offset + Z.of_nat (length d) <= ps_size t ->
    wp False (pl_write v offset d) (fun _ p' _ =>
      pl_view p' = <[q := with_bytes (splice offset d (ps_bytes t)) t]> (pl_view p)) p tt;
  law_read : forall q t v offset n p, pl_view p !! q = Some t -> ps_mapped t = Some v ->
    0 <= offset -> 0 <= n -> offset + n <= ps_size t ->
    wp False (pl_read v offset n) (fun d p' _ => pl_view p' = pl_view p /\ d = slice offset n (ps_bytes t)) p tt;
  law_size : forall q t p, pl_view p !! q = Some t ->
    wp False (pl_size q) (fun n p' _ => pl_view p' = pl_view p /\ n = ps_size t) p tt;
  law_sync : forall q t mode p, pl_view p !! q = Some t ->
    wp False (pl_syncforcpu q mode) (fun _ p' _ => pl_view p' = pl_view p) p tt;
  law_release : forall q t mode p, pl_view p !! q = Some t ->
    wp False (pl_releasefromcpu q mode) (fun _ p' _ => pl_view p' = pl_view p) p tt;
  law_wait : forall q t lazy p, pl_view p !! q = Some t ->
    wp False (pl_waitIdle q lazy) (fun _ p' _ => pl_view p' = pl_view p) p tt;
  law_placement : forall q t p, pl_view p !! q = Some t ->
    wp False (pl_placement q) (fun _ p' _ => pl_view p' = pl_view p) p tt;
  law_status : forall q t f set clr p, pl_view p !! q = Some t -> pl_setStatus (ps_pool t) = Some f ->
    wp False (f q set clr) (fun _ p' _ => pl_view p' = pl_view p) p tt;
  law_offset : forall q t p, pl_view p !! q = Some t -> pl_device (ps_pool t) ->
    wp False (pl_offset q) (fun _ p' _ => pl_view p' = pl_view p) p tt;
  law_poolOffset : forall q t p, pl_view p !! q = Some t -> pl_device (ps_pool t) ->
    wp False (pl_poolOffset q) (fun _ p' _ => pl_view p' = pl_view p) p tt;
  law_kernel : forall q t p, pl_view p !! q = Some t -> pl_device (ps_pool t) ->
    wp False (pl_kernel q) (fun _ p' _ => pl_view p' = pl_view p) p tt;
  law_fence_there : forall pool, pl_device pool -> is_Some (pl_fence pool);
  law_fence : forall q t f fence p, pl_view p !! q = Some t -> pl_device (ps_pool t) -> pl_fence (ps_pool t) = Some f ->
    wp False (f q fence) (fun _ p' _ => pl_view p' = pl_view p) p tt;
  law_validate : forall q t f set clr p, pl_view p !! q = Some t -> pl_validate (ps_pool t) = Some f ->
    wp False (f q set clr) (fun _ p' _ => pl_view p' = pl_view p) p tt;
  law_unvalidate : forall q t f p, pl_view p !! q = Some t -> pl_unvalidate (ps_pool t) = Some f ->
    wp False (f q) (fun _ p' _ => pl_view p' = pl_view p) p tt }.

(** * The pool on the memory of the process *)

(** struct _WsbmMallocBuffer: the size asked for, and the memory behind the structure. *)
Record malloc_buffer := { mb_pool : Z; mb_size : Z; mb_mem : list Z }.

Record malloc_pool := { mbufs : gmap Z malloc_buffer; mallocs : nat }.

(** sizeof(struct _WsbmMallocBuffer). *)
Definition header : Z := 96.

(** The memory of the process: the address of a new block and what is in it. *)
Class ProcessMemory := {
  block_alloc : nat -> gset Z -> Z -> option (Z * list Z);
  block_alloc_new : forall k used n q d, block_alloc k used n = Some (q, d) -> 0 < q /\ (q ∉ used) /\ Z.of_nat (length d) = n }.

Section malloc_pool.
Context `{ProcessMemory}.

Abbreviation MM A := (M unit malloc_pool A).

Definition mallocBuf (buf : Z) : MM malloc_buffer :=
  s ← get; match mbufs s !! buf with Some b => mret b | None => undefined end.

Definition set_mbufs (m : gmap Z malloc_buffer) (s : malloc_pool) : malloc_pool := {| mbufs := m; mallocs := mallocs s |}.

(** The block has room for the structure, the storage and 16 bytes more. *)
Definition pool_create (pool size placement alignment : Z) : MM (option Z) := fun s u =>
  let n := uint32 (size + header + 16) in
  match block_alloc (mallocs s) (dom (mbufs s)) n with
  | None => Done None {| mbufs := mbufs s; mallocs := Datatypes.S (mallocs s) |} u
  | Some (mBuf, d) =>
      if n <? header then Undef u
      else if negb ((Z.land placement WSBM_PL_MASK_MEM) =? WSBM_PL_FLAG_SYSTEM) then Abort u
      else
        Done (Some mBuf)
          {| mbufs := <[mBuf := {| mb_pool := pool; mb_size := size; mb_mem := drop (Z.to_nat header) d |}]> (mbufs s);
             mallocs := Datatypes.S (mallocs s) |} u
  end.

Definition pool_destroy (buf : Z) : MM unit :=
  mallocBuf buf ;; s ← get; modify (set_mbufs (delete buf (mbufs s))).

Definition pool_waitIdle (buf : Z) (lazy : bool) : MM Z := mret 0.
Definition pool_map (buf mode : Z) : MM (Z * Z) := mallocBuf buf ;; mret (0, buf + header).
Definition pool_unmap (buf : Z) : MM unit := mret tt.
Definition pool_syncforcpu (buf mode : Z) : MM Z := mret 0.
Definition pool_releasefromcpu (buf mode : Z) : MM unit := mret tt.
Definition pool_offset (buf : Z) : MM Z := abort.
Definition pool_poolOffset (buf : Z) : MM Z := abort.
Definition pool_placement (buf : Z) : MM Z := mret (Z.lor WSBM_PL_FLAG_SYSTEM WSBM_PL_FLAG_CACHED).
Definition pool_size (buf : Z) : MM Z := b ← mallocBuf buf; mret (mb_size b).
Definition pool_fence (buf fence : Z) : MM unit := abort.
Definition pool_kernel (buf : Z) : MM Z := abort.

(** An access to the memory of the process: it is inside one of the blocks. *)
Definition mem_write (virtual offset : Z) (d : list Z) : MM unit :=
  let buf := virtual - header in
  b ← mallocBuf buf;
  if (0 <=? offset) && (offset + Z.of_nat (length d) <=? Z.of_nat (length (mb_mem b))) then
    s ← get;
    modify (set_mbufs (<[buf := {| mb_pool := mb_pool b; mb_size := mb_size b; mb_mem := splice offset d (mb_mem b) |}]> (mbufs s)))
  else undefined.

Definition mem_read (virtual offset n : Z) : MM (list Z) :=
  b ← mallocBuf (virtual - header);
  if (0 <=? offset) && (0 <=? n) && (offset + n <=? Z.of_nat (length (mb_mem b))) then mret (slice offset n (mb_mem b)) else undefined.

(** [wsbmMallocPoolInit]: the functions not set are NULL.  [ttm_pool_ub_create] takes the
    pool for one of the kernel's, which this one is not. *)
#[export] Instance wsbmMallocPoolInit : PoolOps malloc_pool := {|
  pl_create := pool_create;
  pl_ub_create _ _ _ _ _ := undefined;
  pl_createByReference _ := None;
  pl_destroy := pool_destroy;
  pl_map := pool_map;
  pl_unmap := pool_unmap;
  pl_syncforcpu := pool_syncforcpu;
  pl_releasefromcpu := pool_releasefromcpu;
  pl_offset := pool_offset;
  pl_poolOffset := pool_poolOffset;
  pl_placement := pool_placement;
  pl_size := pool_size;
  pl_kernel := pool_kernel;
  pl_fence _ := Some pool_fence;
  pl_unvalidate _ := None;
  pl_validate _ := None;
  pl_waitIdle := pool_waitIdle;
  pl_setStatus _ := None;
  pl_write := mem_write;
  pl_read := mem_read |}.

(** ** It is a pool

    It takes every request for the memory of the system that leaves room for the
    structure; the device does not know its buffers.  A storage is always mapped, and
    its bytes are the first [mb_size] of its memory. *)
Definition view_of (buf : Z) (b : malloc_buffer) : option pool_storage :=
  if (0 <=? mb_size b) && (mb_size b <=? Z.of_nat (length (mb_mem b))) && (mb_size b <? 2 ^ 32) then
    Some {| ps_pool := mb_pool b; ps_bytes := take (Z.to_nat (mb_size b)) (mb_mem b); ps_mapped := Some (buf + header) |}
  else None.

Definition malloc_view (s : malloc_pool) : gmap Z pool_storage := map_imap view_of (mbufs s).

Lemma view_some q t s : malloc_view s !! q = Some t -> exists b, mbufs s !! q = Some b /\
  0 <= mb_size b <= Z.of_nat (length (mb_mem b)) /\ mb_size b < 2 ^ 32 /\
  t = {| ps_pool := mb_pool b; ps_bytes := take (Z.to_nat (mb_size b)) (mb_mem b); ps_mapped := Some (q + header) |} /\
  ps_size t = mb_size b.
Proof.
  unfold malloc_view. rewrite map_lookup_imap. destruct (mbufs s !! q) as [b|]; [|done]. cbn. unfold view_of.
  destruct (_ && _) eqn:E; [|done]. intros [= <-]. apply andb_true_iff in E as [E E3]. apply andb_true_iff in E as [E1 E2].
  apply Z.leb_le in E1, E2. apply Z.ltb_lt in E3. exists b. split_and!; [done..|].
  unfold ps_size. cbn. rewrite length_take. lia.
Qed.

Lemma mallocBuf_wp q b Q s : mbufs s !! q = Some b -> Q b s tt -> wp False (mallocBuf q) Q s tt.
Proof. intros Hb HQ. unfold mallocBuf. apply wp_bind, wp_get. by rewrite Hb. Qed.

Lemma take_splice n o d l : 0 <= o -> (Z.to_nat o + length d <= n)%nat -> (n <= length l)%nat ->
  take n (splice o d l) = splice o d (take n l).
Proof.
  intros Ho Hn Hl. unfold splice. rewrite take_take, Nat.min_l by lia. rewrite take_app, length_take, Nat.min_l by lia.
  rewrite take_take, Nat.min_r by lia. f_equal. rewrite take_app_ge by lia. f_equal. rewrite skipn_firstn_comm. f_equal. lia.
Qed.

Lemma view_insert q b m s : 0 <= mb_size b <= Z.of_nat (length (mb_mem b)) -> mb_size b < 2 ^ 32 -> mbufs s = <[q := b]> m ->
  malloc_view s = <[q := {| ps_pool := mb_pool b; ps_bytes := take (Z.to_nat (mb_size b)) (mb_mem b);
                            ps_mapped := Some (q + header) |}]> (map_imap view_of m).
Proof.
  intros H1 H2 E. unfold malloc_view. rewrite E, map_imap_insert. unfold view_of at 1.
  by rewrite (proj2 (Z.leb_le 0 _)), (proj2 (Z.leb_le (mb_size b) _)), (proj2 (Z.ltb_lt (mb_size b) _)) by lia.
Qed.

#[export] Program Instance malloc_pool_laws : PoolLaws malloc_pool := {|
  pl_view := malloc_view;
  pl_accepts _ size placement :=
    0 <= size < 2 ^ 32 - header - 16 /\ Z.land placement WSBM_PL_MASK_MEM = WSBM_PL_FLAG_SYSTEM;
  pl_shares _ _ _ := False;
  pl_device _ := False |}.
Next Obligation.
  intros pool size placement alignment p [Hs Hp]. cbn. unfold wp, pool_create.
  rewrite uint32_id by (unfold header in *; lia).
  destruct (block_alloc _ _ _) as [[q d]|] eqn:E; [|done]. apply block_alloc_new in E as (Hq & Hn & Hd).
  destruct (Z.ltb_spec (size + header + 16) header); [unfold header in *; lia|]. rewrite Hp. cbn [negb Z.eqb WSBM_PL_FLAG_SYSTEM Pos.eqb].
  split; [unfold malloc_view; rewrite map_lookup_imap; by rewrite (proj1 (not_elem_of_dom _ _) Hn)|].
  assert (Hl : (Z.to_nat size <= length (drop (Z.to_nat header) d))%nat) by (rewrite length_drop; unfold header in *; lia).
  eexists. split; [|split; [|apply (view_insert q {| mb_pool := pool; mb_size := size; mb_mem := drop (Z.to_nat header) d |}); cbn; [lia|unfold header in *; lia|done]]].
  - done.
  - unfold ps_size. cbn [ps_bytes mb_size mb_mem]. rewrite length_take, Nat.min_l by done. unfold header in *; lia.
Qed.
Next Obligation. done. Qed.
Next Obligation. done. Qed.
Next Obligation. done. Qed.
Next Obligation.
  intros q t p Hq. apply view_some in Hq as (b & Hb & _). cbn. unfold pool_destroy. apply wp_bind. eapply mallocBuf_wp; [done|].
  apply wp_bind, wp_get. cbn. unfold malloc_view. cbn. apply map_eq. intros k. rewrite map_lookup_imap, !lookup_delete.
  case_decide; [done|]. by rewrite map_lookup_imap.
Qed.
Next Obligation.
  intros q t mode p Hq. pose proof Hq as Hv. apply view_some in Hq as (b & Hb & _ & _ & -> & _). cbn. unfold pool_map. apply wp_bind.
  eapply mallocBuf_wp; [done|]. apply wp_ret. cbn. symmetry. by apply insert_id.
Qed.
Next Obligation. intros q t p Hq. apply wp_ret. exists (ps_mapped t). symmetry. destruct t. by apply insert_id. Qed.
Next Obligation.
  intros q t v o d p Hq Hm Ho Hl. apply view_some in Hq as (b & Hb & Hs & Hs2 & -> & Hn). rewrite Hn in Hl. cbn in Hm. injection Hm as <-.
  cbn. unfold mem_write. replace (q + header - header) with q by lia. apply wp_bind. eapply mallocBuf_wp; [done|].
  rewrite (proj2 (Z.leb_le 0 o)), (proj2 (Z.leb_le (o + _) _)) by lia. cbn [andb]. apply wp_bind, wp_get. cbn.
  rewrite <- take_splice by lia.
  apply (view_insert q {| mb_pool := mb_pool b; mb_size := mb_size b; mb_mem := splice o d (mb_mem b) |}); cbn;
    [rewrite length_splice by lia; lia|done|done].
Qed.
Next Obligation.
  intros q t v o n p Hq Hm Ho Hn0 Hl. apply view_some in Hq as (b & Hb & Hs & Hs2 & -> & Hn). rewrite Hn in Hl. cbn in Hm. injection Hm as <-.
  cbn. unfold mem_read. replace (q + header - header) with q by lia. apply wp_bind. eapply mallocBuf_wp; [done|].
  rewrite (proj2 (Z.leb_le 0 o)), (proj2 (Z.leb_le 0 n)), (proj2 (Z.leb_le (o + _) _)) by lia. cbn [andb]. apply wp_ret. split; [done|].
  unfold slice. rewrite skipn_firstn_comm, take_take. f_equal. lia.
Qed.
Next Obligation. intros q t p Hq. apply view_some in Hq as (b & Hb & _ & _ & _ & Hn). cbn. unfold pool_size. apply wp_bind. by eapply mallocBuf_wp. Qed.
Solve All Obligations with done.

End malloc_pool.
