(* ===== verification/BufferMgrInv.v ===== *)
(** The references to the storages of buffers, and the operations of BufferMgr.v that
    take, give and move them.

    [core s C I X]: every storage there is is counted exactly: by the buffers it belongs
    to (a simple buffer counts as the references [C] that its clients hold), by the lists
    [I] it is on and by [X], the references a function holds while it runs; and the pools
    have the same storages ([PoolLaws]). *)
From stdpp Require Import gmap.
From S2P Require Import Prelude Rings ValidateList BufferMgr Pools.

(** * Sums over a map *)

Definition msum {V} (f : Z -> V -> Z) (m : gmap Z V) : Z := map_fold (fun k v acc => f k v + acc) 0 m.

Lemma msum_insert {V} (f : Z -> V -> Z) m k v : m !! k = None -> msum f (<[k := v]> m) = f k v + msum f m.
Proof. intros Hk. unfold msum. rewrite map_fold_insert_L; [done|intros; lia|done]. Qed.

Lemma msum_delete {V} (f : Z -> V -> Z) m k v : m !! k = Some v -> msum f m = f k v + msum f (delete k m).
Proof. intros Hk. rewrite <- (insert_delete_id m k v Hk) at 1. apply msum_insert. by rewrite lookup_delete_eq. Qed.

Lemma msum_ext {V} (f g : Z -> V -> Z) m : (forall k v, m !! k = Some v -> f k v = g k v) -> msum f m = msum g m.
Proof.
  induction m as [|k v m Hk IH] using map_ind; intros E; [done|]. rewrite !msum_insert by done.
  rewrite (E k v) by apply lookup_insert_eq. f_equal. apply IH. intros k' v' Hv. apply E.
  rewrite lookup_insert_ne; [done|]. by intros ->; rewrite Hk in Hv.
Qed.

Lemma msum_zero {V} (f : Z -> V -> Z) m : (forall k v, m !! k = Some v -> f k v = 0) -> msum f m = 0.
Proof.
  intros E. rewrite (msum_ext f (fun _ _ => 0)) by done. clear. induction m as [|k v m Hk IH] using map_ind; [done|].
  by rewrite msum_insert, IH.
Qed.

Lemma msum_nonneg {V} (f : Z -> V -> Z) m : (forall k v, m !! k = Some v -> 0 <= f k v) -> 0 <= msum f m.
Proof.
  induction m as [|k v m Hk IH] using map_ind; intros E; [done|]. rewrite msum_insert by done.
  assert (0 <= f k v) by (apply E, lookup_insert_eq). assert (0 <= msum f m); [|lia]. apply IH. intros k' v' Hv. apply E.
  rewrite lookup_insert_ne; [done|]. by intros ->; rewrite Hk in Hv.
Qed.

Lemma msum_ge {V} (f : Z -> V -> Z) m k v : (forall k v, m !! k = Some v -> 0 <= f k v) -> m !! k = Some v -> f k v <= msum f m.
Proof.
  intros E Hk. rewrite (msum_delete f m k v Hk). assert (0 <= msum f (delete k m)); [|lia]. apply msum_nonneg.
  intros k' v' [_ Hv]%lookup_delete_Some. by apply E.
Qed.

(** The value at one key changes, of the map or of the function. *)
Lemma msum_update {V} (f g : Z -> V -> Z) m k v v' : m !! k = Some v ->
  (forall k' w, k' <> k -> m !! k' = Some w -> g k' w = f k' w) -> msum g (<[k := v']> m) = msum f m - f k v + g k v'.
Proof.
  intros Hk E. rewrite (msum_delete g (<[k := v']> m) k v') by apply lookup_insert_eq. rewrite delete_insert_eq.
  rewrite (msum_delete f m k v Hk). rewrite (msum_ext g f (delete k m)); [lia|].
  intros k' w [Hne Hw]%lookup_delete_Some. by apply E.
Qed.

(** * The counts *)

Definition upd (C : Z -> Z) (p n : Z) : Z -> Z := fun x => if decide (x = p) then n else C x.

(** The references of the buffer [p] to the storage [q]. *)
Definition owns (C : Z -> Z) (q p : Z) (b : buffer_object) : Z :=
  if decide (bo_storage b = Some q) then if decide (bo_type b = SIMPLE) then C p else 1 else 0.

Definition listed (q : Z) (_ : Z) (l : list Z) : Z := if decide (q ∈ l) then 1 else 0.

Definition held (X : list Z) (q : Z) : Z := Z.of_nat (length (filter (fun x => x = q) X)).

(** A buffer and its storage. *)
Definition buffer_ok (st : gmap Z buf_storage) (C : Z -> Z) (p : Z) (b : buffer_object) : Prop :=
  0 <= C p /\
  (bo_type b = SIMPLE -> is_Some (bo_storage b)) /\
  (bo_type b <> SIMPLE -> bo_refs b = C p) /\
  forall q, bo_storage b = Some q -> exists t, st !! q = Some t /\ bo_pool b = Some (st_pool t) /\
    st_container t = if decide (bo_type b = SIMPLE) then Some p else None.

Definition refs_of (bs : gmap Z buffer_object) (C : Z -> Z) (I : gmap Z (list Z)) (X : list Z) (q : Z) : Z :=
  msum (owns C q) bs + msum (listed q) I + held X q.

Record storage_ok (bs : gmap Z buffer_object) (C : Z -> Z) (I : gmap Z (list Z)) (X : list Z) (q : Z) (t : buf_storage) : Prop := {
  so_refs : st_refs t = refs_of bs C I X q;
  so_onList : st_onList t = msum (listed q) I;
  so_range : 0 < st_refs t < 2 ^ 31;
  so_container : forall p, st_container t = Some p -> exists b, bs !! p = Some b /\ bo_type b = SIMPLE /\ bo_storage b = Some q }.

Record core (bs : gmap Z buffer_object) (st : gmap Z buf_storage) (v : gmap Z pool_storage) (C : Z -> Z)
    (I : gmap Z (list Z)) (X : list Z) : Prop := {
  c_none : forall p, bs !! p = None -> C p = 0;
  c_buffer : forall p b, bs !! p = Some b -> buffer_ok st C p b;
  c_storage : forall q t, st !! q = Some t -> storage_ok bs C I X q t;
  c_listed : forall p l q, I !! p = Some l -> q ∈ l -> is_Some (st !! q);
  c_held : forall q, q ∈ X -> is_Some (st !! q);
  c_pool : forall q, st_pool <$> st !! q = ps_pool <$> v !! q }.

Lemma listed_nonneg q p l : 0 <= listed q p l.
Proof. unfold listed. case_decide; lia. Qed.

Lemma held_cons x X q : held (x :: X) q = (if decide (x = q) then 1 else 0) + held X q.
Proof. unfold held. rewrite filter_cons. case_decide; cbn; lia. Qed.

Lemma held_nonneg X q : 0 <= held X q.
Proof. unfold held. lia. Qed.

Lemma held_none X q : q ∉ X -> held X q = 0.
Proof. induction X as [|x X IH]; [done|]. intros Hq. rewrite held_cons. case_decide; [set_solver|]. rewrite IH; set_solver. Qed.

Lemma core_ext bs st v C C' I X : core bs st v C I X -> (forall x, C' x = C x) -> core bs st v C' I X.
Proof.
  intros [H1 H2 H3 H4 H5 H6] E. split; [| | |done..].
  - intros x. rewrite E. apply H1.
  - intros x w Hx. specialize (H2 x w Hx). unfold buffer_ok in *. by rewrite E.
  - intros x t Hx. destruct (H3 x t Hx) as [F1 F2 F3 F4]. split; [|done..]. rewrite F1. unfold refs_of.
    rewrite (msum_ext (owns C' x) (owns C x)); [done|]. intros k w _. unfold owns. by rewrite E.
Qed.

Section core.
Context {bs : gmap Z buffer_object} {st : gmap Z buf_storage} {v : gmap Z pool_storage} {C : Z -> Z}
  {I : gmap Z (list Z)} {X : list Z} (Hc : core bs st v C I X).

Lemma owns_nonneg q p b : bs !! p = Some b -> 0 <= owns C q p b.
Proof. intros Hb. unfold owns. repeat case_decide; [|lia..]. by destruct (c_buffer _ _ _ _ _ _ Hc _ _ Hb). Qed.

Lemma c_view q t : st !! q = Some t -> exists w, v !! q = Some w /\ ps_pool w = st_pool t.
Proof.
  intros Hq. pose proof (c_pool _ _ _ _ _ _ Hc q) as E. rewrite Hq in E. cbn in E.
  destruct (v !! q) as [w|]; [|done]. cbn in E. injection E as E. by exists w.
Qed.

Lemma c_unknown q : st !! q = None -> v !! q = None.
Proof. intros Hq. pose proof (c_pool _ _ _ _ _ _ Hc q) as E. rewrite Hq in E. by destruct (v !! q). Qed.

(** Nothing refers to a storage that is not there. *)
Lemma c_fresh q : st !! q = None -> msum (owns C q) bs = 0 /\ msum (listed q) I = 0 /\ held X q = 0.
Proof.
  intros Hq. split_and!.
  - apply msum_zero. intros p b Hb. unfold owns. case_decide as E; [|done].
    destruct (c_buffer _ _ _ _ _ _ Hc _ _ Hb) as (_ & _ & _ & Hs). destruct (Hs q E) as (t & Ht & _). by rewrite Hq in Ht.
  - apply msum_zero. intros p l Hl. unfold listed. case_decide as E; [|done].
    destruct (c_listed _ _ _ _ _ _ Hc _ _ _ Hl E) as [t Ht]. by rewrite Hq in Ht.
  - apply held_none. intros [t Ht]%(c_held _ _ _ _ _ _ Hc). by rewrite Hq in Ht.
Qed.

Lemma core_perm X' : X ≡ₚ X' -> core bs st v C I X'.
Proof.
  intros HX. destruct Hc as [H1 H2 H3 H4 H5 H6]. split; [done|done| |done| |done].
  - intros q t Hq. destruct (H3 q t Hq) as [E1 E2 E3 E4]. split; [|done..]. rewrite E1. unfold refs_of, held. by rewrite HX.
  - intros q Hq. apply H5. by rewrite HX.
Qed.

Lemma core_pools v' : (forall q, ps_pool <$> v' !! q = ps_pool <$> v !! q) -> core bs st v' C I X.
Proof. intros E. destruct Hc as [H1 H2 H3 H4 H5 H6]. split; try done. intros q. by rewrite H6, E. Qed.

(** The counts of a storage change: it gets [d] references more, [e] of them of lists. *)
Lemma core_count q t d e I' X' : st !! q = Some t -> 0 < st_refs t + d < 2 ^ 31 ->
  (forall x, msum (listed x) I' = msum (listed x) I + if decide (x = q) then e else 0) ->
  (forall x, held X' x = held X x + if decide (x = q) then d - e else 0) ->
  (forall p l x, I' !! p = Some l -> x ∈ l -> is_Some (st !! x)) -> X' ⊆ q :: X ->
  core bs (<[q := {| st_pool := st_pool t; st_refs := st_refs t + d; st_onList := st_onList t + e; st_container := st_container t |}]> st)
    v C I' X'.
Proof.
  intros Hq Hd HI HX HI' HX'. destruct Hc as [H1 H2 H3 H4 H5 H6].
  assert (Hin : forall x, is_Some (st !! x) -> is_Some (<[q := {| st_pool := st_pool t; st_refs := st_refs t + d;
      st_onList := st_onList t + e; st_container := st_container t |}]> st !! x)).
  { intros x Hx. rewrite lookup_insert. case_decide; [by eexists|done]. }
  split.
  - done.
  - intros p b Hb. destruct (H2 p b Hb) as (? & ? & ? & Hs). split_and!; [done..|]. intros x Hx. destruct (Hs x Hx) as (t' & Ht' & ? & ?).
    rewrite lookup_insert. destruct (decide (q = x)) as [E|E]; [|by exists t']. subst x. rewrite Hq in Ht'. injection Ht' as <-. eexists. by split_and!.
  - intros x t' [[<- <-]|[Hne Hx]]%lookup_insert_Some.
    + destruct (H3 q t Hq) as [E1 E2 E3 E4]. split; cbn; [|rewrite HI, decide_True by done; lia|done|done].
      rewrite E1. unfold refs_of. rewrite HI, HX, !decide_True by done. lia.
    + destruct (H3 x t' Hx) as [E1 E2 E3 E4]. split; [|rewrite HI, decide_False by done; lia|done|done].
      rewrite E1. unfold refs_of. rewrite HI, HX, !decide_False by done. lia.
  - intros p l x Hl Hx. apply Hin. by eapply HI'.
  - intros x Hx. apply Hin. apply HX' in Hx. apply elem_of_cons in Hx as [->|Hx]; [by eexists|by apply H5].
  - intros x. rewrite lookup_insert. case_decide; [|apply H6]. subst x. specialize (H6 q). by rewrite Hq in H6.
Qed.

(** A buffer changes, or the references its clients hold. *)
Lemma core_buffer p b b' n X' : bs !! p = Some b -> buffer_ok st (upd C p n) p b' ->
  (bo_type b = SIMPLE -> bo_type b' = SIMPLE /\ bo_storage b' = bo_storage b) ->
  (forall q, held X' q = held X q + owns C q p b - owns (upd C p n) q p b') ->
  (forall q, q ∈ X' -> is_Some (st !! q)) ->
  core (<[p := b']> bs) st v (upd C p n) I X'.
Proof.
  intros Hb Hok HS HX HX'. destruct Hc as [H1 H2 H3 H4 H5 H6].
  assert (Hsum : forall q, msum (owns (upd C p n) q) (<[p := b']> bs) = msum (owns C q) bs - owns C q p b + owns (upd C p n) q p b').
  { intros q. apply msum_update; [done|]. intros k w Hne _. unfold owns, upd. by rewrite (decide_False (P := k = p)). }
  split.
  - intros x [Hne Hx]%lookup_insert_None. unfold upd. rewrite decide_False by done. by apply H1.
  - intros x w [[<- <-]|[Hne Hx]]%lookup_insert_Some; [done|]. pose proof (H2 x w Hx) as Hw. unfold buffer_ok, upd in *.
    by rewrite (decide_False (P := x = p)).
  - intros q t Hq. destruct (H3 q t Hq) as [E1 E2 E3 E4]. split; [|done|done|].
    + rewrite E1. unfold refs_of. rewrite Hsum, HX. lia.
    + intros x Hx. destruct (E4 x Hx) as (w & Hw & T & S). rewrite lookup_insert. case_decide as E; [|by exists w].
      subst x. rewrite Hb in Hw. injection Hw as <-. destruct (HS T) as [? ?]. exists b'. split_and!; congruence.
  - done.
  - done.
  - done.
Qed.

(** A buffer changes, with the references of its clients as they are. *)
Lemma core_same_buffer p b b' X' : bs !! p = Some b -> buffer_ok st C p b' ->
  (bo_type b = SIMPLE -> bo_type b' = SIMPLE /\ bo_storage b' = bo_storage b) ->
  (forall q, held X' q = held X q + owns C q p b - owns C q p b') ->
  (forall q, q ∈ X' -> is_Some (st !! q)) ->
  core (<[p := b']> bs) st v C I X'.
Proof.
  intros Hb Hok HS HX HX'. assert (E : forall x, C x = upd C p (C p) x) by (intros x; unfold upd; case_decide; congruence).
  eapply (core_ext _ _ _ (upd C p (C p))); [|exact E].
  eapply core_buffer; [done| |done| |done].
  - unfold buffer_ok in *. by rewrite <- E.
  - intros q. rewrite HX. unfold owns. by rewrite <- E.
Qed.

Lemma core_new_buffer p b n : bs !! p = None -> bo_storage b = None -> bo_type b <> SIMPLE -> bo_refs b = n -> 0 <= n ->
  core (<[p := b]> bs) st v (upd C p n) I X.
Proof.
  intros Hp Hb HT Hn H0. destruct Hc as [H1 H2 H3 H4 H5 H6].
  split; [| | |done..].
  - intros x [Hne Hx]%lookup_insert_None. unfold upd. rewrite decide_False by done. by apply H1.
  - intros x w [[<- <-]|[Hne Hx]]%lookup_insert_Some.
    + unfold buffer_ok, upd. rewrite decide_True by done. split_and!; [done..|]. intros q. by rewrite Hb.
    + pose proof (H2 x w Hx) as Hw. unfold buffer_ok, upd in *. by rewrite (decide_False (P := x = p)).
  - intros q t Hq. destruct (H3 q t Hq) as [E1 E2 E3 E4]. split; [|done|done|].
    + rewrite E1. unfold refs_of. rewrite msum_insert by done. unfold owns at 2. rewrite Hb, decide_False by done.
      rewrite (msum_ext (owns (upd C p n) q) (owns C q)); [lia|]. intros k w Hk. unfold owns, upd.
      rewrite (decide_False (P := k = p)) by (intros ->; by rewrite Hp in Hk). done.
    + intros x Hx. destruct (E4 x Hx) as (w & Hw & T & S). exists w. split_and!; [|done..]. rewrite lookup_insert_ne; [done|].
      intros ->. by rewrite Hp in Hw.
Qed.

Lemma core_free_buffer p b : bs !! p = Some b -> bo_storage b = None -> core (delete p bs) st v (upd C p 0) I X.
Proof.
  intros Hp Hb. destruct Hc as [H1 H2 H3 H4 H5 H6]. split; [| | |done..].
  - intros x Hx. unfold upd. case_decide as E; [done|]. apply lookup_delete_None in Hx as [->|Hx]; [done|by apply H1].
  - intros x w [Hne Hx]%lookup_delete_Some. pose proof (H2 x w Hx) as Hw. unfold buffer_ok, upd in *. by rewrite (decide_False (P := x = p)).
  - intros q t Hq. destruct (H3 q t Hq) as [E1 E2 E3 E4]. split; [|done|done|].
    + rewrite E1. unfold refs_of. rewrite (msum_delete (owns C q) bs p b Hp). unfold owns at 1. rewrite Hb, decide_False by done.
      rewrite (msum_ext (owns (upd C p 0) q) (owns C q)); [lia|]. intros k w [Hne Hk]%lookup_delete_Some. unfold owns, upd.
      by rewrite (decide_False (P := k = p)).
    + intros x Hx. destruct (E4 x Hx) as (w & Hw & T & S). exists w. split_and!; [|done..]. rewrite lookup_delete_ne; [done|].
      intros ->. rewrite Hp in Hw. injection Hw as <-. by rewrite Hb in S.
Qed.

(** A new storage, and one that the last reference is given back of. *)
Lemma core_new_storage q w : st !! q = None ->
  core bs (<[q := {| st_pool := ps_pool w; st_refs := 1; st_onList := 0; st_container := None |}]> st) (<[q := w]> v) C I (q :: X).
Proof.
  intros Hq. destruct (c_fresh q Hq) as (F1 & F2 & F3). destruct Hc as [H1 H2 H3 H4 H5 H6].
  assert (Hin : forall x t, st !! x = Some t -> x <> q) by (intros x t Hx ->; by rewrite Hq in Hx).
  split; [done| | | | |].
  - intros p b Hb. destruct (H2 p b Hb) as (? & ? & ? & Hs). split_and!; [done..|]. intros x Hx. destruct (Hs x Hx) as (t & Ht & ? & ?).
    exists t. split_and!; [|done..]. rewrite lookup_insert_ne; [done|]. intros <-. by rewrite Hq in Ht.
  - intros x t [[<- <-]|[Hne Hx]]%lookup_insert_Some.
    + split; cbn; [|done|lia|done]. unfold refs_of. rewrite F1, F2, held_cons, decide_True, F3 by done. done.
    + destruct (H3 x t Hx) as [E1 E2 E3 E4]. split; [|done..]. rewrite E1. unfold refs_of. rewrite held_cons, decide_False by done. lia.
  - intros p l x Hl Hx. destruct (H4 p l x Hl Hx) as [t Ht]. exists t. rewrite lookup_insert_ne; [done|]. intros <-. by rewrite Hq in Ht.
  - intros x Hx. rewrite lookup_insert. case_decide as E; [by eexists|]. apply H5. apply elem_of_cons in Hx as [->|Hx]; [done|done].
  - intros x. rewrite !lookup_insert. case_decide; [done|]. apply H6.
Qed.

End core.

Lemma core_last bs st v C I X q t : core bs st v C I (q :: X) -> st !! q = Some t -> st_refs t = 1 ->
  core (match st_container t with Some p => delete p bs | None => bs end) (delete q st) (delete q v) C I X /\
  (forall p, st_container t = Some p -> C p = 0) /\ msum (listed q) I = 0 /\ q ∉ X.
Proof.
  intros Hc Hq Ht. pose proof (so_refs _ _ _ _ _ _ (c_storage _ _ _ _ _ _ Hc q t Hq)) as E. rewrite Ht in E. unfold refs_of in E.
  rewrite held_cons, decide_True in E by done.
  assert (N1 : 0 <= msum (owns C q) bs) by (apply msum_nonneg; intros p b; apply (owns_nonneg Hc)).
  assert (N2 : 0 <= msum (listed q) I) by (apply msum_nonneg; intros p l _; apply listed_nonneg).
  pose proof (held_nonneg X q) as N3.
  assert (E1 : msum (owns C q) bs = 0) by lia. assert (E2 : msum (listed q) I = 0) by lia. assert (E3 : held X q = 0) by lia.
  assert (Hown : forall p b, bs !! p = Some b -> owns C q p b = 0).
  { intros p b Hb. pose proof (owns_nonneg Hc q p b Hb). pose proof (msum_ge (owns C q) bs p b (owns_nonneg Hc q) Hb). lia. }
  assert (Hlst : forall p l, I !! p = Some l -> q ∉ l).
  { intros p l Hl Hin. pose proof (msum_ge (listed q) I p l (fun k v _ => listed_nonneg q k v) Hl) as Hge. unfold listed at 1 in Hge.
    rewrite decide_True in Hge by done. lia. }
  assert (HX : q ∉ X).
  { clear -E3. induction X as [|x X IH]; [set_solver|]. rewrite held_cons in E3. pose proof (held_nonneg X q).
    case_decide as E; [lia|]. apply not_elem_of_cons. split; [congruence|]. apply IH. lia. }
  assert (HC : forall p, st_container t = Some p -> C p = 0).
  { intros p Hp. destruct (so_container _ _ _ _ _ _ (c_storage _ _ _ _ _ _ Hc q t Hq) p Hp) as (b & Hb & T & S).
    specialize (Hown p b Hb). unfold owns in Hown. rewrite S, T, (decide_True (P := Some q = Some q)), decide_True in Hown by done. done. }
  split; [|done]. destruct Hc as [H1 H2 H3 H4 H5 H6].
  set (bs' := match st_container t with Some p => delete p bs | None => bs end).
  assert (Hbs' : forall x w, bs' !! x = Some w -> bs !! x = Some w /\ st_container t <> Some x).
  { intros x w. unfold bs'. destruct (st_container t) as [p|]; [|by split].
    intros [Hne Hx]%lookup_delete_Some. split; [done|]. by intros [= ->]. }
  assert (Hsub : forall x, st_container t <> Some x -> bs' !! x = bs !! x).
  { intros x Hx. unfold bs'. destruct (st_container t) as [p|]; [|done]. apply lookup_delete_ne. by intros ->. }
  split.
  - intros p Hp. destruct (decide (st_container t = Some p)); [by apply HC|]. apply H1. by rewrite <- Hsub.
  - intros p b [Hb Hn]%Hbs'. destruct (H2 p b Hb) as (? & ? & ? & Hs). split_and!; [done..|]. intros x Hx. destruct (Hs x Hx) as (t' & Ht' & ? & Hct).
    exists t'. split_and!; [|done..]. rewrite lookup_delete_ne; [done|]. intros <-. rewrite Hq in Ht'. injection Ht' as <-.
    case_decide as T; [done|]. specialize (Hown p b Hb). unfold owns in Hown. by rewrite Hx, (decide_True (P := Some q = Some q)), decide_False in Hown by done.
  - intros x t' [Hne Hx]%lookup_delete_Some. destruct (H3 x t' Hx) as [G1 G2 G3 G4]. split; [|done|done|].
    + rewrite G1. unfold refs_of. rewrite held_cons, decide_False by done.
      enough (msum (owns C x) bs' = msum (owns C x) bs) by lia. unfold bs'. destruct (st_container t) as [p|] eqn:Hp; [|done].
      destruct (so_container _ _ _ _ _ _ (H3 q t Hq) p Hp) as (b & Hb & T & S). rewrite (msum_delete (owns C x) bs p b Hb).
      assert (owns C x p b = 0) as -> by (unfold owns; by rewrite S, decide_False by congruence). lia.
    + intros p Hp. destruct (G4 p Hp) as (b & Hb & T & S). exists b. split_and!; [|done..]. rewrite Hsub; [done|].
      intros Hp'. destruct (so_container _ _ _ _ _ _ (H3 q t Hq) p Hp') as (b' & Hb' & _ & S'). congruence.
  - intros p l x Hl Hx. destruct (H4 p l x Hl Hx) as [t' Ht']. exists t'. rewrite lookup_delete_ne; [done|]. intros <-. by apply (Hlst p l).
  - intros x Hx. destruct (H5 x) as [t' Ht']; [by right|]. exists t'. rewrite lookup_delete_ne; [done|]. by intros <-.
  - intros x. rewrite !lookup_delete. case_decide; [done|]. apply H6.
Qed.

(** A buffer made with its storage, for one reference. *)
Lemma core_simple bs st v C I X p b b' q t : core bs st v C I (q :: X) -> bs !! p = Some b -> bo_storage b = None ->
  st !! q = Some t -> st_container t = None -> C p = 0 -> (forall x w, bs !! x = Some w -> bo_storage w <> Some q) ->
  bo_type b' = SIMPLE -> bo_storage b' = Some q -> bo_pool b' = Some (st_pool t) ->
  core (<[p := b']> bs) (<[q := storage_container (Some p) t]> st) v (upd C p 1) I X.
Proof.
  intros Hc Hb Hs Hq Ht HC Hu T S L. pose proof (c_view Hc q t Hq) as Hv. destruct Hc as [H1 H2 H3 H4 H5 H6].
  assert (Hsum : forall x, msum (owns (upd C p 1) x) (<[p := b']> bs) = msum (owns C x) bs + if decide (x = q) then 1 else 0).
  { intros x. rewrite (msum_update (owns C x) _ bs p b b' Hb).
    - unfold owns at 2 3. rewrite Hs, S, T. rewrite (decide_False (P := None = Some x)) by done. unfold upd.
      rewrite (decide_True (P := p = p)), (decide_True (P := SIMPLE = SIMPLE)) by done.
      destruct (decide (x = q)) as [->|]; [rewrite decide_True by done; lia|rewrite decide_False by congruence; lia].
    - intros k w Hne _. unfold owns, upd. by rewrite (decide_False (P := k = p)). }
  assert (Hin : forall x, is_Some (st !! x) -> is_Some (<[q := storage_container (Some p) t]> st !! x)).
  { intros x Hx. rewrite lookup_insert. case_decide; [by eexists|done]. }
  split.
  - intros x [Hne Hx]%lookup_insert_None. unfold upd. rewrite decide_False by done. by apply H1.
  - intros x w [[<- <-]|[Hne Hx]]%lookup_insert_Some.
    + unfold buffer_ok, upd. rewrite decide_True by done. split_and!; [lia|by rewrite S|by rewrite T|]. intros y. rewrite S. intros [= <-].
      eexists. rewrite lookup_insert_eq. split_and!; [done|done|]. rewrite decide_True by done. done.
    + destruct (H2 x w Hx) as (G1 & G2 & G3 & G4). unfold buffer_ok, upd. rewrite (decide_False (P := x = p)) by done.
      split_and!; [done..|]. intros y Hy. destruct (G4 y Hy) as (t' & Ht' & ?). exists t'. rewrite lookup_insert_ne; [done|].
      intros <-. by destruct (Hu x w Hx).
  - intros x t' [[<- <-]|[Hne Hx]]%lookup_insert_Some.
    + destruct (H3 q t Hq) as [E1 E2 E3 E4]. assert (HR : int32 (st_refs t) = st_refs t) by (apply int32_id; lia).
      split; cbn; [|done|done|].
      * rewrite E1. unfold refs_of. rewrite Hsum, held_cons, !decide_True by done. lia.
      * intros y [= <-]. exists b'. by rewrite lookup_insert_eq.
    + destruct (H3 x t' Hx) as [E1 E2 E3 E4]. split; [|done|done|].
      * rewrite E1. unfold refs_of. rewrite Hsum, held_cons, !decide_False by congruence. lia.
      * intros y Hy. destruct (E4 y Hy) as (w & Hw & T' & S'). exists w. rewrite lookup_insert_ne; [done|].
        intros <-. rewrite Hb in Hw. injection Hw as <-. congruence.
  - intros y l x Hl Hx. apply Hin. by eapply H4.
  - intros x Hx. apply Hin, H5. by right.
  - intros x. rewrite lookup_insert. case_decide as E; [|apply H6]. subst x. specialize (H6 q). by rewrite Hq in H6.
Qed.

(** * The counts that the operations change *)

Section counts.
Context {bs : gmap Z buffer_object} {st : gmap Z buf_storage} {v : gmap Z pool_storage} {C : Z -> Z}
  {I : gmap Z (list Z)} {X : list Z} {q : Z} {t : buf_storage}.

Lemma core_take : core bs st v C I X -> st !! q = Some t -> st_refs t + 1 < 2 ^ 31 ->
  core bs (<[q := storage_refs (st_refs t + 1) t]> st) v C I (q :: X).
Proof.
  intros Hc Hq Hl. pose proof (so_range _ _ _ _ _ _ (c_storage _ _ _ _ _ _ Hc q t Hq)).
  unfold storage_refs. rewrite int32_id by lia. rewrite <- (Z.add_0_r (st_onList t)).
  eapply core_count; [done|done|lia|intros x; case_decide; lia| |apply (c_listed _ _ _ _ _ _ Hc)|done].
  intros x. rewrite held_cons. destruct (decide (q = x)), (decide (x = q)); try congruence; lia.
Qed.

Lemma core_give : core bs st v C I (q :: X) -> st !! q = Some t -> 1 < st_refs t ->
  core bs (<[q := storage_refs (st_refs t - 1) t]> st) v C I X.
Proof.
  intros Hc Hq Hl. pose proof (so_range _ _ _ _ _ _ (c_storage _ _ _ _ _ _ Hc q t Hq)).
  unfold storage_refs. rewrite int32_id by lia. rewrite <- (Z.add_0_r (st_onList t)). rewrite <- Z.add_opp_r.
  eapply core_count; [done|done|lia|intros x; case_decide; lia| |apply (c_listed _ _ _ _ _ _ Hc)|set_solver].
  intros x. rewrite held_cons. destruct (decide (q = x)), (decide (x = q)); try congruence; lia.
Qed.

Lemma listed_update p l l' x (e : Z) : I !! p = Some l -> listed x p l' = listed x p l + e ->
  msum (listed x) (<[p := l']> I) = msum (listed x) I + e.
Proof. intros Hp E. rewrite (msum_update (listed x) _ I p l l' Hp) by done. lia. Qed.

Lemma core_unlist p l : core bs st v C I X -> st !! q = Some t -> I !! p = Some (q :: l) -> q ∉ l ->
  core bs (<[q := storage_onList (st_onList t - 1) t]> st) v C (<[p := l]> I) (q :: X).
Proof.
  intros Hc Hq Hp Hl. destruct (c_storage _ _ _ _ _ _ Hc q t Hq) as [_ E2 E3 _]. destruct (c_storage _ _ _ _ _ _ Hc q t Hq) as [E1 _ _ _].
  assert (1 <= st_onList t).
  { rewrite E2. pose proof (msum_ge (listed q) I p _ (fun k v _ => listed_nonneg q k v) Hp) as Hge. unfold listed at 1 in Hge.
    by rewrite decide_True in Hge by left. }
  assert (0 <= msum (owns C q) bs) by (apply msum_nonneg; intros k b; apply (owns_nonneg Hc)). pose proof (held_nonneg X q).
  unfold refs_of in E1. unfold storage_onList. rewrite int32_id by lia. rewrite <- (Z.add_0_r (st_refs t)), <- Z.add_opp_r.
  eapply core_count; [done|done|lia| | | |done].
  - intros x. eapply listed_update; [done|]. unfold listed. destruct (decide (x = q)) as [->|Hne].
    + by rewrite decide_False, decide_True by first [done|left].
    + destruct (decide (x ∈ l)); [rewrite decide_True by (by right); lia|]. rewrite decide_False; [lia|]. intros [->|?]%elem_of_cons; done.
  - intros x. rewrite held_cons. destruct (decide (q = x)), (decide (x = q)); try congruence; lia.
  - intros k l' x [[<- <-]|[Hne Hk]]%lookup_insert_Some Hx; [|by eapply (c_listed _ _ _ _ _ _ Hc)].
    eapply (c_listed _ _ _ _ _ _ Hc); [done|by right].
Qed.

Lemma core_list p l : core bs st v C I X -> st !! q = Some t -> I !! p = Some l -> q ∉ l -> st_refs t + 1 < 2 ^ 31 ->
  core bs (<[q := storage_onList (st_onList t + 1) (storage_refs (st_refs t + 1) t)]> st) v C (<[p := l ++ [q]]> I) X.
Proof.
  intros Hc Hq Hp Hl Hr. destruct (c_storage _ _ _ _ _ _ Hc q t Hq) as [E1 E2 E3 _].
  assert (0 <= msum (listed q) I) by (apply msum_nonneg; intros k l' _; apply listed_nonneg).
  assert (0 <= msum (owns C q) bs) by (apply msum_nonneg; intros k b; apply (owns_nonneg Hc)). pose proof (held_nonneg X q).
  unfold refs_of in E1. unfold storage_onList, storage_refs. cbn. rewrite !int32_id by lia.
  eapply core_count; [done|done|lia| | | |set_solver].
  - intros x. eapply listed_update; [done|]. unfold listed. destruct (decide (x = q)) as [->|Hne].
    + rewrite decide_True by set_solver. by rewrite decide_False.
    + destruct (decide (x ∈ l)); [rewrite decide_True by set_solver; lia|]. rewrite decide_False by set_solver. lia.
  - intros x. case_decide; lia.
  - intros k l' x [[<- <-]|[Hne Hk]]%lookup_insert_Some Hx; [|by eapply (c_listed _ _ _ _ _ _ Hc)].
    apply elem_of_app in Hx as [Hx|Hx]; [by eapply (c_listed _ _ _ _ _ _ Hc)|]. apply list_elem_of_singleton in Hx as ->. by eexists.
Qed.

End counts.

(** * The operations *)

Section operations.
Context {P : Type} `{!PoolOps P} `{!PoolLaws P} `{!BmEnv} `{!VNodes}.

Abbreviation MB A := (M (list bcall) (bm_state P) A).
Abbreviation wpm := (wp (H := list bcall) (S := bm_state P) False).

Implicit Types (s : bm_state P) (h : list bcall) (C : Z -> Z) (I : gmap Z (list Z)) (X : list Z).

Definition inv s C I X : Prop := core (buffers s) (storages s) (pl_view (bpool s)) C I X.

Lemma on_pool_wp {A} (m : M unit P A) (Q : A -> bm_state P -> list bcall -> Prop) s h :
  wp False m (fun a p' _ => Q a (set_bpool p' s) h) (bpool s) tt -> wpm (on_pool m) Q s h.
Proof. unfold wp, on_pool. by destruct (m (bpool s) tt). Qed.

(** A function of a pool that leaves its storages as they are. *)
Lemma on_pool_same {A} (m : M unit P A) (Q : A -> bm_state P -> list bcall -> Prop) s h :
  wp False m (fun _ p' _ => pl_view p' = pl_view (bpool s)) (bpool s) tt ->
  (forall a p', pl_view p' = pl_view (bpool s) -> Q a (set_bpool p' s) h) -> wpm (on_pool m) Q s h.
Proof. intros Hm HQ. apply on_pool_wp. eapply wp_mono; [exact Hm|]. intros a p' u E. by apply HQ. Qed.

Lemma inv_same s C I X p : inv s C I X -> pl_view p = pl_view (bpool s) -> inv (set_bpool p s) C I X.
Proof. unfold inv. cbn. by intros Hi ->. Qed.

Lemma inv_view s C I X q t : inv s C I X -> storages s !! q = Some t -> exists w, pl_view (bpool s) !! q = Some w /\ ps_pool w = st_pool t.
Proof. intros Hi. apply (c_view Hi). Qed.

(** The storages are of the same pools. *)
Definition same_pools (v v' : gmap Z pool_storage) : Prop := forall q, ps_pool <$> v' !! q = ps_pool <$> v !! q.

Lemma inv_pools s C I X p : inv s C I X -> same_pools (pl_view (bpool s)) (pl_view p) -> inv (set_bpool p s) C I X.
Proof. intros Hi Hp. by apply (core_pools Hi). Qed.

Lemma same_pools_insert v q w w' : v !! q = Some w -> ps_pool w' = ps_pool w -> same_pools v (<[q := w']> v).
Proof. intros Hq E x. rewrite lookup_insert. destruct (decide (q = x)) as [<-|]; [|done]. rewrite Hq. cbn. by rewrite E. Qed.

Lemma get_buffer_wp p b Q s h : buffers s !! p = Some b -> Q b s h -> wpm (get_buffer p) Q s h.
Proof. intros Hb HQ. unfold get_buffer. apply wp_bind, wp_get. by rewrite Hb. Qed.

Lemma set_buffer_wp p b Q s h : is_Some (buffers s !! p) -> Q tt (set_buffers (<[p := b]> (buffers s)) s) h -> wpm (set_buffer p b) Q s h.
Proof. intros Hb HQ. unfold set_buffer. apply wp_bind, wp_get. by rewrite bool_decide_eq_true_2 by done. Qed.

Lemma get_storage_wp q t Q s h : storages s !! q = Some t -> Q t s h -> wpm (get_storage q) Q s h.
Proof. intros Ht HQ. unfold get_storage. apply wp_bind, wp_get. by rewrite Ht. Qed.

Lemma set_storage_wp q t Q s h : is_Some (storages s !! q) -> Q tt (set_storages (<[q := t]> (storages s)) s) h -> wpm (set_storage q t) Q s h.
Proof. intros Ht HQ. unfold set_storage. apply wp_bind, wp_get. by rewrite bool_decide_eq_true_2 by done. Qed.

Lemma change_buffer_wp p b f Q s h : buffers s !! p = Some b -> Q tt (set_buffers (<[p := f b]> (buffers s)) s) h -> wpm (change_buffer p f) Q s h.
Proof. intros Hb HQ. unfold change_buffer. apply wp_bind. eapply get_buffer_wp; [done|]. apply set_buffer_wp; [by eexists|done]. Qed.

Lemma change_storage_wp q t f Q s h : storages s !! q = Some t -> Q tt (set_storages (<[q := f t]> (storages s)) s) h -> wpm (change_storage q f) Q s h.
Proof. intros Hb HQ. unfold change_storage. apply wp_bind. eapply get_storage_wp; [done|]. apply set_storage_wp; [by eexists|done]. Qed.

Lemma storage_of_wp b q Q s h : bo_storage b = Some q -> Q q s h -> wpm (storage_of b) Q s h.
Proof. intros Hb HQ. unfold storage_of. by rewrite Hb. Qed.

Lemma free_buffer_wp p Q s h : is_Some (buffers s !! p) -> Q tt (set_buffers (delete p (buffers s)) s) (B_free p :: h) -> wpm (free_buffer p) Q s h.
Proof. intros Hb HQ. unfold free_buffer, wp. by rewrite bool_decide_eq_true_2 by done. Qed.

Lemma get_blist_wp p l Q s h : blists s !! p = Some l -> Q l s h -> wpm (get_blist p) Q s h.
Proof. intros Hb HQ. unfold get_blist. apply wp_bind, wp_get. by rewrite Hb. Qed.

Lemma on_list_wp {A} w p l (m : M (list vcall) validate_list A) (Q : A -> bm_state P -> list bcall -> Prop) s h :
  blists s !! p = Some l ->
  wp False m (fun a v' log' => Q a (set_blists (<[p := set_list w v' l]> (blists s)) log' s) h) (list_of w l) (vlog s) ->
  wpm (on_list w p m) Q s h.
Proof. intros Hp. unfold wp, on_list. rewrite Hp. by destruct (m (list_of w l) (vlog s)). Qed.

(** What giving a reference back leaves alone. *)
Record unrefed (q : Z) s s' : Prop := {
  u_blists : blists s' = blists s;
  u_vlog : vlog s' = vlog s;
  u_buffers : forall p b, buffers s !! p = Some b -> bo_type b <> SIMPLE -> buffers s' !! p = Some b;
  u_others : forall x, x <> q -> storages s' !! x = storages s !! x /\ pl_view (bpool s') !! x = pl_view (bpool s) !! x;
  u_view : pl_view (bpool s') ⊆ pl_view (bpool s);
  u_old : buffers s' ⊆ buffers s }.

Lemma unref_wp q s h C I X : inv s C I (q :: X) ->
  wpm (wsbmBufStorageUnref (Some q)) (fun _ s' _ => inv s' C I X /\ unrefed q s s') s h.
Proof.
  intros Hi. destruct (c_held _ _ _ _ _ _ Hi q) as [t Ht]; [by left|]. unfold wsbmBufStorageUnref.
  apply wp_bind. eapply get_storage_wp; [done|]. apply wp_bind. apply set_storage_wp; [by eexists|].
  destruct (c_storage _ _ _ _ _ _ Hi q t Ht) as [E1 E2 E3 E4]. rewrite int32_id by lia.
  destruct (Z.eqb_spec (st_refs t - 1) 0) as [E|E].
  2:{ apply wp_ret. split; [by apply (core_give Hi); [done|lia]|]. split; [done..| |done|done]. intros x Hx. split; [|done].
      cbn. by rewrite lookup_insert_ne. }
  destruct (core_last _ _ _ _ _ _ _ _ Hi Ht) as (Hl & HC & Hlst & HqX); [lia|]. destruct (inv_view _ _ _ _ _ _ Hi Ht) as (w & Hw & _).
  assert (Hd : forall bs' h', bs' = match st_container t with Some p => delete p (buffers s) | None => buffers s end ->
    wpm (destroy_storage q) (fun _ s' _ => inv s' C I X /\ unrefed q s s')
      (set_buffers bs' (set_storages (<[q := storage_refs (st_refs t - 1) t]> (storages s)) s)) h').
  { intros bs' h' ->. unfold destroy_storage. apply wp_bind. eapply get_storage_wp; [apply lookup_insert_eq|]. apply wp_bind.
    apply on_pool_wp. eapply wp_mono; [eapply law_destroy; exact Hw|]. cbv beta. intros _ p' _ Hp'. apply wp_bind, wp_get. cbn.
    rewrite delete_insert_eq. split.
    - unfold inv. cbn. cbn in Hp'. by rewrite Hp'.
    - cbn in Hp'. split; cbn; [done|done| | |rewrite Hp'; apply delete_subseteq|destruct (st_container t); [apply delete_subseteq|done]].
      + intros p b Hb HT. destruct (st_container t) as [c|] eqn:Hct; [|done]. rewrite lookup_delete_ne; [done|]. intros ->.
        destruct (E4 p eq_refl) as (b' & Hb' & HT' & _). congruence.
      + intros x Hx. rewrite Hp', !lookup_delete_ne by done. done. }
  destruct (st_container t) as [p|] eqn:Hp.
  - destruct (E4 p eq_refl) as (b & Hb & _). apply wp_bind. unfold wsbmBOFreeSimple. apply free_buffer_wp; [by eexists|]. by apply Hd.
  - apply wp_bind, wp_ret. by apply (Hd (buffers s)).
Qed.

(** What a pool gives for a new storage, the buffers [bs] being counted. *)
Record created s (r : option Z) s' (bs : gmap Z buffer_object) C I X : Prop := {
  cr_same : buffers s' = buffers s /\ blists s' = blists s /\ vlog s' = vlog s;
  cr_core : core bs (storages s') (pl_view (bpool s')) C I (match r with None => X | Some q => q :: X end);
  cr_none : r = None -> storages s' = storages s /\ pl_view (bpool s') = pl_view (bpool s);
  cr_some : forall q, r = Some q -> storages s !! q = None /\
    exists w, storages s' = <[q := {| st_pool := ps_pool w; st_refs := 1; st_onList := 0; st_container := None |}]> (storages s) /\
      pl_view (bpool s') = <[q := w]> (pl_view (bpool s)) }.

Lemma init_storage_wp bs pool size r p' s h C I X : core bs (storages s) (pl_view (bpool s)) C I X ->
  pool_created pool size (pl_view (bpool s)) r (pl_view p') ->
  wpm (init_storage pool r) (fun r' s' h' => r' = r /\ h' = h /\ created s r s' bs C I X /\ bpool s' = p') (set_bpool p' s) h.
Proof.
  intros Hc Hr. unfold init_storage. destruct r as [q|].
  - destruct Hr as (Hn & w & <- & Hw & Hv). apply wp_bind, wp_get, wp_bind, wp_modify, wp_ret. cbn.
    assert (Hs : storages s !! q = None).
    { pose proof (c_pool _ _ _ _ _ _ Hc q) as E. rewrite Hn in E. by destruct (storages s !! q). }
    split_and!; [done..| |done]. split; cbn; [done| |done|].
    + rewrite Hv. apply (core_new_storage Hc q _ Hs).
    + intros ? [= <-]. split; [done|]. by exists w.
  - apply wp_ret. cbn in Hr. split_and!; [done..| |done]. split; cbn; [done|by rewrite Hr|done|done].
Qed.

Lemma create_storage_wp bs pool size placement alignment s h C I X : core bs (storages s) (pl_view (bpool s)) C I X ->
  pl_accepts pool size placement ->
  wpm (create_storage pool size placement alignment) (fun r s' h' => h' = h /\ created s r s' bs C I X /\
    pool_created pool size (pl_view (bpool s)) r (pl_view (bpool s'))) s h.
Proof.
  intros Hc Ha. unfold create_storage. apply wp_bind, on_pool_wp. eapply wp_mono; [by apply law_create|]. cbv beta. intros r p' _ Hr.
  eapply wp_mono; [by eapply init_storage_wp|]. cbv beta. intros r' s' h' (-> & -> & Hcr & <-). done.
Qed.

Lemma create_user_wp user bs pool size placement alignment s h C I X : core bs (storages s) (pl_view (bpool s)) C I X ->
  pl_shares pool user size ->
  wpm (create_user user pool size placement alignment) (fun r s' h' => h' = h /\ created s r s' bs C I X /\
    pool_created pool size (pl_view (bpool s)) r (pl_view (bpool s'))) s h.
Proof.
  intros Hc Ha. unfold create_user. apply wp_bind, on_pool_wp. eapply wp_mono; [by apply law_ub_create|]. cbv beta. intros r p' _ Hr.
  eapply wp_mono; [by eapply init_storage_wp|]. cbv beta. intros r' s' h' (-> & -> & Hcr & <-). done.
Qed.

Lemma reference_wp f pool handle s h C I X : inv s C I X -> pl_createByReference pool = Some f ->
  wpm (r ← on_pool (f handle); init_storage pool r) (fun r s' h' => h' = h /\ created s r s' (buffers s) C I X /\
    pool_created pool 0 (pl_view (bpool s)) r (pl_view (bpool s'))) s h.
Proof.
  intros Hc Hf. apply wp_bind, on_pool_wp. eapply wp_mono; [by eapply law_reference|]. cbv beta. intros r p' _ Hr.
  eapply wp_mono; [by eapply init_storage_wp|]. cbv beta. intros r' s' h' (-> & -> & Hcr & <-). done.
Qed.

(** ** A buffer loses its storage, gets one, changes its own fields *)

Lemma inv_detach s p b q C I X : inv s C I X -> buffers s !! p = Some b -> bo_type b <> SIMPLE -> bo_storage b = Some q ->
  inv (set_buffers (<[p := with_storage None b]> (buffers s)) s) C I (q :: X).
Proof.
  intros Hi Hb HT Hq. destruct (c_buffer _ _ _ _ _ _ Hi p b Hb) as (H1 & H2 & H3 & H4). destruct (H4 q Hq) as (t & Ht & _).
  eapply (core_same_buffer Hi); [done| |done| |].
  - by split_and!.
  - intros x. rewrite held_cons. unfold owns. cbn. rewrite (decide_False (P := None = Some x)) by done. rewrite Hq.
    destruct (decide (q = x)) as [->|Hne]; [rewrite decide_True by done; rewrite decide_False by done; lia|].
    rewrite decide_False by congruence. lia.
  - intros x [->|Hx]%elem_of_cons; [by exists t|]. by apply (c_held _ _ _ _ _ _ Hi).
Qed.

Lemma inv_attach s p b b' q t C I X : inv s C I (q :: X) -> buffers s !! p = Some b -> bo_type b <> SIMPLE -> bo_storage b = None ->
  storages s !! q = Some t -> st_container t = None ->
  bo_type b' <> SIMPLE -> bo_refs b' = bo_refs b -> bo_storage b' = Some q -> bo_pool b' = Some (st_pool t) ->
  inv (set_buffers (<[p := b']> (buffers s)) s) C I X.
Proof.
  intros Hi Hb HT Hq Ht Hct T R S L. destruct (c_buffer _ _ _ _ _ _ Hi p b Hb) as (H1 & H2 & H3 & H4).
  eapply (core_same_buffer Hi); [done| |done| |].
  - split_and!; [done|done|intros _; rewrite R; by apply H3|]. intros x. rewrite S. intros [= <-]. exists t. by rewrite decide_False.
  - intros x. rewrite held_cons. unfold owns. rewrite Hq, S, (decide_False (P := None = Some x)) by done.
    destruct (decide (q = x)) as [->|Hne]; [rewrite decide_True by done; rewrite decide_False by done; lia|].
    rewrite decide_False by congruence. lia.
  - intros x Hx. apply (c_held _ _ _ _ _ _ Hi). by right.
Qed.

(** The fields that do not matter to the references. *)
Lemma inv_fields s p b b' C I X : inv s C I X -> buffers s !! p = Some b ->
  bo_refs b' = bo_refs b -> bo_storage b' = bo_storage b -> bo_type b' = bo_type b ->
  (bo_pool b' = bo_pool b \/ bo_storage b = None) ->
  inv (set_buffers (<[p := b']> (buffers s)) s) C I X.
Proof.
  intros Hi Hb R S T L. destruct (c_buffer _ _ _ _ _ _ Hi p b Hb) as (H1 & H2 & H3 & H4).
  eapply (core_same_buffer Hi); [done| |by rewrite S, T| |apply (c_held _ _ _ _ _ _ Hi)].
  - unfold buffer_ok. rewrite R, S, T. split_and!; [done..|]. intros q Hq. destruct (H4 q Hq) as (t & G1 & G2 & G3). exists t.
    split_and!; [done| |done]. destruct L as [->|]; [done|congruence].
  - intros x. unfold owns. rewrite S, T. lia.
Qed.

End operations.
