(* ===== verification/BufferMgrSpec.v ===== *)
(** The buffer manager keeps its references: what the operations of BufferMgr.v do to the
    buffers, the storages and the pools, against the contract of the pools ([PoolLaws])
    and of the lists of buffers to validate (ValidateListSpec.v). *)
From stdpp Require Import gmap.
From S2P Require Import Prelude Rings ValidateList ValidateListInv ValidateListSpec BufferMgr Pools BufferMgrInv.

Section operations.
Context {P : Type} `{!PoolOps P} `{!PoolLaws P} `{!BmEnv} `{!VNodes}.

Abbreviation MB A := (M (list bcall) (bm_state P) A).
Abbreviation wpm := (wp (H := list bcall) (S := bm_state P) False).

Implicit Types (s : bm_state P) (h : list bcall) (C : Z -> Z) (I : gmap Z (list Z)) (X : list Z).

(** What an operation on the buffer [p] leaves alone: the lists and the other buffers that
    are not simple. *)
Record apart (p : Z) s s' : Prop := {
  a_blists : blists s' = blists s;
  a_vlog : vlog s' = vlog s;
  a_buffers : forall x b, x <> p -> buffers s !! x = Some b -> bo_type b <> SIMPLE -> buffers s' !! x = Some b;
  a_old : forall x b, x <> p -> buffers s' !! x = Some b -> buffers s !! x = Some b }.

Lemma apart_refl p s : apart p s s.
Proof. by split. Qed.

Lemma apart_trans p s s1 s2 : apart p s s1 -> apart p s1 s2 -> apart p s s2.
Proof. intros [A1 A2 A3 A4] [B1 B2 B3 B4]. split; [congruence|congruence| |eauto]. intros x b Hx Hb HT. apply B3; [done| |done]. by apply A3. Qed.

Lemma apart_pool p s p' : apart p s (set_bpool p' s).
Proof. by split. Qed.

Lemma apart_buffer p s b : apart p s (set_buffers (<[p := b]> (buffers s)) s).
Proof. split; [done|done| |]; intros x b' Hx; cbn; by rewrite lookup_insert_ne. Qed.

Lemma apart_free p s : apart p s (set_buffers (delete p (buffers s)) s).
Proof. split; [done|done| |]; intros x b' Hx; cbn; by rewrite lookup_delete_ne. Qed.

Lemma apart_unrefed p q s s' : unrefed q s s' -> apart p s s'.
Proof.
  intros [U1 U2 U3 U4 U5 U6]. split; [done|done|intros x b _; apply U3|]. intros x b _ Hx. by eapply lookup_weaken.
Qed.

Lemma apart_created p s r s' bs C I X : created s r s' bs C I X -> apart p s s'.
Proof. intros [(E1 & E2 & E3) _ _ _]. split; [done|done| |]; intros x b _; by rewrite E1. Qed.

Hint Resolve apart_refl apart_pool apart_buffer apart_unrefed apart_created : core.

(** A buffer and its storage, in the manager and in its pool. *)
Definition stored s (p : Z) (b : buffer_object) (q : Z) (t : buf_storage) (w : pool_storage) : Prop :=
  buffers s !! p = Some b /\ bo_storage b = Some q /\ storages s !! q = Some t /\ pl_view (bpool s) !! q = Some w /\
  ps_pool w = st_pool t /\ bo_pool b = Some (st_pool t).

Lemma inv_stored s C I X p b q : inv s C I X -> buffers s !! p = Some b -> bo_storage b = Some q ->
  exists t w, stored s p b q t w /\ (bo_type b <> SIMPLE -> st_container t = None).
Proof.
  intros Hi Hb Hq. destruct (c_buffer _ _ _ _ _ _ Hi p b Hb) as (_ & _ & _ & Hs). destruct (Hs q Hq) as (t & Ht & HL & Hct).
  destruct (inv_view _ _ _ _ _ _ Hi Ht) as (w & Hw & HP). exists t, w. split; [done|]. intros HT. by rewrite decide_False in Hct.
Qed.

Lemma stored_pool s p b q t w p' : stored s p b q t w -> pl_view p' = pl_view (bpool s) -> stored (set_bpool p' s) p b q t w.
Proof. intros (? & ? & ? & ? & ? & ?) E. unfold stored. cbn. by rewrite E. Qed.

Lemma unref_storage_of_wp p b s h C I X : inv s C I X -> buffers s !! p = Some b -> bo_type b <> SIMPLE ->
  wpm (unref_storage_of p) (fun _ s' _ => inv s' C I X /\ buffers s' !! p = Some (with_storage None b) /\ apart p s s' /\
    pl_view (bpool s') ⊆ pl_view (bpool s) /\
    forall x, bo_storage b <> Some x -> storages s' !! x = storages s !! x /\ pl_view (bpool s') !! x = pl_view (bpool s) !! x) s h.
Proof.
  intros Hi Hb HT. unfold unref_storage_of. apply wp_bind. eapply get_buffer_wp; [done|]. apply wp_bind, set_buffer_wp; [by eexists|].
  destruct (bo_storage b) as [q|] eqn:Hq.
  - eapply wp_mono; [apply (unref_wp q _ _ C I X); by apply inv_detach|]. cbv beta. intros _ s' h' [Hi' Hu]. split_and!; [done| | |apply (u_view _ _ _ Hu)|].
    + apply (u_buffers _ _ _ Hu); [apply lookup_insert_eq|done].
    + eapply apart_trans; [apply apart_buffer|]. by eapply apart_unrefed.
    + intros x Hx. apply (u_others _ _ _ Hu). congruence.
  - apply wp_ret. split_and!; [|apply lookup_insert_eq|apply apart_buffer|done|done]. eapply inv_fields; [done|done|done|by rewrite Hq|done|by left].
Qed.

(** ** The contents *)

(** What is copied to a buffer once it has a storage [q] of [size] bytes.  [G]: the data
    is there. *)
Definition copies (copy : Z -> MB Z) (size : Z) (G : pool_storage -> Prop) : Prop := forall s h q t w,
  storages s !! q = Some t -> pl_view (bpool s) !! q = Some w -> size <= ps_size w ->
  wpm (copy q) (fun ret s' h' => h' = h /\ exists p', s' = set_bpool p' s /\ same_pools (pl_view (bpool s)) (pl_view p') /\
    (ret = 0 -> exists w', pl_view p' !! q = Some w' /\ G w')) s h.

Lemma copy_mapped_ok size d : 0 <= size <= Z.of_nat (length d) ->
  copies (copy_mapped size d) size (fun w => slice 0 size (ps_bytes w) = take (Z.to_nat size) d).
Proof.
  intros Hd s h q t w Ht Hw Hsz. unfold copy_mapped. apply wp_bind, on_pool_wp. eapply wp_mono; [by eapply law_map|]. cbv beta.
  intros [ret v] p1 _ E1. cbn [fst snd] in E1. destruct (Z.eqb_spec ret 0) as [->|Hne]; cbn [negb].
  2:{ apply wp_ret. split; [done|]. exists p1. rewrite E1. by split_and!. }
  apply wp_bind. unfold copy_to. destruct (Z.ltb_spec (Z.of_nat (length d)) size); [lia|]. apply on_pool_wp.
  assert (Hl : Z.of_nat (length (take (Z.to_nat size) d)) = size) by (rewrite length_take; lia).
  eapply wp_mono; [eapply (law_write q (with_mapped (Some v) w)); cbn; [by rewrite E1, lookup_insert_eq|done|done|rewrite Hl; unfold ps_size in *; cbn; lia]|].
  cbv beta. cbn. intros _ p2 _ E2. apply wp_bind, on_pool_wp. eapply wp_mono; [eapply law_unmap; cbn; rewrite E2; apply lookup_insert_eq|].
  cbv beta. cbn. intros _ p3 _ [m E3]. split; [done|]. exists p3. split; [done|]. rewrite E3, E2, E1, !insert_insert_eq.
  split; [by apply (same_pools_insert _ _ w)|]. intros _. eexists. split; [apply lookup_insert_eq|]. cbn.
  rewrite <- Hl at 1. apply slice_splice; [done|]. unfold ps_size in Hsz. lia.
Qed.

Lemma copy_user_ok user pool size d : 0 <= size <= Z.of_nat (length d) -> pl_shares pool user size ->
  copies (fun _ => copy_to user 0 size d ;; mret 0) size (fun _ => True).
Proof.
  intros Hd Hu s h q t w Ht Hw Hsz. apply wp_bind. unfold copy_to. destruct (Z.ltb_spec (Z.of_nat (length d)) size); [lia|].
  apply on_pool_wp. eapply wp_mono; [eapply law_user_write; [done|rewrite length_take; lia]|]. cbv beta. intros _ p' _ E. apply wp_ret.
  split; [done|]. exists p'. split; [done|]. split.
  - intros x. specialize (E x). destruct (pl_view p' !! x), (pl_view (bpool s) !! x); cbn in *; congruence.
  - intros _. specialize (E q). rewrite Hw in E. destruct (pl_view p' !! q) as [w'|]; [|done]. by exists w'.
Qed.

Lemma data_out_wp synced s p b q t w ret (Q : Z -> bm_state P -> list bcall -> Prop) h : stored s p b q t w ->
  (forall p', pl_view p' = pl_view (bpool s) -> Q ret (set_bpool p' s) h) -> wpm (data_out synced q ret) Q s h.
Proof.
  intros (_ & _ & _ & Hw & _) HQ. unfold data_out. apply wp_bind. destruct synced; cbn [when].
  - apply on_pool_same; [by eapply law_release|]. intros _ p' E. apply wp_ret. by apply HQ.
  - apply wp_ret, wp_ret. replace s with (set_bpool (bpool s) s) by by destruct s. by apply HQ.
Qed.

(** After the data was asked to be copied to the buffer [p]. *)
Definition data_post (G : pool_storage -> Prop) (data : bool) (p : Z) (b : buffer_object) s C I X (ret : Z) s' : Prop :=
  inv s' C I X /\ apart p s s' /\ exists b', buffers s' !! p = Some b' /\ bo_type b' = bo_type b /\
    bo_alignment b' = bo_alignment b /\
    (ret = 0 -> data = true -> exists q w, bo_storage b' = Some q /\ pl_view (bpool s') !! q = Some w /\ G w).

(** The rest of the state is as it was. *)
Definition pool_only s s' : Prop := exists p', s' = set_bpool p' s /\ same_pools (pl_view (bpool s)) (pl_view p').

Lemma data_write_wp copy size G (data synced : bool) s h p b q t w : (data = true -> copies copy size G) -> stored s p b q t w -> size <= ps_size w ->
  wpm (data_write copy q data synced) (fun ret s' _ => pool_only s s' /\
    (ret = 0 -> data = true -> exists w', pl_view (bpool s') !! q = Some w' /\ G w')) s h.
Proof.
  intros Hcopy Hst Hsz. assert (Hsame : forall p', pl_view p' = pl_view (bpool s) -> pool_only s (set_bpool p' s)) by (intros p' E; exists p'; by rewrite E).
  assert (Hrest : forall s1 h1, stored s1 p b q t w -> (exists p1, s1 = set_bpool p1 s /\ pl_view p1 = pl_view (bpool s)) ->
    wpm (retval ← (if data then copy q else mret 0); data_out true q retval) (fun ret s' _ => pool_only s s' /\
      (ret = 0 -> data = true -> exists w', pl_view (bpool s') !! q = Some w' /\ G w')) s1 h1).
  { intros s1 h1 Hst1 (p1 & -> & E1). pose proof Hst1 as (_ & _ & Ht & Hw & _). apply wp_bind. destruct data.
    - eapply wp_mono; [by eapply (Hcopy eq_refl)|]. cbv beta. intros ret s2 h2 (-> & p2 & -> & Hsp & HG). cbn in Hsp. rewrite E1 in Hsp.
      destruct (decide (is_Some (pl_view p2 !! q))) as [[w2 Hw2]|Hn].
      2:{ exfalso. specialize (Hsp q). cbn in Hw. rewrite E1 in Hw. rewrite Hw in Hsp. apply Hn. by destruct (pl_view p2 !! q). }
      unfold data_out. apply wp_bind. cbn [when]. apply on_pool_same; [by eapply law_release|]. intros _ p3 E3. apply wp_ret. cbn in E3. split.
      + exists p3. rewrite E3. by destruct s.
      + intros E0 _. cbn. rewrite E3. by apply HG.
    - apply wp_ret. eapply data_out_wp; [done|]. intros p2 E2. split; [|done]. exists p2. cbn in E2. rewrite E2, E1. by destruct s. }
  unfold data_write. apply wp_bind. destruct synced; cbn [negb].
  - apply wp_ret. cbn [negb Z.eqb]. apply Hrest; [done|]. exists (bpool s). by destruct s.
  - pose proof Hst as (_ & _ & Ht & Hw & _). apply on_pool_same; [by eapply law_sync|]. intros ret p' E.
    assert (Hst' : stored (set_bpool p' s) p b q t w) by by apply stored_pool.
    destruct (Z.eqb_spec ret 0) as [->|Hne]; cbn [negb].
    + apply Hrest; [done|]. by exists p'.
    + eapply data_out_wp; [done|]. intros p2 E2. split; [|done]. exists p2. cbn in E2. rewrite E2, E. by destruct s.
Qed.

Lemma data_copy_wp copy size G p placement (data synced : bool) s h C I X b q t w : (data = true -> copies copy size G) ->
  inv s C I X -> stored s p b q t w -> size <= ps_size w ->
  (placement = bo_placement b \/ pl_setStatus (st_pool t) <> None) ->
  wpm (data_copy copy p placement data synced) (fun ret s' _ => data_post G data p b s C I X ret s') s h.
Proof.
  intros Hcopy Hi Hst Hsz Hpl. pose proof Hst as (Hb & Hq & Ht & Hw & HP & HB). unfold data_copy.
  apply wp_bind. eapply get_buffer_wp; [done|]. apply wp_bind. eapply storage_of_wp; [done|]. apply wp_bind. eapply get_storage_wp; [done|].
  cbv zeta. destruct (Z.eqb_spec (Z.lxor placement (bo_placement b)) 0) as [E|E]; cbn [negb].
  - eapply wp_mono; [by eapply data_write_wp|]. cbv beta. intros ret s' h' [(p' & -> & Hsp) HG]. split_and!.
    + by apply inv_pools.
    + apply apart_pool.
    + exists b. split_and!; [done..|]. intros E0 Hd. destruct (HG E0 Hd) as (w' & Hw' & HGw). by exists q, w'.
  - destruct (pl_setStatus (st_pool t)) as [f|] eqn:Hf; [|destruct Hpl as [->|]; [by rewrite Z.lxor_nilpotent in E|done]].
    apply wp_bind, on_pool_same; [by eapply law_release|]. intros _ p1 E1. apply wp_bind, on_pool_same.
    { cbn. eapply law_status; [by rewrite E1|by rewrite HP]. }
    intros ret p2 E2. cbn in E2. assert (E2' : pl_view p2 = pl_view (bpool s)) by congruence.
    change (set_bpool p2 (set_bpool p1 s)) with (set_bpool p2 s).
    assert (Hst2 : stored (set_bpool p2 s) p b q t w) by by apply stored_pool.
    destruct (Z.eqb_spec ret 0) as [->|Hne]; cbn [negb].
    + apply wp_bind, set_buffer_wp; [by eexists|].
      assert (Hst3 : stored (set_buffers (<[p := with_placement placement b]> (buffers s)) (set_bpool p2 s)) p (with_placement placement b) q t w).
      { unfold stored. cbn. rewrite lookup_insert_eq, E2'. by split_and!. }
      eapply wp_mono; [by eapply data_write_wp|]. cbv beta. intros ret s' h' [(p' & -> & Hsp) HG]. split_and!.
      * apply inv_pools; [|done]. eapply inv_fields; [by apply inv_same|done..|by left].
      * eapply apart_trans; [apply (apart_pool _ _ p2)|]. eapply apart_trans; [apply apart_buffer|apply apart_pool].
      * exists (with_placement placement b). split_and!; [apply lookup_insert_eq|done|done|]. intros E0 Hd.
        destruct (HG E0 Hd) as (w' & Hw' & HGw). by exists q, w'.
    + eapply data_out_wp; [done|]. intros p3 E3. cbn in E3. split_and!.
      * apply (inv_same s _ _ _ p3); [done|congruence].
      * apply (apart_pool _ s p3).
      * exists b. by split_and!.
Qed.

(** How a storage is made. *)
Definition creates (create : Z -> Z -> Z -> Z -> MB (option Z)) (ok : Z -> Z -> Z -> Prop) : Prop :=
  forall bs pool size placement alignment s h C I X, core bs (storages s) (pl_view (bpool s)) C I X -> ok pool size placement ->
  wpm (create pool size placement alignment) (fun r s' h' => h' = h /\ created s r s' bs C I X /\
    pool_created pool size (pl_view (bpool s)) r (pl_view (bpool s'))) s h.

(** The new storage [q] is given to the buffer. *)
Lemma inv_give_storage s s' q p b b' bs pool size C I X : created s (Some q) s' bs C I X -> bs = buffers s ->
  pool_created pool size (pl_view (bpool s)) (Some q) (pl_view (bpool s')) ->
  buffers s !! p = Some b -> bo_type b <> SIMPLE -> bo_storage b = None ->
  bo_type b' <> SIMPLE -> bo_refs b' = bo_refs b -> bo_storage b' = Some q -> bo_pool b' = Some pool ->
  inv (set_buffers (<[p := b']> (buffers s')) s') C I X /\
  exists t w, stored (set_buffers (<[p := b']> (buffers s')) s') p b' q t w /\ st_pool t = pool /\ st_refs t = 1 /\ st_onList t = 0 /\
    size <= ps_size w < 2 ^ 32.
Proof.
  intros Hcr -> (Hn & w & <- & Hw & Hv) Hb HT Hs T R S L. destruct (cr_same _ _ _ _ _ _ _ Hcr) as (E1 & _ & _).
  destruct (cr_some _ _ _ _ _ _ _ Hcr q eq_refl) as (_ & w' & Hst & Hv').
  assert (w' = w) as ->. { rewrite Hv in Hv'. apply (f_equal (fun m => m !! q)) in Hv'. rewrite !lookup_insert_eq in Hv'. congruence. }
  assert (Ht : storages s' !! q = Some {| st_pool := ps_pool w; st_refs := 1; st_onList := 0; st_container := None |}) by by rewrite Hst, lookup_insert_eq.
  split.
  - eapply inv_attach; [|by rewrite E1|done|done|exact Ht|done..]. unfold inv. rewrite E1. apply (cr_core _ _ _ _ _ _ _ Hcr).
  - exists {| st_pool := ps_pool w; st_refs := 1; st_onList := 0; st_container := None |}, w. split; [|done].
    unfold stored. cbn. rewrite lookup_insert_eq, Ht, Hv, lookup_insert_eq. by split_and!.
Qed.

Lemma data_post_apart G data p b b1 s s1 C I X ret s' : apart p s s1 -> bo_type b1 = bo_type b -> bo_alignment b1 = bo_alignment b ->
  data_post G data p b1 s1 C I X ret s' -> data_post G data p b s C I X ret s'.
Proof.
  intros Ha ET EA (Hi & Ha' & b' & Hb' & T & A & HG). split; [done|]. split; [by eapply apart_trans|].
  exists b'. split_and!; [done|congruence|congruence|done].
Qed.

Section data.
Context (create : Z -> Z -> Z -> Z -> MB (option Z)) (ok : Z -> Z -> Z -> Prop) (Hcreate : creates create ok).
Context (copy : Z -> MB Z) (size : Z) (data : bool) (G : pool_storage -> Prop) (Hcopy : data = true -> copies copy size G).

(** The buffer gets a storage of the pool [newPool]. *)
Lemma data_new_wp p b newPool placement s h C I X : inv s C I X -> buffers s !! p = Some b -> bo_type b <> SIMPLE ->
  ok newPool size placement ->
  wpm (data_new create copy p size newPool placement data) (fun ret s' _ => data_post G (data && negb (size =? 0)) p b s C I X ret s') s h.
Proof.
  intros Hi Hb HT Hok. unfold data_new. apply wp_bind. eapply wp_mono; [by eapply unref_storage_of_wp|]. cbv beta.
  intros _ s1 h1 (Hi1 & Hb1 & Ha1 & _).
  destruct (Z.eqb_spec size 0) as [->|Hsz].
  { apply wp_bind. eapply change_buffer_wp; [done|]. apply wp_ret. split_and!.
    - eapply inv_fields; [done..|by right].
    - eapply apart_trans; [done|apply apart_buffer].
    - eexists. split_and!; [apply lookup_insert_eq|done|done|]. by rewrite andb_false_r. }
  apply wp_bind. eapply get_buffer_wp; [done|].
  apply wp_bind. eapply wp_mono; [by eapply Hcreate|]. cbv beta. intros r s2 h2 (-> & Hcr & Hpc).
  destruct (cr_same _ _ _ _ _ _ _ Hcr) as (E1 & _ & _). assert (Ha2 : apart p s s2) by (eapply apart_trans; [done|by eapply apart_created]).
  apply wp_bind. eapply change_buffer_wp; [by rewrite E1|]. destruct r as [q|].
  - apply wp_bind. eapply change_buffer_wp; [apply lookup_insert_eq|]. cbn. rewrite insert_insert_eq.
    set (b' := with_pool (Some newPool) (with_placement placement (with_storage (Some q) (with_storage None b)))).
    destruct (inv_give_storage _ _ q p (with_storage None b) b' _ newPool size C I X Hcr eq_refl Hpc Hb1) as (Hi3 & t & w & Hst & HP & _ & _ & Hw); [done..|].
    change (set_buffers _ (set_buffers _ s2)) with (set_buffers (<[p := b']> (buffers s2)) s2).
    rewrite andb_true_r. eapply wp_mono; [eapply data_copy_wp; [done|exact Hi3|exact Hst|lia|by left]|]. cbv beta. intros ret s' h' Hpost.
    eapply data_post_apart; [| | |exact Hpost]; [|done|done]. eapply apart_trans; [exact Ha2|apply apart_buffer].
  - apply wp_ret. pose proof (cr_core _ _ _ _ _ _ _ Hcr) as Hc. split_and!.
    + eapply inv_fields; [|by rewrite E1|done..|by left]. unfold inv. by rewrite E1.
    + eapply apart_trans; [exact Ha2|apply apart_buffer].
    + eexists. split_and!; [apply lookup_insert_eq|done|done|done].
Qed.

(** The storage of the buffer is busy. *)
Lemma data_busy_wp p b q t w placement s h C I X : inv s C I X -> stored s p b q t w -> bo_type b <> SIMPLE ->
  size <= ps_size w -> ok (st_pool t) size placement -> (placement = bo_placement b \/ pl_setStatus (st_pool t) <> None) ->
  wpm (data_busy create copy b p q (st_pool t) size placement data) (fun ret s' _ => data_post G data p b s C I X ret s') s h.
Proof.
  intros Hi Hst HT Hsz Hok Hpl. pose proof Hst as (Hb & Hq & Ht & Hw & HP & HB). unfold data_busy.
  apply wp_bind. eapply wp_mono; [by eapply Hcreate|]. cbv beta. intros r s1 h1 (-> & Hcr & Hpc).
  destruct (cr_same _ _ _ _ _ _ _ Hcr) as (E1 & _ & _). assert (Ha1 : apart p s s1) by by eapply apart_created.
  destruct r as [tmp|].
  - assert (Hi1 : inv s1 C I (tmp :: X)) by (unfold inv; rewrite E1; apply (cr_core _ _ _ _ _ _ _ Hcr)).
    destruct (cr_some _ _ _ _ _ _ _ Hcr tmp eq_refl) as (Hn & w1 & Hs1 & Hv1). destruct Hpc as (Hn' & w2 & Hw2 & Hsz2 & Hvt).
    assert (w2 = w1) as ->. { rewrite Hvt in Hv1. apply (f_equal (fun m => m !! tmp)) in Hv1. rewrite !lookup_insert_eq in Hv1. congruence. }
    apply wp_bind. eapply wp_mono; [eapply unref_storage_of_wp; [exact Hi1|by rewrite E1|done]|]. cbv beta.
    intros _ s2 h2 (Hi2 & Hb2 & Ha2 & Hv2 & Ho2). apply wp_bind. eapply change_buffer_wp; [done|].
    assert (Hne : bo_storage b <> Some tmp) by (intros E; rewrite Hq in E; injection E as ->; congruence).
    destruct (Ho2 tmp Hne) as [Hst2 Hv3]. rewrite Hs1, lookup_insert_eq in Hst2. rewrite Hv1, lookup_insert_eq in Hv3.
    set (b' := with_placement placement (with_storage (Some tmp) (with_storage None b))).
    assert (Hi3 : inv (set_buffers (<[p := b']> (buffers s2)) s2) C I X) by (eapply inv_attach; try done; cbn; congruence).
    eapply wp_mono; [eapply (data_copy_wp _ _ _ _ _ _ _ _ _ _ _ _ b' tmp _ w1); [done|exact Hi3| |lia|by left]|].
    + unfold stored. cbn. rewrite lookup_insert_eq, Hst2, Hv3. split_and!; [done..|cbn; congruence].
    + cbv beta. intros ret s' h' Hpost. eapply data_post_apart; [| | |exact Hpost]; [|done|done].
      eapply apart_trans; [exact Ha1|]. eapply apart_trans; [exact Ha2|apply apart_buffer].
  - destruct (cr_none _ _ _ _ _ _ _ Hcr eq_refl) as [Es Ev].
    assert (Hi1 : inv s1 C I X) by (unfold inv; rewrite E1; apply (cr_core _ _ _ _ _ _ _ Hcr)).
    assert (Hst1 : stored s1 p b q t w) by (unfold stored; rewrite E1, Es, Ev; by split_and!).
    apply wp_bind, on_pool_same; [eapply law_sync; by rewrite Ev|]. intros ret p' E.
    assert (Hst2 : stored (set_bpool p' s1) p b q t w) by by apply stored_pool.
    destruct (Z.eqb_spec ret 0) as [->|Hne]; cbn [negb].
    + eapply wp_mono; [eapply data_copy_wp; [done|by apply inv_same|exact Hst2|done|done]|]. cbv beta. intros ret s' h' Hpost.
      eapply data_post_apart; [| | |exact Hpost]; [|done|done]. eapply apart_trans; [exact Ha1|apply apart_pool].
    + eapply data_out_wp; [exact Hst2|]. intros p2 E2. split_and!.
      * apply (inv_same s1 _ _ _ p2); [done|cbn in E2; congruence].
      * eapply apart_trans; [exact Ha1|apply (apart_pool _ s1 p2)].
      * exists b. split_and!; [cbn; by rewrite E1|done|done|done].
Qed.

(** Whether the buffer needs another storage. *)
Lemma needs_storage_wp {A} p b newPool (k : bool -> MB A) Q s h C I X : inv s C I X -> buffers s !! p = Some b ->
  (forall p', pl_view p' = pl_view (bpool s) -> wpm (k true) Q (set_bpool p' s) h) ->
  (forall p' q t w, pl_view p' = pl_view (bpool s) -> stored (set_bpool p' s) p b q t w -> st_pool t = newPool -> size <= ps_size w ->
    wpm (k false) Q (set_bpool p' s) h) ->
  wpm (newBuffer ← needs_storage b newPool size; k newBuffer) Q s h.
Proof.
  intros Hi Hb Ht Hf. assert (Hs : set_bpool (bpool s) s = s) by by destruct s.
  apply wp_bind. unfold needs_storage. destruct (bo_storage b) as [q|] eqn:Hq; [|apply wp_ret; rewrite <- Hs; by apply Ht].
  destruct (inv_stored _ _ _ _ _ _ _ Hi Hb Hq) as (t & w & Hst & _). pose proof Hst as (_ & _ & Hst1 & Hw & HP & _).
  apply wp_bind. eapply get_storage_wp; [done|]. destruct (Z.eqb_spec (st_pool t) newPool) as [EP|_]; cbn [negb];
    [|apply wp_ret; rewrite <- Hs; by apply Ht].
  apply wp_bind, on_pool_wp. eapply wp_mono; [by eapply law_size|]. cbv beta. intros n p1 u1 [E1 ->].
  destruct (Z.ltb_spec (ps_size w) size); [apply wp_ret; by apply Ht|].
  apply wp_bind, on_pool_wp. eapply wp_mono; [eapply law_size; cbn; by rewrite E1|]. cbv beta. intros n p2 u2 [E2 ->]. apply wp_ret.
  cbn in E2. assert (E : pl_view p2 = pl_view (bpool s)) by congruence.
  change (set_bpool p2 (set_bpool p1 s)) with (set_bpool p2 s).
  destruct (_ <? _); [by apply Ht|]. eapply Hf; [done|by apply stored_pool|done|done].
Qed.

Lemma data_with_wp p b newPool placement s h C I X : inv s C I X -> buffers s !! p = Some b ->
  (forall pool, match newPool with None => bo_pool b | Some _ => newPool end = Some pool ->
     let placement := if placement =? 0 then bo_placement b else placement in
     ok pool size placement /\ (placement = bo_placement b \/ pl_setStatus pool <> None)) ->
  wpm (data_with create copy p size data newPool placement) (fun ret s' _ => data_post G (data && negb (size =? 0)) p b s C I X ret s') s h.
Proof.
  intros Hi Hb Hok. unfold data_with. apply wp_bind. eapply get_buffer_wp; [done|].
  assert (Hfail : forall s1 ret d, apart p s s1 -> buffers s1 !! p = Some b -> inv s1 C I X -> ret <> 0 -> data_post G d p b s C I X ret s1).
  { intros s1 ret d Ha Hb1 Hi1 Hr. split_and!; [done|done|]. exists b. by split_and!. }
  destruct (bool_decide (bo_type b = SIMPLE)) eqn:HT; [apply wp_ret; by apply Hfail|]. apply bool_decide_eq_false in HT.
  destruct (match newPool with None => bo_pool b | Some _ => newPool end) as [pool|]; [|apply wp_ret; by apply Hfail].
  destruct (Hok pool eq_refl) as [Ho1 Ho2]; cbv zeta in Ho1, Ho2. eapply needs_storage_wp; [done|done| |].
  - intros p' E. cbv zeta. destruct (bool_decide _); [apply wp_ret; apply Hfail; [apply apart_pool|done|by apply inv_same|done]|].
    eapply wp_mono; [by eapply data_new_wp; [apply inv_same|..]|]. cbv beta. intros ret s' h' Hpost.
    by eapply data_post_apart; [apply (apart_pool _ _ p')|..].
  - intros p' q t w E Hst HP Hsz. cbv zeta. set (pl := if placement =? 0 then _ else _) in *.
    assert (Hdone : forall p1 ret s', pl_view p1 = pl_view (bpool s) -> data_post G data p b (set_bpool p1 s) C I X ret s' ->
      data_post G (data && negb (size =? 0)) p b s C I X ret s').
    { intros p1 ret s' _ (Hi' & Ha' & b' & Hb' & T & A & HG). split_and!; [done|eapply apart_trans; [apply (apart_pool _ _ p1)|done]|].
      exists b'. split_and!; [done..|]. intros E0 [Hd _]%andb_true_iff. by apply HG. }
    pose proof Hst as (_ & Hq & Ht & Hw & HP' & _). apply wp_bind. eapply storage_of_wp; [done|]. apply wp_bind. eapply get_storage_wp; [done|].
    assert (Hi' : inv (set_bpool p' s) C I X) by by apply inv_same.
    apply wp_bind. destruct (negb (st_onList t =? 0)).
    + apply wp_ret. eapply wp_mono; [eapply data_busy_wp; [exact Hi'|exact Hst|done|done|by rewrite HP..]|]. cbv beta. intros ret s' h'. by apply Hdone.
    + apply wp_bind, on_pool_same; [by eapply law_sync|]. intros r p1 E1. apply wp_ret. cbn in E1.
      assert (E2 : pl_view p1 = pl_view (bpool s)) by congruence. change (set_bpool p1 (set_bpool p' s)) with (set_bpool p1 s).
      assert (Hst1 : stored (set_bpool p1 s) p b q t w) by (apply stored_pool; [|done]; unfold stored in *; cbn in *; by rewrite <- E).
      assert (Hi1 : inv (set_bpool p1 s) C I X) by by apply inv_same.
      destruct (negb (r =? 0)).
      * eapply wp_mono; [eapply data_busy_wp; [exact Hi1|exact Hst1|done|done|by rewrite HP..]|]. cbv beta. intros ret s' h'. by apply Hdone.
      * eapply wp_mono; [eapply data_copy_wp; [done|exact Hi1|exact Hst1|done|by rewrite HP]|]. cbv beta. intros ret s' h'. by apply Hdone.
Qed.

End data.

(** ** Copies of a buffer *)

(** The same storages, of the same sizes. *)
Definition same_sizes (v v' : gmap Z pool_storage) : Prop :=
  forall q, (fun w => (ps_pool w, ps_size w)) <$> v' !! q = (fun w => (ps_pool w, ps_size w)) <$> v !! q.

Lemma same_sizes_refl v : same_sizes v v.
Proof. by intros q. Qed.

Lemma same_sizes_trans v v1 v2 : same_sizes v v1 -> same_sizes v1 v2 -> same_sizes v v2.
Proof. intros H1 H2 q. by rewrite H2, H1. Qed.

Lemma same_sizes_insert v q w w' : v !! q = Some w -> ps_pool w' = ps_pool w -> ps_size w' = ps_size w -> same_sizes v (<[q := w']> v).
Proof. intros Hq E1 E2 x. rewrite lookup_insert. destruct (decide (q = x)) as [<-|]; [|done]. rewrite Hq. cbn. by rewrite E1, E2. Qed.

Lemma same_sizes_pools v v' : same_sizes v v' -> same_pools v v'.
Proof. intros Hs q. specialize (Hs q). destruct (v' !! q), (v !! q); cbn in *; congruence. Qed.

Lemma same_sizes_at v v' q w : same_sizes v v' -> v !! q = Some w -> exists w', v' !! q = Some w' /\ ps_pool w' = ps_pool w /\ ps_size w' = ps_size w.
Proof. intros Hs Hq. specialize (Hs q). rewrite Hq in Hs. destruct (v' !! q) as [w'|]; [|done]. cbn in Hs. exists w'. split; [done|]. by injection Hs. Qed.

Lemma stored_sizes s p b q t w p' : stored s p b q t w -> same_sizes (pl_view (bpool s)) (pl_view p') ->
  exists w', stored (set_bpool p' s) p b q t w' /\ ps_size w' = ps_size w.
Proof.
  intros (H1 & H2 & H3 & H4 & H5 & H6) Hs. destruct (same_sizes_at _ _ _ _ Hs H4) as (w' & Hw' & HP & Hsz).
  exists w'. split; [|done]. unfold stored. cbn. by rewrite Hw', HP.
Qed.

(** A client's function that copies the buffer [b] to [nb]. *)
Definition accel_ok (f : Z -> Z -> MB Z) : Prop := forall nb b s h x q t w x' q' t' w',
  stored s nb x q t w -> stored s b x' q' t' w' -> ps_size w' <= ps_size w ->
  wpm (f nb b) (fun _ s' _ => exists p', s' = set_bpool p' s /\ same_sizes (pl_view (bpool s)) (pl_view p')) s h.

Lemma inv_sizes s C I X p : inv s C I X -> same_sizes (pl_view (bpool s)) (pl_view p) -> inv (set_bpool p s) C I X.
Proof. intros Hi Hs. by apply inv_pools, same_sizes_pools. Qed.

(** A new buffer with a storage held. *)
Lemma core_clone bs st v C I X n nb q t : core bs st v C I (q :: X) -> bs !! n = None -> st !! q = Some t ->
  bo_type nb <> SIMPLE -> bo_refs nb = 1 -> bo_storage nb = Some q -> bo_pool nb = Some (st_pool t) -> st_container t = None ->
  core (<[n := nb]> bs) st v (upd C n 1) I X.
Proof.
  intros Hc Hn Ht T R S L Hct.
  pose proof (core_new_buffer Hc n (with_storage None nb) 1 Hn eq_refl T R ltac:(lia)) as Hc1.
  rewrite <- (insert_insert_eq bs n nb (with_storage None nb)). eapply (core_same_buffer Hc1).
  - apply lookup_insert_eq.
  - unfold buffer_ok, upd. rewrite decide_True by done. split_and!; [lia|done|done|]. rewrite S. intros x [= <-]. exists t.
    by rewrite decide_False.
  - done.
  - intros x. rewrite held_cons. unfold owns. cbn [bo_storage with_storage]. rewrite S, (decide_False (P := None = Some x)) by done.
    destruct (decide (q = x)) as [->|Hne]; [rewrite decide_True by done; rewrite decide_False by done; lia|]. rewrite decide_False by congruence. lia.
  - intros x Hx. apply (c_held _ _ _ _ _ _ Hc). by right.
Qed.

Lemma upd_back C n m x : C n = m -> upd (upd C n 1) n m x = C x.
Proof. intros <-. unfold upd. by case_decide; subst. Qed.

(** The copy is given up. *)
Lemma clone_undo_wp n nb s h C I X : inv s (upd C n 1) I X -> buffers s !! n = Some nb -> bo_type nb <> SIMPLE -> C n = 0 ->
  wpm (unref_storage_of n ;; free_buffer n ;; mret (None : option Z)) (fun r s' _ => r = None /\ inv s' C I X /\ apart n s s' /\ buffers s' !! n = None /\
    forall x, bo_storage nb <> Some x -> pl_view (bpool s') !! x = pl_view (bpool s) !! x) s h.
Proof.
  intros Hi Hb HT HC. apply wp_bind. eapply wp_mono; [by eapply unref_storage_of_wp|]. cbv beta. intros _ s1 h1 (Hi1 & Hb1 & Ha1 & _ & Ho).
  apply wp_bind. apply free_buffer_wp; [by eexists|]. apply wp_ret. split_and!; [done| | |apply lookup_delete_eq|intros x Hx; by apply Ho].
  - eapply core_ext; [by eapply (core_free_buffer Hi1)|]. intros x. symmetry. by apply upd_back.
  - eapply apart_trans; [done|apply apart_free].
Qed.

(** A copy of the buffer [p] that the client holds. *)
Definition cloned (r : option Z) (b : buffer_object) (w : pool_storage) s C I X s' : Prop :=
  match r with
  | None => inv s' C I X /\ (exists n, buffers s !! n = None /\ buffers s' !! n = None /\ apart n s s') /\
      forall x w, pl_view (bpool s) !! x = Some w -> exists w', pl_view (bpool s') !! x = Some w' /\ ps_size w' = ps_size w
  | Some n => inv s' (upd C n 1) I X /\ buffers s !! n = None /\ C n = 0 /\ apart n s s' /\ exists nb q t w', stored s' n nb q t w' /\
      bo_type nb = bo_type b /\ bo_pool nb = bo_pool b /\ st_container t = None /\ st_refs t = 1 /\ st_onList t = 0 /\ ps_size w <= ps_size w'
  end.

(** Both storages are mapped: the copying itself. *)
Lemma copy_both_wp q q' w w' v v' s h : q <> q' -> ps_size w <= ps_size w' ->
  pl_view (bpool s) !! q = Some (with_mapped (Some v) w) -> pl_view (bpool s) !! q' = Some (with_mapped (Some v') w') ->
  wpm (copy_both q q' v v')
    (fun _ s' _ => exists p', s' = set_bpool p' s /\ same_sizes (pl_view (bpool s)) (pl_view p')) s h.
Proof.
  intros Hne Hsz Hw Hw'. pose proof (same_sizes_refl (pl_view (bpool s))) as S0. unfold copy_both.
  apply wp_bind, on_pool_wp. eapply wp_mono; [by eapply law_size|]. cbv beta. intros n p1 u1 [E1 ->].
  apply wp_bind, on_pool_wp. eapply wp_mono; [eapply (law_read q (with_mapped (Some v) w)); cbn; [by rewrite E1|done|done|unfold ps_size; lia|unfold ps_size; cbn; lia]|].
  cbv beta. intros d p2 u2 [E2 ->]. cbn in E2.
  set (d := slice _ _ _). assert (Hd : Z.of_nat (length d) <= ps_size w').
  { unfold d, slice. rewrite length_take, length_drop. unfold ps_size in *. cbn. lia. }
  apply wp_bind, on_pool_wp. eapply wp_mono; [eapply (law_write q' (with_mapped (Some v') w')); cbn; [by rewrite E2, E1|done|done|exact Hd]|].
  cbv beta. intros _ p3 u3 E3. cbn in E3. rewrite E2, E1 in E3.
  assert (S3 : same_sizes (pl_view (bpool s)) (pl_view p3)).
  { rewrite E3. eapply same_sizes_insert; [done|done|]. unfold ps_size. cbn. rewrite length_splice; [done|done|]. unfold ps_size in Hd. lia. }
  destruct (same_sizes_at _ _ _ _ S3 Hw') as (w3 & Hw3 & _).
  apply wp_bind, on_pool_wp. eapply wp_mono; [by eapply (law_unmap q' w3)|]. cbv beta. intros _ p4 u4 [m4 E4]. cbn in E4.
  assert (S4 : same_sizes (pl_view (bpool s)) (pl_view p4)) by (eapply same_sizes_trans; [done|rewrite E4; by eapply same_sizes_insert]).
  destruct (same_sizes_at _ _ _ _ S4 Hw) as (w4 & Hw4 & _).
  apply wp_bind, on_pool_wp. eapply wp_mono; [by eapply (law_unmap q w4)|]. cbv beta. intros _ p5 u5 [m5 E5]. cbn in E5.
  assert (S5 : same_sizes (pl_view (bpool s)) (pl_view p5)) by (eapply same_sizes_trans; [done|rewrite E5; by eapply same_sizes_insert]).
  destruct (same_sizes_at _ _ _ _ S5 Hw) as (w5 & Hw5 & _).
  apply on_pool_same; [by eapply (law_release q w5)|]. intros _ p6 E6. cbn in E6. exists p6. split; [done|]. by rewrite E6.
Qed.

(** The result of the copy: it is there, or was given up. *)
Definition copied (n q' : Z) s C I X (r : option Z) s' : Prop :=
  match r with
  | Some n' => n' = n /\ exists p', s' = set_bpool p' s /\ same_sizes (pl_view (bpool s)) (pl_view p')
  | None => inv s' C I X /\ apart n s s' /\ buffers s' !! n = None /\
      forall x w, x <> q' -> pl_view (bpool s) !! x = Some w -> exists w', pl_view (bpool s') !! x = Some w' /\ ps_size w' = ps_size w
  end.

Section clone_copy.
Context {p n : Z} {b : buffer_object} {q : Z} {t : buf_storage} {w : pool_storage} {nb : buffer_object} {q' : Z} {t' : buf_storage}
  {w' : pool_storage} {s : bm_state P} {C : Z -> Z} {I : gmap Z (list Z)} {X : list Z}.
Context (Hi : inv s (upd C n 1) I X) (Hst : stored s p b q t w) (Hst' : stored s n nb q' t' w')
  (HT : bo_type nb <> SIMPLE) (HC : C n = 0).

Lemma copy_undo p1 h : same_sizes (pl_view (bpool s)) (pl_view p1) ->
  wpm (unref_storage_of n ;; free_buffer n ;; mret None) (fun r s' _ => copied n q' s C I X r s') (set_bpool p1 s) h.
Proof.
  intros Hs. destruct Hst' as (Hnb & Hq' & _). eapply wp_mono; [eapply (clone_undo_wp n nb _ _ C I X); [by apply inv_sizes|done..]|]. cbv beta.
  intros r s' h' (-> & Hi' & Ha' & Hn' & Ho). split; [done|]. split; [by eapply apart_trans; [apply (apart_pool _ _ p1)|]|]. split; [done|].
  intros x wx Hx Hwx. rewrite Ho by congruence. destruct (same_sizes_at _ _ _ _ Hs Hwx) as (w1 & ? & _ & ?). by exists w1.
Qed.

Lemma same_pool_wp {A} (k : unit -> MB A) Q s1 h : wpm (k tt) Q s1 h -> wpm (same_pool b t ≫= k) Q s1 h.
Proof. intros Hk. destruct Hst as (_ & _ & _ & _ & _ & HB). apply wp_bind. unfold same_pool. by rewrite bool_decide_eq_true_2. Qed.

Lemma copy_undo2 p1 h : same_sizes (pl_view (bpool s)) (pl_view p1) ->
  wpm (same_pool b t ;; on_pool (pl_releasefromcpu q WSBM_SYNCCPU_READ) ;; unref_storage_of n ;; free_buffer n ;; mret None)
    (fun r s' _ => copied n q' s C I X r s') (set_bpool p1 s) h.
Proof.
  intros Hs. destruct Hst as (_ & _ & _ & Hw & _). apply same_pool_wp. destruct (same_sizes_at _ _ _ _ Hs Hw) as (w1 & Hw1 & _).
  apply wp_bind, on_pool_same; [by eapply (law_release q w1)|]. intros _ p2 E2. cbn in E2.
  change (set_bpool p2 (set_bpool p1 s)) with (set_bpool p2 s). apply copy_undo. by rewrite E2.
Qed.

Lemma clone_copy_wp h : q <> q' -> ps_size w <= ps_size w' -> wpm (clone_copy p n) (fun r s' _ => copied n q' s C I X r s') s h.
Proof.
  intros Hne Hsz. pose proof Hst as (Hb & Hq & Ht & Hw & HP & HB). pose proof Hst' as (Hnb & Hq' & Ht' & Hw' & HP' & HB').
  unfold clone_copy. apply wp_bind. eapply get_buffer_wp; [done|]. apply wp_bind. eapply storage_of_wp; [done|]. apply wp_bind. eapply get_storage_wp; [done|].
  apply wp_bind. eapply get_buffer_wp; [done|]. apply wp_bind. eapply storage_of_wp; [done|].
  apply wp_bind, on_pool_same; [by eapply law_sync|]. intros ret p1 E1. destruct (Z.eqb_spec ret 0) as [->|_]; cbn [negb]; [|apply copy_undo; by rewrite E1].
  apply wp_bind, on_pool_wp. eapply wp_mono; [eapply law_map; cbn; by rewrite E1|]. cbv beta. intros [ret v] p2 u2 E2. cbn in E2.
  change (set_bpool p2 (set_bpool p1 s)) with (set_bpool p2 s). destruct (Z.eqb_spec ret 0) as [->|_]; cbn [negb]; [|apply copy_undo2; by rewrite E2, E1].
  assert (S2 : same_sizes (pl_view (bpool s)) (pl_view p2)) by (rewrite E2, E1; by apply (same_sizes_insert _ _ w)).
  apply wp_bind, on_pool_wp. eapply wp_mono; [eapply law_map; cbn; rewrite E2, E1, lookup_insert_ne by done; exact Hw'|].
  cbv beta. intros [ret v'] p3 u3 E3. cbn in E3.
  change (set_bpool p3 (set_bpool p2 s)) with (set_bpool p3 s). destruct (Z.eqb_spec ret 0) as [->|_]; cbn [negb].
  - assert (S3 : same_sizes (pl_view (bpool s)) (pl_view p3)).
    { eapply same_sizes_trans; [exact S2|]. rewrite E3. apply (same_sizes_insert _ _ w'); [|done..]. by rewrite E2, E1, lookup_insert_ne. }
    rewrite E2, E1 in E3.
    apply wp_bind. eapply wp_mono; [eapply (copy_both_wp q q' w w'); [done|done|cbn; rewrite E3..]|].
    + by rewrite lookup_insert_ne, lookup_insert_eq.
    + by rewrite lookup_insert_eq.
    + cbv beta. intros _ s4 h4 (p4 & -> & S4). apply wp_ret. split; [done|]. exists p4. split; [done|]. by eapply same_sizes_trans.
  - apply same_pool_wp. assert (S3 : same_sizes (pl_view (bpool s)) (pl_view p3)) by by rewrite E3.
    destruct (same_sizes_at _ _ _ _ S3 Hw) as (w3 & Hw3 & _). apply wp_bind, on_pool_wp. eapply wp_mono; [by eapply (law_unmap q w3)|].
    cbv beta. intros _ p4 u4 [m4 E4]. cbn in E4. change (set_bpool p4 (set_bpool p3 s)) with (set_bpool p4 s). apply copy_undo2.
    eapply same_sizes_trans; [exact S3|]. rewrite E4. by eapply same_sizes_insert.
Qed.

End clone_copy.

Lemma alloc_buffer_wp b Q s h : (forall n, buffers s !! n = None -> forall h', Q (Some n) (set_buffers (<[n := b]> (buffers s)) s) h') ->
  (forall h', Q None s h') -> wpm (alloc_buffer b) Q s h.
Proof.
  intros H1 H2. unfold alloc_buffer, wp. destruct (bm_alloc h (used s)) as [n|] eqn:E; [|apply H2]. apply H1.
  apply bm_alloc_new in E as [_ Hn]. apply not_elem_of_dom. unfold used in Hn. set_solver.
Qed.

(** The new buffer has its storage: the contents are copied. *)
Lemma clone_tail_wp p n b q t w nb q' t' w' accel s s3 h C I X : inv s3 (upd C n 1) I X -> stored s3 p b q t w -> stored s3 n nb q' t' w' ->
  q <> q' -> ps_size w <= ps_size w' -> bo_type b <> SIMPLE -> bo_type nb = bo_type b -> bo_pool nb = bo_pool b ->
  st_container t' = None -> st_refs t' = 1 -> st_onList t' = 0 ->
  buffers s !! n = None -> C n = 0 -> apart n s s3 ->
  (forall x w, pl_view (bpool s) !! x = Some w -> x <> q' /\ pl_view (bpool s3) !! x = Some w) -> (forall f, accel = Some f -> accel_ok f) ->
  wpm (copied ← match accel with
                | None => mret false
                | Some accelCopy => r ← accelCopy n p; mret (r =? 0)
                end;
       if (copied : bool) then mret (Some n) else clone_copy p n) (fun r s' _ => cloned r b w s C I X s') s3 h.
Proof.
  intros Hi3 Hst3 Hst3' Hne Hsz HT ET EP Hct Hr1 Hr2 Hn HC Ha3 Hv Haccel.
  assert (Hok : forall p', same_sizes (pl_view (bpool s3)) (pl_view p') -> cloned (Some n) b w s C I X (set_bpool p' s3)).
  { intros p' Hs. destruct (stored_sizes _ _ _ _ _ _ _ Hst3' Hs) as (w4 & Hst4 & Hsz4). split; [by apply inv_sizes|]. split_and!; [done|done| |].
    - eapply apart_trans; [exact Ha3|apply apart_pool].
    - exists nb, q', t', w4. split_and!; [done..|lia]. }
  assert (Hcopy : forall p' h', same_sizes (pl_view (bpool s3)) (pl_view p') -> wpm (clone_copy p n) (fun r s' _ => cloned r b w s C I X s') (set_bpool p' s3) h').
  { intros p' h' Hs. destruct (stored_sizes _ _ _ _ _ _ _ Hst3 Hs) as (w4 & Hst4 & Hsz4). destruct (stored_sizes _ _ _ _ _ _ _ Hst3' Hs) as (w5 & Hst5 & Hsz5).
    eapply wp_mono; [eapply (clone_copy_wp (inv_sizes _ _ _ _ _ Hi3 Hs) Hst4 Hst5); [by rewrite ET|done|done|lia]|]. cbv beta. intros [n'|] s' h''.
    - intros (-> & p2 & -> & Hs2'). apply (Hok p2). cbn in Hs2'. by eapply same_sizes_trans.
    - intros (Hi' & Ha' & Hn' & Ho). split; [done|]. split.
      { exists n. split; [done|]. split; [done|]. eapply apart_trans; [exact Ha3|]. by eapply apart_trans; [apply (apart_pool _ _ p')|]. }
      intros x wx Hx. destruct (Hv x wx Hx) as [Hxq Hx3]. destruct (same_sizes_at _ _ _ _ Hs Hx3) as (w1 & Hw1 & _ & Ew1).
      destruct (Ho x w1 Hxq Hw1) as (w2 & ? & ?). exists w2. split; [done|congruence]. }
  apply wp_bind. destruct accel as [f|].
  - apply wp_bind. eapply wp_mono; [eapply (Haccel f eq_refl n p s3 _ nb q' t' w' b q t w); [done|done|lia]|]. cbv beta.
    intros r s4 h4 (p' & -> & Hs). apply wp_ret. destruct (r =? 0); [apply wp_ret; by apply Hok|by apply Hcopy].
  - apply wp_ret. replace s3 with (set_bpool (bpool s3) s3) by by destruct s3. apply Hcopy, same_sizes_refl.
Qed.

Lemma clone_wp p b q t w accel s h C I X : inv s C I X -> stored s p b q t w -> bo_type b <> SIMPLE ->
  pl_accepts (st_pool t) (ps_size w) (bo_placement b) -> (forall f, accel = Some f -> accel_ok f) ->
  wpm (wsbmBOClone p accel) (fun r s' _ => cloned r b w s C I X s') s h.
Proof.
  intros Hi Hst HT Hacc Haccel. pose proof Hst as (Hb & Hq & Ht & Hw & HP & HB). unfold wsbmBOClone.
  apply wp_bind. eapply get_buffer_wp; [done|]. apply wp_bind, alloc_buffer_wp.
  2:{ intros h'. apply wp_ret. split; [done|]. split; [|by eauto].
      assert (buffers s !! fresh (dom (buffers s)) = None) by apply not_elem_of_dom, is_fresh. by exists (fresh (dom (buffers s))). }
  intros n Hn h1. assert (Hpn : p <> n) by (intros ->; congruence). pose proof (c_none _ _ _ _ _ _ Hi n Hn) as HC.
  set (s1 := set_buffers _ s). apply wp_bind. unfold wsbmStorageClone.
  apply wp_bind. eapply get_buffer_wp; [cbn; by rewrite lookup_insert_ne|]. apply wp_bind. eapply storage_of_wp; [done|].
  apply wp_bind. eapply get_storage_wp; [done|]. apply wp_bind, on_pool_wp. eapply wp_mono; [by eapply law_size|]. cbv beta. intros sz p1 u1 [E1 ->].
  eapply wp_mono; [eapply (create_storage_wp (buffers s)); cbn; [rewrite E1; exact Hi|done]|]. cbv beta. intros r s2 h2 (-> & Hcr & Hpc).
  cbn in Hpc. rewrite E1 in Hpc. destruct (cr_same _ _ _ _ _ _ _ Hcr) as (B1 & B2 & B3). cbn in B1.
  apply wp_bind. eapply change_buffer_wp; [rewrite B1; apply lookup_insert_eq|]. rewrite B1, insert_insert_eq.
  pose proof (cr_core _ _ _ _ _ _ _ Hcr) as Hc2. destruct r as [q'|].
  2:{ apply wp_bind, free_buffer_wp; [eexists; apply lookup_insert_eq|]. apply wp_ret. cbn. rewrite delete_insert_id by done. split; [exact Hc2|].
      split; [exists n; split_and!; [done|done|by split]|]. intros x wx Hx. cbn. rewrite Hpc. by exists wx. }
  destruct Hpc as (Hnv & w' & Hw' & Hsz & Hv2). destruct (cr_some _ _ _ _ _ _ _ Hcr q' eq_refl) as (Hns & w2 & Hs2 & Hv2').
  cbn in Hns, Hs2, Hv2'. assert (w2 = w') as ->.
  { rewrite Hv2, E1 in Hv2'. apply (f_equal (fun m => m !! q')) in Hv2'. rewrite !lookup_insert_eq in Hv2'. congruence. }
  assert (Hne : q <> q') by (intros ->; congruence).
  apply wp_bind. eapply change_buffer_wp; [apply lookup_insert_eq|]. cbn [buffers set_buffers]. rewrite insert_insert_eq.
  change (set_buffers ?m (set_buffers _ s2)) with (set_buffers m s2).
  set (nb := with_refs 1 (with_storage (Some q') b)). set (s3 := set_buffers (<[n := nb]> (buffers s)) s2).
  set (t' := {| st_pool := ps_pool w'; st_refs := 1; st_onList := 0; st_container := None |}) in *.
  assert (Hst3 : stored s3 p b q t w).
  { unfold stored. cbn. rewrite lookup_insert_ne, Hs2, Hv2, !lookup_insert_ne by done. by split_and!. }
  assert (Hst3' : stored s3 n nb q' t' w').
  { unfold stored. cbn. rewrite lookup_insert_eq, Hs2, Hv2, !lookup_insert_eq, Hw'. by split_and!. }
  assert (Hi3 : inv s3 (upd C n 1) I X).
  { eapply (core_clone _ _ _ _ _ _ n nb q' t' Hc2); [done|by rewrite Hs2, lookup_insert_eq|done|done|done|cbn; congruence|done]. }
  assert (Ha3 : apart n s s3) by (split; [done|done| |]; intros x bx Hx; cbn; by rewrite lookup_insert_ne).
  eapply (clone_tail_wp p n b q t w nb q' t' w'); try done; [lia|]. intros x wx Hx. assert (Hxq : x <> q') by (intros ->; cbn in Hnv; congruence).
  split; [done|]. cbn. by rewrite Hv2, lookup_insert_ne.
Qed.

Lemma sub_write_wp p b q t w offset size d s h : stored s p b q t w -> 0 <= offset -> 0 <= size <= Z.of_nat (length d) ->
  offset + size <= ps_size w ->
  wpm (sub_write q offset size d) (fun ret s' _ => exists p', s' = set_bpool p' s /\ same_sizes (pl_view (bpool s)) (pl_view p') /\
    (ret = 0 -> exists w', pl_view p' !! q = Some w' /\ ps_bytes w' = splice offset (take (Z.to_nat size) d) (ps_bytes w))) s h.
Proof.
  intros (_ & _ & _ & Hw & _) Ho Hs Hb. unfold sub_write.
  apply wp_bind, on_pool_wp. eapply wp_mono; [by eapply law_map|]. cbv beta. intros [ret v] p1 u1 E1. cbn in E1.
  destruct (Z.eqb_spec ret 0) as [->|Hne]; cbn [negb].
  2:{ apply wp_bind, on_pool_same; [eapply law_release; cbn; by rewrite E1|]. intros _ p2 E2. cbn in E2. apply wp_ret. exists p2.
      rewrite E2, E1. by split_and!. }
  assert (Hl : Z.of_nat (length (take (Z.to_nat size) d)) = size) by (rewrite length_take; lia).
  apply wp_bind. unfold copy_to. destruct (Z.ltb_spec (Z.of_nat (length d)) size); [lia|].
  apply on_pool_wp. eapply wp_mono; [eapply (law_write q (with_mapped (Some v) w)); cbn; [by rewrite E1, lookup_insert_eq|done|done|rewrite Hl; unfold ps_size in *; cbn; lia]|].
  cbv beta. intros _ p2 u2 E2. cbn in E2. apply wp_bind, on_pool_wp. eapply wp_mono; [eapply law_unmap; cbn; rewrite E2; apply lookup_insert_eq|].
  cbv beta. intros _ p3 u3 [m E3]. cbn in E3. rewrite E2, E1, !insert_insert_eq in E3.
  apply wp_bind, on_pool_same; [eapply law_release; cbn; rewrite E3; apply lookup_insert_eq|]. intros _ p4 E4. cbn in E4. apply wp_ret.
  exists p4. split; [done|]. rewrite E4, E3. split.
  - eapply same_sizes_insert; [done|done|]. unfold ps_size in *. cbn. rewrite length_splice; [done|done|lia].
  - intros _. eexists. split; [apply lookup_insert_eq|done].
Qed.

(** ** References *)

(** What giving back a reference to the buffer [p] leaves alone. *)
Definition unreferenced (p : Z) (b : buffer_object) s s' : Prop :=
  apart p s s' /\ pl_view (bpool s') ⊆ pl_view (bpool s) /\
  forall x, bo_storage b <> Some x -> storages s' !! x = storages s !! x /\ pl_view (bpool s') !! x = pl_view (bpool s) !! x.

Lemma inv_client s p b n X' C I X : inv s C I X -> buffers s !! p = Some b -> bo_type b = SIMPLE -> 0 <= n ->
  (forall q, held X' q = held X q + if decide (bo_storage b = Some q) then C p - n else 0) ->
  (forall q, q ∈ X' -> q ∈ X \/ bo_storage b = Some q) -> inv s (upd C p n) I X'.
Proof.
  intros Hi Hb HT Hn HX HX'. destruct (c_buffer _ _ _ _ _ _ Hi p b Hb) as (H1 & H2 & H3 & H4).
  unfold inv. rewrite <- (insert_id (buffers s) p b Hb). eapply (core_buffer Hi); [done| |done| |].
  - unfold buffer_ok, upd. rewrite decide_True by done. by split_and!.
  - intros q. rewrite HX. unfold owns, upd. rewrite HT, !(decide_True (P := SIMPLE = SIMPLE)), (decide_True (P := p = p)) by done.
    repeat case_decide; try done; lia.
  - intros q Hq. destruct (HX' q Hq) as [?|E]; [by apply (c_held _ _ _ _ _ _ Hi)|]. destruct (H4 q E) as (t & ? & _). by exists t.
Qed.

Lemma inv_refs s p b n C I X : inv s C I X -> buffers s !! p = Some b -> bo_type b <> SIMPLE -> 0 <= n < 2 ^ 31 ->
  inv (set_buffers (<[p := with_refs n b]> (buffers s)) s) (upd C p n) I X.
Proof.
  intros Hi Hb HT Hn. destruct (c_buffer _ _ _ _ _ _ Hi p b Hb) as (H1 & H2 & H3 & H4).
  eapply (core_buffer Hi); [done| |done| |apply (c_held _ _ _ _ _ _ Hi)].
  - unfold buffer_ok, upd. rewrite decide_True by done. cbn. rewrite int32_id by lia. split_and!; [lia|done..].
  - intros q. unfold owns. cbn. repeat case_decide; try done; lia.
Qed.

Lemma unreference_wp p b s h C I X : inv s C I X -> buffers s !! p = Some b -> 0 < C p < 2 ^ 31 ->
  wpm (wsbmBOUnreference (Some p)) (fun _ s' _ => inv s' (upd C p (C p - 1)) I X /\ unreferenced p b s s' /\
    (bo_type b = SIMPLE -> buffers s' ⊆ buffers s) /\
    (bo_type b <> SIMPLE -> if C p =? 1 then buffers s' !! p = None else buffers s' !! p = Some (with_refs (C p - 1) b))) s h.
Proof.
  intros Hi Hb HC. destruct (c_buffer _ _ _ _ _ _ Hi p b Hb) as (H1 & H2 & H3 & H4). unfold wsbmBOUnreference.
  apply wp_bind. eapply get_buffer_wp; [done|]. destruct (decide (bo_type b = SIMPLE)) as [HT|HT].
  { rewrite bool_decide_eq_true_2 by done. destruct (H2 HT) as [q Hq]. rewrite Hq. eapply wp_mono; [apply (unref_wp q s _ (upd C p (C p - 1)) I X)|].
    - eapply inv_client; [done|done|done|lia| |].
      + intros x. rewrite held_cons, Hq. destruct (decide (q = x)) as [->|]; [rewrite decide_True by done; lia|].
        rewrite decide_False by congruence. lia.
      + intros x [->|?]%elem_of_cons; [by right|by left].
    - cbv beta. intros _ s' h' [Hi' Hu]. split; [done|]. split; [|split; [intros _; apply (u_old _ _ _ Hu)|done]]. split_and!; [by eapply apart_unrefed|apply (u_view _ _ _ Hu)|].
      intros x Hx. apply (u_others _ _ _ Hu). congruence. }
  rewrite bool_decide_eq_false_2 by done. rewrite (H3 HT). rewrite int32_id by lia. apply wp_bind, set_buffer_wp; [by eexists|].
  assert (Hi1 : inv (set_buffers (<[p := with_refs (C p - 1) b]> (buffers s)) s) (upd C p (C p - 1)) I X) by (apply inv_refs; [done|done|done|lia]).
  destruct (Z.eqb_spec (C p - 1) 0) as [E|E].
  - apply wp_bind. eapply wp_mono; [eapply unref_storage_of_wp; [exact Hi1|apply lookup_insert_eq|done]|]. cbv beta.
    intros _ s2 h2 (Hi2 & Hb2 & Ha2 & Hv2 & Ho2). apply free_buffer_wp; [by eexists|]. split.
    + eapply core_ext; [by eapply (core_free_buffer Hi2)|]. intros x. rewrite E. unfold upd. by case_decide.
    + split; [|split; [done|intros _; rewrite (proj2 (Z.eqb_eq _ _)) by lia; apply lookup_delete_eq]]. split_and!; [|done|done]. eapply apart_trans; [apply apart_buffer|]. eapply apart_trans; [exact Ha2|apply apart_free].
  - apply wp_ret. split; [done|]. split; [split_and!; [apply apart_buffer|done|done]|]. split; [done|].
    intros _. rewrite (proj2 (Z.eqb_neq _ _)) by lia. apply lookup_insert_eq.
Qed.

Lemma reference_buffer_wp p b s h C I X : inv s C I X -> buffers s !! p = Some b -> C p + 1 < 2 ^ 31 ->
  (forall q t, bo_storage b = Some q -> storages s !! q = Some t -> st_refs t + 1 < 2 ^ 31) ->
  wpm (wsbmBOReference p) (fun r s' _ => r = p /\ inv s' (upd C p (C p + 1)) I X /\ apart p s s') s h.
Proof.
  intros Hi Hb HC Hr. destruct (c_buffer _ _ _ _ _ _ Hi p b Hb) as (H1 & H2 & H3 & H4). unfold wsbmBOReference.
  apply wp_bind. eapply get_buffer_wp; [done|]. apply wp_bind. destruct (decide (bo_type b = SIMPLE)) as [HT|HT].
  { rewrite bool_decide_eq_true_2 by done. destruct (H2 HT) as [q Hq]. destruct (H4 q Hq) as (t & Ht & _). apply wp_bind. eapply storage_of_wp; [done|].
    eapply change_storage_wp; [done|]. apply wp_ret. split; [done|]. split; [|by split].
    eapply (inv_client _ p b); [apply (core_take Hi Ht); by eapply Hr|done|done|lia| |].
    - intros x. rewrite held_cons, Hq. destruct (decide (q = x)) as [->|]; [rewrite decide_True by done; lia|]. rewrite decide_False by congruence. lia.
    - intros x Hx. left. by right. }
  rewrite bool_decide_eq_false_2 by done. rewrite (H3 HT). apply set_buffer_wp; [by eexists|]. apply wp_ret. split_and!; [done| |apply apart_buffer].
  apply inv_refs; [done|done|done|lia].
Qed.

(** The buffer takes the storage of its copy. *)
Lemma take_clone_wp p b q0 t0 w r s0 s h C I X : inv s0 C I X -> stored s0 p b q0 t0 w -> cloned r b w s0 C I X s -> buffers s !! p = Some b -> bo_type b <> SIMPLE ->
  wpm (take_clone p r q0) (fun q s' _ => inv s' C I X /\ apart p s0 s' /\ exists b' t' w', stored s' p b' q t' w' /\
    bo_type b' = bo_type b /\ bo_alignment b' = bo_alignment b /\
    ps_size w <= ps_size w') s h.
Proof.
  intros Hi0 (Hb0 & Hq & Ht0 & Hw0 & _) Hcl Hb HT. destruct r as [n|]; cbn [take_clone].
  2:{ apply wp_ret. destruct Hcl as (Hi & (n & Hn & Hn' & Ha) & Hv). split; [done|]. split.
      - destruct Ha as [A1 A2 A3 A4]. split; [done|done|intros x bx Hx Hbx HTx; apply A3; [|done|done]|intros x bx Hx Hbx; apply A4; [|done]];
          by intros ->; congruence.
      - destruct (inv_stored _ _ _ _ _ _ _ Hi Hb Hq) as (t & w1 & Hst & _). exists b, t, w1. split_and!; [done..|].
        destruct (Hv q0 w Hw0) as (w2 & Hw2 & E). destruct Hst as (_ & _ & _ & Hw1 & _). rewrite Hw1 in Hw2. injection Hw2 as ->. lia. }
  destruct Hcl as (Hi & Hn & HC & Ha & nb & q & t & w' & Hst & ET & EP & Hct & Hr & Hol & Hsz).
  assert (Hnp : n <> p) by (intros ->; congruence). pose proof Hst as (Hnb & Hnq & Ht & Hw & HP & HB).
  apply wp_bind. eapply get_buffer_wp; [done|]. apply wp_bind. eapply storage_of_wp; [done|]. apply wp_bind. eapply change_storage_wp; [done|].
  assert (Hi1 : inv (set_storages (<[q := storage_refs (st_refs t + 1) t]> (storages s)) s) (upd C n 1) I (q :: X)) by (apply (core_take Hi Ht); lia).
  set (s1 := set_storages _ s) in *.
  apply wp_bind. eapply wp_mono; [eapply (unref_storage_of_wp p b s1); [done|done|done]|]. cbv beta. intros _ s2 h2 (Hi2 & Hb2 & Ha2 & Hv2 & Ho2).
  assert (Hqq : bo_storage b <> Some q).
  { intros E. rewrite Hq in E. injection E as ->. pose proof (so_refs _ _ _ _ _ _ (c_storage _ _ _ _ _ _ Hi q t Ht)) as E. rewrite Hr in E. unfold refs_of in E.
    assert (N1 : owns (upd C n 1) q p b = 1) by (unfold owns; by rewrite Hq, decide_True, decide_False).
    assert (N2 : owns (upd C n 1) q n nb = 1) by (unfold owns; rewrite Hnq, decide_True, decide_False by congruence; done).
    rewrite (msum_delete _ _ _ _ Hnb), N2 in E. pose proof (held_nonneg X q).
    assert (0 <= msum (listed q) I) by (apply msum_nonneg; intros; apply listed_nonneg).
    assert (owns (upd C n 1) q p b <= msum (owns (upd C n 1) q) (delete n (buffers s))); [|lia].
    apply msum_ge; [|by rewrite lookup_delete_ne]. intros k v [_ Hk]%lookup_delete_Some. by apply (owns_nonneg Hi). }
  destruct (Ho2 q Hqq) as [Ht2 Hw2]. cbn in Ht2, Hw2. rewrite lookup_insert_eq in Ht2. rewrite Hw in Hw2.
  assert (Hnb2 : buffers s2 !! n = Some nb) by (apply (a_buffers _ _ _ Ha2); [done|done|congruence]).
  apply wp_bind. eapply change_buffer_wp; [done|]. set (b' := with_storage (Some q) (with_storage None b)).
  assert (HB2 : bo_pool b = Some (st_pool t)) by congruence.
  assert (Hi3 : inv (set_buffers (<[p := b']> (buffers s2)) s2) (upd C n 1) I X) by (eapply inv_attach; try done).
  set (s3 := set_buffers _ s2) in *. assert (Hnb3 : buffers s3 !! n = Some nb) by (cbn; by rewrite lookup_insert_ne).
  apply wp_bind. eapply wp_mono; [eapply (unreference_wp n nb); [exact Hi3|done|unfold upd; rewrite decide_True by done; lia]|]. cbv beta.
  intros _ s4 h4 (Hi4 & (Ha4 & Hv4 & _) & _ & Hn4). apply wp_ret. rewrite ET in Hn4. specialize (Hn4 HT). unfold upd in Hn4.
  rewrite decide_True in Hn4 by done. cbn in Hn4.
  assert (Hi5 : inv s4 C I X).
  { eapply core_ext; [exact Hi4|]. intros x. unfold upd. rewrite (decide_True (P := n = n)) by done. case_decide; subst; [lia|done]. }
  assert (Hb4 : buffers s4 !! p = Some b') by (apply (a_buffers _ _ _ Ha4); [done|apply lookup_insert_eq|done]).
  split; [done|]. split.
  - split; [rewrite (a_blists _ _ _ Ha4); cbn; rewrite (a_blists _ _ _ Ha2); apply (a_blists _ _ _ Ha)
           |rewrite (a_vlog _ _ _ Ha4); cbn; rewrite (a_vlog _ _ _ Ha2); apply (a_vlog _ _ _ Ha)| |].
    + intros x bx Hx Hbx HTx. assert (Hxn : x <> n) by (intros ->; congruence).
      apply (a_buffers _ _ _ Ha4); [done| |done]. cbn. rewrite lookup_insert_ne by done. apply (a_buffers _ _ _ Ha2); [done| |done].
      by apply (a_buffers _ _ _ Ha).
    + intros x bx Hx Hbx. assert (Hxn : x <> n) by (intros ->; congruence). apply (a_old _ _ _ Ha4) in Hbx; [|done]. cbn in Hbx.
      rewrite lookup_insert_ne in Hbx by done. apply (a_old _ _ _ Ha2) in Hbx; [|done]. by apply (a_old _ _ _ Ha).
  - destruct (inv_stored _ _ _ _ _ _ q Hi5 Hb4 eq_refl) as (t4 & w4 & Hst4 & _). exists b', t4, w4. split_and!; [done..|].
    pose proof Hst4 as (_ & _ & _ & Hw4 & _). apply (lookup_weaken _ _ _ _ Hw4) in Hv4. cbn in Hv4. rewrite Hw2 in Hv4. injection Hv4 as ->. done.
Qed.

(** ** Parts of the contents *)

Definition no_data (size : Z) (data : option (list Z)) : Prop := data = None \/ size = 0.

Definition sub_data (offset size : Z) (data : option (list Z)) (w : pool_storage) : Prop :=
  match data with None => True | Some d => slice offset size (ps_bytes w) = take (Z.to_nat size) d end.

(** The write to the storage the buffer has. *)
Lemma sub_write_post p b b1 q t w offset size d s s1 h C I X : inv s1 C I X -> stored s1 p b1 q t w -> apart p s s1 ->
  bo_type b1 = bo_type b -> bo_alignment b1 = bo_alignment b -> 0 <= offset -> 0 <= size <= Z.of_nat (length d) -> offset + size <= ps_size w ->
  wpm (sub_write q offset size d) (fun ret s' _ => data_post (sub_data offset size (Some d)) true p b s C I X ret s') s1 h.
Proof.
  intros Hi Hst Ha ET EA Ho Hs Hsz. eapply wp_mono; [by eapply sub_write_wp|]. cbv beta. intros ret s' h' (p' & -> & Hss & Hw).
  pose proof Hst as (Hb1 & Hq & _). split_and!; [by apply inv_sizes|eapply apart_trans; [done|apply apart_pool]|].
  exists b1. split_and!; [done..|]. intros E0 _. destruct (Hw E0) as (w' & Hw' & Hby). exists q, w'. split_and!; [done..|].
  unfold sub_data. rewrite Hby. assert (Hl : Z.of_nat (length (take (Z.to_nat size) d)) = size) by (rewrite length_take; lia).
  rewrite <- Hl at 1. apply slice_splice; [done|]. rewrite Hl. unfold ps_size in Hsz. lia.
Qed.

Lemma sub_data_wp p b offset size data accel s h C I X : inv s C I X -> buffers s !! p = Some b ->
  0 <= offset -> 0 <= size -> (forall f, accel = Some f -> accel_ok f) ->
  (forall d, data = Some d -> size <> 0 -> bo_type b <> SIMPLE -> size <= Z.of_nat (length d) /\ exists q t w, stored s p b q t w /\
    offset + size <= ps_size w /\ (st_onList t <> 0 -> pl_accepts (st_pool t) (ps_size w) (bo_placement b))) ->
  wpm (wsbmBOSubData p offset size data accel) (fun ret s' _ =>
    data_post (sub_data offset size data) (bool_decide (is_Some data) && negb (size =? 0)) p b s C I X ret s') s h.
Proof.
  intros Hi Hb Ho Hs Haccel Hd. unfold wsbmBOSubData. apply wp_bind. eapply get_buffer_wp; [done|].
  assert (Hnone : forall ret flag, ret <> 0 \/ flag = false -> data_post (sub_data offset size data) flag p b s C I X ret s).
  { intros ret flag Hr. split_and!; [done|done|]. exists b. split_and!; [done..|]. intros E1 E2. destruct Hr; congruence. }
  destruct (bool_decide (bo_type b = SIMPLE)) eqn:HT; [apply wp_ret; apply Hnone; by left|]. apply bool_decide_eq_false in HT.
  destruct data as [d|]; [|apply wp_ret, Hnone; by right]. rewrite bool_decide_eq_true_2 by by eexists. cbn [andb].
  destruct (Z.eqb_spec size 0) as [->|Hne]; [apply wp_ret, Hnone; by right|]. cbn [negb].
  destruct (Hd d eq_refl Hne HT) as (Hl & q & t & w & Hst & Hsz & Hacc). pose proof Hst as (_ & Hq & Ht & Hw & _).
  apply wp_bind. eapply storage_of_wp; [done|]. apply wp_bind. eapply get_storage_wp; [done|].
  apply wp_bind, on_pool_same; [by eapply law_sync|]. intros ret p1 E1.
  assert (Hst1 : stored (set_bpool p1 s) p b q t w) by by apply stored_pool. assert (Hi1 : inv (set_bpool p1 s) C I X) by by apply inv_same.
  destruct (Z.eqb_spec ret 0) as [->|Hr]; cbn [negb].
  2:{ apply wp_ret. eapply data_post_apart; [apply (apart_pool _ _ p1)|done|done|]. split_and!; [done|done|]. by exists b. }
  apply wp_bind. eapply get_storage_wp; [done|]. destruct (Z.eqb_spec (st_onList t) 0) as [E|E]; cbn [negb].
  { by eapply sub_write_post. }
  apply wp_bind, on_pool_same; [eapply law_release; cbn; by rewrite E1|]. intros _ p2 E2. cbn in E2.
  change (set_bpool p2 (set_bpool p1 s)) with (set_bpool p2 s). assert (E2' : pl_view p2 = pl_view (bpool s)) by congruence.
  assert (Hst2 : stored (set_bpool p2 s) p b q t w) by by apply stored_pool. assert (Hi2 : inv (set_bpool p2 s) C I X) by by apply inv_same.
  apply wp_bind. eapply wp_mono; [eapply clone_wp; [exact Hi2|exact Hst2|done|by apply Hacc|done]|]. cbv beta. intros r s3 h3 Hcl.
  assert (Hb3 : buffers s3 !! p = Some b).
  { destruct r as [n|]; [destruct Hcl as (_ & Hn & _ & Ha & _)|destruct Hcl as (_ & (n & Hn & _ & Ha) & _)];
      (apply (a_buffers _ _ _ Ha); [intros ->; cbn in Hn; congruence|done|done]). }
  apply wp_bind. eapply wp_mono; [eapply take_clone_wp; [exact Hi2|exact Hst2|exact Hcl|exact Hb3|done]|]. cbv beta.
  intros q4 s4 h4 (Hi4 & Ha4 & b4 & t4 & w4 & Hst4 & ET & EA & Hsz4). pose proof Hst4 as (_ & _ & _ & Hw4 & _).
  assert (Ha5 : apart p s s4) by (eapply apart_trans; [apply (apart_pool _ _ p2)|exact Ha4]).
  apply wp_bind, on_pool_same; [by eapply law_sync|]. intros ret p5 E5.
  assert (Hst5 : stored (set_bpool p5 s4) p b4 q4 t4 w4) by by apply stored_pool. assert (Hi5 : inv (set_bpool p5 s4) C I X) by by apply inv_same.
  assert (Ha6 : apart p s (set_bpool p5 s4)) by (eapply apart_trans; [exact Ha5|apply apart_pool]).
  destruct (Z.eqb_spec ret 0) as [->|Hr]; cbn [negb].
  - eapply sub_write_post; [done..|]. lia.
  - apply wp_ret. split_and!; [done|done|]. exists b4. destruct Hst4 as (? & _). by split_and!.
Qed.

Lemma get_sub_data_wp p b offset size wants s h q t w : stored s p b q t w -> 0 <= offset -> 0 <= size -> offset + size <= ps_size w ->
  wpm (wsbmBOGetSubData p offset size wants) (fun r s' _ => exists p', s' = set_bpool p' s /\ same_sizes (pl_view (bpool s)) (pl_view p') /\
    (fst r = 0 -> size <> 0 -> wants = true -> snd r = Some (slice offset size (ps_bytes w)))) s h.
Proof.
  intros (Hb & Hq & Ht & Hw & _) Ho Hs Hsz. pose proof (same_sizes_refl (pl_view (bpool s))) as S0. unfold wsbmBOGetSubData.
  destruct (negb (size =? 0) && wants) eqn:E.
  2:{ apply wp_ret. exists (bpool s). split; [by destruct s|]. split; [done|]. intros _ Hne ->.
      by rewrite (proj2 (Z.eqb_neq _ _) Hne) in E. }
  apply wp_bind. eapply get_buffer_wp; [done|]. apply wp_bind. eapply storage_of_wp; [done|]. apply wp_bind. eapply get_storage_wp; [done|].
  apply wp_bind, on_pool_same; [by eapply law_sync|]. intros ret p1 E1. destruct (Z.eqb_spec ret 0) as [->|Hne]; cbn [negb].
  2:{ apply wp_ret. exists p1. rewrite E1. by split_and!. }
  apply wp_bind, on_pool_wp. eapply wp_mono; [eapply law_map; cbn; by rewrite E1|]. cbv beta. intros [ret v] p2 u2 E2. cbn in E2.
  destruct (Z.eqb_spec ret 0) as [->|Hne]; cbn [negb].
  2:{ apply wp_bind, on_pool_same; [eapply law_release; cbn; by rewrite E2, E1|]. intros _ p3 E3. cbn in E3. apply wp_ret. exists p3.
      rewrite E3, E2, E1. by split_and!. }
  apply wp_bind, on_pool_wp. eapply wp_mono; [eapply (law_read q (with_mapped (Some v) w)); cbn; [by rewrite E2, lookup_insert_eq|done|done|done|done]|].
  cbv beta. intros d p3 u3 [E3 ->]. cbn in E3. apply wp_bind, on_pool_wp.
  eapply wp_mono; [eapply law_unmap; cbn; rewrite E3, E2; apply lookup_insert_eq|]. cbv beta. intros _ p4 u4 [m E4]. cbn in E4.
  rewrite E3, E2, E1, insert_insert_eq in E4. apply wp_bind, on_pool_same; [eapply law_release; cbn; rewrite E4; apply lookup_insert_eq|].
  intros _ p5 E5. cbn in E5. apply wp_ret. exists p5. rewrite E5, E4. split_and!; [done|by eapply same_sizes_insert|done].
Qed.

Lemma set_referenced_wp p b handle s h C I X : inv s C I X -> buffers s !! p = Some b -> bo_type b <> SIMPLE -> is_Some (bo_pool b) ->
  wpm (wsbmBOSetReferenced p handle) (fun _ s' _ => inv s' C I X /\ apart p s s' /\ exists b', buffers s' !! p = Some b' /\ bo_type b' <> SIMPLE) s h.
Proof.
  intros Hi Hb HT [pool Hp]. unfold wsbmBOSetReferenced.
  apply wp_bind. eapply wp_mono; [by eapply unref_storage_of_wp|]. cbv beta. intros _ s1 h1 (Hi1 & Hb1 & Ha1 & _).
  apply wp_bind. eapply get_buffer_wp; [done|]. cbn [bo_pool with_storage]. rewrite Hp.
  destruct (pl_createByReference pool) as [f|] eqn:Hf; [|apply wp_ret; split_and!; [done|done|by eexists]].
  pose proof (reference_wp f pool handle s1 h1 C I X Hi1 Hf) as Hw. apply wp_bind in Hw. apply wp_bind. eapply wp_mono; [exact Hw|]. cbv beta.
  intros r s2 h2 Hw2. apply wp_bind. eapply wp_mono; [exact Hw2|]. cbv beta. intros r' s3 h3 (-> & Hcr & Hpc).
  destruct (cr_same _ _ _ _ _ _ _ Hcr) as (B1 & _ & _). assert (Ha3 : apart p s s3) by (eapply apart_trans; [done|by eapply apart_created]).
  apply wp_bind. eapply change_buffer_wp; [by rewrite B1|]. destruct r' as [q|].
  - apply wp_bind. eapply change_buffer_wp; [apply lookup_insert_eq|]. cbn [buffers set_buffers]. rewrite insert_insert_eq.
    change (set_buffers ?m (set_buffers _ s3)) with (set_buffers m s3). apply wp_ret.
    destruct (inv_give_storage _ _ q p _ (with_type REF (with_storage (Some q) (with_storage None b))) _ pool 0 C I X Hcr eq_refl Hpc Hb1)
      as (Hi4 & _); [done..|]. split_and!; [done|eapply apart_trans; [exact Ha3|apply apart_buffer]|]. eexists. by split; [apply lookup_insert_eq|].
  - apply wp_ret. split_and!; [|eapply apart_trans; [exact Ha3|apply apart_buffer]|eexists; split; [apply lookup_insert_eq|done]].
    eapply inv_fields; [|by rewrite B1|done..|by left]. unfold inv. rewrite B1. apply (cr_core _ _ _ _ _ _ _ Hcr).
Qed.

(** ** New buffers *)

Lemma inv_new_buffer s n b C I X : inv s C I X -> buffers s !! n = None -> bo_storage b = None -> bo_type b <> SIMPLE -> 0 <= bo_refs b ->
  inv (set_buffers (<[n := b]> (buffers s)) s) (upd C n (bo_refs b)) I X.
Proof. intros Hi Hn Hs HT Hr. by apply (core_new_buffer Hi). Qed.

(** The buffers [l] are the client's, and are new. *)
Fixpoint given (l : list Z) (C : Z -> Z) : Z -> Z := match l with [] => C | p :: l => given l (upd C p 1) end.

Lemma gen_buffers_wp n pool alignment placement s h C I X : inv s C I X ->
  wpm (gen_buffers n pool alignment placement) (fun r s' _ => inv s' (given (snd r) C) I X /\ blists s' = blists s /\ vlog s' = vlog s /\
    buffers s ⊆ buffers s' /\ (fst r = 0 -> length (snd r) = n) /\
    forall p b, buffers s' !! p = Some b -> buffers s !! p = Some b \/ p ∈ snd r) s h.
Proof.
  revert s h C. induction n as [|n IH]; intros s h C Hi; cbn [gen_buffers].
  - apply wp_ret. split_and!; [done..|]. intros p b Hb. by left.
  - apply wp_bind, alloc_buffer_wp.
    + intros p Hp h'. pose proof (inv_new_buffer s p {| bo_refs := 1; bo_storage := None; bo_placement := placement; bo_alignment := alignment;
        bo_type := COMPLEX; bo_pool := Some pool |} C I X Hi Hp eq_refl) as Hi1. specialize (Hi1 ltac:(done) ltac:(done)). cbn [bo_refs] in Hi1.
      apply wp_bind. eapply wp_mono; [by apply IH|]. cbv beta. intros [ret l] s' h'' (Hi' & E1 & E2 & Hsub & Hl & Hnew). apply wp_ret. cbn in *.
      assert (Hsub' : buffers s ⊆ buffers s') by (etransitivity; [|exact Hsub]; by apply insert_subseteq).
      split_and!; [done..|intros E0; by rewrite Hl|].
      intros x b Hx. destruct (Hnew x b Hx) as [Hx1|Hx1]; [|right; by right]. apply lookup_insert_Some in Hx1 as [[<- _]|[_ Hx1]]; [right; by left|by left].
    + intros h'. apply wp_ret. cbn. split_and!; [done..|]. intros p b Hb. by left.
Qed.

Lemma create_simple_wp pool size placement alignment s h C I X : inv s C I X -> pl_accepts pool size placement ->
  wpm (wsbmBOCreateSimple pool size placement alignment) (fun r s' _ => blists s' = blists s /\ vlog s' = vlog s /\
    match fst r with
    | None => inv s' C I X /\ buffers s' = buffers s
    | Some p => inv s' (upd C p 1) I X /\ buffers s !! p = None /\
        exists b, buffers s' = <[p := b]> (buffers s) /\ bo_type b = SIMPLE
    end) s h.
Proof.
  intros Hi Hacc. unfold wsbmBOCreateSimple. apply wp_bind, alloc_buffer_wp.
  2:{ intros h'. by apply wp_ret. }
  intros p Hp h1. assert (HC : C p = 0) by by apply (c_none _ _ _ _ _ _ Hi).
  assert (Hi1 : inv (set_buffers (<[p := zero_buffer]> (buffers s)) s) C I X).
  { eapply core_ext; [by eapply (inv_new_buffer s p zero_buffer)|]. intros x. unfold upd. case_decide; [by subst|done]. }
  apply wp_bind. eapply wp_mono; [eapply (create_storage_wp _ pool size placement alignment _ _ C I X Hi1 Hacc)|]. cbv beta.
  intros r s2 h2 (-> & Hcr & Hpc). destruct (cr_same _ _ _ _ _ _ _ Hcr) as (B1 & B2 & B3). cbn in B1, B2, B3.
  pose proof (cr_core _ _ _ _ _ _ _ Hcr) as Hc2. destruct r as [q|].
  - destruct (cr_some _ _ _ _ _ _ _ Hcr q eq_refl) as (Hn & w & Hs2 & Hv2). destruct Hpc as (Hvn & w' & Hw' & _ & Hv2').
    assert (w' = w) as ->. { rewrite Hv2' in Hv2. apply (f_equal (fun m => m !! q)) in Hv2. rewrite !lookup_insert_eq in Hv2. congruence. }
    apply wp_bind. eapply change_storage_wp; [rewrite Hs2; apply lookup_insert_eq|]. apply wp_bind. eapply get_buffer_wp; [cbn; rewrite B1; apply lookup_insert_eq|].
    apply wp_bind, set_buffer_wp; [cbn; rewrite B1; eexists; apply lookup_insert_eq|]. apply wp_ret. cbn. rewrite B1, insert_insert_eq.
    split_and!; [done|done| |done|by eexists].
    cbn in Hc2. unfold inv. cbn.
    rewrite <- (insert_insert_eq (buffers s) p _ zero_buffer).
    eapply core_simple; [exact Hc2|apply lookup_insert_eq|done|rewrite Hs2; apply lookup_insert_eq|done|done| |done|done|cbn; congruence].
    intros x bx Hx Eq. destruct (c_buffer _ _ _ _ _ _ Hi1 x bx Hx) as (_ & _ & _ & Hst). destruct (Hst q Eq) as (t & Ht & _). cbn in Hn, Ht. congruence.
  - apply wp_bind, free_buffer_wp; [rewrite B1; eexists; apply lookup_insert_eq|]. apply wp_ret. cbn. rewrite B1, delete_insert_id by done. split_and!; [done|done| |done].
    unfold inv. cbn. destruct (cr_none _ _ _ _ _ _ _ Hcr eq_refl) as [Es Ev].
    rewrite Es, Ev. exact Hi.
Qed.

End operations.
