(* ===== verification/BufferMgrLists.v ===== *)
(** The lists of buffers of the buffer manager: what they do to the references of the
    storages on them.

    [consistent s C Ls]: the state of a manager whose clients hold the references [C] and
    have put on their lists what [Ls] says. *)
From stdpp Require Import gmap.
From S2P Require Import Prelude Rings ValidateList ValidateListInv ValidateListSpec BufferMgr Pools BufferMgrInv BufferMgrSpec.

Lemma listed_nil q p : listed q p [] = 0.
Proof. unfold listed. by rewrite decide_False by apply not_elem_of_nil. Qed.

Lemma core_new_list bs st v C I X p : core bs st v C I X -> I !! p = None -> core bs st v C (<[p := []]> I) X.
Proof.
  intros [H1 H2 H3 H4 H5 H6] Hp. assert (E : forall q, msum (listed q) (<[p := []]> I) = msum (listed q) I).
  { intros q. by rewrite msum_insert, listed_nil by done. }
  split; [done|done| | |done|done].
  - intros q t Hq. destruct (H3 q t Hq) as [E1 E2 E3 E4]. split; [|by rewrite E|done|done]. rewrite E1. unfold refs_of. by rewrite E.
  - intros k l q [[<- <-]|[Hne Hk]]%lookup_insert_Some Hq; [by apply not_elem_of_nil in Hq|by eapply H4].
Qed.

Lemma core_free_list bs st v C I X p : core bs st v C I X -> I !! p = Some [] -> core bs st v C (delete p I) X.
Proof.
  intros [H1 H2 H3 H4 H5 H6] Hp. assert (E : forall q, msum (listed q) (delete p I) = msum (listed q) I).
  { intros q. by rewrite (msum_delete (listed q) I p [] Hp), listed_nil. }
  split; [done|done| | |done|done].
  - intros q t Hq. destruct (H3 q t Hq) as [E1 E2 E3 E4]. split; [|by rewrite E|done|done]. rewrite E1. unfold refs_of. by rewrite E.
  - intros k l q [Hne Hk]%lookup_delete_Some. by eapply H4.
Qed.

Section lists.
Context {P : Type} `{!PoolOps P} `{!PoolLaws P} `{!BmEnv} `{!VNodes}.

Abbreviation MB A := (M (list bcall) (bm_state P) A).
Abbreviation wpm := (wp (H := list bcall) (S := bm_state P) False).

Implicit Types (s : bm_state P) (h : list bcall) (C : Z -> Z) (I : gmap Z (list Z)) (X : list Z) (Ls : gmap Z (list item)).

Definition user_list (l : buffer_list) (L : list item) : Prop := exists target, vl_list target (userBuffers l) L.
Definition kernel_list (l : buffer_list) : Prop := hasKernelBuffers l = true -> exists target L, vl_list target (kernelBuffers l) L.

Definition lists_ok s Ls : Prop := forall p L, Ls !! p = Some L -> exists l, blists s !! p = Some l /\ user_list l L /\ kernel_list l.

Definition counted Ls : gmap Z (list Z) := (fun L => L.*1) <$> Ls.

(** A buffer that is not simple goes with the last reference of its clients. *)
Definition alive s C : Prop := forall p b, buffers s !! p = Some b -> bo_type b <> SIMPLE -> 0 < C p.

Lemma alive_sub s s' C : alive s C -> buffers s' ⊆ buffers s -> alive s' C.
Proof. intros Ha Hs p b Hp. apply Ha. by eapply lookup_weaken. Qed.

Record consistent s C Ls : Prop := {
  co_inv : inv s C (counted Ls) [];
  co_lists : lists_ok s Ls;
  co_alive : alive s C;
  co_range : forall p, C p < 2 ^ 31 }.

Lemma counted_insert Ls p L : counted (<[p := L]> Ls) = <[p := L.*1]> (counted Ls).
Proof. apply fmap_insert. Qed.

Lemma counted_lookup Ls p L : Ls !! p = Some L -> counted Ls !! p = Some L.*1.
Proof. intros Hp. unfold counted. by rewrite lookup_fmap, Hp. Qed.

(** One list changes. *)
Lemma lists_ok_update s s' Ls p l L : lists_ok s Ls -> blists s' = <[p := l]> (blists s) -> user_list l L -> kernel_list l ->
  lists_ok s' (<[p := L]> Ls).
Proof.
  intros Hok E Hu Hk x Lx [[<- <-]|[Hne Hx]]%lookup_insert_Some.
  - exists l. by rewrite E, lookup_insert_eq.
  - destruct (Hok x Lx Hx) as (lx & ? & ?). exists lx. by rewrite E, lookup_insert_ne.
Qed.

Lemma lists_ok_same s s' Ls : lists_ok s Ls -> blists s' = blists s -> lists_ok s' Ls.
Proof. intros Hok E p L Hp. rewrite E. by apply Hok. Qed.

(** ** Going through a list *)

Lemma on_list_read {A} w p l (m : M (list vcall) validate_list A) (Q : A -> bm_state P -> list bcall -> Prop) s h :
  blists s !! p = Some l ->
  wp False m (fun a v' log' => v' = list_of w l /\ log' = vlog s /\ Q a s h) (list_of w l) (vlog s) ->
  wpm (on_list w p m) Q s h.
Proof.
  intros Hp Hm. eapply on_list_wp; [exact Hp|]. eapply wp_mono; [exact Hm|]. cbv beta. intros a v' log' (-> & -> & HQ).
  assert (E : set_list w (list_of w l) l = l) by (destruct l, w; done). rewrite E, insert_id by done.
  replace (set_blists (blists s) (vlog s) s) with s by by destruct s. done.
Qed.

Section walk.
Context (p : Z) (lb : buffer_list) (body : vnode -> MB Z) (J : list item -> bm_state P -> Prop) (E : Z -> bm_state P -> Prop).
Context (Hbody : forall n L s h, blists s !! p = Some lb -> J (item_of n :: L) s ->
  wpm (body n) (fun r s' _ => blists s' !! p = Some lb /\ if r =? 0 then J L s' else E r s') s h).

Lemma each_listed_wp l f Bs l1 l2 L1 L2 fuel s h : vl_wf (userBuffers lb) l f [] Bs l -> l = l1 ++ l2 -> length l1 = length L1 ->
  holds (userBuffers lb) l (L1 ++ L2) -> (length l2 <= fuel)%nat -> blists s !! p = Some lb -> J L2 s ->
  wpm (each_listed fuel p (cursor l2) body) (fun r s' _ => blists s' !! p = Some lb /\ if r =? 0 then J [] s' else E r s') s h.
Proof.
  intros Hwf. revert l1 L1 L2 fuel s h. induction l2 as [|q l2 IH]; intros l1 L1 L2 fuel s h El Hlen Hh Hfuel Hp HJ.
  - assert (L2 = []) as ->.
    { assert (El2 : length l = length (L1 ++ L2)) by (eapply Forall2_length, Hh). rewrite El, !length_app in El2. cbn in El2.
      destruct L2; [done|cbn in El2; lia]. }
    destruct fuel; by apply wp_ret.
  - cbn [length cursor] in *. destruct fuel as [|fuel]; [lia|]. cbn [each_listed].
    assert (Hq : l !! length l1 = Some q) by (by rewrite El, list_lookup_middle).
    destruct (Forall2_lookup_l _ _ _ _ _ (proj1 Hh) Hq) as (e & He & (n & Hn & En)).
    rewrite lookup_app_r, Hlen, Nat.sub_diag in He by lia. destruct L2 as [|e' L2]; [done|]. injection He as ->.
    apply wp_bind. eapply on_list_read; [exact Hp|]. eapply get_vnode_wp; [exact Hn|]. split_and!; [done..|].
    apply wp_bind. eapply wp_mono; [apply Hbody; [exact Hp|by rewrite En]|]. cbv beta. intros r s1 h1 [Hp1 Hr].
    destruct (Z.eqb_spec r 0) as [->|Hne]; cbn [negb]; [|apply wp_ret; split; [done|]; by rewrite (proj2 (Z.eqb_neq _ _) Hne)].
    pose proof (vw_list _ _ _ _ _ _ Hwf) as Hring. rewrite El in Hring.
    assert (Hc : (if first_of LIST l2 =? LIST then None else Some (first_of LIST l2)) = cursor l2).
    { eapply (cursor_first (userBuffers lb) (l1 ++ [q])). rewrite <- app_assoc. cbn [app]. rewrite <- El. exact Hwf. }
    apply wp_bind. eapply on_list_read; [exact Hp1|]. unfold validateListNext. apply wp_bind.
    eapply (get_next_wp F_head); [eapply ring_next, Hring|]. apply wp_ret. split_and!; [done..|]. rewrite Hc.
    eapply (IH (l1 ++ [q]) (L1 ++ [e])); [by rewrite <- app_assoc|rewrite !length_app; cbn; lia|rewrite <- app_assoc; exact Hh|lia|done|done].
Qed.

Lemma for_listed_wp L s h : blists s !! p = Some lb -> user_list lb L -> J L s ->
  wpm (for_listed p body) (fun r s' _ => blists s' !! p = Some lb /\ if r =? 0 then J [] s' else E r s') s h.
Proof.
  intros Hp (target & l & f & Bs & Hok) HJ. pose proof (ok_wf _ _ _ _ _ _ Hok) as Hwf. unfold for_listed.
  apply wp_bind. eapply on_list_read; [exact Hp|]. unfold validateListIterator. apply wp_bind.
  eapply (get_next_wp F_head); [eapply ring_first, (vw_list _ _ _ _ _ _ Hwf)|]. apply wp_ret. split_and!; [done..|].
  rewrite (cursor_first _ [] _ _ _ _ _ Hwf). apply wp_bind. eapply get_blist_wp; [exact Hp|].
  eapply (each_listed_wp _ _ _ [] l []); [exact Hwf|done|done|apply Hok| |exact Hp|exact HJ].
  rewrite <- (vw_fuel _ _ _ _ _ _ Hwf), length_app. lia.
Qed.

End walk.

(** ** Emptying a list *)

Lemma reset_list_wp p lb L s h : blists s !! p = Some lb -> user_list lb L -> kernel_list lb ->
  wpm (wsbmBOResetList p) (fun r s' _ => r = 0 /\ exists lb' log, s' = set_blists (<[p := lb']> (blists s)) log s /\
    user_list lb' [] /\ kernel_list lb') s h.
Proof.
  intros Hp [target Hu] Hk. unfold wsbmBOResetList. apply wp_bind. eapply get_blist_wp; [exact Hp|].
  assert (Huser : forall lb1 log1 h1, userBuffers lb1 = userBuffers lb -> kernel_list lb1 -> wpm (on_list User p validateResetList)
    (fun r s' _ => r = 0 /\ exists lb' log, s' = set_blists (<[p := lb']> (blists s)) log s /\ user_list lb' [] /\ kernel_list lb')
    (set_blists (<[p := lb1]> (blists s)) log1 s) h1).
  { intros lb1 log1 h1 E1 Hk1. eapply on_list_wp; [apply lookup_insert_eq|]. cbn [list_of vlog set_blists]. rewrite E1.
    eapply wp_mono; [by eapply reset_list_nodes_wp|]. cbv beta. intros r v' log' (-> & Hv' & _). split; [done|]. exists (set_list User v' lb1), log'.
    split; [unfold set_blists; cbn; by rewrite insert_insert_eq|]. split; [by exists target|done]. }
  apply wp_bind. destruct (hasKernelBuffers lb) eqn:EK.
  - destruct (Hk EK) as (t1 & L1 & Hv1). eapply on_list_wp; [exact Hp|]. eapply wp_mono; [by eapply reset_list_nodes_wp|]. cbv beta.
    intros r v' log' (-> & Hv' & _). cbn [negb Z.eqb]. apply Huser; [done|]. intros _. by exists t1, [].
  - apply wp_ret. cbn [negb Z.eqb]. pose proof (Huser lb (vlog s) h eq_refl Hk) as Hw. rewrite insert_id in Hw by done.
    replace (set_blists (blists s) (vlog s) s) with s in Hw by by destruct s. exact Hw.
Qed.

Lemma drop_listed_wp p q l s h C I X : inv s C I X -> I !! p = Some (q :: l) -> q ∉ l ->
  wpm (drop_listed q) (fun _ s' _ => inv s' C (<[p := l]> I) X /\ unrefed q s s') s h.
Proof.
  intros Hi Hp Hq. destruct (c_listed _ _ _ _ _ _ Hi p _ q Hp) as [t Ht]; [by left|]. unfold drop_listed.
  apply wp_bind. eapply change_storage_wp; [exact Ht|]. eapply wp_mono; [apply unref_wp; by apply (core_unlist p l Hi)|]. cbv beta.
  intros _ s' h' [Hi' [U1 U2 U3 U4 U5 U6]]. split; [done|]. split; [done|done|done| |done|done]. intros x Hx. destruct (U4 x Hx) as [E1 E2].
  split; [|done]. rewrite E1. cbn. by rewrite lookup_insert_ne.
Qed.

(** A list whose storages are given back one by one; [D] holds of their pools. *)
Definition emptying (D : Z -> Prop) (p : Z) s0 C I (L : list item) s : Prop :=
  inv s C (<[p := L.*1]> I) [] /\ NoDup L.*1 /\ (blists s = blists s0 /\ buffers s ⊆ buffers s0) /\
  forall q, q ∈ L.*1 -> exists t, storages s !! q = Some t /\ D (st_pool t).

Lemma emptying_step D p s0 C I e L s h : emptying D p s0 C I (e :: L) s ->
  wpm (drop_listed e.1) (fun _ s' _ => emptying D p s0 C I L s') s h.
Proof.
  intros (Hi & Hnd & [Eb Es] & HD). cbn in Hnd. apply list.NoDup_cons in Hnd as [Hn Hnd].
  eapply wp_mono; [eapply (drop_listed_wp p e.1 L.*1); [exact Hi|apply lookup_insert_eq|done]|]. cbv beta. intros _ s' h' [Hi' Hu].
  rewrite insert_insert_eq in Hi'. split_and!; [done|done|by rewrite (u_blists _ _ _ Hu)|etransitivity; [apply (u_old _ _ _ Hu)|exact Es]|]. intros q Hq.
  destruct (HD q) as (t & Ht & Hd); [by right|]. exists t. split; [|done]. destruct (u_others _ _ _ Hu q) as [-> _]; [|done]. by intros ->.
Qed.

Lemma emptying_pool D p s0 C I L s p' : emptying D p s0 C I L s -> pl_view p' = pl_view (bpool s) -> emptying D p s0 C I L (set_bpool p' s).
Proof. intros (Hi & Hnd & Eb & HD) E. split; [by apply inv_same|done]. Qed.

(** A loop that gives all the storages back, and the reset of the list. *)
Lemma empty_list_wp D body p L s h C Ls : consistent s C Ls -> Ls !! p = Some L ->
  (forall q t, q ∈ L.*1 -> storages s !! q = Some t -> D (st_pool t)) ->
  (forall n L' s1 h1, emptying D p s C (counted Ls) (item_of n :: L') s1 ->
    wpm (body n) (fun r s' _ => r = 0 /\ emptying D p s C (counted Ls) L' s') s1 h1) ->
  wpm (for_listed p body ;; wsbmBOResetList p) (fun r s' _ => r = 0 /\ consistent s' C (<[p := []]> Ls)) s h.
Proof.
  intros [Hi Hok Hal Hra] Hp HD Hbody. destruct (Hok p L Hp) as (lb & Hlb & Hu & Hk).
  assert (Hnd : NoDup L.*1) by (destruct Hu as (target & l & f & Bs & Hvl); apply Hvl).
  apply wp_bind. eapply wp_mono; [eapply (for_listed_wp p lb body (emptying D p s C (counted Ls)) (fun _ _ => False)); [|exact Hlb|exact Hu|]|].
  - intros n L' s1 h1 Hp1 HJ. eapply wp_mono; [by apply Hbody|]. cbv beta. intros r s2 h2 [-> HJ2]. split; [|done].
    destruct HJ2 as (_ & _ & [-> _] & _). done.
  - split_and!; [|done|done|done|].
    + rewrite insert_id; [done|by apply counted_lookup].
    + intros q Hq. destruct (c_listed _ _ _ _ _ _ Hi p L.*1 q) as [t Ht]; [by apply counted_lookup|done|]. exists t. split; [done|by eapply HD].
  - cbv beta. intros r s1 h1 [Hp1 Hr]. destruct (r =? 0); [|done]. destruct Hr as (Hi1 & _ & [Eb Es] & _).
    eapply wp_mono; [by eapply reset_list_wp|]. cbv beta. intros r' s2 h2 (-> & lb' & log & -> & Hu' & Hk'). split; [done|]. split.
    + rewrite counted_insert. exact Hi1.
    + eapply lists_ok_update; [exact Hok|cbn; by rewrite Eb|done|done].
    + by eapply alive_sub.
    + done.
Qed.

Lemma unref_user_list_wp p L s h C Ls : consistent s C Ls -> Ls !! p = Some L ->
  wpm (wsbmBOUnrefUserList p) (fun r s' _ => r = 0 /\ consistent s' C (<[p := []]> Ls)) s h.
Proof.
  intros Hc Hp. eapply (empty_list_wp (fun _ => True)); [done|done|done|]. intros n L' s1 h1 HJ.
  apply wp_bind. eapply wp_mono; [exact (emptying_step _ _ _ _ _ (item_of n) L' _ _ HJ)|]. cbv beta. intros _ s2 h2 HJ2. by apply wp_ret.
Qed.

Lemma fence_user_list_wp p L fence s h C Ls : consistent s C Ls -> Ls !! p = Some L ->
  (forall q t, q ∈ L.*1 -> storages s !! q = Some t -> pl_device (st_pool t)) ->
  wpm (wsbmBOFenceUserList p fence) (fun r s' _ => r = 0 /\ consistent s' C (<[p := []]> Ls)) s h.
Proof.
  intros Hc Hp HD. eapply (empty_list_wp pl_device); [done|done|done|]. intros n L' s1 h1 HJ. cbv zeta.
  pose proof HJ as (Hi & _ & _ & HD1). destruct (HD1 (vbuf n)) as (t & Ht & Hd); [by left|].
  destruct (inv_view _ _ _ _ _ _ Hi Ht) as (w & Hw & HP). apply wp_bind. eapply get_storage_wp; [exact Ht|].
  destruct (law_fence_there (st_pool t) Hd) as [f Hf]. rewrite Hf. apply wp_bind, on_pool_same.
  { eapply law_fence; [exact Hw|by rewrite HP|by rewrite HP]. }
  intros _ p' E. apply wp_bind. eapply wp_mono; [exact (emptying_step _ _ _ _ _ (item_of n) L' _ _ (emptying_pool _ _ _ _ _ _ _ p' HJ E))|]. cbv beta.
  intros _ s2 h2 HJ2. by apply wp_ret.
Qed.

Lemma unvalidate_user_list_wp p L s h C Ls : consistent s C Ls -> Ls !! p = Some L ->
  wpm (wsbmBOUnvalidateUserList p) (fun r s' _ => r = 0 /\ consistent s' C (<[p := []]> Ls)) s h.
Proof.
  intros Hc Hp. eapply (empty_list_wp (fun _ => True)); [done|done|done|]. intros n L' s1 h1 HJ. cbv zeta.
  pose proof HJ as (Hi & _ & _ & HD1). destruct (HD1 (vbuf n)) as (t & Ht & _); [by left|].
  destruct (inv_view _ _ _ _ _ _ Hi Ht) as (w & Hw & HP). apply wp_bind. eapply get_storage_wp; [exact Ht|].
  assert (Hrest : forall s2 h2, emptying (fun _ => True) p s C (counted Ls) (item_of n :: L') s2 ->
    wpm (drop_listed (vbuf n) ;; mret 0) (fun r s' _ => r = 0 /\ emptying (fun _ => True) p s C (counted Ls) L' s') s2 h2).
  { intros s2 h2 HJ2. apply wp_bind. eapply wp_mono; [exact (emptying_step _ _ _ _ _ (item_of n) L' _ _ HJ2)|]. cbv beta. intros _ s3 h3 HJ3. by apply wp_ret. }
  apply wp_bind. destruct (pl_unvalidate (st_pool t)) as [f|] eqn:Hf; [|by apply wp_ret, Hrest].
  apply on_pool_same; [eapply law_unvalidate; [exact Hw|by rewrite HP]|]. intros _ p' E. apply Hrest. by apply emptying_pool.
Qed.

Lemma validate_user_list_wp p L s h C Ls : consistent s C Ls -> Ls !! p = Some L ->
  wpm (wsbmBOValidateUserList p) (fun _ s' _ => consistent s' C Ls /\ exists p', s' = set_bpool p' s /\ pl_view p' = pl_view (bpool s)) s h.
Proof.
  intros [Hi Hok Hal Hra] Hp. destruct (Hok p L Hp) as (lb & Hlb & Hu & Hk).
  set (J := fun (L' : list item) s' => L'.*1 ⊆ L.*1 /\ exists p', s' = set_bpool p' s /\ pl_view p' = pl_view (bpool s)).
  assert (Hend : forall s', (exists p', s' = set_bpool p' s /\ pl_view p' = pl_view (bpool s)) ->
    consistent s' C Ls /\ exists p', s' = set_bpool p' s /\ pl_view p' = pl_view (bpool s)).
  { intros s' (p' & -> & E). split; [split; [by apply inv_same|by eapply lists_ok_same|done|done]|by exists p']. }
  eapply wp_mono; [eapply (for_listed_wp p lb _ J (fun _ s' => exists p', s' = set_bpool p' s /\ pl_view p' = pl_view (bpool s))); [|exact Hlb|exact Hu|]|].
  - intros n L' s1 h1 Hp1 (Hsub & p1 & -> & E1). cbv zeta. cbn in Hsub.
    destruct (c_listed _ _ _ _ _ _ Hi p L.*1 (vbuf n)) as [t Ht]; [by apply counted_lookup|apply Hsub; by left|].
    destruct (inv_view _ _ _ _ _ _ Hi Ht) as (w & Hw & HP). apply wp_bind. eapply get_storage_wp; [exact Ht|].
    assert (Hsub' : L'.*1 ⊆ L.*1) by (intros x Hx; apply Hsub; by right).
    destruct (pl_validate (st_pool t)) as [f|] eqn:Hf; [|apply wp_ret; split; [done|]; split; [done|by exists p1]].
    apply on_pool_same; [eapply law_validate; [cbn; by rewrite E1|by rewrite HP]|]. intros r p2 E2. cbn in E2. split; [done|].
    assert (E : pl_view p2 = pl_view (bpool s)) by congruence. destruct (r =? 0); [split; [done|]|]; by exists p2.
  - split; [done|]. exists (bpool s). by destruct s.
  - cbv beta. intros r s' h' [_ Hr]. apply Hend. destruct (r =? 0); [by destruct Hr|done].
Qed.

(** ** Making, freeing and filling a list *)

Lemma lists_ok_lost s s' Ls p l : lists_ok s Ls -> blists s !! p = None -> blists s' = <[p := l]> (blists s) -> lists_ok s' Ls.
Proof.
  intros Hok Hp E x L Hx. destruct (Hok x L Hx) as (lx & Hlx & ?). exists lx. split; [|done]. rewrite E, lookup_insert_ne; [done|].
  intros ->. congruence.
Qed.

Definition lists_memory : Prop := vmemory /\ forall log, table_alloc log = true.

Lemma create_list_wp target kernel s h C Ls : consistent s C Ls -> 0 <= target <= MAX_NODES -> (kernel = true \/ lists_memory) ->
  wpm (wsbmBOCreateList target kernel) (fun r s' _ =>
    match r with
    | None => consistent s' C Ls
    | Some p => Ls !! p = None /\ consistent s' C (<[p := []]> Ls)
    end) s h.
Proof.
  intros [Hi Hok Hal Hra] Ht Hmem. unfold wsbmBOCreateList. apply wp_bind. unfold alloc_blist, wp at 1.
  destruct (bm_alloc h (used s)) as [p|] eqn:Ea; [|by apply wp_ret].
  apply bm_alloc_new in Ea as [_ Hp]. assert (Hn : blists s !! p = None) by (apply not_elem_of_dom; unfold used in Hp; set_solver).
  assert (HLn : Ls !! p = None).
  { destruct (Ls !! p) as [L|] eqn:E; [|done]. destruct (Hok p L E) as (l & Hl & _). congruence. }
  assert (Hend : forall lb log, kernel_list lb -> user_list lb [] ->
    Ls !! p = None /\ consistent (set_blists (<[p := lb]> (blists s)) log s) C (<[p := []]> Ls)).
  { intros lb log Hk Hu. split; [done|]. split.
    - rewrite counted_insert. apply core_new_list; [exact Hi|]. unfold counted. by rewrite lookup_fmap, HLn.
    - by eapply lists_ok_update.
    - done.
    - done. }
  assert (Hlost : forall lb log, consistent (set_blists (<[p := lb]> (blists s)) log s) C Ls).
  { intros lb log. split; [exact Hi| |done|done]. by eapply lists_ok_lost. }
  assert (Huser : forall lb1 log1 h1, kernel_list lb1 -> (hasKernelBuffers lb1 = true \/ lists_memory) ->
    wpm (ret ← on_list User p (validateCreateList target 1);
         if negb (ret =? 0) then on_list Kernel p validateFreeList ;; mret None else mret (Some p))
      (fun r s' _ => match r with None => consistent s' C Ls | Some p => Ls !! p = None /\ consistent s' C (<[p := []]> Ls) end)
      (set_blists (<[p := lb1]> (blists s)) log1 s) h1).
  { intros lb1 log1 h1 Hk Hm. apply wp_bind. eapply on_list_wp; [apply lookup_insert_eq|]. cbn [list_of vlog set_blists].
    eapply wp_mono; [by apply create_wp|]. cbv beta. intros r v' log' [(-> & Hv' & _)|(-> & Hf)]; cbn [negb Z.eqb].
    - apply wp_ret. unfold set_blists. cbn. rewrite insert_insert_eq. apply Hend; [done|]. by exists target.
    - change (negb (- ENOMEM =? 0)) with true. cbv iota. destruct Hm as [EK|[Hm1 Hm2]].
      2:{ exfalso. destruct Hf as [[Hf _]|Hf]; [by rewrite Hm2 in Hf|done]. }
      destruct (Hk EK) as (t1 & L1 & Hv1). apply wp_bind. eapply on_list_wp; [cbn; rewrite insert_insert_eq; apply lookup_insert_eq|].
      eapply wp_mono; [eapply free_list_wp; exact Hv1|]. cbv beta. intros _ v2 log2 _. apply wp_ret. unfold set_blists. cbn.
      rewrite !insert_insert_eq. apply Hlost. }
  apply wp_bind. destruct kernel.
  - eapply on_list_wp; [apply lookup_insert_eq|]. eapply wp_mono; [by apply create_wp|]. cbv beta. cbn [list_of kernelBuffers vlog set_blists].
    intros r v' log' [(-> & Hv' & _)|(-> & _)].
    + cbn [negb Z.eqb]. unfold set_blists. cbn. rewrite insert_insert_eq. apply Huser; [|by left]. intros _. by exists target, [].
    + change (negb (- ENOMEM =? 0)) with true. cbv iota. apply wp_ret. unfold set_blists. cbn. rewrite insert_insert_eq. apply Hlost.
  - apply wp_ret. cbn [negb Z.eqb]. apply Huser; [done|]. destruct Hmem; [done|by right].
Qed.

Lemma free_blist_wp p s h C Ls : consistent s C Ls -> Ls !! p = Some [] ->
  wpm (wsbmBOFreeList p) (fun _ s' _ => consistent s' C (delete p Ls)) s h.
Proof.
  intros [Hi Hok Hal Hra] Hp. destruct (Hok p [] Hp) as (lb & Hlb & [target Hu] & Hk). unfold wsbmBOFreeList.
  apply wp_bind. eapply get_blist_wp; [exact Hlb|].
  assert (Huser : forall lb1 log1 h1, userBuffers lb1 = userBuffers lb -> wpm (on_list User p validateFreeList ;; free_blist p)
    (fun _ s' _ => consistent s' C (delete p Ls)) (set_blists (<[p := lb1]> (blists s)) log1 s) h1).
  { intros lb1 log1 h1 E1. apply wp_bind. eapply on_list_wp; [apply lookup_insert_eq|]. cbn [list_of vlog set_blists]. rewrite E1.
    eapply wp_mono; [by eapply free_list_wp|]. cbv beta. intros _ v' log' _. unfold set_blists. cbn. rewrite insert_insert_eq.
    unfold free_blist, wp. cbn. rewrite bool_decide_eq_true_2 by (eexists; apply lookup_insert_eq). split.
    - unfold counted. rewrite fmap_delete. apply core_free_list; [exact Hi|]. by apply (counted_lookup Ls p []).
    - intros x L [Hne Hx]%lookup_delete_Some. destruct (Hok x L Hx) as (lx & Hlx & ?). exists lx. cbn.
      by rewrite lookup_delete_ne, lookup_insert_ne.
    - done.
    - done. }
  apply wp_bind. destruct (hasKernelBuffers lb) eqn:EK.
  - destruct (Hk EK) as (t1 & L1 & Hv1). eapply on_list_wp; [exact Hlb|]. eapply wp_mono; [by eapply free_list_wp|]. cbv beta.
    intros _ v' log' _. by apply Huser.
  - apply wp_ret. pose proof (Huser lb (vlog s) h eq_refl) as Hw. rewrite insert_id in Hw by done.
    replace (set_blists (blists s) (vlog s) s) with s in Hw by by destruct s. exact Hw.
Qed.

Lemma add_item_keys (L : list item) b flags mask i (new : bool) L' : add_item L b flags mask = Some (i, new, L') ->
  if new then L'.*1 = L.*1 ++ [b] /\ b ∉ L.*1 else L'.*1 = L.*1.
Proof.
  unfold add_item. destruct (list_find _ L) as [[j [b' [set clr]]]|] eqn:E.
  - apply list_find_Some in E as (Hj & Eb & _). cbn in Eb. subst b'. destruct (merge_flags _ _ _ _) as [fl|]; [|done]. intros [= <- <- <-].
    rewrite list_fmap_insert. apply list_insert_id. by rewrite list_lookup_fmap, Hj.
  - intros [= <- <- <-]. rewrite fmap_app. split; [done|]. by apply not_listed.
Qed.

(** The user's part of [wsbmBOAddListItem]. *)
Lemma add_user_wp {A} p L q t flags mask (out : A) s h C Ls b : consistent s C Ls -> Ls !! p = Some L -> bo_storage b = Some q ->
  storages s !! q = Some t -> st_refs t + 1 < 2 ^ 31 ->
  wpm (r ← on_list User p (wsbmAddValidateItem q flags mask);
       match r with
       | Add_error e => mret (e, out)
       | Add_done _ _ newItem =>
           (if newItem : bool then
              storage ← storage_of b;
              change_storage storage (fun t => storage_refs (st_refs t + 1) t) ;;
              change_storage storage (fun t => storage_onList (st_onList t + 1) t)
            else mret tt) ;;
           mret (0, out)
       end) (fun r s' _ => snd r = out /\
    (fst r = 0 /\ (exists i new L', add_item L q flags mask = Some (i, new, L') /\ consistent s' C (<[p := L']> Ls)) \/
     (fst r = - EINVAL /\ add_item L q flags mask = None \/ fst r = - ENOMEM) /\ consistent s' C Ls)) s h.
Proof.
  intros [Hi Hok Hal Hra] Hp Hq Ht Hr. destruct (Hok p L Hp) as (lb & Hlb & [target Hu] & Hk).
  apply wp_bind. eapply on_list_wp; [exact Hlb|]. eapply wp_mono; [by eapply add_validate_item_wp|]. cbv beta. cbn [list_of].
  intros r v' log' Hpost. set (s1 := set_blists _ log' s). destruct r as [e|loc node new].
  - destruct Hpost as [Hv' He]. apply wp_ret. split; [done|]. right. split; [destruct He as [(-> & ? & _)|[-> ?]]; [by right|by left]|].
    split; [exact Hi| |done|done]. rewrite <- (insert_id Ls p L Hp). eapply lists_ok_update; [exact Hok|done|by exists target|exact Hk].
  - destruct Hpost as (i & L' & Ha & _ & Hv'). pose proof (add_item_keys _ _ _ _ _ _ _ Ha) as HL.
    assert (Hl1 : forall s', blists s' = blists s1 -> lists_ok s' (<[p := L']> Ls)).
    { intros s' E. eapply lists_ok_update; [exact Hok|rewrite E; done|by exists target|exact Hk]. }
    apply wp_bind. destruct new.
    + destruct HL as [EL Hn]. apply wp_bind. eapply storage_of_wp; [exact Hq|]. apply wp_bind. eapply change_storage_wp; [exact Ht|].
      eapply change_storage_wp; [apply lookup_insert_eq|]. apply wp_ret. split; [done|]. left. split; [done|]. exists i, true, L'. split; [done|].
      split; [|by apply Hl1|done|done]. rewrite counted_insert, EL. unfold inv. cbn. rewrite insert_insert_eq.
      apply (core_list p L.*1 Hi Ht); [by apply counted_lookup|done|done].
    + apply wp_ret, wp_ret. split; [done|]. left. split; [done|]. exists i, false, L'. split; [done|]. split; [|by apply Hl1|done|done].
      rewrite counted_insert, HL, insert_id by by apply counted_lookup. exact Hi.
Qed.

Lemma add_list_item_wp p L n b q t flags mask s h C Ls : consistent s C Ls -> Ls !! p = Some L -> buffers s !! n = Some b ->
  bo_storage b = Some q -> storages s !! q = Some t -> st_refs t + 1 < 2 ^ 31 ->
  (forall lb, blists s !! p = Some lb -> hasKernelBuffers lb = true -> pl_device (st_pool t)) ->
  wpm (wsbmBOAddListItem p n flags mask) (fun r s' _ =>
    fst r = 0 /\ (exists i new L', add_item L q flags mask = Some (i, new, L') /\ consistent s' C (<[p := L']> Ls)) \/
    (fst r = - EINVAL \/ fst r = - ENOMEM) /\ consistent s' C Ls) s h.
Proof.
  intros Hcon Hp Hb Hq Ht Hr Hdev. pose proof Hcon as [Hi Hok Hal Hra]. destruct (Hok p L Hp) as (lb & Hlb & Hu & Hk). unfold wsbmBOAddListItem.
  apply wp_bind. eapply get_buffer_wp; [exact Hb|]. apply wp_bind. eapply get_blist_wp; [exact Hlb|]. rewrite Hq. cbn [default from_option].
  assert (Huser : forall s1 out h1, consistent s1 C Ls -> storages s1 = storages s ->
    wpm (r ← on_list User p (wsbmAddValidateItem q flags mask);
         match r with
         | Add_error e => mret (e, out)
         | Add_done _ _ newItem =>
             (if newItem : bool then
                storage ← storage_of b;
                change_storage storage (fun t => storage_refs (st_refs t + 1) t) ;;
                change_storage storage (fun t => storage_onList (st_onList t + 1) t)
              else mret tt) ;;
             mret (0, out)
         end) (fun (r : Z * option (Z * option Z)) s' _ =>
      fst r = 0 /\ (exists i new L', add_item L q flags mask = Some (i, new, L') /\ consistent s' C (<[p := L']> Ls)) \/
      (fst r = - EINVAL \/ fst r = - ENOMEM) /\ consistent s' C Ls) s1 h1).
  { intros s1 out h1 Hc1 Es. eapply wp_mono; [eapply (add_user_wp p L q t); [exact Hc1|exact Hp|exact Hq|by rewrite Es|done]|]. cbv beta.
    intros r s' h' [_ [[E Hx]|[He Hc]]]; [by left|]. right. split; [|done]. destruct He as [[-> _]| ->]; [by left|by right]. }
  apply wp_bind. destruct (hasKernelBuffers lb) eqn:EK.
  - destruct (Hk EK) as (t1 & L1 & Hv1). destruct (inv_view _ _ _ _ _ _ Hi Ht) as (w & Hw & HP).
    apply wp_bind. eapply storage_of_wp; [exact Hq|]. apply wp_bind. eapply get_storage_wp; [exact Ht|].
    apply wp_bind, on_pool_same; [eapply law_kernel; [exact Hw|rewrite HP; by eapply Hdev]|]. intros kbuf p' E.
    apply wp_bind. eapply on_list_wp; [exact Hlb|]. eapply wp_mono; [eapply add_validate_item_wp; exact Hv1|]. cbv beta. intros r v' log' Hpost.
    assert (Hc1 : exists t2 L2, vl_list t2 v' L2).
    { destruct r; [destruct Hpost as [Hv' _]; by exists t1, L1|destruct Hpost as (i & L2 & _ & _ & Hv'); by exists t1, L2]. }
    assert (Hcons : consistent (set_blists (<[p := set_list Kernel v' lb]> (blists (set_bpool p' s))) log' (set_bpool p' s)) C Ls).
    { split; [by apply (inv_same s)| |done|done]. rewrite <- (insert_id Ls p L Hp). eapply lists_ok_update; [exact Hok|done|done|]. by intros _. }
    apply wp_ret. destruct r as [e|loc node new].
    + destruct Hpost as [_ He]. assert (e = - ENOMEM \/ e = - EINVAL) as He' by (destruct He as [(-> & _)|[-> _]]; [by left|by right]).
      assert (Hne : negb (e =? 0) = true) by (destruct He' as [->| ->]; done). rewrite Hne. apply wp_ret. right. split; [|done].
      destruct He' as [->| ->]; [by right|by left].
    + cbn [negb Z.eqb]. by apply Huser.
  - apply wp_ret. cbn [negb Z.eqb]. by apply Huser.
Qed.

End lists.
