(* ===== verification/BufferMgrRefs.v ===== *)
(** What clients of the buffer manager can rely on: any sequence of their operations, and
    what is left of the storages.

    A client uses the buffers it holds references to and the lists it made ([legal]); what
    it holds is [C] and what it has put on its lists [Ls].  The pools are any that keep
    [PoolLaws], the lists' nodes and the memory any. *)
From stdpp Require Import gmap.
From S2P Require Import Prelude Rings ValidateList ValidateListInv ValidateListSpec BufferMgr Pools BufferMgrInv BufferMgrSpec BufferMgrLists.

Inductive buffer_use :=
| U_wait (lazy : bool) | U_map (mode : Z) | U_unmap | U_sync (mode : Z) | U_release (mode : Z) | U_offset | U_poolOffset
| U_placement | U_size | U_status (set clr : Z) | U_kernel | U_fence (fence : Z) | U_onList.

Inductive bm_op :=
| O_gen (pool : Z) (n : nat) (alignment placement : Z)
| O_simple (pool size placement alignment : Z)
| O_reference (buf : Z)
| O_unreference (buf : Z)
| O_use (buf : Z) (u : buffer_use)
| O_data (buf size : Z) (data : option (list Z)) (newPool : option Z) (placement : Z)
| O_data_user (buf size : Z) (data : option (list Z)) (newPool : option Z) (placement user_ptr : Z)
| O_clone (buf : Z)
| O_sub (buf offset size : Z) (data : option (list Z))
| O_get (buf offset size : Z) (wants : bool)
| O_set_referenced (buf handle : Z)
| O_new_list (target : Z) (kernel : bool)
| O_free_list (list : Z)
| O_add (list buf flags mask : Z)
| O_unref_list (list : Z)
| O_fence_list (list fence : Z)
| O_validate_list (list : Z)
| O_unvalidate_list (list : Z).

Inductive bm_answer :=
| A_none | A_val (z : Z) | A_buf (o : option Z) | A_bufs (ret : Z) (l : list Z) | A_data (ret : Z) (d : option (list Z))
| A_add (ret : Z) (out : option (Z * option Z)).

Section clients.
Context {P : Type} `{!PoolOps P} `{!PoolLaws P} `{!BmEnv} `{!VNodes}.

Abbreviation MB A := (M (list bcall) (bm_state P) A).
Abbreviation wpm := (wp (H := list bcall) (S := bm_state P) False).

Implicit Types (s : bm_state P) (h : list bcall) (C : Z -> Z) (Ls : gmap Z (list item)).

Context (accel : option (Z -> Z -> MB Z)).

Definition use_do (buf : Z) (u : buffer_use) : MB Z :=
  match u with
  | U_wait lazy => wsbmBOWaitIdle buf lazy ;; mret 0
  | U_map mode => r ← wsbmBOMap buf mode; mret (default 0 r)
  | U_unmap => wsbmBOUnmap buf ;; mret 0
  | U_sync mode => wsbmBOSyncForCpu buf mode
  | U_release mode => wsbmBOReleaseFromCpu buf mode ;; mret 0
  | U_offset => wsbmBOOffsetHint buf
  | U_poolOffset => wsbmBOPoolOffset buf
  | U_placement => wsbmBOPlacementHint buf
  | U_size => wsbmBOSize buf
  | U_status set clr => wsbmBOSetStatus buf set clr
  | U_kernel => wsbmKBuf buf
  | U_fence fence => wsbmBOFence buf fence ;; mret 0
  | U_onList => wsbmBOOnList buf
  end.

Definition bm_do (op : bm_op) : MB bm_answer :=
  match op with
  | O_gen pool n alignment placement => '(ret, l) ← wsbmGenBuffers pool n alignment placement; mret (A_bufs ret l)
  | O_simple pool size placement alignment => '(r, _) ← wsbmBOCreateSimple pool size placement alignment; mret (A_buf r)
  | O_reference buf => wsbmBOReference buf ;; mret A_none
  | O_unreference buf => wsbmBOUnreference (Some buf) ;; mret A_none
  | O_use buf u => z ← use_do buf u; mret (A_val z)
  | O_data buf size data newPool placement => z ← wsbmBOData buf size data newPool placement; mret (A_val z)
  | O_data_user buf size data newPool placement user_ptr => z ← wsbmBODataUB buf size data newPool placement user_ptr; mret (A_val z)
  | O_clone buf => r ← wsbmBOClone buf accel; mret (A_buf r)
  | O_sub buf offset size data => z ← wsbmBOSubData buf offset size data accel; mret (A_val z)
  | O_get buf offset size wants => '(ret, d) ← wsbmBOGetSubData buf offset size wants; mret (A_data ret d)
  | O_set_referenced buf handle => z ← wsbmBOSetReferenced buf handle; mret (A_val z)
  | O_new_list target kernel => r ← wsbmBOCreateList target kernel; mret (A_buf r)
  | O_free_list list => wsbmBOFreeList list ;; mret A_none
  | O_add list buf flags mask => '(ret, out) ← wsbmBOAddListItem list buf flags mask; mret (A_add ret out)
  | O_unref_list list => z ← wsbmBOUnrefUserList list; mret (A_val z)
  | O_fence_list list fence => z ← wsbmBOFenceUserList list fence; mret (A_val z)
  | O_validate_list list => z ← wsbmBOValidateUserList list; mret (A_val z)
  | O_unvalidate_list list => z ← wsbmBOUnvalidateUserList list; mret (A_val z)
  end.

(** The storage of the buffer [buf], its counts and its contents. *)
Definition stores s (buf : Z) (q : Z) (t : buf_storage) (w : pool_storage) : Prop := exists b, stored s buf b q t w.

Definition legal_use s (buf : Z) (u : buffer_use) : Prop :=
  match u with
  | U_wait _ | U_unmap | U_status _ _ | U_onList => True
  | U_offset | U_poolOffset | U_kernel | U_fence _ => exists q t w, stores s buf q t w /\ pl_device (st_pool t)
  | _ => exists q t w, stores s buf q t w
  end.

(** The pool and the placement that [wsbmBOData] takes, and what it may do with them. *)
Definition legal_data (ok : Z -> Z -> Z -> Prop) s (buf size : Z) (data : option (list Z)) (newPool : option Z) (placement : Z) : Prop :=
  0 <= size /\ (forall d, data = Some d -> size <= Z.of_nat (length d)) /\
  forall b pool, buffers s !! buf = Some b -> match newPool with None => bo_pool b | Some _ => newPool end = Some pool ->
    let placement := if placement =? 0 then bo_placement b else placement in
    ok pool size placement /\ (placement = bo_placement b \/ pl_setStatus pool <> None).

Definition not_simple s (buf : Z) : Prop := forall b, buffers s !! buf = Some b -> bo_type b <> SIMPLE.

(** What the client may ask for. *)
Definition legal s C Ls (op : bm_op) : Prop :=
  match op with
  | O_gen _ _ _ _ => True
  | O_simple pool size placement _ => pl_accepts pool size placement
  | O_reference buf => 0 < C buf /\ C buf + 1 < 2 ^ 31 /\ forall q t w, stores s buf q t w -> st_refs t + 1 < 2 ^ 31
  | O_unreference buf => 0 < C buf
  | O_use buf u => 0 < C buf /\ legal_use s buf u
  | O_data buf size data newPool placement => 0 < C buf /\ legal_data pl_accepts s buf size data newPool placement
  | O_data_user buf size data newPool placement user_ptr =>
      0 < C buf /\ legal_data (fun pool size _ => pl_shares pool user_ptr size) s buf size data newPool placement /\
      exists pool, pl_shares pool user_ptr size
  | O_clone buf => 0 < C buf /\ not_simple s buf /\ exists b q t w, stored s buf b q t w /\ pl_accepts (st_pool t) (ps_size w) (bo_placement b)
  | O_sub buf offset size data => 0 < C buf /\ 0 <= offset /\ 0 <= size /\
      forall d, data = Some d -> size <> 0 -> size <= Z.of_nat (length d) /\ exists b q t w, stored s buf b q t w /\
        offset + size <= ps_size w /\ (st_onList t <> 0 -> pl_accepts (st_pool t) (ps_size w) (bo_placement b))
  | O_get buf offset size wants => 0 < C buf /\ 0 <= offset /\ 0 <= size /\ exists q t w, stores s buf q t w /\ offset + size <= ps_size w
  | O_set_referenced buf _ => 0 < C buf /\ not_simple s buf /\ exists b, buffers s !! buf = Some b /\ is_Some (bo_pool b)
  | O_new_list target kernel => 0 <= target <= MAX_NODES /\ (kernel = true \/ lists_memory)
  | O_free_list list => Ls !! list = Some []
  | O_add list buf _ _ => 0 < C buf /\ is_Some (Ls !! list) /\ exists q t w, stores s buf q t w /\ st_refs t + 1 < 2 ^ 31 /\
      forall l, blists s !! list = Some l -> hasKernelBuffers l = true -> pl_device (st_pool t)
  | O_unref_list list | O_validate_list list | O_unvalidate_list list => is_Some (Ls !! list)
  | O_fence_list list _ => exists L, Ls !! list = Some L /\
      forall q t, q ∈ L.*1 -> storages s !! q = Some t -> pl_device (st_pool t)
  end.

(** The references of the client, and its lists, after an operation. *)
Definition held_after (op : bm_op) (r : bm_answer) C : Z -> Z :=
  match op, r with
  | O_gen _ _ _ _, A_bufs _ l => given l C
  | O_simple _ _ _ _, A_buf (Some p) => upd C p 1
  | O_clone _, A_buf (Some p) => upd C p 1
  | O_reference p, _ => upd C p (C p + 1)
  | O_unreference p, _ => upd C p (C p - 1)
  | _, _ => C
  end.

Definition listed_after s (op : bm_op) (r : bm_answer) Ls : gmap Z (list item) :=
  match op, r with
  | O_new_list _ _, A_buf (Some p) => <[p := []]> Ls
  | O_free_list p, _ => delete p Ls
  | O_unref_list p, _ | O_fence_list p _, _ | O_unvalidate_list p, _ => <[p := []]> Ls
  | O_add p buf flags mask, A_add ret _ =>
      if ret =? 0 then
        match buffers s !! buf ≫= bo_storage, Ls !! p with
        | Some q, Some L => match add_item L q flags mask with Some (_, _, L') => <[p := L']> Ls | None => Ls end
        | _, _ => Ls
        end
      else Ls
  | _, _ => Ls
  end.

(** What the answers say of the contents. *)
Definition truthful (op : bm_op) (r : bm_answer) s s' : Prop :=
  match op, r with
  | O_data buf size (Some d) _ _, A_val ret => ret = 0 -> size <> 0 -> exists q t w, stores s' buf q t w /\
      slice 0 size (ps_bytes w) = take (Z.to_nat size) d
  | O_sub buf offset size (Some d), A_val ret => ret = 0 -> size <> 0 -> exists q t w, stores s' buf q t w /\
      slice offset size (ps_bytes w) = take (Z.to_nat size) d
  | O_get buf offset size true, A_data ret o => ret = 0 -> size <> 0 -> exists q t w, stores s buf q t w /\
      o = Some (slice offset size (ps_bytes w))
  | O_gen _ n _ _, A_bufs ret l => ret = 0 -> length l = n
  | O_use buf U_size, A_val z => exists q t w, stores s buf q t w /\ z = ps_size w
  | O_use buf U_onList, A_val z => forall q t w, stores s buf q t w -> z = st_onList t
  | _, _ => True
  end.

Lemma consistent_pool s C Ls p' : consistent s C Ls -> same_pools (pl_view (bpool s)) (pl_view p') -> consistent (set_bpool p' s) C Ls.
Proof. intros [Hi Hl Ha Hr] Hs. split; [by apply inv_pools|by eapply lists_ok_same|done|done]. Qed.

Lemma consistent_exists s C Ls p : consistent s C Ls -> 0 < C p -> exists b, buffers s !! p = Some b.
Proof.
  intros [Hi _ _ _] Hp. destruct (buffers s !! p) as [b|] eqn:E; [by exists b|]. by rewrite (c_none _ _ _ _ _ _ Hi p E) in Hp.
Qed.

(** An operation on one buffer. *)
Lemma consistent_buffer p s s' C C' Ls : consistent s C Ls -> inv s' C' (counted Ls) [] -> apart p s s' ->
  (forall x, x <> p -> C' x = C x) -> C' p < 2 ^ 31 ->
  (forall b, buffers s' !! p = Some b -> bo_type b <> SIMPLE -> 0 < C' p) -> consistent s' C' Ls.
Proof.
  intros [Hi Hl Ha Hr] Hi' Hap HC HCp Hb. split; [done|eapply lists_ok_same; [done|apply Hap]| |].
  - intros x b Hx HT. destruct (decide (x = p)) as [->|Hne]; [by eapply Hb|]. rewrite HC by done. eapply Ha; [by apply (a_old _ _ _ Hap)|done].
  - intros x. destruct (decide (x = p)) as [->|Hne]; [done|]. rewrite HC by done. apply Hr.
Qed.

(** The references are as they were. *)
Lemma consistent_buffer_same p s s' C Ls : consistent s C Ls -> inv s' C (counted Ls) [] -> apart p s s' -> 0 < C p -> consistent s' C Ls.
Proof. intros Hc Hi Ha Hp. eapply consistent_buffer; try done. apply Hc. Qed.

Lemma upd_same C p n : upd C p n p = n.
Proof. unfold upd. by rewrite decide_True. Qed.

Lemma upd_other C p n x : x <> p -> upd C p n x = C x.
Proof. intros Hx. unfold upd. by rewrite decide_False. Qed.

(** ** Uses of a buffer *)

Definition pool_step s s' : Prop := exists p', s' = set_bpool p' s /\ same_pools (pl_view (bpool s)) (pl_view p').

Lemma pool_step_same s p' : pl_view p' = pl_view (bpool s) -> pool_step s (set_bpool p' s).
Proof. intros E. exists p'. by rewrite E. Qed.

Lemma pool_step_refl s : pool_step s s.
Proof. exists (bpool s). by destruct s. Qed.

Section use.
Context {s : bm_state P} {C : Z -> Z} {Ls : gmap Z (list item)} {buf : Z} {b : buffer_object} {q : Z} {t : buf_storage} {w : pool_storage}.
Context (Hst : stored s buf b q t w).

(** An operation that gets the storage of the buffer first. *)
Lemma with_storage_wp {A} (m : Z -> MB A) Q h : wpm (m q) Q s h ->
  wpm (b ← get_buffer buf; storage ← storage_of b; get_storage storage ;; m storage) Q s h.
Proof.
  destruct Hst as (Hb & Hq & Ht & _). intros Hm. apply wp_bind. eapply get_buffer_wp; [exact Hb|]. apply wp_bind.
  eapply storage_of_wp; [exact Hq|]. apply wp_bind. by eapply get_storage_wp.
Qed.

(** The same for those that do nothing without one. *)
Lemma if_storage_wp {A} (d : A) (m : Z -> MB A) Q h : wpm (m q) Q s h ->
  wpm (b ← get_buffer buf; match bo_storage b with None => mret d | Some storage => get_storage storage ;; m storage end) Q s h.
Proof.
  destruct Hst as (Hb & Hq & Ht & _). intros Hm. apply wp_bind. eapply get_buffer_wp; [exact Hb|]. rewrite Hq.
  apply wp_bind. by eapply get_storage_wp.
Qed.

Lemma use_map_wp mode h : wpm (wsbmBOMap buf mode) (fun _ s' _ => pool_step s s') s h.
Proof.
  apply with_storage_wp. destruct Hst as (_ & _ & _ & Hw & _). apply wp_bind, on_pool_wp. eapply wp_mono; [by eapply law_map|]. cbv beta.
  intros [ret v] p' u' E. apply wp_ret. exists p'. split; [done|]. rewrite E. cbn. destruct (ret =? 0); [by eapply same_pools_insert|done].
Qed.

Lemma use_unmap_wp h : wpm (wsbmBOUnmap buf) (fun _ s' _ => pool_step s s') s h.
Proof.
  apply if_storage_wp. destruct Hst as (_ & _ & _ & Hw & _). apply on_pool_wp. eapply wp_mono; [by eapply law_unmap|]. cbv beta.
  intros _ p' u' [m E]. exists p'. split; [done|]. rewrite E. by eapply same_pools_insert.
Qed.

Lemma use_status_wp set clr h : wpm (wsbmBOSetStatus buf set clr) (fun _ s' _ => pool_step s s') s h.
Proof.
  destruct Hst as (Hb & Hq & Ht & Hw & HP & _). unfold wsbmBOSetStatus. apply wp_bind. eapply get_buffer_wp; [exact Hb|]. rewrite Hq.
  apply wp_bind. eapply get_storage_wp; [exact Ht|]. destruct (pl_setStatus (st_pool t)) as [f|] eqn:Hf; [|apply wp_ret, pool_step_refl].
  apply on_pool_same; [eapply law_status; [exact Hw|by rewrite HP]|]. intros _ p' E. by apply pool_step_same.
Qed.

Lemma use_fence_wp fence h : pl_device (st_pool t) -> wpm (wsbmBOFence buf fence) (fun _ s' _ => pool_step s s') s h.
Proof.
  intros Hd. destruct Hst as (Hb & Hq & Ht & Hw & HP & _). unfold wsbmBOFence. apply wp_bind. eapply get_buffer_wp; [exact Hb|].
  apply wp_bind. eapply storage_of_wp; [exact Hq|]. apply wp_bind. eapply get_storage_wp; [exact Ht|].
  destruct (pl_fence (st_pool t)) as [f|] eqn:Hf; [|apply wp_ret, pool_step_refl].
  apply on_pool_same; [eapply law_fence; [exact Hw|by rewrite HP|by rewrite HP]|]. intros _ p' E. by apply pool_step_same.
Qed.

Lemma use_onList_wp h : wpm (wsbmBOOnList buf) (fun z s' _ => s' = s /\ z = st_onList t) s h.
Proof.
  destruct Hst as (Hb & Hq & Ht & _). unfold wsbmBOOnList. apply wp_bind. eapply get_buffer_wp; [exact Hb|]. rewrite Hq.
  apply wp_bind. eapply get_storage_wp; [exact Ht|]. by apply wp_ret.
Qed.

(** The functions of the pool that are called on the storage and leave it. *)
Lemma use_quiet_wp {A} (m : M unit P A) h : wp False m (fun _ p' _ => pl_view p' = pl_view (bpool s)) (bpool s) tt ->
  wpm (on_pool m) (fun _ s' _ => pool_step s s') s h.
Proof. intros Hm. apply on_pool_same; [exact Hm|]. intros _ p' E. by apply pool_step_same. Qed.

Lemma use_size_wp h : wpm (wsbmBOSize buf) (fun z s' _ => pool_step s s' /\ z = ps_size w) s h.
Proof.
  apply with_storage_wp. destruct Hst as (_ & _ & _ & Hw & _). apply on_pool_wp. eapply wp_mono; [by eapply law_size|]. cbv beta.
  intros n p' u' [E ->]. split; [by apply pool_step_same|done].
Qed.

Lemma use_placement_wp h : wpm (wsbmBOPlacementHint buf) (fun _ s' _ => pool_step s s') s h.
Proof.
  destruct Hst as (Hb & Hq & Ht & Hw & _). unfold wsbmBOPlacementHint. apply wp_bind. eapply get_buffer_wp; [exact Hb|].
  apply wp_bind, wp_assert. split; [by apply bool_decide_eq_true_2; rewrite Hq|]. apply wp_bind. eapply storage_of_wp; [exact Hq|].
  apply wp_bind. eapply get_storage_wp; [exact Ht|]. by eapply use_quiet_wp, law_placement.
Qed.

Lemma stores_unique q' t' w' : stores s buf q' t' w' -> q' = q /\ t' = t /\ w' = w.
Proof. intros (b' & Hb' & Hq' & Ht' & Hw' & _). destruct Hst as (Hb & Hq & Ht & Hw & _). split_and!; congruence. Qed.

End use.

Lemma use_null_wp buf b u s h : buffers s !! buf = Some b -> bo_storage b = None ->
  match u with U_wait _ | U_unmap | U_status _ _ | U_onList => True | _ => False end ->
  wpm (use_do buf u) (fun _ s' _ => s' = s) s h.
Proof.
  intros Hb Hq Hu. destruct u; try done; cbn [use_do]; unfold wsbmBOWaitIdle, wsbmBOUnmap, wsbmBOSetStatus, wsbmBOOnList.
  1,2: apply wp_bind.
  all: apply wp_bind; (eapply get_buffer_wp; [exact Hb|]); rewrite Hq; by apply wp_ret.
Qed.

Lemma use_stored_wp buf b q t w u s h : stored s buf b q t w ->
  (match u with U_offset | U_poolOffset | U_kernel | U_fence _ => pl_device (st_pool t) | _ => True end) ->
  wpm (use_do buf u) (fun z s' _ => pool_step s s' /\ truthful (O_use buf u) (A_val z) s s') s h.
Proof.
  intros Hst Hd. pose proof Hst as (_ & _ & _ & Hw & HP & _). rewrite <- HP in Hd.
  assert (Hstep : forall A (m : MB A) (z : Z), wpm m (fun _ s' _ => pool_step s s') s h -> wpm (m ;; mret z) (fun _ s' _ => pool_step s s' /\ True) s h).
  { intros A m z Hm. apply wp_bind. eapply wp_mono; [exact Hm|]. cbv beta. intros _ s' h' Hs. by apply wp_ret. }
  assert (Htrue : forall (m : MB Z), wpm m (fun _ s' _ => pool_step s s') s h -> wpm m (fun _ s' _ => pool_step s s' /\ True) s h).
  { intros m Hm. eapply wp_mono; [exact Hm|]. by split. }
  destruct u; cbn [use_do truthful].
  - apply Hstep. unfold wsbmBOWaitIdle. eapply (if_storage_wp Hst tt (fun q => on_pool (pl_waitIdle q lazy) ;; mret tt)).
    apply wp_bind. eapply wp_mono; [by eapply use_quiet_wp, law_wait|]. cbv beta. intros _ s' h' Hs. by apply wp_ret.
  - apply wp_bind. eapply wp_mono; [by eapply use_map_wp|]. cbv beta. intros r s' h' Hs. by apply wp_ret.
  - apply Hstep. by eapply use_unmap_wp.
  - apply Htrue, (with_storage_wp Hst (fun q => on_pool (pl_syncforcpu q mode))). by eapply use_quiet_wp, law_sync.
  - apply Hstep, (with_storage_wp Hst (fun q => on_pool (pl_releasefromcpu q mode))). by eapply use_quiet_wp, law_release.
  - apply Htrue, (with_storage_wp Hst (fun q => on_pool (pl_offset q))). by eapply use_quiet_wp, law_offset.
  - apply Htrue, (with_storage_wp Hst (fun q => on_pool (pl_poolOffset q))). by eapply use_quiet_wp, law_poolOffset.
  - apply Htrue. by eapply use_placement_wp.
  - eapply wp_mono; [by eapply use_size_wp|]. cbv beta. intros z s' h' [Hs ->]. split; [done|]. exists q, t, w. split; [by exists b|done].
  - apply Htrue. by eapply use_status_wp.
  - apply Htrue, (with_storage_wp Hst (fun q => on_pool (pl_kernel q))). by eapply use_quiet_wp, law_kernel.
  - apply Hstep. rewrite HP in Hd. by eapply use_fence_wp.
  - eapply wp_mono; [by eapply use_onList_wp|]. cbv beta. intros z s' h' [-> ->]. split; [apply pool_step_refl|].
    intros q' t' w' Hs'. by destruct (stores_unique Hst _ _ _ Hs') as (_ & -> & _).
Qed.

Lemma use_wp buf u s h C Ls : consistent s C Ls -> 0 < C buf -> legal_use s buf u ->
  wpm (use_do buf u) (fun z s' _ => consistent s' C Ls /\ truthful (O_use buf u) (A_val z) s s') s h.
Proof.
  intros Hc HC Hu. destruct (consistent_exists _ _ _ _ Hc HC) as [b Hb].
  assert (Hin : forall b1 q t w, stored s buf b1 q t w ->
    (match u with U_offset | U_poolOffset | U_kernel | U_fence _ => pl_device (st_pool t) | _ => True end) ->
    wpm (use_do buf u) (fun z s' _ => consistent s' C Ls /\ truthful (O_use buf u) (A_val z) s s') s h).
  { intros b1 q t w Hst Hd. eapply wp_mono; [by eapply use_stored_wp|]. cbv beta. intros z s' h' [(p' & -> & Hs) Ht]. split; [|done].
    by apply consistent_pool. }
  destruct (bo_storage b) as [q|] eqn:Hq.
  - destruct (inv_stored _ _ _ _ _ _ _ (co_inv _ _ _ Hc) Hb Hq) as (t & w & Hst & _). eapply Hin; [exact Hst|].
    destruct u; try done; destruct Hu as (q' & t' & w' & Hs' & Hd); by destruct (stores_unique Hst _ _ _ Hs') as (_ & -> & _).
  - assert (Hno : forall q t w, ~ stores s buf q t w).
    { intros q t w (b' & Hb' & Hq' & _). congruence. }
    eapply wp_mono; [eapply use_null_wp; [exact Hb|exact Hq|]|].
    + destruct u; try done; destruct Hu as (q' & t' & w' & Hs'); first [by apply Hno in Hs'|destruct Hs' as [Hs' _]; by apply Hno in Hs'].
    + cbv beta. intros z s' h' ->. split; [done|]. destruct u; try done; try (destruct Hu as (q' & t' & w' & Hs'); by apply Hno in Hs').
      intros q' t' w' Hs'. by apply Hno in Hs'.
Qed.

(** ** The steps *)

(** What a step keeps and says. *)
Definition step_post s C Ls (op : bm_op) (r : bm_answer) s' : Prop :=
  consistent s' (held_after op r C) (listed_after s op r Ls) /\ truthful op r s s'.

Lemma given_in l C p : p ∈ l -> given l C p = 1.
Proof.
  revert C. induction l as [|x l IH]; intros C Hp; cbn [given]; [by apply not_elem_of_nil in Hp|].
  destruct (decide (p ∈ l)) as [Hl|Hl]; [by apply IH|]. apply elem_of_cons in Hp as [->|Hp]; [|done].
  clear IH. assert (E : forall C, given l C x = C x); [|by rewrite E, upd_same]. clear C. induction l as [|y l IH]; intros C; [done|].
  cbn [given]. rewrite IH by set_solver. apply upd_other. set_solver.
Qed.

Lemma given_out l C p : p ∉ l -> given l C p = C p.
Proof.
  revert C. induction l as [|x l IH]; intros C Hp; cbn [given]; [done|]. rewrite IH by set_solver. apply upd_other. set_solver.
Qed.

Lemma gen_ok pool n alignment placement s h C Ls : consistent s C Ls ->
  wpm (bm_do (O_gen pool n alignment placement)) (fun r s' _ => step_post s C Ls (O_gen pool n alignment placement) r s') s h.
Proof.
  intros [Hi Hl Ha Hr]. cbn [bm_do]. apply wp_bind. unfold wsbmGenBuffers. eapply wp_mono; [by eapply gen_buffers_wp|]. cbv beta.
  intros [ret l] s' h' (Hi' & E1 & E2 & Hsub & Hlen & Hnew). apply wp_ret. cbn [fst snd] in *. split; [|done]. cbn [held_after listed_after].
  split; [done|by eapply lists_ok_same| |].
  - intros p b Hb HT. destruct (decide (p ∈ l)) as [Hp|Hp]; [by rewrite given_in|]. rewrite given_out by done.
    destruct (Hnew p b Hb) as [Hb'|Hp']; [by eapply Ha|done].
  - intros p. destruct (decide (p ∈ l)) as [Hp|Hp]; [by rewrite given_in|]. rewrite given_out by done. apply Hr.
Qed.

Lemma simple_ok pool size placement alignment s h C Ls : consistent s C Ls -> pl_accepts pool size placement ->
  wpm (bm_do (O_simple pool size placement alignment)) (fun r s' _ => step_post s C Ls (O_simple pool size placement alignment) r s') s h.
Proof.
  intros [Hi Hl Ha Hr] Hacc. cbn [bm_do]. apply wp_bind. eapply wp_mono; [by eapply create_simple_wp|]. cbv beta.
  intros [[p|] off] s' h' (E1 & E2 & Hp); cbn [fst] in Hp; apply wp_ret; (split; [|done]); cbn [held_after listed_after].
  - destruct Hp as (Hi' & Hn & b & Eb & HT). split; [done|by eapply lists_ok_same| |].
    + intros x bx Hx HTx. rewrite Eb in Hx. apply lookup_insert_Some in Hx as [[<- <-]|[Hne Hx]]; [done|]. rewrite upd_other by done. by eapply Ha.
    + intros x. unfold upd. case_decide; [done|apply Hr].
  - destruct Hp as [Hi' Eb]. split; [done|by eapply lists_ok_same| |done]. intros x bx Hx. rewrite Eb in Hx. by apply Ha.
Qed.

Lemma reference_ok buf s h C Ls : consistent s C Ls -> 0 < C buf -> C buf + 1 < 2 ^ 31 ->
  (forall q t w, stores s buf q t w -> st_refs t + 1 < 2 ^ 31) ->
  wpm (bm_do (O_reference buf)) (fun r s' _ => step_post s C Ls (O_reference buf) r s') s h.
Proof.
  intros Hc HC Hlt Hr. destruct (consistent_exists _ _ _ _ Hc HC) as [b Hb]. cbn [bm_do]. apply wp_bind.
  eapply wp_mono; [eapply reference_buffer_wp; [apply Hc|exact Hb|done|]|].
  - intros q t Hq Ht. destruct (inv_stored _ _ _ _ _ _ _ (co_inv _ _ _ Hc) Hb Hq) as (t' & w & Hst & _).
    pose proof Hst as (_ & _ & Ht' & _). assert (t' = t) as -> by congruence. eapply Hr. by exists b.
  - cbv beta. intros _ s' h' (_ & Hi' & Ha'). apply wp_ret. split; [|done]. cbn [held_after listed_after].
    eapply (consistent_buffer buf); [exact Hc|exact Hi'|done| |by rewrite upd_same|].
    + intros x Hx. by apply upd_other.
    + intros b' _ _. rewrite upd_same. lia.
Qed.

Lemma unreference_ok buf s h C Ls : consistent s C Ls -> 0 < C buf ->
  wpm (bm_do (O_unreference buf)) (fun r s' _ => step_post s C Ls (O_unreference buf) r s') s h.
Proof.
  intros Hc HC. destruct (consistent_exists _ _ _ _ Hc HC) as [b Hb]. cbn [bm_do]. apply wp_bind. pose proof (co_range _ _ _ Hc buf) as Hr.
  eapply wp_mono; [eapply unreference_wp; [apply Hc|exact Hb|done]|]. cbv beta. intros _ s' h' (Hi' & (Ha' & _) & HS & HN).
  apply wp_ret. split; [|done]. cbn [held_after listed_after]. eapply (consistent_buffer buf); [exact Hc|exact Hi'|done| |rewrite upd_same; lia|].
  - intros x Hx. by apply upd_other.
  - intros b' Hb' HT. rewrite upd_same. destruct (decide (bo_type b = SIMPLE)) as [E|E].
    + pose proof (lookup_weaken _ _ _ _ Hb' (HS E)). congruence.
    + specialize (HN E). destruct (Z.eqb_spec (C buf) 1); [congruence|lia].
Qed.

(** The data is where it was asked for. *)
Lemma data_truth G flag buf b s C I X ret s' : data_post G flag buf b s C I X ret s' -> ret = 0 -> flag = true ->
  exists q t w, stores s' buf q t w /\ G w.
Proof.
  intros (Hi & _ & b' & Hb' & _ & _ & HG) E1 E2. destruct (HG E1 E2) as (q & w & Hq & Hw & HGw).
  destruct (inv_stored _ _ _ _ _ _ _ Hi Hb' Hq) as (t & w' & Hst & _). pose proof Hst as (_ & _ & _ & Hw' & _).
  assert (w' = w) as -> by congruence. exists q, t, w. split; [by exists b'|done].
Qed.

Lemma data_ok buf size data newPool placement s h C Ls : consistent s C Ls -> 0 < C buf ->
  legal_data pl_accepts s buf size data newPool placement ->
  wpm (bm_do (O_data buf size data newPool placement)) (fun r s' _ => step_post s C Ls (O_data buf size data newPool placement) r s') s h.
Proof.
  intros Hc HC (Hs & Hd & Hok). destruct (consistent_exists _ _ _ _ Hc HC) as [b Hb]. cbn [bm_do]. apply wp_bind. unfold wsbmBOData.
  set (G := fun w => match data with Some d => slice 0 size (ps_bytes w) = take (Z.to_nat size) d | None => True end).
  eapply wp_mono; [eapply (data_with_wp create_storage pl_accepts (create_storage_wp) _ _ _ G); [|apply Hc|exact Hb|by intros pool; apply Hok]|].
  { intros E. destruct data as [d|]; [|done]. apply copy_mapped_ok. split; [done|by apply Hd]. }
  cbv beta. intros ret s' h' Hpost. apply wp_ret. split.
  - cbn [held_after listed_after]. destruct Hpost as (Hi' & Ha' & _). by eapply consistent_buffer_same.
  - cbn [truthful]. destruct data as [d|]; [|done]. intros E0 Hne. eapply (data_truth _ _ _ _ _ _ _ _ _ _ Hpost E0).
    cbn. by rewrite (proj2 (Z.eqb_neq _ _) Hne).
Qed.

Lemma data_user_ok buf size data newPool placement user s h C Ls : consistent s C Ls -> 0 < C buf ->
  legal_data (fun pool size _ => pl_shares pool user size) s buf size data newPool placement ->
  (exists pool, pl_shares pool user size) ->
  wpm (bm_do (O_data_user buf size data newPool placement user))
    (fun r s' _ => step_post s C Ls (O_data_user buf size data newPool placement user) r s') s h.
Proof.
  intros Hc HC (Hs & Hd & Hok) [pool0 Hp0]. destruct (consistent_exists _ _ _ _ Hc HC) as [b Hb]. cbn [bm_do]. apply wp_bind. unfold wsbmBODataUB.
  eapply wp_mono; [eapply (data_with_wp (create_user user) (fun pool size _ => pl_shares pool user size)
    (create_user_wp user) _ _ _ (fun _ => True)); [|apply Hc|exact Hb|by intros pool; apply Hok]|].
  { intros E. destruct data as [d|]; [|done]. eapply copy_user_ok; [split; [done|by apply Hd]|exact Hp0]. }
  cbv beta. intros ret s' h' Hpost. apply wp_ret. split; [|done].
  cbn [held_after listed_after]. destruct Hpost as (Hi' & Ha' & _). by eapply consistent_buffer_same.
Qed.

Lemma clone_ok buf s h C Ls : (forall f, accel = Some f -> accel_ok f) -> consistent s C Ls -> legal s C Ls (O_clone buf) ->
  wpm (bm_do (O_clone buf)) (fun r s' _ => step_post s C Ls (O_clone buf) r s') s h.
Proof.
  intros Hacc Hc (HC & HT & b & q & t & w & Hst & Hok). cbn [bm_do]. apply wp_bind. pose proof Hst as (Hb & _).
  eapply wp_mono; [eapply clone_wp; [apply Hc|exact Hst|by apply HT|done|done]|]. cbv beta. intros [n|] s' h' Hcl; apply wp_ret; (split; [|done]);
    cbn [held_after listed_after].
  - destruct Hcl as (Hi' & Hn & HCn & Ha' & _). eapply (consistent_buffer n); [exact Hc|exact Hi'|done| |by rewrite upd_same|by rewrite upd_same].
    intros x Hx. by apply upd_other.
  - destruct Hcl as (Hi' & (n & Hn & Hn' & Ha') & _). eapply (consistent_buffer n); [exact Hc|exact Hi'|done|done|apply Hc|].
    intros b' Hb'. congruence.
Qed.

Lemma sub_ok buf offset size data s h C Ls : (forall f, accel = Some f -> accel_ok f) -> consistent s C Ls ->
  legal s C Ls (O_sub buf offset size data) ->
  wpm (bm_do (O_sub buf offset size data)) (fun r s' _ => step_post s C Ls (O_sub buf offset size data) r s') s h.
Proof.
  intros Hacc Hc (HC & Ho & Hs & Hd). destruct (consistent_exists _ _ _ _ Hc HC) as [b Hb]. cbn [bm_do]. apply wp_bind.
  eapply wp_mono; [eapply sub_data_wp; [apply Hc|exact Hb|done|done|done|]|].
  - intros d E Hne _. destruct (Hd d E Hne) as (Hl & b' & q & t & w & Hst & Hsz & Hac). split; [done|]. exists q, t, w.
    pose proof Hst as (Hb' & _). assert (b' = b) as -> by congruence. done.
  - cbv beta. intros ret s' h' Hpost. apply wp_ret. split.
    + cbn [held_after listed_after]. destruct Hpost as (Hi' & Ha' & _). by eapply consistent_buffer_same.
    + cbn [truthful]. destruct data as [d|]; [|done]. intros E0 Hne. eapply (data_truth _ _ _ _ _ _ _ _ _ _ Hpost E0).
      cbn. by rewrite (proj2 (Z.eqb_neq _ _) Hne).
Qed.

Lemma get_ok buf offset size wants s h C Ls : consistent s C Ls -> legal s C Ls (O_get buf offset size wants) ->
  wpm (bm_do (O_get buf offset size wants)) (fun r s' _ => step_post s C Ls (O_get buf offset size wants) r s') s h.
Proof.
  intros Hc (HC & Ho & Hs & q & t & w & [b Hst] & Hsz). cbn [bm_do]. apply wp_bind.
  eapply wp_mono; [by eapply get_sub_data_wp|]. cbv beta. intros [ret o] s' h' (p' & -> & Hss & Hr). apply wp_ret. split.
  - cbn [held_after listed_after]. by apply consistent_pool, same_sizes_pools.
  - cbn [truthful]. destruct wants; [|done]. intros E0 Hne. exists q, t, w. split; [by exists b|]. by apply Hr.
Qed.

Lemma set_referenced_ok buf handle s h C Ls : consistent s C Ls -> legal s C Ls (O_set_referenced buf handle) ->
  wpm (bm_do (O_set_referenced buf handle)) (fun r s' _ => step_post s C Ls (O_set_referenced buf handle) r s') s h.
Proof.
  intros Hc (HC & HT & b & Hb & Hp). cbn [bm_do]. apply wp_bind.
  eapply wp_mono; [eapply set_referenced_wp; [apply Hc|exact Hb|by apply HT|done]|]. cbv beta. intros ret s' h' (Hi' & Ha' & _).
  apply wp_ret. split; [|done]. cbn [held_after listed_after]. by eapply consistent_buffer_same.
Qed.

Lemma add_ok list buf flags mask s h C Ls : consistent s C Ls -> legal s C Ls (O_add list buf flags mask) ->
  wpm (bm_do (O_add list buf flags mask)) (fun r s' _ => step_post s C Ls (O_add list buf flags mask) r s') s h.
Proof.
  intros Hc (HC & [L HL] & q & t & w & [b Hst] & Hr & Hdev). pose proof Hst as (Hb & Hq & Ht & _). cbn [bm_do]. apply wp_bind.
  eapply wp_mono; [eapply add_list_item_wp; [exact Hc|exact HL|exact Hb|exact Hq|exact Ht|done|done]|]. cbv beta.
  intros [ret out] s' h' Hpost. apply wp_ret. split; [|done]. cbn [held_after listed_after]. cbn [fst] in Hpost.
  destruct Hpost as [(-> & i & new & L' & Ha & Hc')|[He Hc']].
  - rewrite Hb. cbn [Z.eqb mbind option_bind]. by rewrite Hq, HL, Ha.
  - rewrite (proj2 (Z.eqb_neq ret 0)); [done|]. destruct He as [->| ->]; done.
Qed.

(** Every step. *)
Lemma step_ok s C Ls op h : (forall f, accel = Some f -> accel_ok f) -> consistent s C Ls -> legal s C Ls op ->
  wpm (bm_do op) (fun r s' _ => step_post s C Ls op r s') s h.
Proof.
  intros Hacc Hc Hl. destruct op.
  - by apply gen_ok.
  - by apply simple_ok.
  - destruct Hl as (? & ? & ?). by apply reference_ok.
  - by apply unreference_ok.
  - destruct Hl as [? ?]. cbn [bm_do]. apply wp_bind. eapply wp_mono; [by eapply use_wp|]. cbv beta. intros z s' h' [? ?]. by apply wp_ret.
  - destruct Hl as [? ?]. by apply data_ok.
  - destruct Hl as (? & ? & ?). by apply data_user_ok.
  - by apply clone_ok.
  - by apply sub_ok.
  - by apply get_ok.
  - by apply set_referenced_ok.
  - destruct Hl as [? ?]. cbn [bm_do]. apply wp_bind. eapply wp_mono; [by eapply create_list_wp|]. cbv beta.
    intros [p|] s' h' Hr; apply wp_ret; (split; [|done]); [by destruct Hr|done].
  - cbn [bm_do]. apply wp_bind. eapply wp_mono; [by eapply free_blist_wp|]. cbv beta. intros _ s' h' Hr. by apply wp_ret.
  - by apply add_ok.
  - destruct Hl as [L HL]. cbn [bm_do]. apply wp_bind. eapply wp_mono; [by eapply unref_user_list_wp|]. cbv beta. intros z s' h' [_ Hr]. by apply wp_ret.
  - destruct Hl as (L & HL & Hd). cbn [bm_do]. apply wp_bind. eapply wp_mono; [by eapply fence_user_list_wp|]. cbv beta. intros z s' h' [_ Hr]. by apply wp_ret.
  - destruct Hl as [L HL]. cbn [bm_do]. apply wp_bind. eapply wp_mono; [by eapply validate_user_list_wp|]. cbv beta. intros z s' h' [Hr _]. by apply wp_ret.
  - destruct Hl as [L HL]. cbn [bm_do]. apply wp_bind. eapply wp_mono; [by eapply unvalidate_user_list_wp|]. cbv beta. intros z s' h' [_ Hr]. by apply wp_ret.
Qed.

(** * What holds of every session *)

(** No buffer, no list, and pools without storages. *)
Definition empty_state (p : P) : bm_state P := {| storages := ∅; buffers := ∅; blists := ∅; vlog := []; bpool := p |}.

Inductive bm_reach : bm_state P -> (Z -> Z) -> gmap Z (list item) -> Prop :=
| Reach_empty p : pl_view p = ∅ -> bm_reach (empty_state p) (fun _ => 0) ∅
| Reach_op s C Ls op r s' h h' : bm_reach s C Ls -> legal s C Ls op -> bm_do op s h = Done r s' h' ->
    bm_reach s' (held_after op r C) (listed_after s op r Ls).

Context (Haccel : forall f, accel = Some f -> accel_ok f).

Lemma consistent_empty p : pl_view p = ∅ -> consistent (empty_state p) (fun _ => 0) ∅.
Proof.
  intros E. split.
  - split; cbn; [done|done|done| | |].
    + intros k l q. unfold counted. by rewrite fmap_empty, lookup_empty.
    + intros q Hq. by apply not_elem_of_nil in Hq.
    + intros q. by rewrite E, !lookup_empty.
  - intros k L. by rewrite lookup_empty.
  - intros k b. cbn. by rewrite lookup_empty.
  - done.
Qed.

Lemma reach_consistent s C Ls : bm_reach s C Ls -> consistent s C Ls.
Proof.
  induction 1 as [p E|s C Ls op r s' h h' Hr IH Hl E]; [by apply consistent_empty|].
  pose proof (step_ok s C Ls op h Haccel IH Hl) as Hw. unfold wp in Hw. rewrite E in Hw. by destruct Hw.
Qed.

(** C21. (safety) On a pool that keeps its contract (PoolLaws), any sequence of the legal
    operations of the buffer manager does nothing undefined and fails no assertion,
    whatever the pools and the allocations of buffers and list nodes refuse on the way;
    after a write that succeeded the storage of the buffer holds the data, a read gives
    what it holds, and sizes and counts are those of the storage.  Legal ([legal]): the
    client uses, writes, copies and releases only buffers it holds a reference to, with
    accesses inside their storage, sizes and placements the pool takes and counts below
    2^31; a simple buffer is neither cloned nor made to refer to a handle; fences and
    kernel requests go to buffers of a device pool; a list is used while it exists, freed
    when empty, and made with kernel buffers or with memory for it.  The last rule and
    the one on cloning leave out two failures of the code: a list without kernel buffers
    for which there is no memory (create_list_frees_nothing) and the copy of a simple
    buffer (clone_simple_leaks). *)
Theorem buffer_sessions s C Ls op h : bm_reach s C Ls -> legal s C Ls op ->
  wpm (bm_do op) (fun r s' _ => truthful op r s s') s h.
Proof.
  intros Hr Hl. eapply wp_mono; [apply (step_ok s C Ls op h Haccel (reach_consistent _ _ _ Hr) Hl)|]. cbv beta. by intros r s' h' [_ ?].
Qed.

(** ** The storages there are *)

Lemma sum_positive {V} (f : Z -> V -> Z) m : 0 < msum f m -> exists k v, m !! k = Some v /\ f k v <> 0.
Proof.
  intros Hs. destruct (decide (map_Forall (fun k v => f k v = 0) m)) as [Hf|Hf].
  - rewrite msum_zero in Hs; [lia|done].
  - apply map_not_Forall in Hf as (k & v & Hk & Hv); [by exists k, v|]. intros k v. apply _.
Qed.

(** The buffers of the client that have the storage [q]; the lists it is on. *)
Definition owned s C (q : Z) : Prop := exists p b, buffers s !! p = Some b /\ bo_storage b = Some q /\ 0 < C p.
Definition on_a_list Ls (q : Z) : Prop := exists p L, Ls !! p = Some L /\ q ∈ L.*1.

Lemma storage_owner s C Ls q : consistent s C Ls -> is_Some (storages s !! q) <-> owned s C q \/ on_a_list Ls q.
Proof.
  intros [Hi Hl Ha _]. split.
  - intros [t Ht]. destruct (c_storage _ _ _ _ _ _ Hi q t Ht) as [E _ Hr _]. unfold refs_of in E. rewrite (held_none [] q) in E by apply not_elem_of_nil.
    destruct (decide (0 < msum (owns C q) (buffers s))) as [Hs|Hs].
    + left. apply sum_positive in Hs as (p & b & Hb & Hne). exists p, b. unfold owns in Hne. case_decide as E1; [|done]. split_and!; [done|done|].
      case_decide as E2; [|by eapply Ha]. pose proof (proj1 (c_buffer _ _ _ _ _ _ Hi p b Hb)). lia.
    + right. assert (Hs' : 0 < msum (listed q) (counted Ls)) by lia. apply sum_positive in Hs' as (p & l & Hp & Hne).
      unfold counted in Hp. rewrite lookup_fmap in Hp. destruct (Ls !! p) as [L|] eqn:HL; [|done]. injection Hp as <-.
      exists p, L. split; [done|]. unfold listed in Hne. by case_decide.
  - intros [(p & b & Hb & Hq & _)|(p & L & HL & Hq)].
    + destruct (c_buffer _ _ _ _ _ _ Hi p b Hb) as (_ & _ & _ & Hs). destruct (Hs q Hq) as (t & Ht & _). by exists t.
    + eapply (c_listed _ _ _ _ _ _ Hi); [by apply counted_lookup|exact Hq].
Qed.

(** C23. (invariant) After any legal operations a storage exists in the pool if and only if some
    buffer the client holds has it or some list of buffers to validate has it. *)
Theorem storages_live s C Ls q : bm_reach s C Ls -> is_Some (pl_view (bpool s) !! q) <-> owned s C q \/ on_a_list Ls q.
Proof.
  intros Hr. pose proof (reach_consistent _ _ _ Hr) as Hc. rewrite <- (storage_owner s C Ls q Hc).
  pose proof (c_pool _ _ _ _ _ _ (co_inv _ _ _ Hc) q) as E. destruct (storages s !! q), (pl_view (bpool s) !! q); try done; by split; intros [? ?].
Qed.

(** C22. (liveness) After legal operations, when the client has released its references
    and emptied its lists, no storage is left in the pool and no buffer object in memory.
    Cloning a simple buffer is not legal: that copy is never freed (clone_simple_leaks).
    Nor is making a list without kernel buffers unless there is memory for it, or
    releasing a reference the client does not hold. *)
Theorem nothing_left s C Ls : bm_reach s C Ls -> (forall p, C p = 0) -> (forall p L, Ls !! p = Some L -> L = []) ->
  pl_view (bpool s) = ∅ /\ buffers s = ∅.
Proof.
  intros Hr HC HL. pose proof (reach_consistent _ _ _ Hr) as Hc.
  assert (Hn : forall q, storages s !! q = None).
  { intros q. destruct (storages s !! q) as [t|] eqn:Ht; [|done]. destruct (proj1 (storage_owner s C Ls q Hc)) as [(p & b & _ & _ & Hp)|(p & L & Hp & Hq)]; [by eexists| |].
    - by rewrite HC in Hp.
    - rewrite (HL p L Hp) in Hq. by apply not_elem_of_nil in Hq. }
  split; apply map_eq; intros k; rewrite lookup_empty.
  - pose proof (c_pool _ _ _ _ _ _ (co_inv _ _ _ Hc) k) as E. rewrite Hn in E. by destruct (pl_view (bpool s) !! k).
  - destruct (buffers s !! k) as [b|] eqn:Hb; [|done]. destruct (decide (bo_type b = SIMPLE)) as [HT|HT].
    + destruct (c_buffer _ _ _ _ _ _ (co_inv _ _ _ Hc) k b Hb) as (_ & H2 & _ & H4). destruct (H2 HT) as [q Hq]. destruct (H4 q Hq) as (t & Ht & _).
      by rewrite Hn in Ht.
    + pose proof (co_alive _ _ _ Hc k b Hb HT) as Hp. by rewrite HC in Hp.
Qed.

(** ** What was written is read *)

(** [wsbmBOSubData], and if that was done [wsbmBOGetSubData] of the same part. *)
Definition write_read (buf offset size : Z) (d : list Z) : MB (Z * Z * option (list Z)) :=
  ret ← wsbmBOSubData buf offset size (Some d) accel;
  if negb (ret =? 0) then mret (ret, 0, None)
  else
    '(ret', o) ← wsbmBOGetSubData buf offset size true;
    mret (ret, ret', o).

(** C24. (roundtrip) What wsbmBOSubData wrote to a part of a buffer, wsbmBOGetSubData reads
    from it, also when the buffer is on a list and the write went to a copy of it. *)
Theorem sub_data_round_trip s C Ls buf offset size d h : bm_reach s C Ls -> 0 < size -> not_simple s buf ->
  legal s C Ls (O_sub buf offset size (Some d)) ->
  wpm (write_read buf offset size d) (fun r _ _ => r.1.1 = 0 -> r.1.2 = 0 -> r.2 = Some (take (Z.to_nat size) d)) s h.
Proof.
  intros Hr Hs HT (HC & Ho & _ & Hd). pose proof (reach_consistent _ _ _ Hr) as Hc.
  destruct (Hd d eq_refl ltac:(lia)) as (Hl & b & q & t & w & Hst & Hsz & Hac). pose proof Hst as (Hb & _).
  unfold write_read. apply wp_bind. eapply wp_mono; [eapply (sub_data_wp buf b offset size (Some d)); [apply Hc|exact Hb|done|lia|done|]|].
  { intros d' [= <-] _ _. split; [done|]. by exists q, t, w. }
  cbv beta. intros ret s1 h1 Hpost. destruct (Z.eqb_spec ret 0) as [->|Hne]; cbn [negb]; [|by apply wp_ret].
  destruct (data_truth _ _ _ _ _ _ _ _ _ _ Hpost eq_refl) as (q1 & t1 & w1 & [b1 Hst1] & HG).
  { rewrite (proj2 (Z.eqb_neq size 0)) by lia. done. }
  cbn [sub_data] in HG. assert (Hsz1 : offset + size <= ps_size w1).
  { apply (f_equal length) in HG. unfold slice in HG. rewrite !length_take, length_drop in HG. unfold ps_size. lia. }
  apply wp_bind. eapply wp_mono; [eapply get_sub_data_wp; [exact Hst1|done|lia|done]|]. cbv beta.
  intros [ret' o] s2 h2 (_ & _ & _ & Ho2). apply wp_ret. cbn [fst snd] in *. intros _ E. rewrite Ho2 by first [done|lia]. by rewrite HG.
Qed.

End clients.

(** * Witnesses: the pool on the memory of the process *)

(** Blocks at growing addresses, full of zeros. *)
Definition growing_block (k : nat) (used : gset Z) (n : Z) : option (Z * list Z) :=
  let q := 65536 * (1 + Z.of_nat k) in
  if bool_decide (q ∈ used) || (n <? 0) then None else Some (q, replicate (Z.to_nat n) 0).

#[local] Program Instance process_memory : ProcessMemory := {| block_alloc := growing_block |}.
Next Obligation.
  intros k used n q d. unfold growing_block. destruct (bool_decide (_ ∈ used)) eqn:E; [done|]. apply bool_decide_eq_false in E.
  destruct (Z.ltb_spec n 0); [done|]. intros [= <- <-]. rewrite length_replicate. split; [lia|]. split; [done|lia].
Qed.

#[local] Program Instance bm_env : BmEnv := {| bm_alloc h used := lowest_free used |}.
Next Obligation.
  intros h used p. change (lowest_free used = Some p -> 0 < p /\ p ∉ used). destruct (lowest_free_some used) as (q & -> & Hq & Hn).
  intros [= <-]. split; [lia|done].
Qed.

#[local] Instance example_vnodes : VNodes := full_vnodes.

Lemma example_memory : lists_memory.
Proof. split; [apply full_vnodes_memory|done]. Qed.

Definition no_buffers : bm_state malloc_pool := empty_state {| mbufs := ∅; mallocs := 0 |}.

Definition bm_after (op : bm_op) (s : bm_state malloc_pool) : bm_state malloc_pool :=
  match bm_do None op s [] with Done _ s _ => s | _ => s end.

Definition bm_reply (op : bm_op) (s : bm_state malloc_pool) : bm_answer :=
  match bm_do None op s [] with Done r _ _ => r | _ => A_none end.

(** A buffer with four bytes, on a list. *)
Definition bm_op1 : bm_op := O_gen 7 1 0 0.
Definition bm_op2 : bm_op := O_data 1 4 (Some [10; 20; 30; 40]) None 0.
Definition bm_op3 : bm_op := O_new_list 2 false.
Definition bm_op4 : bm_op := O_add 2 1 1 65535.

Definition bm_s1 := bm_after bm_op1 no_buffers.
Definition bm_s2 := bm_after bm_op2 bm_s1.
Definition bm_s3 := bm_after bm_op3 bm_s2.
Definition bm_s4 := bm_after bm_op4 bm_s3.

Example bm_replies : bm_reply bm_op1 no_buffers = A_bufs 0 [1] /\ bm_reply bm_op2 bm_s1 = A_val 0 /\
  bm_reply bm_op3 bm_s2 = A_buf (Some 2) /\ bm_reply bm_op4 bm_s3 = A_add 0 (Some (-1000, None)).
Proof. vm_compute. done. Qed.

Definition bm_C : Z -> Z := upd (fun _ => 0) 1 1.
Definition bm_L3 : gmap Z (list item) := <[2 := []]> ∅.
Definition bm_L4 : gmap Z (list item) := listed_after bm_s3 bm_op4 (A_add 0 (Some (-1000, None))) bm_L3.

Lemma bm_done op s r : bm_reply op s = r -> r <> A_none -> bm_do None op s [] = Done r (bm_after op s) (match bm_do None op s [] with Done _ _ h => h | _ => [] end).
Proof. unfold bm_reply, bm_after. destruct (bm_do None op s []); [by intros ->|by intros <-..]. Qed.

Lemma bm_reach3 : bm_reach None bm_s3 bm_C bm_L3.
Proof.
  destruct bm_replies as (E1 & E2 & E3 & _).
  eapply (Reach_op None bm_s2 bm_C ∅ bm_op3 (A_buf (Some 2))); [|split; [split; done|right; exact example_memory]|by eapply bm_done].
  eapply (Reach_op None bm_s1 bm_C ∅ bm_op2 (A_val 0)); [| |by eapply bm_done].
  - eapply (Reach_op None no_buffers (fun _ => 0) ∅ bm_op1 (A_bufs 0 [1])); [apply Reach_empty; reflexivity|done|by eapply bm_done].
  - split; [done|]. split; [done|]. split; [by intros d [= <-]|]. intros b pool Hb Hp. vm_compute in Hb. injection Hb as <-. cbn in Hp.
    injection Hp as <-. split; [|by left]. cbn. unfold header. split; [lia|done].
Qed.

Lemma bm_stores3 : exists q t w, stores bm_s3 1 q t w /\ st_refs t = 1 /\ st_pool t = 7.
Proof. eexists _, _, _. split; [eexists; split_and!; vm_compute; reflexivity|done]. Qed.

Lemma bm_reach4 : bm_reach None bm_s4 bm_C bm_L4.
Proof.
  destruct bm_replies as (_ & _ & _ & E4).
  eapply (Reach_op None bm_s3 bm_C bm_L3 bm_op4 (A_add 0 (Some (-1000, None)))); [apply bm_reach3| |by eapply bm_done].
  split; [done|]. split; [by eexists|]. destruct bm_stores3 as (q & t & w & Hs & Er & _). exists q, t, w. split; [done|]. split; [lia|].
  intros l Hl. vm_compute in Hl. injection Hl as <-. done.
Qed.

Lemma no_accel : forall f : Z -> Z -> M (list bcall) (bm_state malloc_pool) Z, None = Some f -> accel_ok f.
Proof. done. Qed.

(** What is asked for from there on. *)
Definition bm_op5 : bm_op := O_get 1 1 2 true.
Definition bm_op6 : bm_op := O_unref_list 2.
Definition bm_op7 : bm_op := O_unreference 1.
Definition bm_s6 := bm_after bm_op6 bm_s4.
Definition bm_s7 := bm_after bm_op7 bm_s6.
Definition bm_L6 : gmap Z (list item) := <[2 := []]> bm_L4.
Definition bm_C7 : Z -> Z := upd bm_C 1 (bm_C 1 - 1).

Lemma bm_listed4 : is_Some (bm_L4 !! 2).
Proof. eexists. vm_compute. reflexivity. Qed.

Lemma bm_reach7 : bm_reach None bm_s7 bm_C7 bm_L6.
Proof.
  assert (E6 : bm_reply bm_op6 bm_s4 = A_val 0) by (vm_compute; done).
  eapply (Reach_op None bm_s6 bm_C bm_L6 bm_op7 A_none _ []); [|done|vm_compute; reflexivity].
  eapply (Reach_op None bm_s4 bm_C bm_L4 bm_op6 (A_val 0)); [apply bm_reach4|exact bm_listed4|by eapply bm_done].
Qed.

Lemma bm_stored4 : exists b q t w, stored bm_s4 1 b q t w /\ ps_size w = 4 /\ pl_accepts (st_pool t) (ps_size w) (bo_placement b).
Proof.
  eexists _, _, _, _. split; [split_and!; vm_compute; reflexivity|]. split; [done|]. cbn. unfold header, ps_size. cbn. split; [lia|done].
Qed.

Theorem buffer_sessions_witness :
  legal bm_s4 bm_C bm_L4 bm_op5 /\ wp False (bm_do None bm_op5) (fun r s' _ => truthful bm_op5 r bm_s4 s') bm_s4 [].
Proof.
  assert (Hl : legal bm_s4 bm_C bm_L4 bm_op5).
  { split; [done|]. split; [done|]. split; [done|]. destruct bm_stored4 as (b & q & t & w & Hs & E & _). exists q, t, w.
    split; [by exists b|]. rewrite E. done. }
  split; [exact Hl|]. exact (buffer_sessions None no_accel _ _ _ _ [] bm_reach4 Hl).
Defined.

Theorem storages_live_witness :
  is_Some (pl_view (bpool bm_s4) !! 65536) <-> owned bm_s4 bm_C 65536 \/ on_a_list bm_L4 65536.
Proof. exact (storages_live None no_accel _ _ _ 65536 bm_reach4). Defined.

Theorem nothing_left_witness : (forall p, bm_C7 p = 0) /\ pl_view (bpool bm_s7) = ∅ /\ buffers bm_s7 = ∅.
Proof.
  assert (HC : forall p, bm_C7 p = 0).
  { intros p. unfold bm_C7, bm_C, upd. repeat case_decide; subst; done. }
  split; [exact HC|]. apply (nothing_left None no_accel _ _ _ bm_reach7 HC). intros p L Hp. unfold bm_L6 in Hp.
  apply lookup_insert_Some in Hp as [[_ <-]|[Hne Hp]]; [done|]. exfalso. apply Hne.
  assert (Hd : p ∈ dom bm_L4) by by apply elem_of_dom_2 in Hp. assert (E : dom bm_L4 = {[2]}) by (vm_compute; reflexivity).
  rewrite E in Hd. apply elem_of_singleton in Hd. done.
Defined.

(** The buffer is on a list: what is written goes to a copy of it. *)
Theorem sub_data_round_trip_witness :
  not_simple bm_s4 1 /\ legal bm_s4 bm_C bm_L4 (O_sub 1 1 2 (Some [7; 8])) /\
  wp False (write_read None 1 1 2 [7; 8]) (fun r _ _ => r.1.1 = 0 -> r.1.2 = 0 -> r.2 = Some (take (Z.to_nat 2) [7; 8])) bm_s4 [].
Proof.
  assert (HT : not_simple bm_s4 1) by (intros b Hb; vm_compute in Hb; by injection Hb as <-).
  assert (Hl : legal bm_s4 bm_C bm_L4 (O_sub 1 1 2 (Some [7; 8]))).
  { split; [done|]. split; [done|]. split; [done|]. intros d [= <-] _. split; [done|]. destruct bm_stored4 as (b & q & t & w & Hs & E & Ha).
    exists b, q, t, w. split; [done|]. split; [by rewrite E|]. by intros _. }
  split; [exact HT|]. split; [exact Hl|].
  exact (sub_data_round_trip None no_accel _ _ _ 1 1 2 [7; 8] [] bm_reach4 ltac:(lia) HT Hl).
Defined.
