(* ===== verification/BufferMgrFlaws.v ===== *)
(** What goes wrong in libwsbm/src/wsbm_manager.c, on concrete runs: copies of simple
    buffers, lists that cannot be made, and the accesses by the CPU that a pool is told
    of.  The theorems of BufferMgrRefs say under which rules it does not. *)
From stdpp Require Import gmap.
From S2P Require Import Prelude Rings ValidateList ValidateListSpec BufferMgr Pools BufferMgrRefs.

#[local] Program Instance flaw_buffers : BmEnv := {| bm_alloc h used := lowest_free used |}.
Next Obligation.
  intros h used p. change (lowest_free used = Some p -> 0 < p /\ p ∉ used). destruct (lowest_free_some used) as (q & -> & Hq & Hn).
  intros [= <-]. split; [lia|done].
Qed.

(** ** Simple buffers and lists, on the pool of the process *)

Section malloc.

#[local] Program Instance flaw_memory : ProcessMemory := {| block_alloc := growing_block |}.
Next Obligation.
  intros k used n q d. unfold growing_block. destruct (bool_decide (_ ∈ used)) eqn:E; [done|]. apply bool_decide_eq_false in E.
  destruct (Z.ltb_spec n 0); [done|]. intros [= <- <-]. rewrite length_replicate. split; [lia|]. split; [done|lia].
Qed.

Definition no_storage : bm_state malloc_pool := empty_state {| mbufs := ∅; mallocs := 0 |}.

(** A simple buffer is copied; both are released: the copy is no longer found by its
    storage, and its memory is lost. *)
Definition copy_simple `{VNodes} : M (list bcall) (bm_state malloc_pool) unit :=
  '(buf, _) ← wsbmBOCreateSimple 7 4 WSBM_PL_FLAG_SYSTEM 0;
  copy ← wsbmBOClone (default 0 buf) None;
  wsbmBOUnreference buf ;; wsbmBOUnreference copy.

Example clone_simple_leaks :
  match copy_simple (H := full_vnodes) no_storage [] with
  | Done _ s h => ((map_to_list (buffers s)).*1, (map_to_list (storages s)).*1, h)
  | _ => ([], [], [])
  end = ([2], [], [B_free 1; B_calloc (Some 2); B_calloc (Some 1)]).
Proof. vm_compute. reflexivity. Qed.

(** No memory for the table of the [k]th list. *)
Definition no_table (k : nat) : VNodes :=
  {| vnode_alloc _ _ _ := None; table_alloc h := negb (bool_decide (length h = k)); vnode_alloc_new := fun _ _ _ _ _ E => match E with end |}.

(** The list of the kernel's buffers cannot be made: the memory of both is lost. *)
Example create_list_leaks :
  match @wsbmBOCreateList malloc_pool flaw_buffers (no_table 0) 0 true no_storage [] with
  | Done r s h => (r, (map_to_list (blists s)).*1, h)
  | _ => (None, [], [])
  end = (None, [1], [B_calloc (Some 1)]).
Proof. vm_compute. reflexivity. Qed.

(** Without kernel's buffers, when the other list cannot be made the list of the kernel's
    buffers is freed although it was never made: its links are NULL. *)
Example create_list_frees_nothing : @wsbmBOCreateList malloc_pool flaw_buffers (no_table 0) 0 false no_storage [] = Undef [B_calloc (Some 1)].
Proof. vm_compute. reflexivity. Qed.

End malloc.

(** ** A pool that counts its accesses

    [syncforcpu] less [releasefromcpu], for reading and for writing: [(0, 0)] is a
    storage no one accesses. *)
Definition synced (d : Z) (mode : Z) (p : Z * Z) : Z * Z :=
  (fst p + (if mode .& WSBM_SYNCCPU_READ then d else 0), snd p + (if mode .& WSBM_SYNCCPU_WRITE then d else 0)).

#[local] Instance counting_pool : PoolOps (Z * Z) := {|
  pl_create _ _ _ _ := mret (Some 4096);
  pl_ub_create _ _ _ _ _ := mret None;
  pl_createByReference _ := None;
  pl_destroy _ := mret tt;
  pl_map _ _ := mret (0, 0);
  pl_unmap _ := mret tt;
  pl_syncforcpu _ mode := modify (synced 1 mode) ;; mret 0;
  pl_releasefromcpu _ mode := modify (synced (-1) mode);
  pl_offset _ := mret 0;
  pl_poolOffset _ := mret 0;
  pl_placement _ := mret 0;
  pl_size _ := mret 4;
  pl_kernel _ := mret 0;
  pl_fence _ := None;
  pl_unvalidate _ := None;
  pl_validate _ := None;
  pl_waitIdle _ _ := mret 0;
  pl_setStatus _ := Some (fun _ _ _ => mret 0);
  pl_write _ _ _ := mret tt;
  pl_read _ _ n := mret (replicate (Z.to_nat n) 0) |}.

Section counting.
Context `{VNodes}.

Definition after {A} (m : M (list bcall) (bm_state (Z * Z)) A) : option (Z * Z) :=
  match (wsbmGenBuffers 7 1 0 0 ;; wsbmBOData 1 4 None None 0 ;; m) (empty_state (0, 0)) [] with
  | Done _ s _ => Some (bpool s)
  | _ => None
  end.

(** As the code does when it need not change the placement. *)
Example data_balanced : after (wsbmBOData 1 4 (Some [1; 2; 3; 4]) None 0) = Some (0, 0).
Proof. reflexivity. Qed.

(** A new placement for an idle buffer: its access is released before the change and
    again at the end; the data was written in between. *)
Example data_releases_twice : after (wsbmBOData 1 4 (Some [1; 2; 3; 4]) None WSBM_PL_FLAG_SYSTEM) = Some (0, -1).
Proof. reflexivity. Qed.

(** What is asked for is an access for reading, and what is given back one for writing. *)
Example get_sub_data_releases_write : after (wsbmBOGetSubData 1 0 4 true) = Some (1, -1).
Proof. reflexivity. Qed.

End counting.
