(* ===== verification/KernelLock.v ===== *)
(** The lock of the kernel buffer objects: wsbmWriteLockKernelBO, wsbmWriteUnlockKernelBO,
    wsbmReadLockKernelBO and wsbmReadUnlockKernelBO of libwsbm/src/wsbm_manager.c, on the
    thread functions of libwsbm/src/wsbm_driver.c for pthreads.

    Here threads are interleaved: a step is one access of one thread to the shared
    variables, the mutex [bmMutex] or the condition [bmCond].  A writer keeps the mutex
    from its lock to its unlock; readers only count themselves under it.  Waiting on the
    condition releases the mutex and sleeps at once, a broadcast wakes the threads that
    sleep, which then ask for the mutex again, and a thread may wake by itself. *)
From S2P Require Import Prelude.

(** * The variables of the module

    [wsbmInit] makes the mutex and the condition, with the thread functions it is given,
    which may fail; the calls are kept. *)
Record globals := { initialized : Z; commonData : Z }.

Inductive icall := I_mutexInit (ret : Z) | I_mutexFree | I_condInit (ret : Z) | I_condFree.

Class ThreadFuncs := { mutexInit : list icall -> Z; condInit : list icall -> Z }.

Section globals.
Context `{ThreadFuncs}.

Abbreviation MG A := (M (list icall) globals A).

Definition WSBM_MUTEX_INIT : MG Z := fun s h => let r := mutexInit h in Done r s (I_mutexInit r :: h).
Definition WSBM_COND_INIT : MG Z := fun s h => let r := condInit h in Done r s (I_condInit r :: h).
Definition WSBM_MUTEX_FREE : MG unit := fun s h => Done tt s (I_mutexFree :: h).
Definition WSBM_COND_FREE : MG unit := fun s h => Done tt s (I_condFree :: h).

Definition set_initialized (z : Z) : MG unit := modify (fun s => {| initialized := z; commonData := commonData s |}).

Definition wsbmInit : MG Z :=
  ret ← WSBM_MUTEX_INIT;
  if negb (ret =? 0) then mret (- 12)
  else
    ret ← WSBM_COND_INIT;
    if negb (ret =? 0) then WSBM_MUTEX_FREE ;; mret (- 12)
    else set_initialized 1 ;; mret 0.

Definition wsbmCommonDataSet (d : Z) : MG unit := modify (fun s => {| initialized := initialized s; commonData := d |}).
Definition wsbmCommonDataGet : MG Z := gets commonData.
Definition wsbmIsInitialized : MG Z := gets initialized.

Definition wsbmTakedown : MG unit :=
  set_initialized 0 ;; wsbmCommonDataSet 0 ;; WSBM_COND_FREE ;; WSBM_MUTEX_FREE.

(** What was made and not freed: the mutexes and the conditions. *)
Fixpoint made (h : list icall) : Z * Z :=
  match h with
  | [] => (0, 0)
  | c :: h =>
      let '(m, k) := made h in
      match c with
      | I_mutexInit r => (if r =? 0 then m + 1 else m, k)
      | I_mutexFree => (m - 1, k)
      | I_condInit r => (m, if r =? 0 then k + 1 else k)
      | I_condFree => (m, k - 1)
      end
  end.

End globals.

(** * The code of the lock *)

(** [bmMutex], with the thread that holds it, [kernelReaders] and [kernelLocked]. *)
Record shared := { bmMutex : option nat; kernelReaders : Z; kernelLocked : Z }.

(** Where a thread is in each function: what it does next; [n]: the value of
    [kernelReaders] it read. *)
Inductive write_lock := WL_lock | WL_test | WL_sleep | WL_wake | WL_set.
Inductive write_unlock := WU_clear | WU_unlock.
Inductive read_lock := RL_lock | RL_read | RL_store (n : Z) | RL_set | RL_unlock.
Inductive read_unlock := RU_lock | RU_read | RU_store (n : Z) | RU_clear | RU_broadcast | RU_unlock.

(** Outside of them, a thread has the lock, as a reader or as the writer, or not. *)
Inductive point :=
| Idle | Reading | Writing
| In_write_lock (p : write_lock) | In_write_unlock (p : write_unlock)
| In_read_lock (p : read_lock) | In_read_unlock (p : read_unlock).

#[export] Instance point_eq : EqDecision point.
Proof.
  intros p q. unfold Decision. repeat (decide equality).
Defined.

Inductive result := Blocks | Goes (sh : shared) (p : point) | Wakes (sh : shared) (p : point) | Misuse.

Definition set_mutex (o : option nat) (sh : shared) : shared :=
  {| bmMutex := o; kernelReaders := kernelReaders sh; kernelLocked := kernelLocked sh |}.
Definition set_readers (n : Z) (sh : shared) : shared :=
  {| bmMutex := bmMutex sh; kernelReaders := n; kernelLocked := kernelLocked sh |}.
Definition set_locked (n : Z) (sh : shared) : shared :=
  {| bmMutex := bmMutex sh; kernelReaders := kernelReaders sh; kernelLocked := n |}.

(** [p_mutexLock] and [p_mutexUnlock]: a mutex is not locked twice, and is unlocked by the
    thread that holds it. *)
Definition p_mutexLock (t : nat) (sh : shared) (k : point) : result :=
  match bmMutex sh with
  | None => Goes (set_mutex (Some t) sh) k
  | Some t' => if bool_decide (t' = t) then Misuse else Blocks
  end.

Definition p_mutexUnlock (t : nat) (sh : shared) (k : point) : result :=
  if bool_decide (bmMutex sh = Some t) then Goes (set_mutex None sh) k else Misuse.

(** [p_condWait], up to the sleep; [p_condBroadcast]. *)
Definition p_condWait (t : nat) (sh : shared) (k : point) : result := p_mutexUnlock t sh k.
Definition p_condBroadcast (sh : shared) (k : point) : result := Wakes sh k.

Definition wsbmWriteLockKernelBO (t : nat) (p : write_lock) (sh : shared) : result :=
  match p with
  | WL_lock => p_mutexLock t sh (In_write_lock WL_test)
  | WL_test => if negb (kernelReaders sh =? 0) then p_condWait t sh (In_write_lock WL_sleep) else Goes sh (In_write_lock WL_set)
  | WL_sleep => Blocks
  | WL_wake => p_mutexLock t sh (In_write_lock WL_test)
  | WL_set => Goes (set_locked 1 sh) Writing
  end.

Definition wsbmWriteUnlockKernelBO (t : nat) (p : write_unlock) (sh : shared) : result :=
  match p with
  | WU_clear => Goes (set_locked 0 sh) (In_write_unlock WU_unlock)
  | WU_unlock => p_mutexUnlock t sh Idle
  end.

(** The count is an [int]. *)
Definition wsbmReadLockKernelBO (t : nat) (p : read_lock) (sh : shared) : result :=
  match p with
  | RL_lock => p_mutexLock t sh (In_read_lock RL_read)
  | RL_read => Goes sh (In_read_lock (RL_store (kernelReaders sh)))
  | RL_store n =>
      if 2 ^ 31 <=? n + 1 then Misuse
      else Goes (set_readers (n + 1) sh) (In_read_lock (if n =? 0 then RL_set else RL_unlock))
  | RL_set => Goes (set_locked 1 sh) (In_read_lock RL_unlock)
  | RL_unlock => p_mutexUnlock t sh Reading
  end.

Definition wsbmReadUnlockKernelBO (t : nat) (p : read_unlock) (sh : shared) : result :=
  match p with
  | RU_lock => p_mutexLock t sh (In_read_unlock RU_read)
  | RU_read => Goes sh (In_read_unlock (RU_store (kernelReaders sh)))
  | RU_store n =>
      if n - 1 <? - 2 ^ 31 then Misuse
      else Goes (set_readers (n - 1) sh) (In_read_unlock (if n - 1 =? 0 then RU_clear else RU_unlock))
  | RU_clear => Goes (set_locked 0 sh) (In_read_unlock RU_broadcast)
  | RU_broadcast => p_condBroadcast sh (In_read_unlock RU_unlock)
  | RU_unlock => p_mutexUnlock t sh Idle
  end.

(** What a thread does next; outside the functions, that is up to the program. *)
Definition run (t : nat) (p : point) (sh : shared) : result :=
  match p with
  | Idle | Reading | Writing => Blocks
  | In_write_lock p => wsbmWriteLockKernelBO t p sh
  | In_write_unlock p => wsbmWriteUnlockKernelBO t p sh
  | In_read_lock p => wsbmReadLockKernelBO t p sh
  | In_read_unlock p => wsbmReadUnlockKernelBO t p sh
  end.

(** * The threads *)

Record system := { sh : shared; threads : list point }.

Definition wake_up (p : point) : point :=
  match p with In_write_lock WL_sleep => In_write_lock WL_wake | _ => p end.

(** A thread that has the lock releases it; one that has not asks for it. *)
Definition release (p : point) : option point :=
  match p with Reading => Some (In_read_unlock RU_lock) | Writing => Some (In_write_unlock WU_clear) | _ => None end.

Inductive acquires : point -> Prop :=
| Acquires_read : acquires (In_read_lock RL_lock)
| Acquires_write : acquires (In_write_lock WL_lock).

(** The steps of the code and of a program that only releases the lock. *)
Inductive advance (s : system) : system -> Prop :=
| Step_goes t p sh' p' : threads s !! t = Some p -> run t p (sh s) = Goes sh' p' ->
    advance s {| sh := sh'; threads := <[t := p']> (threads s) |}
| Step_wakes t p sh' p' : threads s !! t = Some p -> run t p (sh s) = Wakes sh' p' ->
    advance s {| sh := sh'; threads := wake_up <$> <[t := p']> (threads s) |}
| Step_release t p p' : threads s !! t = Some p -> release p = Some p' ->
    advance s {| sh := sh s; threads := <[t := p']> (threads s) |}.

(** All steps. *)
Inductive step (s : system) : system -> Prop :=
| Step_advance s' : advance s s' -> step s s'
| Step_acquire t p : threads s !! t = Some Idle -> acquires p ->
    step s {| sh := sh s; threads := <[t := p]> (threads s) |}
| Step_spurious t : threads s !! t = Some (In_write_lock WL_sleep) ->
    step s {| sh := sh s; threads := <[t := In_write_lock WL_wake]> (threads s) |}.

(** The lock as [wsbmInit] leaves it, and [n] threads. *)
Definition initial (n : nat) : system :=
  {| sh := {| bmMutex := None; kernelReaders := 0; kernelLocked := 0 |}; threads := replicate n Idle |}.

Inductive reach (n : nat) : system -> Prop :=
| Reach_initial : reach n (initial n)
| Reach_step s s' : reach n s -> step s s' -> reach n s'.
