(* ===== verification/KernelLockSpec.v ===== *)
(** The lock of the kernel buffer objects excludes, loses no wake-up and lets everyone
    through: theorems on KernelLock.v, for any number of threads and any interleaving. *)
From stdpp Require Import relations.
From S2P Require Import Prelude KernelLock.

(** * The module *)

(** [wsbmInit] leaves nothing behind when it fails, and what it makes [wsbmTakedown]
    frees; a module taken down is as before. *)
Lemma init_takedown `{ThreadFuncs} s h :
  wp False (ret ← wsbmInit; when (ret =? 0) wsbmTakedown ;; mret ret)
    (fun ret s' h' => made h' = made h /\ (ret = 0 -> initialized s' = 0 /\ commonData s' = 0) /\ (ret <> 0 -> s' = s)) s h.
Proof.
  destruct (made h) as [m k] eqn:Em.
  unfold wp, wsbmInit, wsbmTakedown, wsbmCommonDataSet, set_initialized, WSBM_MUTEX_INIT, WSBM_COND_INIT, WSBM_MUTEX_FREE, WSBM_COND_FREE.
  unfold mbind, M_bind. destruct (mutexInit h =? 0) eqn:E1; cbn.
  - destruct (condInit _ =? 0) eqn:E2; cbn; rewrite ?E1, ?E2, Em; cbn; (split_and!; [f_equal; lia|done|done]).
  - by rewrite E1, Em.
Qed.

(** * Sums over the threads *)

Fixpoint total (f : point -> Z) (l : list point) : Z := match l with [] => 0 | p :: l => f p + total f l end.

Lemma total_insert f l t p p' : l !! t = Some p -> total f (<[t := p']> l) = total f l - f p + f p'.
Proof.
  revert t. induction l as [|x l IH]; [done|]. intros [|t]; simpl; [intros [= ->]; lia|]. intros Ht. rewrite (IH t Ht). lia.
Qed.

Lemma total_fmap f g l : (forall p, f (g p) = f p) -> total f (g <$> l) = total f l.
Proof. intros Hf. induction l as [|x l IH]; [done|]. rewrite fmap_cons. cbn. by rewrite Hf, IH. Qed.

Lemma total_bound f l a b : (forall p, a <= f p <= b) -> a * Z.of_nat (length l) <= total f l <= b * Z.of_nat (length l).
Proof. intros Hf. induction l as [|x l IH]; cbn; [lia|]. specialize (Hf x). lia. Qed.

Lemma total_positive f l : (forall p, 0 <= f p) -> 0 < total f l -> exists t p, l !! t = Some p /\ 0 < f p.
Proof.
  intros Hf. induction l as [|x l IH]; cbn; [lia|]. intros Ht. destruct (decide (0 < f x)) as [Hx|Hx]; [by exists 0%nat, x|].
  destruct IH as (t & p & Hp & H0); [specialize (Hf x); lia|]. by exists (S t), p.
Qed.

Lemma total_has f l t p : (forall p, 0 <= f p) -> l !! t = Some p -> f p <= total f l.
Proof.
  intros Hf. assert (H0 : forall l, 0 <= total f l) by (intros k; induction k as [|x k IH]; cbn; [done|specialize (Hf x); lia]).
  revert t. induction l as [|x l IH]; [done|]. intros [|t]; cbn.
  - intros [= ->]. specialize (H0 l). lia.
  - intros Ht%IH. specialize (Hf x). lia.
Qed.

(** * The invariant *)

(** The thread has the mutex; it is counted in [kernelReaders]; it is about to wake the
    others up. *)
Definition holds (p : point) : bool :=
  match p with
  | Idle | Reading | In_write_lock (WL_lock | WL_sleep | WL_wake) | In_read_lock RL_lock | In_read_unlock RU_lock => false
  | _ => true
  end.

Definition counts (p : point) : Z :=
  match p with
  | Reading | In_read_lock (RL_set | RL_unlock) | In_read_unlock (RU_lock | RU_read | RU_store _) => 1
  | _ => 0
  end.

Definition waking (p : point) : bool :=
  match p with In_read_unlock (RU_clear | RU_broadcast) => true | _ => false end.

(** [kernelLocked] between the operations. *)
Definition flag (n : Z) : Z := if n =? 0 then 0 else 1.

(** What the variables are while a thread that has the mutex is at this point. *)
Definition point_ok (p : point) (sh : shared) : Prop :=
  let n := kernelReaders sh in
  match p with
  | In_write_lock WL_set | In_write_unlock WU_unlock => n = 0 /\ kernelLocked sh = 0
  | Writing | In_write_unlock WU_clear => n = 0 /\ kernelLocked sh = 1
  | In_read_lock (RL_store m) | In_read_unlock (RU_store m) => n = m /\ kernelLocked sh = flag n
  | In_read_lock RL_set => n = 1 /\ kernelLocked sh = 0
  | In_read_unlock RU_clear => n = 0 /\ kernelLocked sh = 1
  | In_read_unlock RU_broadcast => n = 0 /\ kernelLocked sh = 0
  | _ => holds p = true -> kernelLocked sh = flag n
  end.

Record lock_inv (n : nat) (s : system) : Prop := {
  li_length : length (threads s) = n;
  li_owner : forall t, bmMutex (sh s) = Some t <-> exists p, threads s !! t = Some p /\ holds p = true;
  li_count : kernelReaders (sh s) = total counts (threads s);
  li_point : forall t p, threads s !! t = Some p -> point_ok p (sh s);
  li_free : bmMutex (sh s) = None -> kernelLocked (sh s) = flag (kernelReaders (sh s));
  li_sleep : forall t, threads s !! t = Some (In_write_lock WL_sleep) ->
    0 < kernelReaders (sh s) \/ exists t' p, threads s !! t' = Some p /\ waking p = true }.

Lemma counts_nonneg p : 0 <= counts p.
Proof. by destruct p as [| | |[]|[]|[]|[]]. Qed.

Lemma point_ok_idle p sh : holds p = false -> point_ok p sh.
Proof. by destruct p as [| | |[]|[]|[]|[]]. Qed.

Lemma waking_holds p : waking p = true -> holds p = true.
Proof. by destruct p as [| | |[]|[]|[]|[]]. Qed.

(** What a step of thread [t] from [p] to [p'] does to the variables. *)
Definition moves (t : nat) (p p' : point) (sh sh' : shared) : Prop :=
  kernelReaders sh' = kernelReaders sh - counts p + counts p' /\ point_ok p' sh' /\
  match holds p, holds p' with
  | false, false => sh' = sh
  | false, true => bmMutex sh = None /\ sh' = set_mutex (Some t) sh
  | true, true => bmMutex sh' = Some t
  | true, false => bmMutex sh' = None /\ kernelLocked sh' = flag (kernelReaders sh')
  end.

(** Nobody sleeps with nobody to wake it: what the step leaves of that. *)
Definition keeps_waking (p p' : point) (sh sh' : shared) : Prop :=
  (p' = In_write_lock WL_sleep -> 0 < kernelReaders sh') /\
  (waking p = true -> waking p' = true) /\
  (0 < kernelReaders sh -> 0 < kernelReaders sh' \/ waking p' = true).

Lemma lookup_threads {l : list point} {t u p p'} :
  <[t := p']> l !! u = Some p -> t = u /\ p = p' \/ t <> u /\ l !! u = Some p.
Proof. intros [(-> & -> & _)|[Hne Hu]]%list_lookup_insert_Some; [by left|by right]. Qed.

Lemma move_core n s t p p' sh' : lock_inv n s -> threads s !! t = Some p -> moves t p p' (sh s) sh' ->
  let s' := {| sh := sh'; threads := <[t := p']> (threads s) |} in
  length (threads s') = n /\
  (forall u, bmMutex sh' = Some u <-> exists q, threads s' !! u = Some q /\ holds q = true) /\
  kernelReaders sh' = total counts (threads s') /\
  (forall u q, threads s' !! u = Some q -> point_ok q sh') /\
  (bmMutex sh' = None -> kernelLocked sh' = flag (kernelReaders sh')).
Proof.
  intros [Hlen How Hc Hp Hf _] Ht (Hn & Hp' & Hm) s'. subst s'. cbn [sh threads].
  assert (Hself : <[t := p']> (threads s) !! t = Some p') by (apply list_lookup_insert_eq; by eapply lookup_lt_Some).
  assert (Hother : forall u q, threads s !! u = Some q -> holds q = true -> holds p = true -> u = t).
  { intros u q Hu Hq Hh. assert (E1 : bmMutex (sh s) = Some u) by (apply How; by exists q).
    assert (E2 : bmMutex (sh s) = Some t) by (apply How; by exists p). congruence. }
  assert (Hnone : bmMutex (sh s) = None -> forall u q, threads s !! u = Some q -> holds q = false).
  { intros E u q Hu. destruct (holds q) eqn:Hq; [|done]. assert (bmMutex (sh s) = Some u) by (apply How; by exists q). congruence. }
  split_and!.
  - by rewrite length_insert.
  - intros u. split.
    + intros E. destruct (holds p) eqn:Hh, (holds p') eqn:Hh'.
      * rewrite Hm in E. injection E as <-. by exists p'.
      * by destruct Hm; congruence.
      * destruct Hm as [_ ->]. injection E as <-. by exists p'.
      * rewrite Hm in E. apply How in E as (q & Hq & Hq'). exists q. split; [|done].
        rewrite list_lookup_insert_ne; [done|]. intros ->. congruence.
    + intros (q & Hq & Hq'). apply lookup_threads in Hq as [[<- ->]|[Hne Hq]].
      * rewrite Hq' in Hm. destruct (holds p) eqn:Hh; [done|]. by destruct Hm as [_ ->].
      * destruct (holds p) eqn:Hh; [by destruct Hne; symmetry; eapply Hother|].
        destruct (holds p') eqn:Hh'; [|rewrite Hm; apply How; by exists q]. destruct Hm as [E _].
        by rewrite (Hnone E u q Hq) in Hq'.
  - rewrite Hn, Hc. by rewrite (total_insert counts _ _ _ p' Ht).
  - intros u q Hu. apply lookup_threads in Hu as [[_ ->]|[Hne Hu]]; [done|].
    destruct (holds q) eqn:Hq; [|by apply point_ok_idle]. destruct (holds p) eqn:Hh; [by destruct Hne; symmetry; eapply Hother|].
    destruct (holds p') eqn:Hh'; [destruct Hm as [E _]; by rewrite (Hnone E u q Hu) in Hq|]. rewrite Hm. by eapply Hp.
  - intros E. destruct (holds p), (holds p'); [congruence|by destruct Hm|destruct Hm as [_ ->]; done|]. rewrite Hm in E |- *. by apply Hf.
Qed.

Lemma move_inv n s t p p' sh' : lock_inv n s -> threads s !! t = Some p -> moves t p p' (sh s) sh' ->
  keeps_waking p p' (sh s) sh' -> lock_inv n {| sh := sh'; threads := <[t := p']> (threads s) |}.
Proof.
  intros Hi Ht Hm (H1 & H2 & H3). destruct (move_core _ _ _ _ _ _ Hi Ht Hm) as (A & B & C & D & E).
  split; [done..|]. cbn [sh threads] in *.
  assert (Hself : <[t := p']> (threads s) !! t = Some p') by (apply list_lookup_insert_eq; by eapply lookup_lt_Some).
  intros u Hu. apply lookup_threads in Hu as [[_ <-]|[Hne Hu]]; [left; by apply H1|].
  destruct (li_sleep _ _ Hi u Hu) as [Hr|(w & q & Hw & Hq)].
  - destruct (H3 Hr) as [?|Hp']; [by left|right; by exists t, p'].
  - right. destruct (decide (t = w)) as [<-|Hne'].
    + rewrite Ht in Hw. injection Hw as ->. exists t, p'. split; [done|by apply H2].
    + exists w, q. split; [|done]. by rewrite list_lookup_insert_ne.
Qed.

(** After the broadcast nobody sleeps. *)
Lemma wake_up_holds p : holds (wake_up p) = holds p.
Proof. by destruct p as [| | |[]|[]|[]|[]]. Qed.

Lemma wake_up_counts p : counts (wake_up p) = counts p.
Proof. by destruct p as [| | |[]|[]|[]|[]]. Qed.

Lemma wake_up_ok p sh : point_ok p sh -> point_ok (wake_up p) sh.
Proof. by destruct p as [| | |[]|[]|[]|[]]. Qed.

Lemma wake_up_awake p : wake_up p <> In_write_lock WL_sleep.
Proof. by destruct p as [| | |[]|[]|[]|[]]. Qed.

Lemma wakes_inv n s t p p' sh' : lock_inv n s -> threads s !! t = Some p -> moves t p p' (sh s) sh' ->
  lock_inv n {| sh := sh'; threads := wake_up <$> <[t := p']> (threads s) |}.
Proof.
  intros Hi Ht Hm. destruct (move_core _ _ _ _ _ _ Hi Ht Hm) as (A & B & C & D & E). cbn [sh threads] in *.
  split; cbn [sh threads]; [by rewrite length_fmap| | | |done|].
  - intros u. rewrite B. split.
    + intros (q & Hq & Hh). exists (wake_up q). by rewrite list_lookup_fmap, Hq, wake_up_holds.
    + intros (q & Hq & Hh). apply list_lookup_fmap_Some in Hq as (q0 & -> & Hq). exists q0. by rewrite wake_up_holds in Hh.
  - by rewrite (total_fmap counts wake_up _ wake_up_counts).
  - intros u q Hq. apply list_lookup_fmap_Some in Hq as (q0 & -> & Hq). apply wake_up_ok. by eapply D.
  - intros u Hq. apply list_lookup_fmap_Some in Hq as (q0 & Hw & _). by destruct (wake_up_awake q0).
Qed.

Lemma readers_range n s : lock_inv n s -> 0 <= kernelReaders (sh s) <= Z.of_nat n.
Proof.
  intros Hi. rewrite (li_count _ _ Hi). pose proof (total_bound counts (threads s) 0 1) as Hb. rewrite (li_length _ _ Hi) in Hb.
  assert (Hp : forall p, 0 <= counts p <= 1) by by intros [| | |[]|[]|[]|[]]. specialize (Hb Hp). lia.
Qed.

Lemma flag_inc n : 0 <= n -> n <> 0 -> flag n = flag (n + 1).
Proof. intros H0 H1. unfold flag. destruct (Z.eqb_spec n 0), (Z.eqb_spec (n + 1) 0); lia. Qed.

Lemma flag_dec n : n <> 0 -> n - 1 <> 0 -> flag n = flag (n - 1).
Proof. intros H0 H1. unfold flag. destruct (Z.eqb_spec n 0), (Z.eqb_spec (n - 1) 0); lia. Qed.

(** What a function does from where a thread is. *)
Definition run_ok (t : nat) (p : point) (sh0 : shared) (r : result) : Prop :=
  match r with
  | Goes sh' p' => moves t p p' sh0 sh' /\ keeps_waking p p' sh0 sh'
  | Wakes sh' p' => moves t p p' sh0 sh'
  | Blocks => p = Writing \/ holds p = false
  | Misuse => False
  end.

Lemma mutexLock_ok n s t p k : lock_inv n s -> threads s !! t = Some p -> holds p = false -> holds k = true ->
  counts k = counts p -> (forall sh, kernelLocked sh = flag (kernelReaders sh) -> point_ok k sh) ->
  run_ok t p (sh s) (p_mutexLock t (sh s) k).
Proof.
  intros Hi Ht Hp Hk Hc Hok. unfold p_mutexLock. destruct (bmMutex (sh s)) as [u|] eqn:E.
  - case_bool_decide as Hu; [|by right]. subst u. apply (li_owner _ _ Hi) in E as (q & Hq & Hh). congruence.
  - split; [split_and!|split_and!].
    + cbn. lia.
    + apply Hok. by apply (li_free _ _ Hi).
    + rewrite Hp, Hk. done.
    + intros ->. done.
    + intros Hw%waking_holds. congruence.
    + cbn. by left.
Qed.

Lemma mutexUnlock_ok n s t p k : lock_inv n s -> threads s !! t = Some p -> holds p = true -> holds k = false ->
  counts k = counts p -> kernelLocked (sh s) = flag (kernelReaders (sh s)) -> waking p = false ->
  (k = In_write_lock WL_sleep -> 0 < kernelReaders (sh s)) -> run_ok t p (sh s) (p_mutexUnlock t (sh s) k).
Proof.
  intros Hi Ht Hp Hk Hc Hl Hw Hs. unfold p_mutexUnlock.
  rewrite bool_decide_true by (apply (li_owner _ _ Hi); by exists p). split; [split_and!|split_and!].
  - cbn. lia.
  - by apply point_ok_idle.
  - by rewrite Hp, Hk.
  - done.
  - congruence.
  - cbn. by left.
Qed.

Lemma run_moves n s t p : Z.of_nat n < 2 ^ 31 -> lock_inv n s -> threads s !! t = Some p -> run_ok t p (sh s) (run t p (sh s)).
Proof.
  intros Hn Hi Ht. pose proof (li_point _ _ Hi t p Ht) as Hp. pose proof (readers_range n s Hi) as Hr.
  assert (Hown : holds p = true -> bmMutex (sh s) = Some t) by (intros ?; apply (li_owner _ _ Hi); by exists p).
  pose proof (total_has counts _ t p counts_nonneg Ht) as Hmine. rewrite <- (li_count _ _ Hi) in Hmine.
  destruct p as [| | |[]|[]|[]|[]]; cbn [run wsbmWriteLockKernelBO wsbmWriteUnlockKernelBO wsbmReadLockKernelBO wsbmReadUnlockKernelBO];
    cbn in Hp, Hown, Hmine; try (cbn; by right); try (cbn; by left); try (eapply mutexLock_ok; [exact Hi|exact Ht|done|done|done|by intros ? ? ?]).
  - destruct (Z.eqb_spec (kernelReaders (sh s)) 0) as [E|E]; cbn [negb].
    + split; split_and!; cbn; try done; [lia|rewrite Hp by done; by rewrite E|by apply Hown|by left].
    + eapply mutexUnlock_ok; [exact Hi|exact Ht|done..|by apply Hp|done|]. intros _. lia.
  - split; split_and!; cbn; try done; [lia|by destruct Hp|by apply Hown|by left].
  - split; split_and!; cbn; try done; [lia|by destruct Hp|by apply Hown|by left].
  - destruct Hp as [E1 E2]. eapply mutexUnlock_ok; [exact Hi|exact Ht|done..|by rewrite E1|done|done].
  - split; split_and!; cbn; try done; [lia|split; [done|by apply Hp]|by apply Hown|by left].
  - destruct Hp as [<- Hl]. destruct (Z.leb_spec (2 ^ 31) (kernelReaders (sh s) + 1)) as [Ho|Ho].
    + pose proof (total_insert counts _ t _ Reading Ht) as E. pose proof (total_bound counts (<[t := Reading]> (threads s)) 0 1) as Hb.
      rewrite E, <- (li_count _ _ Hi), length_insert, (li_length _ _ Hi) in Hb. cbn in Hb.
      destruct Hb; [by intros [| | |[]|[]|[]|[]]|lia].
    + destruct (Z.eqb_spec (kernelReaders (sh s)) 0) as [E|E]; (split; split_and!); cbn; try done; try lia; try (by apply Hown); try (intros _; left; lia).
      * rewrite Hl. by rewrite E.
      * intros _. rewrite Hl. apply flag_inc; lia.
  - destruct Hp as [E1 E2]. split; split_and!; cbn; try done; [lia|intros _; by rewrite E1|by apply Hown|by left].
  - eapply mutexUnlock_ok; [exact Hi|exact Ht|done..|by apply Hp|done|done].
  - split; split_and!; cbn; try done; [lia|split; [done|by apply Hp]|by apply Hown|by left].
  - destruct Hp as [<- Hl]. destruct (Z.ltb_spec (kernelReaders (sh s) - 1) (- 2 ^ 31)) as [Ho|Ho]; [lia|].
    destruct (Z.eqb_spec (kernelReaders (sh s) - 1) 0) as [E|E]; (split; split_and!); cbn; try done; try lia; try (by apply Hown); try (intros _; left; lia).
    + rewrite Hl. unfold flag. destruct (Z.eqb_spec (kernelReaders (sh s)) 0); [lia|done].
    + intros _. rewrite Hl. apply flag_dec; lia.
  - destruct Hp as [E1 E2]. split; split_and!; cbn; try done; [lia|by apply Hown|by left].
  - destruct Hp as [E1 E2]. split_and!; cbn; try done; [lia|intros _; by rewrite E1|by apply Hown].
  - eapply mutexUnlock_ok; [exact Hi|exact Ht|done..|by apply Hp|done|done].
Qed.

Lemma drain_inv n s s' : Z.of_nat n < 2 ^ 31 -> lock_inv n s -> advance s s' -> lock_inv n s'.
Proof.
  intros Hn Hi [t p sh' p' Ht E|t p sh' p' Ht E|t p p' Ht E].
  - pose proof (run_moves n s t p Hn Hi Ht) as H. rewrite E in H. destruct H as [Hm Hk]. by apply (move_inv n s t p p' sh').
  - pose proof (run_moves n s t p Hn Hi Ht) as H. rewrite E in H. by apply (wakes_inv n s t p p' sh').
  - pose proof (li_point _ _ Hi t p Ht) as Hp. apply (move_inv n s t p p' (sh s) Hi Ht); destruct p; try done; injection E as <-.
    + split_and!; cbn; [lia|done|done].
    + split_and!; cbn; [lia|exact Hp|]. apply (li_owner _ _ Hi). by exists Writing.
    + split_and!; [done|done|by left].
    + split_and!; [done|done|by left].
Qed.

Lemma calm_inv n s t p p' : lock_inv n s -> threads s !! t = Some p -> holds p = false -> holds p' = false ->
  counts p' = counts p -> p' <> In_write_lock WL_sleep -> lock_inv n {| sh := sh s; threads := <[t := p']> (threads s) |}.
Proof.
  intros Hi Ht Hp Hp' Hc Hs. apply (move_inv n s t p p' (sh s) Hi Ht).
  - split_and!; [lia|by apply point_ok_idle|by rewrite Hp, Hp'].
  - split_and!; [done| |by left]. intros Hw%waking_holds. congruence.
Qed.

Lemma lock_reach_inv n s : Z.of_nat n < 2 ^ 31 -> reach n s -> lock_inv n s.
Proof.
  intros Hn. induction 1 as [|s s' Hr IH [s1 Hd|t p Ht Ha|t Ht]].
  - split; cbn.
    + apply length_replicate.
    + intros t. split; [done|]. intros (p & [-> _]%lookup_replicate & Hp). done.
    + by induction n as [|m IH]; cbn; [|rewrite <- IH by lia].
    + intros t p [-> _]%lookup_replicate. done.
    + done.
    + intros t [E _]%lookup_replicate. done.
  - by eapply drain_inv.
  - destruct Ha; (eapply calm_inv; [exact IH|exact Ht|done..]).
  - eapply calm_inv; [exact IH|exact Ht|done..].
Qed.

(** * It excludes *)

(** C25. (safety) Whatever the threads do and however they are interleaved, at most one has
    the lock of the kernel buffers for writing and then no one has it for reading; no
    thread locks a mutex it has, unlocks one it has not, or makes the count of the readers
    overflow; and kernelLocked says whether there are readers whenever the mutex is
    free. *)
Theorem lock_excludes n s : Z.of_nat n < 2 ^ 31 -> reach n s ->
  (forall t t', threads s !! t = Some Writing -> threads s !! t' = Some Writing -> t = t') /\
  (forall t t', threads s !! t = Some Writing -> threads s !! t' <> Some Reading) /\
  (forall t p, threads s !! t = Some p -> run t p (sh s) <> Misuse) /\
  (bmMutex (sh s) = None -> kernelLocked (sh s) = if kernelReaders (sh s) =? 0 then 0 else 1).
Proof.
  intros Hn Hr. pose proof (lock_reach_inv n s Hn Hr) as Hi. split_and!.
  - intros t t' Ht Ht'. assert (E : bmMutex (sh s) = Some t) by (apply (li_owner _ _ Hi); by exists Writing).
    assert (E' : bmMutex (sh s) = Some t') by (apply (li_owner _ _ Hi); by exists Writing). congruence.
  - intros t t' Ht Ht'. destruct (li_point _ _ Hi t _ Ht) as [E _]. rewrite (li_count _ _ Hi) in E.
    pose proof (total_has counts _ t' _ counts_nonneg Ht') as Hp. cbn in Hp. lia.
  - intros t p Ht E. pose proof (run_moves n s t p Hn Hi Ht) as H. by rewrite E in H.
  - apply (li_free _ _ Hi).
Qed.

(** * Everyone gets through *)

(** An upper bound of the steps a thread has left, when there are [n]: a broadcast makes
    the others start over what comes after their sleep. *)
Definition rank (n : Z) (p : point) : Z :=
  match p with
  | Idle => 0
  | In_write_unlock WU_unlock => 1
  | In_write_unlock WU_clear => 2
  | Writing => 3
  | In_write_lock WL_set => 4
  | In_write_lock WL_sleep => 4
  | In_write_lock WL_test => 5
  | In_write_lock WL_wake => 6
  | In_write_lock WL_lock => 6
  | In_read_unlock RU_unlock => 1
  | In_read_unlock RU_broadcast => 2 * n + 2
  | In_read_unlock RU_clear => 2 * n + 3
  | In_read_unlock (RU_store _) => 2 * n + 4
  | In_read_unlock RU_read => 2 * n + 5
  | In_read_unlock RU_lock => 2 * n + 6
  | Reading => 2 * n + 7
  | In_read_lock RL_unlock => 2 * n + 8
  | In_read_lock RL_set => 2 * n + 9
  | In_read_lock (RL_store _) => 2 * n + 10
  | In_read_lock RL_read => 2 * n + 11
  | In_read_lock RL_lock => 2 * n + 12
  end.

Lemma total_wake_up n l : total (rank n) (wake_up <$> l) <= total (rank n) l + 2 * Z.of_nat (length l).
Proof.
  induction l as [|p l IH]; [done|]. rewrite fmap_cons. simpl.
  assert (rank n (wake_up p) <= rank n p + 2) by (destruct p as [| | |[]|[]|[]|[]]; cbn; lia). lia.
Qed.

Lemma mutexLock_goes t sh k sh' p' : p_mutexLock t sh k = Goes sh' p' -> p' = k.
Proof. unfold p_mutexLock. destruct (bmMutex sh); [by case_bool_decide|by intros [= _ <-]]. Qed.

Lemma mutexUnlock_goes t sh k sh' p' : p_mutexUnlock t sh k = Goes sh' p' -> p' = k.
Proof. unfold p_mutexUnlock. case_bool_decide; [by intros [= _ <-]|done]. Qed.

Lemma run_goes n t p sh sh' p' : 0 <= n -> run t p sh = Goes sh' p' -> rank n p' < rank n p.
Proof.
  intros Hn. destruct p as [| | |[]|[]|[]|[]]; cbn; try done;
    try (intros ->%mutexLock_goes; cbn; lia); try (intros ->%mutexUnlock_goes; cbn; lia); try (intros [= _ <-]; cbn; lia).
  - destruct (negb _); [intros ->%mutexUnlock_goes; cbn; lia|intros [= _ <-]; cbn; lia].
  - destruct (_ <=? _); [done|]. intros [= _ <-]. destruct (_ =? _); cbn; lia.
  - destruct (_ <? _); [done|]. intros [= _ <-]. destruct (_ =? _); cbn; lia.
Qed.

Lemma run_wakes t p sh sh' p' : run t p sh = Wakes sh' p' -> p = In_read_unlock RU_broadcast /\ p' = In_read_unlock RU_unlock.
Proof.
  destruct p as [| | |[]|[]|[]|[]]; cbn; try done; unfold p_mutexLock, p_condWait, p_mutexUnlock; repeat (case_match; try done).
  by intros [= _ <-].
Qed.

Lemma drain_rank s s' : advance s s' ->
  let n := Z.of_nat (length (threads s)) in
  length (threads s') = length (threads s) /\ total (rank n) (threads s') < total (rank n) (threads s).
Proof.
  intros [t p sh' p' Ht E|t p sh' p' Ht E|t p p' Ht E] n; subst n; cbn [threads].
  - split; [by rewrite length_insert|]. rewrite (total_insert _ _ _ _ p' Ht). apply (run_goes (Z.of_nat (length (threads s)))) in E; lia.
  - split; [by rewrite length_fmap, length_insert|].
    pose proof (total_wake_up (Z.of_nat (length (threads s))) (<[t := p']> (threads s))) as Hw.
    rewrite (total_insert _ _ _ _ p' Ht), length_insert in Hw. apply run_wakes in E as [-> ->]. cbn in Hw |- *. lia.
  - split; [by rewrite length_insert|]. rewrite (total_insert _ _ _ _ p' Ht). destruct p; try done; injection E as <-; cbn; lia.
Qed.

Lemma goes_drain s t p sh' p' : threads s !! t = Some p -> run t p (sh s) = Goes sh' p' -> exists s', advance s s'.
Proof. intros Ht E. eexists. by eapply Step_goes. Qed.

(** Somebody is not done: somebody can do something. *)
Lemma lock_progress n s : Z.of_nat n < 2 ^ 31 -> lock_inv n s -> (exists s', advance s s') \/ Forall (fun p => p = Idle) (threads s).
Proof.
  intros Hn Hi.
  assert (Hgo : forall t p, threads s !! t = Some p -> run t p (sh s) <> Blocks -> exists s', advance s s').
  { intros t p Ht Hb. pose proof (run_moves n s t p Hn Hi Ht) as H. destruct (run t p (sh s)) as [|sh' p'|sh' p'|] eqn:E; [done|by eapply goes_drain| |done].
    eexists. by eapply Step_wakes. }
  assert (Hrel : forall t p p', threads s !! t = Some p -> release p = Some p' -> exists s', advance s s').
  { intros t p p' Ht E. eexists. by eapply Step_release. }
  destruct (bmMutex (sh s)) as [t|] eqn:Em.
  - left. destruct (proj1 (li_owner _ _ Hi t) Em) as (p & Ht & Hp). destruct p as [| | |p|p|p|p]; [done|done|by eapply Hrel|..].
    all: apply (Hgo t _ Ht); pose proof (run_moves n s t _ Hn Hi Ht) as H; intros E; rewrite E in H; cbn [run_ok] in H; destruct H as [H|H]; [done|congruence].
  - assert (Hfree : forall t k, p_mutexLock t (sh s) k <> Blocks) by (intros t k; unfold p_mutexLock; by rewrite Em).
    assert (Hout : forall t p, threads s !! t = Some p -> holds p = false).
    { intros t p Ht. destruct (holds p) eqn:Hp; [|done]. assert (bmMutex (sh s) = Some t) by (apply (li_owner _ _ Hi); by exists p). congruence. }
    destruct (decide (Forall (fun p => p <> In_write_lock WL_sleep) (threads s))) as [Ha|Ha].
    + destruct (decide (Forall (fun p => p = Idle) (threads s))) as [?|Hb]; [by right|left].
      apply not_Forall_Exists in Hb; [|apply _]. apply Exists_exists in Hb as (p & Hin & Hp).
      pose proof (proj1 (Forall_forall _ _) Ha p Hin) as Hs. apply list_elem_of_In, list_elem_of_lookup in Hin as [t Ht]. pose proof (Hout t p Ht) as Hh.
      destruct p as [| | |[]|[]|[]|[]]; try done; try (by destruct Hp); [by eapply Hrel|..]; (eapply Hgo; [exact Ht|apply Hfree]).
    + left. apply not_Forall_Exists in Ha; [|apply _]. apply Exists_exists in Ha as (p & Hin & Hp).
      apply list_elem_of_In, list_elem_of_lookup in Hin as [t Ht].
      destruct p as [| | |[]|p|p|p]; try (destruct Hp; by intros [=]). destruct (li_sleep _ _ Hi t Ht) as [Hr|(u & q & Hu & Hq)].
      * rewrite (li_count _ _ Hi) in Hr. destruct (total_positive counts _ counts_nonneg Hr) as (u & q & Hu & Hq). pose proof (Hout u q Hu) as Hh.
        destruct q as [| | |[]|[]|[]|[]]; try done; [by eapply Hrel|]. eapply Hgo; [exact Hu|apply Hfree].
      * apply waking_holds in Hq. by rewrite (Hout u q Hu) in Hq.
Qed.

Lemma drain_reach n s s' : reach n s -> rtc advance s s' -> reach n s'.
Proof. intros Hr. induction 1 as [s|s s1 s' Hd _ IH]; [done|]. apply IH. eapply Reach_step; [done|by apply Step_advance]. Qed.

Lemma drain_bound k s s' : nsteps advance k s s' ->
  let n := Z.of_nat (length (threads s)) in total (rank n) (threads s') + Z.of_nat k <= total (rank n) (threads s).
Proof.
  induction 1 as [s|k s s1 s' Hd _ IH]; cbn zeta in *; [lia|]. destruct (drain_rank s s1 Hd) as [El Hl]. rewrite El in IH. lia.
Qed.

(** C26. (termination) From any reachable state, if the threads that have the lock release
    it and no one asks anew, every thread gets the lock it asked for and releases it,
    within a number of steps given by the number of threads, whatever the scheduler does:
    no wake-up is lost and no one blocks for ever. *)
Theorem lock_drains n s : Z.of_nat n < 2 ^ 31 -> reach n s ->
  (forall k s', nsteps advance k s s' -> Z.of_nat k <= Z.of_nat n * (2 * Z.of_nat n + 12)) /\
  (forall s', rtc advance s s' -> (exists s'', advance s' s'') \/ Forall (fun p => p = Idle) (threads s')).
Proof.
  intros Hn Hr. split.
  - intros k s' Hk. pose proof (drain_bound k s s' Hk) as Hb. cbn zeta in Hb. rewrite (li_length _ _ (lock_reach_inv n s Hn Hr)) in Hb.
    assert (Hrank : forall p, 0 <= rank (Z.of_nat n) p <= 2 * Z.of_nat n + 12) by (intros [| | |[]|[]|[]|[]]; cbn; lia).
    pose proof (total_bound _ (threads s) _ _ Hrank) as B1. pose proof (total_bound _ (threads s') _ _ Hrank) as B2.
    rewrite (li_length _ _ (lock_reach_inv n s Hn Hr)) in B1. lia.
  - intros s' Hs. apply (lock_progress n); [done|]. apply lock_reach_inv; [done|by eapply drain_reach].
Qed.

(** * Witnesses *)

(** A schedule: a thread asks for the lock, or goes on. *)
Inductive turn := T_read (t : nat) | T_write (t : nat) | T_run (t : nat).

Definition take_turn (x : turn) (s : system) : option system :=
  let put t p sh := Some {| sh := sh; threads := <[t := p]> (threads s) |} in
  match x with
  | T_read t => match threads s !! t with Some Idle => put t (In_read_lock RL_lock) (sh s) | _ => None end
  | T_write t => match threads s !! t with Some Idle => put t (In_write_lock WL_lock) (sh s) | _ => None end
  | T_run t =>
      match threads s !! t with
      | Some p =>
          match run t p (sh s), release p with
          | Goes sh' p', _ => put t p' sh'
          | Wakes sh' p', _ => Some {| sh := sh'; threads := wake_up <$> <[t := p']> (threads s) |}
          | _, Some p' => put t p' (sh s)
          | _, None => None
          end
      | None => None
      end
  end.

Fixpoint schedule (l : list turn) (s : system) : option system :=
  match l with [] => Some s | x :: l => match take_turn x s with Some s => schedule l s | None => None end end.

Lemma take_turn_step x s s' : take_turn x s = Some s' -> step s s'.
Proof.
  destruct x as [t|t|t]; cbn; destruct (threads s !! t) as [p|] eqn:Ht; try done.
  - destruct p; try done. intros [= <-]. by apply Step_acquire, Acquires_read.
  - destruct p; try done. intros [= <-]. by apply Step_acquire, Acquires_write.
  - destruct (run t p (sh s)) as [|sh' p'|sh' p'|] eqn:E.
    + destruct (release p) eqn:Er; [|done]. intros [= <-]. apply Step_advance. by eapply Step_release.
    + intros [= <-]. apply Step_advance. by eapply Step_goes.
    + intros [= <-]. apply Step_advance. by eapply Step_wakes.
    + destruct (release p) eqn:Er; [|done]. intros [= <-]. apply Step_advance. by eapply Step_release.
Qed.

Lemma schedule_reach n l s s' : reach n s -> schedule l s = Some s' -> reach n s'.
Proof.
  revert s. induction l as [|x l IH]; intros s Hr; [by intros [= <-]|]. cbn. destruct (take_turn x s) as [s1|] eqn:E; [|done].
  apply IH. eapply Reach_step; [exact Hr|by eapply take_turn_step].
Qed.

(** A reader has the lock, a writer sleeps, another reader is counted and has the mutex. *)
Definition lock_turns : list turn :=
  [T_read 0; T_run 0; T_run 0; T_run 0; T_run 0; T_run 0; T_write 1; T_run 1; T_run 1; T_read 2; T_run 2; T_run 2; T_run 2].

Definition lock_state : system :=
  {| sh := {| bmMutex := Some 2%nat; kernelReaders := 2; kernelLocked := 1 |};
     threads := [Reading; In_write_lock WL_sleep; In_read_lock RL_unlock] |}.

Lemma lock_state_reached : reach 3 lock_state.
Proof. apply (schedule_reach 3 lock_turns (initial 3)); [apply Reach_initial|by vm_compute]. Qed.

Theorem lock_excludes_witness : Z.of_nat 3 < 2 ^ 31 /\
  (forall t p, threads lock_state !! t = Some p -> run t p (sh lock_state) <> Misuse).
Proof. split; [done|]. apply (lock_excludes 3 lock_state); [done|exact lock_state_reached]. Defined.

Theorem lock_drains_witness :
  (exists s', advance lock_state s') /\ forall k s', nsteps advance k lock_state s' -> Z.of_nat k <= 54.
Proof.
  destruct (lock_drains 3 lock_state ltac:(done) lock_state_reached) as [H1 H2]. split.
  - destruct (H2 lock_state (rtc_refl _ _)) as [H|H]; [exact H|]. apply Forall_inv in H. discriminate.
  - intros k s' Hk. exact (H1 k s' Hk).
Defined.
