(* ===== verification/HostHeader.v ===== *)
(** The headers of the video encoder: psb_video/src/pnw_hostheader.c.

    The driver does not write the headers of a compressed stream: it leaves in a piece of
    memory a list of elements for the firmware of the encoder.  An element is raw bits, or
    a token in whose place the firmware writes what only it knows (the quantiser, the
    alignment).  The memory is explicit, byte by byte: the count of elements is its first
    word, the elements follow, and an element of raw bits is its type, the number of its
    bits and the bits.  The pointers to the elements are an array of sixteen entries on
    the stack; reading one that was not set, or an access out of the memory, is undefined. *)
From stdpp Require Import list.
From S2P Require Import Prelude.

Definition uint8 (z : Z) : Z := z mod 2 ^ 8.
Definition uint16 (z : Z) : Z := z mod 2 ^ 16.

Definition MAXNUMBERELEMENTS : Z := 16.
Definition HEADER_SIZE : Z := 128 * 2.
Definition ELEMENTS_EMPTY : Z := 9999.

(** * The data *)

Inductive HEADER_ELEMENT_TYPE :=
| ELEMENT_STARTCODE_RAWDATA | ELEMENT_RAWDATA | ELEMENT_QP | ELEMENT_SQP
| ELEMENT_FRAMEQSCALE | ELEMENT_SLICEQSCALE
| ELEMENT_INSERTBYTEALIGN_H264 | ELEMENT_INSERTBYTEALIGN_MPG4
| BPH_SEI_NAL_INITIAL_CPB_REMOVAL_DELAY | BPH_SEI_NAL_INITIAL_CPB_REMOVAL_DELAY_OFFSET
| PTH_SEI_NAL_CPB_REMOVAL_DELAY | PTH_SEI_NAL_DPB_OUTPUT_DELAY.

#[export] Instance HEADER_ELEMENT_TYPE_eq_dec : EqDecision HEADER_ELEMENT_TYPE.
Proof. solve_decision. Defined.

Definition element_types : list HEADER_ELEMENT_TYPE :=
  [ELEMENT_STARTCODE_RAWDATA; ELEMENT_RAWDATA; ELEMENT_QP; ELEMENT_SQP;
   ELEMENT_FRAMEQSCALE; ELEMENT_SLICEQSCALE;
   ELEMENT_INSERTBYTEALIGN_H264; ELEMENT_INSERTBYTEALIGN_MPG4;
   BPH_SEI_NAL_INITIAL_CPB_REMOVAL_DELAY; BPH_SEI_NAL_INITIAL_CPB_REMOVAL_DELAY_OFFSET;
   PTH_SEI_NAL_CPB_REMOVAL_DELAY; PTH_SEI_NAL_DPB_OUTPUT_DELAY].

(** The value of an enumerator is its position. *)
Definition element_code (t : HEADER_ELEMENT_TYPE) : Z :=
  default 0 (Z.of_nat <$> find_index (fun u => bool_decide (u = t)) element_types).

Inductive SH_PROFILE_TYPE := SH_PROFILE_BP | SH_PROFILE_MP | SH_PROFILE_HP.
#[export] Instance SH_PROFILE_TYPE_eq_dec : EqDecision SH_PROFILE_TYPE.
Proof. solve_decision. Defined.

Definition SH_LEVEL_1 : Z := 10.
Definition SH_LEVEL_1B : Z := 11.
Definition SH_LEVEL_11 : Z := 11.
Definition SH_LEVEL_12 : Z := 12.
Definition SH_LEVEL_2 : Z := 20.
Definition SH_LEVEL_3 : Z := 30.
Definition SH_LEVEL_31 : Z := 31.
Definition SH_LEVEL_32 : Z := 32.
Definition SH_LEVEL_4 : Z := 40.
Definition SH_LEVEL_41 : Z := 41.
Definition SH_LEVEL_42 : Z := 42.

Inductive SLHP_SLICEFRAME_TYPE :=
| SLHP_P_SLICEFRAME_TYPE | SLHP_B_SLICEFRAME_TYPE | SLHP_I_SLICEFRAME_TYPE
| SLHP_SP_SLICEFRAME_TYPE | SLHP_SI_SLICEFRAME_TYPE | SLHP_IDR_SLICEFRAME_TYPE.
#[export] Instance SLHP_SLICEFRAME_TYPE_eq_dec : EqDecision SLHP_SLICEFRAME_TYPE.
Proof. solve_decision. Defined.

Definition slice_code (t : SLHP_SLICEFRAME_TYPE) : Z :=
  match t with
  | SLHP_P_SLICEFRAME_TYPE => 0 | SLHP_B_SLICEFRAME_TYPE => 1 | SLHP_I_SLICEFRAME_TYPE => 2
  | SLHP_SP_SLICEFRAME_TYPE => 3 | SLHP_SI_SLICEFRAME_TYPE => 4 | SLHP_IDR_SLICEFRAME_TYPE => 5
  end.

Record H264_VUI_PARAMS := {
  aspect_ratio_info_present_flag : bool;
  aspect_ratio_idc : Z;
  sar_width : Z;
  sar_height : Z;
  Time_Scale : Z;
  num_units_in_tick : Z;
  bit_rate_value_minus1 : Z;
  cbp_size_value_minus1 : Z;
  CBR : Z;
  initial_cpb_removal_delay_length_minus1 : Z;
  cpb_removal_delay_length_minus1 : Z;
  dpb_output_delay_length_minus1 : Z;
  time_offset_length : Z }.

Record H264_CROP_PARAMS := {
  bClip : bool;
  LeftCropOffset : Z;
  RightCropOffset : Z;
  TopCropOffset : Z;
  BottomCropOffset : Z }.

Record H264_SEQUENCE_HEADER_PARAMS := {
  ucProfile : SH_PROFILE_TYPE;
  ucLevel : Z;
  ucWidth_in_mbs_minus1 : Z;
  ucHeight_in_maps_units_minus1 : Z;
  gaps_in_frame_num_value : Z;
  ucFrame_mbs_only_flag : Z;
  VUI_Params_Present : Z;
  VUI_Params : H264_VUI_PARAMS }.

Record H264_SLICE_HEADER_PARAMS := {
  Start_Code_Prefix_Size_Bytes : Z;
  SliceFrame_Type : SLHP_SLICEFRAME_TYPE;
  First_MB_Address : Z;
  Frame_Num_DO : Z;
  Picture_Num_DO : Z;
  UsesLongTermRef : bool;
  IsLongTermRef : bool;
  Disable_Deblocking_Filter_Idc : Z }.

Inductive MPEG4_PROFILE_TYPE := SP | ASP.
#[export] Instance MPEG4_PROFILE_TYPE_eq_dec : EqDecision MPEG4_PROFILE_TYPE.
Proof. solve_decision. Defined.

Definition I_FRAME : Z := 0.
Definition P_FRAME : Z := 1.

(** [memset(&VUI_Params, 0, ...)]. *)
Definition no_vui : H264_VUI_PARAMS :=
  {| aspect_ratio_info_present_flag := false; aspect_ratio_idc := 0; sar_width := 0; sar_height := 0;
     Time_Scale := 0; num_units_in_tick := 0; bit_rate_value_minus1 := 0; cbp_size_value_minus1 := 0;
     CBR := 0; initial_cpb_removal_delay_length_minus1 := 0; cpb_removal_delay_length_minus1 := 0;
     dpb_output_delay_length_minus1 := 0; time_offset_length := 0 |}.

(** * The memory

    [hdr] is the address of [mtx_hdr], [elt_p] the array of the pointers to its
    elements. *)
Record HW := { mem : list Z; hdr : nat; elt_p : list (option nat) }.

#[local] Abbreviation W := (M unit HW).

Definition set_mem (m : list Z) (s : HW) : HW := {| mem := m; hdr := hdr s; elt_p := elt_p s |}.
Definition set_hdr (a : nat) (s : HW) : HW := {| mem := mem s; hdr := a; elt_p := elt_p s |}.
Definition set_elt_p (p : list (option nat)) (s : HW) : HW := {| mem := mem s; hdr := hdr s; elt_p := p |}.

Definition load8 (a : nat) : W Z :=
  s ← get; match mem s !! a with Some v => mret v | None => undefined end.

Definition store8 (a : nat) (v : Z) : W unit :=
  s ← get;
  if bool_decide (a < length (mem s))%nat then modify (set_mem (<[a := uint8 v]> (mem s))) else undefined.

(** A word, the least byte first. *)
Definition load32 (a : nat) : W Z :=
  b0 ← load8 a; b1 ← load8 (a + 1)%nat; b2 ← load8 (a + 2)%nat; b3 ← load8 (a + 3)%nat;
  mret (b0 + 2 ^ 8 * b1 + 2 ^ 16 * b2 + 2 ^ 24 * b3).

Definition store32 (a : nat) (v : Z) : W unit :=
  store8 a v ;; store8 (a + 1)%nat (Z.shiftr v 8) ;;
  store8 (a + 2)%nat (Z.shiftr v 16) ;; store8 (a + 3)%nat (Z.shiftr v 24).

(** [mtx_hdr->Elements], [mtx_hdr->asElementStream] and [elt_p\[i\]]. *)
Definition get_Elements : W Z := s ← get; load32 (hdr s).
Definition set_Elements (n : Z) : W unit := s ← get; store32 (hdr s) (uint32 n).
Definition asElementStream (s : HW) : nat := (hdr s + 4)%nat.

Definition get_elt (i : Z) : W nat :=
  s ← get; match elt_p s !! Z.to_nat i with Some (Some p) => mret p | _ => undefined end.

Definition set_elt (i : Z) (p : nat) : W unit :=
  s ← get;
  if bool_decide (Z.to_nat i < length (elt_p s))%nat then modify (set_elt_p (<[Z.to_nat i := Some p]> (elt_p s)))
  else undefined.

(** The fields of an element at [p]. *)
Definition Size (p : nat) : nat := (p + 4)%nat.
Definition Bits (p : nat) : nat := (p + 5)%nat.

Definition is_type (c : Z) (t : HEADER_ELEMENT_TYPE) : bool := c =? element_code t.

(** * Writing bits *)

(** A shift by a negative amount is undefined. *)
Fixpoint write_upto8bits (fuel : nat) (wrt_bits bit_cnt : Z) : W unit :=
  match fuel with
  | O => undefined
  | S fuel =>
    if bit_cnt =? 0 then mret tt else
    e ← get_Elements;
    if MAXNUMBERELEMENTS <=? e then mret tt else
    if 8 <? bit_cnt then undefined else
    let wrt_bits := Z.land wrt_bits (Z.shiftr 255 (8 - bit_cnt)) in
    p ← get_elt e;
    size ← load8 (Size p);
    let out := (Bits p + Z.to_nat (size / 8))%nat in
    if (Z.land size 7 =? 0) && (120 <=? size) then
      set_Elements (e + 1) ;;
      e ← get_Elements;
      set_elt e (Bits p + 15)%nat ;;
      q ← get_elt e;
      store32 q (element_code ELEMENT_RAWDATA) ;;
      store8 (Size q) 0 ;;
      write_upto8bits fuel wrt_bits bit_cnt
    else
      when (Z.land size 7 =? 0) (store8 out 0) ;;
      let Shift := 8 - bit_cnt - Z.land size 7 in
      if 0 <=? Shift then
        b ← load8 out; store8 out (Z.lor b (uint8 (Z.shiftl wrt_bits Shift))) ;;
        size ← load8 (Size p); store8 (Size p) (size + bit_cnt)
      else
        (* UI8Input[1] is the second byte of UI16Input, UI8Input[0] the first *)
        let input := Z.shiftr (Z.shiftl (uint8 (wrt_bits + 256)) 8) (- Shift) in
        b ← load8 out; store8 out (Z.lor b (uint8 (Z.shiftr input 8))) ;;
        size ← load8 (Size p); store8 (Size p) (size + bit_cnt) ;;
        size ← load8 (Size p); store8 (Size p) (size - uint8 (- Shift)) ;;
        write_upto8bits fuel (Z.shiftr (uint8 input) (8 + Shift)) (- Shift)
  end.

Definition pnw__write_upto8bits_elements (wrt_bits bit_cnt : Z) : W unit :=
  write_upto8bits 3 (uint8 wrt_bits) (uint16 bit_cnt).

Definition pnw__write_upto32bits_elements (wrt_bits bit_cnt : Z) : W unit :=
  let Bytes := map (fun i => Z.land (Z.shiftr (uint32 wrt_bits) (8 * i)) 255) [0; 1; 2; 3] in
  let EndByte := uint32 (bit_cnt + 7) / 8 in
  let byte i := match Bytes !! Z.to_nat i with Some b => if 0 <=? i then mret b else undefined | None => undefined end in
  b ← byte (EndByte - 1);
  pnw__write_upto8bits_elements b (if negb (bit_cnt mod 8 =? 0) then bit_cnt mod 8 else 8) ;;
  for_each (rev (seq 1 (Z.to_nat EndByte - 1)))
    (fun BitLp => b ← byte (Z.of_nat BitLp - 1); pnw__write_upto8bits_elements b 8).

(** The number of preceding zeros and the value appended after them and a one. *)
Fixpoint ue_split (fuel : nat) (uiLp ucZeros uiVal : Z) : option (Z * Z) :=
  match fuel with
  | O => None
  | S fuel =>
    if uint32 (uiLp - 1) <? uiVal
    then ue_split fuel (uint32 (uiLp + uiLp)) (uint8 (ucZeros + 1)) (uint32 (uiVal - uiLp))
    else Some (ucZeros, uiVal)
  end.

Fixpoint ue_zeros (fuel : nat) (uiLp : Z) : W unit :=
  match fuel with
  | O => undefined
  | S fuel =>
    if 8 <? uiLp + 1 then pnw__write_upto8bits_elements 0 8 ;; ue_zeros fuel (uiLp - 8)
    else pnw__write_upto8bits_elements 1 (uint8 (uiLp + 1))
  end.

Fixpoint ue_numeric (fuel : nat) (ucZeros uiVal : Z) : W unit :=
  match fuel with
  | O => undefined
  | S fuel =>
    if 8 <? ucZeros then
      let ucZeros := ucZeros - 8 in
      let uiChunk := Z.shiftr uiVal ucZeros in
      pnw__write_upto8bits_elements (uint8 uiChunk) 8 ;;
      ue_numeric fuel ucZeros (uint32 (uiVal - uint32 (Z.shiftl uiChunk ucZeros)))
    else pnw__write_upto8bits_elements (uint8 uiVal) ucZeros
  end.

Definition pnw__generate_ue (uiVal : Z) : W unit :=
  match ue_split 34 1 0 (uint32 uiVal) with
  | Some (ucZeros, uiVal) => ue_zeros 6 ucZeros ;; ue_numeric 6 ucZeros uiVal
  | None => undefined
  end.

(** Signed overflow is undefined. *)
Definition int_range (z : Z) : bool := bool_decide (- 2 ^ 31 <= z < 2 ^ 31).

Definition pnw__generate_se (iVal : Z) : W unit :=
  let uiCodeNum := if 0 <? iVal then iVal + iVal - 1 else - iVal - iVal in
  if int_range (if 0 <? iVal then iVal + iVal else uiCodeNum) then pnw__generate_ue (uint32 uiCodeNum)
  else undefined.

Definition pnw__insert_element_token (Token : HEADER_ELEMENT_TYPE) : W unit :=
  e ← get_Elements;
  if negb (e =? ELEMENTS_EMPTY) && (MAXNUMBERELEMENTS - 1 <? e) then mret tt else
  let write e := p ← get_elt e; store32 p (element_code Token) ;; store8 (Size p) 0 in
  if negb (e =? ELEMENTS_EMPTY) then
    p ← get_elt e; t ← load32 p;
    Offset ← (if is_type t ELEMENT_STARTCODE_RAWDATA || is_type t ELEMENT_RAWDATA then
                size ← load8 (Size p);
                mret (uint8 ((uint8 (size + 8 + 31) / 32 + 1) * 4))
              else mret 4);
    set_Elements (e + 1) ;;
    e ← get_Elements;
    if MAXNUMBERELEMENTS - 1 <? e then mret tt else
    p ← get_elt (e - 1);
    set_elt e (p + Z.to_nat Offset)%nat ;;
    write e
  else
    set_Elements 0 ;; e ← get_Elements; write e.

#[local] Abbreviation write8 := pnw__write_upto8bits_elements.
#[local] Abbreviation write32 := pnw__write_upto32bits_elements.
#[local] Abbreviation token := pnw__insert_element_token.

(** A condition of C as an integer. *)
#[local] Abbreviation b2z := Z.b2z.

(** * The headers of H.264 *)

Definition pnw__H264_writebits_startcode_prefix_element (ByteSize : Z) : W unit :=
  for_each (seq 0 (Z.to_nat (uint32 (ByteSize - 1)))) (fun _ => write8 0 8) ;;
  write8 1 8.

Definition pnw__H264_writebits_VUI_params (v : H264_VUI_PARAMS) : W unit :=
  (if aspect_ratio_info_present_flag v && (aspect_ratio_idc v =? 0xff) then
     write8 1 1 ;;
     write8 0xff 8 ;;
     write32 (sar_width v) 16 ;;
     write32 (sar_height v) 16
   else write8 0 1) ;;
  write8 (Z.shiftl 0 3 .| Z.shiftl 0 2 .| Z.shiftl 0 1 .| 1) 4 ;;
  write32 (num_units_in_tick v) 32 ;;
  write32 (Time_Scale v) 32 ;;
  write8 1 1 ;;
  write8 1 1 ;;
  write8 1 1 ;;
  write8 0 4 ;;
  write8 2 4 ;;
  pnw__generate_ue (bit_rate_value_minus1 v) ;;
  pnw__generate_ue (cbp_size_value_minus1 v) ;;
  write8 (CBR v) 1 ;;
  write8 (initial_cpb_removal_delay_length_minus1 v) 5 ;;
  write8 (cpb_removal_delay_length_minus1 v) 5 ;;
  write8 (dpb_output_delay_length_minus1 v) 5 ;;
  write8 (time_offset_length v) 5 ;;
  write8 0 1 ;;
  write8 0 1 ;;
  write8 0 1 ;;
  write8 0 1.

Definition pnw__H264_writebits_picture_header (bCabacEnabled b_8x8transform bIntraConstrained : bool)
    (i8CbQPOffset i8CrQPOffset : Z) : W unit :=
  let ui8ECMF := b2z bCabacEnabled in
  token ELEMENT_STARTCODE_RAWDATA ;;
  pnw__H264_writebits_startcode_prefix_element 4 ;;
  write8 (Z.shiftl 0 7 .| Z.shiftl 1 5 .| 8) 8 ;;
  write8 (Z.shiftl 1 7 .| Z.shiftl 1 6 .| Z.shiftl ui8ECMF 5 .| Z.shiftl 0 4 .| Z.shiftl 1 3
          .| Z.shiftl 1 2 .| Z.shiftl 1 1 .| 0) 8 ;;
  write8 0 2 ;;
  token ELEMENT_QP ;;
  token ELEMENT_RAWDATA ;;
  pnw__generate_se 0 ;;
  pnw__generate_se i8CbQPOffset ;;
  write8 (Z.shiftl 1 2 .| Z.shiftl (b2z bIntraConstrained) 1 .| 0) 3 ;;
  when (b_8x8transform || negb (i8CbQPOffset =? i8CrQPOffset))
    (write8 (Z.shiftl (b2z b_8x8transform) 1 .| 0) 2 ;; pnw__generate_se i8CrQPOffset) ;;
  token ELEMENT_INSERTBYTEALIGN_H264.

Definition pnw__H264_writebits_slice_header0 (p : H264_SLICE_HEADER_PARAMS) : W unit :=
  write8 (Z.shiftl 0 7
          .| Z.shiftl (if decide (SliceFrame_Type p = SLHP_B_SLICEFRAME_TYPE) then 0 else 1) 5
          .| (if decide (SliceFrame_Type p = SLHP_IDR_SLICEFRAME_TYPE) then 5 else 1)) 8.

Definition pnw__H264_writebits_slice_header1 (p : H264_SLICE_HEADER_PARAMS) (uiIdrPicId : Z) : W unit :=
  let ty t := bool_decide (SliceFrame_Type p = t) in
  pnw__generate_ue (First_MB_Address p) ;;
  pnw__generate_ue (slice_code (if ty SLHP_IDR_SLICEFRAME_TYPE then SLHP_I_SLICEFRAME_TYPE
                                else SliceFrame_Type p)) ;;
  write8 (Z.shiftl 1 5 .| Frame_Num_DO p) 6 ;;
  when (ty SLHP_IDR_SLICEFRAME_TYPE) (pnw__generate_ue uiIdrPicId) ;;
  when (ty SLHP_P_SLICEFRAME_TYPE || ty SLHP_B_SLICEFRAME_TYPE) (write8 0 1) ;;
  when (negb (ty SLHP_I_SLICEFRAME_TYPE) && negb (ty SLHP_IDR_SLICEFRAME_TYPE)) (write8 0 1) ;;
  if ty SLHP_IDR_SLICEFRAME_TYPE then
    write8 0 1 ;;
    write8 (b2z (IsLongTermRef p)) 1
  else write8 0 1.

Definition pnw__H264_writebits_slice_header2 (p : H264_SLICE_HEADER_PARAMS) : W unit :=
  pnw__generate_ue (Disable_Deblocking_Filter_Idc p) ;;
  when (negb (Disable_Deblocking_Filter_Idc p =? 1)) (pnw__generate_se 0 ;; pnw__generate_se 0).

(** [pSHParams->ucProfile == SH_PROFILE_HP] writes nothing of its own in this build. *)
Definition pnw__H264_writebits_sequence_header (p : H264_SEQUENCE_HEADER_PARAMS) (psCrop : H264_CROP_PARAMS)
  : W unit :=
  token ELEMENT_STARTCODE_RAWDATA ;;
  pnw__H264_writebits_startcode_prefix_element 4 ;;
  write8 (Z.shiftl 0 7 .| Z.shiftl 0x3 5 .| 7) 8 ;;
  when (bool_decide (ucProfile p <> SH_PROFILE_HP))
    (write8 (if decide (ucProfile p = SH_PROFILE_BP) then 66 else 77) 8 ;;
     write8 (Z.shiftl 0 7 .| Z.shiftl (if decide (ucProfile p = SH_PROFILE_BP) then 1 else 0) 6
             .| Z.shiftl 0 5 .| Z.shiftl (if ucLevel p =? SH_LEVEL_1B then 1 else 0) 4) 8 ;;
     write8 (uint8 (ucLevel p)) 8 ;;
     write8 (Z.shiftl 1 6 .| Z.shiftl 2 3 .| 3) 7) ;;
  pnw__generate_ue 1 ;;
  write8 (gaps_in_frame_num_value p) 1 ;;
  pnw__generate_ue (ucWidth_in_mbs_minus1 p) ;;
  pnw__generate_ue (ucHeight_in_maps_units_minus1 p) ;;
  write8 (ucFrame_mbs_only_flag p) 1 ;;
  write8 1 1 ;;
  (if bClip psCrop then
     write8 1 1 ;;
     pnw__generate_ue (LeftCropOffset psCrop) ;;
     pnw__generate_ue (RightCropOffset psCrop) ;;
     pnw__generate_ue (TopCropOffset psCrop) ;;
     pnw__generate_ue (BottomCropOffset psCrop)
   else write8 0 1) ;;
  write8 (VUI_Params_Present p) 1 ;;
  when (0 <? VUI_Params_Present p) (pnw__H264_writebits_VUI_params (VUI_Params p)) ;;
  write8 1 1 ;;
  e ← get_Elements; q ← get_elt e; size ← load8 (Size q);
  let ui8SBP := Z.land size 7 in
  when (0 <? ui8SBP) (write8 0 (8 - ui8SBP)).

Definition pnw__H264_writebits_slice_header (p : H264_SLICE_HEADER_PARAMS) (bCabacEnabled : bool)
    (uiIdrPicId : Z) : W unit :=
  token ELEMENT_STARTCODE_RAWDATA ;;
  pnw__H264_writebits_startcode_prefix_element (Start_Code_Prefix_Size_Bytes p) ;;
  pnw__H264_writebits_slice_header0 p ;;
  pnw__H264_writebits_slice_header1 p uiIdrPicId ;;
  token ELEMENT_SQP ;;
  token ELEMENT_RAWDATA ;;
  pnw__H264_writebits_slice_header2 p.

(** Every header starts with no element and ends with the index turned into a count:
    [mtx_hdr->Elements = ELEMENTS_EMPTY; elt_p\[0\] = This_Element; ...
    mtx_hdr->Elements++]. *)
Definition header (body : W unit) : W unit :=
  set_Elements ELEMENTS_EMPTY ;;
  modify (fun s => set_elt_p (Some (asElementStream s) :: replicate 15 None) s) ;;
  body ;;
  e ← get_Elements; set_Elements (e + 1).

Definition pnw__H264_getelements_skip_P_slice (p : H264_SLICE_HEADER_PARAMS) (MB_No_In_Slice : Z)
    (bCabacEnabled : bool) : W unit :=
  header (pnw__H264_writebits_slice_header p bCabacEnabled 0 ;;
          pnw__generate_ue MB_No_In_Slice ;;
          token ELEMENT_INSERTBYTEALIGN_H264).

Definition pnw__H264_getelements_sequence_header (p : H264_SEQUENCE_HEADER_PARAMS)
    (psCropParams : H264_CROP_PARAMS) : W unit :=
  header (pnw__H264_writebits_sequence_header p psCropParams).

Definition pnw__H264_getelements_slice_header (p : H264_SLICE_HEADER_PARAMS) (bCabacEnabled : bool)
    (uiIdrPicId : Z) : W unit :=
  header (pnw__H264_writebits_slice_header p bCabacEnabled uiIdrPicId).

Definition sh_profile (uiProfile : Z) : SH_PROFILE_TYPE :=
  if uiProfile =? 5 then SH_PROFILE_BP else if uiProfile =? 6 then SH_PROFILE_MP else SH_PROFILE_MP.

Definition sh_level (uiLevel : Z) : Z :=
  if uiLevel =? 10 then SH_LEVEL_1
  else if uiLevel =? 111 then SH_LEVEL_1B
  else if uiLevel =? 11 then SH_LEVEL_11
  else if uiLevel =? 12 then SH_LEVEL_12
  else if uiLevel =? 20 then SH_LEVEL_2
  else if uiLevel =? 30 then SH_LEVEL_3
  else if uiLevel =? 31 then SH_LEVEL_31
  else if uiLevel =? 32 then SH_LEVEL_32
  else if uiLevel =? 40 then SH_LEVEL_4
  else if uiLevel =? 41 then SH_LEVEL_41
  else if uiLevel =? 42 then SH_LEVEL_42
  else SH_LEVEL_3.

(** The memory of a header is at [pHeaderMemory]. *)
Definition pnw__H264_prepare_sequence_header (pHeaderMemory : nat) (uiPicWidthInMbs uiPicHeightInMbs : Z)
    (VUI_present : Z) (VUI_params : H264_VUI_PARAMS) (psCropParams : H264_CROP_PARAMS)
    (uiLevel uiProfile : Z) : W unit :=
  let SHParams :=
    {| ucProfile := sh_profile uiProfile; ucLevel := sh_level uiLevel;
       ucWidth_in_mbs_minus1 := uint8 (uiPicWidthInMbs - 1);
       ucHeight_in_maps_units_minus1 := uint8 (uiPicHeightInMbs - 1);
       gaps_in_frame_num_value := 0; ucFrame_mbs_only_flag := 1;
       VUI_Params_Present := uint8 VUI_present;
       VUI_Params := if negb (VUI_present =? 0) then VUI_params else no_vui |} in
  modify (set_hdr pHeaderMemory) ;;
  pnw__H264_getelements_sequence_header SHParams psCropParams.

Definition pnw__H264_prepare_picture_header (pHeaderMemory : nat) (bCabacEnabled : bool) (CQPOffset : Z)
  : W unit :=
  modify (set_hdr pHeaderMemory) ;;
  header (pnw__H264_writebits_picture_header bCabacEnabled false false CQPOffset CQPOffset).

Definition slice_params (bIntraSlice : bool) (uiDisableDeblockingFilterIDC uiFrameNumber uiFirst_MB_Address : Z)
    (bForceIDR bUsesLongTermRef bIsLongTermRef : bool) : H264_SLICE_HEADER_PARAMS :=
  let num := uint8 uiFrameNumber mod Z.shiftl 1 5 in
  {| Start_Code_Prefix_Size_Bytes := 4;
     UsesLongTermRef := bUsesLongTermRef; IsLongTermRef := bIsLongTermRef;
     SliceFrame_Type :=
       if bForceIDR || (uiFrameNumber =? 0) then SLHP_IDR_SLICEFRAME_TYPE
       else if bIntraSlice then SLHP_I_SLICEFRAME_TYPE else SLHP_P_SLICEFRAME_TYPE;
     Frame_Num_DO := num; Picture_Num_DO := uint8 (num * 2);
     First_MB_Address := uiFirst_MB_Address;
     Disable_Deblocking_Filter_Idc := uint8 uiDisableDeblockingFilterIDC |}.

(** The header of the slice, marked as a complex one, and 128 bytes further the header of
    a skipped slice. *)
Definition pnw__H264_prepare_slice_header (pHeaderMemory : nat) (bIntraSlice : bool)
    (uiDisableDeblockingFilterIDC uiFrameNumber uiFirst_MB_Address uiMBSkipRun : Z)
    (bCabacEnabled bForceIDR bUsesLongTermRef bIsLongTermRef : bool) (uiIdrPicId : Z) : W unit :=
  let SlHParams := slice_params bIntraSlice uiDisableDeblockingFilterIDC uiFrameNumber uiFirst_MB_Address
                     bForceIDR bUsesLongTermRef bIsLongTermRef in
  modify (set_hdr pHeaderMemory) ;;
  pnw__H264_getelements_slice_header SlHParams bCabacEnabled uiIdrPicId ;;
  w ← load32 pHeaderMemory; store32 pHeaderMemory (w .| 0x100) ;;
  modify (set_hdr (pHeaderMemory + 4 * Z.to_nat (Z.shiftr HEADER_SIZE 3))%nat) ;;
  pnw__H264_getelements_skip_P_slice SlHParams uiMBSkipRun bCabacEnabled.

(** * The messages of supplemental enhancement *)

(** The payload is padded to a byte with a one and zeros, and ended by [0x80]. *)
Definition sei_end (ui8PayloadSizeBits : Z) : W unit :=
  let ui8Pad := uint8 (uint8 ((ui8PayloadSizeBits + 7) / 8) * 8 - ui8PayloadSizeBits) in
  when (0 <? ui8Pad) (write8 (Z.shiftl 1 (ui8Pad - 1)) ui8Pad) ;;
  write8 0x80 8.

Definition sei_start (payload_type : Z) : W unit :=
  token ELEMENT_STARTCODE_RAWDATA ;;
  pnw__H264_writebits_startcode_prefix_element 4 ;;
  write8 6 8 ;;
  write8 payload_type 8.

(** [for (idx = 0; idx <= cnt_minus1; idx++)] with an index of eight bits: it never ends
    when [cnt_minus1] is the greatest of them. *)
Definition sched_loop (cnt_minus1 : Z) (body : W unit) : W unit :=
  if uint8 cnt_minus1 =? 255 then undefined
  else for_each (seq 0 (S (Z.to_nat (uint8 cnt_minus1)))) (fun _ => body).

Definition pnw__H264_writebits_SEI_buffering_period_header
    (NalHrdBpPresentFlag : bool) (nal_cpb_cnt_minus1 length delay offset : Z)
    (VclHrdBpPresentFlag : bool) (vcl_cpb_cnt_minus1 vcl_delay vcl_offset : Z) : W unit :=
  sei_start 0 ;;
  let bits := 1 in
  let bits := if NalHrdBpPresentFlag then uint8 (bits + (nal_cpb_cnt_minus1 + 1) * length * 2) else bits in
  let bits := if VclHrdBpPresentFlag then uint8 (bits + (vcl_cpb_cnt_minus1 + 1) * length * 2) else bits in
  write8 ((bits + 7) / 8) 8 ;;
  pnw__generate_ue 0 ;;
  when NalHrdBpPresentFlag
    (sched_loop nal_cpb_cnt_minus1 (write32 delay length ;; write32 offset length)) ;;
  when VclHrdBpPresentFlag
    (sched_loop vcl_cpb_cnt_minus1
       (token ELEMENT_STARTCODE_RAWDATA ;; write32 vcl_delay length ;; write32 vcl_offset length)) ;;
  when (negb VclHrdBpPresentFlag) (token ELEMENT_STARTCODE_RAWDATA) ;;
  sei_end bits.

(** The parameters that describe the clock timestamps are not used in this build. *)
Definition pnw__H264_writebits_SEI_picture_timing_header
    (CpbDpbDelaysPresentFlag : bool) (cpb_length_minus1 dpb_length_minus1 cpb_removal_delay dpb_output_delay : Z)
    (pic_struct_present_flag : bool) : W unit :=
  sei_start 1 ;;
  let bits := if CpbDpbDelaysPresentFlag
              then uint8 (0 + (cpb_length_minus1 + 1 + dpb_length_minus1 + 1)) else 0 in
  write8 ((bits + 7) / 8) 8 ;;
  when CpbDpbDelaysPresentFlag
    (write32 cpb_removal_delay (uint32 (cpb_length_minus1 + 1)) ;;
     write32 dpb_output_delay (uint32 (dpb_length_minus1 + 1))) ;;
  when (negb pic_struct_present_flag) (token ELEMENT_STARTCODE_RAWDATA) ;;
  sei_end bits.

Definition pnw__H264_prepare_SEI_buffering_period_header (pMTX_Header : nat)
    (NalHrdBpPresentFlag : bool) (nal_cpb_cnt_minus1 length delay offset : Z)
    (VclHrdBpPresentFlag : bool) (vcl_cpb_cnt_minus1 vcl_delay vcl_offset : Z) : W unit :=
  modify (set_hdr pMTX_Header) ;;
  header (pnw__H264_writebits_SEI_buffering_period_header NalHrdBpPresentFlag nal_cpb_cnt_minus1 length delay
            offset VclHrdBpPresentFlag vcl_cpb_cnt_minus1 vcl_delay vcl_offset).

Definition pnw__H264_prepare_SEI_picture_timing_header (pMTX_Header : nat)
    (CpbDpbDelaysPresentFlag : bool) (cpb_length_minus1 dpb_length_minus1 cpb_removal_delay dpb_output_delay : Z)
    (pic_struct_present_flag : bool) : W unit :=
  modify (set_hdr pMTX_Header) ;;
  header (pnw__H264_writebits_SEI_picture_timing_header CpbDpbDelaysPresentFlag cpb_length_minus1
            dpb_length_minus1 cpb_removal_delay dpb_output_delay pic_struct_present_flag).

(** * The headers of MPEG-4 *)

(** The position of the highest bit set, from one. *)
Fixpoint bits_loop (fuel : nat) (CodeVal Bits : Z) : option Z :=
  match fuel with
  | O => None
  | S fuel => if has CodeVal 0x80000000 then Some Bits
              else bits_loop fuel (uint32 (Z.shiftl CodeVal 1)) (uint8 (Bits - 1))
  end.

Definition Bits2Code (CodeVal : Z) : option Z :=
  if CodeVal =? 0 then Some 1 else bits_loop 33 CodeVal 32.

Definition write_all (l : list (Z * Z)) : W unit := for_each l (fun '(v, n) => write8 v n).

(** The build is [MATCH_TO_ENC]; the parameters of the rate buffer are not written. *)
Definition pnw__MPEG4_writebits_sequence_header (bProfile : MPEG4_PROFILE_TYPE)
    (Profile_and_level_indication Picture_Width_Pixels Picture_Height_Pixels VopTimeResolution : Z) : W unit :=
  token ELEMENT_STARTCODE_RAWDATA ;;
  write32 432 32 ;;
  write8 Profile_and_level_indication 8 ;;
  write_all [(0, 8); (0, 8); (1, 8); (181, 8); (0, 1); (1, 4); (0, 1); (1, 2)] ;;
  write_all [(0, 8); (0, 8); (1, 8); (0, 8); (0, 8); (0, 8); (1, 8); (32, 8); (0, 1)] ;;
  (if decide (bProfile = SP) then write_all [(1, 8); (1, 1); (1, 4); (1, 3)]
   else write_all [(3, 8); (1, 1); (5, 4); (1, 3)]) ;;
  write_all [(1, 4); (0, 1); (0, 2); (1, 1)] ;;
  write32 VopTimeResolution 16 ;;
  write_all [(1, 1); (0, 1); (1, 1)] ;;
  write32 Picture_Width_Pixels 13 ;;
  write8 1 1 ;;
  write32 Picture_Height_Pixels 13 ;;
  write8 1 1 ;;
  write_all [(0, 1); (1, 1); (0, 1); (0, 1); (0, 1)] ;;
  when (bool_decide (bProfile = ASP)) (write8 0 1) ;;
  write_all [(1, 1); (1, 1); (0, 1)] ;;
  when (bool_decide (bProfile = ASP)) (write_all [(0, 1); (0, 1)]) ;;
  write8 0 1 ;;
  token ELEMENT_INSERTBYTEALIGN_MPG4.

(** A remainder by zero is undefined. *)
Definition pnw__MPEG4_writebits_VOP_header (bIsVOP_coded : bool)
    (VOP_time_increment sSearch_range sVopCodingType VopTimeResolution : Z) : W unit :=
  token ELEMENT_STARTCODE_RAWDATA ;;
  write32 438 32 ;;
  write8 sVopCodingType 2 ;;
  if (1 <? VOP_time_increment) && (VopTimeResolution =? 0) then undefined else
  let bIsSyncPoint := (1 <? VOP_time_increment) && (VOP_time_increment mod VopTimeResolution =? 0) in
  write8 (if bIsSyncPoint then 2 else 0) (if bIsSyncPoint then 2 else 1) ;;
  write8 1 1 ;;
  if VopTimeResolution =? 0 then undefined else
  match Bits2Code (uint32 (VopTimeResolution - 1)) with
  | None => undefined
  | Some n => write8 (uint8 (VOP_time_increment mod VopTimeResolution)) n
  end ;;
  write8 1 1 ;;
  if negb bIsVOP_coded then
    write8 0 1 ;;
    token ELEMENT_INSERTBYTEALIGN_MPG4
  else
    write8 1 1 ;;
    when (sVopCodingType =? P_FRAME) (write8 0 1) ;;
    write8 0 3 ;;
    token ELEMENT_FRAMEQSCALE ;;
    when (sVopCodingType =? P_FRAME) (token ELEMENT_RAWDATA ;; write8 sSearch_range 3).

Definition pnw__MPEG4_prepare_sequence_header (pHeaderMemory : nat) (sProfile : MPEG4_PROFILE_TYPE)
    (Profile_and_level_indication Picture_Width_Pixels Picture_Height_Pixels VopTimeResolution : Z) : W unit :=
  modify (set_hdr pHeaderMemory) ;;
  header (pnw__MPEG4_writebits_sequence_header sProfile Profile_and_level_indication Picture_Width_Pixels
            Picture_Height_Pixels VopTimeResolution).

(** The increment is passed on as eight bits. *)
Definition pnw__MPEG4_prepare_vop_header (pHeaderMem : nat) (bIsVOP_coded : bool)
    (VOP_time_increment sSearch_range eVop_Coding_Type VopTimeResolution : Z) : W unit :=
  modify (set_hdr pHeaderMem) ;;
  header (pnw__MPEG4_writebits_VOP_header bIsVOP_coded (uint8 VOP_time_increment) sSearch_range eVop_Coding_Type
            VopTimeResolution).

(** * The headers of H.263 *)

(** [RTYPE] is never set.  A division by zero is undefined. *)
Definition H263_writebits_VideoPictureHeader
    (Temporal_Ref PictureCodingType SourceFormatType FrameRate PictureWidth PictureHeight : Z) : W unit :=
  let RTYPE := 0 in
  let OCPCF := if (FrameRate =? 30) || (FrameRate =? 0) then 0 else 1 in
  token ELEMENT_STARTCODE_RAWDATA ;;
  write32 32 22 ;;
  write8 Temporal_Ref 8 ;;
  write_all [(1, 1); (0, 1); (0, 1); (0, 1); (0, 1)] ;;
  write8 SourceFormatType 3 ;;
  (if negb (SourceFormatType =? 7) then
     write8 PictureCodingType 1 ;;
     write8 0 4
   else
     let UFEP := if (PictureCodingType =? I_FRAME) || (SourceFormatType =? 7) || negb (OCPCF =? 0) then 1 else 0 in
     write8 UFEP 3 ;;
     when (UFEP =? 1) (write8 6 3 ;; write8 OCPCF 1 ;; write32 0 10 ;; write8 8 4) ;;
     write8 PictureCodingType 3 ;;
     write8 0 2 ;;
     write8 RTYPE 1 ;;
     write_all [(0, 2); (1, 1); (0, 1)] ;;
     when (UFEP =? 1)
       (write8 1 4 ;;
        let ui16PWI := uint16 (uint32 (Z.shiftr PictureWidth 2 - 1)) in
        write32 (uint8 ui16PWI) 9 ;;
        write8 1 1 ;;
        let ui16PHI := uint16 (Z.shiftr PictureHeight 2) in
        write32 (uint8 ui16PHI) 9 ;;
        when (OCPCF =? 1)
          (write8 1 1 ;;
           if FrameRate =? 0 then undefined else write8 (uint8 (1800000 / (FrameRate * 1000))) 7)) ;;
     when (OCPCF =? 1) (write8 (Z.shiftr Temporal_Ref 8) 2)) ;;
  token ELEMENT_FRAMEQSCALE ;;
  token ELEMENT_RAWDATA ;;
  when (negb (SourceFormatType =? 7)) (write8 0 1) ;;
  write8 0 1.

Definition H263_writebits_GOBSliceHeader (GOBNumber GOBFrameId : Z) : W unit :=
  token ELEMENT_STARTCODE_RAWDATA ;;
  write32 1 17 ;;
  write8 GOBNumber 5 ;;
  write8 GOBFrameId 2 ;;
  token ELEMENT_SLICEQSCALE.

Definition pnw__H263_prepare_picture_header (pHeaderMem : nat)
    (Temporal_Ref PictureCodingType SourceFormatType FrameRate PictureWidth PictureHeigth : Z) : W unit :=
  modify (set_hdr pHeaderMem) ;;
  header (H263_writebits_VideoPictureHeader Temporal_Ref PictureCodingType SourceFormatType FrameRate PictureWidth
            PictureHeigth).

Definition pnw__H263_prepare_GOBslice_header (pHeaderMem : nat) (GOBNumber GOBFrameId : Z) : W unit :=
  modify (set_hdr pHeaderMem) ;;
  header (H263_writebits_GOBSliceHeader GOBNumber GOBFrameId).
