(* ===== verification/HostHeaderSpec.v ===== *)
(** What the writer of headers promises: a header is a list of elements in memory, and each
    operation appends bits to the last one, or an element.

    The abstract state is the list of the elements written so far, the last one first;
    [Rep] says how it lies in memory.  [writes m ops]: run on a list of elements, [m]
    does nothing undefined, touches nothing outside its piece of memory and appends
    [ops], as long as no more elements than fit come out of it. *)
From Stdlib Require Import ZifyNat.
From stdpp Require Import list.
From S2P Require Import Prelude HostHeader.

#[local] Abbreviation W := (M unit HW).

(** Arithmetic with divisions by constants. *)
#[local] Ltac div_lia := zify; Z.to_euclidean_division_equations; lia.

(** * Bits *)

(** The [n] low bits of a number, the most significant first. *)
Fixpoint bits_of (n : nat) (v : Z) : list bool :=
  match n with O => [] | S n => Z.testbit v (Z.of_nat n) :: bits_of n v end.

(** The code of Exp-Golomb: as many zeros as bits follow the leading one. *)
Definition ue_bits (v : Z) : list bool :=
  let k := Z.to_nat (Z.log2 (v + 1)) in replicate k false ++ bits_of (S k) (v + 1).

Definition se_code (v : Z) : Z := if 0 <? v then 2 * v - 1 else - 2 * v.
Definition se_bits (v : Z) : list bool := ue_bits (se_code v).

Lemma bits_of_length n v : length (bits_of n v) = n.
Proof. induction n; cbn; auto. Qed.

Lemma bits_of_lookup n v i : (i < n)%nat ->
  bits_of n v !! i = Some (Z.testbit v (Z.of_nat n - 1 - Z.of_nat i)).
Proof.
  revert i. induction n as [|n IH]; intros [|i] Hi; [lia..| |]; cbn.
  - do 2 f_equal. lia.
  - rewrite IH by lia. do 2 f_equal. lia.
Qed.

Lemma bits_of_ext n v w : (forall i, 0 <= i < Z.of_nat n -> Z.testbit v i = Z.testbit w i) ->
  bits_of n v = bits_of n w.
Proof. induction n as [|n IH]; intros He; cbn; [done|]. rewrite He, IH; auto with lia. Qed.

Lemma bits_of_app a b v : bits_of (a + b) v = bits_of a (Z.shiftr v (Z.of_nat b)) ++ bits_of b v.
Proof.
  induction a as [|a IH]; cbn; [done|]. rewrite IH, Z.shiftr_spec by lia. do 2 f_equal. lia.
Qed.

Lemma bits_of_mod n k v : Z.of_nat n <= k -> bits_of n (v mod 2 ^ k) = bits_of n v.
Proof. intros Hk. apply bits_of_ext. intros i Hi. by rewrite Z.mod_pow2_bits_low by lia. Qed.

Lemma bits_of_0 n : bits_of n 0 = replicate n false.
Proof. induction n as [|n IH]; cbn; [done|]. by rewrite IH, Z.testbit_0_l. Qed.

(** * The list of elements *)

Record elem := E { etype : HEADER_ELEMENT_TYPE; ebits : list bool }.

Definition is_raw (t : HEADER_ELEMENT_TYPE) : bool :=
  bool_decide (t = ELEMENT_STARTCODE_RAWDATA) || bool_decide (t = ELEMENT_RAWDATA).

(** The bytes an element takes, to the next one. *)
Definition extent (e : elem) : nat :=
  if is_raw (etype e) then ((length (ebits e) + 39) / 32 + 1) * 4 else 4.

Fixpoint total (els : list elem) : nat := match els with [] => O | e :: r => (extent e + total r)%nat end.

(** An element holds 120 bits at most. *)
Definition push (els : list elem) (b : bool) : list elem :=
  match els with
  | [] => []
  | E t bs :: r => if (length bs <? 120)%nat then E t (bs ++ [b]) :: r else E ELEMENT_RAWDATA [b] :: E t bs :: r
  end.

Definition pushes (bs : list bool) (els : list elem) : list elem := foldl push els bs.

Inductive op := Put (bs : list bool) | Token (t : HEADER_ELEMENT_TYPE).

Definition run_op (els : list elem) (o : op) : list elem :=
  match o with Put bs => pushes bs els | Token t => E t [] :: els end.

Definition run (ops : list op) (els : list elem) : list elem := foldl run_op els ops.

(** Bits are only put in an element of raw bits. *)
Definition cur_raw (els : list elem) : bool := match els with [] => false | e :: _ => is_raw (etype e) end.

Definition raw_after (r : bool) (o : op) : bool := match o with Put _ => r | Token t => is_raw t end.

Fixpoint legal (r : bool) (ops : list op) : bool :=
  match ops with
  | [] => true
  | o :: ops => (match o with Put _ => r | Token _ => true end) && legal (raw_after r o) ops
  end.

Lemma legal_app r o1 o2 : legal r (o1 ++ o2) = legal r o1 && legal (foldl raw_after r o1) o2.
Proof. revert r. induction o1 as [|o o1 IH]; intros r; cbn; [done|]. by rewrite IH, andb_assoc. Qed.

Lemma run_app o1 o2 els : run (o1 ++ o2) els = run o2 (run o1 els).
Proof. apply foldl_app. Qed.

Lemma pushes_app b1 b2 els : pushes (b1 ++ b2) els = pushes b2 (pushes b1 els).
Proof. apply foldl_app. Qed.

Lemma pushes_room t bs cs r : (length bs + length cs <= 120)%nat -> pushes cs (E t bs :: r) = E t (bs ++ cs) :: r.
Proof.
  revert bs. unfold pushes. induction cs as [|c cs IH]; intros bs Hl; cbn [foldl push length] in *; [by rewrite app_nil_r|].
  destruct (Nat.ltb_spec (length bs) 120); [|lia]. rewrite IH by (rewrite length_app; cbn; lia).
  by rewrite <- app_assoc.
Qed.

Lemma push_raw els b : cur_raw els = true -> cur_raw (push els b) = true.
Proof. destruct els as [|[t bs] r]; cbn [push]; [done|]. by destruct (length bs <? 120)%nat. Qed.

Lemma pushes_raw bs els : cur_raw els = true -> cur_raw (pushes bs els) = true.
Proof. revert els. induction bs as [|b bs IH]; intros els He; cbn; [done|]. by apply IH, push_raw. Qed.

Lemma run_raw ops els : legal (cur_raw els) ops = true -> cur_raw (run ops els) = foldl raw_after (cur_raw els) ops.
Proof.
  revert els. induction ops as [|[bs|t] ops IH]; intros els; cbn; [done| |].
  - intros [Hr Hl]%andb_true_iff. rewrite Hr in Hl. rewrite Hr.
    pose proof (pushes_raw bs els Hr) as Hp. etrans; [apply IH|]; by rewrite ?Hp.
  - intros Hl. by apply (IH (E t [] :: els)).
Qed.

(** The number of elements never goes down, and is bounded by the tokens and the bits. *)
Lemma push_length els b : (length els <= length (push els b))%nat.
Proof. destruct els as [|[t bs] r]; cbn [push]; [done|]. destruct (length bs <? 120)%nat; cbn; lia. Qed.

Lemma pushes_length bs els : (length els <= length (pushes bs els))%nat.
Proof.
  revert els. induction bs as [|b bs IH]; intros els; cbn; [done|]. etrans; [apply (push_length els b)|apply IH].
Qed.

Lemma run_length ops els : (length els <= length (run ops els))%nat.
Proof.
  revert els. induction ops as [|[bs|t] ops IH]; intros els; cbn; [done| |].
  - etrans; [apply (pushes_length bs)|apply IH].
  - etrans; [|apply IH]. cbn. lia.
Qed.

Definition op_cost (o : op) : nat := match o with Put bs => length bs | Token _ => 120 end.
Definition cost (ops : list op) : nat := list_sum (map op_cost ops).

Definition level (els : list elem) : nat :=
  match els with [] => O | e :: r => (120 * length r + length (ebits e) + 120)%nat end.

Lemma push_level els b : (level (push els b) <= level els + 1)%nat.
Proof.
  destruct els as [|[t bs] r]; cbn [push level]; [lia|]. destruct (Nat.ltb_spec (length bs) 120).
  all: cbn [level length ebits]; rewrite ?length_app; cbn [length]; lia.
Qed.

Lemma pushes_level bs els : (level (pushes bs els) <= level els + length bs)%nat.
Proof.
  revert els. unfold pushes. induction bs as [|b bs IH]; intros els; cbn [foldl length]; [lia|].
  pose proof (push_level els b). specialize (IH (push els b)). lia.
Qed.

Lemma run_level ops els : (level (run ops els) <= level els + cost ops)%nat.
Proof.
  revert els. unfold run, cost. induction ops as [|o ops IH]; intros els; cbn [foldl map list_sum foldr]; [cbn; lia|].
  specialize (IH (run_op els o)). enough (level (run_op els o) <= level els + op_cost o)%nat.
  { change (foldr Nat.add 0%nat (map op_cost ops)) with (list_sum (map op_cost ops)). lia. }
  destruct o as [bs|t]; [apply pushes_level|]. destruct els as [|e r]; cbn [run_op level length ebits op_cost]; lia.
Qed.

Lemma run_count ops : (120 * length (run ops []) <= cost ops)%nat.
Proof.
  pose proof (run_level ops []) as Hl. cbn [level Nat.add] in Hl. destruct (run ops []); cbn [level length] in *; lia.
Qed.

(** * The list in memory *)

(** A word of memory, and a bit of the bytes at [a], the first bit of a byte being its
    most significant. *)
Definition word32 (m : list Z) (a : nat) (v : Z) : Prop :=
  forall i, (i < 4)%nat -> m !! (a + i)%nat = Some (Z.shiftr v (8 * Z.of_nat i) mod 2 ^ 8).

Definition getbit (m : list Z) (a i : nat) : option bool :=
  (fun v => Z.testbit v (7 - Z.of_nat (i mod 8))) <$> m !! (a + i / 8)%nat.

(** The bits are in the bytes at [a]; the rest of the last byte is zero. *)
Definition bits_at (m : list Z) (a : nat) (bs : list bool) : Prop :=
  forall i, (i < 8 * ((length bs + 7) / 8))%nat -> getbit m a i = Some (default false (bs !! i)).

Record elem_at (m : list Z) (a : nat) (e : elem) : Prop := {
  at_type : word32 m a (element_code (etype e));
  at_size : is_raw (etype e) = true -> m !! Size a = Some (Z.of_nat (length (ebits e)));
  at_bits : is_raw (etype e) = true -> bits_at m (Bits a) (ebits e) }.

Fixpoint all_at (m : list Z) (base : nat) (els : list elem) : Prop :=
  match els with
  | [] => True
  | e :: r => elem_at m (base + 4 + total r) e /\ all_at m base r
  end.

Record small (e : elem) : Prop := {
  small_bits : (length (ebits e) <= 120)%nat;
  small_token : is_raw (etype e) = false -> ebits e = [] }.

Definition index (els : list elem) : Z := match els with [] => ELEMENTS_EMPTY | _ :: r => Z.of_nat (length r) end.

Definition agree_on (lo hi : nat) (m m' : list Z) : Prop := forall a, (lo <= a < hi)%nat -> m' !! a = m !! a.

(** The elements from [base], in a piece of memory that ends at [lim]. *)
Record Rep (base lim : nat) (s : HW) (els : list elem) : Prop := {
  r_hdr : hdr s = base;
  r_lim : (base + 4 <= lim <= length (mem s))%nat;
  r_elts : length (elt_p s) = 16%nat;
  r_index : word32 (mem s) base (index els);
  r_cur : elt_p s !! pred (length els) = Some (Some (base + 4 + total (tail els))%nat);
  r_all : all_at (mem s) base els;
  r_small : Forall small els }.

(** Sixteen elements at most, of twenty bytes at most each. *)
Definition fits (base lim : nat) (els : list elem) : Prop :=
  (length els <= 16)%nat /\ (base + 4 + 20 * length els <= lim)%nat.

(** Nothing outside the piece of memory is touched. *)
Record kept (base lim : nat) (s s' : HW) : Prop := {
  k_hdr : hdr s' = hdr s;
  k_length : length (mem s') = length (mem s);
  k_below : agree_on 0 base (mem s) (mem s');
  k_above : agree_on lim (length (mem s)) (mem s) (mem s') }.

Definition writes {A} (m : W A) (ops : list op) : Prop :=
  forall base lim s h els,
    Rep base lim s els -> fits base lim (run ops els) -> legal (cur_raw els) ops = true ->
    wp False m (fun _ s' _ => Rep base lim s' (run ops els) /\ kept base lim s s') s h.

Lemma kept_refl base lim s : kept base lim s s.
Proof. by split. Qed.

Lemma kept_trans base lim s1 s2 s3 : kept base lim s1 s2 -> kept base lim s2 s3 -> kept base lim s1 s3.
Proof.
  intros [h1 l1 b1 a1] [h2 l2 b2 a2]. split; [congruence|congruence| |].
  - intros a Ha. by rewrite b2, b1.
  - intros a Ha. by rewrite a2, a1 by (rewrite ?l1; done).
Qed.

Lemma fits_run base lim ops els : fits base lim (run ops els) -> fits base lim els.
Proof. intros [H1 H2]. pose proof (run_length ops els). split; lia. Qed.

(** ** Composition *)

Lemma hh_ret {A} (x : A) : writes (mret x) [].
Proof. intros base lim s h els HR _ _. by split; [|apply kept_refl]. Qed.

Lemma hh_bind {A B} (m : W A) (k : A -> W B) o1 o2 :
  writes m o1 -> (forall a, writes (k a) o2) -> writes (m ≫= k) (o1 ++ o2).
Proof.
  intros H1 H2 base lim s h els HR Hf [Hl1 Hl2]%eq_sym%eq_sym%(eq_trans (eq_sym (legal_app _ _ _)))%andb_true_iff.
  rewrite run_app in *. apply wp_bind. eapply wp_mono; [apply H1; [done|by eapply fits_run|done]|].
  intros a s1 h1 [HR1 Hk1]. eapply wp_mono; [apply (H2 a base lim); [done|done|by rewrite run_raw]|].
  intros b s2 h2 [HR2 Hk2]. split; [done|by eapply kept_trans].
Qed.

Lemma hh_eq {A} (m : W A) o o' : writes m o -> o = o' -> writes m o'.
Proof. by intros ? <-. Qed.

Lemma hh_when (b : bool) (m : W unit) o : writes m o -> writes (when b m) (if b then o else []).
Proof. intros Hm. destruct b; [done|apply hh_ret]. Qed.

Lemma hh_if {A} (b : bool) (m1 m2 : W A) o1 o2 :
  writes m1 o1 -> writes m2 o2 -> writes (if b then m1 else m2) (if b then o1 else o2).
Proof. by destruct b. Qed.

(** Two runs of bits are one. *)
Lemma hh_put {A} (m : W A) b1 b2 o : writes m (Put b1 :: Put b2 :: o) -> writes m (Put (b1 ++ b2) :: o).
Proof.
  intros Hm base lim s h els HR Hf Hl. cbn in *. rewrite pushes_app in Hf. destruct (cur_raw els) eqn:E; [|done].
  rewrite pushes_app. apply (Hm base lim s h els); [done|done|]. cbn. by rewrite E.
Qed.

(** ** Frames *)

Lemma agree_on_mono lo hi lo' hi' m m' : agree_on lo hi m m' -> (lo <= lo')%nat -> (hi' <= hi)%nat -> agree_on lo' hi' m m'.
Proof. intros Ha Hlo Hhi a Hr. apply Ha. lia. Qed.

Lemma word32_agree m m' a v : agree_on a (a + 4) m m' -> word32 m a v -> word32 m' a v.
Proof. intros Ha Hw i Hi. rewrite Ha by lia. by apply Hw. Qed.

Lemma bits_at_agree m m' a bs : agree_on a (a + (length bs + 7) / 8) m m' -> bits_at m a bs -> bits_at m' a bs.
Proof.
  intros Ha Hb i Hi. unfold getbit. rewrite Ha; [by apply Hb|div_lia].
Qed.

Lemma bits_extent e : is_raw (etype e) = true -> (5 + (length (ebits e) + 7) / 8 <= extent e)%nat.
Proof. intros He. unfold extent. rewrite He. div_lia. Qed.

Lemma extent_pos e : (4 <= extent e)%nat.
Proof. unfold extent. destruct (is_raw _); lia. Qed.

Lemma extent_small e : small e -> (extent e <= 20)%nat.
Proof.
  intros [Hb _]. unfold extent. destruct (is_raw _); [|lia].
  assert ((length (ebits e) + 39) / 32 <= 4)%nat by div_lia. lia.
Qed.

Lemma total_small els : Forall small els -> (total els <= 20 * length els)%nat.
Proof. induction 1 as [|e r He _ IH]; cbn; [lia|]. pose proof (extent_small e He). lia. Qed.

Lemma elem_at_agree m m' a e : agree_on a (a + extent e) m m' -> elem_at m a e -> elem_at m' a e.
Proof.
  intros Ha [Ht Hs Hb]. pose proof (extent_pos e). split.
  - eapply word32_agree; [|done]. eapply agree_on_mono; [done|lia..].
  - intros Hr. pose proof (bits_extent e Hr). rewrite Ha by (unfold Size; lia). by apply Hs.
  - intros Hr. pose proof (bits_extent e Hr). eapply bits_at_agree; [|by apply Hb]. eapply agree_on_mono; [done|unfold Bits; lia..].
Qed.

Lemma all_at_agree m m' base els :
  agree_on (base + 4) (base + 4 + total els) m m' -> all_at m base els -> all_at m' base els.
Proof.
  induction els as [|e r IH]; cbn; [done|]. intros Ha [He Hr]. split.
  - eapply elem_at_agree; [|done]. eapply agree_on_mono; [done|lia..].
  - apply IH; [|done]. eapply agree_on_mono; [done|lia..].
Qed.

(** ** The accesses *)

Definition put32 (m : list Z) (a : nat) (v : Z) : list Z :=
  <[(a + 3)%nat := uint8 (Z.shiftr v 24)]> (<[(a + 2)%nat := uint8 (Z.shiftr v 16)]>
    (<[(a + 1)%nat := uint8 (Z.shiftr v 8)]> (<[a := uint8 v]> m))).

Lemma put32_length m a v : length (put32 m a v) = length m.
Proof. unfold put32. by rewrite !length_insert. Qed.

Lemma put32_other m a v b : (b < a \/ a + 4 <= b)%nat -> put32 m a v !! b = m !! b.
Proof. intros Hb. unfold put32. by rewrite !list_lookup_insert_ne by lia. Qed.

Lemma put32_word32 m a v : (a + 4 <= length m)%nat -> word32 (put32 m a v) a v.
Proof.
  intros Hl i Hi. unfold put32, uint8. destruct i as [|[|[|[|i]]]]; [..|lia].
  all: rewrite ?Nat.add_0_r; repeat (rewrite list_lookup_insert_ne by lia).
  all: rewrite list_lookup_insert by (rewrite ?length_insert; lia); rewrite decide_True by (rewrite ?length_insert; lia).
  all: f_equal; f_equal; cbn; auto using Z.shiftr_0_r.
Qed.

Section access.
Context (s : HW) (h : unit).

Lemma wp_load8 a v Q : mem s !! a = Some v -> Q v s h -> wp False (load8 a) Q s h.
Proof. intros Ha HQ. unfold load8. wp_simp. by rewrite Ha. Qed.

Lemma wp_store8 a v Q : (a < length (mem s))%nat ->
  Q tt (set_mem (<[a := uint8 v]> (mem s)) s) h -> wp False (store8 a v) Q s h.
Proof. intros Ha HQ. unfold store8. wp_simp. by rewrite bool_decide_eq_true_2. Qed.

Lemma wp_load32 a v Q : word32 (mem s) a v -> 0 <= v < 2 ^ 32 -> Q v s h -> wp False (load32 a) Q s h.
Proof.
  intros Hw Hv HQ. unfold load32. wp_simp.
  eapply wp_load8; [rewrite <- (Nat.add_0_r a); by apply Hw; lia|].
  do 3 (wp_simp; eapply wp_load8; [by apply Hw; lia|]). wp_simp. match goal with |- Q ?w _ _ => replace w with v; [done|] end.
  rewrite !Z.shiftr_div_pow2 by lia. cbn. clear -Hv. div_lia.
Qed.
End access.

Lemma wp_store32 s h a v Q : (a + 4 <= length (mem s))%nat ->
  Q tt (set_mem (put32 (mem s) a v) s) h -> wp False (store32 a v) Q s h.
Proof.
  intros Ha HQ. unfold store32. wp_simp.
  do 4 (apply wp_store8; [cbn; rewrite ?length_insert; lia|]; wp_simp). done.
Qed.

Lemma code_range t : 0 <= element_code t < 2 ^ 32.
Proof. by destruct t. Qed.

Lemma is_type_code t u : is_type (element_code t) u = bool_decide (t = u).
Proof. by destruct t, u. Qed.

Section state.
Context (base lim : nat) (s : HW) (els : list elem).
Hypothesis HR : Rep base lim s els.
Hypothesis Hf : fits base lim els.

Lemma index_range : 0 <= index els < 2 ^ 32.
Proof. destruct Hf as [Hl _]. unfold index, ELEMENTS_EMPTY. destruct els; cbn [length] in *; lia. Qed.

Lemma wp_get_Elements Q h : Q (index els) s h -> wp False get_Elements Q s h.
Proof.
  intros HQ. unfold get_Elements. wp_simp. rewrite (r_hdr _ _ _ _ HR).
  eapply wp_load32; [apply HR|apply index_range|done].
Qed.
End state.

Lemma wp_get_elt s h i p Q : elt_p s !! Z.to_nat i = Some (Some p) -> Q p s h -> wp False (get_elt i) Q s h.
Proof. intros He HQ. unfold get_elt. wp_simp. by rewrite He. Qed.

Lemma wp_set_elt s h i p Q : (Z.to_nat i < length (elt_p s))%nat ->
  Q tt (set_elt_p (<[Z.to_nat i := Some p]> (elt_p s)) s) h -> wp False (set_elt i p) Q s h.
Proof. intros He HQ. unfold set_elt. wp_simp. by rewrite bool_decide_eq_true_2. Qed.

(** ** A new element *)

Lemma Rep_new base lim s s' els t :
  Rep base lim s els -> fits base lim (E t [] :: els) ->
  hdr s' = hdr s -> length (elt_p s') = 16%nat ->
  elt_p s' !! length els = Some (Some (base + 4 + total els)%nat) ->
  mem s' = <[Size (base + 4 + total els) := 0]>
             (put32 (put32 (mem s) base (Z.of_nat (length els))) (base + 4 + total els) (element_code t)) ->
  Rep base lim s' (E t [] :: els) /\ kept base lim s s'.
Proof.
  intros HR Hf Hh Hl He Hm. pose proof HR as [h1 h2 h3 h4 h5 h6 h7]. pose proof (total_small _ h7) as Ht.
  destruct Hf as [Hf1 Hf2]. cbn [length] in Hf1, Hf2.
  remember (base + 4 + total els)%nat as p eqn:Hp.
  assert (Hlm : length (mem s') = length (mem s)) by (rewrite Hm, length_insert, !put32_length; done).
  assert (Hag : agree_on (base + 4) p (mem s) (mem s')).
  { intros a Ha. rewrite Hm, list_lookup_insert_ne by (unfold Size; lia). by rewrite !put32_other by lia. }
  split; [split|split].
  - congruence.
  - rewrite Hlm. lia.
  - done.
  - eapply word32_agree, (put32_word32 (mem s) base); [|lia]. intros a Ha.
    rewrite Hm, list_lookup_insert_ne by (unfold Size; lia). by rewrite put32_other by lia.
  - cbn. by rewrite <- Hp.
  - cbn [all_at total tail]. split; [|eapply all_at_agree; [rewrite <- Hp; exact Hag|done]]. rewrite <- Hp. split; cbn [etype ebits].
    + eapply word32_agree, (put32_word32 (put32 (mem s) base (Z.of_nat (length els))) p); [|rewrite put32_length; lia]. intros a Ha.
      rewrite Hm. by rewrite list_lookup_insert_ne by (unfold Size; lia).
    + intros _. rewrite Hm, list_lookup_insert by (rewrite !put32_length; unfold Size; lia).
      by rewrite decide_True by (rewrite !put32_length; unfold Size; lia).
    + intros _ i Hi. cbn in Hi. lia.
  - constructor; [by split; cbn; [lia|]|done].
  - done.
  - done.
  - intros a Ha. rewrite Hm, list_lookup_insert_ne by (unfold Size; lia). by rewrite !put32_other by lia.
  - intros a Ha. rewrite Hm, list_lookup_insert_ne by (unfold Size; lia). by rewrite !put32_other by lia.
Qed.

Lemma wp_set_Elements s h n Q : (hdr s + 4 <= length (mem s))%nat -> 0 <= n < 2 ^ 32 ->
  Q tt (set_mem (put32 (mem s) (hdr s) n) s) h -> wp False (set_Elements n) Q s h.
Proof. intros Hl Hn HQ. unfold set_Elements. wp_simp. rewrite uint32_id by done. by apply wp_store32. Qed.

Lemma wp_Elements s h v Q : word32 (mem s) (hdr s) v -> 0 <= v < 2 ^ 32 -> Q v s h -> wp False get_Elements Q s h.
Proof. intros Hw Hv HQ. unfold get_Elements. wp_simp. by eapply wp_load32. Qed.

(** The count is stored and read back. *)
Lemma wp_next s h n (k : Z -> W unit) Q : (hdr s + 4 <= length (mem s))%nat -> 0 <= n < 2 ^ 32 ->
  wp False (k n) Q (set_mem (put32 (mem s) (hdr s) n) s) h ->
  wp False (set_Elements n ;; (get_Elements ≫= k)) Q s h.
Proof.
  intros Hl Hn HQ. wp_simp. apply wp_set_Elements; [done..|]. wp_simp.
  eapply wp_Elements; [|done|done]. by apply put32_word32.
Qed.

(** The first words of an element are written where the pointer says. *)
Lemma wp_write_elt s h i p t Q : elt_p s !! Z.to_nat i = Some (Some p) -> (p + 5 <= length (mem s))%nat ->
  Q tt (set_mem (<[Size p := 0]> (put32 (mem s) p (element_code t))) s) h ->
  wp False (q ← get_elt i; store32 q (element_code t) ;; store8 (Size q) 0) Q s h.
Proof.
  intros He Hp HQ. wp_simp. eapply wp_get_elt; [done|]. wp_simp. apply wp_store32; [lia|]. wp_simp.
  apply wp_store8; [cbn; rewrite put32_length; unfold Size; lia|done].
Qed.

(** What a list of elements says of the state when an element may be added. *)
Lemma Rep_room base lim s els t : Rep base lim s els -> fits base lim (E t [] :: els) ->
  (base + 4 + total els + 20 <= lim)%nat /\ (length els < 16)%nat.
Proof. intros HR [H1 H2]. pose proof (total_small _ (r_small _ _ _ _ HR)). cbn [length] in *. lia. Qed.

Lemma Rep_head base lim s e r : Rep base lim s (e :: r) ->
  elt_p s !! length r = Some (Some (base + 4 + total r)%nat) /\ elem_at (mem s) (base + 4 + total r) e /\ small e.
Proof. intros [? ? ? ? Hc [Ha _] Hs]. split; [done|]. split; [done|]. by inversion Hs. Qed.

Lemma offset_extent e : small e ->
  4 + Z.of_nat (length (ebits e)) <= 4 + 120 /\
  uint8 ((uint8 (Z.of_nat (length (ebits e)) + 8 + 31) / 32 + 1) * 4) = Z.of_nat (((length (ebits e) + 39) / 32 + 1) * 4).
Proof. intros [Hb _]. unfold uint8. split; div_lia. Qed.

Lemma token_writes t : writes (pnw__insert_element_token t) [Token t].
Proof.
  intros base lim s h els HR Hf _. cbn in *. destruct (Rep_room _ _ _ _ _ HR Hf) as [Hroom Hlen].
  pose proof (r_lim _ _ _ _ HR) as Hlim. pose proof (r_hdr _ _ _ _ HR) as Hh. pose proof (r_elts _ _ _ _ HR) as Hel.
  assert (Hf' : fits base lim els) by (eapply (fits_run _ _ [Token t]); done).
  unfold pnw__insert_element_token. rewrite wp_bind. eapply wp_get_Elements; [done..|].
  destruct els as [|e r]; cbn [index].
  - change (negb (ELEMENTS_EMPTY =? ELEMENTS_EMPTY)) with false. cbn [andb]. cbv zeta.
    apply wp_next; [lia|lia|]. eapply wp_write_elt; [exact (r_cur _ _ _ _ HR)|cbn in *; rewrite put32_length; lia|].
    apply Rep_new; cbn; [done..|exact (r_cur _ _ _ _ HR)|by rewrite Hh].
  - destruct (Rep_head _ _ _ _ _ HR) as (Hc & [Ht Hs Hb] & Hsm). cbn [length total] in *.
    replace (Z.of_nat (length r) =? ELEMENTS_EMPTY) with false by (unfold ELEMENTS_EMPTY; lia).
    replace (MAXNUMBERELEMENTS - 1 <? Z.of_nat (length r)) with false by (symmetry; apply Z.ltb_ge; unfold MAXNUMBERELEMENTS; lia).
    cbn [negb andb]. cbv zeta. rewrite wp_bind. eapply wp_get_elt; [by rewrite Nat2Z.id|]. wp_simp.
    eapply wp_load32; [done|apply code_range|]. rewrite wp_bind, !is_type_code. change (_ || _) with (is_raw (etype e)).
    assert (Hnext : wp False (set_Elements (Z.of_nat (length r) + 1) ;; (get_Elements ≫= fun i : Z =>
        if MAXNUMBERELEMENTS - 1 <? i then mret tt else
        p ← get_elt (i - 1); set_elt i (p + extent e)%nat ;;
        (q ← get_elt i; store32 q (element_code t) ;; store8 (Size q) 0)))
        (fun _ s' _ => Rep base lim s' (E t [] :: e :: r) /\ kept base lim s s') s h).
    { replace (Z.of_nat (length r) + 1) with (Z.of_nat (length (e :: r))) by (cbn; lia).
      apply wp_next; [lia|cbn; lia|]. cbn [length].
      replace (MAXNUMBERELEMENTS - 1 <? Z.of_nat (S (length r))) with false by (symmetry; apply Z.ltb_ge; unfold MAXNUMBERELEMENTS; lia).
      wp_simp. eapply wp_get_elt; [replace (Z.to_nat _) with (length r) by lia; done|]. wp_simp.
      apply wp_set_elt; [cbn; lia|]. replace (Z.to_nat _) with (S (length r)) by lia.
      apply wp_write_elt with (p := (base + 4 + total (e :: r))%nat).
      - cbn [elt_p set_elt_p set_mem]. replace (Z.to_nat _) with (S (length r)) by lia. rewrite list_lookup_insert, decide_True by lia. cbn [total]. do 2 f_equal. lia.
      - cbn. rewrite put32_length. lia.
      - apply Rep_new; cbn [hdr elt_p mem set_mem set_elt_p]; [done|done|done|by rewrite length_insert| |by rewrite Hh].
        cbn [length total]. rewrite list_lookup_insert, decide_True by lia. do 2 f_equal. lia. }
    destruct (is_raw (etype e)) eqn:Er.
    + rewrite wp_bind. eapply wp_load8; [by apply Hs|]. apply wp_ret.
      rewrite (proj2 (offset_extent e Hsm)), Nat2Z.id. unfold extent in Hnext. by rewrite Er in Hnext.
    + apply wp_ret. unfold extent in Hnext. by rewrite Er in Hnext.
Qed.

(** ** More bits in the last element *)

Lemma Rep_append base lim s s' t bs cs r v (p := (base + 4 + total r)%nat) (out := (Bits p + length bs / 8)%nat) :
  Rep base lim s (E t bs :: r) -> fits base lim (E t bs :: r) -> is_raw t = true ->
  (length bs < 120)%nat -> (0 < length cs)%nat -> (length bs mod 8 + length cs <= 8)%nat ->
  hdr s' = hdr s -> elt_p s' = elt_p s -> length (mem s') = length (mem s) ->
  (forall a, a <> Size p -> a <> out -> mem s' !! a = mem s !! a) ->
  mem s' !! Size p = Some (Z.of_nat (length bs + length cs)) -> mem s' !! out = Some v ->
  (forall j, (j < 8)%nat -> Z.testbit v (7 - Z.of_nat j) =
     if (j <? length bs mod 8)%nat then default false (bs !! (8 * (length bs / 8) + j)%nat)
     else default false (cs !! (j - length bs mod 8)%nat)) ->
  Rep base lim s' (E t (bs ++ cs) :: r) /\ kept base lim s s'.
Proof.
  intros HR [_ Hf] Hraw Hl Hc Hm Hh He Hlen Hag Hsize Hout Hv. destruct (Rep_head _ _ _ _ _ HR) as (Hcur & [Ht Hs Hb] & Hsm).
  fold p in Hcur, Ht, Hs, Hb. pose proof HR as [h1 h2 h3 h4 h5 [_ h6] h7]. inversion h7 as [|x1 x2 _ h7']; subst x1 x2.
  pose proof (total_small _ h7') as Hts. cbn [length] in Hf.
  assert (Hp : p = (base + 4 + total r)%nat) by done.
  assert (Ho : (Bits p <= out <= Bits p + 14)%nat) by (unfold out; div_lia).
  unfold Bits, Size in *. cbn [etype ebits] in *. clearbody p.
  split; [split|split].
  - congruence.
  - lia.
  - congruence.
  - eapply word32_agree; [|exact h4]. intros a Ha. apply Hag; lia.
  - cbn [tail length pred] in *. by rewrite He, <- Hp.
  - split; [|eapply all_at_agree; [|done]; intros a Ha; apply Hag; lia]. rewrite <- Hp. split; cbn [etype ebits].
    + eapply word32_agree; [|exact Ht]. intros a Ha. apply Hag; lia.
    + intros _. unfold Size. by rewrite Hsize, length_app.
    + intros _ i Hi. unfold Bits in *. rewrite length_app in Hi. unfold getbit. specialize (Hb Hraw i). unfold getbit in Hb.
      destruct (decide (i / 8 = length bs / 8)%nat) as [Ei|Ei].
      * rewrite Ei. replace (p + 5 + length bs / 8)%nat with out by done. rewrite Hout. cbn [fmap option_fmap option_map]. f_equal.
        rewrite Hv by div_lia. destruct (Nat.ltb_spec (i mod 8) (length bs mod 8)).
        -- rewrite lookup_app_l by div_lia. do 2 f_equal. div_lia.
        -- rewrite lookup_app_r by div_lia. do 2 f_equal. div_lia.
      * assert (i < 8 * (length bs / 8))%nat by div_lia.
        rewrite Hag, Hb by (try (unfold out); div_lia). f_equal. by rewrite lookup_app_l by div_lia.
  - constructor; [|done]. split; cbn; [rewrite length_app; div_lia|by rewrite Hraw].
  - done.
  - done.
  - intros a Ha. apply Hag; lia.
  - intros a Ha. apply Hag; lia.
Qed.

(** The byte that holds the next bits, before and after they are put in it. *)
Definition partial (bs : list bool) (b : Z) : Prop :=
  forall j, (j < 8)%nat -> Z.testbit b (7 - Z.of_nat j) =
    if (j <? length bs mod 8)%nat then default false (bs !! (8 * (length bs / 8) + j)%nat) else false.

Lemma byte_append bs b x n (r := (length bs mod 8)%nat) : partial bs b -> (r + n <= 8)%nat -> 0 <= x < 2 ^ Z.of_nat n ->
  forall j, (j < 8)%nat ->
    Z.testbit (uint8 (Z.lor b (uint8 (Z.shiftl x (8 - Z.of_nat r - Z.of_nat n))))) (7 - Z.of_nat j) =
    if (j <? r)%nat then default false (bs !! (8 * (length bs / 8) + j)%nat)
    else default false (bits_of n x !! (j - r)%nat).
Proof.
  intros Hb Hn Hx j Hj. unfold uint8. rewrite Z.mod_pow2_bits_low, Z.lor_spec, Z.mod_pow2_bits_low by lia.
  rewrite Z.shiftl_spec, Hb by lia. fold r. clearbody r. destruct (Nat.ltb_spec j r) as [Hjr|Hjr].
  - destruct (decide (x = 0)) as [->|Hx0]; [by rewrite Z.testbit_0_l, orb_false_r|].
    rewrite (Z.bits_above_log2 x), orb_false_r; [done|lia|]. apply Z.log2_lt_pow2; [lia|].
    eapply Z.lt_le_trans; [apply Hx|]. apply Z.pow_le_mono_r; lia.
  - cbn [orb]. destruct (decide (j - r < n)%nat) as [Hin|Hin].
    + rewrite bits_of_lookup by done. cbn. f_equal. lia.
    + rewrite lookup_ge_None_2 by (rewrite bits_of_length; lia). apply Z.testbit_neg_r. lia.
Qed.

Lemma mask_low w n : 1 <= n <= 8 -> Z.land w (Z.shiftr 255 (8 - n)) = w mod 2 ^ n.
Proof.
  intros Hn. rewrite <- Z.land_ones by lia. f_equal.
  assert (n = 1 \/ n = 2 \/ n = 3 \/ n = 4 \/ n = 5 \/ n = 6 \/ n = 7 \/ n = 8) as Hc by lia.
  by repeat destruct Hc as [->|Hc]; [..|subst].
Qed.

Lemma land_7 k : Z.land (Z.of_nat k) 7 = Z.of_nat (k mod 8).
Proof. change 7 with (Z.ones 3). rewrite Z.land_ones by lia. change (2 ^ 3) with 8. div_lia. Qed.

Section put.
Context (base lim : nat) (s : HW) (t : HEADER_ELEMENT_TYPE) (bs : list bool) (r : list elem).
Hypothesis HR : Rep base lim s (E t bs :: r).
Hypothesis Hf : fits base lim (E t bs :: r).
Hypothesis Hraw : is_raw t = true.
Let p := (base + 4 + total r)%nat.
Let out := (Bits p + length bs / 8)%nat.

Lemma put_size : mem s !! Size p = Some (Z.of_nat (length bs)).
Proof. destruct (Rep_head _ _ _ _ _ HR) as (_ & [_ Hs _] & _). by apply Hs. Qed.

Lemma put_room : (p + 20 <= length (mem s))%nat /\ (p + 20 <= lim)%nat /\ (length bs <= 120)%nat.
Proof.
  pose proof (r_lim _ _ _ _ HR). pose proof (total_small _ (r_small _ _ _ _ HR)) as Ht. destruct Hf as [_ Hl].
  destruct (Rep_head _ _ _ _ _ HR) as (_ & _ & [Hb _]). cbn [total length ebits] in *.
  assert (total r <= 20 * length r)%nat by (apply total_small; pose proof (r_small _ _ _ _ HR) as Hs; by inversion Hs).
  unfold p. lia.
Qed.

(** The byte to write to is cleared when it is a new one. *)
Record cleared (s1 : HW) (b : Z) : Prop := {
  cl_hdr : hdr s1 = hdr s;
  cl_elt : elt_p s1 = elt_p s;
  cl_length : length (mem s1) = length (mem s);
  cl_others : forall a, a <> out -> mem s1 !! a = mem s !! a;
  cl_byte : mem s1 !! out = Some b;
  cl_partial : partial bs b }.

Lemma wp_clear h Q : (length bs < 120)%nat -> (forall s1 b, cleared s1 b -> Q tt s1 h) ->
  wp False (when (Z.land (Z.of_nat (length bs)) 7 =? 0) (store8 out 0)) Q s h.
Proof.
  intros Hl HQ. destruct put_room as (Hr & _ & _).
  assert (Ho : (Bits p <= out <= Bits p + 14)%nat) by (unfold out; div_lia). unfold Bits in Ho.
  rewrite wp_when, land_7. destruct (Z.eqb_spec (Z.of_nat (length bs mod 8)) 0) as [E|E].
  - apply wp_store8; [lia|]. apply (HQ _ 0). split; cbn; [done|done|by rewrite length_insert| | |].
    + intros a Ha. by rewrite list_lookup_insert_ne.
    + by rewrite list_lookup_insert, decide_True by lia.
    + intros j Hj. rewrite Z.testbit_0_l. destruct (Nat.ltb_spec j (length bs mod 8)); [lia|done].
  - destruct (Rep_head _ _ _ _ _ HR) as (_ & [_ _ Hb] & _). specialize (Hb Hraw). cbn in Hb. fold p in Hb.
    assert (Hi : forall j, (j < 8)%nat -> getbit (mem s) (Bits p) (8 * (length bs / 8) + j) =
       Some (default false (bs !! (8 * (length bs / 8) + j)%nat))) by (intros j Hj; apply Hb; div_lia).
    destruct (lookup_lt_is_Some_2 (mem s) out) as [b Hout]; [lia|].
    apply (HQ s b). split; [done..|]. intros j Hj. specialize (Hi j Hj). unfold getbit in Hi.
    replace ((8 * (length bs / 8) + j) / 8)%nat with (length bs / 8)%nat in Hi by div_lia.
    replace ((8 * (length bs / 8) + j) mod 8)%nat with j in Hi by div_lia. fold out in Hi. rewrite Hout in Hi.
    apply (inj Some (Z.testbit b (7 - Z.of_nat j))) in Hi. rewrite Hi. destruct (Nat.ltb_spec j (length bs mod 8)) as [|Hge]; [done|].
    rewrite lookup_ge_None_2; [done|]. clear -Hge. div_lia.
Qed.

(** The byte and the size are stored. *)
Lemma Rep_stored s1 s2 x m b sz : (length bs < 120)%nat -> cleared s1 b ->
  (1 <= m)%nat -> (length bs mod 8 + m <= 8)%nat -> 0 <= x < 2 ^ Z.of_nat m ->
  hdr s2 = hdr s1 -> elt_p s2 = elt_p s1 ->
  mem s2 = <[Size p := sz]> (<[out :=
    uint8 (Z.lor b (uint8 (Z.shiftl x (8 - Z.of_nat (length bs mod 8) - Z.of_nat m))))]> (mem s1)) ->
  sz = Z.of_nat (length bs + m) ->
  Rep base lim s2 (E t (bs ++ bits_of m x) :: r) /\ kept base lim s s2.
Proof.
  intros Hl [Hh He Hlen Hag Hout Hb] Hm1 Hm Hx Hh2 He2 Hm2 Hsz. destruct put_room as (Hr & _ & _).
  assert (Ho : (Bits p <= out <= Bits p + 14)%nat) by (unfold out; div_lia). unfold Bits in Ho.
  eapply Rep_append; try done; rewrite ?bits_of_length; try lia; try congruence.
  - by rewrite Hm2, !length_insert.
  - intros a H1 H2. rewrite Hm2, !list_lookup_insert_ne by done. by apply Hag.
  - fold p. rewrite Hm2, list_lookup_insert, decide_True, Hsz by (rewrite length_insert, Hlen; unfold Size; lia). done.
  - fold p out. rewrite Hm2, list_lookup_insert_ne by (unfold Size; lia).
    rewrite list_lookup_insert, decide_True by (rewrite Hlen; lia). done.
  - intros j Hj. by apply byte_append.
Qed.
End put.

(** Symbolic execution to the test of the element's room. *)
#[local] Ltac enter HR Hf :=
  let Hc := fresh "Hc" in
  destruct (Rep_head _ _ _ _ _ HR) as (Hc & _ & _);
  let Hn := fresh "Hn" in
  pose proof Hf as [Hn _]; cbn [length] in Hn;
  cbn [write_upto8bits]; rewrite (proj2 (Z.eqb_neq _ 0)) by lia;
  rewrite wp_bind; eapply wp_get_Elements; [done..|]; cbn [index];
  rewrite (proj2 (Z.leb_gt MAXNUMBERELEMENTS _)) by (unfold MAXNUMBERELEMENTS; lia);
  rewrite (proj2 (Z.ltb_ge 8 _)) by lia; cbv zeta; rewrite mask_low by lia;
  rewrite wp_bind; eapply wp_get_elt; [by rewrite Nat2Z.id|];
  rewrite wp_bind; eapply wp_load8; [by eapply put_size|].

Section upto8.
Context (base lim : nat) (s : HW) (h : unit) (t : HEADER_ELEMENT_TYPE) (bs : list bool) (r : list elem).
Hypothesis HR : Rep base lim s (E t bs :: r).
Hypothesis Hraw : is_raw t = true.

Lemma upto8_room fuel w n : fits base lim (E t bs :: r) ->
  (1 <= n)%nat -> (length bs < 120)%nat -> (length bs mod 8 + n <= 8)%nat ->
  wp False (write_upto8bits (S fuel) w (Z.of_nat n))
    (fun _ s' _ => Rep base lim s' (E t (bs ++ bits_of n w) :: r) /\ kept base lim s s') s h.
Proof.
  intros Hf Hn Hl Hm. enter HR Hf. rewrite (proj2 (Z.leb_gt 120 _)), andb_false_r by lia.
  rewrite wp_bind. replace (Z.to_nat (Z.of_nat (length bs) / 8)) with (length bs / 8)%nat by div_lia.
  destruct (put_room _ _ _ _ _ _ HR Hf) as (Hr & _ & _).
  apply (wp_clear base lim s t bs r HR Hf Hraw); [done|]. intros s1 b Hcl. pose proof Hcl as [Hh He Hlen Hag Hout Hb].
  rewrite land_7, (proj2 (Z.leb_le 0 _)) by lia. wp_simp.
  eapply wp_load8; [done|]. wp_simp. apply wp_store8; [rewrite Hlen; unfold Bits; div_lia|]. wp_simp. cbn [mem set_mem].
  eapply wp_load8; [cbn; rewrite list_lookup_insert_ne, Hag by (unfold Bits, Size; lia); by eapply put_size|].
  apply wp_store8; [cbn; rewrite length_insert, Hlen; unfold Size; lia|]. rewrite <- (bits_of_mod n (Z.of_nat n) w) by lia.
  eapply (Rep_stored _ _ _ _ _ _ HR Hf Hraw s1 _ _ n b (uint8 (Z.of_nat (length bs) + Z.of_nat n))); try done.
  - apply Z.mod_pos_bound. lia.
  - cbn [mem set_mem hdr elt_p]. replace (8 - Z.of_nat n - Z.of_nat (length bs mod 8)) with (8 - Z.of_nat (length bs mod 8) - Z.of_nat n) by lia. done.
  - unfold uint8. rewrite Z.mod_small; lia.
Qed.
End upto8.

(** The two parts of a value cut by the border of a byte. *)
Lemma cross_value w n m k (input := Z.shiftr (Z.shiftl (uint8 (w mod 2 ^ Z.of_nat n + 256)) 8) (Z.of_nat k)) :
  n = (m + k)%nat -> (n <= 8 /\ 1 <= k <= 7)%nat ->
  uint8 (Z.shiftr input 8) = uint8 (Z.shiftl (Z.shiftr (w mod 2 ^ Z.of_nat n) (Z.of_nat k)) 0) /\
  Z.shiftr (uint8 input) (8 - Z.of_nat k) = w mod 2 ^ Z.of_nat k.
Proof.
  intros En Hk. set (x := w mod 2 ^ Z.of_nat n) in *.
  assert (Hx : uint8 (x + 256) = x).
  { unfold uint8. change 256 with (1 * 2 ^ 8). rewrite Z.mod_add by lia. apply Z.mod_small.
    pose proof (Z.mod_pos_bound w (2 ^ Z.of_nat n)) as Hb. fold x in Hb.
    assert (2 ^ Z.of_nat n <= 2 ^ 8) by (apply Z.pow_le_mono_r; lia). lia. }
  unfold input. rewrite Hx. split; apply Z.bits_inj'; intros i Hi; unfold uint8.
  - destruct (decide (i < 8)); [|by rewrite !Z.mod_pow2_bits_high by lia].
    rewrite !Z.mod_pow2_bits_low, !Z.shiftr_spec, !Z.shiftl_spec, Z.shiftr_spec by lia. f_equal. lia.
  - rewrite Z.shiftr_spec by lia. destruct (decide (i < Z.of_nat k)).
    + rewrite !Z.mod_pow2_bits_low, Z.shiftr_spec, Z.shiftl_spec by lia. unfold x.
      rewrite Z.mod_pow2_bits_low by lia. f_equal. lia.
    + by rewrite !Z.mod_pow2_bits_high by lia.
Qed.

Section full.
Context (base lim : nat) (s : HW) (h : unit) (t : HEADER_ELEMENT_TYPE) (bs : list bool) (r : list elem).
Hypothesis HR : Rep base lim s (E t bs :: r).
Hypothesis Hraw : is_raw t = true.

Lemma upto8_full fuel w n : fits base lim (E ELEMENT_RAWDATA [] :: E t bs :: r) ->
  (1 <= n <= 8)%nat -> length bs = 120%nat ->
  wp False (write_upto8bits (S (S fuel)) w (Z.of_nat n))
    (fun _ s' _ => Rep base lim s' (E ELEMENT_RAWDATA (bits_of n w) :: E t bs :: r) /\ kept base lim s s') s h.
Proof.
  intros Hf Hn Hl. destruct (Rep_room _ _ _ _ _ HR Hf) as [Hroom Hlen].
  assert (Hf' : fits base lim (E t bs :: r)) by (eapply (fits_run _ _ [Token ELEMENT_RAWDATA]); done).
  pose proof (r_lim _ _ _ _ HR) as Hlim. pose proof (r_hdr _ _ _ _ HR) as Hh. pose proof (r_elts _ _ _ _ HR) as Hel.
  remember (S fuel) as fuel' eqn:Efuel. enter HR Hf'. rewrite land_7, Hl. change (_ && _) with true. cbv iota.
  cbn [length] in *. assert (Hx : (Bits (base + 4 + total r) + 15 = base + 4 + total (E t bs :: r))%nat).
  { unfold Bits. cbn [total]. unfold extent. cbn [etype ebits]. rewrite Hraw, Hl. cbn. lia. }
  replace (Z.of_nat (length r) + 1) with (Z.of_nat (S (length r))) by lia.
  apply wp_next; [lia|lia|]. wp_simp. rewrite Hx. apply wp_set_elt; [cbn; lia|]. rewrite Nat2Z.id. wp_simp.
  eapply wp_get_elt; [cbn [elt_p set_elt_p set_mem]; rewrite Nat2Z.id, list_lookup_insert, decide_True by lia; done|].
  wp_simp. apply wp_store32; [cbn; rewrite put32_length; cbn [total] in *; lia|]. wp_simp.
  apply wp_store8; [cbn; rewrite !put32_length; unfold Size; cbn [total] in *; lia|].
  match goal with |- wp _ _ _ ?x _ => set (s2 := x) end.
  destruct (Rep_new base lim s s2 (E t bs :: r) ELEMENT_RAWDATA) as [HR2 Hk2]; [done..| | | |].
  { unfold s2. cbn [elt_p set_elt_p set_mem]. by rewrite length_insert. }
  { unfold s2. cbn [elt_p set_elt_p set_mem length]. by rewrite list_lookup_insert, decide_True by lia. }
  { unfold s2. cbn [mem set_elt_p set_mem length]. by rewrite Hh. }
  clearbody s2. subst fuel'. eapply wp_mono; [eapply upto8_room; [exact HR2|done|done|lia|cbn; lia|cbn; lia]|].
  cbn beta. cbn [app]. rewrite bits_of_mod by lia. intros _ s' _ [HR' Hk']. split; [done|by eapply kept_trans].
Qed.

(** At the border of a byte. *)
Lemma upto8_aligned fuel w n : fits base lim (pushes (bits_of n w) (E t bs :: r)) ->
  (1 <= n <= 8)%nat -> (length bs mod 8 = 0)%nat ->
  wp False (write_upto8bits (S (S fuel)) w (Z.of_nat n))
    (fun _ s' _ => Rep base lim s' (pushes (bits_of n w) (E t bs :: r)) /\ kept base lim s s') s h.
Proof.
  intros Hf Hn Hm. destruct (Rep_head _ _ _ _ _ HR) as (_ & _ & [Hb _]). cbn [ebits] in Hb.
  destruct (decide (length bs = 120)%nat) as [El|El].
  - assert (Ep : pushes (bits_of n w) (E t bs :: r) = E ELEMENT_RAWDATA (bits_of n w) :: E t bs :: r).
    { destruct n as [|n]; [lia|]. unfold pushes. cbn [bits_of foldl push].
      rewrite El. change (120 <? 120)%nat with false. cbv iota.
      apply (pushes_room ELEMENT_RAWDATA [_]). rewrite bits_of_length. cbn. lia. }
    rewrite Ep in *. by apply upto8_full.
  - assert (length bs + 8 <= 120)%nat by div_lia. rewrite pushes_room in * by (rewrite bits_of_length; lia).
    apply upto8_room; [done|done| |lia|lia|lia]. destruct Hf as [H1 H2]. by split.
Qed.
End full.

Lemma upto8_cross base lim s h t bs r fuel w n : Rep base lim s (E t bs :: r) -> is_raw t = true ->
  fits base lim (pushes (bits_of n w) (E t bs :: r)) ->
  (n <= 8)%nat -> (8 < length bs mod 8 + n)%nat ->
  wp False (write_upto8bits (S (S (S fuel))) w (Z.of_nat n))
    (fun _ s' _ => Rep base lim s' (pushes (bits_of n w) (E t bs :: r)) /\ kept base lim s s') s h.
Proof.
  intros HR Hraw Hf Hn Hx. assert (Hf' : fits base lim (E t bs :: r)) by (eapply (fits_run _ _ [Put (bits_of n w)]); done).
  destruct (put_room _ _ _ _ _ _ HR Hf') as (Hr & _ & Hb120). assert (Hl : (length bs < 120)%nat) by div_lia.
  set (m := (8 - length bs mod 8)%nat). set (k := (n - m)%nat).
  assert (Hm : (1 <= m <= 7)%nat) by (unfold m; div_lia). assert (Hk : (1 <= k <= 7)%nat) by (unfold k, m; div_lia).
  assert (Enk : n = (m + k)%nat) by lia.
  remember (S (S fuel)) as fuel' eqn:Efuel. enter HR Hf'. rewrite (proj2 (Z.leb_gt 120 _)), andb_false_r by lia.
  rewrite wp_bind. replace (Z.to_nat (Z.of_nat (length bs) / 8)) with (length bs / 8)%nat by div_lia.
  apply (wp_clear base lim s t bs r HR Hf' Hraw); [done|]. intros s1 b Hcl. pose proof Hcl as [Hh He Hlen Hag Hout Hb].
  rewrite land_7, (proj2 (Z.leb_gt 0 _)) by lia.
  replace (- (8 - Z.of_nat n - Z.of_nat (length bs mod 8))) with (Z.of_nat k) by (unfold k, m; lia).
  replace (8 + (8 - Z.of_nat n - Z.of_nat (length bs mod 8))) with (8 - Z.of_nat k) by (unfold k, m; lia).
  destruct (cross_value w n m k Enk) as [E1 E2]; [lia|]. cbv zeta in E1, E2. rewrite E1, E2.
  wp_simp. eapply wp_load8; [done|]. wp_simp. apply wp_store8; [rewrite Hlen; unfold Bits; div_lia|]. wp_simp. cbn [mem set_mem].
  eapply wp_load8; [cbn; rewrite list_lookup_insert_ne, Hag by (unfold Bits, Size; lia); by eapply put_size|].
  wp_simp. apply wp_store8; [cbn; rewrite length_insert, Hlen; unfold Size; lia|]. wp_simp. cbn [mem set_mem].
  eapply wp_load8; [cbn [mem set_mem]; rewrite list_lookup_insert, decide_True by (rewrite length_insert, Hlen; unfold Size; lia); done|].
  wp_simp. apply wp_store8; [cbn; rewrite !length_insert, Hlen; unfold Size; lia|]. cbn [mem set_mem hdr elt_p].
  rewrite list_insert_insert, decide_True by done.
  match goal with |- wp _ _ _ ?x _ => set (s2 := x) end.
  assert (Rep base lim s2 (E t (bs ++ bits_of m (Z.shiftr (w mod 2 ^ Z.of_nat n) (Z.of_nat k))) :: r) /\
          kept base lim s s2) as [HR2 Hk2].
  { apply (Rep_stored base lim s t bs r HR Hf' Hraw s1 s2 _ m b
       (uint8 (uint8 (Z.of_nat (length bs) + Z.of_nat n) - uint8 (Z.of_nat k))) Hl Hcl).
    all: try done; try (unfold m; lia).
    - rewrite Z.shiftr_div_pow2 by lia. split; [apply Z.div_pos; [apply Z.mod_pos_bound|]; lia|].
      apply Z.div_lt_upper_bound; [lia|]. rewrite <- Z.pow_add_r, Z.add_comm, <- Nat2Z.inj_add, <- Enk by lia.
      apply Z.mod_pos_bound. lia.
    - replace (8 - Z.of_nat (length bs mod 8) - Z.of_nat m) with 0 by (unfold m; lia). done.
    - unfold uint8. rewrite (Z.mod_small (Z.of_nat _ + _)), (Z.mod_small (Z.of_nat k)), Z.mod_small by lia. lia. }
  replace (bits_of m (Z.shiftr (w mod 2 ^ Z.of_nat n) (Z.of_nat k))) with (bits_of m (Z.shiftr w (Z.of_nat k))) in HR2.
  2: { apply bits_of_ext. intros i Hi. by rewrite !Z.shiftr_spec, Z.mod_pow2_bits_low by lia. }
  clearbody s2. subst fuel'. rewrite Enk, bits_of_app, pushes_app in Hf |- *.
  rewrite (pushes_room t bs) in Hf |- * by (rewrite bits_of_length; unfold m; div_lia).
  rewrite <- (bits_of_mod k (Z.of_nat k) w) in Hf |- * by lia.
  eapply wp_mono; [eapply upto8_aligned; [exact HR2|done|exact Hf|lia|]|].
  - rewrite length_app, bits_of_length. unfold m. div_lia.
  - intros _ s' _ [HR' Hk']. split; [done|by eapply kept_trans].
Qed.

(** * What the operations append *)

(** [pnw__write_upto8bits_elements]: the low bits of the value, an element being opened
    where the last one is full. *)
Lemma write8_writes v n : (n <= 8)%nat -> writes (pnw__write_upto8bits_elements v (Z.of_nat n)) [Put (bits_of n v)].
Proof.
  intros Hn base lim s h els HR Hf Hl. unfold pnw__write_upto8bits_elements, uint16.
  rewrite Z.mod_small by lia. rewrite <- (bits_of_mod n 8 v) in * by lia. change (v mod 2 ^ 8) with (uint8 v) in *.
  cbn [run foldl run_op legal] in *. rewrite andb_true_r in Hl.
  destruct (decide (n = 0)%nat) as [->|Hn0]; [by split; [|apply kept_refl]|].
  destruct els as [|[t bs] r]; [done|]. cbn [cur_raw etype] in Hl.
  assert (Hf' : fits base lim (E t bs :: r)) by (eapply (fits_run _ _ [Put (bits_of n (uint8 v))]); done).
  destruct (decide (length bs mod 8 = 0)%nat) as [Ea|Ea]; [apply upto8_aligned; [done..|lia|done]|].
  destruct (decide (length bs mod 8 + n <= 8)%nat) as [Er|Er]; [|apply upto8_cross; [done..|lia|lia]].
  destruct (Rep_head _ _ _ _ _ HR) as (_ & _ & [Hb _]). cbn [ebits] in Hb.
  assert (length bs + n <= 120)%nat by (clear -Hb Ea Er; div_lia).
  rewrite pushes_room by (rewrite bits_of_length; lia).
  apply upto8_room; [done..|lia|clear -Hb Ea; div_lia|lia].
Qed.

Lemma write8_byte v n i : (n <= 8)%nat ->
  writes (pnw__write_upto8bits_elements (Z.land (Z.shiftr (uint32 v) (8 * Z.of_nat i)) 255) (Z.of_nat n))
    [Put (bits_of n (Z.shiftr (uint32 v) (Z.of_nat (8 * i))))].
Proof.
  intros Hn. eapply hh_eq; [by apply write8_writes|]. do 2 f_equal. change 255 with (Z.ones 8).
  rewrite Z.land_ones, bits_of_mod by lia. do 2 f_equal. lia.
Qed.

Lemma hh_cons {A B} (m : W A) (k : A -> W B) b1 b2 :
  writes m [Put b1] -> (forall a, writes (k a) [Put b2]) -> writes (m ≫= k) [Put (b1 ++ b2)].
Proof. intros H1 H2. apply hh_put. by apply (hh_bind m k [Put b1] [Put b2]). Qed.

(** The bytes of a value, from the given one down. *)
Lemma bytes_writes v k :
  (k <= 4)%nat ->
  writes (for_each (rev (seq 1 k)) (fun i => b ← (match map (fun i => Z.land (Z.shiftr (uint32 v) (8 * i)) 255) [0; 1; 2; 3]
      !! Z.to_nat (Z.of_nat i - 1) with Some b => if 0 <=? Z.of_nat i - 1 then mret b else undefined | None => undefined end);
      pnw__write_upto8bits_elements b 8)) [Put (bits_of (8 * k) (uint32 v))].
Proof.
  induction k as [|k IH]; intros Hk.
  - eapply (hh_eq _ [Put []]); [|done]. intros base lim s h els HR _ _. by split; [|apply kept_refl].
  - rewrite seq_S, rev_app_distr. cbn [rev app for_each]. replace (8 * S k)%nat with (8 + 8 * k)%nat by lia.
    rewrite bits_of_app. apply hh_cons; [|intros; apply IH; lia].
    replace (Z.to_nat (Z.of_nat (1 + k) - 1)) with k by lia. rewrite (proj2 (Z.leb_le 0 _)) by lia.
    assert (map (fun i => Z.land (Z.shiftr (uint32 v) (8 * i)) 255) [0; 1; 2; 3] !! k =
            Some (Z.land (Z.shiftr (uint32 v) (8 * Z.of_nat k)) 255)) as -> by (destruct k as [|[|[|[|k]]]]; [done..|lia]).
    apply (write8_byte v 8 k). lia.
Qed.

Lemma write32_writes v n : (1 <= n <= 32)%nat -> writes (pnw__write_upto32bits_elements v (Z.of_nat n)) [Put (bits_of n v)].
Proof.
  intros Hn. rewrite <- (bits_of_mod n 32 v) by lia. change (v mod 2 ^ 32) with (uint32 v).
  set (k := ((n - 1) / 8)%nat). set (j := (n - 8 * k)%nat).
  assert (Hk : (k <= 3)%nat) by (unfold k; div_lia). assert (Hj : (1 <= j <= 8)%nat) by (unfold j, k; div_lia).
  assert (En : n = (j + 8 * k)%nat) by (unfold j, k; div_lia).
  unfold pnw__write_upto32bits_elements. cbv zeta.
  assert (Eend : uint32 (Z.of_nat n + 7) / 8 = Z.of_nat k + 1) by (rewrite uint32_id by lia; clearbody k j; subst n; div_lia).
  rewrite Eend. replace (Z.of_nat k + 1 - 1) with (Z.of_nat k) by lia. rewrite Nat2Z.id, (proj2 (Z.leb_le 0 _)) by lia.
  assert (map (fun i => Z.land (Z.shiftr (uint32 v) (8 * i)) 255) [0; 1; 2; 3] !! k =
          Some (Z.land (Z.shiftr (uint32 v) (8 * Z.of_nat k)) 255)) as ->
    by (clearbody j; destruct k as [|[|[|[|k]]]]; [done..|lia]).
  replace (if negb (Z.of_nat n mod 8 =? 0) then Z.of_nat n mod 8 else 8) with (Z.of_nat j).
  2: { clearbody k j. subst n. destruct (Z.eqb_spec (Z.of_nat (j + 8 * k) mod 8) 0); cbn; div_lia. }
  replace (Z.to_nat (Z.of_nat k + 1) - 1)%nat with k by lia. rewrite En, bits_of_app.
  change (mret ?b ≫= ?f) with (f b). cbv beta. apply hh_cons; [by apply (write8_byte v j k); lia|intros _; apply bytes_writes; lia].
Qed.

(** ** Exp-Golomb *)

Lemma ue_split_loop v i fuel : 0 <= v < 2 ^ 32 -> (i <= 32)%nat -> 2 ^ Z.of_nat i <= v + 1 -> (33 <= fuel + i)%nat ->
  ue_split fuel (uint32 (2 ^ Z.of_nat i)) (Z.of_nat i) (v - (2 ^ Z.of_nat i - 1)) =
  Some (Z.log2 (v + 1), v + 1 - 2 ^ Z.log2 (v + 1)).
Proof.
  intros Hv. revert i. induction fuel as [|fuel IH]; intros i Hi Hp Hf; [lia|]. cbn [ue_split].
  destruct (decide (i = 32)%nat) as [->|Hi32].
  - assert (v = 2 ^ 32 - 1) as -> by (change (2 ^ Z.of_nat 32) with (2 ^ 32) in Hp; lia). done.
  - assert (Hpow : 2 ^ Z.of_nat i < 2 ^ 32) by (apply Z.pow_lt_mono_r; lia).
    assert (Hs : 2 ^ Z.of_nat (S i) = 2 * 2 ^ Z.of_nat i) by (rewrite Nat2Z.inj_succ, Z.pow_succ_r by lia; lia).
    assert (0 < 2 ^ Z.of_nat i) by (apply Z.pow_pos_nonneg; lia).
    rewrite (uint32_id (2 ^ Z.of_nat i)), (uint32_id (_ - 1)) by lia.
    destruct (Z.ltb_spec (2 ^ Z.of_nat i - 1) (v - (2 ^ Z.of_nat i - 1))) as [Hlt|Hge].
    + rewrite (uint32_id (_ - _)) by lia. replace (2 ^ Z.of_nat i + 2 ^ Z.of_nat i) with (2 ^ Z.of_nat (S i)) by lia.
      replace (uint8 (Z.of_nat i + 1)) with (Z.of_nat (S i)) by (unfold uint8; rewrite Z.mod_small; lia).
      replace (v - (2 ^ Z.of_nat i - 1) - 2 ^ Z.of_nat i) with (v - (2 ^ Z.of_nat (S i) - 1)) by lia.
      apply IH; lia.
    + rewrite (Z.log2_unique (v + 1) (Z.of_nat i)) by lia. do 2 f_equal. lia.
Qed.

Lemma ue_zeros_writes k fuel : (k < 8 * fuel)%nat -> (k <= 32)%nat ->
  writes (ue_zeros fuel (Z.of_nat k)) [Put (replicate k false ++ [true])].
Proof.
  revert k. induction fuel as [|fuel IH]; intros k Hf Hk; [lia|]. cbn [ue_zeros].
  destruct (Z.ltb_spec 8 (Z.of_nat k + 1)) as [Hlt|Hge].
  - replace (replicate k false) with (replicate (8 + (k - 8)) false) by (f_equal; lia). rewrite replicate_add, <- app_assoc.
    replace (Z.of_nat k - 8) with (Z.of_nat (k - 8)) by lia.
    apply hh_cons; [|intros _; apply IH; lia]. rewrite <- bits_of_0. by apply (write8_writes 0 8).
  - replace (uint8 (Z.of_nat k + 1)) with (Z.of_nat (S k)) by (unfold uint8; rewrite Z.mod_small; lia).
    eapply hh_eq; [apply write8_writes; lia|]. do 2 f_equal.
    destruct k as [|[|[|[|[|[|[|[|k]]]]]]]]; [done..|lia].
Qed.

Lemma ue_numeric_writes k v fuel : (k < 8 * fuel)%nat -> (k <= 32)%nat -> 0 <= v < 2 ^ Z.of_nat k ->
  writes (ue_numeric fuel (Z.of_nat k) v) [Put (bits_of k v)].
Proof.
  revert k v. induction fuel as [|fuel IH]; intros k v Hf Hk Hv; [lia|]. cbn [ue_numeric].
  destruct (Z.ltb_spec 8 (Z.of_nat k)) as [Hlt|Hge].
  - cbv zeta. replace (Z.of_nat k - 8) with (Z.of_nat (k - 8)) by lia. set (c := Z.shiftr v (Z.of_nat (k - 8))).
    assert (2 ^ Z.of_nat k <= 2 ^ 32) by (apply Z.pow_le_mono_r; lia).
    assert (Hp : 0 < 2 ^ Z.of_nat (k - 8)) by (apply Z.pow_pos_nonneg; lia).
    assert (Hc : Z.shiftl c (Z.of_nat (k - 8)) = v - v mod 2 ^ Z.of_nat (k - 8)).
    { unfold c. rewrite Z.shiftl_mul_pow2, Z.shiftr_div_pow2 by lia.
      pose proof (Z.div_mod v (2 ^ Z.of_nat (k - 8)) ltac:(lia)). lia. }
    pose proof (Z.mod_pos_bound v (2 ^ Z.of_nat (k - 8)) ltac:(lia)) as Hm.
    assert (v mod 2 ^ Z.of_nat (k - 8) <= v) by (apply Z.mod_le; lia).
    rewrite Hc, (uint32_id (v - v mod 2 ^ Z.of_nat (k - 8))) by lia. replace (v - (v - v mod 2 ^ Z.of_nat (k - 8))) with (v mod 2 ^ Z.of_nat (k - 8)) by lia.
    rewrite uint32_id by lia. replace (bits_of k v) with (bits_of (8 + (k - 8)) v) by (f_equal; lia). rewrite bits_of_app. fold c.
    apply hh_cons; [|intros _; rewrite <- (bits_of_mod (k - 8) (Z.of_nat (k - 8)) v) by lia; apply IH; lia].
    eapply hh_eq; [by apply (write8_writes _ 8)|]. do 2 f_equal. unfold uint8. by apply bits_of_mod.
  - eapply hh_eq; [apply write8_writes; lia|]. do 2 f_equal. unfold uint8. apply bits_of_mod. lia.
Qed.

Lemma log2_u32 v : 0 <= v < 2 ^ 32 -> 0 <= Z.log2 (v + 1) <= 32.
Proof.
  intros Hv. split; [apply Z.log2_nonneg|]. etrans; [apply (Z.log2_le_mono _ (2 ^ 32)); lia|done].
Qed.

(** [pnw__generate_ue] writes the code of every 32-bit value. *)
Lemma ue_writes v : 0 <= v < 2 ^ 32 -> writes (pnw__generate_ue v) [Put (ue_bits v)].
Proof.
  intros Hv. pose proof (log2_u32 v Hv) as Hl. unfold pnw__generate_ue. rewrite uint32_id by done.
  pose proof (ue_split_loop v 0 34 Hv ltac:(lia)) as Hs. change (2 ^ Z.of_nat 0) with 1 in Hs.
  rewrite Z.sub_diag, Z.sub_0_r in Hs. change (uint32 1) with 1 in Hs. change (Z.of_nat 0) with 0 in Hs. rewrite Hs by lia. clear Hs.
  unfold ue_bits. set (k := Z.to_nat (Z.log2 (v + 1))). replace (Z.log2 (v + 1)) with (Z.of_nat k) by (unfold k; lia).
  destruct (Z.log2_spec (v + 1) ltac:(lia)) as [Hlo Hhi]. rewrite Z.pow_succ_r in Hhi by lia.
  replace (Z.log2 (v + 1)) with (Z.of_nat k) in Hlo, Hhi by (unfold k; lia).
  assert (Ev : v + 1 - 2 ^ Z.of_nat k = (v + 1) mod 2 ^ Z.of_nat k)
    by (apply (Z.mod_unique_pos _ _ 1); lia).
  eapply hh_eq; [apply hh_cons; [apply ue_zeros_writes; lia|intros _; apply ue_numeric_writes; lia]|].
  do 2 f_equal. cbn [bits_of]. rewrite <- app_assoc. f_equal. cbn [app]. f_equal.
  - symmetry. rewrite Z.testbit_eqb by lia. replace ((v + 1) / 2 ^ Z.of_nat k) with 1; [done|].
    apply (Z.div_unique_pos _ _ _ (v + 1 - 2 ^ Z.of_nat k)); lia.
  - rewrite Ev. by apply bits_of_mod.
Qed.

Lemma se_code_range v : - 2 ^ 30 < v < 2 ^ 30 -> 0 <= se_code v < 2 ^ 32.
Proof. intros Hv. unfold se_code. destruct (Z.ltb_spec 0 v); lia. Qed.

Lemma se_writes v : - 2 ^ 30 < v < 2 ^ 30 -> writes (pnw__generate_se v) [Put (se_bits v)].
Proof.
  intros Hv. pose proof (se_code_range v Hv) as Hr. unfold pnw__generate_se, se_bits, int_range. cbv zeta.
  replace (if 0 <? v then v + v - 1 else - v - v) with (se_code v) by (unfold se_code; destruct (0 <? v); lia).
  rewrite bool_decide_eq_true_2; [rewrite uint32_id by done; by apply ue_writes|].
  unfold se_code in *. destruct (Z.ltb_spec 0 v); lia.
Qed.

(** ** Composition, where what is appended depends on the elements *)

Definition writes_from {A} (els : list elem) (m : W A) (ops : list op) : Prop :=
  forall base lim s h,
    Rep base lim s els -> fits base lim (run ops els) -> legal (cur_raw els) ops = true ->
    wp False m (fun _ s' _ => Rep base lim s' (run ops els) /\ kept base lim s s') s h.

Lemma from_writes {A} els (m : W A) ops : writes m ops -> writes_from els m ops.
Proof. intros Hm base lim s h. apply Hm. Qed.

Lemma from_bind {A B} els (m : W A) (k : A -> W B) o1 o2 :
  writes_from els m o1 -> (forall a, writes_from (run o1 els) (k a) o2) -> writes_from els (m ≫= k) (o1 ++ o2).
Proof.
  intros H1 H2 base lim s h HR Hf Hl. rewrite legal_app in Hl. apply andb_true_iff in Hl as [Hl1 Hl2].
  rewrite run_app in *. apply wp_bind. eapply wp_mono; [apply H1; [done|by eapply fits_run|done]|].
  intros a s1 h1 [HR1 Hk1]. eapply wp_mono; [apply (H2 a base lim); [done|done|by rewrite run_raw]|].
  intros b s2 h2 [HR2 Hk2]. split; [done|by eapply kept_trans].
Qed.

Lemma hh_put_if {A} (b : bool) (m1 m2 : W A) b1 b2 :
  writes m1 [Put b1] -> writes m2 [Put b2] -> writes (if b then m1 else m2) [Put (if b then b1 else b2)].
Proof. by destruct b. Qed.

Lemma hh_put_ret {A} (x : A) : writes (mret x) [Put []].
Proof. intros base lim s h els HR _ _. by split; [|apply kept_refl]. Qed.

Lemma hh_put_when (b : bool) (m : W unit) b1 : writes m [Put b1] -> writes (when b m) [Put (if b then b1 else [])].
Proof. intros Hm. apply hh_put_if; [done|apply hh_put_ret]. Qed.

(** * Reading a header back *)

(** The elements a header holds, as the firmware finds them: the count is the first byte,
    each element says how long it is. *)
Definition read_type (m : list Z) (a : nat) : option HEADER_ELEMENT_TYPE :=
  b0 ← m !! a; b1 ← m !! (a + 1)%nat; b2 ← m !! (a + 2)%nat; b3 ← m !! (a + 3)%nat;
  element_types !! Z.to_nat (b0 + 2 ^ 8 * b1 + 2 ^ 16 * b2 + 2 ^ 24 * b3).

Definition read_elem (m : list Z) (a : nat) : option elem :=
  t ← read_type m a;
  if is_raw t then n ← m !! Size a; bs ← mapM (getbit m (Bits a)) (seq 0 (Z.to_nat n)); Some (E t bs)
  else Some (E t []).

Fixpoint read_elems (n : nat) (m : list Z) (a : nat) : option (list elem) :=
  match n with
  | O => Some []
  | S n => e ← read_elem m a; l ← read_elems n m (a + extent e)%nat; Some (e :: l)
  end.

Definition read_header (m : list Z) (base : nat) : option (list elem) :=
  n ← m !! base; read_elems (Z.to_nat n) m (base + 4)%nat.

Lemma read_type_at m a t : word32 m a (element_code t) -> read_type m a = Some t.
Proof.
  intros Hw. unfold read_type. rewrite <- (Nat.add_0_r a) at 1. rewrite !Hw by lia. cbn [mbind option_bind].
  by destruct t.
Qed.

Lemma read_bits_at m a bs : bits_at m a bs -> mapM (getbit m a) (seq 0 (length bs)) = Some bs.
Proof.
  intros Hb. apply mapM_Some. apply Forall2_same_length_lookup_2; [by rewrite length_seq|].
  intros i j b Hj Hi. apply lookup_seq in Hj as [-> Hj]. cbn. rewrite Hb by div_lia. by rewrite Hi.
Qed.

Lemma read_elem_at m a e : elem_at m a e -> small e -> read_elem m a = Some e.
Proof.
  intros [Ht Hs Hb] [_ Hsm]. destruct e as [t bs]. cbn [etype ebits] in *. unfold read_elem.
  rewrite (read_type_at _ _ _ Ht). cbn [mbind option_bind]. destruct (is_raw t).
  - rewrite Hs by done. cbn [mbind option_bind]. rewrite Nat2Z.id, read_bits_at by auto. done.
  - by rewrite Hsm.
Qed.

Lemma read_elems_at m base els k : all_at m base els -> Forall small els ->
  read_elems (length els + k) m (base + 4) = (fun l => rev els ++ l) <$> read_elems k m (base + 4 + total els)%nat.
Proof.
  revert k. induction els as [|e r IH]; intros k Ha Hs; cbn [length total].
  - rewrite Nat.add_0_r. cbn. by destruct (read_elems k m (base + 4)).
  - destruct Ha as [He Ha]. inversion Hs as [|x1 x2 Hse Hsr]; subst. replace (S (length r) + k)%nat with (length r + S k)%nat by lia.
    rewrite IH by done. cbn [read_elems]. rewrite (read_elem_at m) with (e := e) by done. cbn [mbind option_bind].
    replace (base + 4 + total r + extent e)%nat with (base + 4 + (extent e + total r))%nat by lia.
    destruct (read_elems k m _); cbn; [by rewrite <- app_assoc|done].
Qed.

(** A finished header: the count, then the elements. *)
Record holds (base lim : nat) (m : list Z) (els : list elem) : Prop := {
  ho_count : m !! base = Some (Z.of_nat (length els));
  ho_all : all_at m base els;
  ho_small : Forall small els;
  ho_lim : (base + 4 + total els <= lim)%nat }.

Lemma holds_read base lim m els : holds base lim m els -> read_header m base = Some (rev els).
Proof.
  intros [Hc Ha Hs _]. unfold read_header. rewrite Hc. cbn [mbind option_bind]. rewrite Nat2Z.id.
  pose proof (read_elems_at m base els 0 Ha Hs) as Hr. rewrite Nat.add_0_r in Hr. rewrite Hr. cbn. by rewrite app_nil_r.
Qed.

Lemma holds_agree base lim m m' els : m' !! base = m !! base -> agree_on (base + 4) lim m m' ->
  holds base lim m els -> holds base lim m' els.
Proof.
  intros Hb Ha [Hc Hall Hs Hl]. split; [by rewrite Hb| |done..]. eapply all_at_agree; [|done].
  eapply agree_on_mono; [done|lia..].
Qed.

(** ** A whole header *)

Lemma Rep_empty base lim s s' : (base + 4 <= lim <= length (mem s))%nat -> hdr s' = base ->
  mem s' = put32 (mem s) base ELEMENTS_EMPTY -> elt_p s' = Some (base + 4)%nat :: replicate 15 None ->
  Rep base lim s' [].
Proof.
  intros Hl Hh Hm He. split; rewrite ?Hm, ?He, ?put32_length; cbn; try done; try lia; [|].
  - apply put32_word32. lia.
  - do 2 f_equal. lia.
Qed.

Lemma header_holds lim s h body ops :
  (hdr s + 4 <= lim <= length (mem s))%nat -> writes_from [] body ops -> legal false ops = true ->
  run ops [] <> [] -> fits (hdr s) lim (run ops []) ->
  wp False (header body) (fun _ s' _ => holds (hdr s) lim (mem s') (run ops []) /\
     word32 (mem s') (hdr s) (Z.of_nat (length (run ops []))) /\ kept (hdr s) lim s s') s h.
Proof.
  intros Hlim Hb Hl Hne Hf. unfold header. wp_simp. apply wp_set_Elements; [lia|done|]. wp_simp.
  match goal with |- wp _ _ _ ?x _ => set (s1 := x) end.
  assert (HR1 : Rep (hdr s) lim s1 []) by (eapply (Rep_empty _ _ s); done).
  assert (Hk1 : kept (hdr s) lim s s1).
  { split; cbn; [done|by rewrite put32_length| |]; intros a Ha; cbn in *; by rewrite put32_other by lia. }
  clearbody s1. eapply wp_mono; [by apply Hb|]. intros _ s2 h2 [HR2 Hk2]. cbv beta. wp_simp.
  destruct Hf as [Hf1 Hf2]. pose proof (total_small _ (r_small _ _ _ _ HR2)) as Ht.
  eapply wp_get_Elements; [exact HR2|by split|]. pose proof (r_lim _ _ _ _ HR2). pose proof (r_hdr _ _ _ _ HR2) as Hh2.
  assert (Hi : index (run ops []) + 1 = Z.of_nat (length (run ops []))) by (destruct (run ops []); [done|cbn; lia]).
  rewrite Hi. apply wp_set_Elements; [lia|lia|]. cbn [mem set_mem]. rewrite Hh2.
  pose proof (put32_word32 (mem s2) (hdr s) (Z.of_nat (length (run ops []))) ltac:(lia)) as Hw.
  split; [split|split; [done|eapply kept_trans; [done|]; eapply kept_trans; [done|split]]].
  - specialize (Hw 0%nat ltac:(lia)). rewrite Nat.add_0_r in Hw. rewrite Hw. f_equal. cbn. rewrite Z.shiftr_0_r. apply Z.mod_small. lia.
  - eapply all_at_agree; [|apply HR2]. intros a Ha. by rewrite put32_other by lia.
  - apply HR2.
  - lia.
  - done.
  - cbn. by rewrite put32_length.
  - intros a Ha. cbn in *. by rewrite put32_other by lia.
  - intros a Ha. cbn in *. by rewrite put32_other by lia.
Qed.

Lemma fits_cost base lim ops n : (cost ops <= 120 * n + 119)%nat -> (n <= 16)%nat -> (base + 4 + 20 * n <= lim)%nat ->
  fits base lim (run ops []).
Proof. intros Hc Hn Hl. pose proof (run_count ops). assert (length (run ops []) <= n)%nat by lia. split; lia. Qed.

Lemma ue_bits_length v : 0 <= v < 2 ^ 32 -> (length (ue_bits v) <= 65)%nat.
Proof.
  intros Hv. pose proof (log2_u32 v Hv). unfold ue_bits. rewrite length_app, length_replicate, bits_of_length. lia.
Qed.

(** * The stream

    What the firmware writes out: the raw bits as they are, in the place of a token what
    it fills in there. *)
Section stream.
Context (fill : HEADER_ELEMENT_TYPE -> list bool).

Definition emit1 (e : elem) : list bool := if is_raw (etype e) then ebits e else fill (etype e).
Definition emit (els : list elem) : list bool := concat (map emit1 els).

Definition op_bits (o : op) : list bool :=
  match o with Put bs => bs | Token t => if is_raw t then [] else fill t end.
Definition ops_bits (ops : list op) : list bool := concat (map op_bits ops).

Lemma emit_snoc els e : emit (rev (e :: els)) = emit (rev els) ++ emit1 e.
Proof. unfold emit. cbn [rev]. by rewrite map_app, concat_app; cbn; rewrite app_nil_r. Qed.

Lemma emit_pushes bs els : cur_raw els = true -> emit (rev (pushes bs els)) = emit (rev els) ++ bs.
Proof.
  revert els. induction bs as [|b bs IH]; intros els He; cbn [pushes foldl]; [by rewrite app_nil_r|].
  unfold pushes in IH. rewrite IH by by apply push_raw. destruct els as [|[t cs] r]; [done|]. cbn [cur_raw etype] in He.
  cbn [push]. destruct (length cs <? 120)%nat; rewrite !emit_snoc; unfold emit1; cbn [etype ebits].
  - rewrite He. by rewrite <- !app_assoc.
  - rewrite He. cbn. by rewrite <- !app_assoc.
Qed.

Lemma emit_run ops els : legal (cur_raw els) ops = true ->
  emit (rev (run ops els)) = emit (rev els) ++ ops_bits ops.
Proof.
  revert els. induction ops as [|[bs|t] ops IH]; intros els Hl; [by rewrite app_nil_r| |]; cbn [legal raw_after] in Hl.
  - apply andb_true_iff in Hl as [Hr Hl]. rewrite Hr in Hl. change (run (Put bs :: ops) els) with (run ops (pushes bs els)).
    rewrite IH by (by rewrite pushes_raw). rewrite emit_pushes by done. by rewrite <- app_assoc.
  - change (run (Token t :: ops) els) with (run ops (E t [] :: els)). rewrite IH by done. by rewrite emit_snoc, <- app_assoc.
Qed.
End stream.
