(* ===== verification/H264Syntax.v ===== *)
(** The syntax of the headers of H.264, and that what psb_video/src/pnw_hostheader.c
    writes is what a decoder reads.

    The readers follow the tables of the standard for the options this encoder uses and
    refuse the others.  They read the stream the firmware writes out, in which its fields
    ([fill]) stand in the place of the tokens.  The sequence and picture parameters read
    are what the reader of the slice header goes by. *)
From Stdlib Require Import ZifyNat.
From stdpp Require Import list.
From S2P Require Import Prelude HostHeader HostHeaderSpec.

#[local] Abbreviation W := (M unit HW).

#[local] Ltac div_lia := zify; Z.to_euclidean_division_equations; lia.

(** * Reading bits *)

#[local] Abbreviation P := (M unit (list bool)).

Definition value (bs : list bool) : Z := foldl (fun v b => 2 * v + Z.b2z b) 0 bs.

(** [u(n)]. *)
Definition u (n : nat) : P Z :=
  s ← get;
  if (n <=? length s)%nat then modify (drop n) ;; mret (value (take n s)) else undefined.

Fixpoint zeros (s : list bool) : nat := match s with false :: s => S (zeros s) | _ => O end.

(** [ue(v)] and [se(v)]. *)
Definition ue : P Z := s ← get; modify (drop (zeros s)) ;; v ← u (S (zeros s)); mret (v - 1).
Definition se : P Z := c ← ue; mret (if Z.odd c then (c + 1) / 2 else - (c / 2)).

Definition expect (n : nat) (v : Z) : P unit := x ← u n; if x =? v then mret tt else undefined.

Lemma value_app b1 b2 : value (b1 ++ b2) = 2 ^ Z.of_nat (length b2) * value b1 + value b2.
Proof.
  unfold value. induction b2 as [|b b2 IH] using rev_ind; [rewrite app_nil_r; cbn; lia|].
  rewrite app_assoc, (foldl_app _ (b1 ++ b2)), (foldl_app _ b2), IH, length_app. cbn [foldl length]. rewrite Nat.add_1_r, Nat2Z.inj_succ, Z.pow_succ_r by lia. lia.
Qed.

Lemma value_bits_of n v : value (bits_of n v) = v mod 2 ^ Z.of_nat n.
Proof.
  induction n as [|n IH]; [by rewrite Z.mod_1_r|]. change (bits_of (S n) v) with ([Z.testbit v (Z.of_nat n)] ++ bits_of n v).
  rewrite value_app, IH, bits_of_length. replace (2 ^ Z.of_nat (S n)) with (2 ^ Z.of_nat n * 2)
    by (rewrite Nat2Z.inj_succ, Z.pow_succ_r; lia).
  rewrite Z.rem_mul_r by (try apply Z.pow_nonzero; lia). rewrite <- Z.testbit_spec' by lia. unfold value. cbn [foldl]. lia.
Qed.

Section readers.
Context {B : Type} (r : list bool) (h : unit).

Lemma run_u (k : Z -> P B) n v : 0 <= v < 2 ^ Z.of_nat n -> (u n ≫= k) (bits_of n v ++ r) h = k v r h.
Proof.
  intros Hv. unfold u. run_simp. rewrite length_app, bits_of_length. rewrite (proj2 (Nat.leb_le _ _)) by lia. run_simp.
  rewrite take_app_le, drop_app_ge by (rewrite bits_of_length; lia). rewrite firstn_all2 by (rewrite bits_of_length; lia).
  by rewrite bits_of_length, Nat.sub_diag, value_bits_of, Z.mod_small.
Qed.

Lemma run_expect (k : unit -> P B) n v : 0 <= v < 2 ^ Z.of_nat n -> (expect n v ≫= k) (bits_of n v ++ r) h = k tt r h.
Proof. intros Hv. unfold expect. run_simp. rewrite run_u by done. by rewrite Z.eqb_refl. Qed.

Lemma zeros_ue k s : zeros (replicate k false ++ true :: s) = k.
Proof. induction k; cbn; auto. Qed.

Lemma run_ue (k : Z -> P B) v : 0 <= v -> (ue ≫= k) (ue_bits v ++ r) h = k v r h.
Proof.
  intros Hv. unfold ue, ue_bits. set (n := Z.to_nat (Z.log2 (v + 1))).
  destruct (Z.log2_spec (v + 1) ltac:(lia)) as [Hlo Hhi]. pose proof (Z.log2_nonneg (v + 1)).
  assert (Hr : Z.of_nat (S n) = Z.succ (Z.log2 (v + 1))) by (unfold n; lia). rewrite <- Hr in Hhi.
  assert (Hz : zeros ((replicate n false ++ bits_of (S n) (v + 1)) ++ r) = n).
  { rewrite <- app_assoc. cbn [bits_of]. rewrite Z.testbit_eqb by lia. replace (_ =? 1) with true; [apply zeros_ue|].
    replace ((v + 1) / 2 ^ Z.of_nat n) with 1; [done|]. rewrite Nat2Z.inj_succ, Z.pow_succ_r in Hhi by lia.
    replace (Z.log2 (v + 1)) with (Z.of_nat n) in Hlo by (unfold n; lia).
    apply (Z.div_unique_pos _ _ _ (v + 1 - 2 ^ Z.of_nat n)); lia. }
  run_simp. rewrite Hz, <- app_assoc, drop_app_ge by (rewrite length_replicate; lia).
  rewrite length_replicate, Nat.sub_diag, skipn_O. rewrite run_u by lia. run_simp. f_equal. lia.
Qed.

Lemma run_se (k : Z -> P B) v : (se ≫= k) (se_bits v ++ r) h = k v r h.
Proof.
  unfold se, se_bits. run_simp. rewrite run_ue by (unfold se_code; destruct (Z.ltb_spec 0 v); lia). run_simp.
  f_equal. unfold se_code. destruct (Z.ltb_spec 0 v).
  - replace (2 * v - 1) with (2 * (v - 1) + 1) by lia. rewrite Z.odd_add, Z.odd_mul. cbn [Z.odd xorb andb].
    replace (2 * (v - 1) + 1 + 1) with (v * 2) by lia. by rewrite Z.div_mul.
  - rewrite Z.odd_mul. cbn [Z.odd andb]. replace (- 2 * v) with (- v * 2) by lia. rewrite Z.div_mul by lia. lia.
Qed.
End readers.

(** * The sequence parameters *)

(** [hrd_parameters()], with one schedule. *)
Record hrd := {
  hrd_bit_rate_scale : Z; hrd_cpb_size_scale : Z;
  hrd_bit_rate_value_minus1 : Z; hrd_cpb_size_value_minus1 : Z; hrd_cbr_flag : Z;
  hrd_initial_cpb_removal_delay_length_minus1 : Z; hrd_cpb_removal_delay_length_minus1 : Z;
  hrd_dpb_output_delay_length_minus1 : Z; hrd_time_offset_length : Z }.

(** [vui_parameters()]: the extended aspect ratio, the timing and the buffer. *)
Record vui := {
  vui_sar : option (Z * Z);
  vui_num_units_in_tick : Z; vui_time_scale : Z; vui_fixed_frame_rate_flag : Z;
  vui_nal_hrd : hrd; vui_low_delay_hrd_flag : Z; vui_pic_struct_present_flag : Z }.

Record sps := {
  sps_profile_idc : Z; sps_constraints : Z; sps_level_idc : Z; sps_id : Z;
  sps_log2_max_frame_num_minus4 : Z; sps_pic_order_cnt_type : Z; sps_max_num_ref_frames : Z;
  sps_gaps_in_frame_num : Z; sps_pic_width_in_mbs_minus1 : Z; sps_pic_height_in_map_units_minus1 : Z;
  sps_frame_mbs_only_flag : Z; sps_direct_8x8_inference_flag : Z;
  sps_crop : option (Z * Z * Z * Z); sps_vui : option vui }.

(** An optional part, after its flag. *)
Definition optional {A} (m : P A) : P (option A) :=
  f ← u 1; if f =? 1 then x ← m; mret (Some x) else mret None.

Definition read_hrd : P hrd :=
  expect 1 1 ;; (* cpb_cnt_minus1 = 0 *)
  a ← u 4; b ← u 4; c ← ue; d ← ue; e ← u 1; f ← u 5; g ← u 5; i ← u 5; j ← u 5;
  mret {| hrd_bit_rate_scale := a; hrd_cpb_size_scale := b; hrd_bit_rate_value_minus1 := c;
          hrd_cpb_size_value_minus1 := d; hrd_cbr_flag := e;
          hrd_initial_cpb_removal_delay_length_minus1 := f; hrd_cpb_removal_delay_length_minus1 := g;
          hrd_dpb_output_delay_length_minus1 := i; hrd_time_offset_length := j |}.

Definition read_vui : P vui :=
  sar ← optional (expect 8 255 ;; w ← u 16; ht ← u 16; mret (w, ht));
  expect 1 0 ;; (* overscan_info_present_flag *)
  expect 1 0 ;; (* video_signal_type_present_flag *)
  expect 1 0 ;; (* chroma_loc_info_present_flag *)
  expect 1 1 ;; (* timing_info_present_flag *)
  n ← u 32; t ← u 32; f ← u 1;
  expect 1 1 ;; (* nal_hrd_parameters_present_flag *)
  b ← read_hrd;
  expect 1 0 ;; (* vcl_hrd_parameters_present_flag *)
  l ← u 1; p ← u 1;
  expect 1 0 ;; (* bitstream_restriction_flag *)
  mret {| vui_sar := sar; vui_num_units_in_tick := n; vui_time_scale := t; vui_fixed_frame_rate_flag := f;
          vui_nal_hrd := b; vui_low_delay_hrd_flag := l; vui_pic_struct_present_flag := p |}.

(** The start code and the header of a unit: its importance and its type. *)
Definition read_nal : P (Z * Z) := expect 32 1 ;; expect 1 0 ;; r ← u 2; t ← u 5; mret (r, t).

(** The profiles 66 and 77, the order of output that of decoding. *)
Definition read_sps : P sps :=
  n ← read_nal;
  if negb (n.2 =? 7) then undefined else
  profile ← u 8; constraints ← u 8; level ← u 8;
  if negb ((profile =? 66) || (profile =? 77)) then undefined else
  id ← ue; fn ← ue; poc ← ue;
  if negb (poc =? 2) then undefined else
  refs ← ue; gaps ← u 1; w ← ue; ht ← ue; mbs ← u 1;
  if negb (mbs =? 1) then undefined else
  d8 ← u 1;
  crop ← optional (l ← ue; r ← ue; t ← ue; b ← ue; mret (l, r, t, b));
  v ← optional read_vui;
  mret {| sps_profile_idc := profile; sps_constraints := constraints; sps_level_idc := level; sps_id := id;
          sps_log2_max_frame_num_minus4 := fn; sps_pic_order_cnt_type := poc; sps_max_num_ref_frames := refs;
          sps_gaps_in_frame_num := gaps; sps_pic_width_in_mbs_minus1 := w; sps_pic_height_in_map_units_minus1 := ht;
          sps_frame_mbs_only_flag := mbs; sps_direct_8x8_inference_flag := d8; sps_crop := crop; sps_vui := v |}.

(** ** What is written *)

#[local] Abbreviation b1 := (bits_of 1).

Definition hrd_bits (v : H264_VUI_PARAMS) : list bool :=
  b1 1 ++ bits_of 4 0 ++ bits_of 4 2 ++ ue_bits (bit_rate_value_minus1 v) ++ ue_bits (cbp_size_value_minus1 v) ++
  b1 (CBR v) ++ bits_of 5 (initial_cpb_removal_delay_length_minus1 v) ++ bits_of 5 (cpb_removal_delay_length_minus1 v) ++
  bits_of 5 (dpb_output_delay_length_minus1 v) ++ bits_of 5 (time_offset_length v).

Definition sar_bits (v : H264_VUI_PARAMS) : list bool :=
  if aspect_ratio_info_present_flag v && (aspect_ratio_idc v =? 0xff)
  then b1 1 ++ bits_of 8 255 ++ bits_of 16 (sar_width v) ++ bits_of 16 (sar_height v) else b1 0.

Definition timing_bits : list bool := b1 0 ++ b1 0 ++ b1 0 ++ b1 1.

Definition vui_tail : list bool := b1 0 ++ b1 0 ++ b1 0 ++ b1 0.

Definition vui_bits (v : H264_VUI_PARAMS) : list bool :=
  sar_bits v ++ timing_bits ++ bits_of 32 (num_units_in_tick v) ++ bits_of 32 (Time_Scale v) ++ b1 1 ++ b1 1 ++
  hrd_bits v ++ vui_tail.

Definition vui_of (v : H264_VUI_PARAMS) : vui :=
  {| vui_sar := if aspect_ratio_info_present_flag v && (aspect_ratio_idc v =? 0xff)
                then Some (sar_width v, sar_height v) else None;
     vui_num_units_in_tick := num_units_in_tick v; vui_time_scale := Time_Scale v; vui_fixed_frame_rate_flag := 1;
     vui_nal_hrd :=
       {| hrd_bit_rate_scale := 0; hrd_cpb_size_scale := 2; hrd_bit_rate_value_minus1 := bit_rate_value_minus1 v;
          hrd_cpb_size_value_minus1 := cbp_size_value_minus1 v; hrd_cbr_flag := CBR v;
          hrd_initial_cpb_removal_delay_length_minus1 := initial_cpb_removal_delay_length_minus1 v;
          hrd_cpb_removal_delay_length_minus1 := cpb_removal_delay_length_minus1 v;
          hrd_dpb_output_delay_length_minus1 := dpb_output_delay_length_minus1 v;
          hrd_time_offset_length := time_offset_length v |};
     vui_low_delay_hrd_flag := 0; vui_pic_struct_present_flag := 0 |}.

(** The fields are in the ranges of their types, and of the syntax. *)
Record vui_ok (v : H264_VUI_PARAMS) : Prop := {
  vo_sar : 0 <= sar_width v < 2 ^ 16 /\ 0 <= sar_height v < 2 ^ 16;
  vo_timing : 0 <= num_units_in_tick v < 2 ^ 32 /\ 0 <= Time_Scale v < 2 ^ 32;
  vo_rate : 0 <= bit_rate_value_minus1 v < 2 ^ 32 /\ 0 <= cbp_size_value_minus1 v < 2 ^ 32;
  vo_cbr : 0 <= CBR v < 2;
  vo_initial : 0 <= initial_cpb_removal_delay_length_minus1 v < 32;
  vo_cpb : 0 <= cpb_removal_delay_length_minus1 v < 32;
  vo_dpb : 0 <= dpb_output_delay_length_minus1 v < 32;
  vo_offset : 0 <= time_offset_length v < 32 }.

Record crop_ok (c : H264_CROP_PARAMS) : Prop := {
  co_left : 0 <= LeftCropOffset c < 2 ^ 16;
  co_right : 0 <= RightCropOffset c < 2 ^ 16;
  co_top : 0 <= TopCropOffset c < 2 ^ 16;
  co_bottom : 0 <= BottomCropOffset c < 2 ^ 16 }.

Definition crop_bits (c : H264_CROP_PARAMS) : list bool :=
  if bClip c then b1 1 ++ ue_bits (LeftCropOffset c) ++ ue_bits (RightCropOffset c) ++ ue_bits (TopCropOffset c) ++
                  ue_bits (BottomCropOffset c) else b1 0.

Definition crop_of (c : H264_CROP_PARAMS) : option (Z * Z * Z * Z) :=
  if bClip c then Some (LeftCropOffset c, RightCropOffset c, TopCropOffset c, BottomCropOffset c) else None.

Definition start_bits : list bool := bits_of 32 1.
Definition nal_bits (idc type : Z) : list bool := b1 0 ++ bits_of 2 idc ++ bits_of 5 type.

Definition profile_code (p : SH_PROFILE_TYPE) : Z := if decide (p = SH_PROFILE_BP) then 66 else 77.
Definition constraint_code (p : SH_PROFILE_TYPE) (level : Z) : Z :=
  Z.shiftl (if decide (p = SH_PROFILE_BP) then 1 else 0) 6 .| Z.shiftl (if level =? SH_LEVEL_1B then 1 else 0) 4.

Definition ids_bits : list bool := ue_bits 0 ++ ue_bits 1 ++ ue_bits 2.

Definition profile_bits (p : H264_SEQUENCE_HEADER_PARAMS) : list bool :=
  bits_of 8 (profile_code (ucProfile p)) ++ bits_of 8 (constraint_code (ucProfile p) (ucLevel p)) ++
  bits_of 8 (ucLevel p) ++ ids_bits.

Definition sps_bits (p : H264_SEQUENCE_HEADER_PARAMS) (c : H264_CROP_PARAMS) : list bool :=
  start_bits ++ nal_bits 3 7 ++ (if bool_decide (ucProfile p <> SH_PROFILE_HP) then profile_bits p else []) ++
  ue_bits 1 ++ b1 (gaps_in_frame_num_value p) ++ ue_bits (ucWidth_in_mbs_minus1 p) ++
  ue_bits (ucHeight_in_maps_units_minus1 p) ++ b1 (ucFrame_mbs_only_flag p) ++ b1 1 ++ crop_bits c ++
  b1 (VUI_Params_Present p) ++ (if 0 <? VUI_Params_Present p then vui_bits (VUI_Params p) else []).

(** [rbsp_trailing_bits()]: a one, and zeros to the border of a byte. *)
Definition trailing (n : nat) : list bool := true :: replicate ((7 - n mod 8)) false.

(** ** They are read *)

Ltac bits_step :=
  first [ rewrite run_expect by (cbn; lia) | rewrite run_u by (cbn; lia) | rewrite run_ue by lia | rewrite run_se
        | progress run_simp ].

Lemma run_sar {B} r h (k : option (Z * Z) -> P B) v : vui_ok v ->
  (optional (expect 8 255 ;; w ← u 16; ht ← u 16; mret (w, ht)) ≫= k) (sar_bits v ++ r) h = k (vui_sar (vui_of v)) r h.
Proof.
  intros [[? ?] _ _ _ _ _ _ _]. unfold optional, sar_bits. cbn [vui_of vui_sar].
  destruct (_ && _); rewrite <- ?app_assoc; repeat bits_step; done.
Qed.

Lemma run_vui {B} r h (k : vui -> P B) v : vui_ok v -> (read_vui ≫= k) (vui_bits v ++ r) h = k (vui_of v) r h.
Proof.
  intros Hv. pose proof Hv as [[? ?] [? ?] [? ?] ? ? ? ? ?]. unfold read_vui, vui_bits, timing_bits, hrd_bits, vui_tail, read_hrd.
  rewrite <- !app_assoc. run_simp. rewrite run_sar by done. repeat bits_step. done.
Qed.

Lemma run_crop {B} r h (k : option (Z * Z * Z * Z) -> P B) c : crop_ok c ->
  (optional (a ← ue; b ← ue; t ← ue; d ← ue; mret (a, b, t, d)) ≫= k) (crop_bits c ++ r) h = k (crop_of c) r h.
Proof.
  intros [? ? ? ?]. unfold optional, crop_bits, crop_of. destruct (bClip c); rewrite <- ?app_assoc; repeat bits_step; done.
Qed.

Lemma run_nal {B} r h (k : Z * Z -> P B) idc type : 0 <= idc < 4 -> 0 <= type < 32 ->
  (read_nal ≫= k) (start_bits ++ nal_bits idc type ++ r) h = k (idc, type) r h.
Proof. intros ? ?. unfold read_nal, start_bits, nal_bits. rewrite <- !app_assoc. repeat bits_step. done. Qed.

(** ** They are written *)

Definition cur_len (els : list elem) : nat := match els with [] => O | e :: _ => length (ebits e) end.

Lemma push_len els b : cur_raw els = true -> (cur_len els <= 120)%nat ->
  (cur_len (push els b) <= 120)%nat /\ (cur_len (push els b) mod 8 = (cur_len els + 1) mod 8)%nat.
Proof.
  destruct els as [|[t bs] r]; [done|]. cbn [cur_len push ebits]. intros _ Hl.
  destruct (Nat.ltb_spec (length bs) 120) as [H|H]; cbn [cur_len ebits]; [rewrite length_app; cbn; lia|].
  assert (length bs = 120)%nat as -> by lia. cbn. lia.
Qed.

Lemma pushes_len bs els : cur_raw els = true -> (cur_len els <= 120)%nat ->
  (cur_len (pushes bs els) mod 8 = (cur_len els + length bs) mod 8)%nat.
Proof.
  revert els. induction bs as [|b bs IH]; intros els Hr Hl; [by rewrite Nat.add_0_r|].
  destruct (push_len els b Hr Hl) as [Hl' Hm]. change (pushes (b :: bs) els) with (pushes bs (push els b)).
  rewrite IH by (auto using push_raw). cbn [length]. clear -Hm. div_lia.
Qed.

(** [ui8SBP = elt->Size & 7; if (ui8SBP > 0) write zeros]. *)
Definition align : W unit :=
  e ← get_Elements; q ← get_elt e; size ← load8 (Size q);
  when (0 <? Z.land size 7) (pnw__write_upto8bits_elements 0 (8 - Z.land size 7)).

Lemma align_from els : cur_raw els = true ->
  writes_from els align [Put (replicate ((8 - cur_len els mod 8) mod 8) false)].
Proof.
  intros Hr base lim s h HR Hf Hl. destruct els as [|[t bs] r]; [done|]. cbn [cur_len ebits].
  assert (Hf' : fits base lim (E t bs :: r)) by (by eapply fits_run).
  destruct (Rep_head _ _ _ _ _ HR) as (Hc & _ & _). unfold align. rewrite wp_bind. eapply wp_get_Elements; [done..|].
  cbn [index]. rewrite wp_bind. eapply wp_get_elt; [by rewrite Nat2Z.id|]. rewrite wp_bind.
  eapply wp_load8; [by eapply put_size|]. rewrite land_7. set (n := (length bs mod 8)%nat) in *.
  assert (Hn : (n < 8)%nat) by (apply Nat.mod_upper_bound; lia).
  destruct (decide (n = 0)%nat) as [E|E].
  - rewrite E. by split; [|apply kept_refl].
  - rewrite (proj2 (Z.ltb_lt 0 _)) by lia. replace (8 - Z.of_nat n) with (Z.of_nat (8 - n)) by lia.
    rewrite (Nat.mod_small (8 - n)) in * by lia. rewrite <- bits_of_0 in *. apply write8_writes; [lia|done..].
Qed.

Lemma write8_bits v c n : c = Z.of_nat n -> (n <= 8)%nat -> writes (pnw__write_upto8bits_elements v c) [Put (bits_of n v)].
Proof. intros ->. apply write8_writes. Qed.

Lemma write8_group v c : 0 <= c <= 8 -> writes (pnw__write_upto8bits_elements v c) [Put (bits_of (Z.to_nat c) v)].
Proof. intros Hc. apply write8_bits; lia. Qed.

Lemma write32_bits v c n : c = Z.of_nat n -> (1 <= n <= 32)%nat -> writes (pnw__write_upto32bits_elements v c) [Put (bits_of n v)].
Proof. intros ->. apply write32_writes. Qed.

Lemma from_cons {A B} els (m : W A) (k : A -> W B) b1 b2 :
  writes m [Put b1] -> (forall a, writes_from (pushes b1 els) (k a) [Put b2]) -> writes_from els (m ≫= k) [Put (b1 ++ b2)].
Proof.
  intros H1 H2 base lim s h HR Hf Hl. cbn [run foldl run_op legal] in *. rewrite andb_true_r in Hl.
  rewrite pushes_app in *. apply (from_bind els m k [Put b1] [Put b2]); try done.
  - by apply from_writes.
  - cbn [app legal raw_after]. by rewrite Hl.
Qed.

Lemma from_token {A} t els (k : unit -> W A) o : writes_from (E t [] :: els) (k tt) o ->
  writes_from els (pnw__insert_element_token t ≫= k) (Token t :: o).
Proof. intros Hk. apply (from_bind _ _ _ [Token t]); [apply from_writes, token_writes|by intros []]. Qed.

(** What an atomic write appends; the groups of fields written by one call are checked by
    evaluation. *)
Ltac hh_atom :=
  lazymatch goal with
  | |- writes (pnw__write_upto8bits_elements ?v _) [Put (bits_of _ ?v)] => apply write8_bits; [reflexivity|lia]
  | |- writes (pnw__write_upto8bits_elements _ _) _ => eapply hh_eq; [apply write8_group; lia|reflexivity]
  | |- writes (pnw__write_upto32bits_elements _ _) _ => apply write32_bits; [reflexivity|lia]
  | |- writes (pnw__generate_ue _) _ => apply ue_writes; lia
  | |- writes (pnw__generate_se _) _ => apply se_writes; lia
  end.

Ltac hh_go :=
  repeat lazymatch goal with |- writes (_ ≫= _) _ => apply hh_cons; [hh_atom|intros _] end; try hh_atom.

Lemma startcode_writes : writes (pnw__H264_writebits_startcode_prefix_element 4) [Put start_bits].
Proof.
  eapply (hh_eq _ [Put ((bits_of 8 0 ++ bits_of 8 0 ++ bits_of 8 0 ++ []) ++ bits_of 8 1)]); [|done].
  apply hh_cons; [|intros _; hh_go].
  change (seq 0 _) with [0; 1; 2]%nat. cbn [for_each]. do 3 (apply hh_cons; [hh_atom|intros _]). apply hh_put_ret.
Qed.

Lemma hh_assoc {A B C} (m : W A) (k : A -> W B) (k' : B -> W C) o :
  writes (m ≫= (fun a => k a ≫= k')) o -> writes ((m ≫= k) ≫= k') o.
Proof. intros Hm base lim s h els HR Hf Hl. unfold wp. rewrite run_assoc. by apply Hm. Qed.

Lemma vui_writes v : vui_ok v -> writes (pnw__H264_writebits_VUI_params v) [Put (vui_bits v)].
Proof.
  intros [[? ?] [? ?] [? ?] ? ? ? ? ?]. unfold pnw__H264_writebits_VUI_params, vui_bits, hrd_bits. rewrite <- !app_assoc.
  apply hh_cons; [unfold sar_bits; apply hh_put_if; hh_go|intros _]. unfold vui_tail.
  hh_go.
Qed.

Lemma crop_writes c : crop_ok c ->
  writes (if bClip c then
     pnw__write_upto8bits_elements 1 1 ;; pnw__generate_ue (LeftCropOffset c) ;; pnw__generate_ue (RightCropOffset c) ;;
     pnw__generate_ue (TopCropOffset c) ;; pnw__generate_ue (BottomCropOffset c)
   else pnw__write_upto8bits_elements 0 1) [Put (crop_bits c)].
Proof. intros [? ? ? ?]. unfold crop_bits. apply hh_put_if; hh_go. Qed.

(** The parameters of the sequence are in the ranges of their types. *)
Record sh_ok (p : H264_SEQUENCE_HEADER_PARAMS) : Prop := {
  so_profile : ucProfile p <> SH_PROFILE_HP;
  so_level : 0 <= ucLevel p < 256;
  so_width : 0 <= ucWidth_in_mbs_minus1 p < 256;
  so_height : 0 <= ucHeight_in_maps_units_minus1 p < 256;
  so_gaps : 0 <= gaps_in_frame_num_value p < 2;
  so_mbs : ucFrame_mbs_only_flag p = 1;
  so_present : 0 <= VUI_Params_Present p < 2;
  so_vui : vui_ok (VUI_Params p) }.

Lemma uint8_id z : 0 <= z < 256 -> uint8 z = z.
Proof. intros Hz. unfold uint8. by apply Z.mod_small. Qed.

Lemma profile_writes p : sh_ok p ->
  writes (when (bool_decide (ucProfile p <> SH_PROFILE_HP))
    (pnw__write_upto8bits_elements (if decide (ucProfile p = SH_PROFILE_BP) then 66 else 77) 8 ;;
     pnw__write_upto8bits_elements (Z.shiftl 0 7 .| Z.shiftl (if decide (ucProfile p = SH_PROFILE_BP) then 1 else 0) 6
             .| Z.shiftl 0 5 .| Z.shiftl (if ucLevel p =? SH_LEVEL_1B then 1 else 0) 4) 8 ;;
     pnw__write_upto8bits_elements (uint8 (ucLevel p)) 8 ;;
     pnw__write_upto8bits_elements (Z.shiftl 1 6 .| Z.shiftl 2 3 .| 3) 7))
  [Put (if bool_decide (ucProfile p <> SH_PROFILE_HP) then profile_bits p else [])].
Proof.
  intros Hp. apply hh_put_when. rewrite uint8_id by apply Hp. unfold profile_bits.
  apply hh_cons; [hh_atom|intros _]. apply hh_cons; [|intros _; hh_go].
  eapply hh_eq; [apply write8_group; lia|]. change (Z.to_nat 8) with 8%nat. do 2 f_equal. unfold constraint_code.
  by destruct (decide _), (_ =? _).
Qed.

Lemma sps_writes p c : sh_ok p -> crop_ok c ->
  writes_from [] (pnw__H264_writebits_sequence_header p c)
    [Token ELEMENT_STARTCODE_RAWDATA; Put (sps_bits p c ++ trailing (length (sps_bits p c)))].
Proof.
  intros Hp Hc. pose proof Hp as [? ? ? ? ? ? ? ?]. unfold pnw__H264_writebits_sequence_header. apply from_token.
  set (n := length (sps_bits p c)) in *. assert (Hn : n = length (sps_bits p c)) by done. clearbody n.
  unfold sps_bits in *. rewrite <- !app_assoc. unfold trailing.
  apply from_cons; [apply startcode_writes|intros _].
  apply from_cons; [hh_atom|intros _]. apply from_cons; [by apply profile_writes|intros _].
  do 6 (apply from_cons; [hh_atom|intros _]). apply from_cons; [by apply crop_writes|intros _].
  apply from_cons; [hh_atom|intros _]. apply from_cons; [apply hh_put_when; by apply vui_writes|intros _].
  change (true :: ?l) with ([true] ++ l). apply from_cons; [hh_atom|intros _]. rewrite <- !pushes_app.
  match goal with |- writes_from (pushes ?b _) _ _ => assert (Hb : length b = (n + 1)%nat) end.
  { rewrite Hn, !length_app. cbn [length]. lia. }
  fold align. match goal with |- writes_from (pushes ?b ?e) _ _ =>
    pose proof (pushes_len b e eq_refl ltac:(cbn; lia)) as Hlen; pose proof (align_from (pushes b e)) as Ha end.
  rewrite Hb in Hlen. cbn [cur_len ebits length Nat.add] in Hlen. rewrite Hlen in Ha.
  replace ((8 - (n + 1) mod 8) mod 8)%nat with (7 - n mod 8)%nat in Ha by (clear; div_lia).
  apply Ha. by apply pushes_raw.
Qed.

(** * The picture parameters *)

Record pps := {
  pps_id : Z; pps_sps_id : Z; pps_entropy_coding_mode_flag : Z; pps_num_ref_idx_l0_minus1 : Z;
  pps_num_ref_idx_l1_minus1 : Z; pps_pic_init_qp_minus26 : Z; pps_pic_init_qs_minus26 : Z;
  pps_chroma_qp_index_offset : Z; pps_deblocking_filter_control_present_flag : Z;
  pps_constrained_intra_pred_flag : Z }.

(** One slice group, no weighted prediction. *)
Definition read_pps : P pps :=
  n ← read_nal;
  if negb (n.2 =? 8) then undefined else
  id ← ue; sid ← ue; ent ← u 1;
  expect 1 0 ;; (* bottom_field_pic_order_in_frame_present_flag *)
  expect 1 1 ;; (* num_slice_groups_minus1 = 0 *)
  l0 ← ue; l1 ← ue;
  expect 1 0 ;; (* weighted_pred_flag *)
  expect 2 0 ;; (* weighted_bipred_idc *)
  qp ← se; qs ← se; chroma ← se; deb ← u 1; intra ← u 1;
  expect 1 0 ;; (* redundant_pic_cnt_present_flag *)
  mret {| pps_id := id; pps_sps_id := sid; pps_entropy_coding_mode_flag := ent; pps_num_ref_idx_l0_minus1 := l0;
          pps_num_ref_idx_l1_minus1 := l1; pps_pic_init_qp_minus26 := qp; pps_pic_init_qs_minus26 := qs;
          pps_chroma_qp_index_offset := chroma; pps_deblocking_filter_control_present_flag := deb;
          pps_constrained_intra_pred_flag := intra |}.

Definition pps_head (cabac : bool) : list bool :=
  ue_bits 0 ++ ue_bits 0 ++ b1 (Z.b2z cabac) ++ b1 0 ++ b1 1 ++ ue_bits 0 ++ ue_bits 0 ++ b1 0.

Definition pps_ops (cabac intra : bool) (offset : Z) : list op :=
  [Token ELEMENT_STARTCODE_RAWDATA; Put (start_bits ++ nal_bits 1 8 ++ pps_head cabac ++ bits_of 2 0);
   Token ELEMENT_QP; Token ELEMENT_RAWDATA;
   Put (se_bits 0 ++ se_bits offset ++ (b1 1 ++ b1 (Z.b2z intra) ++ b1 0));
   Token ELEMENT_INSERTBYTEALIGN_H264].

Lemma from_group {A B} els (m : W A) (k : A -> W B) b o :
  writes m [Put b] -> (forall a, writes_from (pushes b els) (k a) o) -> writes_from els (m ≫= k) (Put b :: o).
Proof. intros H1 H2. apply (from_bind els m k [Put b] o); [by apply from_writes|done]. Qed.

(** Consecutive calls are one group of bits. *)
Lemma from_more {A B} els (m : W A) (k : A -> W B) b b' o :
  writes m [Put b] -> (forall a, writes_from (pushes b els) (k a) (Put b' :: o)) ->
  writes_from els (m ≫= k) (Put (b ++ b') :: o).
Proof.
  intros H1 H2 base lim s h HR Hf Hl. cbn [run foldl run_op legal] in *. apply andb_true_iff in Hl as [Hr Hl].
  rewrite pushes_app in *. apply (from_bind els m k [Put b] (Put b' :: o)); try done.
  - by apply from_writes.
  - cbn [app legal raw_after] in *. rewrite Hr in Hl |- *. by rewrite Hl.
Qed.

Lemma pps_writes cabac intra offset : - 2 ^ 30 < offset < 2 ^ 30 ->
  writes_from [] (pnw__H264_writebits_picture_header cabac false intra offset offset) (pps_ops cabac intra offset).
Proof.
  intros Ho. unfold pnw__H264_writebits_picture_header. cbv zeta. apply from_token.
  apply from_more; [apply startcode_writes|intros _]. apply from_more; [hh_atom|intros _].
  apply from_more; [|intros _].
  { eapply hh_eq; [apply write8_group; lia|]. by destruct cabac. }
  apply from_group; [hh_atom|intros _]. apply from_token. apply from_token.
  apply from_more; [hh_atom|intros _]. apply from_more; [hh_atom|intros _]. apply from_group; [|intros _].
  { eapply hh_eq; [apply write8_group; lia|]. by destruct intra. }
  rewrite Z.eqb_refl. cbn [orb negb when]. apply (from_bind _ (mret tt) _ []); [apply from_writes, hh_ret|intros _].
  apply from_writes, token_writes.
Qed.

(** * The slice header *)

Record slice := {
  sl_nal_ref_idc : Z; sl_nal_unit_type : Z; sl_first_mb : Z; sl_type : Z; sl_pps_id : Z; sl_frame_num : Z;
  sl_idr_pic_id : option Z; sl_long_term_reference_flag : option Z; sl_qp_delta : Z; sl_disable_deblocking : Z;
  sl_alpha_beta : option (Z * Z) }.

(** A slice of progressive pictures: P (0) or I (2), of the given sequence and picture
    parameters. *)
Definition read_slice (s : sps) (p : pps) : P slice :=
  n ← read_nal;
  first ← ue; ty ← ue; id ← ue;
  if negb ((ty =? 0) || (ty =? 2)) then undefined else
  fn ← u (Z.to_nat (sps_log2_max_frame_num_minus4 s + 4));
  idr ← (if n.2 =? 5 then x ← ue; mret (Some x) else mret None);
  when (ty =? 0)
    (expect 1 0 ;; (* num_ref_idx_active_override_flag *)
     expect 1 0) ;; (* ref_pic_list_modification_flag_l0 *)
  lt ← (if n.2 =? 5 then expect 1 0 ;; x ← u 1; mret (Some x) (* dec_ref_pic_marking() *)
        else when (negb (n.1 =? 0)) (expect 1 0) ;; mret None);
  when ((pps_entropy_coding_mode_flag p =? 1) && (ty =? 0)) (ue ;; mret tt) ;; (* cabac_init_idc *)
  qp ← se;
  d ← (if pps_deblocking_filter_control_present_flag p =? 1 then
         i ← ue; if i =? 1 then mret (i, None) else a ← se; b ← se; mret (i, Some (a, b))
       else mret (0, None));
  mret {| sl_nal_ref_idc := n.1; sl_nal_unit_type := n.2; sl_first_mb := first; sl_type := ty; sl_pps_id := id;
          sl_frame_num := fn; sl_idr_pic_id := idr; sl_long_term_reference_flag := lt; sl_qp_delta := qp;
          sl_disable_deblocking := d.1; sl_alpha_beta := d.2 |}.

Definition is_idr (p : H264_SLICE_HEADER_PARAMS) : bool := bool_decide (SliceFrame_Type p = SLHP_IDR_SLICEFRAME_TYPE).
Definition is_p (p : H264_SLICE_HEADER_PARAMS) : bool := bool_decide (SliceFrame_Type p = SLHP_P_SLICEFRAME_TYPE).

(** The parameters of a slice, as [pnw__H264_prepare_slice_header] makes them. *)
Record slice_ok (p : H264_SLICE_HEADER_PARAMS) : Prop := {
  slo_prefix : Start_Code_Prefix_Size_Bytes p = 4;
  slo_type : SliceFrame_Type p = SLHP_P_SLICEFRAME_TYPE \/ SliceFrame_Type p = SLHP_I_SLICEFRAME_TYPE \/
             SliceFrame_Type p = SLHP_IDR_SLICEFRAME_TYPE;
  slo_first : 0 <= First_MB_Address p < 2 ^ 32;
  slo_frame : 0 <= Frame_Num_DO p < 32;
  slo_deblock : 0 <= Disable_Deblocking_Filter_Idc p < 256 }.

Definition slice_tail (p : H264_SLICE_HEADER_PARAMS) : list bool :=
  ue_bits (Disable_Deblocking_Filter_Idc p) ++
  (if negb (Disable_Deblocking_Filter_Idc p =? 1) then se_bits 0 ++ se_bits 0 else []).

Lemma frame_num_bits f : 0 <= f < 32 -> bits_of 6 (Z.shiftl 1 5 .| f) = ue_bits 0 ++ bits_of 5 f.
Proof.
  intros Hf. change (bits_of 6 ?v) with (Z.testbit v 5 :: bits_of 5 v). rewrite Z.lor_spec. change (ue_bits 0) with [true].
  cbn [app]. f_equal. apply bits_of_ext. intros i Hi. rewrite Z.lor_spec, Z.shiftl_spec by lia.
  by rewrite Z.testbit_neg_r by lia.
Qed.

Lemma slice_header0_writes p : slice_ok p ->
  writes (pnw__H264_writebits_slice_header0 p) [Put (nal_bits 1 (if is_idr p then 5 else 1))].
Proof.
  intros [_ Ht _ _ _]. eapply hh_eq; [apply write8_group; lia|]. unfold is_idr. by destruct Ht as [-> | [-> | ->]].
Qed.

Definition slice_fields (p : H264_SLICE_HEADER_PARAMS) (idr : Z) : list bool :=
  ue_bits (First_MB_Address p) ++ ue_bits (if is_p p then 0 else 2) ++ (ue_bits 0 ++ bits_of 5 (Frame_Num_DO p)) ++
  (if is_idr p then ue_bits idr else []) ++ (if is_p p then b1 0 else []) ++ (if is_p p then b1 0 else []) ++
  (if is_idr p then b1 0 ++ b1 (Z.b2z (IsLongTermRef p)) else b1 0).

Definition slice_head (p : H264_SLICE_HEADER_PARAMS) (idr : Z) : list bool :=
  start_bits ++ nal_bits 1 (if is_idr p then 5 else 1) ++ slice_fields p idr.

Definition slice_ops (p : H264_SLICE_HEADER_PARAMS) (idr : Z) : list op :=
  [Token ELEMENT_STARTCODE_RAWDATA; Put (slice_head p idr); Token ELEMENT_SQP; Token ELEMENT_RAWDATA; Put (slice_tail p)].

Lemma slice_header1_writes p idr : slice_ok p -> 0 <= idr < 2 ^ 16 ->
  writes (pnw__H264_writebits_slice_header1 p idr) [Put (slice_fields p idr)].
Proof.
  intros [_ Ht ? ? ?] Hi. unfold pnw__H264_writebits_slice_header1, slice_fields, is_idr, is_p.
  cbv zeta. apply hh_cons; [hh_atom|intros _]. apply hh_cons; [|intros _].
  { destruct Ht as [-> | [-> | ->]]; apply ue_writes; by split; vm_compute. }
  apply hh_cons; [rewrite <- frame_num_bits by done; hh_atom|intros _].
  assert (bool_decide (SliceFrame_Type p = SLHP_B_SLICEFRAME_TYPE) = false) as -> by (by destruct Ht as [-> | [-> | ->]]).
  assert (negb (bool_decide (SliceFrame_Type p = SLHP_I_SLICEFRAME_TYPE)) &&
          negb (bool_decide (SliceFrame_Type p = SLHP_IDR_SLICEFRAME_TYPE)) =
          bool_decide (SliceFrame_Type p = SLHP_P_SLICEFRAME_TYPE)) as -> by (by destruct Ht as [-> | [-> | ->]]).
  rewrite orb_false_r. do 3 (apply hh_cons; [apply hh_put_when; hh_atom|intros _]). apply hh_put_if; hh_go.
Qed.

Lemma slice_header2_writes p : slice_ok p -> writes (pnw__H264_writebits_slice_header2 p) [Put (slice_tail p)].
Proof.
  intros [_ _ _ _ ?]. unfold pnw__H264_writebits_slice_header2, slice_tail.
  apply hh_cons; [hh_atom|intros _]. apply hh_put_when. hh_go.
Qed.

Lemma slice_writes p cabac idr : slice_ok p -> 0 <= idr < 2 ^ 16 ->
  writes_from [] (pnw__H264_writebits_slice_header p cabac idr) (slice_ops p idr).
Proof.
  intros Hp Hi. unfold pnw__H264_writebits_slice_header, slice_ops, slice_head. rewrite (slo_prefix p Hp). apply from_token.
  apply from_more; [apply startcode_writes|intros _]. apply from_more; [by apply slice_header0_writes|intros _].
  apply from_group; [by apply slice_header1_writes|intros _]. apply from_token. apply from_token.
  by apply from_writes, slice_header2_writes.
Qed.
