(* ===== verification/H264Headers.v ===== *)
(** The headers [pnw__H264_prepare_sequence_header], [pnw__H264_prepare_picture_header] and
    [pnw__H264_prepare_slice_header] leave in memory, read back and decoded.

    Each theorem says that the function does nothing undefined, stays in the memory given
    to it, and that a decoder that reads the stream made of its elements finds the
    parameters it was called with.  [fill] is what the firmware writes in the place of the
    tokens. *)
From Stdlib Require Import ZifyNat.
From stdpp Require Import list.
From S2P Require Import Prelude HostHeader HostHeaderSpec H264Syntax.

#[local] Abbreviation W := (M unit HW).
#[local] Abbreviation b1 := (bits_of 1).

#[local] Ltac div_lia := zify; Z.to_euclidean_division_equations; lia.

(** * The sequence header *)

Definition sps_of (p : H264_SEQUENCE_HEADER_PARAMS) (c : H264_CROP_PARAMS) : sps :=
  {| sps_profile_idc := profile_code (ucProfile p); sps_constraints := constraint_code (ucProfile p) (ucLevel p);
     sps_level_idc := ucLevel p; sps_id := 0; sps_log2_max_frame_num_minus4 := 1; sps_pic_order_cnt_type := 2;
     sps_max_num_ref_frames := 1; sps_gaps_in_frame_num := gaps_in_frame_num_value p;
     sps_pic_width_in_mbs_minus1 := ucWidth_in_mbs_minus1 p;
     sps_pic_height_in_map_units_minus1 := ucHeight_in_maps_units_minus1 p; sps_frame_mbs_only_flag := 1;
     sps_direct_8x8_inference_flag := 1; sps_crop := crop_of c;
     sps_vui := if 0 <? VUI_Params_Present p then Some (vui_of (VUI_Params p)) else None |}.

Lemma constraint_range pr level : 0 <= constraint_code pr level < 256.
Proof. unfold constraint_code. by destruct (decide _), (_ =? _). Qed.

Lemma profile_range pr : 0 <= profile_code pr < 256 /\ (profile_code pr =? 66) || (profile_code pr =? 77) = true.
Proof. unfold profile_code. by destruct (decide _). Qed.

Lemma run_vui_opt {B} r h (k : option vui -> M unit (list bool) B) f v : 0 <= f < 2 -> vui_ok v ->
  (optional read_vui ≫= k) (b1 f ++ (if 0 <? f then vui_bits v else []) ++ r) h =
  k (if 0 <? f then Some (vui_of v) else None) r h.
Proof.
  intros Hf Hv. unfold optional. repeat bits_step. assert (f = 0 \/ f = 1) as [-> | ->] by lia; [done|].
  cbn [Z.eqb Pos.eqb Z.ltb Z.compare]. run_simp. rewrite run_vui by done. by run_simp.
Qed.

Lemma read_sps_bits p c r h : sh_ok p -> crop_ok c -> read_sps (sps_bits p c ++ r) h = Done (sps_of p c) r h.
Proof.
  intros [? ? ? ? ? Hm ? ?] Hc. unfold sps_bits, read_sps, profile_bits, ids_bits.
  rewrite bool_decide_eq_true_2 by done. rewrite Hm, <- !app_assoc. rewrite run_nal by lia. cbn [snd].
  change (negb (7 =? 7)) with false. cbv iota. destruct (profile_range (ucProfile p)) as [? Hpr].
  pose proof (constraint_range (ucProfile p) (ucLevel p)). do 3 (rewrite run_u by (cbn; lia)). rewrite Hpr. cbn [negb].
  do 3 (rewrite run_ue by lia). change (negb (2 =? 2)) with false. cbv iota.
  rewrite run_ue by lia. rewrite run_u by (cbn; lia). do 2 (rewrite run_ue by lia). rewrite run_u by (cbn; lia).
  change (negb (1 =? 1)) with false. cbv iota. rewrite run_u by (cbn; lia).
  rewrite run_crop by done. by rewrite run_vui_opt by done.
Qed.

(** The parameters [pnw__H264_prepare_sequence_header] makes of its arguments. *)
Definition sequence_params (uiPicWidthInMbs uiPicHeightInMbs VUI_present : Z) (v : H264_VUI_PARAMS) (uiLevel uiProfile : Z)
  : H264_SEQUENCE_HEADER_PARAMS :=
  {| ucProfile := sh_profile uiProfile; ucLevel := sh_level uiLevel;
     ucWidth_in_mbs_minus1 := uiPicWidthInMbs - 1; ucHeight_in_maps_units_minus1 := uiPicHeightInMbs - 1;
     gaps_in_frame_num_value := 0; ucFrame_mbs_only_flag := 1; VUI_Params_Present := VUI_present;
     VUI_Params := if negb (VUI_present =? 0) then v else no_vui |}.

Lemma sh_level_range l : 0 <= sh_level l < 256.
Proof. unfold sh_level. repeat (destruct (_ =? _)); split; done. Qed.

Lemma sequence_params_ok w ht f v l pr : 1 <= w <= 256 -> 1 <= ht <= 256 -> f = 0 \/ f = 1 -> vui_ok v ->
  sh_ok (sequence_params w ht f v l pr).
Proof.
  intros Hw Hh Hf Hv. split; cbn; try lia.
  - unfold sh_profile. by repeat destruct (_ =? _).
  - apply sh_level_range.
  - destruct (negb (f =? 0)); [done|by split].
Qed.

Lemma vui_bits_length v : vui_ok v -> (length (vui_bits v) <= 300)%nat.
Proof.
  intros [_ _ [H1 H2] _ _ _ _ _]. pose proof (ue_bits_length _ H1). pose proof (ue_bits_length _ H2).
  unfold vui_bits, hrd_bits, timing_bits, vui_tail, sar_bits. rewrite !length_app, !bits_of_length.
  destruct (_ && _); rewrite ?length_app, !bits_of_length; lia.
Qed.

Lemma crop_bits_length c : crop_ok c -> (length (crop_bits c) <= 261)%nat.
Proof.
  intros [H1 H2 H3 H4]. unfold crop_bits. destruct (bClip c); [|cbn; lia]. rewrite !length_app, bits_of_length.
  pose proof (ue_bits_length (LeftCropOffset c) ltac:(lia)). pose proof (ue_bits_length (RightCropOffset c) ltac:(lia)).
  pose proof (ue_bits_length (TopCropOffset c) ltac:(lia)). pose proof (ue_bits_length (BottomCropOffset c) ltac:(lia)). lia.
Qed.

Lemma sps_bits_length p c : sh_ok p -> crop_ok c -> (length (sps_bits p c) <= 800)%nat.
Proof.
  intros [? ? Hw Hh ? ? ? Hv] Hc. pose proof (vui_bits_length _ Hv). pose proof (crop_bits_length c Hc).
  pose proof (ue_bits_length (ucWidth_in_mbs_minus1 p) ltac:(lia)).
  pose proof (ue_bits_length (ucHeight_in_maps_units_minus1 p) ltac:(lia)).
  unfold sps_bits, profile_bits, nal_bits, start_bits. rewrite !length_app, !bits_of_length.
  change (length (ue_bits 1)) with 3%nat. destruct (bool_decide _); destruct (0 <? _);
    rewrite ?length_app, ?bits_of_length; change (length ids_bits) with 7%nat; cbn [length]; lia.
Qed.

Lemma trailing_length n : ((n + length (trailing n)) mod 8 = 0)%nat.
Proof. unfold trailing. cbn [length]. rewrite length_replicate. div_lia. Qed.

Lemma trailing_le n : (length (trailing n) <= 8)%nat.
Proof. unfold trailing. cbn [length]. rewrite length_replicate. lia. Qed.

Lemma sequence_header_holds base w ht f v c l pr s h :
  (base + 252 <= length (mem s))%nat -> 1 <= w <= 256 -> 1 <= ht <= 256 -> f = 0 \/ f = 1 -> vui_ok v -> crop_ok c ->
  let p := sequence_params w ht f v l pr in
  wp False (pnw__H264_prepare_sequence_header base w ht f v c l pr)
    (fun _ s' _ =>
       holds base (base + 252) (mem s')
         (run [Token ELEMENT_STARTCODE_RAWDATA; Put (sps_bits p c ++ trailing (length (sps_bits p c)))] []) /\
       kept base (base + 252) (set_hdr base s) s') s h.
Proof.
  intros Hm Hw Hh Hf Hv Hc p. pose proof (sequence_params_ok w ht f v l pr Hw Hh Hf Hv) as Hp. fold p in Hp.
  unfold pnw__H264_prepare_sequence_header. cbv zeta. wp_simp. rewrite !uint8_id by lia.
  replace {| ucProfile := _ |} with p by (unfold p, sequence_params; f_equal; symmetry; apply uint8_id; lia).
  pose proof (sps_bits_length p c Hp Hc) as Hlen. pose proof (trailing_le (length (sps_bits p c))) as Htl.
  unfold pnw__H264_getelements_sequence_header.
  eapply wp_mono; [apply (header_holds (base + 252) (set_hdr base s)); [cbn; lia|by apply sps_writes|done| |]|].
  - pose proof (run_length [Put (sps_bits p c ++ trailing (length (sps_bits p c)))] [E ELEMENT_STARTCODE_RAWDATA []]) as Hr.
    cbn [run foldl run_op] in *. destruct (pushes _ _); [cbn in Hr; lia|done].
  - eapply (fits_cost _ _ _ 7); [|lia|cbn; lia]. unfold cost. cbn [map op_cost list_sum foldr]. rewrite length_app. lia.
  - intros _ s' _ (H1 & _ & H2). done.
Qed.

Lemma emit_raw fill bs : emit fill (rev (run [Token ELEMENT_STARTCODE_RAWDATA; Put bs] [])) = bs.
Proof.
  rewrite emit_run by done. unfold ops_bits. cbn [emit rev map concat op_bits].
  change (is_raw ELEMENT_STARTCODE_RAWDATA) with true. cbn [app]. by rewrite app_nil_r.
Qed.

(** The sequence header in memory, decoded, is the sequence parameters asked for: the size
    in macroblocks, the profile and the level, the cropping and the timing, as long as the
    arguments are in the ranges of their fields; the stream ends with its trailing bits, at
    the border of a byte. *)
Theorem sps_round_trip fill base w ht f v c l pr s h :
  (base + 252 <= length (mem s))%nat -> 1 <= w <= 256 -> 1 <= ht <= 256 -> f = 0 \/ f = 1 -> vui_ok v -> crop_ok c ->
  wp False (pnw__H264_prepare_sequence_header base w ht f v c l pr)
    (fun _ s' _ => kept base (base + 252) (set_hdr base s) s' /\
       exists els n, read_header (mem s') base = Some els /\ (length (emit fill els) mod 8 = 0)%nat /\
         read_sps (emit fill els) tt = Done (sps_of (sequence_params w ht f v l pr) c) (trailing n) tt) s h.
Proof.
  intros Hm Hw Hh Hf Hv Hc. eapply wp_mono; [by apply sequence_header_holds|]. cbv zeta.
  intros _ s' _ [Ho Hk]. split; [done|]. apply holds_read in Ho. eexists _, _. split; [exact Ho|].
  rewrite emit_raw. split.
  - rewrite length_app. apply trailing_length.
  - apply read_sps_bits; [by apply sequence_params_ok|done].
Qed.

(** * The picture header *)

Definition pps_of (cabac : bool) (qp offset : Z) : pps :=
  {| pps_id := 0; pps_sps_id := 0; pps_entropy_coding_mode_flag := Z.b2z cabac; pps_num_ref_idx_l0_minus1 := 0;
     pps_num_ref_idx_l1_minus1 := 0; pps_pic_init_qp_minus26 := qp; pps_pic_init_qs_minus26 := 0;
     pps_chroma_qp_index_offset := offset; pps_deblocking_filter_control_present_flag := 1;
     pps_constrained_intra_pred_flag := 0 |}.

Lemma se_bits_length v : - 2 ^ 30 < v < 2 ^ 30 -> (length (se_bits v) <= 65)%nat.
Proof. intros Hv. by apply ue_bits_length, se_code_range. Qed.

Lemma picture_header_holds base cabac offset s h : (base + 252 <= length (mem s))%nat -> -128 <= offset < 128 ->
  wp False (pnw__H264_prepare_picture_header base cabac offset)
    (fun _ s' _ => holds base (base + 252) (mem s') (run (pps_ops cabac false offset) []) /\
       kept base (base + 252) (set_hdr base s) s') s h.
Proof.
  intros Hm Ho. unfold pnw__H264_prepare_picture_header. wp_simp. pose proof (se_bits_length offset ltac:(lia)).
  eapply wp_mono; [apply (header_holds (base + 252) (set_hdr base s)); [cbn; lia|apply pps_writes; lia|done|done|]|].
  - eapply (fits_cost _ _ _ 8); [|lia|cbn; lia]. unfold cost, pps_ops. cbn [map op_cost list_sum foldr].
    rewrite !length_app. change (length start_bits) with 32%nat. change (length (nal_bits 1 8)) with 8%nat.
    replace (length (pps_head cabac)) with 8%nat by (by destruct cabac). rewrite !bits_of_length. change (length (se_bits 0)) with 1%nat. lia.
  - intros _ s' _ (H1 & _ & H2). done.
Qed.

Lemma read_pps_bits cabac qp offset r h :
  read_pps ((start_bits ++ nal_bits 1 8 ++ pps_head cabac ++ bits_of 2 0) ++ se_bits qp ++
            (se_bits 0 ++ se_bits offset ++ (b1 1 ++ b1 0 ++ b1 0)) ++ r) h = Done (pps_of cabac qp offset) r h.
Proof.
  unfold read_pps, pps_head. rewrite <- !app_assoc. rewrite run_nal by lia. cbn [snd].
  change (negb (8 =? 8)) with false. cbv iota. assert (0 <= Z.b2z cabac < 2) by (destruct cabac; cbn; lia).
  repeat bits_step. done.
Qed.

Lemma emit_pps fill cabac offset qp : fill ELEMENT_QP = se_bits qp ->
  emit fill (rev (run (pps_ops cabac false offset) [])) =
  (start_bits ++ nal_bits 1 8 ++ pps_head cabac ++ bits_of 2 0) ++ se_bits qp ++
  (se_bits 0 ++ se_bits offset ++ (b1 1 ++ b1 0 ++ b1 0)) ++ fill ELEMENT_INSERTBYTEALIGN_H264.
Proof.
  intros Hq. rewrite emit_run by done. unfold ops_bits, pps_ops. cbn [emit rev map concat app op_bits].
  change (is_raw ELEMENT_STARTCODE_RAWDATA) with true. change (is_raw ELEMENT_QP) with false.
  change (is_raw ELEMENT_RAWDATA) with true. change (is_raw ELEMENT_INSERTBYTEALIGN_H264) with false.
  cbn [app]. by rewrite Hq, app_nil_r.
Qed.

(** The picture header in memory, with the quantiser the firmware puts in the place of its
    token, is the picture parameters asked for; the alignment is left to the firmware. *)
Theorem pps_round_trip fill base cabac offset qp s h :
  (base + 252 <= length (mem s))%nat -> -128 <= offset < 128 -> fill ELEMENT_QP = se_bits qp ->
  wp False (pnw__H264_prepare_picture_header base cabac offset)
    (fun _ s' _ => kept base (base + 252) (set_hdr base s) s' /\
       exists els, read_header (mem s') base = Some els /\
         read_pps (emit fill els) tt = Done (pps_of cabac qp offset) (fill ELEMENT_INSERTBYTEALIGN_H264) tt) s h.
Proof.
  intros Hm Ho Hq. eapply wp_mono; [by apply picture_header_holds|]. intros _ s' _ [Hh Hk]. split; [done|].
  eexists. split; [by apply holds_read in Hh|]. rewrite (emit_pps _ _ _ qp) by done. apply read_pps_bits.
Qed.

(** * The slice header *)

Definition slice_of (p : H264_SLICE_HEADER_PARAMS) (idr qp : Z) : slice :=
  {| sl_nal_ref_idc := 1; sl_nal_unit_type := if is_idr p then 5 else 1; sl_first_mb := First_MB_Address p;
     sl_type := if is_p p then 0 else 2; sl_pps_id := 0; sl_frame_num := Frame_Num_DO p;
     sl_idr_pic_id := if is_idr p then Some idr else None;
     sl_long_term_reference_flag := if is_idr p then Some (Z.b2z (IsLongTermRef p)) else None;
     sl_qp_delta := qp; sl_disable_deblocking := Disable_Deblocking_Filter_Idc p;
     sl_alpha_beta := if Disable_Deblocking_Filter_Idc p =? 1 then None else Some (0, 0) |}.

(** The sequence and picture parameters the encoder writes, with arithmetic coding or
    without. *)
Record follows (cabac : bool) (s : sps) (p : pps) : Prop := {
  fo_frame_num : sps_log2_max_frame_num_minus4 s = 1;
  fo_entropy : pps_entropy_coding_mode_flag p = Z.b2z cabac;
  fo_deblocking : pps_deblocking_filter_control_present_flag p = 1 }.

Lemma read_slice_bits cabac sp pp p idr qp r h : follows cabac sp pp -> slice_ok p -> 0 <= idr < 2 ^ 16 ->
  (cabac = true -> is_p p = false) ->
  read_slice sp pp (slice_head p idr ++ se_bits qp ++ slice_tail p ++ r) h = Done (slice_of p idr qp) r h.
Proof.
  intros [F1 F2 F3] [_ Ht ? ? ?] Hi Hca. unfold read_slice, slice_head, slice_fields, slice_tail. rewrite F1, F2, F3, <- !app_assoc.
  change (Z.to_nat (1 + 4)) with 5%nat. change (1 =? 1) with true. change (0 =? 1) with false. cbn [andb when].
  assert (0 <= Z.b2z (IsLongTermRef p) < 2) by (destruct (IsLongTermRef p); cbn; lia). unfold slice_of.
  assert ((is_idr p = false /\ is_p p = true) \/ (is_idr p = false /\ is_p p = false) \/ (is_idr p = true /\ is_p p = false))
    as Hc by (unfold is_idr, is_p; destruct Ht as [-> | [-> | ->]]; auto).
  destruct Hc as [[E E'] | [[E E'] | [E E']]]; rewrite E, E' in *;
    (destruct cabac; [try discriminate (Hca eq_refl)|]); cbv iota; rewrite run_nal by lia;
    destruct (Disable_Deblocking_Filter_Idc p =? 1) eqn:Ed; cbn [negb fst snd app]; rewrite <- ?app_assoc;
    repeat (bits_step || (progress cbn [Z.b2z when negb andb orb Z.eqb Pos.eqb fst snd])); rewrite ?Ed; repeat bits_step; done.
Qed.

Definition skip_ops (p : H264_SLICE_HEADER_PARAMS) (run_length : Z) : list op :=
  slice_ops p 0 ++ [Put (ue_bits run_length); Token ELEMENT_INSERTBYTEALIGN_H264].

Lemma skip_writes p cabac n : slice_ok p -> 0 <= n < 2 ^ 32 ->
  writes_from [] (pnw__H264_writebits_slice_header p cabac 0 ;; pnw__generate_ue n ;;
                  pnw__insert_element_token ELEMENT_INSERTBYTEALIGN_H264) (skip_ops p n).
Proof.
  intros Hp Hn. apply from_bind; [apply slice_writes; [done|lia]|intros _]. apply from_group; [by apply ue_writes|intros _].
  apply from_writes, token_writes.
Qed.

Lemma slice_head_length p idr : slice_ok p -> 0 <= idr < 2 ^ 16 ->
  (length (slice_head p idr) <= 185 /\ length (slice_tail p) <= 67)%nat.
Proof.
  intros [_ _ ? ? ?] Hi. pose proof (ue_bits_length (First_MB_Address p) ltac:(lia)). pose proof (ue_bits_length idr ltac:(lia)).
  pose proof (ue_bits_length (Disable_Deblocking_Filter_Idc p) ltac:(lia)).
  unfold slice_head, slice_fields, slice_tail. rewrite !length_app, !bits_of_length.
  change (length start_bits) with 32%nat. change (length (ue_bits 0)) with 1%nat.
  replace (length (nal_bits 1 (if is_idr p then 5 else 1))) with 8%nat by (by destruct (is_idr p)).
  replace (length (ue_bits (if is_p p then 0 else 2))) with (if is_p p then 1 else 3)%nat by (by destruct (is_p p)).
  destruct (is_idr p), (is_p p), (negb _); rewrite ?length_app, ?bits_of_length; change (length (se_bits 0)) with 1%nat; cbn [length]; lia.
Qed.

Lemma slice_params_ok intra dbf fn first force uses islt : 0 <= first < 2 ^ 32 ->
  slice_ok (slice_params intra dbf fn first force uses islt).
Proof.
  intros Hf. split; cbn [slice_params Start_Code_Prefix_Size_Bytes SliceFrame_Type First_MB_Address Frame_Num_DO
    Disable_Deblocking_Filter_Idc]; [done| |done|by apply Z.mod_pos_bound|by apply Z.mod_pos_bound].
  destruct (force || _); [auto|]. destruct intra; auto.
Qed.

Section slices.
Context (base : nat) (p : H264_SLICE_HEADER_PARAMS) (cabac : bool) (idr skip : Z) (h : unit).
Hypothesis Hp : slice_ok p.
Hypothesis Hi : 0 <= idr < 2 ^ 16.
Hypothesis Hs : 0 <= skip < 2 ^ 32.

Lemma slice_header_holds s : hdr s = base -> (base + 256 <= length (mem s))%nat ->
  wp False (pnw__H264_getelements_slice_header p cabac idr)
    (fun _ s' _ => holds base (base + 128) (mem s') (run (slice_ops p idr) []) /\
       word32 (mem s') base (Z.of_nat (length (run (slice_ops p idr) []))) /\ kept base (base + 128) s s') s h.
Proof.
  intros <- Hm. destruct (slice_head_length p idr Hp Hi). unfold pnw__H264_getelements_slice_header.
  apply header_holds; [lia|by apply slice_writes|done| |].
  - pose proof (run_length [Put (slice_tail p)]
      (E ELEMENT_RAWDATA [] :: E ELEMENT_SQP [] :: pushes (slice_head p idr) [E ELEMENT_STARTCODE_RAWDATA []])) as Hr.
    cbn [length] in Hr. unfold slice_ops. cbn [run foldl run_op] in *. destruct (pushes (slice_tail p) _); [cbn in Hr; lia|done].
  - eapply (fits_cost _ _ _ 5); [|lia|lia]. unfold cost, slice_ops. cbn [map op_cost list_sum foldr]. lia.
Qed.

Lemma skip_header_holds s : hdr s = (base + 128)%nat -> (base + 256 <= length (mem s))%nat ->
  wp False (pnw__H264_getelements_skip_P_slice p skip cabac)
    (fun _ s' _ => holds (base + 128) (base + 256) (mem s') (run (skip_ops p skip) []) /\
       kept (base + 128) (base + 256) s s') s h.
Proof.
  intros Hh Hm. destruct (slice_head_length p 0 Hp ltac:(lia)). pose proof (ue_bits_length skip Hs).
  rewrite <- Hh. unfold pnw__H264_getelements_skip_P_slice. eapply wp_mono; [apply (header_holds (base + 256)); [lia|by apply skip_writes|done|done|]|].
  - eapply (fits_cost _ _ _ 6); [|lia|lia]. unfold cost, skip_ops, slice_ops. cbn [map app op_cost list_sum foldr]. lia.
  - intros _ s' _ (Ho & _ & Hk). done.
Qed.
End slices.

Lemma marker_bytes m base n : (base + 4 <= length m)%nat -> 0 <= n < 256 ->
  put32 m base (n .| 0x100) !! base = Some n /\ put32 m base (n .| 0x100) !! (base + 1)%nat = Some 1.
Proof.
  intros Hm Hn. pose proof (put32_word32 m base (n .| 0x100) Hm) as Hw.
  assert (E : n .| 0x100 = n + 1 * 2 ^ 8).
  { assert (Hall : forallb (fun k => Z.of_nat k .| 0x100 =? Z.of_nat k + 1 * 2 ^ 8) (seq 0 256) = true) by (vm_compute; reflexivity).
    rewrite forallb_forall in Hall. specialize (Hall (Z.to_nat n)). rewrite Z2Nat.id in Hall by lia.
    apply Z.eqb_eq, Hall, in_seq. lia. }
  rewrite E in *. split.
  - specialize (Hw 0%nat ltac:(lia)). rewrite Nat.add_0_r in Hw. rewrite Hw. f_equal. change (8 * Z.of_nat 0) with 0.
    rewrite Z.shiftr_0_r, Z.mod_add, Z.mod_small; lia.
  - rewrite Hw by lia. f_equal. change (8 * Z.of_nat 1) with 8. rewrite Z.shiftr_div_pow2, Z.div_add, Z.div_small by lia. done.
Qed.

(** Both headers of a slice are in memory: the slice's own, whose count is marked, and 128
    bytes further the one of a skipped slice. *)
Lemma slice_headers_hold base intra dbf fn first skip cabac force uses islt idr (s : HW) (h : unit)
    (p := slice_params intra dbf fn first force uses islt) :
  (base + 256 <= length (mem s))%nat -> 0 <= first < 2 ^ 32 -> 0 <= skip < 2 ^ 32 -> 0 <= idr < 2 ^ 16 ->
  wp False (pnw__H264_prepare_slice_header base intra dbf fn first skip cabac force uses islt idr)
    (fun _ (s' : HW) _ =>
       holds base (base + 128) (mem s') (run (slice_ops p idr) []) /\ mem s' !! (base + 1)%nat = Some 1 /\
       holds (base + 128) (base + 256) (mem s') (run (skip_ops p skip) []) /\
       agree_on 0 base (mem s) (mem s') /\ agree_on (base + 256) (length (mem s)) (mem s) (mem s') /\
       length (mem s') = length (mem s)) s h.
Proof.
  intros Hm Hf Hs Hi. pose proof (slice_params_ok intra dbf fn first force uses islt Hf) as Hp. fold p in Hp.
  unfold pnw__H264_prepare_slice_header. cbv zeta. fold p. wp_simp.
  eapply wp_mono; [apply (slice_header_holds base p cabac idr skip h Hp Hi Hs); [done|cbn; lia]|].
  intros _ s1 h1 (Ho & Hw & [Kh Kl Kb Ka]). cbn [mem hdr set_hdr] in Kh, Kl, Kb, Ka.
  set (els := run (slice_ops p idr) []) in *.
  assert (Hn : (length els <= 16)%nat).
  { destruct (slice_head_length p idr Hp Hi). pose proof (run_count (slice_ops p idr)) as Hc. fold els in Hc.
    unfold cost, slice_ops in Hc. cbn [map op_cost list_sum foldr] in Hc. lia. }
  wp_simp. eapply wp_load32; [exact Hw|lia|]. wp_simp. apply wp_store32; [lia|]. wp_simp.
  destruct (marker_bytes (mem s1) base (Z.of_nat (length els)) ltac:(lia) ltac:(lia)) as [Hm0 Hm1].
  set (m1 := put32 (mem s1) base (Z.of_nat (length els) .| 0x100)) in *.
  assert (Hlen1 : length m1 = length (mem s)) by (unfold m1; rewrite put32_length; lia).
  assert (Hfar : forall a, (a < base \/ base + 4 <= a)%nat -> m1 !! a = mem s1 !! a) by (intros; by apply put32_other).
  eapply wp_mono; [apply (skip_header_holds base p cabac idr skip h1 Hp Hi Hs); cbn [hdr mem set_hdr set_mem]|].
  { change (Z.to_nat (Z.shiftr HEADER_SIZE 3)) with 32%nat. lia. }
  { fold m1. lia. }
  intros _ s2 h2 [Ho2 [K2h K2l K2b K2a]]. cbn [hdr mem set_hdr set_mem] in K2h, K2l, K2b, K2a. fold m1 in K2h, K2l, K2b, K2a.
  split; [|split; [|split; [done|split; [|split]]]].
  - eapply (holds_agree _ _ m1).
    + apply K2b. lia.
    + intros a Ha. apply K2b. lia.
    + destruct Ho as [Hc Hal Hsm Hlim]. split; [by rewrite Hm0| |done..]. eapply all_at_agree; [|done]. intros a Ha. apply Hfar. lia.
  - rewrite K2b by lia. done.
  - intros a Ha. rewrite K2b, Hfar by lia. apply Kb. lia.
  - intros a Ha. rewrite K2a, Hfar by lia. apply Ka. lia.
  - lia.
Qed.

Section stream.
Context (fill : HEADER_ELEMENT_TYPE -> list bool) (qp : Z).
Hypothesis Hqp : fill ELEMENT_SQP = se_bits qp.

Lemma emit_slice p idr : emit fill (rev (run (slice_ops p idr) [])) = slice_head p idr ++ se_bits qp ++ slice_tail p ++ [].
Proof.
  rewrite emit_run by done. unfold ops_bits, slice_ops. cbn [emit rev map concat app op_bits].
  change (is_raw ELEMENT_STARTCODE_RAWDATA) with true. change (is_raw ELEMENT_SQP) with false.
  change (is_raw ELEMENT_RAWDATA) with true. cbn [app]. by rewrite Hqp.
Qed.

Lemma emit_skip p n : emit fill (rev (run (skip_ops p n) [])) =
  slice_head p 0 ++ se_bits qp ++ slice_tail p ++ (ue_bits n ++ fill ELEMENT_INSERTBYTEALIGN_H264).
Proof.
  rewrite emit_run by done. unfold ops_bits, skip_ops, slice_ops. cbn [emit rev map concat app op_bits].
  change (is_raw ELEMENT_STARTCODE_RAWDATA) with true. change (is_raw ELEMENT_SQP) with false.
  change (is_raw ELEMENT_RAWDATA) with true. change (is_raw ELEMENT_INSERTBYTEALIGN_H264) with false.
  cbn [app]. by rewrite Hqp, app_nil_r.
Qed.
End stream.

(** The two slice headers in memory, decoded by the sequence and picture parameters the
    encoder writes: the first is the slice asked for (its first macroblock, its type, its
    number, its deblocking) and its count is marked; the second, 128 bytes further, is the
    same slice followed by the number of macroblocks skipped. *)
Theorem slice_round_trip fill sp pp base intra dbf fn first skip cabac force uses islt idr qp s h
    (p := slice_params intra dbf fn first force uses islt) :
  (base + 256 <= length (mem s))%nat -> 0 <= first < 2 ^ 32 -> 0 <= skip < 2 ^ 32 -> 0 <= idr < 2 ^ 16 ->
  fill ELEMENT_SQP = se_bits qp -> follows cabac sp pp -> (cabac = true -> is_p p = false) ->
  wp False (pnw__H264_prepare_slice_header base intra dbf fn first skip cabac force uses islt idr)
    (fun _ (s' : HW) _ => mem s' !! (base + 1)%nat = Some 1 /\
       exists els els',
         read_header (mem s') base = Some els /\ read_header (mem s') (base + 128) = Some els' /\
         read_slice sp pp (emit fill els) tt = Done (slice_of p idr qp) [] tt /\
         (r ← read_slice sp pp; n ← ue; mret (r, n)) (emit fill els') tt =
           Done (slice_of p 0 qp, skip) (fill ELEMENT_INSERTBYTEALIGN_H264) tt) s h.
Proof.
  intros Hm Hf Hs Hi Hq Hfo Hca. pose proof (slice_params_ok intra dbf fn first force uses islt Hf) as Hp. fold p in Hp.
  eapply wp_mono; [by apply slice_headers_hold|]. cbv zeta. fold p. intros _ s' _ (Ho1 & Hmark & Ho2 & _). split; [done|].
  eexists _, _. split; [by apply holds_read in Ho1|]. split; [by apply holds_read in Ho2|]. split.
  - rewrite (emit_slice fill qp) by done. by apply (read_slice_bits cabac).
  - rewrite (emit_skip fill qp) by done. erewrite run_bind by (apply (read_slice_bits cabac); [done|done|lia|done]).
    rewrite run_ue by lia. done.
Qed.

(** * The whole stream of an encoder *)

(** The headers at their places in the memory of the headers (pnw_hostcode.c): the sequence
    header, the picture header after it, the slice headers after the other ones. *)
Definition write_headers (w ht present : Z) (v : H264_VUI_PARAMS) (c : H264_CROP_PARAMS) (level profile : Z)
    (cabac : bool) (offset : Z) (intra : bool) (dbf fn first skip : Z) (force uses islt : bool) (idr : Z) : W unit :=
  pnw__H264_prepare_sequence_header 0 w ht present v c level profile ;;
  pnw__H264_prepare_picture_header 256 cabac offset ;;
  pnw__H264_prepare_slice_header 2048 intra dbf fn first skip cabac force uses islt idr.

(** What a decoder does with them. *)
Definition decode_headers (fill : HEADER_ELEMENT_TYPE -> list bool) (m : list Z) : option (sps * pps * slice) :=
  a ← read_header m 0; b ← read_header m 256; c ← read_header m 2048;
  match read_sps (emit fill a) tt with
  | Done sp _ _ =>
      match read_pps (emit fill b) tt with
      | Done pp _ _ => match read_slice sp pp (emit fill c) tt with Done sl _ _ => Some (sp, pp, sl) | _ => None end
      | _ => None
      end
  | _ => None
  end.

(** ** What is asked for

    The parameters of the stream in terms of the call alone.  The profiles are the
    baseline (5) and the main one (6), which the standard numbers 66 and 77; the levels
    are asked for by ten times their number, level 1b as 111.  Level 1b is coded as 11
    with the fourth constraint flag; the second one marks a constrained baseline
    stream. *)
Definition asked_levels : list Z := [10; 12; 20; 30; 31; 32; 40; 41; 42].

Definition asked_sps (w ht present : Z) (v : H264_VUI_PARAMS) (c : H264_CROP_PARAMS) (level profile : Z) : sps :=
  {| sps_profile_idc := if profile =? 5 then 66 else 77;
     sps_constraints := (if profile =? 5 then 64 else 0) + (if level =? 111 then 16 else 0);
     sps_level_idc := if level =? 111 then 11 else level;
     sps_id := 0; sps_log2_max_frame_num_minus4 := 1; sps_pic_order_cnt_type := 2;
     sps_max_num_ref_frames := 1; sps_gaps_in_frame_num := 0;
     sps_pic_width_in_mbs_minus1 := w - 1; sps_pic_height_in_map_units_minus1 := ht - 1;
     sps_frame_mbs_only_flag := 1; sps_direct_8x8_inference_flag := 1; sps_crop := crop_of c;
     sps_vui := if present =? 1 then Some (vui_of v) else None |}.

(** A slice opens an IDR picture when that is forced or the frame is number 0; frames are
    numbered modulo 32; the filter is off for 1. *)
Definition asked_slice (intra : bool) (dbf fn first : Z) (force islt : bool) (idr d : Z) : slice :=
  let opens := force || (fn =? 0) in
  {| sl_nal_ref_idc := 1; sl_nal_unit_type := if opens then 5 else 1; sl_first_mb := first;
     sl_type := if opens || intra then 2 else 0; sl_pps_id := 0; sl_frame_num := fn mod 32;
     sl_idr_pic_id := if opens then Some idr else None;
     sl_long_term_reference_flag := if opens then Some (if islt then 1 else 0) else None;
     sl_qp_delta := d; sl_disable_deblocking := dbf;
     sl_alpha_beta := if dbf =? 1 then None else Some (0, 0) |}.

Lemma asked_sps_ok w ht present v c level profile : present = 0 \/ present = 1 ->
  level = 111 \/ level ∈ asked_levels -> profile = 5 \/ profile = 6 ->
  sps_of (sequence_params w ht present v level profile) c = asked_sps w ht present v c level profile.
Proof.
  intros Hp Hl Hpr. unfold asked_levels in Hl. rewrite !elem_of_cons, elem_of_nil in Hl.
  unfold sps_of, asked_sps, sequence_params. cbn [ucProfile ucLevel ucWidth_in_mbs_minus1 VUI_Params_Present
    ucHeight_in_maps_units_minus1 gaps_in_frame_num_value VUI_Params].
  f_equal.
  - by destruct Hpr as [-> | ->].
  - by destruct Hpr as [-> | ->]; decompose [or] Hl; subst.
  - by decompose [or] Hl; subst.
  - by destruct Hp as [-> | ->].
Qed.

Lemma asked_slice_ok intra dbf fn first force uses islt idr d : 0 <= dbf < 256 ->
  slice_of (slice_params intra dbf fn first force uses islt) idr d = asked_slice intra dbf fn first force islt idr d.
Proof.
  intros Hd. unfold slice_of, asked_slice, is_idr, is_p, slice_params. cbn [SliceFrame_Type First_MB_Address
    Frame_Num_DO IsLongTermRef Disable_Deblocking_Filter_Idc]. rewrite (uint8_id dbf) by done.
  assert (E : uint8 fn mod Z.shiftl 1 5 = fn mod 32).
  { unfold uint8. change (2 ^ 8) with (32 * 8). change (Z.shiftl 1 5) with 32. rewrite Z.rem_mul_r by lia.
    rewrite Z.mul_comm, Z.mod_add by lia. by rewrite Zmod_mod. }
  rewrite E. by destruct (force || (fn =? 0)), intra, islt.
Qed.

Lemma asked_not_p intra dbf fn first force uses islt : intra || force || (fn =? 0) = true ->
  is_p (slice_params intra dbf fn first force uses islt) = false.
Proof. unfold is_p. cbn. by destruct intra, force, (fn =? 0). Qed.

(** C27. The headers of a picture, written one after the other into the memory of the headers,
    decode together: the decoder reads the slice by the parameters the first two headers
    give it, and finds in the three what the call asked for ([asked_sps], [asked_slice]):
    the profile, the level, the size, the cropping, the timing, the arithmetic coding, the
    quantisers and the chroma offset, the kind of slice, its first macroblock, its frame
    number modulo 32 and its deblocking.  The sizes are at most 256 macroblocks each way,
    what the two bytes hold; the profiles are the baseline and the main one; the levels
    those the code knows, but for level 1.1, which it marks as level 1b (level_11_is_1b);
    the slice is not a P slice when arithmetic coding is on, for the code leaves a field
    out of it (cabac_misread); the other fields are in the ranges of their types. *)
Theorem headers_decode fill w ht present v c level profile cabac offset intra dbf fn first skip force uses islt idr qp d s h :
  (2304 <= length (mem s))%nat -> 1 <= w <= 256 -> 1 <= ht <= 256 -> present = 0 \/ present = 1 ->
  vui_ok v -> crop_ok c -> level = 111 \/ level ∈ asked_levels -> profile = 5 \/ profile = 6 ->
  -128 <= offset < 128 -> 0 <= dbf < 256 -> 0 <= first < 2 ^ 32 -> 0 <= skip < 2 ^ 32 -> 0 <= idr < 2 ^ 16 ->
  (cabac = true -> intra || force || (fn =? 0) = true) ->
  fill ELEMENT_QP = se_bits qp -> fill ELEMENT_SQP = se_bits d ->
  wp False (write_headers w ht present v c level profile cabac offset intra dbf fn first skip force uses islt idr)
    (fun _ s' _ => decode_headers fill (mem s') =
       Some (asked_sps w ht present v c level profile, pps_of cabac qp offset,
             asked_slice intra dbf fn first force islt idr d)) s h.
Proof.
  intros Hm Hw Hh Hp Hv Hc Hlv Hpr Ho Hdb Hf Hs Hi Hca Hq Hd. unfold write_headers. wp_simp.
  eapply wp_mono; [apply sequence_header_holds; [lia|done..]|]. cbv zeta. intros _ s1 h1 [Ho1 [_ L1 _ _]]. cbn [mem set_hdr] in L1.
  wp_simp. eapply wp_mono; [apply picture_header_holds; [lia|done]|]. intros _ s2 h2 [Ho2 [_ L2 B2 _]]. cbn [mem set_hdr] in L2, B2.
  eapply wp_mono; [apply slice_headers_hold; [lia|done..]|]. cbv zeta. intros _ s3 h3 (Ho3 & _ & _ & B3 & _).
  rewrite <- (asked_sps_ok w ht present v c level profile) by assumption.
  rewrite <- (asked_slice_ok intra dbf fn first force uses islt) by assumption.
  assert (Hr1 : holds 0 252 (mem s3) (run [Token ELEMENT_STARTCODE_RAWDATA;
     Put (sps_bits (sequence_params w ht present v level profile) c ++
          trailing (length (sps_bits (sequence_params w ht present v level profile) c)))] [])).
  { eapply (holds_agree _ _ (mem s1)); [|intros a Ha|done]; rewrite B3, B2 by lia; done. }
  assert (Hr2 : holds 256 508 (mem s3) (run (pps_ops cabac false offset) [])).
  { eapply (holds_agree _ _ (mem s2)); [|intros a Ha|done]; rewrite B3 by lia; done. }
  unfold decode_headers. rewrite (holds_read _ _ _ _ Hr1), (holds_read _ _ _ _ Hr2), (holds_read _ _ _ _ Ho3).
  cbn [mbind option_bind]. rewrite emit_raw, (emit_pps _ _ _ qp), (emit_slice _ d) by done.
  rewrite read_sps_bits, read_pps_bits by (try apply sequence_params_ok; done).
  rewrite (read_slice_bits cabac) by (try apply slice_params_ok; try (intros; apply asked_not_p; auto); done).
  done.
Qed.

(** * Witnesses *)

(** The firmware of the examples: the quantisers are 0 and 3. *)
Definition example_fill (t : HEADER_ELEMENT_TYPE) : list bool :=
  match t with ELEMENT_QP => se_bits 0 | ELEMENT_SQP => se_bits 3 | _ => [] end.

Definition blank : HW := {| mem := replicate (Z.to_nat 2304) 0; hdr := 0; elt_p := [] |}.

Definition example_vui : H264_VUI_PARAMS :=
  {| aspect_ratio_info_present_flag := true; aspect_ratio_idc := 255; sar_width := 4; sar_height := 3;
     Time_Scale := 60; num_units_in_tick := 1; bit_rate_value_minus1 := 9999; cbp_size_value_minus1 := 2 ^ 32 - 1;
     CBR := 1; initial_cpb_removal_delay_length_minus1 := 18; cpb_removal_delay_length_minus1 := 18;
     dpb_output_delay_length_minus1 := 18; time_offset_length := 24 |}.

Definition example_crop : H264_CROP_PARAMS :=
  {| bClip := true; LeftCropOffset := 0; RightCropOffset := 0; TopCropOffset := 0; BottomCropOffset := 4 |}.

Lemma example_vui_ok : vui_ok example_vui.
Proof. by split. Qed.

Lemma example_crop_ok : crop_ok example_crop.
Proof. by split. Qed.

Lemma sps_round_trip_witness :
  wp False (pnw__H264_prepare_sequence_header 0 120 68 1 example_vui example_crop 41 5)
    (fun _ s' _ => kept 0 252 (set_hdr 0 blank) s' /\
       exists els n, read_header (mem s') 0 = Some els /\ (length (emit example_fill els) mod 8 = 0)%nat /\
         read_sps (emit example_fill els) tt =
           Done (sps_of (sequence_params 120 68 1 example_vui 41 5) example_crop) (trailing n) tt) blank tt.
Proof.
  apply (sps_round_trip example_fill 0 120 68 1 example_vui example_crop 41 5 blank tt);
    [by apply Nat.leb_le|lia|lia|by right|apply example_vui_ok|apply example_crop_ok].
Defined.

Lemma headers_decode_witness :
  wp False (write_headers 120 68 1 example_vui example_crop 41 5 true (-2) true 0 7 3 40 false false false 1)
    (fun _ s' _ => decode_headers example_fill (mem s') =
       Some (asked_sps 120 68 1 example_vui example_crop 41 5, pps_of true 0 (-2),
             asked_slice true 0 7 3 false false 1 3)) blank tt.
Proof.
  apply (headers_decode example_fill 120 68 1 example_vui example_crop 41 5 true (-2) true 0 7 3 40 false false false 1 0 3 blank tt);
    [by apply Nat.leb_le|lia|lia|by right|apply example_vui_ok|apply example_crop_ok| |by left|lia|lia|lia|lia|lia|done|done|done].
  right. apply (bool_decide_unpack (41 ∈ asked_levels)). vm_compute. exact I.
Defined.
