(* ===== verification/MpegHeaders.v ===== *)
(** The other headers of psb_video/src/pnw_hostheader.c: the messages of supplemental
    enhancement of H.264, the headers of MPEG-4 and of H.263.

    Each function is shown to append the fields of its table, in their order and widths;
    from that, that the messages announce the size they have, and that a picture header of
    MPEG-4 gives back its time. *)
From Stdlib Require Import ZifyNat.
From stdpp Require Import list.
From S2P Require Import Prelude HostHeader HostHeaderSpec H264Syntax H264Headers.

#[local] Abbreviation W := (M unit HW).
#[local] Abbreviation P := (M unit (list bool)).
#[local] Abbreviation b1 := (bits_of 1).

#[local] Ltac div_lia := zify; Z.to_euclidean_division_equations; lia.

(** * The messages of supplemental enhancement *)

(** The bits that pad a payload of [n] bits to a byte: a one and zeros. *)
Definition pad_bits (n : nat) : list bool :=
  if (n mod 8 =? 0)%nat then [] else true :: replicate (7 - n mod 8) false.

Lemma pad_length n : (length (pad_bits n) = (8 - n mod 8) mod 8)%nat.
Proof.
  unfold pad_bits. destruct (Nat.eqb_spec (n mod 8) 0) as [E|E]; [by rewrite E|].
  cbn [length]. rewrite length_replicate. clear -E. div_lia.
Qed.

Lemma shift_pad k : (1 <= k <= 7)%nat -> bits_of k (Z.shiftl 1 (Z.of_nat k - 1)) = true :: replicate (k - 1) false.
Proof. intros Hk. do 8 (destruct k as [|k]; [done || lia|]). lia. Qed.

Lemma sei_end_writes n : (n <= 240)%nat -> writes (sei_end (Z.of_nat n)) [Put (pad_bits n ++ bits_of 8 128)].
Proof.
  intros Hn. unfold sei_end. cbv zeta. set (k := ((8 - n mod 8) mod 8)%nat).
  assert (Hk : uint8 (uint8 ((Z.of_nat n + 7) / 8) * 8 - Z.of_nat n) = Z.of_nat k).
  { rewrite (uint8_id ((Z.of_nat n + 7) / 8)) by div_lia. rewrite uint8_id by div_lia. unfold k. div_lia. }
  rewrite Hk. apply hh_cons; [|intros _; hh_go]. eapply hh_eq; [apply hh_put_when, write8_writes; unfold k; div_lia|].
  do 2 f_equal. unfold pad_bits. destruct (Nat.eqb_spec (n mod 8) 0) as [E|E].
  - replace k with 0%nat by (unfold k; by rewrite E). done.
  - assert (1 <= k <= 7)%nat by (unfold k; div_lia). rewrite (proj2 (Z.ltb_lt 0 _)), shift_pad by lia.
    do 2 f_equal. unfold k. div_lia.
Qed.

Definition sei_head (type : Z) : list bool := start_bits ++ bits_of 8 6 ++ bits_of 8 type.

Lemma from_assoc {A B C} els (m : W A) (k : A -> W B) (k' : B -> W C) o :
  writes_from els (m ≫= (fun a => k a ≫= k')) o -> writes_from els ((m ≫= k) ≫= k') o.
Proof. intros Hm base lim s h HR Hf Hl. unfold wp. rewrite run_assoc. by apply Hm. Qed.

(** What is written after the start of a message. *)
Lemma from_sei {A} type (k : unit -> W A) b o :
  (forall els, writes_from els (k tt) (Put b :: o)) ->
  writes_from [] (sei_start type ≫= k) (Token ELEMENT_STARTCODE_RAWDATA :: Put (sei_head type ++ b) :: o).
Proof.
  intros Hk. unfold sei_start, sei_head. rewrite <- !app_assoc. apply from_assoc, from_token, from_assoc.
  apply from_more; [apply startcode_writes|intros _]. apply from_assoc, from_more; [hh_atom|intros _].
  apply from_more; [hh_atom|intros []]. apply Hk.
Qed.

(** The size of a payload of [n] bits, in bytes. *)
Definition size_bits (n : nat) : list bool := bits_of 8 ((Z.of_nat n + 7) / 8).

(** A message: its head, its size, its payload padded to bytes, and the end. *)
Definition sei_ops (type : Z) (payload : list bool) : list op :=
  [Token ELEMENT_STARTCODE_RAWDATA; Put (sei_head type ++ size_bits (length payload) ++ payload);
   Token ELEMENT_STARTCODE_RAWDATA; Put (pad_bits (length payload) ++ bits_of 8 128)].

Definition timing_payload (a b : nat) (removal output : Z) : list bool := bits_of a removal ++ bits_of b output.

Lemma timing_writes a b removal output : (1 <= a <= 32)%nat -> (1 <= b <= 32)%nat ->
  writes_from [] (pnw__H264_writebits_SEI_picture_timing_header true (Z.of_nat a - 1) (Z.of_nat b - 1) removal output false)
    (sei_ops 1 (timing_payload a b removal output)).
Proof.
  intros Ha Hb. unfold pnw__H264_writebits_SEI_picture_timing_header, sei_ops. cbv zeta.
  assert (Hn : length (timing_payload a b removal output) = (a + b)%nat) by (unfold timing_payload; by rewrite length_app, !bits_of_length).
  rewrite Hn. replace (0 + (Z.of_nat a - 1 + 1 + (Z.of_nat b - 1) + 1)) with (Z.of_nat (a + b)) by lia.
  rewrite uint8_id by lia. replace (Z.of_nat a - 1 + 1) with (Z.of_nat a) by lia.
  replace (Z.of_nat b - 1 + 1) with (Z.of_nat b) by lia. rewrite !uint32_id by lia.
  apply from_sei. intros els. unfold timing_payload. apply from_more; [hh_atom|intros _]. cbn [when negb].
  apply from_assoc, from_more; [by apply write32_writes|intros _].
  apply from_group; [by apply write32_writes|intros _]. apply from_token. apply from_writes, sei_end_writes. lia.
Qed.

Definition buffering_payload (n : nat) (delay offset : Z) : list bool := ue_bits 0 ++ bits_of n delay ++ bits_of n offset.

Lemma buffering_writes n delay offset cnt d o : (1 <= n <= 32)%nat ->
  writes_from [] (pnw__H264_writebits_SEI_buffering_period_header true 0 (Z.of_nat n) delay offset false cnt d o)
    (sei_ops 0 (buffering_payload n delay offset)).
Proof.
  intros Hn. unfold pnw__H264_writebits_SEI_buffering_period_header, sei_ops. cbv zeta.
  assert (Hl : length (buffering_payload n delay offset) = (1 + 2 * n)%nat).
  { unfold buffering_payload. rewrite !length_app, !bits_of_length. change (length (ue_bits 0)) with 1%nat. lia. }
  rewrite Hl. replace (uint8 (1 + (0 + 1) * Z.of_nat n * 2)) with (Z.of_nat (1 + 2 * n)) by (rewrite uint8_id; lia).
  apply from_sei. intros els. unfold buffering_payload. apply from_more; [hh_atom|intros _].
  apply from_more; [hh_atom|intros _]. cbn [when negb]. unfold sched_loop. change (uint8 0 =? 255) with false.
  change (seq 0 (S (Z.to_nat (uint8 0)))) with [0]%nat. cbv iota. cbn [for_each].
  apply from_assoc, from_assoc, from_more; [by apply write32_writes|intros _].
  apply from_group; [by apply write32_writes|intros _].
  apply (from_bind _ (mret tt) _ []); [apply from_writes, hh_ret|intros _].
  apply (from_bind _ (mret tt) _ []); [apply from_writes, hh_ret|intros _].
  apply from_token. apply from_writes, sei_end_writes. lia.
Qed.

(** A message in the stream: its type, the number of its bytes, as many bytes, and the
    trailing bits. *)
Definition sei_message (type : Z) (payload : list bool) (stream : list bool) : Prop :=
  exists bytes size, stream = start_bits ++ bits_of 8 6 ++ bits_of 8 type ++ bits_of 8 (Z.of_nat size) ++ bytes ++ bits_of 8 128 /\
    length bytes = (8 * size)%nat /\ exists pad, bytes = payload ++ pad /\ (length pad < 8)%nat.

Lemma emit_sei fill type payload : sei_message type payload (emit fill (rev (run (sei_ops type payload) []))).
Proof.
  rewrite emit_run by done. unfold ops_bits, sei_ops. cbn [emit rev map concat app op_bits].
  change (is_raw ELEMENT_STARTCODE_RAWDATA) with true. cbn [app]. rewrite app_nil_r.
  set (n := length payload). exists (payload ++ pad_bits n), ((n + 7) / 8)%nat. split; [|split].
  - unfold size_bits, sei_head. rewrite <- !app_assoc.
    by replace ((Z.of_nat n + 7) / 8) with (Z.of_nat ((n + 7) / 8)) by div_lia.
  - rewrite length_app, pad_length. fold n. div_lia.
  - exists (pad_bits n). split; [done|]. rewrite pad_length. apply Nat.mod_upper_bound. lia.
Qed.

Lemma sei_holds base type payload body s h fill :
  (base + 252 <= length (mem s))%nat -> (length payload <= 80)%nat -> writes_from [] body (sei_ops type payload) ->
  wp False (modify (set_hdr base) ;; header body)
    (fun _ s' _ => kept base (base + 252) (set_hdr base s) s' /\
       exists els, read_header (mem s') base = Some els /\ sei_message type payload (emit fill els)) s h.
Proof.
  intros Hm Hn Hb. wp_simp.
  eapply wp_mono; [apply (header_holds (base + 252) (set_hdr base s)); [cbn; lia|exact Hb|done| |]|].
  - pose proof (run_length [Put (pad_bits (length payload) ++ bits_of 8 128)]
      (run [Token ELEMENT_STARTCODE_RAWDATA; Put (sei_head type ++ size_bits (length payload) ++ payload);
            Token ELEMENT_STARTCODE_RAWDATA] [])) as Hr.
    rewrite <- run_app in Hr. cbn [app] in Hr. intros E. fold (sei_ops type payload) in Hr. rewrite E in Hr.
    cbn [run foldl run_op length] in Hr. lia.
  - eapply (fits_cost _ _ _ 4); [|lia|cbn; lia]. unfold cost, sei_ops. cbn [map op_cost list_sum foldr].
    rewrite !length_app. pose proof (pad_length (length payload)) as Hp.
    assert ((8 - length payload mod 8) mod 8 < 8)%nat by (apply Nat.mod_upper_bound; lia).
    unfold sei_head, size_bits. rewrite !length_app, !bits_of_length. change (length start_bits) with 32%nat. lia.
  - cbv beta. intros _ s' _ (Ho & _ & Hk). split; [done|]. eexists. split; [by apply holds_read in Ho|]. apply emit_sei.
Qed.

(** C29. The two messages the encoder inserts announce the number of bytes they have, whatever
    the lengths of their fields, and carry the delays they were given. *)
Theorem sei_messages_sized fill base a b x y s h :
  (base + 252 <= length (mem s))%nat -> (1 <= a <= 32)%nat -> (1 <= b <= 32)%nat ->
  wp False (pnw__H264_prepare_SEI_picture_timing_header base true (Z.of_nat a - 1) (Z.of_nat b - 1) x y false)
    (fun _ s' _ => kept base (base + 252) (set_hdr base s) s' /\
       exists els, read_header (mem s') base = Some els /\ sei_message 1 (bits_of a x ++ bits_of b y) (emit fill els)) s h /\
  wp False (pnw__H264_prepare_SEI_buffering_period_header base true 0 (Z.of_nat a) x y false 0 0 0)
    (fun _ s' _ => kept base (base + 252) (set_hdr base s) s' /\
       exists els, read_header (mem s') base = Some els /\
         sei_message 0 (ue_bits 0 ++ bits_of a x ++ bits_of a y) (emit fill els)) s h.
Proof.
  intros Hm Ha Hb. unfold pnw__H264_prepare_SEI_picture_timing_header, pnw__H264_prepare_SEI_buffering_period_header.
  split; apply sei_holds; [done| |by apply timing_writes|done| |by apply buffering_writes].
  - rewrite length_app, !bits_of_length. lia.
  - rewrite !length_app, !bits_of_length. change (length (ue_bits 0)) with 1%nat. lia.
Qed.

Lemma sei_messages_sized_witness :
  wp False (pnw__H264_prepare_SEI_picture_timing_header 0 true (Z.of_nat 19 - 1) (Z.of_nat 19 - 1) 4 2 false)
    (fun _ s' _ => kept 0 252 (set_hdr 0 blank) s' /\
       exists els, read_header (mem s') 0 = Some els /\ sei_message 1 (bits_of 19 4 ++ bits_of 19 2) (emit example_fill els)) blank tt /\
  wp False (pnw__H264_prepare_SEI_buffering_period_header 0 true 0 (Z.of_nat 19) 4 2 false 0 0 0)
    (fun _ s' _ => kept 0 252 (set_hdr 0 blank) s' /\
       exists els, read_header (mem s') 0 = Some els /\
         sei_message 0 (ue_bits 0 ++ bits_of 19 4 ++ bits_of 19 2) (emit example_fill els)) blank tt.
Proof. apply (sei_messages_sized example_fill 0 19 19 4 2 blank tt); [by apply Nat.leb_le|lia|lia]. Defined.

(** * The picture header of MPEG-4 *)

Lemma bits_loop_spec v j fuel : 1 <= v < 2 ^ 32 -> (j <= 31)%nat -> Z.of_nat j <= 31 - Z.log2 v -> (32 <= fuel + j)%nat ->
  bits_loop fuel (v * 2 ^ Z.of_nat j) (32 - Z.of_nat j) = Some (Z.log2 v + 1).
Proof.
  intros Hv. revert j. induction fuel as [|fuel IH]; intros j Hj Hl Hf; [lia|]. cbn [bits_loop].
  change 0x80000000 with (bit 31). rewrite has_bit by lia.
  destruct (Z.log2_spec v ltac:(lia)) as [Hlo Hhi]. pose proof (Z.log2_nonneg v).
  destruct (decide (Z.of_nat j = 31 - Z.log2 v)) as [E|E].
  - rewrite Z.mul_pow2_bits by lia. replace (31 - Z.of_nat j) with (Z.log2 v) by lia. rewrite Z.bit_log2 by lia. f_equal. lia.
  - rewrite Z.mul_pow2_bits, Z.bits_above_log2 by lia. rewrite Z.shiftl_mul_pow2 by lia.
    replace (v * 2 ^ Z.of_nat j * 2 ^ 1) with (v * 2 ^ Z.of_nat (S j)) by (rewrite Nat2Z.inj_succ, Z.pow_succ_r by lia; lia).
    assert (Hb : v * 2 ^ Z.of_nat (S j) < 2 ^ 32).
    { eapply Z.lt_le_trans; [apply Z.mul_lt_mono_pos_r; [apply Z.pow_pos_nonneg; lia|exact Hhi]|].
      rewrite <- Z.pow_add_r by lia. apply Z.pow_le_mono_r; lia. }
    assert (0 <= v * 2 ^ Z.of_nat (S j)) by (apply Z.mul_nonneg_nonneg; [lia|apply Z.pow_nonneg; lia]).
    rewrite uint32_id by lia. replace (uint8 (32 - Z.of_nat j - 1)) with (32 - Z.of_nat (S j)) by (rewrite uint8_id; lia).
    apply IH; lia.
Qed.

Lemma Bits2Code_spec v : 1 <= v < 2 ^ 32 -> Bits2Code v = Some (Z.log2 v + 1).
Proof.
  intros Hv. unfold Bits2Code. rewrite (proj2 (Z.eqb_neq v 0)) by lia.
  pose proof (bits_loop_spec v 0 33 Hv ltac:(lia)) as Hl. rewrite Z.mul_1_r in Hl. apply Hl; [|lia].
  enough (Z.log2 v < 32) by (cbn; lia). apply Z.log2_lt_pow2; lia.
Qed.

(** The bits of the increment, of a resolution. *)
Definition increment_bits (res : Z) : nat := if res =? 1 then 1 else Z.to_nat (Z.log2 (res - 1) + 1).

Lemma Bits2Code_increment res : 1 <= res <= 2 ^ 16 -> Bits2Code (uint32 (res - 1)) = Some (Z.of_nat (increment_bits res)).
Proof.
  intros Hr. unfold increment_bits. destruct (Z.eqb_spec res 1) as [->|Hn]; [done|].
  rewrite uint32_id, Bits2Code_spec by lia. f_equal. pose proof (Z.log2_nonneg (res - 1)). lia.
Qed.

Lemma increment_fits res v : 1 <= res <= 256 -> 0 <= v < res ->
  (1 <= increment_bits res <= 8)%nat /\ v < 2 ^ Z.of_nat (increment_bits res).
Proof.
  intros Hr Hv. unfold increment_bits. destruct (Z.eqb_spec res 1) as [->|Hn]; [cbn; lia|].
  pose proof (Z.log2_nonneg (res - 1)). assert (Z.log2 (res - 1) < 8) by (apply Z.log2_lt_pow2; lia).
  split; [lia|]. rewrite Z2Nat.id by lia. destruct (Z.log2_spec (res - 1) ltac:(lia)) as [_ Hh].
  rewrite <- Z.add_1_r in Hh. lia.
Qed.

(** The point of synchronisation, a second later than the one before. *)
Definition sync (inc res : Z) : bool := (1 <? inc) && (inc mod res =? 0).

Definition vop_bits (coded : bool) (inc ty res : Z) : list bool :=
  bits_of 32 438 ++ bits_of 2 ty ++ (if sync inc res then [true; false] else [false]) ++ b1 1 ++
  bits_of (increment_bits res) (inc mod res) ++ b1 1 ++
  (if negb coded then b1 0 else b1 1 ++ (if ty =? P_FRAME then b1 0 else []) ++ bits_of 3 0).

Definition vop_ops (coded : bool) (inc range ty res : Z) : list op :=
  Token ELEMENT_STARTCODE_RAWDATA :: Put (vop_bits coded inc ty res) ::
  (if negb coded then [Token ELEMENT_INSERTBYTEALIGN_MPG4]
   else Token ELEMENT_FRAMEQSCALE :: (if ty =? P_FRAME then [Token ELEMENT_RAWDATA; Put (bits_of 3 range)] else [])).

Lemma vop_writes coded inc range ty res : 1 <= res <= 256 -> 0 <= inc < 256 ->
  writes_from [] (pnw__MPEG4_writebits_VOP_header coded inc range ty res) (vop_ops coded inc range ty res).
Proof.
  intros Hr Hi. unfold pnw__MPEG4_writebits_VOP_header, vop_ops, vop_bits. rewrite (proj2 (Z.eqb_neq res 0)), andb_false_r by lia.
  rewrite Bits2Code_increment by lia. cbv zeta. fold (sync inc res).
  pose proof (Z.mod_pos_bound inc res ltac:(lia)) as Hm. destruct (increment_fits res (inc mod res) Hr Hm) as [Hk Hv].
  apply from_token. apply from_more; [hh_atom|intros _]. apply from_more; [hh_atom|intros _].
  apply from_more; [by destruct (sync inc res); hh_atom|intros _]. apply from_more; [hh_atom|intros _].
  apply from_more; [rewrite uint8_id by lia; apply write8_writes; lia|intros _]. apply from_more; [hh_atom|intros _].
  destruct (negb coded).
  - apply from_group; [hh_atom|intros _]. apply from_writes, token_writes.
  - apply from_more; [hh_atom|intros _]. apply from_more; [apply hh_put_when; hh_atom|intros _].
    apply from_group; [hh_atom|intros _]. destruct (ty =? P_FRAME).
    + apply from_token. cbn [when]. apply from_token. apply from_writes. hh_atom.
    + apply from_writes. apply (hh_bind _ _ [Token ELEMENT_FRAMEQSCALE] []); [apply token_writes|intros _; apply hh_ret].
Qed.

(** [vop()] up to the fields of the picture: the coding type, the whole seconds (one at
    most), the increment, and whether the picture is coded. *)
Definition read_vop (res : Z) : P (Z * Z * Z * Z) :=
  expect 32 438 ;; ty ← u 2;
  b ← u 1; secs ← (if b =? 1 then expect 1 0 ;; mret 1 else mret 0);
  expect 1 1 ;; inc ← u (increment_bits res); expect 1 1 ;;
  coded ← u 1;
  mret (ty, secs, inc, coded).

Lemma read_vop_bits coded inc ty res r h : 1 <= res <= 256 -> 0 <= inc < 256 -> 0 <= ty < 4 ->
  exists r', read_vop res (vop_bits coded inc ty res ++ r) h =
    Done (ty, Z.b2z (sync inc res), inc mod res, Z.b2z coded) r' h.
Proof.
  intros Hr Hi Ht. pose proof (Z.mod_pos_bound inc res ltac:(lia)) as Hm.
  destruct (increment_fits res (inc mod res) Hr Hm) as [_ Hv]. unfold read_vop, vop_bits. rewrite <- !app_assoc.
  rewrite run_expect by (cbn; lia). rewrite run_u by (cbn; lia).
  destruct (sync inc res).
  - change ([true; false] ++ ?l) with (b1 1 ++ b1 0 ++ l). rewrite run_u by (cbn; lia). change (1 =? 1) with true. cbv iota.
    run_simp. do 2 (rewrite run_expect by (cbn; lia); run_simp). rewrite run_u, run_expect by (cbn; lia).
    destruct coded; cbn [negb]; rewrite <- ?app_assoc; rewrite run_u by (cbn; lia); by eexists.
  - change ([false] ++ ?l) with (b1 0 ++ l). rewrite run_u by (cbn; lia). change (0 =? 1) with false. cbv iota.
    run_simp. rewrite run_expect by (cbn; lia). rewrite run_u, run_expect by (cbn; lia).
    destruct coded; cbn [negb]; rewrite <- ?app_assoc; rewrite run_u by (cbn; lia); by eexists.
Qed.

Lemma vop_bits_length coded inc ty res : 1 <= res <= 256 -> 0 <= inc < 256 -> (length (vop_bits coded inc ty res) <= 60)%nat.
Proof.
  intros Hr Hi. pose proof (Z.mod_pos_bound inc res ltac:(lia)) as Hm. destruct (increment_fits res _ Hr Hm) as [Hk _].
  unfold vop_bits. rewrite !length_app, !bits_of_length.
  destruct (sync inc res), (negb coded), (ty =? P_FRAME); cbn [length]; rewrite ?length_app, ?bits_of_length; cbn [length]; lia.
Qed.

(** What a decoder reads from the picture header of MPEG-4, for the eight bits of the
    increment that are passed on. *)
Lemma vop_decodes fill base coded inc range ty res s h :
  (base + 252 <= length (mem s))%nat -> 1 <= res <= 256 -> 0 <= ty < 4 ->
  wp False (pnw__MPEG4_prepare_vop_header base coded inc range ty res)
    (fun _ s' _ => kept base (base + 252) (set_hdr base s) s' /\
       exists els r, read_header (mem s') base = Some els /\
         read_vop res (emit fill els) tt =
           Done (ty, Z.b2z (sync (uint8 inc) res), uint8 inc mod res, Z.b2z coded) r tt) s h.
Proof.
  intros Hm Hr Ht. assert (Hi : 0 <= uint8 inc < 256) by (apply Z.mod_pos_bound; lia).
  unfold pnw__MPEG4_prepare_vop_header. wp_simp. pose proof (vop_bits_length coded (uint8 inc) ty res Hr Hi) as Hlen.
  set (ops := vop_ops coded (uint8 inc) range ty res).
  assert (Hl : legal false ops = true) by (unfold ops, vop_ops; by destruct (negb coded), (ty =? P_FRAME)).
  assert (Hc : (cost ops <= 599)%nat).
  { unfold ops, vop_ops, cost. destruct (negb coded), (ty =? P_FRAME); cbn [map op_cost list_sum foldr];
      rewrite ?bits_of_length; lia. }
  eapply wp_mono; [apply (header_holds (base + 252) (set_hdr base s) _ _ ops); [cbn; lia|by apply vop_writes|done| |]|].
  - pose proof (run_length (tail ops) [E ELEMENT_STARTCODE_RAWDATA []]) as Hr'.
    change (run (tail ops) [E ELEMENT_STARTCODE_RAWDATA []]) with (run ops []) in Hr'.
    destruct (run ops []); [cbn in Hr'; lia|done].
  - eapply (fits_cost _ _ _ 5); [lia|lia|cbn; lia].
  - intros _ s' _ (Ho & _ & Hk). split; [done|]. apply holds_read in Ho.
    destruct (read_vop_bits coded (uint8 inc) ty res (ops_bits fill (tail (tail ops))) tt Hr Hi Ht) as [r Hv].
    eexists _, r. split; [exact Ho|]. rewrite emit_run by done. exact Hv.
Qed.

(** A mark of a second when the increment reaches a multiple of the resolution. *)
Lemma vop_time inc res : 2 <= res -> 0 <= inc ->
  (Z.max 0 (inc - 1) / res + Z.b2z (sync inc res)) * res + inc mod res = inc.
Proof.
  intros Hr Hi. unfold sync. pose proof (Z.mod_pos_bound inc res ltac:(lia)). pose proof (Z.div_mod inc res ltac:(lia)) as E.
  destruct (Z.eqb_spec (inc mod res) 0) as [Hz|Hz].
  - destruct (Z.ltb_spec 1 inc); cbn [andb Z.b2z].
    + rewrite Z.max_r by lia. replace ((inc - 1) / res) with (inc / res - 1); [lia|].
      apply (Z.div_unique_pos _ _ _ (res - 1)); lia.
    + assert (inc = 0) as -> by (destruct (decide (inc = 1)) as [->|]; [rewrite Z.mod_small in Hz; lia|lia]).
      by rewrite Z.div_small, Z.mod_small by lia.
  - rewrite andb_false_r. cbn [Z.b2z]. assert (0 < inc) by (destruct (decide (inc = 0)) as [->|]; [by rewrite Z.mod_small in Hz by lia|lia]).
    rewrite Z.max_r by lia. replace ((inc - 1) / res) with (inc / res); [lia|].
    apply (Z.div_unique_pos _ _ _ (inc mod res - 1)); lia.
Qed.

(** C28. The picture header of MPEG-4 decodes to the picture it was made for: its type, its
    time and whether it is coded.  The time is given in ticks, [res] to the second; the
    header carries the ticks past the last whole second and a mark for each second that
    passed since the picture one tick earlier (none before the first).  A decoder that
    adds the marks to the seconds of that picture finds the time again.  This holds for
    times below 256 ticks, as eight bits of the time are passed on (vop_time_truncated),
    and for 2 to 256 ticks per second: with one the first second has no mark
    (vop_first_second), from 257 on the header is undefined (vop_header_undefined). *)
Theorem vop_round_trip fill base coded inc range ty res s h :
  (base + 252 <= length (mem s))%nat -> 2 <= res <= 256 -> 0 <= inc < 256 -> 0 <= ty < 4 ->
  wp False (pnw__MPEG4_prepare_vop_header base coded inc range ty res)
    (fun _ s' _ => kept base (base + 252) (set_hdr base s) s' /\
       exists els r marks ticks, read_header (mem s') base = Some els /\
         read_vop res (emit fill els) tt = Done (ty, marks, ticks, if coded then 1 else 0) r tt /\
         0 <= ticks < res /\ (Z.max 0 (inc - 1) / res + marks) * res + ticks = inc) s h.
Proof.
  intros Hm Hr Hi Ht. eapply wp_mono; [apply (vop_decodes fill); (done || lia)|]. cbv beta.
  intros _ s' h' (Hk & els & r & He & Hv). rewrite uint8_id in Hv by lia. split; [done|].
  exists els, r, (Z.b2z (sync inc res)), (inc mod res). split_and!; [done| | | |].
  - rewrite Hv. by destruct coded.
  - by apply Z.mod_pos_bound; lia.
  - by apply Z.mod_pos_bound; lia.
  - apply vop_time; lia.
Qed.

Lemma vop_round_trip_witness :
  wp False (pnw__MPEG4_prepare_vop_header 0 true 60 2 1 30)
    (fun _ s' _ => kept 0 252 (set_hdr 0 blank) s' /\
       exists els r marks ticks, read_header (mem s') 0 = Some els /\
         read_vop 30 (emit example_fill els) tt = Done (1, marks, ticks, 1) r tt /\
         0 <= ticks < 30 /\ (Z.max 0 (60 - 1) / 30 + marks) * 30 + ticks = 60) blank tt.
Proof. apply (vop_round_trip example_fill 0 true 60 2 1 30 blank tt); [by apply Nat.leb_le|lia|lia|lia]. Defined.

(** * The sequence header of MPEG-4 *)

Definition table (l : list (Z * Z)) : list bool := concat (map (fun '(v, n) => bits_of (Z.to_nat n) v) l).

Lemma write_all_writes l : Forall (fun '(_, n) => 0 <= n <= 8) l -> writes (write_all l) [Put (table l)].
Proof.
  unfold write_all. induction 1 as [|[v n] l Hn _ IH]; [apply hh_put_ret|]. unfold table. cbn [map concat for_each].
  apply hh_cons; [by apply write8_group|by intros _].
Qed.

(** The fields up to the resolution, between it and the width, and after the height. *)
Definition vol_head (pr : MPEG4_PROFILE_TYPE) (level : Z) : list bool :=
  bits_of 32 432 ++ bits_of 8 level ++
  table [(0, 8); (0, 8); (1, 8); (181, 8); (0, 1); (1, 4); (0, 1); (1, 2)] ++
  table [(0, 8); (0, 8); (1, 8); (0, 8); (0, 8); (0, 8); (1, 8); (32, 8); (0, 1)] ++
  (if decide (pr = SP) then table [(1, 8); (1, 1); (1, 4); (1, 3)] else table [(3, 8); (1, 1); (5, 4); (1, 3)]) ++
  table [(1, 4); (0, 1); (0, 2); (1, 1)].

Definition vol_tail (pr : MPEG4_PROFILE_TYPE) : list bool :=
  table [(0, 1); (1, 1); (0, 1); (0, 1); (0, 1)] ++ (if bool_decide (pr = ASP) then b1 0 else []) ++
  table [(1, 1); (1, 1); (0, 1)] ++ (if bool_decide (pr = ASP) then table [(0, 1); (0, 1)] else []) ++ b1 0.

Definition vol_bits (pr : MPEG4_PROFILE_TYPE) (level w ht res : Z) : list bool :=
  vol_head pr level ++ bits_of 16 res ++ table [(1, 1); (0, 1); (1, 1)] ++ bits_of 13 w ++ b1 1 ++ bits_of 13 ht ++ b1 1 ++
  vol_tail pr.

Definition vol_ops (pr : MPEG4_PROFILE_TYPE) (level w ht res : Z) : list op :=
  [Token ELEMENT_STARTCODE_RAWDATA; Put (vol_bits pr level w ht res); Token ELEMENT_INSERTBYTEALIGN_MPG4].

#[local] Ltac table_atom := apply write_all_writes; repeat constructor; lia.

Lemma vol_writes pr level w ht res :
  writes_from [] (pnw__MPEG4_writebits_sequence_header pr level w ht res) (vol_ops pr level w ht res).
Proof.
  unfold pnw__MPEG4_writebits_sequence_header, vol_ops, vol_bits, vol_head, vol_tail. rewrite <- !app_assoc.
  apply from_token. do 2 (apply from_more; [hh_atom|intros _]). do 2 (apply from_more; [table_atom|intros _]).
  apply from_more; [destruct (decide (pr = SP)); table_atom|intros _]. apply from_more; [table_atom|intros _].
  apply from_more; [hh_atom|intros _]. apply from_more; [table_atom|intros _].
  do 4 (apply from_more; [hh_atom|intros _]). apply from_more; [table_atom|intros _].
  apply from_more; [apply hh_put_when; hh_atom|intros _]. apply from_more; [table_atom|intros _].
  apply from_more; [apply hh_put_when; table_atom|intros _]. apply from_group; [hh_atom|intros _].
  apply from_writes, token_writes.
Qed.

(** The video object layer: the profile and level, the type of the object, the resolution
    of time and the size of the pictures. *)
Definition read_vol : P (Z * Z * Z * Z * Z) :=
  expect 32 0x1B0 ;; level ← u 8; expect 32 0x1B5 ;; expect 8 9 ;;
  expect 32 0x100 ;; expect 32 0x120 ;; expect 1 0 ;;
  type ← u 8; expect 1 1 ;; verid ← u 4; expect 3 1 ;; expect 4 1 ;; expect 1 0 ;; expect 2 0 ;;
  expect 1 1 ;; res ← u 16; expect 1 1 ;; expect 1 0 ;;
  expect 1 1 ;; w ← u 13; expect 1 1 ;; ht ← u 13; expect 1 1 ;;
  mret (level, type, res, w, ht).

Lemma read_vol_bits pr level w ht res r h :
  0 <= level < 256 -> 0 <= w < 2 ^ 13 -> 0 <= ht < 2 ^ 13 -> 0 <= res < 2 ^ 16 ->
  read_vol (vol_bits pr level w ht res ++ r) h =
    Done (level, if decide (pr = SP) then 1 else 3, res, w, ht) (vol_tail pr ++ r) h.
Proof.
  intros Hl Hw Hh Hr. unfold read_vol, vol_bits, vol_head.
  change (table [(0, 8); (0, 8); (1, 8); (181, 8); (0, 1); (1, 4); (0, 1); (1, 2)]) with (bits_of 32 0x1B5 ++ bits_of 8 9).
  change (table [(0, 8); (0, 8); (1, 8); (0, 8); (0, 8); (0, 8); (1, 8); (32, 8); (0, 1)])
    with (bits_of 32 0x100 ++ bits_of 32 0x120 ++ b1 0).
  change (table [(1, 4); (0, 1); (0, 2); (1, 1)]) with (bits_of 4 1 ++ b1 0 ++ bits_of 2 0 ++ b1 1).
  change (table [(1, 1); (0, 1); (1, 1)]) with (b1 1 ++ b1 0 ++ b1 1).
  change (table [(1, 8); (1, 1); (1, 4); (1, 3)]) with (bits_of 8 1 ++ b1 1 ++ bits_of 4 1 ++ bits_of 3 1).
  change (table [(3, 8); (1, 1); (5, 4); (1, 3)]) with (bits_of 8 3 ++ b1 1 ++ bits_of 4 5 ++ bits_of 3 1).
  destruct (decide (pr = SP)); rewrite <- !app_assoc;
    repeat first [rewrite run_expect by (cbn; lia)|rewrite run_u by (cbn; lia)]; done.
Qed.

(** The sequence header of MPEG-4 decodes to the level, the time resolution and the size of
    the pictures it was made for. *)
Theorem vol_round_trip fill base pr level w ht res s h :
  (base + 252 <= length (mem s))%nat -> 0 <= level < 256 -> 0 <= w < 2 ^ 13 -> 0 <= ht < 2 ^ 13 -> 0 <= res < 2 ^ 16 ->
  wp False (pnw__MPEG4_prepare_sequence_header base pr level w ht res)
    (fun _ s' _ => kept base (base + 252) (set_hdr base s) s' /\
       exists els r, read_header (mem s') base = Some els /\
         read_vol (emit fill els) tt = Done (level, if decide (pr = SP) then 1 else 3, res, w, ht) r tt) s h.
Proof.
  intros Hm Hl Hw Hh Hr. unfold pnw__MPEG4_prepare_sequence_header. wp_simp.
  assert (Hlen : (length (vol_bits pr level w ht res) <= 240)%nat).
  { unfold vol_bits, vol_head, vol_tail. rewrite !length_app, !bits_of_length. unfold table.
    destruct pr; cbn [decide bool_decide]; vm_compute; repeat constructor. }
  eapply wp_mono; [apply (header_holds (base + 252) (set_hdr base s)); [cbn; lia|apply vol_writes|done|done|]|].
  - eapply (fits_cost _ _ _ 4); [|lia|cbn; lia]. unfold cost, vol_ops. cbn [map op_cost list_sum foldr]. lia.
  - cbv beta. intros _ s' _ (Ho & _ & Hk). split; [done|]. apply holds_read in Ho. eexists _, _. split; [exact Ho|].
    rewrite emit_run by done. unfold ops_bits, vol_ops. cbn [emit rev map concat app op_bits].
    change (is_raw ELEMENT_STARTCODE_RAWDATA) with true. cbn [app]. by apply read_vol_bits.
Qed.

(** * The header of a group of blocks of H.263 *)

Lemma gob_writes n id :
  writes_from [] (H263_writebits_GOBSliceHeader n id)
    [Token ELEMENT_STARTCODE_RAWDATA; Put (bits_of 17 1 ++ bits_of 5 n ++ bits_of 2 id); Token ELEMENT_SLICEQSCALE].
Proof.
  unfold H263_writebits_GOBSliceHeader. apply from_token. apply from_more; [hh_atom|intros _].
  apply from_more; [hh_atom|intros _]. apply from_group; [hh_atom|intros _]. apply from_writes, token_writes.
Qed.
