(* ===== verification/HostHeaderFlaws.v ===== *)
(** What the writer of headers gets wrong or leaves to its callers: examples.

    A level that the stream confuses with another, a width that loses a bit, an index of
    an element out of the array, and the field of MPEG-4 that is too wide for the function
    that writes it: [vop_header_undefined] says for which time resolutions. *)
From Stdlib Require Import ZifyNat.
From stdpp Require Import list.
From S2P Require Import Prelude HostHeader HostHeaderSpec H264Syntax H264Headers MpegHeaders.

#[local] Abbreviation W := (M unit HW).

(** ** Levels 1.1 and 1b

    Both have the value 11, so that the flag of level 1b is set at level 1.1 as well. *)
Lemma level_11_is_1b base w ht f v c pr :
  pnw__H264_prepare_sequence_header base w ht f v c 11 pr = pnw__H264_prepare_sequence_header base w ht f v c 111 pr.
Proof. done. Qed.

Example level_11_flag : has (sps_constraints (sps_of (sequence_params 11 9 0 no_vui 11 6) example_crop)) (bit 4) = true.
Proof. vm_compute. reflexivity. Qed.

(** ** Arithmetic coding

    A P slice lacks [cabac_init_idc], which the picture parameters announce: the decoder
    reads another quantiser. *)
Example cabac_misread :
  let fill := fun t => match t with ELEMENT_SQP => se_bits 3 | _ => [] end in
  let els := rev (run (slice_ops (slice_params false 1 7 3 false false false) 0) []) in
  match read_slice (sps_of (sequence_params 11 9 0 no_vui 30 6) example_crop) (pps_of true 0 0) (emit fill els) tt with
  | Done sl _ _ => sl_qp_delta sl <> 3
  | _ => True
  end.
Proof. vm_compute. done. Qed.

(** ** The width of H.263

    A field of nine bits receives eight: pictures of 384 and 1408 columns have the same
    header. *)
Lemma h263_width_loses_a_bit base tr ty rate ht :
  pnw__H263_prepare_picture_header base tr ty 7 rate 1408 ht = pnw__H263_prepare_picture_header base tr ty 7 rate 384 ht.
Proof. done. Qed.

(** ** The index of an element

    The test of the index precedes its increment: bits that open a seventeenth element are
    out of the array of pointers. *)
Definition many_bits (tokens bytes : nat) : W unit :=
  header (for_each (seq 0 tokens) (fun _ => pnw__insert_element_token ELEMENT_RAWDATA) ;;
          for_each (seq 0 bytes) (fun _ => pnw__write_upto8bits_elements 255 8)).

Example element_index_overruns :
  (match many_bits 16 15 blank tt with Done _ _ _ => true | _ => false end) = true /\
  (match many_bits 16 16 blank tt with Undef _ => true | _ => false end) = true.
Proof. split; vm_compute; reflexivity. Qed.

(** ** The time increment of MPEG-4 *)

(** [m] does something undefined, run on these elements with room for two more. *)
Definition goes_wrong {A} (els : list elem) (m : W A) : Prop :=
  forall base lim s h, Rep base lim s els -> (base + 4 + 60 <= lim)%nat -> (length els <= 3)%nat -> m s h = Undef h.

Lemma wrong_after {A B} els (m : W A) (k : A -> W B) ops :
  writes m ops -> legal (cur_raw els) ops = true -> (length (run ops els) <= 3)%nat ->
  (forall a, goes_wrong (run ops els) (k a)) -> goes_wrong els (m ≫= k).
Proof.
  intros Hm Hl Hn Hk base lim s h HR Hlim _.
  destruct (wp_done _ _ _ _ (Hm base lim s h els HR ltac:(split; lia) Hl)) as (a & s' & h' & E & HR' & _).
  rewrite (run_bind _ _ _ _ _ _ _ E). destruct h, h'. by apply (Hk a base lim).
Qed.

Lemma wrong_first {A B} els (m : W A) (k : A -> W B) : goes_wrong els m -> goes_wrong els (m ≫= k).
Proof. intros Hm base lim s h HR Hlim Hn. unfold mbind, M_bind. by rewrite (Hm base lim s h). Qed.

(** More than eight bits in one call. *)
Lemma wide_write_wrong els v n : cur_raw els = true -> 8 < n < 2 ^ 16 -> goes_wrong els (pnw__write_upto8bits_elements v n).
Proof.
  intros Hr Hn base lim s h HR Hlim Hl. unfold pnw__write_upto8bits_elements, uint16. rewrite Z.mod_small by lia.
  cbn [write_upto8bits]. rewrite (proj2 (Z.eqb_neq n 0)) by lia.
  assert (Hf : fits base lim els) by (split; lia).
  destruct (wp_done get_Elements (fun a s' _ => a = index els /\ s' = s) s h) as (a & s' & h' & E & -> & ->).
  { by eapply wp_get_Elements. }
  rewrite (run_bind _ _ _ _ _ _ _ E). destruct h, h'. destruct els as [|e r]; [done|]. cbn [index length] in *.
  rewrite (proj2 (Z.leb_gt MAXNUMBERELEMENTS _)) by (unfold MAXNUMBERELEMENTS; lia).
  by rewrite (proj2 (Z.ltb_lt 8 n)) by lia.
Qed.

Lemma vop_wrong coded increment range ty res : 257 <= res <= 2 ^ 16 ->
  goes_wrong [] (pnw__MPEG4_writebits_VOP_header coded increment range ty res).
Proof.
  intros Hres. unfold pnw__MPEG4_writebits_VOP_header. rewrite (proj2 (Z.eqb_neq res 0)), andb_false_r by lia.
  rewrite uint32_id, Bits2Code_spec by lia. cbv zeta.
  assert (Hl : 8 <= Z.log2 (res - 1) <= 16).
  { split; [change 8 with (Z.log2 256)|change 16 with (Z.log2 (2 ^ 16))]; apply Z.log2_le_mono; lia. }
  apply (wrong_after _ _ _ [Token ELEMENT_STARTCODE_RAWDATA]); [apply token_writes|done|cbn; lia|intros _].
  apply (wrong_after _ _ _ [Put (bits_of 32 438)]); [apply (write32_writes 438 32); lia|done|cbn; lia|intros _].
  apply (wrong_after _ _ _ [Put (bits_of 2 ty)]); [apply (write8_writes ty 2); lia|done|cbn; lia|intros _].
  destruct (_ && _).
  - apply (wrong_after _ _ _ [Put (bits_of 2 2)]); [apply (write8_writes 2 2); lia|done|cbn; lia|intros _].
    apply (wrong_after _ _ _ [Put (bits_of 1 1)]); [apply (write8_writes 1 1); lia|done|cbn; lia|intros _].
    apply wrong_first, wide_write_wrong; [done|lia].
  - apply (wrong_after _ _ _ [Put (bits_of 1 0)]); [apply (write8_writes 0 1); lia|done|cbn; lia|intros _].
    apply (wrong_after _ _ _ [Put (bits_of 1 1)]); [apply (write8_writes 1 1); lia|done|cbn; lia|intros _].
    apply wrong_first, wide_write_wrong; [done|lia].
Qed.

(** The header of a picture of MPEG-4 is undefined behaviour at every time resolution from
    257 on: the increment needs nine bits or more, and is written by a call that shifts by
    eight less that number. *)
Theorem vop_header_undefined base coded increment range ty res s h :
  (base + 64 <= length (mem s))%nat -> 257 <= res <= 2 ^ 16 ->
  pnw__MPEG4_prepare_vop_header base coded increment range ty res s h = Undef h.
Proof.
  intros Hm Hres. unfold pnw__MPEG4_prepare_vop_header, header. run_simp.
  destruct (wp_done (set_Elements ELEMENTS_EMPTY) (fun _ s' _ => s' = set_mem (put32 (mem s) base ELEMENTS_EMPTY) (set_hdr base s))
    (set_hdr base s) h) as (a & s1 & h1 & E & ->); [apply wp_set_Elements; [cbn; lia|done|done]|].
  rewrite (run_bind _ _ _ _ _ _ _ E). run_simp. destruct h, h1.
  eapply (wrong_first [] _ _ (vop_wrong coded (uint8 increment) range ty res Hres) base (base + 64)%nat); [|lia|cbn; lia].
  eapply (Rep_empty _ _ (set_hdr base s)); cbn; [lia|done..].
Qed.

(** ** The time of a picture of MPEG-4

    Eight bits of the time are passed on: the picture of tick 300, at 30 to the second,
    is said to be 14 ticks past a second, and not to start one. *)
Theorem vop_time_truncated fill base coded range ty s h :
  (base + 252 <= length (mem s))%nat -> 0 <= ty < 4 ->
  wp False (pnw__MPEG4_prepare_vop_header base coded 300 range ty 30)
    (fun _ s' _ => exists els r, read_header (mem s') base = Some els /\
       read_vop 30 (emit fill els) tt = Done (ty, 0, 14, Z.b2z coded) r tt) s h.
Proof.
  intros Hm Ht. eapply wp_mono; [apply (vop_decodes fill); (done || lia)|]. cbv beta.
  intros _ s' h' (_ & els & r & He & Hv). by exists els, r.
Qed.

(** With one tick to the second, tick 1 is a second later than tick 0 and is not marked. *)
Theorem vop_first_second fill base coded range ty s h :
  (base + 252 <= length (mem s))%nat -> 0 <= ty < 4 ->
  wp False (pnw__MPEG4_prepare_vop_header base coded 1 range ty 1)
    (fun _ s' _ => exists els r, read_header (mem s') base = Some els /\
       read_vop 1 (emit fill els) tt = Done (ty, 0, 0, Z.b2z coded) r tt) s h.
Proof.
  intros Hm Ht. eapply wp_mono; [apply (vop_decodes fill); (done || lia)|]. cbv beta.
  intros _ s' h' (_ & els & r & He & Hv). by exists els, r.
Qed.
